(* ===== verification/_CoqProject ===== *)
-Q . S2P
Prelude.v
GoStd.v
Monad.v
EntSchema.v
Sqlgraph.v
EntQuery.v
EntMutation.v
Config.v
Status.v
Store.v
Memdb.v
Backend.v
Http.v
Logic.v
StoreAtomic.v
EntSpec.v
StoreReads.v
Wf.v
EntLoad.v
EntScan.v
EntWhere.v
EntChange.v
EntMutations.v
EntUpdate.v
StoreOrg.v
StoreProject.v
StoreDelete.v
StoreEvents.v
StoreStatus.v
StoreUpsert.v
StoreCleanup.v
StoreInv.v
StoreLog.v
StoreShared.v
Auth.v
Api.v
AuthSpec.v
ApiGuard.v
ApiAnswers.v
ApiScope.v
ApiOrg.v
ApiEvents.v
TenancyProcess.v
TenancyProcessInv.v
Jwt.v
Keycloak.v
KeycloakSpec.v
KeycloakDelete.v
TenantRoles.v
KtcProcess.v
KtcProcessSpec.v
Base64.v
Bootstrap.v
BootstrapSpec.v
BootstrapRun.v
Retry.v
Secrets.v
SecretsSpec.v
AuthService.v
AuthServiceSpec.v
ResolverSpec.v
SideServers.v
ComponentStatus.v
ComponentStatusSpec.v
CertBase.v
CertFiles.v
CertACM.v
CertDNS.v
CertServer.v
CertFilesSpec.v
CertKeeps.v
CertACMSpec.v
CertDNSSpec.v
Sample.v
SampleCluster.v
WitnessStore.v
WitnessTenant.v
WitnessServices.v
WitnessCert.v
WitnessProcess.v
