(* ===== verification/Prelude.v ===== *)
(** * orch-utils: a verification development

    The repository holds the services behind the tenants of an edge orchestrator.  This
    development models their Go code definition by definition and proves what makes them
    correct.  Names of definitions are the code's; a name of a method [T.m] is [T_m] or [m].

    ** The program, and the files that model it

    - tenancy-manager: a REST API over orgs and projects in PostgreSQL.
      [EntSchema] has the rows and the constraints of internal/ent/schema and
      migrate/schema.go, [Sqlgraph] the SQL layer the generated client calls (a parameter with
      laws) and the world of a connection, [EntQuery], [EntMutation] and [EntScan] the
      generated client (internal/ent) as far as the program uses it, [EntWhere] the conditions
      of its queries, [EntChange] and [EntMutations] its mutations and [EntUpdate] its update
      builders whole; [Config], [Status] and [Store] are internal/config and internal/store,
      statement by statement.  [Backend] is the interface of the store to its clients, [Http]
      requests, JSON and responses, [Auth] and [Api] internal/api (middlewares, handlers,
      router), [Jwt] its token validator, [TenancyProcess] cmd/main.go.  [Base64] and
      [Bootstrap] are internal/bootstrap, which creates the first administrator in Keycloak
      and Kubernetes.
    - keycloak-tenant-controller: [Keycloak] is pkg/keycloak and the event handler of
      pkg/tdmclient, which give every tenant its roles and groups; [KtcProcess] the session
      with Vault (pkg/auth) and the process.
    - auth-service: [AuthService], token checks by roles that follow the projects, and the
      resolution of project names through the tenancy manager.
    - secrets: [Retry] (internal/retry) and [Secrets], the set-up of Vault.
    - cert-synchronizer (pkg/apiserver/server.go): [CertBase], [CertFiles], [CertACM],
      [CertDNS], [CertServer].
    - component-status, token-fs, aws-sm-proxy: [ComponentStatus], [SideServers].

    The state of a part is a record ([World], [KWorld], [Ktc], the worlds of [Bootstrap],
    [Secrets] and [CertBase]); code that changes it and may fail is a function in [EM] of
    [Monad], whose specifications are stated with [wp].  Libraries, servers, clocks and random
    sources are classes of operations; what is relied on of them is a second class of laws
    (for instance [DriverLaws]: SQL under READ COMMITTED; [GocloakLaws]: a creation may be
    acknowledged and lost).  [Memdb], [Sample], [SampleCluster] and the Witness files implement
    every class and run every theorem that has a hypothesis.

    A COMMIT may fail in two ways: the server refuses it, or it carries it out and the answer
    is lost ([lost_commit] of [Logic]); the caller gets an error in both, and the specifications
    of transactions say what is left in each ([all_or_nothing]).  Where the specification of an
    operation reads the database before and after, [Quiet] says that no other connection
    commits between its statements; [StoreAtomic], [StoreUpsert], [StoreShared] and the theorem
    on the log of [TenancyProcessInv] do without it.

    ** What the theorems show

    - The database.  [EntScan]: the columns of a row are read into an entity without a type
      error, and what is stored is what is read.  [EntWhere]: every predicate is the test
      its name says, on any database that evaluates conditions by the laws of SQL
      ([SQLWhere]).  [EntMutations]: a mutation is a map of changes ([mutation_refines])
      whose old entity is queried once ([old_field_once]).  [EntUpdate]: an update writes
      the cells that the map says ([update_saves]), for one entity in a transaction of its
      own where none is open ([local_tx]), and is the builder the store uses
      ([short_updates]).  [Wf]: every statement keeps the constraints of the schema.
      [StoreOrg], [StoreProject], [StoreDelete], [StoreEvents], [StoreStatus]: what each
      operation does on each branch.  [StoreAtomic]: a failed transaction leaves nothing,
      whatever other connections do, unless its COMMIT was carried out and the answer lost.
      [StoreUpsert]: the upsert of a status is one step among other connections.
      [StoreCleanup]: what hard deletion may remove.  [StoreInv]: the event log announces
      exactly the rows there are, and active projects have active orgs, over any sequence of
      operations.  [TenancyProcessInv]: the same of the running process, proved for any
      store that is a [MaintainingStore]; and the log of several instances on one database
      is exact: [StoreLog] and [StoreShared] follow a transaction by what it holds and owes
      while others commit within its row locks ([SharedLog]), over the judgement of
      [StoreReads].
    - [Config]: the log of the configuration tells nothing of PGPASSWORD.
    - The API.  [AuthSpec] reads the role patterns and checks; [ApiGuard]: no effect before
      authorization; [ApiScope]: a caller without the admin role sees and changes projects of
      its own orgs only; [ApiAnswers]: every request has a well-formed answer; [ApiOrg],
      [ApiEvents]: creation, and polling that misses no event unless a query fails; [Jwt]: only asymmetric
      signatures by a known key.
    - The controller.  [KeycloakSpec], [KeycloakDelete]: what creation adds and deletion
      removes, and that creation succeeds at once on a server that works ([WorkingServer]); [TenantRoles]: the roles it
      makes are those the API reads; [KtcProcessSpec]: the Vault session is always closed, and
      the realm after any events.
    - [BootstrapSpec], [BootstrapRun]: passwords, and a run that returns and, when it succeeds,
      leaves the user in its groups, with the password that [provisioned] says;
      [SecretsSpec]: the keys are stored before they are used, and when the retries end; [AuthServiceSpec]: requests are answered by the last update, for every
      interleaving with the stream; [ResolverSpec]: a resolved id is a project of the caller.
    - [CertFilesSpec], [CertACMSpec], [CertDNSSpec], and the answers, over the judgement of
      [CertKeeps]: waiting ends, chains are split and joined, which certificates and records
      are touched, and that answers have no markup of the request (the multiplexer of
      net/http, which redirects what is not in canonical form, is in [Http]).
    - [ComponentStatusSpec]: the JSON and [IsFeatureInstalled] agree on every path.
    - [ApiOrg], [WitnessStore], [WitnessProcess] and single theorems of the other files state where the code
      does not do what it means to.

    ** Bounds and fuel

    Loops over lists are structural.  [createRolesAndGroups] counts its eleven attempts as the
    code does.  [poll_idle] has fuel for 64 rounds: five minutes at one round per five seconds
    are 60 ([Run_returns]).  [wait_files] has as many rounds as its time-out has intervals
    ([wait_for_files_ends]).  [UntilItSucceeds] has fuel because it may never end:
    [Configure_returns] says how much is enough when the servers answer in the end, and
    [Configure_spec] in which case none is: when a secret vault-keys is in the way.  Numbers
    of 64 bits wrap ([wrap64]) or are bounded by the parsers that read them.

    ** Not modelled

    Opening connections, flags, signals, TLS settings, log lines and shutdowns.  Concurrency:
    a request of the tenancy manager runs whole, except where [Runtime] lets other connections
    commit between its statements; of locks there is what [SharedLog] says, no waiting and no
    deadlock.  Of the generated client: bulk
    builders, hooks and aggregation, which nothing calls, and what an update makes of the edges to
    children ([EntUpdate] says what is asked for).  [Config] parses URLs but for the
    syntax of hosts; [validateURL] has the parser as a parameter ([url_ParseRequestURI]).  Mage files and Helm charts. *)

From stdpp Require Export base tactics list strings gmap sorting.
From Stdlib Require Export ZArith Lia.

Global Set Default Goal Selector "!".
Open Scope string_scope.
Open Scope list_scope.

(** The development's hint database: lemmas that close the routine side
    conditions of the component files. *)
Create HintDb orch.

(** ** Tactics *)

(** Split every conjunction, existential and pair of the context. *)
Ltac destr_all :=
  repeat match goal with
  | H : _ ∧ _ |- _ => destruct H
  | H : ∃ _, _ |- _ => destruct H
  | p : _ * _ |- _ => destruct p
  end.

(** Case analysis on the innermost [match]/[if] of the goal, remembering the
    equation, then clean up the equalities. *)
Ltac case_goal :=
  match goal with
  | |- context [match ?x with _ => _ end] =>
      lazymatch x with
      | context [match _ with _ => _ end] => fail
      | _ => destruct x eqn:?
      end
  end; simplify_eq/=.

Ltac case_hyp H :=
  match type of H with
  | context [match ?x with _ => _ end] =>
      lazymatch x with
      | context [match _ with _ => _ end] => fail
      | _ => destruct x eqn:?
      end
  end; simplify_eq/=.

(** Turn boolean tests into propositions. *)
Ltac bools :=
  repeat match goal with
  | H : _ && _ = true |- _ => apply andb_true_iff in H as [? ?]
  | H : _ && _ = false |- _ => apply andb_false_iff in H
  | H : _ || _ = true |- _ => apply orb_true_iff in H
  | H : _ || _ = false |- _ => apply orb_false_iff in H as [? ?]
  | H : negb _ = true |- _ => apply negb_true_iff in H
  | H : negb _ = false |- _ => apply negb_false_iff in H
  | H : bool_decide _ = true |- _ => apply bool_decide_eq_true in H
  | H : bool_decide _ = false |- _ => apply bool_decide_eq_false in H
  | H : Is_true _ |- _ => apply Is_true_true in H
  end.

(** ** Lists *)

(** Boolean filter: the rows a predicate selects, in table order. *)
Fixpoint select {A} (p : A → bool) (l : list A) : list A :=
  match l with
  | [] => []
  | x :: l => if p x then x :: select p l else select p l
  end.

Section select.
Context {A : Type}.
Implicit Types (p q : A → bool) (l : list A).

Lemma elem_of_select p l x : x ∈ select p l ↔ x ∈ l ∧ p x = true.
Proof.
  induction l as [|y l IH]; simpl; [set_solver|].
  destruct (p y) eqn:Hy; rewrite ?elem_of_cons, IH; [naive_solver|].
  split; [naive_solver|]. intros [[->|?] ?]; [congruence|done].
Qed.

Lemma select_app p l k : select p (l ++ k) = select p l ++ select p k.
Proof. induction l as [|y l IH]; simpl; [done|]. destruct (p y); by rewrite IH. Qed.

Lemma select_ext p q l : (∀ x, x ∈ l → p x = q x) → select p l = select q l.
Proof.
  induction l as [|y l IH]; intros H; simpl; [done|].
  rewrite (H y) by set_solver. rewrite IH by set_solver. done.
Qed.

Lemma select_none p l : (∀ x, x ∈ l → p x = false) → select p l = [].
Proof.
  induction l as [|y l IH]; intros H; simpl; [done|].
  rewrite (H y) by set_solver. apply IH. set_solver.
Qed.

Lemma select_all p l : (∀ x, x ∈ l → p x = true) → select p l = l.
Proof.
  induction l as [|y l IH]; intros H; simpl; [done|].
  rewrite (H y) by set_solver. f_equal. apply IH. set_solver.
Qed.

Lemma select_select p q l : select p (select q l) = select (λ x, q x && p x) l.
Proof.
  induction l as [|y l IH]; simpl; [done|].
  destruct (q y); simpl; [destruct (p y)|]; by rewrite IH.
Qed.

Lemma select_perm p l k : l ≡ₚ k → select p l ≡ₚ select p k.
Proof.
  induction 1 as [|x l k _ IH|x y l|l1 l2 l3 _ IH1 _ IH2]; simpl; [done|..].
  - destruct (p x); [by apply Permutation_cons|done].
  - destruct (p x), (p y); try done. apply Permutation_swap.
  - by etrans.
Qed.

Lemma select_length p l : (length (select p l) ≤ length l)%nat.
Proof. induction l; simpl; [done|]. destruct (p a); simpl; lia. Qed.

Lemma select_nil_inv p l x : select p l = [] → x ∈ l → p x = false.
Proof.
  intros Hs Hx. destruct (p x) eqn:Hp; [|done].
  assert (x ∈ select p l) as Hin by (by apply elem_of_select).
  rewrite Hs in Hin. set_solver.
Qed.

Lemma NoDup_fmap_select {B} (f : A → B) p l : NoDup (f <$> l) → NoDup (f <$> select p l).
Proof.
  induction l as [|y l IH]; simpl; [done|].
  rewrite NoDup_cons. intros [Hn Hd]. destruct (p y); [|auto].
  rewrite fmap_cons, NoDup_cons. split; [|auto].
  rewrite list_elem_of_fmap in *. intros (z & ? & Hz). apply Hn.
  exists z. apply elem_of_select in Hz as [? _]. done.
Qed.

(** A key that occurs once selects at most one row. *)
Lemma select_key_unique {B} `{EqDecision B} (f : A → B) l x :
  NoDup (f <$> l) → x ∈ l → select (λ y, bool_decide (f y = f x)) l = [x].
Proof.
  induction l as [|y l IH]; simpl; [set_solver|].
  rewrite NoDup_cons, list_elem_of_fmap. intros [Hn Hd] Hin.
  case_bool_decide as Heq.
  - assert (y = x) as ->.
    { apply elem_of_cons in Hin as [->|Hin]; [done|]. exfalso. apply Hn. eauto. }
    f_equal. apply select_none. intros z Hz. apply bool_decide_eq_false.
    intros ?. apply Hn. eauto.
  - apply IH; [done|]. apply elem_of_cons in Hin as [->|?]; [done|done].
Qed.

Lemma NoDup_fmap_inj_eq {B} (f : A → B) l x y :
  NoDup (f <$> l) → x ∈ l → y ∈ l → f x = f y → x = y.
Proof.
  induction l as [|z l IH]; simpl; [set_solver|].
  rewrite NoDup_cons, list_elem_of_fmap. intros [Hn Hd] Hx Hy Heq.
  apply elem_of_cons in Hx as [->|Hx]; apply elem_of_cons in Hy as [->|Hy]; eauto.
  - exfalso. apply Hn. eauto.
  - exfalso. apply Hn. eauto.
Qed.
End select.

(** Selecting a projection of a list mapped over unchanged keys. *)
Lemma select_fmap {A B} (p : B → bool) (f : A → B) (l : list A) :
  select p (f <$> l) = f <$> select (λ x, p (f x)) l.
Proof.
  induction l as [|x l IH]; [done|]. rewrite fmap_cons. simpl. rewrite IH.
  by destruct (p (f x)).
Qed.

Lemma NoDup_snoc {A} (l : list A) x : NoDup l → x ∉ l → NoDup (l ++ [x]).
Proof. intros Hl Hx. apply NoDup_app. split_and!; [done|set_solver|apply NoDup_singleton]. Qed.

Lemma Sorted_weaken {A} (P Q : A → A → Prop) (l : list A) :
  (∀ x y, P x y → Q x y) → Sorted P l → Sorted Q l.
Proof.
  intros HPQ. induction 1 as [|x l _ IH Hd]; constructor; [done|].
  destruct Hd; constructor; auto.
Qed.

#[export] Hint Resolve NoDup_fmap_select select_perm : orch.
