(* ===== verification/GoStd.v ===== *)
(** * Go's standard library, as the program uses it

    The functions of packages [strings], [strconv], [errors] and [fmt] that the
    modelled code calls, on byte strings (Rocq's [string] is a list of 8-bit
    characters, Go's [string] a sequence of bytes).  Case mapping is the ASCII
    one; [quote] prints the printable ASCII characters, the escapes of
    [strconv.Quote] for the control characters, and keeps the bytes above 127 as
    they are (the printable runes of valid UTF-8).

    [error] is the Go interface [error] restricted to the concrete types the
    program builds: plain messages, [fmt.Errorf] with one [%w], and the four
    error types of the generated package ent
    (tenancy-manager/internal/ent/ent.go). *)

From S2P Require Import Prelude.
From Stdlib Require Import Ascii.

Implicit Types (s t : string) (c : ascii).

(** ** Characters *)

Definition code c : nat := nat_of_ascii c.
Definition in_range (lo hi : ascii) c : bool := (code lo <=? code c)%nat && (code c <=? code hi)%nat.
Definition is_upper c : bool := in_range "A" "Z" c.
Definition is_lower c : bool := in_range "a" "z" c.
Definition is_digit c : bool := in_range "0" "9" c.
Definition is_space c : bool :=
  in_range "009" "013" c || Ascii.eqb c " ".
Definition lower_char c : ascii := if is_upper c then ascii_of_nat (code c + 32) else c.
Definition upper_char c : ascii := if is_lower c then ascii_of_nat (code c - 32) else c.

(** ** Package strings *)

Fixpoint map_string (f : ascii → ascii) s : string :=
  match s with
  | EmptyString => EmptyString
  | String c s => String (f c) (map_string f s)
  end.

Definition ToLower s : string := map_string lower_char s.
Definition ToUpper s : string := map_string upper_char s.
Definition EqualFold s t : bool := String.eqb (ToLower s) (ToLower t).

Definition HasPrefix s (p : string) : bool := String.prefix p s.

Fixpoint str_rev_app s t : string :=
  match s with
  | EmptyString => t
  | String c s => str_rev_app s (String c t)
  end.
Definition str_rev s : string := str_rev_app s EmptyString.

Definition HasSuffix s (p : string) : bool := String.prefix (str_rev p) (str_rev s).

Fixpoint Contains s (sub : string) : bool :=
  String.prefix sub s ||
  match s with
  | EmptyString => false
  | String _ s => Contains s sub
  end.

(** Drop the first [n] bytes. *)
Fixpoint str_drop (n : nat) s : string :=
  match n, s with
  | S n, String _ s => str_drop n s
  | _, _ => s
  end.

Definition TrimSuffix s (p : string) : string :=
  if HasSuffix s p then str_rev (str_drop (String.length p) (str_rev s)) else s.

Fixpoint trim_left (p : ascii → bool) s : string :=
  match s with
  | EmptyString => EmptyString
  | String c s' => if p c then trim_left p s' else s
  end.
Definition TrimFunc (p : ascii → bool) s : string := str_rev (trim_left p (str_rev (trim_left p s))).
Definition TrimSpace s : string := TrimFunc is_space s.

(** [strings.ReplaceAll] for a non-empty [old] (every call of the program
    replaces a constant); [skip] counts the bytes of a match still to pass. *)
Fixpoint replace_from (skip : nat) s (old new : string) : string :=
  match s with
  | EmptyString => EmptyString
  | String c s' =>
      match skip with
      | S k => replace_from k s' old new
      | O => if String.prefix old s
             then new +:+ replace_from (String.length old - 1) s' old new
             else String c (replace_from 0 s' old new)
      end
  end.
Definition ReplaceAll s (old new : string) : string := replace_from 0 s old new.

(** [strings.Split] on a one-byte separator. *)
Fixpoint split_from s (sep : ascii) (acc : string) : list string :=
  match s with
  | EmptyString => [str_rev acc]
  | String c s => if Ascii.eqb c sep then str_rev acc :: split_from s sep EmptyString
                  else split_from s sep (String c acc)
  end.
Definition Split s (sep : ascii) : list string := split_from s sep EmptyString.

(** [strings.SplitN(s, sep, 2)] on a one-byte separator. *)
Fixpoint split2_from s (sep : ascii) (acc : string) : list string :=
  match s with
  | EmptyString => [str_rev acc]
  | String c s => if Ascii.eqb c sep then [str_rev acc; s]
                  else split2_from s sep (String c acc)
  end.
Definition SplitN2 s (sep : ascii) : list string := split2_from s sep EmptyString.

Fixpoint Join (l : list string) (sep : string) : string :=
  match l with
  | [] => EmptyString
  | [s] => s
  | s :: l => s +:+ sep +:+ Join l sep
  end.

(** Every character of a string satisfies a test. *)
Fixpoint all_chars (p : ascii → bool) (s : string) : bool :=
  match s with EmptyString => true | String c s => p c && all_chars p s end.
Lemma all_chars_app p s t : all_chars p (s +:+ t) = all_chars p s && all_chars p t.
Proof.
  induction s as [|c s IH]; [done|]. change (String c s +:+ t) with (String c (s +:+ t)). simpl.
  by rewrite IH, andb_assoc.
Qed.

(** The longest prefix of characters that satisfy a test, and what follows. *)
Fixpoint span (p : ascii → bool) (s : string) : string * string :=
  match s with
  | EmptyString => (EmptyString, EmptyString)
  | String c s' => if p c then let '(a, b) := span p s' in (String c a, b) else (EmptyString, s)
  end.
Lemma span_spec p s : let '(a, b) := span p s in s = a +:+ b ∧ all_chars p a = true.
Proof.
  induction s as [|c s IH]; simpl; [done|].
  destruct (p c) eqn:Hc; simpl; [|done].
  destruct (span p s) as [a b]. destruct IH as [-> Hp]. simpl. by rewrite Hc, Hp.
Qed.
Lemma span_app p a c b : all_chars p a = true → p c = false → span p (a +:+ String c b) = (a, String c b).
Proof.
  intros Ha Hc. induction a as [|d a IH].
  - change (String.append "" (String c b)) with (String c b). simpl. by rewrite Hc.
  - change (String.append (String d a) (String c b)) with (String d (a +:+ String c b)).
    simpl in *. apply andb_true_iff in Ha as [Hd Ha]. by rewrite Hd, IH by done.
Qed.

(** The rest of [s] after the prefix [p]. *)
Fixpoint strip (p s : string) : option string :=
  match p, s with
  | EmptyString, _ => Some s
  | String c p, String d s => if Ascii.eqb c d then strip p s else None
  | _, _ => None
  end.
Lemma strip_spec p s t : strip p s = Some t ↔ s = p +:+ t.
Proof.
  revert s. induction p as [|c p IH]; intros s.
  - change ("" +:+ t) with t. simpl. naive_solver.
  - change (String c p +:+ t) with (String c (p +:+ t)). destruct s as [|d s]; simpl; [naive_solver|].
    destruct (Ascii.eqb_spec c d) as [->|Hne]; [rewrite IH; naive_solver|naive_solver].
Qed.

#[global] Arguments strip : simpl never.

(** Concatenation, and substrings of a concatenation. *)
Lemma str_app_assoc s t (u : string) : s +:+ (t +:+ u) = (s +:+ t) +:+ u.
Proof. induction s as [|c s IH]; [done|]. exact (f_equal (String c) IH). Qed.
Lemma str_len_app s t : String.length (s +:+ t) = (String.length s + String.length t)%nat.
Proof. induction s as [|c s IH]; [done|]. change (String c s +:+ t) with (String c (s +:+ t)). simpl. by rewrite IH. Qed.
Lemma str_app_nil s : s +:+ "" = s.
Proof. induction s as [|c s IH]; [done|]. exact (f_equal (String c) IH). Qed.
Lemma str_rev_app_spec s t : str_rev_app s t = str_rev s +:+ t.
Proof.
  unfold str_rev. revert t. induction s as [|c s IH]; intros t; [done|]. cbn [str_rev_app].
  rewrite (IH (String c t)), (IH (String c "")), <- str_app_assoc. done.
Qed.
Lemma str_rev_snoc c s : str_rev (String c s) = str_rev s +:+ String c EmptyString.
Proof. unfold str_rev at 1. cbn [str_rev_app]. apply str_rev_app_spec. Qed.
Lemma prefix_app_l (p : string) s t : String.prefix p s = true → String.prefix p (s +:+ t) = true.
Proof.
  revert s. induction p as [|c p IH]; intros s; [intros _; by destruct (s +:+ t)|]. destruct s as [|d s]; [done|].
  change (String d s +:+ t) with (String d (s +:+ t)). simpl.
  destruct (ascii_dec c d); [apply IH|done].
Qed.
Lemma Contains_app_l s t (sub : string) : Contains s sub = true → Contains (s +:+ t) sub = true.
Proof.
  induction s as [|c s IH].
  - destruct sub; [by destruct t|done].
  - change (String c s +:+ t) with (String c (s +:+ t)). cbn [Contains].
    rewrite !orb_true_iff. intros [Hp|Hc]; [left; exact (prefix_app_l _ (String c s) t Hp)|right; by apply IH].
Qed.
Lemma Contains_self s : Contains s s = true.
Proof.
  assert (String.prefix s s = true) as Hp.
  { induction s as [|c s IH]; [done|]. simpl. by destruct (ascii_dec c c). }
  destruct s; [done|]. cbn [Contains]. by rewrite Hp.
Qed.
Lemma Contains_app_r s t (sub : string) : Contains t sub = true → Contains (s +:+ t) sub = true.
Proof.
  intros Ht. induction s as [|c s IH]; [done|].
  change (String c s +:+ t) with (String c (s +:+ t)). cbn [Contains]. by rewrite IH, orb_true_r.
Qed.

(** ** Package strconv *)

(** The value of a non-empty string of decimal digits. *)
Fixpoint digits_val s (acc : Z) : option Z :=
  match s with
  | EmptyString => Some acc
  | String c s => if is_digit c then digits_val s (acc * 10 + Z.of_nat (code c - 48))%Z else None
  end.

Definition int64_min : Z := (- 2 ^ 63)%Z.
Definition int64_max : Z := (2 ^ 63 - 1)%Z.

(** [strconv.ParseInt(s, 10, 64)]: an optional sign, at least one digit, and a
    value that fits in 64 bits; [None] is a non-nil error. *)
Definition ParseInt64 s : option Z :=
  let '(neg, body) :=
    match s with
    | String "-"%char s' => (true, s')
    | String "+"%char s' => (false, s')
    | _ => (false, s)
    end in
  match body with
  | EmptyString => None
  | _ => match digits_val body 0 with
         | None => None
         | Some n => let v := if neg then (- n)%Z else n in
                     if (int64_min <=? v)%Z && (v <=? int64_max)%Z then Some v else None
         end
  end.

Definition hex_digit (n : nat) : ascii :=
  if (n <? 10)%nat then ascii_of_nat (48 + n) else ascii_of_nat (87 + n).

(** One character of [strconv.Quote]. *)
Definition quote_char c : string :=
  let n := code c in
  if Ascii.eqb c (ascii_of_nat 34) then String "\" (String (ascii_of_nat 34) EmptyString)
  else if Ascii.eqb c "\" then String "\" (String "\" EmptyString)
  else if (n =? 7)%nat then "\a" else if (n =? 8)%nat then "\b"
  else if (n =? 9)%nat then "\t" else if (n =? 10)%nat then "\n"
  else if (n =? 11)%nat then "\v" else if (n =? 12)%nat then "\f"
  else if (n =? 13)%nat then "\r"
  else if (n <? 32)%nat || (n =? 127)%nat
  then "\x" +:+ String (hex_digit (n / 16)) (String (hex_digit (n mod 16)) EmptyString)
  else String c EmptyString.

Fixpoint quote_body s : string :=
  match s with
  | EmptyString => EmptyString
  | String c s => quote_char c +:+ quote_body s
  end.
Definition dquote : string := String (ascii_of_nat 34) EmptyString.
Definition quote s : string := dquote +:+ quote_body s +:+ dquote.

(** Decimal printing of a natural number ([strconv.Itoa], [%d]). *)
Fixpoint itoa_fuel (fuel n : nat) (acc : string) : string :=
  match fuel with
  | O => acc
  | S fuel => let acc := String (ascii_of_nat (48 + n mod 10)) acc in
              if (n <? 10)%nat then acc else itoa_fuel fuel (n / 10) acc
  end.
Definition itoa (n : nat) : string := itoa_fuel (S n) n EmptyString.

(** ** Errors *)

(** How the third-party SQL layer classifies a failure: a violated constraint
    ([sqlgraph.IsConstraintError]), a missing node ([*sqlgraph.NotFoundError]),
    or anything else (connection, context, syntax). *)
Inductive driver_kind := DrvConstraint | DrvNotFound | DrvOther.
#[export] Instance driver_kind_eq_dec : EqDecision driver_kind.
Proof. solve_decision. Defined.

(** The concrete error values of the program.  [errWrap pre e post] is
    [fmt.Errorf("pre%wpost", ...)] with the other verbs already printed. *)
Inductive error :=
  | errText (msg : string)
  | errWrap (pre : string) (inner : error) (post : string)
  | errDriver (kind : driver_kind) (msg : string)
  | NotFoundError (label : string)
  | NotSingularError (label : string)
  | ValidationError (name : string) (err : error)
  | ConstraintError (msg : string) (wrap : error).
#[export] Instance error_eq_dec : EqDecision error.
Proof. solve_decision. Defined.

(** The [Error()] methods. *)
Fixpoint Error (e : error) : string :=
  match e with
  | errText msg | errDriver _ msg => msg
  | errWrap pre e post => pre +:+ Error e +:+ post
  | NotFoundError label => "ent: " +:+ label +:+ " not found"
  | NotSingularError label => "ent: " +:+ label +:+ " not singular"
  | ValidationError _ e => Error e
  | ConstraintError msg _ => "ent: constraint failed: " +:+ msg
  end.

(** The [Unwrap] methods. *)
Definition Unwrap (e : error) : option error :=
  match e with
  | errWrap _ e _ | ValidationError _ e | ConstraintError _ e => Some e
  | _ => None
  end.

(** [errors.As]: is there an error of the wanted type along the chain? *)
Fixpoint errorsAs (want : error → bool) (e : error) : bool :=
  want e ||
  match e with
  | errWrap _ e _ | ValidationError _ e | ConstraintError _ e => errorsAs want e
  | _ => false
  end.

Definition IsNotFound (e : error) : bool :=
  errorsAs (λ e, match e with NotFoundError _ => true | _ => false end) e.
Definition IsNotSingular (e : error) : bool :=
  errorsAs (λ e, match e with NotSingularError _ => true | _ => false end) e.
Definition IsValidationError (e : error) : bool :=
  errorsAs (λ e, match e with ValidationError _ _ => true | _ => false end) e.
Definition IsConstraintError (e : error) : bool :=
  errorsAs (λ e, match e with ConstraintError _ _ => true | _ => false end) e.

(** [fmt.Errorf("pre%w", err)]. *)
Definition Errorf (pre : string) (e : error) : error := errWrap pre e EmptyString.

(** Wrapping never hides an error from [errors.As] unless the wrapper is itself
    of the wanted type. *)
Lemma errorsAs_wrap want pre e post :
  want (errWrap pre e post) = false → errorsAs want (errWrap pre e post) = errorsAs want e.
Proof. intros H. simpl. by rewrite H. Qed.

Lemma IsNotFound_wrap pre e post : IsNotFound (errWrap pre e post) = IsNotFound e.
Proof. by apply errorsAs_wrap. Qed.
Lemma IsConstraintError_wrap pre e post : IsConstraintError (errWrap pre e post) = IsConstraintError e.
Proof. by apply errorsAs_wrap. Qed.
#[export] Hint Rewrite IsNotFound_wrap IsConstraintError_wrap : orch.
