(* ===== verification/Monad.v ===== *)
(** * Computations with a state and errors

    Go code that mutates a state and returns [(value, error)] is a function of the
    state: [EM S A].  [wp m Q w]: running [m] in the state [w] ends with an answer
    and a state that satisfy [Q] (computations are total functions). *)

From S2P Require Import Prelude GoStd.

Definition EM (S A : Type) : Type := S → (error + A) * S.

#[export] Instance EM_ret {S} : MRet (EM S) := λ A a w, (inr a, w).
#[export] Instance EM_bind {S} : MBind (EM S) := λ A B k m w,
  match m w with
  | (inl e, w) => (inl e, w)
  | (inr a, w) => k a w
  end.
Definition fail {S A} (e : error) : EM S A := λ w, (inl e, w).
(** [v, err := m]: the error as a value. *)
Definition try {S A} (m : EM S A) : EM S (error + A) := λ w,
  let '(r, w) := m w in (inr r, w).
(** [return v, err] *)
Definition of_result {S A} (r : error + A) : EM S A := λ w, (r, w).
(** [if err != nil { return f(err) }] *)
Definition map_error {S A} (f : error → error) (m : EM S A) : EM S A := λ w,
  match m w with
  | (inl e, w) => (inl (f e), w)
  | ok => ok
  end.

Definition wp {S A} (m : EM S A) (Q : error + A → S → Prop) (w : S) : Prop :=
  Q (m w).1 (m w).2.

Section rules.
Context {S A B : Type}.
Implicit Types (m : EM S A) (k : A → EM S B) (w : S).

Lemma wp_mono m (P Q : error + A → S → Prop) w :
  wp m P w → (∀ r w', P r w' → Q r w') → wp m Q w.
Proof. unfold wp. auto. Qed.

Lemma wp_ret (a : A) (Q : error + A → S → Prop) w : Q (inr a) w → wp (mret a) Q w.
Proof. done. Qed.
Lemma wp_fail e (Q : error + A → S → Prop) w : Q (inl e) w → wp (fail e) Q w.
Proof. done. Qed.
Lemma wp_of_result r (Q : error + A → S → Prop) w : Q r w → wp (of_result r) Q w.
Proof. done. Qed.
Lemma wp_bind m k (Q : error + B → S → Prop) w :
  wp m (λ r w', match r with inl e => Q (inl e) w' | inr a => wp (k a) Q w' end) w →
  wp (m ≫= k) Q w.
Proof. unfold wp, mbind, EM_bind. by destruct (m w) as [[e|a] w']. Qed.
Lemma wp_try m (Q : error + (error + A) → S → Prop) w :
  wp m (λ r w', Q (inr r) w') w → wp (try m) Q w.
Proof. unfold wp, try. by destruct (m w). Qed.
Lemma wp_map_error f m (Q : error + A → S → Prop) w :
  wp m (λ r w', match r with inl e => Q (inl (f e)) w' | inr a => Q (inr a) w' end) w →
  wp (map_error f m) Q w.
Proof. unfold wp, map_error. by destruct (m w) as [[e|a] w']. Qed.
End rules.

(** The way in and out: what a computation returns. *)
Lemma wp_run {S A} (m : EM S A) (Q : error + A → S → Prop) w r w' : m w = (r, w') → wp m Q w ↔ Q r w'.
Proof. unfold wp. by intros ->. Qed.
Lemma wp_self {S A} (m : EM S A) (w : S) : wp m (λ r w', m w = (r, w')) w.
Proof. unfold wp. by destruct (m w). Qed.
Lemma wp_out {S A} (m : EM S A) (Q : error + A → S → Prop) (w : S) : wp m Q w → ∃ r w', m w = (r, w') ∧ Q r w'.
Proof. unfold wp. destruct (m w) as [r w']. eauto. Qed.
