(* ===== verification/EntSchema.v ===== *)
(** * The relational schema of the tenancy database

    The five tables of tenancy-manager/internal/ent (schema/*.go and the
    generated migrate/schema.go): one [Record] per entity with the columns of
    the entity struct, [DB] holding one list of rows per table, and for every
    table the constraints migrate/schema.go declares (primary key, unique
    indexes, foreign keys with NO ACTION on delete) as boolean conditions on an
    insertion or a deletion.

    Times are nanoseconds since the epoch ([Z]); a UUID is a 128-bit number. *)

From S2P Require Import Prelude GoStd.

(** ** UUIDs and times *)

Record UUID := mkUUID { uuid_val : N; uuid_bound : Is_true (uuid_val <? 2 ^ 128)%N }.

Lemma UUID_eq (u v : UUID) : uuid_val u = uuid_val v → u = v.
Proof.
  destruct u as [n Hn], v as [m Hm]; simpl. intros ->. f_equal. apply proof_irrel.
Qed.

#[export] Instance UUID_eq_dec : EqDecision UUID.
Proof.
  intros u v. destruct (decide (uuid_val u = uuid_val v)) as [H|H].
  - left. by apply UUID_eq.
  - right. by intros ->.
Defined.

Lemma uuid_of_N_bound (n : N) : Is_true (n mod 2 ^ 128 <? 2 ^ 128)%N.
Proof. apply Is_true_true, N.ltb_lt, N.mod_lt. done. Qed.
Definition uuid_of_N (n : N) : UUID := mkUUID (n mod 2 ^ 128) (uuid_of_N_bound n).
Definition uuid_Nil : UUID := uuid_of_N 0.

Lemma uuid_of_N_val (u : UUID) : uuid_of_N (uuid_val u) = u.
Proof.
  apply UUID_eq. destruct u as [n Hn]; simpl. apply N.mod_small.
  by apply N.ltb_lt, Is_true_true.
Qed.

#[export] Instance UUID_countable : Countable UUID.
Proof. exact (inj_countable' uuid_val uuid_of_N uuid_of_N_val). Defined.

Definition Time := Z.

(** ** Entities *)

Record Org := mkOrg {
  Org_ID : UUID;
  Org_Name : string;
  Org_Description : string;
  Org_CreatedAt : Time;
  Org_UpdatedAt : Time;
  Org_DeletedAt : option Time }.

Record Folder := mkFolder {
  Folder_ID : UUID;
  Folder_Name : string;
  Folder_CreatedAt : Time;
  Folder_UpdatedAt : Time;
  Folder_org_folders : UUID }.

Record Project := mkProject {
  Project_ID : UUID;
  Project_Name : string;
  Project_Description : string;
  Project_CreatedAt : Time;
  Project_UpdatedAt : Time;
  Project_DeletedAt : option Time;
  Project_folder_projects : UUID }.

Record TenancyEvent := mkTenancyEvent {
  TenancyEvent_ID : Z;
  TenancyEvent_EventType : string;
  TenancyEvent_ResourceType : string;
  TenancyEvent_ResourceID : UUID;
  TenancyEvent_ResourceName : string;
  TenancyEvent_OrgID : option UUID;
  TenancyEvent_OrgName : option string;
  TenancyEvent_FolderID : option UUID;
  TenancyEvent_CreatedAt : Time }.

Record ControllerStatus := mkControllerStatus {
  ControllerStatus_ID : Z;
  ControllerStatus_ControllerName : string;
  ControllerStatus_ResourceType : string;
  ControllerStatus_ResourceID : UUID;
  ControllerStatus_Status : string;
  ControllerStatus_Message : string;
  ControllerStatus_UpdatedAt : Time }.

#[export] Instance Org_eq_dec : EqDecision Org.
Proof. solve_decision. Defined.
#[export] Instance Folder_eq_dec : EqDecision Folder.
Proof. solve_decision. Defined.
#[export] Instance Project_eq_dec : EqDecision Project.
Proof. solve_decision. Defined.
#[export] Instance TenancyEvent_eq_dec : EqDecision TenancyEvent.
Proof. solve_decision. Defined.
#[export] Instance ControllerStatus_eq_dec : EqDecision ControllerStatus.
Proof. solve_decision. Defined.

(** ** The database *)

Record DB := mkDB {
  t_orgs : list Org;
  t_folders : list Folder;
  t_projects : list Project;
  t_events : list TenancyEvent;
  t_statuses : list ControllerStatus }.

Definition empty_db : DB := mkDB [] [] [] [] [].

Definition set_orgs (f : list Org → list Org) (db : DB) : DB :=
  mkDB (f (t_orgs db)) (t_folders db) (t_projects db) (t_events db) (t_statuses db).
Definition set_folders (f : list Folder → list Folder) (db : DB) : DB :=
  mkDB (t_orgs db) (f (t_folders db)) (t_projects db) (t_events db) (t_statuses db).
Definition set_projects (f : list Project → list Project) (db : DB) : DB :=
  mkDB (t_orgs db) (t_folders db) (f (t_projects db)) (t_events db) (t_statuses db).
Definition set_events (f : list TenancyEvent → list TenancyEvent) (db : DB) : DB :=
  mkDB (t_orgs db) (t_folders db) (t_projects db) (f (t_events db)) (t_statuses db).
Definition set_statuses (f : list ControllerStatus → list ControllerStatus) (db : DB) : DB :=
  mkDB (t_orgs db) (t_folders db) (t_projects db) (t_events db) (f (t_statuses db)).

(** A table: where its rows are, how they are replaced, its constraints.
    [insertable db r] holds when inserting [r] into [db] violates no constraint;
    [referenced db r] when a foreign key of another table points at [r];
    [serial r] is the value of an auto-increment key, if the table has one. *)
Class Table (R : Type) := {
  row_eq_dec : EqDecision R;
  rows : DB → list R;
  over_rows : (list R → list R) → DB → DB;
  insertable : DB → R → bool;
  referenced : DB → R → bool;
  serial : R → option Z;
  rows_over : ∀ f db, rows (over_rows f db) = f (rows db);
  over_rows_ext : ∀ f g db, f (rows db) = g (rows db) → over_rows f db = over_rows g db
}.

(** migrate/schema.go, OrgsTable: primary key id, unique name. *)
Definition OrgsTable_insertable (db : DB) (o : Org) : bool :=
  forallb (λ o', negb (bool_decide (Org_ID o' = Org_ID o)) &&
                 negb (String.eqb (Org_Name o') (Org_Name o))) (t_orgs db).
Definition OrgsTable_referenced (db : DB) (o : Org) : bool :=
  existsb (λ f, bool_decide (Folder_org_folders f = Org_ID o)) (t_folders db).

(** migrate/schema.go, FoldersTable: primary key id, unique (name, org_folders),
    foreign key org_folders to orgs. *)
Definition FoldersTable_insertable (db : DB) (f : Folder) : bool :=
  forallb (λ f', negb (bool_decide (Folder_ID f' = Folder_ID f)) &&
                 negb (String.eqb (Folder_Name f') (Folder_Name f) &&
                       bool_decide (Folder_org_folders f' = Folder_org_folders f)))
          (t_folders db) &&
  existsb (λ o, bool_decide (Org_ID o = Folder_org_folders f)) (t_orgs db).
Definition FoldersTable_referenced (db : DB) (f : Folder) : bool :=
  existsb (λ p, bool_decide (Project_folder_projects p = Folder_ID f)) (t_projects db).

(** migrate/schema.go, ProjectsTable: primary key id, unique (name,
    folder_projects), foreign key folder_projects to folders. *)
Definition ProjectsTable_insertable (db : DB) (p : Project) : bool :=
  forallb (λ p', negb (bool_decide (Project_ID p' = Project_ID p)) &&
                 negb (String.eqb (Project_Name p') (Project_Name p) &&
                       bool_decide (Project_folder_projects p' = Project_folder_projects p)))
          (t_projects db) &&
  existsb (λ f, bool_decide (Folder_ID f = Project_folder_projects p)) (t_folders db).

(** migrate/schema.go, TenancyEventsTable: primary key id (BIGSERIAL). *)
Definition TenancyEventsTable_insertable (db : DB) (e : TenancyEvent) : bool :=
  forallb (λ e', negb (TenancyEvent_ID e' =? TenancyEvent_ID e)%Z) (t_events db).

(** migrate/schema.go, ControllerStatusTable: primary key id, unique
    (controller_name, resource_type, resource_id). *)
Definition ControllerStatus_same_key (x y : ControllerStatus) : bool :=
  String.eqb (ControllerStatus_ControllerName x) (ControllerStatus_ControllerName y) &&
  String.eqb (ControllerStatus_ResourceType x) (ControllerStatus_ResourceType y) &&
  bool_decide (ControllerStatus_ResourceID x = ControllerStatus_ResourceID y).
Definition ControllerStatusTable_insertable (db : DB) (s : ControllerStatus) : bool :=
  forallb (λ s', negb (ControllerStatus_ID s' =? ControllerStatus_ID s)%Z &&
                 negb (ControllerStatus_same_key s' s)) (t_statuses db).

#[export, refine] Instance OrgsTable : Table Org := {
  row_eq_dec := _; rows := t_orgs; over_rows := set_orgs;
  insertable := OrgsTable_insertable; referenced := OrgsTable_referenced;
  serial := λ _, None }.
Proof. all: unfold set_orgs; simpl; congruence. Defined.
#[export, refine] Instance FoldersTable : Table Folder := {
  row_eq_dec := _; rows := t_folders; over_rows := set_folders;
  insertable := FoldersTable_insertable; referenced := FoldersTable_referenced;
  serial := λ _, None }.
Proof. all: unfold set_folders; simpl; congruence. Defined.
#[export, refine] Instance ProjectsTable : Table Project := {
  row_eq_dec := _; rows := t_projects; over_rows := set_projects;
  insertable := ProjectsTable_insertable; referenced := λ _ _, false;
  serial := λ _, None }.
Proof. all: unfold set_projects; simpl; congruence. Defined.
#[export, refine] Instance TenancyEventsTable : Table TenancyEvent := {
  row_eq_dec := _; rows := t_events; over_rows := set_events;
  insertable := TenancyEventsTable_insertable; referenced := λ _ _, false;
  serial := λ e, Some (TenancyEvent_ID e) }.
Proof. all: unfold set_events; simpl; congruence. Defined.
#[export, refine] Instance ControllerStatusTable : Table ControllerStatus := {
  row_eq_dec := _; rows := t_statuses; over_rows := set_statuses;
  insertable := ControllerStatusTable_insertable; referenced := λ _ _, false;
  serial := λ s, Some (ControllerStatus_ID s) }.
Proof. all: unfold set_statuses; simpl; congruence. Defined.

(** Rewrite the rows [p] selects with [f]; drop the rows [p] selects. *)
Definition update_rows {R} (p : R → bool) (f : R → R) (l : list R) : list R :=
  (λ r, if p r then f r else r) <$> l.
Definition delete_rows {R} (p : R → bool) (l : list R) : list R :=
  select (λ r, negb (p r)) l.
