(* ===== verification/Sqlgraph.v ===== *)
(** * The SQL layer under the generated client, and the monad of the program

    Package sqlgraph (entgo.io), the pgx driver and PostgreSQL are not part of
    the repository: they are the parameter [Driver].  What the program relies on
    is the class [DriverLaws] (documented behaviour of SQL statements under READ
    COMMITTED); clocks, generated UUIDs and the commits of other connections are
    the parameter [Runtime].

    A computation is a function of the [World]: the committed database, the
    transaction this connection holds open, as the list of its effects so far,
    and a counter that identifies each call to the outside.  A transaction's
    statements see the committed rows with its own effects applied ([view]); what they
    change are the versions of the rows that they saw. *)

From S2P Require Import Prelude GoStd Monad EntSchema.

Definition predicate (R : Type) := DB → R → bool.

(** [sqlgraph.QuerySpec]: the WHERE conjuncts, the ORDER BY terms, the LIMIT. *)
Record QuerySpec (R : Type) := mkQuerySpec {
  q_predicates : list (predicate R);
  q_order : list (R → R → bool);
  q_limit : option Z }.
Arguments mkQuerySpec {_}. Arguments q_predicates {_}. Arguments q_order {_}. Arguments q_limit {_}.

(** [sqlgraph.UpdateSpec]: the WHERE conjuncts and the assignment of the SET. *)
Record UpdateSpec (R : Type) := mkUpdateSpec {
  u_predicates : list (predicate R);
  u_set : R → R }.
Arguments mkUpdateSpec {_}. Arguments u_predicates {_}. Arguments u_set {_}.

(** A row satisfies every conjunct. *)
Definition holds {R} (ps : list (predicate R)) (db : DB) (r : R) : bool :=
  forallb (λ p : predicate R, p db r) ps.
Definition matching {R} `{Table R} (ps : list (predicate R)) (db : DB) : list R :=
  select (holds ps db) (rows db).

(** Lexicographic comparison by a list of ORDER BY terms. *)
Fixpoint lex_le {R} (os : list (R → R → bool)) (x y : R) : bool :=
  match os with
  | [] => true
  | o :: os => o x y && (negb (o y x) || lex_le os x y)
  end.

(** An ORDER BY term compares any two rows, transitively. *)
Definition ordering {R} (o : R → R → bool) : Prop :=
  (∀ x y, o x y = true ∨ o y x = true) ∧
  (∀ x y z, o x y = true → o y z = true → o x z = true).

Definition driver_error : Type := driver_kind * string.

Class Driver := {
  drv_query : ∀ {R} `{Table R}, nat → DB → QuerySpec R → driver_error + list R;
  drv_count : ∀ {R} `{Table R}, nat → DB → list (predicate R) → driver_error + nat;
  drv_create : ∀ {R} `{Table R}, nat → DB → (Z → R) → driver_error + Z;
  drv_update_nodes : ∀ {R} `{Table R}, nat → DB → UpdateSpec R → driver_error + nat;
  drv_delete_nodes : ∀ {R} `{Table R}, nat → DB → list (predicate R) → driver_error + nat;
  drv_begin : nat → option driver_error;
  drv_rollback : nat → option driver_error;
  (** [Some (e, b)]: COMMIT reported [e], and [b] says whether the server had
      committed when the report was lost. *)
  drv_commit : nat → option (driver_error * bool);
  (** the collation of the server, for ORDER BY on text *)
  db_le : string → string → bool
}.

Class Runtime := {
  rt_now : nat → Time;
  rt_uuid : nat → UUID;
  (** what other connections committed just before a call: of this one they see the locks
      of the effects that are pending, if any *)
  rt_env : nat → option (list (DB → DB)) → DB → DB
}.

(** The rows a query may return: the matching rows, in an order that respects
    ORDER BY, cut at a positive LIMIT. *)
Definition query_result {R} `{Table R} (db : DB) (q : QuerySpec R) (rs : list R) : Prop :=
  ∃ full, full ≡ₚ matching (q_predicates q) db ∧
    Sorted (λ x y, lex_le (q_order q) x y = true) full ∧
    rs = match q_limit q with
         | Some n => if (0 <? n)%Z then take (Z.to_nat n) full else full
         | None => full
         end.

Definition delete_matching {R} `{Table R} (ps : list (predicate R)) (db : DB) : DB :=
  over_rows (delete_rows (holds ps db)) db.
Definition update_matching {R} `{Table R} (u : UpdateSpec R) (db : DB) : DB :=
  over_rows (update_rows (holds (u_predicates u) db) (u_set u)) db.
(** The effect of a statement is on the versions of the rows that it [seen] matched, and not on
    those which match when it is applied to rows that others have committed since. *)
Definition seen_matching {R} `{Table R} (ps : list (predicate R)) (seen : DB) (r : R) : bool :=
  @bool_decide (r ∈ matching ps seen) (@list_elem_of_dec R row_eq_dec r (matching ps seen)).
Definition delete_seen {R} `{Table R} (ps : list (predicate R)) (seen db : DB) : DB :=
  over_rows (delete_rows (seen_matching ps seen)) db.
Definition update_seen {R} `{Table R} (u : UpdateSpec R) (seen db : DB) : DB :=
  over_rows (update_rows (seen_matching (u_predicates u) seen) (u_set u)) db.
Definition insert_row {R} `{Table R} (r : R) (db : DB) : DB :=
  over_rows (λ l, l ++ [r]) db.

(** Documented behaviour of the SQL statements. *)
Class DriverLaws `{Driver} : Prop := {
  query_ok : ∀ R `{Table R} t db (q : QuerySpec R) rs,
    drv_query t db q = inr rs → (∀ o, o ∈ q_order q → ordering o) →
    match q_limit q with Some n => (0 < n)%Z | None => True end →
    query_result db q rs;
  query_err : ∀ R `{Table R} t db (q : QuerySpec R) e,
    drv_query t db q = inl e → e.1 = DrvOther;
  count_ok : ∀ R `{Table R} t db (ps : list (predicate R)) n,
    drv_count t db ps = inr n → n = length (matching ps db);
  (** an insertion that succeeds violates no constraint, and an auto-increment
      key is above every visible one *)
  create_ok : ∀ R `{Table R} t db (row : Z → R) n,
    drv_create t db row = inr n →
    insertable db (row n) = true ∧
    (∀ k r' k', serial (row n) = Some k → r' ∈ rows db → serial r' = Some k' → (k' < k)%Z);
  (** a constraint error means that the row was refused, though a generated key
      clashes with no visible one *)
  create_constraint : ∀ R `{Table R} t db (row : Z → R) msg,
    drv_create t db row = inl (DrvConstraint, msg) →
    ∃ n, insertable db (row n) = false ∧
    (∀ r' k', r' ∈ rows db → serial r' = Some k' → (k' < n)%Z);
  create_not_found : ∀ R `{Table R} t db (row : Z → R) msg,
    drv_create t db row ≠ inl (DrvNotFound, msg);
  update_nodes_ok : ∀ R `{Table R} t db (u : UpdateSpec R) n,
    drv_update_nodes t db u = inr n → n = length (matching (u_predicates u) db);
  update_nodes_not_found : ∀ R `{Table R} t db (u : UpdateSpec R) msg,
    drv_update_nodes t db u ≠ inl (DrvNotFound, msg);
  delete_nodes_ok : ∀ R `{Table R} t db (ps : list (predicate R)) n,
    drv_delete_nodes t db ps = inr n →
    n = length (matching ps db) ∧ ∀ r, r ∈ matching ps db → referenced db r = false;
  delete_nodes_constraint : ∀ R `{Table R} t db (ps : list (predicate R)) msg,
    drv_delete_nodes t db ps = inl (DrvConstraint, msg) →
    ∃ r, r ∈ matching ps db ∧ referenced db r = true;
  db_le_ordering : ordering db_le
}.

(** ** Worlds and computations *)

Record World := mkWorld {
  w_db : DB;
  w_tx : option (list (DB → DB));
  w_tick : nat }.

Definition apply_effects (effs : list (DB → DB)) (db : DB) : DB :=
  foldl (λ d f, f d) db effs.
Definition view (w : World) : DB :=
  match w_tx w with
  | Some effs => apply_effects effs (w_db w)
  | None => w_db w
  end.

(** The computations of the store and the API. *)
Notation M := (EM World).

Section calls.
Context `{Driver} `{Runtime}.

(** A call to the outside: other connections may commit first, the call sees
    its number, the state of the world and the rows in view. *)
Definition outside {A} (f : nat → World → (error + A) * World) : M A := λ w,
  let t := w_tick w in
  f t (mkWorld (rt_env t (w_tx w) (w_db w)) (w_tx w) (S t)).

(** Record an effect: in the transaction, or at once in the database. *)
Definition effect (f : DB → DB) (w : World) : World :=
  match w_tx w with
  | Some effs => mkWorld (w_db w) (Some (effs ++ [f])) (w_tick w)
  | None => mkWorld (f (w_db w)) None (w_tick w)
  end.

Definition drv_error (e : driver_error) : error := errDriver e.1 e.2.

(** One statement: its answer, and the effect it has when it succeeds, from the rows it saw. *)
Definition statement {A} (call : nat → DB → driver_error + A) (eff : A → DB → DB → DB) : M A :=
  outside (λ t w, match call t (view w) with
                  | inl e => (inl (drv_error e), w)
                  | inr a => (inr a, effect (eff a (view w)) w)
                  end).

Definition QueryNodes {R} `{Table R} (q : QuerySpec R) : M (list R) :=
  outside (λ t w, match drv_query t (view w) q with
                  | inl e => (inl (drv_error e), w)
                  | inr rs => (inr rs, w)
                  end).
Definition CountNodes {R} `{Table R} (ps : list (predicate R)) : M nat :=
  outside (λ t w, match drv_count t (view w) ps with
                  | inl e => (inl (drv_error e), w)
                  | inr n => (inr n, w)
                  end).
Definition CreateNode {R} `{Table R} (row : Z → R) : M Z :=
  statement (λ t db, drv_create t db row) (λ n _, insert_row (row n)).
Definition UpdateNodes {R} `{Table R} (u : UpdateSpec R) : M nat :=
  statement (λ t db, drv_update_nodes t db u) (λ _, update_seen u).
Definition DeleteNodes {R} `{Table R} (ps : list (predicate R)) : M nat :=
  statement (λ t db, drv_delete_nodes t db ps) (λ _, delete_seen ps).

(** BEGIN, COMMIT, ROLLBACK.  The transaction is over after either of the last
    two, whatever they report. *)
Definition TxBegin : M () :=
  outside (λ t w, match drv_begin t with
                  | Some e => (inl (drv_error e), w)
                  | None => (inr (), mkWorld (w_db w) (Some []) (w_tick w))
                  end).
Definition TxCommit : M () :=
  outside (λ t w,
    let committed := mkWorld (view w) None (w_tick w) in
    match drv_commit t with
    | None => (inr (), committed)
    | Some (e, true) => (inl (drv_error e), committed)
    | Some (e, false) => (inl (drv_error e), mkWorld (w_db w) None (w_tick w))
    end).
Definition TxRollback : M () :=
  outside (λ t w,
    let gone := mkWorld (w_db w) None (w_tick w) in
    match drv_rollback t with
    | Some e => (inl (drv_error e), gone)
    | None => (inr (), gone)
    end).

(** A transaction of sqlgraph, which opens one on the driver it is given: on that of an [ent.Tx]
    it is the transaction of the client, where [Tx] answers itself and [Commit] and [Rollback]
    do nothing ([txDriver]). *)
Definition local_tx {A} (m : M A) : M A := λ w,
  match w_tx w with
  | Some _ => m w
  | None =>
      (_ ← TxBegin;
       r ← try m;
       match r with
       | inl e =>
           rerr ← try TxRollback;
           fail (match rerr with inl post => errWrap "" e (": " +:+ Error post) | inr _ => e end)
       | inr a => _ ← TxCommit; mret a
       end) w
  end.
(** [sqlgraph.UpdateNode]: the UPDATE, and the SELECT of the row with the same WHERE. *)
Definition UpdateNode {R} `{Table R} (u : UpdateSpec R) : M R :=
  local_tx (_ ← UpdateNodes u;
            rs ← QueryNodes (mkQuerySpec (u_predicates u) [] None);
            match rs with
            | [] => fail (drv_error (DrvNotFound, "record not found"))
            | r :: _ => mret r
            end).

(** [time.Now()] and [uuid.New()]. *)
Definition Now : M Time := outside (λ t w, (inr (rt_now t), w)).
Definition NewUUID : M UUID := outside (λ t w, (inr (rt_uuid t), w)).
End calls.
