(* ===== verification/EntQuery.v ===== *)
(** * The generated client: predicates and queries

    tenancy-manager/internal/ent: the predicates of the packages org, folder,
    project, tenancyevent and controllerstatus that the program uses (where.go),
    the query builders (files ending in _query.go) and their executors [All], [First], [Only],
    [Count], and eager loading of the edges Project.folder and Folder.org.

    A builder is the value of its fields; the program registers no interceptor
    or hook and selects no columns, so [prepareQuery] and [withInterceptors] are
    the identity. *)

From S2P Require Import Prelude GoStd Monad EntSchema Sqlgraph.

(** Package github.com/google/uuid. *)
Class UUIDLib := {
  uuid_Parse : string → option UUID;
  uuid_String : UUID → string
}.

Definition org_Label : string := "org".
Definition folder_Label : string := "folder".
Definition project_Label : string := "project".
Definition tenancyevent_Label : string := "tenancy_event".
Definition controllerstatus_Label : string := "controller_status".

(** ** Predicates (where.go) *)

Definition mem_string (s : string) (l : list string) : bool := existsb (String.eqb s) l.
Definition mem_uuid (u : UUID) (l : list UUID) : bool := existsb (λ v, bool_decide (u = v)) l.
Definition is_nil {A} (o : option A) : bool := match o with None => true | Some _ => false end.

Definition org_ID (id : UUID) : predicate Org := λ _ o, bool_decide (Org_ID o = id).
Definition org_IDIn (ids : list UUID) : predicate Org := λ _ o, mem_uuid (Org_ID o) ids.
Definition org_Name (v : string) : predicate Org := λ _ o, String.eqb (Org_Name o) v.
Definition org_NameIn (vs : list string) : predicate Org := λ _ o, mem_string (Org_Name o) vs.
Definition org_DeletedAtIsNil : predicate Org := λ _ o, is_nil (Org_DeletedAt o).
Definition org_DeletedAtNotNil : predicate Org := λ _ o, negb (is_nil (Org_DeletedAt o)).

Definition folder_ID (id : UUID) : predicate Folder := λ _ f, bool_decide (Folder_ID f = id).
Definition folder_IDIn (ids : list UUID) : predicate Folder := λ _ f, mem_uuid (Folder_ID f) ids.
Definition folder_Name (v : string) : predicate Folder := λ _ f, String.eqb (Folder_Name f) v.
(** an org of the folder satisfies the given predicates *)
Definition folder_HasOrgWith (preds : list (predicate Org)) : predicate Folder := λ db f,
  existsb (λ o, bool_decide (Org_ID o = Folder_org_folders f) && holds preds db o) (t_orgs db).

Definition project_ID (id : UUID) : predicate Project := λ _ p, bool_decide (Project_ID p = id).
Definition project_Name (v : string) : predicate Project := λ _ p, String.eqb (Project_Name p) v.
Definition project_DeletedAtIsNil : predicate Project := λ _ p, is_nil (Project_DeletedAt p).
Definition project_DeletedAtNotNil : predicate Project := λ _ p, negb (is_nil (Project_DeletedAt p)).
Definition project_HasFolderWith (preds : list (predicate Folder)) : predicate Project := λ db p,
  existsb (λ f, bool_decide (Folder_ID f = Project_folder_projects p) && holds preds db f)
          (t_folders db).

Definition tenancyevent_ID (id : Z) : predicate TenancyEvent := λ _ e, (TenancyEvent_ID e =? id)%Z.
Definition tenancyevent_IDGT (id : Z) : predicate TenancyEvent := λ _ e, (id <? TenancyEvent_ID e)%Z.
Definition tenancyevent_CreatedAtLT (v : Time) : predicate TenancyEvent :=
  λ _ e, (TenancyEvent_CreatedAt e <? v)%Z.

Definition controllerstatus_ID (id : Z) : predicate ControllerStatus := λ _ s, (ControllerStatus_ID s =? id)%Z.
Definition controllerstatus_ControllerName (v : string) : predicate ControllerStatus :=
  λ _ s, String.eqb (ControllerStatus_ControllerName s) v.
Definition controllerstatus_ControllerNameIn (vs : list string) : predicate ControllerStatus :=
  λ _ s, mem_string (ControllerStatus_ControllerName s) vs.
Definition controllerstatus_ControllerNameNotIn (vs : list string) : predicate ControllerStatus :=
  λ _ s, negb (mem_string (ControllerStatus_ControllerName s) vs).
Definition controllerstatus_ResourceType (v : string) : predicate ControllerStatus :=
  λ _ s, String.eqb (ControllerStatus_ResourceType s) v.
Definition controllerstatus_ResourceID (v : UUID) : predicate ControllerStatus :=
  λ _ s, bool_decide (ControllerStatus_ResourceID s = v).

(** ** Builders *)

Record Query (R : Type) := mkQuery {
  predicates : list (predicate R);
  order : list (R → R → bool);
  limit : option Z }.
Arguments mkQuery {_}. Arguments predicates {_}. Arguments order {_}. Arguments limit {_}.

Definition NewQuery {R} : Query R := mkQuery [] [] None.
Definition Where {R} (ps : list (predicate R)) (q : Query R) : Query R :=
  mkQuery (predicates q ++ ps) (order q) (limit q).
Definition Order {R} (os : list (R → R → bool)) (q : Query R) : Query R :=
  mkQuery (predicates q) (order q ++ os) (limit q).
Definition Limit {R} (n : Z) (q : Query R) : Query R :=
  mkQuery (predicates q) (order q) (Some n).
Definition querySpec {R} (q : Query R) : QuerySpec R :=
  mkQuerySpec (predicates q) (order q) (limit q).

(** The nodes of the two eagerly loaded edges. *)
Record FolderNode := mkFolderNode { folder_row : Folder; Folder_Edges_Org : option Org }.
Record ProjectNode := mkProjectNode { project_row : Project; Project_Edges_Folder : option FolderNode }.

Record FolderQuery := mkFolderQuery { fq_query : Query Folder; fq_withOrg : option (Query Org) }.
Record ProjectQuery := mkProjectQuery { pq_query : Query Project; pq_withFolder : option FolderQuery }.

Definition NewFolderQuery : FolderQuery := mkFolderQuery NewQuery None.
Definition NewProjectQuery : ProjectQuery := mkProjectQuery NewQuery None.
Definition FolderQuery_Where (ps : list (predicate Folder)) (q : FolderQuery) : FolderQuery :=
  mkFolderQuery (Where ps (fq_query q)) (fq_withOrg q).
Definition FolderQuery_Limit (n : Z) (q : FolderQuery) : FolderQuery :=
  mkFolderQuery (Limit n (fq_query q)) (fq_withOrg q).
Definition WithOrg (q : FolderQuery) : FolderQuery := mkFolderQuery (fq_query q) (Some NewQuery).
Definition ProjectQuery_Where (ps : list (predicate Project)) (q : ProjectQuery) : ProjectQuery :=
  mkProjectQuery (Where ps (pq_query q)) (pq_withFolder q).
Definition ProjectQuery_Order (os : list (Project → Project → bool)) (q : ProjectQuery) : ProjectQuery :=
  mkProjectQuery (Order os (pq_query q)) (pq_withFolder q).
Definition ProjectQuery_Limit (n : Z) (q : ProjectQuery) : ProjectQuery :=
  mkProjectQuery (Limit n (pq_query q)) (pq_withFolder q).
Definition WithFolder (opt : FolderQuery → FolderQuery) (q : ProjectQuery) : ProjectQuery :=
  mkProjectQuery (pq_query q) (Some (opt NewFolderQuery)).

(** ** Executors *)

(** The tails of [Only] and [First]. *)
Definition only_node {A} (label : string) (nodes : list A) : error + A :=
  match nodes with
  | [n] => inr n
  | [] => inl (NotFoundError label)
  | _ => inl (NotSingularError label)
  end.
Definition first_node {A} (label : string) (nodes : list A) : error + A :=
  match nodes with
  | [] => inl (NotFoundError label)
  | n :: _ => inr n
  end.

(** The distinct foreign keys of the nodes, in the order they first occur. *)
Fixpoint distinct (seen ids : list UUID) : list UUID :=
  match ids with
  | [] => []
  | u :: ids => if mem_uuid u seen then distinct seen ids else u :: distinct (u :: seen) ids
  end.

(** Assign each neighbour to the nodes that refer to it; a neighbour no node
    refers to is an error. *)
Fixpoint assign_neighbors {N E} (fk : N → UUID) (key : E → UUID) (assign : N → E → N)
    (unexpected : E → error) (nodes : list N) (neighbors : list E) : error + list N :=
  match neighbors with
  | [] => inr nodes
  | n :: ns =>
      if existsb (λ m, bool_decide (fk m = key n)) nodes
      then assign_neighbors fk key assign unexpected
             ((λ m, if bool_decide (fk m = key n) then assign m n else m) <$> nodes) ns
      else inl (unexpected n)
  end.

Section executors.
Context `{Driver} `{Runtime} `{UUIDLib}.

Definition Query_All {R} `{Table R} (q : Query R) : M (list R) := QueryNodes (querySpec q).
Definition Query_Only {R} `{Table R} (label : string) (q : Query R) : M R :=
  nodes ← Query_All (Limit 2 q);
  of_result (only_node label nodes).
Definition Query_First {R} `{Table R} (label : string) (q : Query R) : M R :=
  nodes ← Query_All (Limit 1 q);
  of_result (first_node label nodes).
Definition Query_Count {R} `{Table R} (q : Query R) : M nat := CountNodes (predicates q).

Definition OrgQuery_All (q : Query Org) : M (list Org) := Query_All q.
Definition OrgQuery_Only (q : Query Org) : M Org := Query_Only org_Label q.
Definition TenancyEventQuery_All (q : Query TenancyEvent) : M (list TenancyEvent) := Query_All q.
Definition TenancyEventQuery_Only (q : Query TenancyEvent) : M TenancyEvent :=
  Query_Only tenancyevent_Label q.
Definition TenancyEventQuery_First (q : Query TenancyEvent) : M TenancyEvent :=
  Query_First tenancyevent_Label q.
Definition ControllerStatusQuery_All (q : Query ControllerStatus) : M (list ControllerStatus) :=
  Query_All q.
Definition ControllerStatusQuery_Count (q : Query ControllerStatus) : M nat := Query_Count q.
Definition ProjectQuery_Count (q : ProjectQuery) : M nat := Query_Count (pq_query q).

Definition unexpected_org (o : Org) : error :=
  errText ("unexpected foreign-key " +:+ quote "org_folders" +:+ " returned " +:+ uuid_String (Org_ID o)).
Definition loadOrg (query : Query Org) (nodes : list FolderNode) : M (list FolderNode) :=
  let ids := distinct [] ((λ n, Folder_org_folders (folder_row n)) <$> nodes) in
  if (length ids =? 0)%nat then mret nodes else
  neighbors ← OrgQuery_All (Where [org_IDIn ids] query);
  of_result (assign_neighbors (λ n, Folder_org_folders (folder_row n)) Org_ID
               (λ n e, mkFolderNode (folder_row n) (Some e)) unexpected_org nodes neighbors).

Definition FolderQuery_All (q : FolderQuery) : M (list FolderNode) :=
  rs ← QueryNodes (querySpec (fq_query q));
  let nodes := (λ f, mkFolderNode f None) <$> rs in
  if (length nodes =? 0)%nat then mret nodes else
  match fq_withOrg q with
  | Some query => loadOrg query nodes
  | None => mret nodes
  end.
Definition FolderQuery_Only (q : FolderQuery) : M FolderNode :=
  nodes ← FolderQuery_All (FolderQuery_Limit 2 q);
  of_result (only_node folder_Label nodes).

Definition unexpected_folder (f : FolderNode) : error :=
  errText ("unexpected foreign-key " +:+ quote "folder_projects" +:+ " returned "
           +:+ uuid_String (Folder_ID (folder_row f))).
Definition loadFolder (query : FolderQuery) (nodes : list ProjectNode) : M (list ProjectNode) :=
  let ids := distinct [] ((λ n, Project_folder_projects (project_row n)) <$> nodes) in
  if (length ids =? 0)%nat then mret nodes else
  neighbors ← FolderQuery_All (FolderQuery_Where [folder_IDIn ids] query);
  of_result (assign_neighbors (λ n, Project_folder_projects (project_row n))
               (λ e, Folder_ID (folder_row e))
               (λ n e, mkProjectNode (project_row n) (Some e)) unexpected_folder nodes neighbors).

Definition ProjectQuery_All (q : ProjectQuery) : M (list ProjectNode) :=
  rs ← QueryNodes (querySpec (pq_query q));
  let nodes := (λ p, mkProjectNode p None) <$> rs in
  if (length nodes =? 0)%nat then mret nodes else
  match pq_withFolder q with
  | Some query => loadFolder query nodes
  | None => mret nodes
  end.
Definition ProjectQuery_Only (q : ProjectQuery) : M ProjectNode :=
  nodes ← ProjectQuery_All (ProjectQuery_Limit 2 q);
  of_result (only_node project_Label nodes).

(** [client.Org.Get(ctx, id)] and its siblings (client.go). *)
Definition OrgClient_Get (id : UUID) : M Org := OrgQuery_Only (Where [org_ID id] NewQuery).
Definition FolderClient_Get (id : UUID) : M FolderNode := FolderQuery_Only (FolderQuery_Where [folder_ID id] NewFolderQuery).
Definition ProjectClient_Get (id : UUID) : M ProjectNode :=
  ProjectQuery_Only (ProjectQuery_Where [project_ID id] NewProjectQuery).
Definition TenancyEventClient_Get (id : Z) : M TenancyEvent :=
  TenancyEventQuery_Only (Where [tenancyevent_ID id] NewQuery).
Definition ControllerStatusClient_Get (id : Z) : M ControllerStatus :=
  Query_Only controllerstatus_Label (Where [controllerstatus_ID id] NewQuery).
End executors.

(** ** The edges eager loading attaches *)

(** The org of a project as the code reads it, [p.Edges.Folder.Edges.Org]. *)
Definition Project_org (p : ProjectNode) : option Org :=
  Project_Edges_Folder p ≫= Folder_Edges_Org.
