(* ===== verification/EntMutation.v ===== *)
(** * The generated client: creation, update and deletion

    tenancy-manager/internal/ent, the builders of the files ending in
    _create.go, _update.go and _delete.go.  A mutation records which fields were set
    ([option]); [defaults] fills the missing ones, [check] validates, [createSpec]
    builds the row and [sqlSave] runs the statement and translates its errors.
    Clients have no hooks, so [withHooks] calls the executor; the setters the program
    never calls (clearing a field, edges from the parent's side) are left out here; EntMutations.v has
    the mutations with all of them, EntUpdate.v the updates. *)

From S2P Require Import Prelude GoStd Monad EntSchema Sqlgraph EntQuery.

(** Package entgo.io/ent/schema/field: the two validators the schema uses. *)
Class FieldValidators := {
  field_MaxLen : Z → string → option error;
  field_NotEmpty : string → option error
}.
Class FieldValidatorsLaws `{FieldValidators} : Prop := {
  MaxLen_ok : ∀ n s, field_MaxLen n s = None ↔ (Z.of_nat (String.length s) <= n)%Z;
  MaxLen_text : ∀ n s e, field_MaxLen n s = Some e → ∃ msg, e = errText msg;
  NotEmpty_ok : ∀ s, field_NotEmpty s = None ↔ s ≠ "";
  NotEmpty_text : ∀ s e, field_NotEmpty s = Some e → ∃ msg, e = errText msg
}.

(** Chaining a builder's setters: [b |> f x |> g y]. *)
Notation "b |> f" := (f b) (at level 40, left associativity, only parsing) : stdpp_scope.

Definition missing_field (entity field : string) : error :=
  ValidationError field
    (errText ("ent: missing required field " +:+ quote (entity +:+ "." +:+ field))).
Definition missing_edge (entity edge : string) : error :=
  ValidationError edge
    (errText ("ent: missing required edge " +:+ quote (entity +:+ "." +:+ edge))).
(** Run a validator on a field that is set. *)
Definition validate {A} (entity field : string) (validator : A → option error) (v : option A) : option error :=
  match v with
  | Some v => match validator v with
              | Some e => Some (ValidationError field
                  (Errorf ("ent: validator failed for field " +:+ quote (entity +:+ "." +:+ field) +:+ ": ") e))
              | None => None
              end
  | None => None
  end.
Definition required {A} (entity field : string) (v : option A) : option error :=
  match v with Some _ => None | None => Some (missing_field entity field) end.
(** The first error of a sequence of checks. *)
Fixpoint checks (l : list (option error)) : option error :=
  match l with
  | [] => None
  | Some e :: _ => Some e
  | None :: l => checks l
  end.

Arguments checks : simpl never.
Arguments validate : simpl never.

(** Error translation of [sqlSave] on creation, update and deletion. *)
Definition create_error (e : error) : error :=
  match e with errDriver DrvConstraint msg => ConstraintError msg e | _ => e end.
Definition update_error (label : string) (e : error) : error :=
  match e with
  | errDriver DrvNotFound _ => NotFoundError label
  | errDriver DrvConstraint _ | errWrap _ (errDriver DrvConstraint _) _ => ConstraintError (Error e) e
  | _ => e
  end.
Definition guard_check {A} (c : option error) (m : M A) : M A :=
  match c with Some e => fail e | None => m end.
(** [if _, ok := get(); !ok { set(default()) }] *)
Definition or_default {A} (v : option A) (d : M A) : M (option A) :=
  match v with Some _ => mret v | None => a ← d; mret (Some a) end.

Section builders.
Context `{Driver} `{Runtime} `{FieldValidators}.

(** runtime.go: [Validators[0]] is MaxLen(253), [Validators[1]] NotEmpty. *)
Definition NameValidator (name : string) : option error :=
  match field_MaxLen 253 name with
  | Some e => Some e
  | None => field_NotEmpty name
  end.
End builders.

(** ** Org *)

Record OrgMutation := mkOrgMutation {
  om_name : option string; om_description : option string;
  om_created_at : option Time; om_updated_at : option Time;
  om_deleted_at : option Time; om_id : option UUID }.
Definition newOrgMutation : OrgMutation := mkOrgMutation None None None None None None.

Definition Org_SetName (v : string) (m : OrgMutation) : OrgMutation :=
  mkOrgMutation (Some v) (om_description m) (om_created_at m) (om_updated_at m) (om_deleted_at m) (om_id m).
Definition Org_SetDescription (v : string) (m : OrgMutation) : OrgMutation :=
  mkOrgMutation (om_name m) (Some v) (om_created_at m) (om_updated_at m) (om_deleted_at m) (om_id m).
Definition Org_SetDeletedAt (v : Time) (m : OrgMutation) : OrgMutation :=
  mkOrgMutation (om_name m) (om_description m) (om_created_at m) (om_updated_at m) (Some v) (om_id m).

Section org.
Context `{Driver} `{Runtime} `{FieldValidators}.

Definition OrgCreate_defaults (m : OrgMutation) : M OrgMutation :=
  d ← or_default (om_description m) (mret "");
  c ← or_default (om_created_at m) Now;
  u ← or_default (om_updated_at m) Now;
  i ← or_default (om_id m) NewUUID;
  mret (mkOrgMutation (om_name m) d c u (om_deleted_at m) i).

Definition OrgCreate_check (m : OrgMutation) : option error :=
  checks [required "Org" "name" (om_name m);
          validate "Org" "name" NameValidator (om_name m);
          required "Org" "description" (om_description m);
          required "Org" "created_at" (om_created_at m);
          required "Org" "updated_at" (om_updated_at m)].

Definition OrgCreate_createSpec (m : OrgMutation) : Org :=
  mkOrg (default uuid_Nil (om_id m)) (default "" (om_name m)) (default "" (om_description m))
        (default 0%Z (om_created_at m)) (default 0%Z (om_updated_at m)) (om_deleted_at m).

Definition OrgCreate_sqlSave (m : OrgMutation) : M Org :=
  guard_check (OrgCreate_check m)
    (let node := OrgCreate_createSpec m in
     _ ← map_error create_error (CreateNode (λ _, node));
     mret node).
Definition OrgCreate_Save (m : OrgMutation) : M Org :=
  m ← OrgCreate_defaults m; OrgCreate_sqlSave m.

Definition OrgUpdate_defaults (m : OrgMutation) : M OrgMutation :=
  u ← or_default (om_updated_at m) Now;
  mret (mkOrgMutation (om_name m) (om_description m) (om_created_at m) u (om_deleted_at m) (om_id m)).
Definition OrgUpdate_check (m : OrgMutation) : option error :=
  checks [validate "Org" "name" NameValidator (om_name m)].
(** the SET clause: the fields of the mutation that are set *)
Definition OrgUpdate_fields (m : OrgMutation) (o : Org) : Org :=
  mkOrg (Org_ID o) (default (Org_Name o) (om_name m)) (default (Org_Description o) (om_description m))
        (Org_CreatedAt o) (default (Org_UpdatedAt o) (om_updated_at m))
        (match om_deleted_at m with Some t => Some t | None => Org_DeletedAt o end).
Definition OrgUpdate_sqlSave (ps : list (predicate Org)) (m : OrgMutation) : M nat :=
  guard_check (OrgUpdate_check m)
    (map_error (update_error org_Label) (UpdateNodes (mkUpdateSpec ps (OrgUpdate_fields m)))).
Definition OrgUpdate_Save (ps : list (predicate Org)) (m : OrgMutation) : M nat :=
  m ← OrgUpdate_defaults m; OrgUpdate_sqlSave ps m.

(** [o.Update()...Save(ctx)]: one row, by the entity's id. *)
Definition OrgUpdateOne_sqlSave (id : UUID) (m : OrgMutation) : M Org :=
  guard_check (OrgUpdate_check m)
    (map_error (update_error org_Label)
      (UpdateNode (mkUpdateSpec [org_ID id] (OrgUpdate_fields m)))).
Definition OrgUpdateOne_Save (o : Org) (m : OrgMutation) : M Org :=
  m ← OrgUpdate_defaults m; OrgUpdateOne_sqlSave (Org_ID o) m.

Definition OrgDelete_Exec (ps : list (predicate Org)) : M nat :=
  map_error create_error (DeleteNodes ps).
Definition OrgDeleteOneID_Exec (id : UUID) : M () :=
  n ← OrgDelete_Exec [org_ID id];
  if (n =? 0)%nat then fail (NotFoundError org_Label) else mret ().
End org.

(** ** Folder *)

Record FolderMutation := mkFolderMutation {
  fm_name : option string; fm_created_at : option Time; fm_updated_at : option Time;
  fm_id : option UUID; fm_org : option UUID }.
Definition newFolderMutation : FolderMutation := mkFolderMutation None None None None None.
Definition Folder_SetName (v : string) (m : FolderMutation) : FolderMutation :=
  mkFolderMutation (Some v) (fm_created_at m) (fm_updated_at m) (fm_id m) (fm_org m).
Definition Folder_SetOrg (o : Org) (m : FolderMutation) : FolderMutation :=
  mkFolderMutation (fm_name m) (fm_created_at m) (fm_updated_at m) (fm_id m) (Some (Org_ID o)).

Section folder.
Context `{Driver} `{Runtime} `{FieldValidators}.

Definition FolderCreate_defaults (m : FolderMutation) : M FolderMutation :=
  c ← or_default (fm_created_at m) Now;
  u ← or_default (fm_updated_at m) Now;
  i ← or_default (fm_id m) NewUUID;
  mret (mkFolderMutation (fm_name m) c u i (fm_org m)).
Definition FolderCreate_check (m : FolderMutation) : option error :=
  checks [required "Folder" "name" (fm_name m);
          validate "Folder" "name" NameValidator (fm_name m);
          required "Folder" "created_at" (fm_created_at m);
          required "Folder" "updated_at" (fm_updated_at m);
          match fm_org m with Some _ => None | None => Some (missing_edge "Folder" "org") end].
Definition FolderCreate_createSpec (m : FolderMutation) : Folder :=
  mkFolder (default uuid_Nil (fm_id m)) (default "" (fm_name m)) (default 0%Z (fm_created_at m))
           (default 0%Z (fm_updated_at m)) (default uuid_Nil (fm_org m)).
Definition FolderCreate_sqlSave (m : FolderMutation) : M Folder :=
  guard_check (FolderCreate_check m)
    (let node := FolderCreate_createSpec m in
     _ ← map_error create_error (CreateNode (λ _, node));
     mret node).
Definition FolderCreate_Save (m : FolderMutation) : M Folder :=
  m ← FolderCreate_defaults m; FolderCreate_sqlSave m.

Definition FolderDelete_Exec (ps : list (predicate Folder)) : M nat :=
  map_error create_error (DeleteNodes ps).
End folder.

(** ** Project *)

Record ProjectMutation := mkProjectMutation {
  pm_name : option string; pm_description : option string;
  pm_created_at : option Time; pm_updated_at : option Time;
  pm_deleted_at : option Time; pm_id : option UUID; pm_folder : option UUID }.
Definition newProjectMutation : ProjectMutation := mkProjectMutation None None None None None None None.
Definition Project_SetName (v : string) (m : ProjectMutation) : ProjectMutation :=
  mkProjectMutation (Some v) (pm_description m) (pm_created_at m) (pm_updated_at m) (pm_deleted_at m)
    (pm_id m) (pm_folder m).
Definition Project_SetDescription (v : string) (m : ProjectMutation) : ProjectMutation :=
  mkProjectMutation (pm_name m) (Some v) (pm_created_at m) (pm_updated_at m) (pm_deleted_at m)
    (pm_id m) (pm_folder m).
Definition Project_SetDeletedAt (v : Time) (m : ProjectMutation) : ProjectMutation :=
  mkProjectMutation (pm_name m) (pm_description m) (pm_created_at m) (pm_updated_at m) (Some v)
    (pm_id m) (pm_folder m).
Definition Project_SetFolder (f : FolderNode) (m : ProjectMutation) : ProjectMutation :=
  mkProjectMutation (pm_name m) (pm_description m) (pm_created_at m) (pm_updated_at m) (pm_deleted_at m)
    (pm_id m) (Some (Folder_ID (folder_row f))).

Section project.
Context `{Driver} `{Runtime} `{FieldValidators}.

Definition ProjectCreate_defaults (m : ProjectMutation) : M ProjectMutation :=
  d ← or_default (pm_description m) (mret "");
  c ← or_default (pm_created_at m) Now;
  u ← or_default (pm_updated_at m) Now;
  i ← or_default (pm_id m) NewUUID;
  mret (mkProjectMutation (pm_name m) d c u (pm_deleted_at m) i (pm_folder m)).
Definition ProjectCreate_check (m : ProjectMutation) : option error :=
  checks [required "Project" "name" (pm_name m);
          validate "Project" "name" NameValidator (pm_name m);
          required "Project" "description" (pm_description m);
          required "Project" "created_at" (pm_created_at m);
          required "Project" "updated_at" (pm_updated_at m);
          match pm_folder m with Some _ => None | None => Some (missing_edge "Project" "folder") end].
Definition ProjectCreate_createSpec (m : ProjectMutation) : Project :=
  mkProject (default uuid_Nil (pm_id m)) (default "" (pm_name m)) (default "" (pm_description m))
    (default 0%Z (pm_created_at m)) (default 0%Z (pm_updated_at m)) (pm_deleted_at m)
    (default uuid_Nil (pm_folder m)).
Definition ProjectCreate_sqlSave (m : ProjectMutation) : M ProjectNode :=
  guard_check (ProjectCreate_check m)
    (let node := ProjectCreate_createSpec m in
     _ ← map_error create_error (CreateNode (λ _, node));
     mret (mkProjectNode node None)).
Definition ProjectCreate_Save (m : ProjectMutation) : M ProjectNode :=
  m ← ProjectCreate_defaults m; ProjectCreate_sqlSave m.

Definition ProjectUpdate_defaults (m : ProjectMutation) : M ProjectMutation :=
  u ← or_default (pm_updated_at m) Now;
  mret (mkProjectMutation (pm_name m) (pm_description m) (pm_created_at m) u (pm_deleted_at m)
          (pm_id m) (pm_folder m)).
Definition ProjectUpdate_check (m : ProjectMutation) : option error :=
  checks [validate "Project" "name" NameValidator (pm_name m)].
Definition ProjectUpdate_fields (m : ProjectMutation) (p : Project) : Project :=
  mkProject (Project_ID p) (default (Project_Name p) (pm_name m))
    (default (Project_Description p) (pm_description m)) (Project_CreatedAt p)
    (default (Project_UpdatedAt p) (pm_updated_at m))
    (match pm_deleted_at m with Some t => Some t | None => Project_DeletedAt p end)
    (default (Project_folder_projects p) (pm_folder m)).
Definition ProjectUpdate_sqlSave (ps : list (predicate Project)) (m : ProjectMutation) : M nat :=
  guard_check (ProjectUpdate_check m)
    (map_error (update_error project_Label)
      (UpdateNodes (mkUpdateSpec ps (ProjectUpdate_fields m)))).
Definition ProjectUpdate_Save (ps : list (predicate Project)) (m : ProjectMutation) : M nat :=
  m ← ProjectUpdate_defaults m; ProjectUpdate_sqlSave ps m.
Definition ProjectUpdateOne_sqlSave (id : UUID) (m : ProjectMutation) : M ProjectNode :=
  guard_check (ProjectUpdate_check m)
    (p ← map_error (update_error project_Label)
           (UpdateNode (mkUpdateSpec [project_ID id] (ProjectUpdate_fields m)));
     mret (mkProjectNode p None)).
Definition ProjectUpdateOne_Save (p : ProjectNode) (m : ProjectMutation) : M ProjectNode :=
  m ← ProjectUpdate_defaults m; ProjectUpdateOne_sqlSave (Project_ID (project_row p)) m.

Definition ProjectDelete_Exec (ps : list (predicate Project)) : M nat :=
  map_error create_error (DeleteNodes ps).
Definition ProjectDeleteOneID_Exec (id : UUID) : M () :=
  n ← ProjectDelete_Exec [project_ID id];
  if (n =? 0)%nat then fail (NotFoundError project_Label) else mret ().
End project.

(** ** TenancyEvent *)

Record TenancyEventMutation := mkTenancyEventMutation {
  em_event_type : option string; em_resource_type : option string;
  em_resource_id : option UUID; em_resource_name : option string;
  em_org_id : option UUID; em_org_name : option string; em_folder_id : option UUID;
  em_created_at : option Time }.
Definition newTenancyEventMutation : TenancyEventMutation :=
  mkTenancyEventMutation None None None None None None None None.

(** The setters of a creation: the five every event has, then the nillable ones. *)
Definition TenancyEvent_Set (event_type resource_type : string) (id : UUID) (name : string)
    (m : TenancyEventMutation) : TenancyEventMutation :=
  mkTenancyEventMutation (Some event_type) (Some resource_type) (Some id) (Some name)
    (em_org_id m) (em_org_name m) (em_folder_id m) (em_created_at m).
Definition TenancyEvent_SetOrg (id : UUID) (name : string) (m : TenancyEventMutation) : TenancyEventMutation :=
  mkTenancyEventMutation (em_event_type m) (em_resource_type m) (em_resource_id m) (em_resource_name m)
    (Some id) (Some name) (em_folder_id m) (em_created_at m).
Definition TenancyEvent_SetFolderID (id : UUID) (m : TenancyEventMutation) : TenancyEventMutation :=
  mkTenancyEventMutation (em_event_type m) (em_resource_type m) (em_resource_id m) (em_resource_name m)
    (em_org_id m) (em_org_name m) (Some id) (em_created_at m).

Section event.
Context `{Driver} `{Runtime} `{FieldValidators}.

Definition TenancyEventCreate_defaults (m : TenancyEventMutation) : M TenancyEventMutation :=
  c ← or_default (em_created_at m) Now;
  mret (mkTenancyEventMutation (em_event_type m) (em_resource_type m) (em_resource_id m)
          (em_resource_name m) (em_org_id m) (em_org_name m) (em_folder_id m) c).
Definition TenancyEventCreate_check (m : TenancyEventMutation) : option error :=
  checks [required "TenancyEvent" "event_type" (em_event_type m);
          validate "TenancyEvent" "event_type" field_NotEmpty (em_event_type m);
          required "TenancyEvent" "resource_type" (em_resource_type m);
          validate "TenancyEvent" "resource_type" field_NotEmpty (em_resource_type m);
          required "TenancyEvent" "resource_id" (em_resource_id m);
          required "TenancyEvent" "resource_name" (em_resource_name m);
          validate "TenancyEvent" "resource_name" (field_MaxLen 253) (em_resource_name m);
          validate "TenancyEvent" "org_name" (field_MaxLen 253) (em_org_name m);
          required "TenancyEvent" "created_at" (em_created_at m)].
Definition TenancyEventCreate_createSpec (m : TenancyEventMutation) (id : Z) : TenancyEvent :=
  mkTenancyEvent id (default "" (em_event_type m)) (default "" (em_resource_type m))
    (default uuid_Nil (em_resource_id m)) (default "" (em_resource_name m))
    (em_org_id m) (em_org_name m) (em_folder_id m) (default 0%Z (em_created_at m)).
Definition TenancyEventCreate_sqlSave (m : TenancyEventMutation) : M TenancyEvent :=
  guard_check (TenancyEventCreate_check m)
    (id ← map_error create_error (CreateNode (TenancyEventCreate_createSpec m));
     mret (TenancyEventCreate_createSpec m id)).
Definition TenancyEventCreate_Save (m : TenancyEventMutation) : M TenancyEvent :=
  m ← TenancyEventCreate_defaults m; TenancyEventCreate_sqlSave m.
Definition TenancyEventDelete_Exec (ps : list (predicate TenancyEvent)) : M nat :=
  map_error create_error (DeleteNodes ps).
End event.

(** ** ControllerStatus *)

Definition StatusInProgress : string := "in_progress".
Definition StatusCompleted : string := "completed".
Definition StatusError : string := "error".
Definition StatusValidator (s : string) : option error :=
  if String.eqb s StatusInProgress || String.eqb s StatusCompleted || String.eqb s StatusError
  then None
  else Some (errText ("controllerstatus: invalid enum value for status field: " +:+ quote s)).

Record ControllerStatusMutation := mkControllerStatusMutation {
  sm_controller_name : option string; sm_resource_type : option string;
  sm_resource_id : option UUID; sm_status : option string; sm_message : option string;
  sm_updated_at : option Time }.
Definition newControllerStatusMutation : ControllerStatusMutation :=
  mkControllerStatusMutation None None None None None None.
Definition ControllerStatus_SetKey (name resource_type : string) (id : UUID)
    (m : ControllerStatusMutation) : ControllerStatusMutation :=
  mkControllerStatusMutation (Some name) (Some resource_type) (Some id) (sm_status m) (sm_message m)
    (sm_updated_at m).
Definition ControllerStatus_SetStatus (v : string) (m : ControllerStatusMutation) : ControllerStatusMutation :=
  mkControllerStatusMutation (sm_controller_name m) (sm_resource_type m) (sm_resource_id m) (Some v)
    (sm_message m) (sm_updated_at m).
Definition ControllerStatus_SetMessage (v : string) (m : ControllerStatusMutation) : ControllerStatusMutation :=
  mkControllerStatusMutation (sm_controller_name m) (sm_resource_type m) (sm_resource_id m) (sm_status m)
    (Some v) (sm_updated_at m).

Section status.
Context `{Driver} `{Runtime} `{FieldValidators}.

Definition ControllerStatusCreate_defaults (m : ControllerStatusMutation) : M ControllerStatusMutation :=
  s ← or_default (sm_status m) (mret StatusInProgress);
  g ← or_default (sm_message m) (mret "");
  u ← or_default (sm_updated_at m) Now;
  mret (mkControllerStatusMutation (sm_controller_name m) (sm_resource_type m) (sm_resource_id m) s g u).
Definition ControllerStatusCreate_check (m : ControllerStatusMutation) : option error :=
  checks [required "ControllerStatus" "controller_name" (sm_controller_name m);
          validate "ControllerStatus" "controller_name" field_NotEmpty (sm_controller_name m);
          required "ControllerStatus" "resource_type" (sm_resource_type m);
          validate "ControllerStatus" "resource_type" field_NotEmpty (sm_resource_type m);
          required "ControllerStatus" "resource_id" (sm_resource_id m);
          required "ControllerStatus" "status" (sm_status m);
          validate "ControllerStatus" "status" StatusValidator (sm_status m);
          required "ControllerStatus" "message" (sm_message m);
          required "ControllerStatus" "updated_at" (sm_updated_at m)].
Definition ControllerStatusCreate_createSpec (m : ControllerStatusMutation) (id : Z) : ControllerStatus :=
  mkControllerStatus id (default "" (sm_controller_name m)) (default "" (sm_resource_type m))
    (default uuid_Nil (sm_resource_id m)) (default "" (sm_status m)) (default "" (sm_message m))
    (default 0%Z (sm_updated_at m)).
Definition ControllerStatusCreate_sqlSave (m : ControllerStatusMutation) : M ControllerStatus :=
  guard_check (ControllerStatusCreate_check m)
    (id ← map_error create_error (CreateNode (ControllerStatusCreate_createSpec m));
     mret (ControllerStatusCreate_createSpec m id)).
Definition ControllerStatusCreate_Save (m : ControllerStatusMutation) : M ControllerStatus :=
  m ← ControllerStatusCreate_defaults m; ControllerStatusCreate_sqlSave m.

Definition ControllerStatusUpdate_defaults (m : ControllerStatusMutation) : M ControllerStatusMutation :=
  u ← or_default (sm_updated_at m) Now;
  mret (mkControllerStatusMutation (sm_controller_name m) (sm_resource_type m) (sm_resource_id m)
          (sm_status m) (sm_message m) u).
Definition ControllerStatusUpdate_check (m : ControllerStatusMutation) : option error :=
  checks [validate "ControllerStatus" "controller_name" field_NotEmpty (sm_controller_name m);
          validate "ControllerStatus" "resource_type" field_NotEmpty (sm_resource_type m);
          validate "ControllerStatus" "status" StatusValidator (sm_status m)].
Definition ControllerStatusUpdate_fields (m : ControllerStatusMutation) (s : ControllerStatus) : ControllerStatus :=
  mkControllerStatus (ControllerStatus_ID s)
    (default (ControllerStatus_ControllerName s) (sm_controller_name m))
    (default (ControllerStatus_ResourceType s) (sm_resource_type m))
    (default (ControllerStatus_ResourceID s) (sm_resource_id m))
    (default (ControllerStatus_Status s) (sm_status m))
    (default (ControllerStatus_Message s) (sm_message m))
    (default (ControllerStatus_UpdatedAt s) (sm_updated_at m)).
Definition ControllerStatusUpdate_sqlSave (ps : list (predicate ControllerStatus))
    (m : ControllerStatusMutation) : M nat :=
  guard_check (ControllerStatusUpdate_check m)
    (map_error (update_error controllerstatus_Label)
      (UpdateNodes (mkUpdateSpec ps (ControllerStatusUpdate_fields m)))).
Definition ControllerStatusUpdate_Save (ps : list (predicate ControllerStatus))
    (m : ControllerStatusMutation) : M nat :=
  m ← ControllerStatusUpdate_defaults m; ControllerStatusUpdate_sqlSave ps m.
Definition ControllerStatusDelete_Exec (ps : list (predicate ControllerStatus)) : M nat :=
  map_error create_error (DeleteNodes ps).
End status.

(** ** Transactions (client.go, tx.go) *)

Section transactions.
Context `{Driver} `{Runtime}.

(** [Client.Tx]: one connection never nests transactions here. *)
Definition Client_Tx : M () := λ w,
  match w_tx w with
  | Some _ => (inl (errText "ent: cannot start a transaction within a transaction"), w)
  | None => map_error (Errorf "ent: starting a transaction: ") TxBegin w
  end.
Definition Tx_Commit : M () := TxCommit.
Definition Tx_Rollback : M () := TxRollback.
End transactions.
