(* ===== verification/Config.v ===== *)
(** * Configuration (tenancy-manager/internal/config/config.go)

    The [Config] structure with its defaults, [Load] and the database URL it
    builds from the PG* variables, its redaction for the log, and the registered controllers of a
    resource type.  Reading the file and parsing YAML are parameters of [Load].

    The URLs are package net/url's, parsed and printed as it does; how it reads a host (IP
    literals, zones, ports) is the parameter [parseHost], and its errors are [None]: the code reports
    none of their texts.  The theorem is that the log line of the start tells nothing of the
    password in PGPASSWORD. *)

From S2P Require Import Prelude GoStd.
From Stdlib Require Import Ascii.

Record ControllersConfig := mkControllersConfig {
  Controllers_Org : list string;
  Controllers_Project : list string }.

(** Durations are nanoseconds. *)
Record Config := mkConfig {
  DatabaseURL : string;
  ListenAddr : string;
  Controllers : ControllersConfig;
  EventRetention : Z;
  CleanupInterval : Z;
  DefaultOrgName : string;
  DefaultProjectName : string;
  OIDCServerURL : string }.

Definition Minute : Z := (60 * 1000000000)%Z.
Definition Hour : Z := (60 * Minute)%Z.

Definition DefaultConfig : Config := {|
  DatabaseURL := "postgres://localhost:5432/tenancy?sslmode=disable";
  ListenAddr := ":8080";
  EventRetention := (7 * 24 * Hour)%Z;
  CleanupInterval := (1 * Minute)%Z;
  DefaultOrgName := "";
  DefaultProjectName := "";
  OIDCServerURL := "";
  Controllers := mkControllersConfig
    ["keycloak-tenant-controller"]
    ["keycloak-tenant-controller"; "tenant-controller"; "cluster-manager";
     "observability-tenant-controller"; "metadata-broker"] |}.

Definition set_DatabaseURL (u : string) (c : Config) : Config := {|
  DatabaseURL := u; ListenAddr := ListenAddr c; Controllers := Controllers c;
  EventRetention := EventRetention c; CleanupInterval := CleanupInterval c;
  DefaultOrgName := DefaultOrgName c; DefaultProjectName := DefaultProjectName c;
  OIDCServerURL := OIDCServerURL c |}.

(** ** Percent-encoding (package net/url) *)

Definition upper_hex (n : nat) : ascii :=
  if (n <? 10)%nat then ascii_of_nat (48 + n) else ascii_of_nat (55 + n).
Definition percent (c : ascii) : string :=
  String "%" (String (upper_hex (code c / 16)) (String (upper_hex (code c mod 16)) EmptyString)).
Definition is_alnum (c : ascii) : bool := is_upper c || is_lower c || is_digit c.
Definition char_in (s : string) (c : ascii) : bool := existsb (Ascii.eqb c) (String.list_ascii_of_string s).
Definition unreserved (c : ascii) : bool := is_alnum c || char_in "-_.~" c.

Inductive encoding := encodePath | encodePathSegment | encodeHost | encodeUserPassword | encodeQueryComponent | encodeFragment.
(** the characters each component leaves as they are, besides the unreserved *)
Definition url_plain (mode : encoding) (c : ascii) : bool :=
  unreserved c ||
  match mode with
  | encodePath => char_in "$&+,/:;=@" c
  | encodePathSegment => char_in "$&+:=@" c
  | encodeHost => char_in "!$&'()*+,;=:[]<>" c || (code c =? 34)%nat
  | encodeUserPassword => char_in "$&+,;=" c
  | encodeQueryComponent => false
  | encodeFragment => char_in "$&+,/:;=?@!()*" c
  end.
Definition escape_char (mode : encoding) (c : ascii) : string :=
  if url_plain mode c then String c EmptyString
  else match mode with
       | encodeQueryComponent => if Ascii.eqb c " " then "+" else percent c
       | _ => percent c
       end.
Fixpoint url_escape (mode : encoding) (s : string) : string :=
  match s with
  | EmptyString => EmptyString
  | String c s => escape_char mode c +:+ url_escape mode s
  end.

(** [unescape] for a path, a fragment and user information. *)
Definition hex_value (c : ascii) : option nat :=
  if is_digit c then Some (code c - 48)%nat
  else if in_range "a" "f" c then Some (code c - 87)%nat
  else if in_range "A" "F" c then Some (code c - 55)%nat
  else None.
Fixpoint url_unescape (s : string) : option string :=
  match s with
  | EmptyString => Some EmptyString
  | String c s' =>
      if Ascii.eqb c "%" then
        match s' with
        | String a (String b r) =>
            match hex_value a, hex_value b with
            | Some x, Some y => String (ascii_of_nat (16 * x + y)) <$> url_unescape r
            | _, _ => None
            end
        | _ => None
        end
      else String c <$> url_unescape s'
  end.
Definition validEncoded (mode : encoding) : string → bool := all_chars (λ c, char_in "!$&'()*+,;=:@[]%" c || url_plain mode c).

(** ** URLs (package net/url) *)

Record Userinfo := mkUserinfo { ui_username : string; ui_password : option string }.
Record URL := mkURL {
  url_Scheme : string; url_Opaque : string; url_User : option Userinfo; url_Host : string; url_Path : string; url_RawPath : string;
  url_OmitHost : bool; url_ForceQuery : bool; url_RawQuery : string; url_Fragment : string; url_RawFragment : string }.

Definition is_char (d c : ascii) : bool := Ascii.eqb c d.
(** [strings.Cut] at a character: what follows it, if it is there. *)
Definition Cut (sep : ascii) (s : string) : string * option string :=
  match span (λ c, negb (is_char sep c)) s with
  | (before, String _ after) => (before, Some after)
  | (before, EmptyString) => (before, None)
  end.
(** The parts around the last occurrence. *)
Fixpoint CutLast (sep : ascii) (s : string) : option (string * string) :=
  match s with
  | EmptyString => None
  | String c s =>
      match CutLast sep s with
      | Some (before, after) => Some (String c before, after)
      | None => if is_char sep c then Some (EmptyString, s) else None
      end
  end.

Definition Userinfo_String (u : Userinfo) : string :=
  match ui_password u with
  | Some password => url_escape encodeUserPassword (ui_username u) +:+ ":" +:+ url_escape encodeUserPassword password
  | None => url_escape encodeUserPassword (ui_username u)
  end.
(** The raw form of a path or fragment is a hint: it is used when it is an encoding of it. *)
Definition is_encoding (mode : encoding) (raw decoded : string) : bool :=
  negb (String.eqb raw "") && validEncoded mode raw && bool_decide (url_unescape raw = Some decoded).
Definition EscapedPath (u : URL) : string :=
  if is_encoding encodePath (url_RawPath u) (url_Path u) then url_RawPath u
  else if String.eqb (url_Path u) "*" then "*"
  else url_escape encodePath (url_Path u).
Definition EscapedFragment (u : URL) : string :=
  if is_encoding encodeFragment (url_RawFragment u) (url_Fragment u) then url_RawFragment u
  else url_escape encodeFragment (url_Fragment u).

Definition URL_String (u : URL) : string :=
  let has_user := negb (match url_User u with None => true | Some _ => false end) in
  let scheme := if String.eqb (url_Scheme u) "" then "" else url_Scheme u +:+ ":" in
  let path := EscapedPath u in
  let authority :=
    if negb (String.eqb (url_Scheme u) "") || negb (String.eqb (url_Host u) "") || has_user then
      if url_OmitHost u && String.eqb (url_Host u) "" && negb has_user then "" else
      (if negb (String.eqb (url_Host u) "") || negb (String.eqb (url_Path u) "") || has_user then "//" else "")
        +:+ match url_User u with Some ui => Userinfo_String ui +:+ "@" | None => "" end
        +:+ url_escape encodeHost (url_Host u)
    else "" in
  let slash := if negb (String.eqb path "") && negb (HasPrefix path "/") && negb (String.eqb (url_Host u) "") then "/" else "" in
  let dot := if String.eqb (scheme +:+ authority +:+ slash) "" && Contains (Cut "/" path).1 ":" then "./" else "" in
  (if negb (String.eqb (url_Opaque u) "") then scheme +:+ url_Opaque u else scheme +:+ authority +:+ slash +:+ dot +:+ path)
    +:+ (if url_ForceQuery u || negb (String.eqb (url_RawQuery u) "") then "?" +:+ url_RawQuery u else "")
    +:+ (if negb (String.eqb (url_Fragment u) "") then "#" +:+ EscapedFragment u else "").

(** A byte below a space, or DEL. *)
Definition is_control (c : ascii) : bool := (code c <? 32)%nat || (code c =? 127)%nat.
(** The scheme before the first colon, if the characters before it are those of one: [None] is an error. *)
Definition getScheme (rawURL : string) : option (string * string) :=
  let '(scheme, rest) := span (λ c, is_alnum c || char_in "+-." c) rawURL in
  match rest with
  | String c rest =>
      if negb (is_char ":" c) then Some ("", rawURL)
      else match scheme with
           | EmptyString => None
           | String first _ => if is_upper first || is_lower first then Some (scheme, rest) else Some ("", rawURL)
           end
  | EmptyString => Some ("", rawURL)
  end.
Definition validUserinfo : string → bool := all_chars (λ c, is_alnum c || char_in "-._:~!$&'()*+,;=%@" c).

Section parse.
Context (parseHost : string → option string).

Definition parseAuthority (authority : string) : option (option Userinfo * string) :=
  match CutLast "@" authority with
  | None => host ← parseHost authority; Some (None, host)
  | Some (userinfo, host) =>
      host ← parseHost host;
      if negb (validUserinfo userinfo) then None else
      match Cut ":" userinfo with
      | (_, None) => username ← url_unescape userinfo; Some (Some (mkUserinfo username None), host)
      | (username, Some password) =>
          username ← url_unescape username;
          password ← url_unescape password;
          Some (Some (mkUserinfo username (Some password)), host)
      end
  end.
(** [setPath] and [setFragment]: the decoded form, and the raw one unless it is the default. *)
Definition set_encoded (mode : encoding) (p : string) : option (string * string) :=
  decoded ← url_unescape p;
  Some (decoded, if String.eqb p (url_escape mode decoded) then "" else p).
(** [parse(rawURL, false)], without the fragment. *)
Definition parse_url (rawURL : string) : option URL :=
  if negb (all_chars (λ c, negb (is_control c)) rawURL) then None
  else if String.eqb rawURL "*" then Some (mkURL "" "" None "" "*" "" false false "" "" "")
  else
    '(scheme, rest) ← getScheme rawURL;
    let scheme := ToLower scheme in
    let '(rest, query) := Cut "?" rest in
    let force := match query with Some EmptyString => true | _ => false end in
    let query := default "" query in
    if negb (HasPrefix rest "/") && negb (String.eqb scheme "")
    then Some (mkURL scheme rest None "" "" "" false force query "" "")
    else if negb (HasPrefix rest "/") && Contains (Cut "/" rest).1 ":" then None
    else if (negb (String.eqb scheme "") || negb (HasPrefix rest "///")) && HasPrefix rest "//" then
      let '(authority, path) := span (λ c, negb (is_char "/" c)) (str_drop 2 rest) in
      '(user, host) ← parseAuthority authority;
      '(path, raw) ← set_encoded encodePath path;
      Some (mkURL scheme "" user host path raw false force query "" "")
    else
      '(path, raw) ← set_encoded encodePath rest;
      Some (mkURL scheme "" None "" path raw (negb (String.eqb scheme "") && HasPrefix rest "/") force query "" "").
Definition url_Parse (rawURL : string) : option URL :=
  let '(u, frag) := Cut "#" rawURL in
  url ← parse_url u;
  if String.eqb (default "" frag) "" then Some url else
  '(fragment, raw) ← set_encoded encodeFragment (default "" frag);
  Some (mkURL (url_Scheme url) (url_Opaque url) (url_User url) (url_Host url) (url_Path url) (url_RawPath url)
          (url_OmitHost url) (url_ForceQuery url) (url_RawQuery url) fragment raw).
End parse.

(** ** Loading *)

Definition or_else (s d : string) : string := if String.eqb s "" then d else s.

(** The URL of the database, whose query has one key. *)
Definition postgres_url (user password host dbName sslmode : string) : string :=
  URL_String (mkURL "postgres" "" (Some (mkUserinfo user (Some password))) host ("/" +:+ dbName) "" false false
                ("sslmode=" +:+ url_escape encodeQueryComponent sslmode) "" "").

Section load.
(** [os.Getenv], [os.ReadFile] and [yaml.Unmarshal] (which overwrites the
    fields the file sets). *)
Context (Getenv : string → string) (ReadFile : string → error + string)
        (yaml_Unmarshal : string → Config → error + Config).

Definition databaseURLFromEnv : string :=
  let host := Getenv "PGHOST" in
  let user := Getenv "PGUSER" in
  if String.eqb host "" || String.eqb user "" then "" else
  let password := Getenv "PGPASSWORD" in
  let dbName := or_else (Getenv "PGDATABASE") "tenancy" in
  let port := or_else (Getenv "PGPORT") "5432" in
  let sslmode := or_else (Getenv "PGSSLMODE") "disable" in
  postgres_url user password (host +:+ ":" +:+ port) dbName sslmode.

Definition Load (path : string) : error + Config :=
  let cfg := DefaultConfig in
  if String.eqb path "" then inr cfg else
  match ReadFile path with
  | inl e => inl e
  | inr data =>
      match yaml_Unmarshal data cfg with
      | inl e => inl e
      | inr cfg =>
          let dbURL := databaseURLFromEnv in
          inr (if String.eqb dbURL "" then cfg else set_DatabaseURL dbURL cfg)
      end
  end.
End load.

Definition ControllersForResource (c : Config) (resourceType : string) : list string :=
  if String.eqb resourceType "org" then Controllers_Org (Controllers c)
  else if String.eqb resourceType "project" then Controllers_Project (Controllers c)
  else [].

(** [RedactedDatabaseURL], for the log. *)
Definition RedactedDatabaseURL (parseHost : string → option string) (c : Config) : string :=
  match url_Parse parseHost (DatabaseURL c) with
  | None => "[unparseable database URL]"
  | Some u =>
      URL_String (match url_User u with
                  | Some ui => mkURL (url_Scheme u) (url_Opaque u) (Some (mkUserinfo (ui_username ui) (Some "***"))) (url_Host u)
                      (url_Path u) (url_RawPath u) (url_OmitHost u) (url_ForceQuery u) (url_RawQuery u) (url_Fragment u) (url_RawFragment u)
                  | None => u
                  end)
  end.

(** ** The components of the URL cannot run into each other *)

Lemma url_escape_chars (q : ascii → bool) mode s : (∀ c, all_chars q (escape_char mode c) = true) → all_chars q (url_escape mode s) = true.
Proof. intros Hq. induction s as [|c s IH]; [done|]. simpl. by rewrite all_chars_app, Hq, IH. Qed.
Lemma all_chars_weaken (p q : ascii → bool) s : (∀ c, p c = true → q c = true) → all_chars p s = true → all_chars q s = true.
Proof. intros Hpq. induction s as [|c s IH]; simpl; [done|]. rewrite !andb_true_iff. naive_solver. Qed.
(** Every character of an escape, but for control characters, [#] and the separators. *)
Definition separators (mode : encoding) : string :=
  match mode with
  | encodeUserPassword => "#?/@:" | encodeHost => "#?/@" | encodePath => "#?" | _ => "#"
  end.
Definition component_char (mode : encoding) (c : ascii) : bool := negb (is_control c) && negb (char_in (separators mode) c).
Lemma url_escape_component mode s : all_chars (component_char mode) (url_escape mode s) = true.
Proof. apply url_escape_chars. intros c. destruct mode, c as [[] [] [] [] [] [] [] []]; vm_compute; reflexivity. Qed.
Lemma url_escape_free mode d s : char_in (separators mode) d = true → all_chars (λ c, negb (is_char d c)) (url_escape mode s) = true.
Proof.
  intros Hd. eapply all_chars_weaken; [|apply url_escape_component]. intros c. unfold component_char, is_char.
  destruct (Ascii.eqb_spec c d) as [->|]; [by rewrite Hd, andb_false_r|done].
Qed.
Lemma url_escape_printable mode s : all_chars (λ c, negb (is_control c)) (url_escape mode s) = true.
Proof. eapply all_chars_weaken; [|apply url_escape_component]. intros c Hc. by apply andb_true_iff in Hc as [? _]. Qed.
Lemma url_escape_userinfo s : validUserinfo (url_escape encodeUserPassword s) = true.
Proof. apply url_escape_chars. intros c. destruct c as [[] [] [] [] [] [] [] []]; vm_compute; reflexivity. Qed.

(** What is escaped is read back. *)
Lemma url_unescape_escape mode s : mode ≠ encodeQueryComponent → url_unescape (url_escape mode s) = Some s.
Proof.
  intros Hm. induction s as [|c s IH]; [done|]. change (url_escape mode (String c s)) with (escape_char mode c +:+ url_escape mode s).
  assert (∀ t, url_unescape (escape_char mode c +:+ t) = String c <$> url_unescape t) as ->; [|by rewrite IH].
  intros t. destruct mode; [..|done|]; destruct c as [[] [] [] [] [] [] [] []]; reflexivity.
Qed.

Lemma Cut_app sep a b : all_chars (λ c, negb (is_char sep c)) a = true → Cut sep (a +:+ String sep b) = (a, Some b).
Proof. intros Ha. unfold Cut. rewrite span_app; [done|done|]. unfold is_char. by rewrite Ascii.eqb_refl. Qed.
Lemma Cut_none sep a : all_chars (λ c, negb (is_char sep c)) a = true → Cut sep a = (a, None).
Proof.
  unfold Cut. intros Ha. assert (span (λ c, negb (is_char sep c)) a = (a, "")) as ->; [|done].
  induction a as [|c a IH]; [done|]. simpl in *. apply andb_true_iff in Ha as [-> Ha]. by rewrite IH.
Qed.
Lemma CutLast_none sep b : all_chars (λ c, negb (is_char sep c)) b = true → CutLast sep b = None.
Proof.
  induction b as [|c b IH]; simpl; [done|]. intros Hb. apply andb_true_iff in Hb as [Hc Hb]. rewrite IH by done.
  by apply negb_true_iff in Hc as ->.
Qed.
Lemma CutLast_app sep a b : all_chars (λ c, negb (is_char sep c)) b = true → CutLast sep (a +:+ String sep b) = Some (a, b).
Proof.
  intros Hb. induction a as [|c a IH]; [|by simpl; rewrite IH].
  change ("" +:+ String sep b) with (String sep b). simpl. rewrite CutLast_none by done. unfold is_char. by rewrite Ascii.eqb_refl.
Qed.

Lemma postgres_url_text user password host dbName sslmode : postgres_url user password host dbName sslmode =
  "postgres://" +:+ url_escape encodeUserPassword user +:+ ":" +:+ url_escape encodeUserPassword password +:+ "@"
    +:+ url_escape encodeHost host +:+ url_escape encodePath ("/" +:+ dbName) +:+ "?sslmode=" +:+ url_escape encodeQueryComponent sslmode.
Proof.
  unfold postgres_url, URL_String, EscapedPath, Userinfo_String. simpl. rewrite orb_true_r.
  assert (HasPrefix ("" +:+ url_escape encodePath ("" +:+ dbName)) "" = true) as -> by by destruct ("" +:+ _). simpl.
  rewrite <- !str_app_assoc, str_app_nil. reflexivity.
Qed.
(** A URL of the scheme with an authority, a path from the root and a query. *)
Lemma parse_url_parts parseHost authority path query :
  let raw := "postgres://" +:+ authority +:+ "/" +:+ path +:+ "?" +:+ query in
  all_chars (λ c, negb (is_control c)) raw = true → query ≠ "" →
  all_chars (λ c, negb (is_char "?" c)) authority = true → all_chars (λ c, negb (is_char "/" c)) authority = true →
  all_chars (λ c, negb (is_char "?" c)) path = true →
  parse_url parseHost raw =
    '(user, host) ← parseAuthority parseHost authority;
    '(path, raw) ← set_encoded encodePath ("/" +:+ path);
    Some (mkURL "postgres" "" user host path raw false false query "" "").
Proof.
  intros raw Hc Hq Ha Hs Hp. unfold parse_url. rewrite Hc. subst raw.
  assert (Cut "?" ("//" +:+ authority +:+ "/" +:+ path +:+ "?" +:+ query) = ("//" +:+ authority +:+ "/" +:+ path, Some query)) as Hcut.
  { rewrite <- (Cut_app "?" ("//" +:+ authority +:+ "/" +:+ path) query) by (rewrite !all_chars_app, Ha, Hp; reflexivity).
    by rewrite <- !str_app_assoc. }
  change ("postgres://" +:+ authority +:+ "/" +:+ path +:+ "?" +:+ query) with
    ("postgres" +:+ String ":" ("//" +:+ authority +:+ "/" +:+ path +:+ "?" +:+ query)).
  change ("postgres" +:+ String ":" ("//" +:+ authority +:+ "/" +:+ path +:+ "?" +:+ query) =? "*") with false.
  unfold getScheme. rewrite span_app by done. simpl. rewrite Hcut. destruct query as [|q query]; [done|]. simpl.
  assert (HasPrefix ("" +:+ authority +:+ "/" +:+ path) "" = true) as -> by by destruct ("" +:+ _).
  change ("" +:+ authority +:+ "/" +:+ path) with (authority +:+ String "/" path). rewrite span_app; [|done|done].
  reflexivity.
Qed.
Lemma parse_postgres_url parseHost user password host dbName sslmode : url_Parse parseHost (postgres_url user password host dbName sslmode) =
  host ← parseHost (url_escape encodeHost host);
  Some (mkURL "postgres" "" (Some (mkUserinfo user (Some password))) host ("/" +:+ dbName) "" false false
          ("sslmode=" +:+ url_escape encodeQueryComponent sslmode) "" "").
Proof.
  rewrite postgres_url_text. unfold url_Parse.
  rewrite Cut_none by (rewrite !all_chars_app, !url_escape_free by done; reflexivity).
  set (login := url_escape encodeUserPassword user +:+ String ":" (url_escape encodeUserPassword password)).
  replace ("postgres://" +:+ _) with ("postgres://" +:+ (login +:+ String "@" (url_escape encodeHost host)) +:+ "/" +:+ url_escape encodePath dbName +:+ "?" +:+
    ("sslmode=" +:+ url_escape encodeQueryComponent sslmode)) by (by unfold login; rewrite <- !str_app_assoc).
  rewrite parse_url_parts; [|unfold login..].
  - unfold parseAuthority. rewrite CutLast_app by by apply url_escape_free.
    destruct (parseHost (url_escape encodeHost host)) as [h|]; simpl; [|done].
    assert (validUserinfo login = true) as ->.
    { unfold validUserinfo, login. rewrite all_chars_app. simpl. by rewrite !url_escape_userinfo. }
    unfold login. rewrite Cut_app by by apply url_escape_free. simpl. rewrite !url_unescape_escape by done. simpl.
    unfold set_encoded. change ("/" +:+ url_escape encodePath dbName) with (url_escape encodePath ("/" +:+ dbName)).
    rewrite url_unescape_escape by done. cbv beta iota delta [mbind option_bind]. by rewrite String.eqb_refl.
  - rewrite !all_chars_app, !url_escape_printable. simpl. by rewrite !url_escape_printable.
  - done.
  - rewrite !all_chars_app, !url_escape_free by done. simpl. by rewrite !url_escape_free.
  - rewrite !all_chars_app, !url_escape_free by done. simpl. by rewrite !url_escape_free.
  - by apply url_escape_free.
Qed.

(** The redacted URL of a database that the PG* variables name. *)
Lemma redacted_postgres_url parseHost c user password host dbName sslmode :
  RedactedDatabaseURL parseHost (set_DatabaseURL (postgres_url user password host dbName sslmode) c) =
    match parseHost (url_escape encodeHost host) with
    | None => "[unparseable database URL]"
    | Some host => postgres_url user "***" host dbName sslmode
    end.
Proof. unfold RedactedDatabaseURL. simpl. rewrite parse_postgres_url. by destruct (parseHost _). Qed.

(** C29: what the tenancy manager logs of its configuration tells nothing of the database password: the
    configurations that Load returns in two environments that differ only in PGPASSWORD are the same
    but for the URL of the database, and have the same RedactedDatabaseURL, whatever characters
    the password has and however hosts are read.  When PGHOST and PGUSER are set, that is the URL
    with the user, the host, the database and the sslmode of the variables and [***] as the password,
    which is printed as %2A%2A%2A, or a constant text when the host cannot be parsed. *)
Theorem RedactedDatabaseURL_hides parseHost Getenv Getenv' ReadFile yaml_Unmarshal path :
  (∀ name, name ≠ "PGPASSWORD" → Getenv' name = Getenv name) →
  match Load Getenv ReadFile yaml_Unmarshal path with
  | inl err => Load Getenv' ReadFile yaml_Unmarshal path = inl err
  | inr c => ∃ c', Load Getenv' ReadFile yaml_Unmarshal path = inr c' ∧
      set_DatabaseURL "" c' = set_DatabaseURL "" c ∧ RedactedDatabaseURL parseHost c' = RedactedDatabaseURL parseHost c ∧
      (path ≠ "" → Getenv "PGHOST" ≠ "" → Getenv "PGUSER" ≠ "" → RedactedDatabaseURL parseHost c =
        match parseHost (url_escape encodeHost (Getenv "PGHOST" +:+ ":" +:+ or_else (Getenv "PGPORT") "5432")) with
        | None => "[unparseable database URL]"
        | Some host => postgres_url (Getenv "PGUSER") "***" host (or_else (Getenv "PGDATABASE") "tenancy") (or_else (Getenv "PGSSLMODE") "disable")
        end)
  end.
Proof.
  intros He. unfold Load, databaseURLFromEnv.
  rewrite (He "PGHOST"), (He "PGUSER"), (He "PGDATABASE"), (He "PGPORT"), (He "PGSSLMODE") by done.
  destruct (String.eqb_spec path "") as [->|Hp]; [by exists DefaultConfig|].
  destruct (ReadFile path) as [err|data]; [done|]. destruct (yaml_Unmarshal data DefaultConfig) as [err|c]; [done|].
  destruct (String.eqb_spec (Getenv "PGHOST") "") as [Hh|Hh]; cbn [orb]; [by exists c|].
  destruct (String.eqb_spec (Getenv "PGUSER") "") as [Hu|Hu]; cbn [orb]; [by exists c|].
  assert (∀ u p h d s, (postgres_url u p h d s =? "") = false) as Hne by (intros; by rewrite postgres_url_text).
  rewrite !Hne. eexists. split; [reflexivity|]. rewrite !redacted_postgres_url. split_and!; [reflexivity|reflexivity|intros _ _ _; reflexivity].
Qed.

(** A URL in another form is not redacted: of a list of keywords and values, which the driver takes
    too, the password is logged. *)
Lemma dsn_password_logged parseHost c : RedactedDatabaseURL parseHost (set_DatabaseURL "host=db user=u password=secret" c) =
  "host=db%20user=u%20password=secret".
Proof. vm_compute. reflexivity. Qed.
(** Neither is a password in the query of a URL. *)
Lemma query_password_logged c : RedactedDatabaseURL Some (set_DatabaseURL "postgres://db/tenancy?user=u&password=secret" c) =
  "postgres://db/tenancy?user=u&password=secret".
Proof. vm_compute. reflexivity. Qed.
