(* ===== verification/Status.v ===== *)
(** * Deriving a resource's status (tenancy-manager/internal/store/store.go)

    [DeriveStatusFromRows] computes the indication and the message the API
    reports for an org or a project from the rows its controllers wrote and the
    set of registered controllers. *)

From S2P Require Import Prelude GoStd EntSchema EntMutation.

Definition STATUS_ERROR : string := "STATUS_INDICATION_ERROR".
Definition STATUS_DELETED : string := "STATUS_INDICATION_DELETED".
Definition STATUS_IDLE : string := "STATUS_INDICATION_IDLE".
Definition STATUS_IN_PROGRESS : string := "STATUS_INDICATION_IN_PROGRESS".

(** [statusMap]: a later row of the same controller replaces an earlier one. *)
Definition statusMap (statuses : list ControllerStatus) : gmap string ControllerStatus :=
  foldl (λ m s, <[ControllerStatus_ControllerName s := s]> m) ∅ statuses.

Definition status_is (v : string) (s : ControllerStatus) : bool :=
  String.eqb (ControllerStatus_Status s) v.

(** The loop over the registered controllers of a deleted resource: the message
    of the first that reports an error, or the controllers still at work. *)
Fixpoint deleting_loop (m : gmap string ControllerStatus) (cs : list string)
    (delInProgress : list string) : string + list string :=
  match cs with
  | [] => inr delInProgress
  | c :: cs =>
      match m !! c with
      | None => deleting_loop m cs delInProgress
      | Some s => if status_is StatusError s then inl (ControllerStatus_Message s)
                  else deleting_loop m cs (delInProgress ++ [c])
      end
  end.

(** The loop of an active resource: pending and in-progress controllers. *)
Fixpoint active_loop (m : gmap string ControllerStatus) (cs : list string)
    (pending inProgress : list string) : string + list string * list string :=
  match cs with
  | [] => inr (pending, inProgress)
  | c :: cs =>
      match m !! c with
      | None => active_loop m cs (pending ++ [c]) inProgress
      | Some s => if status_is StatusError s then inl (ControllerStatus_Message s)
                  else active_loop m cs pending
                         (if status_is StatusInProgress s then inProgress ++ [c] else inProgress)
      end
  end.

Definition DeriveStatusFromRows (statuses : list ControllerStatus) (isDeleted : bool)
    (registeredControllers : list string) : string * string :=
  if (length registeredControllers =? 0)%nat then
    if isDeleted then (STATUS_DELETED, "") else (STATUS_IDLE, "")
  else
  let m := statusMap statuses in
  if isDeleted then
    if negb (existsb (λ c, bool_decide (is_Some (m !! c))) registeredControllers)
    then (STATUS_DELETED, "")
    else match deleting_loop m registeredControllers [] with
         | inl msg => (STATUS_ERROR, msg)
         | inr delInProgress =>
             (STATUS_IN_PROGRESS,
              if (0 <? length delInProgress)%nat
              then "deleting, waiting for: " +:+ Join delInProgress ", " else "")
         end
  else match active_loop m registeredControllers [] [] with
       | inl msg => (STATUS_ERROR, msg)
       | inr (pending, inProgress) =>
           if (0 <? length pending)%nat || (0 <? length inProgress)%nat then
             (STATUS_IN_PROGRESS,
              Join ((if (0 <? length pending)%nat then ["waiting for: " +:+ Join pending ", "] else []) ++
                    (if (0 <? length inProgress)%nat then ["in progress: " +:+ Join inProgress ", "] else []))
                   "; ")
           else (STATUS_IDLE, "")
       end.
