(* ===== verification/Store.v ===== *)
(** * The tenancy store (tenancy-manager/internal/store/store.go)

    Every operation of [Store], statement by statement: its transaction, its
    guards in the order of the code, its events.  A Go slice that may be nil is an
    [option (list _)]: [None] is nil, [Some []] the empty non-nil slice.  Log
    lines are left out. *)

From S2P Require Import Prelude GoStd Monad EntSchema Sqlgraph EntQuery EntMutation Config Status.

(** ** Ordering options: ent.Asc, ent.Desc *)

Definition Asc_Z {R} (f : R → Z) (x y : R) : bool := (f x <=? f y)%Z.
Definition Desc_Z {R} (f : R → Z) (x y : R) : bool := (f y <=? f x)%Z.
(** a nullable column: NULL sorts last *)
Definition Asc_opt {R} (f : R → option Z) (x y : R) : bool :=
  match f x, f y with
  | _, None => true
  | None, Some _ => false
  | Some a, Some b => (a <=? b)%Z
  end.
Definition Asc_text `{Driver} {R} (f : R → string) (x y : R) : bool := db_le (f x) (f y).

(** [wrap64]: arithmetic on int64. *)
Definition wrap64 (z : Z) : Z := ((z + 2 ^ 63) mod 2 ^ 64 - 2 ^ 63)%Z.

Record ReplayEvent := mkReplayEvent {
  re_EventType : string;
  re_ResourceType : string;
  re_ResourceID : UUID;
  re_ResourceName : string;
  re_OrgID : option UUID;
  re_OrgName : option string;
  re_FolderID : option UUID }.

Definition org_replay (event_type : string) (o : Org) : ReplayEvent :=
  mkReplayEvent event_type "org" (Org_ID o) (Org_Name o) None None None.
Definition project_replay (event_type : string) (p : ProjectNode) : ReplayEvent :=
  mkReplayEvent event_type "project" (Project_ID (project_row p)) (Project_Name (project_row p))
    (Org_ID <$> Project_org p) (Org_Name <$> Project_org p)
    ((λ f, Folder_ID (folder_row f)) <$> Project_Edges_Folder p).

Section store.
Context `{Driver} `{Runtime} `{UUIDLib} `{FieldValidators}.

(** [rollback(tx, err)], and [if err != nil { return rollback(tx, err) }] *)
Definition rollback {A} (err : error) : M A :=
  r ← try Tx_Rollback;
  match r with
  | inl rerr => fail (errWrap "" err (": " +:+ Error rerr))
  | inr _ => fail err
  end.
Definition orRollback {A} (m : M A) : M A :=
  r ← try m;
  match r with
  | inl e => rollback e
  | inr a => mret a
  end.

(** the [created]/[deleted] event of an org *)
Definition org_event (event_type : string) (o : Org) : TenancyEventMutation :=
  newTenancyEventMutation |> TenancyEvent_Set event_type "org" (Org_ID o) (Org_Name o).

(** *** Orgs *)

Definition CreateOrg (name description : string) : M Org :=
  _ ← Client_Tx;
  o ← orRollback (OrgCreate_Save (newOrgMutation |> Org_SetName name |> Org_SetDescription description));
  _ ← orRollback (FolderCreate_Save (newFolderMutation |> Folder_SetName "default" |> Folder_SetOrg o));
  _ ← orRollback (TenancyEventCreate_Save (org_event "created" o));
  _ ← Tx_Commit;
  mret o.

Definition GetOrgNamesByUUIDs (ids : list UUID) : M (gmap UUID string) :=
  if (length ids =? 0)%nat then mret ∅ else
  r ← try (OrgQuery_All (NewQuery |> Where [org_IDIn ids; org_DeletedAtIsNil]));
  match r with
  | inl err => fail (Errorf "querying orgs by UUID: " err)
  | inr orgs => mret (foldl (λ m o, <[Org_ID o := Org_Name o]> m) ∅ orgs)
  end.

Definition GetOrg (name : string) : M Org :=
  OrgQuery_Only (NewQuery |> Where [org_Name name; org_DeletedAtIsNil]).

Definition ListOrgs : M (list Org) :=
  OrgQuery_All (NewQuery |> Where [org_DeletedAtIsNil] |> Order [Asc_text Org_Name]).

Definition UpdateOrg (name description : string) : M Org :=
  _ ← Client_Tx;
  o ← orRollback (OrgQuery_Only (NewQuery |> Where [org_Name name; org_DeletedAtIsNil]));
  updated ← orRollback (OrgUpdateOne_Save o (newOrgMutation |> Org_SetDescription description));
  _ ← Tx_Commit;
  mret updated.

(** The body of the loop of [DeleteOrg] over the org's active projects. *)
Definition DeleteOrg_project (o : Org) (now : Time) (p : ProjectNode) : M () :=
  n ← orRollback (ProjectUpdate_Save
        [project_ID (Project_ID (project_row p)); project_DeletedAtIsNil]
        (newProjectMutation |> Project_SetDeletedAt now));
  if (n =? 0)%nat then mret () else
  let ev := newTenancyEventMutation
            |> TenancyEvent_Set "deleted" "project" (Project_ID (project_row p)) (Project_Name (project_row p))
            |> TenancyEvent_SetOrg (Org_ID o) (Org_Name o) in
  let ev := match Project_Edges_Folder p with
            | Some f => ev |> TenancyEvent_SetFolderID (Folder_ID (folder_row f))
            | None => ev
            end in
  _ ← orRollback (TenancyEventCreate_Save ev);
  mret ().
Fixpoint DeleteOrg_projects (o : Org) (now : Time) (ps : list ProjectNode) : M () :=
  match ps with
  | [] => mret ()
  | p :: ps => _ ← DeleteOrg_project o now p; DeleteOrg_projects o now ps
  end.

Definition DeleteOrg (name : string) : M () :=
  _ ← Client_Tx;
  o ← orRollback (OrgQuery_Only (NewQuery |> Where [org_Name name; org_DeletedAtIsNil]));
  activeProjects ← orRollback (ProjectQuery_All (NewProjectQuery
    |> ProjectQuery_Where [project_HasFolderWith [folder_HasOrgWith [org_ID (Org_ID o)]];
                           project_DeletedAtIsNil]
    |> WithFolder WithOrg));
  now ← Now;
  _ ← DeleteOrg_projects o now activeProjects;
  n ← orRollback (OrgUpdate_Save [org_ID (Org_ID o); org_DeletedAtIsNil]
                    (newOrgMutation |> Org_SetDeletedAt now));
  if (n =? 0)%nat then rollback (NotFoundError "") else
  _ ← orRollback (TenancyEventCreate_Save (org_event "deleted" o));
  Tx_Commit.

Definition GetOrgIncludingDeleted (name : string) : M Org :=
  OrgQuery_Only (NewQuery |> Where [org_Name name]).

(** *** Projects *)

Definition CreateProject (orgName projectName description : string) : M (ProjectNode * Org) :=
  _ ← Client_Tx;
  o ← orRollback (OrgQuery_Only (NewQuery |> Where [org_Name orgName; org_DeletedAtIsNil]));
  f ← orRollback (FolderQuery_Only (NewFolderQuery
        |> FolderQuery_Where [folder_Name "default"; folder_HasOrgWith [org_ID (Org_ID o)]]));
  p ← orRollback (ProjectCreate_Save (newProjectMutation |> Project_SetName projectName
        |> Project_SetDescription description |> Project_SetFolder f));
  _ ← orRollback (TenancyEventCreate_Save (newTenancyEventMutation
        |> TenancyEvent_Set "created" "project" (Project_ID (project_row p)) (Project_Name (project_row p))
        |> TenancyEvent_SetOrg (Org_ID o) (Org_Name o)
        |> TenancyEvent_SetFolderID (Folder_ID (folder_row f))));
  _ ← Tx_Commit;
  mret (p, o).

Definition GetProjectByID (id : UUID) : M (ProjectNode * option Org) :=
  p ← ProjectQuery_Only (NewProjectQuery
        |> ProjectQuery_Where [project_ID id; project_DeletedAtIsNil] |> WithFolder WithOrg);
  mret (p, Project_org p).

(** [orgNames != nil && len(orgNames) == 0] *)
Definition no_scope (orgNames : option (list string)) : bool :=
  match orgNames with Some [] => true | _ => false end.
(** [if len(orgNames) > 0 { q = q.Where(...) }] *)
Definition scoped (orgNames : option (list string)) (active : list (predicate Org))
    (q : ProjectQuery) : ProjectQuery :=
  match orgNames with
  | Some ((_ :: _) as ns) =>
      q |> ProjectQuery_Where [project_HasFolderWith [folder_HasOrgWith (org_NameIn ns :: active)]]
  | _ => q
  end.
Definition ambiguous (name : string) : error :=
  errText ("ambiguous project name " +:+ quote name +:+ " exists in multiple orgs").
(** [len(projects) == 0], [len(projects) > 1], [projects[0]] *)
Definition single_project (name : string) (projects : list ProjectNode) : error + ProjectNode :=
  match projects with
  | [] => inl (NotFoundError "")
  | [p] => inr p
  | _ => inl (ambiguous name)
  end.

Definition GetProject (name : string) (orgNames : option (list string)) : M (ProjectNode * option Org) :=
  if no_scope orgNames then fail (NotFoundError "") else
  let q := NewProjectQuery |> ProjectQuery_Where [project_Name name; project_DeletedAtIsNil]
           |> WithFolder WithOrg in
  let q := q |> scoped orgNames [org_DeletedAtIsNil] in
  projects ← ProjectQuery_All q;
  p ← of_result (single_project name projects);
  mret (p, Project_org p).

Definition ListProjects (orgNames : option (list string)) : M (list ProjectNode) :=
  if no_scope orgNames then mret [] else
  let q := NewProjectQuery |> ProjectQuery_Where [project_DeletedAtIsNil]
           |> WithFolder WithOrg |> ProjectQuery_Order [Asc_text Project_Name] in
  ProjectQuery_All (q |> scoped orgNames [org_DeletedAtIsNil]).

Definition UpdateProject (name : string) (orgNames : option (list string)) (description : string)
    : M (ProjectNode * option Org) :=
  if no_scope orgNames then fail (NotFoundError "") else
  _ ← Client_Tx;
  let q := NewProjectQuery |> ProjectQuery_Where [project_Name name; project_DeletedAtIsNil]
           |> WithFolder WithOrg |> scoped orgNames [org_DeletedAtIsNil] in
  projects ← orRollback (ProjectQuery_All q);
  p ← orRollback (of_result (single_project name projects));
  updated ← orRollback (ProjectUpdateOne_Save p (newProjectMutation |> Project_SetDescription description));
  _ ← Tx_Commit;
  mret (updated, Project_org p).

Definition DeleteProject (name : string) (orgNames : option (list string)) : M () :=
  if no_scope orgNames then fail (NotFoundError "") else
  _ ← Client_Tx;
  let q := NewProjectQuery |> ProjectQuery_Where [project_Name name; project_DeletedAtIsNil]
           |> WithFolder WithOrg |> scoped orgNames [org_DeletedAtIsNil] in
  projects ← orRollback (ProjectQuery_All q);
  p ← orRollback (of_result (single_project name projects));
  let o := Project_org p in
  now ← Now;
  n ← orRollback (ProjectUpdate_Save
        [project_ID (Project_ID (project_row p)); project_DeletedAtIsNil]
        (newProjectMutation |> Project_SetDeletedAt now));
  if (n =? 0)%nat then rollback (NotFoundError "") else
  let ev := newTenancyEventMutation
            |> TenancyEvent_Set "deleted" "project" (Project_ID (project_row p)) (Project_Name (project_row p)) in
  let ev := match o with
            | Some o => ev |> TenancyEvent_SetOrg (Org_ID o) (Org_Name o)
            | None => ev
            end in
  let ev := match Project_Edges_Folder p with
            | Some f => ev |> TenancyEvent_SetFolderID (Folder_ID (folder_row f))
            | None => ev
            end in
  _ ← orRollback (TenancyEventCreate_Save ev);
  Tx_Commit.

Definition GetProjectIncludingDeleted (name : string) (orgNames : option (list string))
    : M (ProjectNode * option Org) :=
  if no_scope orgNames then fail (NotFoundError "") else
  let q := NewProjectQuery |> ProjectQuery_Where [project_Name name] |> WithFolder WithOrg in
  projects ← ProjectQuery_All (q |> scoped orgNames []);
  p ← of_result (single_project name projects);
  mret (p, Project_org p).

(** *** Events *)

Definition GetEventsAfter (afterID : Z) (limit : Z) : M (list TenancyEvent) :=
  TenancyEventQuery_All (NewQuery |> Where [tenancyevent_IDGT afterID]
    |> Order [Asc_Z TenancyEvent_ID] |> Limit limit).

Definition MaxEventID : M Z :=
  r ← try (TenancyEventQuery_Only (NewQuery |> Order [Desc_Z TenancyEvent_ID] |> Limit 1));
  match r with
  | inl err => if IsNotFound err then mret 0%Z else fail err
  | inr e => mret (TenancyEvent_ID e)
  end.

(** The read statements of [SynthesizeReplayEvents], inside the transaction: the
    highest event id, then the four blocks of events. *)
Definition replay_max_id : M Z :=
  r ← try (TenancyEventQuery_First (NewQuery |> Order [Desc_Z TenancyEvent_ID]));
  match r with
  | inl err => if IsNotFound err then mret 0%Z else fail err
  | inr e => mret (TenancyEvent_ID e)
  end.
Definition SynthesizeReplayEvents_body : M (list ReplayEvent * Z) :=
  maxID ← replay_max_id;
  orgs ← OrgQuery_All (NewQuery |> Where [org_DeletedAtIsNil] |> Order [Asc_Z Org_CreatedAt]);
  let events := org_replay "created" <$> orgs in
  activeProjects ← ProjectQuery_All (NewProjectQuery |> ProjectQuery_Where [project_DeletedAtIsNil]
    |> WithFolder WithOrg |> ProjectQuery_Order [Asc_Z Project_CreatedAt]);
  let events := events ++ (project_replay "created" <$> activeProjects) in
  deletedProjects ← ProjectQuery_All (NewProjectQuery |> ProjectQuery_Where [project_DeletedAtNotNil]
    |> WithFolder WithOrg |> ProjectQuery_Order [Asc_opt Project_DeletedAt]);
  let events := events ++ (project_replay "deleted" <$> deletedProjects) in
  deletedOrgs ← OrgQuery_All (NewQuery |> Where [org_DeletedAtNotNil] |> Order [Asc_opt Org_DeletedAt]);
  let events := events ++ (org_replay "deleted" <$> deletedOrgs) in
  mret (events, maxID).
Definition SynthesizeReplayEvents : M (list ReplayEvent * Z) :=
  t ← try Client_Tx;
  match t with
  | inl err => fail (Errorf "begin replay transaction: " err)
  | inr _ => r ← try SynthesizeReplayEvents_body;
             _ ← try Tx_Rollback;      (* defer tx.Rollback() *)
             of_result r
  end.

(** *** Controller statuses *)

Definition status_key (controllerName resourceType : string) (resourceID : UUID)
    : list (predicate ControllerStatus) :=
  [controllerstatus_ControllerName controllerName; controllerstatus_ResourceType resourceType;
   controllerstatus_ResourceID resourceID].
Definition status_mutation (status message : string) : ControllerStatusMutation :=
  newControllerStatusMutation |> ControllerStatus_SetStatus status |> ControllerStatus_SetMessage message.

Definition UpsertControllerStatus (controllerName resourceType : string) (resourceID : UUID)
    (status message : string) : M () :=
  n ← ControllerStatusUpdate_Save (status_key controllerName resourceType resourceID)
        (status_mutation status message);
  if (0 <? n)%nat then mret () else
  r ← try (ControllerStatusCreate_Save
        (newControllerStatusMutation |> ControllerStatus_SetKey controllerName resourceType resourceID
         |> ControllerStatus_SetStatus status |> ControllerStatus_SetMessage message));
  match r with
  | inr _ => mret ()
  | inl err =>
      r2 ← try (ControllerStatusUpdate_Save (status_key controllerName resourceType resourceID)
                  (status_mutation status message));
      match r2 with
      | inl _ => fail err
      | inr n => if (0 <? n)%nat then mret () else fail err
      end
  end.

Definition DeleteControllerStatus (controllerName resourceType : string) (resourceID : UUID) : M () :=
  _ ← ControllerStatusDelete_Exec (status_key controllerName resourceType resourceID);
  mret ().

Definition GetControllerStatuses (resourceType : string) (resourceID : UUID) : M (list ControllerStatus) :=
  ControllerStatusQuery_All (NewQuery |> Where [controllerstatus_ResourceType resourceType;
                                                controllerstatus_ResourceID resourceID]).

Definition DeriveStatus (resourceType : string) (resourceID : UUID) (isDeleted : bool)
    (registeredControllers : list string) : M (string * string) :=
  r ← try (GetControllerStatuses resourceType resourceID);
  mret (match r with
        | inl err => (STATUS_ERROR, Error err)
        | inr statuses => DeriveStatusFromRows statuses isDeleted registeredControllers
        end).

(** *** Cleanup *)

Definition CleanupOldEvents (retention : Z) : M nat :=
  now ← Now;
  let cutoff := (now + wrap64 (- retention))%Z in
  TenancyEventDelete_Exec [tenancyevent_CreatedAtLT cutoff].

Definition hasNoRegisteredStatuses (resourceType : string) (resourceID : UUID)
    (controllers : list string) : M bool :=
  if (length controllers =? 0)%nat then mret true else
  r ← try (ControllerStatusQuery_Count (NewQuery |> Where
        [controllerstatus_ResourceType resourceType; controllerstatus_ResourceID resourceID;
         controllerstatus_ControllerNameIn controllers]));
  mret (match r with inl _ => false | inr count => (count =? 0)%nat end).

Definition cleanOrphanedStatuses (resourceType : string) (resourceID : UUID)
    (controllers : list string) : M () :=
  if (length controllers =? 0)%nat then mret () else
  _ ← try (ControllerStatusDelete_Exec
        [controllerstatus_ResourceType resourceType; controllerstatus_ResourceID resourceID;
         controllerstatus_ControllerNameNotIn controllers]);
  mret ().

(** The bodies of the two loops of [CleanupHardDelete]: failures are logged. *)
Definition hard_delete_project (projectControllers : list string) (p : ProjectNode) : M () :=
  ok ← hasNoRegisteredStatuses "project" (Project_ID (project_row p)) projectControllers;
  if negb ok then mret () else
  _ ← cleanOrphanedStatuses "project" (Project_ID (project_row p)) projectControllers;
  _ ← try (ProjectDeleteOneID_Exec (Project_ID (project_row p)));
  mret ().
Definition hard_delete_org (orgControllers : list string) (o : Org) : M () :=
  r ← try (ProjectQuery_Count (NewProjectQuery |> ProjectQuery_Where
        [project_HasFolderWith [folder_HasOrgWith [org_ID (Org_ID o)]]]));
  if (match r with inl _ => true | inr projectCount => (0 <? projectCount)%nat end) then mret () else
  ok ← hasNoRegisteredStatuses "org" (Org_ID o) orgControllers;
  if negb ok then mret () else
  _ ← cleanOrphanedStatuses "org" (Org_ID o) orgControllers;
  _ ← try (FolderDelete_Exec [folder_HasOrgWith [org_ID (Org_ID o)]]);
  _ ← try (OrgDeleteOneID_Exec (Org_ID o));
  mret ().
Fixpoint for_each {A} (f : A → M ()) (l : list A) : M () :=
  match l with
  | [] => mret ()
  | x :: l => _ ← f x; for_each f l
  end.

Definition CleanupHardDelete (cfg : Config) : M () :=
  deletedProjects ← ProjectQuery_All (NewProjectQuery |> ProjectQuery_Where [project_DeletedAtNotNil]);
  _ ← for_each (hard_delete_project (ControllersForResource cfg "project")) deletedProjects;
  deletedOrgs ← OrgQuery_All (NewQuery |> Where [org_DeletedAtNotNil]);
  for_each (hard_delete_org (ControllersForResource cfg "org")) deletedOrgs.

(** *** Bootstrap *)

Definition Bootstrap (orgName projectName : string) : M () :=
  if String.eqb orgName "" || String.eqb projectName "" then mret () else
  r ← try (GetOrg orgName);
  match r with
  | inr _ => mret ()
  | inl err =>
      if negb (IsNotFound err) then fail err else
      c ← try (CreateOrg orgName "Default organization");
      match c with
      | inl err => fail (Errorf "bootstrap org: " err)
      | inr _ =>
          p ← try (CreateProject orgName projectName "Default project");
          match p with
          | inl err => fail (Errorf "bootstrap project: " err)
          | inr _ => mret ()
          end
      end
  end.
End store.
