(* ===== verification/Memdb.v ===== *)
(** * An in-memory engine

    A deterministic implementation of the parameters of the model, which shows
    that their laws can hold together and on which the concrete runs are
    evaluated.  Tables are scanned in insertion order, queries sort by insertion,
    generated keys count up, and the statement of any chosen tick can be made to
    fail ([fails]). *)

From S2P Require Import Prelude GoStd Monad EntSchema Sqlgraph EntQuery EntMutation.
From Stdlib Require Import Ascii.

(** ** Sorting by a boolean comparison *)

Fixpoint insert_by {A} (le : A → A → bool) (x : A) (l : list A) : list A :=
  match l with
  | [] => [x]
  | y :: l' => if le x y then x :: l else y :: insert_by le x l'
  end.
Definition sort_by {A} (le : A → A → bool) (l : list A) : list A := foldr (insert_by le) [] l.

Lemma insert_by_perm {A} le (x : A) l : insert_by le x l ≡ₚ x :: l.
Proof.
  induction l as [|y l IH]; simpl; [done|]. destruct (le x y); [done|].
  rewrite IH. apply Permutation_swap.
Qed.

Lemma sort_by_perm {A} le (l : list A) : sort_by le l ≡ₚ l.
Proof. induction l as [|x l IH]; simpl; [done|]. by rewrite insert_by_perm, IH. Qed.

Lemma insert_by_sorted {A} (le : A → A → bool) x l :
  (∀ x y, le x y = true ∨ le y x = true) →
  Sorted (λ x y, le x y = true) l → Sorted (λ x y, le x y = true) (insert_by le x l).
Proof.
  intros Htot. induction 1 as [|y l Hs IH Hd]; simpl; [repeat constructor|].
  destruct (le x y) eqn:Hxy; [repeat constructor; auto|].
  constructor; [done|]. destruct (Htot x y) as [?|Hyx]; [congruence|].
  destruct l as [|z l]; simpl in *; [by constructor|].
  destruct (le x z); constructor; [done|]. by inversion Hd.
Qed.

Lemma sort_by_sorted {A} (le : A → A → bool) l :
  (∀ x y, le x y = true ∨ le y x = true) → Sorted (λ x y, le x y = true) (sort_by le l).
Proof. intros Htot. induction l; simpl; [constructor|]. by apply insert_by_sorted. Qed.

Lemma lex_le_total {R} (os : list (R → R → bool)) :
  (∀ o, o ∈ os → ordering o) → ∀ x y, lex_le os x y = true ∨ lex_le os y x = true.
Proof.
  induction os as [|o os IH]; intros Ho x y; simpl; [by left|].
  destruct (Ho o) as [Htot _]; [set_solver|].
  destruct (IH ltac:(set_solver) x y) as [H1|H1];
    destruct (Htot x y) as [H2|H2]; rewrite ?H1, ?H2;
    destruct (o x y), (o y x); simpl; auto; congruence.
Qed.

(** ** Byte-wise collation *)

Fixpoint str_le (s t : string) : bool :=
  match s, t with
  | EmptyString, _ => true
  | String _ _, EmptyString => false
  | String c s, String d t =>
      (code c <? code d)%nat || ((code c =? code d)%nat && str_le s t)
  end.

Lemma str_le_ordering : ordering str_le.
Proof.
  split.
  - induction x as [|c x IH]; intros [|d y]; simpl; auto.
    destruct (Nat.lt_total (code c) (code d)) as [?|[?|?]].
    + left. by rewrite (proj2 (Nat.ltb_lt _ _)).
    + destruct (IH y) as [->| ->]; [left|right]; apply orb_true_iff; right;
        rewrite andb_true_r; apply Nat.eqb_eq; lia.
    + right. by rewrite (proj2 (Nat.ltb_lt _ _)).
  - induction x as [|c x IH]; intros [|d y] [|e z]; simpl; try done.
    rewrite !orb_true_iff, !andb_true_iff, !Nat.ltb_lt, !Nat.eqb_eq.
    intros [?|[??]] [?|[??]]; [left; lia..|]. right. split; [lia|eauto].
Qed.

(** ** The engine *)

Definition max_serial {R} `{Table R} (l : list R) : Z :=
  foldr (λ r m, match serial r with Some k => Z.max k m | None => m end) 0%Z l.

Lemma max_serial_above {R} `{Table R} (l : list R) r k :
  r ∈ l → serial r = Some k → (k < max_serial l + 1)%Z.
Proof.
  induction l as [|x l IH]; simpl; [set_solver|]. intros Hin Hs.
  apply elem_of_cons in Hin as [->|Hin].
  - rewrite Hs. lia.
  - specialize (IH Hin Hs). destruct (serial x); lia.
Qed.

Section mem.
Context (fails : nat → option string).

Definition unless {A} (t : nat) (r : driver_error + A) : driver_error + A :=
  match fails t with Some msg => inl (DrvOther, msg) | None => r end.

Definition mem_query {R} `{Table R} (t : nat) (db : DB) (q : QuerySpec R) : driver_error + list R :=
  unless t (inr (let full := sort_by (lex_le (q_order q)) (matching (q_predicates q) db) in
                 match q_limit q with
                 | Some n => if (0 <? n)%Z then take (Z.to_nat n) full else full
                 | None => full
                 end)).
Definition mem_create {R} `{Table R} (t : nat) (db : DB) (row : Z → R) : driver_error + Z :=
  unless t (let n := (max_serial (rows db) + 1)%Z in
            match serial (row n) with
            | Some k => if (k =? n)%Z then
                          if insertable db (row n) then inr n
                          else inl (DrvConstraint, "duplicate key value violates unique constraint")
                        else inl (DrvOther, "bad serial")
            | None => if insertable db (row n) then inr n
                      else inl (DrvConstraint, "duplicate key value violates unique constraint")
            end).
Definition mem_delete_nodes {R} `{Table R} (t : nat) (db : DB) (ps : list (predicate R)) : driver_error + nat :=
  unless t (if existsb (referenced db) (matching ps db)
            then inl (DrvConstraint, "violates foreign key constraint")
            else inr (length (matching ps db))).

Definition MemDriver : Driver := {|
  drv_query := @mem_query;
  drv_count := λ R _ t db ps, unless t (inr (length (matching ps db)));
  drv_create := @mem_create;
  drv_update_nodes := λ R _ t db u, unless t (inr (length (matching (u_predicates u) db)));
  drv_delete_nodes := @mem_delete_nodes;
  drv_begin := λ t, (λ m, (DrvOther, m)) <$> fails t;
  drv_rollback := λ t, (λ m, (DrvOther, m)) <$> fails t;
  drv_commit := λ t, (λ m, ((DrvOther, m), false)) <$> fails t;
  db_le := str_le |}.

Lemma MemDriver_laws : @DriverLaws MemDriver.
Proof.
  split; simpl; unfold mem_query, mem_create, mem_delete_nodes, unless.
  - intros R T t db q rs Hq Ho _. destruct (fails t); simplify_eq.
    exists (sort_by (lex_le (q_order q)) (matching (q_predicates q) db)).
    split_and!; [apply sort_by_perm|by apply sort_by_sorted, lex_le_total|done].
  - intros R T t db q e He. destruct (fails t); by simplify_eq/=.
  - intros R T t db ps n Hn. destruct (fails t); by simplify_eq.
  - intros R T t db row n Hn. destruct (fails t); simplify_eq.
    destruct (serial (row _)) as [k|] eqn:Hs;
      [destruct (k =? _)%Z eqn:Hk|]; destruct (insertable _ _) eqn:Hi; simplify_eq;
      (split; [done|]); intros k0 r' k' Hk0 Hin Hr'; rewrite Hs in Hk0; simplify_eq.
    apply Z.eqb_eq in Hk. pose proof (max_serial_above _ _ _ Hin Hr'). lia.
  - intros R T t db row msg Hn. destruct (fails t); simplify_eq.
    exists (max_serial (rows db) + 1)%Z.
    repeat case_match; simplify_eq; (split; [done|]); intros; by eapply max_serial_above.
  - intros R T t db row msg Hn. repeat case_match; simplify_eq.
  - intros R T t db u n Hn. destruct (fails t); by simplify_eq.
  - intros R T t db u msg Hn. destruct (fails t); by simplify_eq.
  - intros R T t db ps n Hn. destruct (fails t); simplify_eq.
    destruct (existsb _ _) eqn:He; simplify_eq. split; [done|].
    intros r Hr. destruct (referenced db r) eqn:Href; [|done].
    assert (existsb (referenced db) (matching ps db) = true) as Ht.
    { apply existsb_exists. exists r. split; [by apply list_elem_of_In|done]. }
    congruence.
  - intros R T t db ps msg Hn. destruct (fails t); simplify_eq.
    destruct (existsb _ _) eqn:He; simplify_eq.
    apply existsb_exists in He as (r & Hr & ?). exists r. split; [by apply list_elem_of_In|done].
  - apply str_le_ordering.
Qed.
End mem.

(** No statement fails; the clock is the tick, UUIDs count up, nobody else
    writes. *)
Definition no_fail (_ : nat) : option string := None.
Definition MemRuntime : Runtime := {|
  rt_now := λ t, Z.of_nat t;
  rt_uuid := λ t, uuid_of_N (N.of_nat t + 1);
  rt_env := λ _ _ db, db |}.

(** The validators of the schema, and a textual form for the small UUIDs of the
    concrete runs. *)
Definition MemValidators : FieldValidators := {|
  field_MaxLen := λ n s, if (Z.of_nat (String.length s) <=? n)%Z then None
                         else Some (errText "value is greater than the required length");
  field_NotEmpty := λ s, if String.eqb s "" then Some (errText "value is less than the required length")
                         else None |}.

Lemma MemValidators_laws : @FieldValidatorsLaws MemValidators.
Proof.
  split; simpl; intros.
  - destruct (Z.leb_spec (Z.of_nat (String.length s)) n); split; intros; [done|done|done|lia].
  - repeat case_match; simplify_eq; eauto.
  - destruct (String.eqb_spec s ""); naive_solver.
  - repeat case_match; simplify_eq; eauto.
Qed.
