(* ===== verification/Backend.v ===== *)
(** * The store interface of the API (tenancy-manager/internal/api/api.go)

    [StoreBackend] is the Go interface [storeBackend], the two smaller interfaces
    it embeds included: the handlers and the middlewares are written against it.
    [Store_backend] is the assertion that [store.Store] implements it. *)

From S2P Require Import Prelude GoStd Monad EntSchema Sqlgraph EntQuery EntMutation Config Store.

Class StoreBackend := {
  (** [OrgNameResolver] *)
  sb_GetOrgNamesByUUIDs : list UUID → M (gmap UUID string);
  (** [ProjectDeletionChecker] *)
  sb_GetOrgIncludingDeleted : string → M Org;
  sb_GetProjectIncludingDeleted : string → option (list string) → M (ProjectNode * option Org);
  sb_ListOrgs : M (list Org);
  sb_GetOrg : string → M Org;
  sb_CreateOrg : string → string → M Org;
  sb_UpdateOrg : string → string → M Org;
  sb_DeleteOrg : string → M ();
  sb_ListProjects : option (list string) → M (list ProjectNode);
  sb_GetProject : string → option (list string) → M (ProjectNode * option Org);
  sb_CreateProject : string → string → string → M (ProjectNode * Org);
  sb_UpdateProject : string → option (list string) → string → M (ProjectNode * option Org);
  sb_DeleteProject : string → option (list string) → M ();
  sb_GetProjectByID : UUID → M (ProjectNode * option Org);
  sb_GetEventsAfter : Z → Z → M (list TenancyEvent);
  sb_SynthesizeReplayEvents : M (list ReplayEvent * Z);
  sb_UpsertControllerStatus : string → string → UUID → string → string → M ();
  sb_DeleteControllerStatus : string → string → UUID → M ();
  sb_DeriveStatus : string → UUID → bool → list string → M (string * string);
  (** [time.Now()], for the handlers *)
  sb_Now : M Time }.

#[export] Instance Store_backend `{Driver} `{Runtime} `{UUIDLib} `{FieldValidators} : StoreBackend := {|
  sb_GetOrgNamesByUUIDs := GetOrgNamesByUUIDs;
  sb_GetOrgIncludingDeleted := GetOrgIncludingDeleted;
  sb_GetProjectIncludingDeleted := GetProjectIncludingDeleted;
  sb_ListOrgs := ListOrgs;
  sb_GetOrg := GetOrg;
  sb_CreateOrg := CreateOrg;
  sb_UpdateOrg := UpdateOrg;
  sb_DeleteOrg := DeleteOrg;
  sb_ListProjects := ListProjects;
  sb_GetProject := GetProject;
  sb_CreateProject := CreateProject;
  sb_UpdateProject := UpdateProject;
  sb_DeleteProject := DeleteProject;
  sb_GetProjectByID := GetProjectByID;
  sb_GetEventsAfter := GetEventsAfter;
  sb_SynthesizeReplayEvents := SynthesizeReplayEvents;
  sb_UpsertControllerStatus := UpsertControllerStatus;
  sb_DeleteControllerStatus := DeleteControllerStatus;
  sb_DeriveStatus := DeriveStatus;
  sb_Now := Now |}.
