(* ===== verification/Http.v ===== *)
(** * HTTP requests, responses and JSON values

    What the handlers of tenancy-manager/internal/api see of a request and what they
    write: the request record ([net/http] and chi), the decoded JSON body
    ([encoding/json] over at most 64 KB), and the responses of api.go and types.go;
    and the multiplexer of net/http, [ServeMux], as far as the services here rely on it. *)

From S2P Require Import Prelude GoStd Monad EntSchema Sqlgraph EntQuery EntMutation Config.
From Stdlib Require Import Ascii.

(** ** JSON *)

#[local] Unset Elimination Schemes.
Inductive JSON :=
  | JNull
  | JBool (b : bool)
  | JNum (n : Z)
  | JStr (s : string)
  | JArr (l : list JSON)
  | JObj (fields : list (string * JSON)).
#[local] Set Elimination Schemes.

(** [m[key]] of a decoded object: the last member of the name. *)
Definition member (key : string) (fields : list (string * JSON)) : option JSON :=
  foldl (λ acc f, if String.eqb f.1 key then Some f.2 else acc) None fields.

(** Type assertions on [interface{}] values. *)
Definition as_object (j : option JSON) : option (list (string * JSON)) :=
  match j with Some (JObj fields) => Some fields | _ => None end.
Definition as_array (j : option JSON) : option (list JSON) :=
  match j with Some (JArr l) => Some l | _ => None end.
Definition as_string (j : option JSON) : option string :=
  match j with Some (JStr s) => Some s | _ => None end.

(** The outcome of reading the body and parsing its first JSON value: nothing at
    all, too large or malformed, or a value. *)
Inductive Body := BodyEOF | BodyInvalid | BodyJSON (j : JSON).

(** ** Requests *)

Definition MethodGet : string := "GET".
Definition MethodPut : string := "PUT".
Definition MethodDelete : string := "DELETE".

(** auth.go, [AuthContext]. *)
Record AuthContext := mkAuthContext {
  Username : string;
  Roles : list string;
  OrgUUIDs : list UUID;
  OrgNames : list string }.

(** [r_auth] is the value stored under [authContextKey]; [r_name] and [r_id] are
    the chi URL parameters, the empty string when the route has none. *)
Record Request := mkRequest {
  r_method : string;
  r_path : string;
  r_name : string;
  r_id : string;
  r_query : list (string * string);
  r_header : list (string * string);
  r_body : Body;
  r_auth : option AuthContext }.

Definition with_auth (ac : AuthContext) (r : Request) : Request :=
  mkRequest (r_method r) (r_path r) (r_name r) (r_id r) (r_query r) (r_header r) (r_body r) (Some ac).
Definition with_params (name id : string) (r : Request) : Request :=
  mkRequest (r_method r) (r_path r) name id (r_query r) (r_header r) (r_body r) (r_auth r).

(** [url.Values.Get], [http.Header.Get]: the first value, or the empty string. *)
Fixpoint Get (l : list (string * string)) (key : string) : string :=
  match l with
  | [] => ""
  | (k, v) :: l => if String.eqb k key then v else Get l key
  end.
Definition Query_Get (r : Request) (key : string) : string := Get (r_query r) key.
Definition Header_Get (r : Request) (key : string) : string := Get (r_header r) key.

(** ** Responses (types.go) *)

Record StatusDetail := mkStatusDetail {
  sd_StatusIndicator : string; sd_Message : string; sd_TimeStamp : Z; sd_UID : string }.
Record OrgResponse := mkOrgResponse {
  or_Name : string; or_Description : string; or_Status : StatusDetail }.
Record ProjectResponse := mkProjectResponse {
  pr_Name : string; pr_OrgName : string; pr_Description : string; pr_Status : StatusDetail }.
Record EventResponse := mkEventResponse {
  er_ID : Z; er_EventType : string; er_ResourceType : string; er_ResourceID : UUID;
  er_ResourceName : string; er_OrgID : option UUID; er_OrgName : option string;
  er_FolderID : option UUID; er_CreatedAt : Time }.
Record EventsResponse := mkEventsResponse { es_Events : list EventResponse; es_LastEventID : Z }.

Inductive Payload :=
  | NoBody
  | ErrorBody (msg : string)
  | OrgBody (o : OrgResponse)
  | OrgsBody (l : list OrgResponse)
  | ProjectBody (p : ProjectResponse)
  | ProjectsBody (l : list ProjectResponse)
  | EventsBody (e : EventsResponse).
Record Response := mkResponse { StatusCode : Z; payload : Payload }.

Definition StatusOK : Z := 200%Z.
Definition StatusBadRequest : Z := 400%Z.
Definition StatusUnauthorized : Z := 401%Z.
Definition StatusForbidden : Z := 403%Z.
Definition StatusNotFound : Z := 404%Z.
Definition StatusMethodNotAllowed : Z := 405%Z.
Definition StatusConflict : Z := 409%Z.
Definition StatusInternalServerError : Z := 500%Z.

Definition writeError (status : Z) (msg : string) : Response := mkResponse status (ErrorBody msg).
Definition writeJSON (status : Z) (p : Payload) : Response := mkResponse status p.

(** An [http.Handler] over the store's world, and a middleware. *)
Definition Handler := Request → M Response.
Definition Middleware := Handler → Handler.

(** [time.Time.Unix]: whole seconds. *)
Definition Unix (t : Time) : Z := (t / 1000000000)%Z.

Section responses.
Context `{UUIDLib}.

Definition toOrgResponse (o : Org) (status message : string) : OrgResponse :=
  mkOrgResponse (Org_Name o) (Org_Description o)
    (mkStatusDetail status message (Unix (Org_UpdatedAt o)) (uuid_String (Org_ID o))).
Definition toProjectResponse (p : Project) (orgName status message : string) : ProjectResponse :=
  mkProjectResponse (Project_Name p) orgName (Project_Description p)
    (mkStatusDetail status message (Unix (Project_UpdatedAt p)) (uuid_String (Project_ID p))).
End responses.

(** ** Request bodies *)

(** Decoding a JSON object into a struct: every member whose name matches a field up
    to case is assigned in turn, [null] assigns nothing, a value of the wrong type is
    an error.  A body that is neither an object nor [null] is an error. *)
Definition decode_string (key : string) (fields : list (string * JSON)) : option string :=
  foldl (λ acc f, match acc with
                  | None => None
                  | Some v => if EqualFold f.1 key
                              then match f.2 with JStr s => Some s | JNull => Some v | _ => None end
                              else Some v
                  end) (Some "") fields.

Section bodies.
Context `{UUIDLib}.

(** [uuid.UUID] decodes from a string by [uuid.Parse]. *)
Definition decode_uuid (key : string) (fields : list (string * JSON)) : option UUID :=
  foldl (λ acc f, match acc with
                  | None => None
                  | Some v => if EqualFold f.1 key
                              then match f.2 with JStr s => uuid_Parse s | JNull => Some v | _ => None end
                              else Some v
                  end) (Some uuid_Nil) fields.

(** [decodeBody]: [None] is the 400 answer; an empty body leaves the zero value. *)
Definition decodeBody {A} (b : Body) (decode : list (string * JSON) → option A) : option A :=
  match b with
  | BodyEOF | BodyJSON JNull => decode []
  | BodyJSON (JObj fields) => decode fields
  | _ => None
  end.

Record StatusUpdateRequest := mkStatusUpdateRequest {
  su_Controller : string; su_ResourceType : string; su_ResourceID : UUID;
  su_Status : string; su_Message : string }.
Record StatusDeleteRequest := mkStatusDeleteRequest {
  sx_Controller : string; sx_ResourceType : string; sx_ResourceID : UUID }.

Definition decode_description (fields : list (string * JSON)) : option string :=
  decode_string "description" fields.
Definition decode_status_update (fields : list (string * JSON)) : option StatusUpdateRequest :=
  c ← decode_string "controller" fields;
  rt ← decode_string "resourceType" fields;
  id ← decode_uuid "resourceId" fields;
  s ← decode_string "status" fields;
  g ← decode_string "message" fields;
  Some (mkStatusUpdateRequest c rt id s g).
Definition decode_status_delete (fields : list (string * JSON)) : option StatusDeleteRequest :=
  c ← decode_string "controller" fields;
  rt ← decode_string "resourceType" fields;
  id ← decode_uuid "resourceId" fields;
  Some (mkStatusDeleteRequest c rt id).
End bodies.

(** ** Requests the program sends *)

Inductive ReqBody := NoReqBody | FormBody (form : string) | JSONBody (j : JSON).
Record HTTPRequest := mkHTTPRequest {
  hq_Method : string; hq_URL : string; hq_Header : list (string * string); hq_Body : ReqBody }.
(** [hp_Text] is the body as it is, [hp_Body] what a JSON decoder finds in it. *)
Record HTTPReply := mkHTTPReply {
  hp_StatusCode : Z; hp_Status : string; hp_ContentLength : Z; hp_Text : string; hp_Body : Body }.

Definition MethodPost : string := "POST".
Definition StatusNoContent : Z := 204%Z.

(** Into a struct; [null] leaves it as it is. *)
Definition decode_struct {A} (f : list (string * JSON) → option A) (j : JSON) : option A :=
  match j with JObj fields => f fields | JNull => f [] | _ => None end.

(** ** The JSON of the answers (types.go, and the encoder's tags) *)

Section encoding.
(** [json_Time] is [time.Time.MarshalJSON], in the location the driver gives the time. *)
Context `{UUIDLib} (json_Time : Time → JSON).

Definition json_detail (d : StatusDetail) : JSON :=
  JObj [("statusIndicator", JStr (sd_StatusIndicator d)); ("message", JStr (sd_Message d));
        ("timeStamp", JNum (sd_TimeStamp d)); ("uID", JStr (sd_UID d))].
Definition json_spec (description : string) : JSON := JObj [("description", JStr description)].
Definition json_org (o : OrgResponse) : JSON :=
  JObj [("name", JStr (or_Name o)); ("spec", json_spec (or_Description o));
        ("status", JObj [("orgStatus", json_detail (or_Status o))])].
Definition json_project (p : ProjectResponse) : JSON :=
  JObj [("name", JStr (pr_Name p)); ("orgName", JStr (pr_OrgName p)); ("spec", json_spec (pr_Description p));
        ("status", JObj [("projectStatus", json_detail (pr_Status p))])].
(** a pointer: null when nil *)
Definition json_pointer {A} (f : A → string) (o : option A) : JSON :=
  match o with Some a => JStr (f a) | None => JNull end.
Definition json_event (e : EventResponse) : JSON :=
  JObj [("id", JNum (er_ID e)); ("eventType", JStr (er_EventType e)); ("resourceType", JStr (er_ResourceType e));
        ("resourceId", JStr (uuid_String (er_ResourceID e))); ("resourceName", JStr (er_ResourceName e));
        ("orgId", json_pointer uuid_String (er_OrgID e)); ("orgName", json_pointer id (er_OrgName e));
        ("folderId", json_pointer uuid_String (er_FolderID e)); ("createdAt", json_Time (er_CreatedAt e))].
(** What [writeJSON] and [writeError] put in the body. *)
Definition encode_payload (p : Payload) : Body :=
  match p with
  | NoBody => BodyEOF
  | ErrorBody msg => BodyJSON (JObj [("error", JStr msg)])
  | OrgBody o => BodyJSON (json_org o)
  | OrgsBody l => BodyJSON (JArr (json_org <$> l))
  | ProjectBody p => BodyJSON (json_project p)
  | ProjectsBody l => BodyJSON (JArr (json_project <$> l))
  | EventsBody e => BodyJSON (JObj [("events", JArr (json_event <$> es_Events e));
                                    ("lastEventId", JNum (es_LastEventID e))])
  end.
End encoding.

(** ** The multiplexer of net/http

    [http.ServeMux] of the services without chi: it redirects a path that is not in
    canonical form, before any handler sees the request, and else compares the segments of
    the path, each with its escapes undone, with those of the patterns. *)

(** The path as it is in the URL, escapes and all: without empty segments, "." and "..". *)
Definition clean_segment (segments : list string) (s : string) : list string :=
  if String.eqb s "" || String.eqb s "." then segments
  else if String.eqb s ".." then tail segments
  else s :: segments.
Definition cleanPath (path : string) : string :=
  let np := "/" +:+ Join (rev (foldl clean_segment [] (Split path "/"))) "/" in
  if String.eqb (List.last (Split path "/") "") "" && negb (String.eqb np "/") then np +:+ "/" else np.
Definition redirects (method path : string) : bool :=
  negb (String.eqb method "CONNECT") && negb (String.eqb (cleanPath path) path).
Definition path_segments (path : string) : list string :=
  (λ s, default s (url_unescape s)) <$> tail (Split path "/").

(** The status of the redirect, with its text, depends on the version of the library; where
    to: the canonical path and the query, in the form of net/url. *)
Class ServeMuxLib := {
  redirect_Status : Z; redirect_Text : string;
  redirect_known : (redirect_Status, redirect_Text) ∈ [(301%Z, "Moved Permanently"); (307%Z, "Temporary Redirect")];
  redirect_URL : string → list (string * string) → string }.
