(* ===== verification/Logic.v ===== *)
(** * A program logic for the store

    The rules of the primitive calls for a lawful driver when nobody else writes
    ([Quiet]), and the judgements on transactions that hold whatever the other connections
    do: [InTx] (inside), [Stays] (inside, rolled back on error), [Ends] (over at the
    end) and [Atomic].  A COMMIT may report an error though the server carried it out
    ([lost_commit]). *)

From S2P Require Import Prelude GoStd Monad EntSchema Sqlgraph EntQuery EntMutation Store.

Lemma wp_guard_check {A} c (m : M A) (Q : error + A → World → Prop) w :
  (∀ e, c = Some e → Q (inl e) w) → (c = None → wp m Q w) → wp (guard_check c m) Q w.
Proof. destruct c; unfold guard_check; intros He Hm; [by apply wp_fail, He|by apply Hm]. Qed.

(** Every error of [rollback] keeps the original one on its chain. *)
Definition rolled (e e' : error) : Prop := e' = e ∨ ∃ post, e' = errWrap "" e post.

Lemma rolled_IsNotFound e e' : rolled e e' → IsNotFound e' = IsNotFound e.
Proof. by intros [->|[? ->]]. Qed.
Lemma rolled_IsConstraintError e e' : rolled e e' → IsConstraintError e' = IsConstraintError e.
Proof. by intros [->|[? ->]]. Qed.

(** ** Rules of the primitives when nobody else writes *)

Class Quiet `{Runtime} : Prop := quiet : ∀ t tx db, rt_env t tx db = db.

Definition viewof (db : DB) (tx : option (list (DB → DB))) : DB :=
  match tx with Some effs => apply_effects effs db | None => db end.
(** Applied to the rows it saw, the effect of a statement is on all that match. *)
Lemma update_rows_ext {R} p q (f : R → R) l : (∀ r, r ∈ l → p r = q r) → update_rows p f l = update_rows q f l.
Proof.
  intros Hp. apply list_fmap_ext. intros i r Hr%list_elem_of_lookup_2. by rewrite (Hp _ Hr).
Qed.
Lemma seen_matching_spec {R} `{Table R} ps db (r : R) : seen_matching ps db r = true ↔ r ∈ matching ps db.
Proof. unfold seen_matching. by rewrite bool_decide_eq_true. Qed.
Lemma seen_matching_now {R} `{Table R} ps db (r : R) : r ∈ rows db → seen_matching ps db r = holds ps db r.
Proof.
  intros Hr. apply eq_true_iff_eq. rewrite seen_matching_spec. unfold matching. rewrite elem_of_select. naive_solver.
Qed.
Lemma update_seen_now {R} `{Table R} (u : UpdateSpec R) db : update_seen u db db = update_matching u db.
Proof. apply over_rows_ext, update_rows_ext, seen_matching_now. Qed.
Lemma delete_seen_now {R} `{Table R} (ps : list (predicate R)) db : delete_seen ps db db = delete_matching ps db.
Proof. apply over_rows_ext, select_ext. intros r Hr. by rewrite seen_matching_now. Qed.

(** The rows an UPDATE has written, when the WHERE is that of a key it keeps. *)
Lemma matching_updated {R} `{Table R} (u : UpdateSpec R) db :
  (∀ d d' r, holds (u_predicates u) d' (u_set u r) = holds (u_predicates u) d r) →
  matching (u_predicates u) (update_matching u db) = u_set u <$> matching (u_predicates u) db.
Proof.
  intros Hkey. unfold matching at 1. unfold update_matching. rewrite rows_over. unfold matching, update_rows.
  set (db' := over_rows _ db). clearbody db'. induction (rows db) as [|r l IH]; [done|]. cbn [fmap list_fmap select].
  destruct (holds (u_predicates u) db r) eqn:Hr.
  - rewrite (Hkey db db'), Hr. cbn [fmap list_fmap]. by rewrite IH.
  - rewrite <- (Hkey db' db'), (Hkey db db'), Hr. apply IH.
Qed.

Lemma apply_effects_snoc effs f db : apply_effects (effs ++ [f]) db = f (apply_effects effs db).
Proof. unfold apply_effects. by rewrite foldl_app. Qed.
Lemma local_tx_inside `{Driver} `{Runtime} {A} (m : M A) (Q : error + A → World → Prop) w :
  is_Some (w_tx w) → wp (local_tx m) Q w ↔ wp m Q w.
Proof. intros [effs Hw]. unfold wp, local_tx. by rewrite Hw. Qed.

(** the world after an effect *)
Definition effected (f : DB → DB) (db : DB) (tx : option (list (DB → DB))) (t : nat) : World :=
  match tx with
  | Some effs => mkWorld db (Some (effs ++ [f])) t
  | None => mkWorld (f db) None t
  end.

(** A COMMIT that the server carried out, whose answer was lost on the way: the client sees the
    error. *)
Definition lost_commit `{Driver} (e : error) : Prop := ∃ t k, drv_commit t = Some (k, true) ∧ e = drv_error k.
Lemma lost_not_found `{Driver} e : lost_commit e → IsNotFound e = false.
Proof. by intros (t & k & _ & ->). Qed.
(** The outcome of a transaction that changes the database as [done] says: on an error it is as it
    was, as [failed] says, or the answer of the COMMIT was lost and the change is there. *)
Definition all_or_nothing `{Driver} {A} (db : DB) (failed : error → Prop) (done : A → DB → Prop) (r : error + A) (db' : DB) : Prop :=
  match r with
  | inr a => done a db'
  | inl e => (db' = db ∧ failed e) ∨ (lost_commit e ∧ ∃ a, done a db')
  end.
Section quiet.
Context `{Driver} `{Runtime} `{!DriverLaws} `{!Quiet}.
Implicit Types (db : DB) (tx : option (list (DB → DB))) (t : nat).

Lemma wp_outside {A} (f : nat → World → (error + A) * World) (Q : error + A → World → Prop) db tx t :
  Q (f t (mkWorld db tx (S t))).1 (f t (mkWorld db tx (S t))).2 →
  wp (outside f) Q (mkWorld db tx t).
Proof. unfold wp, outside. simpl. by rewrite quiet. Qed.

Lemma wp_Now (Q : error + Time → World → Prop) db tx t :
  (∀ v, Q (inr v) (mkWorld db tx (S t))) → wp Now Q (mkWorld db tx t).
Proof. intros HQ. by apply wp_outside, HQ. Qed.
Lemma wp_NewUUID (Q : error + UUID → World → Prop) db tx t :
  (∀ v, Q (inr v) (mkWorld db tx (S t))) → wp NewUUID Q (mkWorld db tx t).
Proof. intros HQ. by apply wp_outside, HQ. Qed.

Lemma wp_QueryNodes {R} `{Table R} (q : QuerySpec R) (Q : error + list R → World → Prop) db tx t :
  (∀ o, o ∈ q_order q → ordering o) →
  match q_limit q with Some n => (0 < n)%Z | None => True end →
  (∀ rs, query_result (viewof db tx) q rs → Q (inr rs) (mkWorld db tx (S t))) →
  (∀ msg, Q (inl (errDriver DrvOther msg)) (mkWorld db tx (S t))) →
  wp (QueryNodes q) Q (mkWorld db tx t).
Proof.
  intros Ho Hl HQ He. apply wp_outside. unfold view; simpl.
  fold (viewof db tx). destruct (drv_query t (viewof db tx) q) as [[k msg]|rs] eqn:Hq; simpl.
  - pose proof (query_err _ _ _ _ _ Hq) as Hk. simpl in Hk. subst. apply He.
  - apply HQ. by eapply query_ok.
Qed.

Lemma wp_CountNodes {R} `{Table R} (ps : list (predicate R)) (Q : error + nat → World → Prop) db tx t :
  Q (inr (length (matching ps (viewof db tx)))) (mkWorld db tx (S t)) →
  (∀ e, Q (inl (drv_error e)) (mkWorld db tx (S t))) →
  wp (CountNodes ps) Q (mkWorld db tx t).
Proof.
  intros HQ He. apply wp_outside. unfold view; simpl. fold (viewof db tx).
  destruct (drv_count t (viewof db tx) ps) as [e|n] eqn:Hq; simpl; [apply He|].
  apply count_ok in Hq as ->. done.
Qed.

Lemma wp_statement {A} (call : nat → DB → driver_error + A) (eff : A → DB → DB → DB)
    (Q : error + A → World → Prop) db tx t :
  (∀ e, call t (viewof db tx) = inl e → Q (inl (drv_error e)) (mkWorld db tx (S t))) →
  (∀ a, call t (viewof db tx) = inr a → Q (inr a) (effected (eff a (viewof db tx)) db tx (S t))) →
  wp (statement call eff) Q (mkWorld db tx t).
Proof.
  intros He HQ. apply wp_outside. unfold view; simpl. fold (viewof db tx).
  destruct (call t (viewof db tx)) as [e|a] eqn:Hc; simpl; [by apply He|].
  specialize (HQ _ eq_refl). unfold effect, effected in *. simpl. by destruct tx.
Qed.

(** the key a creation gets is above every visible one *)
Definition fresh_key {R} `{Table R} (db : DB) (r : R) : Prop :=
  ∀ k r' k', serial r = Some k → r' ∈ rows db → serial r' = Some k' → (k' < k)%Z.

Lemma wp_CreateNode {R} `{Table R} (row : Z → R) (Q : error + Z → World → Prop) db tx t :
  (∀ n, insertable (viewof db tx) (row n) = true → fresh_key (viewof db tx) (row n) →
    Q (inr n) (effected (insert_row (row n)) db tx (S t))) →
  (∀ msg, (∃ n, insertable (viewof db tx) (row n) = false ∧
             ∀ r' k', r' ∈ rows (viewof db tx) → serial r' = Some k' → (k' < n)%Z) →
    Q (inl (errDriver DrvConstraint msg)) (mkWorld db tx (S t))) →
  (∀ msg, Q (inl (errDriver DrvOther msg)) (mkWorld db tx (S t))) →
  wp (CreateNode row) Q (mkWorld db tx t).
Proof.
  intros HQ Hc Ho. apply wp_statement.
  - intros [[] msg] He; [apply Hc; by eapply create_constraint|by apply create_not_found in He|apply Ho].
  - intros n Hn. apply create_ok in Hn as [Hi Hf]. by apply HQ.
Qed.

Lemma wp_UpdateNodes {R} `{Table R} (u : UpdateSpec R) (Q : error + nat → World → Prop) db tx t :
  (∀ f, f (viewof db tx) = update_matching u (viewof db tx) →
    Q (inr (length (matching (u_predicates u) (viewof db tx)))) (effected f db tx (S t))) →
  (∀ k msg, k ≠ DrvNotFound → Q (inl (errDriver k msg)) (mkWorld db tx (S t))) →
  wp (UpdateNodes u) Q (mkWorld db tx t).
Proof.
  intros HQ He. apply wp_statement.
  - intros [k msg] Hu. apply (He k msg). intros ->. by apply update_nodes_not_found in Hu.
  - intros n Hn. apply update_nodes_ok in Hn as ->. apply HQ, update_seen_now.
Qed.

(** Inside a transaction: the one row that the WHERE of the key finds before and after. *)
Lemma wp_UpdateNode {R} `{Table R} (u : UpdateSpec R) (Q : error + R → World → Prop) db effs t :
  (∀ d d' r, holds (u_predicates u) d' (u_set u r) = holds (u_predicates u) d r) →
  let v := apply_effects effs db in
  (∀ r0 f t', r0 ∈ matching (u_predicates u) v → f v = update_matching u v →
    Q (inr (u_set u r0)) (mkWorld db (Some (effs ++ [f])) t')) →
  (∀ k msg effs' t', (k = DrvNotFound → matching (u_predicates u) v = []) →
    Q (inl (errDriver k msg)) (mkWorld db (Some effs') t')) →
  wp (UpdateNode u) Q (mkWorld db (Some effs) t).
Proof.
  intros Hkey v HQ He. unfold UpdateNode. rewrite local_tx_inside by by eexists.
  apply wp_bind, wp_UpdateNodes; simpl.
  2: { intros k msg Hk. by apply He. }
  intros f Hf. apply wp_bind, wp_QueryNodes; simpl; [set_solver|done|..].
  2: { intros msg. by apply He. }
  intros rs (full & Hfull & _ & ->). simpl in *. rewrite apply_effects_snoc, Hf, matching_updated in Hfull by done. fold v in Hfull.
  destruct full as [|r full]; simpl.
  - apply wp_fail, He. intros _. symmetry in Hfull. by apply Permutation_nil_r, fmap_nil_inv in Hfull.
  - apply wp_ret. assert (r ∈ u_set u <$> matching (u_predicates u) v) as (r0 & -> & ?)%list_elem_of_fmap by (rewrite <- Hfull; left).
    by apply HQ.
Qed.

Lemma wp_DeleteNodes {R} `{Table R} (ps : list (predicate R)) (Q : error + nat → World → Prop) db tx t :
  (∀ f, (∀ r, r ∈ matching ps (viewof db tx) → referenced (viewof db tx) r = false) →
    f (viewof db tx) = delete_matching ps (viewof db tx) →
    Q (inr (length (matching ps (viewof db tx)))) (effected f db tx (S t))) →
  (∀ e, Q (inl (drv_error e)) (mkWorld db tx (S t))) →
  wp (DeleteNodes ps) Q (mkWorld db tx t).
Proof.
  intros HQ He. apply wp_statement; [intros; apply He|].
  intros n Hn. apply delete_nodes_ok in Hn as [-> ?]. by apply HQ, delete_seen_now.
Qed.

Lemma wp_Client_Tx (Q : error + () → World → Prop) db t :
  Q (inr ()) (mkWorld db (Some []) (S t)) →
  (∀ k msg, Q (inl (errWrap "ent: starting a transaction: " (errDriver k msg) "")) (mkWorld db None (S t))) →
  wp Client_Tx Q (mkWorld db None t).
Proof.
  intros HQ He. unfold wp, Client_Tx. simpl. apply wp_map_error, wp_outside.
  destruct (drv_begin t) as [[]|]; simpl; [apply He|done].
Qed.

Lemma wp_rollback {A} e (Q : error + A → World → Prop) db tx t :
  (∀ e', rolled e e' → Q (inl e') (mkWorld db None (S t))) →
  wp (rollback e) Q (mkWorld db tx t).
Proof.
  intros HQ. apply wp_bind, wp_try, wp_outside. unfold rolled in HQ.
  destruct (drv_rollback t) as [[]|]; simpl; apply wp_fail, HQ; eauto.
Qed.

(** [orRollback] in a world whose committed rows are [db]: an error leaves them
    so and closes the transaction. *)
Lemma wp_orRollback {A} (m : M A) (Q : error + A → World → Prop) w :
  wp m (λ r w', match r with
                | inl e => ∀ e' t, rolled e e' → Q (inl e') (mkWorld (w_db w') None t)
                | inr a => Q (inr a) w'
                end) w →
  wp (orRollback m) Q w.
Proof.
  intros Hm. apply wp_bind, wp_try. eapply wp_mono; [exact Hm|].
  intros [e|a] [db' tx' t'] HQ; [|done]. apply wp_rollback. intros. by apply HQ.
Qed.

Lemma wp_Tx_Commit (Q : error + () → World → Prop) db tx t :
  Q (inr ()) (mkWorld (viewof db tx) None (S t)) →
  (∀ e b, drv_commit t = Some (e, b) →
    Q (inl (drv_error e)) (mkWorld (if b then viewof db tx else db) None (S t))) →
  wp Tx_Commit Q (mkWorld db tx t).
Proof.
  intros HQ He. apply wp_outside. unfold view; simpl. fold (viewof db tx).
  destruct (drv_commit t) as [[e []]|] eqn:Hc; simpl; [by apply (He _ _ eq_refl)..|done].
Qed.
(** The last step of a transaction that has done its work. *)
Lemma wp_Commit (failed : error → Prop) (done : () → DB → Prop) db effs t :
  (∀ k, failed (drv_error k)) → done () (apply_effects effs db) →
  wp Tx_Commit (λ r w', w_tx w' = None ∧ all_or_nothing db failed done r (w_db w')) (mkWorld db (Some effs) t).
Proof.
  intros Hf Hd. apply wp_Tx_Commit; [by split|]. intros e [] Hc; (split; [done|]); [right|by left].
  split; [by eexists _, _|by exists ()].
Qed.
Lemma wp_Commit_ret {A} (a : A) (failed : error → Prop) (done : A → DB → Prop) db effs t :
  (∀ k, failed (drv_error k)) → done a (apply_effects effs db) →
  wp (_ ← Tx_Commit; mret a) (λ r w', w_tx w' = None ∧ all_or_nothing db failed done r (w_db w')) (mkWorld db (Some effs) t).
Proof.
  intros Hf Hd. apply wp_bind. eapply wp_mono; [by apply (wp_Commit failed (λ _, done a))|].
  intros [e|[]] w' [? Hr]; [|by apply wp_ret]. split; [done|]. destruct Hr as [?|[? [_ ?]]]; [by left|right; eauto].
Qed.
End quiet.
(** An error before the COMMIT. *)
Ltac unchanged := split; [done|left; split; [done|]].

(** ** Transactions, whatever the other connections do *)

Lemma all_or_nothing_keeps `{Driver} {A} db failed (done : A → DB → Prop) r db' (I : DB → Prop) (P : A → Prop) :
  all_or_nothing db failed done r db' → I db → (∀ a d, done a d → I d ∧ P a) →
  I db' ∧ match r with inr a => P a | inl _ => True end.
Proof. intros Hr Hi Hd. destruct r as [e|a]; [|by apply Hd]. destruct Hr as [[-> _]|[_ [a Ha]]]; [done|]. by apply Hd in Ha as [? _]. Qed.

(** The driver whose COMMIT is always heard. *)
Definition heard (D : Driver) : Driver := {|
  drv_query := @drv_query D; drv_count := @drv_count D; drv_create := @drv_create D;
  drv_update_nodes := @drv_update_nodes D; drv_delete_nodes := @drv_delete_nodes D;
  drv_begin := @drv_begin D; drv_rollback := @drv_rollback D;
  drv_commit := λ t, match @drv_commit D t with Some (_, true) => None | r => r end;
  db_le := @db_le D |}.

Section transactions.
Context `{Driver} `{Runtime}.

(** Only other connections wrote between the two states. *)
Definition env_only : DB → DB → Prop := rtc (λ a b, ∃ t tx, b = rt_env t tx a).
Definition in_tx (d0 : DB) (w : World) : Prop := env_only d0 (w_db w) ∧ is_Some (w_tx w).
Definition rolled_back (d0 : DB) (w : World) : Prop := env_only d0 (w_db w) ∧ w_tx w = None.

Class InTx {A} (m : M A) : Prop :=
  in_tx_wp : ∀ d0 w, in_tx d0 w → wp m (λ _ w', in_tx d0 w') w.
Class Stays {A} (m : M A) : Prop :=
  stays_wp : ∀ d0 w, in_tx d0 w →
    wp m (λ r w', match r with inl _ => rolled_back d0 w' | inr _ => in_tx d0 w' end) w.
Lemma env_only_outside d0 db t tx : env_only d0 db → env_only d0 (rt_env t tx db).
Proof. intros Hd. eapply rtc_r; [exact Hd|eauto]. Qed.

#[export] Instance ret_in_tx {A} (a : A) : InTx (mret a).
Proof. by intros d0 w Hw. Qed.
#[export] Instance fail_in_tx {A} e : InTx (A:=A) (fail e).
Proof. by intros d0 w Hw. Qed.
#[export] Instance of_result_in_tx {A} (r : error + A) : InTx (of_result r).
Proof. by intros d0 w Hw. Qed.
#[export] Instance bind_in_tx {A B} (m : M A) (k : A → M B) :
  InTx m → (∀ a, InTx (k a)) → InTx (m ≫= k).
Proof.
  intros Hm Hk d0 w Hw. apply wp_bind. eapply wp_mono; [by apply Hm|].
  intros [e|a] w' Hw'; [done|by apply Hk].
Qed.
#[export] Instance try_in_tx {A} (m : M A) : InTx m → InTx (try m).
Proof. intros Hm d0 w Hw. apply wp_try. by apply Hm. Qed.
#[export] Instance map_error_in_tx {A} f (m : M A) : InTx m → InTx (map_error f m).
Proof.
  intros Hm d0 w Hw. apply wp_map_error. eapply wp_mono; [by apply Hm|]. by intros [].
Qed.
#[export] Instance guard_check_in_tx {A} c (m : M A) : InTx m → InTx (guard_check c m).
Proof. intros Hm d0 w Hw. by apply wp_guard_check; intros; [|apply Hm]. Qed.
#[export] Instance or_default_in_tx {A} v (m : M A) : InTx m → InTx (or_default v m).
Proof. destruct v; apply _. Qed.
#[export] Instance if_in_tx {A} (b : bool) (m1 m2 : M A) : InTx m1 → InTx m2 → InTx (if b then m1 else m2).
Proof. by destruct b. Qed.
#[export] Instance option_in_tx {A B} (o : option B) (m : B → M A) (m' : M A) :
  (∀ b, InTx (m b)) → InTx m' → InTx (match o with Some b => m b | None => m' end).
Proof. destruct o; auto. Qed.

Lemma outside_in_tx {A} (f : nat → World → (error + A) * World) :
  (∀ d0 t w, in_tx d0 w → in_tx d0 (f t w).2) → InTx (outside f).
Proof.
  intros Hf d0 w [Hd Ht]. unfold wp, outside. simpl. apply Hf.
  split; [by apply env_only_outside|done].
Qed.
Lemma effect_in_tx d0 f w : in_tx d0 w → in_tx d0 (effect f w).
Proof. intros [Hd [effs He]]. unfold effect. rewrite He. split; simpl; eauto. Qed.

#[export] Instance statement_in_tx {A} (call : nat → DB → driver_error + A) eff :
  InTx (statement call eff).
Proof.
  apply outside_in_tx. intros d0 t w Hw. destruct (call t (view w)); simpl; [done|].
  by apply effect_in_tx.
Qed.
#[export] Instance QueryNodes_in_tx {R} `{Table R} (q : QuerySpec R) : InTx (QueryNodes q).
Proof. apply outside_in_tx. intros d0 t w Hw. by destruct (drv_query _ _ _). Qed.
#[export] Instance CountNodes_in_tx {R} `{Table R} (ps : list (predicate R)) : InTx (CountNodes ps).
Proof. apply outside_in_tx. intros d0 t w Hw. by destruct (drv_count _ _ _). Qed.
#[export] Instance Now_in_tx : InTx Now.
Proof. by apply outside_in_tx. Qed.
#[export] Instance NewUUID_in_tx : InTx NewUUID.
Proof. by apply outside_in_tx. Qed.

Lemma rollback_rolls {A} d0 w e (Q : error + A → World → Prop) :
  env_only d0 (w_db w) → (∀ e' w', rolled e e' → rolled_back d0 w' → Q (inl e') w') →
  wp (rollback e) Q w.
Proof.
  intros Hd HQ. apply wp_bind, wp_try. unfold wp, Tx_Rollback, TxRollback, outside. simpl.
  apply (env_only_outside _ _ (w_tick w) (w_tx w)) in Hd. unfold rolled in HQ.
  destruct (drv_rollback _) as [e'|]; simpl; apply wp_fail; apply HQ; eauto; done.
Qed.

#[export] Instance rollback_stays {A} e : Stays (A:=A) (rollback e).
Proof. intros d0 w [Hd _]. by eapply rollback_rolls. Qed.
#[export] Instance orRollback_stays {A} (m : M A) : InTx m → Stays (orRollback m).
Proof.
  intros Hm d0 w Hw. apply wp_bind, wp_try. eapply wp_mono; [by apply Hm|].
  intros [e|a] w' Hw'; [by apply rollback_stays|done].
Qed.
#[export] Instance ret_stays {A} (a : A) : Stays (mret a).
Proof. by intros d0 w Hw. Qed.
#[export] Instance bind_stays {A B} (m : M A) (k : A → M B) :
  Stays m → (∀ a, Stays (k a)) → Stays (m ≫= k).
Proof.
  intros Hm Hk d0 w Hw. apply wp_bind. eapply wp_mono; [by apply Hm|].
  intros [e|a] w' Hw'; [done|by apply Hk].
Qed.
#[export] Instance if_stays {A} (b : bool) (m1 m2 : M A) : Stays m1 → Stays m2 → Stays (if b then m1 else m2).
Proof. by destruct b. Qed.

#[export] Instance Now_stays : Stays Now.
Proof. intros d0 w Hw. by apply Now_in_tx. Qed.

End transactions.

(** *** The end of a transaction

    [m] is the computation and [m'] the one with the driver that hears every COMMIT: they differ in
    nothing else. *)
Section ends.
Context `{D : Driver} `{Runtime}.

(** Nothing of it remains, or only the answer to its COMMIT was lost: with it the computation ends
    in the same world. *)
Definition lost_or_nothing {A} (d0 : DB) (m' : M A) (w : World) (e : error) (w' : World) : Prop :=
  rolled_back d0 w' ∨ (lost_commit e ∧ w_tx w' = None ∧ ∃ a, m' w = (inr a, w')).
Definition Ends {A} (m m' : M A) : Prop := ∀ d0 w, in_tx d0 w →
  wp m (λ r w', match r with
                | inl e => lost_or_nothing d0 m' w e w'
                | inr a => w_tx w' = None
                end) w.
(** All or nothing, outside a transaction. *)
Definition Atomic {A} (m m' : M A) : Prop := ∀ w, w_tx w = None →
  wp m (λ r w', match r with
                | inl e => lost_or_nothing (w_db w) m' w e w'
                | inr a => w_tx w' = None
                end) w.

(** Inside a transaction both run alike. *)
Definition alike {A} (m m' : M A) : Prop := ∀ w, is_Some (w_tx w) → m' w = m w.
Lemma same_alike {A} (m m' : M A) : m' = m → alike m m'.
Proof. by intros ->. Qed.
Lemma local_tx_alike {A} (m m' : M A) : m' = m → alike (local_tx m) (@local_tx (heard D) _ _ m').
Proof. intros -> w [effs Hw]. unfold local_tx. by rewrite Hw. Qed.
Lemma map_error_alike {A} f (m m' : M A) : alike m m' → alike (map_error f m) (map_error f m').
Proof. intros Hm w Hw. unfold map_error. by rewrite Hm. Qed.
Lemma guard_check_alike {A} c (m m' : M A) : alike m m' → alike (guard_check c m) (guard_check c m').
Proof. by destruct c. Qed.
Lemma bind_alike {A B} (m m' : M A) (k k' : A → M B) : alike m m' → k' = k → alike (m ≫= k) (m' ≫= k').
Proof. intros Hm -> w Hw. unfold mbind, EM_bind. by rewrite Hm. Qed.
Lemma in_tx_alike {A B} (m m' : M A) (k k' : A → M B) :
  InTx m → m' = m → (∀ a, alike (k a) (k' a)) → alike (m ≫= k) (m' ≫= k').
Proof.
  intros Hm -> Hk w Hw. assert (in_tx (w_db w) w) as (r & w' & Hrun & Hr)%Hm%wp_out by by split.
  unfold mbind, EM_bind. rewrite Hrun. destruct r; [done|]. apply Hk, Hr.
Qed.
Lemma orRollback_alike {A} (m m' : M A) : alike m m' → alike (orRollback m) (@orRollback (heard D) _ _ m').
Proof. intros Hm w Hw. unfold orRollback, try, mbind, EM_bind. by rewrite Hm. Qed.

Lemma bind_ends {A B} (m m' : M A) (k k' : A → M B) : alike m m' → Stays m → (∀ a, Ends (k a) (k' a)) → Ends (m ≫= k) (m' ≫= k').
Proof.
  intros Hs Hm Hk d0 w Hw. apply wp_bind. pose proof (Hm d0 w Hw) as (r & w1 & Hrun & Hr)%wp_out. eapply wp_run; [exact Hrun|].
  destruct r as [e|a]; [by left|]. eapply wp_mono; [by apply Hk|]. intros [e|b] w' HQ; [|done]. unfold lost_or_nothing in *.
  destruct HQ as [?|(? & ? & b & Hb)]; [by left|]. right. split_and!; [done..|]. exists b. unfold mbind, EM_bind.
  by rewrite Hs, Hrun by apply Hw.
Qed.
Lemma if_ends {A} (b : bool) (m1 m2 m1' m2' : M A) : Ends m1 m1' → Ends m2 m2' → Ends (if b then m1 else m2) (if b then m1' else m2').
Proof. by destruct b. Qed.
Lemma rollback_ends {A} e (m' : M A) : Ends (rollback e) m'.
Proof. intros d0 w [Hd _]. eapply rollback_rolls; [done|]. by left. Qed.

Lemma Tx_Commit_ends : Ends Tx_Commit (@Tx_Commit (heard D) _).
Proof.
  intros d0 w [Hd _]. unfold wp, lost_or_nothing, Tx_Commit, TxCommit, outside. simpl.
  destruct (drv_commit _) as [[e []]|] eqn:Hc; simpl; [|left; split; [by apply env_only_outside|done]|done].
  right. split_and!; [by eexists _, _|done|by eexists].
Qed.
Lemma Commit_ret_ends {A} (a : A) : Ends (_ ← Tx_Commit; mret a) (_ ← @Tx_Commit (heard D) _; mret a).
Proof.
  intros d0 w Hw. apply wp_bind. eapply wp_mono; [by apply Tx_Commit_ends|].
  intros [e|[]] w' HQ; [|done]. destruct HQ as [?|(? & ? & [] & Hb)]; [by left|]. right. split_and!; [done..|]. exists a.
  unfold mbind, EM_bind. by rewrite Hb.
Qed.

Lemma Client_Tx_atomic {A} (k k' : () → M A) :
  (∀ u, Ends (k u) (k' u)) → Atomic (u ← Client_Tx; k u) (u ← @Client_Tx (heard D) _; k' u).
Proof.
  intros Hk w Hw. apply wp_bind. unfold lost_or_nothing, wp at 1, mbind, EM_bind, Client_Tx. rewrite Hw.
  unfold map_error, TxBegin, outside. simpl. rewrite Hw.
  assert (env_only (w_db w) (rt_env (w_tick w) None (w_db w))) as He by (by apply env_only_outside).
  destruct (drv_begin _) as [e|]; simpl; [by left|]. apply Hk. split; simpl; eauto.
Qed.
Lemma fail_atomic {A} e (m' : M A) : Atomic (fail e) m'.
Proof. intros w Hw. apply wp_fail. left. by split. Qed.
Lemma if_atomic {A} (b : bool) (m1 m2 m1' m2' : M A) :
  Atomic m1 m1' → Atomic m2 m2' → Atomic (if b then m1 else m2) (if b then m1' else m2').
Proof. by destruct b. Qed.
End ends.

(** The other files reason about [wp] by its rules only. *)
#[global] Opaque wp.
