(* ===== verification/StoreAtomic.v ===== *)
(** * Transactions of the store are all-or-nothing

    Whatever statements fail and whatever other connections commit meanwhile, an
    operation of the store that writes inside a transaction and reports an error
    leaves no trace in the database, or its work is there whole because only the answer to
    its COMMIT was lost; and no operation leaves its transaction open. *)

From S2P Require Import Prelude GoStd Monad EntSchema Sqlgraph EntQuery EntMutation Config Store Logic Memdb.

(** Resolve [InTx] of a client operation by unfolding it down to its calls. *)
Ltac in_tx :=
  repeat first
    [ progress (cbv zeta)
    | apply _
    | apply bind_in_tx; intros
    | apply if_in_tx
    | case_match ].

Section in_tx.
Context `{Driver} `{Runtime} `{UUIDLib} `{FieldValidators}.

#[export] Instance UpdateNode_in_tx {R} `{Table R} (u : UpdateSpec R) : InTx (UpdateNode u).
Proof.
  intros d0 w Hw. apply local_tx_inside; [apply Hw|]. apply (bind_in_tx (UpdateNodes u)); [unfold UpdateNodes; apply _| |done].
  intros n. apply bind_in_tx; [apply _|]. intros [|r rs]; apply _.
Qed.
#[export] Instance Query_All_in_tx {R} `{Table R} (q : Query R) : InTx (Query_All q).
Proof. unfold Query_All. apply _. Qed.
#[export] Instance OrgQuery_All_in_tx q : InTx (OrgQuery_All q).
Proof. unfold OrgQuery_All. apply _. Qed.
#[export] Instance OrgQuery_Only_in_tx q : InTx (OrgQuery_Only q).
Proof. unfold OrgQuery_Only, Query_Only. apply _. Qed.
#[export] Instance loadOrg_in_tx q nodes : InTx (loadOrg q nodes).
Proof. unfold loadOrg. in_tx. Qed.
#[export] Instance FolderQuery_All_in_tx q : InTx (FolderQuery_All q).
Proof. unfold FolderQuery_All. in_tx. Qed.
#[export] Instance FolderQuery_Only_in_tx q : InTx (FolderQuery_Only q).
Proof. unfold FolderQuery_Only. apply _. Qed.
#[export] Instance loadFolder_in_tx q nodes : InTx (loadFolder q nodes).
Proof. unfold loadFolder. in_tx. Qed.
#[export] Instance ProjectQuery_All_in_tx q : InTx (ProjectQuery_All q).
Proof. unfold ProjectQuery_All. in_tx. Qed.

#[export] Instance OrgCreate_Save_in_tx m : InTx (OrgCreate_Save m).
Proof. unfold OrgCreate_Save, OrgCreate_defaults, OrgCreate_sqlSave, CreateNode. in_tx. Qed.
#[export] Instance OrgUpdate_Save_in_tx ps m : InTx (OrgUpdate_Save ps m).
Proof. unfold OrgUpdate_Save, OrgUpdate_defaults, OrgUpdate_sqlSave, UpdateNodes. in_tx. Qed.
#[export] Instance OrgUpdateOne_Save_in_tx o m : InTx (OrgUpdateOne_Save o m).
Proof. unfold OrgUpdateOne_Save, OrgUpdate_defaults, OrgUpdateOne_sqlSave. in_tx. Qed.
#[export] Instance FolderCreate_Save_in_tx m : InTx (FolderCreate_Save m).
Proof. unfold FolderCreate_Save, FolderCreate_defaults, FolderCreate_sqlSave, CreateNode. in_tx. Qed.
#[export] Instance ProjectCreate_Save_in_tx m : InTx (ProjectCreate_Save m).
Proof. unfold ProjectCreate_Save, ProjectCreate_defaults, ProjectCreate_sqlSave, CreateNode. in_tx. Qed.
#[export] Instance ProjectUpdate_Save_in_tx ps m : InTx (ProjectUpdate_Save ps m).
Proof. unfold ProjectUpdate_Save, ProjectUpdate_defaults, ProjectUpdate_sqlSave, UpdateNodes. in_tx. Qed.
#[export] Instance ProjectUpdateOne_Save_in_tx p m : InTx (ProjectUpdateOne_Save p m).
Proof. unfold ProjectUpdateOne_Save, ProjectUpdate_defaults, ProjectUpdateOne_sqlSave. in_tx. Qed.
#[export] Instance TenancyEventCreate_Save_in_tx m : InTx (TenancyEventCreate_Save m).
Proof. unfold TenancyEventCreate_Save, TenancyEventCreate_defaults, TenancyEventCreate_sqlSave, CreateNode. in_tx. Qed.

#[export] Instance DeleteOrg_project_stays o now p : Stays (DeleteOrg_project o now p).
Proof. unfold DeleteOrg_project. cbv zeta. apply _. Qed.
#[export] Instance DeleteOrg_projects_stays o now ps : Stays (DeleteOrg_projects o now ps).
Proof. induction ps; simpl; apply _. Qed.

End in_tx.

Section atomic.
Context `{Runtime} `{UUIDLib} `{FieldValidators}.

(** The updates of one entity commit nothing inside a transaction. *)
Lemma OrgUpdateOne_Save_alike `{D : Driver} o m : alike (OrgUpdateOne_Save o m) (@OrgUpdateOne_Save (heard D) _ _ o m).
Proof.
  apply in_tx_alike; [unfold OrgUpdate_defaults; apply _|reflexivity|intros m'].
  apply guard_check_alike, map_error_alike, local_tx_alike. reflexivity.
Qed.
Lemma ProjectUpdateOne_Save_alike `{D : Driver} p m : alike (ProjectUpdateOne_Save p m) (@ProjectUpdateOne_Save (heard D) _ _ p m).
Proof.
  apply in_tx_alike; [unfold ProjectUpdate_defaults; apply _|reflexivity|intros m'].
  apply guard_check_alike, bind_alike; [|reflexivity]. apply map_error_alike, local_tx_alike. reflexivity.
Qed.
Ltac alike := first
  [ by apply same_alike | apply orRollback_alike, OrgUpdateOne_Save_alike | apply orRollback_alike, ProjectUpdateOne_Save_alike ].

(** One step through the body of a transactional operation. *)
Ltac ends :=
  repeat (cbv zeta; first
    [ apply Client_Tx_atomic; intros
    | apply Commit_ret_ends | apply Tx_Commit_ends | apply rollback_ends
    | apply bind_ends; [alike|apply _|intros]
    | apply if_ends ]).

(** The operations of the store that write inside a transaction. *)
Inductive transactional : ∀ A, (Driver → M A) → Prop :=
  | tx_CreateOrg name description : transactional _ (λ D, CreateOrg name description)
  | tx_UpdateOrg name description : transactional _ (λ D, UpdateOrg name description)
  | tx_DeleteOrg name : transactional _ (λ D, DeleteOrg name)
  | tx_CreateProject org name description : transactional _ (λ D, CreateProject org name description)
  | tx_UpdateProject name orgs description : transactional _ (λ D, UpdateProject name orgs description)
  | tx_DeleteProject name orgs : transactional _ (λ D, DeleteProject name orgs).

(** C6: every transactional operation of the store is atomic: run outside a
    transaction, with any failures of the database and any interleaved commits of
    other connections, it ends outside a transaction; and if it returns an error, then
    either nothing it wrote is in the database (only what others committed), or the error is that of
    a COMMIT which the server carried out and whose answer was lost, and the database is exactly what
    the operation leaves when it hears the answer and succeeds. *)
Theorem transactional_atomic {A} (m : Driver → M A) (D : Driver) : transactional A m → Atomic (m D) (m (heard D)).
Proof.
  destruct 1.
  - unfold CreateOrg. ends.
  - unfold UpdateOrg. ends.
  - unfold DeleteOrg. ends.
  - unfold CreateProject. ends.
  - unfold UpdateProject. apply if_atomic; [apply fail_atomic|]. ends.
  - unfold DeleteProject. apply if_atomic; [apply fail_atomic|]. ends.
Qed.
End atomic.
