(* ===== verification/EntSpec.v ===== *)
(** * Specifications of the generated client's operations

    For a lawful driver when nobody else writes: what each executor returns and
    which effect it has, as rules of [wp].  The store's theorems use these, never
    the bodies of the client. *)

From S2P Require Import Prelude GoStd Monad EntSchema Sqlgraph EntQuery EntMutation Logic.

(** How [Save] fails: the input is invalid, a constraint refuses the row, or the
    database does not answer. *)
Inductive save_error (invalid clash : Prop) : error → Prop :=
  | save_invalid field pre msg :
      invalid → save_error invalid clash (ValidationError field (Errorf pre (errText msg)))
  | save_clash msg : clash → save_error invalid clash (ConstraintError msg (errDriver DrvConstraint msg))
  | save_other msg : save_error invalid clash (errDriver DrvOther msg).

Lemma save_error_not_found invalid clash e : save_error invalid clash e → IsNotFound e = false.
Proof. by destruct 1. Qed.

(** One structural step, chosen by the head of the computation. *)
Ltac wp_step :=
  lazymatch goal with
  | |- wp (_ ≫= _) _ _ => apply wp_bind
  | |- wp (mret _) _ _ => apply wp_ret
  | |- wp Now _ _ => apply wp_Now; intros ?
  | |- wp NewUUID _ _ => apply wp_NewUUID; intros ?
  | |- wp (map_error _ _) _ _ => apply wp_map_error
  | |- wp (fail _) _ _ => apply wp_fail
  | |- wp (try _) _ _ => apply wp_try
  | |- wp (of_result _) _ _ => apply wp_of_result
  end; cbn beta iota.

(** The row a creation tried to insert was refused. *)
Definition refused {R} `{Table R} (db : DB) (r : R) : Prop :=
  insertable db r = false ∧ ∀ k r' k', serial r = Some k → r' ∈ rows db → serial r' = Some k' → (k' < k)%Z.

Lemma checks_none l : checks l = None ↔ Forall (λ c, c = None) l.
Proof.
  induction l as [|[e|] l IH]; simpl; [by split|split; [done|by intros Hf; inversion Hf]|].
  rewrite Forall_cons. naive_solver.
Qed.
Lemma checks_some l e : checks l = Some e → Some e ∈ l.
Proof. induction l as [|[e'|] l IH]; simpl; intros; simplify_eq; set_solver. Qed.

Lemma validate_none {A} ent f (v : A → option error) a :
  validate ent f v (Some a) = None ↔ v a = None.
Proof. unfold validate. destruct (v a); naive_solver. Qed.

Section specs.
Context `{Driver} `{Runtime} `{FieldValidators} `{UUIDLib}.
Context `{!DriverLaws} `{!Quiet} `{!FieldValidatorsLaws}.
Implicit Types (db : DB) (tx : option (list (DB → DB))) (t : nat).

Lemma NameValidator_text name e : NameValidator name = Some e → ∃ msg, e = errText msg.
Proof.
  unfold NameValidator. intros He. case_match; simplify_eq.
  - by eapply MaxLen_text.
  - by eapply NotEmpty_text.
Qed.

(** A name the validators accept has between 1 and 253 bytes. *)
Lemma NameValidator_ok name :
  NameValidator name = None ↔ name ≠ "" ∧ (Z.of_nat (String.length name) <= 253)%Z.
Proof.
  unfold NameValidator. destruct (field_MaxLen 253 name) eqn:Hm.
  - split; [done|]. intros [_ Hl]. apply MaxLen_ok in Hl. congruence.
  - rewrite NotEmpty_ok. apply MaxLen_ok in Hm. naive_solver.
Qed.

Lemma StatusValidator_text s e : StatusValidator s = Some e → ∃ msg, e = errText msg.
Proof. unfold StatusValidator. intros. case_match; simplify_eq; eauto. Qed.

(** The check of a creation whose required fields are set is that of its name. *)
Lemma checks_name cs ent name e invalid clash :
  checks cs = Some e → (∀ c, c ∈ cs → c = None ∨ c = validate ent "name" NameValidator (Some name)) →
  (NameValidator name ≠ None → invalid) → save_error invalid clash e.
Proof.
  intros Hc%checks_some Hcs Hi. destruct (Hcs _ Hc) as [?|Hv]; [done|]. unfold validate in Hv.
  destruct (NameValidator name) as [e'|] eqn:Hn; simplify_eq.
  destruct (NameValidator_text _ _ Hn) as [msg ->]. constructor. by apply Hi.
Qed.
Lemma checks_name_none cs ent name :
  checks cs = None → validate ent "name" NameValidator (Some name) ∈ cs → NameValidator name = None.
Proof.
  rewrite checks_none, Forall_forall. intros Hc Hin%Hc. by apply validate_none in Hin.
Qed.

(** Insertions: the row is inserted, or refused, or the database failed. *)
Lemma wp_create {R} `{Table R} (row : Z → R) (Q : error + Z → World → Prop) invalid db tx t :
  (∀ n t', insertable (viewof db tx) (row n) = true → fresh_key (viewof db tx) (row n) →
     Q (inr n) (effected (insert_row (row n)) db tx t')) →
  (∀ e t', save_error invalid (∃ n, insertable (viewof db tx) (row n) = false ∧
     ∀ r' k', r' ∈ rows (viewof db tx) → serial r' = Some k' → (k' < n)%Z) e →
     Q (inl e) (mkWorld db tx t')) →
  wp (map_error create_error (CreateNode row)) Q (mkWorld db tx t).
Proof.
  intros HQ He. wp_step. apply wp_CreateNode; intros.
  - by apply HQ.
  - apply He. by constructor.
  - apply He. by constructor.
Qed.

Lemma wp_update {R} `{Table R} label (u : UpdateSpec R) (Q : error + nat → World → Prop) db tx t :
  (∀ f t', f (viewof db tx) = update_matching u (viewof db tx) →
     Q (inr (length (matching (u_predicates u) (viewof db tx)))) (effected f db tx t')) →
  (∀ e t', IsNotFound e = false → Q (inl e) (mkWorld db tx t')) →
  wp (map_error (update_error label) (UpdateNodes u)) Q (mkWorld db tx t).
Proof.
  intros HQ He. wp_step. apply wp_UpdateNodes; [intros; by apply HQ|].
  intros k msg Hk. apply He. by destruct k.
Qed.

Lemma wp_update_one {R} `{Table R} label (u : UpdateSpec R) (Q : error + R → World → Prop) db effs t :
  (∀ d d' r, holds (u_predicates u) d' (u_set u r) = holds (u_predicates u) d r) →
  let v := apply_effects effs db in
  (∀ r0 f t', r0 ∈ matching (u_predicates u) v → f v = update_matching u v →
     Q (inr (u_set u r0)) (mkWorld db (Some (effs ++ [f])) t')) →
  (∀ e effs' t', (IsNotFound e = true → matching (u_predicates u) v = []) →
     Q (inl e) (mkWorld db (Some effs') t')) →
  wp (map_error (update_error label) (UpdateNode u)) Q (mkWorld db (Some effs) t).
Proof.
  intros Hk v HQ He. wp_step. apply wp_UpdateNode; [done|intros; by apply HQ|].
  intros k msg effs' t' Hnf. apply He. destruct k; simpl; [done|auto|done].
Qed.

Lemma wp_delete {R} `{Table R} (ps : list (predicate R)) (Q : error + nat → World → Prop) db tx t :
  (∀ f t', (∀ r, r ∈ matching ps (viewof db tx) → referenced (viewof db tx) r = false) →
     f (viewof db tx) = delete_matching ps (viewof db tx) →
     Q (inr (length (matching ps (viewof db tx)))) (effected f db tx t')) →
  (∀ e t', Q (inl e) (mkWorld db tx t')) →
  wp (map_error create_error (DeleteNodes ps)) Q (mkWorld db tx t).
Proof. intros HQ He. wp_step. apply wp_DeleteNodes; [intros; by apply HQ|]. intros. apply He. Qed.

(** Outside a transaction. *)
Lemma wp_delete_now {R} `{Table R} (ps : list (predicate R)) (Q : error + nat → World → Prop) db t :
  (∀ t', (∀ r, r ∈ matching ps db → referenced db r = false) →
     Q (inr (length (matching ps db))) (mkWorld (delete_matching ps db) None t')) →
  (∀ e t', Q (inl e) (mkWorld db None t')) →
  wp (map_error create_error (DeleteNodes ps)) Q (mkWorld db None t).
Proof. intros HQ He. apply wp_delete; [|done]. simpl. intros f t' Hr ->. by apply HQ. Qed.

(** *** Creation of the entities, as the store calls it *)

Lemma wp_OrgCreate_Save name description (Q : error + Org → World → Prop) db tx t :
  (∀ id c u t', let o := mkOrg id name description c u None in
     NameValidator name = None → insertable (viewof db tx) o = true →
     Q (inr o) (effected (insert_row o) db tx t')) →
  (∀ e t', save_error (NameValidator name ≠ None)
     (∃ id c u, insertable (viewof db tx) (mkOrg id name description c u None) = false) e →
     Q (inl e) (mkWorld db tx t')) →
  wp (OrgCreate_Save (newOrgMutation |> Org_SetName name |> Org_SetDescription description)) Q
     (mkWorld db tx t).
Proof.
  intros HQ He. unfold OrgCreate_Save, OrgCreate_defaults. simpl.
  repeat wp_step. unfold OrgCreate_sqlSave, OrgCreate_check. simpl.
  apply wp_guard_check; simpl.
  - intros e Hc. apply He. eapply (checks_name _ "Org" name); [exact Hc|set_solver|done].
  - intros Hc. apply (checks_name_none _ "Org" name) in Hc as Hn; [|set_solver].
    wp_step. apply wp_create with (invalid := NameValidator name ≠ None); cbn beta iota.
    + intros n t' Hi _. wp_step. by apply HQ.
    + intros e t' Hse. apply He. destruct Hse as [|msg (n & ? & _)|]; constructor; eauto.
Qed.

Lemma wp_FolderCreate_Save name o (Q : error + Folder → World → Prop) db tx t :
  (∀ id c u t', let f := mkFolder id name c u (Org_ID o) in
     NameValidator name = None → insertable (viewof db tx) f = true →
     Q (inr f) (effected (insert_row f) db tx t')) →
  (∀ e t', save_error (NameValidator name ≠ None)
     (∃ id c u, insertable (viewof db tx) (mkFolder id name c u (Org_ID o)) = false) e →
     Q (inl e) (mkWorld db tx t')) →
  wp (FolderCreate_Save (newFolderMutation |> Folder_SetName name |> Folder_SetOrg o)) Q
     (mkWorld db tx t).
Proof.
  intros HQ He. unfold FolderCreate_Save, FolderCreate_defaults. simpl.
  repeat wp_step. unfold FolderCreate_sqlSave, FolderCreate_check. simpl.
  apply wp_guard_check; simpl.
  - intros e Hc. apply He. eapply (checks_name _ "Folder" name); [exact Hc|set_solver|done].
  - intros Hc. apply (checks_name_none _ "Folder" name) in Hc as Hn; [|set_solver].
    wp_step. apply wp_create with (invalid := NameValidator name ≠ None); cbn beta iota.
    + intros n t' Hi _. wp_step. by apply HQ.
    + intros e t' Hse. apply He. destruct Hse as [|msg (n & ? & _)|]; constructor; eauto.
Qed.

Lemma wp_ProjectCreate_Save name description f (Q : error + ProjectNode → World → Prop) db tx t :
  (∀ id c u t', let p := mkProject id name description c u None (Folder_ID (folder_row f)) in
     NameValidator name = None → insertable (viewof db tx) p = true →
     Q (inr (mkProjectNode p None)) (effected (insert_row p) db tx t')) →
  (∀ e t', save_error (NameValidator name ≠ None)
     (∃ id c u, insertable (viewof db tx)
        (mkProject id name description c u None (Folder_ID (folder_row f))) = false) e →
     Q (inl e) (mkWorld db tx t')) →
  wp (ProjectCreate_Save (newProjectMutation |> Project_SetName name
        |> Project_SetDescription description |> Project_SetFolder f)) Q (mkWorld db tx t).
Proof.
  intros HQ He. unfold ProjectCreate_Save, ProjectCreate_defaults. simpl.
  repeat wp_step. unfold ProjectCreate_sqlSave, ProjectCreate_check. simpl.
  apply wp_guard_check; simpl.
  - intros e Hc. apply He. eapply (checks_name _ "Project" name); [exact Hc|set_solver|done].
  - intros Hc. apply (checks_name_none _ "Project" name) in Hc as Hn; [|set_solver].
    wp_step. apply wp_create with (invalid := NameValidator name ≠ None); cbn beta iota.
    + intros n t' Hi _. wp_step. by apply HQ.
    + intros e t' Hse. apply He. destruct Hse as [|msg (n & ? & _)|]; constructor; eauto.
Qed.

(** The event a mutation records: its time and its key come from [Save]. *)
Definition event_of (m : TenancyEventMutation) (c : Time) (n : Z) : TenancyEvent :=
  mkTenancyEvent n (default "" (em_event_type m)) (default "" (em_resource_type m))
    (default uuid_Nil (em_resource_id m)) (default "" (em_resource_name m))
    (em_org_id m) (em_org_name m) (em_folder_id m) c.
(** a mutation with its required fields set, within the limits of the schema *)
Definition event_complete (m : TenancyEventMutation) : Prop :=
  is_Some (em_event_type m) ∧ is_Some (em_resource_type m) ∧ is_Some (em_resource_id m) ∧
  is_Some (em_resource_name m) ∧ em_created_at m = None.
Definition event_valid (m : TenancyEventMutation) : Prop :=
  em_event_type m ≠ Some "" ∧ em_resource_type m ≠ Some "" ∧
  (∀ n, em_resource_name m = Some n → (Z.of_nat (String.length n) <= 253)%Z) ∧
  (∀ n, em_org_name m = Some n → (Z.of_nat (String.length n) <= 253)%Z).

Lemma wp_TenancyEventCreate_Save m (Q : error + TenancyEvent → World → Prop) db tx t :
  event_complete m →
  (∀ c n t', let e := event_of m c n in
     event_valid m → insertable (viewof db tx) e = true → fresh_key (viewof db tx) e →
     Q (inr e) (effected (insert_row e) db tx t')) →
  (∀ e t', save_error (¬ event_valid m) False e → Q (inl e) (mkWorld db tx t')) →
  wp (TenancyEventCreate_Save m) Q (mkWorld db tx t).
Proof.
  intros ([et Het] & [rt Hrt] & [id Hid] & [n Hn] & Hc) HQ He.
  unfold TenancyEventCreate_Save, TenancyEventCreate_defaults. rewrite Hc. simpl.
  repeat wp_step. unfold TenancyEventCreate_sqlSave, TenancyEventCreate_check. simpl.
  rewrite Het, Hrt, Hid, Hn. simpl required.
  apply wp_guard_check.
  - intros e Hck. apply He. clear -H5 Hck Het Hrt Hn.
    apply checks_some in Hck. rewrite !elem_of_cons, elem_of_nil in Hck.
    destruct Hck as [Hck|[Hck|[Hck|[Hck|[Hck|[Hck|[Hck|[Hck|[Hck|[]]]]]]]]]]; try done;
      symmetry in Hck.
    + unfold validate in Hck. destruct (field_NotEmpty et) as [e'|] eqn:Hv; [|done]. injection Hck as <-.
      destruct (NotEmpty_text _ _ Hv) as [msg ->]. constructor. intros (Hne & _).
      rewrite Het in Hne. rewrite (proj2 (NotEmpty_ok et)) in Hv; [done|congruence].
    + unfold validate in Hck. destruct (field_NotEmpty rt) as [e'|] eqn:Hv; [|done]. injection Hck as <-.
      destruct (NotEmpty_text _ _ Hv) as [msg ->]. constructor. intros (_ & Hne & _).
      rewrite Hrt in Hne. rewrite (proj2 (NotEmpty_ok rt)) in Hv; [done|congruence].
    + unfold validate in Hck. destruct (field_MaxLen 253 n) as [e'|] eqn:Hv; [|done]. injection Hck as <-.
      destruct (MaxLen_text _ _ _ Hv) as [msg ->]. constructor. intros (_ & _ & Hl & _).
      rewrite (proj2 (MaxLen_ok 253 n)) in Hv; [done|by apply Hl].
    + destruct (em_org_name m) as [on|] eqn:Hon; [|done].
      unfold validate in Hck. destruct (field_MaxLen 253 on) as [e'|] eqn:Hv; [|done]. injection Hck as <-.
      destruct (MaxLen_text _ _ _ Hv) as [msg ->]. constructor. intros (_ & _ & _ & Hl).
      rewrite (proj2 (MaxLen_ok 253 on)) in Hv; [done|by apply Hl].
  - intros Hck. apply checks_none in Hck. rewrite !Forall_cons, !validate_none in Hck.
    destruct Hck as (_ & H1' & _ & H2' & _ & _ & H3' & H4' & _).
    assert (event_valid m) as Hvalid.
    { split_and!; [rewrite Het; apply NotEmpty_ok in H1'; congruence
                  |rewrite Hrt; apply NotEmpty_ok in H2'; congruence|..].
      - intros n' Hn'. rewrite Hn in Hn'. simplify_eq. by apply MaxLen_ok.
      - intros on Hon. rewrite Hon in H4'. apply validate_none in H4'. by apply MaxLen_ok. }
    wp_step. apply wp_create with (invalid := ¬ event_valid m); cbn beta iota.
    + intros k t'.
      replace (TenancyEventCreate_createSpec _ k) with (event_of m v k)
        by (unfold event_of; by rewrite Het, Hrt, Hid, Hn).
      intros. wp_step. by apply HQ.
    + intros e t' Hse. apply He. destruct Hse as [|msg (k & Hk & Hkf)|]; [constructor; done| |constructor].
      exfalso. simpl in Hk. unfold TenancyEventsTable_insertable in Hk. simpl in Hk.
      assert (forallb (λ e', negb (TenancyEvent_ID e' =? k)%Z) (t_events (viewof db tx)) = true); [|congruence].
      apply forallb_forall. intros e' Hin%list_elem_of_In.
      specialize (Hkf e' _ Hin eq_refl). apply negb_true_iff, Z.eqb_neq. lia.
Qed.

(** *** Updates, as the store calls them *)

Definition OrgMutation_stamp (u : Time) (m : OrgMutation) : OrgMutation :=
  mkOrgMutation (om_name m) (om_description m) (om_created_at m) (Some u) (om_deleted_at m) (om_id m).
Definition ProjectMutation_stamp (u : Time) (m : ProjectMutation) : ProjectMutation :=
  mkProjectMutation (pm_name m) (pm_description m) (pm_created_at m) (Some u) (pm_deleted_at m)
    (pm_id m) (pm_folder m).
Lemma wp_OrgUpdate_Save ps m (Q : error + nat → World → Prop) db tx t :
  om_name m = None → om_updated_at m = None →
  (∀ u f t', f (viewof db tx) = update_matching (mkUpdateSpec ps (OrgUpdate_fields (OrgMutation_stamp u m))) (viewof db tx) →
     Q (inr (length (matching ps (viewof db tx)))) (effected f db tx t')) →
  (∀ e t', IsNotFound e = false → Q (inl e) (mkWorld db tx t')) →
  wp (OrgUpdate_Save ps m) Q (mkWorld db tx t).
Proof.
  intros Hn Hu HQ He. unfold OrgUpdate_Save, OrgUpdate_defaults. rewrite Hu. simpl.
  repeat wp_step. unfold OrgUpdate_sqlSave.
  apply wp_guard_check; [intros e; unfold OrgUpdate_check; simpl; by rewrite Hn|intros _].
  apply wp_update; [intros; by eapply HQ|done].
Qed.

Lemma wp_OrgUpdateOne_Save o m (Q : error + Org → World → Prop) db effs t :
  om_name m = None → om_updated_at m = None →
  let v := apply_effects effs db in
  (∀ u o0 f t', o0 ∈ matching [org_ID (Org_ID o)] v →
     f v = update_matching (mkUpdateSpec [org_ID (Org_ID o)] (OrgUpdate_fields (OrgMutation_stamp u m))) v →
     Q (inr (OrgUpdate_fields (OrgMutation_stamp u m) o0)) (mkWorld db (Some (effs ++ [f])) t')) →
  (∀ e effs' t', (IsNotFound e = true → matching [org_ID (Org_ID o)] v = []) →
     Q (inl e) (mkWorld db (Some effs') t')) →
  wp (OrgUpdateOne_Save o m) Q (mkWorld db (Some effs) t).
Proof.
  intros Hn Hu v HQ He. unfold OrgUpdateOne_Save, OrgUpdate_defaults. rewrite Hu. simpl.
  repeat wp_step. unfold OrgUpdateOne_sqlSave.
  apply wp_guard_check; [intros e; unfold OrgUpdate_check; simpl; by rewrite Hn|intros _].
  apply wp_update_one; [done|intros; by eapply HQ|done].
Qed.

Lemma wp_ProjectUpdate_Save ps m (Q : error + nat → World → Prop) db tx t :
  pm_name m = None → pm_updated_at m = None →
  (∀ u f t', f (viewof db tx) = update_matching (mkUpdateSpec ps (ProjectUpdate_fields (ProjectMutation_stamp u m))) (viewof db tx) →
     Q (inr (length (matching ps (viewof db tx)))) (effected f db tx t')) →
  (∀ e t', IsNotFound e = false → Q (inl e) (mkWorld db tx t')) →
  wp (ProjectUpdate_Save ps m) Q (mkWorld db tx t).
Proof.
  intros Hn Hu HQ He. unfold ProjectUpdate_Save, ProjectUpdate_defaults. rewrite Hu. simpl.
  repeat wp_step. unfold ProjectUpdate_sqlSave.
  apply wp_guard_check; [intros e; unfold ProjectUpdate_check; simpl; by rewrite Hn|intros _].
  apply wp_update; [intros; by eapply HQ|done].
Qed.

Lemma wp_ProjectUpdateOne_Save p m (Q : error + ProjectNode → World → Prop) db effs t :
  pm_name m = None → pm_updated_at m = None →
  let v := apply_effects effs db in
  (∀ u p0 f t', p0 ∈ matching [project_ID (Project_ID (project_row p))] v →
     f v = update_matching (mkUpdateSpec [project_ID (Project_ID (project_row p))]
        (ProjectUpdate_fields (ProjectMutation_stamp u m))) v →
     Q (inr (mkProjectNode (ProjectUpdate_fields (ProjectMutation_stamp u m) p0) None)) (mkWorld db (Some (effs ++ [f])) t')) →
  (∀ e effs' t', (IsNotFound e = true → matching [project_ID (Project_ID (project_row p))] v = []) →
     Q (inl e) (mkWorld db (Some effs') t')) →
  wp (ProjectUpdateOne_Save p m) Q (mkWorld db (Some effs) t).
Proof.
  intros Hn Hu v HQ He. unfold ProjectUpdateOne_Save, ProjectUpdate_defaults. rewrite Hu. simpl.
  repeat wp_step. unfold ProjectUpdateOne_sqlSave.
  apply wp_guard_check; [intros e; unfold ProjectUpdate_check; simpl; by rewrite Hn|intros _].
  wp_step. apply wp_update_one; cbn beta iota; [done| |done]. intros r0 f t' Hr0 Hf. wp_step. by apply HQ.
Qed.
End specs.
