(* ===== verification/StoreReads.v ===== *)
(** * The reads of the store

    [ReadOnly]: a computation that writes nothing, inside a transaction or outside one, while
    other connections commit; the queries of the generated client and of the store that are. *)

From S2P Require Import Prelude GoStd Monad EntSchema Sqlgraph EntQuery EntMutation Config Status Store.
From S2P Require Import Logic EntSpec.

(** The commits of other connections while this one has [tx] pending. *)
Definition env_under `{Runtime} (tx : option (list (DB → DB))) : DB → DB → Prop := rtc (λ a b, ∃ t, b = rt_env t tx a).
Lemma env_under_only `{Runtime} tx a b : env_under tx a b → env_only a b.
Proof. apply rtc_subrel. intros x y [t ->]. eauto. Qed.
(** Only other connections wrote, and time passed. *)
Definition read_only `{Runtime} (s s' : World) : Prop :=
  env_under (w_tx s) (w_db s) (w_db s') ∧ w_tx s' = w_tx s ∧ (w_tick s <= w_tick s')%nat.
#[export] Instance read_only_preorder `{Runtime} : PreOrder read_only.
Proof.
  split; [intros s; by split_and!|]. intros ??? (?&Ht&?) (?&?&?). rewrite Ht in *. split_and!; [by etrans|done|lia].
Qed.

Section reading.
Context `{Driver} `{Runtime} `{UUIDLib} `{FieldValidators}.

Class ReadOnly {A} (m : M A) : Prop := read_only_wp : ∀ s, wp m (λ _ s', read_only s s') s.

#[export] Instance ret_read_only {A} (a : A) : ReadOnly (mret a).
Proof. intros s. by apply wp_ret. Qed.
#[export] Instance fail_read_only {A} e : ReadOnly (A:=A) (fail e).
Proof. intros s. by apply wp_fail. Qed.
#[export] Instance of_result_read_only {A} (r : error + A) : ReadOnly (of_result r).
Proof. intros s. by apply wp_of_result. Qed.
#[export] Instance bind_read_only {A C} (m : M A) (k : A → M C) :
  ReadOnly m → (∀ a, ReadOnly (k a)) → ReadOnly (m ≫= k).
Proof.
  intros Hm Hk s. apply wp_bind. eapply wp_mono; [apply Hm|].
  intros [e|a] s1 Hs1; [done|]. eapply wp_mono; [apply Hk|]. intros r s2 Hs2. cbn beta in *. by etrans.
Qed.
#[export] Instance try_read_only {A} (m : M A) : ReadOnly m → ReadOnly (try m).
Proof. intros Hm s. apply wp_try. apply Hm. Qed.
#[export] Instance if_read_only {A} (b : bool) (m1 m2 : M A) : ReadOnly m1 → ReadOnly m2 → ReadOnly (if b then m1 else m2).
Proof. by destruct b. Qed.
#[export] Instance option_read_only {A C} (o : option C) (m : C → M A) (m' : M A) :
  (∀ c, ReadOnly (m c)) → ReadOnly m' → ReadOnly (match o with Some c => m c | None => m' end).
Proof. destruct o; auto. Qed.

Lemma wp_outside_any {A} (f : nat → World → (error + A) * World) (Q : error + A → World → Prop) s :
  (let s' := mkWorld (rt_env (w_tick s) (w_tx s) (w_db s)) (w_tx s) (S (w_tick s)) in
   Q (f (w_tick s) s').1 (f (w_tick s) s').2) → wp (outside f) Q s.
Proof. intros HQ. eapply wp_run; [|exact HQ]. apply surjective_pairing. Qed.
Lemma read_only_outside s : read_only s (mkWorld (rt_env (w_tick s) (w_tx s) (w_db s)) (w_tx s) (S (w_tick s))).
Proof. split_and!; [apply rtc_once; eauto|done|simpl; lia]. Qed.

#[export] Instance QueryNodes_read_only {R} `{Table R} (q : QuerySpec R) : ReadOnly (QueryNodes q).
Proof.
  intros s. apply wp_outside_any. cbv zeta. destruct (drv_query _ _ _); apply read_only_outside.
Qed.
#[export] Instance Now_read_only : ReadOnly Now.
Proof. intros s. apply wp_outside_any, read_only_outside. Qed.
#[export] Instance NewUUID_read_only : ReadOnly NewUUID.
Proof. intros s. apply wp_outside_any, read_only_outside. Qed.
#[export] Instance or_default_read_only {A} (v : option A) d : ReadOnly d → ReadOnly (or_default v d).
Proof. unfold or_default. apply _. Qed.

(** *** The queries of the client *)

#[export] Instance Query_All_read_only {R} `{Table R} (q : Query R) : ReadOnly (Query_All q).
Proof. unfold Query_All. apply _. Qed.
#[export] Instance Query_Only_read_only {R} `{Table R} label (q : Query R) : ReadOnly (Query_Only label q).
Proof. unfold Query_Only. apply _. Qed.
#[export] Instance Query_First_read_only {R} `{Table R} label (q : Query R) : ReadOnly (Query_First label q).
Proof. unfold Query_First. apply _. Qed.
#[export] Instance OrgQuery_All_read_only q : ReadOnly (OrgQuery_All q).
Proof. unfold OrgQuery_All. apply _. Qed.
#[export] Instance OrgQuery_Only_read_only q : ReadOnly (OrgQuery_Only q).
Proof. unfold OrgQuery_Only. apply _. Qed.
#[export] Instance loadOrg_read_only q nodes : ReadOnly (loadOrg q nodes).
Proof. unfold loadOrg. cbv zeta. apply _. Qed.
#[export] Instance FolderQuery_All_read_only q : ReadOnly (FolderQuery_All q).
Proof. unfold FolderQuery_All. cbv zeta. apply _. Qed.
#[export] Instance FolderQuery_Only_read_only q : ReadOnly (FolderQuery_Only q).
Proof. unfold FolderQuery_Only. apply _. Qed.
#[export] Instance loadFolder_read_only q nodes : ReadOnly (loadFolder q nodes).
Proof. unfold loadFolder. cbv zeta. apply _. Qed.
#[export] Instance ProjectQuery_All_read_only q : ReadOnly (ProjectQuery_All q).
Proof. unfold ProjectQuery_All. cbv zeta. apply _. Qed.

(** *** The reading operations of the store *)

#[export] Instance GetOrg_read_only name : ReadOnly (GetOrg name).
Proof. unfold GetOrg. apply _. Qed.
#[export] Instance GetOrgIncludingDeleted_read_only name : ReadOnly (GetOrgIncludingDeleted name).
Proof. unfold GetOrgIncludingDeleted. apply _. Qed.
#[export] Instance ListOrgs_read_only : ReadOnly ListOrgs.
Proof. unfold ListOrgs. apply _. Qed.
#[export] Instance single_project_read_only name ps : ReadOnly (p ← of_result (single_project name ps); mret (p, Project_org p)).
Proof. apply bind_read_only; intros; apply _. Qed.
#[export] Instance GetProject_read_only name orgNames : ReadOnly (GetProject name orgNames).
Proof. unfold GetProject. apply if_read_only; [apply _|]. cbv zeta. apply bind_read_only; apply _. Qed.
#[export] Instance GetProjectIncludingDeleted_read_only name orgNames : ReadOnly (GetProjectIncludingDeleted name orgNames).
Proof. unfold GetProjectIncludingDeleted. apply if_read_only; [apply _|]. cbv zeta. apply bind_read_only; apply _. Qed.
#[export] Instance GetProjectByID_read_only id : ReadOnly (GetProjectByID id).
Proof. unfold GetProjectByID, ProjectQuery_Only. apply bind_read_only; intros; apply _. Qed.
#[export] Instance ListProjects_read_only orgNames : ReadOnly (ListProjects orgNames).
Proof. unfold ListProjects. cbv zeta. apply _. Qed.
#[export] Instance GetOrgNamesByUUIDs_read_only ids : ReadOnly (GetOrgNamesByUUIDs ids).
Proof. unfold GetOrgNamesByUUIDs. apply if_read_only; [apply _|]. apply bind_read_only; [apply _|]. intros []; apply _. Qed.
#[export] Instance GetEventsAfter_read_only after limit : ReadOnly (GetEventsAfter after limit).
Proof. unfold GetEventsAfter, TenancyEventQuery_All. apply _. Qed.
#[export] Instance DeriveStatus_read_only rt id del cs : ReadOnly (DeriveStatus rt id del cs).
Proof. unfold DeriveStatus, GetControllerStatuses, ControllerStatusQuery_All. apply _. Qed.
#[export] Instance replay_max_id_read_only : ReadOnly replay_max_id.
Proof. unfold replay_max_id, TenancyEventQuery_First. apply bind_read_only; [apply _|]. intros []; apply _. Qed.
#[export] Instance replay_body_read_only : ReadOnly SynthesizeReplayEvents_body.
Proof. unfold SynthesizeReplayEvents_body. cbv zeta. repeat (apply bind_read_only; [apply _|intros]). apply _. Qed.
End reading.
