(* ===== verification/Wf.v ===== *)
(** * The schema invariant

    [db_wf]: the constraints of migrate/schema.go as a property of a whole
    database (keys and unique indexes without duplicates, foreign keys that
    resolve, event ids increasing in table order), and its preservation by the
    effects of the client's statements. *)

From S2P Require Import Prelude GoStd Monad EntSchema Sqlgraph EntQuery EntMutation Logic.

Definition folder_key (f : Folder) : string * UUID := (Folder_Name f, Folder_org_folders f).
Definition project_key (p : Project) : string * UUID := (Project_Name p, Project_folder_projects p).
Definition controllerstatus_key (s : ControllerStatus) : string * string * UUID :=
  (ControllerStatus_ControllerName s, ControllerStatus_ResourceType s, ControllerStatus_ResourceID s).

Record db_wf (db : DB) : Prop := mk_db_wf {
  wf_org_ids : NoDup (Org_ID <$> t_orgs db);
  wf_org_names : NoDup (Org_Name <$> t_orgs db);
  wf_folder_ids : NoDup (Folder_ID <$> t_folders db);
  wf_folder_keys : NoDup (folder_key <$> t_folders db);
  wf_folder_org : ∀ f, f ∈ t_folders db → ∃ o, o ∈ t_orgs db ∧ Org_ID o = Folder_org_folders f;
  wf_project_ids : NoDup (Project_ID <$> t_projects db);
  wf_project_keys : NoDup (project_key <$> t_projects db);
  wf_project_folder : ∀ p, p ∈ t_projects db →
    ∃ f, f ∈ t_folders db ∧ Folder_ID f = Project_folder_projects p;
  wf_event_ids : StronglySorted Z.lt (TenancyEvent_ID <$> t_events db);
  wf_status_ids : NoDup (ControllerStatus_ID <$> t_statuses db);
  wf_status_keys : NoDup (controllerstatus_key <$> t_statuses db) }.

(** ** Lists under insertion, update and deletion *)

Lemma update_rows_fmap {R B} (g : R → B) p (f : R → R) l :
  (∀ r, g (f r) = g r) → g <$> update_rows p f l = g <$> l.
Proof.
  intros Hg. unfold update_rows. rewrite <- list_fmap_compose. apply list_fmap_ext.
  intros i r _. simpl. destruct (p r); [apply Hg|done].
Qed.

Lemma elem_of_update_rows {R} p (f : R → R) l r :
  r ∈ update_rows p f l ↔ ∃ r0, r0 ∈ l ∧ r = (if p r0 then f r0 else r0).
Proof. unfold update_rows. rewrite list_elem_of_fmap. naive_solver. Qed.

Lemma elem_of_delete_rows {R} p (l : list R) r : r ∈ delete_rows p l ↔ r ∈ l ∧ p r = false.
Proof. unfold delete_rows. by rewrite elem_of_select, negb_true_iff. Qed.

Lemma NoDup_delete_rows {R B} (g : R → B) p (l : list R) :
  NoDup (g <$> l) → NoDup (g <$> delete_rows p l).
Proof. apply NoDup_fmap_select. Qed.

Lemma StronglySorted_snoc (l : list Z) x :
  StronglySorted Z.lt l → (∀ y, y ∈ l → (y < x)%Z) → StronglySorted Z.lt (l ++ [x]).
Proof.
  induction 1 as [|y l Hs IH Hy]; intros Hx; simpl; [repeat constructor|].
  constructor; [apply IH; set_solver|]. apply Forall_app. split; [done|].
  constructor; [apply Hx; set_solver|done].
Qed.

Lemma StronglySorted_select (l : list TenancyEvent) p :
  StronglySorted Z.lt (TenancyEvent_ID <$> l) → StronglySorted Z.lt (TenancyEvent_ID <$> select p l).
Proof.
  induction l as [|e l IH]; simpl; [done|]. intros Hs. inversion Hs as [|? ? Hs' Hf]; subst.
  destruct (p e); [|auto]. simpl. constructor; [auto|].
  rewrite Forall_forall in *. intros y Hy. apply Hf.
  apply list_elem_of_fmap in Hy as (e' & -> & [? _]%elem_of_select).
  apply list_elem_of_fmap. eauto.
Qed.

(** ** Preservation *)

Lemma forallb_not_in {A} (l : list A) (p : A → bool) x : forallb p l = true → x ∈ l → p x = true.
Proof. rewrite forallb_forall. intros Hp Hx. by apply Hp, list_elem_of_In. Qed.

Ltac wf_key :=
  rewrite fmap_app; simpl; apply NoDup_snoc; [done|];
  rewrite list_elem_of_fmap; intros (r & Heq & Hin).

Lemma insert_org_wf db (o : Org) : db_wf db → insertable db o = true → db_wf (insert_row o db).
Proof.
  intros []. simpl. unfold OrgsTable_insertable. intros Hi.
  split; simpl; try done.
  - wf_key. apply (forallb_not_in _ _ _ Hi) in Hin. cbn beta in Hin. bools. congruence.
  - wf_key. apply (forallb_not_in _ _ _ Hi) in Hin. cbn beta in Hin. bools. by apply String.eqb_neq in H0.
  - intros f Hf. destruct (wf_folder_org0 f Hf) as (o' & ? & ?). exists o'. set_solver.
Qed.

Lemma existsb_elem {A} (l : list A) p : existsb p l = true → ∃ x, x ∈ l ∧ p x = true.
Proof. rewrite existsb_exists. intros (x & Hx & ?). exists x. by rewrite list_elem_of_In. Qed.

Lemma insert_folder_wf db (f : Folder) : db_wf db → insertable db f = true → db_wf (insert_row f db).
Proof.
  intros []. simpl. unfold FoldersTable_insertable. intros [Hi Ho]%andb_true_iff.
  split; simpl; try done.
  - wf_key. apply (forallb_not_in _ _ _ Hi) in Hin. cbn beta in Hin. bools. congruence.
  - wf_key. apply (forallb_not_in _ _ _ Hi) in Hin. cbn beta in Hin. bools. unfold folder_key in Heq. simplify_eq.
    destruct H0 as [He|He]; [by apply String.eqb_neq in He|]. bools. congruence.
  - intros f' [Hf|Hf]%elem_of_app; [by apply wf_folder_org0|]. apply list_elem_of_singleton in Hf as ->.
    apply existsb_elem in Ho as (o & ? & Ho). bools. eauto.
  - intros p Hp. destruct (wf_project_folder0 p Hp) as (f' & ? & ?). exists f'. set_solver.
Qed.

Lemma insert_project_wf db (p : Project) : db_wf db → insertable db p = true → db_wf (insert_row p db).
Proof.
  intros []. simpl. unfold ProjectsTable_insertable. intros [Hi Ho]%andb_true_iff.
  split; simpl; try done.
  - wf_key. apply (forallb_not_in _ _ _ Hi) in Hin. cbn beta in Hin. bools. congruence.
  - wf_key. apply (forallb_not_in _ _ _ Hi) in Hin. cbn beta in Hin. bools. unfold project_key in Heq. simplify_eq.
    destruct H0 as [He|He]; [by apply String.eqb_neq in He|]. bools. congruence.
  - intros p' [Hf|Hf]%elem_of_app; [by apply wf_project_folder0|]. apply list_elem_of_singleton in Hf as ->.
    apply existsb_elem in Ho as (f & ? & Ho). bools. eauto.
Qed.

Lemma insert_event_wf db (e : TenancyEvent) : db_wf db → fresh_key db e → db_wf (insert_row e db).
Proof.
  intros [] Hf. split; simpl; try done.
  rewrite fmap_app. apply StronglySorted_snoc; [done|].
  intros y (e' & -> & He')%list_elem_of_fmap. by eapply (Hf _ e').
Qed.

Lemma insert_status_wf db (s : ControllerStatus) :
  db_wf db → insertable db s = true → db_wf (insert_row s db).
Proof.
  intros []. simpl. unfold ControllerStatusTable_insertable. intros Hi.
  split; simpl; try done.
  - wf_key. apply (forallb_not_in _ _ _ Hi) in Hin. cbn beta in Hin. bools. lia.
  - wf_key. apply (forallb_not_in _ _ _ Hi) in Hin. cbn beta in Hin. bools. unfold controllerstatus_key in Heq.
    simplify_eq. unfold ControllerStatus_same_key in H0. rewrite !andb_false_iff in H0.
    destruct H0 as [[He|He]|He];
      [by apply String.eqb_neq in He|by apply String.eqb_neq in He|by bools].
Qed.

(** Updates that keep the keys keep the invariant. *)
Lemma update_org_wf db p f :
  db_wf db → (∀ o, Org_ID (f o) = Org_ID o) → (∀ o, Org_Name (f o) = Org_Name o) →
  db_wf (over_rows (update_rows p f) db).
Proof.
  intros [] Hid Hn. split; simpl; try done.
  - by rewrite update_rows_fmap.
  - by rewrite update_rows_fmap.
  - intros g Hg. destruct (wf_folder_org0 g Hg) as (o & Ho & <-).
    exists (if p o then f o else o). split; [apply elem_of_update_rows; eauto|by destruct (p o)].
Qed.

Lemma update_project_wf db p f :
  db_wf db → (∀ q, Project_ID (f q) = Project_ID q) → (∀ q, project_key (f q) = project_key q) →
  db_wf (over_rows (update_rows p f) db).
Proof.
  intros [] Hid Hk. split; simpl; try done.
  - by rewrite update_rows_fmap.
  - by rewrite update_rows_fmap.
  - intros q (q0 & Hq0 & ->)%elem_of_update_rows. destruct (wf_project_folder0 q0 Hq0) as (g & ? & Hg).
    exists g. split; [done|]. specialize (Hk q0). unfold project_key in Hk.
    destruct (p q0); [|done]. congruence.
Qed.

Lemma update_status_wf db p f :
  db_wf db → (∀ s, ControllerStatus_ID (f s) = ControllerStatus_ID s) →
  (∀ s, controllerstatus_key (f s) = controllerstatus_key s) →
  db_wf (over_rows (update_rows p f) db).
Proof. intros [] Hid Hk. split; simpl; try done; by rewrite update_rows_fmap. Qed.

(** Deletions of rows nothing refers to. *)
Lemma existsb_none {A} (l : list A) p x : existsb p l = false → x ∈ l → p x = false.
Proof.
  intros He Hx. destruct (p x) eqn:Hp; [|done].
  assert (existsb p l = true); [|congruence].
  apply existsb_exists. exists x. by rewrite <- list_elem_of_In.
Qed.

Lemma delete_org_wf db p :
  db_wf db → (∀ o, o ∈ select p (t_orgs db) → referenced db o = false) →
  db_wf (over_rows (delete_rows p) db).
Proof.
  intros [] Hr. split; simpl; try done; try by apply NoDup_delete_rows.
  intros f Hf. destruct (wf_folder_org0 f Hf) as (o & Ho & Heq). exists o. split; [|done].
  apply elem_of_delete_rows. split; [done|]. destruct (p o) eqn:Hp; [|done].
  specialize (Hr o). rewrite elem_of_select in Hr. specialize (Hr (conj Ho Hp)).
  apply (existsb_none _ _ f) in Hr; [|done]. cbn beta in Hr. bools. congruence.
Qed.

Lemma delete_folder_wf db p :
  db_wf db → (∀ f, f ∈ select p (t_folders db) → referenced db f = false) →
  db_wf (over_rows (delete_rows p) db).
Proof.
  intros [] Hr. split; simpl; try done; try by apply NoDup_delete_rows.
  - intros f [Hf _]%elem_of_delete_rows. by apply wf_folder_org0.
  - intros q Hq. destruct (wf_project_folder0 q Hq) as (f & Hf & Heq). exists f. split; [|done].
    apply elem_of_delete_rows. split; [done|]. destruct (p f) eqn:Hp; [|done].
    specialize (Hr f). rewrite elem_of_select in Hr. specialize (Hr (conj Hf Hp)).
    apply (existsb_none _ _ q) in Hr; [|done]. cbn beta in Hr. bools. congruence.
Qed.

Lemma delete_project_wf db p : db_wf db → db_wf (set_projects (delete_rows p) db).
Proof.
  intros []. split; simpl; try done; try by apply NoDup_delete_rows.
  intros q [Hq _]%elem_of_delete_rows. by apply wf_project_folder0.
Qed.

Lemma delete_event_wf db p : db_wf db → db_wf (set_events (delete_rows p) db).
Proof. intros []. split; simpl; try done. by apply StronglySorted_select. Qed.

Lemma delete_status_wf db p : db_wf db → db_wf (set_statuses (delete_rows p) db).
Proof. intros []. split; simpl; try done; by apply NoDup_delete_rows. Qed.

Lemma empty_db_wf : db_wf empty_db.
Proof. split; simpl; try (by constructor); intros ? []%elem_of_nil. Qed.

#[export] Hint Resolve insert_org_wf insert_folder_wf insert_project_wf insert_event_wf
  insert_status_wf update_org_wf update_project_wf update_status_wf delete_org_wf
  delete_folder_wf delete_project_wf delete_event_wf delete_status_wf empty_db_wf : orch.
