(* ===== verification/EntLoad.v ===== *)
(** * Specifications of the queries, eager loading included

    In a database that satisfies the schema invariant a query with
    [WithFolder(WithOrg)] returns each matching project with its folder and the
    folder's org ([attach]): the batched second and third query and the assignment
    by foreign key compute the join. *)

From S2P Require Import Prelude GoStd Monad EntSchema Sqlgraph EntQuery EntMutation Logic Wf EntSpec.

(** ** The join the loaders compute *)

Definition org_of (db : DB) (f : Folder) : option Org :=
  find (λ o, bool_decide (Org_ID o = Folder_org_folders f)) (t_orgs db).
Definition folder_of (db : DB) (p : Project) : option Folder :=
  find (λ f, bool_decide (Folder_ID f = Project_folder_projects p)) (t_folders db).
Definition attach_org (db : DB) (f : Folder) : FolderNode := mkFolderNode f (org_of db f).
Definition attach (db : DB) (p : Project) : ProjectNode :=
  mkProjectNode p (attach_org db <$> folder_of db p).
(** the org of a project *)
Definition project_org (db : DB) (p : Project) : option Org := folder_of db p ≫= org_of db.

Lemma Project_org_attach db p : Project_org (attach db p) = project_org db p.
Proof. unfold Project_org, attach, project_org. simpl. by destruct (folder_of db p). Qed.

Lemma find_key {A} (key : A → UUID) (l : list A) k e :
  NoDup (key <$> l) →
  find (λ e, bool_decide (key e = k)) l = Some e ↔ e ∈ l ∧ key e = k.
Proof.
  intros Hnd. split.
  - intros Hf. apply find_some in Hf as [Hin Hk]. bools. by rewrite list_elem_of_In.
  - intros [Hin <-]. induction l as [|x l IH]; [set_solver|].
    simpl. rewrite fmap_cons, NoDup_cons in Hnd. destruct Hnd as [Hx Hnd].
    case_bool_decide as Heq.
    + apply elem_of_cons in Hin as [->|Hin]; [done|]. exfalso. apply Hx.
      rewrite Heq. by apply list_elem_of_fmap_2.
    + apply IH; [done|]. apply elem_of_cons in Hin as [->|Hin]; done.
Qed.

Lemma find_key_none {A} (key : A → UUID) (l : list A) k :
  k ∉ (key <$> l) → find (λ e, bool_decide (key e = k)) l = None.
Proof.
  intros Hk. destruct (find _ l) as [e|] eqn:Hf; [|done].
  apply find_some in Hf as [Hin He]. bools. exfalso. apply Hk. subst.
  apply list_elem_of_fmap_2. by apply list_elem_of_In.
Qed.

Lemma mem_uuid_elem u l : mem_uuid u l = true ↔ u ∈ l.
Proof.
  unfold mem_uuid. rewrite existsb_exists. split.
  - intros (v & Hv & ?). bools. subst. by apply list_elem_of_In.
  - intros Hu. exists u. split; [by apply list_elem_of_In|]. by apply bool_decide_eq_true.
Qed.

Lemma mem_string_elem s l : mem_string s l = true ↔ s ∈ l.
Proof.
  unfold mem_string. rewrite existsb_exists. split.
  - intros (v & Hv & ->%String.eqb_eq). by apply list_elem_of_In.
  - intros Hu. exists s. split; [by apply list_elem_of_In|]. apply String.eqb_refl.
Qed.

Lemma elem_of_distinct u seen ids : u ∈ distinct seen ids ↔ u ∈ ids ∧ u ∉ seen.
Proof.
  revert seen. induction ids as [|v ids IH]; intros seen; simpl; [set_solver|].
  destruct (mem_uuid v seen) eqn:Hm.
  - apply mem_uuid_elem in Hm. rewrite IH, elem_of_cons. naive_solver.
  - assert (v ∉ seen) by (intros Hv%mem_uuid_elem; congruence).
    rewrite !elem_of_cons, IH, elem_of_cons. destruct (decide (u = v)); naive_solver.
Qed.

(** A batch of neighbours with distinct keys, each wanted by some node. *)
Lemma assign_neighbors_spec {N E} (fk : N → UUID) (key : E → UUID) assign unexpected ns :
  (∀ m e, fk (assign m e) = fk m) → NoDup (key <$> ns) → ∀ nodes,
  (∀ e, e ∈ ns → ∃ m, m ∈ nodes ∧ fk m = key e) →
  assign_neighbors fk key assign unexpected nodes ns =
  inr ((λ m, match find (λ e, bool_decide (key e = fk m)) ns with
             | Some e => assign m e
             | None => m
             end) <$> nodes).
Proof.
  intros Hfk. induction ns as [|n ns IH]; intros Hnd nodes Hw; simpl.
  - f_equal. by rewrite list_fmap_id.
  - rewrite fmap_cons, NoDup_cons in Hnd. destruct Hnd as [Hn Hnd].
    assert (existsb (λ m, bool_decide (fk m = key n)) nodes = true) as ->.
    { destruct (Hw n ltac:(set_solver)) as (m & Hm & Hk). apply existsb_exists.
      exists m. split; [by apply list_elem_of_In|by apply bool_decide_eq_true]. }
    rewrite IH; [|done|].
    + f_equal. rewrite <- list_fmap_compose. apply list_fmap_ext. intros i m _. simpl.
      case_bool_decide as Hk.
      * rewrite Hfk, Hk, (bool_decide_eq_true_2 (key n = key n)) by done.
        by rewrite find_key_none.
      * rewrite (bool_decide_eq_false_2 (key n = fk m)) by congruence. done.
    + intros e He. destruct (Hw e ltac:(set_solver)) as (m & Hm & Hk).
      exists (if bool_decide (fk m = key n) then assign m n else m). split.
      * apply list_elem_of_fmap. eauto.
      * case_bool_decide; by rewrite ?Hfk.
Qed.

(** A batch fetched by keys finds what a scan of the table finds. *)
Lemma find_batch {A} (key : A → UUID) (table ns : list A) ids k :
  NoDup (key <$> table) → ns ≡ₚ select (λ e, mem_uuid (key e) ids) table → k ∈ ids →
  NoDup (key <$> ns) ∧
  find (λ e, bool_decide (key e = k)) ns = find (λ e, bool_decide (key e = k)) table.
Proof.
  intros Hnd Hns Hk. assert (NoDup (key <$> ns)) as Hnd'.
  { rewrite Hns. by apply NoDup_fmap_select. }
  split; [done|]. apply option_eq. intros e. rewrite !find_key by done.
  rewrite Hns, elem_of_select, mem_uuid_elem. naive_solver.
Qed.

Lemma query_result_plain {R} `{Table R} db (ps : list (predicate R)) rs :
  query_result db (querySpec (mkQuery ps [] None)) rs → rs ≡ₚ matching ps db.
Proof. by intros (full & Hp & _ & ->). Qed.

(** What a query returns is what it selects. *)
Lemma query_result_elem {R} `{Table R} db (q : QuerySpec R) rs r :
  query_result db q rs → r ∈ rs → r ∈ rows db ∧ holds (q_predicates q) db r = true.
Proof.
  intros (full & Hp & _ & ->) Hr.
  assert (r ∈ full) as Hf.
  { repeat case_match; [|done|done]. rewrite <- (take_drop (Z.to_nat z) full). set_solver. }
  rewrite Hp in Hf. by apply elem_of_select in Hf.
Qed.

Section load.
Context `{Driver} `{Runtime} `{FieldValidators} `{UUIDLib}.
Context `{!DriverLaws} `{!Quiet}.
Implicit Types (db : DB) (tx : option (list (DB → DB))) (t : nat).

Lemma wp_All {R} `{Table R} (q : Query R) (Q : error + list R → World → Prop) db tx t :
  (∀ o, o ∈ order q → ordering o) →
  match limit q with Some n => (0 < n)%Z | None => True end →
  (∀ rs t', query_result (viewof db tx) (querySpec q) rs → Q (inr rs) (mkWorld db tx t')) →
  (∀ msg t', Q (inl (errDriver DrvOther msg)) (mkWorld db tx t')) →
  wp (Query_All q) Q (mkWorld db tx t).
Proof. intros Ho Hl HQ He. apply wp_QueryNodes; [done|done|intros; by apply HQ|intros; apply He]. Qed.

Lemma wp_loadOrg fs (Q : error + list FolderNode → World → Prop) db tx t :
  NoDup (Org_ID <$> t_orgs (viewof db tx)) → fs ≠ [] →
  (∀ t', Q (inr (attach_org (viewof db tx) <$> fs)) (mkWorld db tx t')) →
  (∀ msg t', Q (inl (errDriver DrvOther msg)) (mkWorld db tx t')) →
  wp (loadOrg NewQuery ((λ f, mkFolderNode f None) <$> fs)) Q (mkWorld db tx t).
Proof.
  intros Hnd Hne HQ He. unfold loadOrg. rewrite <- list_fmap_compose. simpl.
  set (ids := distinct [] _).
  assert (∀ f, f ∈ fs → Folder_org_folders f ∈ ids) as Hids.
  { intros f Hf. apply elem_of_distinct. split; [|set_solver].
    apply list_elem_of_fmap. eauto. }
  assert (∃ f0, f0 ∈ fs) as [f0 Hf0] by (destruct fs as [|f0 ?]; [done|exists f0; set_solver]).
  assert ((length ids =? 0)%nat = false) as ->.
  { apply Nat.eqb_neq. intros Hl%nil_length_inv. specialize (Hids f0 Hf0).
    rewrite Hl in Hids. set_solver. }
  wp_step. apply wp_All; simpl; [set_solver|done| |intros; by apply He].
  intros rs t' Hrs%query_result_plain. wp_step. unfold matching in Hrs.
  rewrite (select_ext _ (λ o, mem_uuid (Org_ID o) ids)) in Hrs
    by (intros; simpl; by rewrite andb_true_r).
  rewrite assign_neighbors_spec; [|done|..].
  - rewrite <- list_fmap_compose. erewrite list_fmap_ext; [apply HQ|].
    intros i f Hf%list_elem_of_lookup_2. simpl. unfold attach_org, org_of.
    destruct (find_batch Org_ID _ _ _ _ Hnd Hrs (Hids f Hf)) as [_ ->].
    by destruct (find _ _).
  - destruct (find_batch Org_ID _ _ _ _ Hnd Hrs (Hids f0 Hf0)) as [? _]. done.
  - intros o Ho. rewrite Hrs in Ho. apply elem_of_select in Ho as [_ Ho%mem_uuid_elem].
    apply elem_of_distinct in Ho as [(f & Heq & Hf)%list_elem_of_fmap _].
    exists (mkFolderNode f None). split; [apply list_elem_of_fmap; eauto|done].
Qed.

Lemma wp_FolderQuery_All ps (Q : error + list FolderNode → World → Prop) db tx t :
  NoDup (Org_ID <$> t_orgs (viewof db tx)) →
  (∀ fs t', fs ≡ₚ matching ps (viewof db tx) →
    Q (inr (attach_org (viewof db tx) <$> fs)) (mkWorld db tx t')) →
  (∀ msg t', Q (inl (errDriver DrvOther msg)) (mkWorld db tx t')) →
  wp (FolderQuery_All (mkFolderQuery (mkQuery ps [] None) (Some NewQuery))) Q (mkWorld db tx t).
Proof.
  intros Hnd HQ He. unfold FolderQuery_All. wp_step.
  apply wp_QueryNodes; simpl; [set_solver|done| |intros; by apply He].
  intros fs Hfs%query_result_plain. rewrite length_fmap.
  destruct fs as [|f fs]; [simpl; wp_step; by apply (HQ [])|].
  apply wp_loadOrg; [done|done|intros; by apply HQ|done].
Qed.

Lemma wp_loadFolder ps (Q : error + list ProjectNode → World → Prop) db tx t :
  NoDup (Org_ID <$> t_orgs (viewof db tx)) → NoDup (Folder_ID <$> t_folders (viewof db tx)) →
  ps ≠ [] →
  (∀ t', Q (inr (attach (viewof db tx) <$> ps)) (mkWorld db tx t')) →
  (∀ msg t', Q (inl (errDriver DrvOther msg)) (mkWorld db tx t')) →
  wp (loadFolder (WithOrg NewFolderQuery) ((λ p, mkProjectNode p None) <$> ps)) Q (mkWorld db tx t).
Proof.
  intros Hno Hnd Hne HQ He. unfold loadFolder. rewrite <- list_fmap_compose. simpl.
  set (ids := distinct [] _).
  assert (∀ p, p ∈ ps → Project_folder_projects p ∈ ids) as Hids.
  { intros p Hp. apply elem_of_distinct. split; [|set_solver].
    apply list_elem_of_fmap. eauto. }
  assert (∃ p0, p0 ∈ ps) as [p0 Hp0] by (destruct ps as [|p0 ?]; [done|exists p0; set_solver]).
  assert ((length ids =? 0)%nat = false) as ->.
  { apply Nat.eqb_neq. intros Hl%nil_length_inv. specialize (Hids p0 Hp0).
    rewrite Hl in Hids. set_solver. }
  wp_step. unfold FolderQuery_Where, WithOrg, NewFolderQuery, Where, NewQuery. simpl.
  apply wp_FolderQuery_All; [done| |intros; by apply He].
  intros fs t' Hfs. wp_step. unfold matching in Hfs.
  rewrite (select_ext _ (λ f, mem_uuid (Folder_ID f) ids)) in Hfs
    by (intros; simpl; by rewrite andb_true_r).
  assert (∀ k, find (λ e, bool_decide (Folder_ID (folder_row e) = k)) (attach_org (viewof db tx) <$> fs)
    = attach_org (viewof db tx) <$> find (λ f, bool_decide (Folder_ID f = k)) fs) as Hfind.
  { intros k. clear. induction fs as [|f fs IH]; [done|]. simpl.
    by destruct (bool_decide (Folder_ID f = k)). }
  rewrite assign_neighbors_spec; [|done|..].
  - rewrite <- list_fmap_compose. erewrite list_fmap_ext; [apply HQ|].
    intros i p Hp%list_elem_of_lookup_2. simpl. rewrite Hfind. unfold attach, folder_of.
    destruct (find_batch Folder_ID _ _ _ _ Hnd Hfs (Hids p Hp)) as [_ ->].
    by destruct (find _ _).
  - rewrite <- list_fmap_compose.
    destruct (find_batch Folder_ID _ _ _ _ Hnd Hfs (Hids p0 Hp0)) as [? _]. done.
  - intros n (f & -> & Hf)%list_elem_of_fmap. rewrite Hfs in Hf.
    apply elem_of_select in Hf as [_ Hf%mem_uuid_elem].
    apply elem_of_distinct in Hf as [(p & Heq & Hp)%list_elem_of_fmap _].
    exists (mkProjectNode p None). split; [apply list_elem_of_fmap; eauto|done].
Qed.

(** The query of every project operation of the store. *)
Definition loaded (q : Query Project) : ProjectQuery :=
  mkProjectQuery q (Some (WithOrg NewFolderQuery)).

Lemma wp_ProjectQuery_All q (Q : error + list ProjectNode → World → Prop) db tx t :
  db_wf (viewof db tx) → (∀ o, o ∈ order q → ordering o) →
  match limit q with Some n => (0 < n)%Z | None => True end →
  (∀ ps t', query_result (viewof db tx) (querySpec q) ps →
    Q (inr (attach (viewof db tx) <$> ps)) (mkWorld db tx t')) →
  (∀ msg t', Q (inl (errDriver DrvOther msg)) (mkWorld db tx t')) →
  wp (ProjectQuery_All (loaded q)) Q (mkWorld db tx t).
Proof.
  intros Hwf Ho Hl HQ He. unfold ProjectQuery_All, loaded. simpl. wp_step.
  apply wp_QueryNodes; [done|done| |intros; by apply He].
  intros ps Hps. rewrite length_fmap.
  destruct ps as [|p ps]; [simpl; wp_step; by apply (HQ [])|].
  apply wp_loadFolder; [apply Hwf|apply Hwf|done|intros; by apply HQ|done].
Qed.
End load.
