(* ===== verification/EntScan.v ===== *)
(** * The generated client: rows of the database and entities

    [scanValues] and [assignValues] of tenancy-manager/internal/ent (org.go, folder.go, project.go,
    tenancyevent.go, controllerstatus.go): the scanners that database/sql fills for the columns of
    a result, and the fields of an entity from what they hold; the columns of the tables
    (org/org.go and its siblings).

    database/sql's and google/uuid's scanning of a cell is the parameter [SQLScan]. *)

From S2P Require Import Prelude GoStd Monad EntSchema Sqlgraph EntQuery EntMutation Logic EntSpec Wf EntLoad.

(** ** database/sql *)

(** The scanners the code allocates. *)
Inductive ScanType := NullString | NullTime | UUIDScanner | NullUUID | NullInt64 | UnknownType.
#[export] Instance ScanType_eq_dec : EqDecision ScanType.
Proof. solve_decision. Defined.
(** A cell of a result. *)
Inductive Cell := CNull | CText (s : string) | CTime (t : Time) | CUUID (u : UUID) | CInt (z : Z).
(** A scanner with its contents; [None]: not valid.  [*uuid.UUID] is not nil. *)
Inductive Scanned :=
  | VString (s : option string) | VTime (t : option Time) | VUUID (u : UUID) | VNullUUID (u : option UUID)
  | VInt64 (z : option Z) | VUnknown (c : Cell).
Definition type_of (v : Scanned) : ScanType :=
  match v with
  | VString _ => NullString | VTime _ => NullTime | VUUID _ => UUIDScanner | VNullUUID _ => NullUUID
  | VInt64 _ => NullInt64 | VUnknown _ => UnknownType
  end.
(** [%T] *)
Definition go_type_name (t : ScanType) : string :=
  match t with
  | NullString => "*sql.NullString" | NullTime => "*sql.NullTime" | UUIDScanner => "*uuid.UUID"
  | NullUUID => "*sql.NullScanner" | NullInt64 => "*sql.NullInt64" | UnknownType => "*sql.UnknownType"
  end.

Class SQLScan := { sql_scan : ScanType → Cell → error + Scanned }.
Class SQLScanLaws `{SQLScan} : Prop := {
  scan_type : ∀ ty c v, sql_scan ty c = inr v → type_of v = ty;
  scan_text : ∀ s, sql_scan NullString (CText s) = inr (VString (Some s));
  scan_time : ∀ t, sql_scan NullTime (CTime t) = inr (VTime (Some t));
  scan_int : ∀ z, sql_scan NullInt64 (CInt z) = inr (VInt64 (Some z));
  scan_uuid : ∀ u, sql_scan UUIDScanner (CUUID u) = inr (VUUID u);
  scan_null_uuid : ∀ u, sql_scan NullUUID (CUUID u) = inr (VNullUUID (Some u));
  scan_null_string : sql_scan NullString CNull = inr (VString None);
  scan_null_time : sql_scan NullTime CNull = inr (VTime None);
  scan_null_null_uuid : sql_scan NullUUID CNull = inr (VNullUUID None) }.

(** ** Assigning the values of a row *)

(** An entity while it is read: its fields, its foreign key, which is nil until it is assigned
    and not read from [l_row], and the calls of [selectValues.Set]. *)
Record Loaded (R : Type) := mkLoaded { l_row : R; l_fk : option UUID; l_selected : list (string * Scanned) }.
Arguments mkLoaded {_}. Arguments l_row {_}. Arguments l_fk {_}. Arguments l_selected {_}.
Definition with_row {R} (f : R → R) (n : Loaded R) : Loaded R := mkLoaded (f (l_row n)) (l_fk n) (l_selected n).
Definition with_fk {R} (u : UUID) (n : Loaded R) : Loaded R := mkLoaded (l_row n) (Some u) (l_selected n).
Definition select_value {R} (column : string) (v : Scanned) (n : Loaded R) : error + Loaded R :=
  inr (mkLoaded (l_row n) (l_fk n) (l_selected n ++ [(column, v)])).

Definition unexpected_type (t : ScanType) (field : string) : error :=
  errText ("unexpected type " +:+ go_type_name t +:+ " for field " +:+ field).
(** One case of the switch, for each scanner. *)
Definition assign_string {N} (field : string) (v : Scanned) (set : string → N → N) (n : N) : error + N :=
  match v with
  | VString (Some s) => inr (set s n)
  | VString None => inr n
  | _ => inl (unexpected_type (type_of v) field)
  end.
Definition assign_time {N} (field : string) (v : Scanned) (set : Time → N → N) (n : N) : error + N :=
  match v with
  | VTime (Some t) => inr (set t n)
  | VTime None => inr n
  | _ => inl (unexpected_type (type_of v) field)
  end.
Definition assign_uuid {N} (field : string) (v : Scanned) (set : UUID → N → N) (n : N) : error + N :=
  match v with
  | VUUID u => inr (set u n)
  | _ => inl (unexpected_type (type_of v) field)
  end.
Definition assign_null_uuid {N} (field : string) (v : Scanned) (set : UUID → N → N) (n : N) : error + N :=
  match v with
  | VNullUUID (Some u) => inr (set u n)
  | VNullUUID None => inr n
  | _ => inl (unexpected_type (type_of v) field)
  end.
(** The message prints the type of the result of the assertion; a NULL is 0. *)
Definition assign_int64 {N} (field : string) (v : Scanned) (set : Z → N → N) (n : N) : error + N :=
  match v with
  | VInt64 z => inr (set (default 0%Z z) n)
  | _ => inl (unexpected_type NullInt64 field)
  end.

(** The loop over the columns. *)
Fixpoint assign_columns {N} (assign : string → Scanned → N → error + N) (columns : list string) (values : list Scanned)
    (n : N) : error + N :=
  match columns, values with
  | column :: columns, value :: values =>
      match assign column value n with
      | inl err => inl err
      | inr n => assign_columns assign columns values n
      end
  | _, _ => inr n
  end.
Definition assign_values {N} (assign : string → Scanned → N → error + N) (columns : list string) (values : list Scanned)
    (n : N) : error + N :=
  if (length values <? length columns)%nat
  then inl (errText ("mismatch number of scan values: " +:+ itoa (length values) +:+ " != " +:+ itoa (length columns)))
  else assign_columns assign columns values n.

(** ** Org *)

Definition Org_Columns : list string := ["id"; "name"; "description"; "created_at"; "updated_at"; "deleted_at"].
Definition Org_scanValue (column : string) : ScanType :=
  if mem_string column ["name"; "description"] then NullString
  else if mem_string column ["created_at"; "updated_at"; "deleted_at"] then NullTime
  else if String.eqb column "id" then UUIDScanner
  else UnknownType.
Definition Org_scanValues (columns : list string) : list ScanType := Org_scanValue <$> columns.
Definition Org_assignValue (column : string) (v : Scanned) (n : Loaded Org) : error + Loaded Org :=
  if String.eqb column "id" then assign_uuid "id" v (λ x, with_row (λ o,
    mkOrg x (Org_Name o) (Org_Description o) (Org_CreatedAt o) (Org_UpdatedAt o) (Org_DeletedAt o))) n
  else if String.eqb column "name" then assign_string "name" v (λ x, with_row (λ o,
    mkOrg (Org_ID o) x (Org_Description o) (Org_CreatedAt o) (Org_UpdatedAt o) (Org_DeletedAt o))) n
  else if String.eqb column "description" then assign_string "description" v (λ x, with_row (λ o,
    mkOrg (Org_ID o) (Org_Name o) x (Org_CreatedAt o) (Org_UpdatedAt o) (Org_DeletedAt o))) n
  else if String.eqb column "created_at" then assign_time "created_at" v (λ x, with_row (λ o,
    mkOrg (Org_ID o) (Org_Name o) (Org_Description o) x (Org_UpdatedAt o) (Org_DeletedAt o))) n
  else if String.eqb column "updated_at" then assign_time "updated_at" v (λ x, with_row (λ o,
    mkOrg (Org_ID o) (Org_Name o) (Org_Description o) (Org_CreatedAt o) x (Org_DeletedAt o))) n
  else if String.eqb column "deleted_at" then assign_time "deleted_at" v (λ x, with_row (λ o,
    mkOrg (Org_ID o) (Org_Name o) (Org_Description o) (Org_CreatedAt o) (Org_UpdatedAt o) (Some x))) n
  else select_value column v n.
Definition Org_assignValues : list string → list Scanned → Loaded Org → error + Loaded Org := assign_values Org_assignValue.

(** ** Folder *)

Definition Folder_Columns : list string := ["id"; "name"; "created_at"; "updated_at"].
Definition Folder_ForeignKeys : list string := ["org_folders"].
Definition Folder_scanValue (column : string) : ScanType :=
  if mem_string column ["name"] then NullString
  else if mem_string column ["created_at"; "updated_at"] then NullTime
  else if String.eqb column "id" then UUIDScanner
  else if String.eqb column "org_folders" then NullUUID
  else UnknownType.
Definition Folder_scanValues (columns : list string) : list ScanType := Folder_scanValue <$> columns.
Definition Folder_assignValue (column : string) (v : Scanned) (n : Loaded Folder) : error + Loaded Folder :=
  if String.eqb column "id" then assign_uuid "id" v (λ x, with_row (λ f,
    mkFolder x (Folder_Name f) (Folder_CreatedAt f) (Folder_UpdatedAt f) (Folder_org_folders f))) n
  else if String.eqb column "name" then assign_string "name" v (λ x, with_row (λ f,
    mkFolder (Folder_ID f) x (Folder_CreatedAt f) (Folder_UpdatedAt f) (Folder_org_folders f))) n
  else if String.eqb column "created_at" then assign_time "created_at" v (λ x, with_row (λ f,
    mkFolder (Folder_ID f) (Folder_Name f) x (Folder_UpdatedAt f) (Folder_org_folders f))) n
  else if String.eqb column "updated_at" then assign_time "updated_at" v (λ x, with_row (λ f,
    mkFolder (Folder_ID f) (Folder_Name f) (Folder_CreatedAt f) x (Folder_org_folders f))) n
  else if String.eqb column "org_folders" then assign_null_uuid "org_folders" v with_fk n
  else select_value column v n.
Definition Folder_assignValues : list string → list Scanned → Loaded Folder → error + Loaded Folder := assign_values Folder_assignValue.

(** ** Project *)

Definition Project_Columns : list string := ["id"; "name"; "description"; "created_at"; "updated_at"; "deleted_at"].
Definition Project_ForeignKeys : list string := ["folder_projects"].
Definition Project_scanValue (column : string) : ScanType :=
  if mem_string column ["name"; "description"] then NullString
  else if mem_string column ["created_at"; "updated_at"; "deleted_at"] then NullTime
  else if String.eqb column "id" then UUIDScanner
  else if String.eqb column "folder_projects" then NullUUID
  else UnknownType.
Definition Project_scanValues (columns : list string) : list ScanType := Project_scanValue <$> columns.
Definition Project_assignValue (column : string) (v : Scanned) (n : Loaded Project) : error + Loaded Project :=
  if String.eqb column "id" then assign_uuid "id" v (λ x, with_row (λ p,
    mkProject x (Project_Name p) (Project_Description p) (Project_CreatedAt p) (Project_UpdatedAt p)
      (Project_DeletedAt p) (Project_folder_projects p))) n
  else if String.eqb column "name" then assign_string "name" v (λ x, with_row (λ p,
    mkProject (Project_ID p) x (Project_Description p) (Project_CreatedAt p) (Project_UpdatedAt p)
      (Project_DeletedAt p) (Project_folder_projects p))) n
  else if String.eqb column "description" then assign_string "description" v (λ x, with_row (λ p,
    mkProject (Project_ID p) (Project_Name p) x (Project_CreatedAt p) (Project_UpdatedAt p)
      (Project_DeletedAt p) (Project_folder_projects p))) n
  else if String.eqb column "created_at" then assign_time "created_at" v (λ x, with_row (λ p,
    mkProject (Project_ID p) (Project_Name p) (Project_Description p) x (Project_UpdatedAt p)
      (Project_DeletedAt p) (Project_folder_projects p))) n
  else if String.eqb column "updated_at" then assign_time "updated_at" v (λ x, with_row (λ p,
    mkProject (Project_ID p) (Project_Name p) (Project_Description p) (Project_CreatedAt p) x
      (Project_DeletedAt p) (Project_folder_projects p))) n
  else if String.eqb column "deleted_at" then assign_time "deleted_at" v (λ x, with_row (λ p,
    mkProject (Project_ID p) (Project_Name p) (Project_Description p) (Project_CreatedAt p) (Project_UpdatedAt p)
      (Some x) (Project_folder_projects p))) n
  else if String.eqb column "folder_projects" then assign_null_uuid "folder_projects" v with_fk n
  else select_value column v n.
Definition Project_assignValues : list string → list Scanned → Loaded Project → error + Loaded Project := assign_values Project_assignValue.

(** ** TenancyEvent *)

Definition TenancyEvent_Columns : list string :=
  ["id"; "event_type"; "resource_type"; "resource_id"; "resource_name"; "org_id"; "org_name"; "folder_id"; "created_at"].
Definition TenancyEvent_scanValue (column : string) : ScanType :=
  if mem_string column ["org_id"; "folder_id"] then NullUUID
  else if String.eqb column "id" then NullInt64
  else if mem_string column ["event_type"; "resource_type"; "resource_name"; "org_name"] then NullString
  else if String.eqb column "created_at" then NullTime
  else if String.eqb column "resource_id" then UUIDScanner
  else UnknownType.
Definition TenancyEvent_scanValues (columns : list string) : list ScanType := TenancyEvent_scanValue <$> columns.
Definition TenancyEvent_assignValue (column : string) (v : Scanned) (n : Loaded TenancyEvent) : error + Loaded TenancyEvent :=
  if String.eqb column "id" then assign_int64 "id" v (λ x, with_row (λ e,
    mkTenancyEvent x (TenancyEvent_EventType e) (TenancyEvent_ResourceType e) (TenancyEvent_ResourceID e)
      (TenancyEvent_ResourceName e) (TenancyEvent_OrgID e) (TenancyEvent_OrgName e) (TenancyEvent_FolderID e)
      (TenancyEvent_CreatedAt e))) n
  else if String.eqb column "event_type" then assign_string "event_type" v (λ x, with_row (λ e,
    mkTenancyEvent (TenancyEvent_ID e) x (TenancyEvent_ResourceType e) (TenancyEvent_ResourceID e)
      (TenancyEvent_ResourceName e) (TenancyEvent_OrgID e) (TenancyEvent_OrgName e) (TenancyEvent_FolderID e)
      (TenancyEvent_CreatedAt e))) n
  else if String.eqb column "resource_type" then assign_string "resource_type" v (λ x, with_row (λ e,
    mkTenancyEvent (TenancyEvent_ID e) (TenancyEvent_EventType e) x (TenancyEvent_ResourceID e)
      (TenancyEvent_ResourceName e) (TenancyEvent_OrgID e) (TenancyEvent_OrgName e) (TenancyEvent_FolderID e)
      (TenancyEvent_CreatedAt e))) n
  else if String.eqb column "resource_id" then assign_uuid "resource_id" v (λ x, with_row (λ e,
    mkTenancyEvent (TenancyEvent_ID e) (TenancyEvent_EventType e) (TenancyEvent_ResourceType e) x
      (TenancyEvent_ResourceName e) (TenancyEvent_OrgID e) (TenancyEvent_OrgName e) (TenancyEvent_FolderID e)
      (TenancyEvent_CreatedAt e))) n
  else if String.eqb column "resource_name" then assign_string "resource_name" v (λ x, with_row (λ e,
    mkTenancyEvent (TenancyEvent_ID e) (TenancyEvent_EventType e) (TenancyEvent_ResourceType e)
      (TenancyEvent_ResourceID e) x (TenancyEvent_OrgID e) (TenancyEvent_OrgName e) (TenancyEvent_FolderID e)
      (TenancyEvent_CreatedAt e))) n
  else if String.eqb column "org_id" then assign_null_uuid "org_id" v (λ x, with_row (λ e,
    mkTenancyEvent (TenancyEvent_ID e) (TenancyEvent_EventType e) (TenancyEvent_ResourceType e)
      (TenancyEvent_ResourceID e) (TenancyEvent_ResourceName e) (Some x) (TenancyEvent_OrgName e)
      (TenancyEvent_FolderID e) (TenancyEvent_CreatedAt e))) n
  else if String.eqb column "org_name" then assign_string "org_name" v (λ x, with_row (λ e,
    mkTenancyEvent (TenancyEvent_ID e) (TenancyEvent_EventType e) (TenancyEvent_ResourceType e)
      (TenancyEvent_ResourceID e) (TenancyEvent_ResourceName e) (TenancyEvent_OrgID e) (Some x)
      (TenancyEvent_FolderID e) (TenancyEvent_CreatedAt e))) n
  else if String.eqb column "folder_id" then assign_null_uuid "folder_id" v (λ x, with_row (λ e,
    mkTenancyEvent (TenancyEvent_ID e) (TenancyEvent_EventType e) (TenancyEvent_ResourceType e)
      (TenancyEvent_ResourceID e) (TenancyEvent_ResourceName e) (TenancyEvent_OrgID e) (TenancyEvent_OrgName e)
      (Some x) (TenancyEvent_CreatedAt e))) n
  else if String.eqb column "created_at" then assign_time "created_at" v (λ x, with_row (λ e,
    mkTenancyEvent (TenancyEvent_ID e) (TenancyEvent_EventType e) (TenancyEvent_ResourceType e)
      (TenancyEvent_ResourceID e) (TenancyEvent_ResourceName e) (TenancyEvent_OrgID e) (TenancyEvent_OrgName e)
      (TenancyEvent_FolderID e) x)) n
  else select_value column v n.
Definition TenancyEvent_assignValues : list string → list Scanned → Loaded TenancyEvent → error + Loaded TenancyEvent := assign_values TenancyEvent_assignValue.

(** ** ControllerStatus *)

Definition ControllerStatus_Columns : list string :=
  ["id"; "controller_name"; "resource_type"; "resource_id"; "status"; "message"; "updated_at"].
Definition ControllerStatus_scanValue (column : string) : ScanType :=
  if String.eqb column "id" then NullInt64
  else if mem_string column ["controller_name"; "resource_type"; "status"; "message"] then NullString
  else if String.eqb column "updated_at" then NullTime
  else if String.eqb column "resource_id" then UUIDScanner
  else UnknownType.
Definition ControllerStatus_scanValues (columns : list string) : list ScanType := ControllerStatus_scanValue <$> columns.
Definition ControllerStatus_assignValue (column : string) (v : Scanned) (n : Loaded ControllerStatus) : error + Loaded ControllerStatus :=
  if String.eqb column "id" then assign_int64 "id" v (λ x, with_row (λ e,
    mkControllerStatus x (ControllerStatus_ControllerName e) (ControllerStatus_ResourceType e)
      (ControllerStatus_ResourceID e) (ControllerStatus_Status e) (ControllerStatus_Message e)
      (ControllerStatus_UpdatedAt e))) n
  else if String.eqb column "controller_name" then assign_string "controller_name" v (λ x, with_row (λ e,
    mkControllerStatus (ControllerStatus_ID e) x (ControllerStatus_ResourceType e)
      (ControllerStatus_ResourceID e) (ControllerStatus_Status e) (ControllerStatus_Message e)
      (ControllerStatus_UpdatedAt e))) n
  else if String.eqb column "resource_type" then assign_string "resource_type" v (λ x, with_row (λ e,
    mkControllerStatus (ControllerStatus_ID e) (ControllerStatus_ControllerName e) x
      (ControllerStatus_ResourceID e) (ControllerStatus_Status e) (ControllerStatus_Message e)
      (ControllerStatus_UpdatedAt e))) n
  else if String.eqb column "resource_id" then assign_uuid "resource_id" v (λ x, with_row (λ e,
    mkControllerStatus (ControllerStatus_ID e) (ControllerStatus_ControllerName e)
      (ControllerStatus_ResourceType e) x (ControllerStatus_Status e) (ControllerStatus_Message e)
      (ControllerStatus_UpdatedAt e))) n
  else if String.eqb column "status" then assign_string "status" v (λ x, with_row (λ e,
    mkControllerStatus (ControllerStatus_ID e) (ControllerStatus_ControllerName e)
      (ControllerStatus_ResourceType e) (ControllerStatus_ResourceID e) x (ControllerStatus_Message e)
      (ControllerStatus_UpdatedAt e))) n
  else if String.eqb column "message" then assign_string "message" v (λ x, with_row (λ e,
    mkControllerStatus (ControllerStatus_ID e) (ControllerStatus_ControllerName e)
      (ControllerStatus_ResourceType e) (ControllerStatus_ResourceID e) (ControllerStatus_Status e) x
      (ControllerStatus_UpdatedAt e))) n
  else if String.eqb column "updated_at" then assign_time "updated_at" v (λ x, with_row (λ e,
    mkControllerStatus (ControllerStatus_ID e) (ControllerStatus_ControllerName e)
      (ControllerStatus_ResourceType e) (ControllerStatus_ResourceID e) (ControllerStatus_Status e)
      (ControllerStatus_Message e) x)) n
  else select_value column v n.
Definition ControllerStatus_assignValues : list string → list Scanned → Loaded ControllerStatus → error + Loaded ControllerStatus := assign_values ControllerStatus_assignValue.

(** ** The five entities alike *)

Inductive Entity := EOrg | EFolder | EProject | ETenancyEvent | EControllerStatus.
Definition row (e : Entity) : Type :=
  match e with
  | EOrg => Org | EFolder => Folder | EProject => Project | ETenancyEvent => TenancyEvent | EControllerStatus => ControllerStatus
  end.
Definition scanValues (e : Entity) : list string → list ScanType :=
  match e with
  | EOrg => Org_scanValues | EFolder => Folder_scanValues | EProject => Project_scanValues
  | ETenancyEvent => TenancyEvent_scanValues | EControllerStatus => ControllerStatus_scanValues
  end.
Definition assignValues (e : Entity) : list string → list Scanned → Loaded (row e) → error + Loaded (row e) :=
  match e with
  | EOrg => Org_assignValues | EFolder => Folder_assignValues | EProject => Project_assignValues
  | ETenancyEvent => TenancyEvent_assignValues | EControllerStatus => ControllerStatus_assignValues
  end.

(** What a table promises to the loop: its columns, the foreign keys included; the new entity;
    the cells of a row; what a column of the entity would have been assigned from. *)
Class Columned (R : Type) := {
  co_columns : list string;
  co_scan : string → ScanType;
  co_assign : string → Scanned → Loaded R → error + Loaded R;
  co_zero : Loaded R;
  co_of : R → Loaded R;
  co_entity : Loaded R → R;
  co_cell : string → R → Cell;
  co_get : string → Loaded R → Scanned }.
Class ColumnedLaws R `{SQLScan} `{Columned R} : Prop := {
  (** a known column takes the values of its scanner, an unknown one all *)
  co_typed : ∀ c v n, c ∈ co_columns → (∃ n', co_assign c v n = inr n') ↔ type_of v = co_scan c;
  co_unknown : ∀ c v n, c ∉ co_columns → co_assign c v n = select_value c v n;
  (** the scanner of a cell holds the value of the column *)
  co_scanned : ∀ c r, c ∈ co_columns → sql_scan (co_scan c) (co_cell c r) = inr (co_get c (co_of r));
  (** assigning it to an entity that does not have it yet gives it, and changes nothing else *)
  co_assigned : ∀ c r n, c ∈ co_columns → co_get c n = co_get c co_zero →
    ∃ n', co_assign c (co_get c (co_of r)) n = inr n' ∧ co_get c n' = co_get c (co_of r) ∧
      l_selected n' = l_selected n ∧ ∀ d, d ∈ co_columns → d ≠ c → co_get d n' = co_get d n;
  co_complete : ∀ r n, (∀ c, c ∈ co_columns → co_get c n = co_get c (co_of r)) → co_entity n = r;
  co_selected : ∀ c n sel, co_get c (mkLoaded (l_row n) (l_fk n) sel) = co_get c n }.

Section loop.
Context `{SQLScan} `{ColumnedLaws R}.

Lemma assign_columns_typed columns values (n : Loaded R) : (length columns <= length values)%nat →
  (∃ n', assign_columns co_assign columns values n = inr n') ↔
  ∀ i c v, columns !! i = Some c → values !! i = Some v → c ∈ co_columns → type_of v = co_scan c.
Proof.
  revert values n. induction columns as [|c columns IH]; intros [|v values] n Hlen; simpl in Hlen |- *; try lia.
  1, 2: by split; [intros _ []|eauto].
  assert (length columns <= length values)%nat as Hl by lia. split.
  - intros [n' Hn] [|i] c' v' Hc Hv Hin; simpl in Hc, Hv.
    + simplify_eq. destruct (co_assign c' v' n) as [|n1] eqn:Ha; [done|]. apply (co_typed c' v' n); eauto.
    + destruct (co_assign c v n) as [|n1]; [done|]. by eapply (IH values n1 Hl); eauto.
  - intros Ht. assert (∃ n1, co_assign c v n = inr n1) as [n1 ->].
    { destruct (decide (c ∈ co_columns)) as [Hin|Hout]; [by apply co_typed, (Ht 0%nat)|]. rewrite co_unknown by done. by eexists. }
    apply IH; [done|]. intros i c' v' Hc Hv. by apply (Ht (S i)).
Qed.

Lemma assign_columns_row r columns values (n : Loaded R) : NoDup columns →
  Forall2 (λ c v, c ∈ co_columns → sql_scan (co_scan c) (co_cell c r) = inr v) columns values →
  (∀ c, c ∈ co_columns → c ∈ columns → co_get c n = co_get c co_zero) →
  (∀ c, c ∈ co_columns → c ∉ columns → co_get c n = co_get c (co_of r)) →
  ∃ n', assign_columns co_assign columns values n = inr n' ∧ co_entity n' = r ∧
    l_selected n' = l_selected n ++ select (λ cv, negb (mem_string cv.1 co_columns)) (zip columns values).
Proof.
  intros Hnd Hf. revert n Hnd. induction Hf as [|c v columns values Hv _ IH]; intros n Hnd Hz Hd; simpl.
  { exists n. rewrite app_nil_r. split_and!; [done| |done]. apply co_complete. intros c Hc. apply Hd; [done|by apply not_elem_of_nil]. }
  rewrite NoDup_cons in Hnd. destruct Hnd as [Hc Hnd]. destruct (decide (c ∈ co_columns)) as [Hin|Hout].
  - specialize (Hv Hin). rewrite co_scanned in Hv by done. injection Hv as <-.
    destruct (co_assigned c r n Hin) as (n1 & -> & Hget & Hsel & Hother); [apply Hz; [done|by left]|].
    rewrite (proj2 (mem_string_elem c co_columns) Hin). simpl. rewrite <- Hsel. apply IH; [done|..].
    + intros d Hdin Hdc. rewrite Hother; [apply Hz; [done|by right]|done|by intros ->].
    + intros d Hdin Hdc. destruct (decide (d = c)) as [->|Hne]; [done|]. rewrite Hother by done. apply Hd; [done|set_solver].
  - rewrite co_unknown by done. unfold select_value.
    assert (mem_string c co_columns = false) as ->.
    { destruct (mem_string c co_columns) eqn:Hm; [|done]. by apply mem_string_elem in Hm. }
    destruct (IH (mkLoaded (l_row n) (l_fk n) (l_selected n ++ [(c, v)]))) as (n' & Hn' & He & Hs); [done|..].
    + intros d Hdin Hdc. rewrite co_selected. apply Hz; [done|by right].
    + intros d Hdin Hdc. rewrite co_selected. apply Hd; [done|set_solver].
    + exists n'. split_and!; [done|done|]. rewrite Hs. simpl. by rewrite <- (assoc_L (++)).
Qed.
End loop.

(** ** The five tables *)

Definition zero_time : Time := (-62135596800000000000)%Z.
Definition opt_cell {A} (f : A → Cell) (o : option A) : Cell := match o with Some a => f a | None => CNull end.

Lemma not_column c l : c ∉ l → Forall (λ k, String.eqb c k = false) l.
Proof. intros Hc. apply Forall_forall. intros k Hk. apply String.eqb_neq. by intros ->. Qed.

(** The columns one by one. *)
Ltac columns H := repeat (apply elem_of_cons in H as [->|H]); [..|by apply elem_of_nil in H].
Ltac destruct_option o := lazymatch o with Some _ => fail | None => fail | _ => destruct o end.
(** A field that may be NULL. *)
Ltac destruct_field :=
  try match goal with
      | |- ∃ _, _ ∧ _ = VTime ?o ∧ _ => destruct_option o
      | |- ∃ _, _ ∧ _ = VString ?o ∧ _ => destruct_option o
      | |- ∃ _, _ ∧ _ = VNullUUID ?o ∧ _ => destruct_option o
      end.
Ltac columned assign :=
  split;
  [ intros c v n Hc; columns Hc; destruct v as [[]|[]| |[]|[]|]; simpl; split; (done || by eexists || by intros [? ?])
  | intros c v n Hc; apply not_column in Hc; simpl; unfold assign;
    repeat (let E := fresh in apply Forall_cons in Hc as [E Hc]; rewrite ?E); done
  | intros c r Hc; columns Hc; simpl;
    try match goal with |- context [opt_cell _ ?o] => destruct o end;
    apply scan_text || apply scan_time || apply scan_int || apply scan_uuid || apply scan_null_uuid ||
    apply scan_null_string || apply scan_null_time || apply scan_null_null_uuid
  | intros c r n Hc Hz; columns Hc; simpl in Hz |- *; destruct_field; (eexists; split; [reflexivity|]; split; [reflexivity || exact Hz|]; split; [reflexivity|];
      let d := fresh in let Hd := fresh in let Hne := fresh in
      intros d Hd Hne; columns Hd; (reflexivity || by destruct Hne))
  | intros r n Hget; apply Forall_forall in Hget; destruct n as [[] fk sel], r;
    repeat (let E := fresh in apply Forall_cons in Hget as [E Hget]; simpl in E; injection E as ->); reflexivity
  | by intros c n sel ].

#[export] Instance Org_columned : Columned Org := {
  co_columns := Org_Columns;
  co_scan := Org_scanValue;
  co_assign := Org_assignValue;
  co_zero := mkLoaded (mkOrg uuid_Nil "" "" zero_time zero_time None) None [];
  co_of := λ x, mkLoaded x None [];
  co_entity := l_row;
  co_cell := λ c x,
    if String.eqb c "id" then CUUID (Org_ID x)
    else if String.eqb c "name" then CText (Org_Name x)
    else if String.eqb c "description" then CText (Org_Description x)
    else if String.eqb c "created_at" then CTime (Org_CreatedAt x)
    else if String.eqb c "updated_at" then CTime (Org_UpdatedAt x)
    else opt_cell CTime (Org_DeletedAt x);
  co_get := λ c n, let x := l_row n in
    if String.eqb c "id" then VUUID (Org_ID x)
    else if String.eqb c "name" then VString (Some (Org_Name x))
    else if String.eqb c "description" then VString (Some (Org_Description x))
    else if String.eqb c "created_at" then VTime (Some (Org_CreatedAt x))
    else if String.eqb c "updated_at" then VTime (Some (Org_UpdatedAt x))
    else VTime (Org_DeletedAt x) }.
#[export] Instance Org_columned_laws `{SQLScanLaws} : ColumnedLaws Org.
Proof. columned Org_assignValue. Qed.

#[export] Instance Folder_columned : Columned Folder := {
  co_columns := Folder_Columns ++ Folder_ForeignKeys;
  co_scan := Folder_scanValue;
  co_assign := Folder_assignValue;
  co_zero := mkLoaded (mkFolder uuid_Nil "" zero_time zero_time uuid_Nil) None [];
  co_of := λ x, mkLoaded x (Some (Folder_org_folders x)) [];
  co_entity := λ n, let x := l_row n in mkFolder (Folder_ID x) (Folder_Name x) (Folder_CreatedAt x) (Folder_UpdatedAt x) (default uuid_Nil (l_fk n));
  co_cell := λ c x,
    if String.eqb c "id" then CUUID (Folder_ID x)
    else if String.eqb c "name" then CText (Folder_Name x)
    else if String.eqb c "created_at" then CTime (Folder_CreatedAt x)
    else if String.eqb c "updated_at" then CTime (Folder_UpdatedAt x)
    else CUUID (Folder_org_folders x);
  co_get := λ c n, let x := l_row n in
    if String.eqb c "id" then VUUID (Folder_ID x)
    else if String.eqb c "name" then VString (Some (Folder_Name x))
    else if String.eqb c "created_at" then VTime (Some (Folder_CreatedAt x))
    else if String.eqb c "updated_at" then VTime (Some (Folder_UpdatedAt x))
    else VNullUUID (l_fk n) }.
#[export] Instance Folder_columned_laws `{SQLScanLaws} : ColumnedLaws Folder.
Proof. columned Folder_assignValue. Qed.

#[export] Instance Project_columned : Columned Project := {
  co_columns := Project_Columns ++ Project_ForeignKeys;
  co_scan := Project_scanValue;
  co_assign := Project_assignValue;
  co_zero := mkLoaded (mkProject uuid_Nil "" "" zero_time zero_time None uuid_Nil) None [];
  co_of := λ x, mkLoaded x (Some (Project_folder_projects x)) [];
  co_entity := λ n, let x := l_row n in mkProject (Project_ID x) (Project_Name x) (Project_Description x) (Project_CreatedAt x)
    (Project_UpdatedAt x) (Project_DeletedAt x) (default uuid_Nil (l_fk n));
  co_cell := λ c x,
    if String.eqb c "id" then CUUID (Project_ID x)
    else if String.eqb c "name" then CText (Project_Name x)
    else if String.eqb c "description" then CText (Project_Description x)
    else if String.eqb c "created_at" then CTime (Project_CreatedAt x)
    else if String.eqb c "updated_at" then CTime (Project_UpdatedAt x)
    else if String.eqb c "deleted_at" then opt_cell CTime (Project_DeletedAt x)
    else CUUID (Project_folder_projects x);
  co_get := λ c n, let x := l_row n in
    if String.eqb c "id" then VUUID (Project_ID x)
    else if String.eqb c "name" then VString (Some (Project_Name x))
    else if String.eqb c "description" then VString (Some (Project_Description x))
    else if String.eqb c "created_at" then VTime (Some (Project_CreatedAt x))
    else if String.eqb c "updated_at" then VTime (Some (Project_UpdatedAt x))
    else if String.eqb c "deleted_at" then VTime (Project_DeletedAt x)
    else VNullUUID (l_fk n) }.
#[export] Instance Project_columned_laws `{SQLScanLaws} : ColumnedLaws Project.
Proof. columned Project_assignValue. Qed.

#[export] Instance TenancyEvent_columned : Columned TenancyEvent := {
  co_columns := TenancyEvent_Columns;
  co_scan := TenancyEvent_scanValue;
  co_assign := TenancyEvent_assignValue;
  co_zero := mkLoaded (mkTenancyEvent 0 "" "" uuid_Nil "" None None None zero_time) None [];
  co_of := λ x, mkLoaded x None [];
  co_entity := l_row;
  co_cell := λ c x,
    if String.eqb c "id" then CInt (TenancyEvent_ID x)
    else if String.eqb c "event_type" then CText (TenancyEvent_EventType x)
    else if String.eqb c "resource_type" then CText (TenancyEvent_ResourceType x)
    else if String.eqb c "resource_id" then CUUID (TenancyEvent_ResourceID x)
    else if String.eqb c "resource_name" then CText (TenancyEvent_ResourceName x)
    else if String.eqb c "org_id" then opt_cell CUUID (TenancyEvent_OrgID x)
    else if String.eqb c "org_name" then opt_cell CText (TenancyEvent_OrgName x)
    else if String.eqb c "folder_id" then opt_cell CUUID (TenancyEvent_FolderID x)
    else CTime (TenancyEvent_CreatedAt x);
  co_get := λ c n, let x := l_row n in
    if String.eqb c "id" then VInt64 (Some (TenancyEvent_ID x))
    else if String.eqb c "event_type" then VString (Some (TenancyEvent_EventType x))
    else if String.eqb c "resource_type" then VString (Some (TenancyEvent_ResourceType x))
    else if String.eqb c "resource_id" then VUUID (TenancyEvent_ResourceID x)
    else if String.eqb c "resource_name" then VString (Some (TenancyEvent_ResourceName x))
    else if String.eqb c "org_id" then VNullUUID (TenancyEvent_OrgID x)
    else if String.eqb c "org_name" then VString (TenancyEvent_OrgName x)
    else if String.eqb c "folder_id" then VNullUUID (TenancyEvent_FolderID x)
    else VTime (Some (TenancyEvent_CreatedAt x)) }.
#[export] Instance TenancyEvent_columned_laws `{SQLScanLaws} : ColumnedLaws TenancyEvent.
Proof. columned TenancyEvent_assignValue. Qed.

#[export] Instance ControllerStatus_columned : Columned ControllerStatus := {
  co_columns := ControllerStatus_Columns;
  co_scan := ControllerStatus_scanValue;
  co_assign := ControllerStatus_assignValue;
  co_zero := mkLoaded (mkControllerStatus 0 "" "" uuid_Nil "" "" zero_time) None [];
  co_of := λ x, mkLoaded x None [];
  co_entity := l_row;
  co_cell := λ c x,
    if String.eqb c "id" then CInt (ControllerStatus_ID x)
    else if String.eqb c "controller_name" then CText (ControllerStatus_ControllerName x)
    else if String.eqb c "resource_type" then CText (ControllerStatus_ResourceType x)
    else if String.eqb c "resource_id" then CUUID (ControllerStatus_ResourceID x)
    else if String.eqb c "status" then CText (ControllerStatus_Status x)
    else if String.eqb c "message" then CText (ControllerStatus_Message x)
    else CTime (ControllerStatus_UpdatedAt x);
  co_get := λ c n, let x := l_row n in
    if String.eqb c "id" then VInt64 (Some (ControllerStatus_ID x))
    else if String.eqb c "controller_name" then VString (Some (ControllerStatus_ControllerName x))
    else if String.eqb c "resource_type" then VString (Some (ControllerStatus_ResourceType x))
    else if String.eqb c "resource_id" then VUUID (ControllerStatus_ResourceID x)
    else if String.eqb c "status" then VString (Some (ControllerStatus_Status x))
    else if String.eqb c "message" then VString (Some (ControllerStatus_Message x))
    else VTime (Some (ControllerStatus_UpdatedAt x)) }.
#[export] Instance ControllerStatus_columned_laws `{SQLScanLaws} : ColumnedLaws ControllerStatus.
Proof. columned ControllerStatus_assignValue. Qed.

#[export] Instance entity_columned (e : Entity) : Columned (row e) :=
  match e with
  | EOrg => Org_columned | EFolder => Folder_columned | EProject => Project_columned
  | ETenancyEvent => TenancyEvent_columned | EControllerStatus => ControllerStatus_columned
  end.
#[export] Instance entity_columned_laws `{SQLScanLaws} e : ColumnedLaws (row e).
Proof. destruct e; apply _. Qed.
Lemma scanValues_each e columns : scanValues e columns = co_scan (R:=row e) <$> columns.
Proof. by destruct e. Qed.
Lemma assignValues_loop e columns values n : assignValues e columns values n = assign_values (co_assign (R:=row e)) columns values n.
Proof. by destruct e. Qed.

Section entities.
Context `{SQLScanLaws} (e : Entity).

Lemma assign_values_ok columns values (n : Loaded (row e)) : (length columns <= length values)%nat →
  assignValues e columns values n = assign_columns co_assign columns values n.
Proof.
  intros Hl. rewrite assignValues_loop. unfold assign_values. destruct (Nat.ltb_spec (length values) (length columns)); [lia|done].
Qed.

(** C16: reading a row of any of the five tables is well typed: the assignment succeeds exactly
    when there is a value for every column and each known column has one of the type of its
    scanner, so it never fails on what the scanners of [scanValues] hold, whatever columns were
    selected in whatever order. *)
Theorem scan_types columns values (n : Loaded (row e)) :
  (Forall2 (λ ty v, ∃ cell, sql_scan ty cell = inr v) (scanValues e columns) values → ∃ n', assignValues e columns values n = inr n') ∧
  ((∃ n', assignValues e columns values n = inr n') ↔
   (length columns <= length values)%nat ∧ ∀ i c v, columns !! i = Some c → values !! i = Some v →
     c ∈ co_columns (R:=row e) → scanValues e [c] = [type_of v]).
Proof.
  assert ((∃ n', assignValues e columns values n = inr n') ↔
    (length columns <= length values)%nat ∧ ∀ i c v, columns !! i = Some c → values !! i = Some v →
      c ∈ co_columns (R:=row e) → scanValues e [c] = [type_of v]) as Hiff.
  { destruct (Nat.ltb_spec (length values) (length columns)) as [Hl|Hl].
    - rewrite assignValues_loop. unfold assign_values. rewrite (proj2 (Nat.ltb_lt _ _) Hl). split; [by intros [? ?]|lia].
    - rewrite assign_values_ok, assign_columns_typed by done. setoid_rewrite scanValues_each. simpl. split.
      + intros Ht. split; [done|]. intros i c v Hc Hv Hin. by rewrite (Ht i c v).
      + intros [_ Ht] i c v Hc Hv Hin. specialize (Ht i c v Hc Hv Hin). congruence. }
  split; [|done]. rewrite scanValues_each. intros Hf. apply Hiff. apply Forall2_length in Hf as Hlen. rewrite length_fmap in Hlen.
  split; [lia|]. intros i c v Hc Hv _. rewrite scanValues_each. simpl. f_equal.
  destruct (Forall2_lookup_lr _ _ _ i (co_scan (R:=row e) c) v Hf) as [cell Hs]; [by rewrite list_lookup_fmap, Hc|done|].
  by apply scan_type in Hs.
Qed.

(** C15: what is stored is what is read: from the cells of a row, in a result that has the columns
    of the table in any order, each once and among any others, the scanners and the assignment
    give the entity back, NULLs and foreign keys included; the values of the other columns are
    handed to [selectValues]. *)
Theorem scan_roundtrip (r : row e) columns values : NoDup columns → (∀ c, c ∈ co_columns (R:=row e) → c ∈ columns) →
  length columns = length values →
  (∀ i c v, columns !! i = Some c → values !! i = Some v → c ∈ co_columns (R:=row e) →
     ∃ ty, scanValues e [c] = [ty] ∧ sql_scan ty (co_cell c r) = inr v) →
  ∃ n, assignValues e columns values co_zero = inr n ∧ co_entity n = r ∧
    l_selected n = select (λ cv, negb (mem_string cv.1 (co_columns (R:=row e)))) (zip columns values).
Proof.
  intros Hnd Hall Hlen Hscan. rewrite assign_values_ok by lia.
  destruct (assign_columns_row r columns values co_zero) as (n & ? & ? & Hs); [done|..].
  - apply Forall2_same_length_lookup_2; [done|]. intros i c v Hc Hv Hin. destruct (Hscan i c v Hc Hv Hin) as (ty & Hty & Hv').
    rewrite scanValues_each in Hty. by injection Hty as <-.
  - done.
  - intros c Hc Hn. by destruct Hn; apply Hall.
  - exists n. split_and!; [done|done|]. rewrite Hs. by destruct e.
Qed.
End entities.
