(* ===== verification/EntWhere.v ===== *)
(** * The generated client: the conditions of its queries

    tenancy-manager/internal/ent: where.go of the five entities, whole.  A predicate is a condition of
    SQL on a row ([Cond]), with the constructors of package sql (FieldEQ, FieldIn, AndPredicates...)
    and the steps to neighbouring tables of sqlgraph; [where_org_NameEQ] is [NameEQ] of
    org/where.go.

    What ent's SQL builder and PostgreSQL make of a condition is the parameter [SQLWhere]: three-valued,
    where [None] is unknown; a query returns the rows for which it is true.  Its laws say what the
    documentation says of each operator on columns and values of one type, and nothing of And and Or
    without operands.  The theorem says for each predicate of where.go which test it is of which field of the
    entity, or of which neighbours, and that the two-valued predicates of EntQuery.v, by which the
    store filters, select the rows of the conditions of the same names. *)

From S2P Require Import Prelude GoStd Monad EntSchema Sqlgraph EntQuery EntMutation Logic EntLoad EntScan.

(** ** Conditions (entgo.io/ent/dialect/sql, sqlgraph) *)

Inductive Rel := M2O | O2M.
#[export] Instance Rel_eq_dec : EqDecision Rel.
Proof. solve_decision. Defined.
(** [sqlgraph.NewStep(From(table, id), To(table, id), Edge(rel, inverse, table, column))] *)
Record Step := mkStep {
  st_From : string; st_To : option string; st_Rel : Rel; st_Inverse : bool; st_Table : string; st_Column : string }.

Inductive CmpOp := EQ | NEQ | GT | GTE | LT | LTE.
Inductive LikeOp := LikeContains | LikeHasPrefix | LikeHasSuffix | LikeEqualFold | LikeContainsFold.
Inductive Cond : Entity → Type :=
  | FieldCmp {e} (op : CmpOp) (column : string) (v : Cell) : Cond e
  | FieldIn {e} (column : string) (vs : list Cell) : Cond e
  | FieldNotIn {e} (column : string) (vs : list Cell) : Cond e
  | FieldLike {e} (op : LikeOp) (column : string) (v : string) : Cond e
  | FieldIsNull {e} (column : string) : Cond e
  | FieldNotNull {e} (column : string) : Cond e
  | HasNeighbors {e} (neighbor : Entity) (step : Step) : Cond e
  | HasNeighborsWith {e neighbor} (step : Step) (preds : list (Cond neighbor)) : Cond e
  | AndPredicates {e} (predicates : list (Cond e)) : Cond e
  | OrPredicates {e} (predicates : list (Cond e)) : Cond e
  | NotPredicates {e} (p : Cond e) : Cond e.

(** ** org/where.go *)

Definition where_org_ID (id : UUID) : Cond EOrg := FieldCmp EQ "id" (CUUID id).
Definition where_org_IDEQ (id : UUID) : Cond EOrg := FieldCmp EQ "id" (CUUID id).
Definition where_org_IDNEQ (id : UUID) : Cond EOrg := FieldCmp NEQ "id" (CUUID id).
Definition where_org_IDIn (ids : list UUID) : Cond EOrg := FieldIn "id" (CUUID <$> ids).
Definition where_org_IDNotIn (ids : list UUID) : Cond EOrg := FieldNotIn "id" (CUUID <$> ids).
Definition where_org_IDGT (id : UUID) : Cond EOrg := FieldCmp GT "id" (CUUID id).
Definition where_org_IDGTE (id : UUID) : Cond EOrg := FieldCmp GTE "id" (CUUID id).
Definition where_org_IDLT (id : UUID) : Cond EOrg := FieldCmp LT "id" (CUUID id).
Definition where_org_IDLTE (id : UUID) : Cond EOrg := FieldCmp LTE "id" (CUUID id).
Definition where_org_Name (v : string) : Cond EOrg := FieldCmp EQ "name" (CText v).
Definition where_org_Description (v : string) : Cond EOrg := FieldCmp EQ "description" (CText v).
Definition where_org_CreatedAt (v : Time) : Cond EOrg := FieldCmp EQ "created_at" (CTime v).
Definition where_org_UpdatedAt (v : Time) : Cond EOrg := FieldCmp EQ "updated_at" (CTime v).
Definition where_org_DeletedAt (v : Time) : Cond EOrg := FieldCmp EQ "deleted_at" (CTime v).
Definition where_org_NameEQ (v : string) : Cond EOrg := FieldCmp EQ "name" (CText v).
Definition where_org_NameNEQ (v : string) : Cond EOrg := FieldCmp NEQ "name" (CText v).
Definition where_org_NameIn (vs : list string) : Cond EOrg := FieldIn "name" (CText <$> vs).
Definition where_org_NameNotIn (vs : list string) : Cond EOrg := FieldNotIn "name" (CText <$> vs).
Definition where_org_NameGT (v : string) : Cond EOrg := FieldCmp GT "name" (CText v).
Definition where_org_NameGTE (v : string) : Cond EOrg := FieldCmp GTE "name" (CText v).
Definition where_org_NameLT (v : string) : Cond EOrg := FieldCmp LT "name" (CText v).
Definition where_org_NameLTE (v : string) : Cond EOrg := FieldCmp LTE "name" (CText v).
Definition where_org_NameContains (v : string) : Cond EOrg := FieldLike LikeContains "name" v.
Definition where_org_NameHasPrefix (v : string) : Cond EOrg := FieldLike LikeHasPrefix "name" v.
Definition where_org_NameHasSuffix (v : string) : Cond EOrg := FieldLike LikeHasSuffix "name" v.
Definition where_org_NameEqualFold (v : string) : Cond EOrg := FieldLike LikeEqualFold "name" v.
Definition where_org_NameContainsFold (v : string) : Cond EOrg := FieldLike LikeContainsFold "name" v.
Definition where_org_DescriptionEQ (v : string) : Cond EOrg := FieldCmp EQ "description" (CText v).
Definition where_org_DescriptionNEQ (v : string) : Cond EOrg := FieldCmp NEQ "description" (CText v).
Definition where_org_DescriptionIn (vs : list string) : Cond EOrg := FieldIn "description" (CText <$> vs).
Definition where_org_DescriptionNotIn (vs : list string) : Cond EOrg := FieldNotIn "description" (CText <$> vs).
Definition where_org_DescriptionGT (v : string) : Cond EOrg := FieldCmp GT "description" (CText v).
Definition where_org_DescriptionGTE (v : string) : Cond EOrg := FieldCmp GTE "description" (CText v).
Definition where_org_DescriptionLT (v : string) : Cond EOrg := FieldCmp LT "description" (CText v).
Definition where_org_DescriptionLTE (v : string) : Cond EOrg := FieldCmp LTE "description" (CText v).
Definition where_org_DescriptionContains (v : string) : Cond EOrg := FieldLike LikeContains "description" v.
Definition where_org_DescriptionHasPrefix (v : string) : Cond EOrg := FieldLike LikeHasPrefix "description" v.
Definition where_org_DescriptionHasSuffix (v : string) : Cond EOrg := FieldLike LikeHasSuffix "description" v.
Definition where_org_DescriptionEqualFold (v : string) : Cond EOrg := FieldLike LikeEqualFold "description" v.
Definition where_org_DescriptionContainsFold (v : string) : Cond EOrg := FieldLike LikeContainsFold "description" v.
Definition where_org_CreatedAtEQ (v : Time) : Cond EOrg := FieldCmp EQ "created_at" (CTime v).
Definition where_org_CreatedAtNEQ (v : Time) : Cond EOrg := FieldCmp NEQ "created_at" (CTime v).
Definition where_org_CreatedAtIn (vs : list Time) : Cond EOrg := FieldIn "created_at" (CTime <$> vs).
Definition where_org_CreatedAtNotIn (vs : list Time) : Cond EOrg := FieldNotIn "created_at" (CTime <$> vs).
Definition where_org_CreatedAtGT (v : Time) : Cond EOrg := FieldCmp GT "created_at" (CTime v).
Definition where_org_CreatedAtGTE (v : Time) : Cond EOrg := FieldCmp GTE "created_at" (CTime v).
Definition where_org_CreatedAtLT (v : Time) : Cond EOrg := FieldCmp LT "created_at" (CTime v).
Definition where_org_CreatedAtLTE (v : Time) : Cond EOrg := FieldCmp LTE "created_at" (CTime v).
Definition where_org_UpdatedAtEQ (v : Time) : Cond EOrg := FieldCmp EQ "updated_at" (CTime v).
Definition where_org_UpdatedAtNEQ (v : Time) : Cond EOrg := FieldCmp NEQ "updated_at" (CTime v).
Definition where_org_UpdatedAtIn (vs : list Time) : Cond EOrg := FieldIn "updated_at" (CTime <$> vs).
Definition where_org_UpdatedAtNotIn (vs : list Time) : Cond EOrg := FieldNotIn "updated_at" (CTime <$> vs).
Definition where_org_UpdatedAtGT (v : Time) : Cond EOrg := FieldCmp GT "updated_at" (CTime v).
Definition where_org_UpdatedAtGTE (v : Time) : Cond EOrg := FieldCmp GTE "updated_at" (CTime v).
Definition where_org_UpdatedAtLT (v : Time) : Cond EOrg := FieldCmp LT "updated_at" (CTime v).
Definition where_org_UpdatedAtLTE (v : Time) : Cond EOrg := FieldCmp LTE "updated_at" (CTime v).
Definition where_org_DeletedAtEQ (v : Time) : Cond EOrg := FieldCmp EQ "deleted_at" (CTime v).
Definition where_org_DeletedAtNEQ (v : Time) : Cond EOrg := FieldCmp NEQ "deleted_at" (CTime v).
Definition where_org_DeletedAtIn (vs : list Time) : Cond EOrg := FieldIn "deleted_at" (CTime <$> vs).
Definition where_org_DeletedAtNotIn (vs : list Time) : Cond EOrg := FieldNotIn "deleted_at" (CTime <$> vs).
Definition where_org_DeletedAtGT (v : Time) : Cond EOrg := FieldCmp GT "deleted_at" (CTime v).
Definition where_org_DeletedAtGTE (v : Time) : Cond EOrg := FieldCmp GTE "deleted_at" (CTime v).
Definition where_org_DeletedAtLT (v : Time) : Cond EOrg := FieldCmp LT "deleted_at" (CTime v).
Definition where_org_DeletedAtLTE (v : Time) : Cond EOrg := FieldCmp LTE "deleted_at" (CTime v).
Definition where_org_DeletedAtIsNil : Cond EOrg := FieldIsNull "deleted_at".
Definition where_org_DeletedAtNotNil : Cond EOrg := FieldNotNull "deleted_at".
Definition where_org_HasFolders : Cond EOrg := HasNeighbors EFolder (mkStep "orgs" None O2M false "folders" "org_folders").
Definition org_newFoldersStep : Step := mkStep "orgs" (Some "folders") O2M false "folders" "org_folders".
Definition where_org_HasFoldersWith (preds : list (Cond EFolder)) : Cond EOrg := HasNeighborsWith org_newFoldersStep preds.
Definition where_org_And (predicates : list (Cond EOrg)) : Cond EOrg := AndPredicates predicates.
Definition where_org_Or (predicates : list (Cond EOrg)) : Cond EOrg := OrPredicates predicates.
Definition where_org_Not (p : Cond EOrg) : Cond EOrg := NotPredicates p.

(** ** folder/where.go *)

Definition where_folder_ID (id : UUID) : Cond EFolder := FieldCmp EQ "id" (CUUID id).
Definition where_folder_IDEQ (id : UUID) : Cond EFolder := FieldCmp EQ "id" (CUUID id).
Definition where_folder_IDNEQ (id : UUID) : Cond EFolder := FieldCmp NEQ "id" (CUUID id).
Definition where_folder_IDIn (ids : list UUID) : Cond EFolder := FieldIn "id" (CUUID <$> ids).
Definition where_folder_IDNotIn (ids : list UUID) : Cond EFolder := FieldNotIn "id" (CUUID <$> ids).
Definition where_folder_IDGT (id : UUID) : Cond EFolder := FieldCmp GT "id" (CUUID id).
Definition where_folder_IDGTE (id : UUID) : Cond EFolder := FieldCmp GTE "id" (CUUID id).
Definition where_folder_IDLT (id : UUID) : Cond EFolder := FieldCmp LT "id" (CUUID id).
Definition where_folder_IDLTE (id : UUID) : Cond EFolder := FieldCmp LTE "id" (CUUID id).
Definition where_folder_Name (v : string) : Cond EFolder := FieldCmp EQ "name" (CText v).
Definition where_folder_CreatedAt (v : Time) : Cond EFolder := FieldCmp EQ "created_at" (CTime v).
Definition where_folder_UpdatedAt (v : Time) : Cond EFolder := FieldCmp EQ "updated_at" (CTime v).
Definition where_folder_NameEQ (v : string) : Cond EFolder := FieldCmp EQ "name" (CText v).
Definition where_folder_NameNEQ (v : string) : Cond EFolder := FieldCmp NEQ "name" (CText v).
Definition where_folder_NameIn (vs : list string) : Cond EFolder := FieldIn "name" (CText <$> vs).
Definition where_folder_NameNotIn (vs : list string) : Cond EFolder := FieldNotIn "name" (CText <$> vs).
Definition where_folder_NameGT (v : string) : Cond EFolder := FieldCmp GT "name" (CText v).
Definition where_folder_NameGTE (v : string) : Cond EFolder := FieldCmp GTE "name" (CText v).
Definition where_folder_NameLT (v : string) : Cond EFolder := FieldCmp LT "name" (CText v).
Definition where_folder_NameLTE (v : string) : Cond EFolder := FieldCmp LTE "name" (CText v).
Definition where_folder_NameContains (v : string) : Cond EFolder := FieldLike LikeContains "name" v.
Definition where_folder_NameHasPrefix (v : string) : Cond EFolder := FieldLike LikeHasPrefix "name" v.
Definition where_folder_NameHasSuffix (v : string) : Cond EFolder := FieldLike LikeHasSuffix "name" v.
Definition where_folder_NameEqualFold (v : string) : Cond EFolder := FieldLike LikeEqualFold "name" v.
Definition where_folder_NameContainsFold (v : string) : Cond EFolder := FieldLike LikeContainsFold "name" v.
Definition where_folder_CreatedAtEQ (v : Time) : Cond EFolder := FieldCmp EQ "created_at" (CTime v).
Definition where_folder_CreatedAtNEQ (v : Time) : Cond EFolder := FieldCmp NEQ "created_at" (CTime v).
Definition where_folder_CreatedAtIn (vs : list Time) : Cond EFolder := FieldIn "created_at" (CTime <$> vs).
Definition where_folder_CreatedAtNotIn (vs : list Time) : Cond EFolder := FieldNotIn "created_at" (CTime <$> vs).
Definition where_folder_CreatedAtGT (v : Time) : Cond EFolder := FieldCmp GT "created_at" (CTime v).
Definition where_folder_CreatedAtGTE (v : Time) : Cond EFolder := FieldCmp GTE "created_at" (CTime v).
Definition where_folder_CreatedAtLT (v : Time) : Cond EFolder := FieldCmp LT "created_at" (CTime v).
Definition where_folder_CreatedAtLTE (v : Time) : Cond EFolder := FieldCmp LTE "created_at" (CTime v).
Definition where_folder_UpdatedAtEQ (v : Time) : Cond EFolder := FieldCmp EQ "updated_at" (CTime v).
Definition where_folder_UpdatedAtNEQ (v : Time) : Cond EFolder := FieldCmp NEQ "updated_at" (CTime v).
Definition where_folder_UpdatedAtIn (vs : list Time) : Cond EFolder := FieldIn "updated_at" (CTime <$> vs).
Definition where_folder_UpdatedAtNotIn (vs : list Time) : Cond EFolder := FieldNotIn "updated_at" (CTime <$> vs).
Definition where_folder_UpdatedAtGT (v : Time) : Cond EFolder := FieldCmp GT "updated_at" (CTime v).
Definition where_folder_UpdatedAtGTE (v : Time) : Cond EFolder := FieldCmp GTE "updated_at" (CTime v).
Definition where_folder_UpdatedAtLT (v : Time) : Cond EFolder := FieldCmp LT "updated_at" (CTime v).
Definition where_folder_UpdatedAtLTE (v : Time) : Cond EFolder := FieldCmp LTE "updated_at" (CTime v).
Definition where_folder_HasOrg : Cond EFolder := HasNeighbors EOrg (mkStep "folders" None M2O true "folders" "org_folders").
Definition folder_newOrgStep : Step := mkStep "folders" (Some "orgs") M2O true "folders" "org_folders".
Definition where_folder_HasOrgWith (preds : list (Cond EOrg)) : Cond EFolder := HasNeighborsWith folder_newOrgStep preds.
Definition where_folder_HasProjects : Cond EFolder :=
  HasNeighbors EProject (mkStep "folders" None O2M false "projects" "folder_projects").
Definition folder_newProjectsStep : Step := mkStep "folders" (Some "projects") O2M false "projects" "folder_projects".
Definition where_folder_HasProjectsWith (preds : list (Cond EProject)) : Cond EFolder :=
  HasNeighborsWith folder_newProjectsStep preds.
Definition where_folder_And (predicates : list (Cond EFolder)) : Cond EFolder := AndPredicates predicates.
Definition where_folder_Or (predicates : list (Cond EFolder)) : Cond EFolder := OrPredicates predicates.
Definition where_folder_Not (p : Cond EFolder) : Cond EFolder := NotPredicates p.

(** ** project/where.go *)

Definition where_project_ID (id : UUID) : Cond EProject := FieldCmp EQ "id" (CUUID id).
Definition where_project_IDEQ (id : UUID) : Cond EProject := FieldCmp EQ "id" (CUUID id).
Definition where_project_IDNEQ (id : UUID) : Cond EProject := FieldCmp NEQ "id" (CUUID id).
Definition where_project_IDIn (ids : list UUID) : Cond EProject := FieldIn "id" (CUUID <$> ids).
Definition where_project_IDNotIn (ids : list UUID) : Cond EProject := FieldNotIn "id" (CUUID <$> ids).
Definition where_project_IDGT (id : UUID) : Cond EProject := FieldCmp GT "id" (CUUID id).
Definition where_project_IDGTE (id : UUID) : Cond EProject := FieldCmp GTE "id" (CUUID id).
Definition where_project_IDLT (id : UUID) : Cond EProject := FieldCmp LT "id" (CUUID id).
Definition where_project_IDLTE (id : UUID) : Cond EProject := FieldCmp LTE "id" (CUUID id).
Definition where_project_Name (v : string) : Cond EProject := FieldCmp EQ "name" (CText v).
Definition where_project_Description (v : string) : Cond EProject := FieldCmp EQ "description" (CText v).
Definition where_project_CreatedAt (v : Time) : Cond EProject := FieldCmp EQ "created_at" (CTime v).
Definition where_project_UpdatedAt (v : Time) : Cond EProject := FieldCmp EQ "updated_at" (CTime v).
Definition where_project_DeletedAt (v : Time) : Cond EProject := FieldCmp EQ "deleted_at" (CTime v).
Definition where_project_NameEQ (v : string) : Cond EProject := FieldCmp EQ "name" (CText v).
Definition where_project_NameNEQ (v : string) : Cond EProject := FieldCmp NEQ "name" (CText v).
Definition where_project_NameIn (vs : list string) : Cond EProject := FieldIn "name" (CText <$> vs).
Definition where_project_NameNotIn (vs : list string) : Cond EProject := FieldNotIn "name" (CText <$> vs).
Definition where_project_NameGT (v : string) : Cond EProject := FieldCmp GT "name" (CText v).
Definition where_project_NameGTE (v : string) : Cond EProject := FieldCmp GTE "name" (CText v).
Definition where_project_NameLT (v : string) : Cond EProject := FieldCmp LT "name" (CText v).
Definition where_project_NameLTE (v : string) : Cond EProject := FieldCmp LTE "name" (CText v).
Definition where_project_NameContains (v : string) : Cond EProject := FieldLike LikeContains "name" v.
Definition where_project_NameHasPrefix (v : string) : Cond EProject := FieldLike LikeHasPrefix "name" v.
Definition where_project_NameHasSuffix (v : string) : Cond EProject := FieldLike LikeHasSuffix "name" v.
Definition where_project_NameEqualFold (v : string) : Cond EProject := FieldLike LikeEqualFold "name" v.
Definition where_project_NameContainsFold (v : string) : Cond EProject := FieldLike LikeContainsFold "name" v.
Definition where_project_DescriptionEQ (v : string) : Cond EProject := FieldCmp EQ "description" (CText v).
Definition where_project_DescriptionNEQ (v : string) : Cond EProject := FieldCmp NEQ "description" (CText v).
Definition where_project_DescriptionIn (vs : list string) : Cond EProject := FieldIn "description" (CText <$> vs).
Definition where_project_DescriptionNotIn (vs : list string) : Cond EProject := FieldNotIn "description" (CText <$> vs).
Definition where_project_DescriptionGT (v : string) : Cond EProject := FieldCmp GT "description" (CText v).
Definition where_project_DescriptionGTE (v : string) : Cond EProject := FieldCmp GTE "description" (CText v).
Definition where_project_DescriptionLT (v : string) : Cond EProject := FieldCmp LT "description" (CText v).
Definition where_project_DescriptionLTE (v : string) : Cond EProject := FieldCmp LTE "description" (CText v).
Definition where_project_DescriptionContains (v : string) : Cond EProject := FieldLike LikeContains "description" v.
Definition where_project_DescriptionHasPrefix (v : string) : Cond EProject := FieldLike LikeHasPrefix "description" v.
Definition where_project_DescriptionHasSuffix (v : string) : Cond EProject := FieldLike LikeHasSuffix "description" v.
Definition where_project_DescriptionEqualFold (v : string) : Cond EProject := FieldLike LikeEqualFold "description" v.
Definition where_project_DescriptionContainsFold (v : string) : Cond EProject := FieldLike LikeContainsFold "description" v.
Definition where_project_CreatedAtEQ (v : Time) : Cond EProject := FieldCmp EQ "created_at" (CTime v).
Definition where_project_CreatedAtNEQ (v : Time) : Cond EProject := FieldCmp NEQ "created_at" (CTime v).
Definition where_project_CreatedAtIn (vs : list Time) : Cond EProject := FieldIn "created_at" (CTime <$> vs).
Definition where_project_CreatedAtNotIn (vs : list Time) : Cond EProject := FieldNotIn "created_at" (CTime <$> vs).
Definition where_project_CreatedAtGT (v : Time) : Cond EProject := FieldCmp GT "created_at" (CTime v).
Definition where_project_CreatedAtGTE (v : Time) : Cond EProject := FieldCmp GTE "created_at" (CTime v).
Definition where_project_CreatedAtLT (v : Time) : Cond EProject := FieldCmp LT "created_at" (CTime v).
Definition where_project_CreatedAtLTE (v : Time) : Cond EProject := FieldCmp LTE "created_at" (CTime v).
Definition where_project_UpdatedAtEQ (v : Time) : Cond EProject := FieldCmp EQ "updated_at" (CTime v).
Definition where_project_UpdatedAtNEQ (v : Time) : Cond EProject := FieldCmp NEQ "updated_at" (CTime v).
Definition where_project_UpdatedAtIn (vs : list Time) : Cond EProject := FieldIn "updated_at" (CTime <$> vs).
Definition where_project_UpdatedAtNotIn (vs : list Time) : Cond EProject := FieldNotIn "updated_at" (CTime <$> vs).
Definition where_project_UpdatedAtGT (v : Time) : Cond EProject := FieldCmp GT "updated_at" (CTime v).
Definition where_project_UpdatedAtGTE (v : Time) : Cond EProject := FieldCmp GTE "updated_at" (CTime v).
Definition where_project_UpdatedAtLT (v : Time) : Cond EProject := FieldCmp LT "updated_at" (CTime v).
Definition where_project_UpdatedAtLTE (v : Time) : Cond EProject := FieldCmp LTE "updated_at" (CTime v).
Definition where_project_DeletedAtEQ (v : Time) : Cond EProject := FieldCmp EQ "deleted_at" (CTime v).
Definition where_project_DeletedAtNEQ (v : Time) : Cond EProject := FieldCmp NEQ "deleted_at" (CTime v).
Definition where_project_DeletedAtIn (vs : list Time) : Cond EProject := FieldIn "deleted_at" (CTime <$> vs).
Definition where_project_DeletedAtNotIn (vs : list Time) : Cond EProject := FieldNotIn "deleted_at" (CTime <$> vs).
Definition where_project_DeletedAtGT (v : Time) : Cond EProject := FieldCmp GT "deleted_at" (CTime v).
Definition where_project_DeletedAtGTE (v : Time) : Cond EProject := FieldCmp GTE "deleted_at" (CTime v).
Definition where_project_DeletedAtLT (v : Time) : Cond EProject := FieldCmp LT "deleted_at" (CTime v).
Definition where_project_DeletedAtLTE (v : Time) : Cond EProject := FieldCmp LTE "deleted_at" (CTime v).
Definition where_project_DeletedAtIsNil : Cond EProject := FieldIsNull "deleted_at".
Definition where_project_DeletedAtNotNil : Cond EProject := FieldNotNull "deleted_at".
Definition where_project_HasFolder : Cond EProject :=
  HasNeighbors EFolder (mkStep "projects" None M2O true "projects" "folder_projects").
Definition project_newFolderStep : Step := mkStep "projects" (Some "folders") M2O true "projects" "folder_projects".
Definition where_project_HasFolderWith (preds : list (Cond EFolder)) : Cond EProject :=
  HasNeighborsWith project_newFolderStep preds.
Definition where_project_And (predicates : list (Cond EProject)) : Cond EProject := AndPredicates predicates.
Definition where_project_Or (predicates : list (Cond EProject)) : Cond EProject := OrPredicates predicates.
Definition where_project_Not (p : Cond EProject) : Cond EProject := NotPredicates p.

(** ** tenancyevent/where.go *)

Definition where_tenancyevent_ID (id : Z) : Cond ETenancyEvent := FieldCmp EQ "id" (CInt id).
Definition where_tenancyevent_IDEQ (id : Z) : Cond ETenancyEvent := FieldCmp EQ "id" (CInt id).
Definition where_tenancyevent_IDNEQ (id : Z) : Cond ETenancyEvent := FieldCmp NEQ "id" (CInt id).
Definition where_tenancyevent_IDIn (ids : list Z) : Cond ETenancyEvent := FieldIn "id" (CInt <$> ids).
Definition where_tenancyevent_IDNotIn (ids : list Z) : Cond ETenancyEvent := FieldNotIn "id" (CInt <$> ids).
Definition where_tenancyevent_IDGT (id : Z) : Cond ETenancyEvent := FieldCmp GT "id" (CInt id).
Definition where_tenancyevent_IDGTE (id : Z) : Cond ETenancyEvent := FieldCmp GTE "id" (CInt id).
Definition where_tenancyevent_IDLT (id : Z) : Cond ETenancyEvent := FieldCmp LT "id" (CInt id).
Definition where_tenancyevent_IDLTE (id : Z) : Cond ETenancyEvent := FieldCmp LTE "id" (CInt id).
Definition where_tenancyevent_EventType (v : string) : Cond ETenancyEvent := FieldCmp EQ "event_type" (CText v).
Definition where_tenancyevent_ResourceType (v : string) : Cond ETenancyEvent := FieldCmp EQ "resource_type" (CText v).
Definition where_tenancyevent_ResourceID (v : UUID) : Cond ETenancyEvent := FieldCmp EQ "resource_id" (CUUID v).
Definition where_tenancyevent_ResourceName (v : string) : Cond ETenancyEvent := FieldCmp EQ "resource_name" (CText v).
Definition where_tenancyevent_OrgID (v : UUID) : Cond ETenancyEvent := FieldCmp EQ "org_id" (CUUID v).
Definition where_tenancyevent_OrgName (v : string) : Cond ETenancyEvent := FieldCmp EQ "org_name" (CText v).
Definition where_tenancyevent_FolderID (v : UUID) : Cond ETenancyEvent := FieldCmp EQ "folder_id" (CUUID v).
Definition where_tenancyevent_CreatedAt (v : Time) : Cond ETenancyEvent := FieldCmp EQ "created_at" (CTime v).
Definition where_tenancyevent_EventTypeEQ (v : string) : Cond ETenancyEvent := FieldCmp EQ "event_type" (CText v).
Definition where_tenancyevent_EventTypeNEQ (v : string) : Cond ETenancyEvent := FieldCmp NEQ "event_type" (CText v).
Definition where_tenancyevent_EventTypeIn (vs : list string) : Cond ETenancyEvent := FieldIn "event_type" (CText <$> vs).
Definition where_tenancyevent_EventTypeNotIn (vs : list string) : Cond ETenancyEvent := FieldNotIn "event_type" (CText <$> vs).
Definition where_tenancyevent_EventTypeGT (v : string) : Cond ETenancyEvent := FieldCmp GT "event_type" (CText v).
Definition where_tenancyevent_EventTypeGTE (v : string) : Cond ETenancyEvent := FieldCmp GTE "event_type" (CText v).
Definition where_tenancyevent_EventTypeLT (v : string) : Cond ETenancyEvent := FieldCmp LT "event_type" (CText v).
Definition where_tenancyevent_EventTypeLTE (v : string) : Cond ETenancyEvent := FieldCmp LTE "event_type" (CText v).
Definition where_tenancyevent_EventTypeContains (v : string) : Cond ETenancyEvent := FieldLike LikeContains "event_type" v.
Definition where_tenancyevent_EventTypeHasPrefix (v : string) : Cond ETenancyEvent := FieldLike LikeHasPrefix "event_type" v.
Definition where_tenancyevent_EventTypeHasSuffix (v : string) : Cond ETenancyEvent := FieldLike LikeHasSuffix "event_type" v.
Definition where_tenancyevent_EventTypeEqualFold (v : string) : Cond ETenancyEvent := FieldLike LikeEqualFold "event_type" v.
Definition where_tenancyevent_EventTypeContainsFold (v : string) : Cond ETenancyEvent :=
  FieldLike LikeContainsFold "event_type" v.
Definition where_tenancyevent_ResourceTypeEQ (v : string) : Cond ETenancyEvent := FieldCmp EQ "resource_type" (CText v).
Definition where_tenancyevent_ResourceTypeNEQ (v : string) : Cond ETenancyEvent := FieldCmp NEQ "resource_type" (CText v).
Definition where_tenancyevent_ResourceTypeIn (vs : list string) : Cond ETenancyEvent := FieldIn "resource_type" (CText <$> vs).
Definition where_tenancyevent_ResourceTypeNotIn (vs : list string) : Cond ETenancyEvent :=
  FieldNotIn "resource_type" (CText <$> vs).
Definition where_tenancyevent_ResourceTypeGT (v : string) : Cond ETenancyEvent := FieldCmp GT "resource_type" (CText v).
Definition where_tenancyevent_ResourceTypeGTE (v : string) : Cond ETenancyEvent := FieldCmp GTE "resource_type" (CText v).
Definition where_tenancyevent_ResourceTypeLT (v : string) : Cond ETenancyEvent := FieldCmp LT "resource_type" (CText v).
Definition where_tenancyevent_ResourceTypeLTE (v : string) : Cond ETenancyEvent := FieldCmp LTE "resource_type" (CText v).
Definition where_tenancyevent_ResourceTypeContains (v : string) : Cond ETenancyEvent := FieldLike LikeContains "resource_type" v.
Definition where_tenancyevent_ResourceTypeHasPrefix (v : string) : Cond ETenancyEvent :=
  FieldLike LikeHasPrefix "resource_type" v.
Definition where_tenancyevent_ResourceTypeHasSuffix (v : string) : Cond ETenancyEvent :=
  FieldLike LikeHasSuffix "resource_type" v.
Definition where_tenancyevent_ResourceTypeEqualFold (v : string) : Cond ETenancyEvent :=
  FieldLike LikeEqualFold "resource_type" v.
Definition where_tenancyevent_ResourceTypeContainsFold (v : string) : Cond ETenancyEvent :=
  FieldLike LikeContainsFold "resource_type" v.
Definition where_tenancyevent_ResourceIDEQ (v : UUID) : Cond ETenancyEvent := FieldCmp EQ "resource_id" (CUUID v).
Definition where_tenancyevent_ResourceIDNEQ (v : UUID) : Cond ETenancyEvent := FieldCmp NEQ "resource_id" (CUUID v).
Definition where_tenancyevent_ResourceIDIn (vs : list UUID) : Cond ETenancyEvent := FieldIn "resource_id" (CUUID <$> vs).
Definition where_tenancyevent_ResourceIDNotIn (vs : list UUID) : Cond ETenancyEvent := FieldNotIn "resource_id" (CUUID <$> vs).
Definition where_tenancyevent_ResourceIDGT (v : UUID) : Cond ETenancyEvent := FieldCmp GT "resource_id" (CUUID v).
Definition where_tenancyevent_ResourceIDGTE (v : UUID) : Cond ETenancyEvent := FieldCmp GTE "resource_id" (CUUID v).
Definition where_tenancyevent_ResourceIDLT (v : UUID) : Cond ETenancyEvent := FieldCmp LT "resource_id" (CUUID v).
Definition where_tenancyevent_ResourceIDLTE (v : UUID) : Cond ETenancyEvent := FieldCmp LTE "resource_id" (CUUID v).
Definition where_tenancyevent_ResourceNameEQ (v : string) : Cond ETenancyEvent := FieldCmp EQ "resource_name" (CText v).
Definition where_tenancyevent_ResourceNameNEQ (v : string) : Cond ETenancyEvent := FieldCmp NEQ "resource_name" (CText v).
Definition where_tenancyevent_ResourceNameIn (vs : list string) : Cond ETenancyEvent := FieldIn "resource_name" (CText <$> vs).
Definition where_tenancyevent_ResourceNameNotIn (vs : list string) : Cond ETenancyEvent :=
  FieldNotIn "resource_name" (CText <$> vs).
Definition where_tenancyevent_ResourceNameGT (v : string) : Cond ETenancyEvent := FieldCmp GT "resource_name" (CText v).
Definition where_tenancyevent_ResourceNameGTE (v : string) : Cond ETenancyEvent := FieldCmp GTE "resource_name" (CText v).
Definition where_tenancyevent_ResourceNameLT (v : string) : Cond ETenancyEvent := FieldCmp LT "resource_name" (CText v).
Definition where_tenancyevent_ResourceNameLTE (v : string) : Cond ETenancyEvent := FieldCmp LTE "resource_name" (CText v).
Definition where_tenancyevent_ResourceNameContains (v : string) : Cond ETenancyEvent := FieldLike LikeContains "resource_name" v.
Definition where_tenancyevent_ResourceNameHasPrefix (v : string) : Cond ETenancyEvent :=
  FieldLike LikeHasPrefix "resource_name" v.
Definition where_tenancyevent_ResourceNameHasSuffix (v : string) : Cond ETenancyEvent :=
  FieldLike LikeHasSuffix "resource_name" v.
Definition where_tenancyevent_ResourceNameEqualFold (v : string) : Cond ETenancyEvent :=
  FieldLike LikeEqualFold "resource_name" v.
Definition where_tenancyevent_ResourceNameContainsFold (v : string) : Cond ETenancyEvent :=
  FieldLike LikeContainsFold "resource_name" v.
Definition where_tenancyevent_OrgIDEQ (v : UUID) : Cond ETenancyEvent := FieldCmp EQ "org_id" (CUUID v).
Definition where_tenancyevent_OrgIDNEQ (v : UUID) : Cond ETenancyEvent := FieldCmp NEQ "org_id" (CUUID v).
Definition where_tenancyevent_OrgIDIn (vs : list UUID) : Cond ETenancyEvent := FieldIn "org_id" (CUUID <$> vs).
Definition where_tenancyevent_OrgIDNotIn (vs : list UUID) : Cond ETenancyEvent := FieldNotIn "org_id" (CUUID <$> vs).
Definition where_tenancyevent_OrgIDGT (v : UUID) : Cond ETenancyEvent := FieldCmp GT "org_id" (CUUID v).
Definition where_tenancyevent_OrgIDGTE (v : UUID) : Cond ETenancyEvent := FieldCmp GTE "org_id" (CUUID v).
Definition where_tenancyevent_OrgIDLT (v : UUID) : Cond ETenancyEvent := FieldCmp LT "org_id" (CUUID v).
Definition where_tenancyevent_OrgIDLTE (v : UUID) : Cond ETenancyEvent := FieldCmp LTE "org_id" (CUUID v).
Definition where_tenancyevent_OrgIDIsNil : Cond ETenancyEvent := FieldIsNull "org_id".
Definition where_tenancyevent_OrgIDNotNil : Cond ETenancyEvent := FieldNotNull "org_id".
Definition where_tenancyevent_OrgNameEQ (v : string) : Cond ETenancyEvent := FieldCmp EQ "org_name" (CText v).
Definition where_tenancyevent_OrgNameNEQ (v : string) : Cond ETenancyEvent := FieldCmp NEQ "org_name" (CText v).
Definition where_tenancyevent_OrgNameIn (vs : list string) : Cond ETenancyEvent := FieldIn "org_name" (CText <$> vs).
Definition where_tenancyevent_OrgNameNotIn (vs : list string) : Cond ETenancyEvent := FieldNotIn "org_name" (CText <$> vs).
Definition where_tenancyevent_OrgNameGT (v : string) : Cond ETenancyEvent := FieldCmp GT "org_name" (CText v).
Definition where_tenancyevent_OrgNameGTE (v : string) : Cond ETenancyEvent := FieldCmp GTE "org_name" (CText v).
Definition where_tenancyevent_OrgNameLT (v : string) : Cond ETenancyEvent := FieldCmp LT "org_name" (CText v).
Definition where_tenancyevent_OrgNameLTE (v : string) : Cond ETenancyEvent := FieldCmp LTE "org_name" (CText v).
Definition where_tenancyevent_OrgNameContains (v : string) : Cond ETenancyEvent := FieldLike LikeContains "org_name" v.
Definition where_tenancyevent_OrgNameHasPrefix (v : string) : Cond ETenancyEvent := FieldLike LikeHasPrefix "org_name" v.
Definition where_tenancyevent_OrgNameHasSuffix (v : string) : Cond ETenancyEvent := FieldLike LikeHasSuffix "org_name" v.
Definition where_tenancyevent_OrgNameIsNil : Cond ETenancyEvent := FieldIsNull "org_name".
Definition where_tenancyevent_OrgNameNotNil : Cond ETenancyEvent := FieldNotNull "org_name".
Definition where_tenancyevent_OrgNameEqualFold (v : string) : Cond ETenancyEvent := FieldLike LikeEqualFold "org_name" v.
Definition where_tenancyevent_OrgNameContainsFold (v : string) : Cond ETenancyEvent := FieldLike LikeContainsFold "org_name" v.
Definition where_tenancyevent_FolderIDEQ (v : UUID) : Cond ETenancyEvent := FieldCmp EQ "folder_id" (CUUID v).
Definition where_tenancyevent_FolderIDNEQ (v : UUID) : Cond ETenancyEvent := FieldCmp NEQ "folder_id" (CUUID v).
Definition where_tenancyevent_FolderIDIn (vs : list UUID) : Cond ETenancyEvent := FieldIn "folder_id" (CUUID <$> vs).
Definition where_tenancyevent_FolderIDNotIn (vs : list UUID) : Cond ETenancyEvent := FieldNotIn "folder_id" (CUUID <$> vs).
Definition where_tenancyevent_FolderIDGT (v : UUID) : Cond ETenancyEvent := FieldCmp GT "folder_id" (CUUID v).
Definition where_tenancyevent_FolderIDGTE (v : UUID) : Cond ETenancyEvent := FieldCmp GTE "folder_id" (CUUID v).
Definition where_tenancyevent_FolderIDLT (v : UUID) : Cond ETenancyEvent := FieldCmp LT "folder_id" (CUUID v).
Definition where_tenancyevent_FolderIDLTE (v : UUID) : Cond ETenancyEvent := FieldCmp LTE "folder_id" (CUUID v).
Definition where_tenancyevent_FolderIDIsNil : Cond ETenancyEvent := FieldIsNull "folder_id".
Definition where_tenancyevent_FolderIDNotNil : Cond ETenancyEvent := FieldNotNull "folder_id".
Definition where_tenancyevent_CreatedAtEQ (v : Time) : Cond ETenancyEvent := FieldCmp EQ "created_at" (CTime v).
Definition where_tenancyevent_CreatedAtNEQ (v : Time) : Cond ETenancyEvent := FieldCmp NEQ "created_at" (CTime v).
Definition where_tenancyevent_CreatedAtIn (vs : list Time) : Cond ETenancyEvent := FieldIn "created_at" (CTime <$> vs).
Definition where_tenancyevent_CreatedAtNotIn (vs : list Time) : Cond ETenancyEvent := FieldNotIn "created_at" (CTime <$> vs).
Definition where_tenancyevent_CreatedAtGT (v : Time) : Cond ETenancyEvent := FieldCmp GT "created_at" (CTime v).
Definition where_tenancyevent_CreatedAtGTE (v : Time) : Cond ETenancyEvent := FieldCmp GTE "created_at" (CTime v).
Definition where_tenancyevent_CreatedAtLT (v : Time) : Cond ETenancyEvent := FieldCmp LT "created_at" (CTime v).
Definition where_tenancyevent_CreatedAtLTE (v : Time) : Cond ETenancyEvent := FieldCmp LTE "created_at" (CTime v).
Definition where_tenancyevent_And (predicates : list (Cond ETenancyEvent)) : Cond ETenancyEvent := AndPredicates predicates.
Definition where_tenancyevent_Or (predicates : list (Cond ETenancyEvent)) : Cond ETenancyEvent := OrPredicates predicates.
Definition where_tenancyevent_Not (p : Cond ETenancyEvent) : Cond ETenancyEvent := NotPredicates p.

(** ** controllerstatus/where.go *)

Definition where_controllerstatus_ID (id : Z) : Cond EControllerStatus := FieldCmp EQ "id" (CInt id).
Definition where_controllerstatus_IDEQ (id : Z) : Cond EControllerStatus := FieldCmp EQ "id" (CInt id).
Definition where_controllerstatus_IDNEQ (id : Z) : Cond EControllerStatus := FieldCmp NEQ "id" (CInt id).
Definition where_controllerstatus_IDIn (ids : list Z) : Cond EControllerStatus := FieldIn "id" (CInt <$> ids).
Definition where_controllerstatus_IDNotIn (ids : list Z) : Cond EControllerStatus := FieldNotIn "id" (CInt <$> ids).
Definition where_controllerstatus_IDGT (id : Z) : Cond EControllerStatus := FieldCmp GT "id" (CInt id).
Definition where_controllerstatus_IDGTE (id : Z) : Cond EControllerStatus := FieldCmp GTE "id" (CInt id).
Definition where_controllerstatus_IDLT (id : Z) : Cond EControllerStatus := FieldCmp LT "id" (CInt id).
Definition where_controllerstatus_IDLTE (id : Z) : Cond EControllerStatus := FieldCmp LTE "id" (CInt id).
Definition where_controllerstatus_ControllerName (v : string) : Cond EControllerStatus := FieldCmp EQ "controller_name" (CText v).
Definition where_controllerstatus_ResourceType (v : string) : Cond EControllerStatus := FieldCmp EQ "resource_type" (CText v).
Definition where_controllerstatus_ResourceID (v : UUID) : Cond EControllerStatus := FieldCmp EQ "resource_id" (CUUID v).
Definition where_controllerstatus_Message (v : string) : Cond EControllerStatus := FieldCmp EQ "message" (CText v).
Definition where_controllerstatus_UpdatedAt (v : Time) : Cond EControllerStatus := FieldCmp EQ "updated_at" (CTime v).
Definition where_controllerstatus_ControllerNameEQ (v : string) : Cond EControllerStatus :=
  FieldCmp EQ "controller_name" (CText v).
Definition where_controllerstatus_ControllerNameNEQ (v : string) : Cond EControllerStatus :=
  FieldCmp NEQ "controller_name" (CText v).
Definition where_controllerstatus_ControllerNameIn (vs : list string) : Cond EControllerStatus :=
  FieldIn "controller_name" (CText <$> vs).
Definition where_controllerstatus_ControllerNameNotIn (vs : list string) : Cond EControllerStatus :=
  FieldNotIn "controller_name" (CText <$> vs).
Definition where_controllerstatus_ControllerNameGT (v : string) : Cond EControllerStatus :=
  FieldCmp GT "controller_name" (CText v).
Definition where_controllerstatus_ControllerNameGTE (v : string) : Cond EControllerStatus :=
  FieldCmp GTE "controller_name" (CText v).
Definition where_controllerstatus_ControllerNameLT (v : string) : Cond EControllerStatus :=
  FieldCmp LT "controller_name" (CText v).
Definition where_controllerstatus_ControllerNameLTE (v : string) : Cond EControllerStatus :=
  FieldCmp LTE "controller_name" (CText v).
Definition where_controllerstatus_ControllerNameContains (v : string) : Cond EControllerStatus :=
  FieldLike LikeContains "controller_name" v.
Definition where_controllerstatus_ControllerNameHasPrefix (v : string) : Cond EControllerStatus :=
  FieldLike LikeHasPrefix "controller_name" v.
Definition where_controllerstatus_ControllerNameHasSuffix (v : string) : Cond EControllerStatus :=
  FieldLike LikeHasSuffix "controller_name" v.
Definition where_controllerstatus_ControllerNameEqualFold (v : string) : Cond EControllerStatus :=
  FieldLike LikeEqualFold "controller_name" v.
Definition where_controllerstatus_ControllerNameContainsFold (v : string) : Cond EControllerStatus :=
  FieldLike LikeContainsFold "controller_name" v.
Definition where_controllerstatus_ResourceTypeEQ (v : string) : Cond EControllerStatus := FieldCmp EQ "resource_type" (CText v).
Definition where_controllerstatus_ResourceTypeNEQ (v : string) : Cond EControllerStatus := FieldCmp NEQ "resource_type" (CText v).
Definition where_controllerstatus_ResourceTypeIn (vs : list string) : Cond EControllerStatus :=
  FieldIn "resource_type" (CText <$> vs).
Definition where_controllerstatus_ResourceTypeNotIn (vs : list string) : Cond EControllerStatus :=
  FieldNotIn "resource_type" (CText <$> vs).
Definition where_controllerstatus_ResourceTypeGT (v : string) : Cond EControllerStatus := FieldCmp GT "resource_type" (CText v).
Definition where_controllerstatus_ResourceTypeGTE (v : string) : Cond EControllerStatus := FieldCmp GTE "resource_type" (CText v).
Definition where_controllerstatus_ResourceTypeLT (v : string) : Cond EControllerStatus := FieldCmp LT "resource_type" (CText v).
Definition where_controllerstatus_ResourceTypeLTE (v : string) : Cond EControllerStatus := FieldCmp LTE "resource_type" (CText v).
Definition where_controllerstatus_ResourceTypeContains (v : string) : Cond EControllerStatus :=
  FieldLike LikeContains "resource_type" v.
Definition where_controllerstatus_ResourceTypeHasPrefix (v : string) : Cond EControllerStatus :=
  FieldLike LikeHasPrefix "resource_type" v.
Definition where_controllerstatus_ResourceTypeHasSuffix (v : string) : Cond EControllerStatus :=
  FieldLike LikeHasSuffix "resource_type" v.
Definition where_controllerstatus_ResourceTypeEqualFold (v : string) : Cond EControllerStatus :=
  FieldLike LikeEqualFold "resource_type" v.
Definition where_controllerstatus_ResourceTypeContainsFold (v : string) : Cond EControllerStatus :=
  FieldLike LikeContainsFold "resource_type" v.
Definition where_controllerstatus_ResourceIDEQ (v : UUID) : Cond EControllerStatus := FieldCmp EQ "resource_id" (CUUID v).
Definition where_controllerstatus_ResourceIDNEQ (v : UUID) : Cond EControllerStatus := FieldCmp NEQ "resource_id" (CUUID v).
Definition where_controllerstatus_ResourceIDIn (vs : list UUID) : Cond EControllerStatus := FieldIn "resource_id" (CUUID <$> vs).
Definition where_controllerstatus_ResourceIDNotIn (vs : list UUID) : Cond EControllerStatus :=
  FieldNotIn "resource_id" (CUUID <$> vs).
Definition where_controllerstatus_ResourceIDGT (v : UUID) : Cond EControllerStatus := FieldCmp GT "resource_id" (CUUID v).
Definition where_controllerstatus_ResourceIDGTE (v : UUID) : Cond EControllerStatus := FieldCmp GTE "resource_id" (CUUID v).
Definition where_controllerstatus_ResourceIDLT (v : UUID) : Cond EControllerStatus := FieldCmp LT "resource_id" (CUUID v).
Definition where_controllerstatus_ResourceIDLTE (v : UUID) : Cond EControllerStatus := FieldCmp LTE "resource_id" (CUUID v).
Definition where_controllerstatus_StatusEQ (v : string) : Cond EControllerStatus := FieldCmp EQ "status" (CText v).
Definition where_controllerstatus_StatusNEQ (v : string) : Cond EControllerStatus := FieldCmp NEQ "status" (CText v).
Definition where_controllerstatus_StatusIn (vs : list string) : Cond EControllerStatus := FieldIn "status" (CText <$> vs).
Definition where_controllerstatus_StatusNotIn (vs : list string) : Cond EControllerStatus := FieldNotIn "status" (CText <$> vs).
Definition where_controllerstatus_MessageEQ (v : string) : Cond EControllerStatus := FieldCmp EQ "message" (CText v).
Definition where_controllerstatus_MessageNEQ (v : string) : Cond EControllerStatus := FieldCmp NEQ "message" (CText v).
Definition where_controllerstatus_MessageIn (vs : list string) : Cond EControllerStatus := FieldIn "message" (CText <$> vs).
Definition where_controllerstatus_MessageNotIn (vs : list string) : Cond EControllerStatus := FieldNotIn "message" (CText <$> vs).
Definition where_controllerstatus_MessageGT (v : string) : Cond EControllerStatus := FieldCmp GT "message" (CText v).
Definition where_controllerstatus_MessageGTE (v : string) : Cond EControllerStatus := FieldCmp GTE "message" (CText v).
Definition where_controllerstatus_MessageLT (v : string) : Cond EControllerStatus := FieldCmp LT "message" (CText v).
Definition where_controllerstatus_MessageLTE (v : string) : Cond EControllerStatus := FieldCmp LTE "message" (CText v).
Definition where_controllerstatus_MessageContains (v : string) : Cond EControllerStatus := FieldLike LikeContains "message" v.
Definition where_controllerstatus_MessageHasPrefix (v : string) : Cond EControllerStatus := FieldLike LikeHasPrefix "message" v.
Definition where_controllerstatus_MessageHasSuffix (v : string) : Cond EControllerStatus := FieldLike LikeHasSuffix "message" v.
Definition where_controllerstatus_MessageEqualFold (v : string) : Cond EControllerStatus := FieldLike LikeEqualFold "message" v.
Definition where_controllerstatus_MessageContainsFold (v : string) : Cond EControllerStatus :=
  FieldLike LikeContainsFold "message" v.
Definition where_controllerstatus_UpdatedAtEQ (v : Time) : Cond EControllerStatus := FieldCmp EQ "updated_at" (CTime v).
Definition where_controllerstatus_UpdatedAtNEQ (v : Time) : Cond EControllerStatus := FieldCmp NEQ "updated_at" (CTime v).
Definition where_controllerstatus_UpdatedAtIn (vs : list Time) : Cond EControllerStatus := FieldIn "updated_at" (CTime <$> vs).
Definition where_controllerstatus_UpdatedAtNotIn (vs : list Time) : Cond EControllerStatus :=
  FieldNotIn "updated_at" (CTime <$> vs).
Definition where_controllerstatus_UpdatedAtGT (v : Time) : Cond EControllerStatus := FieldCmp GT "updated_at" (CTime v).
Definition where_controllerstatus_UpdatedAtGTE (v : Time) : Cond EControllerStatus := FieldCmp GTE "updated_at" (CTime v).
Definition where_controllerstatus_UpdatedAtLT (v : Time) : Cond EControllerStatus := FieldCmp LT "updated_at" (CTime v).
Definition where_controllerstatus_UpdatedAtLTE (v : Time) : Cond EControllerStatus := FieldCmp LTE "updated_at" (CTime v).
Definition where_controllerstatus_And (predicates : list (Cond EControllerStatus)) : Cond EControllerStatus :=
  AndPredicates predicates.
Definition where_controllerstatus_Or (predicates : list (Cond EControllerStatus)) : Cond EControllerStatus :=
  OrPredicates predicates.
Definition where_controllerstatus_Not (p : Cond EControllerStatus) : Cond EControllerStatus := NotPredicates p.

(** ** What a condition means *)

#[export] Instance entity_table (e : Entity) : Table (row e) :=
  match e with
  | EOrg => OrgsTable | EFolder => FoldersTable | EProject => ProjectsTable
  | ETenancyEvent => TenancyEventsTable | EControllerStatus => ControllerStatusTable
  end.
(** [<entity>.Table] *)
Definition table_name (e : Entity) : string :=
  match e with
  | EOrg => "orgs" | EFolder => "folders" | EProject => "projects"
  | ETenancyEvent => "tenancy_events" | EControllerStatus => "controller_status"
  end.

(** The logic of SQL; [None] is unknown. *)
Definition not3 : option bool → option bool := fmap negb.
Definition and3 (a b : option bool) : option bool :=
  match a, b with
  | Some false, _ | _, Some false => Some false
  | Some true, Some true => Some true
  | _, _ => None
  end.
Definition or3 (a b : option bool) : option bool := not3 (and3 (not3 a) (not3 b)).
Definition is_true (b : option bool) : bool := match b with Some b => b | None => false end.

(** Nothing is known of NULL; a cell is only compared with one of its type. *)
Definition cell_eq (a b : Cell) : option bool :=
  match a, b with
  | CText x, CText y => Some (String.eqb x y)
  | CTime x, CTime y => Some (x =? y)%Z
  | CUUID x, CUUID y => Some (bool_decide (x = y))
  | CInt x, CInt y => Some (x =? y)%Z
  | _, _ => None
  end.
(** [a IN (l)] *)
Definition in3 (a : Cell) (l : list Cell) : option bool := foldr (λ b, or3 (cell_eq a b)) (Some false) l.

Section compare.
Context `{Driver}.

Definition cell_le (a b : Cell) : option bool :=
  match a, b with
  | CText x, CText y => Some (db_le x y)
  | CTime x, CTime y => Some (x <=? y)%Z
  | CUUID x, CUUID y => Some (uuid_val x <=? uuid_val y)%N
  | CInt x, CInt y => Some (x <=? y)%Z
  | _, _ => None
  end.
Definition compare3 (op : CmpOp) (a b : Cell) : option bool :=
  match op with
  | EQ => cell_eq a b | NEQ => not3 (cell_eq a b)
  | GT => not3 (cell_le a b) | GTE => cell_le b a | LT => not3 (cell_le b a) | LTE => cell_le a b
  end.
End compare.
(** The key on this side of an edge, and the one of a neighbour. *)
Definition own_key {e} (step : Step) (r : row e) : Cell :=
  match st_Rel step with M2O => co_cell (st_Column step) r | O2M => co_cell "id" r end.
Definition neighbor_key {e} (step : Step) (r : row e) : Cell :=
  match st_Rel step with M2O => co_cell "id" r | O2M => co_cell (st_Column step) r end.
Definition null (c : Cell) : bool := match c with CNull => true | _ => false end.

(** Columns and constants of one type, edges along the foreign keys. *)
Definition constant_of (ty : ScanType) (v : Cell) : bool :=
  match ty, v with
  | NullString, CText _ | NullTime, CTime _ | UUIDScanner, CUUID _ | NullUUID, CUUID _ | NullInt64, CInt _ => true
  | _, _ => false
  end.
Definition foreign_key (child parent : Entity) : option string :=
  match child, parent with
  | EFolder, EOrg => Some "org_folders" | EProject, EFolder => Some "folder_projects" | _, _ => None
  end.
Definition step_ok (e neighbor : Entity) (step : Step) : bool :=
  String.eqb (st_From step) (table_name e) && match st_To step with Some t => String.eqb t (table_name neighbor) | None => true end &&
  match st_Rel step with
  | M2O => st_Inverse step && String.eqb (st_Table step) (table_name e) && bool_decide (foreign_key e neighbor = Some (st_Column step))
  | O2M => negb (st_Inverse step) && String.eqb (st_Table step) (table_name neighbor) &&
      bool_decide (foreign_key neighbor e = Some (st_Column step))
  end.
Definition column_ok (e : Entity) (column : string) (v : Cell) : bool :=
  mem_string column (co_columns (R:=row e)) && constant_of (co_scan (R:=row e) column) v.
Fixpoint well_typed {e} (c : Cond e) : bool :=
  match c with
  | @FieldCmp e _ column v => column_ok e column v
  | @FieldIn e column vs | @FieldNotIn e column vs => mem_string column (co_columns (R:=row e)) && forallb (column_ok e column) vs
  | @FieldLike e _ column v => column_ok e column (CText v)
  | @FieldIsNull e column | @FieldNotNull e column => mem_string column (co_columns (R:=row e))
  | @HasNeighbors e neighbor step => step_ok e neighbor step
  | @HasNeighborsWith e neighbor step preds => step_ok e neighbor step && forallb well_typed preds
  | AndPredicates ps | OrPredicates ps => forallb well_typed ps
  | NotPredicates p => well_typed p
  end.
(** LIKE and ILIKE with the patterns of the functions, and the truth of a condition on a row. *)
Class SQLWhere := {
  sql_like : LikeOp → string → string → bool;
  sql_where : ∀ {e}, Cond e → DB → row e → option bool }.
Class SQLWhereLaws `{Driver} `{SQLWhere} : Prop := {
  where_cmp : ∀ e op column v db (r : row e), column_ok e column v = true →
    sql_where (FieldCmp op column v) db r = compare3 op (co_cell column r) v;
  where_in : ∀ e column vs db (r : row e), well_typed (FieldIn (e:=e) column vs) = true →
    sql_where (FieldIn column vs) db r = in3 (co_cell column r) vs;
  where_not_in : ∀ e column vs db (r : row e), well_typed (FieldNotIn (e:=e) column vs) = true →
    sql_where (FieldNotIn column vs) db r = not3 (in3 (co_cell column r) vs);
  where_like : ∀ e op column v db (r : row e), column_ok e column (CText v) = true →
    sql_where (FieldLike op column v) db r = match co_cell column r with CText s => Some (sql_like op s v) | _ => None end;
  where_is_null : ∀ e column db (r : row e), mem_string column (co_columns (R:=row e)) = true →
    sql_where (FieldIsNull column) db r = Some (null (co_cell column r));
  where_not_null : ∀ e column db (r : row e), mem_string column (co_columns (R:=row e)) = true →
    sql_where (FieldNotNull column) db r = Some (negb (null (co_cell column r)));
  where_neighbors : ∀ e neighbor step db (r : row e), step_ok e neighbor step = true →
    sql_where (HasNeighbors neighbor step) db r =
      match st_Rel step with
      | M2O => Some (negb (null (own_key step r)))
      | O2M => in3 (own_key step r) (select (λ k, negb (null k)) (neighbor_key (e:=neighbor) step <$> rows (R:=row neighbor) db))
      end;
  where_neighbors_with : ∀ e neighbor step preds db (r : row e),
    step_ok e neighbor step = true → forallb well_typed preds = true →
    sql_where (HasNeighborsWith (neighbor:=neighbor) step preds) db r =
      in3 (own_key step r)
        (neighbor_key (e:=neighbor) step <$> select (λ r', forallb (λ p, is_true (sql_where p db r')) preds) (rows (R:=row neighbor) db));
  where_and : ∀ e ps db (r : row e), forallb well_typed ps = true → ps ≠ [] →
    sql_where (AndPredicates ps) db r = foldr (λ p, and3 (sql_where p db r)) (Some true) ps;
  where_or : ∀ e ps db (r : row e), forallb well_typed ps = true → ps ≠ [] →
    sql_where (OrPredicates ps) db r = foldr (λ p, or3 (sql_where p db r)) (Some false) ps;
  where_not : ∀ e p db (r : row e), well_typed p = true →
    sql_where (NotPredicates p) db r = not3 (sql_where p db r) }.

(** ** What the predicates test *)

(** A field of an entity, [None] where it is nil; the tests are unknown there. *)
Section fields.
Context `{Driver} `{SQLWhere} {R : Type}.
Definition Test : Type := DB → R → option bool.

Section field.
Context {A : Type} (eqb le : A → A → bool) (f : R → option A).
Definition tests (p : A → bool) : Test := λ _ r, p <$> f r.
Definition equals (v : A) : Test := tests (λ x, eqb x v).
Definition differs (v : A) : Test := tests (λ x, negb (eqb x v)).
(** No value is one of none, not even an unknown one. *)
Definition one_of (vs : list A) : Test := λ db r, match vs with [] => Some false | _ => tests (λ x, existsb (eqb x) vs) db r end.
Definition none_of (vs : list A) : Test := λ db r, not3 (one_of vs db r).
Definition above (v : A) : Test := tests (λ x, negb (le x v)).
Definition at_least (v : A) : Test := tests (λ x, le v x).
Definition below (v : A) : Test := tests (λ x, negb (le v x)).
Definition at_most (v : A) : Test := tests (λ x, le x v).
Definition chosen (v : A) (vs : list A) : list Test := [equals v; differs v; one_of vs; none_of vs].
Definition compared (v : A) (vs : list A) : list Test := chosen v vs ++ [above v; at_least v; below v; at_most v].
Definition absent : Test := λ _ r, Some (is_nil (f r)).
Definition present : Test := λ _ r, Some (negb (is_nil (f r))).
Definition nilable : list Test := [absent; present].
End field.
(** Text is compared by the server's collation. *)
Definition text_tests (f : R → option string) (nil : list Test) (s : string) (ss : list string) : list Test :=
  compared String.eqb db_le f s ss ++
  [tests f (λ x, sql_like LikeContains x s); tests f (λ x, sql_like LikeHasPrefix x s); tests f (λ x, sql_like LikeHasSuffix x s)] ++
  nil ++ [tests f (λ x, sql_like LikeEqualFold x s); tests f (λ x, sql_like LikeContainsFold x s)].
Definition uuid_eqb (x y : UUID) : bool := bool_decide (x = y).
Definition uuid_leb (x y : UUID) : bool := (uuid_val x <=? uuid_val y)%N.
Definition uuid_tests (f : R → option UUID) : UUID → list UUID → list Test := compared uuid_eqb uuid_leb f.
Definition number_tests (f : R → option Z) : Z → list Z → list Test := compared Z.eqb Z.leb f.
End fields.
(** A field that every entity has. *)
Definition always {R A} (f : R → A) : R → option A := λ r, Some (f r).

(** ** All conditions *)

Section all.
Context (s : string) (ss : list string) (t : Time) (ts : list Time) (u : UUID) (us : list UUID) (z : Z) (zs : list Z)
  (orgs : list (Cond EOrg)) (folders : list (Cond EFolder)) (projects : list (Cond EProject)).
Definition org_conditions (c : Cond EOrg) (cs : list (Cond EOrg)) : list (Cond EOrg) :=
  [where_org_ID u; where_org_IDEQ u; where_org_IDNEQ u; where_org_IDIn us; where_org_IDNotIn us; where_org_IDGT u;
   where_org_IDGTE u; where_org_IDLT u; where_org_IDLTE u; where_org_Name s; where_org_Description s;
   where_org_CreatedAt t; where_org_UpdatedAt t; where_org_DeletedAt t; where_org_NameEQ s; where_org_NameNEQ s;
   where_org_NameIn ss; where_org_NameNotIn ss; where_org_NameGT s; where_org_NameGTE s; where_org_NameLT s;
   where_org_NameLTE s; where_org_NameContains s; where_org_NameHasPrefix s; where_org_NameHasSuffix s;
   where_org_NameEqualFold s; where_org_NameContainsFold s; where_org_DescriptionEQ s; where_org_DescriptionNEQ s;
   where_org_DescriptionIn ss; where_org_DescriptionNotIn ss; where_org_DescriptionGT s; where_org_DescriptionGTE s;
   where_org_DescriptionLT s; where_org_DescriptionLTE s; where_org_DescriptionContains s;
   where_org_DescriptionHasPrefix s; where_org_DescriptionHasSuffix s; where_org_DescriptionEqualFold s;
   where_org_DescriptionContainsFold s; where_org_CreatedAtEQ t; where_org_CreatedAtNEQ t; where_org_CreatedAtIn ts;
   where_org_CreatedAtNotIn ts; where_org_CreatedAtGT t; where_org_CreatedAtGTE t; where_org_CreatedAtLT t;
   where_org_CreatedAtLTE t; where_org_UpdatedAtEQ t; where_org_UpdatedAtNEQ t; where_org_UpdatedAtIn ts;
   where_org_UpdatedAtNotIn ts; where_org_UpdatedAtGT t; where_org_UpdatedAtGTE t; where_org_UpdatedAtLT t;
   where_org_UpdatedAtLTE t; where_org_DeletedAtEQ t; where_org_DeletedAtNEQ t; where_org_DeletedAtIn ts;
   where_org_DeletedAtNotIn ts; where_org_DeletedAtGT t; where_org_DeletedAtGTE t; where_org_DeletedAtLT t;
   where_org_DeletedAtLTE t; where_org_DeletedAtIsNil; where_org_DeletedAtNotNil; where_org_HasFolders;
   where_org_HasFoldersWith folders; where_org_And cs; where_org_Or cs; where_org_Not c].
Definition folder_conditions (c : Cond EFolder) (cs : list (Cond EFolder)) : list (Cond EFolder) :=
  [where_folder_ID u; where_folder_IDEQ u; where_folder_IDNEQ u; where_folder_IDIn us; where_folder_IDNotIn us;
   where_folder_IDGT u; where_folder_IDGTE u; where_folder_IDLT u; where_folder_IDLTE u; where_folder_Name s;
   where_folder_CreatedAt t; where_folder_UpdatedAt t; where_folder_NameEQ s; where_folder_NameNEQ s;
   where_folder_NameIn ss; where_folder_NameNotIn ss; where_folder_NameGT s; where_folder_NameGTE s;
   where_folder_NameLT s; where_folder_NameLTE s; where_folder_NameContains s; where_folder_NameHasPrefix s;
   where_folder_NameHasSuffix s; where_folder_NameEqualFold s; where_folder_NameContainsFold s;
   where_folder_CreatedAtEQ t; where_folder_CreatedAtNEQ t; where_folder_CreatedAtIn ts;
   where_folder_CreatedAtNotIn ts; where_folder_CreatedAtGT t; where_folder_CreatedAtGTE t;
   where_folder_CreatedAtLT t; where_folder_CreatedAtLTE t; where_folder_UpdatedAtEQ t; where_folder_UpdatedAtNEQ t;
   where_folder_UpdatedAtIn ts; where_folder_UpdatedAtNotIn ts; where_folder_UpdatedAtGT t;
   where_folder_UpdatedAtGTE t; where_folder_UpdatedAtLT t; where_folder_UpdatedAtLTE t; where_folder_HasOrg;
   where_folder_HasOrgWith orgs; where_folder_HasProjects; where_folder_HasProjectsWith projects; where_folder_And cs;
   where_folder_Or cs; where_folder_Not c].
Definition project_conditions (c : Cond EProject) (cs : list (Cond EProject)) : list (Cond EProject) :=
  [where_project_ID u; where_project_IDEQ u; where_project_IDNEQ u; where_project_IDIn us; where_project_IDNotIn us;
   where_project_IDGT u; where_project_IDGTE u; where_project_IDLT u; where_project_IDLTE u; where_project_Name s;
   where_project_Description s; where_project_CreatedAt t; where_project_UpdatedAt t; where_project_DeletedAt t;
   where_project_NameEQ s; where_project_NameNEQ s; where_project_NameIn ss; where_project_NameNotIn ss;
   where_project_NameGT s; where_project_NameGTE s; where_project_NameLT s; where_project_NameLTE s;
   where_project_NameContains s; where_project_NameHasPrefix s; where_project_NameHasSuffix s;
   where_project_NameEqualFold s; where_project_NameContainsFold s; where_project_DescriptionEQ s;
   where_project_DescriptionNEQ s; where_project_DescriptionIn ss; where_project_DescriptionNotIn ss;
   where_project_DescriptionGT s; where_project_DescriptionGTE s; where_project_DescriptionLT s;
   where_project_DescriptionLTE s; where_project_DescriptionContains s; where_project_DescriptionHasPrefix s;
   where_project_DescriptionHasSuffix s; where_project_DescriptionEqualFold s;
   where_project_DescriptionContainsFold s; where_project_CreatedAtEQ t; where_project_CreatedAtNEQ t;
   where_project_CreatedAtIn ts; where_project_CreatedAtNotIn ts; where_project_CreatedAtGT t;
   where_project_CreatedAtGTE t; where_project_CreatedAtLT t; where_project_CreatedAtLTE t;
   where_project_UpdatedAtEQ t; where_project_UpdatedAtNEQ t; where_project_UpdatedAtIn ts;
   where_project_UpdatedAtNotIn ts; where_project_UpdatedAtGT t; where_project_UpdatedAtGTE t;
   where_project_UpdatedAtLT t; where_project_UpdatedAtLTE t; where_project_DeletedAtEQ t;
   where_project_DeletedAtNEQ t; where_project_DeletedAtIn ts; where_project_DeletedAtNotIn ts;
   where_project_DeletedAtGT t; where_project_DeletedAtGTE t; where_project_DeletedAtLT t;
   where_project_DeletedAtLTE t; where_project_DeletedAtIsNil; where_project_DeletedAtNotNil; where_project_HasFolder;
   where_project_HasFolderWith folders; where_project_And cs; where_project_Or cs; where_project_Not c].
Definition tenancyevent_conditions (c : Cond ETenancyEvent) (cs : list (Cond ETenancyEvent)) : list (Cond ETenancyEvent) :=
  [where_tenancyevent_ID z; where_tenancyevent_IDEQ z; where_tenancyevent_IDNEQ z; where_tenancyevent_IDIn zs;
   where_tenancyevent_IDNotIn zs; where_tenancyevent_IDGT z; where_tenancyevent_IDGTE z; where_tenancyevent_IDLT z;
   where_tenancyevent_IDLTE z; where_tenancyevent_EventType s; where_tenancyevent_ResourceType s;
   where_tenancyevent_ResourceID u; where_tenancyevent_ResourceName s; where_tenancyevent_OrgID u;
   where_tenancyevent_OrgName s; where_tenancyevent_FolderID u; where_tenancyevent_CreatedAt t;
   where_tenancyevent_EventTypeEQ s; where_tenancyevent_EventTypeNEQ s; where_tenancyevent_EventTypeIn ss;
   where_tenancyevent_EventTypeNotIn ss; where_tenancyevent_EventTypeGT s; where_tenancyevent_EventTypeGTE s;
   where_tenancyevent_EventTypeLT s; where_tenancyevent_EventTypeLTE s; where_tenancyevent_EventTypeContains s;
   where_tenancyevent_EventTypeHasPrefix s; where_tenancyevent_EventTypeHasSuffix s;
   where_tenancyevent_EventTypeEqualFold s; where_tenancyevent_EventTypeContainsFold s;
   where_tenancyevent_ResourceTypeEQ s; where_tenancyevent_ResourceTypeNEQ s; where_tenancyevent_ResourceTypeIn ss;
   where_tenancyevent_ResourceTypeNotIn ss; where_tenancyevent_ResourceTypeGT s; where_tenancyevent_ResourceTypeGTE s;
   where_tenancyevent_ResourceTypeLT s; where_tenancyevent_ResourceTypeLTE s;
   where_tenancyevent_ResourceTypeContains s; where_tenancyevent_ResourceTypeHasPrefix s;
   where_tenancyevent_ResourceTypeHasSuffix s; where_tenancyevent_ResourceTypeEqualFold s;
   where_tenancyevent_ResourceTypeContainsFold s; where_tenancyevent_ResourceIDEQ u;
   where_tenancyevent_ResourceIDNEQ u; where_tenancyevent_ResourceIDIn us; where_tenancyevent_ResourceIDNotIn us;
   where_tenancyevent_ResourceIDGT u; where_tenancyevent_ResourceIDGTE u; where_tenancyevent_ResourceIDLT u;
   where_tenancyevent_ResourceIDLTE u; where_tenancyevent_ResourceNameEQ s; where_tenancyevent_ResourceNameNEQ s;
   where_tenancyevent_ResourceNameIn ss; where_tenancyevent_ResourceNameNotIn ss; where_tenancyevent_ResourceNameGT s;
   where_tenancyevent_ResourceNameGTE s; where_tenancyevent_ResourceNameLT s; where_tenancyevent_ResourceNameLTE s;
   where_tenancyevent_ResourceNameContains s; where_tenancyevent_ResourceNameHasPrefix s;
   where_tenancyevent_ResourceNameHasSuffix s; where_tenancyevent_ResourceNameEqualFold s;
   where_tenancyevent_ResourceNameContainsFold s; where_tenancyevent_OrgIDEQ u; where_tenancyevent_OrgIDNEQ u;
   where_tenancyevent_OrgIDIn us; where_tenancyevent_OrgIDNotIn us; where_tenancyevent_OrgIDGT u;
   where_tenancyevent_OrgIDGTE u; where_tenancyevent_OrgIDLT u; where_tenancyevent_OrgIDLTE u;
   where_tenancyevent_OrgIDIsNil; where_tenancyevent_OrgIDNotNil; where_tenancyevent_OrgNameEQ s;
   where_tenancyevent_OrgNameNEQ s; where_tenancyevent_OrgNameIn ss; where_tenancyevent_OrgNameNotIn ss;
   where_tenancyevent_OrgNameGT s; where_tenancyevent_OrgNameGTE s; where_tenancyevent_OrgNameLT s;
   where_tenancyevent_OrgNameLTE s; where_tenancyevent_OrgNameContains s; where_tenancyevent_OrgNameHasPrefix s;
   where_tenancyevent_OrgNameHasSuffix s; where_tenancyevent_OrgNameIsNil; where_tenancyevent_OrgNameNotNil;
   where_tenancyevent_OrgNameEqualFold s; where_tenancyevent_OrgNameContainsFold s; where_tenancyevent_FolderIDEQ u;
   where_tenancyevent_FolderIDNEQ u; where_tenancyevent_FolderIDIn us; where_tenancyevent_FolderIDNotIn us;
   where_tenancyevent_FolderIDGT u; where_tenancyevent_FolderIDGTE u; where_tenancyevent_FolderIDLT u;
   where_tenancyevent_FolderIDLTE u; where_tenancyevent_FolderIDIsNil; where_tenancyevent_FolderIDNotNil;
   where_tenancyevent_CreatedAtEQ t; where_tenancyevent_CreatedAtNEQ t; where_tenancyevent_CreatedAtIn ts;
   where_tenancyevent_CreatedAtNotIn ts; where_tenancyevent_CreatedAtGT t; where_tenancyevent_CreatedAtGTE t;
   where_tenancyevent_CreatedAtLT t; where_tenancyevent_CreatedAtLTE t; where_tenancyevent_And cs;
   where_tenancyevent_Or cs; where_tenancyevent_Not c].
Definition controllerstatus_conditions (c : Cond EControllerStatus) (cs : list (Cond EControllerStatus)) : list (Cond EControllerStatus) :=
  [where_controllerstatus_ID z; where_controllerstatus_IDEQ z; where_controllerstatus_IDNEQ z;
   where_controllerstatus_IDIn zs; where_controllerstatus_IDNotIn zs; where_controllerstatus_IDGT z;
   where_controllerstatus_IDGTE z; where_controllerstatus_IDLT z; where_controllerstatus_IDLTE z;
   where_controllerstatus_ControllerName s; where_controllerstatus_ResourceType s;
   where_controllerstatus_ResourceID u; where_controllerstatus_Message s; where_controllerstatus_UpdatedAt t;
   where_controllerstatus_ControllerNameEQ s; where_controllerstatus_ControllerNameNEQ s;
   where_controllerstatus_ControllerNameIn ss; where_controllerstatus_ControllerNameNotIn ss;
   where_controllerstatus_ControllerNameGT s; where_controllerstatus_ControllerNameGTE s;
   where_controllerstatus_ControllerNameLT s; where_controllerstatus_ControllerNameLTE s;
   where_controllerstatus_ControllerNameContains s; where_controllerstatus_ControllerNameHasPrefix s;
   where_controllerstatus_ControllerNameHasSuffix s; where_controllerstatus_ControllerNameEqualFold s;
   where_controllerstatus_ControllerNameContainsFold s; where_controllerstatus_ResourceTypeEQ s;
   where_controllerstatus_ResourceTypeNEQ s; where_controllerstatus_ResourceTypeIn ss;
   where_controllerstatus_ResourceTypeNotIn ss; where_controllerstatus_ResourceTypeGT s;
   where_controllerstatus_ResourceTypeGTE s; where_controllerstatus_ResourceTypeLT s;
   where_controllerstatus_ResourceTypeLTE s; where_controllerstatus_ResourceTypeContains s;
   where_controllerstatus_ResourceTypeHasPrefix s; where_controllerstatus_ResourceTypeHasSuffix s;
   where_controllerstatus_ResourceTypeEqualFold s; where_controllerstatus_ResourceTypeContainsFold s;
   where_controllerstatus_ResourceIDEQ u; where_controllerstatus_ResourceIDNEQ u;
   where_controllerstatus_ResourceIDIn us; where_controllerstatus_ResourceIDNotIn us;
   where_controllerstatus_ResourceIDGT u; where_controllerstatus_ResourceIDGTE u;
   where_controllerstatus_ResourceIDLT u; where_controllerstatus_ResourceIDLTE u; where_controllerstatus_StatusEQ s;
   where_controllerstatus_StatusNEQ s; where_controllerstatus_StatusIn ss; where_controllerstatus_StatusNotIn ss;
   where_controllerstatus_MessageEQ s; where_controllerstatus_MessageNEQ s; where_controllerstatus_MessageIn ss;
   where_controllerstatus_MessageNotIn ss; where_controllerstatus_MessageGT s; where_controllerstatus_MessageGTE s;
   where_controllerstatus_MessageLT s; where_controllerstatus_MessageLTE s; where_controllerstatus_MessageContains s;
   where_controllerstatus_MessageHasPrefix s; where_controllerstatus_MessageHasSuffix s;
   where_controllerstatus_MessageEqualFold s; where_controllerstatus_MessageContainsFold s;
   where_controllerstatus_UpdatedAtEQ t; where_controllerstatus_UpdatedAtNEQ t; where_controllerstatus_UpdatedAtIn ts;
   where_controllerstatus_UpdatedAtNotIn ts; where_controllerstatus_UpdatedAtGT t;
   where_controllerstatus_UpdatedAtGTE t; where_controllerstatus_UpdatedAtLT t; where_controllerstatus_UpdatedAtLTE t;
   where_controllerstatus_And cs; where_controllerstatus_Or cs; where_controllerstatus_Not c].
Definition conditions (e : Entity) : Cond e → list (Cond e) → list (Cond e) :=
  match e with
  | EOrg => org_conditions | EFolder => folder_conditions | EProject => project_conditions
  | ETenancyEvent => tenancyevent_conditions | EControllerStatus => controllerstatus_conditions
  end.

(** The tests of the same predicates, by the fields of the entities: first the id and the fields compared
    with one value, then each field, the edges and the connectives. *)
Context `{Driver} `{SQLWhere}.
Definition connective_tests {e} (c : Cond e) (cs : list (Cond e)) : list (DB → row e → option bool) :=
  [λ db r, foldr (λ p, and3 (sql_where p db r)) (Some true) cs; λ db r, foldr (λ p, or3 (sql_where p db r)) (Some false) cs;
   λ db r, not3 (sql_where c db r)].
(** Some row that [linked] relates satisfies all of [preds]. *)
Definition some_neighbor {e} (linked : row e → bool) (preds : list (Cond e)) (db : DB) : bool :=
  existsb (λ r, linked r && forallb (λ p, is_true (sql_where p db r)) preds) (rows (R:=row e) db).

Definition org_tests (c : Cond EOrg) (cs : list (Cond EOrg)) : list (DB → Org → option bool) :=
  let id := always Org_ID in let name := always Org_Name in let description := always Org_Description in
  let created_at := always Org_CreatedAt in let updated_at := always Org_UpdatedAt in
  equals uuid_eqb id u :: uuid_tests id u us ++
  [equals String.eqb name s; equals String.eqb description s; equals Z.eqb created_at t; equals Z.eqb updated_at t; equals Z.eqb Org_DeletedAt t] ++
  text_tests name [] s ss ++ text_tests description [] s ss ++ number_tests created_at t ts ++ number_tests updated_at t ts ++
  number_tests Org_DeletedAt t ts ++ nilable Org_DeletedAt ++
  [λ db o, Some (some_neighbor (e:=EFolder) (λ f, uuid_eqb (Org_ID o) (Folder_org_folders f)) [] db);
   λ db o, Some (some_neighbor (e:=EFolder) (λ f, uuid_eqb (Org_ID o) (Folder_org_folders f)) folders db)] ++
  connective_tests c cs.
Definition folder_tests (c : Cond EFolder) (cs : list (Cond EFolder)) : list (DB → Folder → option bool) :=
  let id := always Folder_ID in let name := always Folder_Name in
  let created_at := always Folder_CreatedAt in let updated_at := always Folder_UpdatedAt in
  equals uuid_eqb id u :: uuid_tests id u us ++
  [equals String.eqb name s; equals Z.eqb created_at t; equals Z.eqb updated_at t] ++
  text_tests name [] s ss ++ number_tests created_at t ts ++ number_tests updated_at t ts ++
  [λ _ _, Some true;
   λ db f, Some (some_neighbor (e:=EOrg) (λ o, uuid_eqb (Folder_org_folders f) (Org_ID o)) orgs db);
   λ db f, Some (some_neighbor (e:=EProject) (λ p, uuid_eqb (Folder_ID f) (Project_folder_projects p)) [] db);
   λ db f, Some (some_neighbor (e:=EProject) (λ p, uuid_eqb (Folder_ID f) (Project_folder_projects p)) projects db)] ++
  connective_tests c cs.
Definition project_tests (c : Cond EProject) (cs : list (Cond EProject)) : list (DB → Project → option bool) :=
  let id := always Project_ID in let name := always Project_Name in let description := always Project_Description in
  let created_at := always Project_CreatedAt in let updated_at := always Project_UpdatedAt in
  equals uuid_eqb id u :: uuid_tests id u us ++
  [equals String.eqb name s; equals String.eqb description s; equals Z.eqb created_at t; equals Z.eqb updated_at t; equals Z.eqb Project_DeletedAt t] ++
  text_tests name [] s ss ++ text_tests description [] s ss ++ number_tests created_at t ts ++ number_tests updated_at t ts ++
  number_tests Project_DeletedAt t ts ++ nilable Project_DeletedAt ++
  [λ _ _, Some true;
   λ db p, Some (some_neighbor (e:=EFolder) (λ f, uuid_eqb (Project_folder_projects p) (Folder_ID f)) folders db)] ++
  connective_tests c cs.
Definition tenancyevent_tests (c : Cond ETenancyEvent) (cs : list (Cond ETenancyEvent)) : list (DB → TenancyEvent → option bool) :=
  let id := always TenancyEvent_ID in let event_type := always TenancyEvent_EventType in
  let resource_type := always TenancyEvent_ResourceType in let resource_id := always TenancyEvent_ResourceID in
  let resource_name := always TenancyEvent_ResourceName in let created_at := always TenancyEvent_CreatedAt in
  equals Z.eqb id z :: number_tests id z zs ++
  [equals String.eqb event_type s; equals String.eqb resource_type s; equals uuid_eqb resource_id u; equals String.eqb resource_name s;
   equals uuid_eqb TenancyEvent_OrgID u; equals String.eqb TenancyEvent_OrgName s; equals uuid_eqb TenancyEvent_FolderID u; equals Z.eqb created_at t] ++
  text_tests event_type [] s ss ++ text_tests resource_type [] s ss ++ uuid_tests resource_id u us ++ text_tests resource_name [] s ss ++
  uuid_tests TenancyEvent_OrgID u us ++ nilable TenancyEvent_OrgID ++
  text_tests TenancyEvent_OrgName (nilable TenancyEvent_OrgName) s ss ++
  uuid_tests TenancyEvent_FolderID u us ++ nilable TenancyEvent_FolderID ++ number_tests created_at t ts ++
  connective_tests c cs.
Definition controllerstatus_tests (c : Cond EControllerStatus) (cs : list (Cond EControllerStatus)) : list (DB → ControllerStatus → option bool) :=
  let id := always ControllerStatus_ID in let controller_name := always ControllerStatus_ControllerName in
  let resource_type := always ControllerStatus_ResourceType in let resource_id := always ControllerStatus_ResourceID in
  let status := always ControllerStatus_Status in let message := always ControllerStatus_Message in
  let updated_at := always ControllerStatus_UpdatedAt in
  equals Z.eqb id z :: number_tests id z zs ++
  [equals String.eqb controller_name s; equals String.eqb resource_type s; equals uuid_eqb resource_id u; equals String.eqb message s;
   equals Z.eqb updated_at t] ++
  text_tests controller_name [] s ss ++ text_tests resource_type [] s ss ++ uuid_tests resource_id u us ++
  chosen String.eqb status s ss ++ text_tests message [] s ss ++ number_tests updated_at t ts ++
  connective_tests c cs.
Definition field_tests (e : Entity) : Cond e → list (Cond e) → list (DB → row e → option bool) :=
  match e with
  | EOrg => org_tests | EFolder => folder_tests | EProject => project_tests
  | ETenancyEvent => tenancyevent_tests | EControllerStatus => controllerstatus_tests
  end.

Lemma column_all {A} e column (k : A → Cell) (l : list A) : (∀ x, column_ok e column (k x) = true) → forallb (column_ok e column) (k <$> l) = true.
Proof. intros Hk. induction l as [|x l IH]; [done|]. rewrite fmap_cons. cbn [forallb]. by rewrite Hk, IH. Qed.
Lemma conditions_typed e (c : Cond e) cs : well_typed c = true → forallb well_typed cs = true →
  forallb well_typed orgs = true → forallb well_typed folders = true → forallb well_typed projects = true →
  forallb well_typed (conditions e c cs) = true.
Proof.
  intros Hc Hcs Ho Hf Hp. destruct e;
    cbn [conditions org_conditions folder_conditions project_conditions tenancyevent_conditions controllerstatus_conditions forallb];
    repeat (apply andb_true_iff; split; [first [reflexivity | exact Hc | exact Hcs | exact Ho | exact Hf | exact Hp
      | apply andb_true_iff; split; [reflexivity|]; by apply column_all] |]); reflexivity.
Qed.
End all.

Section theorem.
Context `{Driver} `{SQLWhere} `{!SQLWhereLaws}.

(** A condition is a test, and a two-valued predicate the selection by a condition. *)
Definition decides {e} (c : Cond e) (p : DB → row e → option bool) : Prop := ∀ db r, sql_where c db r = p db r.
Definition means {e} (p : predicate (row e)) (c : Cond e) : Prop := ∀ db r, p db r = is_true (sql_where c db r).

Lemma in3_cells {A} (k : A → Cell) (eqb : A → A → bool) o vs : (∀ x y, cell_eq (k x) (k y) = Some (eqb x y)) → (∀ y, cell_eq CNull (k y) = None) →
  in3 (opt_cell k o) (k <$> vs) = match vs with [] => Some false | _ => (λ x, existsb (eqb x) vs) <$> o end.
Proof.
  intros Hk Hn. destruct o as [x|]; simpl.
  - assert (in3 (k x) (k <$> vs) = Some (existsb (eqb x) vs)) as -> by (induction vs as [|y vs IH]; [done|];
      change (or3 (cell_eq (k x) (k y)) (in3 (k x) (k <$> vs)) = Some (existsb (eqb x) (y :: vs)));
      rewrite IH, Hk; simpl; by destruct (eqb x y), (existsb (eqb x) vs)). by destruct vs.
  - induction vs as [|y vs IH]; [done|]. change (or3 (cell_eq CNull (k y)) (in3 CNull (k <$> vs)) = None). rewrite IH, Hn.
    by destruct vs.
Qed.
Lemma in3_one_of {R A} (k : A → Cell) (eqb : A → A → bool) (f : R → option A) cell vs db r : cell = opt_cell k (f r) →
  (∀ x y, cell_eq (k x) (k y) = Some (eqb x y)) → (∀ y, cell_eq CNull (k y) = None) → in3 cell (k <$> vs) = one_of eqb f vs db r.
Proof. intros ->. apply in3_cells. Qed.
Lemma in3_rows {R} (g : R → UUID) key (p : R → bool) l :
  in3 (CUUID key) ((λ r, CUUID (g r)) <$> select p l) = Some (existsb (λ r, uuid_eqb key (g r) && p r) l).
Proof.
  induction l as [|r l IH]; [done|]. cbn [select existsb]. destruct (p r); [|by rewrite andb_false_r].
  rewrite fmap_cons. change (in3 ?a (?b :: ?m)) with (or3 (cell_eq a b) (in3 a m)). rewrite IH, andb_true_r. simpl. unfold uuid_eqb.
  by destruct (bool_decide _), (existsb _ l).
Qed.
Lemma neighbors_tested e neighbor step preds key (g : row neighbor → UUID) db (r : row e) :
  step_ok e neighbor step = true → forallb well_typed preds = true →
  own_key step r = CUUID key → (∀ r', neighbor_key step r' = CUUID (g r')) →
  sql_where (HasNeighborsWith step preds) db r = Some (some_neighbor (λ r', uuid_eqb key (g r')) preds db).
Proof.
  intros Hs Hp Ho Hg. rewrite where_neighbors_with, Ho by done. unfold some_neighbor. rewrite <- in3_rows. f_equal.
  apply list_fmap_ext. intros i r' _. apply Hg.
Qed.
Lemma any_neighbor_tested e neighbor step key (g : row neighbor → UUID) db (r : row e) :
  step_ok e neighbor step = true → st_Rel step = O2M →
  own_key step r = CUUID key → (∀ r', neighbor_key step r' = CUUID (g r')) →
  sql_where (HasNeighbors neighbor step) db r = Some (some_neighbor (e:=neighbor) (λ r', uuid_eqb key (g r')) [] db).
Proof.
  intros Hs Hr Ho Hg. rewrite where_neighbors, Hr, Ho by done. unfold some_neighbor. rewrite <- (in3_rows g key (λ _, true)). f_equal.
  induction (rows db) as [|r' l IH]; [done|]. rewrite fmap_cons, Hg. cbn [select null negb]. by rewrite IH.
Qed.

Ltac typed := first [reflexivity | apply andb_true_iff; split; [reflexivity|by apply column_all]].
(** One predicate. *)
Ltac decided := intros db r; first
  [ refine (eq_trans (where_in _ _ _ _ _ _) _); [typed|by apply in3_one_of]
  | refine (eq_trans (where_not_in _ _ _ _ _ _) _); [typed|by apply (f_equal not3), in3_one_of]
  | first [ refine (eq_trans (where_cmp _ _ _ _ _ _ _) _); [typed|] | refine (eq_trans (where_like _ _ _ _ _ _ _) _); [typed|]
          | refine (eq_trans (where_is_null _ _ _ _ _) _); [typed|] | refine (eq_trans (where_not_null _ _ _ _ _) _); [typed|] ];
    first [ reflexivity
          | unfold equals, differs, above, at_least, below, at_most, absent, present, tests, always;
            cbn -[String.eqb]; match goal with |- context [opt_cell _ ?o] => destruct o; reflexivity end ] ].
Ltac connective := intros db r; first
  [ refine (eq_trans (where_and _ _ _ _ _ _) _); [done|done|reflexivity] | refine (eq_trans (where_or _ _ _ _ _ _) _); [done|done|reflexivity]
  | refine (eq_trans (where_not _ _ _ _ _) _); [done|reflexivity] ].
Ltac edge := intros db r; first
  [ by eapply neighbors_tested | by eapply any_neighbor_tested | refine (eq_trans (where_neighbors _ _ _ _ _ _) _); [reflexivity|reflexivity] ].

Lemma conditions_decided s ss t ts u us z zs orgs folders projects e (c : Cond e) cs :
  forallb well_typed orgs = true → forallb well_typed folders = true → forallb well_typed projects = true →
  well_typed c = true → forallb well_typed cs = true → cs ≠ [] →
  Forall2 decides (conditions s ss t ts u us z zs orgs folders projects e c cs) (field_tests s ss t ts u us z zs orgs folders projects e c cs).
Proof.
  intros Ho Hf Hp Hc Hcs Hne. destruct e;
    cbn [conditions org_conditions folder_conditions project_conditions tenancyevent_conditions controllerstatus_conditions
      field_tests org_tests folder_tests project_tests tenancyevent_tests controllerstatus_tests text_tests uuid_tests number_tests
      compared chosen nilable connective_tests app];
    repeat (apply Forall2_cons; split); first [by apply Forall2_nil | decided | edge | connective].
Qed.

(** The predicates by which the store filters. *)
Lemma in_uuids x l : is_true (in3 (CUUID x) (CUUID <$> l)) = mem_uuid x l.
Proof. change (CUUID x) with (opt_cell CUUID (Some x)). rewrite (in3_cells CUUID uuid_eqb) by (intros; reflexivity). by destruct l. Qed.
Lemma in_texts x l : is_true (in3 (CText x) (CText <$> l)) = mem_string x l.
Proof. change (CText x) with (opt_cell CText (Some x)). rewrite (in3_cells CText String.eqb) by (intros; reflexivity). by destruct l. Qed.
Lemma not_in_texts x l : is_true (not3 (in3 (CText x) (CText <$> l))) = negb (mem_string x l).
Proof. change (CText x) with (opt_cell CText (Some x)). rewrite (in3_cells CText String.eqb) by (intros; reflexivity). by destruct l. Qed.
Ltac each_means :=
  repeat (apply Forall2_cons; split); [..|by apply Forall2_nil]; intros db r; symmetry;
  first
  [ refine (eq_trans (f_equal is_true (where_in _ _ _ _ _ _)) _); [typed|first [apply in_uuids|apply in_texts]]
  | refine (eq_trans (f_equal is_true (where_not_in _ _ _ _ _ _)) _);
      [typed|apply not_in_texts]
  | first [ refine (eq_trans (f_equal is_true (where_cmp _ _ _ _ _ _ _)) _); [typed|]
          | refine (eq_trans (f_equal is_true (where_is_null _ _ _ _ _)) _); [typed|]
          | refine (eq_trans (f_equal is_true (where_not_null _ _ _ _ _)) _); [typed|] ];
    first [ reflexivity | symmetry; apply Z.ltb_antisym
          | unfold org_DeletedAtIsNil, org_DeletedAtNotNil, project_DeletedAtIsNil, project_DeletedAtNotNil; cbn -[String.eqb];
            match goal with |- context [opt_cell _ ?o] => destruct o; reflexivity end ] ].
(** The rows a query filters by a list of predicates, and by the conditions. *)
Lemma holds_means {e} ps (cs : list (Cond e)) db r : Forall2 means ps cs → holds ps db r = forallb (λ c, is_true (sql_where c db r)) cs.
Proof. induction 1 as [|p c ps cs Hp _ IH]; [done|]. simpl in *. rewrite Hp. f_equal. exact IH. Qed.
Lemma neighbors_means {e neighbor} step ps (cs : list (Cond neighbor)) db (r : row e) (g : row neighbor → UUID) key :
  step_ok e neighbor step = true → forallb well_typed cs = true → own_key step r = CUUID key → (∀ r', neighbor_key step r' = CUUID (g r')) →
  Forall2 means ps cs →
  existsb (λ r', bool_decide (g r' = key) && holds ps db r') (rows db) = is_true (sql_where (HasNeighborsWith step cs) db r).
Proof.
  intros Hs Hc Ho Hg Hps. rewrite (neighbors_tested e neighbor step cs key g) by done. simpl. unfold some_neighbor.
  induction (rows db) as [|r' l IH]; [done|]. cbn [existsb]. rewrite IH, (holds_means ps cs) by done. f_equal. f_equal.
  by apply bool_decide_ext.
Qed.

(** C17: every predicate of where.go, on the five entities, is the test its name says of the field its name
    says: equal, different, one or none of a list, above, below, containing (as LIKE and ILIKE of the
    server decide) or nil, unknown where the field is nil; HasX says that a neighbour along the foreign
    key exists and HasXWith one that satisfies the given predicates; And, Or and Not are SQL's
    three-valued connectives.  Whatever is composed of them is well typed: it compares columns of its
    table with values of the column's type and follows its foreign keys.  This is for any database that
    evaluates conditions as SQL documents.  And the two-valued predicates by which the store
    filters in this model select the rows for which the condition of the same name is true, with those of
    the neighbours, and so do lists of them. *)
Theorem where_conditions s ss t ts u us z zs orgs folders projects :
  forallb well_typed orgs = true → forallb well_typed folders = true → forallb well_typed projects = true →
  (∀ e c cs, well_typed c = true → forallb well_typed cs = true → cs ≠ [] →
    let conditions := conditions s ss t ts u us z zs orgs folders projects e c cs in
    forallb well_typed conditions = true ∧ Forall2 decides conditions (field_tests s ss t ts u us z zs orgs folders projects e c cs)) ∧
  Forall2 (means (e:=EOrg))
    [org_ID u; org_IDIn us; org_Name s; org_NameIn ss; org_DeletedAtIsNil; org_DeletedAtNotNil]
    [where_org_ID u; where_org_IDIn us; where_org_Name s; where_org_NameIn ss; where_org_DeletedAtIsNil; where_org_DeletedAtNotNil] ∧
  Forall2 (means (e:=EFolder)) [folder_ID u; folder_IDIn us; folder_Name s] [where_folder_ID u; where_folder_IDIn us; where_folder_Name s] ∧
  Forall2 (means (e:=EProject))
    [project_ID u; project_Name s; project_DeletedAtIsNil; project_DeletedAtNotNil]
    [where_project_ID u; where_project_Name s; where_project_DeletedAtIsNil; where_project_DeletedAtNotNil] ∧
  Forall2 (means (e:=ETenancyEvent)) [tenancyevent_ID z; tenancyevent_IDGT z; tenancyevent_CreatedAtLT t]
    [where_tenancyevent_ID z; where_tenancyevent_IDGT z; where_tenancyevent_CreatedAtLT t] ∧
  Forall2 (means (e:=EControllerStatus))
    [controllerstatus_ID z; controllerstatus_ControllerName s; controllerstatus_ControllerNameIn ss; controllerstatus_ControllerNameNotIn ss;
     controllerstatus_ResourceType s; controllerstatus_ResourceID u]
    [where_controllerstatus_ID z; where_controllerstatus_ControllerName s; where_controllerstatus_ControllerNameIn ss;
     where_controllerstatus_ControllerNameNotIn ss; where_controllerstatus_ResourceType s; where_controllerstatus_ResourceID u] ∧
  (∀ ps, Forall2 means ps orgs → means (e:=EFolder) (folder_HasOrgWith ps) (where_folder_HasOrgWith orgs)) ∧
  (∀ ps, Forall2 means ps folders → means (e:=EProject) (project_HasFolderWith ps) (where_project_HasFolderWith folders)) ∧
  ∀ e ps (cs : list (Cond e)) db, Forall2 means ps cs →
    matching ps db = select (λ r, forallb (λ c, is_true (sql_where c db r)) cs) (rows (R:=row e) db).
Proof.
  intros Ho Hf Hp. split_and!.
  - intros e c cs Hc Hcs Hne. split; [by apply conditions_typed|]. by apply conditions_decided.
  - each_means.
  - each_means.
  - each_means.
  - each_means.
  - each_means.
  - intros ps Hps db r. by apply (neighbors_means (e:=EFolder) (neighbor:=EOrg) folder_newOrgStep ps orgs db r Org_ID (Folder_org_folders r)).
  - intros ps Hps db r. by apply (neighbors_means (e:=EProject) (neighbor:=EFolder) project_newFolderStep ps folders db r Folder_ID (Project_folder_projects r)).
  - intros e ps cs db Hm. apply select_ext. intros r _. by apply holds_means.
Qed.

End theorem.
