(* ===== verification/EntChange.v ===== *)
(** * The generated client: the mutation of an entity

    tenancy-manager/internal/ent/mutation.go: what the mutations of the five entities have in
    common.  A mutation is the set of changes a builder collects: values of fields, fields that
    are cleared, edges that are added, removed or cleared, and the old value of the entity,
    which is read from the database at most once.  [EntMutations] has the five
    mutations; here are their parts, the interface [Changeable] their dynamic half
    has ([Field], [SetField], [ClearField], [ResetField]...) and its refinement of a map. *)

From S2P Require Import Prelude GoStd Monad EntSchema Sqlgraph EntQuery EntMutation Logic EntLoad.

(** ** Operations and values (entgo.io/ent) *)

Inductive Op := OpCreate | OpUpdate | OpUpdateOne | OpDelete | OpDeleteOne.
#[export] Instance Op_eq_dec : EqDecision Op.
Proof. solve_decision. Defined.
(** [op.Is(a | b)] *)
Definition op_Is (o : Op) (l : list Op) : bool := bool_decide (o ∈ l).
Class EntOp := { op_String : Op → string }.

(** [ent.Value], any value: of the types the fields have, or of another. *)
Inductive ValueType := TString | TTime | TUUID | TStatus | TOther (name : string).
Inductive Value :=
  | AString (s : string) | ATime (t : Time) | AUUID (u : UUID) | AStatus (s : string) | AOther (name : string).
#[export] Instance ValueType_eq_dec : EqDecision ValueType.
Proof. solve_decision. Defined.
#[export] Instance Value_eq_dec : EqDecision Value.
Proof. solve_decision. Defined.
Definition value_type (v : Value) : ValueType :=
  match v with
  | AString _ => TString | ATime _ => TTime | AUUID _ => TUUID | AStatus _ => TStatus | AOther name => TOther name
  end.
(** [%T] *)
Definition value_type_name (t : ValueType) : string :=
  match t with
  | TString => "string" | TTime => "time.Time" | TUUID => "uuid.UUID" | TStatus => "controllerstatus.Status"
  | TOther name => name
  end.
(** [value.(string)] and its siblings. *)
Definition as_string (v : Value) : option string := match v with AString s => Some s | _ => None end.
Definition as_time (v : Value) : option Time := match v with ATime t => Some t | _ => None end.
Definition as_uuid (v : Value) : option UUID := match v with AUUID u => Some u | _ => None end.
Definition as_status (v : Value) : option string := match v with AStatus s => Some s | _ => None end.

(** [v, ok := value.(T); if !ok { return fmt.Errorf(...) }; m.SetX(v); return nil] *)
Definition set_as {V C} (as_ : Value → option V) (name : string) (value : Value) (set : V → C → C) (m : C) : option error * C :=
  match as_ value with
  | Some v => (None, set v m)
  | None => (Some (errText ("unexpected type " +:+ value_type_name (value_type value) +:+ " for field " +:+ name)), m)
  end.
Definition unknown_name (entity what name : string) : error :=
  errText ("unknown " +:+ entity +:+ " " +:+ what +:+ " " +:+ name).
(** [if cond { names = append(names, name) }], in order. *)
Definition names_if (l : list (bool * string)) : list string := snd <$> select fst l.
Definition is_some {A} (o : option A) : bool := negb (is_nil o).

(** ** What every mutation has *)

(** [oldValue]: nil; [withX], the entity the caller has; [withXID], a query that runs once, with
    its answer after it ran. *)
Inductive OldValue (K R : Type) :=
  | NoOldValue
  | OldNode (node : R)
  | OldQuery (id : K) (once : option (error + R)).
Arguments NoOldValue {_ _}. Arguments OldNode {_ _}. Arguments OldQuery {_ _}.

Record Change (K R : Type) := mkChange {
  c_op : Op; c_clearedFields : gset string; c_done : bool; c_oldValue : OldValue K R; c_predicates : list (predicate R) }.
Arguments mkChange {_ _}. Arguments c_op {_ _}. Arguments c_clearedFields {_ _}. Arguments c_done {_ _}.
Arguments c_oldValue {_ _}. Arguments c_predicates {_ _}.

Definition new_change {K R} (op : Op) (old : OldValue K R) : Change K R := mkChange op ∅ false old [].
Definition with_op {K R} (op : Op) (c : Change K R) : Change K R :=
  mkChange op (c_clearedFields c) (c_done c) (c_oldValue c) (c_predicates c).
Definition with_cleared {K R} (f : gset string → gset string) (c : Change K R) : Change K R :=
  mkChange (c_op c) (f (c_clearedFields c)) (c_done c) (c_oldValue c) (c_predicates c).
Definition with_old {K R} (old : OldValue K R) (c : Change K R) : Change K R :=
  mkChange (c_op c) (c_clearedFields c) (c_done c) old (c_predicates c).
Definition with_predicates {K R} (ps : list (predicate R)) (c : Change K R) : Change K R :=
  mkChange (c_op c) (c_clearedFields c) (c_done c) (c_oldValue c) (c_predicates c ++ ps).
Definition field_cleared {K R} (name : string) (c : Change K R) : bool := bool_decide (name ∈ c_clearedFields c).

Section change.
Context `{Driver} `{Runtime}.

(** [m.oldValue(ctx)]; it is not called when it is nil. *)
Definition old_value {K R} (get : K → M R) (c : Change K R) : M ((error + R) * Change K R) :=
  match c_oldValue c with
  | NoOldValue => mret (inl (errText "nil function"), c)
  | OldNode node => mret (inr node, c)
  | OldQuery id (Some answer) => mret (answer, c)
  | OldQuery id None =>
      answer ← (if c_done c then mret (inl (errText "querying old values post mutation is not allowed")) else try (get id));
      mret (answer, with_old (OldQuery id (Some answer)) c)
  end.
(** The answer of [OldX], given the old entity or the error of its query. *)
Definition old_answer {R V} (label : string) (field : R → V) (answer : error + R) : error + V :=
  match answer with
  | inl err => inl (Errorf ("querying old value for " +:+ label +:+ ": ") err)
  | inr node => inr (field node)
  end.
(** [OldX]. *)
Definition old_field {K R V} (get : K → M R) (label : string) (field : R → V) (id : option K) (c : Change K R)
    : M ((error + V) * Change K R) :=
  if negb (op_Is (c_op c) [OpUpdateOne])
  then mret (inl (errText (label +:+ " is only allowed on UpdateOne operations")), c)
  else if is_nil id || match c_oldValue c with NoOldValue => true | _ => false end
  then mret (inl (errText (label +:+ " requires an ID field in the mutation")), c)
  else
    r ← old_value get c;
    mret (old_answer label field r.1, r.2).
(** Through [OldField]; the value of a nillable field is a pointer, here an option. *)
Definition old_as {V C} (f : V → option Value) (m : M ((error + V) * C)) : M ((error + option Value) * C) :=
  r ← m; mret (match r.1 with inl err => inl err | inr v => inr (f v) end, r.2).
(** The [IDs] of a mutation. *)
Definition change_ids `{EntOp} {K R} `{Table R} (key : R → K) (id : option K) (c : Change K R) : M (list K) :=
  let query : M (list K) := rs ← Query_All (Where (c_predicates c) NewQuery); mret (key <$> rs) in
  if op_Is (c_op c) [OpUpdateOne; OpDeleteOne]
  then match id with Some id => mret [id] | None => query end
  else if op_Is (c_op c) [OpUpdate; OpDelete] then query
  else fail (errText ("IDs is not allowed on " +:+ op_String (c_op c) +:+ " operations")).

(** The old entity is queried once: whatever the database holds when another field is asked for,
    the answer comes from the entity, or the error, of the first query, without a statement. *)
Lemma old_field_once {K R V} (get : K → M R) label (field : R → V) id c w :
  c_op c = OpUpdateOne → c_done c = false → c_oldValue c = OldQuery id None →
  ∃ answer w1 c', try (get id) w = (inr answer, w1) ∧
    old_field get label field (Some id) c w = (inr (old_answer label field answer, c'), w1) ∧
    ∀ V' label' (field' : R → V') w',
      old_field get label' field' (Some id) c' w' = (inr (old_answer label' field' answer, c'), w').
Proof.
  intros Hop Hd Ho. unfold try. destruct (get id w) as [answer w1] eqn:Hg.
  exists answer, w1, (with_old (OldQuery id (Some answer)) c). split; [done|].
  unfold old_field, old_value. simpl. rewrite Hop, Hd, Ho. simpl. split; [|done].
  unfold mbind, EM_bind, try. by rewrite Hg.
Qed.
End change.

(** ** Edges to many entities

    Maps from ids to nothing, nil until the first call. *)

Record Edge := mkEdge { e_added : option (gset UUID); e_removed : option (gset UUID); e_cleared : bool }.
Definition no_edge : Edge := mkEdge None None false.
Definition AddIDs (ids : list UUID) (e : Edge) : Edge :=
  mkEdge (Some (list_to_set ids ∪ default ∅ (e_added e))) (e_removed e) (e_cleared e).
Definition ClearIDs (e : Edge) : Edge := mkEdge (e_added e) (e_removed e) true.
Definition RemoveIDs (ids : list UUID) (e : Edge) : Edge :=
  mkEdge ((λ s, s ∖ list_to_set ids) <$> e_added e) (Some (list_to_set ids ∪ default ∅ (e_removed e))) (e_cleared e).
(** The order of a map's iteration is not given; these lists are in some order. *)
Definition AddedIDs_of (e : Edge) : list UUID := elements (default ∅ (e_added e)).
Definition RemovedIDs_of (e : Edge) : list UUID := elements (default ∅ (e_removed e)).

(** What a sequence of calls does to an edge. *)
Inductive EdgeOp := EdgeAdd (ids : list UUID) | EdgeRemove (ids : list UUID).
Definition edge_step (o : EdgeOp) (e : Edge) : Edge :=
  match o with EdgeAdd ids => AddIDs ids e | EdgeRemove ids => RemoveIDs ids e end.
Definition mentions (id : UUID) (o : EdgeOp) : bool :=
  match o with EdgeAdd ids | EdgeRemove ids => bool_decide (id ∈ ids) end.
Definition removes (o : EdgeOp) : bool := match o with EdgeAdd _ => false | EdgeRemove _ => true end.

Lemma elem_of_added id e : id ∈ AddedIDs_of e ↔ id ∈ default ∅ (e_added e).
Proof. unfold AddedIDs_of. apply elem_of_elements. Qed.
Lemma elem_of_removed id e : id ∈ RemovedIDs_of e ↔ id ∈ default ∅ (e_removed e).
Proof. unfold RemovedIDs_of. apply elem_of_elements. Qed.

(** An id is added when the last call that names it adds it, and removed once any call removes
    it: an id that is removed and added again is in both lists. *)
Lemma edge_steps_spec ops id :
  let e := foldl (λ e o, edge_step o e) no_edge ops in
  (id ∈ AddedIDs_of e ↔ ∃ o, last (select (mentions id) ops) = Some o ∧ removes o = false) ∧
  (id ∈ RemovedIDs_of e ↔ ∃ o, o ∈ ops ∧ mentions id o = true ∧ removes o = true).
Proof.
  simpl. rewrite elem_of_added, elem_of_removed.
  induction ops as [|o ops [IHa IHr]] using rev_ind; simpl.
  { split; split; [set_solver|intros (? & ? & _); done|set_solver|intros (? & Ho & _); by apply elem_of_nil in Ho]. }
  rewrite foldl_app, select_app. simpl. set (e := foldl _ _ ops) in *.
  assert (id ∈ default ∅ (e_removed (edge_step o e)) ↔ id ∈ default ∅ (e_removed e) ∨ mentions id o = true ∧ removes o = true) as ->.
  { destruct o; simpl; rewrite ?bool_decide_eq_true; set_solver. }
  assert (id ∈ default ∅ (e_added (edge_step o e)) ↔ if mentions id o then removes o = false else id ∈ default ∅ (e_added e)) as ->.
  { destruct o as [ids|ids]; simpl; case_bool_decide; simpl; [set_solver..| |]; destruct (e_added e); set_solver. }
  split; [|set_solver]. destruct (mentions id o); simpl; [|by rewrite app_nil_r].
  rewrite last_snoc. naive_solver.
Qed.

(** ** The fields of a mutation

    What the dynamic half of a mutation promises: the fields of the schema with their types, the
    nillable ones, and what each call does to every field; [ch_rest] is the mutation without its
    fields. *)

Fixpoint type_in (name : string) (fields : list (string * ValueType)) : option ValueType :=
  match fields with
  | [] => None
  | (n, ty) :: fields => if String.eqb name n then Some ty else type_in name fields
  end.

Class Changeable (C : Type) := {
  ch_entity : string;
  ch_fields : list (string * ValueType);
  ch_nillable : list string;
  ch_new : Op → C;
  ch_Fields : C → list string;
  ch_Field : string → C → option Value;
  ch_SetField : string → Value → C → option error * C;
  ch_AddField : string → Value → C → option error * C;
  ch_ClearedFields : C → list string;
  ch_FieldCleared : string → C → bool;
  ch_ClearField : string → C → option error * C;
  ch_ResetField : string → C → option error * C;
  ch_rest : C → C }.

(** The errors of the calls. *)
Definition unknown_field (entity name : string) : error := unknown_name entity "field" name.
Definition set_error (entity : string) (fields : list (string * ValueType)) (name : string) (v : Value) : option error :=
  match type_in name fields with
  | None => Some (unknown_field entity name)
  | Some ty => if decide (value_type v = ty) then None
               else Some (errText ("unexpected type " +:+ value_type_name (value_type v) +:+ " for field " +:+ name))
  end.
Definition clear_error (entity : string) (nillable : list string) (name : string) : option error :=
  if mem_string name nillable then None else Some (unknown_name entity "nullable field" name).
Definition reset_error (entity : string) (fields : list (string * ValueType)) (name : string) : option error :=
  match type_in name fields with None => Some (unknown_field entity name) | Some _ => None end.

Class ChangeableLaws C `{Changeable C} : Prop := {
  ch_new_empty : ∀ op n, ch_Field n (ch_new op) = None ∧ ch_FieldCleared n (ch_new op) = false;
  ch_fields_are : ∀ c, ch_Fields c = select (λ n, is_some (ch_Field n c)) (fst <$> ch_fields);
  ch_cleared_are : ∀ c, ch_ClearedFields c = select (λ n, ch_FieldCleared n c) ch_nillable;
  ch_set : ∀ n v c, let '(err, c') := ch_SetField n v c in
    err = set_error ch_entity ch_fields n v ∧ ch_rest c' = ch_rest c ∧
    (∀ d, ch_Field d c' = if is_nil err && String.eqb d n then Some v else ch_Field d c) ∧
    (∀ d, ch_FieldCleared d c' = ch_FieldCleared d c);
  ch_clear : ∀ n c, let '(err, c') := ch_ClearField n c in
    err = clear_error ch_entity ch_nillable n ∧ ch_rest c' = ch_rest c ∧
    (∀ d, ch_Field d c' = if is_nil err && String.eqb d n then None else ch_Field d c) ∧
    (∀ d, ch_FieldCleared d c' = (is_nil err && String.eqb d n) || ch_FieldCleared d c);
  ch_reset : ∀ n c, let '(err, c') := ch_ResetField n c in
    err = reset_error ch_entity ch_fields n ∧ ch_rest c' = ch_rest c ∧
    (∀ d, ch_Field d c' = if is_nil err && String.eqb d n then None else ch_Field d c) ∧
    (∀ d, ch_FieldCleared d c' = negb (is_nil err && mem_string n ch_nillable && String.eqb d n) && ch_FieldCleared d c);
  ch_add : ∀ n v c, ch_AddField n v c = (Some (unknown_name ch_entity "numeric field" n), c);
  ch_typed : ∀ n v c, ch_Field n c = Some v → type_in n ch_fields = Some (value_type v) }.

(** The calls, and their specification on a map of values and a set of cleared names. *)
Inductive ChangeOp :=
  | DoSet (name : string) (v : Value) | DoAdd (name : string) (v : Value) | DoClear (name : string) | DoReset (name : string).
Record Changes := mkChanges { s_values : gmap string Value; s_cleared : gset string }.
Definition no_changes : Changes := mkChanges ∅ ∅.

(** A sequence of calls with the errors they return. *)
Fixpoint steps {S} (step : ChangeOp → S → option error * S) (ops : list ChangeOp) (s : S) : list (option error) * S :=
  match ops with
  | [] => ([], s)
  | o :: ops => let '(err, s) := step o s in let '(errs, s) := steps step ops s in (err :: errs, s)
  end.

Section refinement.
Context `{ChangeableLaws C}.

Definition change_step (o : ChangeOp) (c : C) : option error * C :=
  match o with
  | DoSet n v => ch_SetField n v c
  | DoAdd n v => ch_AddField n v c
  | DoClear n => ch_ClearField n c
  | DoReset n => ch_ResetField n c
  end.
Definition spec_step (o : ChangeOp) (s : Changes) : option error * Changes :=
  match o with
  | DoSet n v =>
      match set_error ch_entity ch_fields n v with
      | None => (None, mkChanges (<[n:=v]> (s_values s)) (s_cleared s))
      | err => (err, s)
      end
  | DoAdd n v => (Some (unknown_name ch_entity "numeric field" n), s)
  | DoClear n =>
      match clear_error ch_entity ch_nillable n with
      | None => (None, mkChanges (delete n (s_values s)) ({[n]} ∪ s_cleared s))
      | err => (err, s)
      end
  | DoReset n =>
      match reset_error ch_entity ch_fields n with
      | None => (None, mkChanges (delete n (s_values s)) (s_cleared s ∖ {[n]}))
      | err => (err, s)
      end
  end.
(** The state of a mutation is that of its specification. *)
Record represents (c : C) (s : Changes) : Prop := {
  rep_field : ∀ n, ch_Field n c = s_values s !! n;
  rep_cleared : ∀ n, ch_FieldCleared n c = bool_decide (n ∈ s_cleared s);
  rep_nillable : ∀ n, n ∈ s_cleared s → n ∈ ch_nillable }.

Lemma represents_new op : represents (ch_new op) no_changes.
Proof.
  split; simpl.
  - intros n. rewrite lookup_empty. apply ch_new_empty.
  - intros n. by rewrite bool_decide_eq_false_2 by set_solver; apply ch_new_empty.
  - set_solver.
Qed.

Lemma change_step_refines o c s : represents c s →
  (change_step o c).1 = (spec_step o s).1 ∧ represents (change_step o c).2 (spec_step o s).2 ∧
  ch_rest (change_step o c).2 = ch_rest c.
Proof.
  intros [Hf Hc Hn]. destruct o as [n v|n v|n|n]; simpl.
  - pose proof (ch_set n v c) as Hs. destruct (ch_SetField n v c) as [err c']. destruct Hs as (-> & Hr & Hfs & Hcs).
    destruct (set_error _ _ _ _); simpl in *; split_and!; try done; split; simpl; intros d; rewrite ?Hfs, ?Hcs; auto.
    destruct (String.eqb_spec d n) as [->|Hne]; [by rewrite lookup_insert_eq|by rewrite lookup_insert_ne].
  - rewrite ch_add. simpl. by split_and!.
  - pose proof (ch_clear n c) as Hs. destruct (ch_ClearField n c) as [err c']. destruct Hs as (-> & Hr & Hfs & Hcs).
    unfold clear_error in *. destruct (mem_string n ch_nillable) eqn:Hm; simpl in *; split_and!; try done;
      split; simpl; intros d; rewrite ?Hfs, ?Hcs; auto.
    + destruct (String.eqb_spec d n) as [->|Hne]; [by rewrite lookup_delete_eq|by rewrite lookup_delete_ne].
    + rewrite Hc. destruct (String.eqb_spec d n) as [->|Hne]; simpl; [by rewrite bool_decide_eq_true_2 by set_solver|].
      apply bool_decide_ext. set_solver.
    + apply mem_string_elem in Hm. set_solver.
  - pose proof (ch_reset n c) as Hs. destruct (ch_ResetField n c) as [err c']. destruct Hs as (-> & Hr & Hfs & Hcs).
    unfold reset_error in *. destruct (type_in n ch_fields) eqn:Ht; simpl in *; split_and!; try done;
      split; simpl; intros d; rewrite ?Hfs, ?Hcs; auto.
    + destruct (String.eqb_spec d n) as [->|Hne]; [by rewrite lookup_delete_eq|by rewrite lookup_delete_ne].
    + rewrite Hc. destruct (String.eqb_spec d n) as [->|Hne].
      * rewrite andb_true_r, (bool_decide_eq_false_2 (n ∈ s_cleared s ∖ {[n]})) by set_solver.
        case_bool_decide as Hin; [|by rewrite andb_false_r]. by rewrite (proj2 (mem_string_elem _ _) (Hn n Hin)).
      * rewrite andb_false_r. simpl. apply bool_decide_ext. set_solver.
    + set_solver.
Qed.

Lemma steps_refine ops c s : represents c s →
  (steps change_step ops c).1 = (steps spec_step ops s).1 ∧
  represents (steps change_step ops c).2 (steps spec_step ops s).2 ∧ ch_rest (steps change_step ops c).2 = ch_rest c.
Proof.
  revert c s. induction ops as [|o ops IH]; intros c s Hr; simpl; [by split_and!|].
  destruct (change_step_refines o c s Hr) as (He & Hr' & Hrest).
  destruct (change_step o c) as [err c'], (spec_step o s) as [err' s']. simpl in *. subst err'.
  destruct (IH c' s' Hr') as (Hes & Hr'' & Hrest').
  destruct (steps change_step ops c') as [errs c''], (steps spec_step ops s') as [errs' s'']. simpl in *. subst.
  split_and!; [done|done|congruence].
Qed.

(** What the lists of a mutation are in terms of its specification. *)
Lemma represents_lists c s : represents c s →
  ch_Fields c = select (λ n, is_some (s_values s !! n)) (fst <$> ch_fields) ∧
  ch_ClearedFields c = select (λ n, bool_decide (n ∈ s_cleared s)) ch_nillable.
Proof.
  intros [Hf Hc _]. rewrite ch_fields_are, ch_cleared_are. split; apply select_ext; intros n _; [by rewrite Hf|apply Hc].
Qed.
End refinement.
