(* ===== verification/EntMutations.v ===== *)
(** * The generated client: the mutations of the five entities

    tenancy-manager/internal/ent/mutation.go.  A mutation is the record of the fields that are set
    ([OrgMutation]... of EntMutation.v, which the builders read) with the parts that all mutations
    have (EntChange.v) and its edges; for each the typed half (SetName, Name, OldName, ResetName...)
    and the dynamic one (Field, SetField...).  A getter answers [Some] for (value, true).  [Client]
    and [Tx] only hand out the connection. *)

From S2P Require Import Prelude GoStd Monad EntSchema Sqlgraph EntQuery EntMutation Logic EntLoad EntScan EntChange.

(** ** Org *)

Definition om_put_name (v : option string) (s : OrgMutation) : OrgMutation :=
  mkOrgMutation v (om_description s) (om_created_at s) (om_updated_at s)
    (om_deleted_at s) (om_id s).
Definition om_put_description (v : option string) (s : OrgMutation) : OrgMutation :=
  mkOrgMutation (om_name s) v (om_created_at s) (om_updated_at s) (om_deleted_at s) (om_id s).
Definition om_put_created_at (v : option Time) (s : OrgMutation) : OrgMutation :=
  mkOrgMutation (om_name s) (om_description s) v (om_updated_at s) (om_deleted_at s) (om_id s).
Definition om_put_updated_at (v : option Time) (s : OrgMutation) : OrgMutation :=
  mkOrgMutation (om_name s) (om_description s) (om_created_at s) v (om_deleted_at s) (om_id s).
Definition om_put_deleted_at (v : option Time) (s : OrgMutation) : OrgMutation :=
  mkOrgMutation (om_name s) (om_description s) (om_created_at s) (om_updated_at s) v (om_id s).
Definition om_put_id (v : option UUID) (s : OrgMutation) : OrgMutation :=
  mkOrgMutation (om_name s) (om_description s) (om_created_at s)
    (om_updated_at s) (om_deleted_at s) v.

Record OrgChange := mkOrgChange { oc_set : OrgMutation; oc_change : Change UUID Org; oc_folders : Edge }.
Definition oc_over (f : OrgMutation → OrgMutation) (m : OrgChange) : OrgChange :=
  mkOrgChange (f (oc_set m)) (oc_change m) (oc_folders m).
Definition oc_with (f : Change UUID Org → Change UUID Org) (m : OrgChange) : OrgChange :=
  mkOrgChange (oc_set m) (f (oc_change m)) (oc_folders m).
Definition oc_folders_with (f : Edge → Edge) (m : OrgChange) : OrgChange :=
  mkOrgChange (oc_set m) (oc_change m) (f (oc_folders m)).
Definition OrgMutation_new (op : Op) : OrgChange :=
  mkOrgChange newOrgMutation (new_change op NoOldValue) no_edge.
Definition withOrgID (id : UUID) (m : OrgChange) : OrgChange :=
  oc_over (om_put_id (Some id)) (oc_with (with_old (OldQuery id None)) m).
Definition withOrg (node : Org) (m : OrgChange) : OrgChange :=
  oc_over (om_put_id (Some (Org_ID node))) (oc_with (with_old (OldNode node)) m).
Definition OrgMutation_SetID (id : UUID) : OrgChange → OrgChange := oc_over (om_put_id (Some id)).
Definition OrgMutation_ID (m : OrgChange) : option UUID := om_id (oc_set m).

Definition OrgMutation_SetName (v : string) : OrgChange → OrgChange := oc_over (om_put_name (Some v)).
Definition OrgMutation_Name (m : OrgChange) : option string := om_name (oc_set m).
Definition OrgMutation_ResetName : OrgChange → OrgChange := oc_over (om_put_name None).
Definition OrgMutation_SetDescription (v : string) : OrgChange → OrgChange :=
  oc_over (om_put_description (Some v)).
Definition OrgMutation_Description (m : OrgChange) : option string := om_description (oc_set m).
Definition OrgMutation_ResetDescription : OrgChange → OrgChange := oc_over (om_put_description None).
Definition OrgMutation_SetCreatedAt (v : Time) : OrgChange → OrgChange := oc_over (om_put_created_at (Some v)).
Definition OrgMutation_CreatedAt (m : OrgChange) : option Time := om_created_at (oc_set m).
Definition OrgMutation_ResetCreatedAt : OrgChange → OrgChange := oc_over (om_put_created_at None).
Definition OrgMutation_SetUpdatedAt (v : Time) : OrgChange → OrgChange := oc_over (om_put_updated_at (Some v)).
Definition OrgMutation_UpdatedAt (m : OrgChange) : option Time := om_updated_at (oc_set m).
Definition OrgMutation_ResetUpdatedAt : OrgChange → OrgChange := oc_over (om_put_updated_at None).
Definition OrgMutation_SetDeletedAt (v : Time) : OrgChange → OrgChange := oc_over (om_put_deleted_at (Some v)).
Definition OrgMutation_DeletedAt (m : OrgChange) : option Time := om_deleted_at (oc_set m).
Definition OrgMutation_ClearDeletedAt (m : OrgChange) : OrgChange :=
  oc_with (with_cleared (union {["deleted_at"]})) (oc_over (om_put_deleted_at None) m).
Definition OrgMutation_DeletedAtCleared (m : OrgChange) : bool := field_cleared "deleted_at" (oc_change m).
Definition OrgMutation_ResetDeletedAt (m : OrgChange) : OrgChange :=
  oc_with (with_cleared (λ cleared, cleared ∖ {["deleted_at"]})) (oc_over (om_put_deleted_at None) m).

Definition OrgMutation_AddFolderIDs (ids : list UUID) : OrgChange → OrgChange := oc_folders_with (AddIDs ids).
Definition OrgMutation_ClearFolders : OrgChange → OrgChange := oc_folders_with ClearIDs.
Definition OrgMutation_FoldersCleared (m : OrgChange) : bool := e_cleared (oc_folders m).
Definition OrgMutation_RemoveFolderIDs (ids : list UUID) : OrgChange → OrgChange :=
  oc_folders_with (RemoveIDs ids).
Definition OrgMutation_RemovedFoldersIDs (m : OrgChange) : list UUID := RemovedIDs_of (oc_folders m).
Definition OrgMutation_FoldersIDs (m : OrgChange) : list UUID := AddedIDs_of (oc_folders m).
Definition OrgMutation_ResetFolders : OrgChange → OrgChange := oc_folders_with (λ _, no_edge).

Definition OrgMutation_Where (ps : list (predicate Org)) : OrgChange → OrgChange :=
  oc_with (with_predicates ps).
Definition OrgMutation_WhereP (ps : list (predicate Org)) (m : OrgChange) : OrgChange := OrgMutation_Where ps m.
Definition OrgMutation_Op (m : OrgChange) : Op := c_op (oc_change m).
Definition OrgMutation_SetOp (op : Op) : OrgChange → OrgChange := oc_with (with_op op).
Definition OrgMutation_Type (m : OrgChange) : string := "Org".

Definition OrgMutation_Fields (m : OrgChange) : list string :=
  names_if [(is_some (OrgMutation_Name m), "name");
            (is_some (OrgMutation_Description m), "description");
            (is_some (OrgMutation_CreatedAt m), "created_at");
            (is_some (OrgMutation_UpdatedAt m), "updated_at");
            (is_some (OrgMutation_DeletedAt m), "deleted_at")].
Definition OrgMutation_Field (name : string) (m : OrgChange) : option Value :=
  if String.eqb name "name" then AString <$> OrgMutation_Name m
  else if String.eqb name "description" then AString <$> OrgMutation_Description m
  else if String.eqb name "created_at" then ATime <$> OrgMutation_CreatedAt m
  else if String.eqb name "updated_at" then ATime <$> OrgMutation_UpdatedAt m
  else if String.eqb name "deleted_at" then ATime <$> OrgMutation_DeletedAt m
  else None.
Definition OrgMutation_SetField (name : string) (value : Value) (m : OrgChange) : option error * OrgChange :=
  if String.eqb name "name" then set_as as_string name value OrgMutation_SetName m
  else if String.eqb name "description" then set_as as_string name value OrgMutation_SetDescription m
  else if String.eqb name "created_at" then set_as as_time name value OrgMutation_SetCreatedAt m
  else if String.eqb name "updated_at" then set_as as_time name value OrgMutation_SetUpdatedAt m
  else if String.eqb name "deleted_at" then set_as as_time name value OrgMutation_SetDeletedAt m
  else (Some (unknown_name "Org" "field" name), m).
Definition OrgMutation_AddedFields (m : OrgChange) : list string := [].
Definition OrgMutation_AddedField (name : string) (m : OrgChange) : option Value := None.
Definition OrgMutation_AddField (name : string) (value : Value) (m : OrgChange) : option error * OrgChange :=
  (Some (unknown_name "Org" "numeric field" name), m).
Definition OrgMutation_FieldCleared (name : string) (m : OrgChange) : bool := field_cleared name (oc_change m).
Definition OrgMutation_ClearedFields (m : OrgChange) : list string :=
  names_if [(OrgMutation_FieldCleared "deleted_at" m, "deleted_at")].
Definition OrgMutation_ClearField (name : string) (m : OrgChange) : option error * OrgChange :=
  if String.eqb name "deleted_at" then (None, OrgMutation_ClearDeletedAt m)
  else (Some (unknown_name "Org" "nullable field" name), m).
Definition OrgMutation_ResetField (name : string) (m : OrgChange) : option error * OrgChange :=
  if String.eqb name "name" then (None, OrgMutation_ResetName m)
  else if String.eqb name "description" then (None, OrgMutation_ResetDescription m)
  else if String.eqb name "created_at" then (None, OrgMutation_ResetCreatedAt m)
  else if String.eqb name "updated_at" then (None, OrgMutation_ResetUpdatedAt m)
  else if String.eqb name "deleted_at" then (None, OrgMutation_ResetDeletedAt m)
  else (Some (unknown_name "Org" "field" name), m).

Definition OrgMutation_AddedEdges (m : OrgChange) : list string :=
  names_if [(is_some (e_added (oc_folders m)), "folders")].
Definition OrgMutation_AddedIDs (name : string) (m : OrgChange) : list Value :=
  if String.eqb name "folders" then AUUID <$> OrgMutation_FoldersIDs m
  else [].
Definition OrgMutation_RemovedEdges (m : OrgChange) : list string :=
  names_if [(is_some (e_removed (oc_folders m)), "folders")].
Definition OrgMutation_RemovedIDs (name : string) (m : OrgChange) : list Value :=
  if String.eqb name "folders" then AUUID <$> OrgMutation_RemovedFoldersIDs m
  else [].
Definition OrgMutation_ClearedEdges (m : OrgChange) : list string :=
  names_if [(OrgMutation_FoldersCleared m, "folders")].
Definition OrgMutation_EdgeCleared (name : string) (m : OrgChange) : bool :=
  if String.eqb name "folders" then OrgMutation_FoldersCleared m
  else false.
Definition OrgMutation_ClearEdge (name : string) (m : OrgChange) : option error * OrgChange :=
  (Some (unknown_name "Org" "unique edge" name), m).
Definition OrgMutation_ResetEdge (name : string) (m : OrgChange) : option error * OrgChange :=
  if String.eqb name "folders" then (None, OrgMutation_ResetFolders m)
  else (Some (unknown_name "Org" "edge" name), m).

Section org_old.
Context `{Driver} `{Runtime} `{UUIDLib}.

Definition oc_old {V} (label : string) (field : Org → V) (m : OrgChange) : M ((error + V) * OrgChange) :=
  r ← old_field OrgClient_Get label field (OrgMutation_ID m) (oc_change m); mret (r.1, oc_with (λ _, r.2) m).
Definition OrgMutation_OldName : OrgChange → M ((error + string) * OrgChange) := oc_old "OldName" Org_Name.
Definition OrgMutation_OldDescription : OrgChange → M ((error + string) * OrgChange) :=
  oc_old "OldDescription" Org_Description.
Definition OrgMutation_OldCreatedAt : OrgChange → M ((error + Time) * OrgChange) :=
  oc_old "OldCreatedAt" Org_CreatedAt.
Definition OrgMutation_OldUpdatedAt : OrgChange → M ((error + Time) * OrgChange) :=
  oc_old "OldUpdatedAt" Org_UpdatedAt.
Definition OrgMutation_OldDeletedAt : OrgChange → M ((error + option Time) * OrgChange) :=
  oc_old "OldDeletedAt" Org_DeletedAt.
Definition OrgMutation_OldField (name : string) (m : OrgChange) : M ((error + option Value) * OrgChange) :=
  if String.eqb name "name" then old_as (λ v, Some (AString v)) (OrgMutation_OldName m)
  else if String.eqb name "description" then old_as (λ v, Some (AString v)) (OrgMutation_OldDescription m)
  else if String.eqb name "created_at" then old_as (λ v, Some (ATime v)) (OrgMutation_OldCreatedAt m)
  else if String.eqb name "updated_at" then old_as (λ v, Some (ATime v)) (OrgMutation_OldUpdatedAt m)
  else if String.eqb name "deleted_at" then old_as (fmap ATime) (OrgMutation_OldDeletedAt m)
  else mret (inl (unknown_name "Org" "field" name), m).
Definition OrgMutation_IDs `{EntOp} (m : OrgChange) : M (list UUID) :=
  change_ids Org_ID (OrgMutation_ID m) (oc_change m).
End org_old.

(** ** Folder *)

Definition fm_put_name (v : option string) (s : FolderMutation) : FolderMutation :=
  mkFolderMutation v (fm_created_at s) (fm_updated_at s) (fm_id s) (fm_org s).
Definition fm_put_created_at (v : option Time) (s : FolderMutation) : FolderMutation :=
  mkFolderMutation (fm_name s) v (fm_updated_at s) (fm_id s) (fm_org s).
Definition fm_put_updated_at (v : option Time) (s : FolderMutation) : FolderMutation :=
  mkFolderMutation (fm_name s) (fm_created_at s) v (fm_id s) (fm_org s).
Definition fm_put_id (v : option UUID) (s : FolderMutation) : FolderMutation :=
  mkFolderMutation (fm_name s) (fm_created_at s) (fm_updated_at s) v (fm_org s).
Definition fm_put_org (v : option UUID) (s : FolderMutation) : FolderMutation :=
  mkFolderMutation (fm_name s) (fm_created_at s) (fm_updated_at s) (fm_id s) v.

Record FolderChange := mkFolderChange { fc_set : FolderMutation; fc_change : Change UUID Folder; fc_clearedorg : bool; fc_projects : Edge }.
Definition fc_over (f : FolderMutation → FolderMutation) (m : FolderChange) : FolderChange :=
  mkFolderChange (f (fc_set m)) (fc_change m) (fc_clearedorg m) (fc_projects m).
Definition fc_with (f : Change UUID Folder → Change UUID Folder) (m : FolderChange) : FolderChange :=
  mkFolderChange (fc_set m) (f (fc_change m)) (fc_clearedorg m) (fc_projects m).
Definition fc_projects_with (f : Edge → Edge) (m : FolderChange) : FolderChange :=
  mkFolderChange (fc_set m) (fc_change m) (fc_clearedorg m) (f (fc_projects m)).
Definition fc_clearorg (b : bool) (m : FolderChange) : FolderChange :=
  mkFolderChange (fc_set m) (fc_change m) b (fc_projects m).
Definition FolderMutation_new (op : Op) : FolderChange :=
  mkFolderChange newFolderMutation (new_change op NoOldValue) false no_edge.
Definition withFolderID (id : UUID) (m : FolderChange) : FolderChange :=
  fc_over (fm_put_id (Some id)) (fc_with (with_old (OldQuery id None)) m).
Definition withFolder (node : Folder) (m : FolderChange) : FolderChange :=
  fc_over (fm_put_id (Some (Folder_ID node))) (fc_with (with_old (OldNode node)) m).
Definition FolderMutation_SetID (id : UUID) : FolderChange → FolderChange := fc_over (fm_put_id (Some id)).
Definition FolderMutation_ID (m : FolderChange) : option UUID := fm_id (fc_set m).

Definition FolderMutation_SetName (v : string) : FolderChange → FolderChange := fc_over (fm_put_name (Some v)).
Definition FolderMutation_Name (m : FolderChange) : option string := fm_name (fc_set m).
Definition FolderMutation_ResetName : FolderChange → FolderChange := fc_over (fm_put_name None).
Definition FolderMutation_SetCreatedAt (v : Time) : FolderChange → FolderChange :=
  fc_over (fm_put_created_at (Some v)).
Definition FolderMutation_CreatedAt (m : FolderChange) : option Time := fm_created_at (fc_set m).
Definition FolderMutation_ResetCreatedAt : FolderChange → FolderChange := fc_over (fm_put_created_at None).
Definition FolderMutation_SetUpdatedAt (v : Time) : FolderChange → FolderChange :=
  fc_over (fm_put_updated_at (Some v)).
Definition FolderMutation_UpdatedAt (m : FolderChange) : option Time := fm_updated_at (fc_set m).
Definition FolderMutation_ResetUpdatedAt : FolderChange → FolderChange := fc_over (fm_put_updated_at None).

Definition FolderMutation_SetOrgID (id : UUID) : FolderChange → FolderChange := fc_over (fm_put_org (Some id)).
Definition FolderMutation_ClearOrg : FolderChange → FolderChange := fc_clearorg true.
Definition FolderMutation_OrgCleared (m : FolderChange) : bool := fc_clearedorg m.
Definition FolderMutation_OrgID (m : FolderChange) : option UUID := fm_org (fc_set m).
Definition FolderMutation_OrgIDs (m : FolderChange) : list UUID := option_list (fm_org (fc_set m)).
Definition FolderMutation_ResetOrg (m : FolderChange) : FolderChange :=
  fc_clearorg false (fc_over (fm_put_org None) m).
Definition FolderMutation_AddProjectIDs (ids : list UUID) : FolderChange → FolderChange :=
  fc_projects_with (AddIDs ids).
Definition FolderMutation_ClearProjects : FolderChange → FolderChange := fc_projects_with ClearIDs.
Definition FolderMutation_ProjectsCleared (m : FolderChange) : bool := e_cleared (fc_projects m).
Definition FolderMutation_RemoveProjectIDs (ids : list UUID) : FolderChange → FolderChange :=
  fc_projects_with (RemoveIDs ids).
Definition FolderMutation_RemovedProjectsIDs (m : FolderChange) : list UUID := RemovedIDs_of (fc_projects m).
Definition FolderMutation_ProjectsIDs (m : FolderChange) : list UUID := AddedIDs_of (fc_projects m).
Definition FolderMutation_ResetProjects : FolderChange → FolderChange := fc_projects_with (λ _, no_edge).

Definition FolderMutation_Where (ps : list (predicate Folder)) : FolderChange → FolderChange :=
  fc_with (with_predicates ps).
Definition FolderMutation_WhereP (ps : list (predicate Folder)) (m : FolderChange) : FolderChange :=
  FolderMutation_Where ps m.
Definition FolderMutation_Op (m : FolderChange) : Op := c_op (fc_change m).
Definition FolderMutation_SetOp (op : Op) : FolderChange → FolderChange := fc_with (with_op op).
Definition FolderMutation_Type (m : FolderChange) : string := "Folder".

Definition FolderMutation_Fields (m : FolderChange) : list string :=
  names_if [(is_some (FolderMutation_Name m), "name");
            (is_some (FolderMutation_CreatedAt m), "created_at");
            (is_some (FolderMutation_UpdatedAt m), "updated_at")].
Definition FolderMutation_Field (name : string) (m : FolderChange) : option Value :=
  if String.eqb name "name" then AString <$> FolderMutation_Name m
  else if String.eqb name "created_at" then ATime <$> FolderMutation_CreatedAt m
  else if String.eqb name "updated_at" then ATime <$> FolderMutation_UpdatedAt m
  else None.
Definition FolderMutation_SetField (name : string) (value : Value) (m : FolderChange) : option error * FolderChange :=
  if String.eqb name "name" then set_as as_string name value FolderMutation_SetName m
  else if String.eqb name "created_at" then set_as as_time name value FolderMutation_SetCreatedAt m
  else if String.eqb name "updated_at" then set_as as_time name value FolderMutation_SetUpdatedAt m
  else (Some (unknown_name "Folder" "field" name), m).
Definition FolderMutation_AddedFields (m : FolderChange) : list string := [].
Definition FolderMutation_AddedField (name : string) (m : FolderChange) : option Value := None.
Definition FolderMutation_AddField (name : string) (value : Value) (m : FolderChange) : option error * FolderChange :=
  (Some (unknown_name "Folder" "numeric field" name), m).
Definition FolderMutation_FieldCleared (name : string) (m : FolderChange) : bool :=
  field_cleared name (fc_change m).
Definition FolderMutation_ClearedFields (m : FolderChange) : list string := [].
Definition FolderMutation_ClearField (name : string) (m : FolderChange) : option error * FolderChange :=
  (Some (unknown_name "Folder" "nullable field" name), m).
Definition FolderMutation_ResetField (name : string) (m : FolderChange) : option error * FolderChange :=
  if String.eqb name "name" then (None, FolderMutation_ResetName m)
  else if String.eqb name "created_at" then (None, FolderMutation_ResetCreatedAt m)
  else if String.eqb name "updated_at" then (None, FolderMutation_ResetUpdatedAt m)
  else (Some (unknown_name "Folder" "field" name), m).

Definition FolderMutation_AddedEdges (m : FolderChange) : list string :=
  names_if [(is_some (fm_org (fc_set m)), "org"); (is_some (e_added (fc_projects m)), "projects")].
Definition FolderMutation_AddedIDs (name : string) (m : FolderChange) : list Value :=
  if String.eqb name "org" then AUUID <$> FolderMutation_OrgIDs m
  else if String.eqb name "projects" then AUUID <$> FolderMutation_ProjectsIDs m
  else [].
Definition FolderMutation_RemovedEdges (m : FolderChange) : list string :=
  names_if [(is_some (e_removed (fc_projects m)), "projects")].
Definition FolderMutation_RemovedIDs (name : string) (m : FolderChange) : list Value :=
  if String.eqb name "projects" then AUUID <$> FolderMutation_RemovedProjectsIDs m
  else [].
Definition FolderMutation_ClearedEdges (m : FolderChange) : list string :=
  names_if [(FolderMutation_OrgCleared m, "org"); (FolderMutation_ProjectsCleared m, "projects")].
Definition FolderMutation_EdgeCleared (name : string) (m : FolderChange) : bool :=
  if String.eqb name "org" then FolderMutation_OrgCleared m
  else if String.eqb name "projects" then FolderMutation_ProjectsCleared m
  else false.
Definition FolderMutation_ClearEdge (name : string) (m : FolderChange) : option error * FolderChange :=
  if String.eqb name "org" then (None, FolderMutation_ClearOrg m)
  else (Some (unknown_name "Folder" "unique edge" name), m).
Definition FolderMutation_ResetEdge (name : string) (m : FolderChange) : option error * FolderChange :=
  if String.eqb name "org" then (None, FolderMutation_ResetOrg m)
  else if String.eqb name "projects" then (None, FolderMutation_ResetProjects m)
  else (Some (unknown_name "Folder" "edge" name), m).

Section folder_old.
Context `{Driver} `{Runtime} `{UUIDLib}.

Definition fc_old {V} (label : string) (field : Folder → V) (m : FolderChange) : M ((error + V) * FolderChange) :=
  r ← old_field (λ id, f ← FolderClient_Get id; mret (folder_row f)) label field (FolderMutation_ID m) (fc_change m); mret (r.1, fc_with (λ _, r.2) m).
Definition FolderMutation_OldName : FolderChange → M ((error + string) * FolderChange) :=
  fc_old "OldName" Folder_Name.
Definition FolderMutation_OldCreatedAt : FolderChange → M ((error + Time) * FolderChange) :=
  fc_old "OldCreatedAt" Folder_CreatedAt.
Definition FolderMutation_OldUpdatedAt : FolderChange → M ((error + Time) * FolderChange) :=
  fc_old "OldUpdatedAt" Folder_UpdatedAt.
Definition FolderMutation_OldField (name : string) (m : FolderChange) : M ((error + option Value) * FolderChange) :=
  if String.eqb name "name" then old_as (λ v, Some (AString v)) (FolderMutation_OldName m)
  else if String.eqb name "created_at" then old_as (λ v, Some (ATime v)) (FolderMutation_OldCreatedAt m)
  else if String.eqb name "updated_at" then old_as (λ v, Some (ATime v)) (FolderMutation_OldUpdatedAt m)
  else mret (inl (unknown_name "Folder" "field" name), m).
Definition FolderMutation_IDs `{EntOp} (m : FolderChange) : M (list UUID) :=
  change_ids Folder_ID (FolderMutation_ID m) (fc_change m).
End folder_old.

(** ** Project *)

Definition pm_put_name (v : option string) (s : ProjectMutation) : ProjectMutation :=
  mkProjectMutation v (pm_description s) (pm_created_at s) (pm_updated_at s)
    (pm_deleted_at s) (pm_id s) (pm_folder s).
Definition pm_put_description (v : option string) (s : ProjectMutation) : ProjectMutation :=
  mkProjectMutation (pm_name s) v (pm_created_at s) (pm_updated_at s)
    (pm_deleted_at s) (pm_id s) (pm_folder s).
Definition pm_put_created_at (v : option Time) (s : ProjectMutation) : ProjectMutation :=
  mkProjectMutation (pm_name s) (pm_description s) v (pm_updated_at s)
    (pm_deleted_at s) (pm_id s) (pm_folder s).
Definition pm_put_updated_at (v : option Time) (s : ProjectMutation) : ProjectMutation :=
  mkProjectMutation (pm_name s) (pm_description s) (pm_created_at s) v
    (pm_deleted_at s) (pm_id s) (pm_folder s).
Definition pm_put_deleted_at (v : option Time) (s : ProjectMutation) : ProjectMutation :=
  mkProjectMutation (pm_name s) (pm_description s) (pm_created_at s)
    (pm_updated_at s) v (pm_id s) (pm_folder s).
Definition pm_put_id (v : option UUID) (s : ProjectMutation) : ProjectMutation :=
  mkProjectMutation (pm_name s) (pm_description s) (pm_created_at s)
    (pm_updated_at s) (pm_deleted_at s) v (pm_folder s).
Definition pm_put_folder (v : option UUID) (s : ProjectMutation) : ProjectMutation :=
  mkProjectMutation (pm_name s) (pm_description s) (pm_created_at s)
    (pm_updated_at s) (pm_deleted_at s) (pm_id s) v.

Record ProjectChange := mkProjectChange { pc_set : ProjectMutation; pc_change : Change UUID Project; pc_clearedfolder : bool }.
Definition pc_over (f : ProjectMutation → ProjectMutation) (m : ProjectChange) : ProjectChange :=
  mkProjectChange (f (pc_set m)) (pc_change m) (pc_clearedfolder m).
Definition pc_with (f : Change UUID Project → Change UUID Project) (m : ProjectChange) : ProjectChange :=
  mkProjectChange (pc_set m) (f (pc_change m)) (pc_clearedfolder m).
Definition pc_clearfolder (b : bool) (m : ProjectChange) : ProjectChange :=
  mkProjectChange (pc_set m) (pc_change m) b.
Definition ProjectMutation_new (op : Op) : ProjectChange :=
  mkProjectChange newProjectMutation (new_change op NoOldValue) false.
Definition withProjectID (id : UUID) (m : ProjectChange) : ProjectChange :=
  pc_over (pm_put_id (Some id)) (pc_with (with_old (OldQuery id None)) m).
Definition withProject (node : Project) (m : ProjectChange) : ProjectChange :=
  pc_over (pm_put_id (Some (Project_ID node))) (pc_with (with_old (OldNode node)) m).
Definition ProjectMutation_SetID (id : UUID) : ProjectChange → ProjectChange := pc_over (pm_put_id (Some id)).
Definition ProjectMutation_ID (m : ProjectChange) : option UUID := pm_id (pc_set m).

Definition ProjectMutation_SetName (v : string) : ProjectChange → ProjectChange :=
  pc_over (pm_put_name (Some v)).
Definition ProjectMutation_Name (m : ProjectChange) : option string := pm_name (pc_set m).
Definition ProjectMutation_ResetName : ProjectChange → ProjectChange := pc_over (pm_put_name None).
Definition ProjectMutation_SetDescription (v : string) : ProjectChange → ProjectChange :=
  pc_over (pm_put_description (Some v)).
Definition ProjectMutation_Description (m : ProjectChange) : option string := pm_description (pc_set m).
Definition ProjectMutation_ResetDescription : ProjectChange → ProjectChange :=
  pc_over (pm_put_description None).
Definition ProjectMutation_SetCreatedAt (v : Time) : ProjectChange → ProjectChange :=
  pc_over (pm_put_created_at (Some v)).
Definition ProjectMutation_CreatedAt (m : ProjectChange) : option Time := pm_created_at (pc_set m).
Definition ProjectMutation_ResetCreatedAt : ProjectChange → ProjectChange := pc_over (pm_put_created_at None).
Definition ProjectMutation_SetUpdatedAt (v : Time) : ProjectChange → ProjectChange :=
  pc_over (pm_put_updated_at (Some v)).
Definition ProjectMutation_UpdatedAt (m : ProjectChange) : option Time := pm_updated_at (pc_set m).
Definition ProjectMutation_ResetUpdatedAt : ProjectChange → ProjectChange := pc_over (pm_put_updated_at None).
Definition ProjectMutation_SetDeletedAt (v : Time) : ProjectChange → ProjectChange :=
  pc_over (pm_put_deleted_at (Some v)).
Definition ProjectMutation_DeletedAt (m : ProjectChange) : option Time := pm_deleted_at (pc_set m).
Definition ProjectMutation_ClearDeletedAt (m : ProjectChange) : ProjectChange :=
  pc_with (with_cleared (union {["deleted_at"]})) (pc_over (pm_put_deleted_at None) m).
Definition ProjectMutation_DeletedAtCleared (m : ProjectChange) : bool :=
  field_cleared "deleted_at" (pc_change m).
Definition ProjectMutation_ResetDeletedAt (m : ProjectChange) : ProjectChange :=
  pc_with (with_cleared (λ cleared, cleared ∖ {["deleted_at"]})) (pc_over (pm_put_deleted_at None) m).

Definition ProjectMutation_SetFolderID (id : UUID) : ProjectChange → ProjectChange :=
  pc_over (pm_put_folder (Some id)).
Definition ProjectMutation_ClearFolder : ProjectChange → ProjectChange := pc_clearfolder true.
Definition ProjectMutation_FolderCleared (m : ProjectChange) : bool := pc_clearedfolder m.
Definition ProjectMutation_FolderID (m : ProjectChange) : option UUID := pm_folder (pc_set m).
Definition ProjectMutation_FolderIDs (m : ProjectChange) : list UUID := option_list (pm_folder (pc_set m)).
Definition ProjectMutation_ResetFolder (m : ProjectChange) : ProjectChange :=
  pc_clearfolder false (pc_over (pm_put_folder None) m).

Definition ProjectMutation_Where (ps : list (predicate Project)) : ProjectChange → ProjectChange :=
  pc_with (with_predicates ps).
Definition ProjectMutation_WhereP (ps : list (predicate Project)) (m : ProjectChange) : ProjectChange :=
  ProjectMutation_Where ps m.
Definition ProjectMutation_Op (m : ProjectChange) : Op := c_op (pc_change m).
Definition ProjectMutation_SetOp (op : Op) : ProjectChange → ProjectChange := pc_with (with_op op).
Definition ProjectMutation_Type (m : ProjectChange) : string := "Project".

Definition ProjectMutation_Fields (m : ProjectChange) : list string :=
  names_if [(is_some (ProjectMutation_Name m), "name");
            (is_some (ProjectMutation_Description m), "description");
            (is_some (ProjectMutation_CreatedAt m), "created_at");
            (is_some (ProjectMutation_UpdatedAt m), "updated_at");
            (is_some (ProjectMutation_DeletedAt m), "deleted_at")].
Definition ProjectMutation_Field (name : string) (m : ProjectChange) : option Value :=
  if String.eqb name "name" then AString <$> ProjectMutation_Name m
  else if String.eqb name "description" then AString <$> ProjectMutation_Description m
  else if String.eqb name "created_at" then ATime <$> ProjectMutation_CreatedAt m
  else if String.eqb name "updated_at" then ATime <$> ProjectMutation_UpdatedAt m
  else if String.eqb name "deleted_at" then ATime <$> ProjectMutation_DeletedAt m
  else None.
Definition ProjectMutation_SetField (name : string) (value : Value) (m : ProjectChange) : option error * ProjectChange :=
  if String.eqb name "name" then set_as as_string name value ProjectMutation_SetName m
  else if String.eqb name "description" then set_as as_string name value ProjectMutation_SetDescription m
  else if String.eqb name "created_at" then set_as as_time name value ProjectMutation_SetCreatedAt m
  else if String.eqb name "updated_at" then set_as as_time name value ProjectMutation_SetUpdatedAt m
  else if String.eqb name "deleted_at" then set_as as_time name value ProjectMutation_SetDeletedAt m
  else (Some (unknown_name "Project" "field" name), m).
Definition ProjectMutation_AddedFields (m : ProjectChange) : list string := [].
Definition ProjectMutation_AddedField (name : string) (m : ProjectChange) : option Value := None.
Definition ProjectMutation_AddField (name : string) (value : Value) (m : ProjectChange) : option error * ProjectChange :=
  (Some (unknown_name "Project" "numeric field" name), m).
Definition ProjectMutation_FieldCleared (name : string) (m : ProjectChange) : bool :=
  field_cleared name (pc_change m).
Definition ProjectMutation_ClearedFields (m : ProjectChange) : list string :=
  names_if [(ProjectMutation_FieldCleared "deleted_at" m, "deleted_at")].
Definition ProjectMutation_ClearField (name : string) (m : ProjectChange) : option error * ProjectChange :=
  if String.eqb name "deleted_at" then (None, ProjectMutation_ClearDeletedAt m)
  else (Some (unknown_name "Project" "nullable field" name), m).
Definition ProjectMutation_ResetField (name : string) (m : ProjectChange) : option error * ProjectChange :=
  if String.eqb name "name" then (None, ProjectMutation_ResetName m)
  else if String.eqb name "description" then (None, ProjectMutation_ResetDescription m)
  else if String.eqb name "created_at" then (None, ProjectMutation_ResetCreatedAt m)
  else if String.eqb name "updated_at" then (None, ProjectMutation_ResetUpdatedAt m)
  else if String.eqb name "deleted_at" then (None, ProjectMutation_ResetDeletedAt m)
  else (Some (unknown_name "Project" "field" name), m).

Definition ProjectMutation_AddedEdges (m : ProjectChange) : list string :=
  names_if [(is_some (pm_folder (pc_set m)), "folder")].
Definition ProjectMutation_AddedIDs (name : string) (m : ProjectChange) : list Value :=
  if String.eqb name "folder" then AUUID <$> ProjectMutation_FolderIDs m
  else [].
Definition ProjectMutation_RemovedEdges (m : ProjectChange) : list string := [].
Definition ProjectMutation_RemovedIDs (name : string) (m : ProjectChange) : list Value :=
  [].
Definition ProjectMutation_ClearedEdges (m : ProjectChange) : list string :=
  names_if [(ProjectMutation_FolderCleared m, "folder")].
Definition ProjectMutation_EdgeCleared (name : string) (m : ProjectChange) : bool :=
  if String.eqb name "folder" then ProjectMutation_FolderCleared m
  else false.
Definition ProjectMutation_ClearEdge (name : string) (m : ProjectChange) : option error * ProjectChange :=
  if String.eqb name "folder" then (None, ProjectMutation_ClearFolder m)
  else (Some (unknown_name "Project" "unique edge" name), m).
Definition ProjectMutation_ResetEdge (name : string) (m : ProjectChange) : option error * ProjectChange :=
  if String.eqb name "folder" then (None, ProjectMutation_ResetFolder m)
  else (Some (unknown_name "Project" "edge" name), m).

Section project_old.
Context `{Driver} `{Runtime} `{UUIDLib}.

Definition pc_old {V} (label : string) (field : Project → V) (m : ProjectChange) : M ((error + V) * ProjectChange) :=
  r ← old_field (λ id, p ← ProjectClient_Get id; mret (project_row p)) label field (ProjectMutation_ID m) (pc_change m); mret (r.1, pc_with (λ _, r.2) m).
Definition ProjectMutation_OldName : ProjectChange → M ((error + string) * ProjectChange) :=
  pc_old "OldName" Project_Name.
Definition ProjectMutation_OldDescription : ProjectChange → M ((error + string) * ProjectChange) :=
  pc_old "OldDescription" Project_Description.
Definition ProjectMutation_OldCreatedAt : ProjectChange → M ((error + Time) * ProjectChange) :=
  pc_old "OldCreatedAt" Project_CreatedAt.
Definition ProjectMutation_OldUpdatedAt : ProjectChange → M ((error + Time) * ProjectChange) :=
  pc_old "OldUpdatedAt" Project_UpdatedAt.
Definition ProjectMutation_OldDeletedAt : ProjectChange → M ((error + option Time) * ProjectChange) :=
  pc_old "OldDeletedAt" Project_DeletedAt.
Definition ProjectMutation_OldField (name : string) (m : ProjectChange) : M ((error + option Value) * ProjectChange) :=
  if String.eqb name "name" then old_as (λ v, Some (AString v)) (ProjectMutation_OldName m)
  else if String.eqb name "description" then old_as (λ v, Some (AString v)) (ProjectMutation_OldDescription m)
  else if String.eqb name "created_at" then old_as (λ v, Some (ATime v)) (ProjectMutation_OldCreatedAt m)
  else if String.eqb name "updated_at" then old_as (λ v, Some (ATime v)) (ProjectMutation_OldUpdatedAt m)
  else if String.eqb name "deleted_at" then old_as (fmap ATime) (ProjectMutation_OldDeletedAt m)
  else mret (inl (unknown_name "Project" "field" name), m).
Definition ProjectMutation_IDs `{EntOp} (m : ProjectChange) : M (list UUID) :=
  change_ids Project_ID (ProjectMutation_ID m) (pc_change m).
End project_old.

(** ** TenancyEvent *)

Definition em_put_event_type (v : option string) (s : TenancyEventMutation) : TenancyEventMutation :=
  mkTenancyEventMutation v (em_resource_type s) (em_resource_id s) (em_resource_name s) (em_org_id s)
    (em_org_name s) (em_folder_id s) (em_created_at s).
Definition em_put_resource_type (v : option string) (s : TenancyEventMutation) : TenancyEventMutation :=
  mkTenancyEventMutation (em_event_type s) v (em_resource_id s) (em_resource_name s) (em_org_id s)
    (em_org_name s) (em_folder_id s) (em_created_at s).
Definition em_put_resource_id (v : option UUID) (s : TenancyEventMutation) : TenancyEventMutation :=
  mkTenancyEventMutation (em_event_type s) (em_resource_type s) v (em_resource_name s) (em_org_id s)
    (em_org_name s) (em_folder_id s) (em_created_at s).
Definition em_put_resource_name (v : option string) (s : TenancyEventMutation) : TenancyEventMutation :=
  mkTenancyEventMutation (em_event_type s) (em_resource_type s) (em_resource_id s) v (em_org_id s)
    (em_org_name s) (em_folder_id s) (em_created_at s).
Definition em_put_org_id (v : option UUID) (s : TenancyEventMutation) : TenancyEventMutation :=
  mkTenancyEventMutation (em_event_type s) (em_resource_type s) (em_resource_id s) (em_resource_name s) v
    (em_org_name s) (em_folder_id s) (em_created_at s).
Definition em_put_org_name (v : option string) (s : TenancyEventMutation) : TenancyEventMutation :=
  mkTenancyEventMutation (em_event_type s) (em_resource_type s) (em_resource_id s) (em_resource_name s)
    (em_org_id s) v (em_folder_id s) (em_created_at s).
Definition em_put_folder_id (v : option UUID) (s : TenancyEventMutation) : TenancyEventMutation :=
  mkTenancyEventMutation (em_event_type s) (em_resource_type s) (em_resource_id s) (em_resource_name s)
    (em_org_id s) (em_org_name s) v (em_created_at s).
Definition em_put_created_at (v : option Time) (s : TenancyEventMutation) : TenancyEventMutation :=
  mkTenancyEventMutation (em_event_type s) (em_resource_type s) (em_resource_id s) (em_resource_name s)
    (em_org_id s) (em_org_name s) (em_folder_id s) v.

Record TenancyEventChange := mkTenancyEventChange { ec_set : TenancyEventMutation; ec_id : option Z; ec_change : Change Z TenancyEvent }.
Definition ec_over (f : TenancyEventMutation → TenancyEventMutation) (m : TenancyEventChange) : TenancyEventChange :=
  mkTenancyEventChange (f (ec_set m)) (ec_id m) (ec_change m).
Definition ec_with (f : Change Z TenancyEvent → Change Z TenancyEvent) (m : TenancyEventChange) : TenancyEventChange :=
  mkTenancyEventChange (ec_set m) (ec_id m) (f (ec_change m)).
Definition ec_put_id (id : option Z) (m : TenancyEventChange) : TenancyEventChange :=
  mkTenancyEventChange (ec_set m) id (ec_change m).
Definition TenancyEventMutation_new (op : Op) : TenancyEventChange :=
  mkTenancyEventChange newTenancyEventMutation None (new_change op NoOldValue).
Definition withTenancyEventID (id : Z) (m : TenancyEventChange) : TenancyEventChange :=
  ec_put_id (Some id) (ec_with (with_old (OldQuery id None)) m).
Definition withTenancyEvent (node : TenancyEvent) (m : TenancyEventChange) : TenancyEventChange :=
  ec_put_id (Some (TenancyEvent_ID node)) (ec_with (with_old (OldNode node)) m).
Definition TenancyEventMutation_SetID (id : Z) : TenancyEventChange → TenancyEventChange := ec_put_id (Some id).
Definition TenancyEventMutation_ID (m : TenancyEventChange) : option Z := ec_id m.

Definition TenancyEventMutation_SetEventType (v : string) : TenancyEventChange → TenancyEventChange :=
  ec_over (em_put_event_type (Some v)).
Definition TenancyEventMutation_EventType (m : TenancyEventChange) : option string := em_event_type (ec_set m).
Definition TenancyEventMutation_ResetEventType : TenancyEventChange → TenancyEventChange :=
  ec_over (em_put_event_type None).
Definition TenancyEventMutation_SetResourceType (v : string) : TenancyEventChange → TenancyEventChange :=
  ec_over (em_put_resource_type (Some v)).
Definition TenancyEventMutation_ResourceType (m : TenancyEventChange) : option string :=
  em_resource_type (ec_set m).
Definition TenancyEventMutation_ResetResourceType : TenancyEventChange → TenancyEventChange :=
  ec_over (em_put_resource_type None).
Definition TenancyEventMutation_SetResourceID (v : UUID) : TenancyEventChange → TenancyEventChange :=
  ec_over (em_put_resource_id (Some v)).
Definition TenancyEventMutation_ResourceID (m : TenancyEventChange) : option UUID := em_resource_id (ec_set m).
Definition TenancyEventMutation_ResetResourceID : TenancyEventChange → TenancyEventChange :=
  ec_over (em_put_resource_id None).
Definition TenancyEventMutation_SetResourceName (v : string) : TenancyEventChange → TenancyEventChange :=
  ec_over (em_put_resource_name (Some v)).
Definition TenancyEventMutation_ResourceName (m : TenancyEventChange) : option string :=
  em_resource_name (ec_set m).
Definition TenancyEventMutation_ResetResourceName : TenancyEventChange → TenancyEventChange :=
  ec_over (em_put_resource_name None).
Definition TenancyEventMutation_SetOrgID (v : UUID) : TenancyEventChange → TenancyEventChange :=
  ec_over (em_put_org_id (Some v)).
Definition TenancyEventMutation_OrgID (m : TenancyEventChange) : option UUID := em_org_id (ec_set m).
Definition TenancyEventMutation_ClearOrgID (m : TenancyEventChange) : TenancyEventChange :=
  ec_with (with_cleared (union {["org_id"]})) (ec_over (em_put_org_id None) m).
Definition TenancyEventMutation_OrgIDCleared (m : TenancyEventChange) : bool :=
  field_cleared "org_id" (ec_change m).
Definition TenancyEventMutation_ResetOrgID (m : TenancyEventChange) : TenancyEventChange :=
  ec_with (with_cleared (λ cleared, cleared ∖ {["org_id"]})) (ec_over (em_put_org_id None) m).
Definition TenancyEventMutation_SetOrgName (v : string) : TenancyEventChange → TenancyEventChange :=
  ec_over (em_put_org_name (Some v)).
Definition TenancyEventMutation_OrgName (m : TenancyEventChange) : option string := em_org_name (ec_set m).
Definition TenancyEventMutation_ClearOrgName (m : TenancyEventChange) : TenancyEventChange :=
  ec_with (with_cleared (union {["org_name"]})) (ec_over (em_put_org_name None) m).
Definition TenancyEventMutation_OrgNameCleared (m : TenancyEventChange) : bool :=
  field_cleared "org_name" (ec_change m).
Definition TenancyEventMutation_ResetOrgName (m : TenancyEventChange) : TenancyEventChange :=
  ec_with (with_cleared (λ cleared, cleared ∖ {["org_name"]})) (ec_over (em_put_org_name None) m).
Definition TenancyEventMutation_SetFolderID (v : UUID) : TenancyEventChange → TenancyEventChange :=
  ec_over (em_put_folder_id (Some v)).
Definition TenancyEventMutation_FolderID (m : TenancyEventChange) : option UUID := em_folder_id (ec_set m).
Definition TenancyEventMutation_ClearFolderID (m : TenancyEventChange) : TenancyEventChange :=
  ec_with (with_cleared (union {["folder_id"]})) (ec_over (em_put_folder_id None) m).
Definition TenancyEventMutation_FolderIDCleared (m : TenancyEventChange) : bool :=
  field_cleared "folder_id" (ec_change m).
Definition TenancyEventMutation_ResetFolderID (m : TenancyEventChange) : TenancyEventChange :=
  ec_with (with_cleared (λ cleared, cleared ∖ {["folder_id"]})) (ec_over (em_put_folder_id None) m).
Definition TenancyEventMutation_SetCreatedAt (v : Time) : TenancyEventChange → TenancyEventChange :=
  ec_over (em_put_created_at (Some v)).
Definition TenancyEventMutation_CreatedAt (m : TenancyEventChange) : option Time := em_created_at (ec_set m).
Definition TenancyEventMutation_ResetCreatedAt : TenancyEventChange → TenancyEventChange :=
  ec_over (em_put_created_at None).

Definition TenancyEventMutation_Where (ps : list (predicate TenancyEvent)) : TenancyEventChange → TenancyEventChange :=
  ec_with (with_predicates ps).
Definition TenancyEventMutation_WhereP (ps : list (predicate TenancyEvent)) (m : TenancyEventChange) : TenancyEventChange :=
  TenancyEventMutation_Where ps m.
Definition TenancyEventMutation_Op (m : TenancyEventChange) : Op := c_op (ec_change m).
Definition TenancyEventMutation_SetOp (op : Op) : TenancyEventChange → TenancyEventChange :=
  ec_with (with_op op).
Definition TenancyEventMutation_Type (m : TenancyEventChange) : string := "TenancyEvent".

Definition TenancyEventMutation_Fields (m : TenancyEventChange) : list string :=
  names_if [(is_some (TenancyEventMutation_EventType m), "event_type");
            (is_some (TenancyEventMutation_ResourceType m), "resource_type");
            (is_some (TenancyEventMutation_ResourceID m), "resource_id");
            (is_some (TenancyEventMutation_ResourceName m), "resource_name");
            (is_some (TenancyEventMutation_OrgID m), "org_id");
            (is_some (TenancyEventMutation_OrgName m), "org_name");
            (is_some (TenancyEventMutation_FolderID m), "folder_id");
            (is_some (TenancyEventMutation_CreatedAt m), "created_at")].
Definition TenancyEventMutation_Field (name : string) (m : TenancyEventChange) : option Value :=
  if String.eqb name "event_type" then AString <$> TenancyEventMutation_EventType m
  else if String.eqb name "resource_type" then AString <$> TenancyEventMutation_ResourceType m
  else if String.eqb name "resource_id" then AUUID <$> TenancyEventMutation_ResourceID m
  else if String.eqb name "resource_name" then AString <$> TenancyEventMutation_ResourceName m
  else if String.eqb name "org_id" then AUUID <$> TenancyEventMutation_OrgID m
  else if String.eqb name "org_name" then AString <$> TenancyEventMutation_OrgName m
  else if String.eqb name "folder_id" then AUUID <$> TenancyEventMutation_FolderID m
  else if String.eqb name "created_at" then ATime <$> TenancyEventMutation_CreatedAt m
  else None.
Definition TenancyEventMutation_SetField (name : string) (value : Value) (m : TenancyEventChange) : option error * TenancyEventChange :=
  if String.eqb name "event_type" then set_as as_string name value TenancyEventMutation_SetEventType m
  else if String.eqb name "resource_type" then set_as as_string name value TenancyEventMutation_SetResourceType m
  else if String.eqb name "resource_id" then set_as as_uuid name value TenancyEventMutation_SetResourceID m
  else if String.eqb name "resource_name" then set_as as_string name value TenancyEventMutation_SetResourceName m
  else if String.eqb name "org_id" then set_as as_uuid name value TenancyEventMutation_SetOrgID m
  else if String.eqb name "org_name" then set_as as_string name value TenancyEventMutation_SetOrgName m
  else if String.eqb name "folder_id" then set_as as_uuid name value TenancyEventMutation_SetFolderID m
  else if String.eqb name "created_at" then set_as as_time name value TenancyEventMutation_SetCreatedAt m
  else (Some (unknown_name "TenancyEvent" "field" name), m).
Definition TenancyEventMutation_AddedFields (m : TenancyEventChange) : list string := [].
Definition TenancyEventMutation_AddedField (name : string) (m : TenancyEventChange) : option Value := None.
Definition TenancyEventMutation_AddField (name : string) (value : Value) (m : TenancyEventChange) : option error * TenancyEventChange :=
  (Some (unknown_name "TenancyEvent" "numeric field" name), m).
Definition TenancyEventMutation_FieldCleared (name : string) (m : TenancyEventChange) : bool :=
  field_cleared name (ec_change m).
Definition TenancyEventMutation_ClearedFields (m : TenancyEventChange) : list string :=
  names_if [(TenancyEventMutation_FieldCleared "org_id" m, "org_id"); (TenancyEventMutation_FieldCleared "org_name" m, "org_name"); (TenancyEventMutation_FieldCleared "folder_id" m, "folder_id")].
Definition TenancyEventMutation_ClearField (name : string) (m : TenancyEventChange) : option error * TenancyEventChange :=
  if String.eqb name "org_id" then (None, TenancyEventMutation_ClearOrgID m)
  else if String.eqb name "org_name" then (None, TenancyEventMutation_ClearOrgName m)
  else if String.eqb name "folder_id" then (None, TenancyEventMutation_ClearFolderID m)
  else (Some (unknown_name "TenancyEvent" "nullable field" name), m).
Definition TenancyEventMutation_ResetField (name : string) (m : TenancyEventChange) : option error * TenancyEventChange :=
  if String.eqb name "event_type" then (None, TenancyEventMutation_ResetEventType m)
  else if String.eqb name "resource_type" then (None, TenancyEventMutation_ResetResourceType m)
  else if String.eqb name "resource_id" then (None, TenancyEventMutation_ResetResourceID m)
  else if String.eqb name "resource_name" then (None, TenancyEventMutation_ResetResourceName m)
  else if String.eqb name "org_id" then (None, TenancyEventMutation_ResetOrgID m)
  else if String.eqb name "org_name" then (None, TenancyEventMutation_ResetOrgName m)
  else if String.eqb name "folder_id" then (None, TenancyEventMutation_ResetFolderID m)
  else if String.eqb name "created_at" then (None, TenancyEventMutation_ResetCreatedAt m)
  else (Some (unknown_name "TenancyEvent" "field" name), m).

Definition TenancyEventMutation_AddedEdges (m : TenancyEventChange) : list string := [].
Definition TenancyEventMutation_AddedIDs (name : string) (m : TenancyEventChange) : list Value :=
  [].
Definition TenancyEventMutation_RemovedEdges (m : TenancyEventChange) : list string := [].
Definition TenancyEventMutation_RemovedIDs (name : string) (m : TenancyEventChange) : list Value :=
  [].
Definition TenancyEventMutation_ClearedEdges (m : TenancyEventChange) : list string := [].
Definition TenancyEventMutation_EdgeCleared (name : string) (m : TenancyEventChange) : bool :=
  false.
Definition TenancyEventMutation_ClearEdge (name : string) (m : TenancyEventChange) : option error * TenancyEventChange :=
  (Some (unknown_name "TenancyEvent" "unique edge" name), m).
Definition TenancyEventMutation_ResetEdge (name : string) (m : TenancyEventChange) : option error * TenancyEventChange :=
  (Some (unknown_name "TenancyEvent" "edge" name), m).

Section tenancyevent_old.
Context `{Driver} `{Runtime} `{UUIDLib}.

Definition ec_old {V} (label : string) (field : TenancyEvent → V) (m : TenancyEventChange) : M ((error + V) * TenancyEventChange) :=
  r ← old_field TenancyEventClient_Get label field (TenancyEventMutation_ID m) (ec_change m); mret (r.1, ec_with (λ _, r.2) m).
Definition TenancyEventMutation_OldEventType : TenancyEventChange → M ((error + string) * TenancyEventChange) :=
  ec_old "OldEventType" TenancyEvent_EventType.
Definition TenancyEventMutation_OldResourceType : TenancyEventChange → M ((error + string) * TenancyEventChange) :=
  ec_old "OldResourceType" TenancyEvent_ResourceType.
Definition TenancyEventMutation_OldResourceID : TenancyEventChange → M ((error + UUID) * TenancyEventChange) :=
  ec_old "OldResourceID" TenancyEvent_ResourceID.
Definition TenancyEventMutation_OldResourceName : TenancyEventChange → M ((error + string) * TenancyEventChange) :=
  ec_old "OldResourceName" TenancyEvent_ResourceName.
Definition TenancyEventMutation_OldOrgID : TenancyEventChange → M ((error + option UUID) * TenancyEventChange) :=
  ec_old "OldOrgID" TenancyEvent_OrgID.
Definition TenancyEventMutation_OldOrgName : TenancyEventChange → M ((error + option string) * TenancyEventChange) :=
  ec_old "OldOrgName" TenancyEvent_OrgName.
Definition TenancyEventMutation_OldFolderID : TenancyEventChange → M ((error + option UUID) * TenancyEventChange) :=
  ec_old "OldFolderID" TenancyEvent_FolderID.
Definition TenancyEventMutation_OldCreatedAt : TenancyEventChange → M ((error + Time) * TenancyEventChange) :=
  ec_old "OldCreatedAt" TenancyEvent_CreatedAt.
Definition TenancyEventMutation_OldField (name : string) (m : TenancyEventChange) : M ((error + option Value) * TenancyEventChange) :=
  if String.eqb name "event_type" then old_as (λ v, Some (AString v)) (TenancyEventMutation_OldEventType m)
  else if String.eqb name "resource_type" then old_as (λ v, Some (AString v)) (TenancyEventMutation_OldResourceType m)
  else if String.eqb name "resource_id" then old_as (λ v, Some (AUUID v)) (TenancyEventMutation_OldResourceID m)
  else if String.eqb name "resource_name" then old_as (λ v, Some (AString v)) (TenancyEventMutation_OldResourceName m)
  else if String.eqb name "org_id" then old_as (fmap AUUID) (TenancyEventMutation_OldOrgID m)
  else if String.eqb name "org_name" then old_as (fmap AString) (TenancyEventMutation_OldOrgName m)
  else if String.eqb name "folder_id" then old_as (fmap AUUID) (TenancyEventMutation_OldFolderID m)
  else if String.eqb name "created_at" then old_as (λ v, Some (ATime v)) (TenancyEventMutation_OldCreatedAt m)
  else mret (inl (unknown_name "TenancyEvent" "field" name), m).
Definition TenancyEventMutation_IDs `{EntOp} (m : TenancyEventChange) : M (list Z) :=
  change_ids TenancyEvent_ID (TenancyEventMutation_ID m) (ec_change m).
End tenancyevent_old.

(** ** ControllerStatus *)

Definition sm_put_controller_name (v : option string) (s : ControllerStatusMutation) : ControllerStatusMutation :=
  mkControllerStatusMutation v (sm_resource_type s) (sm_resource_id s) (sm_status s)
    (sm_message s) (sm_updated_at s).
Definition sm_put_resource_type (v : option string) (s : ControllerStatusMutation) : ControllerStatusMutation :=
  mkControllerStatusMutation (sm_controller_name s) v (sm_resource_id s) (sm_status s)
    (sm_message s) (sm_updated_at s).
Definition sm_put_resource_id (v : option UUID) (s : ControllerStatusMutation) : ControllerStatusMutation :=
  mkControllerStatusMutation (sm_controller_name s) (sm_resource_type s) v (sm_status s)
    (sm_message s) (sm_updated_at s).
Definition sm_put_status (v : option string) (s : ControllerStatusMutation) : ControllerStatusMutation :=
  mkControllerStatusMutation (sm_controller_name s) (sm_resource_type s) (sm_resource_id s) v
    (sm_message s) (sm_updated_at s).
Definition sm_put_message (v : option string) (s : ControllerStatusMutation) : ControllerStatusMutation :=
  mkControllerStatusMutation (sm_controller_name s) (sm_resource_type s) (sm_resource_id s)
    (sm_status s) v (sm_updated_at s).
Definition sm_put_updated_at (v : option Time) (s : ControllerStatusMutation) : ControllerStatusMutation :=
  mkControllerStatusMutation (sm_controller_name s) (sm_resource_type s) (sm_resource_id s)
    (sm_status s) (sm_message s) v.

Record ControllerStatusChange := mkControllerStatusChange { sc_set : ControllerStatusMutation; sc_id : option Z; sc_change : Change Z ControllerStatus }.
Definition sc_over (f : ControllerStatusMutation → ControllerStatusMutation) (m : ControllerStatusChange) : ControllerStatusChange :=
  mkControllerStatusChange (f (sc_set m)) (sc_id m) (sc_change m).
Definition sc_with (f : Change Z ControllerStatus → Change Z ControllerStatus) (m : ControllerStatusChange) : ControllerStatusChange :=
  mkControllerStatusChange (sc_set m) (sc_id m) (f (sc_change m)).
Definition sc_put_id (id : option Z) (m : ControllerStatusChange) : ControllerStatusChange :=
  mkControllerStatusChange (sc_set m) id (sc_change m).
Definition ControllerStatusMutation_new (op : Op) : ControllerStatusChange :=
  mkControllerStatusChange newControllerStatusMutation None (new_change op NoOldValue).
Definition withControllerStatusID (id : Z) (m : ControllerStatusChange) : ControllerStatusChange :=
  sc_put_id (Some id) (sc_with (with_old (OldQuery id None)) m).
Definition withControllerStatus (node : ControllerStatus) (m : ControllerStatusChange) : ControllerStatusChange :=
  sc_put_id (Some (ControllerStatus_ID node)) (sc_with (with_old (OldNode node)) m).
Definition ControllerStatusMutation_ID (m : ControllerStatusChange) : option Z := sc_id m.

Definition ControllerStatusMutation_SetControllerName (v : string) : ControllerStatusChange → ControllerStatusChange :=
  sc_over (sm_put_controller_name (Some v)).
Definition ControllerStatusMutation_ControllerName (m : ControllerStatusChange) : option string :=
  sm_controller_name (sc_set m).
Definition ControllerStatusMutation_ResetControllerName : ControllerStatusChange → ControllerStatusChange :=
  sc_over (sm_put_controller_name None).
Definition ControllerStatusMutation_SetResourceType (v : string) : ControllerStatusChange → ControllerStatusChange :=
  sc_over (sm_put_resource_type (Some v)).
Definition ControllerStatusMutation_ResourceType (m : ControllerStatusChange) : option string :=
  sm_resource_type (sc_set m).
Definition ControllerStatusMutation_ResetResourceType : ControllerStatusChange → ControllerStatusChange :=
  sc_over (sm_put_resource_type None).
Definition ControllerStatusMutation_SetResourceID (v : UUID) : ControllerStatusChange → ControllerStatusChange :=
  sc_over (sm_put_resource_id (Some v)).
Definition ControllerStatusMutation_ResourceID (m : ControllerStatusChange) : option UUID :=
  sm_resource_id (sc_set m).
Definition ControllerStatusMutation_ResetResourceID : ControllerStatusChange → ControllerStatusChange :=
  sc_over (sm_put_resource_id None).
Definition ControllerStatusMutation_SetStatus (v : string) : ControllerStatusChange → ControllerStatusChange :=
  sc_over (sm_put_status (Some v)).
Definition ControllerStatusMutation_Status (m : ControllerStatusChange) : option string := sm_status (sc_set m).
Definition ControllerStatusMutation_ResetStatus : ControllerStatusChange → ControllerStatusChange :=
  sc_over (sm_put_status None).
Definition ControllerStatusMutation_SetMessage (v : string) : ControllerStatusChange → ControllerStatusChange :=
  sc_over (sm_put_message (Some v)).
Definition ControllerStatusMutation_Message (m : ControllerStatusChange) : option string :=
  sm_message (sc_set m).
Definition ControllerStatusMutation_ResetMessage : ControllerStatusChange → ControllerStatusChange :=
  sc_over (sm_put_message None).
Definition ControllerStatusMutation_SetUpdatedAt (v : Time) : ControllerStatusChange → ControllerStatusChange :=
  sc_over (sm_put_updated_at (Some v)).
Definition ControllerStatusMutation_UpdatedAt (m : ControllerStatusChange) : option Time :=
  sm_updated_at (sc_set m).
Definition ControllerStatusMutation_ResetUpdatedAt : ControllerStatusChange → ControllerStatusChange :=
  sc_over (sm_put_updated_at None).

Definition ControllerStatusMutation_Where (ps : list (predicate ControllerStatus)) : ControllerStatusChange → ControllerStatusChange :=
  sc_with (with_predicates ps).
Definition ControllerStatusMutation_WhereP (ps : list (predicate ControllerStatus)) (m : ControllerStatusChange) : ControllerStatusChange :=
  ControllerStatusMutation_Where ps m.
Definition ControllerStatusMutation_Op (m : ControllerStatusChange) : Op := c_op (sc_change m).
Definition ControllerStatusMutation_SetOp (op : Op) : ControllerStatusChange → ControllerStatusChange :=
  sc_with (with_op op).
Definition ControllerStatusMutation_Type (m : ControllerStatusChange) : string := "ControllerStatus".

Definition ControllerStatusMutation_Fields (m : ControllerStatusChange) : list string :=
  names_if [(is_some (ControllerStatusMutation_ControllerName m), "controller_name");
            (is_some (ControllerStatusMutation_ResourceType m), "resource_type");
            (is_some (ControllerStatusMutation_ResourceID m), "resource_id");
            (is_some (ControllerStatusMutation_Status m), "status");
            (is_some (ControllerStatusMutation_Message m), "message");
            (is_some (ControllerStatusMutation_UpdatedAt m), "updated_at")].
Definition ControllerStatusMutation_Field (name : string) (m : ControllerStatusChange) : option Value :=
  if String.eqb name "controller_name" then AString <$> ControllerStatusMutation_ControllerName m
  else if String.eqb name "resource_type" then AString <$> ControllerStatusMutation_ResourceType m
  else if String.eqb name "resource_id" then AUUID <$> ControllerStatusMutation_ResourceID m
  else if String.eqb name "status" then AStatus <$> ControllerStatusMutation_Status m
  else if String.eqb name "message" then AString <$> ControllerStatusMutation_Message m
  else if String.eqb name "updated_at" then ATime <$> ControllerStatusMutation_UpdatedAt m
  else None.
Definition ControllerStatusMutation_SetField (name : string) (value : Value) (m : ControllerStatusChange) : option error * ControllerStatusChange :=
  if String.eqb name "controller_name" then set_as as_string name value ControllerStatusMutation_SetControllerName m
  else if String.eqb name "resource_type" then set_as as_string name value ControllerStatusMutation_SetResourceType m
  else if String.eqb name "resource_id" then set_as as_uuid name value ControllerStatusMutation_SetResourceID m
  else if String.eqb name "status" then set_as as_status name value ControllerStatusMutation_SetStatus m
  else if String.eqb name "message" then set_as as_string name value ControllerStatusMutation_SetMessage m
  else if String.eqb name "updated_at" then set_as as_time name value ControllerStatusMutation_SetUpdatedAt m
  else (Some (unknown_name "ControllerStatus" "field" name), m).
Definition ControllerStatusMutation_AddedFields (m : ControllerStatusChange) : list string := [].
Definition ControllerStatusMutation_AddedField (name : string) (m : ControllerStatusChange) : option Value :=
  None.
Definition ControllerStatusMutation_AddField (name : string) (value : Value) (m : ControllerStatusChange) : option error * ControllerStatusChange :=
  (Some (unknown_name "ControllerStatus" "numeric field" name), m).
Definition ControllerStatusMutation_FieldCleared (name : string) (m : ControllerStatusChange) : bool :=
  field_cleared name (sc_change m).
Definition ControllerStatusMutation_ClearedFields (m : ControllerStatusChange) : list string := [].
Definition ControllerStatusMutation_ClearField (name : string) (m : ControllerStatusChange) : option error * ControllerStatusChange :=
  (Some (unknown_name "ControllerStatus" "nullable field" name), m).
Definition ControllerStatusMutation_ResetField (name : string) (m : ControllerStatusChange) : option error * ControllerStatusChange :=
  if String.eqb name "controller_name" then (None, ControllerStatusMutation_ResetControllerName m)
  else if String.eqb name "resource_type" then (None, ControllerStatusMutation_ResetResourceType m)
  else if String.eqb name "resource_id" then (None, ControllerStatusMutation_ResetResourceID m)
  else if String.eqb name "status" then (None, ControllerStatusMutation_ResetStatus m)
  else if String.eqb name "message" then (None, ControllerStatusMutation_ResetMessage m)
  else if String.eqb name "updated_at" then (None, ControllerStatusMutation_ResetUpdatedAt m)
  else (Some (unknown_name "ControllerStatus" "field" name), m).

Definition ControllerStatusMutation_AddedEdges (m : ControllerStatusChange) : list string := [].
Definition ControllerStatusMutation_AddedIDs (name : string) (m : ControllerStatusChange) : list Value :=
  [].
Definition ControllerStatusMutation_RemovedEdges (m : ControllerStatusChange) : list string := [].
Definition ControllerStatusMutation_RemovedIDs (name : string) (m : ControllerStatusChange) : list Value :=
  [].
Definition ControllerStatusMutation_ClearedEdges (m : ControllerStatusChange) : list string := [].
Definition ControllerStatusMutation_EdgeCleared (name : string) (m : ControllerStatusChange) : bool :=
  false.
Definition ControllerStatusMutation_ClearEdge (name : string) (m : ControllerStatusChange) : option error * ControllerStatusChange :=
  (Some (unknown_name "ControllerStatus" "unique edge" name), m).
Definition ControllerStatusMutation_ResetEdge (name : string) (m : ControllerStatusChange) : option error * ControllerStatusChange :=
  (Some (unknown_name "ControllerStatus" "edge" name), m).

Section controllerstatus_old.
Context `{Driver} `{Runtime} `{UUIDLib}.

Definition sc_old {V} (label : string) (field : ControllerStatus → V) (m : ControllerStatusChange) : M ((error + V) * ControllerStatusChange) :=
  r ← old_field ControllerStatusClient_Get label field (ControllerStatusMutation_ID m) (sc_change m); mret (r.1, sc_with (λ _, r.2) m).
Definition ControllerStatusMutation_OldControllerName : ControllerStatusChange → M ((error + string) * ControllerStatusChange) :=
  sc_old "OldControllerName" ControllerStatus_ControllerName.
Definition ControllerStatusMutation_OldResourceType : ControllerStatusChange → M ((error + string) * ControllerStatusChange) :=
  sc_old "OldResourceType" ControllerStatus_ResourceType.
Definition ControllerStatusMutation_OldResourceID : ControllerStatusChange → M ((error + UUID) * ControllerStatusChange) :=
  sc_old "OldResourceID" ControllerStatus_ResourceID.
Definition ControllerStatusMutation_OldStatus : ControllerStatusChange → M ((error + string) * ControllerStatusChange) :=
  sc_old "OldStatus" ControllerStatus_Status.
Definition ControllerStatusMutation_OldMessage : ControllerStatusChange → M ((error + string) * ControllerStatusChange) :=
  sc_old "OldMessage" ControllerStatus_Message.
Definition ControllerStatusMutation_OldUpdatedAt : ControllerStatusChange → M ((error + Time) * ControllerStatusChange) :=
  sc_old "OldUpdatedAt" ControllerStatus_UpdatedAt.
Definition ControllerStatusMutation_OldField (name : string) (m : ControllerStatusChange) : M ((error + option Value) * ControllerStatusChange) :=
  if String.eqb name "controller_name" then old_as (λ v, Some (AString v)) (ControllerStatusMutation_OldControllerName m)
  else if String.eqb name "resource_type" then old_as (λ v, Some (AString v)) (ControllerStatusMutation_OldResourceType m)
  else if String.eqb name "resource_id" then old_as (λ v, Some (AUUID v)) (ControllerStatusMutation_OldResourceID m)
  else if String.eqb name "status" then old_as (λ v, Some (AStatus v)) (ControllerStatusMutation_OldStatus m)
  else if String.eqb name "message" then old_as (λ v, Some (AString v)) (ControllerStatusMutation_OldMessage m)
  else if String.eqb name "updated_at" then old_as (λ v, Some (ATime v)) (ControllerStatusMutation_OldUpdatedAt m)
  else mret (inl (unknown_name "ControllerStatus" "field" name), m).
Definition ControllerStatusMutation_IDs `{EntOp} (m : ControllerStatusChange) : M (list Z) :=
  change_ids ControllerStatus_ID (ControllerStatusMutation_ID m) (sc_change m).
End controllerstatus_old.

(** ** The five alike *)

Lemma is_some_fmap {A B} (f : A → B) (o : option A) : is_some (f <$> o) = is_some o.
Proof. by destruct o. Qed.
Lemma names_if_select (f : string → bool) l : names_if ((λ n, (f n, n)) <$> l) = select f l.
Proof. induction l as [|n l IH]; [done|]. unfold names_if in *. simpl. destruct (f n); simpl; [f_equal|]; exact IH. Qed.
Lemma cleared_union (n d : string) (s : gset string) : bool_decide (d ∈ {[n]} ∪ s) = String.eqb d n || bool_decide (d ∈ s).
Proof.
  destruct (String.eqb_spec d n) as [->|Hne]; simpl; [by apply bool_decide_eq_true_2; set_solver|]. apply bool_decide_ext. set_solver.
Qed.
Lemma cleared_without (n d : string) (s : gset string) : bool_decide (d ∈ s ∖ {[n]}) = negb (String.eqb d n) && bool_decide (d ∈ s).
Proof.
  destruct (String.eqb_spec d n) as [->|Hne]; simpl; [by apply bool_decide_eq_false_2; set_solver|]. apply bool_decide_ext. set_solver.
Qed.

(** A name is a field of the entity or none: one case each. *)
Ltac by_names :=
  repeat match goal with
         | |- context [String.eqb ?n ?k] => is_var n; destruct (String.eqb_spec n k) as [->|?]; simpl
         end.
(** What a call does to a field or to a cleared name [d]. *)
Ltac each_name Field FieldCleared :=
  let d := fresh "d" in intros d; unfold FieldCleared, field_cleared; simpl; rewrite ?cleared_union, ?cleared_without, ?andb_false_r;
  first [reflexivity | unfold Field; simpl; by_names; reflexivity].
Ltac changeable Field FieldCleared SetField ClearField ResetField :=
  split;
  [ simpl; intros op n; split; [unfold Field; by_names; reflexivity|]; apply bool_decide_eq_false_2, not_elem_of_empty
  | intros c; transitivity (names_if ((λ n, (is_some (ch_Field n c), n)) <$> (fst <$> ch_fields)));
    [simpl; unfold Field; simpl; by rewrite ?is_some_fmap | apply names_if_select]
  | intros c; exact (names_if_select (λ n, ch_FieldCleared n c) ch_nillable)
  | simpl; intros n v c; unfold SetField, set_error, type_in; by_names; unfold set_as; destruct v; simpl;
    split_and!; (reflexivity || each_name Field FieldCleared)
  | simpl; intros n c; unfold ClearField, clear_error, mem_string; simpl; by_names; split_and!; (reflexivity || each_name Field FieldCleared)
  | simpl; intros n c; unfold ResetField, reset_error, type_in, mem_string; simpl; by_names; split_and!; (reflexivity || each_name Field FieldCleared)
  | reflexivity
  | simpl; intros n v c; unfold Field, type_in; by_names; intros Hv; try discriminate Hv;
    match type of Hv with _ <$> ?o = _ => destruct o; [|discriminate Hv] end; by injection Hv as <- ].

#[export] Instance Org_changeable : Changeable OrgChange := {
  ch_entity := "Org";
  ch_fields := [("name", TString); ("description", TString); ("created_at", TTime);
    ("updated_at", TTime); ("deleted_at", TTime)];
  ch_nillable := ["deleted_at"];
  ch_new := OrgMutation_new;
  ch_Fields := OrgMutation_Fields; ch_Field := OrgMutation_Field;
  ch_SetField := OrgMutation_SetField; ch_AddField := OrgMutation_AddField;
  ch_ClearedFields := OrgMutation_ClearedFields; ch_FieldCleared := OrgMutation_FieldCleared;
  ch_ClearField := OrgMutation_ClearField; ch_ResetField := OrgMutation_ResetField;
  ch_rest := λ m, oc_over (λ s, mkOrgMutation None None None None None (om_id s)) (oc_with (with_cleared (λ _, ∅)) m) }.
#[export] Instance Org_changeable_laws : ChangeableLaws OrgChange.
Proof. changeable OrgMutation_Field OrgMutation_FieldCleared OrgMutation_SetField OrgMutation_ClearField OrgMutation_ResetField. Qed.
#[export] Instance Folder_changeable : Changeable FolderChange := {
  ch_entity := "Folder";
  ch_fields := [("name", TString); ("created_at", TTime); ("updated_at", TTime)];
  ch_nillable := [];
  ch_new := FolderMutation_new;
  ch_Fields := FolderMutation_Fields; ch_Field := FolderMutation_Field;
  ch_SetField := FolderMutation_SetField; ch_AddField := FolderMutation_AddField;
  ch_ClearedFields := FolderMutation_ClearedFields; ch_FieldCleared := FolderMutation_FieldCleared;
  ch_ClearField := FolderMutation_ClearField; ch_ResetField := FolderMutation_ResetField;
  ch_rest := λ m, fc_over (λ s, mkFolderMutation None None None (fm_id s) (fm_org s)) (fc_with (with_cleared (λ _, ∅)) m) }.
#[export] Instance Folder_changeable_laws : ChangeableLaws FolderChange.
Proof. changeable FolderMutation_Field FolderMutation_FieldCleared FolderMutation_SetField FolderMutation_ClearField FolderMutation_ResetField. Qed.
#[export] Instance Project_changeable : Changeable ProjectChange := {
  ch_entity := "Project";
  ch_fields := [("name", TString); ("description", TString); ("created_at", TTime);
    ("updated_at", TTime); ("deleted_at", TTime)];
  ch_nillable := ["deleted_at"];
  ch_new := ProjectMutation_new;
  ch_Fields := ProjectMutation_Fields; ch_Field := ProjectMutation_Field;
  ch_SetField := ProjectMutation_SetField; ch_AddField := ProjectMutation_AddField;
  ch_ClearedFields := ProjectMutation_ClearedFields; ch_FieldCleared := ProjectMutation_FieldCleared;
  ch_ClearField := ProjectMutation_ClearField; ch_ResetField := ProjectMutation_ResetField;
  ch_rest := λ m, pc_over (λ s, mkProjectMutation None None None None None (pm_id s) (pm_folder s)) (pc_with (with_cleared (λ _, ∅)) m) }.
#[export] Instance Project_changeable_laws : ChangeableLaws ProjectChange.
Proof. changeable ProjectMutation_Field ProjectMutation_FieldCleared ProjectMutation_SetField ProjectMutation_ClearField ProjectMutation_ResetField. Qed.
#[export] Instance TenancyEvent_changeable : Changeable TenancyEventChange := {
  ch_entity := "TenancyEvent";
  ch_fields := [("event_type", TString); ("resource_type", TString); ("resource_id", TUUID); ("resource_name", TString);
    ("org_id", TUUID); ("org_name", TString); ("folder_id", TUUID); ("created_at", TTime)];
  ch_nillable := ["org_id"; "org_name"; "folder_id"];
  ch_new := TenancyEventMutation_new;
  ch_Fields := TenancyEventMutation_Fields; ch_Field := TenancyEventMutation_Field;
  ch_SetField := TenancyEventMutation_SetField; ch_AddField := TenancyEventMutation_AddField;
  ch_ClearedFields := TenancyEventMutation_ClearedFields; ch_FieldCleared := TenancyEventMutation_FieldCleared;
  ch_ClearField := TenancyEventMutation_ClearField; ch_ResetField := TenancyEventMutation_ResetField;
  ch_rest := λ m, ec_over (λ _, mkTenancyEventMutation None None None None None None None None) (ec_with (with_cleared (λ _, ∅)) m) }.
#[export] Instance TenancyEvent_changeable_laws : ChangeableLaws TenancyEventChange.
Proof. changeable TenancyEventMutation_Field TenancyEventMutation_FieldCleared TenancyEventMutation_SetField TenancyEventMutation_ClearField TenancyEventMutation_ResetField. Qed.
#[export] Instance ControllerStatus_changeable : Changeable ControllerStatusChange := {
  ch_entity := "ControllerStatus";
  ch_fields := [("controller_name", TString); ("resource_type", TString); ("resource_id", TUUID);
    ("status", TStatus); ("message", TString); ("updated_at", TTime)];
  ch_nillable := [];
  ch_new := ControllerStatusMutation_new;
  ch_Fields := ControllerStatusMutation_Fields; ch_Field := ControllerStatusMutation_Field;
  ch_SetField := ControllerStatusMutation_SetField; ch_AddField := ControllerStatusMutation_AddField;
  ch_ClearedFields := ControllerStatusMutation_ClearedFields; ch_FieldCleared := ControllerStatusMutation_FieldCleared;
  ch_ClearField := ControllerStatusMutation_ClearField; ch_ResetField := ControllerStatusMutation_ResetField;
  ch_rest := λ m, sc_over (λ _, mkControllerStatusMutation None None None None None None) (sc_with (with_cleared (λ _, ∅)) m) }.
#[export] Instance ControllerStatus_changeable_laws : ChangeableLaws ControllerStatusChange.
Proof. changeable ControllerStatusMutation_Field ControllerStatusMutation_FieldCleared ControllerStatusMutation_SetField ControllerStatusMutation_ClearField ControllerStatusMutation_ResetField. Qed.

Definition change (e : Entity) : Type :=
  match e with
  | EOrg => OrgChange | EFolder => FolderChange | EProject => ProjectChange
  | ETenancyEvent => TenancyEventChange | EControllerStatus => ControllerStatusChange
  end.
#[export] Instance entity_changeable (e : Entity) : Changeable (change e) :=
  match e with
  | EOrg => Org_changeable | EFolder => Folder_changeable | EProject => Project_changeable
  | ETenancyEvent => TenancyEvent_changeable | EControllerStatus => ControllerStatus_changeable
  end.
#[export] Instance entity_changeable_laws e : ChangeableLaws (change e).
Proof. destruct e; apply _. Qed.

(** The fields are the columns of the table, but for the key. *)
Lemma fields_columns e : "id" :: (fst <$> ch_fields (C:=change e)) =
  match e with
  | EOrg => Org_Columns | EFolder => Folder_Columns | EProject => Project_Columns
  | ETenancyEvent => TenancyEvent_Columns | EControllerStatus => ControllerStatus_Columns
  end.
Proof. by destruct e. Qed.

(** C18: the dynamic half of a mutation is a map from the fields of the schema to values of their
    types with a set of cleared fields: after any sequence of [SetField], [AddField],
    [ClearField] and [ResetField], the errors returned, the fields [Field] and [FieldCleared]
    answer and the lists [Fields] and [ClearedFields] are those of the map; a value of another
    type, an unknown field and clearing one that is not nillable are refused and change nothing;
    edges, id, operation and predicates stay.  Setting a cleared field does not un-clear it. *)
Theorem mutation_refines (e : Entity) op ops (c : change e) s : represents c s →
  represents (ch_new (C:=change e) op) no_changes ∧
  let '(errs, c') := steps change_step ops c in
  let '(errs', s') := steps (spec_step (C:=change e)) ops s in
  errs = errs' ∧ represents c' s' ∧ ch_rest c' = ch_rest c ∧
  ch_Fields c' = select (λ n, is_some (s_values s' !! n)) (fst <$> ch_fields (C:=change e)) ∧
  ch_ClearedFields c' = select (λ n, bool_decide (n ∈ s_cleared s')) (ch_nillable (C:=change e)) ∧
  ∀ n v, s_values s' !! n = Some v → type_in n (ch_fields (C:=change e)) = Some (value_type v).
Proof.
  intros Hr. split; [apply represents_new|]. destruct (steps_refine ops c s Hr) as (He & Hr' & Hrest).
  destruct (steps change_step ops c) as [errs c'], (steps spec_step ops s) as [errs' s']. simpl in *.
  destruct (represents_lists c' s' Hr') as [Hf Hc]. split_and!; try done.
  intros n v Hn. apply (ch_typed n v c'). by rewrite (rep_field _ _ Hr').
Qed.
