(* ===== verification/EntUpdate.v ===== *)
(** * The generated client: the update builders of the five entities

    tenancy-manager/internal/ent/org_update.go and its siblings, on the whole mutations of
    EntMutations.v: [defaults], [check], the specification that [sqlSave] hands to sqlgraph (fields set
    and cleared in their order, edges added and cleared, the columns of the one entity that is
    read back), the translation of the errors and the mark that the mutation is done.  The
    setters of a builder call those of its mutation.

    sqlgraph's statements are the parameter [UpdateExec].  [written] is what a specification asks
    of a cell; the law of the parameter is that an update of the table's own columns is one
    [UPDATE] of the rows its predicates match, by any function that writes those cells, and that the
    update of one entity reads its columns back in the same transaction.  The theorem of the file is
    that every builder is that, with the function of the row that the mutation's fields say; on
    mutations without cleared fields and edges it is the short builder of EntMutation.v, through
    which the store updates. *)

From S2P Require Import Prelude GoStd Monad EntSchema Sqlgraph EntQuery EntMutation Logic EntLoad EntScan EntWhere EntChange EntMutations.

(** ** Specifications of updates (sqlgraph) *)

(** The target's key is the [id] of type UUID of an org, folder or project. *)
Record EdgeSpec := mkEdgeSpec {
  es_Rel : Rel; es_Inverse : bool; es_Table : string; es_Columns : list string; es_Bidi : bool; es_Nodes : list UUID }.
(** [sqlgraph.UpdateSpec]; the type of a value is that of the field. *)
Record NodeUpdate (K R : Type) := mkNodeUpdate {
  nu_Table : string; nu_Columns : list string; nu_ID : option K; nu_Predicates : list (predicate R);
  nu_Set : list (string * Value); nu_Clear : list (string * ValueType);
  nu_ClearEdges : list EdgeSpec; nu_AddEdges : list EdgeSpec }.
Arguments mkNodeUpdate {_ _}. Arguments nu_Table {_ _}. Arguments nu_Columns {_ _}. Arguments nu_ID {_ _}.
Arguments nu_Predicates {_ _}. Arguments nu_Set {_ _}. Arguments nu_Clear {_ _}.
Arguments nu_ClearEdges {_ _}. Arguments nu_AddEdges {_ _}.

Section specs.
Context {K R : Type}.

Definition NewUpdateSpec (table : string) (columns : list string) : NodeUpdate K R :=
  mkNodeUpdate table columns None [] [] [] [] [].
(** [_spec.Node.ID.Value = id], [_spec.Node.Columns = columns] *)
Definition with_node (id : K) (columns : list string) (s : NodeUpdate K R) : NodeUpdate K R :=
  mkNodeUpdate (nu_Table s) columns (Some id) (nu_Predicates s) (nu_Set s) (nu_Clear s) (nu_ClearEdges s) (nu_AddEdges s).
(** [if ps := m.predicates; len(ps) > 0 { _spec.Predicate = ... }]: all of them, in order. *)
Definition with_predicate (ps : list (predicate R)) (s : NodeUpdate K R) : NodeUpdate K R :=
  mkNodeUpdate (nu_Table s) (nu_Columns s) (nu_ID s) ps (nu_Set s) (nu_Clear s) (nu_ClearEdges s) (nu_AddEdges s).
(** [if value, ok := m.X(); ok { _spec.SetField(...) }] *)
Definition set_field (c : string) (v : option Value) (s : NodeUpdate K R) : NodeUpdate K R :=
  mkNodeUpdate (nu_Table s) (nu_Columns s) (nu_ID s) (nu_Predicates s)
    (nu_Set s ++ match v with Some v => [(c, v)] | None => [] end) (nu_Clear s) (nu_ClearEdges s) (nu_AddEdges s).
(** [if m.XCleared() { _spec.ClearField(...) }] *)
Definition clear_field (c : string) (ty : ValueType) (cleared : bool) (s : NodeUpdate K R) : NodeUpdate K R :=
  mkNodeUpdate (nu_Table s) (nu_Columns s) (nu_ID s) (nu_Predicates s) (nu_Set s)
    (nu_Clear s ++ if cleared then [(c, ty)] else []) (nu_ClearEdges s) (nu_AddEdges s).
(** [if cond { _spec.Edges.Clear = append(...) }] and its sibling. *)
Definition clear_edge (cond : bool) (e : EdgeSpec) (s : NodeUpdate K R) : NodeUpdate K R :=
  mkNodeUpdate (nu_Table s) (nu_Columns s) (nu_ID s) (nu_Predicates s) (nu_Set s) (nu_Clear s)
    (nu_ClearEdges s ++ if cond then [e] else []) (nu_AddEdges s).
Definition add_edge (cond : bool) (e : EdgeSpec) (s : NodeUpdate K R) : NodeUpdate K R :=
  mkNodeUpdate (nu_Table s) (nu_Columns s) (nu_ID s) (nu_Predicates s) (nu_Set s) (nu_Clear s)
    (nu_ClearEdges s) (nu_AddEdges s ++ if cond then [e] else []).
(** [len(nodes) > 0] *)
Definition any {A} (l : list A) : bool := negb (length l =? 0)%nat.
(** The three blocks of an edge to many and the two of an edge to one, with the same edge each time. *)
Definition many_edge (edge : list UUID → EdgeSpec) (cleared : bool) (removed added : list UUID) (s : NodeUpdate K R) : NodeUpdate K R :=
  s |> clear_edge cleared (edge [])
    |> clear_edge (any removed && negb cleared) (edge removed)
    |> add_edge (any added) (edge added).
Definition one_edge (edge : list UUID → EdgeSpec) (cleared : bool) (added : list UUID) (s : NodeUpdate K R) : NodeUpdate K R :=
  s |> clear_edge cleared (edge []) |> add_edge (any added) (edge added).
End specs.

(** The columns that the loop over [fields] appends, or the error of the first that is not one. *)
Fixpoint select_columns (valid : string → bool) (fields : list string) : error + list string :=
  match fields with
  | [] => inr []
  | f :: fields =>
      if negb (valid f) then inl (ValidationError f (errText ("ent: invalid field " +:+ quote f +:+ " for query")))
      else match select_columns valid fields with
           | inl err => inl err
           | inr columns => inr (if String.eqb f "id" then columns else f :: columns)
           end
  end.
(** The id and the columns of the one entity; without [Select] all of [columns]. *)
Definition one_node {K} (entity : string) (valid : string → bool) (columns : list string) (id : option K) (fields : list string)
    : error + K * list string :=
  match id with
  | None => inl (ValidationError "id" (errText ("ent: missing " +:+ quote (entity +:+ ".id") +:+ " for update")))
  | Some id =>
      if any fields
      then match select_columns valid fields with inl err => inl err | inr selected => inr (id, "id" :: selected) end
      else inr (id, columns)
  end.

(** ** What a specification asks for *)

(** The content of a cell; no field is set to a value of another type. *)
Definition cell_of (v : Value) : Cell :=
  match v with
  | AString s => CText s | ATime t => CTime t | AUUID u => CUUID u | AStatus s => CText s | AOther _ => CNull
  end.
Fixpoint value_in (c : string) (l : list (string * Value)) : option Value :=
  match l with
  | [] => None
  | (n, v) :: l => if String.eqb c n then Some v else value_in c l
  end.
(** An edge to one entity is the column of its foreign key. *)
Fixpoint key_in (c : string) (l : list EdgeSpec) : option UUID :=
  match l with
  | [] => None
  | e :: l => if mem_string c (es_Columns e) then head (es_Nodes e) else key_in c l
  end.
Definition written {K R} (s : NodeUpdate K R) (c : string) (old : Cell) : Cell :=
  match value_in c (nu_Set s) with
  | Some v => cell_of v
  | None => if mem_string c (fst <$> nu_Clear s) then CNull else
      match key_in c (nu_AddEdges s) with Some u => CUUID u | None => old end
  end.
(** One statement on the table's own columns: something is set, no column is both set and
    cleared, no edge is cleared and those that are added are foreign keys of the table. *)
Definition own_columns {K R} (s : NodeUpdate K R) : Prop :=
  nu_Set s ≠ [] ∧ (∀ c, mem_string c (fst <$> nu_Clear s) = true → value_in c (nu_Set s) = None) ∧
  nu_ClearEdges s = [] ∧ ∀ e, e ∈ nu_AddEdges s → es_Rel e = M2O.

(** ** The entities *)

Definition key (e : Entity) : Type := match e with EOrg | EFolder | EProject => UUID | _ => Z end.
Definition entity_ID (e : Entity) : key e → predicate (row e) :=
  match e with
  | EOrg => org_ID | EFolder => folder_ID | EProject => project_ID
  | ETenancyEvent => tenancyevent_ID | EControllerStatus => controllerstatus_ID
  end.
Definition Label (e : Entity) : string :=
  match e with
  | EOrg => org_Label | EFolder => folder_Label | EProject => project_Label
  | ETenancyEvent => tenancyevent_Label | EControllerStatus => controllerstatus_Label
  end.

(** [sqlgraph.UpdateNodes] and [UpdateNode]: the number of rows, the entity from the columns read
    back. *)
Class UpdateExec := {
  sqlgraph_UpdateNodes : ∀ e, NodeUpdate (key e) (row e) → M nat;
  sqlgraph_UpdateNode : ∀ e, NodeUpdate (key e) (row e) → M (Loaded (row e)) }.
(** The entity that is assigned from the columns of a row: the other fields stay as they are in a new
    one. *)
Definition read_row (e : Entity) (columns : list string) (r : row e) : Loaded (row e) :=
  match assignValues e columns ((λ c, co_get c (co_of r)) <$> columns) co_zero with inr n => n | inl _ => co_zero end.
Class UpdateExecLaws `{Driver} `{Runtime} `{UpdateExec} : Prop := {
  exec_nodes : ∀ e (s : NodeUpdate (key e) (row e)) f w, own_columns s →
    (∀ r c, c ∈ co_columns (R:=row e) → co_cell c (f r) = written s c (co_cell c r)) →
    sqlgraph_UpdateNodes e s w = UpdateNodes (mkUpdateSpec (nu_Predicates s) f) w;
  exec_node : ∀ e (s : NodeUpdate (key e) (row e)) id f w, own_columns s → nu_ID s = Some id → nu_Predicates s = [] →
    NoDup (nu_Columns s) → (∀ c, c ∈ nu_Columns s → c ∈ co_columns (R:=row e)) →
    (∀ r c, c ∈ co_columns (R:=row e) → co_cell c (f r) = written s c (co_cell c r)) →
    sqlgraph_UpdateNode e s w = (r ← UpdateNode (mkUpdateSpec [entity_ID e id] f); mret (read_row e (nu_Columns s) r)) w }.

(** [_u.mutation.done = true] when the statement succeeded. *)
Definition mutation_done {K R} (c : Change K R) : Change K R :=
  mkChange (c_op c) (c_clearedFields c) true (c_oldValue c) (c_predicates c).
(** [if err := check(); err != nil { return }; ...; if _, err = statement; err != nil { err = ...;
    return }; done; return]: the answer, with the mutation that the builder still has. *)
Definition save_checked {A C} (check : option error) (label : string) (done : C → C) (m : C) (statement : M A) : M ((error + A) * C) :=
  match check with
  | Some err => mret (inl err, m)
  | None =>
      r ← try (map_error (update_error label) statement);
      mret (r, match r with inl _ => m | inr _ => done m end)
  end.
(** A specification that may be refused. *)
Definition for_spec {A S} (s : error + S) (statement : S → M A) : M A :=
  match s with inl err => fail err | inr s => statement s end.

(** ** Org (org_update.go) *)

Definition org_ValidColumn (column : string) : bool := mem_string column Org_Columns.
Definition folders_edge : list UUID → EdgeSpec := mkEdgeSpec O2M false "folders" ["org_folders"] false.

(** The part of [sqlSave] that [OrgUpdate] and [OrgUpdateOne] share. *)
Definition OrgUpdate_spec (m : OrgChange) (s : NodeUpdate UUID Org) : NodeUpdate UUID Org :=
  s |> with_predicate (c_predicates (oc_change m))
    |> set_field "name" (AString <$> OrgMutation_Name m)
    |> set_field "description" (AString <$> OrgMutation_Description m)
    |> set_field "updated_at" (ATime <$> OrgMutation_UpdatedAt m)
    |> set_field "deleted_at" (ATime <$> OrgMutation_DeletedAt m)
    |> clear_field "deleted_at" TTime (OrgMutation_DeletedAtCleared m)
    |> many_edge folders_edge (OrgMutation_FoldersCleared m) (OrgMutation_RemovedFoldersIDs m) (OrgMutation_FoldersIDs m).
Definition OrgUpdateOne_spec (fields : list string) (m : OrgChange) : error + NodeUpdate UUID Org :=
  match one_node "Org" org_ValidColumn Org_Columns (OrgMutation_ID m) fields with
  | inl err => inl err
  | inr (id, columns) => inr (OrgUpdate_spec m (with_node id columns (NewUpdateSpec "orgs" Org_Columns)))
  end.

Section org_update.
Context `{Driver} `{Runtime} `{FieldValidators} `{UpdateExec}.

Definition OrgChange_defaults (m : OrgChange) : M OrgChange :=
  match OrgMutation_UpdatedAt m with
  | Some _ => mret m
  | None => v ← Now; mret (OrgMutation_SetUpdatedAt v m)
  end.
Definition OrgChange_check (m : OrgChange) : option error :=
  checks [validate "Org" "name" NameValidator (OrgMutation_Name m)].
Definition OrgChange_sqlSave (m : OrgChange) : M ((error + nat) * OrgChange) :=
  save_checked (OrgChange_check m) org_Label (oc_with mutation_done) m
    (sqlgraph_UpdateNodes EOrg (OrgUpdate_spec m (NewUpdateSpec "orgs" Org_Columns))).
Definition OrgChange_Save (m : OrgChange) : M ((error + nat) * OrgChange) :=
  m ← OrgChange_defaults m; OrgChange_sqlSave m.
Definition OrgChangeOne_sqlSave (fields : list string) (m : OrgChange) : M ((error + Loaded Org) * OrgChange) :=
  save_checked (OrgChange_check m) org_Label (oc_with mutation_done) m
    (for_spec (OrgUpdateOne_spec fields m) (sqlgraph_UpdateNode EOrg)).
Definition OrgChangeOne_Save (fields : list string) (m : OrgChange) : M ((error + Loaded Org) * OrgChange) :=
  m ← OrgChange_defaults m; OrgChangeOne_sqlSave fields m.
End org_update.

(** ** Folder (folder_update.go) *)

Definition folder_ValidColumn (column : string) : bool := mem_string column Folder_Columns || mem_string column Folder_ForeignKeys.
Definition org_edge : list UUID → EdgeSpec := mkEdgeSpec M2O true "folders" ["org_folders"] false.
Definition projects_edge : list UUID → EdgeSpec := mkEdgeSpec O2M false "projects" ["folder_projects"] false.

Definition FolderUpdate_spec (m : FolderChange) (s : NodeUpdate UUID Folder) : NodeUpdate UUID Folder :=
  s |> with_predicate (c_predicates (fc_change m))
    |> set_field "name" (AString <$> FolderMutation_Name m)
    |> set_field "updated_at" (ATime <$> FolderMutation_UpdatedAt m)
    |> one_edge org_edge (FolderMutation_OrgCleared m) (FolderMutation_OrgIDs m)
    |> many_edge projects_edge (FolderMutation_ProjectsCleared m) (FolderMutation_RemovedProjectsIDs m)
         (FolderMutation_ProjectsIDs m).
Definition FolderUpdateOne_spec (fields : list string) (m : FolderChange) : error + NodeUpdate UUID Folder :=
  match one_node "Folder" folder_ValidColumn Folder_Columns (FolderMutation_ID m) fields with
  | inl err => inl err
  | inr (id, columns) => inr (FolderUpdate_spec m (with_node id columns (NewUpdateSpec "folders" Folder_Columns)))
  end.
(** The edge that every folder and every project has. *)
Definition clears_required (entity edge : string) (cleared : bool) (added : list UUID) : option error :=
  if cleared && any added
  then Some (errText ("ent: clearing a required unique edge " +:+ quote (entity +:+ "." +:+ edge)))
  else None.

Section folder_update.
Context `{Driver} `{Runtime} `{FieldValidators} `{UpdateExec}.

Definition FolderChange_defaults (m : FolderChange) : M FolderChange :=
  match FolderMutation_UpdatedAt m with
  | Some _ => mret m
  | None => v ← Now; mret (FolderMutation_SetUpdatedAt v m)
  end.
Definition FolderChange_check (m : FolderChange) : option error :=
  checks [validate "Folder" "name" NameValidator (FolderMutation_Name m);
          clears_required "Folder" "org" (FolderMutation_OrgCleared m) (FolderMutation_OrgIDs m)].
Definition FolderChange_sqlSave (m : FolderChange) : M ((error + nat) * FolderChange) :=
  save_checked (FolderChange_check m) folder_Label (fc_with mutation_done) m
    (sqlgraph_UpdateNodes EFolder (FolderUpdate_spec m (NewUpdateSpec "folders" Folder_Columns))).
Definition FolderChange_Save (m : FolderChange) : M ((error + nat) * FolderChange) :=
  m ← FolderChange_defaults m; FolderChange_sqlSave m.
Definition FolderChangeOne_sqlSave (fields : list string) (m : FolderChange) : M ((error + Loaded Folder) * FolderChange) :=
  save_checked (FolderChange_check m) folder_Label (fc_with mutation_done) m
    (for_spec (FolderUpdateOne_spec fields m) (sqlgraph_UpdateNode EFolder)).
Definition FolderChangeOne_Save (fields : list string) (m : FolderChange) : M ((error + Loaded Folder) * FolderChange) :=
  m ← FolderChange_defaults m; FolderChangeOne_sqlSave fields m.
End folder_update.

(** ** Project (project_update.go) *)

Definition project_ValidColumn (column : string) : bool := mem_string column Project_Columns || mem_string column Project_ForeignKeys.
Definition folder_edge : list UUID → EdgeSpec := mkEdgeSpec M2O true "projects" ["folder_projects"] false.

Definition ProjectUpdate_spec (m : ProjectChange) (s : NodeUpdate UUID Project) : NodeUpdate UUID Project :=
  s |> with_predicate (c_predicates (pc_change m))
    |> set_field "name" (AString <$> ProjectMutation_Name m)
    |> set_field "description" (AString <$> ProjectMutation_Description m)
    |> set_field "updated_at" (ATime <$> ProjectMutation_UpdatedAt m)
    |> set_field "deleted_at" (ATime <$> ProjectMutation_DeletedAt m)
    |> clear_field "deleted_at" TTime (ProjectMutation_DeletedAtCleared m)
    |> one_edge folder_edge (ProjectMutation_FolderCleared m) (ProjectMutation_FolderIDs m).
Definition ProjectUpdateOne_spec (fields : list string) (m : ProjectChange) : error + NodeUpdate UUID Project :=
  match one_node "Project" project_ValidColumn Project_Columns (ProjectMutation_ID m) fields with
  | inl err => inl err
  | inr (id, columns) => inr (ProjectUpdate_spec m (with_node id columns (NewUpdateSpec "projects" Project_Columns)))
  end.

Section project_update.
Context `{Driver} `{Runtime} `{FieldValidators} `{UpdateExec}.

Definition ProjectChange_defaults (m : ProjectChange) : M ProjectChange :=
  match ProjectMutation_UpdatedAt m with
  | Some _ => mret m
  | None => v ← Now; mret (ProjectMutation_SetUpdatedAt v m)
  end.
Definition ProjectChange_check (m : ProjectChange) : option error :=
  checks [validate "Project" "name" NameValidator (ProjectMutation_Name m);
          clears_required "Project" "folder" (ProjectMutation_FolderCleared m) (ProjectMutation_FolderIDs m)].
Definition ProjectChange_sqlSave (m : ProjectChange) : M ((error + nat) * ProjectChange) :=
  save_checked (ProjectChange_check m) project_Label (pc_with mutation_done) m
    (sqlgraph_UpdateNodes EProject (ProjectUpdate_spec m (NewUpdateSpec "projects" Project_Columns))).
Definition ProjectChange_Save (m : ProjectChange) : M ((error + nat) * ProjectChange) :=
  m ← ProjectChange_defaults m; ProjectChange_sqlSave m.
Definition ProjectChangeOne_sqlSave (fields : list string) (m : ProjectChange) : M ((error + Loaded Project) * ProjectChange) :=
  save_checked (ProjectChange_check m) project_Label (pc_with mutation_done) m
    (for_spec (ProjectUpdateOne_spec fields m) (sqlgraph_UpdateNode EProject)).
Definition ProjectChangeOne_Save (fields : list string) (m : ProjectChange) : M ((error + Loaded Project) * ProjectChange) :=
  m ← ProjectChange_defaults m; ProjectChangeOne_sqlSave fields m.
End project_update.

(** ** TenancyEvent (tenancyevent_update.go)

    No field has a default on update, and there is no edge. *)

Definition tenancyevent_ValidColumn (column : string) : bool := mem_string column TenancyEvent_Columns.

Definition TenancyEventUpdate_spec (m : TenancyEventChange) (s : NodeUpdate Z TenancyEvent) : NodeUpdate Z TenancyEvent :=
  s |> with_predicate (c_predicates (ec_change m))
    |> set_field "event_type" (AString <$> TenancyEventMutation_EventType m)
    |> set_field "resource_type" (AString <$> TenancyEventMutation_ResourceType m)
    |> set_field "resource_id" (AUUID <$> TenancyEventMutation_ResourceID m)
    |> set_field "resource_name" (AString <$> TenancyEventMutation_ResourceName m)
    |> set_field "org_id" (AUUID <$> TenancyEventMutation_OrgID m)
    |> clear_field "org_id" TUUID (TenancyEventMutation_OrgIDCleared m)
    |> set_field "org_name" (AString <$> TenancyEventMutation_OrgName m)
    |> clear_field "org_name" TString (TenancyEventMutation_OrgNameCleared m)
    |> set_field "folder_id" (AUUID <$> TenancyEventMutation_FolderID m)
    |> clear_field "folder_id" TUUID (TenancyEventMutation_FolderIDCleared m).
Definition TenancyEventUpdateOne_spec (fields : list string) (m : TenancyEventChange) : error + NodeUpdate Z TenancyEvent :=
  match one_node "TenancyEvent" tenancyevent_ValidColumn TenancyEvent_Columns (TenancyEventMutation_ID m) fields with
  | inl err => inl err
  | inr (id, columns) => inr (TenancyEventUpdate_spec m (with_node id columns (NewUpdateSpec "tenancy_events" TenancyEvent_Columns)))
  end.

Section event_update.
Context `{Driver} `{Runtime} `{FieldValidators} `{UpdateExec}.

Definition TenancyEventChange_check (m : TenancyEventChange) : option error :=
  checks [validate "TenancyEvent" "event_type" field_NotEmpty (TenancyEventMutation_EventType m);
          validate "TenancyEvent" "resource_type" field_NotEmpty (TenancyEventMutation_ResourceType m);
          validate "TenancyEvent" "resource_name" (field_MaxLen 253) (TenancyEventMutation_ResourceName m);
          validate "TenancyEvent" "org_name" (field_MaxLen 253) (TenancyEventMutation_OrgName m)].
Definition TenancyEventChange_sqlSave (m : TenancyEventChange) : M ((error + nat) * TenancyEventChange) :=
  save_checked (TenancyEventChange_check m) tenancyevent_Label (ec_with mutation_done) m
    (sqlgraph_UpdateNodes ETenancyEvent (TenancyEventUpdate_spec m (NewUpdateSpec "tenancy_events" TenancyEvent_Columns))).
Definition TenancyEventChange_Save : TenancyEventChange → M ((error + nat) * TenancyEventChange) := TenancyEventChange_sqlSave.
Definition TenancyEventChangeOne_sqlSave (fields : list string) (m : TenancyEventChange) : M ((error + Loaded TenancyEvent) * TenancyEventChange) :=
  save_checked (TenancyEventChange_check m) tenancyevent_Label (ec_with mutation_done) m
    (for_spec (TenancyEventUpdateOne_spec fields m) (sqlgraph_UpdateNode ETenancyEvent)).
Definition TenancyEventChangeOne_Save (fields : list string) : TenancyEventChange → M ((error + Loaded TenancyEvent) * TenancyEventChange) :=
  TenancyEventChangeOne_sqlSave fields.
End event_update.

(** ** ControllerStatus (controllerstatus_update.go) *)

Definition controllerstatus_ValidColumn (column : string) : bool := mem_string column ControllerStatus_Columns.

Definition ControllerStatusUpdate_spec (m : ControllerStatusChange) (s : NodeUpdate Z ControllerStatus) : NodeUpdate Z ControllerStatus :=
  s |> with_predicate (c_predicates (sc_change m))
    |> set_field "controller_name" (AString <$> ControllerStatusMutation_ControllerName m)
    |> set_field "resource_type" (AString <$> ControllerStatusMutation_ResourceType m)
    |> set_field "resource_id" (AUUID <$> ControllerStatusMutation_ResourceID m)
    |> set_field "status" (AStatus <$> ControllerStatusMutation_Status m)
    |> set_field "message" (AString <$> ControllerStatusMutation_Message m)
    |> set_field "updated_at" (ATime <$> ControllerStatusMutation_UpdatedAt m).
Definition ControllerStatusUpdateOne_spec (fields : list string) (m : ControllerStatusChange) : error + NodeUpdate Z ControllerStatus :=
  match one_node "ControllerStatus" controllerstatus_ValidColumn ControllerStatus_Columns (ControllerStatusMutation_ID m) fields with
  | inl err => inl err
  | inr (id, columns) =>
      inr (ControllerStatusUpdate_spec m (with_node id columns (NewUpdateSpec "controller_status" ControllerStatus_Columns)))
  end.

Section status_update.
Context `{Driver} `{Runtime} `{FieldValidators} `{UpdateExec}.

Definition ControllerStatusChange_defaults (m : ControllerStatusChange) : M ControllerStatusChange :=
  match ControllerStatusMutation_UpdatedAt m with
  | Some _ => mret m
  | None => v ← Now; mret (ControllerStatusMutation_SetUpdatedAt v m)
  end.
Definition ControllerStatusChange_check (m : ControllerStatusChange) : option error :=
  checks [validate "ControllerStatus" "controller_name" field_NotEmpty (ControllerStatusMutation_ControllerName m);
          validate "ControllerStatus" "resource_type" field_NotEmpty (ControllerStatusMutation_ResourceType m);
          validate "ControllerStatus" "status" StatusValidator (ControllerStatusMutation_Status m)].
Definition ControllerStatusChange_sqlSave (m : ControllerStatusChange) : M ((error + nat) * ControllerStatusChange) :=
  save_checked (ControllerStatusChange_check m) controllerstatus_Label (sc_with mutation_done) m
    (sqlgraph_UpdateNodes EControllerStatus
      (ControllerStatusUpdate_spec m (NewUpdateSpec "controller_status" ControllerStatus_Columns))).
Definition ControllerStatusChange_Save (m : ControllerStatusChange) : M ((error + nat) * ControllerStatusChange) :=
  m ← ControllerStatusChange_defaults m; ControllerStatusChange_sqlSave m.
Definition ControllerStatusChangeOne_sqlSave (fields : list string) (m : ControllerStatusChange)
    : M ((error + Loaded ControllerStatus) * ControllerStatusChange) :=
  save_checked (ControllerStatusChange_check m) controllerstatus_Label (sc_with mutation_done) m
    (for_spec (ControllerStatusUpdateOne_spec fields m) (sqlgraph_UpdateNode EControllerStatus)).
Definition ControllerStatusChangeOne_Save (fields : list string) (m : ControllerStatusChange)
    : M ((error + Loaded ControllerStatus) * ControllerStatusChange) :=
  m ← ControllerStatusChange_defaults m; ControllerStatusChangeOne_sqlSave fields m.
End status_update.

(** ** The five alike *)

Section updates.
Context `{Driver} `{Runtime} `{FieldValidators} `{UpdateExec}.

Definition update_defaults (e : Entity) : change e → M (change e) :=
  match e with
  | EOrg => OrgChange_defaults | EFolder => FolderChange_defaults | EProject => ProjectChange_defaults
  | ETenancyEvent => mret | EControllerStatus => ControllerStatusChange_defaults
  end.
Definition update_check (e : Entity) : change e → option error :=
  match e with
  | EOrg => OrgChange_check | EFolder => FolderChange_check | EProject => ProjectChange_check
  | ETenancyEvent => TenancyEventChange_check | EControllerStatus => ControllerStatusChange_check
  end.
Definition update_Save (e : Entity) : change e → M ((error + nat) * change e) :=
  match e with
  | EOrg => OrgChange_Save | EFolder => FolderChange_Save | EProject => ProjectChange_Save
  | ETenancyEvent => TenancyEventChange_Save | EControllerStatus => ControllerStatusChange_Save
  end.
Definition updateOne_Save (e : Entity) : list string → change e → M ((error + Loaded (row e)) * change e) :=
  match e with
  | EOrg => OrgChangeOne_Save | EFolder => FolderChangeOne_Save | EProject => ProjectChangeOne_Save
  | ETenancyEvent => TenancyEventChangeOne_Save | EControllerStatus => ControllerStatusChangeOne_Save
  end.
End updates.

Definition update_spec (e : Entity) : change e → NodeUpdate (key e) (row e) → NodeUpdate (key e) (row e) :=
  match e with
  | EOrg => OrgUpdate_spec | EFolder => FolderUpdate_spec | EProject => ProjectUpdate_spec
  | ETenancyEvent => TenancyEventUpdate_spec | EControllerStatus => ControllerStatusUpdate_spec
  end.
Definition updateOne_spec (e : Entity) : list string → change e → error + NodeUpdate (key e) (row e) :=
  match e with
  | EOrg => OrgUpdateOne_spec | EFolder => FolderUpdateOne_spec | EProject => ProjectUpdateOne_spec
  | ETenancyEvent => TenancyEventUpdateOne_spec | EControllerStatus => ControllerStatusUpdateOne_spec
  end.
(** [<entity>.Columns] and [ValidColumn]. *)
Definition table_columns (e : Entity) : list string :=
  match e with
  | EOrg => Org_Columns | EFolder => Folder_Columns | EProject => Project_Columns
  | ETenancyEvent => TenancyEvent_Columns | EControllerStatus => ControllerStatus_Columns
  end.
Definition valid_column (e : Entity) : string → bool :=
  match e with
  | EOrg => org_ValidColumn | EFolder => folder_ValidColumn | EProject => project_ValidColumn
  | ETenancyEvent => tenancyevent_ValidColumn | EControllerStatus => controllerstatus_ValidColumn
  end.
(** The common part and the id of a mutation, and the mutation after a success. *)
Definition change_of (e : Entity) : change e → Change (key e) (row e) :=
  match e with
  | EOrg => oc_change | EFolder => fc_change | EProject => pc_change | ETenancyEvent => ec_change | EControllerStatus => sc_change
  end.
Definition change_id (e : Entity) : change e → option (key e) :=
  match e with
  | EOrg => OrgMutation_ID | EFolder => FolderMutation_ID | EProject => ProjectMutation_ID
  | ETenancyEvent => TenancyEventMutation_ID | EControllerStatus => ControllerStatusMutation_ID
  end.
Definition change_done (e : Entity) : change e → change e :=
  match e with
  | EOrg => oc_with mutation_done | EFolder => fc_with mutation_done | EProject => pc_with mutation_done
  | ETenancyEvent => ec_with mutation_done | EControllerStatus => sc_with mutation_done
  end.

(** Clearing the edge that every project has passes the checks: it is only refused together with
    a new folder, and the statement asks for NULL in a column that is NOT NULL (folders
    alike). *)
Lemma cleared_edge_unchecked `{FieldValidators} (m : ProjectChange) : ProjectMutation_Name m = None → pm_folder (pc_set m) = None →
  let m := ProjectMutation_ClearFolder m in
  ProjectChange_check m = None ∧
  ∀ s, nu_ClearEdges s = [] → nu_ClearEdges (ProjectUpdate_spec m s) = [folder_edge []] ∧ nu_AddEdges (ProjectUpdate_spec m s) = nu_AddEdges s.
Proof.
  intros Hn Hf m'. unfold ProjectChange_check, clears_required, ProjectMutation_Name, ProjectMutation_FolderIDs in *. simpl. rewrite Hn, Hf.
  split; [done|]. intros s Hs. unfold ProjectMutation_FolderIDs. simpl. rewrite Hs, Hf. simpl. by rewrite app_nil_r.
Qed.

(** ** The update of a row *)

Definition or_cleared {A} (new : option A) (cleared : bool) (old : option A) : option A :=
  match new with Some v => Some v | None => if cleared then None else old end.
(** What the fields and the edge to the parent of a mutation make of a row. *)
Definition update_row (e : Entity) : change e → row e → row e :=
  match e with
  | EOrg => λ m o, mkOrg (Org_ID o) (default (Org_Name o) (om_name (oc_set m))) (default (Org_Description o) (om_description (oc_set m)))
      (Org_CreatedAt o) (default (Org_UpdatedAt o) (om_updated_at (oc_set m)))
      (or_cleared (om_deleted_at (oc_set m)) (OrgMutation_DeletedAtCleared m) (Org_DeletedAt o))
  | EFolder => λ m f, mkFolder (Folder_ID f) (default (Folder_Name f) (fm_name (fc_set m))) (Folder_CreatedAt f)
      (default (Folder_UpdatedAt f) (fm_updated_at (fc_set m))) (default (Folder_org_folders f) (fm_org (fc_set m)))
  | EProject => λ m p, mkProject (Project_ID p) (default (Project_Name p) (pm_name (pc_set m)))
      (default (Project_Description p) (pm_description (pc_set m))) (Project_CreatedAt p)
      (default (Project_UpdatedAt p) (pm_updated_at (pc_set m)))
      (or_cleared (pm_deleted_at (pc_set m)) (ProjectMutation_DeletedAtCleared m) (Project_DeletedAt p))
      (default (Project_folder_projects p) (pm_folder (pc_set m)))
  | ETenancyEvent => λ m v, mkTenancyEvent (TenancyEvent_ID v) (default (TenancyEvent_EventType v) (em_event_type (ec_set m)))
      (default (TenancyEvent_ResourceType v) (em_resource_type (ec_set m)))
      (default (TenancyEvent_ResourceID v) (em_resource_id (ec_set m)))
      (default (TenancyEvent_ResourceName v) (em_resource_name (ec_set m)))
      (or_cleared (em_org_id (ec_set m)) (TenancyEventMutation_OrgIDCleared m) (TenancyEvent_OrgID v))
      (or_cleared (em_org_name (ec_set m)) (TenancyEventMutation_OrgNameCleared m) (TenancyEvent_OrgName v))
      (or_cleared (em_folder_id (ec_set m)) (TenancyEventMutation_FolderIDCleared m) (TenancyEvent_FolderID v))
      (TenancyEvent_CreatedAt v)
  | EControllerStatus => λ m s, ControllerStatusUpdate_fields (sc_set m) s
  end.
(** The foreign key that a mutation sets. *)
Definition parent_key (e : Entity) : change e → string → option UUID :=
  match e with
  | EFolder => λ m c, if String.eqb c "org_folders" then fm_org (fc_set m) else None
  | EProject => λ m c, if String.eqb c "folder_projects" then pm_folder (pc_set m) else None
  | _ => λ _ _, None
  end.
(** What the dynamic half of a mutation says of a cell. *)
Definition updated_cell (e : Entity) (m : change e) (c : string) (old : Cell) : Cell :=
  if mem_string c ["id"; "created_at"] then old else
  match ch_Field c m with
  | Some v => cell_of v
  | None => if ch_FieldCleared c m && mem_string c (ch_nillable (C:=change e)) then CNull else
      match parent_key e m c with Some u => CUUID u | None => old end
  end.

(** A fresh specification, of all rows or of one. *)
Definition fresh {K R} (s : NodeUpdate K R) : Prop := nu_Set s = [] ∧ nu_Clear s = [] ∧ nu_ClearEdges s = [] ∧ nu_AddEdges s = [].

Lemma value_in_app c l k : value_in c (l ++ k) = match value_in c l with Some v => Some v | None => value_in c k end.
Proof. induction l as [|[n v] l IH]; simpl; [done|]. by destruct (String.eqb c n). Qed.
Lemma value_in_one c n v : value_in c (match v with Some v => [(n, v)] | None => [] end) = if String.eqb c n then v else None.
Proof. destruct v; simpl; by destruct (String.eqb c n). Qed.
Lemma mem_cleared_app c (l k : list (string * ValueType)) : mem_string c (fst <$> l ++ k) = mem_string c (fst <$> l) || mem_string c (fst <$> k).
Proof. unfold mem_string. by rewrite fmap_app, existsb_app. Qed.
Lemma mem_cleared_one c n (ty : ValueType) (b : bool) : mem_string c (fst <$> (if b then [(n, ty)] else [])) = b && String.eqb c n.
Proof. destruct b; simpl; [|done]. unfold mem_string. simpl. apply orb_false_r. Qed.

(** Case analysis on the columns of a table. *)
Ltac row_columns Hc := repeat (apply elem_of_cons in Hc as [->|Hc]); [..|by apply elem_of_nil in Hc].
Ltac cells := repeat match goal with
  | |- context [match ?o with Some _ => _ | None => _ end] => is_var o; destruct o; simpl
  | |- context [default _ ?o] => is_var o; destruct o; simpl
  | |- context [or_cleared ?o _ _] => is_var o; destruct o; simpl
  | |- context [if ?b then _ else _] => destruct b; simpl
  end.
Ltac unfold_cleared :=
  unfold OrgMutation_ClearedFields, OrgMutation_DeletedAtCleared, OrgMutation_FieldCleared,
    ProjectMutation_ClearedFields, ProjectMutation_DeletedAtCleared, ProjectMutation_FieldCleared,
    TenancyEventMutation_ClearedFields, TenancyEventMutation_OrgIDCleared, TenancyEventMutation_OrgNameCleared,
    TenancyEventMutation_FolderIDCleared, TenancyEventMutation_FieldCleared, names_if.
Lemma update_cells e (m : change e) s r c : fresh s → c ∈ co_columns (R:=row e) →
  co_cell c (update_row e m r) = written (update_spec e m s) c (co_cell c r) ∧
  co_cell c (update_row e m r) = updated_cell e m c (co_cell c r).
Proof.
  intros (Hs & Hc & Hce & Hae) Hin. destruct s as [tb cs id ps st cl ce ae]; simpl in *; subst.
  destruct e; simpl in *; destruct m as [[] ]; row_columns Hin; unfold written, updated_cell; simpl;
    rewrite ?value_in_app, ?value_in_one, ?mem_cleared_app, ?mem_cleared_one;
    unfold_cleared; unfold mem_string, any; simpl;
    rewrite ?andb_false_r, ?andb_true_r; simpl; rewrite ?orb_false_r; split; cells; reflexivity.
Qed.

(** ** The statement of an update *)

(** The fields of the entity that an update sets: all but [created_at]. *)
Definition updatable (e : Entity) : list string := select (λ n, negb (String.eqb n "created_at")) (fst <$> ch_fields (C:=change e)).
(** The edges to children are not touched, and the edge to the parent is not cleared. *)
Definition keeps_edges (e : Entity) : change e → Prop :=
  match e with
  | EOrg => λ m, OrgMutation_FoldersCleared m = false ∧ OrgMutation_RemovedFoldersIDs m = [] ∧ OrgMutation_FoldersIDs m = []
  | EFolder => λ m, FolderMutation_OrgCleared m = false ∧ FolderMutation_ProjectsCleared m = false ∧
      FolderMutation_RemovedProjectsIDs m = [] ∧ FolderMutation_ProjectsIDs m = []
  | EProject => λ m, ProjectMutation_FolderCleared m = false
  | _ => λ _, True
  end.
(** A mutation whose update is one statement on the columns of its table. *)
Definition one_statement (e : Entity) (m : change e) : Prop :=
  keeps_edges e m ∧ (∃ n, n ∈ updatable e ∧ ch_Field n m ≠ None) ∧ ∀ n, n ∈ ch_ClearedFields m → ch_Field n m = None.

Lemma omap_fields (f : string → option Value) n l :
  omap (λ n, pair n <$> f n) (n :: l) = match f n with Some v => [(n, v)] | None => [] end ++ omap (λ n, pair n <$> f n) l.
Proof. simpl. by destruct (f n). Qed.
Lemma value_in_fields (f : string → option Value) c l : f c = None → value_in c (omap (λ n, pair n <$> f n) l) = None.
Proof.
  intros Hf. induction l as [|n l IH]; [done|]. rewrite omap_fields, value_in_app, value_in_one, IH.
  destruct (String.eqb_spec c n) as [<-|]; [by rewrite Hf|done].
Qed.
Lemma update_spec_fields e (m : change e) s : fresh s →
  nu_Set (update_spec e m s) = omap (λ n, pair n <$> ch_Field n m) (updatable e) ∧
  fst <$> nu_Clear (update_spec e m s) = ch_ClearedFields m.
Proof.
  intros (Hs & Hc & _). destruct s as [tb cs id ps st cl ce ae]; simpl in *; subst. split.
  - destruct e; match goal with |- context [updatable ?e] => let l := eval vm_compute in (updatable e) in change (updatable e) with l end;
      rewrite !omap_fields; simpl; rewrite <- ?(assoc_L (++)), app_nil_r; reflexivity.
  - destruct e; simpl; unfold_cleared; simpl; cells; reflexivity.
Qed.
(** The rest of the specification. *)
Lemma update_spec_rest e (m : change e) s :
  nu_Predicates (update_spec e m s) = c_predicates (change_of e m) ∧ nu_ID (update_spec e m s) = nu_ID s ∧
  nu_Columns (update_spec e m s) = nu_Columns s ∧ nu_Table (update_spec e m s) = nu_Table s.
Proof. by destruct e. Qed.
(** Without changes of the edges to children, the edge to the parent is left. *)
Lemma update_spec_edges e (m : change e) s : fresh s → keeps_edges e m →
  nu_ClearEdges (update_spec e m s) = [] ∧ ∀ ed, ed ∈ nu_AddEdges (update_spec e m s) → es_Rel ed = M2O.
Proof.
  intros (_ & _ & Hce & Hae) He. destruct s as [tb cs id ps st cl ce ae]; simpl in *; subst.
  destruct e; simpl; [destruct He as (-> & -> & ->)|destruct He as (-> & -> & -> & ->)|simpl in He; rewrite He| |].
  all: split; [done|]; simpl; intros ed Hed; rewrite ?app_nil_r in Hed.
  all: try destruct (any _); repeat (apply elem_of_cons in Hed as [->|Hed]; [done|]); by apply elem_of_nil in Hed.
Qed.
Lemma update_spec_own e (m : change e) s : fresh s → one_statement e m → own_columns (update_spec e m s).
Proof.
  intros Hf (He & (n & Hn & Hv) & Hc). destruct (update_spec_fields e m s Hf) as [Hset Hclear]. unfold own_columns.
  rewrite Hset, Hclear. split_and!.
  - intros Hnil. destruct (ch_Field n m) as [v|] eqn:Hnv; [|done].
    assert ((n, v) ∈ omap (λ n, pair n <$> ch_Field n m) (updatable e)) as Hin; [|rewrite Hnil in Hin; by apply elem_of_nil in Hin].
    apply list_elem_of_omap. exists n. by rewrite Hnv.
  - intros c Hm. apply value_in_fields, Hc. by apply mem_string_elem.
  - by apply update_spec_edges.
  - by apply update_spec_edges.
Qed.

(** [updated_at] is set to the current time, where there is one and it is not set. *)
Definition lacks_updated_at (e : Entity) (m : change e) : bool :=
  mem_string "updated_at" (fst <$> ch_fields (C:=change e)) && is_nil (ch_Field "updated_at" m).
Definition with_updated_at (e : Entity) (now : Time) (m : change e) : change e :=
  if lacks_updated_at e m then (ch_SetField "updated_at" (ATime now) m).2 else m.

(** The columns of one entity are columns of its table. *)
Lemma valid_columns e c : valid_column e c = true → c ∈ co_columns (R:=row e).
Proof.
  intros Hv. destruct e; [by apply mem_string_elem in Hv| | |by apply mem_string_elem in Hv..].
  - apply (elem_of_app Folder_Columns). apply orb_true_iff in Hv as [Hv|Hv]; apply mem_string_elem in Hv; auto.
  - apply (elem_of_app Project_Columns). apply orb_true_iff in Hv as [Hv|Hv]; apply mem_string_elem in Hv; auto.
Qed.
Lemma one_node_columns e (id : option (key e)) fields i columns :
  one_node (ch_entity (C:=change e)) (valid_column e) (table_columns e) id fields = inr (i, columns) →
  id = Some i ∧ ∀ c, c ∈ columns → c ∈ co_columns (R:=row e).
Proof.
  unfold one_node. destruct id as [i'|]; [|done]. destruct (any fields).
  - destruct (select_columns _ _) as [|selected] eqn:Hs; [done|]. intros [= <- <-]. split; [done|]. intros c [->|Hc]%elem_of_cons.
    { destruct e; by left. }
    revert selected Hs Hc. induction fields as [|f fields IH]; intros selected; simpl; [intros [= <-] ?%elem_of_nil; done|].
    destruct (valid_column e f) eqn:Hf; simpl; [|done]. destruct (select_columns _ fields) as [|selected']; [done|].
    intros [= <-] Hc. destruct (String.eqb f "id"); [by eapply IH|]. apply elem_of_cons in Hc as [->|Hc]; [by apply valid_columns|by eapply IH].
  - intros [= <- <-]. split; [done|]. intros c Hc. apply valid_columns. apply mem_string_elem in Hc.
    destruct e; [exact Hc|by apply orb_true_iff; left..|exact Hc|exact Hc].
Qed.

(** What is read back: the columns of the row, and nothing else. *)
Section read.
Context `{SQLScan} `{ColumnedLaws R}.
Lemma assign_columns_read r columns (n : Loaded R) : NoDup columns → (∀ c, c ∈ columns → c ∈ co_columns) →
  (∀ c, c ∈ columns → co_get c n = co_get c co_zero) →
  ∃ n', assign_columns co_assign columns ((λ c, co_get c (co_of r)) <$> columns) n = inr n' ∧
    ∀ c, c ∈ co_columns → co_get c n' = if mem_string c columns then co_get c (co_of r) else co_get c n.
Proof.
  revert n. induction columns as [|c columns IH]; intros n Hnd Hin Hz; [by exists n|].
  rewrite NoDup_cons in Hnd. destruct Hnd as [Hc Hnd]. rewrite fmap_cons. cbn [assign_columns].
  destruct (co_assigned c r n) as (n1 & -> & Hget & _ & Hother); [apply Hin; by left|apply Hz; by left|].
  destruct (IH n1) as (n' & Hn' & Hr); [done|set_solver| |].
  { intros d Hd. rewrite Hother; [apply Hz; by right|apply Hin; by right|by intros ->]. }
  exists n'. split; [done|]. intros d Hd. rewrite Hr by done. change (mem_string d (c :: columns)) with (String.eqb d c || mem_string d columns).
  destruct (String.eqb_spec d c) as [->|Hne]; simpl.
  - destruct (mem_string c columns) eqn:Hm; [by apply mem_string_elem in Hm|done].
  - destruct (mem_string d columns); [done|]. by apply Hother.
Qed.
End read.
Lemma read_row_spec `{SQLScanLaws} e columns (r : row e) : NoDup columns → (∀ c, c ∈ columns → c ∈ co_columns (R:=row e)) →
  ∀ c, c ∈ co_columns (R:=row e) → co_get c (read_row e columns r) = co_get c (if mem_string c columns then co_of r else co_zero).
Proof.
  intros Hnd Hin c Hc. unfold read_row. rewrite assign_values_ok by by rewrite length_fmap.
  destruct (assign_columns_read r columns co_zero) as (n & -> & Hn); [done..|]. rewrite Hn by done. by destruct (mem_string c columns).
Qed.

Section statement.
Context `{UpdateExecLaws} `{FieldValidators}.

Lemma update_defaults_spec e (m : change e) w :
  update_defaults e m w = (inr (with_updated_at e (rt_now (w_tick w)) m), if lacks_updated_at e m then (Now w).2 else w).
Proof.
  unfold with_updated_at, lacks_updated_at. destruct e; simpl; [..|done|].
  - unfold OrgChange_defaults, OrgMutation_Field. simpl. by destruct (OrgMutation_UpdatedAt m).
  - unfold FolderChange_defaults, FolderMutation_Field. simpl. by destruct (FolderMutation_UpdatedAt m).
  - unfold ProjectChange_defaults, ProjectMutation_Field. simpl. by destruct (ProjectMutation_UpdatedAt m).
  - unfold ControllerStatusChange_defaults, ControllerStatusMutation_Field. simpl. by destruct (ControllerStatusMutation_UpdatedAt m).
Qed.
(** [Save]: the defaults, the check, and the statement that the specification asks for. *)
Definition saved {A C} (label : string) (done : C → C) (m : C) (statement : M A) (w : World) : (error + (error + A) * C) * World :=
  let '(r, w') := map_error (update_error label) statement w in
  (inr (r, match r with inl _ => m | inr _ => done m end), w').
Lemma save_checked_spec {A C} check label (done : C → C) m (statement : M A) w :
  save_checked check label done m statement w =
    match check with Some err => (inr (inl err, m), w) | None => saved label done m statement w end.
Proof.
  unfold save_checked, saved, try, mbind, EM_bind. destruct check; [done|]. by destruct (map_error _ _ w).
Qed.
Definition refused (e : error) : Prop := ∃ name err, e = ValidationError name err.
Lemma select_columns_refused valid fields e : select_columns valid fields = inl e → refused e.
Proof.
  induction fields as [|f fields IH]; simpl; [done|]. destruct (negb (valid f)); [intros [= <-]; by do 2 eexists|].
  destruct (select_columns valid fields) as [err|]; [|done]. intros [= <-]. auto.
Qed.
Lemma one_node_refused {K} entity valid columns (id : option K) fields e : one_node entity valid columns id fields = inl e → refused e.
Proof.
  unfold one_node. destruct id; [|intros [= <-]; by do 2 eexists]. destruct (any fields); [|done].
  destruct (select_columns valid fields) as [err|] eqn:Hs; [|done]. intros [= <-]. by eapply select_columns_refused.
Qed.
Lemma update_Save_spec e (m : change e) w :
  let m1 := with_updated_at e (rt_now (w_tick w)) m in
  let w1 := if lacks_updated_at e m then (Now w).2 else w in
  update_Save e m w =
    match update_check e m1 with
    | Some err => (inr (inl err, m1), w1)
    | None => saved (Label e) (change_done e) m1
                (sqlgraph_UpdateNodes e (update_spec e m1 (NewUpdateSpec (table_name e) (table_columns e)))) w1
    end.
Proof.
  intros m1 w1. assert (update_defaults e m w = (inr m1, w1)) as Hd by apply update_defaults_spec.
  clearbody m1 w1. destruct e; simpl in *; [..|by injection Hd as <- <-; apply save_checked_spec|].
  all: unfold OrgChange_Save, FolderChange_Save, ProjectChange_Save, ControllerStatusChange_Save, mbind, EM_bind; rewrite Hd; apply save_checked_spec.
Qed.
Lemma updateOne_spec_alike e fields (m : change e) :
  updateOne_spec e fields m =
    match one_node (ch_entity (C:=change e)) (valid_column e) (table_columns e) (change_id e m) fields with
    | inl err => inl err
    | inr (id, columns) => inr (update_spec e m (with_node id columns (NewUpdateSpec (table_name e) (table_columns e))))
    end.
Proof. by destruct e. Qed.
Lemma updateOne_Save_spec e fields (m : change e) w :
  let m1 := with_updated_at e (rt_now (w_tick w)) m in
  let w1 := if lacks_updated_at e m then (Now w).2 else w in
  updateOne_Save e fields m w =
    match update_check e m1 with
    | Some err => (inr (inl err, m1), w1)
    | None => saved (Label e) (change_done e) m1 (for_spec (updateOne_spec e fields m1) (sqlgraph_UpdateNode e)) w1
    end.
Proof.
  intros m1 w1. assert (update_defaults e m w = (inr m1, w1)) as Hd by apply update_defaults_spec.
  clearbody m1 w1. destruct e; simpl in *; [..|by injection Hd as <- <-; apply save_checked_spec|].
  all: unfold OrgChangeOne_Save, FolderChangeOne_Save, ProjectChangeOne_Save, ControllerStatusChangeOne_Save, mbind, EM_bind; rewrite Hd; apply save_checked_spec.
Qed.
Lemma change_id_updated e now (m : change e) : change_id e (with_updated_at e now m) = change_id e m.
Proof. unfold with_updated_at. destruct e; simpl; try done; by destruct (lacks_updated_at _ m). Qed.

(** C19: the builder of an update of any of the five entities.  Save sets updated_at to the current time where there is such a field and it is not
    set; a field that a validator refuses ends it with the error and no statement, and so does an
    update of one entity without an id or with an unknown column selected.  Else, if something is
    set, nothing both set and cleared, no edge to children changed nor the one to the parent
    cleared, it is one UPDATE of the rows of the predicates; for one entity,
    without predicates, the UPDATE by its id and the SELECT of the row, in one transaction, the
    answer read from the columns selected once each, by default all but the foreign key, and new in
    every other field.  Each cell of a row becomes what the mutation, read as a map of fields, says:
    the value of a set field, NULL for a cleared one, the new parent's key, and what it was for the
    rest, the id and created_at even when the mutation sets it.  The mutation is done exactly after
    a success. *)
Theorem update_saves `{SQLScanLaws} e (m : change e) fields w :
  let m1 := with_updated_at e (rt_now (w_tick w)) m in
  let w1 := if lacks_updated_at e m then (Now w).2 else w in
  (∀ r c, c ∈ co_columns (R:=row e) → co_cell c (update_row e m1 r) = updated_cell e m1 c (co_cell c r)) ∧
  match update_check e m1 with
  | Some err => update_Save e m w = (inr (inl err, m1), w1) ∧ updateOne_Save e fields m w = (inr (inl err, m1), w1)
  | None =>
      (one_statement e m1 →
        update_Save e m w = saved (Label e) (change_done e) m1 (UpdateNodes (mkUpdateSpec (c_predicates (change_of e m1)) (update_row e m1))) w1) ∧
      match one_node (ch_entity (C:=change e)) (valid_column e) (table_columns e) (change_id e m) fields with
      | inl err => updateOne_Save e fields m w = (inr (inl err, m1), w1)
      | inr (id, columns) => one_statement e m1 → c_predicates (change_of e m1) = [] → NoDup columns →
          updateOne_Save e fields m w =
            saved (Label e) (change_done e) m1
              (r ← UpdateNode (mkUpdateSpec [entity_ID e id] (update_row e m1)); mret (read_row e columns r)) w1 ∧
          ∀ r c, c ∈ co_columns (R:=row e) →
            co_get c (read_row e columns r) = co_get c (if mem_string c columns then co_of r else co_zero)
      end
  end.
Proof.
  intros m1 w1. split; [intros r c Hc; by apply (update_cells e m1 (NewUpdateSpec (table_name e) (table_columns e)))|].
  rewrite (update_Save_spec e m w), (updateOne_Save_spec e fields m w). fold m1 w1.
  destruct (update_check e m1); [done|]. rewrite updateOne_spec_alike. subst m1. rewrite change_id_updated.
  set (m1 := with_updated_at _ _ m) in *. split.
  - intros Hone. unfold saved, map_error. erewrite exec_nodes; [|by apply update_spec_own|].
    + by rewrite (proj1 (update_spec_rest e m1 _)).
    + intros r c Hc. by apply update_cells.
  - destruct (one_node _ _ _ _ _) as [err|[id columns]] eqn:Hn.
    + apply one_node_refused in Hn as (? & ? & ->). done.
    + apply one_node_columns in Hn as [Hid Hcols]. intros Hone Hps Hnd. split; [|intros r; by apply read_row_spec].
      destruct (update_spec_rest e m1 (with_node id columns (NewUpdateSpec (table_name e) (table_columns e)))) as (Hp & Hi & Hc & _).
      simpl. unfold saved, map_error. erewrite exec_node; rewrite ?Hp, ?Hi, ?Hc; [|by apply update_spec_own|done..|].
      * done.
      * intros r c Hcin. by apply update_cells.
Qed.

(** ** The short builders of EntMutation.v *)

(** The answer and the world of a computation are those of the other. *)
Definition runs_as {A C} (short : M A) (whole : M ((error + A) * C)) (w : World) : Prop :=
  ∃ m', whole w = (inr ((short w).1, m'), (short w).2).
Lemma saved_runs_as {A C} label (done : C → C) m (statement : M A) w (whole : M ((error + A) * C)) (short : M A) w0 :
  whole w0 = saved label done m statement w → short w0 = map_error (update_error label) statement w → runs_as short whole w0.
Proof. intros Hw Hs. unfold runs_as. rewrite Hw, Hs. unfold saved. destruct (map_error _ _ _). by eexists. Qed.
Lemma one_statement_updated e now (m : change e) : e ≠ ETenancyEvent → keeps_edges e m → ch_ClearedFields m = [] →
  one_statement e (with_updated_at e now m) ∧ ch_ClearedFields (with_updated_at e now m) = [].
Proof.
  intros Hu He Hc. assert (ch_ClearedFields (with_updated_at e now m) = []) as Hc'.
  { rewrite ch_cleared_are in Hc |- *. rewrite <- Hc. apply select_ext. intros n _. unfold with_updated_at.
    destruct (lacks_updated_at e m); [|done]. pose proof (ch_set "updated_at" (ATime now) m) as Hs.
    destruct (ch_SetField _ _ m). apply Hs. }
  split; [|done]. split_and!; [|exists "updated_at"; split; [destruct e; by (done || apply (bool_decide_eq_true_1 _))|]|rewrite Hc'; intros n Hn; by apply elem_of_nil in Hn].
  - unfold with_updated_at. destruct (lacks_updated_at e m); [|done]. by destruct e.
  - unfold with_updated_at. destruct (lacks_updated_at e m) eqn:Hl.
    + by destruct e.
    + unfold lacks_updated_at in Hl. apply andb_false_iff in Hl as [Hl|Hl]; [by destruct e|]. by destruct (ch_Field _ m).
Qed.

(** The builders that the store uses. *)
Definition short_Save (e : Entity) (m : change e) : option (M nat) :=
  match e return change e → option (M nat) with
  | EOrg => λ m, Some (OrgUpdate_Save (c_predicates (oc_change m)) (oc_set m))
  | EProject => λ m, Some (ProjectUpdate_Save (c_predicates (pc_change m)) (pc_set m))
  | EControllerStatus => λ m, Some (ControllerStatusUpdate_Save (c_predicates (sc_change m)) (sc_set m))
  | _ => λ _, None
  end m.
Lemma saved_short e (m : change e) f w : one_statement e m → (∀ r, f r = update_row e m r) →
  saved (Label e) (change_done e) m (sqlgraph_UpdateNodes e (update_spec e m (NewUpdateSpec (table_name e) (table_columns e)))) w =
  saved (Label e) (change_done e) m (UpdateNodes (mkUpdateSpec (c_predicates (change_of e m)) f)) w.
Proof.
  intros Hone Hf. unfold saved, map_error. erewrite exec_nodes; [|by apply update_spec_own|].
  - by rewrite (proj1 (update_spec_rest e m _)).
  - intros r c Hc. rewrite Hf. by apply update_cells.
Qed.
Lemma guarded_runs_as e (m : change e) f short w :
  let m1 := with_updated_at e (rt_now (w_tick w)) m in
  one_statement e m1 → (∀ r, f r = update_row e m1 r) →
  short w = guard_check (update_check e m1) (map_error (update_error (Label e))
    (UpdateNodes (mkUpdateSpec (c_predicates (change_of e m1)) f))) (if lacks_updated_at e m then (Now w).2 else w) →
  runs_as short (update_Save e m) w.
Proof.
  intros m1 Hone Hf Hs. pose proof (update_Save_spec e m w) as Hw. cbv zeta in Hw. fold m1 in Hw.
  destruct (update_check e m1) as [err|]; simpl in Hs.
  - exists m1. rewrite Hw, Hs. done.
  - eapply saved_runs_as; [rewrite Hw; by apply saved_short|exact Hs].
Qed.
(** Without cleared fields, an update writes what the short builders do. *)
Definition short_row (e : Entity) : change e → row e → row e :=
  match e with
  | EOrg => λ m, OrgUpdate_fields (oc_set m) | EProject => λ m, ProjectUpdate_fields (pc_set m) | e => update_row e
  end.
Lemma update_row_short e (m : change e) r : ch_ClearedFields m = [] → short_row e m r = update_row e m r.
Proof.
  intros Hc. destruct e; simpl in *; try done; revert Hc; unfold_cleared; simpl; destruct (field_cleared _ _); simpl; intros; done.
Qed.
(** The builders the store updates through, which know neither cleared fields nor edges to
    children, are the whole builders of orgs, projects and statuses: on a mutation without such changes
    Save returns the same answer, the number of rows or the error, in the same state of the
    database and of the transaction. *)
Lemma short_updates e (m : change e) short w : short_Save e m = Some short → keeps_edges e m → ch_ClearedFields m = [] →
  runs_as short (update_Save e m) w.
Proof.
  intros Hs He Hc. assert (e ≠ ETenancyEvent) as Hne by by intros ->.
  destruct (one_statement_updated e (rt_now (w_tick w)) m Hne He Hc) as [Hone Hc'].
  apply (guarded_runs_as e m (short_row e (with_updated_at e (rt_now (w_tick w)) m))); [done|intros r; by apply update_row_short|].
  unfold with_updated_at, lacks_updated_at. destruct e; simpl in *; try done; injection Hs as <-.
  - unfold OrgMutation_Field. simpl. by destruct m as [[? ? ? [] ? ?] ].
  - unfold ProjectMutation_Field, ProjectChange_check, clears_required. simpl. destruct m as [[? ? ? [] ? ? ?] ? cleared]; simpl in *; by subst cleared.
  - unfold ControllerStatusMutation_Field. simpl. by destruct m as [[? ? ? ? ? []] ].
Qed.
End statement.
