(* ===== verification/StoreOrg.v ===== *)
(** * The store's operations on orgs

    Functional specifications for a lawful driver when nobody else writes: what
    each operation returns and the database it leaves, on every branch. *)

From S2P Require Import Prelude GoStd Monad EntSchema Sqlgraph EntQuery EntMutation Config Store.
From S2P Require Import Logic EntSpec Wf EntLoad.

(** ** Rows before and after an update *)

(** [upd_desc d u r]: the row with a new description, stamped [u]. *)
Definition upd_desc (d : string) (u : Time) (o : Org) : Org :=
  mkOrg (Org_ID o) (Org_Name o) d (Org_CreatedAt o) u (Org_DeletedAt o).
(** the row soft-deleted at [now], stamped [u] *)
Definition upd_deleted (now u : Time) (o : Org) : Org :=
  mkOrg (Org_ID o) (Org_Name o) (Org_Description o) (Org_CreatedAt o) u (Some now).
Definition project_deleted (now u : Time) (p : Project) : Project :=
  mkProject (Project_ID p) (Project_Name p) (Project_Description p) (Project_CreatedAt p) u (Some now)
    (Project_folder_projects p).
Definition project_described (d : string) (u : Time) (p : Project) : Project :=
  mkProject (Project_ID p) (Project_Name p) d (Project_CreatedAt p) u (Project_DeletedAt p)
    (Project_folder_projects p).

(** Soft deletion of the projects with the given ids, each stamped as it comes. *)
Definition soft_deleted (ids : list UUID) (now : Time) (p p' : Project) : Prop :=
  if decide (Project_ID p ∈ ids) then ∃ u, p' = project_deleted now u p else p' = p.

(** The event an operation on a project or an org emits. *)
Definition is_org_event (event_type : string) (o : Org) (e : TenancyEvent) : Prop :=
  ∃ n c, e = mkTenancyEvent n event_type "org" (Org_ID o) (Org_Name o) None None None c.
Definition is_project_event (event_type : string) (p : Project) (o : option Org) (f : option UUID)
    (e : TenancyEvent) : Prop :=
  ∃ n c, e = mkTenancyEvent n event_type "project" (Project_ID p) (Project_Name p)
               (Org_ID <$> o) (Org_Name <$> o) f c.

(** ** Lookup by name *)

Definition active_org (db : DB) (name : string) (o : Org) : Prop :=
  o ∈ t_orgs db ∧ Org_Name o = name ∧ Org_DeletedAt o = None.

Lemma active_org_holds db name o :
  o ∈ matching [org_Name name; org_DeletedAtIsNil] db ↔ active_org db name o.
Proof.
  unfold matching, active_org. rewrite elem_of_select. simpl. unfold org_Name, org_DeletedAtIsNil.
  rewrite andb_true_r, andb_true_iff, String.eqb_eq.
  destruct (Org_DeletedAt o); naive_solver.
Qed.

Lemma org_name_unique db o o' :
  db_wf db → o ∈ t_orgs db → o' ∈ t_orgs db → Org_Name o = Org_Name o' → o = o'.
Proof. intros Hwf. apply NoDup_fmap_inj_eq, Hwf. Qed.
Lemma org_id_unique db o o' :
  db_wf db → o ∈ t_orgs db → o' ∈ t_orgs db → Org_ID o = Org_ID o' → o = o'.
Proof. intros Hwf. apply NoDup_fmap_inj_eq, Hwf. Qed.
Lemma project_id_unique db p p' :
  db_wf db → p ∈ t_projects db → p' ∈ t_projects db → Project_ID p = Project_ID p' → p = p'.
Proof. intros Hwf. apply NoDup_fmap_inj_eq, Hwf. Qed.

Section org.
Context `{Driver} `{Runtime} `{FieldValidators} `{UUIDLib}.
Context `{!DriverLaws} `{!Quiet} `{!FieldValidatorsLaws}.
Implicit Types (db : DB) (tx : option (list (DB → DB))) (t : nat).

(** [Only] on the orgs: the predicates select at most one row of each name. *)
Lemma wp_OrgQuery_Only name ps (Q : error + Org → World → Prop) db tx t :
  db_wf (viewof db tx) →
  (∀ o, o ∈ matching ps (viewof db tx) → Org_Name o = name) →
  (∀ o t', o ∈ matching ps (viewof db tx) → Q (inr o) (mkWorld db tx t')) →
  (∀ t', matching ps (viewof db tx) = [] → Q (inl (NotFoundError org_Label)) (mkWorld db tx t')) →
  (∀ msg t', Q (inl (errDriver DrvOther msg)) (mkWorld db tx t')) →
  wp (OrgQuery_Only (mkQuery ps [] None)) Q (mkWorld db tx t).
Proof.
  intros Hwf Hn HQ Hnf He. unfold OrgQuery_Only, Query_Only. wp_step.
  apply wp_All; simpl; [set_solver|done| |intros; by apply He].
  intros rs t' (full & Hp & _ & ->). simpl in *. wp_step.
  assert (length full ≤ 1)%nat as Hl.
  { destruct full as [|a [|b l]]; simpl; try lia. exfalso.
    assert (a ∈ matching ps (viewof db tx)) as Ha by (rewrite <- Hp; set_solver).
    assert (b ∈ matching ps (viewof db tx)) as Hb by (rewrite <- Hp; set_solver).
    assert (NoDup (Org_ID <$> a :: b :: l)) as Hnd.
    { rewrite Hp. apply NoDup_fmap_select, Hwf. }
    pose proof (Hn _ Ha) as Hna. pose proof (Hn _ Hb) as Hnb.
    apply elem_of_select in Ha as [Ha _], Hb as [Hb _].
    assert (a = b) as -> by (eapply org_name_unique; eauto; congruence).
    rewrite !fmap_cons, NoDup_cons in Hnd. destruct Hnd as [Hnd _]. apply Hnd. left. }
  destruct full as [|o [|o' full]]; simpl in *; [|apply HQ; rewrite <- Hp; set_solver|lia].
  apply Hnf. apply Permutation_nil. done.
Qed.

Lemma wp_active_org name (Q : error + Org → World → Prop) db tx t :
  db_wf (viewof db tx) →
  (∀ o t', active_org (viewof db tx) name o → Q (inr o) (mkWorld db tx t')) →
  (∀ t', (∀ o, ¬ active_org (viewof db tx) name o) →
     Q (inl (NotFoundError org_Label)) (mkWorld db tx t')) →
  (∀ msg t', Q (inl (errDriver DrvOther msg)) (mkWorld db tx t')) →
  wp (OrgQuery_Only (NewQuery |> Where [org_Name name; org_DeletedAtIsNil])) Q (mkWorld db tx t).
Proof.
  intros Hwf HQ Hnf He. apply (wp_OrgQuery_Only name); [done|..|done].
  - by intros o (_ & ? & _)%active_org_holds.
  - intros o t' Ho%active_org_holds. by apply HQ.
  - intros t' Hm. simpl in Hm. apply Hnf. intros o Ho%active_org_holds. rewrite Hm in Ho. set_solver.
Qed.

Lemma GetOrg_ok name db tx t : db_wf (viewof db tx) →
  wp (GetOrg name) (λ r w', w_db w' = db ∧ w_tx w' = tx ∧
    match r with
    | inr o => active_org (viewof db tx) name o
    | inl e => (e = NotFoundError org_Label ∧ ∀ o, ¬ active_org (viewof db tx) name o) ∨
               ∃ msg, e = errDriver DrvOther msg
    end) (mkWorld db tx t).
Proof. intros Hwf. apply wp_active_org; naive_solver. Qed.

(** [GetOrg] returns the active org of the name, [NotFound] exactly when there
    is none, and otherwise the database's error; it changes nothing. *)
Theorem GetOrg_spec name db tx t : db_wf (viewof db tx) →
  wp (GetOrg name) (λ r w', w_db w' = db ∧ w_tx w' = tx ∧
    match r with
    | inr o => active_org (viewof db tx) name o
    | inl e => (e = NotFoundError org_Label ∧ ∀ o, ¬ active_org (viewof db tx) name o) ∨
               ∃ msg, e = errDriver DrvOther msg
    end) (mkWorld db tx t).
Proof. apply GetOrg_ok. Qed.

(** *** CreateOrg *)

(** The rows [CreateOrg] adds. *)
Definition org_created (name description : string) (db db' : DB) (o : Org) : Prop :=
  Org_Name o = name ∧ Org_Description o = description ∧ Org_DeletedAt o = None ∧
  name ≠ "" ∧ (Z.of_nat (String.length name) <= 253)%Z ∧
  (∀ o', o' ∈ t_orgs db → Org_Name o' ≠ name ∧ Org_ID o' ≠ Org_ID o) ∧
  ∃ f e, Folder_Name f = "default" ∧ Folder_org_folders f = Org_ID o ∧ is_org_event "created" o e ∧
    db' = mkDB (t_orgs db ++ [o]) (t_folders db ++ [f]) (t_projects db) (t_events db ++ [e]) (t_statuses db).

Lemma OrgsTable_insertable_fresh db (o : Org) : insertable db o = true →
  ∀ o', o' ∈ t_orgs db → Org_Name o' ≠ Org_Name o ∧ Org_ID o' ≠ Org_ID o.
Proof.
  intros Hi o' Ho'. apply (forallb_not_in _ _ _ Hi) in Ho'. cbn beta in Ho'. bools.
  split; [by apply String.eqb_neq|done].
Qed.

Lemma CreateOrg_ok name description db t : db_wf db →
  wp (CreateOrg name description) (λ r w', w_tx w' = None ∧
    all_or_nothing db (λ e, IsNotFound e = false)
      (λ o db', org_created name description db db' o ∧ db_wf db') r (w_db w')) (mkWorld db None t).
Proof.
  intros Hwf. unfold CreateOrg. wp_step. apply wp_Client_Tx; [|intros; by unchanged].
  wp_step. apply wp_orRollback, wp_OrgCreate_Save; simpl.
  2: { intros e t1 Hse e' t2 Hr. unchanged. rewrite (rolled_IsNotFound _ _ Hr). by eapply save_error_not_found. }
  intros id c u t1 Hname Hio. set (o := mkOrg _ _ _ _ _ _) in *.
  wp_step. apply wp_orRollback, wp_FolderCreate_Save; simpl.
  2: { intros e t2 Hse e' t3 Hr. unchanged. rewrite (rolled_IsNotFound _ _ Hr). by eapply save_error_not_found. }
  intros fid fc fu t2 _ Hif. set (f := mkFolder _ _ _ _ _) in *.
  wp_step. apply wp_orRollback, wp_TenancyEventCreate_Save; simpl; [by split_and!; eauto|..].
  2: { intros e t3 Hse e' t4 Hr. unchanged. rewrite (rolled_IsNotFound _ _ Hr). by eapply save_error_not_found. }
  intros ec n t3 _ _ Hfe. set (e := event_of _ _ _) in *. apply wp_Commit_ret; [done|]. simpl.
  assert (db_wf (insert_row f (insert_row o db))) as Hwf2 by eauto with orch.
  assert (db_wf (insert_row e (insert_row f (insert_row o db)))) as Hwf3 by eauto with orch.
  split; [|exact Hwf3]. split_and!; try done.
  - by apply NameValidator_ok in Hname as [? _].
  - by apply NameValidator_ok in Hname as [_ ?].
  - exact (OrgsTable_insertable_fresh db o Hio).
  - exists f, e. split_and!; try done. by exists n, ec.
Qed.

(** C14: when no other connection commits meanwhile, [CreateOrg] either fails and leaves the
    database as it was, or adds exactly the org (with a valid name that no org had, deleted ones
    included), its default folder and one created event, keeping the schema's
    constraints.  There is one more failure: the server carries out the COMMIT and the answer is
    lost; then the caller gets that error and all three rows are there. *)
Theorem CreateOrg_spec name description db t : db_wf db →
  wp (CreateOrg name description) (λ r w', w_tx w' = None ∧
    all_or_nothing db (λ e, IsNotFound e = false)
      (λ o db', org_created name description db db' o ∧ db_wf db') r (w_db w')) (mkWorld db None t).
Proof. apply CreateOrg_ok. Qed.

(** *** UpdateOrg *)

(** The row [UpdateOrg] changes. *)
Definition org_updated (name description : string) (db db' : DB) (o' : Org) : Prop :=
  ∃ o u, active_org db name o ∧ o' = upd_desc description u o ∧
    db' = mkDB (update_rows (λ x, bool_decide (x = o)) (upd_desc description u) (t_orgs db))
            (t_folders db) (t_projects db) (t_events db) (t_statuses db).

Lemma UpdateOrg_ok name description db t : db_wf db →
  wp (UpdateOrg name description) (λ r w', w_tx w' = None ∧
    all_or_nothing db (λ e, IsNotFound e = true → ∀ o, ¬ active_org db name o)
      (λ o' db', org_updated name description db db' o' ∧ db_wf db') r (w_db w')) (mkWorld db None t).
Proof.
  intros Hwf. unfold UpdateOrg. wp_step. apply wp_Client_Tx; [|intros; by unchanged].
  wp_step. apply wp_orRollback, wp_active_org; simpl; [done|..].
  2: { intros t1 Hno e' t2 Hr. by unchanged. }
  2: { intros msg t1 e' t2 Hr. unchanged. by rewrite (rolled_IsNotFound _ _ Hr). }
  intros o t1 Ho. wp_step. apply wp_orRollback, wp_OrgUpdateOne_Save; simpl; [done|done|..].
  2: { intros e effs t2 Hnf e' t3 Hr. unchanged. rewrite (rolled_IsNotFound _ _ Hr).
       intros Hm%Hnf. exfalso. apply (select_nil_inv _ _ o) in Hm; [|apply Ho].
       simpl in Hm. unfold org_ID in Hm. rewrite andb_true_r in Hm. by bools. }
  intros u o0 f t2 [Ho0 Hid]%elem_of_select Hf. simpl in Hid. unfold org_ID in Hid.
  rewrite andb_true_r in Hid. bools.
  assert (o0 = o) as -> by (eapply org_id_unique; eauto; apply Ho).
  apply wp_Commit_ret; [done|]. simpl.
  assert (∀ x, x ∈ t_orgs db → holds [org_ID (Org_ID o)] db x = bool_decide (x = o)) as Hext.
  { intros x Hx. simpl. unfold org_ID. rewrite andb_true_r.
    apply bool_decide_ext. split; [intros; eapply org_id_unique; eauto; apply Ho|by intros ->]. }
  split; [exists o, u; split_and!; [done|done|]|rewrite Hf; by apply update_org_wf].
  rewrite Hf. unfold update_matching. simpl. unfold set_orgs. f_equal.
  apply list_fmap_ext. intros i x Hx%list_elem_of_lookup_2. by rewrite <- (Hext _ Hx).
Qed.

(** [UpdateOrg] returns the active org of the name with the new description and
    changes that row only, its description and its update time only; [NotFound]
    means that no active org has the name; any error leaves the database as it was, but for a
    COMMIT whose answer was lost: then the change is there. *)
Theorem UpdateOrg_spec name description db t : db_wf db →
  wp (UpdateOrg name description) (λ r w', w_tx w' = None ∧
    all_or_nothing db (λ e, IsNotFound e = true → ∀ o, ¬ active_org db name o)
      (λ o' db', org_updated name description db db' o' ∧ db_wf db') r (w_db w')) (mkWorld db None t).
Proof. apply UpdateOrg_ok. Qed.

(** *** Listing and batch resolution *)

Lemma Asc_text_ordering {R} (f : R → string) : ordering (Asc_text f).
Proof.
  destruct db_le_ordering as [Htot Htr]. split; unfold Asc_text; [intros; apply Htot|].
  intros x y z. apply Htr.
Qed.

(** [ListOrgs] returns every active org exactly once, in the order of the names
    under the server's collation. *)
Theorem ListOrgs_spec db tx t :
  wp ListOrgs (λ r w', w_db w' = db ∧ w_tx w' = tx ∧
    match r with
    | inr os => os ≡ₚ select (λ o, is_nil (Org_DeletedAt o)) (t_orgs (viewof db tx)) ∧
                Sorted (λ x y, db_le (Org_Name x) (Org_Name y) = true) os
    | inl e => ∃ msg, e = errDriver DrvOther msg
    end) (mkWorld db tx t).
Proof.
  unfold ListOrgs, OrgQuery_All. apply wp_All; simpl; [|done| |by eauto].
  - intros o [->|?%elem_of_nil]%elem_of_cons; [apply Asc_text_ordering|done].
  - intros rs t' (full & Hp & Hs & ->). simpl in *. split_and!; [done..| |].
    + rewrite Hp. unfold matching. erewrite select_ext; [done|].
      intros o _. simpl. apply andb_true_r.
    + eapply Sorted_weaken; [|exact Hs]. intros x y Hxy. simpl in Hxy.
      by apply andb_true_iff in Hxy as [? _].
Qed.

Lemma names_lookup (os : list Org) (m : gmap UUID string) u :
  NoDup (Org_ID <$> os) →
  foldl (λ m o, <[Org_ID o := Org_Name o]> m) m os !! u =
  match find (λ o, bool_decide (Org_ID o = u)) os with
  | Some o => Some (Org_Name o)
  | None => m !! u
  end.
Proof.
  revert m. induction os as [|o os IH]; intros m Hnd; simpl; [done|].
  rewrite fmap_cons, NoDup_cons in Hnd. destruct Hnd as [Hn Hnd]. rewrite IH by done.
  case_bool_decide as Ho.
  - subst. rewrite find_key_none by done. by rewrite lookup_insert_eq.
  - destruct (find _ os); [done|]. by rewrite lookup_insert_ne.
Qed.

Lemma GetOrgNamesByUUIDs_ok ids db tx t : db_wf (viewof db tx) →
  wp (GetOrgNamesByUUIDs ids) (λ r w', w_db w' = db ∧ w_tx w' = tx ∧
    match r with
    | inr m => ∀ u n, m !! u = Some n ↔ u ∈ ids ∧
        ∃ o, o ∈ t_orgs (viewof db tx) ∧ Org_ID o = u ∧ Org_Name o = n ∧ Org_DeletedAt o = None
    | inl e => ∃ msg, e = errWrap "querying orgs by UUID: " (errDriver DrvOther msg) ""
    end) (mkWorld db tx t).
Proof.
  intros Hwf. unfold GetOrgNamesByUUIDs. destruct ids as [|u0 ids']; simpl.
  { wp_step. split_and!; [done..|]. intros u n. rewrite lookup_empty. set_solver. }
  set (ids := u0 :: ids'). clearbody ids. wp_step. wp_step. apply wp_All; simpl; [set_solver|done| |].
  2: { intros msg t'. wp_step. eauto. }
  intros rs t' Hrs%query_result_plain. wp_step. split_and!; [done..|]. intros u n.
  assert (NoDup (Org_ID <$> rs)) as Hnd by (rewrite Hrs; apply NoDup_fmap_select, Hwf).
  rewrite names_lookup by done. rewrite lookup_empty.
  assert (∀ o, o ∈ rs ↔ o ∈ t_orgs (viewof db tx) ∧ Org_ID o ∈ ids ∧ Org_DeletedAt o = None) as Hin.
  { intros o. rewrite Hrs. unfold matching. rewrite elem_of_select. simpl.
    unfold org_IDIn, org_DeletedAtIsNil. rewrite andb_true_r, andb_true_iff, mem_uuid_elem.
    destruct (Org_DeletedAt o); naive_solver. }
  split.
  - destruct (find _ rs) as [o|] eqn:Hf; [|done]. apply find_key in Hf as [Ho Hu]; [|done].
    apply Hin in Ho as (? & ? & ?). intros. simplify_eq. naive_solver.
  - intros (Hu & o & Ho & Hou & <- & Hd).
    assert (find (λ o, bool_decide (Org_ID o = u)) rs = Some o) as ->; [|done].
    apply find_key; [done|]. split; [|done]. apply Hin. by subst.
Qed.

(** [GetOrgNamesByUUIDs] maps an id to a name exactly when the id was asked for and
    an active org has it; ids of unknown and of deleted orgs are left out. *)
Theorem GetOrgNamesByUUIDs_spec ids db tx t : db_wf (viewof db tx) →
  wp (GetOrgNamesByUUIDs ids) (λ r w', w_db w' = db ∧ w_tx w' = tx ∧
    match r with
    | inr m => ∀ u n, m !! u = Some n ↔ u ∈ ids ∧
        ∃ o, o ∈ t_orgs (viewof db tx) ∧ Org_ID o = u ∧ Org_Name o = n ∧ Org_DeletedAt o = None
    | inl e => ∃ msg, e = errWrap "querying orgs by UUID: " (errDriver DrvOther msg) ""
    end) (mkWorld db tx t).
Proof. apply GetOrgNamesByUUIDs_ok. Qed.

(** The lookup that ignores deletion, used by deletion checks. *)
Lemma GetOrgIncludingDeleted_spec name db tx t : db_wf (viewof db tx) →
  wp (GetOrgIncludingDeleted name) (λ r w', w_db w' = db ∧ w_tx w' = tx ∧
    match r with
    | inr o => o ∈ t_orgs (viewof db tx) ∧ Org_Name o = name
    | inl e => (e = NotFoundError org_Label ∧ ∀ o, o ∈ t_orgs (viewof db tx) → Org_Name o ≠ name) ∨
               ∃ msg, e = errDriver DrvOther msg
    end) (mkWorld db tx t).
Proof.
  intros Hwf.
  assert (∀ o, o ∈ matching [org_Name name] (viewof db tx) ↔
            o ∈ t_orgs (viewof db tx) ∧ Org_Name o = name) as Hm.
  { intros o. unfold matching. rewrite elem_of_select. simpl. unfold org_Name.
    by rewrite andb_true_r, String.eqb_eq. }
  apply (wp_OrgQuery_Only name); simpl; [done|..].
  - by intros o [_ ?]%Hm.
  - intros o t' Ho%Hm. naive_solver.
  - intros t' Hnil. split_and!; [done..|]. left. split; [done|]. intros o Ho Hon.
    assert (o ∈ matching [org_Name name] (viewof db tx)) as Hin by (by apply Hm).
    rewrite Hnil in Hin. set_solver.
  - eauto 10.
Qed.
End org.
