(* ===== verification/StoreProject.v ===== *)
(** * The store's operations on projects

    The scope of a request ([orgNames]) decides which projects an operation can
    see; [visible] states it on the tables.  The lookups, the listing, the update,
    the creation and the soft deletion are specified against it. *)

From S2P Require Import Prelude GoStd Monad EntSchema Sqlgraph EntQuery EntMutation Config Store.
From S2P Require Import Logic EntSpec Wf EntLoad StoreOrg.

(** ** What a scope lets through *)

(** [None] is the unrestricted scope; [Some names] restricts to projects whose org
    has one of the names and satisfies [active]. *)
Definition in_scope (active : list (predicate Org)) (orgNames : option (list string)) (db : DB)
    (p : Project) : Prop :=
  match orgNames with
  | None => True
  | Some names => ∃ o, project_org db p = Some o ∧ Org_Name o ∈ names ∧ holds active db o = true
  end.

Definition scope_preds (orgNames : option (list string)) (active : list (predicate Org))
    : list (predicate Project) :=
  match orgNames with
  | Some ((_ :: _) as ns) => [project_HasFolderWith [folder_HasOrgWith (org_NameIn ns :: active)]]
  | _ => []
  end.

Lemma scoped_loaded orgNames active q :
  scoped orgNames active (loaded q) =
  loaded (mkQuery (predicates q ++ scope_preds orgNames active) (order q) (limit q)).
Proof.
  destruct orgNames as [[|n ns]|]; simpl; rewrite ?app_nil_r; by destruct q.
Qed.

Lemma folder_of_spec db p f : db_wf db →
  folder_of db p = Some f ↔ f ∈ t_folders db ∧ Folder_ID f = Project_folder_projects p.
Proof. intros Hwf. apply (find_key Folder_ID), Hwf. Qed.
Lemma org_of_spec db f o : db_wf db →
  org_of db f = Some o ↔ o ∈ t_orgs db ∧ Org_ID o = Folder_org_folders f.
Proof. intros Hwf. apply (find_key Org_ID), Hwf. Qed.

(** The nested EXISTS of the query is the join. *)
Lemma HasFolderWith_HasOrgWith db p preds : db_wf db →
  project_HasFolderWith [folder_HasOrgWith preds] db p = true ↔
  ∃ o, project_org db p = Some o ∧ holds preds db o = true.
Proof.
  intros Hwf. unfold project_HasFolderWith, project_org. rewrite existsb_exists. split.
  - intros (f & Hf%list_elem_of_In & Hp). simpl in Hp. rewrite andb_true_r in Hp. bools.
    apply existsb_elem in H0 as (o & Ho & Hh). bools.
    rewrite (proj2 (folder_of_spec db p f Hwf)) by done. simpl.
    exists o. by rewrite (proj2 (org_of_spec db f o Hwf)).
  - intros (o & Hpo & Hh). destruct (folder_of db p) as [f|] eqn:Hf; [|done].
    apply folder_of_spec in Hf as [Hf Hk]; [|done]. simpl in Hpo.
    apply org_of_spec in Hpo as [Ho Hok]; [|done].
    exists f. split; [by apply list_elem_of_In|]. rewrite bool_decide_eq_true_2 by done. simpl.
    rewrite andb_true_r. apply existsb_exists. exists o. split; [by apply list_elem_of_In|].
    rewrite bool_decide_eq_true_2 by done. done.
Qed.

Lemma scope_preds_holds active orgNames db p : db_wf db → no_scope orgNames = false →
  holds (scope_preds orgNames active) db p = true ↔ in_scope active orgNames db p.
Proof.
  intros Hwf Hns. destruct orgNames as [[|n ns]|]; [done| |done].
  unfold scope_preds, in_scope. unfold holds at 1. cbn [forallb]. rewrite andb_true_r.
  rewrite HasFolderWith_HasOrgWith by done. generalize (n :: ns). intros names.
  split; intros (o & Ho & Hh); exists o; (split; [done|]).
  - simpl in Hh. apply andb_true_iff in Hh as [Hn ?]. split; [|done].
    by apply mem_string_elem in Hn.
  - destruct Hh as [Hn%mem_string_elem ?]. apply andb_true_iff. done.
Qed.

Lemma holds_cons {R} (q : predicate R) (ps : list (predicate R)) db r :
  holds (q :: ps) db r = q db r && holds ps db r.
Proof. done. Qed.
Lemma holds_app {R} (ps qs : list (predicate R)) db r :
  holds (ps ++ qs) db r = holds ps db r && holds qs db r.
Proof. apply forallb_app. Qed.

(** The projects a request for [name] in scope [orgNames] can see. *)
Definition visible (name : string) (orgNames : option (list string)) (db : DB) (p : Project) : Prop :=
  p ∈ t_projects db ∧ Project_Name p = name ∧ Project_DeletedAt p = None ∧
  in_scope [org_DeletedAtIsNil] orgNames db p.

Lemma visible_matching name orgNames db p : db_wf db → no_scope orgNames = false →
  p ∈ matching ([project_Name name; project_DeletedAtIsNil] ++ scope_preds orgNames [org_DeletedAtIsNil]) db
  ↔ visible name orgNames db p.
Proof.
  intros Hwf Hns. unfold matching, visible.
  rewrite elem_of_select, holds_app, andb_true_iff, scope_preds_holds by done.
  simpl. unfold project_Name, project_DeletedAtIsNil. rewrite andb_true_r, andb_true_iff, String.eqb_eq.
  destruct (Project_DeletedAt p); naive_solver.
Qed.

(** How a lookup by name ends: one candidate, none, or several. *)
Inductive lookup_error (V : Project → Prop) (name : string) : error → Prop :=
  | lookup_none : (∀ p, ¬ V p) → lookup_error V name (NotFoundError "")
  | lookup_many p1 p2 : p1 ≠ p2 → V p1 → V p2 → lookup_error V name (ambiguous name)
  | lookup_db msg : lookup_error V name (errDriver DrvOther msg).

Lemma single_project_result (V : Project → Prop) name (f : Project → ProjectNode) ps :
  NoDup ps → (∀ p, p ∈ ps ↔ V p) →
  match single_project name (f <$> ps) with
  | inr n => ∃ p, n = f p ∧ ∀ p', V p' ↔ p' = p
  | inl e => lookup_error V name e
  end.
Proof.
  intros Hnd HV. destruct ps as [|p [|p' ps]]; simpl.
  - constructor. intros p Hp%HV. set_solver.
  - exists p. split; [done|]. intros p'. rewrite <- HV. set_solver.
  - apply NoDup_cons in Hnd as [Hp _].
    apply (lookup_many _ _ p p'); [set_solver|apply HV; set_solver..].
Qed.

Section project.
Context `{Driver} `{Runtime} `{FieldValidators} `{UUIDLib}.
Context `{!DriverLaws} `{!Quiet} `{!FieldValidatorsLaws}.
Implicit Types (db : DB) (tx : option (list (DB → DB))) (t : nat).

(** The query shared by the lookups: the visible projects with their edges. *)
Lemma wp_visible name orgNames (Q : error + list ProjectNode → World → Prop) db tx t :
  db_wf (viewof db tx) → no_scope orgNames = false →
  (∀ ps t', NoDup ps → (∀ p, p ∈ ps ↔ visible name orgNames (viewof db tx) p) →
     Q (inr (attach (viewof db tx) <$> ps)) (mkWorld db tx t')) →
  (∀ msg t', Q (inl (errDriver DrvOther msg)) (mkWorld db tx t')) →
  wp (ProjectQuery_All (scoped orgNames [org_DeletedAtIsNil]
        (loaded (mkQuery [project_Name name; project_DeletedAtIsNil] [] None)))) Q (mkWorld db tx t).
Proof.
  intros Hwf Hns HQ He. rewrite scoped_loaded.
  apply wp_ProjectQuery_All; simpl; [done|set_solver|done| |done].
  intros ps t' Hps%query_result_plain. apply HQ.
  - eapply (NoDup_fmap_1 Project_ID). rewrite Hps. apply NoDup_fmap_select, Hwf.
  - intros p. rewrite Hps. by apply visible_matching.
Qed.

Lemma GetProject_ok name orgNames db tx t : db_wf (viewof db tx) →
  wp (GetProject name orgNames) (λ r w', w_db w' = db ∧ w_tx w' = tx ∧
    match r with
    | inr (n, o) => ∃ p, n = attach (viewof db tx) p ∧ o = project_org (viewof db tx) p ∧
        ∀ p', visible name orgNames (viewof db tx) p' ↔ p' = p
    | inl e => lookup_error (visible name orgNames (viewof db tx)) name e
    end) (mkWorld db tx t).
Proof.
  intros Hwf. unfold GetProject. destruct (no_scope orgNames) eqn:Hns.
  { wp_step. split_and!; [done..|]. constructor. intros p (_ & _ & _ & Hs).
    destruct orgNames as [[|]|]; try done. destruct Hs as (? & _ & Hs & _). set_solver. }
  cbv zeta. wp_step. apply wp_visible; [done|done|..].
  2: { intros. split_and!; [done..|]. constructor. }
  intros ps t' Hnd HV. wp_step. wp_step.
  pose proof (single_project_result _ name (attach (viewof db tx)) _ Hnd HV) as Hr.
  destruct (single_project _ _) as [e|n]; [done|]. destruct Hr as (p & -> & Hp).
  wp_step. split_and!; [done..|]. exists p. by rewrite Project_org_attach.
Qed.

(** [GetProject] returns the one project the scope lets the caller see under the
    name, with its folder and org; [NotFound] exactly when there is none, the
    ambiguity error exactly when there are several; it changes nothing. *)
Theorem GetProject_spec name orgNames db tx t : db_wf (viewof db tx) →
  wp (GetProject name orgNames) (λ r w', w_db w' = db ∧ w_tx w' = tx ∧
    match r with
    | inr (n, o) => ∃ p, n = attach (viewof db tx) p ∧ o = project_org (viewof db tx) p ∧
        ∀ p', visible name orgNames (viewof db tx) p' ↔ p' = p
    | inl e => lookup_error (visible name orgNames (viewof db tx)) name e
    end) (mkWorld db tx t).
Proof. apply GetProject_ok. Qed.

Lemma ListProjects_ok orgNames db tx t : db_wf (viewof db tx) →
  wp (ListProjects orgNames) (λ r w', w_db w' = db ∧ w_tx w' = tx ∧
    match r with
    | inr ns => ∃ ps, ns = attach (viewof db tx) <$> ps ∧ NoDup ps ∧
        (∀ p, p ∈ ps ↔ p ∈ t_projects (viewof db tx) ∧ Project_DeletedAt p = None ∧
                       in_scope [org_DeletedAtIsNil] orgNames (viewof db tx) p) ∧
        Sorted (λ x y, db_le (Project_Name x) (Project_Name y) = true) ps
    | inl e => ∃ msg, e = errDriver DrvOther msg
    end) (mkWorld db tx t).
Proof.
  intros Hwf. unfold ListProjects. destruct (no_scope orgNames) eqn:Hns.
  { wp_step. split_and!; [done..|]. exists []. split_and!; [done|constructor| |constructor].
    intros p. split; [set_solver|]. intros (_ & _ & Hs).
    destruct orgNames as [[|]|]; try done. destruct Hs as (? & _ & Hs & _). set_solver. }
  cbv zeta. change (ProjectQuery_Order _ _) with
    (loaded (mkQuery [project_DeletedAtIsNil] [Asc_text Project_Name] None)).
  rewrite scoped_loaded. apply wp_ProjectQuery_All; simpl; [done| |done| |by eauto].
  - intros o [->|?%elem_of_nil]%elem_of_cons; [apply Asc_text_ordering|done].
  - intros ps t' (full & Hp & Hs & ->). simpl in *. split_and!; [done..|]. exists full.
    split_and!; [done| | |].
    + eapply (NoDup_fmap_1 Project_ID). rewrite Hp. apply NoDup_fmap_select, Hwf.
    + intros p. rewrite Hp. unfold matching. rewrite elem_of_select.
      rewrite holds_cons, andb_true_iff, scope_preds_holds by done.
      unfold project_DeletedAtIsNil.
      destruct (Project_DeletedAt p); naive_solver.
    + eapply Sorted_weaken; [|exact Hs]. intros x y Hxy. simpl in Hxy.
      by apply andb_true_iff in Hxy as [? _].
Qed.

(** [ListProjects] returns exactly the active projects in scope, each once, with
    their folders and orgs, sorted by name; an empty non-nil scope yields none. *)
Theorem ListProjects_spec orgNames db tx t : db_wf (viewof db tx) →
  wp (ListProjects orgNames) (λ r w', w_db w' = db ∧ w_tx w' = tx ∧
    match r with
    | inr ns => ∃ ps, ns = attach (viewof db tx) <$> ps ∧ NoDup ps ∧
        (∀ p, p ∈ ps ↔ p ∈ t_projects (viewof db tx) ∧ Project_DeletedAt p = None ∧
                       in_scope [org_DeletedAtIsNil] orgNames (viewof db tx) p) ∧
        Sorted (λ x y, db_le (Project_Name x) (Project_Name y) = true) ps
    | inl e => ∃ msg, e = errDriver DrvOther msg
    end) (mkWorld db tx t).
Proof. apply ListProjects_ok. Qed.

(** The row [UpdateProject] changes. *)
Definition project_updated (name : string) (orgNames : option (list string)) (description : string) (db db' : DB)
    (n : ProjectNode) (o : option Org) : Prop :=
  ∃ p u, (∀ p', visible name orgNames db p' ↔ p' = p) ∧
    n = mkProjectNode (project_described description u p) None ∧ o = project_org db p ∧
    db' = mkDB (t_orgs db) (t_folders db)
      (update_rows (λ x, bool_decide (x = p)) (project_described description u) (t_projects db))
      (t_events db) (t_statuses db).

Lemma UpdateProject_ok name orgNames description db t : db_wf db →
  wp (UpdateProject name orgNames description) (λ r w', w_tx w' = None ∧
    all_or_nothing db (λ e, IsNotFound e = true → ∀ p, ¬ visible name orgNames db p)
      (λ '(n, o) db', project_updated name orgNames description db db' n o ∧ db_wf db') r (w_db w')) (mkWorld db None t).
Proof.
  intros Hwf. unfold UpdateProject. destruct (no_scope orgNames) eqn:Hns.
  { wp_step. unchanged. intros _ p (_ & _ & _ & Hs).
    destruct orgNames as [[|]|]; try done. destruct Hs as (? & _ & Hs & _). set_solver. }
  wp_step. apply wp_Client_Tx; [|intros; by unchanged]. cbv zeta.
  wp_step. apply wp_orRollback, wp_visible; simpl; [done|done|..].
  2: { intros msg t1 e' t2 Hr. unchanged. by rewrite (rolled_IsNotFound _ _ Hr). }
  intros ps t1 Hnd HV. pose proof (single_project_result _ name (attach db) _ Hnd HV) as Hres.
  wp_step. apply wp_orRollback. wp_step.
  destruct (single_project _ _) as [e|n].
  { intros e' t2 Hr. unchanged. rewrite (rolled_IsNotFound _ _ Hr). by destruct Hres. }
  destruct Hres as (p & -> & Hp). assert (visible name orgNames db p) as Hvis by (by apply Hp).
  wp_step. apply wp_orRollback, wp_ProjectUpdateOne_Save; simpl; [done|done|..].
  2: { intros e effs t2 Hnf e' t3 Hr. unchanged. rewrite (rolled_IsNotFound _ _ Hr).
       intros Hm%Hnf. exfalso. apply (select_nil_inv _ _ p) in Hm; [|apply Hvis].
       simpl in Hm. unfold project_ID in Hm. rewrite andb_true_r in Hm. by bools. }
  intros u p0 f t2 [Hp0 Hid]%elem_of_select Hf. simpl in Hid. unfold project_ID in Hid.
  rewrite andb_true_r in Hid. bools.
  assert (p0 = p) as -> by (eapply project_id_unique; eauto; apply Hvis).
  apply wp_Commit_ret; [done|]. simpl.
  assert (∀ x, x ∈ t_projects db →
    holds [project_ID (Project_ID p)] db x = bool_decide (x = p)) as Hext.
  { intros x Hx. simpl. unfold project_ID. rewrite andb_true_r.
    apply bool_decide_ext. split; [intros; eapply project_id_unique; eauto; apply Hvis|by intros ->]. }
  split; [exists p, u; split_and!; [done|done|by rewrite Project_org_attach|]|rewrite Hf; by apply update_project_wf].
  rewrite Hf. unfold update_matching. simpl. unfold set_projects. f_equal.
  apply list_fmap_ext. intros i x Hx%list_elem_of_lookup_2. by rewrite <- (Hext _ Hx).
Qed.

(** [UpdateProject] returns the one visible project with the new description and
    changes that row only, its description and its update time only; an error leaves the
    database as it was, but for a COMMIT whose answer was lost: then the change is there. *)
Theorem UpdateProject_spec name orgNames description db t : db_wf db →
  wp (UpdateProject name orgNames description) (λ r w', w_tx w' = None ∧
    all_or_nothing db (λ e, IsNotFound e = true → ∀ p, ¬ visible name orgNames db p)
      (λ '(n, o) db', project_updated name orgNames description db db' n o ∧ db_wf db') r (w_db w')) (mkWorld db None t).
Proof. apply UpdateProject_ok. Qed.
End project.
