(* ===== verification/StoreDelete.v ===== *)
(** * Creation and soft deletion in the store

    [CreateProject], [DeleteProject] and [DeleteOrg] with its loop over the org's
    active projects: the rows they change and the events they emit. *)

From S2P Require Import Prelude GoStd Monad EntSchema Sqlgraph EntQuery EntMutation Config Store.
From S2P Require Import Logic EntSpec Wf EntLoad StoreOrg StoreProject.

(** ** Soft deletion of rows *)

Lemma soft_deleted_refl now p : soft_deleted [] now p p.
Proof. unfold soft_deleted. by rewrite decide_False by set_solver. Qed.

Lemma soft_deleted_id ids now p p' : soft_deleted ids now p p' → Project_ID p' = Project_ID p.
Proof. unfold soft_deleted. case_decide; [by intros [u ->]|by intros ->]. Qed.

Lemma soft_deleted_trans id ids now p p1 p2 : id ∉ ids →
  soft_deleted [id] now p p1 → soft_deleted ids now p1 p2 → soft_deleted (id :: ids) now p p2.
Proof.
  intros Hid H1 H2. pose proof (soft_deleted_id _ _ _ _ H1) as Hp1. unfold soft_deleted in *.
  rewrite Hp1 in H2. destruct (decide (Project_ID p = id)) as [Hp|Hp].
  - rewrite decide_True in H1 by set_solver. rewrite (decide_True (P := _ ∈ id :: ids)) by set_solver.
    rewrite decide_False in H2 by set_solver. subst. destruct H1 as [u ->]. eauto.
  - rewrite decide_False in H1 by set_solver. subst.
    destruct (decide (Project_ID p ∈ ids)).
    + by rewrite decide_True by set_solver.
    + by rewrite decide_False by set_solver.
Qed.

Lemma Forall2_soft_trans id ids now l l1 l2 : id ∉ ids →
  Forall2 (soft_deleted [id] now) l l1 → Forall2 (soft_deleted ids now) l1 l2 →
  Forall2 (soft_deleted (id :: ids) now) l l2.
Proof.
  intros Hid H1. revert l2. induction H1 as [|p p1 l l1 Hp _ IH]; intros l2 H2;
    inversion H2; subst; constructor; [|by apply IH].
  by eapply soft_deleted_trans.
Qed.

(** The compare-and-set UPDATE of a soft deletion. *)
Lemma project_cas_holds db p x : db_wf db → p ∈ t_projects db → Project_DeletedAt p = None →
  x ∈ t_projects db →
  holds [project_ID (Project_ID p); project_DeletedAtIsNil] db x = bool_decide (x = p).
Proof.
  intros Hwf Hp Hd Hx. simpl. unfold project_ID, project_DeletedAtIsNil. rewrite andb_true_r.
  destruct (decide (x = p)) as [->|Hne].
  - by rewrite !bool_decide_eq_true_2, Hd.
  - rewrite (bool_decide_eq_false_2 (x = p)) by done.
    rewrite bool_decide_eq_false_2; [done|]. intros Hid. apply Hne. by eapply project_id_unique.
Qed.

Lemma project_cas_update db p f : db_wf db → p ∈ t_projects db → Project_DeletedAt p = None →
  update_rows (holds [project_ID (Project_ID p); project_DeletedAtIsNil] db) f (t_projects db) =
  update_rows (λ x, bool_decide (x = p)) f (t_projects db).
Proof.
  intros. apply list_fmap_ext. intros i x Hx%list_elem_of_lookup_2. by rewrite project_cas_holds.
Qed.

Lemma project_cas_matches db p : p ∈ t_projects db → Project_DeletedAt p = None →
  (length (matching [project_ID (Project_ID p); project_DeletedAtIsNil] db) =? 0)%nat = false.
Proof.
  intros Hp Hd. apply Nat.eqb_neq. intros Hl%nil_length_inv.
  apply (select_nil_inv _ _ p) in Hl; [|done]. simpl in Hl.
  unfold project_ID, project_DeletedAtIsNil in Hl. rewrite Hd in Hl. simpl in Hl.
  rewrite andb_true_r in Hl. by bools.
Qed.

Lemma update_soft_deleted db p now u : db_wf db → p ∈ t_projects db →
  Forall2 (soft_deleted [Project_ID p] now) (t_projects db)
    (update_rows (λ x, bool_decide (x = p)) (project_deleted now u) (t_projects db)).
Proof.
  intros Hwf Hp. unfold update_rows. apply Forall2_fmap_r, Forall_Forall2_diag, Forall_forall.
  intros x Hx. unfold soft_deleted. simpl. destruct (decide (x = p)) as [->|Hne].
  - rewrite bool_decide_eq_true_2, decide_True by (done || set_solver). eauto.
  - rewrite bool_decide_eq_false_2 by done. rewrite decide_False; [done|].
    intros Hid%list_elem_of_singleton. apply Hne. by eapply project_id_unique.
Qed.

Lemma org_cas_holds db o x : db_wf db → o ∈ t_orgs db → Org_DeletedAt o = None → x ∈ t_orgs db →
  holds [org_ID (Org_ID o); org_DeletedAtIsNil] db x = bool_decide (x = o).
Proof.
  intros Hwf Ho Hd Hx. simpl. unfold org_ID, org_DeletedAtIsNil. rewrite andb_true_r.
  destruct (decide (x = o)) as [->|Hne].
  - by rewrite !bool_decide_eq_true_2, Hd.
  - rewrite (bool_decide_eq_false_2 (x = o)) by done.
    rewrite bool_decide_eq_false_2; [done|]. intros Hid. apply Hne. by eapply org_id_unique.
Qed.

(** The id of the folder eager loading attaches. *)
Definition folder_id (db : DB) (p : Project) : option UUID := Folder_ID <$> folder_of db p.

(** What [DeleteProject] does: the one visible project is marked, and its event appended. *)
Definition project_removed (name : string) (orgNames : option (list string)) (db db' : DB) : Prop :=
  ∃ p now u e, (∀ p', visible name orgNames db p' ↔ p' = p) ∧
    is_project_event "deleted" p (project_org db p) (folder_id db p) e ∧
    db' = mkDB (t_orgs db) (t_folders db)
      (update_rows (λ x, bool_decide (x = p)) (project_deleted now u) (t_projects db))
      (t_events db ++ [e]) (t_statuses db).
(** What [DeleteOrg] does: the org and its active projects are marked at the same time, and
    an event appended for each. *)
Definition org_removed (name : string) (db db' : DB) : Prop :=
  ∃ o ps now u projs evs e, active_org db name o ∧ NoDup ps ∧
    (∀ p, p ∈ ps ↔ p ∈ t_projects db ∧ Project_DeletedAt p = None ∧ project_org db p = Some o) ∧
    Forall2 (soft_deleted (Project_ID <$> ps) now) (t_projects db) projs ∧
    Forall2 (λ p, is_project_event "deleted" p (Some o) (folder_id db p)) ps evs ∧
    is_org_event "deleted" o e ∧
    db' = mkDB (update_rows (λ x, bool_decide (x = o)) (upd_deleted now u) (t_orgs db))
      (t_folders db) projs (t_events db ++ evs ++ [e]) (t_statuses db).

Section delete.
Context `{Driver} `{Runtime} `{FieldValidators} `{UUIDLib}.
Context `{!DriverLaws} `{!Quiet} `{!FieldValidatorsLaws}.
Implicit Types (db : DB) (tx : option (list (DB → DB))) (t : nat).

Lemma DeleteProject_ok name orgNames db t : db_wf db →
  wp (DeleteProject name orgNames) (λ r w', w_tx w' = None ∧
    all_or_nothing db (λ e, IsNotFound e = true → ∀ p, ¬ visible name orgNames db p)
      (λ _ db', project_removed name orgNames db db' ∧ db_wf db') r (w_db w')) (mkWorld db None t).
Proof.
  intros Hwf. unfold DeleteProject. destruct (no_scope orgNames) eqn:Hns.
  { wp_step. unchanged. intros _ p (_ & _ & _ & Hs).
    destruct orgNames as [[|]|]; try done. destruct Hs as (? & _ & Hs & _). set_solver. }
  wp_step. apply wp_Client_Tx; [|intros; by unchanged]. cbv zeta.
  wp_step. apply wp_orRollback, wp_visible; simpl; [done|done|..].
  2: { intros msg t1 e' t2 Hr. unchanged. by rewrite (rolled_IsNotFound _ _ Hr). }
  intros ps t1 Hnd HV. pose proof (single_project_result _ name (attach db) _ Hnd HV) as Hres.
  wp_step. apply wp_orRollback. wp_step.
  destruct (single_project _ _) as [e|n].
  { intros e' t2 Hr. unchanged. rewrite (rolled_IsNotFound _ _ Hr).
    by destruct Hres. }
  destruct Hres as (p & -> & Hp). assert (visible name orgNames db p) as (Hin & _ & Hact & _) by (by apply Hp).
  wp_step. wp_step. rename v into now.
  wp_step. apply wp_orRollback, wp_ProjectUpdate_Save; simpl; [done|done|..].
  2: { intros e t2 He e' t3 Hr. unchanged. by rewrite (rolled_IsNotFound _ _ Hr), He. }
  intros u f t2 Hf. rewrite project_cas_matches by done.
  wp_step. rewrite Project_org_attach. apply wp_orRollback, wp_TenancyEventCreate_Save.
  { unfold event_complete. by destruct (project_org db p), (folder_of db p); split_and!; eexists. }
  2: { intros e t3 Hse e' t4 Hr. unchanged.
       by rewrite (rolled_IsNotFound _ _ Hr), (save_error_not_found _ _ _ Hse). }
  intros ec k t3 e _ _ Hfe. simpl in Hfe |- *.
  apply wp_Commit; [done|]. simpl.
  assert (f db = set_projects (update_rows (λ x, bool_decide (x = p)) (project_deleted now u)) db) as Hv1.
  { rewrite Hf. unfold update_matching. simpl. unfold set_projects. f_equal. by apply project_cas_update. }
  assert (db_wf (f db)) as Hwf1 by (rewrite Hv1; by apply update_project_wf).
  split; [exists p, now, u, e; split_and!; [done| |]|unfold insert_row; rewrite Hv1 in *; by apply insert_event_wf].
  - unfold e, event_of, folder_id. exists k, ec.
    unfold attach. simpl. by destruct (project_org db p), (folder_of db p).
  - unfold insert_row. rewrite Hv1. done.
Qed.

(** [DeleteProject] marks the one visible project deleted and changes no other row;
    it appends exactly one deleted event, which carries the project's org and folder;
    [NotFound] means that nothing was visible; every error leaves the database as it
    was, but for a COMMIT whose answer was lost: then the change is there. *)
Theorem DeleteProject_spec name orgNames db t : db_wf db →
  wp (DeleteProject name orgNames) (λ r w', w_tx w' = None ∧
    all_or_nothing db (λ e, IsNotFound e = true → ∀ p, ¬ visible name orgNames db p)
      (λ _ db', project_removed name orgNames db db' ∧ db_wf db') r (w_db w')) (mkWorld db None t).
Proof. apply DeleteProject_ok. Qed.

(** The loop of [DeleteOrg]: every listed project is soft-deleted and announced. *)
Lemma wp_DeleteOrg_projects o now v0 (Q : error + () → World → Prop) db ps : ∀ effs t,
  let v := apply_effects effs db in
  db_wf v → NoDup (Project_ID <$> ps) →
  (∀ p, p ∈ ps → p ∈ t_projects v ∧ Project_DeletedAt p = None) →
  (∀ effs' t' projs evs,
     apply_effects effs' db = mkDB (t_orgs v) (t_folders v) projs (t_events v ++ evs) (t_statuses v) →
     db_wf (apply_effects effs' db) →
     Forall2 (soft_deleted (Project_ID <$> ps) now) (t_projects v) projs →
     Forall2 (λ p, is_project_event "deleted" p (Some o) (folder_id v0 p)) ps evs →
     Q (inr ()) (mkWorld db (Some effs') t')) →
  (∀ e t', IsNotFound e = false → Q (inl e) (mkWorld db None t')) →
  wp (DeleteOrg_projects o now (attach v0 <$> ps)) Q (mkWorld db (Some effs) t).
Proof.
  induction ps as [|p ps IH]; intros effs t v Hwf Hnd Hps HQ He; simpl.
  { wp_step. apply (HQ effs t (t_projects v) []); [|done| |constructor].
    - rewrite app_nil_r. fold v. by destruct v.
    - apply Forall_Forall2_diag, Forall_forall. intros q _. apply soft_deleted_refl. }
  rewrite fmap_cons, NoDup_cons in Hnd. destruct Hnd as [Hpn Hnd].
  destruct (Hps p ltac:(set_solver)) as [Hin Hact].
  wp_step. unfold DeleteOrg_project. wp_step.
  apply wp_orRollback, wp_ProjectUpdate_Save; simpl; [done|done|..].
  2: { intros e t2 Hne e' t3 Hr. apply He. by rewrite (rolled_IsNotFound _ _ Hr). }
  intros u f t1. fold v. intros Hf. rewrite project_cas_matches by done.
  wp_step. apply wp_orRollback, wp_TenancyEventCreate_Save.
  { unfold event_complete. simpl. by destruct (folder_of v0 p); split_and!; eexists. }
  2: { intros e t2 Hse e' t3 Hr. apply He.
       by rewrite (rolled_IsNotFound _ _ Hr), (save_error_not_found _ _ _ Hse). }
  intros ec k t2 e _ _ Hfe. simpl in Hfe |- *. wp_step.
  set (v1 := set_projects (update_rows (λ x, bool_decide (x = p)) (project_deleted now u)) v).
  assert (apply_effects (effs ++ [f]) db = v1) as Hv1.
  { rewrite apply_effects_snoc. fold v. rewrite Hf. unfold v1, update_matching. simpl. unfold set_projects. f_equal.
    by apply project_cas_update. }
  rewrite Hv1 in Hfe.
  assert (db_wf v1) as Hwf1 by (by apply update_project_wf).
  assert (apply_effects ((effs ++ [f]) ++ [insert_row e]) db = insert_row e v1) as Hv2
    by (by rewrite apply_effects_snoc, Hv1).
  apply IH; rewrite ?Hv2; [by apply insert_event_wf|done| | |done].
  - intros q Hq. destruct (Hps q ltac:(set_solver)) as [Hqin Hqact]. split; [|done].
    simpl. apply elem_of_update_rows. exists q. split; [done|].
    rewrite bool_decide_eq_false_2; [done|]. intros ->. apply Hpn. by apply list_elem_of_fmap_2.
  - simpl. intros effs' t' projs evs Heq Hwf' Hproj Hevs.
    apply (HQ effs' t' projs (e :: evs)); [|done| |].
    + rewrite Heq. by rewrite <- app_assoc.
    + rewrite fmap_cons. eapply Forall2_soft_trans; [done| |exact Hproj].
      by apply update_soft_deleted.
    + constructor; [|done]. exists k, ec. unfold e, event_of, folder_id. simpl.
      by destruct (folder_of v0 p).
Qed.

Lemma org_projects_matching db o p : db_wf db → o ∈ t_orgs db →
  p ∈ matching [project_HasFolderWith [folder_HasOrgWith [org_ID (Org_ID o)]]; project_DeletedAtIsNil] db ↔
  p ∈ t_projects db ∧ Project_DeletedAt p = None ∧ project_org db p = Some o.
Proof.
  intros Hwf Ho. unfold matching. rewrite elem_of_select, holds_cons, andb_true_iff.
  rewrite HasFolderWith_HasOrgWith by done. simpl. unfold project_DeletedAtIsNil, org_ID.
  rewrite andb_true_r. split.
  - intros (Hp & (o' & Hpo & Hid) & Hd). rewrite andb_true_r in Hid. bools.
    destruct (Project_DeletedAt p); [done|]. split_and!; [done..|]. rewrite Hpo. f_equal.
    eapply org_id_unique; eauto.
    unfold project_org in Hpo. destruct (folder_of db p) as [f|]; [|done].
    by apply org_of_spec in Hpo as [? _].
  - intros (Hp & Hd & Hpo). rewrite Hd. split_and!; [done| |done]. exists o. split; [done|].
    by rewrite bool_decide_eq_true_2.
Qed.

Lemma DeleteOrg_ok name db t : db_wf db →
  wp (DeleteOrg name) (λ r w', w_tx w' = None ∧
    all_or_nothing db (λ e, IsNotFound e = true → ∀ o, ¬ active_org db name o)
      (λ _ db', org_removed name db db' ∧ db_wf db') r (w_db w')) (mkWorld db None t).
Proof.
  intros Hwf. unfold DeleteOrg. wp_step. apply wp_Client_Tx; [|intros; by unchanged].
  wp_step. apply wp_orRollback, wp_active_org; simpl; [done|..].
  2: { intros t1 Hno e' t2 Hr. by unchanged. }
  2: { intros msg t1 e' t2 Hr. unchanged. by rewrite (rolled_IsNotFound _ _ Hr). }
  intros o t1 Ho. wp_step. apply wp_orRollback.
  change (WithFolder _ _) with (loaded (mkQuery
    [project_HasFolderWith [folder_HasOrgWith [org_ID (Org_ID o)]]; project_DeletedAtIsNil] [] None)).
  apply wp_ProjectQuery_All; simpl; [done|set_solver|done|..].
  2: { intros msg t2 e' t3 Hr. unchanged. by rewrite (rolled_IsNotFound _ _ Hr). }
  intros ps t2 Hps%query_result_plain.
  assert (∀ p, p ∈ ps ↔ p ∈ t_projects db ∧ Project_DeletedAt p = None ∧ project_org db p = Some o) as Hin.
  { intros p. rewrite Hps. apply org_projects_matching; [done|apply Ho]. }
  assert (NoDup (Project_ID <$> ps)) as Hnd by (rewrite Hps; apply NoDup_fmap_select, Hwf).
  wp_step. wp_step. rename v into now. wp_step.
  apply (wp_DeleteOrg_projects o now db); [done|done| | |].
  { intros p (? & ? & _)%Hin. done. }
  2: { intros e t3 He. unchanged. by rewrite He. }
  intros effs t3 projs evs Hv Hwf3 Hproj Hevs. cbn beta iota.
  wp_step. apply wp_orRollback, wp_OrgUpdate_Save; simpl; [done|done|..].
  2: { intros e t4 He e' t5 Hr. unchanged. by rewrite (rolled_IsNotFound _ _ Hr), He. }
  intros u f t4. set (v := apply_effects effs db) in *. intros Hf.
  assert (t_orgs v = t_orgs db) as Horgs by (by rewrite Hv).
  assert (o ∈ t_orgs v) as Hov by (rewrite Horgs; apply Ho).
  assert ((length (matching [org_ID (Org_ID o); org_DeletedAtIsNil] v) =? 0)%nat = false) as ->.
  { apply Nat.eqb_neq. intros Hl%nil_length_inv. apply (select_nil_inv _ _ o) in Hl; [|done].
    rewrite org_cas_holds in Hl; [by bools|done|done|apply Ho|done]. }
  wp_step. apply wp_orRollback, wp_TenancyEventCreate_Save; simpl; [by split_and!; eauto|..].
  2: { intros e t5 Hse e' t6 Hr. unchanged.
       by rewrite (rolled_IsNotFound _ _ Hr), (save_error_not_found _ _ _ Hse). }
  intros ec k t5 _ _ Hfe. set (e := event_of _ _ _) in *. apply wp_Commit; [done|]. simpl.
  set (v1 := set_orgs (update_rows (λ x, bool_decide (x = o)) (upd_deleted now u)) v).
  assert (apply_effects (effs ++ [f]) db = v1) as Hv1.
  { rewrite apply_effects_snoc. fold v. rewrite Hf. unfold v1, update_matching. simpl. unfold set_orgs. f_equal.
    apply list_fmap_ext.
    intros i x Hx%list_elem_of_lookup_2. rewrite (org_cas_holds v o x); [done|done|done|apply Ho|done]. }
  rewrite Hv1 in Hfe. rewrite (apply_effects_snoc (effs ++ [f])), Hv1. simpl.
  assert (db_wf v1) as Hwf1 by (by apply update_org_wf).
  split; [exists o, ps, now, u, projs, evs, e; split_and!; [done|by eapply NoDup_fmap_1|done|done|done|by exists k, ec|]|].
  - unfold set_events, v1, set_orgs. rewrite Hv. simpl. by rewrite <- app_assoc.
  - by apply (insert_event_wf v1 e).
Qed.

(** C10: when no other connection commits meanwhile, [DeleteOrg] soft-deletes the active org of the
    name together with exactly its active projects, all at the same time, and appends one deleted
    event per such project (with its org and folder) and then the org's own; no other row changes.
    An error leaves the database as it was, and [NotFound] means that no active org has the name;
    only when the server carries out the COMMIT and its answer is lost does the caller get an
    error with the whole deletion done. *)
Theorem DeleteOrg_spec name db t : db_wf db →
  wp (DeleteOrg name) (λ r w', w_tx w' = None ∧
    all_or_nothing db (λ e, IsNotFound e = true → ∀ o, ¬ active_org db name o)
      (λ _ db', org_removed name db db' ∧ db_wf db') r (w_db w')) (mkWorld db None t).
Proof. apply DeleteOrg_ok. Qed.

(** *** CreateProject *)

Definition default_folder (db : DB) (o : Org) (f : Folder) : Prop :=
  f ∈ t_folders db ∧ Folder_Name f = "default" ∧ Folder_org_folders f = Org_ID o.

Lemma default_folder_unique db o f f' : db_wf db →
  default_folder db o f → default_folder db o f' → f = f'.
Proof.
  intros Hwf (Hf & Hn & Ho) (Hf' & Hn' & Ho').
  apply (NoDup_fmap_inj_eq folder_key (t_folders db)); [apply Hwf|done|done|].
  unfold folder_key. congruence.
Qed.

Lemma default_folder_matching db o f : db_wf db → o ∈ t_orgs db →
  f ∈ matching [folder_Name "default"; folder_HasOrgWith [org_ID (Org_ID o)]] db ↔ default_folder db o f.
Proof.
  intros Hwf Ho. unfold matching, default_folder. rewrite elem_of_select. simpl.
  rewrite andb_true_r, andb_true_iff. unfold folder_Name, folder_HasOrgWith. rewrite String.eqb_eq.
  split.
  - intros (? & ? & (o' & Ho' & Hh)%existsb_elem). apply andb_true_iff in Hh as [Hk Hh].
    simpl in Hh. unfold org_ID in Hh. rewrite andb_true_r in Hh. bools. split_and!; [done..|]. congruence.
  - intros (? & ? & Hk). split_and!; [done..|]. apply existsb_exists. exists o.
    split; [by apply list_elem_of_In|]. simpl. unfold org_ID.
    by rewrite !bool_decide_eq_true_2.
Qed.

Lemma wp_default_folder o (Q : error + FolderNode → World → Prop) db tx t :
  db_wf (viewof db tx) → o ∈ t_orgs (viewof db tx) →
  (∀ f t', default_folder (viewof db tx) o f → Q (inr (mkFolderNode f None)) (mkWorld db tx t')) →
  (∀ t', (∀ f, ¬ default_folder (viewof db tx) o f) →
     Q (inl (NotFoundError folder_Label)) (mkWorld db tx t')) →
  (∀ msg t', Q (inl (errDriver DrvOther msg)) (mkWorld db tx t')) →
  wp (FolderQuery_Only (NewFolderQuery
    |> FolderQuery_Where [folder_Name "default"; folder_HasOrgWith [org_ID (Org_ID o)]])) Q
    (mkWorld db tx t).
Proof.
  intros Hwf Ho HQ Hnf He. unfold FolderQuery_Only. wp_step. unfold FolderQuery_All. wp_step.
  apply wp_QueryNodes; simpl; [set_solver|done| |intros; by apply He].
  intros fs (full & Hp & _ & ->). simpl in *.
  assert (∀ f, f ∈ full ↔ default_folder (viewof db tx) o f) as Hin.
  { intros f. rewrite Hp. by apply default_folder_matching. }
  assert (NoDup full) as Hnd.
  { eapply (NoDup_fmap_1 Folder_ID). rewrite Hp. apply NoDup_fmap_select, Hwf. }
  change (Pos.to_nat 2) with 2%nat. destruct full as [|f [|f' full]]; simpl; wp_step; wp_step; simpl.
  - apply Hnf. intros f Hf%Hin. set_solver.
  - apply HQ, Hin. left.
  - exfalso. apply NoDup_cons in Hnd as [Hf _]. apply Hf.
    assert (f = f') as ->; [|left].
    apply (default_folder_unique (viewof db tx) o); [done|apply Hin; set_solver..].
Qed.

(** What [CreateProject] does: the project in the default folder of the active org, and its event. *)
Definition project_created (orgName name description : string) (db db' : DB) (n : ProjectNode) (o : Org) : Prop :=
  ∃ f p e, active_org db orgName o ∧ default_folder db o f ∧
    n = mkProjectNode p None ∧ Project_Name p = name ∧ Project_Description p = description ∧
    Project_DeletedAt p = None ∧ Project_folder_projects p = Folder_ID f ∧
    name ≠ "" ∧ (Z.of_nat (String.length name) <= 253)%Z ∧
    (∀ p', p' ∈ t_projects db → project_key p' ≠ project_key p ∧ Project_ID p' ≠ Project_ID p) ∧
    is_project_event "created" p (Some o) (Some (Folder_ID f)) e ∧
    db' = mkDB (t_orgs db) (t_folders db) (t_projects db ++ [p]) (t_events db ++ [e]) (t_statuses db).

Lemma CreateProject_ok orgName name description db t : db_wf db →
  wp (CreateProject orgName name description) (λ r w', w_tx w' = None ∧
    all_or_nothing db (λ e, IsNotFound e = true → ∀ o, active_org db orgName o → ∀ f, ¬ default_folder db o f)
      (λ '(n, o) db', project_created orgName name description db db' n o ∧ db_wf db') r (w_db w')) (mkWorld db None t).
Proof.
  intros Hwf. unfold CreateProject. wp_step. apply wp_Client_Tx; [|intros; by unchanged].
  wp_step. apply wp_orRollback, wp_active_org; simpl; [done|..].
  2: { intros t1 Hno e' t2 Hr. unchanged. intros _ o Ho. by apply Hno in Ho. }
  2: { intros msg t1 e' t2 Hr. unchanged. by rewrite (rolled_IsNotFound _ _ Hr). }
  intros o t1 Ho. wp_step. apply wp_orRollback, wp_default_folder; simpl; [done|apply Ho|..].
  2: { intros t2 Hno e' t3 Hr. unchanged. intros _ o' Ho' f Hf. apply (Hno f).
       replace o with o'; [done|]. eapply org_name_unique; [done|apply Ho'|apply Ho|].
       destruct Ho as (_ & -> & _). by destruct Ho' as (_ & -> & _). }
  2: { intros msg t2 e' t3 Hr. unchanged. by rewrite (rolled_IsNotFound _ _ Hr). }
  intros f t2 Hf. wp_step. apply wp_orRollback, wp_ProjectCreate_Save; simpl.
  2: { intros e t3 Hse e' t4 Hr. unchanged.
       by rewrite (rolled_IsNotFound _ _ Hr), (save_error_not_found _ _ _ Hse). }
  intros id c u t3 Hname Hip. set (p := mkProject _ _ _ _ _ _ _) in *.
  wp_step. apply wp_orRollback, wp_TenancyEventCreate_Save; simpl; [by split_and!; eauto|..].
  2: { intros e t4 Hse e' t5 Hr. unchanged.
       by rewrite (rolled_IsNotFound _ _ Hr), (save_error_not_found _ _ _ Hse). }
  intros ec k t4 _ _ Hfe. set (e := event_of _ _ _) in *.
  apply wp_Commit_ret; [done|]. simpl.
  assert (db_wf (insert_row p db)) as Hwf1 by (by apply insert_project_wf).
  apply NameValidator_ok in Hname as [Hne Hlen].
  split; [|exact (insert_event_wf (insert_row p db) e Hwf1 Hfe)].
  exists f, p, e. split_and!; try done; [|by exists k, ec].
  intros p' Hp'. apply andb_true_iff in Hip as [Hip _].
  apply (forallb_not_in _ _ _ Hip) in Hp'. cbn beta in Hp'.
  apply andb_true_iff in Hp' as [Hid Hkey]. bools. split; [|done].
  unfold project_key. intros Heq. simplify_eq. destruct Hkey as [He|He]; [by apply String.eqb_neq in He|by bools].
Qed.

(** C13: when no other connection commits meanwhile, [CreateProject] either fails and leaves the
    database as it was ([NotFound] only when the org is not active or has no default folder), or
    adds exactly one active project, with a valid name that is new in the default folder of the
    active org, and one created event that names the org and the folder.  There is one more
    failure: the server carries out the COMMIT and the answer is lost; then the caller gets that
    error and both rows are there. *)
Theorem CreateProject_spec orgName name description db t : db_wf db →
  wp (CreateProject orgName name description) (λ r w', w_tx w' = None ∧
    all_or_nothing db (λ e, IsNotFound e = true → ∀ o, active_org db orgName o → ∀ f, ¬ default_folder db o f)
      (λ '(n, o) db', project_created orgName name description db db' n o ∧ db_wf db') r (w_db w')) (mkWorld db None t).
Proof. apply CreateProject_ok. Qed.
End delete.
