(* ===== verification/StoreEvents.v ===== *)
(** * Events and replay

    The event log as its readers see it: [GetEventsAfter] pages through the log in
    id order, [SynthesizeReplayEvents] rebuilds the events of the present state,
    [MaxEventID] and the retention cleanup. *)

From S2P Require Import Prelude GoStd Monad EntSchema Sqlgraph EntQuery EntMutation Config Store.
From S2P Require Import Logic EntSpec Wf EntLoad StoreOrg StoreProject.

(** The events after a cursor, in table (and id) order. *)
Definition events_after (afterID : Z) (db : DB) : list TenancyEvent :=
  select (λ e, (afterID <? TenancyEvent_ID e)%Z) (t_events db).

Definition id_lt (x y : TenancyEvent) : Prop := (TenancyEvent_ID x < TenancyEvent_ID y)%Z.

Lemma Asc_Z_ordering {R} (f : R → Z) : ordering (Asc_Z f).
Proof. split; unfold Asc_Z; intros; rewrite !Z.leb_le in *; lia. Qed.
Lemma Desc_Z_ordering {R} (f : R → Z) : ordering (Desc_Z f).
Proof. split; unfold Desc_Z; intros; rewrite !Z.leb_le in *; lia. Qed.
Lemma Asc_opt_ordering {R} (f : R → option Z) : ordering (Asc_opt f).
Proof.
  split; unfold Asc_opt; intros x y.
  - destruct (f x), (f y); rewrite ?Z.leb_le; auto; lia.
  - intros z. destruct (f x), (f y), (f z); rewrite ?Z.leb_le; try done; lia.
Qed.

Lemma single_order_le {R} (o : R → R → bool) x y : lex_le [o] x y = true → o x y = true.
Proof. simpl. intros [? _]%andb_true_iff. done. Qed.

(** A list sorted by an ordering, as a strongly sorted one. *)
Lemma ordered_strongly {R} (o : R → R → bool) (l : list R) : ordering o →
  Sorted (λ x y, lex_le [o] x y = true) l → StronglySorted (λ x y, o x y = true) l.
Proof.
  intros [_ Htr] Hs. apply Sorted_StronglySorted; [intros x y z; apply Htr|].
  eapply Sorted_weaken; [|exact Hs]. intros x y. apply single_order_le.
Qed.

Lemma sorted_log (l : list TenancyEvent) :
  StronglySorted Z.lt (TenancyEvent_ID <$> l) → StronglySorted id_lt l.
Proof.
  induction l as [|e l IH]; [constructor|]. rewrite fmap_cons. intros Hs.
  inversion Hs as [|? ? Hs' Hf]; subst. constructor; [auto|].
  rewrite Forall_fmap in Hf. exact Hf.
Qed.

(** Sorting a selection of the log by id gives the selection itself. *)
Lemma sorted_log_unique (l k : list TenancyEvent) :
  StronglySorted id_lt k → l ≡ₚ k →
  Sorted (λ x y, lex_le [Asc_Z TenancyEvent_ID] x y = true) l → l = k.
Proof.
  intros Hk Hp Hl. apply ordered_strongly in Hl; [|apply Asc_Z_ordering].
  set (le := λ x y : TenancyEvent, Asc_Z TenancyEvent_ID x y = true) in *.
  assert (StronglySorted le k) as Hkl.
  { clear -Hk. induction Hk as [|x k Hs IH Hf]; constructor; [done|].
    eapply Forall_impl; [exact Hf|]. intros y Hy. unfold le, Asc_Z, id_lt in *. lia. }
  apply (StronglySorted_unique_strong le); [|done|done|done].
  intros x y Hx Hy Hxy Hyx. unfold le, Asc_Z in Hxy, Hyx. rewrite Hp in Hx.
  assert (TenancyEvent_ID x = TenancyEvent_ID y) as Heq by lia. clear -Hk Hx Hy Heq.
  induction Hk as [|z k Hs IH Hf]; [set_solver|]. rewrite Forall_forall in Hf. unfold id_lt in Hf.
  apply elem_of_cons in Hx as [->|Hx], Hy as [->|Hy]; [done| | |auto].
  - specialize (Hf _ Hy). lia.
  - specialize (Hf _ Hx). lia.
Qed.

(** Reading a sorted log in pages: after the last event of a page come exactly the
    events the page left out. *)
Lemma page_split (pre post : list TenancyEvent) e : StronglySorted id_lt (pre ++ e :: post) →
  select (λ x, (TenancyEvent_ID e <? TenancyEvent_ID x)%Z) (pre ++ e :: post) = post.
Proof.
  intros (Hpre & _ & Hpost)%StronglySorted_app. apply StronglySorted_cons in Hpost as [Hpost _].
  rewrite Forall_forall in Hpost. unfold id_lt in *.
  rewrite select_app, (select_none _ pre); simpl; [|intros x Hx; specialize (Hpre x e Hx ltac:(set_solver)); lia].
  rewrite Z.ltb_irrefl. apply select_all. intros x Hx%Hpost. lia.
Qed.

Section events.
Context `{Driver} `{Runtime} `{FieldValidators} `{UUIDLib}.
Context `{!DriverLaws} `{!Quiet}.
Implicit Types (db : DB) (tx : option (list (DB → DB))) (t : nat).

Lemma events_after_sorted afterID db : db_wf db → StronglySorted id_lt (events_after afterID db).
Proof. intros Hwf. by apply sorted_log, StronglySorted_select, Hwf. Qed.

Lemma GetEventsAfter_ok afterID limit db tx t :
  db_wf (viewof db tx) → (0 < limit)%Z →
  wp (GetEventsAfter afterID limit) (λ r w', w_db w' = db ∧ w_tx w' = tx ∧
    match r with
    | inr es => es = take (Z.to_nat limit) (events_after afterID (viewof db tx)) ∧
        StronglySorted id_lt es ∧
        ∀ e, last es = Some e → events_after afterID (viewof db tx) =
          es ++ events_after (TenancyEvent_ID e) (viewof db tx)
    | inl e => ∃ msg, e = errDriver DrvOther msg
    end) (mkWorld db tx t).
Proof.
  intros Hwf Hl. unfold GetEventsAfter, TenancyEventQuery_All. apply wp_All; simpl; [|done| |by eauto].
  - intros o [->|?%elem_of_nil]%elem_of_cons; [apply Asc_Z_ordering|done].
  - intros rs t' (full & Hp & Hs & ->). simpl in *. rewrite (proj2 (Z.ltb_lt 0 limit)) by done.
    assert (full = events_after afterID (viewof db tx)) as ->.
    { apply sorted_log_unique; [by apply events_after_sorted| |done]. rewrite Hp.
      unfold matching, events_after. erewrite select_ext; [reflexivity|].
      intros e _. simpl. apply andb_true_r. }
    pose proof (events_after_sorted afterID _ Hwf) as Hsort.
    set (l := events_after afterID (viewof db tx)) in *. set (n := Z.to_nat limit).
    split_and!; [done..| |].
    + rewrite <- (take_drop n l) in Hsort. by apply StronglySorted_app in Hsort as (_ & ? & _).
    + intros e [pre Hpre]%last_Some. rewrite <- (take_drop n l) at 1. f_equal.
      assert (l = pre ++ e :: drop n l) as Hsplit.
      { trans (take n l ++ drop n l); [by rewrite take_drop|]. by rewrite Hpre, <- app_assoc. }
      assert (afterID < TenancyEvent_ID e)%Z as Hae.
      { assert (e ∈ l) as [_ He]%elem_of_select by (rewrite Hsplit; set_solver). lia. }
      rewrite Hsplit in Hsort. apply page_split in Hsort. rewrite <- Hsplit in Hsort.
      rewrite <- Hsort. unfold l, events_after. rewrite select_select. apply select_ext.
      intros x _. destruct (Z.ltb_spec (TenancyEvent_ID e) (TenancyEvent_ID x));
        destruct (Z.ltb_spec afterID (TenancyEvent_ID x)); try done; lia.
Qed.

(** for a positive limit, [GetEventsAfter] returns the first [limit] events whose
    id is above the cursor, in increasing id order, none skipped and none repeated;
    the events after the last one of the page are exactly those it left out, so a
    reader that moves its cursor to the last id it saw reads the log once. *)
Theorem GetEventsAfter_spec afterID limit db tx t :
  db_wf (viewof db tx) → (0 < limit)%Z →
  wp (GetEventsAfter afterID limit) (λ r w', w_db w' = db ∧ w_tx w' = tx ∧
    match r with
    | inr es => es = take (Z.to_nat limit) (events_after afterID (viewof db tx)) ∧
        StronglySorted id_lt es ∧
        ∀ e, last es = Some e → events_after afterID (viewof db tx) =
          es ++ events_after (TenancyEvent_ID e) (viewof db tx)
    | inl e => ∃ msg, e = errDriver DrvOther msg
    end) (mkWorld db tx t).
Proof. apply GetEventsAfter_ok. Qed.

(** [MaxEventID] never computes the maximum of a log of several events: [Only]
    replaces the LIMIT 1 by LIMIT 2 and reports the second row as [NotSingular].
    It answers 0 on the empty log and the id of a lone event. *)
Theorem MaxEventID_not_singular db tx t :
  wp MaxEventID (λ r w', w_db w' = db ∧ w_tx w' = tx ∧
    match r with
    | inr n => (t_events (viewof db tx) = [] ∧ n = 0%Z) ∨
               ∃ e, t_events (viewof db tx) = [e] ∧ n = TenancyEvent_ID e
    | inl e => (e = NotSingularError tenancyevent_Label ∧ (2 ≤ length (t_events (viewof db tx)))%nat) ∨
               ∃ msg, e = errDriver DrvOther msg
    end) (mkWorld db tx t).
Proof.
  unfold MaxEventID, TenancyEventQuery_Only, Query_Only. do 3 wp_step. apply wp_All; simpl; [|done| |].
  - intros o [->|?%elem_of_nil]%elem_of_cons; [apply Desc_Z_ordering|done].
  - intros rs t' (full & Hp & _ & ->). simpl in *.
    assert (full ≡ₚ t_events (viewof db tx)) as Hf.
    { rewrite Hp. unfold matching. by rewrite select_all. }
    wp_step. change (Pos.to_nat 2) with 2%nat. pose proof (Permutation_length Hf) as Hlen.
    destruct full as [|e [|e' full]]; simpl in *; wp_step.
    + split_and!; [done..|]. left. split; [|done]. by apply nil_length_inv.
    + split_and!; [done..|]. right. exists e. split; [|done]. symmetry. by apply Permutation_singleton_l.
    + split_and!; [done..|]. left. split; [done|]. lia.
  - intros msg t'. wp_step. eauto 10.
Qed.

(** The highest event id, 0 on an empty log. *)
Definition max_event_id (db : DB) (n : Z) : Prop :=
  (t_events db = [] ∧ n = 0%Z) ∨
  (∃ e, e ∈ t_events db ∧ TenancyEvent_ID e = n) ∧ ∀ e, e ∈ t_events db → (TenancyEvent_ID e <= n)%Z.

Lemma wp_last_event (Q : error + TenancyEvent → World → Prop) db tx t :
  (∀ e t', e ∈ t_events (viewof db tx) →
     (∀ e', e' ∈ t_events (viewof db tx) → (TenancyEvent_ID e' <= TenancyEvent_ID e)%Z) →
     Q (inr e) (mkWorld db tx t')) →
  (∀ t', t_events (viewof db tx) = [] → Q (inl (NotFoundError tenancyevent_Label)) (mkWorld db tx t')) →
  (∀ msg t', Q (inl (errDriver DrvOther msg)) (mkWorld db tx t')) →
  wp (TenancyEventQuery_First (NewQuery |> Order [Desc_Z TenancyEvent_ID])) Q (mkWorld db tx t).
Proof.
  intros HQ Hn He. unfold TenancyEventQuery_First, Query_First. wp_step.
  apply wp_All; simpl; [|done| |intros; by apply He].
  - intros o [->|?%elem_of_nil]%elem_of_cons; [apply Desc_Z_ordering|done].
  - intros rs t' (full & Hp & Hs & ->). simpl in *. wp_step.
    assert (full ≡ₚ t_events (viewof db tx)) as Hf.
    { rewrite Hp. unfold matching. by rewrite select_all. }
    apply ordered_strongly in Hs; [|apply Desc_Z_ordering].
    change (Pos.to_nat 1) with 1%nat. destruct full as [|e full]; simpl.
    + apply Hn. by apply Permutation_nil.
    + apply StronglySorted_cons in Hs as [Hs _]. rewrite Forall_forall in Hs.
      apply HQ; [rewrite <- Hf; left|]. intros e' He'. rewrite <- Hf in He'.
      apply elem_of_cons in He' as [->|He']; [lia|]. apply Hs in He'. unfold Desc_Z in He'. lia.
Qed.

(** One block of the replay: the rows [p] selects, in the order of [key]. *)
Definition replay_block {R} (table : list R) (p : R → bool) (le : R → R → bool) (rs : list R) : Prop :=
  rs ≡ₚ select p table ∧ StronglySorted (λ x y, le x y = true) rs.

Lemma query_result_block {R} `{Table R} db (p : predicate R) (f : R → bool) (o : R → R → bool) rs :
  ordering o → (∀ r, p db r = f r) → query_result db (querySpec (mkQuery [p] [o] None)) rs →
  replay_block (rows db) f o rs.
Proof.
  intros Ho Hpf (full & Hp & Hs & ->). simpl in *. split.
  - rewrite Hp. unfold matching. erewrite select_ext; [done|].
    intros r _. simpl. by rewrite andb_true_r.
  - by apply ordered_strongly.
Qed.

(** What a replay contains: created events of the active orgs, then of the active
    projects, deleted events of the soft-deleted projects, then of the soft-deleted
    orgs; each block is complete, without repetition, in order of its time. *)
Definition replay_of (db : DB) (events : list ReplayEvent) : Prop :=
  ∃ os ps dps dos,
    replay_block (t_orgs db) (λ o, is_nil (Org_DeletedAt o)) (Asc_Z Org_CreatedAt) os ∧
    replay_block (t_projects db) (λ p, is_nil (Project_DeletedAt p)) (Asc_Z Project_CreatedAt) ps ∧
    replay_block (t_projects db) (λ p, negb (is_nil (Project_DeletedAt p))) (Asc_opt Project_DeletedAt) dps ∧
    replay_block (t_orgs db) (λ o, negb (is_nil (Org_DeletedAt o))) (Asc_opt Org_DeletedAt) dos ∧
    events = (org_replay "created" <$> os) ++ (project_replay "created" <$> (attach db <$> ps)) ++
             (project_replay "deleted" <$> (attach db <$> dps)) ++ (org_replay "deleted" <$> dos).

Lemma wp_replay_max_id (Q : error + Z → World → Prop) db tx t :
  (∀ n t', max_event_id (viewof db tx) n → Q (inr n) (mkWorld db tx t')) →
  (∀ e t', IsNotFound e = false → Q (inl e) (mkWorld db tx t')) →
  wp replay_max_id Q (mkWorld db tx t).
Proof.
  intros HQ He. unfold replay_max_id. wp_step. wp_step. apply wp_last_event; intros; simpl; wp_step.
  - apply HQ. right. eauto.
  - apply HQ. by left.
  - by apply He.
Qed.

Lemma wp_replay_body (Q : error + (list ReplayEvent * Z) → World → Prop) db tx t :
  db_wf (viewof db tx) →
  (∀ events n t', replay_of (viewof db tx) events → max_event_id (viewof db tx) n →
     Q (inr (events, n)) (mkWorld db tx t')) →
  (∀ e t', IsNotFound e = false → Q (inl e) (mkWorld db tx t')) →
  wp SynthesizeReplayEvents_body Q (mkWorld db tx t).
Proof.
  intros Hwf HQ He. unfold SynthesizeReplayEvents_body. wp_step.
  apply wp_replay_max_id; [intros n t1 Hn|done].
  wp_step. apply wp_All; simpl; [|done| |by intros; apply He].
  { intros o [->|?%elem_of_nil]%elem_of_cons; [apply Asc_Z_ordering|done]. }
  intros os t2 Hos. wp_step.
  apply (wp_ProjectQuery_All (mkQuery [project_DeletedAtIsNil] [Asc_Z Project_CreatedAt] None)); simpl; [done| |done| |by intros; apply He].
  { intros o [->|?%elem_of_nil]%elem_of_cons; [apply Asc_Z_ordering|done]. }
  intros ps t3 Hps. wp_step.
  apply (wp_ProjectQuery_All (mkQuery [project_DeletedAtNotNil] [Asc_opt Project_DeletedAt] None)); simpl; [done| |done| |by intros; apply He].
  { intros o [->|?%elem_of_nil]%elem_of_cons; [apply Asc_opt_ordering|done]. }
  intros dps t4 Hdps. wp_step. apply wp_All; simpl; [|done| |by intros; apply He].
  { intros o [->|?%elem_of_nil]%elem_of_cons; [apply Asc_opt_ordering|done]. }
  intros dos t5 Hdos. wp_step. apply HQ; [|done].
  exists os, ps, dps, dos. rewrite <- !app_assoc. split_and!; [..|done].
  - exact (query_result_block _ org_DeletedAtIsNil _ _ _ (Asc_Z_ordering _) (λ _, eq_refl) Hos).
  - exact (query_result_block _ project_DeletedAtIsNil _ _ _ (Asc_Z_ordering _) (λ _, eq_refl) Hps).
  - exact (query_result_block _ project_DeletedAtNotNil _ _ _ (Asc_opt_ordering _) (λ _, eq_refl) Hdps).
  - exact (query_result_block _ org_DeletedAtNotNil _ _ _ (Asc_opt_ordering _) (λ _, eq_refl) Hdos).
Qed.

Lemma SynthesizeReplayEvents_ok db t : db_wf db →
  wp SynthesizeReplayEvents (λ r w', w_db w' = db ∧ w_tx w' = None ∧
    match r with
    | inr (events, maxID) => replay_of db events ∧ max_event_id db maxID
    | inl e => IsNotFound e = false
    end) (mkWorld db None t).
Proof.
  intros Hwf. unfold SynthesizeReplayEvents. wp_step. wp_step.
  apply wp_Client_Tx; cbn beta iota; [|intros; by wp_step].
  assert (∀ r (Q : error + (list ReplayEvent * Z) → World → Prop) t,
    (∀ t', Q r (mkWorld db None t')) →
    wp (_ ← try Tx_Rollback; of_result r) Q (mkWorld db (Some []) t)) as Hend.
  { intros r Q t1 HQ. wp_step. wp_step. apply wp_outside.
    destruct (drv_rollback t1); simpl; wp_step; apply HQ. }
  wp_step. wp_step. apply wp_replay_body; [done|..]; intros; apply Hend; by intros.
Qed.

(** C12: when nobody else writes, [SynthesizeReplayEvents] returns the present state as
    events (every org and project exactly once, parents created before children and
    deleted after them) together with the highest id of the log; the read
    transaction is closed on every path and changes nothing. *)
Theorem SynthesizeReplayEvents_spec db t : db_wf db →
  wp SynthesizeReplayEvents (λ r w', w_db w' = db ∧ w_tx w' = None ∧
    match r with
    | inr (events, maxID) => replay_of db events ∧ max_event_id db maxID
    | inl e => IsNotFound e = false
    end) (mkWorld db None t).
Proof. apply SynthesizeReplayEvents_ok. Qed.

(** [CleanupOldEvents] removes exactly the events created before now minus the
    retention and reports how many; on error nothing is removed. *)
Theorem CleanupOldEvents_spec retention db t : db_wf db →
  wp (CleanupOldEvents retention) (λ r w', w_tx w' = None ∧
    match r with
    | inr n => ∃ now, let old e := (TenancyEvent_CreatedAt e <? now + wrap64 (- retention))%Z in
        w_db w' = set_events (select (λ e, negb (old e))) db ∧
        n = length (select old (t_events db)) ∧ db_wf (w_db w')
    | inl e => w_db w' = db
    end) (mkWorld db None t).
Proof.
  intros Hwf. unfold CleanupOldEvents. wp_step. wp_step. unfold TenancyEventDelete_Exec.
  apply wp_delete_now; simpl; [|done]. intros t' _. split; [done|]. exists v.
  assert (∀ l, select (holds [tenancyevent_CreatedAtLT (v + wrap64 (- retention))%Z] db) l =
    select (λ e, (TenancyEvent_CreatedAt e <? v + wrap64 (- retention))%Z) l) as Hs.
  { intros l. apply select_ext. intros e _. simpl. apply andb_true_r. }
  split_and!.
  - unfold delete_matching, delete_rows. simpl. unfold set_events. f_equal. apply select_ext.
    intros e _. simpl. by rewrite andb_true_r.
  - unfold matching. by rewrite Hs.
  - by apply delete_event_wf.
Qed.
End events.
