(* ===== verification/StoreStatus.v ===== *)
(** * Controller statuses: derivation and upsert

    [DeriveStatusFromRows] against its declarative reading, and
    [UpsertControllerStatus] with the uniqueness of the status rows. *)

From S2P Require Import Prelude GoStd Monad EntSchema Sqlgraph EntQuery EntMutation Config Status Store.
From S2P Require Import Logic EntSpec Wf EntLoad StoreOrg StoreProject.

(** ** Deriving the status *)

(** The row of a controller: the last one of its name. *)
Definition row_of (statuses : list ControllerStatus) (c : string) : option ControllerStatus :=
  statusMap statuses !! c.

Lemma statusMap_snoc l s :
  statusMap (l ++ [s]) = <[ControllerStatus_ControllerName s := s]> (statusMap l).
Proof. unfold statusMap. by rewrite foldl_app. Qed.

(** With one row per controller the map finds the row. *)
Lemma row_of_spec statuses c s : NoDup (ControllerStatus_ControllerName <$> statuses) →
  row_of statuses c = Some s ↔ s ∈ statuses ∧ ControllerStatus_ControllerName s = c.
Proof.
  unfold row_of. induction statuses as [|x l IH] using rev_ind; intros Hnd.
  - unfold statusMap. simpl. rewrite lookup_empty. set_solver.
  - rewrite statusMap_snoc. rewrite fmap_app in Hnd. apply NoDup_app in Hnd as (Hl & Hd & _).
    rewrite elem_of_app, list_elem_of_singleton.
    destruct (decide (ControllerStatus_ControllerName x = c)) as [<-|Hne].
    + rewrite lookup_insert_eq. split; [naive_solver|]. intros [[Hs| ->] Heq]; [|done].
      exfalso. apply (Hd (ControllerStatus_ControllerName s)); [by apply list_elem_of_fmap_2|].
      rewrite Heq. set_solver.
    + rewrite lookup_insert_ne, IH by done. naive_solver.
Qed.

Definition erring (statuses : list ControllerStatus) (c : string) : Prop :=
  ∃ s, row_of statuses c = Some s ∧ ControllerStatus_Status s = StatusError.
Definition at_rest (statuses : list ControllerStatus) (c : string) : Prop :=
  ∃ s, row_of statuses c = Some s ∧ ControllerStatus_Status s ≠ StatusError ∧
       ControllerStatus_Status s ≠ StatusInProgress.

(** The message of the first registered controller that reports an error. *)
Definition first_error (statuses : list ControllerStatus) (cs : list string) (msg : string) : Prop :=
  ∃ pre c post s, cs = pre ++ c :: post ∧ (∀ c', c' ∈ pre → ¬ erring statuses c') ∧
    row_of statuses c = Some s ∧ ControllerStatus_Status s = StatusError ∧ msg = ControllerStatus_Message s.

Lemma status_is_spec v s : status_is v s = true ↔ ControllerStatus_Status s = v.
Proof. apply String.eqb_eq. Qed.

Lemma first_error_cons statuses c cs msg : ¬ erring statuses c →
  first_error statuses cs msg → first_error statuses (c :: cs) msg.
Proof.
  intros Hc (pre & c0 & post & s & -> & Hpre & Hs). exists (c :: pre), c0, post, s.
  split_and!; [done| |by destruct_and?..]. intros c' [->|?]%elem_of_cons; auto.
Qed.

Lemma deleting_loop_spec statuses cs acc :
  match deleting_loop (statusMap statuses) cs acc with
  | inl msg => first_error statuses cs msg
  | inr l => (∀ c, c ∈ cs → ¬ erring statuses c) ∧
             l = acc ++ select (λ c, bool_decide (is_Some (row_of statuses c))) cs
  end.
Proof.
  revert acc. induction cs as [|c cs IH]; intros acc; simpl.
  { split; [set_solver|by rewrite app_nil_r]. }
  fold (row_of statuses c). destruct (row_of statuses c) as [s|] eqn:Hr.
  - destruct (status_is StatusError s) eqn:Hs.
    + apply status_is_spec in Hs. exists [], c, cs, s. split_and!; try done. set_solver.
    + assert (¬ erring statuses c) as Hne.
      { intros (s' & Hs' & He). rewrite Hr in Hs'. simplify_eq. apply status_is_spec in He. congruence. }
      specialize (IH (acc ++ [c])). destruct (deleting_loop _ _ _); [by apply first_error_cons|].
      destruct IH as [Hcs ->]. rewrite bool_decide_eq_true_2 by done.
      split; [set_solver|by rewrite <- app_assoc].
  - assert (¬ erring statuses c) as Hne by (intros (s' & Hs' & _); congruence).
    specialize (IH acc). destruct (deleting_loop _ _ _); [by apply first_error_cons|].
    destruct IH as [Hcs ->]. rewrite bool_decide_eq_false_2 by (by intros []).
    split; [set_solver|done].
Qed.

Definition in_progress (statuses : list ControllerStatus) (c : string) : bool :=
  match row_of statuses c with Some s => status_is StatusInProgress s | None => false end.

Lemma active_loop_spec statuses cs p q :
  match active_loop (statusMap statuses) cs p q with
  | inl msg => first_error statuses cs msg
  | inr (pending, inProgress) => (∀ c, c ∈ cs → ¬ erring statuses c) ∧
      pending = p ++ select (λ c, is_nil (row_of statuses c)) cs ∧
      inProgress = q ++ select (in_progress statuses) cs
  end.
Proof.
  revert p q. induction cs as [|c cs IH]; intros p q; simpl.
  { split; [set_solver|by rewrite !app_nil_r]. }
  unfold in_progress at 1. fold (row_of statuses c). destruct (row_of statuses c) as [s|] eqn:Hr; simpl.
  - destruct (status_is StatusError s) eqn:Hs.
    + apply status_is_spec in Hs. exists [], c, cs, s. split_and!; try done. set_solver.
    + assert (¬ erring statuses c) as Hne.
      { intros (s' & Hs' & He). rewrite Hr in Hs'. simplify_eq. apply status_is_spec in He. congruence. }
      specialize (IH p (if status_is StatusInProgress s then q ++ [c] else q)).
      destruct (active_loop _ _ _ _) as [|[? ?]]; [by apply first_error_cons|].
      destruct IH as (Hcs & -> & ->). split_and!; [set_solver|done|].
      destruct (status_is StatusInProgress s); [by rewrite <- app_assoc|done].
  - assert (¬ erring statuses c) as Hne by (intros (s' & Hs' & _); congruence).
    specialize (IH (p ++ [c]) q). destruct (active_loop _ _ _ _) as [|[? ?]]; [by apply first_error_cons|].
    destruct IH as (Hcs & -> & ->). split_and!; [set_solver|by rewrite <- app_assoc|done].
Qed.

Lemma first_error_erring statuses cs msg : first_error statuses cs msg → ∃ c, c ∈ cs ∧ erring statuses c.
Proof. intros (pre & c & post & s & -> & _ & Hr & Hs & _). exists c. split; [set_solver|by exists s]. Qed.

(** What the derived status says, for the rows of a resource and the registered
    controllers [cs]. *)
Inductive derived (statuses : list ControllerStatus) (isDeleted : bool) (cs : list string)
    : string * string → Prop :=
  (** deleted, and no registered controller still has a row *)
  | derived_deleted : isDeleted = true → (∀ c, c ∈ cs → row_of statuses c = None) →
      derived statuses isDeleted cs (STATUS_DELETED, "")
  (** active, and every registered controller has a row that neither fails nor works *)
  | derived_idle : isDeleted = false → (∀ c, c ∈ cs → at_rest statuses c) →
      derived statuses isDeleted cs (STATUS_IDLE, "")
  (** some registered controller failed: the first one's message *)
  | derived_error msg : first_error statuses cs msg →
      derived statuses isDeleted cs (STATUS_ERROR, msg)
  (** otherwise, naming the controllers that are waited for *)
  | derived_deleting : isDeleted = true → (∀ c, c ∈ cs → ¬ erring statuses c) →
      (∃ c, c ∈ cs ∧ is_Some (row_of statuses c)) →
      derived statuses isDeleted cs (STATUS_IN_PROGRESS, "deleting, waiting for: " +:+
        Join (select (λ c, bool_decide (is_Some (row_of statuses c))) cs) ", ")
  | derived_working pending inProgress msg : isDeleted = false → (∀ c, c ∈ cs → ¬ erring statuses c) →
      pending = select (λ c, is_nil (row_of statuses c)) cs →
      inProgress = select (in_progress statuses) cs →
      pending ++ inProgress ≠ [] →
      msg = (match pending, inProgress with
             | _, [] => "waiting for: " +:+ Join pending ", "
             | [], _ => "in progress: " +:+ Join inProgress ", "
             | _, _ => "waiting for: " +:+ Join pending ", " +:+ "; " +:+ "in progress: " +:+ Join inProgress ", "
             end) →
      derived statuses isDeleted cs (STATUS_IN_PROGRESS, msg).

Lemma append_assoc s1 s2 s3 : ((s1 +:+ s2) +:+ s3 = s1 +:+ (s2 +:+ s3))%string.
Proof. induction s1 as [|c s1 IH]; [done|]. exact (f_equal (String c) IH). Qed.

(** C20: the derived status is the one the controllers' rows justify, on every branch:
    DELETED, IDLE, ERROR with the first failing controller's message, or IN_PROGRESS
    naming exactly the controllers that are waited for, in registration order. *)
Theorem DeriveStatusFromRows_derived statuses isDeleted cs :
  derived statuses isDeleted cs (DeriveStatusFromRows statuses isDeleted cs).
Proof.
  unfold DeriveStatusFromRows. destruct (Nat.eqb_spec (length cs) 0) as [Hz|Hz].
  { apply nil_length_inv in Hz; subst cs. destruct isDeleted.
    - apply derived_deleted; [done|]. intros c []%elem_of_nil.
    - apply derived_idle; [done|]. intros c []%elem_of_nil. }
  destruct isDeleted.
  - destruct (existsb _ cs) eqn:He; simpl.
    + pose proof (deleting_loop_spec statuses cs []) as Hl.
      destruct (deleting_loop _ _ _) as [msg|l]; [by apply derived_error|].
      destruct Hl as [Hne ->]. simpl. apply existsb_elem in He as (c & Hc & Hs). bools.
      destruct (select _ cs) as [|c' l] eqn:Hsel; [|cbn [length Nat.ltb Nat.leb]; rewrite <- Hsel; apply derived_deleting; eauto].
      exfalso. apply (select_nil_inv _ _ _ Hsel) in Hc. bools. done.
    + apply derived_deleted; [done|]. intros c Hc.
      apply (existsb_none _ _ c) in He; [|done]. cbn beta in He. bools.
      by apply eq_None_not_Some.
  - pose proof (active_loop_spec statuses cs [] []) as Hl.
    destruct (active_loop _ _ _ _) as [msg|[pending inProgress]]; [by apply derived_error|].
    destruct Hl as (Hne & Hp & Hq). simpl in Hp, Hq.
    destruct pending as [|p ps] eqn:Hpe, inProgress as [|q qs] eqn:Hqe; cbn [length Nat.ltb Nat.leb orb app Join].
    + apply derived_idle; [done|]. intros c Hc.
      symmetry in Hp, Hq. pose proof (select_nil_inv _ _ _ Hp Hc) as Hr.
      pose proof (select_nil_inv _ _ _ Hq Hc) as Hi. cbn beta in Hr. unfold in_progress in Hi.
      destruct (row_of statuses c) as [s|] eqn:Hs; [|done]. exists s. split_and!; [done| |].
      * intros Herr. apply (Hne c Hc). by exists s.
      * intros Hip%status_is_spec. congruence.
    + by apply (derived_working _ _ _ [] (q :: qs) _ eq_refl Hne Hp Hq).
    + by apply (derived_working _ _ _ (p :: ps) [] _ eq_refl Hne Hp Hq).
    + apply (derived_working _ _ _ (p :: ps) (q :: qs) _ eq_refl Hne Hp Hq); [done|].
      cbn beta iota. by rewrite append_assoc.
Qed.
