(* ===== verification/StoreUpsert.v ===== *)
(** * Upserting a status row among other connections

    [UpsertControllerStatus] has up to three statements and no transaction.  Other
    connections may commit between them: [Others] only says that they keep the constraints of
    the schema.  The theorem is that it looks like one step all the same. *)

From S2P Require Import Prelude GoStd Monad EntSchema Sqlgraph EntQuery EntMutation Config Status Store.
From S2P Require Import Logic EntSpec Wf EntLoad StoreOrg StoreProject StoreStatus.

(** ** Upsert *)

Definition has_key (name rt : string) (id : UUID) (s : ControllerStatus) : bool :=
  String.eqb (ControllerStatus_ControllerName s) name &&
  (String.eqb (ControllerStatus_ResourceType s) rt && bool_decide (ControllerStatus_ResourceID s = id)).

Definition status_set (status message : string) (u : Time) (s : ControllerStatus) : ControllerStatus :=
  mkControllerStatus (ControllerStatus_ID s) (ControllerStatus_ControllerName s)
    (ControllerStatus_ResourceType s) (ControllerStatus_ResourceID s) status message u.

Lemma status_key_holds name rt id db s : holds (status_key name rt id) db s = has_key name rt id s.
Proof.
  unfold has_key. simpl. unfold controllerstatus_ControllerName, controllerstatus_ResourceType,
    controllerstatus_ResourceID. by rewrite andb_true_r.
Qed.

Lemma has_key_spec name rt id s : has_key name rt id s = true ↔ controllerstatus_key s = (name, rt, id).
Proof.
  unfold has_key, controllerstatus_key. rewrite !andb_true_iff, !String.eqb_eq, bool_decide_eq_true.
  naive_solver.
Qed.

Lemma update_rows_none {R} p (f : R → R) l : (∀ r, r ∈ l → p r = false) → update_rows p f l = l.
Proof.
  intros Hp. unfold update_rows. trans (id <$> l); [|apply list_fmap_id].
  apply list_fmap_ext. intros i r Hr%list_elem_of_lookup_2. by rewrite (Hp _ Hr).
Qed.

Lemma set_statuses_none p f db :
  select p (t_statuses db) = [] → set_statuses (update_rows p f) db = db.
Proof.
  intros Hs. unfold set_statuses. rewrite update_rows_none; [by destruct db|].
  intros r Hr. by apply (select_nil_inv _ _ _ Hs).
Qed.

(** What a successful upsert does, at one moment: exactly one row of the key is left, with
    the status and the message, and no other row changes. *)
Definition upserted (name rt : string) (id : UUID) (status message : string) (db db' : DB) : Prop :=
  StatusValidator status = None ∧ ∃ s, select (has_key name rt id) (t_statuses db') = [s] ∧
    ControllerStatus_Status s = status ∧ ControllerStatus_Message s = message ∧
    delete_rows (has_key name rt id) (t_statuses db') = delete_rows (has_key name rt id) (t_statuses db) ∧
    db' = set_statuses (λ _, t_statuses db') db ∧ db_wf db'.

Lemma update_upserted name rt id status message u db s l : db_wf db → StatusValidator status = None →
  select (has_key name rt id) (t_statuses db) = s :: l →
  upserted name rt id status message db
    (set_statuses (update_rows (has_key name rt id) (status_set status message u)) db).
Proof.
  intros Hwf Hv Hsel. split; [done|].
  assert (∀ x, has_key name rt id (status_set status message u x) = has_key name rt id x) as Hks by done.
  assert (s ∈ t_statuses db ∧ has_key name rt id s = true) as [Hin Hk].
  { apply elem_of_select. rewrite Hsel. left. }
  assert (l = []) as ->.
  { destruct l as [|s' l]; [done|]. exfalso.
    assert (NoDup (controllerstatus_key <$> s :: s' :: l)) as Hnd.
    { rewrite <- Hsel. apply NoDup_fmap_select, Hwf. }
    assert (has_key name rt id s' = true) as Hk'.
    { assert (s' ∈ select (has_key name rt id) (t_statuses db)) as [_ ?]%elem_of_select; [|done].
      rewrite Hsel. set_solver. }
    apply has_key_spec in Hk, Hk'. rewrite !fmap_cons, Hk, Hk', NoDup_cons in Hnd.
    destruct Hnd as [Hnd _]. apply Hnd. left. }
  exists (status_set status message u s). simpl. unfold update_rows, delete_rows.
  split_and!; try done.
  - rewrite select_fmap. rewrite (select_ext _ (has_key name rt id)).
    2: { intros x _. destruct (has_key name rt id x) eqn:Hx; [by rewrite Hks|done]. }
    rewrite Hsel. simpl. by rewrite Hk.
  - rewrite select_fmap. rewrite (select_ext _ (λ x, negb (has_key name rt id x))).
    2: { intros x _. destruct (has_key name rt id x) eqn:Hx; [by rewrite Hks, Hx|by rewrite Hx]. }
    trans (Datatypes.id <$> select (λ x, negb (has_key name rt id x)) (t_statuses db)); [|apply list_fmap_id].
    apply list_fmap_ext. intros i x Hx%list_elem_of_lookup_2. apply elem_of_select in Hx as [_ Hx].
    bools. by rewrite Hx.
  - by apply (update_status_wf db (has_key name rt id) (status_set status message u)).
Qed.
Lemma insert_upserted n u name rt id status message db : db_wf db → StatusValidator status = None →
  select (has_key name rt id) (t_statuses db) = [] →
  insertable db (mkControllerStatus n name rt id status message u) = true →
  upserted name rt id status message db (insert_row (mkControllerStatus n name rt id status message u) db).
Proof.
  intros Hwf Hv Hsel Hi. split; [done|]. set (s := mkControllerStatus n name rt id status message u) in *. exists s.
  assert (has_key name rt id s = true) as Hk by (by apply has_key_spec).
  simpl. unfold delete_rows. rewrite !select_app. simpl. rewrite Hk. simpl. rewrite Hsel. simpl.
  split_and!; try done; [by rewrite app_nil_r|]. by apply insert_status_wf.
Qed.
(** The constraint of the schema: a row that can be inserted has a key of its own. *)
Lemma insertable_key n u name rt id status message db :
  insertable db (mkControllerStatus n name rt id status message u) = true →
  select (has_key name rt id) (t_statuses db) = [].
Proof.
  simpl. unfold ControllerStatusTable_insertable. rewrite forallb_forall. intros Hi.
  destruct (select (has_key name rt id) (t_statuses db)) as [|s l] eqn:Hsel; [done|]. exfalso.
  assert (s ∈ select (has_key name rt id) (t_statuses db)) as [Hin Hk]%elem_of_select by (rewrite Hsel; left).
  apply list_elem_of_In, Hi, andb_true_iff in Hin as [_ Hin]. unfold ControllerStatus_same_key in Hin. simpl in Hin.
  unfold has_key in Hk. rewrite <- andb_assoc, Hk in Hin. done.
Qed.

(** ** Statements among other connections *)

(** The other connections keep the constraints of the schema; nothing else is known of them. *)
Class Others `{Runtime} : Prop := others_wf : ∀ t db, db_wf db → db_wf (rt_env t None db).

Section shared.
Context `{Driver} `{Runtime} `{FieldValidators} `{UUIDLib}.
Context `{!DriverLaws} `{!FieldValidatorsLaws} `{!Others}.
Implicit Types (db : DB) (t : nat).

(** What the others may have made of the database. *)
Definition later (db db' : DB) : Prop := env_only db db' ∧ db_wf db'.
Lemma later_refl db : db_wf db → later db db.
Proof. by split. Qed.
Lemma later_step t db : db_wf db → later db (rt_env t None db).
Proof. split; [apply rtc_once; eauto|by apply others_wf]. Qed.
#[export] Instance later_trans : Transitive later.
Proof. intros d1 d2 d3 [? ?] [? ?]. split; [by etrans|done]. Qed.

Lemma sh_outside {A} (f : nat → World → (error + A) * World) (Q : error + A → World → Prop) db t : db_wf db →
  (∀ db', later db db' → Q (f t (mkWorld db' None (S t))).1 (f t (mkWorld db' None (S t))).2) →
  wp (outside f) Q (mkWorld db None t).
Proof.
  intros Hwf HQ. specialize (HQ (rt_env t None db) (later_step t db Hwf)). eapply (wp_run (outside f)); [|exact HQ].
  unfold outside. simpl. by destruct (f t _).
Qed.
Lemma sh_Now (Q : error + Time → World → Prop) db t : db_wf db →
  (∀ v db', later db db' → Q (inr v) (mkWorld db' None (S t))) → wp Now Q (mkWorld db None t).
Proof. intros Hwf HQ. apply sh_outside; [done|]. intros db' Hl. by apply HQ. Qed.
Lemma sh_UpdateNodes {R} `{Table R} (u : UpdateSpec R) (Q : error + nat → World → Prop) db t : db_wf db →
  (∀ db', later db db' → Q (inr (length (matching (u_predicates u) db'))) (mkWorld (update_matching u db') None (S t))) →
  (∀ e db', later db db' → Q (inl e) (mkWorld db' None (S t))) → wp (UpdateNodes u) Q (mkWorld db None t).
Proof.
  intros Hwf HQ He. apply sh_outside; [done|]. intros db' Hl. unfold view. simpl.
  destruct (drv_update_nodes t db' u) as [e|n] eqn:Hu; simpl; [by apply He|].
  apply update_nodes_ok in Hu as ->. unfold effect. simpl. rewrite update_seen_now. by apply HQ.
Qed.
Lemma sh_CreateNode {R} `{Table R} (row : Z → R) (Q : error + Z → World → Prop) db t : db_wf db →
  (∀ n db', later db db' → insertable db' (row n) = true → Q (inr n) (mkWorld (insert_row (row n) db') None (S t))) →
  (∀ e db', later db db' → Q (inl e) (mkWorld db' None (S t))) → wp (CreateNode row) Q (mkWorld db None t).
Proof.
  intros Hwf HQ He. apply sh_outside; [done|]. intros db' Hl. unfold view. simpl.
  destruct (drv_create t db' row) as [e|n] eqn:Hu; simpl; [by apply He|].
  apply create_ok in Hu as [Hi _]. by apply HQ.
Qed.

Lemma sh_status_update name rt id status message (Q : error + nat → World → Prop) db t : db_wf db →
  (∀ u db' t', later db db' → StatusValidator status = None →
     Q (inr (length (select (has_key name rt id) (t_statuses db'))))
       (mkWorld (set_statuses (update_rows (has_key name rt id) (status_set status message u)) db') None t')) →
  (∀ e db' t', later db db' → Q (inl e) (mkWorld db' None t')) →
  wp (ControllerStatusUpdate_Save (status_key name rt id) (status_mutation status message)) Q (mkWorld db None t).
Proof.
  intros Hwf HQ He. unfold ControllerStatusUpdate_Save, ControllerStatusUpdate_defaults. simpl.
  repeat wp_step. apply sh_Now; [done|]. intros u db1 Hl1. cbn beta iota. repeat wp_step.
  unfold ControllerStatusUpdate_sqlSave. apply wp_guard_check; [intros; by apply He|]. intros Hc.
  unfold ControllerStatusUpdate_check in Hc. simpl in Hc. rewrite checks_none, !Forall_cons in Hc.
  destruct Hc as (_ & _ & Hv%validate_none & _).
  wp_step. apply sh_UpdateNodes; [apply Hl1| |].
  - intros db2 Hl2. specialize (HQ u db2 (S (S t)) ltac:(by etrans) Hv).
    match goal with |- Q (inr ?n) (mkWorld ?d _ _) => replace n with (length (select (has_key name rt id) (t_statuses db2)));
      [replace d with (set_statuses (update_rows (has_key name rt id) (status_set status message u)) db2); [done|]|] end.
    + unfold update_matching. cbn [over_rows ControllerStatusTable u_predicates]. unfold set_statuses. f_equal.
      apply update_rows_ext. intros s _. symmetry. apply status_key_holds.
    + f_equal. apply select_ext. intros s _. symmetry. apply status_key_holds.
  - intros e db2 Hl2. cbn beta iota. apply He. by etrans.
Qed.
Lemma sh_status_create name rt id status message (Q : error + ControllerStatus → World → Prop) db t : db_wf db →
  (∀ n u db' t', let s := mkControllerStatus n name rt id status message u in
     later db db' → StatusValidator status = None → insertable db' s = true →
     Q (inr s) (mkWorld (insert_row s db') None t')) →
  (∀ e db' t', later db db' → Q (inl e) (mkWorld db' None t')) →
  wp (ControllerStatusCreate_Save (newControllerStatusMutation |> ControllerStatus_SetKey name rt id
        |> ControllerStatus_SetStatus status |> ControllerStatus_SetMessage message)) Q (mkWorld db None t).
Proof.
  intros Hwf HQ He. unfold ControllerStatusCreate_Save, ControllerStatusCreate_defaults. simpl.
  repeat wp_step. apply sh_Now; [done|]. intros u db1 Hl1. cbn beta iota. repeat wp_step.
  unfold ControllerStatusCreate_sqlSave, ControllerStatusCreate_check. simpl.
  apply wp_guard_check; [intros; by apply He|]. intros Hc.
  rewrite checks_none, !Forall_cons, !validate_none in Hc. destruct Hc as (_ & _ & _ & _ & _ & _ & Hv & _).
  wp_step. wp_step. apply sh_CreateNode; [apply Hl1| |].
  - intros n db2 Hl2 Hi. cbn beta iota. wp_step. apply HQ; [by etrans|done|done].
  - intros e db2 Hl2. cbn beta iota. apply He. by etrans.
Qed.

Lemma UpsertControllerStatus_one_step name rt id status message db t : db_wf db →
  wp (UpsertControllerStatus name rt id status message) (λ r w', w_tx w' = None ∧
    match r with
    | inr _ => ∃ db1, later db db1 ∧ upserted name rt id status message db1 (w_db w')
    | inl e => later db (w_db w')
    end) (mkWorld db None t).
Proof.
  intros Hwf. unfold UpsertControllerStatus. wp_step. apply sh_status_update; [done| |by intros].
  intros u db1 t1 Hl1 Hv. destruct (select (has_key name rt id) (t_statuses db1)) as [|s l] eqn:Hsel; cbn [length].
  2: { simpl. wp_step. split; [done|]. exists db1. split; [done|]. by eapply update_upserted; [apply Hl1| |]. }
  rewrite (set_statuses_none _ _ _ Hsel). simpl. wp_step. wp_step. apply sh_status_create; [apply Hl1| |].
  - intros n u2 db2 t2 s Hl2 _ Hi. wp_step. split; [done|]. exists db2. split; [by etrans|].
    apply insert_upserted; [apply Hl2|done| |done]. by eapply insertable_key.
  - intros e db2 t2 Hl2. wp_step. wp_step. apply sh_status_update; [apply Hl2| |].
    + intros u3 db3 t3 Hl3 _. destruct (select (has_key name rt id) (t_statuses db3)) as [|s l] eqn:Hsel3; cbn [length].
      * rewrite (set_statuses_none _ _ _ Hsel3). simpl. wp_step. split; [done|]. by do 2 (etrans; [done|]).
      * simpl. wp_step. split; [done|]. exists db3. split; [by do 2 (etrans; [done|])|].
        by eapply update_upserted; [apply Hl3| |].
    + intros e' db3 t3 Hl3. wp_step. split; [done|]. by do 2 (etrans; [done|]).
Qed.

End shared.

(** When nobody else writes the moment is the start. *)
Section quiet.
Context `{Driver} `{Runtime} `{FieldValidators} `{UUIDLib}.
Context `{!DriverLaws} `{!Quiet} `{!FieldValidatorsLaws}.

#[local] Instance quiet_others : Others.
Proof. intros t db. by rewrite quiet. Qed.
Lemma env_only_quiet db db' : env_only db db' → db' = db.
Proof. induction 1 as [|d1 d2 d3 (t & tx & ->) _ ->]; [done|]. apply quiet. Qed.

Lemma UpsertControllerStatus_ok name rt id status message db t : db_wf db →
  wp (UpsertControllerStatus name rt id status message) (λ r w', w_tx w' = None ∧
    match r with
    | inr _ => upserted name rt id status message db (w_db w')
    | inl e => w_db w' = db
    end) (mkWorld db None t).
Proof.
  intros Hwf. eapply wp_mono; [by apply UpsertControllerStatus_one_step|]. intros [e|[]] w' [Htx Hr]; (split; [done|]).
  - by apply env_only_quiet, Hr.
  - destruct Hr as (db1 & [->%env_only_quiet _] & Hup). done.
Qed.
End quiet.
