(* ===== verification/StoreCleanup.v ===== *)
(** * Hard deletion

    The safety of [CleanupHardDelete]: what the background cleanup may remove. *)

From S2P Require Import Prelude GoStd Monad EntSchema Sqlgraph EntQuery EntMutation Config Status Store.
From S2P Require Import Logic EntSpec Wf EntLoad StoreOrg StoreProject StoreStatus StoreUpsert.

(** ** Hard deletion *)

(** No registered controller of the resource's type has a row for it. *)
Definition no_registered (cfg : Config) (rt : string) (id : UUID) (db : DB) : Prop :=
  ∀ s, s ∈ t_statuses db → ControllerStatus_ResourceType s = rt → ControllerStatus_ResourceID s = id →
    ControllerStatus_ControllerName s ∉ ControllersForResource cfg rt.

(** A soft-deleted resource of the database. *)
Definition soft_deleted_resource (db : DB) (rt : string) (id : UUID) : Prop :=
  (rt = "project" ∧ ∃ p, p ∈ t_projects db ∧ Project_ID p = id ∧ is_Some (Project_DeletedAt p)) ∨
  (rt = "org" ∧ ∃ o, o ∈ t_orgs db ∧ Org_ID o = id ∧ is_Some (Org_DeletedAt o)).

(** What the cleanup may have removed between [db0] and [db]: nothing is added or
    changed, and every missing row was allowed to go. *)
Record purged (cfg : Config) (db0 db : DB) : Prop := mk_purged {
  pg_wf : db_wf db;
  pg_events : t_events db = t_events db0;
  pg_orgs : ∀ o, o ∈ t_orgs db → o ∈ t_orgs db0;
  pg_org_gone : ∀ o, o ∈ t_orgs db0 → o ∉ t_orgs db →
    is_Some (Org_DeletedAt o) ∧ no_registered cfg "org" (Org_ID o) db0;
  pg_projects : ∀ p, p ∈ t_projects db → p ∈ t_projects db0;
  pg_project_gone : ∀ p, p ∈ t_projects db0 → p ∉ t_projects db →
    is_Some (Project_DeletedAt p) ∧ no_registered cfg "project" (Project_ID p) db0;
  pg_folders : ∀ f, f ∈ t_folders db → f ∈ t_folders db0;
  pg_folder_gone : ∀ f, f ∈ t_folders db0 → f ∉ t_folders db →
    soft_deleted_resource db0 "org" (Folder_org_folders f);
  pg_statuses : ∀ s, s ∈ t_statuses db → s ∈ t_statuses db0;
  pg_status_gone : ∀ s, s ∈ t_statuses db0 → s ∉ t_statuses db →
    ControllerStatus_ControllerName s ∉ ControllersForResource cfg (ControllerStatus_ResourceType s) ∧
    soft_deleted_resource db0 (ControllerStatus_ResourceType s) (ControllerStatus_ResourceID s) }.

Lemma purged_refl cfg db : db_wf db → purged cfg db db.
Proof. intros Hwf. by split. Qed.

(** Rows registered at the start are still there: absence now is absence then. *)
Lemma no_registered_start cfg db0 db rt id :
  purged cfg db0 db → no_registered cfg rt id db → no_registered cfg rt id db0.
Proof.
  intros Hp Hn s Hs <- <-. destruct (decide (s ∈ t_statuses db)) as [Hin|Hout]; [by apply Hn|].
  by apply (pg_status_gone _ _ _ Hp s).
Qed.

Lemma not_elem_delete_rows {R} (p : R → bool) (l : list R) r :
  r ∉ delete_rows p l → r ∉ l ∨ p r = true.
Proof.
  intros Hr. destruct (p r) eqn:Hp; [by right|left]. intros Hin. apply Hr.
  by apply elem_of_delete_rows.
Qed.

(** One removal, for each table. *)
Lemma purged_project cfg db0 db p : db_wf db0 → purged cfg db0 db → p ∈ t_projects db0 →
  is_Some (Project_DeletedAt p) → no_registered cfg "project" (Project_ID p) db0 →
  purged cfg db0 (delete_matching [project_ID (Project_ID p)] db).
Proof.
  intros Hwf0 [] Hp Hd Hn. split; simpl; try done.
  - by apply delete_project_wf.
  - intros q [Hq _]%elem_of_delete_rows. auto.
  - intros q Hq [Hout|Hid]%not_elem_delete_rows; [auto|]. simpl in Hid. unfold project_ID in Hid.
    rewrite andb_true_r in Hid. bools.
    assert (q = p) as -> by (by apply (project_id_unique db0)). done.
Qed.

Lemma purged_org cfg db0 db o : db_wf db0 → purged cfg db0 db → o ∈ t_orgs db0 →
  is_Some (Org_DeletedAt o) → no_registered cfg "org" (Org_ID o) db0 →
  (∀ r, r ∈ matching [org_ID (Org_ID o)] db → referenced db r = false) →
  purged cfg db0 (delete_matching [org_ID (Org_ID o)] db).
Proof.
  intros Hwf0 [] Ho Hd Hn Href. split; simpl; try done.
  - by apply delete_org_wf.
  - intros q [Hq _]%elem_of_delete_rows. auto.
  - intros q Hq [Hout|Hid]%not_elem_delete_rows; [auto|]. simpl in Hid. unfold org_ID in Hid.
    rewrite andb_true_r in Hid. bools.
    assert (q = o) as -> by (by apply (org_id_unique db0)). done.
Qed.

Lemma purged_folder cfg db0 db o : purged cfg db0 db → o ∈ t_orgs db0 → is_Some (Org_DeletedAt o) →
  (∀ r, r ∈ matching [folder_HasOrgWith [org_ID (Org_ID o)]] db → referenced db r = false) →
  purged cfg db0 (delete_matching [folder_HasOrgWith [org_ID (Org_ID o)]] db).
Proof.
  intros [] Ho Hd Href. split; simpl; try done.
  - by apply delete_folder_wf.
  - intros q [Hq _]%elem_of_delete_rows. auto.
  - intros f Hf [Hout|Hid]%not_elem_delete_rows; [auto|]. simpl in Hid. rewrite andb_true_r in Hid.
    apply existsb_elem in Hid as (o' & Ho' & [Hk Hid]%andb_true_iff). simpl in Hid.
    unfold org_ID in Hid. rewrite andb_true_r in Hid. bools.
    right. split; [done|]. exists o. split_and!; [done| |done]. congruence.
Qed.

Definition orphan_preds (rt : string) (id : UUID) (controllers : list string) : list (predicate ControllerStatus) :=
  [controllerstatus_ResourceType rt; controllerstatus_ResourceID id;
   controllerstatus_ControllerNameNotIn controllers].

Lemma purged_status cfg db0 db rt id : purged cfg db0 db → soft_deleted_resource db0 rt id →
  purged cfg db0 (delete_matching (orphan_preds rt id (ControllersForResource cfg rt)) db).
Proof.
  intros [] Hs. split; simpl; try done.
  - by apply delete_status_wf.
  - intros q [Hq _]%elem_of_delete_rows. auto.
  - intros s Hin [Hout|Hh]%not_elem_delete_rows; [auto|]. simpl in Hh.
    unfold controllerstatus_ResourceType, controllerstatus_ResourceID,
      controllerstatus_ControllerNameNotIn in Hh. rewrite andb_true_r in Hh.
    apply andb_true_iff in Hh as [Ht [Hid Hn]%andb_true_iff]. apply String.eqb_eq in Ht. bools. subst.
    split; [|done]. intros Hc%mem_string_elem. congruence.
Qed.

Section cleanup.
Context `{Driver} `{Runtime} `{FieldValidators} `{UUIDLib}.
Context `{!DriverLaws} `{!Quiet}.
Implicit Types (db : DB) (t : nat).

(** A cleanup step never fails and keeps [purged]. *)
Definition purging (cfg : Config) (db0 : DB) (m : M ()) : Prop := ∀ db t, purged cfg db0 db →
  wp m (λ r w', r = inr () ∧ ∃ db' t', w' = mkWorld db' None t' ∧ purged cfg db0 db') (mkWorld db None t).

Lemma wp_for_each {A} cfg db0 (f : A → M ()) l :
  (∀ x, x ∈ l → purging cfg db0 (f x)) → purging cfg db0 (for_each f l).
Proof.
  induction l as [|x l IH]; intros Hf db t Hp; simpl; [wp_step; eauto|].
  wp_step. eapply wp_mono; [apply Hf; [left|done]|]. intros r w' (-> & db' & t' & -> & Hp').
  apply IH; [|done]. intros y Hy. apply Hf. by right.
Qed.

Lemma wp_hasNoRegistered cfg rt id (Q : error + bool → World → Prop) db t :
  (∀ t', no_registered cfg rt id db → Q (inr true) (mkWorld db None t')) →
  (∀ t', Q (inr false) (mkWorld db None t')) →
  wp (hasNoRegisteredStatuses rt id (ControllersForResource cfg rt)) Q (mkWorld db None t).
Proof.
  intros Ht Hf. unfold hasNoRegisteredStatuses.
  destruct (Nat.eqb_spec (length (ControllersForResource cfg rt)) 0) as [Hl|Hl].
  { wp_step. apply Ht. intros s _ _ _. apply nil_length_inv in Hl. rewrite Hl. set_solver. }
  wp_step. wp_step. unfold ControllerStatusQuery_Count, Query_Count. apply wp_CountNodes; [|by intros; wp_step].
  wp_step. simpl. destruct (Nat.eqb_spec (length (matching [controllerstatus_ResourceType rt;
    controllerstatus_ResourceID id; controllerstatus_ControllerNameIn (ControllersForResource cfg rt)] db)) 0)
    as [Hz|Hz]; [|done].
  apply Ht. intros s Hs Hrt Hid Hc. apply nil_length_inv in Hz.
  apply (select_nil_inv _ _ s) in Hz; [|done]. simpl in Hz.
  unfold controllerstatus_ResourceType, controllerstatus_ResourceID, controllerstatus_ControllerNameIn in Hz.
  apply mem_string_elem in Hc. rewrite Hc, Hrt, String.eqb_refl, bool_decide_eq_true_2 in Hz; done.
Qed.

Lemma wp_cleanOrphaned cfg db0 rt id (Q : error + () → World → Prop) db t :
  purged cfg db0 db → soft_deleted_resource db0 rt id →
  (∀ db' t', purged cfg db0 db' → Q (inr ()) (mkWorld db' None t')) →
  wp (cleanOrphanedStatuses rt id (ControllersForResource cfg rt)) Q (mkWorld db None t).
Proof.
  intros Hp Hs HQ. unfold cleanOrphanedStatuses. destruct (_ =? 0)%nat; [wp_step; by apply HQ|].
  wp_step. wp_step. apply wp_delete_now; intros; wp_step; apply HQ; [|done].
  by apply purged_status.
Qed.

Lemma hard_delete_project_purging cfg db0 p : db_wf db0 → p ∈ t_projects db0 →
  is_Some (Project_DeletedAt p) →
  purging cfg db0 (hard_delete_project (ControllersForResource cfg "project") (mkProjectNode p None)).
Proof.
  intros Hwf0 Hin Hd db t Hp. unfold hard_delete_project. simpl. wp_step.
  apply (wp_hasNoRegistered cfg); intros; cbn [negb]; [|wp_step; eauto].
  apply (no_registered_start _ db0) in H5 as Hn; [|done].
  assert (soft_deleted_resource db0 "project" (Project_ID p)) as Hs by (left; eauto).
  wp_step. apply (wp_cleanOrphaned cfg db0); [done|done|]. intros db1 t1 Hp1. cbn beta iota.
  wp_step. wp_step. unfold ProjectDeleteOneID_Exec. wp_step. apply wp_delete_now; intros.
  - simpl. destruct (_ =? 0)%nat; wp_step; wp_step; (split; [done|]); eexists _, _; (split; [done|]);
      by apply purged_project.
  - wp_step. eauto.
Qed.

Lemma hard_delete_org_purging cfg db0 o : db_wf db0 → o ∈ t_orgs db0 → is_Some (Org_DeletedAt o) →
  purging cfg db0 (hard_delete_org (ControllersForResource cfg "org") o).
Proof.
  intros Hwf0 Hin Hd db t Hp. unfold hard_delete_org. wp_step. wp_step.
  unfold ProjectQuery_Count, Query_Count. apply wp_CountNodes; [|intros; wp_step; eauto].
  simpl. destruct (0 <? _)%nat; [wp_step; eauto|]. wp_step.
  apply (wp_hasNoRegistered cfg); intros; cbn [negb]; [|wp_step; eauto].
  apply (no_registered_start _ db0) in H5 as Hn; [|done].
  assert (soft_deleted_resource db0 "org" (Org_ID o)) as Hs by (right; eauto).
  wp_step. apply (wp_cleanOrphaned cfg db0); [done|done|]. intros db1 t1 Hp1. cbn beta iota.
  assert (∀ db2 t2, purged cfg db0 db2 → wp (_ ← try (OrgDeleteOneID_Exec (Org_ID o)); mret ())
    (λ r w', r = inr () ∧ ∃ db' t', w' = mkWorld db' None t' ∧ purged cfg db0 db') (mkWorld db2 None t2))
    as Hlast.
  { intros db2 t2 Hp2. wp_step. wp_step. unfold OrgDeleteOneID_Exec. wp_step. apply wp_delete_now; intros.
    - simpl. destruct (_ =? 0)%nat; wp_step; wp_step; (split; [done|]); eexists _, _; (split; [done|]);
        by apply purged_org.
    - wp_step. eauto. }
  wp_step. wp_step. apply wp_delete_now; intros; apply Hlast; [|done].
  by apply purged_folder.
Qed.

Lemma CleanupHardDelete_ok cfg db t : db_wf db →
  wp (CleanupHardDelete cfg) (λ r w', w_tx w' = None ∧ purged cfg db (w_db w') ∧
    match r with inl e => ∃ msg, e = errDriver DrvOther msg | inr _ => True end) (mkWorld db None t).
Proof.
  intros Hwf. unfold CleanupHardDelete. wp_step. unfold ProjectQuery_All. wp_step.
  apply wp_QueryNodes; simpl; [set_solver|done| |].
  2: { intros. split_and!; [done|by apply purged_refl|eauto]. }
  intros ps Hps%query_result_plain. rewrite length_fmap.
  replace (if (length ps =? 0)%nat then mret ((λ p, mkProjectNode p None) <$> ps)
           else mret ((λ p, mkProjectNode p None) <$> ps) : M (list ProjectNode))
    with (mret ((λ p, mkProjectNode p None) <$> ps) : M (list ProjectNode)) by (by destruct (_ =? 0)%nat).
  wp_step. wp_step. eapply wp_mono.
  { apply (wp_for_each cfg db); [|by apply purged_refl].
    intros n (p & -> & Hp)%list_elem_of_fmap. rewrite Hps in Hp. apply elem_of_select in Hp as [Hp Hd].
    apply hard_delete_project_purging; [done|done|]. simpl in Hd. unfold project_DeletedAtNotNil in Hd.
    by destruct (Project_DeletedAt p). }
  intros r w' (-> & db1 & t1 & -> & Hp1). wp_step. apply wp_All; simpl; [set_solver|done| |].
  2: { intros. split_and!; [done|done|eauto]. }
  intros os t2 Hos%query_result_plain. eapply wp_mono.
  { apply (wp_for_each cfg db); [|done]. intros o Ho. rewrite Hos in Ho.
    apply elem_of_select in Ho as [Ho Hd]. apply hard_delete_org_purging; [done|by eapply pg_orgs|].
    simpl in Hd. unfold org_DeletedAtNotNil in Hd. by destruct (Org_DeletedAt o). }
  intros r w' (-> & db2 & t3 & -> & Hp2). done.
Qed.

(** C11: when no other connection commits between its statements, the cleanup only removes what may
    go: a hard-deleted org or project was
    soft-deleted and no registered controller had a status row for it, a removed
    folder belonged to a soft-deleted org, a removed status row to a controller that
    is not registered and a soft-deleted resource; events and all active orgs and
    projects stay as they are, and the schema's constraints hold throughout. *)
Theorem CleanupHardDelete_safe cfg db t : db_wf db →
  wp (CleanupHardDelete cfg) (λ r w', w_tx w' = None ∧ purged cfg db (w_db w') ∧
    match r with inl e => ∃ msg, e = errDriver DrvOther msg | inr _ => True end) (mkWorld db None t).
Proof. apply CleanupHardDelete_ok. Qed.
End cleanup.
