(* ===== verification/StoreInv.v ===== *)
(** * Invariants of every sequence of store operations

    The operations of the API as data ([op]), their execution on a database
    ([run_op], failures included) and what holds after any sequence of them from an
    empty database: the schema's constraints, active projects under active orgs
    only, and an event log that announces every creation and every deletion exactly
    once. *)

From S2P Require Import Prelude GoStd Monad EntSchema Sqlgraph EntQuery EntMutation Config Status Store.
From S2P Require Import Logic EntSpec Wf EntLoad StoreOrg StoreProject StoreDelete StoreStatus StoreUpsert StoreCleanup.

(** ** The event log *)

Definition event_is (event_type rt : string) (e : TenancyEvent) : bool :=
  String.eqb (TenancyEvent_EventType e) event_type && String.eqb (TenancyEvent_ResourceType e) rt.
(** the resources the log announces, with repetition *)
Definition announced (event_type rt : string) (events : list TenancyEvent) : list UUID :=
  TenancyEvent_ResourceID <$> select (event_is event_type rt) events.

Definition org_gone (o : Org) : bool := negb (is_nil (Org_DeletedAt o)).
Definition project_gone (p : Project) : bool := negb (is_nil (Project_DeletedAt p)).

Record log_inv (db : DB) : Prop := mk_log_inv {
  log_org_created : announced "created" "org" (t_events db) ≡ₚ Org_ID <$> t_orgs db;
  log_org_deleted : announced "deleted" "org" (t_events db) ≡ₚ Org_ID <$> select org_gone (t_orgs db);
  log_project_created : announced "created" "project" (t_events db) ≡ₚ Project_ID <$> t_projects db;
  log_project_deleted : announced "deleted" "project" (t_events db) ≡ₚ
    Project_ID <$> select project_gone (t_projects db) }.

(** Active projects belong to active orgs. *)
Definition tenant_inv (db : DB) : Prop := ∀ p, p ∈ t_projects db → Project_DeletedAt p = None →
  ∃ o, project_org db p = Some o ∧ Org_DeletedAt o = None.

Record store_inv (db : DB) : Prop := mk_store_inv {
  inv_wf : db_wf db; inv_log : log_inv db; inv_tenant : tenant_inv db }.

Lemma announced_app et rt l k : announced et rt (l ++ k) = announced et rt l ++ announced et rt k.
Proof. unfold announced. by rewrite select_app, fmap_app. Qed.

Lemma announced_org et et' rt o e : is_org_event et' o e →
  announced et rt [e] = if String.eqb et' et && String.eqb "org" rt then [Org_ID o] else [].
Proof. intros (n & c & ->). unfold announced, event_is. simpl. by destruct (String.eqb et' et && _). Qed.

Lemma announced_project et et' rt p o f e : is_project_event et' p o f e →
  announced et rt [e] = if String.eqb et' et && String.eqb "project" rt then [Project_ID p] else [].
Proof. intros (n & c & ->). unfold announced, event_is. simpl. by destruct (String.eqb et' et && _). Qed.

Lemma announced_projects et et' rt o (f : Project → option UUID) ps evs :
  Forall2 (λ p, is_project_event et' p o (f p)) ps evs →
  announced et rt evs = if String.eqb et' et && String.eqb "project" rt then Project_ID <$> ps else [].
Proof.
  induction 1 as [|p e ps evs He _ IH]; [by destruct (_ && _)|].
  change (e :: evs) with ([e] ++ evs). rewrite announced_app, IH, (announced_project _ _ _ _ _ _ _ He).
  by destruct (_ && _).
Qed.

(** ** Rows under the operations *)

Lemma select_update_rows {R B} (g : R → B) (del : R → bool) p f (l : list R) :
  (∀ r, g (f r) = g r) → (∀ r, del (f r) = del r) →
  g <$> select del (update_rows p f l) = g <$> select del l.
Proof.
  intros Hg Hd. unfold update_rows. rewrite select_fmap, <- list_fmap_compose.
  rewrite (select_ext _ del) by (intros r _; destruct (p r); [apply Hd|done]).
  apply list_fmap_ext. intros i r _. simpl. destruct (p r); [apply Hg|done].
Qed.

(** Marking one row deleted adds its key to the deleted ones. *)
Lemma gone_one {R} (key : R → UUID) (gone : R → bool) (p : R → bool) f r (l : list R) :
  NoDup (key <$> l) → r ∈ l → gone r = false → (∀ x, p x = true ↔ x = r) → key (f r) = key r →
  gone (f r) = true → key <$> select gone (update_rows p f l) ≡ₚ (key <$> select gone l) ++ [key r].
Proof.
  intros Hnd Hr Hg Hp Hk Hf. assert (p r = true) as Hpr by (by apply Hp).
  induction l as [|x l IH]; [set_solver|]. rewrite fmap_cons, NoDup_cons in Hnd. destruct Hnd as [Hx Hnd].
  change (update_rows p f (x :: l)) with ((if p x then f x else x) :: update_rows p f l).
  apply elem_of_cons in Hr as [<-|Hr].
  - assert (r ∉ l) as Hnot by (intros ?; apply Hx; by apply list_elem_of_fmap_2).
    assert (update_rows p f l = l) as ->.
    { apply update_rows_none. intros y Hy. destruct (p y) eqn:Hpy; [|done]. apply Hp in Hpy. by subst. }
    rewrite Hpr. simpl. rewrite Hf, Hg. simpl. rewrite Hk. apply Permutation_cons_append.
  - assert (p x = false) as Hpx.
    { destruct (p x) eqn:Hpx; [|done]. apply Hp in Hpx. subst. exfalso. apply Hx.
      by apply list_elem_of_fmap_2. }
    rewrite Hpx. simpl. destruct (gone x); simpl; [constructor|]; by apply IH.
Qed.

Lemma soft_deleted_keeps ids now l l' : Forall2 (soft_deleted ids now) l l' → Project_ID <$> l' = Project_ID <$> l.
Proof.
  induction 1 as [|p p' l l' Hp _ IH]; [done|]. rewrite !fmap_cons, IH. f_equal.
  by eapply soft_deleted_id.
Qed.

Lemma Forall2_elem_r {A B} (P : A → B → Prop) l k y : Forall2 P l k → y ∈ k → ∃ x, x ∈ l ∧ P x y.
Proof.
  induction 1 as [|a b l k Hab _ IH]; [set_solver|]. intros [->|Hy]%elem_of_cons.
  - exists a. split; [left|done].
  - destruct (IH Hy) as (x & ? & ?). exists x. split; [by right|done].
Qed.
Lemma Forall2_elem_l {A B} (P : A → B → Prop) l k x : Forall2 P l k → x ∈ l → ∃ y, y ∈ k ∧ P x y.
Proof.
  induction 1 as [|a b l k Hab _ IH]; [set_solver|]. intros [->|Hx]%elem_of_cons.
  - exists b. split; [left|done].
  - destruct (IH Hx) as (y & ? & ?). exists y. split; [by right|done].
Qed.

(** Marking a batch of active rows deleted adds their keys to the deleted ones. *)
Lemma gone_batch ps now l l' : NoDup (Project_ID <$> l) → NoDup (Project_ID <$> ps) →
  (∀ p, p ∈ ps → p ∈ l ∧ Project_DeletedAt p = None) →
  Forall2 (soft_deleted (Project_ID <$> ps) now) l l' →
  Project_ID <$> select project_gone l' ≡ₚ (Project_ID <$> select project_gone l) ++ (Project_ID <$> ps).
Proof.
  intros Hl Hps Hin Hf. apply NoDup_Permutation.
  - apply NoDup_fmap_select. by rewrite (soft_deleted_keeps _ _ _ _ Hf).
  - apply NoDup_app. split_and!; [by apply NoDup_fmap_select| |done].
    intros u (p & -> & [Hp Hg]%elem_of_select)%list_elem_of_fmap (q & Heq & Hq)%list_elem_of_fmap.
    destruct (Hin q Hq) as [Hql Hqd]. unfold project_gone in Hg.
    assert (p = q) as -> by (by apply (NoDup_fmap_inj_eq Project_ID l)). by rewrite Hqd in Hg.
  - intros u. rewrite elem_of_app, !list_elem_of_fmap. split.
    + intros (p' & -> & [Hp' Hg]%elem_of_select). destruct (Forall2_elem_r _ _ _ _ Hf Hp') as (p & Hp & Hs).
      unfold soft_deleted in Hs. case_decide as Hd.
      * right. destruct Hs as [u' ->]. apply list_elem_of_fmap in Hd as (q & Hq & ?). by exists q.
      * subst. left. exists p. by rewrite elem_of_select.
    + intros [(p & -> & [Hp Hg]%elem_of_select)|(p & -> & Hp)].
      * destruct (Forall2_elem_l _ _ _ _ Hf Hp) as (p' & Hp' & Hs). exists p'.
        rewrite elem_of_select. unfold soft_deleted in Hs. case_decide; [by destruct Hs as [u ->]|by subst].
      * destruct (Hin p Hp) as [Hpl _]. destruct (Forall2_elem_l _ _ _ _ Hf Hpl) as (p' & Hp' & Hs).
        exists p'. rewrite elem_of_select. unfold soft_deleted in Hs.
        rewrite decide_True in Hs by (by apply list_elem_of_fmap_2). by destruct Hs as [u ->].
Qed.

(** ** Steps *)

Lemma project_org_spec db p o : db_wf db →
  project_org db p = Some o ↔ ∃ f, f ∈ t_folders db ∧ Folder_ID f = Project_folder_projects p ∧
    o ∈ t_orgs db ∧ Org_ID o = Folder_org_folders f.
Proof.
  intros Hwf. unfold project_org. split.
  - destruct (folder_of db p) as [f|] eqn:Hf; [|done]. simpl.
    intros [? ?]%org_of_spec; [|done]. apply folder_of_spec in Hf as [? ?]; [|done]. eauto.
  - intros (f & Hf & Hk & Ho & Hok). rewrite (proj2 (folder_of_spec db p f Hwf)) by done.
    simpl. by apply org_of_spec.
Qed.

Lemma org_created_tenant name description db db' o :
  db_wf db → tenant_inv db → org_created name description db db' o → db_wf db' → tenant_inv db'.
Proof.
  intros Hwf Ht (Hn & Hd & Hact & _ & _ & _ & f & e & _ & Hfo & He & ->) Hwf' p Hp Hpd.
  destruct (Ht p Hp Hpd) as (o' & Ho' & Hod). exists o'. split; [|done].
  apply project_org_spec in Ho' as (g & ? & ? & ? & ?); [|done]. apply project_org_spec; [done|].
  exists g. simpl. set_solver.
Qed.
Lemma org_created_inv name description db db' o :
  store_inv db → org_created name description db db' o → db_wf db' → store_inv db'.
Proof.
  intros [Hwf [L1 L2 L3 L4] Ht] Hc Hwf'. split; [done| |by apply (org_created_tenant name description db db' o)].
  destruct Hc as (Hn & Hd & Hact & _ & _ & _ & f & e & _ & Hfo & He & ->).
  split; simpl; rewrite announced_app, (announced_org _ _ _ _ _ He); simpl.
  - by rewrite L1, fmap_app.
  - assert (org_gone o = false) as Hg by (unfold org_gone; by rewrite Hact).
    rewrite app_nil_r, L2, select_app. simpl. rewrite Hg. by rewrite app_nil_r.
  - by rewrite app_nil_r.
  - by rewrite app_nil_r.
Qed.

Lemma org_updated_tenant db o u d : db_wf db → tenant_inv db → o ∈ t_orgs db →
  let db' := mkDB (update_rows (λ x, bool_decide (x = o)) (upd_desc d u) (t_orgs db)) (t_folders db)
               (t_projects db) (t_events db) (t_statuses db) in
  db_wf db' → tenant_inv db'.
Proof.
  intros Hwf Ht Ho db' Hwf' p Hp Hpd. destruct (Ht p Hp Hpd) as (o' & Ho' & Hod).
  apply project_org_spec in Ho' as (g & Hg & Hgk & Ho' & Hok); [|done].
  exists (if bool_decide (o' = o) then upd_desc d u o' else o'). split.
  - apply project_org_spec; [done|]. exists g. split_and!; [done|done| |].
    + simpl. apply elem_of_update_rows. eauto.
    + by case_bool_decide.
  - by case_bool_decide.
Qed.
Lemma org_updated_inv db o u d : store_inv db → o ∈ t_orgs db →
  let db' := mkDB (update_rows (λ x, bool_decide (x = o)) (upd_desc d u) (t_orgs db)) (t_folders db)
               (t_projects db) (t_events db) (t_statuses db) in
  db_wf db' → store_inv db'.
Proof.
  intros [Hwf [L1 L2 L3 L4] Ht] Ho db' Hwf'. split; [done| |by apply org_updated_tenant].
  split; simpl; [by rewrite update_rows_fmap|by rewrite select_update_rows|done|done].
Qed.

Lemma org_deleted_tenant db o ps now u projs evs : db_wf db → tenant_inv db → o ∈ t_orgs db →
  (∀ p, p ∈ ps ↔ p ∈ t_projects db ∧ Project_DeletedAt p = None ∧ project_org db p = Some o) →
  Forall2 (soft_deleted (Project_ID <$> ps) now) (t_projects db) projs →
  let db' := mkDB (update_rows (λ x, bool_decide (x = o)) (upd_deleted now u) (t_orgs db)) (t_folders db)
               projs evs (t_statuses db) in
  db_wf db' → tenant_inv db'.
Proof.
  intros Hwf Ht Ho Hps Hproj db' Hwf' p' Hp' Hpd. destruct (Forall2_elem_r _ _ _ _ Hproj Hp') as (p & Hp & Hs).
  unfold soft_deleted in Hs. case_decide as Hin; [by destruct Hs as [? ->]|]. subst p'.
  destruct (Ht p Hp Hpd) as (o' & Ho' & Hod).
  assert (o' ≠ o) as Hne.
  { intros ->. apply Hin, list_elem_of_fmap_2, Hps. done. }
  exists o'. split; [|done]. apply project_org_spec in Ho' as (g & Hg & Hgk & Ho' & Hok); [|done].
  apply project_org_spec; [done|]. exists g. split_and!; [done|done| |done].
  simpl. apply elem_of_update_rows. exists o'. by rewrite bool_decide_eq_false_2.
Qed.
Lemma org_deleted_inv db o ps now u projs evs e :
  store_inv db → o ∈ t_orgs db → Org_DeletedAt o = None → NoDup ps →
  (∀ p, p ∈ ps ↔ p ∈ t_projects db ∧ Project_DeletedAt p = None ∧ project_org db p = Some o) →
  Forall2 (soft_deleted (Project_ID <$> ps) now) (t_projects db) projs →
  Forall2 (λ p, is_project_event "deleted" p (Some o) (folder_id db p)) ps evs →
  is_org_event "deleted" o e →
  let db' := mkDB (update_rows (λ x, bool_decide (x = o)) (upd_deleted now u) (t_orgs db)) (t_folders db)
               projs (t_events db ++ evs ++ [e]) (t_statuses db) in
  db_wf db' → store_inv db'.
Proof.
  intros [Hwf [L1 L2 L3 L4] Ht] Ho Hact Hnd Hps Hproj Hevs He db' Hwf'.
  assert (NoDup (Project_ID <$> ps)) as Hids.
  { apply NoDup_fmap_2_strong; [|done]. intros p q Hp Hq Heq.
    apply Hps in Hp as (? & _), Hq as (? & _). by apply (project_id_unique db). }
  split; [done| |by apply (org_deleted_tenant db o ps now)].
  split; simpl; rewrite !announced_app, (announced_projects _ _ _ _ _ _ _ Hevs), (announced_org _ _ _ _ _ He);
    simpl; rewrite ?app_nil_r.
  - by rewrite update_rows_fmap.
  - rewrite L2. symmetry. apply gone_one; [apply Hwf|done|by unfold org_gone; rewrite Hact| |done|done].
    intros x. apply bool_decide_eq_true.
  - by rewrite (soft_deleted_keeps _ _ _ _ Hproj).
  - rewrite L4. symmetry. apply (gone_batch ps now); [apply Hwf|done| |done].
    intros p (? & ? & _)%Hps. done.
Qed.

Lemma project_created_tenant db o f p evs : db_wf db → tenant_inv db → o ∈ t_orgs db → Org_DeletedAt o = None →
  default_folder db o f → Project_folder_projects p = Folder_ID f →
  let db' := mkDB (t_orgs db) (t_folders db) (t_projects db ++ [p]) evs (t_statuses db) in
  db_wf db' → tenant_inv db'.
Proof.
  intros Hwf Ht Ho Hact (Hf & _ & Hfo) Hpf db' Hwf' q [Hq|Hq]%elem_of_app Hqd.
  - destruct (Ht q Hq Hqd) as (o' & Ho' & Hod). exists o'. split; [|done].
    apply project_org_spec in Ho' as (g & ? & ? & ? & ?); [|done]. apply project_org_spec; [done|]. eauto.
  - apply list_elem_of_singleton in Hq as ->. exists o. split; [|done].
    apply project_org_spec; [done|]. exists f. by split_and!.
Qed.
Lemma project_created_inv db o f p e : store_inv db → o ∈ t_orgs db → Org_DeletedAt o = None →
  default_folder db o f → Project_DeletedAt p = None → Project_folder_projects p = Folder_ID f →
  is_project_event "created" p (Some o) (Some (Folder_ID f)) e →
  let db' := mkDB (t_orgs db) (t_folders db) (t_projects db ++ [p]) (t_events db ++ [e]) (t_statuses db) in
  db_wf db' → store_inv db'.
Proof.
  intros [Hwf [L1 L2 L3 L4] Ht] Ho Hact Hf Hpd Hpf He db' Hwf'. split; [done| |by apply (project_created_tenant db o f)].
  split; simpl; rewrite announced_app, (announced_project _ _ _ _ _ _ _ He); simpl; rewrite ?app_nil_r; try done.
  - by rewrite L3, fmap_app.
  - assert (project_gone p = false) as Hg by (unfold project_gone; by rewrite Hpd).
    rewrite L4, select_app. simpl. rewrite Hg. by rewrite app_nil_r.
Qed.

Lemma project_changed_tenant db p g evs : db_wf db → tenant_inv db →
  (∀ q, Project_folder_projects (g q) = Project_folder_projects q) →
  (∀ q, Project_DeletedAt (g q) = None → Project_DeletedAt q = None) →
  let db' := mkDB (t_orgs db) (t_folders db)
    (update_rows (λ x, bool_decide (x = p)) g (t_projects db)) evs (t_statuses db) in
  db_wf db' → tenant_inv db'.
Proof.
  intros Hwf Ht Hgf Hgd db' Hwf' q' (q & Hq & ->)%elem_of_update_rows Hqd.
  destruct (Ht q Hq) as (o & Ho & Hod); [case_bool_decide; auto|]. exists o. split; [|done].
  apply project_org_spec in Ho as (f & ? & Hf & ? & ?); [|done]. apply project_org_spec; [done|].
  exists f. split_and!; [done| |done|done]. case_bool_decide; [by rewrite Hgf|done].
Qed.
Lemma project_updated_inv db p u d : store_inv db → p ∈ t_projects db →
  let db' := mkDB (t_orgs db) (t_folders db)
    (update_rows (λ x, bool_decide (x = p)) (project_described d u) (t_projects db)) (t_events db) (t_statuses db) in
  db_wf db' → store_inv db'.
Proof.
  intros [Hwf [L1 L2 L3 L4] Ht] Hp db' Hwf'. split; [done| |by apply (project_changed_tenant db p)].
  split; simpl; [done|done|by rewrite update_rows_fmap|by rewrite select_update_rows].
Qed.

Lemma project_deleted_inv db p now u o f e : store_inv db → p ∈ t_projects db → Project_DeletedAt p = None →
  is_project_event "deleted" p o f e →
  let db' := mkDB (t_orgs db) (t_folders db)
    (update_rows (λ x, bool_decide (x = p)) (project_deleted now u) (t_projects db))
    (t_events db ++ [e]) (t_statuses db) in
  db_wf db' → store_inv db'.
Proof.
  intros [Hwf [L1 L2 L3 L4] Ht] Hp Hpd He db' Hwf'. split; [done| |by apply (project_changed_tenant db p)].
  split; simpl; rewrite announced_app, (announced_project _ _ _ _ _ _ _ He); simpl; rewrite ?app_nil_r; try done.
  - by rewrite update_rows_fmap.
  - rewrite L4. symmetry. apply gone_one; [apply Hwf|done|by unfold project_gone; rewrite Hpd| |done|done].
    intros x. apply bool_decide_eq_true.
Qed.

Lemma statuses_inv db l : store_inv db → db_wf (set_statuses (λ _, l) db) → store_inv (set_statuses (λ _, l) db).
Proof. intros [Hwf [] Ht] Hwf'. by split. Qed.

(** ** Sequences of operations *)

Inductive op :=
  | OpCreateOrg (name description : string)
  | OpUpdateOrg (name description : string)
  | OpDeleteOrg (name : string)
  | OpCreateProject (org name description : string)
  | OpUpdateProject (name : string) (orgNames : option (list string)) (description : string)
  | OpDeleteProject (name : string) (orgNames : option (list string))
  | OpUpsertStatus (controller rt : string) (id : UUID) (status message : string)
  | OpDeleteStatus (controller rt : string) (id : UUID).

Section ops.
Context `{Driver} `{Runtime} `{FieldValidators} `{UUIDLib}.

Definition ignore {A} (m : M A) : M () := _ ← try m; mret ().
Definition run_op (o : op) : M () :=
  match o with
  | OpCreateOrg name description => ignore (CreateOrg name description)
  | OpUpdateOrg name description => ignore (UpdateOrg name description)
  | OpDeleteOrg name => ignore (DeleteOrg name)
  | OpCreateProject org name description => ignore (CreateProject org name description)
  | OpUpdateProject name orgNames description => ignore (UpdateProject name orgNames description)
  | OpDeleteProject name orgNames => ignore (DeleteProject name orgNames)
  | OpUpsertStatus controller rt id status message => ignore (UpsertControllerStatus controller rt id status message)
  | OpDeleteStatus controller rt id => ignore (DeleteControllerStatus controller rt id)
  end.
Definition run_ops (l : list op) : M () := for_each run_op l.

Context `{!DriverLaws} `{!Quiet} `{!FieldValidatorsLaws}.

Lemma wp_ignore {A} (m : M A) (P : error + A → World → Prop) w (I : DB → Prop) :
  wp m P w → (∀ r w', P r w' → w_tx w' = None ∧ I (w_db w')) →
  wp (ignore m) (λ r w', r = inr () ∧ w_tx w' = None ∧ I (w_db w')) w.
Proof.
  intros Hm HP. unfold ignore. wp_step. wp_step. eapply wp_mono; [exact Hm|].
  intros r w' Hr. wp_step. split; [done|]. by eapply HP.
Qed.

(** A transaction that keeps the invariant when it is carried out, heard or not. *)
Lemma wp_ignore_tx {A} (m : M A) failed (done : A → DB → Prop) db t (I : DB → Prop) :
  wp m (λ r w', w_tx w' = None ∧ all_or_nothing db failed done r (w_db w')) (mkWorld db None t) → I db →
  (∀ a d, done a d → I d) →
  wp (ignore m) (λ r w', r = inr () ∧ w_tx w' = None ∧ I (w_db w')) (mkWorld db None t).
Proof.
  intros Hm Hi Hd. eapply wp_ignore; [exact Hm|]. intros r w' [? Hr]. split; [done|].
  refine (proj1 (all_or_nothing_keeps _ _ _ _ _ I (λ _, True) Hr Hi _)). intros a d Ha. split; [by eapply Hd|done].
Qed.

Lemma run_op_inv o db t : store_inv db →
  wp (run_op o) (λ r w', r = inr () ∧ w_tx w' = None ∧ store_inv (w_db w')) (mkWorld db None t).
Proof.
  intros Hinv. pose proof (inv_wf _ Hinv) as Hwf. destruct o; simpl.
  - eapply wp_ignore_tx; [by apply CreateOrg_ok|done|]. intros o db' [Hc Hwf']. by eapply org_created_inv.
  - eapply wp_ignore_tx; [by apply UpdateOrg_ok|done|]. intros o' db' [(o & u & (Ho & _) & _ & ->) Hwf']. by apply org_updated_inv.
  - eapply wp_ignore_tx; [by apply DeleteOrg_ok|done|].
    intros ? db' [(o & ps & now & u & projs & evs & e & (Ho & _ & Hact) & Hnd & Hps & Hp & He & Hoe & ->) Hwf'].
    by eapply (org_deleted_inv db o ps).
  - eapply wp_ignore_tx; [by apply CreateProject_ok|done|].
    intros [n o] db' [(f & p & e & (Ho & _ & Hact) & Hf & _ & _ & _ & Hpd & Hpf & _ & _ & _ & He & ->) Hwf'].
    by eapply project_created_inv.
  - eapply wp_ignore_tx; [by apply UpdateProject_ok|done|].
    intros [n o] db' [(p & u & Hv & _ & _ & ->) Hwf']. destruct (proj2 (Hv p) eq_refl) as [Hp _]. by apply project_updated_inv.
  - eapply wp_ignore_tx; [by apply DeleteProject_ok|done|].
    intros ? db' [(p & now & u & e & Hv & He & ->) Hwf'].
    destruct (proj2 (Hv p) eq_refl) as (Hp & _ & Hpd & _). by eapply project_deleted_inv.
  - eapply wp_ignore; [by apply UpsertControllerStatus_ok|]. intros [e|[]] w' [? Hr]; (split; [done|]).
    + by rewrite Hr.
    + destruct Hr as (_ & s & _ & _ & _ & _ & Heq & Hwf'). rewrite Heq in *. by apply statuses_inv.
  - eapply (wp_ignore _ (λ r w', w_tx w' = None ∧ store_inv (w_db w'))); [|done].
    unfold DeleteControllerStatus. wp_step. apply wp_delete_now; intros; [|done]. wp_step. split; [done|].
    simpl. apply (statuses_inv db (delete_rows _ (t_statuses db)) Hinv).
    by apply (delete_status_wf db (holds (status_key controller rt id) db)).
Qed.

(** C3: starting from an empty database, after any sequence of creations, updates,
    deletions and status reports, one after another while no other connection commits, whichever of
    them failed at whatever statement, at the COMMIT or by the loss of its answer, the schema's
    constraints hold, every active project belongs to an active org, and the event log announces
    every org and project as created exactly once and as deleted exactly once if and
    only if it is soft-deleted. *)
Theorem run_ops_store_inv ops t :
  wp (run_ops ops) (λ r w', w_tx w' = None ∧ store_inv (w_db w')) (mkWorld empty_db None t).
Proof.
  assert (∀ db t, store_inv db → wp (run_ops ops) (λ r w', w_tx w' = None ∧ store_inv (w_db w'))
    (mkWorld db None t)) as Hgen.
  { clear t. unfold run_ops. induction ops as [|o ops IH]; intros db t Hinv; simpl; [by wp_step|].
    wp_step. eapply wp_mono; [by apply run_op_inv|]. intros r [db' tx' t'] (-> & Htx & Hinv').
    simpl in *. subst. by apply IH. }
  apply Hgen. split; [apply empty_db_wf|by split|]. intros p []%elem_of_nil.
Qed.
End ops.
