(* ===== verification/StoreLog.v ===== *)
(** * The event log among other connections

    What a transaction has pending on one table is a [patch]: the new versions it gives to
    committed rows, the rows it adds, and the rows that it deletes softly.  [fits]: the patch can
    be applied to the rows that are committed now.  It goes on fitting when others commit, as long
    as the rows it changed are locked and keys stay unique, and it deletes the same keys then
    ([fits_env], [gone_patched]).

    What every connection keeps of the log ([log_ok]), what one relies on of the others
    ([SharedLog]: they keep it too, and row locks and unique indexes hold), and the state of a
    transaction in between: its patches of the tables, the events it has inserted, and those it
    still owes ([pending]). *)

From S2P Require Import Prelude GoStd EntSchema Sqlgraph Logic Wf Monad EntQuery EntMutation Config Status.
From S2P Require Import Store EntSpec StoreInv.

Section patch.
Context {R : Type} (key : R → UUID) (gone : R → bool).
Implicit Types (l : list R) (r : R).

Record patch := mkPatch { up : R → R; ins : list R; dead : list R }.
Definition patched (pa : patch) (l : list R) : list R := (up pa <$> l) ++ ins pa.
Record fits (pa : patch) (l : list R) : Prop := mk_fits {
  fit_key : ∀ r, key (up pa r) = key r;
  fit_gone : ∀ r, gone r = true → gone (up pa r) = true;
  fit_dead : ∀ r, r ∈ dead pa → r ∈ l ∧ gone r = false ∧ gone (up pa r) = true;
  fit_dies : ∀ r, gone r = false → gone (up pa r) = true → key r ∈ key <$> dead pa ++ ins pa;
  fit_once : NoDup (dead pa);
  fit_keys : NoDup (key <$> patched pa l) }.
(** The keys of the rows that are deleted by the patch. *)
Definition dying (pa : patch) : list UUID := (key <$> dead pa) ++ (key <$> select gone (ins pa)).

Lemma patched_keys pa l : (∀ r, key (up pa r) = key r) → key <$> patched pa l = (key <$> l) ++ (key <$> ins pa).
Proof.
  intros Hk. unfold patched. rewrite fmap_app, <- list_fmap_compose. f_equal. apply list_fmap_ext. intros i r _. apply Hk.
Qed.
Lemma fits_committed pa l : fits pa l → NoDup (key <$> l) ∧ ∀ r, r ∈ l → key r ∉ key <$> ins pa.
Proof.
  intros [Hk _ _ _ _ Hnd]. rewrite patched_keys, NoDup_app in Hnd by done. destruct Hnd as (? & Hd & _).
  split; [done|]. intros r Hr. by apply Hd, list_elem_of_fmap_2.
Qed.
(** The committed rows that the patch deletes are the dead ones. *)
Lemma fits_dead pa l r : fits pa l → r ∈ l → gone r = false → gone (up pa r) = true → r ∈ dead pa.
Proof.
  intros Hf Hr Hg Hu. destruct (fits_committed _ _ Hf) as [Hnd Hins].
  pose proof (fit_dies _ _ Hf r Hg Hu) as Hin. rewrite fmap_app, elem_of_app in Hin.
  destruct Hin as [Hin|Hin]; [|by apply Hins in Hin].
  apply list_elem_of_fmap in Hin as (r' & Hk & Hr'). destruct (fit_dead _ _ Hf r' Hr') as [Hl' _].
  by rewrite (NoDup_fmap_inj_eq key l r r').
Qed.

Lemma gone_patched pa l : fits pa l →
  key <$> select gone (patched pa l) ≡ₚ (key <$> select gone l) ++ dying pa.
Proof.
  intros Hf. destruct (fits_committed _ _ Hf) as [Hnd _]. unfold patched, dying.
  rewrite select_app, fmap_app, (assoc (++)). apply Permutation_app_tail. rewrite select_fmap, <- list_fmap_compose.
  rewrite (list_fmap_ext (key ∘ up pa) key) by (intros i r _; apply Hf).
  apply NoDup_Permutation.
  - by apply NoDup_fmap_select.
  - apply NoDup_app. split_and!; [by apply NoDup_fmap_select| |].
    + intros u (r & -> & [Hr Hg]%elem_of_select)%list_elem_of_fmap (d & Hk & Hd)%list_elem_of_fmap.
      destruct (fit_dead _ _ Hf d Hd) as (Hdl & Hdg & _).
      assert (r = d) as -> by (by apply (NoDup_fmap_inj_eq key l)). congruence.
    + apply NoDup_fmap_2_strong; [|apply Hf]. intros r d Hr Hd Hk.
      destruct (fit_dead _ _ Hf r Hr), (fit_dead _ _ Hf d Hd). by apply (NoDup_fmap_inj_eq key l).
  - intros u. rewrite elem_of_app, !list_elem_of_fmap. setoid_rewrite elem_of_select. split.
    + intros (r & -> & Hr & Hu). destruct (gone r) eqn:Hg; [left; eauto|right]. exists r. split; [done|]. by eapply fits_dead.
    + intros [(r & -> & Hr & Hg)|(d & -> & Hd)].
      * exists r. by split_and!; [..|apply Hf].
      * exists d. by destruct (fit_dead _ _ Hf d Hd) as (? & _ & ?).
Qed.

(** Others commit: the rows the patch changed are locked, and keys stay unique. *)
Lemma fits_env pa l l' : fits pa l → (∀ r, r ∈ l → r ∉ patched pa l → r ∈ l') → NoDup (key <$> patched pa l') → fits pa l'.
Proof.
  intros Hf Hlock Hnd. destruct (fits_committed _ _ Hf) as [Hl Hins]. pose proof Hf as [Hk ? Hdead ???]. split; try done.
  intros r Hr. destruct (Hdead r Hr) as (Hrl & Hg & Hu). split; [|done]. apply Hlock; [done|].
  intros [(r' & Heq & Hr')%list_elem_of_fmap|Hi]%elem_of_app.
  - assert (r = r') as <- by (apply (NoDup_fmap_inj_eq key l); [done..|]; by rewrite <- (Hk r'), <- Heq). congruence.
  - apply (Hins r Hrl). by apply list_elem_of_fmap_2.
Qed.

(** ** The patches of the statements *)

Definition patch_id : patch := mkPatch (λ r, r) [] [].
Lemma patched_id l : patched patch_id l = l.
Proof. unfold patched. simpl. by rewrite app_nil_r, list_fmap_id. Qed.
Lemma fits_id l : NoDup (key <$> l) → fits patch_id l.
Proof.
  intros Hnd. split; simpl; [done|done|by intros r []%elem_of_nil|congruence|constructor|by rewrite patched_id].
Qed.

Definition patch_insert (r : R) (pa : patch) : patch := mkPatch (up pa) (ins pa ++ [r]) (dead pa).
Lemma patched_insert r pa l : patched (patch_insert r pa) l = patched pa l ++ [r].
Proof. apply (assoc_L (++)). Qed.
Lemma fits_insert r pa l : fits pa l → key r ∉ key <$> patched pa l → fits (patch_insert r pa) l.
Proof.
  intros [] Hr. split; simpl; try done.
  - intros x Hx Hu. rewrite (assoc_L (++)), fmap_app. apply elem_of_app. left. auto.
  - rewrite patched_insert, fmap_app. by apply NoDup_snoc.
Qed.
Lemma dying_insert r pa : gone r = false → dying (patch_insert r pa) = dying pa.
Proof. intros Hg. unfold dying. simpl. rewrite select_app. simpl. by rewrite Hg, app_nil_r. Qed.

(** The rows [S] selects among those in view get a new version. *)
Definition rewritten (S : R → bool) (f : R → R) (r : R) : R := if S r then f r else r.
Definition patch_update (S : R → bool) (f : R → R) (l : list R) (pa : patch) : patch :=
  let g := rewritten S f in
  mkPatch (λ r, g (up pa r)) (g <$> ins pa)
    (dead pa ++ select (λ r, negb (gone (up pa r)) && gone (g (up pa r))) l).
Lemma patched_update S f l pa l0 : patched (patch_update S f l pa) l0 = update_rows S f (patched pa l0).
Proof. unfold patched, update_rows. simpl. by rewrite fmap_app, <- list_fmap_compose. Qed.
Definition newly (S : R → bool) (f : R → R) (r : R) : bool := S r && negb (gone r) && gone (f r).

Lemma gone_update S f l : (∀ r, key (f r) = key r) → (∀ r, gone r = true → gone (f r) = true) →
  key <$> select gone (update_rows S f l) ≡ₚ (key <$> select gone l) ++ (key <$> select (newly S f) l).
Proof.
  intros Hk Hg. induction l as [|r l IH]; [done|].
  change (update_rows S f (r :: l)) with ((if S r then f r else r) :: update_rows S f l). simpl. unfold newly at 1.
  destruct (S r), (gone r) eqn:Hr; simpl; rewrite ?Hr, ?(Hg _ Hr); simpl; try (by rewrite ?Hk; constructor); [|done].
  destruct (gone (f r)); simpl; [|done]. rewrite Hk, IH. apply Permutation_middle.
Qed.

Section update.
Context (S : R → bool) (f : R → R) (pa : patch) (l : list R).
Hypothesis (f_key : ∀ r, key (f r) = key r) (f_gone : ∀ r, gone r = true → gone (f r) = true).
Hypothesis (in_view : ∀ r, S r = true → r ∈ patched pa l).
Hypothesis (Hfits : fits pa l).

Lemma fits_update : fits (patch_update S f l pa) l.
Proof.
  pose proof Hfits as [Hk Hg Hdead Hdies Honce Hkeys].
  set (g := rewritten S f).
  assert (∀ r, key (g r) = key r) as Hgk by (intros r; unfold g, rewritten; by destruct (S r)).
  assert (∀ r, gone r = true → gone (g r) = true) as Hgg by (intros r; unfold g, rewritten; destruct (S r); auto).
  assert (∀ r, r ∈ select (λ r, negb (gone (up pa r)) && gone (g (up pa r))) l ↔
    r ∈ l ∧ gone (up pa r) = false ∧ gone (g (up pa r)) = true) as Hnew.
  { intros r. by rewrite elem_of_select, andb_true_iff, negb_true_iff. }
  split; cbn [patch_update up ins dead]; fold g; [| | | | |by rewrite patched_update, update_rows_fmap].
  - intros r. by rewrite Hgk, Hk.
  - auto.
  - intros r [Hr|(Hr & Hn & Hu)%Hnew]%elem_of_app; [destruct (Hdead r Hr) as (? & ? & ?); split_and!; auto|].
    split_and!; [done| |done]. destruct (gone r) eqn:Hgr; [|done]. by rewrite Hg in Hn.
  - intros r Hr Hu. rewrite !fmap_app, !elem_of_app, <- list_fmap_compose.
    rewrite (list_fmap_ext (key ∘ g) key) by (intros i x _; apply Hgk). destruct (gone (up pa r)) eqn:Hup.
    { apply Hdies in Hup; [|done]. rewrite fmap_app, elem_of_app in Hup. naive_solver. }
    assert (S (up pa r) = true) as HS by (unfold g, rewritten in Hu; destruct (S (up pa r)); [done|congruence]).
    apply in_view, elem_of_app in HS as [(r1 & Heq & Hr1)%list_elem_of_fmap|Hi].
    + left. right. apply list_elem_of_fmap. exists r1. split; [by rewrite <- (Hk r), Heq|]. apply Hnew. by rewrite <- Heq.
    + right. rewrite <- Hk. by apply list_elem_of_fmap_2.
  - apply NoDup_app. split_and!; [done| |].
    + intros r (_ & _ & Hu)%Hdead (_ & Hn & _)%Hnew. congruence.
    + destruct (fits_committed _ _ Hfits) as [Hl _]. eapply NoDup_fmap_1, NoDup_fmap_select, Hl.
Qed.
Lemma dying_update : dying (patch_update S f l pa) ≡ₚ dying pa ++ (key <$> select (newly S f) (patched pa l)).
Proof.
  apply (Permutation_app_inv_l (key <$> select gone l)). rewrite <- (gone_patched _ _ fits_update), patched_update.
  by rewrite gone_update, (gone_patched _ _ Hfits), (assoc (++)).
Qed.
End update.
End patch.
Arguments patch : clear implicits.

(** The ids of the resources are unique. *)
Definition keys_ok (db : DB) : Prop := NoDup (Org_ID <$> t_orgs db) ∧ NoDup (Project_ID <$> t_projects db).
Record log_ok (db : DB) : Prop := mk_log_ok { lo_log : log_inv db; lo_keys : keys_ok db }.

(** A row whose version is not in view any more, because the transaction changed or deleted
    it, is locked: it is still there once others have committed. *)
Definition locked {R} (rows : DB → list R) (effs : list (DB → DB)) (db db' : DB) : Prop :=
  ∀ r, r ∈ rows db → r ∉ rows (apply_effects effs db) → r ∈ rows db'.
Class SharedLog `{Runtime} : Prop := {
  others_log : ∀ t tx db, log_ok db → log_ok (rt_env t tx db);
  others_orgs : ∀ t effs db, locked t_orgs effs db (rt_env t (Some effs) db);
  others_projects : ∀ t effs db, locked t_projects effs db (rt_env t (Some effs) db);
  (** the unique indexes hold the rows that are pending, too *)
  others_keys : ∀ t effs db, keys_ok (apply_effects effs db) → keys_ok (apply_effects effs (rt_env t (Some effs) db)) }.

(** ** The four announcements *)

Inductive Kind := OrgCreated | OrgDeleted | ProjectCreated | ProjectDeleted.
#[export] Instance Kind_eq_dec : EqDecision Kind.
Proof. solve_decision. Defined.
Definition kind_event (k : Kind) : string * string :=
  match k with
  | OrgCreated => ("created", "org") | OrgDeleted => ("deleted", "org")
  | ProjectCreated => ("created", "project") | ProjectDeleted => ("deleted", "project")
  end.
Definition said (k : Kind) (events : list TenancyEvent) : list UUID := announced (kind_event k).1 (kind_event k).2 events.
Definition due (k : Kind) (db : DB) : list UUID :=
  match k with
  | OrgCreated => Org_ID <$> t_orgs db
  | OrgDeleted => Org_ID <$> select org_gone (t_orgs db)
  | ProjectCreated => Project_ID <$> t_projects db
  | ProjectDeleted => Project_ID <$> select project_gone (t_projects db)
  end.
Lemma log_inv_due db : log_inv db ↔ ∀ k, said k (t_events db) ≡ₚ due k db.
Proof.
  split; [by intros [] []|]. intros Hk.
  split; [apply (Hk OrgCreated)|apply (Hk OrgDeleted)|apply (Hk ProjectCreated)|apply (Hk ProjectDeleted)].
Qed.

(** Announcements that are still to be made. *)
Notation Owed := (list (Kind * UUID)).
Definition owed_of (k : Kind) (owed : Owed) : list UUID := snd <$> select (λ x, bool_decide (x.1 = k)) owed.
Lemma owed_of_cons k k' u owed : owed_of k ((k', u) :: owed) = (if bool_decide (k' = k) then [u] else []) ++ owed_of k owed.
Proof. unfold owed_of. simpl. by case_bool_decide. Qed.
Lemma said_one k k' e : TenancyEvent_EventType e = (kind_event k').1 → TenancyEvent_ResourceType e = (kind_event k').2 →
  said k [e] = if bool_decide (k' = k) then [TenancyEvent_ResourceID e] else [].
Proof. unfold said, announced, event_is. simpl. intros -> ->. by destruct k, k'. Qed.

(** ** A transaction that is open *)

Record Held := mkHeld { h_orgs : patch Org; h_projects : patch Project; h_events : list TenancyEvent }.
(** What the transaction announces once it commits. *)
Definition held_due (k : Kind) (h : Held) : list UUID :=
  match k with
  | OrgCreated => Org_ID <$> ins (h_orgs h)
  | OrgDeleted => dying Org_ID org_gone (h_orgs h)
  | ProjectCreated => Project_ID <$> ins (h_projects h)
  | ProjectDeleted => dying Project_ID project_gone (h_projects h)
  end.
(** The effects are the patches, whatever rows they are applied to. *)
Record represents (h : Held) (effs : list (DB → DB)) : Prop := mk_represents {
  rep_orgs : ∀ db, t_orgs (apply_effects effs db) = patched (h_orgs h) (t_orgs db);
  rep_projects : ∀ db, t_projects (apply_effects effs db) = patched (h_projects h) (t_projects db);
  rep_events : ∀ db, t_events (apply_effects effs db) = t_events db ++ h_events h }.
Record holding (h : Held) (owed : Owed) (effs : list (DB → DB)) (db : DB) : Prop := mk_holding {
  hd_rep : represents h effs;
  hd_orgs : fits Org_ID org_gone (h_orgs h) (t_orgs db);
  hd_projects : fits Project_ID project_gone (h_projects h) (t_projects db);
  hd_said : ∀ k, said k (h_events h) ++ owed_of k owed ≡ₚ held_due k h }.
Definition pending (owed : Owed) (effs : list (DB → DB)) (db : DB) : Prop := ∃ h, holding h owed effs db.

Lemma pending_keys owed effs db : pending owed effs db → keys_ok (apply_effects effs db).
Proof. intros (h & [[Ho Hp _] Hfo Hfp _]). split; [rewrite Ho; apply Hfo|rewrite Hp; apply Hfp]. Qed.

(** What is due in view is what was due and what the transaction adds to it. *)
Lemma due_view h owed effs db k : holding h owed effs db →
  due k (apply_effects effs db) ≡ₚ due k db ++ held_due k h.
Proof.
  intros [[Ho Hp _] Hfo Hfp _]. destruct k; simpl; rewrite ?Ho, ?Hp.
  - rewrite patched_keys; [done|apply Hfo].
  - by apply gone_patched.
  - rewrite patched_keys; [done|apply Hfp].
  - by apply gone_patched.
Qed.

(** With nothing owed, a commit keeps the log. *)
Lemma pending_commit effs db : log_ok db → pending [] effs db → log_ok (apply_effects effs db).
Proof.
  intros [Hlog _] Hp. split; [|by eapply pending_keys]. destruct Hp as [h Hh]. apply log_inv_due. intros k.
  rewrite (due_view _ _ _ _ _ Hh), (rep_events _ _ (hd_rep _ _ _ _ Hh)). unfold said. rewrite announced_app.
  fold (said k (t_events db)) (said k (h_events h)). apply Permutation_app; [by apply log_inv_due|].
  rewrite <- (hd_said _ _ _ _ Hh k). unfold owed_of. by rewrite app_nil_r.
Qed.

Lemma pending_start db : log_ok db → pending [] [] db.
Proof.
  intros [_ [Ho Hp]]. exists (mkHeld patch_id patch_id []). split; simpl.
  - split; intros d; simpl; by rewrite ?patched_id, ?app_nil_r.
  - by apply fits_id.
  - by apply fits_id.
  - by intros [].
Qed.

Lemma pending_env `{!Runtime, !SharedLog} owed effs db t : pending owed effs db → pending owed effs (rt_env t (Some effs) db).
Proof.
  intros Hp. pose proof (others_keys t _ _ (pending_keys _ _ _ Hp)) as [Hko Hkp]. destruct Hp as (h & [Hrep Hfo Hfp Hs]).
  pose proof (others_orgs t effs db) as Ho. pose proof (others_projects t effs db) as Hp. unfold locked in Ho, Hp.
  rewrite (rep_orgs _ _ Hrep) in Ho, Hko. rewrite (rep_projects _ _ Hrep) in Hp, Hkp.
  exists h. split; [done|by eapply fits_env|by eapply fits_env|done].
Qed.

(** ** The effects of the statements *)

(** A statement on a table without resources and without events. *)
Lemma pending_other owed effs db f : (∀ d, t_orgs (f d) = t_orgs d) → (∀ d, t_projects (f d) = t_projects d) →
  (∀ d, t_events (f d) = t_events d) → pending owed effs db → pending owed (effs ++ [f]) db.
Proof.
  intros Ho Hp He (h & [[Ro Rp Re] ???]). exists h. split; [|done..]. split; intros d; rewrite apply_effects_snoc.
  - by rewrite Ho.
  - by rewrite Hp.
  - by rewrite He.
Qed.

(** An inserted event makes an announcement that is owed. *)
Lemma pending_event k owed effs db e : TenancyEvent_EventType e = (kind_event k).1 →
  TenancyEvent_ResourceType e = (kind_event k).2 →
  pending ((k, TenancyEvent_ResourceID e) :: owed) effs db → pending owed (effs ++ [insert_row e]) db.
Proof.
  intros Ht Hr (h & [[Ro Rp Re] Hfo Hfp Hs]). exists (mkHeld (h_orgs h) (h_projects h) (h_events h ++ [e])).
  split; [|done|done|].
  - split; intros d; rewrite apply_effects_snoc; simpl; [by rewrite Ro|by rewrite Rp|]. by rewrite Re, (assoc (++)).
  - intros k'. unfold said. simpl. rewrite announced_app. fold (said k' (h_events h)) (said k' [e]).
    rewrite (said_one k' k), <- (assoc (++)) by done. specialize (Hs k'). rewrite owed_of_cons in Hs. by destruct k'.
Qed.

Lemma insertable_org_key db o : insertable db o = true → Org_ID o ∉ Org_ID <$> t_orgs db.
Proof.
  simpl. unfold OrgsTable_insertable. intros Hi (x & Heq & Hx)%list_elem_of_fmap.
  apply (forallb_not_in _ _ _ Hi) in Hx. cbn beta in Hx. bools. congruence.
Qed.
Lemma insertable_project_key db p : insertable db p = true → Project_ID p ∉ Project_ID <$> t_projects db.
Proof.
  simpl. unfold ProjectsTable_insertable. intros [Hi _]%andb_true_iff (x & Heq & Hx)%list_elem_of_fmap.
  apply (forallb_not_in _ _ _ Hi) in Hx. cbn beta in Hx. bools. congruence.
Qed.

Lemma pending_insert_org owed effs db o : insertable (apply_effects effs db) o = true → Org_DeletedAt o = None →
  pending owed effs db → pending ((OrgCreated, Org_ID o) :: owed) (effs ++ [insert_row o]) db.
Proof.
  intros Hi%insertable_org_key Hd (h & [[Ro Rp Re] Hfo Hfp Hs]). rewrite Ro in Hi.
  exists (mkHeld (patch_insert o (h_orgs h)) (h_projects h) (h_events h)). split; [|by apply fits_insert|done|].
  - split; intros d; rewrite apply_effects_snoc; simpl; [by rewrite Ro, patched_insert|by rewrite Rp|by rewrite Re].
  - intros k. rewrite owed_of_cons. specialize (Hs k). destruct k; simpl in *; [|rewrite dying_insert; [done|]|done|done].
    + rewrite fmap_app, <- Hs. simpl. rewrite <- Permutation_middle. apply Permutation_cons_append.
    + by unfold org_gone; rewrite Hd.
Qed.
Lemma pending_insert_project owed effs db p : insertable (apply_effects effs db) p = true → Project_DeletedAt p = None →
  pending owed effs db → pending ((ProjectCreated, Project_ID p) :: owed) (effs ++ [insert_row p]) db.
Proof.
  intros Hi%insertable_project_key Hd (h & [[Ro Rp Re] Hfo Hfp Hs]). rewrite Rp in Hi.
  exists (mkHeld (h_orgs h) (patch_insert p (h_projects h)) (h_events h)). split; [|done|by apply fits_insert|].
  - split; intros d; rewrite apply_effects_snoc; simpl; [by rewrite Ro|by rewrite Rp, patched_insert|by rewrite Re].
  - intros k. rewrite owed_of_cons. specialize (Hs k). destruct k; simpl in *; [done|done| |rewrite dying_insert; [done|]].
    + rewrite fmap_app, <- Hs. simpl. rewrite <- Permutation_middle. apply Permutation_cons_append.
    + by unfold project_gone; rewrite Hd.
Qed.

Definition owe (k : Kind) (ids : list UUID) : Owed := (λ u, (k, u)) <$> ids.
Lemma owed_of_owe k k' ids owed : owed_of k (owe k' ids ++ owed) = (if bool_decide (k' = k) then ids else []) ++ owed_of k owed.
Proof.
  induction ids as [|u ids IH]; [by case_bool_decide|]. change (owe k' (u :: ids) ++ owed) with ((k', u) :: (owe k' ids ++ owed)).
  rewrite owed_of_cons, IH. by case_bool_decide.
Qed.

(** An update owes the announcements of the rows that it deletes. *)
Lemma pending_update_orgs owed effs db S f : (∀ o, Org_ID (f o) = Org_ID o) →
  (∀ o, org_gone o = true → org_gone (f o) = true) → (∀ o, S o = true → o ∈ t_orgs (apply_effects effs db)) →
  pending owed effs db →
  pending (owe OrgDeleted (Org_ID <$> select (newly org_gone S f) (t_orgs (apply_effects effs db))) ++ owed)
    (effs ++ [over_rows (update_rows S f)]) db.
Proof.
  intros Hk Hg Hin (h & [[Ro Rp Re] Hfo Hfp Hs]). rewrite Ro. setoid_rewrite Ro in Hin.
  exists (mkHeld (patch_update org_gone S f (t_orgs db) (h_orgs h)) (h_projects h) (h_events h)).
  split; [|by apply fits_update|done|].
  - split; intros d; rewrite apply_effects_snoc; simpl; [by rewrite Ro, patched_update|by rewrite Rp|by rewrite Re].
  - intros k. rewrite owed_of_owe. specialize (Hs k). destruct k; simpl in *; [|rewrite dying_update, <- Hs; [|done..]|done|done].
    + rewrite Hs. unfold rewritten. rewrite <- list_fmap_compose. apply reflexive_eq, list_fmap_ext.
      intros i o _. simpl. by destruct (S o).
    + rewrite (Permutation_app_comm (_ <$> _)). by rewrite (assoc (++)).
Qed.
Lemma pending_update_projects owed effs db S f : (∀ p, Project_ID (f p) = Project_ID p) →
  (∀ p, project_gone p = true → project_gone (f p) = true) → (∀ p, S p = true → p ∈ t_projects (apply_effects effs db)) →
  pending owed effs db →
  pending (owe ProjectDeleted (Project_ID <$> select (newly project_gone S f) (t_projects (apply_effects effs db))) ++ owed)
    (effs ++ [over_rows (update_rows S f)]) db.
Proof.
  intros Hk Hg Hin (h & [[Ro Rp Re] Hfo Hfp Hs]). rewrite Rp. setoid_rewrite Rp in Hin.
  exists (mkHeld (h_orgs h) (patch_update project_gone S f (t_projects db) (h_projects h)) (h_events h)).
  split; [|done|by apply fits_update|].
  - split; intros d; rewrite apply_effects_snoc; simpl; [by rewrite Ro|by rewrite Rp, patched_update|by rewrite Re].
  - intros k. rewrite owed_of_owe. specialize (Hs k). destruct k; simpl in *; [done|done| |rewrite dying_update, <- Hs; [|done..]].
    + rewrite Hs. unfold rewritten. rewrite <- list_fmap_compose. apply reflexive_eq, list_fmap_ext.
      intros i p _. simpl. by destruct (S p).
    + rewrite (Permutation_app_comm (_ <$> _)). by rewrite (assoc (++)).
Qed.

(** *** The updates of the store *)

Lemma newly_none {R} (gone : R → bool) S f l : (∀ r, gone (f r) = gone r) → select (newly gone S f) l = [].
Proof. intros Hg. apply select_none. intros r _. unfold newly. rewrite Hg. by destruct (S r), (gone r). Qed.

(** A compare-and-set on the key deletes one row or none. *)
Lemma newly_one {R} `{Table R} (key : R → UUID) (gone : R → bool) ps f id seen : NoDup (key <$> rows seen) →
  (∀ r, holds ps seen r = true → key r = id ∧ gone r = false) → (∀ r, gone (f r) = true) →
  key <$> select (newly gone (seen_matching ps seen) f) (rows seen) =
    if (length (matching ps seen) =? 0)%nat then [] else [id].
Proof.
  intros Hnd Hps Hf.
  assert (select (newly gone (seen_matching ps seen) f) (rows seen) = matching ps seen) as ->.
  { apply select_ext. intros r Hr. unfold newly. rewrite seen_matching_now, Hf by done.
    destruct (holds ps seen r) eqn:Hh; [|done]. by destruct (Hps r Hh) as [_ ->]. }
  assert (∀ r, r ∈ matching ps seen → key r = id) as Hid by (intros r [_ Hr]%elem_of_select; by apply Hps).
  assert (NoDup (key <$> matching ps seen)) as Hnd' by (by apply NoDup_fmap_select).
  destruct (matching ps seen) as [|r [|r' l]]; [done|by rewrite <- (Hid r) by set_solver|].
  rewrite !fmap_cons, (Hid r), (Hid r'), NoDup_cons in Hnd' by set_solver. set_solver.
Qed.

Lemma pending_keep_org owed effs db ps f : (∀ o, Org_ID (f o) = Org_ID o) → (∀ o, Org_DeletedAt (f o) = Org_DeletedAt o) →
  pending owed effs db → pending owed (effs ++ [update_seen (mkUpdateSpec ps f) (apply_effects effs db)]) db.
Proof.
  intros Hk Hd Hp. assert (∀ o, org_gone (f o) = org_gone o) as Hg by (intros; unfold org_gone; by rewrite Hd).
  apply (pending_update_orgs owed effs db (seen_matching ps (apply_effects effs db)) f) in Hp; [|done|by intros; rewrite Hg|].
  - by rewrite newly_none in Hp.
  - intros o [? _]%seen_matching_spec%elem_of_select. done.
Qed.
Lemma pending_keep_project owed effs db ps f : (∀ p, Project_ID (f p) = Project_ID p) →
  (∀ p, Project_DeletedAt (f p) = Project_DeletedAt p) →
  pending owed effs db → pending owed (effs ++ [update_seen (mkUpdateSpec ps f) (apply_effects effs db)]) db.
Proof.
  intros Hk Hd Hp. assert (∀ p, project_gone (f p) = project_gone p) as Hg by (intros; unfold project_gone; by rewrite Hd).
  apply (pending_update_projects owed effs db (seen_matching ps (apply_effects effs db)) f) in Hp; [|done|by intros; rewrite Hg|].
  - by rewrite newly_none in Hp.
  - intros p [? _]%seen_matching_spec%elem_of_select. done.
Qed.

(** What is owed after a compare-and-set that changed [n] rows. *)
Definition owe_if (n : nat) (k : Kind) (id : UUID) (owed : Owed) : Owed := if (n =? 0)%nat then owed else (k, id) :: owed.
Lemma pending_delete_org owed effs db id f (view := apply_effects effs db) (ps := [org_ID id; org_DeletedAtIsNil]) :
  (∀ o, Org_ID (f o) = Org_ID o) → (∀ o, is_Some (Org_DeletedAt (f o))) → pending owed effs db →
  pending (owe_if (length (matching ps view)) OrgDeleted id owed) (effs ++ [update_seen (mkUpdateSpec ps f) view]) db.
Proof.
  intros Hk Hd Hp. assert (∀ o, org_gone (f o) = true) as Hg by (intros o; unfold org_gone; by destruct (Hd o) as [? ->]).
  pose proof (pending_keys _ _ _ Hp) as [Hnd _]. fold view in Hnd.
  apply (pending_update_orgs owed effs db (seen_matching ps view) f) in Hp; [|done|by intros; rewrite Hg|].
  - fold view in Hp. change (t_orgs view) with (rows (R:=Org) view) in Hp. rewrite (newly_one Org_ID org_gone ps f id) in Hp.
    + unfold owe_if. by destruct (_ =? 0)%nat.
    + done.
    + intros o Ho. simpl in Ho. unfold org_ID, org_DeletedAtIsNil in Ho. rewrite andb_true_r in Ho.
      apply andb_true_iff in Ho as [Hid Ho]. unfold org_gone. rewrite Ho. by bools.
    + done.
  - intros o [? _]%seen_matching_spec%elem_of_select. done.
Qed.
Lemma pending_delete_project owed effs db id f (view := apply_effects effs db) (ps := [project_ID id; project_DeletedAtIsNil]) :
  (∀ p, Project_ID (f p) = Project_ID p) → (∀ p, is_Some (Project_DeletedAt (f p))) → pending owed effs db →
  pending (owe_if (length (matching ps view)) ProjectDeleted id owed) (effs ++ [update_seen (mkUpdateSpec ps f) view]) db.
Proof.
  intros Hk Hd Hp. assert (∀ p, project_gone (f p) = true) as Hg by (intros p; unfold project_gone; by destruct (Hd p) as [? ->]).
  pose proof (pending_keys _ _ _ Hp) as [_ Hnd]. fold view in Hnd.
  apply (pending_update_projects owed effs db (seen_matching ps view) f) in Hp; [|done|by intros; rewrite Hg|].
  - fold view in Hp. change (t_projects view) with (rows (R:=Project) view) in Hp.
    rewrite (newly_one Project_ID project_gone ps f id) in Hp.
    + unfold owe_if. by destruct (_ =? 0)%nat.
    + done.
    + intros p Hp'. simpl in Hp'. unfold project_ID, project_DeletedAtIsNil in Hp'. rewrite andb_true_r in Hp'.
      apply andb_true_iff in Hp' as [Hid Hp']. unfold project_gone. rewrite Hp'. by bools.
    + done.
  - intros p [? _]%seen_matching_spec%elem_of_select. done.
Qed.
