(* ===== verification/StoreShared.v ===== *)
(** * The operations of the store among other connections

    Each operation that writes keeps the event log exact whatever the other connections commit
    before each of its statements, as long as they keep it, too ([SharedLog]).  The judgements
    follow a transaction by the announcements it owes: [owes] (a statement), [stays] (rolled back
    on error), [settles] (over at the end). *)

From S2P Require Import Prelude GoStd Monad EntSchema Sqlgraph EntQuery EntMutation Config Status Store.
From S2P Require Import Logic EntSpec StoreReads Wf StoreInv StoreLog.

Section shared.
Context `{Driver} `{Runtime} `{FieldValidators} `{UUIDLib}.
Context `{!DriverLaws} `{!SharedLog}.

Definition Owing (owed : Owed) (w : World) : Prop :=
  ∃ effs, w_tx w = Some effs ∧ log_ok (w_db w) ∧ pending owed effs (w_db w).
Definition Open (w : World) : Prop := is_Some (w_tx w) ∧ log_ok (w_db w).
Definition Free (w : World) : Prop := w_tx w = None ∧ log_ok (w_db w).

Definition owes {A} (owed : Owed) (m : M A) (owed' : A → Owed) : Prop := ∀ w, Owing owed w →
  wp m (λ r w', match r with inl _ => Open w' | inr a => Owing (owed' a) w' end) w.
Definition stays {A} (owed : Owed) (m : M A) (owed' : A → Owed) : Prop := ∀ w, Owing owed w →
  wp m (λ r w', match r with inl _ => Free w' | inr a => Owing (owed' a) w' end) w.
Definition settles {A} (owed : Owed) (m : M A) : Prop := ∀ w, Owing owed w → wp m (λ _ w', Free w') w.
Definition keeps_log {A} (m : M A) : Prop := ∀ w, Free w → wp m (λ _ w', Free w') w.

Lemma Owing_Open owed w : Owing owed w → Open w.
Proof. intros (effs & ? & ? & _). split; eauto. Qed.

(** ** The calls *)

Lemma log_ok_env tx db db' : env_under tx db db' → log_ok db → log_ok db'.
Proof. induction 1 as [|d1 d2 d3 [t ->] _ IH]; [done|]. intros Hd. by apply IH, others_log. Qed.
Lemma pending_env_under owed effs db db' : env_under (Some effs) db db' → pending owed effs db → pending owed effs db'.
Proof. induction 1 as [|d1 d2 d3 [t ->] _ IH]; [done|]. intros Hd. by apply IH, pending_env. Qed.

Lemma read_owes {A} (m : M A) `{!ReadOnly m} owed : owes owed m (λ _, owed).
Proof.
  intros w (effs & Htx & Hl & Hp). eapply wp_mono; [apply read_only_wp|]. intros r w' (He & Ht & _). rewrite Htx in *.
  apply (log_ok_env _ _ _ He) in Hl. apply (pending_env_under _ _ _ _ He) in Hp. destruct r; [split; [by rewrite Ht|done]|by exists effs].
Qed.
Lemma read_keeps {A} (m : M A) `{!ReadOnly m} : keeps_log m.
Proof.
  intros w (Htx & Hl). eapply wp_mono; [apply read_only_wp|]. intros r w' (He & Ht & _). split; [congruence|].
  by apply (log_ok_env _ _ _ He).
Qed.

Lemma statement_owes {A} (call : nat → DB → driver_error + A) eff owed (owed' : A → Owed) :
  (∀ t a effs db, pending owed effs db → call t (apply_effects effs db) = inr a →
     pending (owed' a) (effs ++ [eff a (apply_effects effs db)]) db) →
  owes owed (statement call eff) owed'.
Proof.
  intros Hc w (effs & Htx & Hl & Hp). apply wp_outside_any. cbv zeta. rewrite Htx. unfold view. simpl.
  apply (others_log (w_tick w) (Some effs)) in Hl. apply (pending_env _ _ _ (w_tick w)) in Hp.
  destruct (call _ _) as [e|a] eqn:Hcall; simpl; [by split|]. unfold effect. simpl. eexists. split; [done|]. split; [done|].
  by eapply Hc.
Qed.
Lemma statement_keeps {A} (call : nat → DB → driver_error + A) eff :
  (∀ t a db, log_ok db → call t db = inr a → log_ok (eff a db db)) → keeps_log (statement call eff).
Proof.
  intros Hc w (Htx & Hl). apply wp_outside_any. cbv zeta. rewrite Htx. unfold view. simpl.
  apply (others_log (w_tick w) None) in Hl. destruct (call _ _) as [e|a] eqn:Hcall; simpl; [by split|].
  unfold effect. simpl. split; [done|]. by eapply Hc.
Qed.

(** ** Composition *)

Lemma ret_owes {A} owed (a : A) owed' : owed' a = owed → owes owed (mret a) owed'.
Proof. intros <- w Hw. by apply wp_ret. Qed.
Lemma fail_owes {A} owed e (owed' : A → Owed) : owes owed (fail e) owed'.
Proof. intros w Hw. by eapply wp_fail, Owing_Open. Qed.
Lemma bind_owes {A B} owed (m : M A) owed1 (k : A → M B) owed2 :
  owes owed m owed1 → (∀ a, owes (owed1 a) (k a) owed2) → owes owed (m ≫= k) owed2.
Proof.
  intros Hm Hk w Hw. apply wp_bind. eapply wp_mono; [by apply Hm|]. intros [e|a] w' Hw'; [done|by apply Hk].
Qed.
Lemma map_error_owes {A} owed f (m : M A) owed' : owes owed m owed' → owes owed (map_error f m) owed'.
Proof. intros Hm w Hw. apply wp_map_error. eapply wp_mono; [by apply Hm|]. by intros []. Qed.
Lemma guard_check_owes {A} owed c (m : M A) owed' : owes owed m owed' → owes owed (guard_check c m) owed'.
Proof. destruct c; [intros _; apply fail_owes|done]. Qed.

Lemma rollback_settles {A} w e (Q : error + A → World → Prop) : Open w → (∀ e' w', Free w' → Q (inl e') w') → wp (rollback e) Q w.
Proof.
  intros [_ Hl] HQ. apply wp_bind, wp_try, wp_outside_any. cbv zeta. simpl.
  apply (others_log (w_tick w) (w_tx w)) in Hl. destruct (drv_rollback _); simpl; apply wp_fail, HQ; by split.
Qed.
Lemma orRollback_stays {A} owed (m : M A) owed' : owes owed m owed' → stays owed (orRollback m) owed'.
Proof.
  intros Hm w Hw. apply wp_bind, wp_try. eapply wp_mono; [by apply Hm|]. intros [e|a] w' Hw'; [|by apply wp_ret].
  by apply rollback_settles.
Qed.
Lemma ret_stays {A} owed (a : A) owed' : owed' a = owed → stays owed (mret a) owed'.
Proof. intros <- w Hw. by apply wp_ret. Qed.
Lemma Now_stays owed : stays owed Now (λ _, owed).
Proof.
  intros w Hw. pose proof (read_owes Now owed w Hw) as (r & w' & Hm & Hr)%wp_out. eapply wp_run; [exact Hm|].
  unfold Now, outside in Hm. by injection Hm as <- <-.
Qed.
Lemma bind_stays {A B} owed (m : M A) owed1 (k : A → M B) owed2 :
  stays owed m owed1 → (∀ a, stays (owed1 a) (k a) owed2) → stays owed (m ≫= k) owed2.
Proof.
  intros Hm Hk w Hw. apply wp_bind. eapply wp_mono; [by apply Hm|]. intros [e|a] w' Hw'; [done|by apply Hk].
Qed.
Lemma bind_settles {A B} owed (m : M A) owed1 (k : A → M B) :
  stays owed m owed1 → (∀ a, settles (owed1 a) (k a)) → settles owed (m ≫= k).
Proof.
  intros Hm Hk w Hw. apply wp_bind. eapply wp_mono; [by apply Hm|]. intros [e|a] w' Hw'; [done|by apply Hk].
Qed.
Lemma fail_settles {A} owed e : settles (A:=A) owed (rollback e).
Proof. intros w Hw. eapply rollback_settles; [by eapply Owing_Open|done]. Qed.
(** With nothing owed the commit, whatever it reports, keeps the log. *)
Lemma commit_settles : settles [] Tx_Commit.
Proof.
  intros w (effs & Htx & Hl & Hp). apply wp_outside_any. cbv zeta. rewrite Htx. unfold view. simpl.
  apply (others_log (w_tick w) (Some effs)) in Hl. apply (pending_env _ _ _ (w_tick w)) in Hp.
  pose proof (pending_commit _ _ Hl Hp). destruct (drv_commit _) as [[e []]|]; by split.
Qed.
Lemma commit_ret_settles {A} (a : A) : settles [] (_ ← Tx_Commit; mret a).
Proof. intros w Hw. apply wp_bind. eapply wp_mono; [by apply commit_settles|]. intros [e|[]] w' Hw'; [done|by apply wp_ret]. Qed.

Lemma Client_Tx_opens w : Free w → wp Client_Tx (λ r w', match r with inl _ => Free w' | inr _ => Owing [] w' end) w.
Proof.
  intros [Htx Hl]. eapply wp_run; [apply surjective_pairing|].
  unfold Client_Tx. rewrite Htx. unfold map_error, TxBegin, outside. rewrite Htx. simpl.
  apply (others_log (w_tick w) None) in Hl. destruct (drv_begin _) as [e|]; simpl; [by split|].
  exists []. split; [done|]. split; [done|]. by apply pending_start.
Qed.
Lemma Client_Tx_keeps {A} (k : () → M A) : (∀ u, settles [] (k u)) → keeps_log (u ← Client_Tx; k u).
Proof.
  intros Hk w Hw. apply wp_bind. eapply wp_mono; [by apply Client_Tx_opens|]. intros [e|u] w' Hw'; [done|by apply Hk].
Qed.
Lemma fail_keeps_log {A} e : keeps_log (A:=A) (fail e).
Proof. intros w Hw. by apply wp_fail. Qed.
Lemma ret_keeps_log {A} (a : A) : keeps_log (mret a).
Proof. intros w Hw. by apply wp_ret. Qed.
Lemma bind_keeps_log {A B} (m : M A) (k : A → M B) : keeps_log m → (∀ a, keeps_log (k a)) → keeps_log (m ≫= k).
Proof.
  intros Hm Hk w Hw. apply wp_bind. eapply wp_mono; [by apply Hm|]. intros [e|a] w' Hw'; [done|by apply Hk].
Qed.
Lemma try_keeps {A} (m : M A) : keeps_log m → keeps_log (try m).
Proof. intros Hm w Hw. apply wp_try. by apply Hm. Qed.
Lemma map_error_keeps {A} f (m : M A) : keeps_log m → keeps_log (map_error f m).
Proof. intros Hm w Hw. apply wp_map_error. eapply wp_mono; [by apply Hm|]. by intros []. Qed.
Lemma guard_check_keeps {A} c (m : M A) : keeps_log m → keeps_log (guard_check c m).
Proof. destruct c; [intros _; apply fail_keeps_log|done]. Qed.

(** ** The operations of the client in a transaction *)

Lemma read_bind_owes {A B} (m : M A) (k : A → M B) owed owed' `{!ReadOnly m} :
  (∀ a, owes owed (k a) owed') → owes owed (m ≫= k) owed'.
Proof. intros Hk. eapply bind_owes; [by apply read_owes|done]. Qed.
Lemma bind_ret_owes {A B} (a : A) (k : A → M B) owed owed' : owes owed (k a) owed' → owes owed (mret a ≫= k) owed'.
Proof. intros Hk w Hw. apply wp_bind, wp_ret. by apply Hk. Qed.
Lemma bind_bind_owes {A B C} (m : M A) (k : A → M B) (h : B → M C) owed owed' :
  owes owed (m ≫= λ a, k a ≫= h) owed' → owes owed ((m ≫= k) ≫= h) owed'.
Proof.
  intros Hm w Hw. destruct (wp_out _ _ _ (Hm w Hw)) as (r & w' & He & Hr). eapply wp_run; [|exact Hr]. rewrite <- He.
  unfold mbind, EM_bind. by destruct (m w) as [[e|a] w1].
Qed.
(** The reads at the front. *)
Ltac reads := repeat lazymatch goal with
  | |- owes _ ((_ ≫= _) ≫= _) _ => apply bind_bind_owes
  | |- owes _ (mret _ ≫= _) _ => apply bind_ret_owes
  | |- owes _ (or_default _ _ ≫= _) _ => apply read_bind_owes; [apply _|intros]
  end.

Lemma CreateNode_owes {R} `{Table R} (row : Z → R) owed owed' :
  (∀ n effs db, insertable (apply_effects effs db) (row n) = true → pending owed effs db →
     pending (owed' n) (effs ++ [insert_row (row n)]) db) →
  owes owed (map_error create_error (CreateNode row)) owed'.
Proof.
  intros Hi. apply map_error_owes, statement_owes. intros t n effs db Hp [Hn _]%create_ok. by apply Hi.
Qed.

Lemma OrgCreate_owes m owed : om_deleted_at m = None →
  owes owed (OrgCreate_Save m) (λ o, (OrgCreated, Org_ID o) :: owed).
Proof.
  intros Hd. unfold OrgCreate_Save, OrgCreate_defaults. reads. apply guard_check_owes. cbv zeta. set (o := OrgCreate_createSpec _).
  eapply bind_owes; [apply (CreateNode_owes _ owed (λ _, (OrgCreated, Org_ID o) :: owed))|intros; by apply ret_owes].
  intros n effs db Hi Hp. by apply pending_insert_org.
Qed.
Lemma ProjectCreate_owes m owed : pm_deleted_at m = None →
  owes owed (ProjectCreate_Save m) (λ p, (ProjectCreated, Project_ID (project_row p)) :: owed).
Proof.
  intros Hd. unfold ProjectCreate_Save, ProjectCreate_defaults. reads. apply guard_check_owes. cbv zeta. set (p := ProjectCreate_createSpec _).
  eapply bind_owes; [apply (CreateNode_owes _ owed (λ _, (ProjectCreated, Project_ID p) :: owed))|intros; by apply ret_owes].
  intros n effs db Hi Hp. by apply pending_insert_project.
Qed.
Lemma FolderCreate_owes m owed : owes owed (FolderCreate_Save m) (λ _, owed).
Proof.
  unfold FolderCreate_Save, FolderCreate_defaults. reads. apply guard_check_owes. cbv zeta.
  eapply bind_owes; [apply (CreateNode_owes _ owed (λ _, owed))|intros; by apply ret_owes].
  intros n effs db _ Hp. by apply pending_other.
Qed.
Lemma TenancyEventCreate_owes k id m owed : em_event_type m = Some (kind_event k).1 →
  em_resource_type m = Some (kind_event k).2 → em_resource_id m = Some id →
  owes ((k, id) :: owed) (TenancyEventCreate_Save m) (λ _, owed).
Proof.
  intros Ht Hr Hid. unfold TenancyEventCreate_Save, TenancyEventCreate_defaults. reads. apply guard_check_owes.
  eapply bind_owes; [apply (CreateNode_owes _ _ (λ _, owed))|intros n; by apply ret_owes].
  intros n effs db _ Hp. apply (pending_event k); unfold TenancyEventCreate_createSpec; simpl; by rewrite ?Ht, ?Hr, ?Hid.
Qed.

Lemma UpdateNode_owes {R} `{Table R} (u : UpdateSpec R) owed :
  (∀ effs db, pending owed effs db → pending owed (effs ++ [update_seen u (apply_effects effs db)]) db) →
  owes owed (UpdateNode u) (λ _, owed).
Proof.
  intros Hu w Hw. destruct (Hw) as (effs & Htx & _). apply local_tx_inside; [by eexists|]. clear effs Htx. revert w Hw.
  change (owes owed (_ ← UpdateNodes u; rs ← QueryNodes (mkQuerySpec (u_predicates u) [] None);
    match rs with [] => fail (drv_error (DrvNotFound, "record not found")) | r :: _ => mret r end) (λ _, owed)).
  eapply bind_owes; [apply (statement_owes _ _ _ (λ _, owed)); intros t n effs db Hp _; by apply Hu|intros n].
  apply read_bind_owes; [apply _|]. intros [|r rs]; [apply fail_owes|by apply ret_owes].
Qed.
Lemma OrgUpdateOne_owes o m owed : om_deleted_at m = None → owes owed (OrgUpdateOne_Save o m) (λ _, owed).
Proof.
  intros Hd. unfold OrgUpdateOne_Save, OrgUpdate_defaults. reads. apply guard_check_owes, map_error_owes, UpdateNode_owes.
  intros effs db Hp. apply pending_keep_org; [done| |done]. intros x. simpl. by rewrite Hd.
Qed.
Lemma ProjectUpdateOne_owes p m owed : pm_deleted_at m = None → owes owed (ProjectUpdateOne_Save p m) (λ _, owed).
Proof.
  intros Hd. unfold ProjectUpdateOne_Save, ProjectUpdate_defaults. reads. apply guard_check_owes.
  eapply bind_owes; [apply map_error_owes, UpdateNode_owes|intros; by apply ret_owes].
  intros effs db Hp. apply pending_keep_project; [done| |done]. intros x. simpl. by rewrite Hd.
Qed.
Lemma OrgUpdate_owes id m owed : is_Some (om_deleted_at m) →
  owes owed (OrgUpdate_Save [org_ID id; org_DeletedAtIsNil] m) (λ n, owe_if n OrgDeleted id owed).
Proof.
  intros [t0 Hd]. unfold OrgUpdate_Save, OrgUpdate_defaults. reads. apply guard_check_owes, map_error_owes, statement_owes.
  intros t n effs db Hp Hn%update_nodes_ok. rewrite Hn. apply pending_delete_org; [done| |done]. intros x. simpl. rewrite Hd. eauto.
Qed.
Lemma ProjectUpdate_owes id m owed : is_Some (pm_deleted_at m) →
  owes owed (ProjectUpdate_Save [project_ID id; project_DeletedAtIsNil] m) (λ n, owe_if n ProjectDeleted id owed).
Proof.
  intros [t0 Hd]. unfold ProjectUpdate_Save, ProjectUpdate_defaults. reads. apply guard_check_owes, map_error_owes, statement_owes.
  intros t n effs db Hp Hn%update_nodes_ok. rewrite Hn. apply pending_delete_project; [done| |done]. intros x. simpl. rewrite Hd. eauto.
Qed.

(** ** The operations of the store *)

Ltac next := intros ?; cbn beta.

Lemma CreateOrg_keeps name d : keeps_log (CreateOrg name d).
Proof.
  apply Client_Tx_keeps. intros _. eapply bind_settles; [by apply orRollback_stays, OrgCreate_owes|next].
  eapply bind_settles; [apply orRollback_stays, FolderCreate_owes|next]. cbn beta.
  eapply bind_settles; [by apply orRollback_stays, (TenancyEventCreate_owes OrgCreated)|next]. apply commit_ret_settles.
Qed.
Lemma UpdateOrg_keeps name d : keeps_log (UpdateOrg name d).
Proof.
  apply Client_Tx_keeps. intros _. eapply bind_settles; [apply orRollback_stays, read_owes, _|intros o].
  eapply bind_settles; [by apply orRollback_stays, OrgUpdateOne_owes|intros o']. apply commit_ret_settles.
Qed.
Lemma CreateProject_keeps org name d : keeps_log (CreateProject org name d).
Proof.
  apply Client_Tx_keeps. intros _. eapply bind_settles; [apply orRollback_stays, read_owes, _|intros o].
  eapply bind_settles; [apply orRollback_stays, read_owes, _|intros f].
  eapply bind_settles; [by apply orRollback_stays, ProjectCreate_owes|next].
  eapply bind_settles; [by apply orRollback_stays, (TenancyEventCreate_owes ProjectCreated)|next]. apply commit_ret_settles.
Qed.
Lemma UpdateProject_keeps name ns d : keeps_log (UpdateProject name ns d).
Proof.
  unfold UpdateProject. destruct (no_scope ns); [apply fail_keeps_log|]. cbv zeta. apply Client_Tx_keeps. intros _.
  eapply bind_settles; [apply orRollback_stays, read_owes, _|intros ps].
  eapply bind_settles; [apply orRollback_stays, read_owes, _|intros p].
  eapply bind_settles; [by apply orRollback_stays, ProjectUpdateOne_owes|intros p']. apply commit_ret_settles.
Qed.
Lemma DeleteProject_keeps name ns : keeps_log (DeleteProject name ns).
Proof.
  unfold DeleteProject. destruct (no_scope ns); [apply fail_keeps_log|]. cbv zeta. apply Client_Tx_keeps. intros _.
  eapply bind_settles; [apply orRollback_stays, read_owes, _|intros ps].
  eapply bind_settles; [apply orRollback_stays, read_owes, _|intros p].
  eapply bind_settles; [apply Now_stays|intros now].
  eapply bind_settles; [by apply orRollback_stays, ProjectUpdate_owes; eexists|intros n]. unfold owe_if.
  destruct (n =? 0)%nat; [apply fail_settles|]. eapply bind_settles; [|intros ?; apply commit_settles].
  by apply orRollback_stays, (TenancyEventCreate_owes ProjectDeleted (Project_ID (project_row p)));
    destruct (Project_org p), (Project_Edges_Folder p).
Qed.

Lemma DeleteOrg_projects_stays o now ps owed : stays owed (DeleteOrg_projects o now ps) (λ _, owed).
Proof.
  induction ps as [|p ps IH]; [by apply ret_stays|]. eapply bind_stays; [|intros ?; apply IH]. unfold DeleteOrg_project.
  eapply bind_stays; [by apply orRollback_stays, ProjectUpdate_owes; eexists|intros n]. unfold owe_if.
  destruct (n =? 0)%nat; [by apply ret_stays|]. cbv zeta. eapply bind_stays; [|intros ?; by apply ret_stays].
  by apply orRollback_stays, (TenancyEventCreate_owes ProjectDeleted (Project_ID (project_row p))); destruct (Project_Edges_Folder p).
Qed.
Lemma DeleteOrg_keeps name : keeps_log (DeleteOrg name).
Proof.
  apply Client_Tx_keeps. intros _. eapply bind_settles; [apply orRollback_stays, read_owes, _|intros o].
  eapply bind_settles; [apply orRollback_stays, read_owes, _|intros ps].
  eapply bind_settles; [apply Now_stays|intros now]. eapply bind_settles; [apply DeleteOrg_projects_stays|next].
  eapply bind_settles; [by apply orRollback_stays, OrgUpdate_owes; eexists|intros n]. unfold owe_if.
  destruct (n =? 0)%nat; [apply fail_settles|]. eapply bind_settles; [|intros ?; apply commit_settles].
  by apply orRollback_stays, (TenancyEventCreate_owes OrgDeleted (Org_ID o)).
Qed.

(** Statements on the statuses do not concern the log. *)
Lemma statuses_keep {A} (call : nat → DB → driver_error + A) eff :
  (∀ a seen db, t_orgs (eff a seen db) = t_orgs db ∧ t_projects (eff a seen db) = t_projects db ∧
     t_events (eff a seen db) = t_events db) → keeps_log (statement call eff).
Proof.
  intros Heff. apply statement_keeps. intros t a db [[L1 L2 L3 L4] [K1 K2]] _. destruct (Heff a db db) as (Ho & Hp & He).
  by split; [split|split]; rewrite ?Ho, ?Hp, ?He.
Qed.
Lemma UpsertControllerStatus_keeps c rt id s msg : keeps_log (UpsertControllerStatus c rt id s msg).
Proof.
  assert (∀ m, keeps_log (ControllerStatusUpdate_Save (status_key c rt id) m)) as Hu.
  { intros m. apply bind_keeps_log; [apply read_keeps; unfold ControllerStatusUpdate_defaults; apply _|]. intros m'.
    by apply guard_check_keeps, map_error_keeps, statuses_keep. }
  assert (∀ m, keeps_log (ControllerStatusCreate_Save m)) as Hc.
  { intros m. apply bind_keeps_log; [apply read_keeps; unfold ControllerStatusCreate_defaults; apply _|]. intros m'.
    apply guard_check_keeps, bind_keeps_log; [by apply map_error_keeps, statuses_keep|intros; apply ret_keeps_log]. }
  unfold UpsertControllerStatus. apply bind_keeps_log; [apply Hu|]. intros n. destruct (0 <? n)%nat; [apply ret_keeps_log|].
  apply bind_keeps_log; [apply try_keeps, Hc|]. intros [e|cs]; [|apply ret_keeps_log].
  apply bind_keeps_log; [apply try_keeps, Hu|]. intros [e'|n']; [apply fail_keeps_log|]. destruct (0 <? n')%nat; [apply ret_keeps_log|apply fail_keeps_log].
Qed.
Lemma DeleteControllerStatus_keeps c rt id : keeps_log (DeleteControllerStatus c rt id).
Proof. apply bind_keeps_log; [by apply map_error_keeps, statuses_keep|intros; apply ret_keeps_log]. Qed.
Lemma SynthesizeReplayEvents_keeps : keeps_log SynthesizeReplayEvents.
Proof.
  intros w Hw. apply wp_bind, wp_try. eapply wp_mono; [by apply Client_Tx_opens|].
  intros [e|[]] w1 Hw1; [by apply wp_fail|]. apply wp_bind, wp_try.
  eapply wp_mono; [by apply (read_owes SynthesizeReplayEvents_body [])|]. intros r w2 Hw2.
  assert (Open w2) as [_ Hl] by (destruct r; [done|by eapply Owing_Open]). apply wp_bind, wp_try, wp_outside_any. cbv zeta.
  apply (others_log (w_tick w2) (w_tx w2)) in Hl. destruct (drv_rollback _); simpl; apply wp_of_result; by split.
Qed.
End shared.
