(* ===== verification/Auth.v ===== *)
(** * Authentication, authorization and scoping

    tenancy-manager/internal/api/auth.go: the parsing of Keycloak roles, the
    middlewares [AuthnMiddleware], [AuthzMiddleware], [DeletionCheckMiddleware]
    and [InternalAuthMiddleware]; and, from api.go, the org scope of a request
    ([resolveOrgNames] and its two companions).  The validator the first
    middleware calls is its argument: the one of the program is in Jwt.v. *)

From S2P Require Import Prelude GoStd Monad EntSchema Sqlgraph EntQuery EntMutation Store Backend Http.
From Stdlib Require Import Ascii.

(** ** Role parsing *)

(** [[a-f0-9-]] *)
Definition is_id_char (c : ascii) : bool :=
  in_range "a" "f" c || in_range "0" "9" c || Ascii.eqb c "-".
(** the longest prefix of id characters, and what follows *)
Definition span_id (s : string) : string * string := span is_id_char s.
(** [([a-f0-9-]+)_] at the head of [s]: the group, and what follows *)
Definition id_segment (s : string) : option (string * string) :=
  match span_id s with
  | (EmptyString, _) => None
  | (p, String c q) => if Ascii.eqb c "_" then Some (p, q) else None
  | _ => None
  end.

(** [FindStringSubmatch] of the two expressions, reduced to the group [m[1]] the
    code reads. *)
Definition projectRoleRegex (role : string) : option string :=
  match id_segment role with
  | Some (orgID, rest) =>
      if mem_string rest ["project-read-role"; "project-write-role"; "project-delete-role"]
      then Some orgID else None
  | None => None
  end.
Definition memberRoleRegex (role : string) : option string :=
  match id_segment role with
  | Some (orgID, rest) =>
      match id_segment rest with
      | Some (_, rest) => if mem_string rest ["member-role"; "m"] then Some orgID else None
      | None => None
      end
  | None => None
  end.

Definition hasRole (roles : list string) (target : string) : bool :=
  existsb (λ r, String.eqb r target) roles.

Section roles.
Context `{UUIDLib}.

(** The loop of [extractOrgUUIDs]. *)
Fixpoint extract_loop (roles : list string) (seen : gset UUID) (result : list UUID) : list UUID :=
  match roles with
  | [] => result
  | role :: roles =>
      match (match projectRoleRegex role with
             | Some idStr => Some idStr
             | None => memberRoleRegex role
             end) with
      | None => extract_loop roles seen result
      | Some idStr =>
          match uuid_Parse idStr with
          | None => extract_loop roles seen result
          | Some id => if bool_decide (id ∈ seen) then extract_loop roles seen result
                       else extract_loop roles ({[id]} ∪ seen) (result ++ [id])
          end
      end
  end.
Definition extractOrgUUIDs (roles : list string) : list UUID := extract_loop roles ∅ [].

Definition hasOrgScopedRole (roles : list string) (orgUUIDs : list UUID) (roleSuffix : string) : bool :=
  existsb (λ orgID, hasRole roles (uuid_String orgID +:+ "_" +:+ roleSuffix)) orgUUIDs.

Definition hasMemberRole (roles : list string) (orgUUIDs : list UUID) : bool :=
  existsb (λ role, match memberRoleRegex role with
                   | Some idStr => match uuid_Parse idStr with
                                   | Some orgID => mem_uuid orgID orgUUIDs
                                   | None => false
                                   end
                   | None => false
                   end) roles.

(** ** Authorization *)

Definition checkOrgAuthz (roles : list string) (method : string) : bool :=
  if String.eqb method MethodGet then hasRole roles "org-read-role"
  else if String.eqb method MethodPut then hasRole roles "org-write-role"
  else if String.eqb method MethodDelete then hasRole roles "org-delete-role"
  else false.

Definition checkProjectAuthz (roles : list string) (orgUUIDs : list UUID) (method : string) : bool :=
  if String.eqb method MethodGet then
    if hasRole roles "project-read-role" then true
    else if hasOrgScopedRole roles orgUUIDs "project-read-role" then true
    else hasMemberRole roles orgUUIDs
  else if String.eqb method MethodPut then
    hasRole roles "project-write-role" || hasOrgScopedRole roles orgUUIDs "project-write-role"
  else if String.eqb method MethodDelete then
    hasRole roles "project-delete-role" || hasOrgScopedRole roles orgUUIDs "project-delete-role"
  else false.

Definition isOrgEndpoint (path : string) : bool := HasPrefix path "/v1/orgs".
Definition isProjectEndpoint (path : string) : bool := HasPrefix path "/v1/projects".

(** The [allowed] of [AuthzMiddleware]. *)
Definition authorized (ac : AuthContext) (path method : string) : bool :=
  if hasRole (Roles ac) "admin" then true
  else if isOrgEndpoint path then checkOrgAuthz (Roles ac) method
  else if isProjectEndpoint path then checkProjectAuthz (Roles ac) (OrgUUIDs ac) method
  else false.

Definition AuthzMiddleware : Middleware := λ next r,
  match r_auth r with
  | None => mret (writeError StatusUnauthorized "no auth context")
  | Some ac =>
      if negb (authorized ac (r_path r) (r_method r))
      then mret (writeError StatusForbidden "insufficient permissions")
      else next r
  end.
End roles.

(** ** Authentication *)

(** [jwt.MapClaims]: the members of the decoded claims object. *)
Definition MapClaims := list (string * JSON).

Definition extractRolesFromClaims (claims : MapClaims) : list string :=
  match as_object (member "realm_access" claims) with
  | None => []
  | Some realmAccess =>
      match as_array (member "roles" realmAccess) with
      | None => []
      | Some rolesInterface => omap (λ ri, as_string (Some ri)) rolesInterface
      end
  end.

Section middleware.
Context `{UUIDLib} `{StoreBackend}.

(** The names of [orgUUIDs] that the map has, in their order. *)
Definition names_of (nameMap : gmap UUID string) (orgUUIDs : list UUID) : list string :=
  omap (λ id, nameMap !! id) orgUUIDs.

(** The lookup of [AuthnMiddleware]: a failure is logged and leaves no name. *)
Definition resolve_names (orgUUIDs : list UUID) : M (list string) :=
  if (0 <? length orgUUIDs)%nat then
    res ← try (sb_GetOrgNamesByUUIDs orgUUIDs);
    mret (match res with inl _ => [] | inr nameMap => names_of nameMap orgUUIDs end)
  else mret [].

(** [parts[1]] of the header, [None] when the format is wrong. *)
Definition bearer_token (authHeader : string) : option string :=
  match SplitN2 authHeader " " with
  | [scheme; token] => if EqualFold scheme "Bearer" then Some token else None
  | _ => None
  end.

Definition AuthnMiddleware (Validate : string → error + MapClaims) : Middleware := λ next r,
  let authHeader := Header_Get r "Authorization" in
  if String.eqb authHeader "" then mret (writeError StatusUnauthorized "missing Authorization header") else
  match bearer_token authHeader with
  | None => mret (writeError StatusUnauthorized "invalid Authorization header format")
  | Some token =>
      match Validate token with
      | inl _ => mret (writeError StatusUnauthorized "invalid or expired JWT")
      | inr claims =>
          let roles := extractRolesFromClaims claims in
          let username := default "" (as_string (member "preferred_username" claims)) in
          let orgUUIDs := extractOrgUUIDs roles in
          orgNames ← resolve_names orgUUIDs;
          next (with_auth (mkAuthContext username roles orgUUIDs orgNames) r)
      end
  end.

(** ** The org scope of a request (api.go) *)

Definition resolveOrgNames (r : Request) : option (list string) :=
  let orgParam := Query_Get r "org" in
  if negb (String.eqb orgParam "") then
    match r_auth r with
    | Some ac =>
        if hasRole (Roles ac) "admin" then Some [orgParam]
        else if mem_string orgParam (OrgNames ac) then Some [orgParam]
        else Some []
    | None => Some [orgParam]
    end
  else
    match r_auth r with
    | Some ac => if (0 <? length (OrgNames ac))%nat then Some (OrgNames ac) else None
    | None => None
    end.

Definition resolveOrgNamesWithDefault (r : Request) (defaultOrg : string) : option (list string) :=
  match resolveOrgNames r with
  | Some names => Some names
  | None => if negb (String.eqb defaultOrg "") then Some [defaultOrg] else None
  end.

Definition isOrgScopeDenied (orgNames : option (list string)) : bool :=
  match orgNames with Some names => (length names =? 0)%nat | None => false end.

(** ** Deletion check *)

Definition isOrgDeleted (name : string) : M bool :=
  res ← try (sb_GetOrgIncludingDeleted name);
  mret (match res with inl _ => false | inr o => negb (is_nil (Org_DeletedAt o)) end).
Definition isProjectDeleted (name : string) (orgNames : option (list string)) : M bool :=
  res ← try (sb_GetProjectIncludingDeleted name orgNames);
  mret (match res with inl _ => false | inr (p, _) => negb (is_nil (Project_DeletedAt (project_row p))) end).

Definition marked_for_delete : Response :=
  writeError StatusBadRequest "Operation not supported. Requested resource is marked for delete.".

Definition DeletionCheckMiddleware : Middleware := λ next r,
  if String.eqb (r_method r) MethodGet then next r else
  let name := r_name r in
  if String.eqb name "" then next r else
  if isOrgEndpoint (r_path r) then
    deleted ← isOrgDeleted name;
    if (deleted : bool) then mret marked_for_delete else next r
  else if isProjectEndpoint (r_path r) then
    let orgNames := resolveOrgNames r in
    if isOrgScopeDenied orgNames then mret (writeError StatusNotFound "project not found") else
    deleted ← isProjectDeleted name orgNames;
    if (deleted : bool) then mret marked_for_delete else next r
  else next r.

(** ** Internal endpoints *)

Definition InternalAuthMiddleware (token : string) : Middleware := λ next r,
  if negb (String.eqb token "") && negb (String.eqb (Header_Get r "X-Internal-Token") token)
  then mret (writeError StatusUnauthorized "unauthorized")
  else next r.
End middleware.
