(* ===== verification/Api.v ===== *)
(** * The REST API of the tenancy manager (tenancy-manager/internal/api/api.go)

    Every handler of [Handler] with its guards in the order of the code, and
    [Router]: the table of endpoints with the chain of middlewares each group
    uses.  Matching a path against the table is chi's work: it is the parameter
    [Chi], of which [ChiLaws] says what its documentation promises. *)

From S2P Require Import Prelude GoStd Monad EntSchema Sqlgraph EntQuery EntMutation Config Store.
From S2P Require Import Backend Http Auth.

(** [Handler] of api.go.  [h_jwtValidator] is the [Validate] method, [None] when
    authentication is off. *)
Record APIHandler := mkAPIHandler {
  h_cfg : Config;
  h_jwtValidator : option (string → error + MapClaims);
  h_internalToken : string }.

Definition isAmbiguous (err : error) : bool := Contains (ToLower (Error err)) "ambiguous".

(** Answers the handlers share. *)
Definition internal_error : Response := writeError StatusInternalServerError "internal server error".
Definition org_not_found : Response := writeError StatusNotFound "org not found".
Definition project_not_found : Response := writeError StatusNotFound "project not found".
Definition invalid_body : Response := writeError StatusBadRequest "invalid request body".
Definition ambiguous_project : Response := writeError StatusConflict "ambiguous project: specify ?org=name".
Definition ok_empty : Response := mkResponse StatusOK NoBody.

Section handlers.
Context `{UUIDLib} `{StoreBackend} (h : APIHandler).

(** [h.store.DeriveStatus] with the controllers registered for the type, and
    the answer built from it. *)
Definition org_response (o : Org) (isDeleted : bool) : M OrgResponse :=
  s ← sb_DeriveStatus "org" (Org_ID o) isDeleted (ControllersForResource (h_cfg h) "org");
  mret (toOrgResponse o s.1 s.2).
Definition project_response (p : Project) (orgName : string) (isDeleted : bool) : M ProjectResponse :=
  s ← sb_DeriveStatus "project" (Project_ID p) isDeleted (ControllersForResource (h_cfg h) "project");
  mret (toProjectResponse p orgName s.1 s.2).
(** [if o != nil { orgName = o.Name }] *)
Definition org_name_or_empty (o : option Org) : string := default "" (Org_Name <$> o).
Definition update_if_exists (r : Request) : bool :=
  negb (String.eqb (Query_Get r "update_if_exists") "false").

(** *** Orgs *)

Fixpoint org_responses (orgs : list Org) : M (list OrgResponse) :=
  match orgs with
  | [] => mret []
  | o :: orgs => x ← org_response o false; xs ← org_responses orgs; mret (x :: xs)
  end.
Definition API_ListOrgs : Handler := λ r,
  res ← try sb_ListOrgs;
  match res with
  | inl _ => mret internal_error
  | inr orgs => result ← org_responses orgs; mret (writeJSON StatusOK (OrgsBody result))
  end.

Definition API_GetOrg : Handler := λ r,
  res ← try (sb_GetOrg (r_name r));
  match res with
  | inl err => mret (if IsNotFound err then org_not_found else internal_error)
  | inr o => x ← org_response o false; mret (writeJSON StatusOK (OrgBody x))
  end.

Definition API_CreateOrUpdateOrg : Handler := λ r,
  let name := r_name r in
  match decodeBody (r_body r) decode_description with
  | None => mret invalid_body
  | Some description =>
      existing ← try (sb_GetOrg name);
      match existing with
      | inr _ =>
          if negb (update_if_exists r) then mret (writeError StatusConflict "org already exists") else
          updated ← try (sb_UpdateOrg name description);
          match updated with
          | inl _ => mret internal_error
          | inr updated => x ← org_response updated false; mret (writeJSON StatusOK (OrgBody x))
          end
      | inl err =>
          if negb (IsNotFound err) then mret internal_error else
          created ← try (sb_CreateOrg name description);
          match created with
          | inl err => mret (if IsConstraintError err then writeError StatusConflict "org already exists"
                             else internal_error)
          | inr o => x ← org_response o false; mret (writeJSON StatusOK (OrgBody x))
          end
      end
  end.

Definition API_DeleteOrg : Handler := λ r,
  res ← try (sb_DeleteOrg (r_name r));
  mret (match res with
        | inl err => if IsNotFound err then org_not_found else internal_error
        | inr _ => ok_empty
        end).

Definition API_GetOrgStatus : Handler := λ r,
  res ← try (sb_GetOrgIncludingDeleted (r_name r));
  match res with
  | inl err => mret (if IsNotFound err then org_not_found else internal_error)
  | inr o => x ← org_response o (negb (is_nil (Org_DeletedAt o))); mret (writeJSON StatusOK (OrgBody x))
  end.

(** *** Projects *)

Fixpoint project_responses (projects : list ProjectNode) : M (list ProjectResponse) :=
  match projects with
  | [] => mret []
  | p :: projects =>
      x ← project_response (project_row p) (org_name_or_empty (Project_org p)) false;
      xs ← project_responses projects;
      mret (x :: xs)
  end.
Definition API_ListProjects : Handler := λ r,
  let orgNames := resolveOrgNames r in
  if isOrgScopeDenied orgNames then mret (writeJSON StatusOK (ProjectsBody [])) else
  res ← try (sb_ListProjects orgNames);
  match res with
  | inl _ => mret internal_error
  | inr projects => result ← project_responses projects; mret (writeJSON StatusOK (ProjectsBody result))
  end.

(** The answer to a failed project lookup. *)
Definition lookup_failed (err : error) : Response :=
  if IsNotFound err then project_not_found
  else if isAmbiguous err then ambiguous_project
  else internal_error.

Definition API_GetProject : Handler := λ r,
  let orgNames := resolveOrgNames r in
  if isOrgScopeDenied orgNames then mret project_not_found else
  res ← try (sb_GetProject (r_name r) orgNames);
  match res with
  | inl err => mret (lookup_failed err)
  | inr (p, o) => x ← project_response (project_row p) (org_name_or_empty o) false;
                  mret (writeJSON StatusOK (ProjectBody x))
  end.

Definition API_CreateOrUpdateProject : Handler := λ r,
  let name := r_name r in
  let orgNames := resolveOrgNamesWithDefault r (DefaultOrgName (h_cfg h)) in
  if isOrgScopeDenied orgNames then mret project_not_found else
  match decodeBody (r_body r) decode_description with
  | None => mret invalid_body
  | Some description =>
      existing ← try (sb_GetProject name orgNames);
      match existing with
      | inr _ =>
          if negb (update_if_exists r) then mret (writeError StatusConflict "project already exists") else
          updated ← try (sb_UpdateProject name orgNames description);
          match updated with
          | inl _ => mret internal_error
          | inr (updated, updatedOrg) =>
              x ← project_response (project_row updated) (org_name_or_empty updatedOrg) false;
              mret (writeJSON StatusOK (ProjectBody x))
          end
      | inl err =>
          if negb (IsNotFound err) then
            mret (if isAmbiguous err then writeError StatusConflict (Error err) else internal_error)
          else
          match orgNames with
          | None | Some [] =>
              mret (writeError StatusBadRequest "org must be specified for project creation (use ?org=name)")
          | Some (_ :: _ :: _) =>
              mret (writeError StatusConflict "ambiguous org context: specify ?org=name")
          | Some [orgName] =>
              created ← try (sb_CreateProject orgName name description);
              match created with
              | inl err => mret (if IsConstraintError err
                                 then writeError StatusConflict "project already exists"
                                 else internal_error)
              | inr (p, createdOrg) =>
                  x ← project_response (project_row p) (org_name_or_empty (Some createdOrg)) false;
                  mret (writeJSON StatusOK (ProjectBody x))
              end
          end
      end
  end.

Definition API_DeleteProject : Handler := λ r,
  let orgNames := resolveOrgNamesWithDefault r (DefaultOrgName (h_cfg h)) in
  if isOrgScopeDenied orgNames then mret project_not_found else
  res ← try (sb_DeleteProject (r_name r) orgNames);
  mret (match res with
        | inl err => lookup_failed err
        | inr _ => ok_empty
        end).

Definition API_GetProjectStatus : Handler := λ r,
  let orgNames := resolveOrgNames r in
  if isOrgScopeDenied orgNames then mret project_not_found else
  res ← try (sb_GetProjectIncludingDeleted (r_name r) orgNames);
  match res with
  | inl err => mret (lookup_failed err)
  | inr (p, o) =>
      x ← project_response (project_row p) (org_name_or_empty o)
            (negb (is_nil (Project_DeletedAt (project_row p))));
      mret (writeJSON StatusOK (ProjectBody x))
  end.

Definition API_GetProjectByID : Handler := λ r,
  match uuid_Parse (r_id r) with
  | None => mret (writeError StatusBadRequest "invalid project id")
  | Some id =>
      res ← try (sb_GetProjectByID id);
      match res with
      | inl err => mret (if IsNotFound err then project_not_found else internal_error)
      | inr (p, o) => x ← project_response (project_row p) (org_name_or_empty o) false;
                      mret (writeJSON StatusOK (ProjectBody x))
      end
  end.

(** *** Events *)

Fixpoint replay_responses (events : list ReplayEvent) : M (list EventResponse) :=
  match events with
  | [] => mret []
  | e :: events =>
      now ← sb_Now;
      es ← replay_responses events;
      mret (mkEventResponse 0 (re_EventType e) (re_ResourceType e) (re_ResourceID e) (re_ResourceName e)
              (re_OrgID e) (re_OrgName e) (re_FolderID e) now :: es)
  end.
Definition event_response (e : TenancyEvent) : EventResponse :=
  mkEventResponse (TenancyEvent_ID e) (TenancyEvent_EventType e) (TenancyEvent_ResourceType e)
    (TenancyEvent_ResourceID e) (TenancyEvent_ResourceName e) (TenancyEvent_OrgID e)
    (TenancyEvent_OrgName e) (TenancyEvent_FolderID e) (TenancyEvent_CreatedAt e).
(** The loop that fills the page and moves [LastEventID]. *)
Definition events_page (afterID : Z) (events : list TenancyEvent) : EventsResponse :=
  foldl (λ resp e, mkEventsResponse (es_Events resp ++ [event_response e]) (TenancyEvent_ID e))
    (mkEventsResponse [] afterID) events.

(** [?after=] and [?limit=]: [None] is the 400 answer. *)
Definition parse_after (s : string) : option Z :=
  if String.eqb s "" then Some 0%Z else
  match ParseInt64 s with
  | Some n => if (n <? 0)%Z then None else Some n
  | None => None
  end.
Definition parse_limit (s : string) : option Z :=
  if String.eqb s "" then Some 100%Z else
  match ParseInt64 s with
  | Some n => if (n <=? 0)%Z || (1000 <? n)%Z then None else Some n
  | None => None
  end.

Definition API_GetEvents : Handler := λ r,
  if String.eqb (Query_Get r "controller") ""
  then mret (writeError StatusBadRequest "controller query parameter required") else
  if String.eqb (Query_Get r "replay") "true" then
    res ← try sb_SynthesizeReplayEvents;
    match res with
    | inl _ => mret internal_error
    | inr (events, maxID) =>
        es ← replay_responses events;
        mret (writeJSON StatusOK (EventsBody (mkEventsResponse es maxID)))
    end
  else
  match parse_after (Query_Get r "after") with
  | None => mret (writeError StatusBadRequest "invalid after parameter: must be a non-negative integer")
  | Some afterID =>
      match parse_limit (Query_Get r "limit") with
      | None => mret (writeError StatusBadRequest "invalid limit parameter: must be between 1 and 1000")
      | Some limit =>
          res ← try (sb_GetEventsAfter afterID limit);
          mret (match res with
                | inl _ => internal_error
                | inr events => writeJSON StatusOK (EventsBody (events_page afterID events))
                end)
      end
  end.

(** *** Controller statuses *)

Definition API_UpdateControllerStatus : Handler := λ r,
  match decodeBody (r_body r) decode_status_update with
  | None => mret invalid_body
  | Some b =>
      if String.eqb (su_Controller b) "" || String.eqb (su_ResourceType b) "" ||
         bool_decide (su_ResourceID b = uuid_Nil) || String.eqb (su_Status b) ""
      then mret (writeError StatusBadRequest "controller, resourceType, resourceId, and status are required")
      else
      res ← try (sb_UpsertControllerStatus (su_Controller b) (su_ResourceType b) (su_ResourceID b)
                   (su_Status b) (su_Message b));
      mret (match res with inl _ => internal_error | inr _ => ok_empty end)
  end.

Definition API_DeleteControllerStatus : Handler := λ r,
  match decodeBody (r_body r) decode_status_delete with
  | None => mret invalid_body
  | Some b =>
      if String.eqb (sx_Controller b) "" || String.eqb (sx_ResourceType b) "" ||
         bool_decide (sx_ResourceID b = uuid_Nil)
      then mret (writeError StatusBadRequest "controller, resourceType, and resourceId are required")
      else
      res ← try (sb_DeleteControllerStatus (sx_Controller b) (sx_ResourceType b) (sx_ResourceID b));
      mret (match res with inl _ => internal_error | inr _ => ok_empty end)
  end.
End handlers.

(** ** Router *)

(** The endpoints [Router] registers. *)
Inductive Endpoint :=
  | EpListOrgs | EpGetOrg | EpPutOrg | EpDeleteOrg | EpGetOrgStatus
  | EpListProjects | EpGetProject | EpPutProject | EpDeleteProject | EpGetProjectStatus
  | EpGetEvents | EpPutStatus | EpDeleteStatus | EpGetProjectByID
  | EpHealthz.
#[export] Instance Endpoint_eq_dec : EqDecision Endpoint.
Proof. solve_decision. Defined.

Inductive Group := External | Internal | Health.
Definition endpoint_group (e : Endpoint) : Group :=
  match e with
  | EpGetEvents | EpPutStatus | EpDeleteStatus | EpGetProjectByID => Internal
  | EpHealthz => Health
  | _ => External
  end.

Definition endpoint_method (e : Endpoint) : string :=
  match e with
  | EpPutOrg | EpPutProject | EpPutStatus => MethodPut
  | EpDeleteOrg | EpDeleteProject | EpDeleteStatus => MethodDelete
  | _ => MethodGet
  end.

(** The pattern of the route, the parameters filled in. *)
Definition endpoint_path (e : Endpoint) (name id : string) : string :=
  match e with
  | EpListOrgs => "/v1/orgs"
  | EpGetOrg | EpPutOrg | EpDeleteOrg => "/v1/orgs/" +:+ name
  | EpGetOrgStatus => "/v1/orgs/" +:+ name +:+ "/status"
  | EpListProjects => "/v1/projects"
  | EpGetProject | EpPutProject | EpDeleteProject => "/v1/projects/" +:+ name
  | EpGetProjectStatus => "/v1/projects/" +:+ name +:+ "/status"
  | EpGetEvents => "/v1/events"
  | EpPutStatus | EpDeleteStatus => "/v1/status"
  | EpGetProjectByID => "/v1/internal/projects/" +:+ id
  | EpHealthz => "/healthz"
  end.
(** the endpoints whose pattern has [{name}], [{id}] *)
Definition has_name (e : Endpoint) : bool :=
  match e with
  | EpGetOrg | EpPutOrg | EpDeleteOrg | EpGetOrgStatus
  | EpGetProject | EpPutProject | EpDeleteProject | EpGetProjectStatus => true
  | _ => false
  end.

Inductive RouteMatch :=
  | RouteFound (e : Endpoint) (name id : string)
  | RouteNotFound
  | RouteMethodNotAllowed.

(** chi's matching of a method and a path against the registered patterns. *)
Class Chi := find_route : string → string → RouteMatch.
(** A match has the method of its route and is an instance of its pattern; a
    route without a parameter sets none. *)
Class ChiLaws `{Chi} : Prop := {
  route_found : ∀ m p e name id, find_route m p = RouteFound e name id →
    m = endpoint_method e ∧ p = endpoint_path e name id;
  route_no_name : ∀ m p e name id, find_route m p = RouteFound e name id →
    has_name e = false → name = "" }.

Section router.
Context `{UUIDLib} `{StoreBackend} `{Chi} (h : APIHandler).

Definition endpoint_handler (e : Endpoint) : Handler :=
  match e with
  | EpListOrgs => API_ListOrgs h
  | EpGetOrg => API_GetOrg h
  | EpPutOrg => API_CreateOrUpdateOrg h
  | EpDeleteOrg => API_DeleteOrg
  | EpGetOrgStatus => API_GetOrgStatus h
  | EpListProjects => API_ListProjects h
  | EpGetProject => API_GetProject h
  | EpPutProject => API_CreateOrUpdateProject h
  | EpDeleteProject => API_DeleteProject h
  | EpGetProjectStatus => API_GetProjectStatus h
  | EpGetEvents => API_GetEvents
  | EpPutStatus => API_UpdateControllerStatus
  | EpDeleteStatus => API_DeleteControllerStatus
  | EpGetProjectByID => API_GetProjectByID h
  | EpHealthz => λ _, mret ok_empty
  end.

(** The middlewares of the external group. *)
Definition external_chain (next : Handler) : Handler :=
  match h_jwtValidator h with
  | Some Validate => AuthnMiddleware Validate (AuthzMiddleware (DeletionCheckMiddleware next))
  | None => DeletionCheckMiddleware next
  end.

Definition serve (e : Endpoint) : Handler :=
  match endpoint_group e with
  | External => external_chain (endpoint_handler e)
  | Internal => InternalAuthMiddleware (h_internalToken h) (endpoint_handler e)
  | Health => endpoint_handler e
  end.

Definition Router : Handler := λ r,
  match find_route (r_method r) (r_path r) with
  | RouteFound e name id => serve e (with_params name id r)
  | RouteNotFound => mret (mkResponse StatusNotFound NoBody)
  | RouteMethodNotAllowed => mret (mkResponse StatusMethodNotAllowed NoBody)
  end.
End router.
