(* ===== verification/ApiGuard.v ===== *)
(** * Who may call what

    The chains of middlewares of [Router], endpoint by endpoint: an external
    request without a valid token is answered 401 and one without the role of its
    endpoint 403, before any handler runs; an internal one needs the shared token. *)

From S2P Require Import Prelude GoStd Monad EntSchema Sqlgraph EntQuery EntMutation Config Store.
From S2P Require Import Backend Http Auth Api Logic AuthSpec.

(** The role each external endpoint requires of a caller who is not [admin]. *)
Definition verb_of (e : Endpoint) : string :=
  match e with
  | EpPutOrg | EpPutProject => "write"
  | EpDeleteOrg | EpDeleteProject => "delete"
  | _ => "read"
  end.
Definition is_org_route (e : Endpoint) : bool :=
  match e with EpListOrgs | EpGetOrg | EpPutOrg | EpDeleteOrg | EpGetOrgStatus => true | _ => false end.

Section guard.
Context `{UUIDLib} `{StoreBackend} `{Chi} `{!UUIDLaws} `{!ChiLaws} (h : APIHandler).

Definition permitted (e : Endpoint) (roles : list string) : Prop :=
  "admin" ∈ roles ∨
  if is_org_route e then "org-" +:+ verb_of e +:+ "-role" ∈ roles
  else project_role_held roles (verb_of e) ∨ (endpoint_method e = MethodGet ∧ member_role roles).

Lemma authorized_permitted e name id user roles names : endpoint_group e = External →
  authorized (mkAuthContext user roles (extractOrgUUIDs roles) names)
    (endpoint_path e name id) (endpoint_method e) = true ↔ permitted e roles.
Proof.
  intros He. unfold authorized, permitted. simpl. rewrite <- hasRole_elem.
  destruct (hasRole roles "admin"); [by split; [left|]|].
  destruct (is_org_route e) eqn:Ho.
  - assert (isOrgEndpoint (endpoint_path e name id) = true) as -> by (by destruct e).
    trans ("org-" +:+ verb_of e +:+ "-role" ∈ roles); [|naive_solver].
    rewrite <- hasRole_elem. by destruct e.
  - assert (isOrgEndpoint (endpoint_path e name id) = false ∧
            isProjectEndpoint (endpoint_path e name id) = true) as [-> ->] by (by destruct e).
    rewrite checkProjectAuthz_ok. split.
    + intros [(verb & Hm & Hr)|[Hm Hr]]; [|by auto]. right. left. set_unfold in Hm.
      destruct e; try done; naive_solver.
    + intros [?|[Hr|?]]; [done| |by right]. left. exists (verb_of e). split; [|done].
      destruct e; try done; set_solver.
Qed.

(** the claims of a request with a well-formed header and a valid token *)
Definition request_claims (Validate : string → error + MapClaims) (r : Request) : option MapClaims :=
  token ← bearer_token (Header_Get r "Authorization");
  match Validate token with inl _ => None | inr claims => Some claims end.

Definition auth_context (claims : MapClaims) (names : list string) : AuthContext :=
  let roles := extractRolesFromClaims claims in
  mkAuthContext (default "" (as_string (member "preferred_username" claims))) roles
    (extractOrgUUIDs roles) names.

Lemma Router_guard Validate e name id r w :
  h_jwtValidator h = Some Validate →
  find_route (r_method r) (r_path r) = RouteFound e name id → endpoint_group e = External →
  match request_claims Validate r with
  | None => ∃ msg, Router h r w = (inr (writeError StatusUnauthorized msg), w)
  | Some claims =>
      let roles := extractRolesFromClaims claims in
      ∃ names w', resolve_names (extractOrgUUIDs roles) w = (inr names, w') ∧
        ((permitted e roles ∧ Router h r w =
           DeletionCheckMiddleware (endpoint_handler h e)
             (with_auth (auth_context claims names) (with_params name id r)) w') ∨
         (¬ permitted e roles ∧
           Router h r w = (inr (writeError StatusForbidden "insufficient permissions"), w')))
  end.
Proof.
  intros Hv Hf He. pose proof (route_found _ _ _ _ _ Hf) as [Hm Hp].
  unfold Router, serve, external_chain. rewrite Hf, He, Hv. unfold AuthnMiddleware, request_claims.
  change (Header_Get (with_params name id r) "Authorization") with (Header_Get r "Authorization").
  destruct (String.eqb_spec (Header_Get r "Authorization") "") as [->|_]; [by eexists|].
  destruct (bearer_token _) as [token|]; simpl; [|by eexists].
  destruct (Validate token) as [err|claims]; [by eexists|]. cbv zeta.
  set (roles := extractRolesFromClaims claims).
  assert (∃ names w', resolve_names (extractOrgUUIDs roles) w = (inr names, w')) as (names & w' & Hn).
  { unfold resolve_names. destruct (0 <? _)%nat; [|by eexists _, _].
    unfold mbind, EM_bind, try, mret, EM_ret. destruct (sb_GetOrgNamesByUUIDs _ w) as [[] ?]; by eexists _, _. }
  exists names, w'. split; [done|]. unfold mbind, EM_bind. rewrite Hn.
  unfold AuthzMiddleware. simpl. rewrite Hm, Hp.
  pose proof (authorized_permitted e name id (default "" (as_string (member "preferred_username" claims)))
    roles names He) as Ha.
  destruct (authorized _ _ _); simpl; [left|right]; (split; [|done]).
  - by apply Ha.
  - intros ?%Ha. done.
Qed.

(** C8: with authentication on, every external request without a well-formed
    bearer header or a token the validator accepts is answered 401 and touches
    nothing; one whose roles do not permit its endpoint is answered 403 after the
    lookup of its org names, nothing more; otherwise the request goes on to the
    deletion check and its handler, with the context of its own token. *)
Theorem Router_external_guard Validate e name id r w :
  h_jwtValidator h = Some Validate →
  find_route (r_method r) (r_path r) = RouteFound e name id → endpoint_group e = External →
  match request_claims Validate r with
  | None => ∃ msg, Router h r w = (inr (writeError StatusUnauthorized msg), w)
  | Some claims =>
      let roles := extractRolesFromClaims claims in
      ∃ names w', resolve_names (extractOrgUUIDs roles) w = (inr names, w') ∧
        ((permitted e roles ∧ Router h r w =
           DeletionCheckMiddleware (endpoint_handler h e)
             (with_auth (auth_context claims names) (with_params name id r)) w') ∨
         (¬ permitted e roles ∧
           Router h r w = (inr (writeError StatusForbidden "insufficient permissions"), w')))
  end.
Proof. apply Router_guard. Qed.

(** an internal request is answered 401, touching nothing, unless the shared
    token is empty or the request carries it; then its handler runs. *)
Theorem Router_internal_guard e name id r w :
  find_route (r_method r) (r_path r) = RouteFound e name id → endpoint_group e = Internal →
  Router h r w =
    if decide (h_internalToken h = "" ∨ Header_Get r "X-Internal-Token" = h_internalToken h)
    then endpoint_handler h e (with_params name id r) w
    else (inr (writeError StatusUnauthorized "unauthorized"), w).
Proof.
  intros Hf He. unfold Router, serve, InternalAuthMiddleware. rewrite Hf, He.
  change (Header_Get (with_params name id r) "X-Internal-Token") with (Header_Get r "X-Internal-Token").
  destruct (String.eqb_spec (h_internalToken h) ""), (String.eqb_spec (Header_Get r "X-Internal-Token") (h_internalToken h));
    simpl; destruct (decide _) as [Hd|Hd]; try done; naive_solver.
Qed.
End guard.
