(* ===== verification/ApiAnswers.v ===== *)
(** * Every request is answered, with a public message

    Whatever the store does, [Router] answers every request, with a status and a
    message of a fixed table: no internal error text reaches a client, the one
    exception being the store's own report of an ambiguous name. *)

From S2P Require Import Prelude GoStd Monad EntSchema Sqlgraph EntQuery EntMutation Config Store.
From S2P Require Import Backend Http Auth Api Logic.

(** The two calls of the interface that report no error never fail. *)
Class StoreBackendTotal `{StoreBackend} : Prop := {
  DeriveStatus_total : ∀ rt id d cs w, ∃ s w', sb_DeriveStatus rt id d cs w = (inr s, w');
  Now_total : ∀ w, ∃ n w', sb_Now w = (inr n, w') }.

#[export] Instance Store_backend_total `{Driver} `{Runtime} `{UUIDLib} `{FieldValidators} :
  StoreBackendTotal (H := Store_backend).
Proof.
  split; intros; simpl; [|by eexists _, _].
  unfold DeriveStatus, mbind, EM_bind, try. destruct (GetControllerStatuses rt id w) as [[] ?]; by eexists _, _.
Qed.

Definition public_errors : list (Z * string) :=
  [(StatusBadRequest, "invalid request body");
   (StatusBadRequest, "invalid project id");
   (StatusBadRequest, "Operation not supported. Requested resource is marked for delete.");
   (StatusBadRequest, "org must be specified for project creation (use ?org=name)");
   (StatusBadRequest, "controller query parameter required");
   (StatusBadRequest, "invalid after parameter: must be a non-negative integer");
   (StatusBadRequest, "invalid limit parameter: must be between 1 and 1000");
   (StatusBadRequest, "controller, resourceType, resourceId, and status are required");
   (StatusBadRequest, "controller, resourceType, and resourceId are required");
   (StatusUnauthorized, "missing Authorization header");
   (StatusUnauthorized, "invalid Authorization header format");
   (StatusUnauthorized, "invalid or expired JWT");
   (StatusUnauthorized, "no auth context");
   (StatusUnauthorized, "unauthorized");
   (StatusForbidden, "insufficient permissions");
   (StatusNotFound, "org not found");
   (StatusNotFound, "project not found");
   (StatusConflict, "org already exists");
   (StatusConflict, "project already exists");
   (StatusConflict, "ambiguous project: specify ?org=name");
   (StatusConflict, "ambiguous org context: specify ?org=name");
   (StatusInternalServerError, "internal server error")].

Definition public_answer (resp : Response) : Prop :=
  match payload resp with
  | ErrorBody msg => (StatusCode resp, msg) ∈ public_errors ∨
                     (StatusCode resp = StatusConflict ∧ Contains (ToLower msg) "ambiguous" = true)
  | NoBody => StatusCode resp ∈ [StatusOK; StatusNotFound; StatusMethodNotAllowed]
  | _ => StatusCode resp = StatusOK
  end.

(** [answers m]: [m] reports no error and its answer is public. *)
Definition answers (m : M Response) : Prop := ∀ w, wp m (λ r _, ∃ resp, r = inr resp ∧ public_answer resp) w.
Definition total {A} (m : M A) : Prop := ∀ w, wp m (λ r _, ∃ a, r = inr a) w.

Section answers.
Lemma answers_ret resp : public_answer resp → answers (mret resp).
Proof. intros ? w. apply wp_ret. eauto. Qed.
Lemma answers_bind {A} (m : M A) k : total m → (∀ a, answers (k a)) → answers (m ≫= k).
Proof.
  intros Hm Hk w. apply wp_bind. eapply wp_mono; [apply Hm|]. intros r w' [a ->]. apply Hk.
Qed.
Lemma total_try {A} (m : M A) : total (try m).
Proof. intros w. apply wp_try. eapply wp_mono; [apply wp_self|]. eauto. Qed.
Lemma total_ret {A} (a : A) : total (mret a).
Proof. intros w. apply wp_ret. eauto. Qed.
Lemma total_bind {A B} (m : M A) (k : A → M B) : total m → (∀ a, total (k a)) → total (m ≫= k).
Proof.
  intros Hm Hk w. apply wp_bind. eapply wp_mono; [apply Hm|]. intros r w' [a ->]. apply Hk.
Qed.
Lemma answers_if (b : bool) m m' : answers m → answers m' → answers (if b then m else m').
Proof. by destruct b. Qed.

Context `{UUIDLib} `{StoreBackend} `{!StoreBackendTotal} (h : APIHandler).

Lemma total_derive rt id d cs : total (sb_DeriveStatus rt id d cs).
Proof. intros w. destruct (DeriveStatus_total rt id d cs w) as (s & w' & Hs). apply (wp_run _ _ _ _ _ Hs). eauto. Qed.
Lemma total_now : total sb_Now.
Proof. intros w. destruct (Now_total w) as (s & w' & Hs). apply (wp_run _ _ _ _ _ Hs). eauto. Qed.
Lemma total_org o d : total (org_response h o d).
Proof. apply total_bind; [apply total_derive|]. intros. apply total_ret. Qed.
Lemma total_project p o d : total (project_response h p o d).
Proof. apply total_bind; [apply total_derive|]. intros. apply total_ret. Qed.
Lemma total_orgs os : total (org_responses h os).
Proof.
  induction os as [|o os IH]; [apply total_ret|]. apply total_bind; [apply total_org|]. intros x.
  apply total_bind; [done|]. intros. apply total_ret.
Qed.
Lemma total_projects ps : total (project_responses h ps).
Proof.
  induction ps as [|p ps IH]; [apply total_ret|]. apply total_bind; [apply total_project|]. intros x.
  apply total_bind; [done|]. intros. apply total_ret.
Qed.
Lemma total_replay es : total (replay_responses es).
Proof.
  induction es as [|e es IH]; [apply total_ret|]. apply total_bind; [apply total_now|]. intros x.
  apply total_bind; [done|]. intros. apply total_ret.
Qed.
Lemma total_resolve ids : total (resolve_names ids).
Proof.
  unfold resolve_names. destruct (0 <? _)%nat; [|apply total_ret].
  apply total_bind; [apply total_try|]. intros. apply total_ret.
Qed.
Lemma total_org_deleted name : total (isOrgDeleted name).
Proof. apply total_bind; [apply total_try|]. intros. apply total_ret. Qed.
Lemma total_project_deleted name ns : total (isProjectDeleted name ns).
Proof. apply total_bind; [apply total_try|]. intros. apply total_ret. Qed.
End answers.

(** [answers]: split the body of a handler at its calls and its guards. *)
Ltac public :=
  solve [ by right; split
        | left; cbv; repeat (first [left; reflexivity | right])
        | cbv; repeat (first [left; reflexivity | right])
        | reflexivity ].
Ltac answers_step :=
  match goal with
  | |- answers (mret (if ?b then _ else _)) => destruct b eqn:?
  | |- answers (mret (match ?x with _ => _ end)) => destruct x
  | |- answers (mret _) => apply answers_ret
  | |- answers (if _ then _ else _) => apply answers_if
  | |- answers (match ?x with _ => _ end) => destruct x
  | |- answers (_ ≫= _) => apply answers_bind; [|intros ?]
  | |- total (try _) => apply total_try
  | |- total _ => first [ apply total_org | apply total_project | apply total_orgs | apply total_projects
                        | apply total_replay | apply total_resolve | apply total_org_deleted
                        | apply total_project_deleted ]
  | |- public_answer (if ?b then _ else _) => destruct b eqn:?
  | |- public_answer _ => public
  end.

Section answered.
Context `{UUIDLib} `{StoreBackend} `{Chi} `{!StoreBackendTotal} (h : APIHandler).

Lemma handler_answers e r : answers (endpoint_handler h e r).
Proof.
  destruct e; simpl;
    [unfold API_ListOrgs|unfold API_GetOrg|unfold API_CreateOrUpdateOrg|unfold API_DeleteOrg
    |unfold API_GetOrgStatus|unfold API_ListProjects|unfold API_GetProject|unfold API_CreateOrUpdateProject
    |unfold API_DeleteProject|unfold API_GetProjectStatus|unfold API_GetEvents|unfold API_UpdateControllerStatus
    |unfold API_DeleteControllerStatus|unfold API_GetProjectByID|]; cbv zeta;
    unfold lookup_failed; repeat answers_step.
Qed.

Lemma deletion_answers next r : answers (next r) → answers (DeletionCheckMiddleware next r).
Proof. intros Hn. unfold DeletionCheckMiddleware. cbv zeta. by repeat answers_step. Qed.

(** C28: whatever the store does, every request is answered; the error messages are
    those of a fixed table (a 500 always says only "internal server error"), except
    that a 409 may carry the store's own report of an ambiguous project name. *)
Theorem Router_answers r w : ∃ resp w', Router h r w = (inr resp, w') ∧ public_answer resp.
Proof.
  assert (answers (Router h r)) as Ha.
  { unfold Router. destruct (find_route _ _) as [e name id| |]; [|by repeat answers_step..].
    unfold serve, external_chain. destruct (endpoint_group e); [|unfold InternalAuthMiddleware|apply handler_answers].
    - destruct (h_jwtValidator h) as [V|]; [|apply deletion_answers, handler_answers].
      unfold AuthnMiddleware. cbv zeta. repeat answers_step.
      unfold AuthzMiddleware. repeat answers_step. apply deletion_answers, handler_answers.
    - repeat answers_step. apply handler_answers. }
  destruct (wp_out _ _ _ (Ha w)) as (r' & w' & Hr & resp & -> & Hp). eauto.
Qed.
End answered.
