(* ===== verification/ApiScope.v ===== *)
(** * Tenant isolation of the project endpoints

    What the handlers promise a caller whose token names its orgs: every project
    an answer shows and every row a request changes belongs to one of them.  The
    handlers are verified against [ScopedStore], the promise the store makes for
    one call; the store keeps it ([Store_scoped]). *)

From S2P Require Import Prelude GoStd Monad EntSchema Sqlgraph EntQuery EntMutation Config Store.
From S2P Require Import Logic EntSpec Wf EntLoad StoreOrg StoreProject StoreDelete.
From S2P Require Import Backend Http Auth Api AuthSpec ApiGuard.

(** ** What a request confined to some orgs may do *)

Definition project_org_name (db : DB) (p : Project) : option string := Org_Name <$> project_org db p.
Definition owned_by (names : list string) (o : option string) : Prop := ∃ n, o = Some n ∧ n ∈ names.

Record confined (names : list string) (db db' : DB) : Prop := mk_confined {
  cf_wf : db_wf db';
  cf_orgs : t_orgs db' = t_orgs db;
  cf_folders : t_folders db' = t_folders db;
  cf_statuses : t_statuses db' = t_statuses db;
  cf_events : ∃ evs, t_events db' = t_events db ++ evs ∧
    ∀ e, e ∈ evs → owned_by names (TenancyEvent_OrgName e);
  cf_projects : ∀ p, ¬ owned_by names (project_org_name db p) →
    p ∈ t_projects db' ↔ p ∈ t_projects db }.

Lemma confined_refl names db : db_wf db → confined names db db.
Proof.
  intros Hwf. split; try done. exists []. split; [by rewrite app_nil_r|set_solver].
Qed.

Lemma project_org_same db db' p : t_orgs db' = t_orgs db → t_folders db' = t_folders db →
  project_org db' p = project_org db p.
Proof. unfold project_org, folder_of, org_of. by intros -> ->. Qed.

Lemma project_org_folder db p p' : Project_folder_projects p = Project_folder_projects p' →
  project_org db p = project_org db p'.
Proof. unfold project_org, folder_of. by intros ->. Qed.

Lemma confined_trans names db1 db2 db3 :
  confined names db1 db2 → confined names db2 db3 → confined names db1 db3.
Proof.
  intros [W1 O1 F1 S1 (e1 & E1 & P1) R1] [W2 O2 F2 S2 (e2 & E2 & P2) R2].
  split; [done|congruence..| |].
  - exists (e1 ++ e2). rewrite E2, E1, app_assoc. split; [done|].
    intros e [?|?]%elem_of_app; auto.
  - intros p Hp. rewrite R2; [by apply R1|]. unfold project_org_name in *.
    by rewrite (project_org_same db1 db2) by done.
Qed.

(** Adding a project and an event of an org of the scope. *)
Lemma confined_insert names db p e o : db_wf (mkDB (t_orgs db) (t_folders db) (t_projects db ++ [p])
    (t_events db ++ [e]) (t_statuses db)) →
  project_org db p = Some o → Org_Name o ∈ names → TenancyEvent_OrgName e = Some (Org_Name o) →
  confined names db (mkDB (t_orgs db) (t_folders db) (t_projects db ++ [p]) (t_events db ++ [e]) (t_statuses db)).
Proof.
  intros Hwf Ho Hn He. split; try done; simpl.
  - exists [e]. split; [done|]. intros e' ->%list_elem_of_singleton. rewrite He. by eexists.
  - intros p' Hp'. rewrite elem_of_app, list_elem_of_singleton. split; [|by left].
    intros [?| ->]; [done|]. destruct Hp'. unfold project_org_name. rewrite Ho. by eexists.
Qed.

(** Changing one project of the scope, its key and folder kept. *)
Lemma confined_update names db p f o evs :
  db_wf (mkDB (t_orgs db) (t_folders db) (update_rows (λ x, bool_decide (x = p)) f (t_projects db))
    (t_events db ++ evs) (t_statuses db)) →
  (∀ x, Project_folder_projects (f x) = Project_folder_projects x) →
  project_org db p = Some o → Org_Name o ∈ names →
  (∀ e, e ∈ evs → TenancyEvent_OrgName e = Some (Org_Name o)) →
  confined names db (mkDB (t_orgs db) (t_folders db)
    (update_rows (λ x, bool_decide (x = p)) f (t_projects db)) (t_events db ++ evs) (t_statuses db)).
Proof.
  intros Hwf Hf Ho Hn He. split; try done; simpl.
  - exists evs. split; [done|]. intros e' He'. rewrite (He _ He'). by eexists.
  - intros p' Hp'. rewrite elem_of_update_rows. split.
    + intros (x & Hx & Hpx). case_bool_decide as Hd; [|by subst]. subst x p'. destruct Hp'.
      unfold project_org_name. rewrite (project_org_folder db (f p) p), Ho by done. by eexists.
    + intros Hin. exists p'. split; [done|]. rewrite bool_decide_eq_false_2; [done|]. intros ->.
      destruct Hp'. unfold project_org_name. rewrite Ho. by eexists.
Qed.

(** ** The store's promise *)

(** A call in scope [names]: it keeps to the scope, and its answer satisfies [P]. *)
Definition scoped_call `{StoreBackend} {A} (names : list string) (P : A → Prop) (m : M A) : Prop :=
  ∀ db t, db_wf db → wp m (λ r w', w_tx w' = None ∧ confined names db (w_db w') ∧
    match r with inr a => P a | inl _ => True end) (mkWorld db None t).

Class ScopedStore `{StoreBackend} : Prop := {
  scope_GetOrgNames : ∀ ids db t, db_wf db →
    wp (sb_GetOrgNamesByUUIDs ids) (λ r w', w_db w' = db ∧ w_tx w' = None ∧
      match r with
      | inr m => ∀ u n, m !! u = Some n → u ∈ ids ∧
          ∃ o, o ∈ t_orgs db ∧ Org_ID o = u ∧ Org_Name o = n ∧ Org_DeletedAt o = None
      | inl _ => True
      end) (mkWorld db None t);
  scope_GetProject : ∀ names name ns, ns ⊆ names → scoped_call names
    (λ r : ProjectNode * option Org, owned_by names (Org_Name <$> r.2)) (sb_GetProject name (Some ns));
  scope_GetProjectIncludingDeleted : ∀ names name ns, ns ⊆ names → scoped_call names
    (λ r : ProjectNode * option Org, owned_by names (Org_Name <$> r.2)) (sb_GetProjectIncludingDeleted name (Some ns));
  scope_ListProjects : ∀ names ns, ns ⊆ names → scoped_call names
    (λ ps : list ProjectNode, ∀ p, p ∈ ps → owned_by names (Org_Name <$> Project_org p)) (sb_ListProjects (Some ns));
  scope_UpdateProject : ∀ names name ns d, ns ⊆ names → scoped_call names
    (λ r : ProjectNode * option Org, owned_by names (Org_Name <$> r.2)) (sb_UpdateProject name (Some ns) d);
  scope_DeleteProject : ∀ names name ns, ns ⊆ names → scoped_call names
    (λ _, True) (sb_DeleteProject name (Some ns));
  scope_CreateProject : ∀ names org name d, org ∈ names → scoped_call names
    (λ r : ProjectNode * Org, Org_Name r.2 ∈ names) (sb_CreateProject org name d);
  scope_DeriveStatus : ∀ names rt id del cs, scoped_call names (λ _, True) (sb_DeriveStatus rt id del cs) }.

Section store.
Context `{Driver} `{Runtime} `{FieldValidators} `{UUIDLib}.
Context `{!DriverLaws} `{!Quiet} `{!FieldValidatorsLaws}.

Lemma in_scope_owned active names ns db p : ns ⊆ names → in_scope active (Some ns) db p →
  ∃ o, project_org db p = Some o ∧ Org_Name o ∈ names.
Proof. intros Hns (o & Ho & Hn & _). exists o. auto. Qed.

(** A read answers from the database it leaves as it is. *)
Lemma scoped_read {A} names (P : A → Prop) (m : M A) :
  (∀ db t, db_wf db → wp m (λ r w', w_db w' = db ∧ w_tx w' = None ∧
     match r with inr a => P a | inl _ => True end) (mkWorld db None t)) →
  scoped_call names P m.
Proof.
  intros Hm db t Hwf. eapply wp_mono; [by apply Hm|]. intros r w' (-> & ? & ?).
  split_and!; [done|by apply confined_refl|done].
Qed.

Lemma GetProjectIncludingDeleted_ok name orgNames db tx t : db_wf (viewof db tx) →
  wp (GetProjectIncludingDeleted name orgNames) (λ r w', w_db w' = db ∧ w_tx w' = tx ∧
    match r with
    | inr (n, o) => ∃ p, n = attach (viewof db tx) p ∧ o = project_org (viewof db tx) p ∧
        ∀ p', p' ∈ t_projects (viewof db tx) ∧ Project_Name p' = name ∧ in_scope [] orgNames (viewof db tx) p'
              ↔ p' = p
    | inl e => lookup_error (λ p, p ∈ t_projects (viewof db tx) ∧ Project_Name p = name ∧
                                  in_scope [] orgNames (viewof db tx) p) name e
    end) (mkWorld db tx t).
Proof.
  intros Hwf. unfold GetProjectIncludingDeleted. destruct (no_scope orgNames) eqn:Hns.
  { wp_step. split_and!; [done..|]. constructor. intros p (_ & _ & Hs).
    destruct orgNames as [[|]|]; try done. destruct Hs as (? & _ & Hs & _). set_solver. }
  cbv zeta. wp_step.
  change (WithFolder WithOrg _) with (loaded (mkQuery [project_Name name] [] None)).
  rewrite scoped_loaded. apply wp_ProjectQuery_All; simpl; [done|set_solver|done| |].
  2: { intros. split_and!; [done..|]. constructor. }
  intros ps t' Hps%query_result_plain. wp_step. wp_step.
  assert (NoDup ps) as Hnd.
  { eapply (NoDup_fmap_1 Project_ID). rewrite Hps. apply NoDup_fmap_select, Hwf. }
  assert (∀ p, p ∈ ps ↔ p ∈ t_projects (viewof db tx) ∧ Project_Name p = name ∧
     in_scope [] orgNames (viewof db tx) p) as HV.
  { intros p. rewrite Hps. unfold matching. rewrite elem_of_select.
    rewrite holds_cons, andb_true_iff, scope_preds_holds by done.
    unfold project_Name. by rewrite String.eqb_eq. }
  pose proof (single_project_result _ name (attach (viewof db tx)) _ Hnd HV) as Hr.
  destruct (single_project _ _) as [e|n]; [done|]. destruct Hr as (p & -> & Hp).
  wp_step. split_and!; [done..|]. exists p. by rewrite Project_org_attach.
Qed.

#[export] Instance Store_scoped : ScopedStore (H := Store_backend).
Proof.
  split; simpl; intros.
  - eapply wp_mono; [by apply GetOrgNamesByUUIDs_ok|]. intros r w' (? & ? & Hr).
    split_and!; [done..|]. destruct r as [|m]; [done|]. intros u n. by apply Hr.
  - apply scoped_read. intros db t Hwf. eapply wp_mono; [by apply GetProject_ok|].
    intros r w' (? & ? & Hr). split_and!; [done..|]. destruct r as [e|[n o]]; [done|].
    destruct Hr as (p & -> & -> & Hp). destruct (proj2 (Hp p) eq_refl) as (_ & _ & _ & Hs).
    eapply in_scope_owned in Hs as (o & Ho & Hn); [|done]. simpl in *. rewrite Ho. by eexists.
  - apply scoped_read. intros db t Hwf. eapply wp_mono; [by apply GetProjectIncludingDeleted_ok|].
    intros r w' (? & ? & Hr). split_and!; [done..|]. destruct r as [e|[n o]]; [done|].
    destruct Hr as (p & -> & -> & Hp). destruct (proj2 (Hp p) eq_refl) as (_ & _ & Hs).
    eapply in_scope_owned in Hs as (o & Ho & Hn); [|done]. simpl in *. rewrite Ho. by eexists.
  - apply scoped_read. intros db t Hwf. eapply wp_mono; [by apply ListProjects_ok|].
    intros r w' (? & ? & Hr). split_and!; [done..|]. destruct r as [e|l]; [done|].
    destruct Hr as (ps & -> & _ & Hp & _). intros n (p & -> & Hin)%list_elem_of_fmap.
    apply Hp in Hin as (_ & _ & Hs). rewrite Project_org_attach.
    eapply in_scope_owned in Hs as (o & Ho & Hn); [|done]. simpl in *. rewrite Ho. by eexists.
  - intros db t Hwf. eapply wp_mono; [by apply UpdateProject_ok|].
    intros r w' (? & Hr). split; [done|]. apply (all_or_nothing_keeps _ _ _ _ _ _ _ Hr); [by apply confined_refl|].
    intros [n o] db' [(p & stamp & Hp & -> & -> & ->) Hwf']. destruct (proj2 (Hp p) eq_refl) as (_ & _ & _ & Hs).
    eapply in_scope_owned in Hs as (o & Ho & Hn); [|done]. simpl. rewrite Ho. split; [|by eexists].
    rewrite <- (app_nil_r (t_events db)) in *.
    eapply confined_update; eauto. set_solver.
  - intros db t Hwf. eapply wp_mono; [by apply DeleteProject_ok|].
    intros r w' (? & Hr). split; [done|]. apply (all_or_nothing_keeps _ _ _ _ _ _ _ Hr); [by apply confined_refl|].
    intros ? db' [(p & now & stamp & e & Hp & He & ->) Hwf'].
    destruct (proj2 (Hp p) eq_refl) as (_ & _ & _ & Hs).
    eapply in_scope_owned in Hs as (o & Ho & Hn); [|done]. split; [|done].
    eapply confined_update; eauto.
    intros e' ->%list_elem_of_singleton. destruct He as (? & ? & ->). simpl. by rewrite Ho.
  - intros db t Hwf. eapply wp_mono; [by apply CreateProject_ok|].
    intros r w' (? & Hr). split; [done|]. apply (all_or_nothing_keeps _ _ _ _ _ _ _ Hr); [by apply confined_refl|].
    intros [n o] db' [(f & p & e & Ha & Hf & -> & _ & _ & _ & Hk & _ & _ & _ & He & ->) Hwf'].
    destruct Ha as (Hin & <- & _). split; [|done]. apply (confined_insert _ _ _ _ o); [done| |done|].
    + unfold project_org. destruct Hf as (Hfin & _ & Hfo).
      rewrite (proj2 (folder_of_spec db p f Hwf)) by done. simpl.
      by apply org_of_spec.
    + by destruct He as (? & ? & ->).
  - apply scoped_read. intros db t Hwf. unfold DeriveStatus. wp_step. wp_step.
    unfold GetControllerStatuses. apply wp_All; simpl; [set_solver|done| |]; intros; wp_step; done.
Qed.
End store.

(** ** The handlers keep to the scope *)

(** The projects an answer shows. *)
Definition shown_projects (resp : Response) : list ProjectResponse :=
  match payload resp with
  | ProjectBody p => [p]
  | ProjectsBody l => l
  | _ => []
  end.
Definition shows_only (names : list string) (resp : Response) : Prop :=
  ∀ x, x ∈ shown_projects resp → pr_OrgName x ∈ names.

Section calls.
Context `{StoreBackend} (names : list string).

Lemma scoped_ret {A} (P : A → Prop) a : P a → scoped_call names P (mret a).
Proof. intros Ha db t Hwf. apply wp_ret. split_and!; [done|by apply confined_refl|done]. Qed.
Lemma scoped_bind {A B} (P : A → Prop) (Q : B → Prop) (m : M A) (k : A → M B) :
  scoped_call names P m → (∀ a, P a → scoped_call names Q (k a)) → scoped_call names Q (m ≫= k).
Proof.
  intros Hm Hk db t Hwf. apply wp_bind. eapply wp_mono; [by apply Hm|].
  intros [e|a] [db' tx' t'] (Ht & Hc & Ha); simpl in *; [done|]. subst tx'.
  eapply wp_mono; [apply (Hk _ Ha); by apply (cf_wf _ _ _ Hc)|]. intros r w' (? & ? & ?).
  split_and!; [done|by eapply confined_trans|done].
Qed.
Lemma scoped_try {A} (P : A → Prop) (m : M A) : scoped_call names P m →
  scoped_call names (λ r, match r with inr a => P a | inl _ => True end) (try m).
Proof. intros Hm db t Hwf. apply wp_try. by apply Hm. Qed.
Lemma scoped_if {A} (P : A → Prop) (b : bool) m m' :
  scoped_call names P m → scoped_call names P m' → scoped_call names P (if b then m else m').
Proof. by destruct b. Qed.
Lemma scoped_plain resp : shown_projects resp = [] → scoped_call names (shows_only names) (mret resp).
Proof. intros Hr. apply scoped_ret. intros x. rewrite Hr. set_solver. Qed.
End calls.

Section isolation.
Context `{UUIDLib} `{StoreBackend} `{!ScopedStore} `{Chi} `{!UUIDLaws} `{!ChiLaws} (h : APIHandler).

Lemma scoped_project names p orgName del : orgName ∈ names →
  scoped_call names (λ x, pr_OrgName x ∈ names) (project_response h p orgName del).
Proof.
  intros Hn. eapply scoped_bind; [apply scope_DeriveStatus|]. intros s _. by apply scoped_ret.
Qed.
Lemma scoped_shown names p orgName del : orgName ∈ names →
  scoped_call names (shows_only names)
    (x ← project_response h p orgName del; mret (writeJSON StatusOK (ProjectBody x))).
Proof.
  intros Hn. eapply scoped_bind; [by apply scoped_project|]. intros x Hx. apply scoped_ret.
  by intros y ->%list_elem_of_singleton.
Qed.
Lemma scoped_projects names ps : (∀ p, p ∈ ps → owned_by names (Org_Name <$> Project_org p)) →
  scoped_call names (λ xs, ∀ x, x ∈ xs → pr_OrgName x ∈ names) (project_responses h ps).
Proof.
  induction ps as [|p ps IH]; intros Hp; [apply scoped_ret; set_solver|].
  destruct (Hp p) as (n & Hn & Hin); [set_solver|]. cbn [project_responses].
  eapply scoped_bind; [apply scoped_project|].
  { unfold org_name_or_empty. by rewrite Hn. }
  intros x Hx. eapply scoped_bind; [apply IH; set_solver|]. intros xs Hxs. apply scoped_ret. set_solver.
Qed.

Lemma failed_shows_none err : shown_projects (lookup_failed err) = [].
Proof. unfold lookup_failed. by destruct (IsNotFound err), (isAmbiguous err). Qed.

(** A request whose scope is [Some ns] for some [ns] among [names]. *)
Lemma handler_isolated names e r ns :
  endpoint_group e = External → is_org_route e = false →
  resolveOrgNames r = Some ns → ns ⊆ names →
  scoped_call names (shows_only names) (endpoint_handler h e r).
Proof.
  intros He Ho Hr Hns. destruct e; try done; simpl.
  - unfold API_ListProjects. rewrite Hr. apply scoped_if; [by apply scoped_plain|].
    eapply scoped_bind; [by apply scoped_try, scope_ListProjects|]. intros [err|ps] Hps; [by apply scoped_plain|].
    eapply scoped_bind; [by apply scoped_projects|]. intros xs Hxs. by apply scoped_ret.
  - unfold API_GetProject. rewrite Hr. apply scoped_if; [by apply scoped_plain|].
    eapply scoped_bind; [by apply scoped_try, scope_GetProject|].
    intros [err|[p o]] Ho'; [apply scoped_plain, failed_shows_none|].
    apply scoped_shown. destruct Ho' as (n & Hn & ?). unfold org_name_or_empty. simpl in *. by rewrite Hn.
  - unfold API_CreateOrUpdateProject, resolveOrgNamesWithDefault. rewrite Hr.
    apply scoped_if; [by apply scoped_plain|].
    destruct (decodeBody _ _) as [d|]; [|by apply scoped_plain].
    eapply scoped_bind; [by apply scoped_try, scope_GetProject|]. intros [err|[p o]] Hp.
    + apply scoped_if; [destruct (isAmbiguous err); by apply scoped_plain|].
      destruct ns as [|n [|]]; [by apply scoped_plain| |by apply scoped_plain].
      eapply scoped_bind; [apply scoped_try, scope_CreateProject; set_solver|].
      intros [err'|[p o]] Hn; [destruct (IsConstraintError err'); by apply scoped_plain|].
      by apply scoped_shown.
    + apply scoped_if; [by apply scoped_plain|].
      eapply scoped_bind; [by apply scoped_try, scope_UpdateProject|].
      intros [err'|[p' o']] Hn; [by apply scoped_plain|].
      apply scoped_shown. destruct Hn as (n & Hn & ?). unfold org_name_or_empty. simpl in *. by rewrite Hn.
  - unfold API_DeleteProject, resolveOrgNamesWithDefault. rewrite Hr. apply scoped_if; [by apply scoped_plain|].
    eapply scoped_bind; [by apply scoped_try, scope_DeleteProject|].
    intros [err|?] _; [apply scoped_plain, failed_shows_none|by apply scoped_plain].
  - unfold API_GetProjectStatus. rewrite Hr. apply scoped_if; [by apply scoped_plain|].
    eapply scoped_bind; [by apply scoped_try, scope_GetProjectIncludingDeleted|].
    intros [err|[p o]] Ho'; [apply scoped_plain, failed_shows_none|].
    apply scoped_shown. destruct Ho' as (n & Hn & ?). unfold org_name_or_empty. simpl in *. by rewrite Hn.
Qed.

Lemma deletion_isolated names e r ns :
  endpoint_group e = External → is_org_route e = false →
  r_path r = endpoint_path e (r_name r) (r_id r) →
  resolveOrgNames r = Some ns → ns ⊆ names →
  scoped_call names (shows_only names) (DeletionCheckMiddleware (endpoint_handler h e) r).
Proof.
  intros He Ho Hp Hr Hns. pose proof (handler_isolated names e r ns He Ho Hr Hns) as Hh.
  unfold DeletionCheckMiddleware. cbv zeta. apply scoped_if; [done|]. apply scoped_if; [done|].
  assert (isOrgEndpoint (r_path r) = false) as -> by (rewrite Hp; by destruct e).
  apply scoped_if; [|done]. rewrite Hr. apply scoped_if; [by apply scoped_plain|].
  apply (scoped_bind _ (λ _, True)); [|intros b _; apply scoped_if; [by apply scoped_plain|done]].
  eapply scoped_bind; [by apply scoped_try, scope_GetProjectIncludingDeleted|]. intros. by apply scoped_ret.
Qed.

Lemma resolve_scope r ac : r_auth r = Some ac → "admin" ∉ Roles ac →
  OrgNames ac ≠ [] ∨ Query_Get r "org" ≠ "" →
  ∃ ns, resolveOrgNames r = Some ns ∧ ns ⊆ OrgNames ac.
Proof.
  intros Ha Hadmin Hscope. unfold resolveOrgNames. rewrite Ha.
  destruct (hasRole (Roles ac) "admin") eqn:Hr; [by apply hasRole_elem in Hr|].
  destruct (String.eqb_spec (Query_Get r "org") "") as [Heq|_]; simpl.
  - destruct (OrgNames ac) eqn:Hn; simpl; [naive_solver|]. eexists. split; [done|]. done.
  - destruct (mem_string _ _) eqn:Hm; [|exists []; split; [done|set_solver]].
    apply mem_string_elem in Hm. eexists. split; [done|]. set_solver.
Qed.

(** The names of the orgs of a token are those of active orgs among its UUIDs. *)
Lemma resolve_names_ok ids db t : db_wf db →
  wp (resolve_names ids) (λ res w', w_db w' = db ∧ w_tx w' = None ∧
    match res with
    | inr names => ∀ n, n ∈ names → ∃ o, o ∈ t_orgs db ∧ Org_Name o = n ∧ Org_DeletedAt o = None ∧ Org_ID o ∈ ids
    | inl _ => True
    end) (mkWorld db None t).
Proof.
  intros Hwf. unfold resolve_names. destruct (0 <? _)%nat; [|wp_step; split_and!; [done..|set_solver]].
  wp_step. wp_step. eapply wp_mono; [by apply scope_GetOrgNames|]. intros [err|m] w' (? & ? & Hm); wp_step.
  - split_and!; [done..|set_solver].
  - split_and!; [done..|]. intros n (u & Hu & Hm')%list_elem_of_omap.
    apply Hm in Hm' as (? & o & ? & ? & ? & ?). exists o. subst. done.
Qed.

(** C1: tenant isolation.  For a caller authenticated by a token without the
    [admin] role, on every project endpoint, while no other connection commits between the
    statements of the request, and whatever statement fails or COMMIT is lost: when the token's orgs resolve to at
    least one name, or the request names an org, every project the answer shows
    and every row the request changes belongs to an org the token has a role in
    (an active org whose UUID is in the token); projects, orgs, folders and
    statuses of others stay as they are, and so do the events already logged. *)
Theorem tenant_isolation Validate e name id r claims db t names w1 :
  h_jwtValidator h = Some Validate →
  find_route (r_method r) (r_path r) = RouteFound e name id →
  endpoint_group e = External → is_org_route e = false →
  request_claims Validate r = Some claims →
  "admin" ∉ extractRolesFromClaims claims →
  db_wf db →
  resolve_names (extractOrgUUIDs (extractRolesFromClaims claims)) (mkWorld db None t) = (inr names, w1) →
  names ≠ [] ∨ Query_Get r "org" ≠ "" →
  (∀ n, n ∈ names → ∃ o, o ∈ t_orgs db ∧ Org_Name o = n ∧ Org_DeletedAt o = None ∧
     Org_ID o ∈ extractOrgUUIDs (extractRolesFromClaims claims)) ∧
  wp (Router h r) (λ res w', w_tx w' = None ∧ confined names db (w_db w') ∧
    match res with inr resp => shows_only names resp | inl _ => True end) (mkWorld db None t).
Proof.
  intros Hv Hf He Ho Hc Hadmin Hwf Hn Hscope.
  pose proof (resolve_names_ok (extractOrgUUIDs (extractRolesFromClaims claims)) db t Hwf) as Hres.
  apply (wp_run _ _ _ _ _ Hn) in Hres as (Hdb & Htx & Hnames). split; [done|].
  pose proof (Router_guard h Validate e name id r (mkWorld db None t) Hv Hf He) as Hg. rewrite Hc in Hg.
  destruct Hg as (names' & w' & Hn' & Hg). rewrite Hn in Hn'. injection Hn' as <- <-.
  destruct w1 as [db' tx' t']. simpl in Hdb, Htx. rewrite Hdb, Htx in *. clear db' tx' Hdb Htx.
  destruct Hg as [[_ Hg]|[_ Hg]].
  2: { apply (wp_run _ _ _ _ _ Hg). split_and!; [done|by apply confined_refl|]. intros x. simpl. set_solver. }
  destruct (resolve_scope (with_auth (auth_context claims names) (with_params name id r))
    (auth_context claims names)) as (ns & Hns & Hsub); [done..|].
  assert (scoped_call names (shows_only names) (DeletionCheckMiddleware (endpoint_handler h e)
    (with_auth (auth_context claims names) (with_params name id r)))) as Hs.
  { eapply deletion_isolated; eauto. simpl. by eapply route_found. }
  destruct (wp_out _ _ _ (Hs db t' Hwf)) as (res & w2 & Heq & HQ).
  rewrite Heq in Hg. by apply (wp_run _ _ _ _ _ Hg).
Qed.
End isolation.
