(* ===== verification/ApiOrg.v ===== *)
(** * Creating, updating and protecting resources over HTTP

    The behaviour of [PUT /v1/orgs/NAME] on the database, branch by branch, and the
    deletion check: which requests on soft-deleted resources are refused; and a caller none of
    whose orgs resolves, whom the isolation theorem excludes: it is not scoped at all. *)

From S2P Require Import Prelude GoStd Monad EntSchema Sqlgraph EntQuery EntMutation Config Store.
From S2P Require Import Logic EntSpec Wf EntLoad StoreOrg StoreProject StoreDelete.
From S2P Require Import Backend Http Auth Api AuthSpec ApiGuard ApiScope.

Section derive.
Context `{Driver} `{Runtime} `{!DriverLaws} `{!Quiet}.

Lemma wp_DeriveStatus rt id del cs (Q : error + string * string → World → Prop) db t :
  (∀ s t', Q (inr s) (mkWorld db None t')) → wp (DeriveStatus rt id del cs) Q (mkWorld db None t).
Proof.
  intros HQ. unfold DeriveStatus. wp_step. wp_step. unfold GetControllerStatuses.
  apply wp_All; simpl; [set_solver|done| |]; intros; wp_step; apply HQ.
Qed.
End derive.

Section org_put.
Context `{Driver} `{Runtime} `{FieldValidators} `{UUIDLib}.
Context `{!DriverLaws} `{!Quiet} `{!FieldValidatorsLaws} (h : APIHandler).

(** The answer built from an org the request leaves active. *)
Definition org_answer (o : Org) (resp : Response) : Prop :=
  ∃ s, resp = writeJSON StatusOK (OrgBody (toOrgResponse o s.1 s.2)).

Lemma wp_org_answer o del (Q : error + Response → World → Prop) db t :
  (∀ resp t', org_answer o resp → Q (inr resp) (mkWorld db None t')) →
  wp (x ← org_response h o del; mret (writeJSON StatusOK (OrgBody x))) Q (mkWorld db None t).
Proof.
  intros HQ. wp_step. unfold org_response. wp_step. apply wp_DeriveStatus. intros s t'.
  wp_step. wp_step. apply HQ. by exists s.
Qed.

(** One of two things happened: the active org got the description, or there was none and the org
    was created. *)
Definition org_put (r : Request) (description : string) (db db' : DB) (o : Org) : Prop :=
  db_wf db' ∧
  ((update_if_exists r = true ∧ org_updated (r_name r) description db db' o) ∨
   ((∀ o', ¬ active_org db (r_name r) o') ∧ org_created (r_name r) description db db' o)).

(** [PUT /v1/orgs/NAME] with a decodable body: a 200 means that exactly one of two
    things happened and is shown: the active org got the description (never with
    [update_if_exists=false]), or there was none and the org was created with its
    default folder and its event.  Any other answer is a 409 or a 500 and leaves the
    database as it was, but for a 500 after a lost COMMIT; a 409 over an active org needs
    [update_if_exists=false]. *)
Theorem CreateOrUpdateOrg_spec r description db t : db_wf db →
  decodeBody (r_body r) decode_description = Some description →
  wp (API_CreateOrUpdateOrg h r) (λ res w', w_tx w' = None ∧ ∃ resp, res = inr resp ∧
    ((∃ o, org_answer o resp ∧ org_put r description db (w_db w') o) ∨
     (StatusCode resp = StatusInternalServerError ∧
        (w_db w' = db ∨ ∃ e o, lost_commit e ∧ org_put r description db (w_db w') o)) ∨
     (w_db w' = db ∧ StatusCode resp = StatusConflict ∧
        (update_if_exists r = false ∨ ∀ o', ¬ active_org db (r_name r) o')))) (mkWorld db None t).
Proof.
  intros Hwf Hb. unfold API_CreateOrUpdateOrg. rewrite Hb. cbv zeta.
  wp_step. wp_step. eapply wp_mono; [by apply GetOrg_ok|]. intros [err|o] [db1 tx1 t1] (Hd & Ht & Hr); simpl in *; subst.
  - destruct Hr as [[-> Hno]|[msg ->]]; simpl.
    2: { wp_step. split; [done|]. eexists. split; [done|]. right; left. auto. }
    wp_step. wp_step. eapply wp_mono; [by apply CreateOrg_ok|].
    intros [err|o] [db2 tx2 t2] (Ht & Hc); cbn [w_db w_tx] in *; subst.
    + wp_step. split; [done|]. eexists. split; [done|]. destruct Hc as [[-> _]|[Hl [o [Hc Hwf2]]]].
      * destruct (IsConstraintError err); right; [right|left]; auto.
      * pose proof Hl as (t0 & k & _ & ->). right; left. split; [done|]. right. exists (drv_error k), o. split; [done|]. split; auto.
    + destruct Hc as [Hc Hwf2]. apply wp_org_answer. intros resp t' Ha. split; [done|].
      eexists. split; [done|]. left. exists o. split; [done|]. split; auto.
  - destruct (update_if_exists r) eqn:Hu; simpl.
    2: { wp_step. split; [done|]. eexists. split; [done|]. right; right; auto. }
    wp_step. wp_step. eapply wp_mono; [by apply UpdateOrg_ok|].
    intros [err|o'] [db2 tx2 t2] (Ht & Hc); cbn [w_db w_tx] in *; subst.
    + wp_step. split; [done|]. eexists. split; [done|]. right; left. split; [done|].
      destruct Hc as [[-> _]|[Hl [o' [Hc Hwf2]]]]; [by left|right]. exists err, o'. split; [done|]. split; auto.
    + destruct Hc as [Hc Hwf2]. apply wp_org_answer. intros resp t' Hans.
      split; [done|]. eexists. split; [done|]. left. exists o'. split; [done|]. split; auto.
Qed.

(** ** Soft-deleted resources *)

Definition org_marked (name : string) (db : DB) : Prop :=
  ∃ o, o ∈ t_orgs db ∧ Org_Name o = name ∧ is_Some (Org_DeletedAt o).
(** the scope shows one project of the name, and it is marked *)
Definition project_marked (name : string) (orgNames : option (list string)) (db : DB) : Prop :=
  ∃ p, is_Some (Project_DeletedAt p) ∧
    ∀ p', p' ∈ t_projects db ∧ Project_Name p' = name ∧ in_scope [] orgNames db p' ↔ p' = p.

(** The middleware either passes the request on or answers by itself. *)
Definition passes (next : Handler) (r : Request) (db : DB) (res : (error + Response) * World) : Prop :=
  ∃ t', res = next r (mkWorld db None t').
Definition stops (resp : Response) (db : DB) (res : (error + Response) * World) : Prop :=
  ∃ t', res = (inr resp, mkWorld db None t').

Lemma run_at {A} (m : M A) (P : error + A → Prop) db t :
  wp m (λ r w', w_db w' = db ∧ w_tx w' = None ∧ P r) (mkWorld db None t) →
  ∃ r t', m (mkWorld db None t) = (r, mkWorld db None t') ∧ P r.
Proof.
  intros Hm. destruct (wp_out _ _ _ Hm) as (r & [db' tx' t'] & Heq & Hd & Ht & HP).
  simpl in *. subst. eauto.
Qed.

(** the deletion check stops a PUT or DELETE on an org exactly when an org of the
    name is marked for delete, with a 400 and no change, unless the lookup itself
    fails, in which case the request passes. *)
Theorem DeletionCheck_org next r db t : db_wf db →
  r_method r ≠ MethodGet → r_name r ≠ "" → isOrgEndpoint (r_path r) = true →
  let res := DeletionCheckMiddleware next r (mkWorld db None t) in
  (org_marked (r_name r) db ∧ stops marked_for_delete db res) ∨
  (passes next r db res ∧
    (¬ org_marked (r_name r) db ∨
     ∃ msg w', GetOrgIncludingDeleted (r_name r) (mkWorld db None t) = (inl (errDriver DrvOther msg), w'))).
Proof.
  intros Hwf Hm Hn Ho. cbv zeta. unfold DeletionCheckMiddleware.
  rewrite (proj2 (String.eqb_neq _ _) Hm). cbv zeta. rewrite (proj2 (String.eqb_neq _ _) Hn), Ho.
  destruct (run_at _ _ _ t (GetOrgIncludingDeleted_spec (r_name r) db None t Hwf)) as (res & t' & Hrun & Hres).
  unfold isOrgDeleted. unfold mbind, EM_bind, try. simpl. rewrite Hrun. simpl.
  destruct res as [e|o]; simpl.
  - right. split; [by exists t'|]. destruct Hres as [[-> Hno]|[msg ->]]; [left|right; eauto].
    intros (o & Hin & Hname & _). by eapply Hno.
  - destruct Hres as [Hin Hname]. destruct (Org_DeletedAt o) as [d|] eqn:Hd; simpl.
    + left. split; [|by exists t']. exists o. by rewrite Hd.
    + right. split; [by exists t'|]. left. intros (o' & Hin' & Hname' & Hd').
      assert (o' = o) as -> by (eapply org_name_unique; eauto; congruence).
      rewrite Hd in Hd'. by destruct Hd'.
Qed.

(** the deletion check stops a PUT or DELETE on a project when the request's org is
    not one of the caller's (404), and when the one project the scope shows under the
    name, deleted or not, is marked for delete (400); it passes it otherwise, a name
    that is ambiguous in the scope included, and changes nothing by itself. *)
Theorem DeletionCheck_project next r db t : db_wf db →
  r_method r ≠ MethodGet → r_name r ≠ "" → isOrgEndpoint (r_path r) = false →
  isProjectEndpoint (r_path r) = true →
  let res := DeletionCheckMiddleware next r (mkWorld db None t) in
  let scope := resolveOrgNames r in
  if decide (scope = Some []) then stops project_not_found db res
  else (project_marked (r_name r) scope db ∧ stops marked_for_delete db res) ∨
    (passes next r db res ∧
     (¬ project_marked (r_name r) scope db ∨
      ∃ msg w', GetProjectIncludingDeleted (r_name r) scope (mkWorld db None t) =
                (inl (errDriver DrvOther msg), w'))).
Proof.
  intros Hwf Hm Hn Ho Hp. cbv zeta. unfold DeletionCheckMiddleware.
  rewrite (proj2 (String.eqb_neq _ _) Hm). cbv zeta. rewrite (proj2 (String.eqb_neq _ _) Hn), Ho, Hp.
  generalize (resolveOrgNames r). intros scope.
  destruct (decide (scope = Some [])) as [->|Hs]; [by exists t|].
  assert (isOrgScopeDenied scope = false) as -> by (by destruct scope as [[|]|]).
  destruct (run_at _ _ _ t (GetProjectIncludingDeleted_ok (r_name r) scope db None t Hwf)) as (res & t' & Hrun & Hres).
  unfold isProjectDeleted. unfold mbind, EM_bind, try. simpl. rewrite Hrun. simpl.
  destruct res as [e|[n o]]; simpl.
  - right. split; [by exists t'|]. destruct Hres as [Hno|p1 p2 Hne H1' H2'|msg]; [left|left|right; eauto].
    + intros (p & _ & Hall). by apply (Hno p), Hall.
    + intros (p & _ & Hall). apply Hne. rewrite (proj1 (Hall p1)), (proj1 (Hall p2)); done.
  - destruct Hres as (p & -> & -> & Hall). simpl. destruct (Project_DeletedAt p) as [d|] eqn:Hd; simpl.
    + left. split; [|by exists t']. exists p. by rewrite Hd.
    + right. split; [by exists t'|]. left. intros (p' & Hd' & Hall').
      assert (p = p') as <- by (by apply Hall', Hall). rewrite Hd in Hd'. by destruct Hd'.
Qed.
End org_put.

(** ** Where the scope of a request gives way *)

Section unscoped.
Context `{Driver} `{Runtime} `{FieldValidators} `{UUIDLib}.
Context `{!DriverLaws} `{!Quiet} `{!FieldValidatorsLaws} (h : APIHandler).

(** what a listing shows of a project *)
Definition shows (db : DB) (p : Project) (x : ProjectResponse) : Prop :=
  pr_Name x = Project_Name p ∧ pr_OrgName x = default "" (project_org_name db p).

Lemma wp_project_responses db ps (Q : error + list ProjectResponse → World → Prop) t :
  (∀ xs t', Forall2 (shows db) ps xs → Q (inr xs) (mkWorld db None t')) →
  wp (project_responses h (attach db <$> ps)) Q (mkWorld db None t).
Proof.
  revert t Q. induction ps as [|p ps IH]; intros t Q HQ; [apply wp_ret, HQ; constructor|].
  rewrite fmap_cons. cbn [project_responses]. wp_step. unfold project_response. wp_step.
  apply wp_DeriveStatus. intros s t'. wp_step. wp_step. apply IH. intros xs t'' Hxs. wp_step.
  apply HQ. constructor; [|done]. split; [done|]. simpl. rewrite Project_org_attach. done.
Qed.

(** A caller who authenticates but none of whose orgs resolves to a name (an org
    that is soft-deleted, or a lookup that failed) and who names no org is not scoped
    at all: [GET /v1/projects] shows every active project of every org. *)
Theorem unresolved_scope_unscoped r ac db t : db_wf db →
  r_auth r = Some ac → OrgNames ac = [] → Query_Get r "org" = "" →
  wp (API_ListProjects h r) (λ res w', w_db w' = db ∧
    (res = inr internal_error ∨ ∃ ps xs, res = inr (writeJSON StatusOK (ProjectsBody xs)) ∧
      NoDup ps ∧ (∀ p, p ∈ ps ↔ p ∈ t_projects db ∧ Project_DeletedAt p = None) ∧
      Forall2 (shows db) ps xs)) (mkWorld db None t).
Proof.
  intros Hwf Ha Hn Hq. unfold API_ListProjects.
  assert (resolveOrgNames r = None) as -> by (unfold resolveOrgNames; by rewrite Hq, Ha, Hn).
  cbv zeta. simpl isOrgScopeDenied. cbv iota. wp_step. wp_step.
  eapply wp_mono; [by apply ListProjects_ok|]. intros [e|ns] [db' tx' t'] (Hd & Ht & Hr); simpl in Hd, Ht; subst.
  - wp_step. split; [done|by left].
  - destruct Hr as (ps & -> & Hnd & Hps & _). wp_step. apply wp_project_responses.
    intros xs t'' Hxs. wp_step. split; [done|]. right. exists ps, xs. split_and!; [done|done| |done].
    intros p. rewrite Hps. simpl. naive_solver.
Qed.
End unscoped.
