(* ===== verification/ApiEvents.v ===== *)
(** * Polling the event log over HTTP

    [GET /v1/events]: its query parameters, its pages, and what a controller that
    polls with [after = lastEventId] sees of the log. *)

From S2P Require Import Prelude GoStd Monad EntSchema Sqlgraph EntQuery EntMutation Config Store.
From S2P Require Import Logic EntSpec Wf EntLoad StoreEvents.
From S2P Require Import Backend Http Auth Api.
From Stdlib Require Import Ascii.

(** ** Decimal numbers *)

Lemma digit_code n : (n < 10)%nat →
  is_digit (ascii_of_nat (48 + n)) = true ∧ code (ascii_of_nat (48 + n)) = (48 + n)%nat.
Proof. intros Hn. do 10 (destruct n as [|n]; [done|]). lia. Qed.

Lemma itoa_digits fuel n acc : (n < fuel)%nat →
  digits_val (itoa_fuel fuel n acc) 0 = digits_val acc (Z.of_nat n).
Proof.
  revert n acc. induction fuel as [|fuel IH]; intros n acc Hf; [lia|]. cbn [itoa_fuel].
  destruct (digit_code (n mod 10)) as [Hd Hc]; [apply Nat.mod_upper_bound; lia|].
  pose proof (Nat.div_mod n 10 ltac:(lia)) as Hdm.
  assert (∀ z, digits_val (String (ascii_of_nat (48 + n mod 10)) acc) z =
    digits_val acc (z * 10 + Z.of_nat (n mod 10))) as Hstep.
  { intros z. cbn [digits_val]. rewrite Hd, Hc. do 2 f_equal. lia. }
  cbv zeta. destruct (Nat.ltb_spec n 10) as [Hlt|Hge].
  - rewrite Hstep. f_equal. rewrite Nat.mod_small by lia. lia.
  - rewrite IH, Hstep; [f_equal; lia|]. pose proof (Nat.div_lt n 10). lia.
Qed.

Lemma itoa_head fuel n acc : ∃ c s, itoa_fuel (S fuel) n acc = String c s ∧ is_digit c = true.
Proof.
  revert n acc. induction fuel as [|fuel IH]; intros n acc.
  - destruct (digit_code (n mod 10)) as [Hd _]; [apply Nat.mod_upper_bound; lia|].
    cbn [itoa_fuel]. cbv zeta. destruct (n <? 10)%nat; by eexists _, _.
  - destruct (digit_code (n mod 10)) as [Hd _]; [apply Nat.mod_upper_bound; lia|].
    remember (S fuel) as f. cbn [itoa_fuel]. cbv zeta. destruct (n <? 10)%nat; [by eexists _, _|].
    subst. apply IH.
Qed.

Lemma ParseInt64_itoa_ok n : (Z.of_nat n <= int64_max)%Z → ParseInt64 (itoa n) = Some (Z.of_nat n).
Proof.
  intros Hn. pose proof (itoa_digits (S n) n "" ltac:(lia)) as Hv. fold (itoa n) in Hv.
  destruct (itoa_head n n "") as (c & s & Hs & Hc). fold (itoa n) in Hs. rewrite Hs in *.
  assert (ParseInt64 (String c s) = match digits_val (String c s) 0 with
    | None => None
    | Some v => if (int64_min <=? v)%Z && (v <=? int64_max)%Z then Some v else None end) as ->.
  { unfold ParseInt64. destruct c as [[] [] [] [] [] [] [] []]; done. }
  rewrite Hv. cbn [digits_val].
  assert (int64_min <=? Z.of_nat n = true)%Z as -> by (apply Z.leb_le; unfold int64_min; lia).
  by rewrite (proj2 (Z.leb_le _ _) Hn).
Qed.

(** [strconv.ParseInt] reads back every number printed in decimal that fits in
    64 bits, so a cursor survives the trip through the query string. *)
Theorem ParseInt64_itoa n : (Z.of_nat n <= int64_max)%Z → ParseInt64 (itoa n) = Some (Z.of_nat n).
Proof. apply ParseInt64_itoa_ok. Qed.

(** ** The parameters *)

Section params.
Context `{UUIDLib} `{StoreBackend}.

(** C27: a page of events is asked for within bounds: on [GET /v1/events] without [replay=true] an absent [after] means 0 and an absent
    [limit] 100; any other [after] must be a decimal in [0, 2^63), any other [limit]
    one in [1, 1000]; when one of the three parameters is bad the answer is a 400 and
    the store is not called, otherwise the page asked for is that of the numbers. *)
Theorem GetEvents_params r w : Query_Get r "replay" ≠ "true" →
  let ok_after a := (Query_Get r "after" = "" ∧ a = 0%Z) ∨
    (Query_Get r "after" ≠ "" ∧ ParseInt64 (Query_Get r "after") = Some a ∧ (0 <= a)%Z) in
  let ok_limit l := (Query_Get r "limit" = "" ∧ l = 100%Z) ∨
    (Query_Get r "limit" ≠ "" ∧ ParseInt64 (Query_Get r "limit") = Some l ∧ (1 <= l <= 1000)%Z) in
  (Query_Get r "controller" ≠ "" ∧ ∃ a l, ok_after a ∧ ok_limit l ∧
    API_GetEvents r w = (res ← try (sb_GetEventsAfter a l);
      mret (match res with
            | inl _ => internal_error
            | inr events => writeJSON StatusOK (EventsBody (events_page a events))
            end)) w) ∨
  ((Query_Get r "controller" = "" ∨ (∀ a, ¬ ok_after a) ∨ (∀ l, ¬ ok_limit l)) ∧
    ∃ msg, API_GetEvents r w = (inr (writeError StatusBadRequest msg), w)).
Proof.
  intros Hr. cbv zeta. unfold API_GetEvents.
  destruct (String.eqb_spec (Query_Get r "controller") "") as [->|Hc]; [right; split; [by left|by eexists]|].
  rewrite (proj2 (String.eqb_neq _ _) Hr).
  set (sa := Query_Get r "after"). set (sl := Query_Get r "limit").
  assert (∀ a, parse_after sa = Some a ↔ (sa = "" ∧ a = 0%Z) ∨
    (sa ≠ "" ∧ ParseInt64 sa = Some a ∧ (0 <= a)%Z)) as Ha.
  { intros a. unfold parse_after. destruct (String.eqb_spec sa ""); [naive_solver|].
    destruct (ParseInt64 sa) as [n0|]; [destruct (Z.ltb_spec n0 0)|]; naive_solver lia. }
  assert (∀ l, parse_limit sl = Some l ↔ (sl = "" ∧ l = 100%Z) ∨
    (sl ≠ "" ∧ ParseInt64 sl = Some l ∧ (1 <= l <= 1000)%Z)) as Hl.
  { intros l. unfold parse_limit. destruct (String.eqb_spec sl ""); [naive_solver|].
    destruct (ParseInt64 sl) as [n0|];
      [destruct (Z.leb_spec n0 0), (Z.ltb_spec 1000 n0); simpl|]; naive_solver lia. }
  destruct (parse_after sa) as [a|].
  2: { right. split; [right; left; intros a Hx; by apply Ha in Hx|by eexists]. }
  destruct (parse_limit sl) as [l|].
  2: { right. split; [right; right; intros l Hx; by apply Hl in Hx|by eexists]. }
  left. split; [done|]. exists a, l. split_and!; [by apply Ha|by apply Hl|done].
Qed.
End params.

(** ** A polling controller *)

(** The page loop: the events in order, and the id of the last one. *)
Lemma events_page_spec after es : events_page after es =
  mkEventsResponse (event_response <$> es) (default after (TenancyEvent_ID <$> last es)).
Proof.
  unfold events_page. induction es as [|e es IH] using rev_ind; [done|].
  rewrite foldl_snoc, IH, fmap_app, last_snoc. done.
Qed.

Section poll.
Context `{Driver} `{Runtime} `{FieldValidators} `{UUIDLib}.
Context `{!DriverLaws} `{!Quiet}.

(** A query of the log, between two times, was not answered. *)
Definition query_failed (db : DB) (lo hi : nat) : Prop :=
  ∃ t (q : QuerySpec TenancyEvent) e, (lo <= t < hi)%nat ∧ drv_query t db q = inl e.

Definition events_request (controller : string) (after limit : nat) : Request :=
  mkRequest MethodGet "/v1/events" "" ""
    [("controller", controller); ("after", itoa after); ("limit", itoa limit)] [] BodyEOF None.

(** A client that asks for pages until one is empty, its cursor the last id it was
    given, or until an answer is not a page: what it received, and that answer; [None] when
    the fuel runs out. *)
Fixpoint poll (fuel : nat) (controller : string) (after limit : nat)
    : M (option (list EventResponse * option Response)) :=
  match fuel with
  | O => mret None
  | S fuel =>
      resp ← API_GetEvents (events_request controller after limit);
      match payload resp with
      | EventsBody page =>
          if (length (es_Events page) =? 0)%nat then mret (Some ([], None)) else
          rest ← poll fuel controller (Z.to_nat (es_LastEventID page)) limit;
          mret ((λ p, (es_Events page ++ p.1, p.2)) <$> rest)
      | _ => mret (Some ([], Some resp))
      end
  end.

Lemma itoa_not_empty n : itoa n ≠ "".
Proof. destruct (itoa_head n n "") as (c & s & Hs & _). unfold itoa. by rewrite Hs. Qed.

(** One page of the log. *)
Lemma wp_page controller after limit db t (Q : error + Response → World → Prop) :
  controller ≠ "" → db_wf db → (Z.of_nat after <= int64_max)%Z → (0 < limit ≤ 1000)%nat →
  (∀ es t', (t <= t')%nat → es = take limit (events_after (Z.of_nat after) db) →
     (∀ e, last es = Some e → events_after (Z.of_nat after) db = es ++ events_after (TenancyEvent_ID e) db) →
     Q (inr (writeJSON StatusOK (EventsBody (events_page (Z.of_nat after) es)))) (mkWorld db None t')) →
  (∀ resp t', query_failed db t t' → StatusCode resp = StatusInternalServerError → (∀ es, payload resp ≠ EventsBody es) →
     Q (inr resp) (mkWorld db None t')) →
  wp (API_GetEvents (events_request controller after limit)) Q (mkWorld db None t).
Proof.
  intros Hc Hwf Ha Hl HQ He. unfold API_GetEvents, parse_after, parse_limit.
  change (Query_Get (events_request controller after limit) "controller") with controller.
  change (Query_Get (events_request controller after limit) "replay") with "".
  change (Query_Get (events_request controller after limit) "after") with (itoa after).
  change (Query_Get (events_request controller after limit) "limit") with (itoa limit).
  rewrite !(proj2 (String.eqb_neq _ _)) by (done || apply itoa_not_empty).
  rewrite !ParseInt64_itoa_ok by (unfold int64_max in *; lia).
  rewrite (proj2 (Z.ltb_ge (Z.of_nat after) 0)) by lia.
  rewrite (proj2 (Z.leb_gt (Z.of_nat limit) 0)), (proj2 (Z.ltb_ge 1000 (Z.of_nat limit))) by lia. simpl.
  wp_step. wp_step. apply (wp_mono _ (λ r w', w_db w' = db ∧ w_tx w' = None ∧ (t <= w_tick w')%nat ∧
    match r with
    | inl _ => query_failed db t (w_tick w')
    | inr es => es = take limit (events_after (Z.of_nat after) db) ∧
        ∀ e, last es = Some e → events_after (Z.of_nat after) db = es ++ events_after (TenancyEvent_ID e) db
    end)).
  - destruct (wp_out _ _ _ (GetEventsAfter_ok (Z.of_nat after) (Z.of_nat limit) db None t Hwf ltac:(lia)))
      as (r & w' & Hrun & Hd & Ht & Hr).
    apply (wp_run _ _ _ _ _ Hrun).
    unfold GetEventsAfter, TenancyEventQuery_All, Query_All, QueryNodes, outside in Hrun. simpl in Hrun. rewrite quiet in Hrun.
    assert (w_tick w' = S t) as Htick by (destruct (drv_query _ _ _) in Hrun; by injection Hrun as _ <-).
    split_and!; [done..|lia|]. destruct r as [e|es].
    + destruct (drv_query _ _ _) as [e'|] eqn:Hq in Hrun; [|done]. exists t. eexists _, _. split; [lia|exact Hq].
    + rewrite Nat2Z.id in Hr. destruct Hr as (? & _ & ?). done.
  - intros [e|es] [db' tx' t'] (Hd & Ht & Hle & Hr); simpl in *; subst db' tx'; wp_step; [by apply He|].
    destruct Hr as [Hes Hlast]. by apply HQ.
Qed.

(** C9: while no other connection commits, a controller that polls from a cursor until a page is
    empty, with any page size from 1 to 1000 and more rounds than there are events, changes nothing
    and receives every event after the cursor exactly once, in id order; or a query of the database
    failed in one of its rounds: then the answer of that round is a 500, and it has received, again
    exactly once and in order, the events up to some id. *)
Theorem poll_complete fuel controller after limit db t :
  controller ≠ "" → db_wf db → (0 < limit ≤ 1000)%nat → (Z.of_nat after <= int64_max)%Z →
  (∀ e, e ∈ t_events db → (0 <= TenancyEvent_ID e <= int64_max)%Z) →
  (length (events_after (Z.of_nat after) db) < fuel)%nat →
  wp (poll fuel controller after limit) (λ r w', w_db w' = db ∧ w_tx w' = None ∧
    ∃ es stop, r = inr (Some (event_response <$> es, stop)) ∧
      match stop with
      | None => es = events_after (Z.of_nat after) db
      | Some resp => es `prefix_of` events_after (Z.of_nat after) db ∧
          StatusCode resp = StatusInternalServerError ∧ query_failed db t (w_tick w')
      end) (mkWorld db None t).
Proof.
  intros Hc Hwf Hl Ha Hids. revert after t Ha.
  induction fuel as [|fuel IH]; intros after t Ha Hf; [lia|]. cbn [poll].
  wp_step. apply wp_page; [done..| |].
  2: { intros resp t' Hq Hs Hp. destruct (payload resp) eqn:Hb; try by destruct (Hp e).
       all: wp_step; split_and!; [done..|]; exists [], (Some resp); (split; [done|]);
         split_and!; [apply prefix_nil|done|done]. }
  intros es t' Hle Hes Hlast. rewrite events_page_spec. simpl.
  rewrite length_fmap. destruct (last es) as [e|] eqn:He.
  - specialize (Hlast e eq_refl). assert (length es ≠ 0)%nat as Hne by (by destruct es).
    rewrite (proj2 (Nat.eqb_neq _ _) Hne). simpl.
    assert (e ∈ t_events db) as Hin.
    { assert (e ∈ es) as Hie by (by apply last_Some_elem_of). rewrite Hes in Hie.
      apply elem_of_take in Hie as (i & Hi & _). apply list_elem_of_lookup_2, elem_of_select in Hi. by destruct Hi. }
    pose proof (Hids e Hin) as Hb.
    assert (Z.of_nat (Z.to_nat (TenancyEvent_ID e)) = TenancyEvent_ID e) as Hid by lia.
    wp_step. eapply wp_mono; [apply IH; [lia|]|].
    { rewrite Hid. rewrite Hlast, length_app in Hf. lia. }
    intros r w' (Hd & Ht & rest & stop & -> & Hr). rewrite Hid in Hr. wp_step. split_and!; [done..|].
    exists (es ++ rest), stop. split; [by rewrite fmap_app|]. destruct stop as [resp|].
    + destruct Hr as (Hp & Hs & (t1 & q & e' & ? & Hq)). rewrite Hlast. split_and!; [by apply prefix_app|done|].
      exists t1, q, e'. split; [lia|done].
    + by rewrite Hr.
  - apply last_None in He. rewrite He in *. simpl. wp_step. split_and!; [done..|]. exists [], None. split; [done|].
    destruct (events_after (Z.of_nat after) db) as [|e l] eqn:Hev; [done|].
    destruct limit as [|limit]; [lia|done].
Qed.
End poll.
