(* ===== verification/TenancyProcess.v ===== *)
(** * The process of the tenancy manager (tenancy-manager/cmd/main.go)

    The settings that [main] puts together, the start of the default org and project, and
    the running process: requests to the router and rounds of the cleanup, each whole, in
    any order. *)

From S2P Require Import Prelude GoStd Monad EntSchema Sqlgraph EntQuery EntMutation Config Store.
From S2P Require Import Backend Http Auth Api.

(** The flags; an empty one is not given. *)
Record MainFlags := mkMainFlags { fl_config : string; fl_databaseURL : string; fl_listen : string }.

Definition set_ListenAddr (a : string) (c : Config) : Config :=
  mkConfig (DatabaseURL c) a (Controllers c) (EventRetention c) (CleanupInterval c) (DefaultOrgName c)
    (DefaultProjectName c) (OIDCServerURL c).

Section settings.
Context (Getenv : string → string) (ReadFile : string → error + string)
        (yaml_Unmarshal : string → Config → error + Config).

Definition main_config (flags : MainFlags) : Config :=
  let cfg := match Load Getenv ReadFile yaml_Unmarshal (fl_config flags) with inl _ => DefaultConfig | inr c => c end in
  let cfg := if String.eqb (fl_databaseURL flags) "" then cfg else set_DatabaseURL (fl_databaseURL flags) cfg in
  let cfg := if String.eqb (Getenv "DATABASE_URL") "" then cfg else set_DatabaseURL (Getenv "DATABASE_URL") cfg in
  if String.eqb (fl_listen flags) "" then cfg else set_ListenAddr (fl_listen flags) cfg.

(** The validator, when there is an issuer; [inl]: the process ends. *)
Definition main_validator (NewJWTValidator : string → error + (string → error + MapClaims)) (cfg : Config)
    : error + option (string → error + MapClaims) :=
  let oidcURL := or_else (Getenv "OIDC_SERVER_URL") (OIDCServerURL cfg) in
  if String.eqb oidcURL "" then inr None
  else match NewJWTValidator oidcURL with inl err => inl err | inr v => inr (Some v) end.
Definition main_handler (cfg : Config) (v : option (string → error + MapClaims)) : APIHandler :=
  mkAPIHandler cfg v (Getenv "INTERNAL_AUTH_TOKEN").
End settings.

Section process.
Context `{Driver} `{Runtime} `{UUIDLib} `{FieldValidators} `{Chi}.

(** One round of [runCleanup]: the errors are logged. *)
Definition cleanup_tick (cfg : Config) : M () :=
  _ ← try (CleanupOldEvents (EventRetention cfg));
  _ ← try (CleanupHardDelete cfg);
  mret ().

Inductive Activity := ServeRequest (r : Request) | CleanupTick.
(** net/http goes on with the next request whatever a handler returned. *)
Definition run_activity (h : APIHandler) (a : Activity) : M () :=
  match a with
  | ServeRequest r => _ ← try (Router h r); mret ()
  | CleanupTick => cleanup_tick (h_cfg h)
  end.

Definition tenancy_main (Getenv : string → string) (ReadFile : string → error + string)
    (yaml_Unmarshal : string → Config → error + Config)
    (NewJWTValidator : string → error + (string → error + MapClaims))
    (flags : MainFlags) (activities : list Activity) : M () :=
  let cfg := main_config Getenv ReadFile yaml_Unmarshal flags in
  _ ← Bootstrap (DefaultOrgName cfg) (DefaultProjectName cfg);
  match main_validator Getenv NewJWTValidator cfg with
  | inl err => fail err
  | inr v => for_each (run_activity (main_handler Getenv cfg v)) activities
  end.
End process.
