(* ===== verification/TenancyProcessInv.v ===== *)
(** * What the running tenancy manager never breaks

    [maintains I m]: [m], outside of a transaction, ends outside of one in a database with
    [I] when it starts in one, whatever it answers.  [MaintainingStore I] is what the API
    asks of a store for that; against it the router is shown to maintain [I], and the store
    is an instance for [tenants]: the constraints of the schema, and active projects under
    active orgs only; and, among other connections, for [log_ok]: the exact event log. *)

From S2P Require Import Prelude GoStd Monad EntSchema Sqlgraph EntQuery EntMutation Config Status Store Backend.
From S2P Require Import Http Auth Api TenancyProcess Logic EntSpec Wf EntLoad StoreOrg StoreProject StoreDelete.
From S2P Require Import StoreEvents StoreStatus StoreUpsert StoreCleanup StoreInv ApiScope StoreReads StoreLog.
From S2P Require Import StoreShared.

Definition maintains (I : DB → Prop) {A} (m : M A) : Prop := ∀ db t, I db →
  wp m (λ _ w', w_tx w' = None ∧ I (w_db w')) (mkWorld db None t).

Section rules.
Context (I : DB → Prop).
Lemma maintains_ret {A} (a : A) : maintains I (mret a).
Proof. intros db t Hi. by apply wp_ret. Qed.
Lemma maintains_fail {A} e : maintains I (A:=A) (fail e).
Proof. intros db t Hi. by apply wp_fail. Qed.
Lemma maintains_bind {A B} (m : M A) (k : A → M B) : maintains I m → (∀ a, maintains I (k a)) → maintains I (m ≫= k).
Proof.
  intros Hm Hk db t Hi. apply wp_bind. eapply wp_mono; [by apply Hm|]. intros [e|a] [db' tx' t'] [Htx Hi']; [done|].
  simpl in *. subst. by apply Hk.
Qed.
Lemma maintains_try {A} (m : M A) : maintains I m → maintains I (try m).
Proof. intros Hm db t Hi. apply wp_try. by apply Hm. Qed.
Lemma maintains_if {A} (b : bool) (m m' : M A) : maintains I m → maintains I m' → maintains I (if b then m else m').
Proof. by destruct b. Qed.
Lemma maintains_for_each {A} (f : A → M ()) l : (∀ a, maintains I (f a)) → maintains I (for_each f l).
Proof. intros Hf. induction l as [|a l IH]; [apply maintains_ret|]. by apply maintains_bind. Qed.
(** A call whose outcomes are known. *)
Lemma maintains_of {A} (m : M A) (P : DB → error + A → World → Prop) :
  (∀ db t, I db → wp m (P db) (mkWorld db None t)) →
  (∀ db r w', I db → P db r w' → w_tx w' = None ∧ I (w_db w')) → maintains I m.
Proof. intros Hm HP db t Hi. eapply wp_mono; [by apply Hm|]. intros r w' Hr. by eapply HP. Qed.
End rules.

(** What the handlers ask of the store. *)
Class MaintainingStore `{StoreBackend} (I : DB → Prop) : Prop := {
  mt_GetOrgNames : ∀ ids, maintains I (sb_GetOrgNamesByUUIDs ids);
  mt_GetOrgIncludingDeleted : ∀ name, maintains I (sb_GetOrgIncludingDeleted name);
  mt_GetProjectIncludingDeleted : ∀ name ns, maintains I (sb_GetProjectIncludingDeleted name ns);
  mt_ListOrgs : maintains I sb_ListOrgs;
  mt_GetOrg : ∀ name, maintains I (sb_GetOrg name);
  mt_CreateOrg : ∀ name d, maintains I (sb_CreateOrg name d);
  mt_UpdateOrg : ∀ name d, maintains I (sb_UpdateOrg name d);
  mt_DeleteOrg : ∀ name, maintains I (sb_DeleteOrg name);
  mt_ListProjects : ∀ ns, maintains I (sb_ListProjects ns);
  mt_GetProject : ∀ name ns, maintains I (sb_GetProject name ns);
  mt_CreateProject : ∀ org name d, maintains I (sb_CreateProject org name d);
  mt_UpdateProject : ∀ name ns d, maintains I (sb_UpdateProject name ns d);
  mt_DeleteProject : ∀ name ns, maintains I (sb_DeleteProject name ns);
  mt_GetProjectByID : ∀ id, maintains I (sb_GetProjectByID id);
  mt_GetEventsAfter : ∀ after limit, (0 < limit)%Z → maintains I (sb_GetEventsAfter after limit);
  mt_SynthesizeReplayEvents : maintains I sb_SynthesizeReplayEvents;
  mt_UpsertControllerStatus : ∀ c rt id s msg, maintains I (sb_UpsertControllerStatus c rt id s msg);
  mt_DeleteControllerStatus : ∀ c rt id, maintains I (sb_DeleteControllerStatus c rt id);
  mt_DeriveStatus : ∀ rt id del cs, maintains I (sb_DeriveStatus rt id del cs);
  mt_Now : maintains I sb_Now }.

Create HintDb maintains.
#[export] Hint Resolve maintains_ret maintains_fail mt_GetOrgNames mt_GetOrgIncludingDeleted mt_GetProjectIncludingDeleted
  mt_ListOrgs mt_GetOrg mt_CreateOrg mt_UpdateOrg mt_DeleteOrg mt_ListProjects mt_GetProject mt_CreateProject
  mt_UpdateProject mt_DeleteProject mt_GetProjectByID mt_SynthesizeReplayEvents mt_UpsertControllerStatus
  mt_DeleteControllerStatus mt_DeriveStatus mt_Now : maintains.
Ltac maintain :=
  repeat first
    [ progress intros
    | solve [eauto with maintains]
    | apply maintains_bind
    | apply maintains_try
    | apply maintains_if
    | match goal with |- maintains _ (match ?x with _ => _ end) => destruct x end ].

(** ** The router *)

Section router.
Context `{UUIDLib} `{StoreBackend} `{Chi} (I : DB → Prop) `{!MaintainingStore I} (h : APIHandler).

Lemma maintains_org_responses os : maintains I (org_responses h os).
Proof. induction os as [|o os IH]; cbn [org_responses]; unfold org_response; maintain. Qed.
Lemma maintains_project_responses ps : maintains I (project_responses h ps).
Proof. induction ps as [|p ps IH]; cbn [project_responses]; unfold project_response; maintain. Qed.
Lemma maintains_replay_responses es : maintains I (replay_responses es).
Proof. induction es as [|e es IH]; cbn [replay_responses]; maintain. Qed.
#[local] Hint Resolve maintains_org_responses maintains_project_responses maintains_replay_responses : maintains.

Lemma parse_limit_positive s n : parse_limit s = Some n → (0 < n)%Z.
Proof.
  unfold parse_limit. destruct (String.eqb s ""); [by intros [= <-]|]. destruct (ParseInt64 s) as [m|]; [|done].
  destruct (Z.leb_spec m 0); [done|]. simpl. destruct (1000 <? m)%Z; [done|]. by intros [= <-].
Qed.
Lemma maintains_GetEvents r : maintains I (API_GetEvents r).
Proof.
  unfold API_GetEvents. apply maintains_if; [maintain|]. apply maintains_if; [maintain|].
  destruct (parse_after _); [|maintain]. destruct (parse_limit _) eqn:Hl; [|maintain].
  apply maintains_bind; [|maintain]. apply maintains_try, mt_GetEventsAfter. by eapply parse_limit_positive.
Qed.
Lemma maintains_endpoint e r : maintains I (endpoint_handler h e r).
Proof.
  destruct e; cbn [endpoint_handler]; [..|apply maintains_GetEvents| | | |maintain].
  all: unfold API_ListOrgs, API_GetOrg, API_CreateOrUpdateOrg, API_DeleteOrg, API_GetOrgStatus, API_ListProjects,
    API_GetProject, API_CreateOrUpdateProject, API_DeleteProject, API_GetProjectStatus, API_UpdateControllerStatus,
    API_DeleteControllerStatus, API_GetProjectByID, org_response, project_response; cbv zeta; maintain.
Qed.

Lemma maintains_deletion next r : (∀ r, maintains I (next r)) → maintains I (DeletionCheckMiddleware next r).
Proof. intros Hn. unfold DeletionCheckMiddleware, isOrgDeleted, isProjectDeleted. cbv zeta. maintain. Qed.
Lemma maintains_authn Validate next r : (∀ r, maintains I (next r)) → maintains I (AuthnMiddleware Validate next r).
Proof. intros Hn. unfold AuthnMiddleware, resolve_names. cbv zeta. maintain. Qed.
Lemma maintains_authz next r : (∀ r, maintains I (next r)) → maintains I (AuthzMiddleware next r).
Proof. intros Hn. unfold AuthzMiddleware. cbv zeta. maintain. Qed.
Lemma maintains_internal token next r : (∀ r, maintains I (next r)) → maintains I (InternalAuthMiddleware token next r).
Proof. intros Hn. unfold InternalAuthMiddleware. cbv zeta. maintain. Qed.

Lemma maintains_Router r : maintains I (Router h r).
Proof.
  unfold Router. destruct (find_route _ _) as [e name id| |]; [|maintain..]. unfold serve, external_chain.
  pose proof (maintains_endpoint e) as He.
  destruct (endpoint_group e); [|by apply maintains_internal|done].
  destruct (h_jwtValidator h) as [v|]; [|by apply maintains_deletion].
  apply maintains_authn. intros r1. apply maintains_authz. intros r2. by apply maintains_deletion.
Qed.
End router.

(** ** The store *)

Record tenants (db : DB) : Prop := mk_tenants { tn_wf : db_wf db; tn_tenant : tenant_inv db }.

Section store.
Context `{Driver} `{Runtime} `{FieldValidators} `{UUIDLib}.
Context `{!DriverLaws} `{!Quiet} `{!FieldValidatorsLaws}.

(** A read leaves the database as it is. *)
Lemma maintains_read {A} (m : M A) (P : DB → error + A → Prop) :
  (∀ db t, db_wf db → wp m (λ r w', w_db w' = db ∧ w_tx w' = None ∧ P db r) (mkWorld db None t)) → maintains tenants m.
Proof.
  intros Hm db t Hi. eapply wp_mono; [apply Hm, Hi|]. intros r w' (-> & ? & _). done.
Qed.
Lemma wp_read_one {A} (m : M A) db t :
  wp m (λ _ w', w_db w' = db ∧ w_tx w' = None) (mkWorld db None t) →
  wp m (λ r w', w_db w' = db ∧ w_tx w' = None ∧ True) (mkWorld db None t).
Proof. intros Hm. eapply wp_mono; [exact Hm|]. naive_solver. Qed.
Lemma statuses_tenants db l : tenants db → db_wf (set_statuses (λ _, l) db) → tenants (set_statuses (λ _, l) db).
Proof. intros [_ Ht] Hwf'. by split. Qed.

Lemma GetProjectByID_read id db t : db_wf db →
  wp (GetProjectByID id) (λ _ w', w_db w' = db ∧ w_tx w' = None) (mkWorld db None t).
Proof.
  intros Hwf. unfold GetProjectByID. wp_step. unfold ProjectQuery_Only. wp_step.
  change (ProjectQuery_Limit 2 _) with (loaded (mkQuery [project_ID id; project_DeletedAtIsNil] [] (Some 2%Z))).
  apply wp_ProjectQuery_All; simpl; [done|set_solver|done| |done].
  intros ps t' _. wp_step. destruct (only_node _ _); [done|]. by wp_step.
Qed.
Lemma DeriveStatus_read rt id del cs db t :
  wp (DeriveStatus rt id del cs) (λ _ w', w_db w' = db ∧ w_tx w' = None) (mkWorld db None t).
Proof.
  unfold DeriveStatus. wp_step. wp_step. unfold GetControllerStatuses. apply wp_All; simpl; [set_solver|done| |]; intros; by wp_step.
Qed.

(** A transaction keeps them when it does once it is carried out, heard or not. *)
Lemma maintains_tx {A} (m : M A) (failed : DB → error → Prop) (done : DB → A → DB → Prop) :
  (∀ db t, db_wf db → wp m (λ r w', w_tx w' = None ∧ all_or_nothing db (failed db) (done db) r (w_db w')) (mkWorld db None t)) →
  (∀ db a d, tenants db → done db a d → tenants d) → maintains tenants m.
Proof.
  intros Hm Hd db t Hi. eapply wp_mono; [apply Hm, Hi|]. intros r w' [? Hr]. split; [done|].
  refine (proj1 (all_or_nothing_keeps _ _ _ _ _ tenants (λ _, True) Hr Hi _)). intros a d Ha. split; [by eapply Hd|done].
Qed.

#[export] Instance Store_maintains : MaintainingStore (H := Store_backend) tenants.
Proof.
  split; simpl; intros.
  - eapply maintains_read. intros db t Hwf. by apply GetOrgNamesByUUIDs_ok.
  - eapply maintains_read. intros db t Hwf. by apply GetOrgIncludingDeleted_spec.
  - eapply maintains_read. intros db t Hwf. by apply GetProjectIncludingDeleted_ok.
  - eapply maintains_read. intros db t Hwf. apply ListOrgs_spec.
  - eapply maintains_read. intros db t Hwf. by apply GetOrg_ok.
  - eapply maintains_tx; [intros db t Hwf; by apply CreateOrg_ok|]. intros db o d' [Hwf Ht] [Hc Hwf'].
    split; [done|]. by apply (org_created_tenant name d db _ o).
  - eapply maintains_tx; [intros db t Hwf; by apply UpdateOrg_ok|]. intros db o' d' [Hwf Ht] [(o & u & (Ho & _) & _ & ->) Hwf'].
    split; [done|]. by apply org_updated_tenant.
  - eapply maintains_tx; [intros db t Hwf; by apply DeleteOrg_ok|].
    intros db ? d [Hwf Ht] [(o & ps & now & u & projs & evs & e & (Ho & _ & Hact) & Hnd & Hps & Hp & He & Hoe & ->) Hwf'].
    split; [done|]. by apply (org_deleted_tenant db o ps now).
  - eapply maintains_read. intros db t Hwf. by apply ListProjects_ok.
  - eapply maintains_read. intros db t Hwf. by apply GetProject_ok.
  - eapply maintains_tx; [intros db t Hwf; by apply CreateProject_ok|].
    intros db [n o] d' [Hwf Ht] [(f & p & e & (Ho & _ & Hact) & Hf & _ & _ & _ & Hpd & Hpf & _ & _ & _ & He & ->) Hwf'].
    split; [done|]. by apply (project_created_tenant db o f).
  - eapply maintains_tx; [intros db t Hwf; by apply UpdateProject_ok|].
    intros db [n o] d' [Hwf Ht] [(p & u & Hv & _ & _ & ->) Hwf']. split; [done|]. by apply (project_changed_tenant db p).
  - eapply maintains_tx; [intros db t Hwf; by apply DeleteProject_ok|].
    intros db ? d' [Hwf Ht] [(p & now & u & e & Hv & He & ->) Hwf']. split; [done|]. by apply (project_changed_tenant db p).
  - eapply maintains_read. intros db t Hwf. by apply wp_read_one, GetProjectByID_read.
  - eapply maintains_read. intros db t Hwf. by apply GetEventsAfter_ok.
  - eapply maintains_read. intros db t Hwf. by apply SynthesizeReplayEvents_ok.
  - eapply maintains_of; [intros db t Hi; apply UpsertControllerStatus_ok, Hi|]. intros db [e|[]] w' Hi [? Hr]; (split; [done|]).
    + by rewrite Hr.
    + destruct Hr as (_ & st & _ & _ & _ & _ & Heq & Hwf'). rewrite Heq in *. by apply statuses_tenants.
  - intros db t Hi. unfold DeleteControllerStatus. wp_step. apply wp_delete_now; intros; [|done]. wp_step. split; [done|].
    simpl. apply (statuses_tenants db (delete_rows _ (t_statuses db)) Hi).
    by apply (delete_status_wf db (holds (status_key c rt id) db)), Hi.
  - eapply maintains_read. intros db t Hwf. apply wp_read_one, DeriveStatus_read.
  - intros db t Hi. by wp_step.
Qed.
End store.

(** ** The process *)

(** The cleanup keeps active projects, their folders and their orgs. *)
Lemma purged_tenants cfg db db' : tenants db → purged cfg db db' → tenants db'.
Proof.
  intros [Hwf Ht] Hp. split; [apply Hp|]. intros p Hin Hact.
  destruct (Ht p (pg_projects _ _ _ Hp p Hin) Hact) as (o & Ho & Hoact). exists o. split; [|done].
  apply project_org_spec in Ho as (f & Hf & Hfid & Hoin & Hoid); [|done].
  apply project_org_spec; [apply Hp|]. exists f. split_and!; [|done| |done].
  - destruct (decide (f ∈ t_folders db')) as [|Hgone]; [done|].
    apply (pg_folder_gone _ _ _ Hp) in Hgone as [[? _]|(_ & o' & Ho' & Hid & Hdel)]; [done| |done].
    assert (o' = o) as -> by (apply (org_id_unique db); [done..|congruence]). rewrite Hoact in Hdel. by destruct Hdel.
  - destruct (decide (o ∈ t_orgs db')) as [|Hgone]; [done|].
    apply (pg_org_gone _ _ _ Hp) in Hgone as [Hdel _]; [|done]. rewrite Hoact in Hdel. by destruct Hdel.
Qed.

(** The start and the requests keep what the store keeps. *)
Section serving.
Context `{Driver} `{Runtime} `{FieldValidators} `{UUIDLib} `{Chi}.
Context (I : DB → Prop) `{Hs : !MaintainingStore (H := Store_backend) I}.

Lemma maintains_Bootstrap a b : maintains I (Bootstrap a b).
Proof.
  pose proof (mt_GetOrg (H:=Store_backend) a) as Hget. pose proof (mt_CreateOrg (H:=Store_backend)) as Hco.
  pose proof (mt_CreateProject (H:=Store_backend)) as Hcp. simpl in Hget, Hco, Hcp.
  unfold Bootstrap. maintain.
Qed.
Lemma maintains_request h r : maintains I (run_activity h (ServeRequest r)).
Proof.
  apply maintains_bind; [|intros; apply maintains_ret].
  apply maintains_try. by apply (maintains_Router (H0 := Store_backend)); try apply _.
Qed.
End serving.

Section process.
Context `{Driver} `{Runtime} `{FieldValidators} `{UUIDLib} `{Chi}.
Context `{!DriverLaws} `{!Quiet} `{!FieldValidatorsLaws}.

Lemma maintains_cleanup_tick cfg : maintains tenants (cleanup_tick cfg).
Proof.
  unfold cleanup_tick. apply maintains_bind; [|intros _; apply maintains_bind; [|intros _; apply maintains_ret]];
    apply maintains_try; (eapply maintains_of; [intros db t Hi|]).
  - apply CleanupOldEvents_spec, Hi.
  - intros db [e|n] w' [Hwf Ht] [? Hr]; (split; [done|]); [by rewrite Hr|].
    destruct Hr as (now & Heq & _ & Hwf'). rewrite Heq in *. by split.
  - apply CleanupHardDelete_ok, Hi.
  - intros db r w' Hi (? & Hp & _). split; [done|]. by eapply purged_tenants.
Qed.
Lemma maintains_activity h a : maintains tenants (run_activity h a).
Proof. destruct a; [apply maintains_request, _|apply maintains_cleanup_tick]. Qed.

Lemma tenants_empty : tenants empty_db.
Proof. split; [apply empty_db_wf|]. by intros p Hp%elem_of_nil. Qed.

(** C4: from the empty database, or from any in which the schema's constraints hold and every
    active project belongs to an active org, the process keeps that true while it is the only one that
    writes and serves one request after another: with any settings and flags, after the bootstrap
    and after any sequence of requests, allowed or refused, and rounds of the cleanup, each of which
    may fail at any statement, at a COMMIT or by the loss of its answer; and no transaction stays
    open. *)
Theorem tenancy_main_inv Getenv ReadFile yaml New flags activities db t : tenants empty_db ∧ (tenants db →
  wp (tenancy_main Getenv ReadFile yaml New flags activities) (λ _ w', w_tx w' = None ∧ tenants (w_db w'))
     (mkWorld db None t)).
Proof.
  split; [apply tenants_empty|]. revert db t. change (maintains tenants (tenancy_main Getenv ReadFile yaml New flags activities)).
  unfold tenancy_main. cbv zeta. apply maintains_bind; [apply maintains_Bootstrap, _|]. intros _.
  destruct (main_validator _ _ _); [apply maintains_fail|]. apply maintains_for_each. apply maintains_activity.
Qed.
End process.

(** ** Several instances

    The process among other connections that keep the log, too, with the operations of
    StoreShared.v. *)

Section shared_process.
Context `{Driver} `{Runtime} `{FieldValidators} `{UUIDLib} `{Chi}.
Context `{!DriverLaws} `{!SharedLog}.

Lemma keeps_maintains {A} (m : M A) : keeps_log m → maintains log_ok m.
Proof. intros Hm db t Hl. by apply Hm. Qed.
Lemma read_maintains {A} (m : M A) `{!ReadOnly m} : maintains log_ok m.
Proof. apply keeps_maintains, read_keeps, _. Qed.

#[export] Instance Store_keeps_log : MaintainingStore (H := Store_backend) log_ok.
Proof.
  split; simpl; intros; try apply read_maintains, _; apply keeps_maintains.
  - apply CreateOrg_keeps.
  - apply UpdateOrg_keeps.
  - apply DeleteOrg_keeps.
  - apply CreateProject_keeps.
  - apply UpdateProject_keeps.
  - apply DeleteProject_keeps.
  - apply SynthesizeReplayEvents_keeps.
  - apply UpsertControllerStatus_keeps.
  - apply DeleteControllerStatus_keeps.
Qed.

(** C5: among other connections that commit between any two of its statements, within row locks
    and unique indexes, and keep the event log exact as it does itself, an instance of the
    process that starts and serves requests, each of which may fail at any statement or at its
    commit, leaves the log exact: every org and every project is announced as created once, and
    as deleted once if and only if it is deleted, also when two connections delete it at the
    same time; and no transaction stays open. *)
Theorem tenancy_main_log Getenv ReadFile yaml New flags requests db t : log_ok db →
  wp (tenancy_main Getenv ReadFile yaml New flags (ServeRequest <$> requests))
     (λ _ w', w_tx w' = None ∧ log_ok (w_db w')) (mkWorld db None t).
Proof.
  revert db t. change (maintains log_ok (tenancy_main Getenv ReadFile yaml New flags (ServeRequest <$> requests))).
  unfold tenancy_main. cbv zeta. apply maintains_bind; [apply maintains_Bootstrap, _|]. intros _.
  destruct (main_validator _ _ _); [apply maintains_fail|].
  induction requests as [|r requests IH]; [apply maintains_ret|]. apply maintains_bind; [apply maintains_request, _|by intros _].
Qed.
End shared_process.
