(* ===== verification/Jwt.v ===== *)
(** * The JWT validator (tenancy-manager/internal/api/auth.go, [JWTValidator])

    The validator's state is its cache of public keys; [Validate] is the function
    [AuthnMiddleware] calls.  golang-jwt, go-jose, the network and the encoders of
    crypto/x509 and encoding/pem are the parameter [JWTLib]; [JWTLibLaws] is what
    the documentation of [jwt.ParseWithClaims] says of its use of the key function.
    The mutex makes each access to the cache atomic; concurrent requests are not
    modelled. *)

From S2P Require Import Prelude GoStd Monad EntSchema Sqlgraph EntQuery Http Auth.

(** [jwt.Token] before verification: its method and its header. *)
Record Token := mkToken { Method_Alg : string; Header : list (string * JSON) }.
(** a key of [jose.JSONWebKeySet] *)
Record JSONWebKey (PublicKey : Type) := mkJSONWebKey { KeyID : string; Key : PublicKey }.
Arguments mkJSONWebKey {_}. Arguments KeyID {_}. Arguments Key {_}.
(** An answer of [http.Client.Get]: its status, and its body or the error of reading it. *)
Record HTTPResponse := mkHTTPResponse { hr_StatusCode : Z; hr_Body : error + string }.

Record JWTValidator := mkJWTValidator {
  oidcServerURL : string;
  publicKeys : gmap string string;
  (** how many requests the validator has sent *)
  v_calls : nat }.

(** A computation on the validator. *)
Notation V := (EM JWTValidator).

Class JWTLib := {
  RSAPublicKey : Type;
  JWKPublicKey : Type;
  ParseWithClaims : string → (Token → V RSAPublicKey) → V MapClaims;
  (** the token a string encodes, and what it takes for a key to verify it *)
  parsed : string → Token → Prop;
  verifies : string → RSAPublicKey → MapClaims → Prop;
  ParseRSAPublicKeyFromPEM : string → error + RSAPublicKey;
  MarshalPKIXPublicKey : JWKPublicKey → error + string;
  EncodeToMemory : string → string → string;
  (** the answer to the n-th request, to the given URL *)
  http_Get : nat → string → error + HTTPResponse;
  Unmarshal_provider : string → error + string;
  Unmarshal_JWKS : string → error + list (JSONWebKey JWKPublicKey) }.

Class JWTLibLaws `{JWTLib} : Prop := {
  (** accepted: the key function was asked about the parsed token, and its key
      verifies the string with these claims *)
  ParseWithClaims_ok : ∀ s kf v claims v', ParseWithClaims s kf v = (inr claims, v') →
    ∃ tok key, parsed s tok ∧ kf tok v = (inr key, v') ∧ verifies s key claims;
  (** refused: the key function was asked once or not at all *)
  ParseWithClaims_err : ∀ s kf v e v', ParseWithClaims s kf v = (inl e, v') →
    v' = v ∨ ∃ tok, parsed s tok ∧ v' = (kf tok v).2 }.

Definition maxJWKSBodyBytes : nat := N.to_nat (2 ^ 20).
(** the first [n] bytes *)
Definition str_take (n : nat) (s : string) : string := String.substring 0 n s.

Section validator.
Context `{JWTLib}.

Definition getKey (kid : string) (v : JWTValidator) : option string := publicKeys v !! kid.

(** A GET, and the bounded read of the body of a 200 answer; the three errors are
    wrapped with the texts of the caller. *)
Definition fetch (failed status reading url : string) : V string := λ v,
  let v' := mkJWTValidator (oidcServerURL v) (publicKeys v) (S (v_calls v)) in
  (match http_Get (v_calls v) url with
   | inl err => inl (Errorf failed err)
   | inr resp =>
       if negb (hr_StatusCode resp =? StatusOK)%Z
       then inl (errText (status +:+ itoa (Z.to_nat (hr_StatusCode resp))))
       else match hr_Body resp with
            | inl err => inl (Errorf reading err)
            | inr body => inr (str_take maxJWKSBodyBytes body)
            end
   end, v').

(** The loop that builds [newKeys]. *)
Fixpoint build_keys (keys : list (JSONWebKey JWKPublicKey)) (newKeys : gmap string string)
    : error + gmap string string :=
  match keys with
  | [] => inr newKeys
  | key :: keys =>
      match MarshalPKIXPublicKey (Key key) with
      | inl err => inl (Errorf "marshaling public key: " err)
      | inr der => build_keys keys (<[KeyID key := EncodeToMemory "PUBLIC KEY" der]> newKeys)
      end
  end.

Definition refreshKeys : V () := λ v,
  match fetch "OIDC discovery failed: " "OIDC discovery returned HTTP "
          "reading OIDC discovery response: " (oidcServerURL v +:+ "/.well-known/openid-configuration") v with
  | (inl err, v) => (inl err, v)
  | (inr body, v) =>
      match Unmarshal_provider body with
      | inl err => (inl (Errorf "parsing OIDC discovery: " err), v)
      | inr JWKSURL =>
          match fetch "fetching JWKS: " "JWKS endpoint returned HTTP " "reading JWKS response: " JWKSURL v with
          | (inl err, v) => (inl err, v)
          | (inr keysBody, v) =>
              match Unmarshal_JWKS keysBody with
              | inl err => (inl (Errorf "parsing JWKS: " err), v)
              | inr jwks =>
                  match build_keys jwks ∅ with
                  | inl err => (inl err, v)
                  | inr newKeys => (inr (), mkJWTValidator (oidcServerURL v) newKeys (v_calls v))
                  end
              end
          end
      end
  end.

(** The function literal of [Validate]. *)
Definition keyfunc (token : Token) : V RSAPublicKey := λ v,
  let alg := Method_Alg token in
  if HasPrefix alg "RS" || HasPrefix alg "PS" then
    match member "kid" (Header token) with
    | None => (inl (errText "token missing kid header"), v)
    | Some keyID =>
        match keyID with
        | JStr kid =>
            match getKey kid v with
            | Some pubKeyPEM => (ParseRSAPublicKeyFromPEM pubKeyPEM, v)
            | None =>
                match refreshKeys v with
                | (inl err, v) => (inl (Errorf "failed to refresh JWKS: " err), v)
                | (inr _, v) =>
                    match getKey kid v with
                    | None => (inl (errText ("unknown key ID: " +:+ kid)), v)
                    | Some pubKeyPEM => (ParseRSAPublicKeyFromPEM pubKeyPEM, v)
                    end
                end
            end
        | _ => (inl (errText "token kid header is not a string"), v)
        end
    end
  else (inl (errText ("unsupported signing algorithm " +:+ quote alg +:+ ": only RS*/PS* are accepted")), v).

Definition Validate (tokenString : string) : V MapClaims := ParseWithClaims tokenString keyfunc.

(** [NewJWTValidator]: the first fetch may fail. *)
Definition NewJWTValidator (url : string) : JWTValidator :=
  (refreshKeys (mkJWTValidator url ∅ 0)).2.
End validator.

(** ** Correctness *)

Section correct.
Context `{JWTLib} `{!JWTLibLaws}.

(** the PEM keys of a served key set *)
Definition pem_of (key : JSONWebKey JWKPublicKey) (pem : string) : Prop :=
  ∃ der, MarshalPKIXPublicKey (Key key) = inr der ∧ pem = EncodeToMemory "PUBLIC KEY" der.

Lemma build_keys_spec keys m m' : build_keys keys m = inr m' →
  ∀ kid pem, m' !! kid = Some pem → m !! kid = Some pem ∨ ∃ key, key ∈ keys ∧ KeyID key = kid ∧ pem_of key pem.
Proof.
  revert m. induction keys as [|key keys IH]; intros m; simpl; [intros [= ->]; auto|].
  destruct (MarshalPKIXPublicKey (Key key)) as [|der] eqn:Hd; [done|]. intros Hb kid pem Hm.
  apply (IH _ Hb) in Hm as [Hm|(k & ? & ? & ?)]; [|right; exists k; set_solver].
  destruct (decide (KeyID key = kid)) as [<-|Hne].
  - rewrite lookup_insert_eq in Hm. simplify_eq. right. exists key. split_and!; [set_solver|done|by eexists].
  - rewrite lookup_insert_ne in Hm by done. auto.
Qed.

(** The cache after a refresh: replaced as a whole, or untouched. *)
Lemma refreshKeys_spec v : let '(r, v') := refreshKeys v in
  oidcServerURL v' = oidcServerURL v ∧ (v_calls v' ≤ S (S (v_calls v)))%nat ∧
  match r with
  | inl _ => publicKeys v' = publicKeys v
  | inr _ => ∃ body keys, Unmarshal_JWKS body = inr keys ∧ build_keys keys ∅ = inr (publicKeys v')
  end.
Proof.
  unfold refreshKeys, fetch.
  repeat (case_match; simplify_eq/=; try (split_and!; [done|lia|done])).
  split_and!; [done|lia|by eexists _, _].
Qed.

(** the cache of public keys is replaced as a whole by a refresh that succeeds,
    every key in it coming from the key set just served, and is left untouched by
    one that fails; a refresh sends at most two requests. *)
Theorem refreshKeys_all_or_nothing v r v' : refreshKeys v = (r, v') →
  oidcServerURL v' = oidcServerURL v ∧ (v_calls v' ≤ S (S (v_calls v)))%nat ∧
  match r with
  | inl _ => publicKeys v' = publicKeys v
  | inr _ => ∃ body keys, Unmarshal_JWKS body = inr keys ∧
      ∀ kid pem, publicKeys v' !! kid = Some pem →
        ∃ key, key ∈ keys ∧ KeyID key = kid ∧ pem_of key pem
  end.
Proof.
  intros Hr. pose proof (refreshKeys_spec v) as Hs. rewrite Hr in Hs. destruct Hs as (? & ? & Hs).
  split_and!; [done..|]. destruct r as [e|[]]; [done|]. destruct Hs as (body & keys & Hu & Hb).
  exists body, keys. split; [done|]. intros kid pem Hk.
  apply (build_keys_spec _ _ _ Hb) in Hk as [Hk|?]; [by rewrite lookup_empty in Hk|done].
Qed.

Lemma keyfunc_spec tok v : let '(r, v') := keyfunc tok v in
  (v' = v ∨ ∃ kid, member "kid" (Header tok) = Some (JStr kid) ∧ getKey kid v = None ∧ v' = (refreshKeys v).2) ∧
  match r with
  | inl _ => True
  | inr key => (HasPrefix (Method_Alg tok) "RS" = true ∨ HasPrefix (Method_Alg tok) "PS" = true) ∧
      ∃ kid pem, member "kid" (Header tok) = Some (JStr kid) ∧ publicKeys v' !! kid = Some pem ∧
        ParseRSAPublicKeyFromPEM pem = inr key
  end.
Proof.
  unfold keyfunc. destruct (HasPrefix _ "RS" || HasPrefix _ "PS") eqn:Ha; [|by auto].
  apply orb_true_iff in Ha. destruct (member "kid" (Header tok)) as [j|] eqn:Hk; [|by auto].
  destruct j as [| | |kid| |]; try by auto.
  destruct (getKey kid v) as [pem|] eqn:Hg.
  - split; [by left|]. destruct (ParseRSAPublicKeyFromPEM pem) eqn:Hp; [done|]. split; [done|]. eauto 10.
  - destruct (refreshKeys v) as [[e|[]] v'] eqn:Hr; [split; [right; by exists kid|done]|].
    destruct (getKey kid v') as [pem|] eqn:Hg'; (split; [right; by exists kid|]); [|done].
    destruct (ParseRSAPublicKeyFromPEM pem) eqn:Hp; [done|]. split; [done|]. eauto 10.
Qed.

(** C22: a token is accepted only if its algorithm is RS* or PS*, its [kid] is a string,
    and a key of the validator's cache under that [kid] verifies it with the claims
    returned: an HMAC or unsigned token never is.  The cache is refreshed at most
    once, and only when the [kid] is not in it. *)
Theorem Validate_asymmetric s v claims v' : Validate s v = (inr claims, v') →
  ∃ tok kid pem key, parsed s tok ∧
    (HasPrefix (Method_Alg tok) "RS" = true ∨ HasPrefix (Method_Alg tok) "PS" = true) ∧
    member "kid" (Header tok) = Some (JStr kid) ∧
    publicKeys v' !! kid = Some pem ∧ ParseRSAPublicKeyFromPEM pem = inr key ∧
    verifies s key claims ∧
    (v' = v ∨ (publicKeys v !! kid = None ∧ v' = (refreshKeys v).2)).
Proof.
  intros Hv. apply ParseWithClaims_ok in Hv as (tok & key & Htok & Hkf & Hver).
  pose proof (keyfunc_spec tok v) as Hs. rewrite Hkf in Hs.
  destruct Hs as [Hst (Halg & kid & pem & Hkid & Hpem & Hkey)].
  exists tok, kid, pem, key. split_and!; try done.
  destruct Hst as [->|(kid' & Hk' & Hg & ->)]; [by left|]. rewrite Hkid in Hk'. simplify_eq. auto.
Qed.

(** a refused token leaves the cache as it was, or refreshed once. *)
Theorem Validate_refused s v e v' : Validate s v = (inl e, v') →
  (v_calls v' ≤ S (S (v_calls v)))%nat ∧ (publicKeys v' = publicKeys v ∨ v' = (refreshKeys v).2).
Proof.
  intros Hv. apply ParseWithClaims_err in Hv as [->|(tok & _ & ->)]; [split; [lia|auto]|].
  pose proof (keyfunc_spec tok v) as Hs. destruct (keyfunc tok v) as [r v']. simpl.
  destruct Hs as [[->|(kid & _ & _ & ->)] _]; [split; [lia|auto]|].
  pose proof (refreshKeys_spec v) as Hr. destruct (refreshKeys v) as [r' v'']. simpl.
  split; [apply Hr|by right].
Qed.
End correct.
