(* ===== verification/Keycloak.v ===== *)
(** * The Keycloak tenant controller (keycloak-tenant-controller)

    pkg/keycloak/gocloak.go (one wrapper per call of the Keycloak API),
    pkg/keycloak/client.go (creating and deleting the roles and groups of an org or
    a project) and pkg/tdmclient/tdmclient.go (the handler of tenancy events).

    The libraries gocloak and gocloaksession and the server behind them are the
    parameter [Gocloak]: each call gets the tick of the call and the realm, and
    answers, possibly changing the realm.  [GocloakLaws] says what a call may do to
    the realm; it lets a creation be acknowledged and lost, as client.go says
    Keycloak does.  Go ranges over a map in an unspecified order, a new one each
    time: [range_order].  Time-outs are failures of calls; log lines are left out. *)

From S2P Require Import Prelude GoStd Monad EntSchema EntQuery.

(** gocloak.go, [GroupRepresentation] *)
Record GroupRepresentation := mkGroup { Group_ID : string; Group_Name : string }.
#[export] Instance GroupRepresentation_eq_dec : EqDecision GroupRepresentation.
Proof. solve_decision. Defined.

(** The realm on the server: its roles, its groups, the roles mapped to groups. *)
Record Realm := mkRealm {
  rl_roles : list string;
  rl_groups : list GroupRepresentation;
  rl_mapped : list (string * string) }.

Record KWorld := mkKWorld { k_realm : Realm; k_tick : nat }.
Notation K := (EM KWorld).

(** The JSON value of KEYCLOAK_ORG_GROUPS, KEYCLOAK_PROJ_GROUPS: role names by group
    name; keys are distinct. *)
Definition Groups := list (string * list string).

Class Gocloak := {
  kc_GetKeycloakAuthToken : nat → error + string;
  (** the representation of the realm: [None] is a nil pointer, as is its [Enabled] *)
  kc_GetRealm : nat → string → error + option (option bool);
  kc_CreateRealmRole : nat → Realm → string → option error * Realm;
  kc_GetRealmRoles : nat → Realm → error + list string;
  kc_DeleteRealmRole : nat → Realm → string → option error * Realm;
  kc_CreateGroup : nat → Realm → string → option error * Realm;
  (** the optional argument is [Search] *)
  kc_GetGroups : nat → Realm → option string → error + list GroupRepresentation;
  kc_DeleteGroup : nat → Realm → string → option error * Realm;
  kc_AddRealmRoleToGroup : nat → Realm → string → list string → option error * Realm;
  range_order : nat → Groups → Groups }.

Section gocloak.
Context `{Gocloak}.

(** A call that reads, and one that may change the realm. *)
Definition k_read {A} (f : nat → Realm → error + A) : K A := λ w,
  (f (k_tick w) (k_realm w), mkKWorld (k_realm w) (S (k_tick w))).
Definition k_write (f : nat → Realm → option error * Realm) : K () := λ w,
  let '(e, rl) := f (k_tick w) (k_realm w) in
  (match e with Some e => inl e | None => inr () end, mkKWorld rl (S (k_tick w))).
(** [fmt.Errorf("...: %v", err)]: the text of the error, its identity lost. *)
Definition Errorv (pre : string) (e : error) : error := errText (pre +:+ Error e).

Definition auth_token : K string :=
  map_error (Errorv "failed to get json web token: ") (k_read (λ t _, kc_GetKeycloakAuthToken t)).

Definition ensureRealmExists (realmName : string) : K bool :=
  _ ← auth_token;
  rep ← map_error (Errorv ("failed to get realm representation for realm " +:+ realmName +:+ ": "))
          (k_read (λ t _, kc_GetRealm t realmName));
  match rep with
  | None => fail (errText ("realm representation for realm " +:+ realmName +:+ " is nil"))
  | Some (Some true) => mret true
  | Some _ => fail (errText ("realm representation for realm " +:+ realmName +:+ " is nil or not enabled"))
  end.

Definition createRole (realm role : string) : K () :=
  _ ← auth_token;
  map_error (Errorv ("failed to create role " +:+ role +:+ " in realm " +:+ realm +:+ ": "))
    (k_write (λ t rl, kc_CreateRealmRole t rl role)).

Definition getRoles (realm : string) : K (list string) :=
  _ ← auth_token;
  map_error (Errorv ("failed to get roles in realm " +:+ realm +:+ ": ")) (k_read kc_GetRealmRoles).

Definition deleteRole (realm role : string) : K () :=
  _ ← auth_token;
  map_error (Errorv ("failed to delete role " +:+ role +:+ " in realm " +:+ realm +:+ ": "))
    (k_write (λ t rl, kc_DeleteRealmRole t rl role)).

Definition createGroup (realm groupName : string) : K () :=
  _ ← auth_token;
  map_error (Errorv ("failed to create group " +:+ groupName +:+ " in realm " +:+ realm +:+ ": "))
    (k_write (λ t rl, kc_CreateGroup t rl groupName)).

Definition getGroups (realm : string) : K (list GroupRepresentation) :=
  _ ← auth_token;
  map_error (Errorv ("failed to get groups in realm " +:+ realm +:+ ": "))
    (k_read (λ t rl, kc_GetGroups t rl None)).

Definition deleteGroup (realm groupID : string) : K () :=
  _ ← auth_token;
  map_error (Errorv ("failed to delete group " +:+ groupID +:+ " in realm " +:+ realm +:+ ": "))
    (k_write (λ t rl, kc_DeleteGroup t rl groupID)).

(** The loop of [getRolesByNames]: every name must be a role of the realm. *)
Fixpoint pick_roles (realm : string) (roles roleNames : list string) : error + list string :=
  match roleNames with
  | [] => inr []
  | roleName :: roleNames =>
      if existsb (String.eqb roleName) roles
      then match pick_roles realm roles roleNames with
           | inl e => inl e
           | inr l => inr (roleName :: l)
           end
      else inl (errText ("role " +:+ roleName +:+ " not found in realm " +:+ realm))
  end.
Definition getRolesByNames (realm : string) (roleNames : list string) : K (list string) :=
  _ ← auth_token;
  roles ← map_error (Errorv ("failed to get roles in realm " +:+ realm +:+ ": ")) (k_read kc_GetRealmRoles);
  of_result (pick_roles realm roles roleNames).

Definition getGroupByName (realm groupName : string) : K GroupRepresentation :=
  _ ← auth_token;
  groups ← map_error (Errorv ("failed to get groups in realm " +:+ realm +:+ ": "))
             (k_read (λ t rl, kc_GetGroups t rl (Some groupName)));
  of_result (match find (λ g, String.eqb (Group_Name g) groupName) groups with
             | Some g => inr g
             | None => inl (errText ("group " +:+ groupName +:+ " not found in realm " +:+ realm))
             end).

Definition addRolesToGroup (realm groupName : string) (roleNames : list string) : K () :=
  _ ← auth_token;
  group ← map_error (Errorv ("failed to get group by name " +:+ groupName +:+ " in realm " +:+ realm +:+ ": "))
            (getGroupByName realm groupName);
  roles ← map_error (Errorv ("failed to get roles by names [" +:+ Join roleNames " " +:+ "] in realm "
                             +:+ realm +:+ ": "))
            (getRolesByNames realm roleNames);
  map_error (Errorv ("failed to add roles to group " +:+ groupName +:+ " in realm " +:+ realm +:+ ": "))
    (k_write (λ t rl, kc_AddRealmRoleToGroup t rl (Group_ID group) roles)).
End gocloak.

(** ** client.go *)

Definition orgPrefix : string := "<org-id>".
Definition projPrefix : string := "<project-id>".
Definition retryAttempts : nat := 10.

(** The two replacements of every group and role name. *)
Definition instantiate (orgID projID name : string) : string :=
  ReplaceAll (ReplaceAll name orgPrefix orgID) projPrefix projID.

Definition isErrorForAlreadyExists (err : error) : bool := Contains (Error err) "409".

Record KClient := mkKClient {
  kc_orgGroups : Groups;
  kc_projGroups : Groups;
  kc_siGroups : Groups;
  kc_realm : string }.

(** [tenancy.Event] of orch-library: the fields the handler reads. *)
Record Event := mkEvent {
  ev_EventType : string; ev_ResourceType : string; ev_ResourceID : UUID; ev_ResourceName : string;
  ev_OrgID : option UUID }.

Section client.
Context `{Gocloak} (c : KClient).

(** Creating a group or a role: a 409 is success. *)
Definition create_or_exists (m : K ()) : K () :=
  r ← try m;
  match r with
  | inl err => if isErrorForAlreadyExists err then mret () else fail err
  | inr _ => mret ()
  end.

Fixpoint create_roles (orgID projID : string) (roleNames : list string) : K (list string) :=
  match roleNames with
  | [] => mret []
  | roleName :: roleNames =>
      let roleName := instantiate orgID projID roleName in
      _ ← create_or_exists (createRole (kc_realm c) roleName);
      rest ← create_roles orgID projID roleNames;
      mret (roleName :: rest)
  end.

(** The body of the range over the groups. *)
Fixpoint create_groups (orgID projID : string) (groups : Groups) : K () :=
  match groups with
  | [] => mret ()
  | (groupName, roleNames) :: groups =>
      let groupName := instantiate orgID projID groupName in
      _ ← create_or_exists (createGroup (kc_realm c) groupName);
      updatedRoleNames ← create_roles orgID projID roleNames;
      _ ← addRolesToGroup (kc_realm c) groupName updatedRoleNames;
      create_groups orgID projID groups
  end.

(** [range groups] in the order of this moment. *)
Definition ranged {A} (groups : Groups) (body : Groups → K A) : K A := λ w,
  body (range_order (k_tick w) groups) (mkKWorld (k_realm w) (S (k_tick w))).

Fixpoint check_roles (orgID projID : string) (existingRoles roleNames : list string) : option error :=
  match roleNames with
  | [] => None
  | roleName :: roleNames =>
      let roleName := instantiate orgID projID roleName in
      if existsb (String.eqb roleName) existingRoles then check_roles orgID projID existingRoles roleNames
      else Some (errText ("keycloak realm " +:+ kc_realm c +:+ " does not contain role " +:+ roleName))
  end.
Fixpoint check_groups (orgID projID : string) (existingGroups : list GroupRepresentation)
    (existingRoles : list string) (groups : Groups) : option error :=
  match groups with
  | [] => None
  | (groupName, roleNames) :: groups =>
      let groupName := instantiate orgID projID groupName in
      if negb (existsb (λ g, String.eqb (Group_Name g) groupName) existingGroups)
      then Some (errText ("keycloak realm " +:+ kc_realm c +:+ " does not contain group " +:+ groupName))
      else match check_roles orgID projID existingRoles roleNames with
           | Some e => Some e
           | None => check_groups orgID projID existingGroups existingRoles groups
           end
  end.
Definition checkRolesAndGroupsCreated (orgID projID : string) (groups : Groups) : K () :=
  existingGroups ← getGroups (kc_realm c);
  existingRoles ← getRoles (kc_realm c);
  ranged groups (λ groups, of_result (match check_groups orgID projID existingGroups existingRoles groups with
                                      | Some e => inl e
                                      | None => inr ()
                                      end)).

(** The retry loop; [remaining] is what is left of the retries. *)
Fixpoint create_loop (remaining : nat) (orgID projID : string) (groups : Groups) : K () :=
  _ ← ranged groups (create_groups orgID projID);
  ok ← try (checkRolesAndGroupsCreated orgID projID groups);
  match ok with
  | inr _ => mret ()
  | inl _ =>
      match remaining with
      | O => fail (errText ("role or group does not exist in Keycloak after "
                            +:+ itoa (retryAttempts + 1) +:+ " attempts to create"))
      | S remaining => create_loop remaining orgID projID groups
      end
  end.
Definition createRolesAndGroups (orgID projID : string) (groups : Groups) : K () :=
  _ ← ensureRealmExists (kc_realm c);
  create_loop retryAttempts orgID projID groups.

Fixpoint delete_roles (id : string) (roles : list string) : K () :=
  match roles with
  | [] => mret ()
  | role :: roles =>
      _ ← (if Contains role id then deleteRole (kc_realm c) role else mret ());
      delete_roles id roles
  end.
Fixpoint delete_groups (id : string) (groups : list GroupRepresentation) : K () :=
  match groups with
  | [] => mret ()
  | group :: groups =>
      _ ← (if Contains (Group_Name group) id then deleteGroup (kc_realm c) (Group_ID group) else mret ());
      delete_groups id groups
  end.
Definition deleteRolesAndGroups (id : string) : K () :=
  _ ← ensureRealmExists (kc_realm c);
  roles ← getRoles (kc_realm c);
  _ ← delete_roles id roles;
  groups ← getGroups (kc_realm c);
  delete_groups id groups.

Definition KC_CreateOrg (orgID : string) : K () := createRolesAndGroups orgID "" (kc_orgGroups c).
Definition KC_DeleteOrg (orgID : string) : K () := deleteRolesAndGroups orgID.
Definition KC_CreateProject (orgID projID : string) : K () :=
  createRolesAndGroups orgID projID (kc_projGroups c).
Definition KC_DeleteProject (projID : string) : K () := deleteRolesAndGroups projID.

(** *** tdmclient.go *)

Context `{UUIDLib}.

Definition handleOrgCreated (event : Event) : K () :=
  map_error (λ err, Errorf ("create org " +:+ ev_ResourceName event +:+ " in Keycloak: ") err)
    (KC_CreateOrg (uuid_String (ev_ResourceID event))).
Definition handleOrgDeleted (event : Event) : K () :=
  map_error (λ err, Errorf ("delete org " +:+ ev_ResourceName event +:+ " from Keycloak: ") err)
    (KC_DeleteOrg (uuid_String (ev_ResourceID event))).
Definition handleProjectCreated (event : Event) : K () :=
  let orgID := match ev_OrgID event with Some id => uuid_String id | None => "" end in
  map_error (λ err, Errorf ("create project " +:+ ev_ResourceName event +:+ " in Keycloak: ") err)
    (KC_CreateProject orgID (uuid_String (ev_ResourceID event))).
Definition handleProjectDeleted (event : Event) : K () :=
  map_error (λ err, Errorf ("delete project " +:+ ev_ResourceName event +:+ " from Keycloak: ") err)
    (KC_DeleteProject (uuid_String (ev_ResourceID event))).

Definition HandleEvent (event : Event) : K () :=
  let ev_is rt et := String.eqb (ev_ResourceType event) rt && String.eqb (ev_EventType event) et in
  if ev_is "org" "created" then handleOrgCreated event
  else if ev_is "org" "deleted" then handleOrgDeleted event
  else if ev_is "project" "created" then handleProjectCreated event
  else if ev_is "project" "deleted" then handleProjectDeleted event
  else mret ().
End client.
