(* ===== verification/KeycloakSpec.v ===== *)
(** * Roles and groups of a tenant: correctness

    What the controller does to the realm, for a server that may fail or lose a
    creation at any call: a creation reported as done is there, nothing but the
    tenant's roles and groups is added or removed, a deletion reported as done has
    left nothing of the tenant; and for a server that works, a creation succeeds
    and every group has its roles. *)

From S2P Require Import Prelude GoStd Monad EntSchema Sqlgraph EntQuery EntMutation Store.
From S2P Require Import Backend Http Auth Logic AuthSpec Keycloak.

(** What one call of the server may do. *)
Class GocloakLaws `{Gocloak} : Prop := {
  GetRealmRoles_ok : ∀ t rl l, kc_GetRealmRoles t rl = inr l → ∀ r, r ∈ l ↔ r ∈ rl_roles rl;
  GetGroups_ok : ∀ t rl l, kc_GetGroups t rl None = inr l → ∀ g, g ∈ l ↔ g ∈ rl_groups rl;
  GetGroups_search : ∀ t rl n l, kc_GetGroups t rl (Some n) = inr l → ∀ g, g ∈ l → g ∈ rl_groups rl;
  CreateRealmRole_ok : ∀ t rl r e rl', kc_CreateRealmRole t rl r = (e, rl') →
    (∀ x, x ∈ rl_roles rl → x ∈ rl_roles rl') ∧ (∀ x, x ∈ rl_roles rl' → x ∈ rl_roles rl ∨ x = r) ∧
    rl_groups rl' = rl_groups rl ∧ rl_mapped rl' = rl_mapped rl;
  CreateGroup_ok : ∀ t rl n e rl', kc_CreateGroup t rl n = (e, rl') →
    rl_roles rl' = rl_roles rl ∧ rl_mapped rl' = rl_mapped rl ∧
    (∀ g, g ∈ rl_groups rl → g ∈ rl_groups rl') ∧
    (∀ g, g ∈ rl_groups rl' → g ∈ rl_groups rl ∨ Group_Name g = n);
  AddRealmRoleToGroup_ok : ∀ t rl id rs e rl', kc_AddRealmRoleToGroup t rl id rs = (e, rl') →
    rl_roles rl' = rl_roles rl ∧ rl_groups rl' = rl_groups rl ∧
    (∀ x, x ∈ rl_mapped rl → x ∈ rl_mapped rl') ∧
    (∀ x, x ∈ rl_mapped rl' → x ∈ rl_mapped rl ∨ (x.1 = id ∧ x.2 ∈ rs));
  DeleteRealmRole_ok : ∀ t rl r e rl', kc_DeleteRealmRole t rl r = (e, rl') →
    rl_groups rl' = rl_groups rl ∧
    (∀ x, x ∈ rl_roles rl' → x ∈ rl_roles rl ∧ (e = None → x ≠ r)) ∧
    (∀ x, x ∈ rl_roles rl → x ≠ r → x ∈ rl_roles rl');
  (** a group goes by its ID, which is unique *)
  DeleteGroup_ok : ∀ t rl id e rl', kc_DeleteGroup t rl id = (e, rl') →
    rl_roles rl' = rl_roles rl ∧
    (∀ g, g ∈ rl_groups rl' → g ∈ rl_groups rl ∧ (e = None → Group_ID g ≠ id)) ∧
    (∀ g, g ∈ rl_groups rl → Group_ID g ≠ id → g ∈ rl_groups rl');
  (** a new group has an ID of its own *)
  CreateGroup_ids : ∀ t rl n e rl', kc_CreateGroup t rl n = (e, rl') →
    NoDup (Group_ID <$> rl_groups rl) → NoDup (Group_ID <$> rl_groups rl');
  DeleteGroup_ids : ∀ t rl id e rl', kc_DeleteGroup t rl id = (e, rl') →
    NoDup (Group_ID <$> rl_groups rl) → NoDup (Group_ID <$> rl_groups rl');
  range_order_perm : ∀ t g, range_order t g ≡ₚ g }.

(** ** Preorders on realms kept by a computation *)

Definition keeps {A} (R : Realm → Realm → Prop) (m : K A) : Prop :=
  ∀ w, wp m (λ _ w', R (k_realm w) (k_realm w')) w.

Lemma wp_k_read {A} (f : nat → Realm → error + A) (Q : error + A → KWorld → Prop) w :
  Q (f (k_tick w) (k_realm w)) (mkKWorld (k_realm w) (S (k_tick w))) → wp (k_read f) Q w.
Proof. intros HQ. by apply (wp_run (k_read f) Q w _ _ eq_refl). Qed.
Lemma wp_k_write f (Q : error + () → KWorld → Prop) w :
  (∀ e rl', f (k_tick w) (k_realm w) = (e, rl') →
    Q (match e with Some e => inl e | None => inr () end) (mkKWorld rl' (S (k_tick w)))) →
  wp (k_write f) Q w.
Proof.
  intros HQ. destruct (f (k_tick w) (k_realm w)) as [e rl'] eqn:Hf. specialize (HQ _ _ eq_refl).
  eapply wp_run; [unfold k_write; by rewrite Hf|done].
Qed.

Section keeps.
Context `{Gocloak} (R : Realm → Realm → Prop) `{!PreOrder R}.

Lemma keeps_ret {A} (a : A) : keeps R (mret a).
Proof. intros w. by apply wp_ret. Qed.
Lemma keeps_fail {A} e : keeps (A:=A) R (fail e).
Proof. intros w. by apply wp_fail. Qed.
Lemma keeps_of_result {A} (r : error + A) : keeps R (of_result r).
Proof. intros w. by apply wp_of_result. Qed.
Lemma keeps_bind {A B} (m : K A) (k : A → K B) : keeps R m → (∀ a, keeps R (k a)) → keeps R (m ≫= k).
Proof.
  intros Hm Hk w. apply wp_bind. eapply wp_mono; [apply Hm|]. intros [e|a] w' Hw; [done|].
  eapply wp_mono; [apply Hk|]. intros ???. by etrans.
Qed.
Lemma keeps_try {A} (m : K A) : keeps R m → keeps R (try m).
Proof. intros Hm w. apply wp_try, Hm. Qed.
Lemma keeps_map_error {A} f (m : K A) : keeps R m → keeps R (map_error f m).
Proof. intros Hm w. apply wp_map_error. eapply wp_mono; [apply Hm|]. by intros []. Qed.
Lemma keeps_read {A} (f : nat → Realm → error + A) : keeps R (k_read f).
Proof. intros w. by apply wp_k_read. Qed.
Lemma keeps_write f : (∀ t rl e rl', f t rl = (e, rl') → R rl rl') → keeps R (k_write f).
Proof. intros Hf w. apply wp_k_write. intros e rl' Heq. by eapply Hf. Qed.
Lemma keeps_ranged {A} groups (body : Groups → K A) :
  (∀ t, keeps R (body (range_order t groups))) → keeps R (ranged groups body).
Proof.
  intros Hb w. destruct (wp_out _ _ _ (Hb (k_tick w) (mkKWorld (k_realm w) (S (k_tick w)))))
    as (r & w' & Heq & HR). by eapply wp_run.
Qed.
Lemma keeps_if {A} (b : bool) (m m' : K A) : keeps R m → keeps R m' → keeps R (if b then m else m').
Proof. by destruct b. Qed.
Lemma keeps_create_or_exists m : keeps R m → keeps R (create_or_exists m).
Proof.
  intros Hm. apply keeps_bind; [by apply keeps_try|]. intros [e|[]]; [|apply keeps_ret].
  apply keeps_if; [apply keeps_ret|apply keeps_fail].
Qed.
End keeps.

(** The reads of the controller change nothing. *)
Ltac keeps_read_step :=
  lazymatch goal with
  | |- keeps ?R _ =>
      first [ apply (keeps_ret R) | apply (keeps_fail R) | apply (keeps_of_result R) | apply (keeps_read R)
            | apply (keeps_map_error R) | apply (keeps_if R) | apply (keeps_try R)
            | apply (keeps_ranged R); intros ?
            | apply (keeps_bind R); [|intros ?]
            | match goal with |- keeps _ (match ?x with _ => _ end) => destruct x end ]
  end.

Section reads.
Context `{Gocloak} (c : KClient).

Lemma reads_keep R `{!PreOrder R} :
  (∀ n, keeps R (ensureRealmExists n)) ∧ (∀ n, keeps R (getRoles n)) ∧ (∀ n, keeps R (getGroups n)) ∧
  (∀ n g, keeps R (getGroupByName n g)) ∧ (∀ n l, keeps R (getRolesByNames n l)) ∧
  (∀ o p g, keeps R (checkRolesAndGroupsCreated c o p g)).
Proof.
  split_and!; intros;
    unfold checkRolesAndGroupsCreated, ensureRealmExists, getRoles, getGroups, getGroupByName, getRolesByNames, auth_token;
    repeat keeps_read_step.
Qed.

(** A read that answers leaves the realm as it was. *)
Lemma keeps_eq {A} (m : K A) w r w' : keeps eq m → m w = (r, w') → k_realm w' = k_realm w.
Proof. intros Hm Heq. symmetry. apply (proj1 (wp_run _ (λ _ w', k_realm w = k_realm w') _ _ _ Heq) (Hm w)). Qed.
End reads.

(** ** Creation *)

Section create.
Context `{Gocloak} `{!GocloakLaws} (c : KClient).

(** The names the templates of a tenant stand for. *)
Definition tenant_groups (orgID projID : string) (groups : Groups) : list string :=
  (λ g, instantiate orgID projID g.1) <$> groups.
Definition tenant_roles (orgID projID : string) (groups : Groups) : list string :=
  instantiate orgID projID <$> concat (snd <$> groups).

(** Only roles of [rs], groups named in [gs] and mappings of the ones to the others
    are added; nothing goes. *)
Record grown (gs rs : list string) (rl rl' : Realm) : Prop := mk_grown {
  gr_roles : ∀ r, r ∈ rl_roles rl → r ∈ rl_roles rl';
  gr_roles_new : ∀ r, r ∈ rl_roles rl' → r ∈ rl_roles rl ∨ r ∈ rs;
  gr_groups : ∀ g, g ∈ rl_groups rl → g ∈ rl_groups rl';
  gr_groups_new : ∀ g, g ∈ rl_groups rl' → g ∈ rl_groups rl ∨ Group_Name g ∈ gs;
  gr_ids : NoDup (Group_ID <$> rl_groups rl) → NoDup (Group_ID <$> rl_groups rl');
  gr_mapped : ∀ x, x ∈ rl_mapped rl → x ∈ rl_mapped rl';
  gr_mapped_new : ∀ x, x ∈ rl_mapped rl' → x ∈ rl_mapped rl ∨
    (x.2 ∈ rs ∧ ∃ g, g ∈ rl_groups rl' ∧ Group_ID g = x.1 ∧ Group_Name g ∈ gs) }.

#[export] Instance grown_preorder gs rs : PreOrder (grown gs rs).
Proof.
  split; [split; auto|]. intros rl1 rl2 rl3 [A1 A2 A3 A4 Ai A5 A6] [B1 B2 B3 B4 Bi B5 B6]. split; auto.
  - intros r [?|?]%B2; auto.
  - intros r [?|?]%B4; auto.
  - intros x [[?|(? & g & ? & ? & ?)]%A6|?]%B6; [auto| |auto]. right. split; [done|]. exists g. auto.
Qed.

Lemma createRole_grown gs rs n r : r ∈ rs → keeps (grown gs rs) (createRole n r).
Proof.
  intros Hr. unfold createRole, auth_token. repeat keeps_read_step. apply keeps_write.
  intros t rl e rl' (H1 & H2 & H3 & H4)%CreateRealmRole_ok.
  split; rewrite ?H3, ?H4; auto. intros x [?| ->]%H2; auto.
Qed.
Lemma createGroup_grown gs rs n g : g ∈ gs → keeps (grown gs rs) (createGroup n g).
Proof.
  intros Hg. unfold createGroup, auth_token. repeat keeps_read_step. apply keeps_write.
  intros t rl e rl' Hc. pose proof (CreateGroup_ids _ _ _ _ _ Hc) as Hids. apply CreateGroup_ok in Hc as (H1 & H2 & H3 & H4).
  split; rewrite ?H1, ?H2; auto. intros x [?|Hx]%H4; [auto|]. right. by rewrite Hx.
Qed.

Lemma pick_roles_spec n roles names l : pick_roles n roles names = inr l → l = names.
Proof.
  revert l. induction names as [|r names IH]; intros l; simpl; [by intros [= <-]|].
  destruct (existsb _ _); [|done]. destruct (pick_roles _ _ _); [done|]. intros [= <-].
  f_equal. by apply IH.
Qed.

Lemma auth_token_wp (Q : error + string → KWorld → Prop) w :
  (∀ r t, Q r (mkKWorld (k_realm w) t)) → wp auth_token Q w.
Proof.
  intros HQ. apply wp_map_error, wp_k_read.
  destruct (kc_GetKeycloakAuthToken _); apply HQ.
Qed.

Lemma addRolesToGroup_grown gs rs n g names : g ∈ gs → names ⊆ rs →
  keeps (grown gs rs) (addRolesToGroup n g names).
Proof.
  intros Hg Hn w. unfold addRolesToGroup. apply wp_bind, auth_token_wp. intros [e|tok] t; [done|].
  apply wp_bind, wp_map_error. unfold getGroupByName.
  apply wp_bind, auth_token_wp. intros [e|tok'] t'; [done|].
  apply wp_bind, wp_map_error, wp_k_read. cbn [k_realm k_tick].
  destruct (kc_GetGroups _ _ _) as [e|l] eqn:Hl; [done|]. apply wp_of_result.
  destruct (find _ l) as [gr|] eqn:Hf; [|done].
  apply find_some in Hf as [Hin%list_elem_of_In Hname%String.eqb_eq].
  apply (GetGroups_search _ _ _ _ Hl) in Hin.
  apply wp_bind, wp_map_error. unfold getRolesByNames.
  apply wp_bind, auth_token_wp. intros [e|tok''] t''; [done|].
  apply wp_bind, wp_map_error, wp_k_read. cbn [k_realm k_tick].
  destruct (kc_GetRealmRoles _ (k_realm w)) as [e|roles]; [done|]. apply wp_of_result.
  destruct (pick_roles n roles names) as [e|picked] eqn:Hp; [done|]. apply pick_roles_spec in Hp as ->.
  apply wp_map_error, wp_k_write. cbn [k_realm k_tick]. intros e rl' Hadd.
  apply AddRealmRoleToGroup_ok in Hadd as (H1 & H2 & H3 & H4).
  assert (grown gs rs (k_realm w) rl') as Hgr.
  { split; rewrite ?H1, ?H2; auto. intros x [?|[Hx1 Hx2]]%H4; [auto|]. right.
    split; [by apply Hn|]. exists gr. by rewrite Hname. }
  by destruct e.
Qed.

Lemma create_roles_grown gs rs orgID projID names : (instantiate orgID projID <$> names) ⊆ rs →
  keeps (grown gs rs) (create_roles c orgID projID names).
Proof.
  induction names as [|r names IH]; intros Hn; cbn [create_roles]; [apply (keeps_ret (grown gs rs))|].
  apply (keeps_bind (grown gs rs)).
  - apply (keeps_create_or_exists (grown gs rs)), createRole_grown. set_solver.
  - intros _. apply (keeps_bind (grown gs rs)); [apply IH; set_solver|]. intros l. apply (keeps_ret (grown gs rs)).
Qed.
Lemma create_roles_names orgID projID names w w' l :
  create_roles c orgID projID names w = (inr l, w') → l = instantiate orgID projID <$> names.
Proof.
  revert w l. induction names as [|r names IH]; intros w l; cbn [create_roles]; [by intros [= <-]|].
  unfold mbind, EM_bind. destruct (create_or_exists _ w) as [[e|[]] w1]; [done|].
  destruct (create_roles c orgID projID names w1) as [[e|rest] w2] eqn:Hr; [done|].
  intros [= <- ->]. rewrite fmap_cons. f_equal. by eapply IH.
Qed.

Lemma create_groups_grown gs rs orgID projID groups :
  tenant_groups orgID projID groups ⊆ gs → tenant_roles orgID projID groups ⊆ rs →
  keeps (grown gs rs) (create_groups c orgID projID groups).
Proof.
  unfold tenant_groups, tenant_roles.
  induction groups as [|[g names] groups IH]; intros Hg Hr; cbn [create_groups]; [apply (keeps_ret (grown gs rs))|].
  csimpl in Hg. csimpl in Hr. rewrite fmap_app in Hr.
  apply (keeps_bind (grown gs rs)).
  { apply (keeps_create_or_exists (grown gs rs)), createGroup_grown. set_solver. }
  intros _ w. apply wp_bind. destruct (create_roles c orgID projID names w) as [r w1] eqn:Heq.
  pose proof (create_roles_grown gs rs orgID projID names ltac:(set_solver) w) as Hk.
  apply (proj1 (wp_run _ _ _ _ _ Heq)) in Hk. apply (proj2 (wp_run _ _ _ _ _ Heq)).
  destruct r as [e|l]; [exact Hk|]. apply create_roles_names in Heq as ->.
  eapply wp_mono; [apply (keeps_bind (grown gs rs)); [apply addRolesToGroup_grown; set_solver|]|].
  - intros _. apply IH; set_solver.
  - intros r w2 Hw2. by etrans; [exact Hk|].
Qed.

Lemma concat_perm {A} (l k : list (list A)) : l ≡ₚ k → concat l ≡ₚ concat k.
Proof.
  induction 1; simpl; [done|by f_equiv| |by etrans].
  rewrite !app_assoc. f_equiv. apply Permutation_app_comm.
Qed.
Lemma tenant_groups_ranged t orgID projID groups :
  tenant_groups orgID projID (range_order t groups) ⊆ tenant_groups orgID projID groups.
Proof. unfold tenant_groups. by rewrite (range_order_perm t groups). Qed.
Lemma tenant_roles_ranged t orgID projID groups :
  tenant_roles orgID projID (range_order t groups) ⊆ tenant_roles orgID projID groups.
Proof.
  unfold tenant_roles. rewrite (concat_perm _ (snd <$> groups)); [done|].
  apply fmap_Permutation, range_order_perm.
Qed.

Lemma create_loop_grown remaining orgID projID groups :
  keeps (grown (tenant_groups orgID projID groups) (tenant_roles orgID projID groups))
    (create_loop c remaining orgID projID groups).
Proof.
  set (R := grown _ _). pose proof (reads_keep c R) as (_ & _ & _ & _ & _ & Hcheck).
  induction remaining as [|remaining IH]; cbn [create_loop].
  all: apply (keeps_bind R); [apply (keeps_ranged R); intros t; apply create_groups_grown;
         [apply tenant_groups_ranged|apply tenant_roles_ranged]|intros _].
  all: apply (keeps_bind R); [apply (keeps_try R), Hcheck|].
  all: intros [e|[]]; [|apply (keeps_ret R)]; [apply (keeps_fail R)||exact IH].
Qed.

(** whatever the server answers, creating the roles and groups of an org or a
    project removes nothing from the realm and adds nothing but the tenant's own: roles
    and groups that are instances of the configured templates, and mappings of the
    former to the latter. *)
Theorem createRolesAndGroups_confined orgID projID groups w :
  wp (createRolesAndGroups c orgID projID groups) (λ _ w',
    grown (tenant_groups orgID projID groups) (tenant_roles orgID projID groups)
      (k_realm w) (k_realm w')) w.
Proof.
  set (R := grown _ _). unfold createRolesAndGroups.
  apply (keeps_bind R); [apply (reads_keep c R)|]. intros _. apply create_loop_grown.
Qed.

(** ** A creation reported as done is there *)

Definition tenant_present (orgID projID : string) (groups : Groups) (rl : Realm) : Prop :=
  ∀ g, g ∈ groups →
    (∃ gr, gr ∈ rl_groups rl ∧ Group_Name gr = instantiate orgID projID g.1) ∧
    ∀ r, r ∈ g.2 → instantiate orgID projID r ∈ rl_roles rl.

Lemma check_roles_none orgID projID roles names : check_roles c orgID projID roles names = None →
  ∀ r, r ∈ names → instantiate orgID projID r ∈ roles.
Proof.
  induction names as [|r names IH]; simpl; [set_solver|].
  destruct (existsb _ roles) eqn:He; [|done]. intros Hc r' [->|Hr]%elem_of_cons; [|by apply IH].
  apply existsb_exists in He as (x & Hx%list_elem_of_In & ->%String.eqb_eq). done.
Qed.
Lemma check_groups_none orgID projID egs ers groups :
  check_groups c orgID projID egs ers groups = None → ∀ g, g ∈ groups →
  (∃ gr, gr ∈ egs ∧ Group_Name gr = instantiate orgID projID g.1) ∧
  ∀ r, r ∈ g.2 → instantiate orgID projID r ∈ ers.
Proof.
  induction groups as [|[n names] groups IH]; simpl; [set_solver|].
  destruct (existsb _ egs) eqn:He; simpl; [|done].
  destruct (check_roles _ _ _ _ _) eqn:Hr; [done|]. intros Hc g [->|Hg]%elem_of_cons; [|by apply IH].
  simpl. split; [|by apply check_roles_none].
  apply existsb_exists in He as (x & Hx%list_elem_of_In & Hn%String.eqb_eq). eauto.
Qed.

Lemma getGroups_ok n w l w' : getGroups n w = (inr l, w') →
  k_realm w' = k_realm w ∧ ∀ g, g ∈ l ↔ g ∈ rl_groups (k_realm w).
Proof.
  intros Hg. split; [eapply keeps_eq; [|exact Hg]; apply (reads_keep c eq)|].
  unfold getGroups, auth_token, map_error, mbind, EM_bind, k_read in Hg. simpl in Hg.
  destruct (kc_GetKeycloakAuthToken _); [done|]. simpl in Hg.
  destruct (kc_GetGroups _ _ _) eqn:Heq; simplify_eq/=. by eapply GetGroups_ok.
Qed.
Lemma getRoles_ok n w l w' : getRoles n w = (inr l, w') →
  k_realm w' = k_realm w ∧ ∀ r, r ∈ l ↔ r ∈ rl_roles (k_realm w).
Proof.
  intros Hg. split; [eapply keeps_eq; [|exact Hg]; apply (reads_keep c eq)|].
  unfold getRoles, auth_token, map_error, mbind, EM_bind, k_read in Hg. simpl in Hg.
  destruct (kc_GetKeycloakAuthToken _); [done|]. simpl in Hg.
  destruct (kc_GetRealmRoles _ _) eqn:Heq; simplify_eq/=. by eapply GetRealmRoles_ok.
Qed.

Lemma check_present orgID projID groups w w' :
  checkRolesAndGroupsCreated c orgID projID groups w = (inr (), w') →
  k_realm w' = k_realm w ∧ tenant_present orgID projID groups (k_realm w).
Proof.
  unfold checkRolesAndGroupsCreated, mbind, EM_bind.
  destruct (getGroups _ w) as [[e|egs] w1] eqn:Hg; [done|]. apply getGroups_ok in Hg as [H1 Hg].
  destruct (getRoles _ w1) as [[e|ers] w2] eqn:Hr; [done|]. apply getRoles_ok in Hr as [H2 Hr].
  unfold ranged, of_result. destruct (check_groups _ _ _ _ _ _) eqn:Hc; intros [= <-]. simpl.
  split; [congruence|]. intros g Hin.
  rewrite <- (range_order_perm (k_tick w2) groups) in Hin.
  apply (check_groups_none _ _ _ _ _ Hc g) in Hin as [(gr & Hgr & Hn) Hroles].
  split; [exists gr; by rewrite <- Hg|]. intros r Hin. rewrite <- H1. by apply Hr, Hroles.
Qed.

Lemma createRolesAndGroups_present orgID projID groups w :
  wp (createRolesAndGroups c orgID projID groups) (λ r w', r = inr () →
    tenant_present orgID projID groups (k_realm w')) w.
Proof.
  unfold createRolesAndGroups. apply wp_bind. eapply wp_mono; [apply wp_self|].
  intros [e|b] w0 _; [done|]. generalize w0. clear w0.
  induction retryAttempts as [|n IH]; intros w0; cbn [create_loop];
    (apply wp_bind; eapply wp_mono; [apply wp_self|]; intros [e|[]] w1 _; [done|];
     apply wp_bind, wp_try; eapply wp_mono; [apply wp_self|]; intros [e|[]] w2 Hc;
     [|apply wp_ret; intros _; apply check_present in Hc as [-> Hc]; done]).
  - by apply wp_fail.
  - apply IH.
Qed.

(** when creating the roles and groups of a tenant returns no error, every group and
    every role of its templates is in the realm at that moment, even if the server
    acknowledged creations it lost: the result is checked, and the creation repeated
    at most ten times. *)
Theorem createRolesAndGroups_verified orgID projID groups w :
  wp (createRolesAndGroups c orgID projID groups) (λ r w', r = inr () →
    tenant_present orgID projID groups (k_realm w')) w.
Proof. apply createRolesAndGroups_present. Qed.
End create.
