(* ===== verification/KeycloakDelete.v ===== *)
(** * Deleting a tenant, and the roles the tenancy manager reads

    What [deleteRolesAndGroups] removes; that creating succeeds on a server that
    works; that the roles of the configured templates are those
    tenancy-manager/internal/api/auth.go recognises. *)

From S2P Require Import Prelude GoStd Monad EntSchema Sqlgraph EntQuery EntMutation Store.
From S2P Require Import Backend Http Auth Logic AuthSpec Keycloak KeycloakSpec.
From Stdlib Require Import Ascii.

(** ** Deletion *)

Section delete.
Context `{Gocloak} `{!GocloakLaws} (c : KClient).

(** Only roles and groups whose name contains [id] go; nothing is added. *)
Record shrunk (id : string) (rl rl' : Realm) : Prop := mk_shrunk {
  sh_roles : ∀ r, r ∈ rl_roles rl' → r ∈ rl_roles rl;
  sh_roles_kept : ∀ r, r ∈ rl_roles rl → Contains r id = false → r ∈ rl_roles rl';
  sh_groups : ∀ g, g ∈ rl_groups rl' → g ∈ rl_groups rl;
  sh_groups_kept : NoDup (Group_ID <$> rl_groups rl) →
    ∀ g, g ∈ rl_groups rl → Contains (Group_Name g) id = false → g ∈ rl_groups rl';
  sh_ids : NoDup (Group_ID <$> rl_groups rl) → NoDup (Group_ID <$> rl_groups rl') }.

Lemma shrunk_refl id rl : shrunk id rl rl.
Proof. by split. Qed.

(** The loop over the roles: those it has passed are gone. *)
Lemma delete_roles_ok id roles w rl :
  (∀ r, r ∈ rl_roles rl → Contains r id = true → r ∈ rl_roles (k_realm w) → r ∈ roles) →
  shrunk id rl (k_realm w) → rl_groups (k_realm w) = rl_groups rl →
  wp (delete_roles c id roles) (λ r w', shrunk id rl (k_realm w') ∧ rl_groups (k_realm w') = rl_groups rl ∧
    (r = inr () → ∀ x, x ∈ rl_roles (k_realm w') → Contains x id = false)) w.
Proof.
  revert w. induction roles as [|role roles IH]; intros w Hleft Hs Hg; cbn [delete_roles].
  - apply wp_ret. split_and!; [done..|]. intros _ x Hx. destruct (Contains x id) eqn:Hc; [|done].
    exfalso. specialize (Hleft x). set_unfold. apply Hleft; [by apply Hs|done|done].
  - apply wp_bind. destruct (Contains role id) eqn:Hc.
    2: { apply wp_ret, IH; [|done..]. intros r Hr Hcr Hin. specialize (Hleft r Hr Hcr Hin).
         apply elem_of_cons in Hleft as [->|?]; [congruence|done]. }
    unfold deleteRole. apply wp_bind, auth_token_wp. intros [e|tok] t; [done|].
    apply wp_map_error, wp_k_write. cbn [k_realm k_tick]. intros e rl' (Hg' & Hr1 & Hr2)%DeleteRealmRole_ok.
    assert (shrunk id rl rl') as Hs'.
    { destruct Hs as [S1 S2 S3 S4 S5]. split.
      - intros r [? _]%Hr1. by apply S1.
      - intros r Hr Hcr. apply Hr2; [by apply S2|]. intros ->. congruence.
      - rewrite Hg'. done.
      - rewrite Hg'. done.
      - rewrite Hg'. done. }
    destruct e as [e|]; [split_and!; [done|congruence|done]|].
    apply IH; simpl; [|done|congruence]. intros r Hr Hcr Hin.
    apply Hr1 in Hin as [Hin Hne]. specialize (Hleft r Hr Hcr Hin).
    apply elem_of_cons in Hleft as [->|?]; [by destruct (Hne eq_refl)|done].
Qed.

Lemma delete_groups_ok id groups w rl : NoDup (Group_ID <$> rl_groups rl) →
  (∀ g, g ∈ groups → g ∈ rl_groups rl) →
  (∀ g, g ∈ rl_groups (k_realm w) → Contains (Group_Name g) id = true → g ∈ groups) →
  shrunk id rl (k_realm w) → (∀ x, x ∈ rl_roles (k_realm w) → Contains x id = false) →
  wp (delete_groups c id groups) (λ r w', shrunk id rl (k_realm w') ∧
    (r = inr () → (∀ x, x ∈ rl_roles (k_realm w') → Contains x id = false) ∧
                  ∀ g, g ∈ rl_groups (k_realm w') → Contains (Group_Name g) id = false)) w.
Proof.
  intros Hnd. revert w. induction groups as [|gr groups IH]; intros w Hall Hleft Hs Hroles; cbn [delete_groups].
  - apply wp_ret. split; [done|]. intros _. split; [done|]. intros g Hg.
    destruct (Contains (Group_Name g) id) eqn:Hc; [|done]. specialize (Hleft g Hg Hc). set_solver.
  - apply wp_bind. destruct (Contains (Group_Name gr) id) eqn:Hc.
    2: { apply wp_ret, IH; [set_solver| |done..]. intros g Hg Hcg. specialize (Hleft g Hg Hcg).
         apply elem_of_cons in Hleft as [->|?]; [congruence|done]. }
    unfold deleteGroup. apply wp_bind, auth_token_wp. intros [e|tok] t; [done|].
    apply wp_map_error, wp_k_write. cbn [k_realm k_tick]. intros e rl' Hdel.
    pose proof (DeleteGroup_ids _ _ _ _ _ Hdel) as Hids. apply DeleteGroup_ok in Hdel as (Hr' & Hg1 & Hg2).
    assert (shrunk id rl rl') as Hs'.
    { destruct Hs as [S1 S2 S3 S4 S5]. split.
      - rewrite Hr'. done.
      - rewrite Hr'. done.
      - intros g [? _]%Hg1. by apply S3.
      - intros _ g Hg Hcg. apply Hg2; [by apply S4|]. intros Heq.
        assert (g = gr) as ->; [|congruence].
        eapply (NoDup_fmap_inj_eq Group_ID); [exact Hnd|done|apply Hall; set_solver|done].
      - auto. }
    destruct e as [e|]; [done|].
    apply IH; simpl; [set_solver| |done|by rewrite Hr']. intros g Hin Hcg.
    apply Hg1 in Hin as [Hin Hne]. specialize (Hleft g Hin Hcg).
    apply elem_of_cons in Hleft as [->|?]; [by destruct (Hne eq_refl)|done].
Qed.

Lemma deleteRolesAndGroups_ok id w : NoDup (Group_ID <$> rl_groups (k_realm w)) →
  wp (deleteRolesAndGroups c id) (λ r w', shrunk id (k_realm w) (k_realm w') ∧
    (r = inr () → (∀ x, x ∈ rl_roles (k_realm w') → Contains x id = false) ∧
                  ∀ g, g ∈ rl_groups (k_realm w') → Contains (Group_Name g) id = false)) w.
Proof.
  intros Hnd. unfold deleteRolesAndGroups. pose proof (reads_keep c eq) as (Hk & Hkr & Hkg & _).
  apply wp_bind. eapply wp_mono; [apply Hk|]. intros [e|b] w0 Hw0; rewrite Hw0 in *; [split; [apply shrunk_refl|done]|].
  apply wp_bind. eapply wp_mono; [apply wp_self|]. intros [e|roles] w1 Hr.
  { apply (keeps_eq (getRoles (kc_realm c))) in Hr as ->; [|done]. split; [apply shrunk_refl|done]. }
  apply (getRoles_ok c) in Hr as [H1 Hr].
  apply wp_bind. eapply wp_mono.
  { apply (delete_roles_ok id roles w1 (k_realm w0)); [|rewrite H1; apply shrunk_refl|by rewrite H1].
    intros r ? _ _. by apply Hr. }
  intros [e|[]] w2 (Hs & Hg2 & Hno); [done|]. specialize (Hno eq_refl).
  apply wp_bind. eapply wp_mono; [apply wp_self|]. intros [e|groups] w3 Hg.
  { apply (keeps_eq (getGroups (kc_realm c))) in Hg as ->; [|done]. done. }
  apply (getGroups_ok c) in Hg as [H3 Hg].
  apply delete_groups_ok; [done| | | |].
  - intros g. rewrite Hg, Hg2. done.
  - intros g. rewrite H3, Hg. done.
  - by rewrite H3.
  - by rewrite H3.
Qed.

(** deleting a tenant by its id removes only roles and groups whose name contains
    the id and adds nothing, whatever the server answers; when it reports no error, no
    role and no group whose name contains the id is left. *)
Theorem deleteRolesAndGroups_spec id w : NoDup (Group_ID <$> rl_groups (k_realm w)) →
  wp (deleteRolesAndGroups c id) (λ r w', shrunk id (k_realm w) (k_realm w') ∧
    (r = inr () → (∀ x, x ∈ rl_roles (k_realm w') → Contains x id = false) ∧
                  ∀ g, g ∈ rl_groups (k_realm w') → Contains (Group_Name g) id = false)) w.
Proof. apply deleteRolesAndGroups_ok. Qed.

(** [isErrorForAlreadyExists] reads the digits 409 anywhere in the message: an error
    of any kind is taken for "already exists" when the role's own name has them, for
    instance in the UUID of its org. *)
Theorem already_exists_by_name realm role err :
  Contains role "409" = true →
  isErrorForAlreadyExists (Errorv ("failed to create role " +:+ role +:+ " in realm " +:+ realm +:+ ": ") err) = true.
Proof.
  intros Hr. unfold isErrorForAlreadyExists, Errorv. cbn [Error].
  by apply Contains_app_l, Contains_app_r, Contains_app_l.
Qed.
End delete.

(** ** A server that works *)

(** Every call on what the realm has is answered and takes effect: a role or a group with a name that
    is not empty is created, or refused with a 409 when it exists; existing roles are mapped to an
    existing group; a search finds the groups of the name. *)
Class WorkingServer `{Gocloak} (realm : string) : Prop := {
  token_works : ∀ t, ∃ tok, kc_GetKeycloakAuthToken t = inr tok;
  realm_works : ∀ t, kc_GetRealm t realm = inr (Some (Some true));
  roles_work : ∀ t rl, ∃ l, kc_GetRealmRoles t rl = inr l;
  groups_work : ∀ t rl, ∃ l, kc_GetGroups t rl None = inr l;
  search_works : ∀ t rl n, ∃ l, kc_GetGroups t rl (Some n) = inr l ∧
    ∀ g, g ∈ rl_groups rl → Group_Name g = n → g ∈ l;
  create_role_works : ∀ t rl r, r ≠ "" → ∃ e rl', kc_CreateRealmRole t rl r = (e, rl') ∧ r ∈ rl_roles rl' ∧
    ∀ err, e = Some err → Contains (Error err) "409" = true;
  create_group_works : ∀ t rl n, n ≠ "" → ∃ e rl', kc_CreateGroup t rl n = (e, rl') ∧
    (∃ g, g ∈ rl_groups rl' ∧ Group_Name g = n) ∧ ∀ err, e = Some err → Contains (Error err) "409" = true;
  add_roles_works : ∀ t rl g rs, g ∈ rl_groups rl → (∀ r, r ∈ rs → r ∈ rl_roles rl) →
    ∃ rl', kc_AddRealmRoleToGroup t rl (Group_ID g) rs = (None, rl') ∧ ∀ r, r ∈ rs → (Group_ID g, r) ∈ rl_mapped rl' }.

Lemma wp_and {S A} (m : EM S A) (P Q : error + A → S → Prop) w :
  wp m P w → wp m Q w → wp m (λ r w', P r w' ∧ Q r w') w.
Proof.
  intros HP (r & w' & Heq & HQ)%wp_out. apply (proj2 (wp_run _ _ _ _ _ Heq)).
  split; [|done]. by apply (proj1 (wp_run _ _ _ _ _ Heq)).
Qed.

Section working.
Context `{Gocloak} `{!GocloakLaws} (c : KClient) `{!WorkingServer (kc_realm c)}.

Lemma token_done (Q : error + string → KWorld → Prop) w :
  (∀ tok t, Q (inr tok) (mkKWorld (k_realm w) t)) → wp auth_token Q w.
Proof.
  intros HQ. apply wp_map_error, wp_k_read. destruct (token_works (k_tick w)) as [tok ->]. apply HQ.
Qed.
Lemma exists_409 pre err : Contains (Error err) "409" = true → isErrorForAlreadyExists (Errorv pre err) = true.
Proof. intros He. by apply Contains_app_r. Qed.

Lemma createRole_done r w : r ≠ "" → wp (create_or_exists (createRole (kc_realm c) r))
  (λ res w', res = inr () ∧ r ∈ rl_roles (k_realm w')) w.
Proof.
  intros Hne. apply wp_bind, wp_try, wp_bind, token_done. intros tok t. apply wp_map_error, wp_k_write.
  cbn [k_realm k_tick]. intros e rl' Heq.
  destruct (create_role_works t (k_realm w) r Hne) as (e' & rl'' & Heq' & Hr & He).
  rewrite Heq in Heq'. simplify_eq. destruct e' as [err|]; [|by apply wp_ret].
  rewrite exists_409 by auto. by apply wp_ret.
Qed.
Lemma createGroup_done n w : n ≠ "" → wp (create_or_exists (createGroup (kc_realm c) n))
  (λ res w', res = inr () ∧ ∃ g, g ∈ rl_groups (k_realm w') ∧ Group_Name g = n) w.
Proof.
  intros Hne. apply wp_bind, wp_try, wp_bind, token_done. intros tok t. apply wp_map_error, wp_k_write.
  cbn [k_realm k_tick]. intros e rl' Heq.
  destruct (create_group_works t (k_realm w) n Hne) as (e' & rl'' & Heq' & Hr & He).
  rewrite Heq in Heq'. simplify_eq. destruct e' as [err|]; [|by apply wp_ret].
  rewrite exists_409 by auto. by apply wp_ret.
Qed.

Lemma create_roles_done orgID projID names w : (∀ n, n ∈ names → instantiate orgID projID n ≠ "") → wp (create_roles c orgID projID names)
  (λ res w', res = inr (instantiate orgID projID <$> names) ∧
    ∀ n, n ∈ names → instantiate orgID projID n ∈ rl_roles (k_realm w')) w.
Proof.
  revert w. induction names as [|r names IH]; intros w Hne; cbn [create_roles]; [apply wp_ret; set_solver|].
  apply wp_bind. eapply wp_mono; [apply createRole_done, Hne; by left|]. intros res w1 [-> Hr]. apply wp_bind.
  eapply wp_mono; [apply wp_and; [apply IH; set_solver|]|].
  { apply (create_roles_grown c [] (instantiate orgID projID <$> names)). done. }
  intros res w2 [[-> Hn] Hgr]. apply wp_ret. split; [done|].
  intros n [->|Hin]%elem_of_cons; [|by apply Hn]. by apply (gr_roles _ _ _ _ Hgr).
Qed.

Lemma pick_roles_done n roles names : (∀ r, r ∈ names → r ∈ roles) → pick_roles n roles names = inr names.
Proof.
  induction names as [|r names IH]; intros Hn; simpl; [done|].
  assert (existsb (String.eqb r) roles = true) as ->.
  { apply existsb_exists. exists r. split; [apply list_elem_of_In, Hn; set_solver|apply String.eqb_refl]. }
  rewrite IH; [done|set_solver].
Qed.

Lemma addRolesToGroup_done g names w :
  (∃ gr, gr ∈ rl_groups (k_realm w) ∧ Group_Name gr = g) → (∀ r, r ∈ names → r ∈ rl_roles (k_realm w)) →
  wp (addRolesToGroup (kc_realm c) g names) (λ res w', res = inr () ∧
    ∃ gr, gr ∈ rl_groups (k_realm w') ∧ Group_Name gr = g ∧ ∀ r, r ∈ names → (Group_ID gr, r) ∈ rl_mapped (k_realm w')) w.
Proof.
  intros (gr0 & Hin0 & Hn0) Hnames. unfold addRolesToGroup. apply wp_bind, token_done. intros tok t.
  apply wp_bind, wp_map_error. unfold getGroupByName. apply wp_bind, token_done. intros tok' t'.
  apply wp_bind, wp_map_error, wp_k_read. cbn [k_realm k_tick].
  destruct (search_works t' (k_realm w) g) as (l & Hl & Hall). rewrite Hl. apply wp_of_result.
  destruct (find _ l) as [gr|] eqn:Hf.
  2: { exfalso. apply find_none with (x := gr0) in Hf; [|by apply list_elem_of_In, Hall].
       simpl in Hf. rewrite Hn0, String.eqb_refl in Hf. done. }
  apply find_some in Hf as [Hin%list_elem_of_In Hname%String.eqb_eq].
  apply (GetGroups_search _ _ _ _ Hl) in Hin.
  apply wp_bind, wp_map_error. unfold getRolesByNames. apply wp_bind, token_done. intros tok'' t''.
  apply wp_bind, wp_map_error, wp_k_read. cbn [k_realm k_tick].
  destruct (roles_work t'' (k_realm w)) as [roles Hroles]. rewrite Hroles. apply wp_of_result.
  rewrite pick_roles_done by (intros r Hr; eapply GetRealmRoles_ok; eauto).
  apply wp_map_error, wp_k_write. cbn [k_realm k_tick]. intros e rl' Hadd.
  destruct (add_roles_works (S t'') (k_realm w) gr names Hin Hnames) as (rl'' & Hadd' & Hm).
  rewrite Hadd in Hadd'. simplify_eq. split; [done|]. exists gr.
  apply AddRealmRoleToGroup_ok in Hadd as (_ & -> & _). done.
Qed.

(** Every group is there and has every role of its template. *)
Definition tenant_mapped (orgID projID : string) (groups : Groups) (rl : Realm) : Prop :=
  ∀ g, g ∈ groups → ∃ gr, gr ∈ rl_groups rl ∧ Group_Name gr = instantiate orgID projID g.1 ∧
    ∀ r, r ∈ g.2 → instantiate orgID projID r ∈ rl_roles rl ∧
                   (Group_ID gr, instantiate orgID projID r) ∈ rl_mapped rl.

Lemma tenant_mapped_grown gs rs orgID projID groups rl rl' :
  grown gs rs rl rl' → tenant_mapped orgID projID groups rl → tenant_mapped orgID projID groups rl'.
Proof.
  intros Hgr Hm g (gr & ? & ? & Hr)%Hm. exists gr. split_and!; [by apply (gr_groups _ _ _ _ Hgr)|done|].
  intros r [? ?]%Hr. split; [by apply (gr_roles _ _ _ _ Hgr)|by apply (gr_mapped _ _ _ _ Hgr)].
Qed.

(** The names of the templates, filled in, are not empty. *)
Definition tenant_named (orgID projID : string) (groups : Groups) : Prop :=
  ∀ g, g ∈ groups → instantiate orgID projID g.1 ≠ "" ∧ ∀ r, r ∈ g.2 → instantiate orgID projID r ≠ "".

Lemma create_groups_done orgID projID groups w : tenant_named orgID projID groups → wp (create_groups c orgID projID groups)
  (λ res w', res = inr () ∧ tenant_mapped orgID projID groups (k_realm w')) w.
Proof.
  revert w. induction groups as [|[g names] groups IH]; intros w Hne; cbn [create_groups].
  { apply wp_ret. split; [done|]. intros g. set_solver. }
  destruct (Hne (g, names)) as [Hneg Hnes]; [by left|]. assert (tenant_named orgID projID groups) as Hnel by (intros ??; apply Hne; by right).
  apply wp_bind. eapply wp_mono; [by apply createGroup_done|]. intros res w1 [-> Hg].
  apply wp_bind. eapply wp_mono; [apply wp_and; [by apply create_roles_done|]|].
  { apply (create_roles_grown c [] (instantiate orgID projID <$> names)). done. }
  intros res w2 [[-> Hn] Hgr]. apply wp_bind.
  eapply wp_mono; [apply wp_and; [apply addRolesToGroup_done|]|].
  { destruct Hg as (gr & ? & ?). exists gr. split; [by apply (gr_groups _ _ _ _ Hgr)|done]. }
  { intros r (n & -> & Hin)%list_elem_of_fmap. by apply Hn. }
  { apply (addRolesToGroup_grown [instantiate orgID projID g] (instantiate orgID projID <$> names)); set_solver. }
  intros res w3 [[-> Hm] Hgr3].
  eapply wp_mono; [apply wp_and; [by apply IH|]|].
  { by apply (create_groups_grown c (tenant_groups orgID projID groups) (tenant_roles orgID projID groups)). }
  intros res w4 [[-> Hm4] Hgr4]. split; [done|]. intros g' [->|Hin]%elem_of_cons; [|by apply Hm4].
  destruct Hm as (gr & Hin & Hname & Hmap).
  apply (tenant_mapped_grown _ _ _ _ [(g, names)] _ _ Hgr4); [|set_solver].
  intros g' ->%list_elem_of_singleton. exists gr. split_and!; [done..|]. simpl. intros r Hr.
  split; [by apply (gr_roles _ _ _ _ Hgr3), Hn|]. apply Hmap. set_solver.
Qed.

Lemma check_groups_present orgID projID egs ers groups :
  (∀ g, g ∈ groups → (∃ gr, gr ∈ egs ∧ Group_Name gr = instantiate orgID projID g.1) ∧
     ∀ r, r ∈ g.2 → instantiate orgID projID r ∈ ers) →
  check_groups c orgID projID egs ers groups = None.
Proof.
  induction groups as [|[n names] groups IH]; intros Hp; simpl; [done|].
  destruct (Hp (n, names)) as [(gr & Hin & Hname) Hr]; [set_solver|].
  assert (existsb (λ g, String.eqb (Group_Name g) (instantiate orgID projID n)) egs = true) as ->.
  { apply existsb_exists. exists gr. split; [by apply list_elem_of_In|]. by apply String.eqb_eq. }
  simpl. assert (check_roles c orgID projID ers names = None) as ->; [|apply IH; intros; apply Hp; set_solver].
  clear -Hr. simpl in Hr. induction names as [|r names IH]; simpl; [done|].
  assert (existsb (String.eqb (instantiate orgID projID r)) ers = true) as ->; [|apply IH; set_solver].
  apply existsb_exists. exists (instantiate orgID projID r). split; [apply list_elem_of_In, Hr; set_solver|apply String.eqb_refl].
Qed.

(** One attempt is enough. *)
Lemma create_loop_done remaining orgID projID groups w : tenant_named orgID projID groups →
  wp (create_loop c remaining orgID projID groups) (λ res w', res = inr () ∧ tenant_mapped orgID projID groups (k_realm w')) w.
Proof.
  intros Hne. assert (tenant_named orgID projID (range_order (k_tick w) groups)) as Hne'.
  { intros g Hg. apply Hne. by rewrite <- (range_order_perm (k_tick w) groups). }
  destruct (wp_out _ _ _ (create_groups_done orgID projID (range_order (k_tick w) groups)
    (mkKWorld (k_realm w) (S (k_tick w))) Hne')) as (res & w2 & Hrun & -> & Hm).
  assert (tenant_mapped orgID projID groups (k_realm w2)) as Hmap.
  { intros g Hg. apply Hm. by rewrite range_order_perm. }
  assert (wp (checkRolesAndGroupsCreated c orgID projID groups) (λ res w', res = inr () ∧ k_realm w' = k_realm w2) w2) as Hcheck.
  { unfold checkRolesAndGroupsCreated, getGroups, getRoles.
    apply wp_bind, wp_bind, token_done. intros tok1 t1. apply wp_map_error, wp_k_read. cbn [k_realm k_tick].
    destruct (groups_work t1 (k_realm w2)) as [egs Hegs]. rewrite Hegs.
    apply wp_bind, wp_bind, token_done. intros tok2 t2. apply wp_map_error, wp_k_read. cbn [k_realm k_tick].
    destruct (roles_work t2 (k_realm w2)) as [ers Hers]. rewrite Hers.
    eapply wp_run; [unfold ranged, of_result; rewrite check_groups_present; [done|]|by split].
    intros g Hg. rewrite range_order_perm in Hg. apply Hmap in Hg as (gr & ? & ? & Hr). split.
    - exists gr. split; [by eapply GetGroups_ok|done].
    - intros r [? _]%Hr. by eapply GetRealmRoles_ok. }
  destruct remaining; cbn [create_loop]; apply wp_bind;
    apply (proj2 (wp_run (ranged groups (create_groups c orgID projID)) _ _ _ _ Hrun));
    apply wp_bind, wp_try; (eapply wp_mono; [exact Hcheck|]); intros res w3 [-> Heq]; apply wp_ret; by rewrite Heq.
Qed.

(** C23: on a server that answers every call, creates what has a name that is not empty or refuses it
    with a 409 because it exists, and maps existing roles to an existing group, creating the roles
    and groups of an org or a project succeeds, at the first attempt (with no retry left it
    does as well), and leaves every group of the templates with every role of its template mapped to
    it; what was there before makes no difference. *)
Theorem createRolesAndGroups_works orgID projID groups w : tenant_named orgID projID groups →
  wp (create_loop c 0 orgID projID groups) (λ res w', res = inr () ∧ tenant_mapped orgID projID groups (k_realm w')) w ∧
  wp (createRolesAndGroups c orgID projID groups) (λ res w', res = inr () ∧
    tenant_mapped orgID projID groups (k_realm w')) w.
Proof.
  intros Hne. split; [by apply create_loop_done|].
  unfold createRolesAndGroups, ensureRealmExists. apply wp_bind, wp_bind, token_done. intros tok t.
  apply wp_bind, wp_map_error, wp_k_read. cbn [k_realm k_tick]. rewrite realm_works. apply wp_ret.
  by apply create_loop_done.
Qed.
End working.
