(* ===== verification/TenantRoles.v ===== *)
(** * From a tenancy event to an authorization decision

    The role names the Keycloak controller creates for a tenant are the ones the
    API's role patterns read: what an org-created event grants, and what an
    org-deleted event revokes. *)

From S2P Require Import Prelude GoStd Monad EntSchema Sqlgraph EntQuery EntMutation Store.
From S2P Require Import Backend Http Auth Logic AuthSpec Keycloak KeycloakSpec KeycloakDelete.
From Stdlib Require Import Ascii.

(** ** Replacement of a placeholder *)

Definition is_not (d c : ascii) : bool := negb (Ascii.eqb c d).

(** A replacement skips what cannot start the placeholder. *)
Lemma ReplaceAll_skip d old new s t : all_chars (is_not d) s = true →
  ReplaceAll (s +:+ t) (String d old) new = s +:+ ReplaceAll t (String d old) new.
Proof.
  unfold ReplaceAll. induction s as [|c s IH]; intros Hs; [done|].
  change (String c s +:+ t) with (String c (s +:+ t)). simpl in Hs. bools.
  cbn [replace_from]. assert (String.prefix (String d old) (String c (s +:+ t)) = false) as ->.
  { simpl. destruct (ascii_dec d c) as [->|]; [|done]. unfold is_not in *. by rewrite Ascii.eqb_refl in *. }
  rewrite IH by done. done.
Qed.
Lemma ReplaceAll_none d old new s : all_chars (is_not d) s = true → ReplaceAll s (String d old) new = s.
Proof.
  intros Hs. pose proof (ReplaceAll_skip d old new s "" Hs) as H. rewrite str_app_nil in H.
  change (ReplaceAll "" (String d old) new) with "" in H. by rewrite str_app_nil in H.
Qed.

Lemma id_no_bracket s : is_id s → all_chars (is_not "<") s = true.
Proof.
  intros [_ Hs]. induction s as [|c s IH]; [done|]. simpl in *. bools. rewrite IH by done.
  destruct c as [[] [] [] [] [] [] [] []]; done.
Qed.

Lemma instantiate_project orgID projID suffix : is_id orgID → all_chars (is_not "<") suffix = true →
  instantiate orgID projID ("<org-id>" +:+ suffix) = orgID +:+ suffix.
Proof.
  intros Ho Hs. unfold instantiate, orgPrefix, projPrefix.
  assert (ReplaceAll ("<org-id>" +:+ suffix) "<org-id>" orgID = orgID +:+ ReplaceAll suffix "<org-id>" orgID) as ->.
  { by destruct suffix. }
  rewrite (ReplaceAll_none "<" "org-id>") by done.
  apply (ReplaceAll_none "<" "project-id>"). by rewrite all_chars_app, id_no_bracket.
Qed.
Lemma instantiate_member orgID projID suffix : is_id orgID → is_id projID → all_chars (is_not "<") suffix = true →
  instantiate orgID projID ("<org-id>_<project-id>" +:+ suffix) = orgID +:+ "_" +:+ projID +:+ suffix.
Proof.
  intros Ho Hp Hs. unfold instantiate, orgPrefix, projPrefix.
  assert (ReplaceAll ("<org-id>_<project-id>" +:+ suffix) "<org-id>" orgID =
    orgID +:+ "_<project-id>" +:+ ReplaceAll suffix "<org-id>" orgID) as -> by (by destruct suffix).
  rewrite (ReplaceAll_none "<" "org-id>") by done.
  rewrite (ReplaceAll_skip "<" "project-id>") by (by apply id_no_bracket).
  assert (ReplaceAll ("_<project-id>" +:+ suffix) "<project-id>" projID =
    "_" +:+ projID +:+ ReplaceAll suffix "<project-id>" projID) as -> by (by destruct suffix).
  by rewrite (ReplaceAll_none "<" "project-id>").
Qed.

(** the role templates the controller is configured with become, for the ids of a
    tenant, roles the API's patterns read back to the same org: the project roles of an
    org for each verb, and the member roles of a project, in both spellings. *)
Theorem tenant_roles_recognised orgID projID verb suffix :
  is_id orgID → is_id projID → verb ∈ ["read"; "write"; "delete"] → suffix ∈ ["member-role"; "m"] →
  projectRoleRegex (instantiate orgID projID ("<org-id>" +:+ "_project-" +:+ verb +:+ "-role")) = Some orgID ∧
  memberRoleRegex (instantiate orgID projID ("<org-id>_<project-id>" +:+ "_" +:+ suffix)) = Some orgID.
Proof.
  intros Ho Hp Hv Hs. rewrite instantiate_project, instantiate_member; try done.
  - split; apply role_pattern_spec; (split; [done|]); eauto 10.
  - set_unfold in Hs. by destruct Hs as [->|[->|[]]].
  - set_unfold in Hv. by destruct Hv as [->|[->|[->|[]]]].
Qed.

(** ** What one role authorises *)

Definition verb_of : list (string * string) :=
  [(MethodGet, "read"); (MethodPut, "write"); (MethodDelete, "delete")].

Section one_role.
Context `{UUIDLib} `{!UUIDLaws}.

(** the role of a verb scoped to an org, as a realm role *)
Definition scoped_role (u : UUID) (verb : string) : string :=
  uuid_String u +:+ "_" +:+ "project-" +:+ verb +:+ "-role".

Lemma scoped_role_pattern u verb : verb ∈ ["read"; "write"; "delete"] →
  projectRoleRegex (scoped_role u verb) = Some (uuid_String u).
Proof. intros Hv. apply role_pattern_spec. split; [apply uuid_String_id|]. by exists verb. Qed.

Lemma scoped_role_orgs u verb : verb ∈ ["read"; "write"; "delete"] → extractOrgUUIDs [scoped_role u verb] = [u].
Proof.
  intros Hv. rewrite extractOrgUUIDs_distinct. cbn [omap list_omap]. unfold role_org.
  by rewrite scoped_role_pattern, uuid_Parse_String by done.
Qed.

Lemma scoped_role_inj u v verb verb' :
  scoped_role u verb = scoped_role v verb' → "project-" +:+ verb +:+ "-role" = "project-" +:+ verb' +:+ "-role".
Proof.
  intros Heq. assert (id_segment (scoped_role u verb) = id_segment (scoped_role v verb')) as Hs by by rewrite Heq.
  unfold scoped_role in Hs. rewrite !id_segment_app in Hs by apply uuid_String_id.
  injection Hs as _ Hs. exact (f_equal (String.append "project-") Hs).
Qed.

Lemma scoped_role_global u verb verb' : "project-" +:+ verb' +:+ "-role" ≠ scoped_role u verb.
Proof.
  unfold scoped_role. pose proof (uuid_String_id u) as [Hne Hid]. intros Heq.
  destruct (uuid_String u) as [|d s]; [done|]. simpl in Hid, Heq. bools. by simplify_eq.
Qed.

Lemma scoped_role_held u verb verb' : verb ∈ ["read"; "write"; "delete"] → verb' ∈ ["read"; "write"; "delete"] →
  project_role_held [scoped_role u verb] verb' ↔ verb' = verb.
Proof.
  intros Hv Hv'. unfold project_role_held. split.
  - intros [Hr%list_elem_of_singleton|[v Hr%list_elem_of_singleton]]; [by apply scoped_role_global in Hr|].
    apply scoped_role_inj in Hr. set_unfold in Hv. set_unfold in Hv'.
    by destruct Hv as [->|[->|[->|[]]]], Hv' as [->|[->|[->|[]]]].
  - intros ->. right. exists u. by apply list_elem_of_singleton.
Qed.

Lemma verb_of_verb method verb : (method, verb) ∈ verb_of → verb ∈ ["read"; "write"; "delete"].
Proof. unfold verb_of. set_solver. Qed.

(** A token with this role alone may make the requests of its verb, and no other. *)
Lemma scoped_role_authorises u verb method : verb ∈ ["read"; "write"; "delete"] →
  checkProjectAuthz [scoped_role u verb] (extractOrgUUIDs [scoped_role u verb]) method = true ↔
  (method, verb) ∈ verb_of.
Proof.
  intros Hv. rewrite checkProjectAuthz_ok. split.
  - intros [(verb' & Hm & Hh)|[_ (role & s & v & ->%list_elem_of_singleton & Hm & _)]].
    + apply scoped_role_held in Hh as ->; [done|done|by eapply verb_of_verb].
    + by rewrite (projectRole_not_member _ _ (scoped_role_pattern u verb Hv)) in Hm.
  - intros Hm. left. exists verb. split; [done|]. by apply scoped_role_held.
Qed.

(** A token that also has this role may make the requests of its verb. *)
Lemma scoped_role_suffices roles u verb method : scoped_role u verb ∈ roles → (method, verb) ∈ verb_of →
  checkProjectAuthz roles (extractOrgUUIDs roles) method = true.
Proof.
  intros Hr Hm. apply checkProjectAuthz_ok. left. exists verb. split; [done|]. right. by exists u.
Qed.
End one_role.

(** ** Events *)

Section events.
Context `{Gocloak} `{!GocloakLaws} `{UUIDLib} `{!UUIDLaws} (c : KClient).

Definition org_event_of (event_type : string) (u : UUID) (name : string) : Event :=
  mkEvent event_type "org" u name None.

(** C25: once an org-created event is handled without error, the realm has, for every
    project-role template of the configured org groups, the role of its verb scoped to
    the org. The API reads it back to that org and no other; a token with it alone is
    authorised for the verb's method (read GET, write PUT, delete DELETE) and for no
    other method, and every token that has it is authorised for the verb's method. *)
Theorem org_created_grants u name group roles verb w :
  (group, roles) ∈ kc_orgGroups c → "<org-id>" +:+ "_project-" +:+ verb +:+ "-role" ∈ roles →
  verb ∈ ["read"; "write"; "delete"] →
  wp (HandleEvent c (org_event_of "created" u name)) (λ r w', r = inr () →
    ∃ role, role ∈ rl_roles (k_realm w') ∧ role = uuid_String u +:+ "_" +:+ "project-" +:+ verb +:+ "-role" ∧
      extractOrgUUIDs [role] = [u] ∧
      ∀ method,
        (checkProjectAuthz [role] (extractOrgUUIDs [role]) method = true ↔
         (method, verb) ∈ [(MethodGet, "read"); (MethodPut, "write"); (MethodDelete, "delete")]) ∧
        ∀ token, role ∈ token →
          (method, verb) ∈ [(MethodGet, "read"); (MethodPut, "write"); (MethodDelete, "delete")] →
          checkProjectAuthz token (extractOrgUUIDs token) method = true) w.
Proof.
  intros Hg Hr Hv. change (HandleEvent c (org_event_of "created" u name)) with
    (map_error (λ err, Errorf ("create org " +:+ name +:+ " in Keycloak: ") err) (KC_CreateOrg c (uuid_String u))).
  apply wp_map_error. unfold KC_CreateOrg. eapply wp_mono; [apply createRolesAndGroups_present|].
  intros [e|[]] w' Hp; [done|]. intros _. destruct (Hp eq_refl _ Hg) as [_ Hroles].
  apply Hroles in Hr. rewrite instantiate_project in Hr; [|apply uuid_String_id|].
  2: { set_unfold in Hv. by destruct Hv as [->|[->|[->|[]]]]. }
  exists (scoped_role u verb). split_and!; [done|done|by apply scoped_role_orgs|].
  intros method. split; [by apply scoped_role_authorises|]. intros token Ht Hm. by eapply scoped_role_suffices.
Qed.

(** C26: once an org-deleted event is handled without error, no token issued from the
    realm's roles has a role scoped to the org any more. *)
Theorem org_deleted_revokes u name roles suffix w : NoDup (Group_ID <$> rl_groups (k_realm w)) →
  wp (HandleEvent c (org_event_of "deleted" u name)) (λ r w', r = inr () →
    (∀ role, role ∈ roles → role ∈ rl_roles (k_realm w')) → hasOrgScopedRole roles [u] suffix = false) w.
Proof.
  intros Hnd. change (HandleEvent c (org_event_of "deleted" u name)) with
    (map_error (λ err, Errorf ("delete org " +:+ name +:+ " from Keycloak: ") err) (KC_DeleteOrg c (uuid_String u))).
  apply wp_map_error. unfold KC_DeleteOrg. eapply wp_mono; [by apply deleteRolesAndGroups_ok|].
  intros [e|[]] w' [_ Hno]; [done|]. intros _ Hsub. destruct (Hno eq_refl) as [Hroles _].
  destruct (hasOrgScopedRole roles [u] suffix) eqn:Hs; [|done].
  apply hasOrgScopedRole_elem in Hs as (v & ->%list_elem_of_singleton & Hin).
  apply Hsub, Hroles in Hin. rewrite (Contains_app_l _ _ _ (Contains_self (uuid_String u))) in Hin. done.
Qed.
End events.
