(* ===== verification/KtcProcess.v ===== *)
(** * The process of the Keycloak tenant controller

    keycloak-tenant-controller: pkg/auth/vaults/vaults.go (the session with Vault),
    pkg/auth/secrets/secrets.go (the credentials read through it), [init] of
    pkg/keycloak/client.go, [Init] and [validateURL] of pkg/tdmclient/tdmclient.go, and
    cmd/main.go.

    Vault's client library and gocloaksession are parameters; each call of Vault answers as it
    pleases at the moment, the number of the call, and is recorded.  A session of Keycloak is
    an instance of [Gocloak].  encoding/json's and net/url's parsers are parameters, what is
    decoded from a JSON value is not.  Left out: log lines, the stress test, the shutdown. *)

From S2P Require Import Prelude GoStd Monad EntSchema EntQuery Config Http Keycloak.

(** ** vaults.go *)

Inductive VaultCall := CallLogin (url role : string) | CallRead (path : string) | CallRevokeSelf.

Class VaultLib := {
  vault_NewClient : string → option error;
  k8s_NewKubernetesAuth : string → option error;
  (** [false]: no auth info *)
  vault_Login : nat → error + bool;
  (** the data of the secret; [None] is a nil secret *)
  vault_Read : nat → string → error + option (list (string * JSON));
  vault_RevokeSelf : nat → option error;
  gocloaksession_NewSession : string → string → string → string → error + Gocloak;
  parse_JSON : string → option JSON;
  (** scheme and host *)
  url_ParseRequestURI : string → error + string * string;
  tenancy_NewPoller : string → string → option error }.

(** The calls made to Vault, the two variables of the package secrets, and the realm. *)
Record Ktc := mkKtc {
  kt_calls : list VaultCall; kt_clientID : string; kt_clientSecret : string; kt_kworld : KWorld }.
Notation P := (EM Ktc).
Definition in_keycloak {A} (m : K A) : P A := λ w,
  let '(r, k) := m (kt_kworld w) in (r, mkKtc (kt_calls w) (kt_clientID w) (kt_clientSecret w) k).
(** [defer d()] before the rest [m] of the function; [d] has no result. *)
Definition deferring {A} (d : P ()) (m : P A) : P A := λ w, let '(r, w) := m w in (r, (d w).2).

Definition DefaultVaultRole : string := "orch-svc".
Definition DefaultVaultURL : string := "http://vault.orch-platform.svc.cluster.local:8200".
Definition vaultSecretBaseURL : string := "/secret/data/".

Section process.
Context `{VaultLib}.

Definition vault_call {A} (call : VaultCall) (f : nat → error + A) : P A := λ w,
  (f (length (kt_calls w)), mkKtc (kt_calls w ++ [call]) (kt_clientID w) (kt_clientSecret w) (kt_kworld w)).
Definition result_of (e : option error) : error + () := match e with Some e => inl e | None => inr () end.

Definition getVaultClient (vaultURL : string) : P () :=
  map_error (λ _, errText "failed to create Vault client") (of_result (result_of (vault_NewClient vaultURL))).
Definition loginToVault (vaultURL vaultRole : string) : P () :=
  _ ← map_error (λ _, errText "failed to create K8s auth credentials") (of_result (result_of (k8s_NewKubernetesAuth vaultRole)));
  authInfo ← map_error (λ _, errText "failed to login to Vault") (vault_call (CallLogin vaultURL vaultRole) vault_Login);
  if authInfo : bool then mret () else fail (errText "no auth info was returned after login to Vault").
Definition login (vaultURL vaultRole : string) : P () :=
  _ ← getVaultClient vaultURL;
  loginToVault vaultURL vaultRole.
Definition newVaultService (getenv : string → string) : P () :=
  login (or_else (getenv "VAULT_URL") DefaultVaultURL) (or_else (getenv "VAULT_PKI_ROLE") DefaultVaultRole).
Definition ReadSecret (secretName : string) : P (list (string * JSON)) :=
  secret ← map_error (λ _, errText "failed to read secret from Vault")
    (vault_call (CallRead (vaultSecretBaseURL +:+ secretName)) (λ n, vault_Read n (vaultSecretBaseURL +:+ secretName)));
  match secret with
  | None => fail (errText ("secret " +:+ secretName +:+ " not found"))
  | Some data => mret data
  end.
(** An error is logged. *)
Definition Logout : P () :=
  _ ← try (vault_call CallRevokeSelf (λ n, result_of (vault_RevokeSelf n)));
  mret ().

(** ** secrets.go *)

Definition ktcCredentialsSecretName : string := "ktc-m2m-client-secret".
(** [%T] of a decoded value; the library decodes numbers as json.Number. *)
Definition go_type (j : JSON) : string :=
  match j with
  | JNull => "<nil>" | JBool _ => "bool" | JNum _ => "json.Number" | JStr _ => "string"
  | JArr _ => "[]interface {}" | JObj _ => "map[string]interface {}"
  end.
(** The message for a missing secret names the id. *)
Definition string_of (name : string) (data : list (string * JSON)) : error + string :=
  match member name data with
  | None => inl (errText "failed to get client_id from secrets service")
  | Some (JStr s) => inr s
  | Some j => inl (errText ("wrong format of " +:+ name +:+ " read from Vault, expected string, got " +:+ go_type j))
  end.
Definition set_clientID (s : string) : P () := λ w, (inr (), mkKtc (kt_calls w) s (kt_clientSecret w) (kt_kworld w)).
Definition set_clientSecret (s : string) : P () := λ w, (inr (), mkKtc (kt_calls w) (kt_clientID w) s (kt_kworld w)).
(** [init] from the read to its end. *)
Definition read_credentials : P () :=
  credentials ← ReadSecret ktcCredentialsSecretName;
  match member "data" credentials with
  | Some (JObj dataMap) =>
      clientID ← of_result (string_of "client_id" dataMap);
      _ ← set_clientID clientID;
      clientSecret ← of_result (string_of "client_secret" dataMap);
      set_clientSecret clientSecret
  | _ => fail (errText "cannot read credentials data from Vault secret")
  end.
Definition secrets_init (getenv : string → string) : P () :=
  _ ← newVaultService getenv;
  deferring Logout read_credentials.

(** ** client.go: the settings and the session *)

Definition clientName : string := "ktc-m2m-client".
Definition defaultKeycloakUrl : string := "http://platform-keycloak.orch-platform:8080".
Definition defaultKeycloakRealm : string := "master".

(** [json.Unmarshal] into a [map[string][]string]: what has another type is left empty and
    the error, which is logged, does not stop the rest; a text that is not JSON decodes
    nothing. *)
Definition decode_names (j : JSON) : list string :=
  match j with JArr l => (λ j, default "" (as_string (Some j))) <$> l | _ => [] end.
Fixpoint set_group (name : string) (roles : list string) (groups : Groups) : Groups :=
  match groups with
  | [] => [(name, roles)]
  | g :: groups => if String.eqb g.1 name then (name, roles) :: groups else g :: set_group name roles groups
  end.
Definition unmarshal_groups (text : string) : Groups :=
  match parse_JSON text with
  | Some (JObj fields) => foldl (λ groups f, set_group f.1 (decode_names f.2) groups) [] fields
  | _ => []
  end.

(** The client after [init]; the groups of [siGroups] are never set. *)
Record KcClient := mkKcClient { cl_session : Gocloak; cl_client : KClient; cl_keycloakurl : string }.
Definition client_config (getenv : string → string) : KClient :=
  mkKClient (unmarshal_groups (getenv "KEYCLOAK_ORG_GROUPS")) (unmarshal_groups (getenv "KEYCLOAK_PROJ_GROUPS")) []
    (or_else (getenv "KEYCLOAK_REALM") defaultKeycloakRealm).
Definition startKeycloakSession (keycloakRealm keycloakurl : string) : P Gocloak := λ w,
  map_error (Errorv "failed to create Keycloak session: ")
    (of_result (gocloaksession_NewSession clientName (kt_clientSecret w) keycloakRealm keycloakurl)) w.
Definition client_init (getenv : string → string) : P KcClient :=
  let url := or_else (getenv "KEYCLOAK_URL") defaultKeycloakUrl in
  let c := client_config getenv in
  session ← startKeycloakSession (kc_realm c) url;
  _ ← try (in_keycloak (createRolesAndGroups (H := session) c "" "" (kc_siGroups c)));
  mret (mkKcClient session c url).

(** ** tdmclient.go *)

Definition defaultTenantManagerURL : string := "http://tenancy-manager.orch-iam:8080".
Definition validateURL (rawURL : string) : option error :=
  match url_ParseRequestURI rawURL with
  | inl err => Some (Errorf "parse URL: " err)
  | inr (scheme, host) =>
      if negb (String.eqb scheme "http") && negb (String.eqb scheme "https")
      then Some (errText ("scheme must be http or https, got " +:+ quote scheme))
      else if String.eqb host "" then Some (errText "URL must have a host")
      else None
  end.
(** The poller is created and started. *)
Definition tdm_Init (getenv : string → string) (appName : string) : error + string :=
  let url := or_else (getenv "TENANT_MANAGER_URL") defaultTenantManagerURL in
  match validateURL url with
  | Some err => inl (Errorf ("invalid TENANT_MANAGER_URL " +:+ quote url +:+ ": ") err)
  | None =>
      match tenancy_NewPoller url appName with
      | Some err => inl (Errorf "create tenancy poller: " err)
      | None => inr url
      end
  end.

(** ** main.go *)

Definition AppName : string := "keycloak-tenant-controller".
(** [log.Init]: the level is one of four, or not given. *)
Definition log_level_ok (level : string) : bool :=
  String.eqb level "" || mem_string level ["debug"; "info"; "warning"; "error"].

(** The poller hands over its events one at a time; what it does with an error is its own. *)
Fixpoint handle_events `{UUIDLib} (k : KcClient) (events : list Event) : P () :=
  match events with
  | [] => mret ()
  | e :: events =>
      _ ← try (in_keycloak (HandleEvent (H := cl_session k) (cl_client k) e));
      handle_events k events
  end.
Definition ktc_main `{UUIDLib} (getenv : string → string) (logLevel : string) (events : list Event) : P () :=
  if negb (log_level_ok logLevel) then fail (errText "Error initialising logging") else
  _ ← map_error (λ _, errText "Error initialising required secrets") (secrets_init getenv);
  kcClient ← map_error (λ _, errText "Error initialising Keycloak Client") (client_init getenv);
  _ ← map_error (λ _, errText "Error initialising TDM Client") (of_result (tdm_Init getenv AppName));
  handle_events kcClient events.
End process.
