(* ===== verification/KtcProcessSpec.v ===== *)
(** * The process of the Keycloak tenant controller: the session, and what it does to the realm

    The calls of Vault are an observation: a session that is opened is closed, and nothing
    but the credentials is read in it.  [followed]: what a realm may have become once some
    events were handed over, which composes over the events and over the start. *)

From S2P Require Import Prelude GoStd Monad EntSchema EntQuery Config Http Logic Keycloak KeycloakSpec KeycloakDelete KtcProcess.

Section vault.
Context `{VaultLib} (getenv : string → string).

Definition vault_url : string := or_else (getenv "VAULT_URL") DefaultVaultURL.
Definition vault_role : string := or_else (getenv "VAULT_PKI_ROLE") DefaultVaultRole.
Definition credentials_path : string := "/secret/data/ktc-m2m-client-secret".

(** The secret Vault holds has these two strings. *)
Definition reads (n : nat) (id secret : string) : Prop :=
  ∃ credentials data, vault_Read n credentials_path = inr (Some credentials) ∧
    member "data" credentials = Some (JObj data) ∧
    member "client_id" data = Some (JStr id) ∧ member "client_secret" data = Some (JStr secret).
(** What Vault answers when its calls, from the [n]-th on, give these credentials. *)
Definition gives (n : nat) (id secret : string) : Prop :=
  vault_NewClient vault_url = None ∧ k8s_NewKubernetesAuth vault_role = None ∧ vault_Login n = inr true ∧
  reads (S n) id secret.
(** The calls of one run: none, a login that gives no session, or a session. *)
Definition session (n : nat) (calls : list VaultCall) : Prop :=
  calls = [] ∨
  (calls = [CallLogin vault_url vault_role] ∧ vault_Login n ≠ inr true) ∨
  (calls = [CallLogin vault_url vault_role; CallRead credentials_path; CallRevokeSelf] ∧ vault_Login n = inr true).

Lemma string_of_inr name data s : string_of name data = inr s ↔ member name data = Some (JStr s).
Proof. unfold string_of. destruct (member name data) as [[]|]; split; intros; simplify_eq; done. Qed.

Definition called (w : Ktc) (calls : list VaultCall) : Ktc :=
  mkKtc (kt_calls w ++ calls) (kt_clientID w) (kt_clientSecret w) (kt_kworld w).
Lemma wp_vault_call {A} call (f : nat → error + A) (Q : error + A → Ktc → Prop) w :
  Q (f (length (kt_calls w))) (called w [call]) → wp (vault_call call f) Q w.
Proof. intros HQ. exact (proj2 (wp_run (vault_call call f) Q w _ _ eq_refl) HQ). Qed.
Lemma called_twice w c d : called (called w c) d = called w (c ++ d).
Proof. unfold called. simpl. by rewrite <- app_assoc. Qed.
Lemma called_nil w : called w [] = w.
Proof. destruct w. unfold called. simpl. by rewrite app_nil_r. Qed.

(** A login opens a session, or there is none and the credentials cannot be had. *)
Lemma newVaultService_ok w : wp (newVaultService getenv) (λ r w', ∃ calls, w' = called w calls ∧
  match r with
  | inr _ => calls = [CallLogin vault_url vault_role] ∧ vault_NewClient vault_url = None ∧
             k8s_NewKubernetesAuth vault_role = None ∧ vault_Login (length (kt_calls w)) = inr true
  | inl _ => session (length (kt_calls w)) calls ∧ ∀ id secret, ¬ gives (length (kt_calls w)) id secret
  end) w.
Proof.
  unfold newVaultService, login, getVaultClient, loginToVault, session, gives. fold vault_url vault_role.
  apply wp_bind, wp_map_error, wp_of_result.
  destruct (vault_NewClient vault_url); simpl; [exists []; rewrite called_nil; naive_solver|].
  apply wp_bind, wp_map_error, wp_of_result.
  destruct (k8s_NewKubernetesAuth vault_role); simpl; [exists []; rewrite called_nil; naive_solver|].
  apply wp_bind, wp_map_error, wp_vault_call. destruct (vault_Login _) as [e|[]]; simpl.
  - eexists. split; [done|]. split; [right; left; done|]. naive_solver.
  - apply wp_ret. by eexists.
  - apply wp_fail. eexists. split; [done|]. split; [right; left; done|]. naive_solver.
Qed.

Lemma wp_deferring_Logout {A} (m : P A) (Q : error + A → Ktc → Prop) w :
  wp m (λ r w', Q r (called w' [CallRevokeSelf])) w → wp (deferring Logout m) Q w.
Proof.
  intros (r & w' & Hm & HQ)%wp_out. eapply wp_run; [|exact HQ]. unfold deferring. by rewrite Hm.
Qed.

(** Reading the credentials: the two strings that are there, or an error. *)
Lemma read_credentials_ok w : wp read_credentials (λ r w', ∃ id secret,
  w' = mkKtc (kt_calls w ++ [CallRead credentials_path]) id secret (kt_kworld w) ∧
  match r with
  | inr _ => reads (length (kt_calls w)) id secret
  | inl _ => secret = kt_clientSecret w ∧ ∀ id secret, ¬ reads (length (kt_calls w)) id secret
  end) w.
Proof.
  destruct w as [calls id0 secret0 k]. unfold read_credentials, ReadSecret, reads.
  change (vaultSecretBaseURL +:+ ktcCredentialsSecretName) with credentials_path.
  apply wp_bind, wp_bind, wp_map_error, wp_vault_call. simpl.
  destruct (vault_Read _ _) as [e|[credentials|]]; simpl; [| |apply wp_fail].
  1, 3: by do 2 eexists; split; [done|]; split; [done|]; naive_solver.
  apply wp_ret. destruct (member "data" credentials) as [[]|] eqn:Hdata;
    try (apply wp_fail; by do 2 eexists; split; [done|]; split; [done|]; naive_solver).
  apply wp_bind, wp_of_result. destruct (string_of "client_id" fields) as [e|id] eqn:Hid.
  { do 2 eexists. split; [done|]. split; [done|]. intros id secret (? & ? & [= <-] & Hd & Hi & _).
    simplify_eq. apply string_of_inr in Hi. congruence. }
  apply wp_bind. eapply (proj2 (wp_run (set_clientID id) _ _ _ _ eq_refl)).
  apply wp_bind, wp_of_result. destruct (string_of "client_secret" fields) as [e|secret] eqn:Hsecret.
  { do 2 eexists. split; [done|]. split; [done|]. intros id' secret (? & ? & [= <-] & Hd & _ & Hs).
    simplify_eq. apply string_of_inr in Hs. congruence. }
  eapply (proj2 (wp_run (set_clientSecret secret) _ _ _ _ eq_refl)). simpl.
  apply string_of_inr in Hid, Hsecret. do 2 eexists. split; [done|]. eauto 10.
Qed.

Lemma secrets_init_ok w : wp (secrets_init getenv) (λ r w', ∃ calls, kt_calls w' = kt_calls w ++ calls ∧
    session (length (kt_calls w)) calls ∧ kt_kworld w' = kt_kworld w ∧
    match r with
    | inr _ => gives (length (kt_calls w)) (kt_clientID w') (kt_clientSecret w')
    | inl _ => kt_clientSecret w' = kt_clientSecret w ∧ ∀ id secret, ¬ gives (length (kt_calls w)) id secret
    end) w.
Proof.
  unfold secrets_init. apply wp_bind. eapply wp_mono; [apply newVaultService_ok|].
  intros [e|[]] w1 (calls & -> & Hcalls); [destruct Hcalls; by exists calls|]. destruct Hcalls as (-> & Hclient & Hk8s & Hlogin).
  apply wp_deferring_Logout. eapply wp_mono; [apply read_credentials_ok|].
  intros r w2 (id & secret & -> & Hr). simpl in Hr |- *. rewrite length_app, Nat.add_1_r in Hr.
  exists [CallLogin vault_url vault_role; CallRead credentials_path; CallRevokeSelf].
  split; [by rewrite <- !app_assoc|]. split; [by right; right|]. split; [done|].
  destruct r as [e|[]]; [|done]. destruct Hr as [-> Hr]. split; [done|]. intros id' secret' (_ & _ & _ & Hg). by apply Hr in Hg.
Qed.
(** the controller takes its credentials from Vault in one session, which is closed again
    on every path on which it was opened, also when the credentials are missing or of another
    type; nothing but the path of the credentials is read.  It succeeds exactly when Vault
    gives a client_id and a client_secret that are strings, whatever the closing answers, and
    holds these two then; after an error the secret is what it was. *)
Theorem secrets_init_spec w : wp (secrets_init getenv) (λ r w', ∃ calls, kt_calls w' = kt_calls w ++ calls ∧
    session (length (kt_calls w)) calls ∧ kt_kworld w' = kt_kworld w ∧
    match r with
    | inr _ => gives (length (kt_calls w)) (kt_clientID w') (kt_clientSecret w')
    | inl _ => kt_clientSecret w' = kt_clientSecret w ∧ ∀ id secret, ¬ gives (length (kt_calls w)) id secret
    end) w.
Proof. apply secrets_init_ok. Qed.
End vault.

(** ** The realm under a sequence of events *)

Section realm.
Context `{UUIDLib} (c : KClient).

Definition event_is (rt et : string) (e : Event) : bool :=
  String.eqb (ev_ResourceType e) rt && String.eqb (ev_EventType e) et.
Definition ev_id (e : Event) : string := uuid_String (ev_ResourceID e).
Definition ev_org (e : Event) : string := match ev_OrgID e with Some id => uuid_String id | None => "" end.

(** What a creation may add, and the id a deletion is about. *)
Definition created_roles (e : Event) : list string :=
  if event_is "org" "created" e then tenant_roles (ev_id e) "" (kc_orgGroups c)
  else if event_is "project" "created" e then tenant_roles (ev_org e) (ev_id e) (kc_projGroups c) else [].
Definition created_groups (e : Event) : list string :=
  if event_is "org" "created" e then tenant_groups (ev_id e) "" (kc_orgGroups c)
  else if event_is "project" "created" e then tenant_groups (ev_org e) (ev_id e) (kc_projGroups c) else [].
Definition deletes (e : Event) : bool := event_is "org" "deleted" e || event_is "project" "deleted" e.
Definition spared (events : list Event) (name : string) : Prop :=
  ∀ e, e ∈ events → deletes e = true → Contains name (ev_id e) = false.

Record followed (events : list Event) (rl rl' : Realm) : Prop := mk_followed {
  fo_roles : ∀ r, r ∈ rl_roles rl' → r ∈ rl_roles rl ∨ ∃ e, e ∈ events ∧ r ∈ created_roles e;
  fo_roles_kept : ∀ r, r ∈ rl_roles rl → spared events r → r ∈ rl_roles rl';
  fo_groups : ∀ g, g ∈ rl_groups rl' → g ∈ rl_groups rl ∨ ∃ e, e ∈ events ∧ Group_Name g ∈ created_groups e;
  fo_groups_kept : ∀ g, g ∈ rl_groups rl → spared events (Group_Name g) → g ∈ rl_groups rl';
  fo_ids : NoDup (Group_ID <$> rl_groups rl') }.

Lemma followed_refl rl : NoDup (Group_ID <$> rl_groups rl) → followed [] rl rl.
Proof. split; auto. Qed.
(** Stopping early is handing over fewer events. *)
Lemma followed_stop events rl rl' : followed [] rl rl' → followed events rl rl'.
Proof.
  intros [A1 A2 A3 A4 A5]. assert (∀ name, spared events name → spared [] name) as Hsp by (intros ????; set_solver).
  split; [| |..|done]; [intros r [?|(e & ? & _)]%A1|intros r ? ?%Hsp|intros g [?|(e & ? & _)]%A3|intros g ? ?%Hsp];
    auto; set_solver.
Qed.
Lemma followed_trans events events' rl1 rl2 rl3 :
  followed events rl1 rl2 → followed events' rl2 rl3 → followed (events ++ events') rl1 rl3.
Proof.
  assert (∀ name, spared (events ++ events') name → spared events name ∧ spared events' name) as Hsp.
  { unfold spared. set_solver. }
  intros [A1 A2 A3 A4 A5] [B1 B2 B3 B4 B5]. split; [..|done].
  - intros r [[?|(e & ? & ?)]%A1|(e & ? & ?)]%B1; set_solver.
  - intros r Hr [? ?]%Hsp. auto.
  - intros g [[?|(e & ? & ?)]%A3|(e & ? & ?)]%B3; set_solver.
  - intros g Hg [? ?]%Hsp. auto.
Qed.

Section session.
Context `{Gocloak} `{!GocloakLaws}.
Implicit Types w : KWorld.

Lemma grown_followed e rl rl' : NoDup (Group_ID <$> rl_groups rl) →
  grown (created_groups e) (created_roles e) rl rl' → followed [e] rl rl'.
Proof.
  intros Hnd [G1 G2 G3 G4 G5 _ _]. split; auto.
  - intros r [?|?]%G2; [by left|right]. exists e. set_solver.
  - intros g [?|?]%G4; [by left|right]. exists e. set_solver.
Qed.
Lemma shrunk_followed e rl rl' : NoDup (Group_ID <$> rl_groups rl) → deletes e = true →
  shrunk (ev_id e) rl rl' → followed [e] rl rl'.
Proof.
  intros Hnd Hd [S1 S2 S3 S4 S5].
  assert (∀ name, spared [e] name → Contains name (ev_id e) = false) as Hsp by (intros name Hn; apply Hn; [set_solver|done]).
  split; auto.
Qed.

Lemma HandleEvent_followed e w : NoDup (Group_ID <$> rl_groups (k_realm w)) →
  wp (HandleEvent c e) (λ _ w', followed [e] (k_realm w) (k_realm w')) w.
Proof.
  intros Hnd. unfold HandleEvent.
  change (String.eqb (ev_ResourceType e) ?rt && String.eqb (ev_EventType e) ?et) with (event_is rt et e). cbv zeta beta.
  pose proof (grown_followed e (k_realm w)) as Hcreate. unfold created_groups, created_roles in Hcreate.
  pose proof (shrunk_followed e (k_realm w)) as Hdelete. unfold deletes in Hdelete.
  destruct (event_is "org" "created" e).
  { apply wp_map_error. eapply wp_mono; [apply createRolesAndGroups_confined|]. intros [] w' Hg; by apply Hcreate. }
  destruct (event_is "org" "deleted" e).
  { apply wp_map_error. eapply wp_mono; [by apply deleteRolesAndGroups_ok|]. intros [] w' [Hs _]; by apply Hdelete. }
  destruct (event_is "project" "created" e).
  { apply wp_map_error. eapply wp_mono; [apply createRolesAndGroups_confined|]. intros [] w' Hg; by apply Hcreate. }
  destruct (event_is "project" "deleted" e).
  { apply wp_map_error. eapply wp_mono; [by apply deleteRolesAndGroups_ok|]. intros [] w' [Hs _]; by apply Hdelete. }
  apply wp_ret. apply Hcreate; [done|reflexivity].
Qed.
(** Creating the roles of no group, at the start, changes nothing. *)
Lemma no_groups_followed w : NoDup (Group_ID <$> rl_groups (k_realm w)) →
  wp (createRolesAndGroups c "" "" []) (λ _ w', followed [] (k_realm w) (k_realm w')) w.
Proof.
  intros Hnd. eapply wp_mono; [apply createRolesAndGroups_confined|]. intros r w' [G1 G2 G3 G4 G5 _ _].
  split; [|auto..|auto]; [intros x [?|?]%G2|intros x [?|?]%G4]; set_solver.
Qed.
End session.
End realm.

Section process.
Context `{UUIDLib} `{VaultLib}.
Context (sessions : ∀ id secret realm url s, gocloaksession_NewSession id secret realm url = inr s → @GocloakLaws s).

Lemma wp_in_keycloak {A} (m : K A) (Q : error + A → Ktc → Prop) w :
  wp m (λ r k, Q r (mkKtc (kt_calls w) (kt_clientID w) (kt_clientSecret w) k)) (kt_kworld w) → wp (in_keycloak m) Q w.
Proof. intros (r & k & Hm & HQ)%wp_out. eapply wp_run; [|exact HQ]. unfold in_keycloak. by rewrite Hm. Qed.

Lemma handle_events_followed k events w : @GocloakLaws (cl_session k) → NoDup (Group_ID <$> rl_groups (k_realm (kt_kworld w))) →
  wp (handle_events k events)
    (λ _ w', followed (cl_client k) events (k_realm (kt_kworld w)) (k_realm (kt_kworld w'))) w.
Proof.
  intros Hlaws. revert w. induction events as [|e events IH]; intros w Hnd; cbn [handle_events].
  { by apply wp_ret, followed_refl. }
  apply wp_bind, wp_try, wp_in_keycloak. eapply wp_mono; [by apply HandleEvent_followed|]. intros r1 k1 H1.
  eapply wp_mono; [apply IH, H1|]. intros r2 w2 H2. exact (followed_trans _ [e] events _ _ _ H1 H2).
Qed.

Lemma client_init_followed getenv w : NoDup (Group_ID <$> rl_groups (k_realm (kt_kworld w))) →
  wp (client_init getenv) (λ r w',
    followed (client_config getenv) [] (k_realm (kt_kworld w)) (k_realm (kt_kworld w')) ∧
    match r with
    | inr k => @GocloakLaws (cl_session k) ∧ cl_client k = client_config getenv ∧
        gocloaksession_NewSession clientName (kt_clientSecret w) (kc_realm (client_config getenv))
          (or_else (getenv "KEYCLOAK_URL") defaultKeycloakUrl) = inr (cl_session k)
    | inl _ => True
    end) w.
Proof.
  intros Hnd. unfold client_init. cbv zeta. apply wp_bind. eapply wp_mono; [apply wp_self|].
  intros r w1 Hs. unfold startKeycloakSession, map_error, of_result in Hs.
  destruct (gocloaksession_NewSession _ _ _ _) as [e|s] eqn:Hnew; injection Hs as <- <-; [by split; [apply followed_refl|]|].
  pose proof (sessions _ _ _ _ _ Hnew) as Hlaws. apply wp_bind, wp_try, wp_in_keycloak.
  eapply wp_mono; [by apply no_groups_followed|]. intros r1 k1 H1. by apply wp_ret.
Qed.

(** C24: whatever Vault, Keycloak and the poller answer and wherever the process stops, the
    roles and groups of the realm are those of the start and those that the configured
    templates give for a created org or project of the events handed over; and a role or group
    of the start whose name contains the id of no deleted org or project is still there.  A run
    that hands over all events has opened its session with the secret that Vault gave, at the
    realm and the URL of the environment. *)
Theorem ktc_main_confined getenv level events w : NoDup (Group_ID <$> rl_groups (k_realm (kt_kworld w))) →
  wp (ktc_main getenv level events) (λ r w',
    followed (client_config getenv) events (k_realm (kt_kworld w)) (k_realm (kt_kworld w')) ∧
    (r = inr () → ∃ id secret s, gives getenv (length (kt_calls w)) id secret ∧
       gocloaksession_NewSession clientName secret (kc_realm (client_config getenv))
         (or_else (getenv "KEYCLOAK_URL") defaultKeycloakUrl) = inr s)) w.
Proof.
  intros Hnd. unfold ktc_main. destruct (negb _); [apply wp_fail; split; [by apply followed_stop, followed_refl|done]|].
  apply wp_bind, wp_map_error. eapply wp_mono; [apply secrets_init_ok|].
  intros r1 w1 (calls & _ & _ & Hk & Hr1). rewrite <- Hk in Hnd |- *.
  destruct r1 as [e|[]]; [split; [by apply followed_stop, followed_refl|done]|].
  apply wp_bind, wp_map_error. eapply wp_mono; [by apply client_init_followed|].
  intros [e|k] w2 [H2 Hr2]; [by split; [apply followed_stop|]|]. destruct Hr2 as (Hlaws & Hc & Hnew).
  apply wp_bind, wp_map_error, wp_of_result. destruct (tdm_Init _ _) as [e|url]; [by split; [apply followed_stop|]|].
  eapply wp_mono; [apply handle_events_followed; [done|apply H2]|]. intros r3 w3 H3. rewrite Hc in H3.
  split; [exact (followed_trans _ [] events _ _ _ H2 H3)|]. intros _.
  eexists _, _, _. split; [exact Hr1|exact Hnew].
Qed.
End process.
