(* ===== verification/Base64.v ===== *)
(** * Base64 (package encoding/base64)

    [StdEncoding]: the standard alphabet with padding, on byte strings.  Decoding
    skips line breaks, requires the padding and ignores the unused bits of the last
    group, as the package does; the offset it reports on corrupt input is left out. *)

From S2P Require Import Prelude GoStd.
From Stdlib Require Import Ascii ZifyNat.

Definition encodeStd : string := "ABCDEFGHIJKLMNOPQRSTUVWXYZabcdefghijklmnopqrstuvwxyz0123456789+/".
Definition pad : ascii := "=".

Definition b64_char (n : nat) : ascii := default pad (String.get n encodeStd).
Definition b64_digit (c : ascii) : option nat :=
  if is_upper c then Some (code c - 65)
  else if is_lower c then Some (code c - 71)
  else if is_digit c then Some (code c + 4)
  else if Ascii.eqb c "+" then Some 62
  else if Ascii.eqb c "/" then Some 63
  else None.

(** One group: three bytes as four digits and back. *)
Fixpoint b64_encode (s : string) : string :=
  match s with
  | EmptyString => EmptyString
  | String a EmptyString =>
      String (b64_char (code a / 4)) (String (b64_char (code a mod 4 * 16)) (String pad (String pad EmptyString)))
  | String a (String b EmptyString) =>
      String (b64_char (code a / 4)) (String (b64_char (code a mod 4 * 16 + code b / 16))
        (String (b64_char (code b mod 16 * 4)) (String pad EmptyString)))
  | String a (String b (String c s)) =>
      String (b64_char (code a / 4)) (String (b64_char (code a mod 4 * 16 + code b / 16))
        (String (b64_char (code b mod 16 * 4 + code c / 64)) (String (b64_char (code c mod 64)) (b64_encode s))))
  end.

Definition byte1 (x y : nat) : ascii := ascii_of_nat (x * 4 + y / 16).
Definition byte2 (y z : nat) : ascii := ascii_of_nat (y mod 16 * 16 + z / 4).
Definition byte3 (z v : nat) : ascii := ascii_of_nat (z mod 4 * 64 + v).

Fixpoint b64_groups (s : string) : option string :=
  match s with
  | EmptyString => Some EmptyString
  | String a (String b (String c (String d s))) =>
      x ← b64_digit a; y ← b64_digit b;
      if Ascii.eqb c pad then
        if Ascii.eqb d pad then match s with EmptyString => Some (String (byte1 x y) EmptyString) | _ => None end
        else None
      else
        z ← b64_digit c;
        if Ascii.eqb d pad then
          match s with EmptyString => Some (String (byte1 x y) (String (byte2 y z) EmptyString)) | _ => None end
        else
          v ← b64_digit d; rest ← b64_groups s;
          Some (String (byte1 x y) (String (byte2 y z) (String (byte3 z v) rest)))
  | _ => None
  end.

Definition is_break (c : ascii) : bool := (code c =? 10)%nat || (code c =? 13)%nat.
Fixpoint strip_breaks (s : string) : string :=
  match s with
  | EmptyString => EmptyString
  | String c s => if is_break c then strip_breaks s else String c (strip_breaks s)
  end.

Definition EncodeToString (s : string) : string := b64_encode s.
Definition DecodeString (s : string) : option string := b64_groups (strip_breaks s).

(** ** Round trip *)

Lemma b64_char_digit n : (n < 64)%nat →
  b64_digit (b64_char n) = Some n ∧ b64_char n ≠ pad ∧ is_break (b64_char n) = false.
Proof.
  intros Hn. do 64 (destruct n as [|n]; [by split_and!|]). lia.
Qed.

Lemma byte_bound c : (code c < 256)%nat.
Proof. apply nat_ascii_bounded. Qed.

(** A byte read back from the digits it was spread over. *)
Lemma byte_eq c n : n = code c → ascii_of_nat n = c.
Proof. intros ->. apply ascii_nat_embedding. Qed.

Ltac nat_div := zify; Z.to_euclidean_division_equations; lia.

(** Three bytes at a time. *)
Lemma string_ind3 (P : string → Prop) :
  P "" → (∀ a, P (String a "")) → (∀ a b, P (String a (String b ""))) →
  (∀ a b c s, P s → P (String a (String b (String c s)))) → ∀ s, P s.
Proof.
  intros H0 H1 H2 H3. fix IH 1. intros [|a [|b [|c s]]]; [done|apply H1|apply H2|apply H3, IH].
Qed.

(** The digits of a group are digits, and give its bytes back. *)
Lemma b64_first a b : (code a / 4 < 64)%nat ∧ (code a mod 4 * 16 + code b / 16 < 64)%nat ∧
  byte1 (code a / 4) (code a mod 4 * 16 + code b / 16) = a.
Proof.
  pose proof (byte_bound a). pose proof (byte_bound b).
  split_and!; [nat_div|nat_div|]. apply byte_eq. nat_div.
Qed.
Lemma b64_second a b c : (code b mod 16 * 4 + code c / 64 < 64)%nat ∧
  byte2 (code a mod 4 * 16 + code b / 16) (code b mod 16 * 4 + code c / 64) = b.
Proof.
  pose proof (byte_bound a). pose proof (byte_bound b). pose proof (byte_bound c).
  split; [nat_div|]. apply byte_eq. nat_div.
Qed.
Lemma b64_third b c : (code c mod 64 < 64)%nat ∧
  byte3 (code b mod 16 * 4 + code c / 64) (code c mod 64) = c.
Proof.
  pose proof (byte_bound b). pose proof (byte_bound c). split; [nat_div|]. apply byte_eq. nat_div.
Qed.
(** the short groups: the missing byte counts as zero *)
Lemma b64_first_short a : (code a mod 4 * 16 < 64)%nat ∧ byte1 (code a / 4) (code a mod 4 * 16) = a.
Proof. pose proof (byte_bound a). split; [nat_div|]. apply byte_eq. nat_div. Qed.
Lemma b64_second_short a b : (code b mod 16 * 4 < 64)%nat ∧
  byte2 (code a mod 4 * 16 + code b / 16) (code b mod 16 * 4) = b.
Proof. pose proof (byte_bound a). pose proof (byte_bound b). split; [nat_div|]. apply byte_eq. nat_div. Qed.

Lemma b64_encode_digits s : strip_breaks (b64_encode s) = b64_encode s.
Proof.
  assert (∀ n t, (n < 64)%nat → strip_breaks (String (b64_char n) t) = String (b64_char n) (strip_breaks t)) as Hd.
  { intros n t (_ & _ & Hb)%b64_char_digit. simpl. by rewrite Hb. }
  induction s as [|a|a b|a b c s IH] using string_ind3; simpl b64_encode; [done| | |].
  - rewrite !Hd by apply b64_first_short || apply (b64_first a "0"). done.
  - rewrite !Hd by apply (b64_second_short a b) || apply (b64_first a b). done.
  - rewrite !Hd by apply (b64_third b c) || apply (b64_second a b c) || apply (b64_first a b). by rewrite IH.
Qed.

(** Decoding what was encoded gives it back, for every byte string. *)
Theorem DecodeString_EncodeToString s : DecodeString (EncodeToString s) = Some s.
Proof.
  unfold DecodeString, EncodeToString. rewrite b64_encode_digits.
  induction s as [|a|a b|a b c s IH] using string_ind3; [done| | |].
  - destruct (b64_char_digit _ (proj1 (b64_first a "0"))) as (H1 & _).
    destruct (b64_first_short a) as [[H2 _]%b64_char_digit H3].
    cbn [b64_encode b64_groups]. rewrite H1, H2. cbn [mbind option_bind]. by rewrite !Ascii.eqb_refl, H3.
  - destruct (b64_first a b) as ((H1 & _)%b64_char_digit & (H2 & _)%b64_char_digit & H3).
    destruct (b64_second_short a b) as [(H4 & H5 & _)%b64_char_digit H6].
    cbn [b64_encode b64_groups]. rewrite H1, H2. cbn [mbind option_bind].
    rewrite (proj2 (Ascii.eqb_neq _ _) H5), H4. cbn [mbind option_bind].
    by rewrite Ascii.eqb_refl, H3, H6.
  - destruct (b64_first a b) as ((H1 & _)%b64_char_digit & (H2 & _)%b64_char_digit & H3).
    destruct (b64_second a b c) as [(H4 & H5 & _)%b64_char_digit H6].
    destruct (b64_third b c) as [(H7 & H8 & _)%b64_char_digit H9].
    cbn [b64_encode b64_groups]. rewrite H1, H2. cbn [mbind option_bind].
    rewrite (proj2 (Ascii.eqb_neq _ _) H5), H4. cbn [mbind option_bind].
    rewrite (proj2 (Ascii.eqb_neq _ _) H8), H7. cbn [mbind option_bind]. rewrite IH. cbn [mbind option_bind]. by rewrite H3, H6, H9.
Qed.
