(* ===== verification/Bootstrap.v ===== *)
(** * The tenant-admin bootstrap (tenancy-manager/internal/bootstrap)

    config.go, password.go, keycloak.go, k8s.go and bootstrap.go: the settings read
    from the environment, the password generator, the two small REST clients with the
    requests they send, and [Run].

    Keycloak and the Kubernetes API are the parameter [Net]: a request is answered, and
    may change the [Cluster], the users, groups and secrets behind them (of the one
    realm the client is configured with).  The files and variables of the process are
    the parameter [OS].  Log lines are left out. *)

From S2P Require Import Prelude GoStd Monad EntSchema Sqlgraph EntQuery EntMutation Config Store Http Base64.
From Stdlib Require Import Ascii.

(** ** What is outside *)

Record KUser := mkKUser {
  ku_ID : string; ku_Username : string; ku_Password : option string; ku_Groups : list string }.
(** [cl_groups]: path and ID; [cl_secrets]: namespace and name to the encoded data. *)
Record Cluster := mkCluster {
  cl_users : list KUser;
  cl_groups : list (string * string);
  cl_secrets : gmap (string * string) (gmap string string) }.

Class Net := {
  (** [http.NewRequestWithContext] refuses a URL it cannot parse *)
  net_NewRequest : string → option error;
  net_Do : nat → HTTPRequest → Cluster → (error + HTTPReply) * Cluster;
  (** what encoding/json reports of a body *)
  json_error : Body → error;
  (** [rand.Int(rand.Reader, max)] *)
  rand_Int : nat → nat → error + nat;
  (** [select] on the context and the ticker: the context's error, or a tick *)
  net_select : nat → option error }.

Class OS := {
  os_LookupEnv : string → option string;
  os_ReadFile : string → error + string;
  x509_AppendCertsFromPEM : string → bool }.

(** The store of the tenancy manager and the cluster; calls share one counter. *)
Record BWorld := mkBWorld { b_store : World; b_net : Cluster }.
Notation B := (EM BWorld).

Definition of_store {A} (m : M A) : B A := λ w,
  let '(r, s) := m (b_store w) in (r, mkBWorld s (b_net w)).
Definition b_tick (w : BWorld) : nat := w_tick (b_store w).
Definition tick (w : BWorld) : BWorld :=
  mkBWorld (mkWorld (w_db (b_store w)) (w_tx (b_store w)) (S (b_tick w))) (b_net w).

(** ** config.go *)

Record BootConfig := mkBootConfig {
  bc_Enabled : bool;
  bc_KeycloakService : string; bc_KeycloakNamespace : string; bc_KeycloakPort : string;
  bc_KeycloakRealm : string; bc_KeycloakAdminUser : string;
  bc_TenantAdminUser : string;
  bc_ProjectAdminGroups : list string; bc_ProjectEdgeGroups : list string;
  bc_SecretNamespace : string; bc_SecretName : string }.

Section config.
Context `{OS}.

Definition os_Getenv (key : string) : string := default "" (os_LookupEnv key).
Definition getenv (key def : string) : string :=
  match os_LookupEnv key with
  | Some v => if negb (String.eqb v "") then v else def
  | None => def
  end.
Definition getenvBool (key : string) (def : bool) : bool :=
  match os_LookupEnv key with
  | None => def
  | Some v =>
      let v := ToLower (TrimSpace v) in
      if mem_string v ["1"; "true"; "yes"; "on"] then true
      else if mem_string v ["0"; "false"; "no"; "off"; ""] then false
      else def
  end.
Definition splitCSV (v : string) : list string :=
  select (λ p, negb (String.eqb p "")) (TrimSpace <$> Split v ",").

Definition LoadBootConfig : BootConfig := {|
  bc_Enabled := getenvBool "BOOTSTRAP_TENANT_ADMIN_ENABLED" false;
  bc_KeycloakService := getenv "KEYCLOAK_SERVICE" "platform-keycloak";
  bc_KeycloakNamespace := getenv "KEYCLOAK_NAMESPACE" "orch-platform";
  bc_KeycloakPort := getenv "KEYCLOAK_PORT" "8080";
  bc_KeycloakRealm := getenv "KEYCLOAK_REALM" "master";
  bc_KeycloakAdminUser := getenv "KEYCLOAK_ADMIN_USER" "admin";
  bc_TenantAdminUser := ToLower (getenv "TENANT_ADMIN_USER" "tenant-admin");
  bc_ProjectAdminGroups := splitCSV (getenv "PROJECT_ADMIN_GROUPS" "Project-Manager-Group");
  bc_ProjectEdgeGroups := splitCSV (getenv "PROJECT_EDGE_GROUPS"
    "Edge-Manager-Group,Edge-Onboarding-Group,Edge-Operator-Group,Host-Manager-Group");
  bc_SecretNamespace := os_Getenv "TENANT_ADMIN_SECRET_NAMESPACE";
  bc_SecretName := getenv "TENANT_ADMIN_SECRET_NAME" "tenant-admin-password" |}.

Definition KeycloakBaseURL (c : BootConfig) : string :=
  "http://" +:+ bc_KeycloakService c +:+ "." +:+ bc_KeycloakNamespace c +:+ ".svc.cluster.local:"
  +:+ bc_KeycloakPort c.
End config.

(** ** password.go *)

Definition uppercaseChars : string := "ABCDEFGHIJKLMNOPQRSTUVWXYZ".
Definition lowercaseChars : string := "abcdefghijklmnopqrstuvwxyz".
Definition digitChars : string := "0123456789".
Definition specialChars : string := "!@#$%^&*()_+|:<>?=".
Definition passwordChars : string := uppercaseChars +:+ lowercaseChars +:+ digitChars +:+ specialChars.
Definition passwordLength : nat := 16.

Definition index_panic : error := errText "runtime error: index out of range".

Section password.
Context `{Net}.

Definition random (max : nat) : B nat := λ w, (rand_Int (b_tick w) max, tick w).

Definition randChar (charset : string) : B ascii :=
  n ← random (String.length charset);
  of_result (match String.get n charset with Some c => inr c | None => inl index_panic end).

(** [data[i], data[j] = data[j], data[i]] *)
Definition swap (i j : nat) (data : list ascii) : error + list ascii :=
  match data !! i, data !! j with
  | Some x, Some y => inr (<[j := x]> (<[i := y]> data))
  | _, _ => inl index_panic
  end.
(** The loop for [i] down to 1. *)
Fixpoint shuffle_from (i : nat) (data : list ascii) : B (list ascii) :=
  match i with
  | O => mret data
  | S i' =>
      j ← random (S i);
      data ← of_result (swap i j data);
      shuffle_from i' data
  end.
Definition shuffle (data : list ascii) : B (list ascii) := shuffle_from (length data - 1) data.

(** The loop that fills the positions from 4 on. *)
Fixpoint fill (n : nat) : B (list ascii) :=
  match n with
  | O => mret []
  | S n => c ← randChar passwordChars; rest ← fill n; mret (c :: rest)
  end.

Definition GeneratePassword : B string :=
  if (passwordLength <? 4)%nat then fail (errText "password length must be at least 4") else
  c0 ← randChar uppercaseChars;
  c1 ← randChar lowercaseChars;
  c2 ← randChar digitChars;
  c3 ← randChar specialChars;
  rest ← fill (passwordLength - 4);
  pw ← shuffle (c0 :: c1 :: c2 :: c3 :: rest);
  mret (String.string_of_list_ascii pw).
End password.

(** ** Requests and JSON *)

Section http.
Context `{Net}.

Definition net_call (rq : HTTPRequest) : B HTTPReply := λ w,
  let '(r, cl) := net_Do (b_tick w) rq (b_net w) in
  (r, mkBWorld (b_store (tick w)) cl).
Definition NewRequest (url : string) : B () :=
  match net_NewRequest url with Some err => fail err | None => mret () end.

(** [json.NewDecoder(...).Decode(&v)] with [v] zero before; an empty body is [io.EOF]. *)
Definition json_Decode {A} (decode : JSON → option A) (b : Body) : error + A :=
  match b with
  | BodyEOF => inl (errText "EOF")
  | BodyInvalid => inl (json_error b)
  | BodyJSON j => match decode j with Some a => inr a | None => inl (json_error b) end
  end.
Definition is_EOF (b : Body) : bool := match b with BodyEOF => true | _ => false end.
End http.

Definition decode_bool (key : string) (fields : list (string * JSON)) : option bool :=
  foldl (λ acc f, match acc with
                  | None => None
                  | Some v => if EqualFold f.1 key
                              then match f.2 with JBool b => Some b | JNull => Some v | _ => None end
                              else Some v
                  end) (Some false) fields.
(** Into a [map[string]string]: keys as they are, [null] members are empty. *)
Definition decode_entry (acc : option (gmap string string)) (f : string * JSON) : option (gmap string string) :=
  m ← acc;
  match f.2 with JStr s => Some (<[f.1 := s]> m) | JNull => Some (<[f.1 := ""]> m) | _ => None end.
Definition decode_map (key : string) (fields : list (string * JSON)) : option (gmap string string) :=
  foldl (λ acc f, m ← acc;
                  if EqualFold f.1 key
                  then match f.2 with
                       | JObj entries => foldl decode_entry (Some m) entries
                       | JNull => Some ∅
                       | _ => None
                       end
                  else Some m) (Some ∅) fields.

(** [url.Values.Encode] of values given in the order of their keys. *)
Definition form_Encode (v : list (string * string)) : string :=
  Join ((λ kv, url_escape encodeQueryComponent kv.1 +:+ "=" +:+ url_escape encodeQueryComponent kv.2) <$> v) "&".

(** ** keycloak.go *)

Record KeycloakClient := mkKeycloakClient { kcl_baseURL : string; kcl_realm : string; kcl_token : string }.
Record KCUser := mkKCUser {
  kcu_ID : string; kcu_Username : string; kcu_Email : string; kcu_FirstName : string; kcu_LastName : string;
  kcu_Enabled : bool; kcu_EmailVerified : bool }.
Record KCGroup := mkKCGroup { kcg_ID : string; kcg_Name : string; kcg_Path : string }.

Definition omitempty (key v : string) : list (string * JSON) :=
  if String.eqb v "" then [] else [(key, JStr v)].
Definition KCUser_json (u : KCUser) : JSON :=
  JObj (omitempty "id" (kcu_ID u) ++ [("username", JStr (kcu_Username u))]
        ++ omitempty "email" (kcu_Email u) ++ omitempty "firstName" (kcu_FirstName u)
        ++ omitempty "lastName" (kcu_LastName u)
        ++ [("enabled", JBool (kcu_Enabled u)); ("emailVerified", JBool (kcu_EmailVerified u))]).
Definition decode_KCUser (fields : list (string * JSON)) : option KCUser :=
  i ← decode_string "id" fields; u ← decode_string "username" fields;
  e ← decode_string "email" fields; f ← decode_string "firstName" fields;
  l ← decode_string "lastName" fields; n ← decode_bool "enabled" fields;
  v ← decode_bool "emailVerified" fields;
  Some (mkKCUser i u e f l n v).
Definition decode_KCUsers (j : JSON) : option (list KCUser) :=
  match j with
  | JNull => Some []
  | JArr l => mapM (decode_struct decode_KCUser) l
  | _ => None
  end.
Definition decode_KCGroup (fields : list (string * JSON)) : option KCGroup :=
  i ← decode_string "id" fields; n ← decode_string "name" fields; p ← decode_string "path" fields;
  Some (mkKCGroup i n p).

Section keycloak.
Context `{Net}.

Definition NewKeycloakClient (baseURL realm adminUser adminPass : string) : B KeycloakClient :=
  let form := form_Encode [("client_id", "admin-cli"); ("grant_type", "password");
                           ("password", adminPass); ("username", adminUser)] in
  let tokenURL := baseURL +:+ "/realms/" +:+ realm +:+ "/protocol/openid-connect/token" in
  _ ← NewRequest tokenURL;
  resp ← map_error (Errorf "keycloak login: ")
    (net_call (mkHTTPRequest MethodPost tokenURL
                 [("Content-Type", "application/x-www-form-urlencoded")] (FormBody form)));
  if negb (hp_StatusCode resp =? StatusOK)%Z
  then fail (errText ("keycloak login: " +:+ hp_Status resp +:+ ": " +:+ hp_Text resp)) else
  match json_Decode (decode_struct (decode_string "access_token")) (hp_Body resp) with
  | inl err => fail (Errorf "decode token: " err)
  | inr token =>
      if String.eqb token "" then fail (errText "keycloak login: empty access token")
      else mret (mkKeycloakClient baseURL realm token)
  end.

Context (k : KeycloakClient).

Definition adminURL (path : string) : string :=
  kcl_baseURL k +:+ "/admin/realms/" +:+ kcl_realm k +:+ path.

Definition kc_request (method urlStr : string) (body : option JSON) : HTTPRequest :=
  mkHTTPRequest method urlStr
    ([("Authorization", "Bearer " +:+ kcl_token k)]
     ++ match body with Some _ => [("Content-Type", "application/json")] | None => [] end
     ++ [("Accept", "application/json")])
    match body with Some j => JSONBody j | None => NoReqBody end.

(** What [do] decodes of an accepted reply into [out], which is [zero] before. *)
Definition kc_reply {A} (out : option (JSON → option A)) (zero : A) (resp : HTTPReply) : error + A :=
  match out with
  | Some decode =>
      if negb (hp_StatusCode resp =? StatusNoContent)%Z && negb (hp_ContentLength resp =? 0)%Z then
        if is_EOF (hp_Body resp) then inr zero else
        match json_Decode decode (hp_Body resp) with
        | inl err => inl (Errorf "decode response: " err)
        | inr a => inr a
        end
      else inr zero
  | None => inr zero
  end.
(** [do]: the status code, and the error or the value. *)
Definition kc_do {A} (method urlStr : string) (body : option JSON) (out : option (JSON → option A)) (zero : A)
    : B (Z * (error + A)) :=
  r ← try (_ ← NewRequest urlStr; net_call (kc_request method urlStr body));
  match r with
  | inl err => mret (0%Z, inl err)
  | inr resp =>
      mret (hp_StatusCode resp,
        if (300 <=? hp_StatusCode resp)%Z
        then inl (errText ("keycloak " +:+ method +:+ " " +:+ urlStr +:+ ": " +:+ hp_Status resp +:+ ": " +:+ hp_Text resp))
        else kc_reply out zero resp)
  end.
(** Only the error of [do]. *)
Definition kc_exec {A} (method urlStr : string) (body : option JSON) (out : option (JSON → option A)) (zero : A) : B A :=
  r ← kc_do method urlStr body out zero; of_result r.2.

Definition users_URL (username : string) : string :=
  adminURL ("/users?username=" +:+ url_escape encodeQueryComponent username +:+ "&exact=true").
Definition FindUserByUsername (username : string) : B (option KCUser) :=
  users ← kc_exec MethodGet (users_URL username) None (Some decode_KCUsers) [];
  mret (List.find (λ u, EqualFold (kcu_Username u) username) users).

Definition CreateUser (user : KCUser) : B string :=
  r ← kc_do MethodPost (adminURL "/users") (Some (KCUser_json user)) None ();
  match r with
  | (code, inl err) => if negb (code =? StatusConflict)%Z then fail err else mret ()
  | (_, inr _) => mret ()
  end;;
  existing ← FindUserByUsername (kcu_Username user);
  match existing with
  | None => fail (errText ("user " +:+ kcu_Username user +:+ " not found after create"))
  | Some u => mret (kcu_ID u)
  end.

Definition password_URL (userID : string) : string := adminURL ("/users/" +:+ userID +:+ "/reset-password").
Definition password_json (password : string) : JSON :=
  JObj [("temporary", JBool false); ("type", JStr "password"); ("value", JStr password)].
Definition SetPassword (userID password : string) : B () :=
  kc_exec MethodPut (password_URL userID) (Some (password_json password)) None ().

Definition group_path (path : string) : string := if HasPrefix path "/" then path else "/" +:+ path.
Definition group_URL (path : string) : string := adminURL ("/group-by-path" +:+ path).
Definition GetGroupByPath (path : string) : B KCGroup :=
  let path := group_path path in
  g ← kc_exec MethodGet (group_URL path) None (Some (decode_struct decode_KCGroup)) (mkKCGroup "" "" "");
  if String.eqb (kcg_ID g) "" then fail (errText ("group " +:+ quote path +:+ " not found")) else mret g.

Definition membership_URL (userID groupID : string) : string :=
  adminURL ("/users/" +:+ userID +:+ "/groups/" +:+ groupID).
Definition AddUserToGroup (userID groupID : string) : B () :=
  kc_exec MethodPut (membership_URL userID groupID) None None ().
End keycloak.

(** ** k8s.go *)

Definition saTokenFile : string := "/var/run/secrets/kubernetes.io/serviceaccount/token".
Definition saCAFile : string := "/var/run/secrets/kubernetes.io/serviceaccount/ca.crt".
Definition saNamespaceFile : string := "/var/run/secrets/kubernetes.io/serviceaccount/namespace".

Record KubeClient := mkKubeClient { kb_host : string; kb_token : string; kb_defaultNS : string }.

Section kube.
Context `{OS} `{Net}.

Definition NewInClusterKubeClient : error + KubeClient :=
  let host := os_Getenv "KUBERNETES_SERVICE_HOST" in
  let port := os_Getenv "KUBERNETES_SERVICE_PORT" in
  if String.eqb host "" || String.eqb port ""
  then inl (errText "not running in-cluster (KUBERNETES_SERVICE_HOST/PORT not set)") else
  match os_ReadFile saTokenFile with
  | inl err => inl (Errorf "read SA token: " err)
  | inr tokenBytes =>
      match os_ReadFile saCAFile with
      | inl err => inl (Errorf "read SA CA: " err)
      | inr caBytes =>
          if negb (x509_AppendCertsFromPEM caBytes) then inl (errText "parse SA CA bundle") else
          let ns := match os_ReadFile saNamespaceFile with inr s => s | inl _ => "" end in
          inr (mkKubeClient ("https://" +:+ host +:+ ":" +:+ port) (TrimSpace tokenBytes) (TrimSpace ns))
      end
  end.

Context (k : KubeClient).

Definition DefaultNamespace : string :=
  if negb (String.eqb (kb_defaultNS k) "") then kb_defaultNS k else "default".

Definition secrets_URL (namespace : string) : string :=
  kb_host k +:+ "/api/v1/namespaces/" +:+ namespace +:+ "/secrets".
Definition secret_URL (namespace name : string) : string := secrets_URL namespace +:+ "/" +:+ name.

(** [secretManifest]: the names and labels are only checked, [Data] is what is used. *)
Definition decode_secretMetadata (fields : list (string * JSON)) : option () :=
  _ ← decode_string "name" fields; _ ← decode_string "namespace" fields; _ ← decode_map "labels" fields; Some ().
Definition decode_secretManifest (fields : list (string * JSON)) : option (gmap string string) :=
  _ ← decode_string "apiVersion" fields; _ ← decode_string "kind" fields; _ ← decode_string "type" fields;
  _ ← foldl (λ acc f, _ ← acc; if EqualFold f.1 "metadata" then decode_struct decode_secretMetadata f.2 else Some ())
        (Some ()) fields;
  decode_map "data" fields.

Definition GetSecretValue (namespace name key : string) : B (option string) :=
  let url := secret_URL namespace name in
  _ ← NewRequest url;
  resp ← net_call (mkHTTPRequest MethodGet url
    [("Authorization", "Bearer " +:+ kb_token k); ("Accept", "application/json")] NoReqBody);
  if (hp_StatusCode resp =? StatusNotFound)%Z then mret None else
  if (300 <=? hp_StatusCode resp)%Z
  then fail (errText ("get secret " +:+ namespace +:+ "/" +:+ name +:+ ": " +:+ hp_Status resp +:+ ": " +:+ hp_Text resp)) else
  match json_Decode (decode_struct decode_secretManifest) (hp_Body resp) with
  | inl err => fail (Errorf "decode secret: " err)
  | inr data =>
      match data !! key with
      | None => mret None
      | Some enc =>
          match DecodeString enc with
          | None => fail (Errorf "decode secret data: " (errText "illegal base64 data"))
          | Some decoded => mret (Some decoded)
          end
      end
  end.

(** A JSON object of a [map[string]string]: [encoding/json] sorts the keys, [entries]
    are in their order. *)
Definition strings_json (entries : list (string * string)) : JSON := JObj ((λ e, (e.1, JStr e.2)) <$> entries).
Definition secret_json (namespace name : string) (labels enc : list (string * string)) : JSON :=
  JObj [("apiVersion", JStr "v1"); ("kind", JStr "Secret");
        ("metadata", JObj ([("name", JStr name); ("namespace", JStr namespace)]
           ++ match labels with [] => [] | _ => [("labels", strings_json labels)] end));
        ("type", JStr "Opaque"); ("data", strings_json enc)].

Definition CreateOpaqueSecret (namespace name : string) (labels data : list (string * string)) : B () :=
  let enc := (λ e, (e.1, EncodeToString e.2)) <$> data in
  let url := secrets_URL namespace in
  _ ← NewRequest url;
  resp ← net_call (mkHTTPRequest MethodPost url
    [("Authorization", "Bearer " +:+ kb_token k); ("Content-Type", "application/json"); ("Accept", "application/json")]
    (JSONBody (secret_json namespace name labels enc)));
  if (hp_StatusCode resp =? StatusConflict)%Z then mret () else
  if (300 <=? hp_StatusCode resp)%Z
  then fail (errText ("create secret " +:+ namespace +:+ "/" +:+ name +:+ ": " +:+ hp_Status resp +:+ ": " +:+ hp_Text resp))
  else mret ().
End kube.

(** ** bootstrap.go *)

(** [StoreAPI], the part of the store the bootstrap uses. *)
Class StoreAPI := {
  sa_GetOrg : string → M Org;
  sa_GetProject : string → option (list string) → M (ProjectNode * option Org);
  sa_DeriveStatus : string → UUID → bool → list string → M (string * string) }.
#[export] Instance Store_API `{Driver} `{Runtime} `{UUIDLib} `{FieldValidators} : StoreAPI :=
  {| sa_GetOrg := GetOrg; sa_GetProject := GetProject; sa_DeriveStatus := DeriveStatus |}.

Definition statusIdle : string := "STATUS_INDICATION_IDLE".
Definition resourceTypeOrg : string := "org".
Definition resourceTypeProj : string := "project".
Definition defaultStatusTimeout : Z := (5 * Minute)%Z.
Definition defaultStatusPoll : Z := (5 * 1000000000)%Z.
(** How often the loop of [waitForIdle] can run before the deadline ends it. *)
Definition polls : nat := 64.

Section run.
Context `{Driver} `{Runtime} `{UUIDLib} `{StoreAPI} `{OS} `{Net}.

(** The end of [ensureUserAndPassword]: which password to set, and where it is kept. *)
Definition set_and_store (kc : KeycloakClient) (kube : KubeClient) (bcfg : BootConfig) (orgName secretNS : string)
    (stored : option string) (userID : string) : B (string * string) :=
  password ← match stored with
             | Some storedPass => mret storedPass
             | None => map_error (Errorf "generate password: ") GeneratePassword
             end;
  _ ← map_error (Errorf "set password: ") (SetPassword kc userID password);
  _ ← match stored with
      | Some _ => mret ()
      | None =>
          map_error (Errorf "create password secret: ")
            (CreateOpaqueSecret kube secretNS (bc_SecretName bcfg)
               [("app", "tenant-init"); ("org", orgName); ("username", bc_TenantAdminUser bcfg)]
               [("admin-password", password)])
      end;
  mret (userID, password).

(** The user the bootstrap creates. *)
Definition tenant_admin (bcfg : BootConfig) (orgName : string) : KCUser := {|
  kcu_ID := ""; kcu_Username := bc_TenantAdminUser bcfg;
  kcu_Email := bc_TenantAdminUser bcfg +:+ "@" +:+ orgName +:+ ".com";
  kcu_FirstName := bc_TenantAdminUser bcfg; kcu_LastName := bc_TenantAdminUser bcfg;
  kcu_Enabled := true; kcu_EmailVerified := true |}.

Definition ensureUserAndPassword (kc : KeycloakClient) (kube : KubeClient) (bcfg : BootConfig)
    (orgName secretNS : string) : B (string * string) :=
  existing ← map_error (Errorf "lookup user: ") (FindUserByUsername kc (bc_TenantAdminUser bcfg));
  stored ← map_error (Errorf "read existing password secret: ")
    (GetSecretValue kube secretNS (bc_SecretName bcfg) "admin-password");
  match existing, stored with
  | Some u, Some storedPass => mret (kcu_ID u, storedPass)
  | None, _ =>
      userID ← map_error (Errorf "create user: ") (CreateUser kc (tenant_admin bcfg orgName));
      set_and_store kc kube bcfg orgName secretNS stored userID
  | Some u, None => set_and_store kc kube bcfg orgName secretNS stored (kcu_ID u)
  end.

Fixpoint addUserToGroups (kc : KeycloakClient) (userID uuidPrefix : string) (groupShortNames : list string) : B () :=
  match groupShortNames with
  | [] => mret ()
  | name :: names =>
      let fullName := uuidPrefix +:+ "_" +:+ name in
      g ← map_error (Errorf ("get group " +:+ quote fullName +:+ ": ")) (GetGroupByPath kc fullName);
      _ ← map_error (Errorf ("add user to group " +:+ quote fullName +:+ ": ")) (AddUserToGroup kc userID (kcg_ID g));
      addUserToGroups kc userID uuidPrefix names
  end.

(** The loop of [waitForIdle]; [None] is out of fuel. *)
Fixpoint poll_idle (fuel : nat) (deadline : Time) (resourceType : string) (id : UUID) (controllers : list string)
    : B (option ()) :=
  match fuel with
  | O => mret None
  | S fuel =>
      r ← of_store (sa_DeriveStatus resourceType id false controllers);
      if String.eqb r.1 statusIdle then mret (Some ()) else
      now ← of_store Now;
      if (deadline <? now)%Z
      then fail (errText (resourceType +:+ " " +:+ uuid_String id +:+ " not IDLE after 5m0s (status=" +:+ r.1
                          +:+ ", msg=" +:+ quote r.2 +:+ ")"))
      else
      _ ← (λ w, match net_select (b_tick w) with Some err => (inl err, tick w) | None => (inr (), tick w) end);
      poll_idle fuel deadline resourceType id controllers
  end.
Definition waitForIdle (resourceType : string) (id : UUID) (controllers : list string) : B (option ()) :=
  now ← of_store Now;
  poll_idle polls (now + defaultStatusTimeout)%Z resourceType id controllers.

(** From the clients on. *)
Definition provision (bcfg : BootConfig) (orgName : string) (orgID projID : UUID) : B () :=
  kube ← map_error (Errorf "k8s client: ") (of_result NewInClusterKubeClient);
  pass ← map_error (Errorf "read keycloak admin secret: ")
    (GetSecretValue kube (bc_KeycloakNamespace bcfg) (bc_KeycloakService bcfg) "admin-password");
  match pass with
  | None | Some "" =>
      fail (errText ("keycloak admin-password not found in " +:+ bc_KeycloakNamespace bcfg +:+ "/" +:+ bc_KeycloakService bcfg))
  | Some keycloakAdminPass =>
      kc ← map_error (Errorf "keycloak login: ")
        (NewKeycloakClient (KeycloakBaseURL bcfg) (bc_KeycloakRealm bcfg) (bc_KeycloakAdminUser bcfg) keycloakAdminPass);
      let secretNS := if String.eqb (bc_SecretNamespace bcfg) "" then DefaultNamespace kube else bc_SecretNamespace bcfg in
      u ← ensureUserAndPassword kc kube bcfg orgName secretNS;
      _ ← map_error (Errorf "add org admin groups: ")
        (addUserToGroups kc u.1 (uuid_String orgID) (bc_ProjectAdminGroups bcfg));
      map_error (Errorf "add project edge groups: ")
        (addUserToGroups kc u.1 (uuid_String projID) (bc_ProjectEdgeGroups bcfg))
  end.

(** [Run]; [None] is out of fuel, which [waitForIdle] never is. *)
Definition Run (cfg : Config) (bcfg : BootConfig) (orgName projectName : string) : B (option ()) :=
  if negb (bc_Enabled bcfg) then mret (Some ()) else
  if String.eqb orgName "" || String.eqb projectName "" then mret (Some ()) else
  o ← map_error (Errorf ("get org " +:+ quote orgName +:+ ": ")) (of_store (sa_GetOrg orgName));
  p ← map_error (Errorf ("get project " +:+ quote projectName +:+ ": "))
        (of_store (sa_GetProject projectName (Some [orgName])));
  let orgID := Org_ID o in
  let projID := Project_ID (project_row p.1) in
  r1 ← map_error (Errorf "wait for org IDLE: ")
    (waitForIdle resourceTypeOrg orgID (ControllersForResource cfg resourceTypeOrg));
  r2 ← match r1 with
       | None => mret None
       | Some _ => map_error (Errorf "wait for project IDLE: ")
                     (waitForIdle resourceTypeProj projID (ControllersForResource cfg resourceTypeProj))
       end;
  match r2 with
  | None => mret None
  | Some _ => _ ← provision bcfg orgName orgID projID; mret (Some ())
  end.
End run.
