(* ===== verification/BootstrapSpec.v ===== *)
(** * The tenant-admin bootstrap: correctness

    Passwords; what one request may do to the cluster ([ClusterLaws]); what the
    bootstrap promises whatever fails; that it terminates, succeeds and is idempotent
    on servers that work. *)

From S2P Require Import Prelude GoStd Monad EntSchema Sqlgraph EntQuery EntMutation Config Store.
From S2P Require Import Logic EntSpec Wf EntLoad StoreOrg StoreProject Http Base64 Bootstrap.
From Stdlib Require Import Ascii.

(** ** Passwords *)

(** The calls of the generator: random numbers below the bound. *)
Class Random `{Net} : Prop := rand_Int_lt : ∀ t max n, rand_Int t max = inr n → (n < max)%nat.

Definition from_chars (s : string) (c : ascii) : Prop := c ∈ String.list_ascii_of_string s.

(** Nothing but the counter changes. *)
Definition only_tick (w w' : BWorld) : Prop :=
  w_db (b_store w') = w_db (b_store w) ∧ w_tx (b_store w') = w_tx (b_store w) ∧ b_net w' = b_net w.
#[export] Instance only_tick_preorder : PreOrder only_tick.
Proof. split; [intros ?; by split_and!|]. intros ??? (?&?&?) (?&?&?). split_and!; congruence. Qed.
Lemma tick_only w : only_tick w (tick w).
Proof. by split_and!. Qed.

Lemma get_from_chars s n c : String.get n s = Some c → from_chars s c.
Proof.
  unfold from_chars. revert n. induction s as [|d s IH]; intros [|n]; simpl; [done..| |].
  - intros [= ->]. left.
  - intros ?%IH. by right.
Qed.
Lemma get_lt s n : (n < String.length s)%nat → ∃ c, String.get n s = Some c.
Proof. revert n. induction s as [|d s IH]; intros [|n]; simpl; [lia..|eauto|]. intros. apply IH. lia. Qed.

Lemma length_list_ascii s : String.length s = length (String.list_ascii_of_string s).
Proof. induction s as [|c s IH]; simpl; [done|]. by rewrite IH. Qed.
Lemma list_ascii_app s t :
  String.list_ascii_of_string (s +:+ t) = String.list_ascii_of_string s ++ String.list_ascii_of_string t.
Proof. induction s as [|c s IH]; [done|]. exact (f_equal (cons c) IH). Qed.
Lemma passwordChars_in c : c ∈ String.list_ascii_of_string passwordChars ↔
  from_chars uppercaseChars c ∨ from_chars lowercaseChars c ∨ from_chars digitChars c ∨ from_chars specialChars c.
Proof. unfold passwordChars, from_chars. by rewrite !list_ascii_app, !elem_of_app. Qed.

Section password.
Context `{Net} `{!Random}.

(** The generator's only error is that of the random source. *)
Definition no_randomness (e : error) : Prop := ∃ t max, rand_Int t max = inl e.

Lemma wp_randChar s (Q : error + ascii → BWorld → Prop) w :
  (∀ c w', from_chars s c → only_tick w w' → Q (inr c) w') →
  (∀ e w', no_randomness e → only_tick w w' → Q (inl e) w') → wp (randChar s) Q w.
Proof.
  intros Hc He. apply wp_bind. eapply (wp_run (random _)); [done|].
  destruct (rand_Int (b_tick w) (String.length s)) as [e|n] eqn:Hr.
  { apply He; [by do 2 eexists|apply tick_only]. }
  apply wp_of_result. destruct (get_lt s n) as [c Hg]; [by eapply rand_Int_lt|].
  rewrite Hg. apply Hc; [by eapply get_from_chars|apply tick_only].
Qed.

Lemma wp_fill n (Q : error + list ascii → BWorld → Prop) w :
  (∀ l w', length l = n → Forall (from_chars passwordChars) l → only_tick w w' → Q (inr l) w') →
  (∀ e w', no_randomness e → only_tick w w' → Q (inl e) w') → wp (fill n) Q w.
Proof.
  revert w Q. induction n as [|n IH]; intros w Q Hl He; simpl fill.
  { apply wp_ret. by apply Hl. }
  apply wp_bind, wp_randChar; [|done]. intros c w1 Hc Hw1. apply wp_bind, IH.
  - intros l w2 Hn Hf Hw2. apply wp_ret. apply Hl; [simpl; by f_equal|by constructor|by etrans].
  - intros e w2 Hr Hw2. apply He; [done|by etrans].
Qed.

Lemma wp_shuffle_from i l (Q : error + list ascii → BWorld → Prop) w : (i < length l)%nat ∨ i = 0%nat →
  (∀ l' w', l' ≡ₚ l → only_tick w w' → Q (inr l') w') →
  (∀ e w', no_randomness e → only_tick w w' → Q (inl e) w') → wp (shuffle_from i l) Q w.
Proof.
  revert l w Q. induction i as [|i IH]; intros l w Q Hi Hl He; simpl shuffle_from.
  { apply wp_ret. by apply Hl. }
  apply wp_bind. eapply (wp_run (random _)); [done|].
  destruct (rand_Int (b_tick w) (S (S i))) as [e|j] eqn:Hr.
  { apply He; [by do 2 eexists|apply tick_only]. }
  apply rand_Int_lt in Hr. apply wp_bind, wp_of_result. unfold swap.
  destruct (lookup_lt_is_Some_2 l (S i)) as [x Hx]; [lia|].
  destruct (lookup_lt_is_Some_2 l j) as [y Hy]; [lia|]. rewrite Hx, Hy.
  pose proof (Permutation_insert_swap l (S i) j x y Hx Hy) as Hp.
  apply IH; [left; rewrite Hp; lia|..].
  - intros l' w' Hl' Hw'. apply Hl; [by rewrite Hl'|]. etrans; [apply tick_only|done].
  - intros e w' Hr' Hw'. apply He; [done|]. etrans; [apply tick_only|done].
Qed.

(** A password has sixteen characters, of the alphabet, and one of each class. *)
Definition strong (pw : string) : Prop :=
  String.length pw = 16%nat ∧ (∀ c, from_chars pw c → from_chars passwordChars c) ∧
  Forall (λ cls, ∃ c, from_chars pw c ∧ from_chars cls c) [uppercaseChars; lowercaseChars; digitChars; specialChars].

Lemma wp_GeneratePassword (Q : error + string → BWorld → Prop) w :
  (∀ pw w', strong pw → only_tick w w' → Q (inr pw) w') →
  (∀ e w', no_randomness e → only_tick w w' → Q (inl e) w') → wp GeneratePassword Q w.
Proof.
  intros HQ He. unfold GeneratePassword. change (passwordLength <? 4)%nat with false. cbv iota.
  apply wp_bind, wp_randChar; [|done]. intros c0 w0 Hc0 Hw0.
  apply wp_bind, wp_randChar; [|intros; apply He; [done|by etrans]]. intros c1 w1 Hc1 Hw1.
  apply wp_bind, wp_randChar; [|intros; apply He; [done|by repeat (etrans; [done|])]]. intros c2 w2 Hc2 Hw2.
  apply wp_bind, wp_randChar; [|intros; apply He; [done|by repeat (etrans; [done|])]]. intros c3 w3 Hc3 Hw3.
  apply wp_bind, wp_fill; [|intros; apply He; [done|by repeat (etrans; [done|])]]. intros l w4 Hn Hf Hw4.
  apply wp_bind, wp_shuffle_from; [left; simpl; lia| |intros; apply He; [done|by repeat (etrans; [done|])]].
  intros pw w5 Hp Hw5. apply wp_ret. apply HQ; [|by repeat (etrans; [done|])].
  unfold strong, from_chars. rewrite length_list_ascii, String.list_ascii_of_string_of_list_ascii.
  assert (∀ c, c ∈ pw ↔ c ∈ c0 :: c1 :: c2 :: c3 :: l) as Hin by (intros c; by rewrite Hp).
  split_and!.
  - rewrite (Permutation_length Hp). simpl. by rewrite Hn.
  - intros c Hc%Hin. revert Hc. rewrite !elem_of_cons, !passwordChars_in. rewrite Forall_forall in Hf.
    intros [->|[->|[->|[->|Hc]]]]; [by auto..|]. by apply passwordChars_in, Hf.
  - repeat constructor; eexists; (split; [apply Hin|eassumption]); set_solver.
Qed.

(** A generated password has sixteen characters of the alphabet, an uppercase letter, a
    lowercase letter, a digit and a special character among them wherever the shuffle puts
    them; the only failure is the random source's; no index is out of range. *)
Theorem GeneratePassword_spec w :
  wp GeneratePassword (λ r w', only_tick w w' ∧
    match r with inr pw => strong pw | inl e => no_randomness e end) w.
Proof. by apply wp_GeneratePassword. Qed.
End password.

(** ** What one request may do *)

Definition slash_free (s : string) : Prop := all_chars (λ c, negb (Ascii.eqb c "/")) s = true.

Definition with_users (f : list KUser → list KUser) (cl : Cluster) : Cluster :=
  mkCluster (f (cl_users cl)) (cl_groups cl) (cl_secrets cl).
Definition on_user (id : string) (f : KUser → KUser) (cl : Cluster) : Cluster :=
  with_users (fmap (λ u, if String.eqb (ku_ID u) id then f u else u)) cl.
Definition set_password (id pw : string) : Cluster → Cluster :=
  on_user id (λ u, mkKUser (ku_ID u) (ku_Username u) (Some pw) (ku_Groups u)).
Definition add_member (id gid : string) : Cluster → Cluster :=
  on_user id (λ u, mkKUser (ku_ID u) (ku_Username u) (ku_Password u)
                     (if mem_string gid (ku_Groups u) then ku_Groups u else ku_Groups u ++ [gid])).

Definition named (name : string) (u : KUser) : Prop := EqualFold (ku_Username u) name = true.
(** a user of the name was added *)
Definition user_created (name : string) (cl cl' : Cluster) : Prop :=
  (∀ u, u ∈ cl_users cl → ¬ named name u) ∧
  ∃ u, named name u ∧ ku_Password u = None ∧ slash_free (ku_ID u) ∧ ku_ID u ∉ ku_ID <$> cl_users cl ∧
       cl' = with_users (λ l, l ++ [u]) cl.
Definition secret_created (k : string * string) (enc : list (string * string)) (cl cl' : Cluster) : Prop :=
  cl_secrets cl !! k = None ∧
  cl' = mkCluster (cl_users cl) (cl_groups cl) (<[k := list_to_map enc]> (cl_secrets cl)).

Definition accepted (r : error + HTTPReply) (resp : HTTPReply) : Prop :=
  r = inr resp ∧ (hp_StatusCode resp < 300)%Z.
Definition carries (resp : HTTPReply) (j : JSON) : Prop :=
  hp_Body resp = BodyJSON j ∧ hp_StatusCode resp ≠ StatusNoContent ∧ hp_ContentLength resp ≠ 0%Z.

(** The documented behaviour of the two servers: reads change nothing and an accepted
    one is truthful; a write that is not accepted may have been done or not. *)
Class ClusterLaws `{Net} (base realm host : string) : Prop := {
  login_law t hdr form cl r cl' :
    net_Do t (mkHTTPRequest MethodPost (base +:+ "/realms/" +:+ realm +:+ "/protocol/openid-connect/token") hdr
                (FormBody form)) cl = (r, cl') → cl' = cl;
  find_law tok t name cl r cl' : let k := mkKeycloakClient base realm tok in
    net_Do t (kc_request k MethodGet (users_URL k name) None) cl = (r, cl') →
    cl' = cl ∧ ∀ resp, accepted r resp → ∃ j us, carries resp j ∧ decode_KCUsers j = Some us ∧
      (∀ u, u ∈ us → ∃ row, row ∈ cl_users cl ∧ ku_ID row = kcu_ID u ∧ ku_Username row = kcu_Username u) ∧
      (∀ row, row ∈ cl_users cl → named name row → ∃ u, u ∈ us ∧ kcu_Username u = ku_Username row);
  create_law tok t user cl r cl' : let k := mkKeycloakClient base realm tok in
    net_Do t (kc_request k MethodPost (adminURL k "/users") (Some (KCUser_json user))) cl = (r, cl') →
    (cl' = cl ∨ user_created (kcu_Username user) cl cl') ∧
    ∀ resp, accepted r resp → user_created (kcu_Username user) cl cl';
  password_law tok t id pw cl r cl' : let k := mkKeycloakClient base realm tok in
    net_Do t (kc_request k MethodPut (password_URL k id) (Some (password_json pw))) cl = (r, cl') →
    (cl' = cl ∨ cl' = set_password id pw cl) ∧ ∀ resp, accepted r resp → cl' = set_password id pw cl;
  group_law tok t path cl r cl' : let k := mkKeycloakClient base realm tok in
    net_Do t (kc_request k MethodGet (group_URL k path) None) cl = (r, cl') →
    cl' = cl ∧ ∀ resp, accepted r resp → ∃ j g, carries resp j ∧ decode_struct decode_KCGroup j = Some g ∧
      (path, kcg_ID g) ∈ cl_groups cl;
  member_law tok t id gid cl r cl' : let k := mkKeycloakClient base realm tok in
    slash_free id → slash_free gid →
    net_Do t (kc_request k MethodPut (membership_URL k id gid) None) cl = (r, cl') →
    (cl' = cl ∨ cl' = add_member id gid cl) ∧ ∀ resp, accepted r resp → cl' = add_member id gid cl;
  secret_get_law tok dns t ns name hdr cl r cl' : let k := mkKubeClient host tok dns in
    slash_free ns → slash_free name →
    net_Do t (mkHTTPRequest MethodGet (secret_URL k ns name) hdr NoReqBody) cl = (r, cl') →
    cl' = cl ∧
    (∀ resp, r = inr resp → hp_StatusCode resp = StatusNotFound → cl_secrets cl !! (ns, name) = None) ∧
    (∀ resp, accepted r resp → ∃ j data, hp_Body resp = BodyJSON j ∧
       decode_struct decode_secretManifest j = Some data ∧ cl_secrets cl !! (ns, name) = Some data);
  secret_post_law tok dns t ns name labels enc hdr cl r cl' : let k := mkKubeClient host tok dns in
    net_Do t (mkHTTPRequest MethodPost (secrets_URL k ns) hdr (JSONBody (secret_json ns name labels enc))) cl = (r, cl') →
    (cl' = cl ∨ secret_created (ns, name) enc cl cl') ∧
    (∀ resp, r = inr resp → hp_StatusCode resp = StatusConflict → cl' = cl ∧ is_Some (cl_secrets cl !! (ns, name))) ∧
    (∀ resp, accepted r resp → secret_created (ns, name) enc cl cl') }.

(** User IDs are unique; IDs fit in a URL. *)
Definition cluster_wf (cl : Cluster) : Prop :=
  NoDup (ku_ID <$> cl_users cl) ∧ (∀ u, u ∈ cl_users cl → slash_free (ku_ID u)) ∧
  (∀ g, g ∈ cl_groups cl → slash_free g.2).

(** ** What the bootstrap may touch: the users of one name and one new secret *)

Record touched (name : string) (sk : string * string) (cl cl' : Cluster) : Prop := mk_touched {
  tc_wf : cluster_wf cl → cluster_wf cl';
  tc_kept : ∀ k d, cl_secrets cl !! k = Some d → cl_secrets cl' !! k = Some d;
  tc_secrets : ∀ k, k ≠ sk → cl_secrets cl' !! k = cl_secrets cl !! k;
  tc_users : ∀ u, ¬ named name u → u ∈ cl_users cl' ↔ u ∈ cl_users cl;
  tc_groups : cl_groups cl' = cl_groups cl }.

#[export] Instance touched_preorder name sk : PreOrder (touched name sk).
Proof.
  split; [by split|]. intros ??? [A1 A2 A3 A4 A5] [B1 B2 B3 B4 B5]. split; auto.
  - intros k Hk. by rewrite B3, A3.
  - intros u Hu. by rewrite B4, A4.
  - by rewrite B5, A5.
Qed.

(** A change of one named user's row. *)
Lemma on_user_elem id f cl u : (∀ v, ku_ID (f v) = ku_ID v) →
  u ∈ cl_users (on_user id f cl) ↔ ∃ v, v ∈ cl_users cl ∧ u = (if String.eqb (ku_ID v) id then f v else v).
Proof. intros Hf. simpl. rewrite list_elem_of_fmap. naive_solver. Qed.
Lemma on_user_touched name sk id f cl : (∀ v, ku_ID (f v) = ku_ID v) →
  (∀ v, ku_Username (f v) = ku_Username v) → (∀ v, v ∈ cl_users cl → ku_ID v = id → named name v) →
  touched name sk cl (on_user id f cl).
Proof.
  intros Hid Hname Hn. split; try done.
  - intros (H1 & H2 & H3). unfold cluster_wf. split_and!; [| |done].
    + simpl. rewrite <- list_fmap_compose. erewrite list_fmap_ext; [exact H1|].
      intros i v _. simpl. case_match; [apply Hid|done].
    + intros u Hu. rewrite on_user_elem in Hu by done. destruct Hu as (v & Hv & ->).
      case_match; rewrite ?Hid; auto.
  - intros u Hu. rewrite on_user_elem by done. split.
    + intros (v & Hv & ->). case_match eqn:He; [|done]. apply String.eqb_eq in He. exfalso.
      apply Hu. unfold named. rewrite Hname. by apply Hn.
    + intros Hv. exists u. split; [done|]. case_match eqn:He; [|done]. apply String.eqb_eq in He.
      exfalso. by apply Hu, Hn.
Qed.

(** ** The requests of the two clients *)

(** The store is as it was and the cluster is [cl']. *)
Definition moved (w : BWorld) (cl' : Cluster) (w' : BWorld) : Prop :=
  w_db (b_store w') = w_db (b_store w) ∧ w_tx (b_store w') = w_tx (b_store w) ∧ b_net w' = cl'.
Lemma moved_trans w cl1 w1 cl2 w2 : moved w cl1 w1 → moved w1 cl2 w2 → moved w cl2 w2.
Proof. intros (?&?&?) (?&?&?). split_and!; congruence. Qed.
Lemma moved_refl w : moved w (b_net w) w.
Proof. by split_and!. Qed.
Lemma moved_net w cl' w' : moved w cl' w' → b_net w' = cl'.
Proof. by intros (_ & _ & ->). Qed.

Section requests.
Context `{Net}.

Lemma wp_net_call rq (Q : error + HTTPReply → BWorld → Prop) w :
  (∀ r cl' w', net_Do (b_tick w) rq (b_net w) = (r, cl') → moved w cl' w' → Q r w') → wp (net_call rq) Q w.
Proof.
  intros HQ. destruct (net_Do (b_tick w) rq (b_net w)) as [r cl'] eqn:Hd.
  eapply wp_run; [unfold net_call; by rewrite Hd|]. by apply (HQ r cl').
Qed.
Lemma wp_NewRequest url (Q : error + () → BWorld → Prop) w :
  (∀ e, Q (inl e) w) → Q (inr ()) w → wp (NewRequest url) Q w.
Proof. intros He HQ. unfold NewRequest. destruct (net_NewRequest url); [by apply wp_fail|by apply wp_ret]. Qed.

(** The world after a request that was not accepted, if it was sent at all. *)
Definition attempted (rq : HTTPRequest) (w w' : BWorld) : Prop :=
  moved w (b_net w) w' ∨ ∃ r cl', net_Do (b_tick w) rq (b_net w) = (r, cl') ∧ moved w cl' w'.

Section keycloak_calls.
Context {A : Type} (k : KeycloakClient) (method url : string) (body : option JSON)
        (out : option (JSON → option A)) (zero : A).

Lemma wp_kc_do (Q : error + Z * (error + A) → BWorld → Prop) w :
  (∀ c e w', attempted (kc_request k method url body) w w' → Q (inr (c, inl e)) w') →
  (∀ resp cl' w', net_Do (b_tick w) (kc_request k method url body) (b_net w) = (inr resp, cl') →
     moved w cl' w' → (hp_StatusCode resp < 300)%Z → Q (inr (hp_StatusCode resp, kc_reply out zero resp)) w') →
  wp (kc_do k method url body out zero) Q w.
Proof.
  intros He HQ. unfold kc_do. wp_step. wp_step. wp_step. apply wp_NewRequest.
  { intros e. cbn. apply wp_ret, He. left. apply moved_refl. }
  apply wp_net_call. intros [e|resp] cl' w' Hd Hm; cbn; apply wp_ret.
  - apply He. right. by exists (inl e), cl'.
  - destruct (Z.leb_spec 300 (hp_StatusCode resp)).
    + apply He. right. by exists (inr resp), cl'.
    + by eapply HQ.
Qed.
Lemma wp_kc_exec (Q : error + A → BWorld → Prop) w :
  (∀ e w', attempted (kc_request k method url body) w w' → Q (inl e) w') →
  (∀ resp cl' w', net_Do (b_tick w) (kc_request k method url body) (b_net w) = (inr resp, cl') →
     moved w cl' w' → (hp_StatusCode resp < 300)%Z → Q (kc_reply out zero resp) w') →
  wp (kc_exec k method url body out zero) Q w.
Proof.
  intros He HQ. unfold kc_exec. apply wp_bind, wp_kc_do.
  - intros c e w' Ha. apply wp_of_result. by apply He.
  - intros resp cl' w' Hd Hm Hc. apply wp_of_result. by eapply HQ.
Qed.
End keycloak_calls.

(** What is decoded of a reply that carries the value. *)
Lemma kc_reply_carries {A} (decode : JSON → option A) zero resp j a :
  carries resp j → decode j = Some a → kc_reply (Some decode) zero resp = inr a.
Proof.
  intros (Hb & Hc & Hl) Hj. unfold kc_reply. rewrite Hb. simpl. rewrite Hj.
  by rewrite (proj2 (Z.eqb_neq _ _) Hc), (proj2 (Z.eqb_neq _ _) Hl).
Qed.
End requests.

Section calls.
Context `{Net} (base realm host : string) `{!ClusterLaws base realm host} (tok ktok dns : string).
Let kc := mkKeycloakClient base realm tok.
Let kube := mkKubeClient host ktok dns.

(** A request that only reads leaves the cluster, whatever its answer. *)
Lemma attempted_read rq w w' : (∀ t cl r cl', net_Do t rq cl = (r, cl') → cl' = cl) →
  attempted rq w w' → moved w (b_net w) w'.
Proof. intros Hr [?|(r & cl' & Hd & Hm)]; [done|]. by rewrite (Hr _ _ _ _ Hd) in Hm. Qed.

Lemma wp_FindUserByUsername name (Q : error + option KCUser → BWorld → Prop) w :
  (∀ e w', moved w (b_net w) w' → Q (inl e) w') →
  (∀ u w' row, moved w (b_net w) w' → row ∈ cl_users (b_net w) → ku_ID row = kcu_ID u → named name row →
     Q (inr (Some u)) w') →
  (∀ w', moved w (b_net w) w' → (∀ row, row ∈ cl_users (b_net w) → ¬ named name row) → Q (inr None) w') →
  wp (FindUserByUsername kc name) Q w.
Proof.
  intros He Hsome Hnone. unfold FindUserByUsername. wp_step. apply wp_kc_exec.
  { intros e w' Ha. apply He. eapply attempted_read, Ha. intros. by eapply find_law. }
  intros resp cl' w' Hd Hm Hc. destruct (find_law _ _ _ _ _ _ Hd) as [-> Ho].
  destruct (Ho resp) as (j & us & Hj & Hus & Hin & Hall); [done|].
  rewrite (kc_reply_carries _ _ _ _ _ Hj Hus). wp_step.
  destruct (List.find _ us) as [u|] eqn:Hf.
  - apply List.find_some in Hf as [Hu Hn]. apply list_elem_of_In, Hin in Hu as (row & Hrow & Hid & Hname).
    eapply Hsome; [done..|]. unfold named. by rewrite Hname.
  - apply Hnone; [done|]. intros row Hrow Hn. destruct (Hall row Hrow Hn) as (u & Hu & Hname).
    eapply List.find_none in Hf; [|by apply list_elem_of_In]. cbn in Hf. rewrite Hname in Hf. unfold named in Hn. congruence.
Qed.

Lemma user_created_touched name sk cl cl' : user_created name cl cl' → touched name sk cl cl'.
Proof.
  intros (Hno & u & Hn & _ & Hs & Hfresh & ->). split; try done.
  - intros (H1 & H2 & H3). split_and!; [| |done].
    + simpl. rewrite fmap_app. apply NoDup_app. split_and!; [done| |apply NoDup_singleton].
      intros x Hx ->%list_elem_of_singleton. done.
    + intros v [Hv| ->%list_elem_of_singleton]%elem_of_app; auto.
  - intros v Hv. simpl. rewrite elem_of_app, list_elem_of_singleton. naive_solver.
Qed.

Lemma wp_CreateUser user sk (Q : error + string → BWorld → Prop) w :
  (∀ e w' cl', moved w cl' w' → touched (kcu_Username user) sk (b_net w) cl' → Q (inl e) w') →
  (∀ id w' cl' row, moved w cl' w' → touched (kcu_Username user) sk (b_net w) cl' →
     cl_secrets cl' = cl_secrets (b_net w) → row ∈ cl_users cl' → ku_ID row = id →
     named (kcu_Username user) row → Q (inr id) w') →
  wp (CreateUser kc user) Q w.
Proof.
  intros He HQ. unfold CreateUser.
  (* whatever the answer, the user was created or not *)
  assert (∀ w' cl', moved w cl' w' → (cl' = b_net w ∨ user_created (kcu_Username user) (b_net w) cl') →
    wp (existing ← FindUserByUsername kc (kcu_Username user);
        match existing with
        | None => fail (errText ("user " +:+ kcu_Username user +:+ " not found after create"))
        | Some u => mret (kcu_ID u)
        end) Q w') as Hrest.
  { intros w1 cl1 Hm Hc.
    assert (touched (kcu_Username user) sk (b_net w) cl1) as Ht.
    { destruct Hc as [->|Hc]; [done|by apply user_created_touched]. }
    assert (cl_secrets cl1 = cl_secrets (b_net w)) as Hsec.
    { destruct Hc as [->|(_ & u & _ & _ & _ & _ & ->)]; done. }
    pose proof (moved_net _ _ _ Hm) as Hcl. wp_step. apply wp_FindUserByUsername; rewrite Hcl.
    - intros e w2 Hm2. eapply He; [by eapply moved_trans|done].
    - intros u w2 row Hm2 Hrow Hid Hn. wp_step. by eapply HQ; [eapply moved_trans| | |..].
    - intros w2 Hm2 _. wp_step. eapply He; [by eapply moved_trans|done]. }
  wp_step. apply wp_kc_do.
  - intros c e w1 Ha. assert (∃ cl1, moved w cl1 w1 ∧ (cl1 = b_net w ∨ user_created (kcu_Username user) (b_net w) cl1))
      as (cl1 & Hm & Hc).
    { destruct Ha as [Hm|(r & cl1 & Hd & Hm)]; [by eauto|]. exists cl1. split; [done|]. by eapply create_law. }
    cbn. destruct (negb _); wp_step; [wp_step|wp_step; by eapply Hrest].
    eapply He; [done|]. destruct Hc as [->|Hc]; [done|by apply user_created_touched].
  - intros resp cl1 w1 Hd Hm Hc. cbn. wp_step. wp_step. eapply Hrest; [done|]. by eapply create_law.
Qed.

Lemma wp_SetPassword sk name id pw row (Q : error + () → BWorld → Prop) w :
  cluster_wf (b_net w) → row ∈ cl_users (b_net w) → ku_ID row = id → named name row →
  (∀ e w' cl', moved w cl' w' → touched name sk (b_net w) cl' → Q (inl e) w') →
  (∀ w' cl', moved w cl' w' → touched name sk (b_net w) cl' → cl' = set_password id pw (b_net w) → Q (inr ()) w') →
  wp (SetPassword kc id pw) Q w.
Proof.
  intros (Hnd & _) Hrow Hid Hn He HQ.
  assert (touched name sk (b_net w) (set_password id pw (b_net w))) as Ht.
  { apply on_user_touched; [done..|]. intros v Hv Hvid. rewrite <- Hid in Hvid.
    assert (v = row) as ->; [|done]. by eapply (NoDup_fmap_inj_eq ku_ID). }
  unfold SetPassword. apply wp_kc_exec.
  - intros e w' [Hm|(r & cl' & Hd & Hm)]; [by eapply He|]. eapply He; [done|].
    by destruct (password_law _ _ _ _ _ _ _ Hd) as [[->| ->] _].
  - intros resp cl' w' Hd Hm Hc. destruct (password_law _ _ _ _ _ _ _ Hd) as [_ Ho].
    rewrite (Ho resp) in Hm by done. by eapply HQ.
Qed.

Lemma wp_GetGroupByPath path (Q : error + KCGroup → BWorld → Prop) w :
  (∀ e w', moved w (b_net w) w' → Q (inl e) w') →
  (∀ g w', moved w (b_net w) w' → (group_path path, kcg_ID g) ∈ cl_groups (b_net w) → Q (inr g) w') →
  wp (GetGroupByPath kc path) Q w.
Proof.
  intros He HQ. unfold GetGroupByPath. cbv zeta. wp_step. apply wp_kc_exec.
  { intros e w' Ha. apply He. eapply attempted_read, Ha. intros. by eapply group_law. }
  intros resp cl' w' Hd Hm Hc. destruct (group_law _ _ _ _ _ _ Hd) as [-> Ho].
  destruct (Ho resp) as (j & g & Hj & Hg & Hin); [done|]. rewrite (kc_reply_carries _ _ _ _ _ Hj Hg).
  destruct (String.eqb _ _); wp_step; [by apply He|by apply HQ].
Qed.

Lemma wp_AddUserToGroup sk name id gid row (Q : error + () → BWorld → Prop) w :
  cluster_wf (b_net w) → row ∈ cl_users (b_net w) → ku_ID row = id → named name row → slash_free gid →
  (∀ e w' cl', moved w cl' w' → touched name sk (b_net w) cl' → Q (inl e) w') →
  (∀ w' cl', moved w cl' w' → touched name sk (b_net w) cl' → cl' = add_member id gid (b_net w) → Q (inr ()) w') →
  wp (AddUserToGroup kc id gid) Q w.
Proof.
  intros (Hnd & Hfree & _) Hrow Hid Hn Hg He HQ.
  assert (slash_free id) as Hi by (rewrite <- Hid; auto).
  assert (touched name sk (b_net w) (add_member id gid (b_net w))) as Ht.
  { apply on_user_touched; [done..|]. intros v Hv Hvid. rewrite <- Hid in Hvid.
    assert (v = row) as ->; [|done]. by eapply (NoDup_fmap_inj_eq ku_ID). }
  unfold AddUserToGroup. apply wp_kc_exec.
  - intros e w' [Hm|(r & cl' & Hd & Hm)]; [by eapply He|]. eapply He; [done|].
    by destruct (member_law _ _ _ _ _ _ _ Hi Hg Hd) as [[->| ->] _].
  - intros resp cl' w' Hd Hm Hc. destruct (member_law _ _ _ _ _ _ _ Hi Hg Hd) as [_ Ho].
    rewrite (Ho resp) in Hm by done. by eapply HQ.
Qed.

(** What a secret holds under a key, decoded. *)
Definition secret_value (cl : Cluster) (sk : string * string) (key : string) : option string :=
  data ← cl_secrets cl !! sk; enc ← data !! key; DecodeString enc.

Lemma wp_GetSecretValue ns name key (Q : error + option string → BWorld → Prop) w :
  slash_free ns → slash_free name →
  (∀ e w', moved w (b_net w) w' → Q (inl e) w') →
  (∀ v w', moved w (b_net w) w' → secret_value (b_net w) (ns, name) key = v → Q (inr v) w') →
  wp (GetSecretValue kube ns name key) Q w.
Proof.
  intros Hns Hname He HQ. unfold GetSecretValue. cbv zeta. wp_step. apply wp_NewRequest.
  { intros. apply He, moved_refl. }
  wp_step. apply wp_net_call. intros r cl' w' Hd Hm.
  destruct (secret_get_law _ _ _ _ _ _ _ _ _ Hns Hname Hd) as (-> & H404 & Hok).
  destruct r as [e|resp]; [by apply He|]. destruct (Z.eqb_spec (hp_StatusCode resp) StatusNotFound) as [Hc|Hc].
  { wp_step. apply HQ; [done|]. unfold secret_value. by rewrite (H404 resp). }
  destruct (Z.leb_spec 300 (hp_StatusCode resp)); [wp_step; by apply He|].
  destruct (Hok resp) as (j & data & Hb & Hj & Hs); [done|]. rewrite Hb. simpl. rewrite Hj.
  assert (secret_value (b_net w) (ns, name) key = enc ← data !! key; DecodeString enc) as Hv
    by (unfold secret_value; by rewrite Hs).
  destruct (data !! key) as [enc|]; [|wp_step; by apply HQ]. simpl in Hv.
  destruct (DecodeString enc) as [v|]; wp_step; [by apply HQ|by apply He].
Qed.

Lemma wp_CreateOpaqueSecret uname ns name labels data (Q : error + () → BWorld → Prop) w :
  (∀ e w' cl', moved w cl' w' → touched uname (ns, name) (b_net w) cl' → Q (inl e) w') →
  (∀ w' cl', moved w cl' w' → touched uname (ns, name) (b_net w) cl' → cl_users cl' = cl_users (b_net w) →
     ((cl' = b_net w ∧ is_Some (cl_secrets (b_net w) !! (ns, name))) ∨
      secret_created (ns, name) ((λ e, (e.1, EncodeToString e.2)) <$> data) (b_net w) cl') → Q (inr ()) w') →
  wp (CreateOpaqueSecret kube ns name labels data) Q w.
Proof.
  intros He HQ.
  assert (∀ enc cl', secret_created (ns, name) enc (b_net w) cl' → touched uname (ns, name) (b_net w) cl') as Ht.
  { intros enc cl' (Hnone & ->). split; try done; simpl.
    - intros k d Hk. destruct (decide (k = (ns, name))) as [->|]; [congruence|by rewrite lookup_insert_ne].
    - intros k Hk. by rewrite lookup_insert_ne. }
  unfold CreateOpaqueSecret. cbv zeta. wp_step. apply wp_NewRequest.
  { intros e. eapply He; [apply moved_refl|done]. }
  wp_step. apply wp_net_call. intros r cl' w' Hd Hm.
  destruct (secret_post_law _ _ _ _ _ _ _ _ _ _ _ Hd) as (Hor & H409 & Hok).
  assert (touched uname (ns, name) (b_net w) cl') as Ht' by (destruct Hor as [->|Hor]; [done|by eapply Ht]).
  destruct r as [e|resp]; [by eapply He|].
  destruct (Z.eqb_spec (hp_StatusCode resp) StatusConflict) as [Hc|Hc].
  { wp_step. destruct (H409 resp) as [-> Hs]; [done..|]. eapply HQ; [done|done|done|by left]. }
  destruct (Z.leb_spec 300 (hp_StatusCode resp)); wp_step; [by eapply He|].
  assert (secret_created (ns, name) ((λ e, (e.1, EncodeToString e.2)) <$> data) (b_net w) cl') as Hs by (by eapply Hok).
  eapply HQ; [done|done|by destruct Hs as [_ ->]|by right].
Qed.
End calls.

(** ** The user, its password and its groups *)

Section ensure.
Context `{Driver} `{Runtime} `{UUIDLib} `{Net} `{!Random} (base realm host : string).
Context `{!ClusterLaws base realm host} (tok ktok dns : string) (bcfg : BootConfig) (orgName ns : string).
Let kc := mkKeycloakClient base realm tok.
Let kube := mkKubeClient host ktok dns.
Let name := bc_TenantAdminUser bcfg.
Let sk := (ns, bc_SecretName bcfg).

(** What is true of the user [id] and the password the bootstrap goes on with: both
    were there and nothing was done; or the user has the password, and the secret holds
    it unless there already was a secret without a password in it. *)
Definition ensured (cl cl' : Cluster) (id pw : string) (row : KUser) : Prop :=
  row ∈ cl_users cl' ∧ ku_ID row = id ∧ named name row ∧
  ((cl' = cl ∧ secret_value cl sk "admin-password" = Some pw) ∨
   (ku_Password row = Some pw ∧
    (secret_value cl' sk "admin-password" = Some pw ∨
     (strong pw ∧ secret_value cl sk "admin-password" = None ∧ is_Some (cl_secrets cl !! sk))))).

(** Setting the password and storing it, once the user is there. *)
Lemma wp_set_and_store id stored row cl0 (Q : error + string * string → BWorld → Prop) w :
  cluster_wf (b_net w) → row ∈ cl_users (b_net w) → ku_ID row = id → named name row →
  cl_secrets (b_net w) = cl_secrets cl0 → secret_value cl0 sk "admin-password" = stored →
  (∀ e w' cl', moved w cl' w' → touched name sk (b_net w) cl' → Q (inl e) w') →
  (∀ pw row' w' cl', moved w cl' w' → touched name sk (b_net w) cl' →
     row' ∈ cl_users cl' → ku_ID row' = id → named name row' → ku_Password row' = Some pw →
     (secret_value cl' sk "admin-password" = Some pw ∨
      (strong pw ∧ stored = None ∧ is_Some (cl_secrets cl0 !! sk))) → Q (inr (id, pw)) w') →
  wp (set_and_store kc kube bcfg orgName ns stored id) Q w.
Proof.
  intros Hwf Hrow Hid Hn Hsec Hst He HQ. unfold set_and_store.
  (* the password is set on the user's row *)
  assert (∀ pw w1, moved w (b_net w) w1 → ∀ (R : error + () → BWorld → Prop),
    (∀ e w' cl', moved w cl' w' → touched name sk (b_net w) cl' → R (inl e) w') →
    (∀ row' w' cl', moved w cl' w' → touched name sk (b_net w) cl' → cl_secrets cl' = cl_secrets cl0 →
       row' ∈ cl_users cl' → ku_ID row' = id → named name row' → ku_Password row' = Some pw → R (inr ()) w') →
    wp (SetPassword kc id pw) R w1) as Hset.
  { intros pw w1 Hm1 R HeR HR. pose proof (moved_net _ _ _ Hm1) as Hcl.
    eapply (wp_SetPassword _ _ _ _ sk name id pw row); rewrite ?Hcl; [done..| |].
    - intros e w' cl' Hm Ht. eapply HeR; [by eapply moved_trans|done].
    - intros w' cl' Hm Ht ->. eapply (HR (mkKUser (ku_ID row) (ku_Username row) (Some pw) (ku_Groups row)));
        [by eapply moved_trans|done|done| |done|done|done].
      apply on_user_elem; [done|]. exists row. by rewrite Hid, String.eqb_refl. }
  destruct stored as [pw|].
  - wp_step. wp_step. wp_step. wp_step. apply Hset; [apply moved_refl| |].
    + intros e w' cl' Hm Ht. by eapply He.
    + intros row' w' cl' Hm Ht Hs Hr Hi Hnm Hp. wp_step. wp_step. wp_step. eapply HQ; [done..|].
      left. unfold secret_value in *. by rewrite Hs.
  - wp_step. wp_step. apply wp_GeneratePassword.
    2: { intros e w1 _ (?&?&?). eapply He; [by split_and!|done]. }
    intros pw w1 Hpw (?&?&?). wp_step. wp_step. apply Hset; [by split_and!| |].
    + intros e w' cl' Hm Ht. by eapply He.
    + intros row' w2 cl2 Hm2 Ht2 Hs Hr Hi Hnm Hp. pose proof (moved_net _ _ _ Hm2) as Hcl2.
      wp_step. wp_step. apply (wp_CreateOpaqueSecret _ _ _ _ _ name).
      * intros e w' cl' Hm Ht. rewrite Hcl2 in Ht. eapply He; [by eapply moved_trans|by etrans].
      * intros w' cl' Hm Ht Hu Hor. rewrite Hcl2 in *. wp_step. eapply HQ;
          [by eapply moved_trans|by etrans|by rewrite Hu|done..|].
        destruct Hor as [[-> Hsome]|[_ ->]].
        { right. split_and!; [done|done|]. by rewrite <- Hs. }
        left. unfold secret_value. simpl. rewrite lookup_insert_eq. simpl.
        rewrite lookup_insert_eq. simpl. apply DecodeString_EncodeToString.
Qed.

Hypothesis Hns : slash_free ns.
Hypothesis Hsecret : slash_free (bc_SecretName bcfg).

Lemma wp_ensureUserAndPassword (Q : error + string * string → BWorld → Prop) w : cluster_wf (b_net w) →
  (∀ e w' cl', moved w cl' w' → touched name sk (b_net w) cl' → Q (inl e) w') →
  (∀ id pw w' cl' row, moved w cl' w' → touched name sk (b_net w) cl' →
     ensured (b_net w) cl' id pw row → Q (inr (id, pw)) w') →
  wp (ensureUserAndPassword kc kube bcfg orgName ns) Q w.
Proof.
  intros Hwf He HQ.
  (* the user is there, its password is set and stored *)
  assert (∀ stored id row w3 cl3, moved w cl3 w3 → touched name sk (b_net w) cl3 →
    cl_secrets cl3 = cl_secrets (b_net w) → secret_value (b_net w) sk "admin-password" = stored →
    row ∈ cl_users cl3 → ku_ID row = id → named name row →
    wp (set_and_store kc kube bcfg orgName ns stored id) Q w3) as Hrest.
  { intros stored id row w3 cl3 Hm3 Ht3 Hs3 Hst Hrow Hid Hn. pose proof (moved_net _ _ _ Hm3) as Hcl3.
    eapply (wp_set_and_store id stored row (b_net w)); rewrite ?Hcl3; [by apply Ht3|done..| |].
    - intros e w4 cl4 Hm4 Ht4. eapply He; [by eapply moved_trans|by etrans].
    - intros pw row' w4 cl4 Hm4 Ht4 Hr4 Hi4 Hn4 Hp4 Hor. eapply HQ; [by eapply moved_trans|by etrans|].
      split_and!; [done..|]. right. split; [done|]. destruct Hor as [?|(?&->&?)]; auto. }
  (* the secret is read, the cluster is as it was *)
  assert (∀ w1 (k : option string → B (string * string)), moved w (b_net w) w1 →
    (∀ stored w2, moved w (b_net w) w2 → secret_value (b_net w) sk "admin-password" = stored → wp (k stored) Q w2) →
    wp (stored ← map_error (Errorf "read existing password secret: ")
          (GetSecretValue kube ns (bc_SecretName bcfg) "admin-password"); k stored) Q w1) as Hread.
  { intros w1 k Hm1 Hk. pose proof (moved_net _ _ _ Hm1) as Hcl1. wp_step. wp_step.
    apply (wp_GetSecretValue base realm host); [done..| |]; rewrite Hcl1.
    - intros e w2 Hm2. eapply He; [by eapply moved_trans|done].
    - intros v w2 Hm2 Hv. apply Hk; [by eapply moved_trans|done]. }
  unfold ensureUserAndPassword. wp_step. wp_step. apply (wp_FindUserByUsername base realm host).
  - intros e w1 Hm1. by eapply He.
  - intros u w1 row Hm1 Hrow Hid Hn. apply Hread; [done|]. intros [pw|] w2 Hm2 Hst.
    + wp_step. eapply HQ; [done|done|]. split_and!; [done..|by left].
    + eapply Hrest; [done|done|done|done|done|done|done].
  - intros w1 Hm1 _. apply Hread; [done|]. intros stored w2 Hm2 Hst.
    pose proof (moved_net _ _ _ Hm2) as Hcl2. wp_step. wp_step.
    eapply (wp_CreateUser base realm host); simpl; rewrite ?Hcl2.
    + intros e w3 cl3 Hm3 Ht3. eapply He; [by eapply moved_trans|done].
    + intros id w3 cl3 row Hm3 Ht3 Hs3 Hrow Hid Hn. eapply Hrest; try done. by eapply moved_trans.
Qed.

(** a user that exists and a secret with a password in it are trusted: nothing is
    done.  So a user that was created by an attempt which then failed to set its password,
    the secret being there already, never gets one. *)
Theorem existing_user_is_trusted w row pw : cluster_wf (b_net w) →
  row ∈ cl_users (b_net w) → named name row → secret_value (b_net w) sk "admin-password" = Some pw →
  wp (ensureUserAndPassword kc kube bcfg orgName ns) (λ r w', b_net w' = b_net w ∧
    ∀ id pw', r = inr (id, pw') → pw' = pw) w.
Proof.
  intros Hwf Hrow Hn Hpw. unfold ensureUserAndPassword. wp_step. wp_step.
  apply (wp_FindUserByUsername base realm host).
  - by intros e w1 (_ & _ & ->).
  - intros u w1 row1 Hm1 _ _ _. pose proof (moved_net _ _ _ Hm1) as Hn1. wp_step. wp_step.
    apply (wp_GetSecretValue base realm host); rewrite ?Hn1; [done|done|by intros e w2 (_ & _ & ->)|].
    intros v w2 Hm2 Hv. fold sk in Hv. rewrite Hpw in Hv. subst v. wp_step. destruct Hm2 as (_ & _ & ->).
    split; [done|]. by intros ?? [= _ ->].
  - intros w1 _ Hno. exfalso. by eapply Hno.
Qed.

(** A secret without the key "admin-password" stays so: the password that is set is
    kept nowhere. *)
Lemma password_not_kept w : cluster_wf (b_net w) →
  is_Some (cl_secrets (b_net w) !! sk) → secret_value (b_net w) sk "admin-password" = None →
  wp (ensureUserAndPassword kc kube bcfg orgName ns) (λ r w',
    secret_value (b_net w') sk "admin-password" = None ∧
    ∀ id pw, r = inr (id, pw) → strong pw ∧ ∃ row, row ∈ cl_users (b_net w') ∧ ku_ID row = id ∧ ku_Password row = Some pw) w.
Proof.
  intros Hwf [d Hd] Hnone.
  assert (∀ cl', touched name sk (b_net w) cl' → secret_value cl' sk "admin-password" = None) as Hkept.
  { intros cl' Ht. unfold secret_value in *. by rewrite (tc_kept _ _ _ _ Ht _ _ Hd), Hd in *. }
  apply wp_ensureUserAndPassword; [done| |].
  - intros e w' cl' (_ & _ & ->) Ht. split; [by auto|done].
  - intros id pw w' cl' row (_ & _ & ->) Ht (Hrow & Hid & _ & Hor). split; [by auto|]. intros ?? [= <- <-].
    destruct Hor as [[_ Hs]|[Hp [Hs|(Hs & _)]]]; [congruence|rewrite Hkept in Hs by done; congruence|eauto].
Qed.
End ensure.
