(* ===== verification/BootstrapRun.v ===== *)
(** * The tenant-admin bootstrap: the whole hook

    The wait for the controllers, which ends and lets nothing through but an idle
    resource; the memberships; and [Run] from the store to the last request, with
    other connections writing to the database meanwhile. *)

From S2P Require Import Prelude GoStd Monad EntSchema Sqlgraph EntQuery EntMutation Config Status Store.
From S2P Require Import Logic EntSpec Wf EntLoad StoreOrg StoreProject StoreStatus StoreReads Http Base64 Bootstrap BootstrapSpec.
From Stdlib Require Import Ascii.

(** ** Waiting for the controllers *)

(** Every controller reports that it is neither failing nor busy with the resource. *)
Definition idle (db : DB) (rt : string) (id : UUID) (cs : list string) : Prop :=
  ∀ c, c ∈ cs → ∃ s, s ∈ t_statuses db ∧ ControllerStatus_ControllerName s = c ∧
    ControllerStatus_ResourceType s = rt ∧ ControllerStatus_ResourceID s = id ∧
    ControllerStatus_Status s ≠ StatusError ∧ ControllerStatus_Status s ≠ StatusInProgress.

Lemma row_of_in statuses c s : row_of statuses c = Some s → s ∈ statuses ∧ ControllerStatus_ControllerName s = c.
Proof.
  unfold row_of. induction statuses as [|x l IH] using rev_ind; [done|].
  rewrite statusMap_snoc, elem_of_app, list_elem_of_singleton.
  destruct (decide (ControllerStatus_ControllerName x = c)) as [<-|Hne].
  - rewrite lookup_insert_eq. intros [= ->]. auto.
  - rewrite lookup_insert_ne by done. naive_solver.
Qed.

Lemma derived_idle_inv statuses cs r : derived statuses false cs r → r.1 = statusIdle →
  ∀ c, c ∈ cs → at_rest statuses c.
Proof. intros Hd Hr. by inversion Hd; subst. Qed.

(** [select] on the ticker of [waitForIdle]: its channel holds one tick, so [k] ticks
    received between two calls of [time.Now] are at least [k - 2] periods. *)
Class TickerLaw `{Runtime} `{Net} : Prop := ticker : ∀ t0 waits t, (t0 < t)%nat → NoDup waits →
  Forall (λ u, (t0 < u < t)%nat ∧ net_select u = None) waits →
  (rt_now t0 + (Z.of_nat (length waits) - 2) * defaultStatusPoll <= rt_now t)%Z.

Lemma wp_of_store {A} (m : M A) (Q : error + A → BWorld → Prop) w :
  wp m (λ r s, Q r (mkBWorld s (b_net w))) (b_store w) → wp (of_store m) Q w.
Proof. intros (r & s & He & HQ)%wp_out. eapply wp_run; [unfold of_store; by rewrite He|done]. Qed.

Section waiting.
Context `{Driver} `{Runtime} `{UUIDLib} `{FieldValidators} `{Net}.

(** Only the store was read. *)
Definition waited (w w' : BWorld) : Prop := read_only (b_store w) (b_store w') ∧ b_net w' = b_net w.
#[export] Instance waited_preorder : PreOrder waited.
Proof. split; [intros w; by split|]. intros ??? [? ?] [? ?]. split; [by etrans|congruence]. Qed.
Lemma tick_waited w : waited w (tick w).
Proof. split; [|done]. split_and!; [done|done|simpl; unfold b_tick; lia]. Qed.

(** The controllers were idle at some time since [w]. *)
Definition was_idle (w : BWorld) (rt : string) (id : UUID) (cs : list string) : Prop :=
  ∃ db, env_only (w_db (b_store w)) db ∧ idle db rt id cs.
Lemma was_idle_mono w w' rt id cs : waited w w' → was_idle w' rt id cs → was_idle w rt id cs.
Proof. intros [(He%env_under_only & _) _] (db & Hdb & Hi). exists db. split; [by etrans|done]. Qed.

Lemma wp_read {A} (m : M A) `{!ReadOnly m} (Q : error + A → BWorld → Prop) w :
  (∀ r s, m (b_store w) = (r, s) → waited w (mkBWorld s (b_net w)) → Q r (mkBWorld s (b_net w))) → wp (of_store m) Q w.
Proof.
  intros HQ. apply wp_of_store. destruct (m (b_store w)) as [r s] eqn:Hm. eapply wp_run; [done|].
  apply HQ; [done|]. split; [|done]. exact (proj1 (wp_run _ _ _ _ _ Hm) (read_only_wp (m:=m) (b_store w))).
Qed.
Lemma wp_bootstrap_Now (Q : error + Time → BWorld → Prop) w :
  (∀ w', waited w w' → b_tick w' = S (b_tick w) → Q (inr (rt_now (b_tick w))) w') → wp (of_store Now) Q w.
Proof.
  intros HQ. apply wp_of_store. eapply wp_run; [unfold Now, outside; reflexivity|]. apply HQ; [|done].
  split; [|done]. apply read_only_outside.
Qed.

Context `{!DriverLaws} `{!TickerLaw}.

Lemma wp_derive rt id cs (Q : error + string * string → BWorld → Prop) w : w_tx (b_store w) = None →
  (∀ r w', waited w w' → b_tick w' = S (b_tick w) → (r.1 = statusIdle → was_idle w rt id cs) → Q (inr r) w') →
  wp (of_store (DeriveStatus rt id false cs)) Q w.
Proof.
  intros Htx HQ. apply wp_of_store. unfold DeriveStatus. wp_step. wp_step.
  unfold GetControllerStatuses, ControllerStatusQuery_All, Query_All.
  apply wp_outside_any. cbv zeta.
  match goal with |- context [drv_query ?t ?db ?q] => destruct (drv_query t db q) as [e|rs] eqn:Hq end.
  - wp_step. apply HQ; [split; [apply read_only_outside|done]|done|done].
  - wp_step. apply HQ; [split; [apply read_only_outside|done]|done|]. intros Hidle.
    apply query_ok in Hq; [|set_solver|done]. unfold view in Hq. simpl in Hq. rewrite Htx in Hq.
    eexists. split; [apply rtc_once; by exists (b_tick w), None|]. intros c Hc.
    destruct (derived_idle_inv _ _ _ (DeriveStatusFromRows_derived rs false cs) Hidle c Hc) as (s & Hs & Hne1 & Hne2).
    apply row_of_in in Hs as [Hin Hname]. eapply query_result_elem in Hin as [Hin Hh]; [|exact Hq].
    simpl in Hh. rewrite !andb_true_iff in Hh. destruct Hh as (Hh1 & Hh2 & _).
    exists s. split_and!; [done|done|by apply String.eqb_eq|by apply (bool_decide_eq_true _)|done|done].
Qed.

(** The loop with [waits] ticks received since the call [t0] that set the deadline. *)
Lemma wp_poll_idle fuel t0 waits rt id cs (Q : error + option () → BWorld → Prop) w :
  w_tx (b_store w) = None → NoDup waits →
  Forall (λ u, (t0 < u < b_tick w)%nat ∧ net_select u = None) waits → (t0 < b_tick w)%nat →
  (length waits + S fuel)%nat = polls →
  (∀ e w', waited w w' → Q (inl e) w') →
  (∀ w', waited w w' → was_idle w rt id cs → Q (inr (Some ())) w') →
  wp (poll_idle (S fuel) (rt_now t0 + defaultStatusTimeout)%Z rt id cs) Q w.
Proof.
  revert waits w. induction fuel as [|fuel IH]; intros waits w Htx Hnd Hw Ht0 Hlen He HQ;
    cbn [poll_idle]; wp_step; (apply wp_derive; [done|]); intros [st msg] w1 Hw1 Ht1 Hidle; cbn [fst snd];
    (destruct (String.eqb_spec st statusIdle) as [->|_]; [wp_step; by apply HQ; auto|]);
    wp_step; apply wp_bootstrap_Now; intros w2 Hw2 Ht2;
    assert (waited w w2) as Hw02 by (by etrans);
    (destruct (Z.ltb_spec (rt_now t0 + defaultStatusTimeout) (rt_now (b_tick w1))) as [_|Hlt];
       [wp_step; by apply He|]);
    pose proof (ticker t0 waits (b_tick w1) ltac:(lia) Hnd) as Htick.
  - exfalso. cut (Z.of_nat (length waits) = 63%Z); [|unfold polls in Hlen; lia]. intros Hl. rewrite Hl in Htick.
    unfold defaultStatusTimeout, defaultStatusPoll, Minute in *. 
    enough (Forall (λ u, (t0 < u < b_tick w1)%nat ∧ net_select u = None) waits) as Hf by (specialize (Htick Hf); lia).
    eapply Forall_impl; [exact Hw|]. intros u [? ?]. split; [lia|done].
  - clear Htick. wp_step. destruct (net_select (b_tick w2)) as [err|] eqn:Hsel.
    { eapply wp_run; [rewrite Hsel; reflexivity|]. apply He. etrans; [exact Hw02|apply tick_waited]. }
    eapply wp_run; [rewrite Hsel; reflexivity|]. cbn beta iota.
    assert (waited w (tick w2)) as Hw03 by (etrans; [exact Hw02|apply tick_waited]).
    apply (IH (b_tick w2 :: waits)).
    + destruct Hw03 as [(_ & -> & _) _]. done.
    + apply NoDup_cons. split; [|done]. intros Hin. rewrite Forall_forall in Hw. destruct (Hw _ Hin) as [? _]. lia.
    + change (b_tick (tick w2)) with (S (b_tick w2)). apply Forall_cons. split; [split; [lia|done]|].
      eapply Forall_impl; [exact Hw|]. intros u [? ?]. split; [lia|done].
    + change (b_tick (tick w2)) with (S (b_tick w2)). lia.
    + simpl. lia.
    + intros e w' Hw'. apply He. by etrans.
    + intros w' Hw' Hi. apply HQ; [by etrans|]. by eapply was_idle_mono.
Qed.

Lemma wp_waitForIdle rt id cs (Q : error + option () → BWorld → Prop) w : w_tx (b_store w) = None →
  (∀ e w', waited w w' → Q (inl e) w') →
  (∀ w', waited w w' → was_idle w rt id cs → Q (inr (Some ())) w') →
  wp (waitForIdle rt id cs) Q w.
Proof.
  intros Htx He HQ. unfold waitForIdle. wp_step. apply wp_bootstrap_Now. intros w1 Hw1 Ht1.
  apply (wp_poll_idle 63 (b_tick w) []); [|constructor|constructor|lia|done|..].
  - destruct Hw1 as [(_ & -> & _) _]. done.
  - intros e w' Hw'. apply He. by etrans.
  - intros w' Hw' Hi. apply HQ; [by etrans|]. by eapply was_idle_mono.
Qed.
End waiting.

(** ** Memberships *)

(** The row has become [row'], which only gained groups. *)
Definition joined (row row' : KUser) : Prop :=
  ku_ID row' = ku_ID row ∧ ku_Username row' = ku_Username row ∧ ku_Password row' = ku_Password row ∧
  ku_Groups row ⊆ ku_Groups row'.
#[export] Instance joined_preorder : PreOrder joined.
Proof. split; [intros ?; by split_and!|]. intros ??? (?&?&?&?) (?&?&?&?). split_and!; [congruence..|set_solver]. Qed.
Lemma joined_named name row row' : joined row row' → named name row → named name row'.
Proof. intros (_ & Hu & _) Hn. unfold named. by rewrite Hu. Qed.

(** The user is in the groups [<prefix>_<name>] the realm has under these paths. *)
Definition in_groups (cl : Cluster) (prefix : string) (names : list string) (row : KUser) : Prop :=
  ∀ g, g ∈ names → ∃ gid, (group_path (prefix +:+ "_" +:+ g), gid) ∈ cl_groups cl ∧ gid ∈ ku_Groups row.

Lemma add_member_joined id gid row cl : row ∈ cl_users cl → ku_ID row = id →
  ∃ row', row' ∈ cl_users (add_member id gid cl) ∧ joined row row' ∧ gid ∈ ku_Groups row'.
Proof.
  intros Hrow Hid. eexists. split; [apply on_user_elem; [done|]; exists row; split; [done|]; reflexivity|].
  rewrite Hid, String.eqb_refl. split; [split_and!; [done..|]|]; simpl; case_match eqn:Hm; [done|set_solver| |set_solver].
  by apply mem_string_elem.
Qed.

Section groups.
Context `{Net} (base realm host : string) `{!ClusterLaws base realm host} (tok name : string) (sk : string * string).

Lemma wp_addUserToGroups id prefix names row (Q : error + () → BWorld → Prop) w :
  cluster_wf (b_net w) → row ∈ cl_users (b_net w) → ku_ID row = id → named name row →
  (∀ e w' cl', moved w cl' w' → touched name sk (b_net w) cl' → Q (inl e) w') →
  (∀ row' w' cl', moved w cl' w' → touched name sk (b_net w) cl' → cl_secrets cl' = cl_secrets (b_net w) →
     row' ∈ cl_users cl' → joined row row' → in_groups cl' prefix names row' → Q (inr ()) w') →
  wp (addUserToGroups (mkKeycloakClient base realm tok) id prefix names) Q w.
Proof.
  revert row w. induction names as [|g names IH]; intros row w Hwf Hrow Hid Hn He HQ; simpl addUserToGroups.
  { wp_step. apply (HQ row w (b_net w)); [apply moved_refl|done..|]. intros g []%elem_of_nil. }
  wp_step. wp_step. apply (wp_GetGroupByPath base realm host).
  { intros e w1 Hm1. by eapply He. }
  intros kg w1 Hm1 Hg. pose proof (moved_net _ _ _ Hm1) as Hcl1. wp_step. wp_step.
  assert (slash_free (kcg_ID kg)) as Hfree by (destruct Hwf as (_ & _ & Hwf); exact (Hwf _ Hg)).
  eapply (wp_AddUserToGroup base realm host _ sk name id _ row); rewrite ?Hcl1; [done..| |].
  { intros e w2 cl2 Hm2 Ht2. eapply He; [by eapply moved_trans|done]. }
  intros w2 cl2 Hm2 Ht2 Hcl2. pose proof (moved_net _ _ _ Hm2) as Hn2.
  destruct (add_member_joined id (kcg_ID kg) row (b_net w) Hrow Hid) as (row2 & Hrow2 & Hj2 & Hin2).
  rewrite <- Hcl2 in Hrow2. apply (IH row2); rewrite ?Hn2.
  - by apply Ht2.
  - done.
  - by rewrite (proj1 Hj2).
  - by eapply joined_named.
  - intros e w3 cl3 Hm3 Ht3. eapply He; [do 2 (eapply moved_trans; [done|]); done|by etrans].
  - intros row3 w3 cl3 Hm3 Ht3 Hs3 Hr3 Hj3 Hg3. apply (HQ row3 w3 cl3).
    + do 2 (eapply moved_trans; [done|]). done.
    + by etrans.
    + by rewrite Hs3, Hcl2.
    + done.
    + by etrans.
    + intros g' [->|Hg']%elem_of_cons; [|by apply Hg3]. exists (kcg_ID kg).
      destruct Ht3 as [_ _ _ _ ->], Ht2 as [_ _ _ _ ->]. split; [done|]. by apply Hj3.
Qed.

Lemma wp_NewKeycloakClient user pass (Q : error + KeycloakClient → BWorld → Prop) w :
  (∀ e w', moved w (b_net w) w' → Q (inl e) w') →
  (∀ token w', moved w (b_net w) w' → Q (inr (mkKeycloakClient base realm token)) w') →
  wp (NewKeycloakClient base realm user pass) Q w.
Proof.
  intros He HQ. unfold NewKeycloakClient. cbv zeta. wp_step. apply wp_NewRequest.
  { intros e. apply He, moved_refl. }
  wp_step. wp_step. apply wp_net_call. intros r cl' w1 Hd Hm.
  assert (cl' = b_net w) as -> by (by eapply login_law). destruct r as [e|resp]; [by apply He|].
  destruct (negb _); [wp_step; by apply He|]. destruct (json_Decode _ _) as [e|token]; [wp_step; by apply He|].
  destruct (String.eqb _ _); wp_step; [by apply He|by apply HQ].
Qed.
End groups.

(** ** From the clients on *)

Definition kube_host `{OS} : string :=
  "https://" +:+ os_Getenv "KUBERNETES_SERVICE_HOST" +:+ ":" +:+ os_Getenv "KUBERNETES_SERVICE_PORT".
Lemma NewInClusterKubeClient_host `{OS} k :
  NewInClusterKubeClient = inr k → k = mkKubeClient kube_host (kb_token k) (kb_defaultNS k).
Proof. unfold NewInClusterKubeClient. cbv zeta. repeat case_match; intros; simplify_eq; done. Qed.

(** Where the password is stored. *)
Definition secret_ns `{OS} (bcfg : BootConfig) : string :=
  if String.eqb (bc_SecretNamespace bcfg) ""
  then match NewInClusterKubeClient with inr kube => DefaultNamespace kube | inl _ => "" end
  else bc_SecretNamespace bcfg.
Definition secret_key `{OS} (bcfg : BootConfig) : string * string := (secret_ns bcfg, bc_SecretName bcfg).

(** The namespaces and names the paths of the requests are made of have no slash. *)
Class CleanNames `{OS} (bcfg : BootConfig) : Prop := clean_names :
  Forall slash_free [bc_KeycloakNamespace bcfg; bc_KeycloakService bcfg; bc_SecretName bcfg; secret_ns bcfg].

(** What success means: a user of the tenant admin's name is in all its groups, and
    either a user and a secret with a password were both there, and the user's password
    (if it has one) and the secrets are left alone; or its password is the stored one; or
    there was a secret without a password in it, and the user has a new one. *)
Definition provisioned `{OS} `{UUIDLib} (bcfg : BootConfig) (orgID projID : UUID) (cl cl' : Cluster) : Prop :=
  ∃ row pw, row ∈ cl_users cl' ∧ named (bc_TenantAdminUser bcfg) row ∧
    in_groups cl' (uuid_String orgID) (bc_ProjectAdminGroups bcfg) row ∧
    in_groups cl' (uuid_String projID) (bc_ProjectEdgeGroups bcfg) row ∧
    ((∃ row0, row0 ∈ cl_users cl ∧ named (bc_TenantAdminUser bcfg) row0 ∧ joined row0 row ∧
        secret_value cl (secret_key bcfg) "admin-password" = Some pw ∧
        cl_secrets cl' = cl_secrets cl) ∨
     (ku_Password row = Some pw ∧ secret_value cl' (secret_key bcfg) "admin-password" = Some pw) ∨
     (ku_Password row = Some pw ∧ strong pw ∧ is_Some (cl_secrets cl !! secret_key bcfg) ∧
        secret_value cl (secret_key bcfg) "admin-password" = None)).

Section provision.
Context `{Driver} `{Runtime} `{UUIDLib} `{FieldValidators} `{OS} `{Net} `{!Random} (bcfg : BootConfig).
Context `{!ClusterLaws (KeycloakBaseURL bcfg) (bc_KeycloakRealm bcfg) kube_host} `{!CleanNames bcfg}.
Let name := bc_TenantAdminUser bcfg.
Let sk := secret_key bcfg.

Lemma wp_memberships tok orgID projID cl u row (Q : error + () → BWorld → Prop) w :
  let kc := mkKeycloakClient (KeycloakBaseURL bcfg) (bc_KeycloakRealm bcfg) tok in
  cluster_wf (b_net w) → touched name sk cl (b_net w) →
  row ∈ cl_users (b_net w) → ku_ID row = u → named name row →
  (∀ e w' cl', moved w cl' w' → touched name sk cl cl' → Q (inl e) w') →
  (∀ row' w' cl', moved w cl' w' → touched name sk cl cl' → cl_secrets cl' = cl_secrets (b_net w) →
     row' ∈ cl_users cl' → joined row row' →
     in_groups cl' (uuid_String orgID) (bc_ProjectAdminGroups bcfg) row' →
     in_groups cl' (uuid_String projID) (bc_ProjectEdgeGroups bcfg) row' → Q (inr ()) w') →
  wp (_ ← map_error (Errorf "add org admin groups: ")
        (addUserToGroups kc u (uuid_String orgID) (bc_ProjectAdminGroups bcfg));
      map_error (Errorf "add project edge groups: ")
        (addUserToGroups kc u (uuid_String projID) (bc_ProjectEdgeGroups bcfg))) Q w.
Proof.
  intros kc Hwf Ht Hrow Hid Hn He HQ. wp_step. wp_step.
  apply (wp_addUserToGroups _ _ _ _ name sk _ _ _ row); [done..| |].
  { intros e w1 cl1 Hm1 Ht1. eapply He; [done|by etrans]. }
  intros row1 w1 cl1 Hm1 Ht1 Hs1 Hr1 Hj1 Hg1. pose proof (moved_net _ _ _ Hm1) as Hn1. wp_step.
  apply (wp_addUserToGroups _ _ _ _ name sk _ _ _ row1); rewrite ?Hn1.
  - by apply Ht1.
  - done.
  - by rewrite (proj1 Hj1).
  - by eapply joined_named.
  - intros e w2 cl2 Hm2 Ht2. eapply He; [by eapply moved_trans|by do 2 (etrans; [done|])].
  - intros row2 w2 cl2 Hm2 Ht2 Hs2 Hr2 Hj2 Hg2. apply (HQ row2 w2 cl2).
    + by eapply moved_trans.
    + by do 2 (etrans; [done|]).
    + by rewrite Hs2.
    + done.
    + by etrans.
    + intros g Hg. destruct (Hg1 g Hg) as (gid & Hin & Hm). exists gid.
      destruct Ht2 as [_ _ _ _ ->]. split; [done|]. by apply Hj2.
    + done.
Qed.

Lemma wp_provision orgName orgID projID (Q : error + () → BWorld → Prop) w : cluster_wf (b_net w) →
  (∀ e w' cl', moved w cl' w' → touched name sk (b_net w) cl' → Q (inl e) w') →
  (∀ w' cl', moved w cl' w' → touched name sk (b_net w) cl' → provisioned bcfg orgID projID (b_net w) cl' →
     Q (inr ()) w') →
  wp (provision bcfg orgName orgID projID) Q w.
Proof.
  intros Hwf He HQ. pose proof clean_names as Hclean. rewrite !Forall_cons in Hclean.
  destruct Hclean as (Hkns & Hksvc & Hsn & Hsns & _).
  unfold provision. destruct NewInClusterKubeClient as [e|kube] eqn:Hkube.
  { wp_step. wp_step. wp_step. eapply He; [apply moved_refl|done]. }
  assert ((if String.eqb (bc_SecretNamespace bcfg) "" then DefaultNamespace kube else bc_SecretNamespace bcfg)
          = secret_ns bcfg) as Hns by (unfold secret_ns; by rewrite Hkube).
  apply NewInClusterKubeClient_host in Hkube. rewrite Hkube in Hns |- *.
  wp_step. wp_step. wp_step. wp_step. wp_step.
  apply (wp_GetSecretValue (KeycloakBaseURL bcfg) (bc_KeycloakRealm bcfg) kube_host); [done|done| |].
  { intros e w1 Hm1. by eapply He. }
  intros pass w1 Hm1 _. pose proof (moved_net _ _ _ Hm1) as Hn1.
  destruct pass as [[|a pass]|]; [by wp_step; eapply He| |by wp_step; eapply He].
  wp_step. wp_step. apply (wp_NewKeycloakClient _ _ kube_host); rewrite Hn1.
  { intros e w2 Hm2. eapply He; [by eapply moved_trans|done]. }
  intros tok w2 Hm2. pose proof (moved_net _ _ _ Hm2) as Hn2. cbv zeta. rewrite Hns. wp_step.
  apply wp_ensureUserAndPassword; rewrite ?Hn2; [done..| |].
  { intros e w3 cl3 Hm3 Ht3. eapply He; [do 2 (eapply moved_trans; [done|]); done|done]. }
  intros id pw w3 cl3 row Hm3 Ht3 (Hrow & Hid & Hnm & Hpw). pose proof (moved_net _ _ _ Hm3) as Hn3.
  cbn [fst snd]. eapply (wp_memberships tok orgID projID (b_net w) id row); rewrite ?Hn3;
    [by apply Ht3|done..| |].
  { intros e w4 cl4 Hm4 Ht4. eapply He; [do 3 (eapply moved_trans; [done|]); done|done]. }
  intros row' w4 cl4 Hm4 Ht4 Hs4 Hr4 Hj4 Ho4 Hp4. apply (HQ w4 cl4); [|done|].
  { do 3 (eapply moved_trans; [done|]). done. }
  assert (∀ v, secret_value cl3 sk "admin-password" = v → secret_value cl4 sk "admin-password" = v) as Hsv.
  { intros v. unfold secret_value. by rewrite Hs4. }
  exists row', pw. split_and!; [done|by eapply joined_named|done|done|].
  destruct Hpw as [[-> Hst]|[Hp [Hst|(Hstrong & Hnone & Hsome)]]].
  - left. exists row. split_and!; done.
  - right. left. destruct Hj4 as (_ & _ & -> & _). split; [done|by apply Hsv].
  - right. right. destruct Hj4 as (_ & _ & -> & _). done.
Qed.
End provision.

(** ** The hook *)

Section run_hook.
Context `{Driver} `{Runtime} `{UUIDLib} `{FieldValidators} `{OS} `{Net} `{!DriverLaws} `{!TickerLaw}.
Context (cfg : Config) (bcfg : BootConfig) (orgName projectName : string).

(** There is nothing to do. *)
Definition skipped : bool := negb (bc_Enabled bcfg) || (String.eqb orgName "" || String.eqb projectName "").

(** The org and the project are there, and their controllers were idle since. *)
Definition admitted (w : BWorld) (orgID projID : UUID) : Prop :=
  ∃ o s1 n po s2, GetOrg orgName (b_store w) = (inr o, s1) ∧
    GetProject projectName (Some [orgName]) s1 = (inr (n, po), s2) ∧
    orgID = Org_ID o ∧ projID = Project_ID (project_row n) ∧
    was_idle w resourceTypeOrg orgID (ControllersForResource cfg resourceTypeOrg) ∧
    was_idle w resourceTypeProj projID (ControllersForResource cfg resourceTypeProj).

(** [Run] is [provision], behind its gate. *)
Lemma wp_Run (Q : error + option () → BWorld → Prop) w : w_tx (b_store w) = None →
  (skipped = true → Q (inr (Some ())) w) →
  (∀ e w', skipped = false → waited w w' → Q (inl e) w') →
  (∀ orgID projID w', skipped = false → waited w w' → admitted w orgID projID →
     wp (provision bcfg orgName orgID projID) (λ r w'', Q (match r with inl e => inl e | inr _ => inr (Some ()) end) w'') w') →
  wp (Run cfg bcfg orgName projectName) Q w.
Proof.
  intros Htx Hskip He HQ. unfold Run. unfold skipped in *. destruct (negb (bc_Enabled bcfg)); [wp_step; by apply Hskip|].
  destruct (String.eqb orgName "" || String.eqb projectName ""); [wp_step; by apply Hskip|]. simpl in He, HQ.
  wp_step. wp_step. apply (wp_read (GetOrg orgName)). intros [e|o] s1 Ho Hs1; [by apply He|].
  wp_step. wp_step. apply (wp_read (GetProject projectName (Some [orgName]))). intros [e|[n po]] s2 Hp Hs2.
  { apply He; [done|by etrans]. }
  cbv zeta. cbn [fst]. set (w2 := mkBWorld s2 _) in *. assert (waited w w2) as Hw2 by (by etrans).
  wp_step. wp_step. apply wp_waitForIdle.
  { destruct Hw2 as [(_ & -> & _) _]. done. }
  { intros e w3 Hw3. apply He; [done|by etrans]. }
  intros w3 Hw3 Hi3. wp_step. wp_step. apply wp_waitForIdle.
  { destruct Hw3 as [(_ & -> & _) _], Hw2 as [(_ & -> & _) _]. done. }
  { intros e w4 Hw4. apply He; [done|]. do 2 (etrans; [done|]). done. }
  intros w4 Hw4 Hi4. cbn beta iota. wp_step. eapply wp_mono; [apply (HQ (Org_ID o) (Project_ID (project_row n)))|].
  - done.
  - do 2 (etrans; [done|]). done.
  - exists o, s1, n, po, s2. split_and!; [done..| |].
    + by eapply was_idle_mono.
    + eapply was_idle_mono; [exact Hw2|]. by eapply was_idle_mono.
  - intros [e|[]] w5 HQ5; [done|]. by wp_step.
Qed.

(** C31: [Run] ends: the two polling loops stop within the model's fuel, whatever the
    store, the servers and the other connections do, because of the deadline. *)
Theorem Run_returns w : w_tx (b_store w) = None → (Run cfg bcfg orgName projectName w).1 ≠ inr None.
Proof.
  intros Htx. destruct (Run cfg bcfg orgName projectName w) as [r w'] eqn:Hr. simpl.
  apply (proj1 (wp_run _ (λ r _, r ≠ inr None) _ _ _ Hr)). apply wp_Run; [done|done|done|].
  intros orgID projID w1 _ _ _. eapply wp_mono; [apply wp_self|]. by intros [].
Qed.
End run_hook.

Section hook_spec.
Context `{Driver} `{Runtime} `{UUIDLib} `{FieldValidators} `{OS} `{Net} `{!DriverLaws} `{!TickerLaw} `{!Random}.
Context (cfg : Config) (bcfg : BootConfig) (orgName projectName : string).
Context `{!ClusterLaws (KeycloakBaseURL bcfg) (bc_KeycloakRealm bcfg) kube_host} `{!CleanNames bcfg}.

(** C30: whatever fails, with names that fit in a URL path and servers that do what
    their documentation says of a request (one that is not accepted may have been done
    or not), the bootstrap writes nothing to the store; in Keycloak it touches only
    users of the tenant admin's name, in Kubernetes it adds at most the one secret and
    changes none; nothing is touched unless the org and the project exist and every
    controller's status row was neither failing nor busy at some time since the start.
    Success, when the hook is not disabled, means that a user of the name is in all its
    groups and that one of three holds: its password is the one the secret holds; a user
    and a secret with a password were both there, then the user's password, whatever it
    was or if it had none, and the secret are as they were; a secret without a password
    was there, then the user has a new strong password. With no secret at the start it
    is the first. *)
Theorem Run_spec w : w_tx (b_store w) = None → cluster_wf (b_net w) →
  wp (Run cfg bcfg orgName projectName) (λ r w',
    env_only (w_db (b_store w)) (w_db (b_store w')) ∧ w_tx (b_store w') = None ∧
    touched (bc_TenantAdminUser bcfg) (secret_key bcfg) (b_net w) (b_net w') ∧
    (b_net w' = b_net w ∨ ∃ orgID projID, admitted cfg orgName projectName w orgID projID) ∧
    (r = inr (Some ()) → skipped bcfg orgName projectName = true ∨
       ∃ orgID projID, admitted cfg orgName projectName w orgID projID ∧
         provisioned bcfg orgID projID (b_net w) (b_net w'))) w.
Proof.
  intros Htx Hwf. apply wp_Run; [done|..].
  - intros Hs. split_and!; [done|done|done|by left|by left].
  - intros e w' _ [(He%env_under_only & Ht & _) ->]. split_and!; [done|congruence|done|by left|done].
  - intros orgID projID w1 _ [(He%env_under_only & Ht & _) Hn] Ha.
    apply wp_provision; [apply _|apply _|by rewrite Hn|rewrite Hn|rewrite Hn].
    + intros e w2 cl2 (Hd & Hx & ->) Ht2. split_and!; [by rewrite Hd|congruence|done|right; eauto|done].
    + intros w2 cl2 (Hd & Hx & ->) Ht2 Hp. split_and!; [by rewrite Hd|congruence|done|right; eauto|].
      intros _. right. exists orgID, projID. split; done.
Qed.
End hook_spec.
