(* ===== verification/Retry.v ===== *)
(** * Computations that may run for ever, and the retry helper

    [RM S A] is [EM S A] with a third outcome, [None]: still running when the fuel of
    its loops is spent.  [UntilItSucceeds] is internal/retry/retry.go.  [rwp D m Q w]:
    [m] ends from [w] with an answer and a state that satisfy [Q], or [D] holds and it
    does not end. *)

From S2P Require Import Prelude GoStd Monad Logic.

Definition RM (S A : Type) : Type := S → option ((error + A) * S).

#[export] Instance RM_ret {S} : MRet (RM S) := λ A a w, Some (inr a, w).
#[export] Instance RM_bind {S} : MBind (RM S) := λ A B k m w,
  match m w with
  | None => None
  | Some (inl e, w) => Some (inl e, w)
  | Some (inr a, w) => k a w
  end.
Definition rfail {S A} (e : error) : RM S A := λ w, Some (inl e, w).
Definition lift {S A} (m : EM S A) : RM S A := λ w, Some (m w).
Definition rtry {S A} (m : RM S A) : RM S (error + A) := λ w,
  match m w with None => None | Some (r, w) => Some (inr r, w) end.
Definition rmap_error {S A} (f : error → error) (m : RM S A) : RM S A := λ w,
  match m w with
  | Some (inl e, w) => Some (inl (f e), w)
  | r => r
  end.

(** ** The rules *)

Definition rwp {S A} (D : Prop) (m : RM S A) (Q : error + A → S → Prop) (w : S) : Prop :=
  match m w with Some (r, w') => Q r w' | None => D end.

Section rules.
Context {S A B : Type} (D : Prop).
Implicit Types (m : RM S A) (k : A → RM S B) (w : S).

Lemma rwp_mono m (P Q : error + A → S → Prop) w :
  rwp D m P w → (∀ r w', P r w' → Q r w') → rwp D m Q w.
Proof. unfold rwp. destruct (m w) as [[r w']|]; auto. Qed.
Lemma rwp_ret (a : A) (Q : error + A → S → Prop) w : Q (inr a) w → rwp D (mret a) Q w.
Proof. done. Qed.
Lemma rwp_fail e (Q : error + A → S → Prop) w : Q (inl e) w → rwp D (rfail e) Q w.
Proof. done. Qed.
Lemma rwp_bind m k (Q : error + B → S → Prop) w :
  rwp D m (λ r w', match r with inl e => Q (inl e) w' | inr a => rwp D (k a) Q w' end) w → rwp D (m ≫= k) Q w.
Proof. unfold rwp, mbind, RM_bind. by destruct (m w) as [[[e|a] w']|]. Qed.
Lemma rwp_try m (Q : error + (error + A) → S → Prop) w :
  rwp D m (λ r w', Q (inr r) w') w → rwp D (rtry m) Q w.
Proof. unfold rwp, rtry. by destruct (m w) as [[r w']|]. Qed.
Lemma rwp_map_error f m (Q : error + A → S → Prop) w :
  rwp D m (λ r w', match r with inl e => Q (inl (f e)) w' | inr a => Q (inr a) w' end) w → rwp D (rmap_error f m) Q w.
Proof. unfold rwp, rmap_error. by destruct (m w) as [[[e|a] w']|]. Qed.
Lemma rwp_lift (m : EM S A) (Q : error + A → S → Prop) w : wp m Q w → rwp D (lift m) Q w.
Proof. intros (r & w' & Hm & HQ)%wp_out. unfold rwp, lift. cbn. rewrite Hm. exact HQ. Qed.
End rules.

(** The way out. *)
Lemma rwp_total {S A} (m : RM S A) (Q : error + A → S → Prop) w : rwp False m Q w → ∃ r w', m w = Some (r, w') ∧ Q r w'.
Proof. unfold rwp. destruct (m w) as [[r w']|]; [eauto|done]. Qed.
(** The run itself may be named. *)
Lemma rwp_with_run {S A} D (m : RM S A) (Q : error + A → S → Prop) w :
  rwp D m Q w → rwp D m (λ r w', m w = Some (r, w') ∧ Q r w') w.
Proof. unfold rwp. by destruct (m w) as [[r w']|]. Qed.

Ltac rwp_step :=
  lazymatch goal with
  | |- rwp _ (_ ≫= _) _ _ => apply rwp_bind
  | |- rwp _ (mret _) _ _ => apply rwp_ret
  | |- rwp _ (rmap_error _ _) _ _ => apply rwp_map_error
  | |- rwp _ (rfail _) _ _ => apply rwp_fail
  | |- rwp _ (rtry _) _ _ => apply rwp_try
  end; cbn beta iota.

(** [refines m m']: what [m] answers, [m'] answers too. *)
Definition refines {S A} (m m' : RM S A) : Prop := ∀ w r, m w = Some r → m' w = Some r.
#[export] Instance refines_preorder {S A} : PreOrder (refines (S:=S) (A:=A)).
Proof. split; [by intros m w r|]. intros m1 m2 m3 H1 H2 w r Hr. by apply H2, H1. Qed.

Section refines.
Context {S : Type}.
Lemma refines_bind {A B} (m m' : RM S A) (k k' : A → RM S B) :
  refines m m' → (∀ a, refines (k a) (k' a)) → refines (m ≫= k) (m' ≫= k').
Proof.
  intros Hm Hk w r. unfold mbind, RM_bind. destruct (m w) as [[[e|a] w']|] eqn:Hw; [| |done].
  - by rewrite (Hm _ _ Hw).
  - rewrite (Hm _ _ Hw). apply Hk.
Qed.
Lemma refines_try {A} (m m' : RM S A) : refines m m' → refines (rtry m) (rtry m').
Proof. intros Hm w r. unfold rtry. destruct (m w) as [[x w']|] eqn:Hw; [|done]. by rewrite (Hm _ _ Hw). Qed.
Lemma refines_map_error {A} f (m m' : RM S A) : refines m m' → refines (rmap_error f m) (rmap_error f m').
Proof. intros Hm w r. unfold rmap_error. destruct (m w) as [[x w']|] eqn:Hw; [|done]. by rewrite (Hm _ _ Hw). Qed.
End refines.

(** ** internal/retry/retry.go

    Go's action returns only an error; what it assigns to variables of its caller when
    it succeeds is the value it returns here. *)

(** The two [select] statements on the context, the second with a timer. *)
Class Select (S : Type) := {
  select_Done : EM S ();
  select_After : Z → EM S () }.

Section until.
Context {S : Type} `{Select S} {A : Type}.

Fixpoint UntilItSucceeds (fuel : nat) (action : RM S A) (retryInterval : Z) : RM S A :=
  match fuel with
  | O => λ _, None
  | Datatypes.S fuel =>
      _ ← lift select_Done;
      r ← rtry action;
      match r with
      | inr a => mret a
      | inl _ =>
          _ ← lift (select_After retryInterval);
          UntilItSucceeds fuel action retryInterval
      end
  end.

(** More fuel changes no answer. *)
Lemma UntilItSucceeds_fuel n m action action' i : (n <= m)%nat → refines action action' →
  refines (UntilItSucceeds n action i) (UntilItSucceeds m action' i).
Proof.
  intros Hle Ha. revert m Hle. induction n as [|n IH]; intros m Hle; [by intros w r|].
  destruct m as [|m]; [lia|]. simpl. apply refines_bind; [done|]. intros _.
  apply refines_bind; [by apply refines_try|]. intros [e|u]; [|done].
  apply refines_bind; [done|]. intros _. apply IH. lia.
Qed.

(** One round from [w]: the loop ends with [Q], or goes on with [I]. *)
Definition one_round (D : Prop) (action : RM S A) (i : Z) (Q : error + A → S → Prop) (I : S → Prop) (w : S) : Prop :=
  wp select_Done (λ r w1, match r with
    | inl e => Q (inl e) w1
    | inr _ => rwp D action (λ r w2, match r with
        | inr a => Q (inr a) w2
        | inl _ => wp (select_After i) (λ r w3, match r with inl e => Q (inl e) w3 | inr _ => I w3 end) w2
        end) w1
    end) w.

(** The loop, with an invariant that may count the rounds left. *)
Lemma rwp_until (D : Prop) (I : nat → S → Prop) action i (Q : error + A → S → Prop) fuel w :
  (∀ w, I O w → D) → (∀ n w, I (Datatypes.S n) w → one_round D action i Q (I n) w) →
  I fuel w → rwp D (UntilItSucceeds fuel action i) Q w.
Proof.
  intros H0 Hround. revert w. induction fuel as [|fuel IH]; intros w HI; simpl.
  { unfold rwp. by eapply H0. }
  specialize (Hround _ _ HI). unfold one_round in Hround. apply rwp_bind, rwp_lift. eapply wp_mono; [exact Hround|].
  intros [e|[]] w1; [done|]. intros Ha. apply rwp_bind, rwp_try. eapply rwp_mono; [exact Ha|].
  intros [e|a] w2; [|by intros HQ; apply rwp_ret]. intros Hw. apply rwp_bind, rwp_lift.
  eapply wp_mono; [exact Hw|]. intros [e'|[]] w3; [done|]. apply IH.
Qed.

(** A round that never ends the loop: neither done nor cancelled, [I] again. *)
Lemma until_diverges (I : S → Prop) action i fuel w :
  (∀ w, I w → one_round True action i (λ _ _, False) I w) → I w → UntilItSucceeds fuel action i w = None.
Proof.
  intros Hround HI.
  pose proof (rwp_until True (λ _, I) action i (λ _ _, False) fuel w ltac:(done) (λ _, Hround) HI) as Hr.
  unfold rwp in Hr. by destruct (UntilItSucceeds fuel action i w) as [[]|].
Qed.

(** From [w] the action failed, the timer ran and the context was alive: [w'] is the
    state before the next attempt. *)
Definition failed_round (action : RM S A) (i : Z) (w w' : S) : Prop := ∃ w1 w2 e,
  select_Done w = (inr (), w1) ∧ action w1 = Some (inl e, w2) ∧ select_After i w2 = (inr (), w').

Lemma failed_round_fuel action i fuel w w' : failed_round action i w w' →
  UntilItSucceeds (Datatypes.S fuel) action i w = UntilItSucceeds fuel action i w'.
Proof.
  intros (w1 & w2 & e & Hd & Ha & Ht). cbn [UntilItSucceeds]. unfold mbind, RM_bind, lift, rtry.
  by rewrite Hd, Ha, Ht.
Qed.
Lemma failed_rounds_diverge action i w w' : rtc (failed_round action i) w w' →
  (∀ fuel, UntilItSucceeds fuel action i w' = None) → ∀ fuel, UntilItSucceeds fuel action i w = None.
Proof.
  intros Hr Hnone. induction Hr as [|w w1 w' Hr _ IH]; [done|]. intros [|fuel]; [done|].
  rewrite (failed_round_fuel _ _ _ _ _ Hr). by apply IH.
Qed.
End until.
