(* ===== verification/Secrets.v ===== *)
(** * Vault's initialisation (secrets)

    secrets.go and config.go (the two interfaces and the settings),
    internal/secrets.go ([Configure]), vault/service.go and kubernetes/storage.go (the
    implementations) and cmd/config/main.go (the addresses and the order of the calls).

    HashiCorp's client library, with the Vault behind it, and the Kubernetes client are
    the parameter [SecretsLib]: a call has an answer and may change the state of the
    server.  Loops that wait have fuel (Retry.v).  Log lines are left out. *)

From S2P Require Import Prelude GoStd Monad Http Logic Retry.
From Stdlib Require Import Ascii.

(** ** What is outside *)

(** The parts of the library's structures that the code uses. *)
Record InitRequest := mkInitRequest {
  ir_RecoveryShares : Z; ir_RecoveryThreshold : Z; ir_SecretShares : Z; ir_SecretThreshold : Z }.
Record InitResponse := mkInitResponse { ir_Keys : list string; ir_RootToken : string }.
Record MountInput := mkMountInput { mi_Type : string; mi_DefaultLeaseTTL : string; mi_MaxLeaseTTL : string }.

(** The client: the address it talks to and its token. *)
Record VClient := mkVClient { vc_addr : string; vc_token : string }.
Record Vault := mkVault {
  vt_init : option (InitRequest * InitResponse);
  vt_unsealed : list string;
  vt_revoked : list string;
  vt_auths : gmap string MountInput;
  vt_mounts : gmap string MountInput;
  vt_policies : gmap string string;
  vt_data : gmap string (list (string * JSON)) }.
(** namespace and name to the data of a secret *)
Definition KubeSecrets : Type := gmap (string * string) (gmap string string).

Record SWorld := mkSWorld { sw_tick : nat; sw_client : VClient; sw_vault : Vault; sw_kube : KubeSecrets }.
Notation SM := (RM SWorld).

Class SecretsLib := {
  vault_NewClient : string → option error;
  vault_SetAddress : string → option error;
  vault_InitStatus : nat → VClient → Vault → error + bool;
  vault_Init : nat → VClient → InitRequest → Vault → (error + InitResponse) * Vault;
  (** the [Sealed] of the status it returns *)
  vault_Unseal : nat → VClient → string → Vault → (error + bool) * Vault;
  vault_RevokeSelf : nat → VClient → Vault → option error * Vault;
  vault_EnableAuth : nat → VClient → string → MountInput → Vault → option error * Vault;
  vault_Mount : nat → VClient → string → MountInput → Vault → option error * Vault;
  vault_PutPolicy : nat → VClient → string → string → Vault → option error * Vault;
  vault_Write : nat → VClient → string → list (string * JSON) → Vault → option error * Vault;
  kube_Create : nat → string * string → gmap string string → KubeSecrets → option error * KubeSecrets;
  kube_Get : nat → string * string → KubeSecrets → error + gmap string string;
  kube_Delete : nat → string * string → KubeSecrets → option error * KubeSecrets;
  (** what others did to the secrets before a call *)
  kube_env : nat → KubeSecrets → KubeSecrets;
  (** [Spec.Replicas] of a stateful set; the names and IPs of the pods *)
  kube_Replicas : nat → string → string → error + option Z;
  kube_Pods : nat → string → error + list (string * string);
  http_NewRequest : string → option error;
  http_Get : nat → string → option error;
  (** the context of the process, when a [select] looks at it *)
  ctx_Err : nat → option error;
  (** encoding/json *)
  json_Encode : InitResponse → error + string;
  json_Parse : string → error + JSON;
  json_type_error : error }.

(** ** config.go *)

Record SecretsConfig := mkSecretsConfig {
  sc_AutoInit : bool;
  sc_AutoUnseal : bool;
  sc_AuthOrchSvcsRoleMaxTTL : string;
  sc_AuthOIDCIdPAddr : string;
  sc_AuthOIDCIdPDiscoveryURL : string;
  sc_AuthOIDCRoleMaxTTL : string }.

(** ** secrets.go *)

Class ProviderService := {
  ps_Initialized : SM bool;
  ps_Initialize : SM string;
  ps_SetToken : string → SM ();
  ps_RevokeToken : SM ();
  ps_CreateOrchSvcSecretsStore : SM ();
  ps_CreateOIDCAuth : SM () }.
Class StorageService := {
  st_Get : string → string → SM (gmap string string);
  st_Put : string → string → gmap string string → SM ();
  st_Delete : string → string → SM () }.

Section calls.
Context `{SecretsLib}.

(** One call: the counter moves; the Vault, the secrets and the client may change. *)
Definition vault_call {A} (f : nat → VClient → Vault → (error + A) * Vault) : SM A := λ w,
  let '(r, v) := f (sw_tick w) (sw_client w) (sw_vault w) in
  Some (r, mkSWorld (S (sw_tick w)) (sw_client w) v (sw_kube w)).
Definition kube_call {A} (f : nat → KubeSecrets → (error + A) * KubeSecrets) : SM A := λ w,
  let '(r, k) := f (sw_tick w) (kube_env (sw_tick w) (sw_kube w)) in
  Some (r, mkSWorld (S (sw_tick w)) (sw_client w) (sw_vault w) k).
(** A call that only reads. *)
Definition ask {A} (f : nat → error + A) : SM A := λ w,
  Some (f (sw_tick w), mkSWorld (S (sw_tick w)) (sw_client w) (sw_vault w) (sw_kube w)).
Definition set_client (c : VClient) : SM () := λ w,
  Some (inr (), mkSWorld (sw_tick w) c (sw_vault w) (sw_kube w)).
Definition get_client : SM VClient := λ w, Some (inr (sw_client w), w).
(** A Go function that returns only an error. *)
Definition err_result (e : option error) : error + () := match e with Some e => inl e | None => inr () end.
Definition unit_call {S} (r : option error * S) : (error + ()) * S := (err_result r.1, r.2).

Definition ctx_select : EM SWorld () := λ w,
  (err_result (ctx_Err (sw_tick w)), mkSWorld (S (sw_tick w)) (sw_client w) (sw_vault w) (sw_kube w)).
#[export] Instance SWorld_select : Select SWorld := {| select_Done := ctx_select; select_After := λ _, ctx_select |}.
End calls.

Definition Second : Z := 1000000000%Z.

(** ** vault/service.go *)

Record VaultService := mkVaultService { vs_addrs : list string; vs_config : SecretsConfig }.

Definition nl : string := String "010" "".
Definition tab : string := String "009" "".
Definition capabilities : string :=
  "capabilities = [" +:+ Join (quote <$> ["create"; "read"; "update"; "patch"; "delete"; "list"]) ", " +:+ "]".
Definition orchSvcPolicy : string :=
  nl +:+ "path " +:+ quote "secret/*" +:+ " {" +:+ nl +:+ tab +:+ capabilities +:+ nl +:+ "}" +:+ nl.
Definition secretsRootPolicy : string := "path " +:+ quote "*" +:+ " { " +:+ capabilities +:+ "}".

Definition nil_panic : error := errText "runtime error: invalid memory address or nil pointer dereference".

Section vault.
Context `{SecretsLib}.

Definition NewSecretsProviderService (addrs : list string) (config : SecretsConfig) : SM VaultService :=
  match addrs with
  | [] => rfail (errText "vault addresss cannot be empty")
  | addr :: _ =>
      match vault_NewClient addr with
      | Some err => rfail (Errorf "initialize Vault client: " err)
      | None => _ ← set_client (mkVClient addr ""); mret (mkVaultService addrs config)
      end
  end.

Context (fuel : nat) (svc : VaultService).

Definition SetToken (t : string) : SM () :=
  c ← get_client; set_client (mkVClient (vc_addr c) t).
Definition RevokeToken : SM () := vault_call (λ t c v, unit_call (vault_RevokeSelf t c v)).
Definition Initialized : SM bool := vault_call (λ t c v, (vault_InitStatus t c v, v)).

Definition SetAddress (addr : string) : SM () :=
  match vault_SetAddress addr with
  | Some err => rfail err
  | None => c ← get_client; set_client (mkVClient addr (vc_token c))
  end.

(** The keys of one instance; [status] is what the last answer said. *)
Definition unseal_once (key : string) : SM bool :=
  rmap_error (Errorf "unseal: ") (vault_call (λ t c v, vault_Unseal t c key v)).
Fixpoint unseal_keys (keys : list string) (status : option bool) : SM (option bool) :=
  match keys with
  | [] => mret status
  | key :: keys =>
      sealed ← rmap_error (Errorf "retry: ") (UntilItSucceeds fuel (unseal_once key) (5 * Second)%Z);
      unseal_keys keys (Some sealed)
  end.
(** [status.Sealed] is read, and the next instance follows whatever it is. *)
Fixpoint unseal_addrs (keys : list string) (addrs : list string) : SM () :=
  match addrs with
  | [] => mret ()
  | addr :: addrs =>
      _ ← rmap_error (Errorf ("set address " +:+ addr +:+ ": ")) (SetAddress addr);
      status ← unseal_keys keys None;
      match status with
      | None => rfail nil_panic
      | Some sealed => if negb sealed then unseal_addrs keys addrs else unseal_addrs keys addrs
      end
  end.
Definition unsealVault (initResp : InitResponse) : SM () := unseal_addrs (ir_Keys initResp) (vs_addrs svc).

Definition initRequest : InitRequest :=
  if sc_AutoUnseal (vs_config svc)
  then {| ir_RecoveryShares := 1; ir_RecoveryThreshold := 1; ir_SecretShares := 0; ir_SecretThreshold := 0 |}
  else {| ir_RecoveryShares := 0; ir_RecoveryThreshold := 0; ir_SecretShares := 1; ir_SecretThreshold := 1 |}.

Definition Initialize : SM string :=
  initResp ← rmap_error (Errorf "initialize vault: ") (vault_call (λ t c v, vault_Init t c initRequest v));
  _ ← (if negb (sc_AutoUnseal (vs_config svc))
       then rmap_error (Errorf "unseal vault: ") (unsealVault initResp)
       else mret ());
  _ ← match vs_addrs svc with
      | [] => rfail (errText "runtime error: index out of range")
      | addr :: _ => rmap_error (Errorf "reset address: ") (SetAddress addr)
      end;
  match json_Encode initResp with
  | inl err => rfail (Errorf "encode keys: " err)
  | inr text => mret text
  end.

(** [err != nil && !strings.Contains(err.Error(), "already in use")] *)
Definition unless_in_use (pre : string) (m : SM ()) : SM () :=
  r ← rtry m;
  match r with
  | inl err => if negb (Contains (Error err) "already in use") then rfail (Errorf pre err) else mret ()
  | inr _ => mret ()
  end.
Definition EnableAuthWithOptions (path : string) (options : MountInput) : SM () :=
  vault_call (λ t c v, unit_call (vault_EnableAuth t c path options v)).
Definition Mount (path : string) (mountInfo : MountInput) : SM () :=
  vault_call (λ t c v, unit_call (vault_Mount t c path mountInfo v)).
Definition PutPolicy (name rules : string) : SM () := vault_call (λ t c v, unit_call (vault_PutPolicy t c name rules v)).
Definition Logical_Write (path : string) (data : list (string * JSON)) : SM () :=
  vault_call (λ t c v, unit_call (vault_Write t c path data v)).

Definition kubernetes_mount : MountInput := mkMountInput "kubernetes" "1h" "1h".
Definition kubernetes_config : list (string * JSON) := [("kubernetes_host", JStr "https://kubernetes.default.svc")].
Definition rate_limit (path interval : string) : list (string * JSON) :=
  [("path", JStr path); ("interval", JStr interval); ("rate", JNum 100)].

Definition enableKubernetesAuth : SM () :=
  _ ← unless_in_use "enable Kubernetes auth: " (EnableAuthWithOptions "kubernetes" kubernetes_mount);
  _ ← rmap_error (Errorf "configure Kubernetes host: ") (Logical_Write "auth/kubernetes/config" kubernetes_config);
  _ ← rmap_error (Errorf "create rate limt: ")
        (Logical_Write "sys/quotas/rate-limit/kubernetes" (rate_limit "auth/kubernetes/*" "1s"));
  mret ().

Definition kv_mount : MountInput := mkMountInput "kv-v2" "" "".
Definition strings (l : list string) : JSON := JArr (JStr <$> l).
Definition orchSvc_role (config : SecretsConfig) : list (string * JSON) :=
  [("bound_service_account_names", strings ["orch-svc"; "alerting-monitor"]);
   ("bound_service_account_namespaces", strings ["harbor-oci"; "orch-app"; "orch-cluster"; "orch-infra"; "orch-platform"]);
   ("policies", JStr "orch-svc");
   ("token_ttl", JStr (sc_AuthOrchSvcsRoleMaxTTL config));
   ("token_max_ttl", JStr (sc_AuthOrchSvcsRoleMaxTTL config));
   ("token_explicit_max_ttl", JStr (sc_AuthOrchSvcsRoleMaxTTL config))].

Definition CreateOrchSvcSecretsStore : SM () :=
  _ ← rmap_error (Errorf "enable kubernetes auth: ") enableKubernetesAuth;
  _ ← unless_in_use "enable secret engine: " (Mount "secret" kv_mount);
  _ ← rmap_error (Errorf "create orch-svc policy: ") (PutPolicy "orch-svc" orchSvcPolicy);
  _ ← rmap_error (Errorf "create orch-svc auth role: ")
        (Logical_Write "auth/kubernetes/role/orch-svc" (orchSvc_role (vs_config svc)));
  mret ().

Definition jwt_mount (config : SecretsConfig) : MountInput :=
  mkMountInput "jwt" (sc_AuthOIDCRoleMaxTTL config) (sc_AuthOIDCRoleMaxTTL config).
Definition secretsRoot_role (config : SecretsConfig) : list (string * JSON) :=
  [("allowed_redirect_uris", JStr (sc_AuthOIDCIdPDiscoveryURL config));
   ("token_policies", JStr "secretsRootPolicy");
   ("role_type", JStr "jwt");
   ("user_claim", JStr "sub");
   ("bound_claims", JObj [("/realm_access/roles", strings ["secrets-root-role"])]);
   ("token_ttl", JStr (sc_AuthOIDCRoleMaxTTL config));
   ("token_max_ttl", JStr (sc_AuthOIDCRoleMaxTTL config));
   ("token_explicit_max_ttl", JStr (sc_AuthOIDCRoleMaxTTL config))].
Definition jwt_config (config : SecretsConfig) : list (string * JSON) :=
  [("oidc_discovery_url", JStr (sc_AuthOIDCIdPDiscoveryURL config));
   ("oidc_client_id", JStr ""); ("oidc_client_secret", JStr "");
   ("default_role", JStr "secretsRoot")].

Definition CreateOIDCAuth : SM () :=
  _ ← unless_in_use "enable JWT auth: " (EnableAuthWithOptions "jwt" (jwt_mount (vs_config svc)));
  _ ← rmap_error (Errorf "writing secretsRoot policy: ") (PutPolicy "secretsRootPolicy" secretsRootPolicy);
  _ ← rmap_error (Errorf "writing secretsRoot role: ")
        (Logical_Write "auth/jwt/role/secretsRoot" (secretsRoot_role (vs_config svc)));
  _ ← rmap_error (Errorf "write JWT config: ") (Logical_Write "auth/jwt/config" (jwt_config (vs_config svc)));
  _ ← rmap_error (Errorf "create rate limt: ") (Logical_Write "sys/quotas/rate-limit/jwt" (rate_limit "auth/jwt/*" "60s"));
  mret ().

#[export] Instance Vault_provider : ProviderService | 10 := {|
  ps_Initialized := Initialized;
  ps_Initialize := Initialize;
  ps_SetToken := SetToken;
  ps_RevokeToken := RevokeToken;
  ps_CreateOrchSvcSecretsStore := CreateOrchSvcSecretsStore;
  ps_CreateOIDCAuth := CreateOIDCAuth |}.
End vault.

(** ** kubernetes/storage.go *)

Section storage.
Context `{SecretsLib}.

Definition Storage_Put (namespace name : string) (values : gmap string string) : SM () :=
  rmap_error (Errorf "create secret: ")
    (kube_call (λ t k, unit_call (kube_Create t (namespace, name) values k))).
(** The loop copies the map. *)
Definition Storage_Get (namespace name : string) : SM (gmap string string) :=
  rmap_error (Errorf ("get secret " +:+ name +:+ ": "))
    (kube_call (λ t k, (kube_Get t (namespace, name) k, k))).
Definition Storage_Delete (namespace name : string) : SM () :=
  rmap_error (Errorf ("delete secret " +:+ name +:+ ": "))
    (kube_call (λ t k, unit_call (kube_Delete t (namespace, name) k))).

#[export] Instance Kube_storage : StorageService | 10 := {|
  st_Get := Storage_Get; st_Put := Storage_Put; st_Delete := Storage_Delete |}.
End storage.

(** ** internal/secrets.go *)

Definition VaultKeysKubernetesSecretName : string := "vault-keys".

Section configure.
Context `{SecretsLib} `{ProviderService} `{StorageService} (fuel : nat).

(** [json.Unmarshal] into a struct with the field [root_token]. *)
Definition unmarshal_keys (vaultKeys : string) : error + string :=
  match json_Parse vaultKeys with
  | inl err => inl err
  | inr (JObj fields) => match decode_string "root_token" fields with Some s => inr s | None => inl json_type_error end
  | inr JNull => inr ""
  | inr _ => inl json_type_error
  end.

Definition authenticateVaultUsingTokenInStorage : SM () :=
  values ← rmap_error (Errorf "get Vault keys: ") (st_Get "orch-platform" VaultKeysKubernetesSecretName);
  match values !! VaultKeysKubernetesSecretName with
  | None => rfail (errText "keys not found")
  | Some vaultKeys =>
      match unmarshal_keys vaultKeys with
      | inl err => rfail (Errorf "unmarshal keys: " err)
      | inr rootToken =>
          if String.eqb rootToken "" then rfail (errText "root_token must not be empty") else ps_SetToken rootToken
      end
  end.

(** The action that stores the keys. *)
Definition store_keys (vaultKeys : string) : SM () :=
  rmap_error (Errorf "store Vault keys: ")
    (st_Put "orch-platform" VaultKeysKubernetesSecretName {[VaultKeysKubernetesSecretName := vaultKeys]}).

Definition initializeAndPersistKeys : SM () :=
  vaultKeys ← rmap_error (Errorf "initialize Vault: ") ps_Initialize;
  rmap_error (Errorf "retry: ") (UntilItSucceeds fuel (store_keys vaultKeys) (2 * Second)%Z).

(** The action that waits for the identity provider: any answer will do, and so will a
    request that cannot be built. *)
Definition ping_IdP (config : SecretsConfig) : SM () :=
  match http_NewRequest (sc_AuthOIDCIdPDiscoveryURL config) with
  | Some _ => mret ()
  | None => rmap_error (Errorf "get Keycloak config: ")
              (ask (λ t, err_result (http_Get t (sc_AuthOIDCIdPDiscoveryURL config))))
  end.

Definition ConfigureAuth (config : SecretsConfig) : SM () :=
  _ ← rmap_error (Errorf "create orch-svc secrets store: ") ps_CreateOrchSvcSecretsStore;
  _ ← rmap_error (Errorf "wait for Keycloak: ") (UntilItSucceeds fuel (ping_IdP config) (10 * Second)%Z);
  rmap_error (Errorf "configure OIDC auth: ") ps_CreateOIDCAuth.

Definition Configure (config : SecretsConfig) : SM () :=
  initialized ← rmap_error (Errorf "retry: ") (UntilItSucceeds fuel
    (rmap_error (Errorf "get Vault initialized status: ") ps_Initialized) (5 * Second)%Z);
  _ ← (if negb initialized && sc_AutoInit config
       then rmap_error (Errorf "initialize and authenticate client: ") initializeAndPersistKeys
       else mret ());
  _ ← rmap_error (Errorf ("retry wait for " +:+ VaultKeysKubernetesSecretName +:+ " secret: "))
        (UntilItSucceeds fuel
           (rmap_error (Errorf ("authenticate with Vault token in secret " +:+ VaultKeysKubernetesSecretName +:+ ": "))
              authenticateVaultUsingTokenInStorage) (10 * Second)%Z);
  _ ← rmap_error (Errorf "configure auth methods: ") (ConfigureAuth config);
  if negb (sc_AutoInit config) then
    _ ← rmap_error (Errorf "revoke token: ") ps_RevokeToken;
    rmap_error (Errorf ("delete secret " +:+ VaultKeysKubernetesSecretName +:+ ": "))
      (st_Delete "orch-platform" VaultKeysKubernetesSecretName)
  else mret ().
End configure.

(** ** cmd/config/main.go *)

(** The connection to the proxy of the pod, and its answer to the request to stop. *)
Class IstioProxy := { istio_Dial : option error; istio_Quit : option error }.

Section main.
Context `{SecretsLib} (fuel : nat).

(** The addresses of the instances that have an IP, as many as there should be. *)
Definition pod_addr (pod : string * string) : list string :=
  if HasPrefix pod.1 "vault-" && negb (HasPrefix pod.1 "vault-agent") then
    if String.eqb pod.2 "" then [] else ["http://" +:+ pod.2 +:+ ":8200"]
  else [].
Definition print_int (n : Z) : string := (if (n <? 0)%Z then "-" else "") +:+ itoa (Z.abs_nat n).
Definition find_addrs : SM (list string) :=
  replicas ← rmap_error (Errorf "get stateful set: ") (ask (λ t, kube_Replicas t "orch-platform" "vault"));
  match replicas with
  | None => rfail (errText "stateful set replicas is nil")
  | Some n =>
      pods ← rmap_error (Errorf "list pods: ") (ask (λ t, kube_Pods t "orch-platform"));
      let addrs := pods ≫= pod_addr in
      if negb (Z.of_nat (length addrs) =? n)%Z
      then rfail (errText ("running pods (" +:+ itoa (length addrs) +:+ ") != desired (" +:+ print_int n +:+ ")"))
      else mret addrs
  end.
Definition vaultPodAddrs : SM (list string) :=
  rmap_error (Errorf "retry: ") (UntilItSucceeds fuel find_addrs (5 * Second)%Z).

(** The response of a request that failed is nil, and its body is closed all the same. *)
Definition shutdownIstioProxy `{IstioProxy} : SM () :=
  match istio_Dial with
  | Some _ => mret ()
  | None => match istio_Quit with Some _ => rfail nil_panic | None => mret () end
  end.

(** The body of [main] once the Kubernetes client is there. *)
Definition secrets_main `{IstioProxy} (config : SecretsConfig) : SM () :=
  vaultAddrs ← vaultPodAddrs;
  vaultSvc ← NewSecretsProviderService vaultAddrs config;
  _ ← Configure (H0:=Vault_provider fuel vaultSvc) fuel config;
  shutdownIstioProxy.
End main.

(** A panic, which nothing wraps: the messages around it here are those of the calls it leaves. *)
Fixpoint panicked (err : error) : bool :=
  match err with
  | errWrap _ inner _ => panicked inner
  | err => bool_decide (err = nil_panic)
  end.
(** [defer func() { os.Exit(code) }()]: [code] is 1 after every error; a panic leaves it 0, and
    the deferred function exits before the panic is reported. *)
Definition exit_code (r : error + ()) : Z :=
  match r with
  | inr () => 0
  | inl err => if panicked err then 0 else 1
  end.
