(* ===== verification/SecretsSpec.v ===== *)
(** * Vault's initialisation: correctness

    The documented behaviour of Vault and Kubernetes ([VaultLaws], [KubeLaws]), and what
    [Initialize], [ConfigureAuth] and [Configure] do: the keys are never lost, the
    authentication is what the settings say, the root token does not outlive a manual
    initialisation; the loops end when the servers recover, and one of them never ends
    when a secret of the name is already there, for instance because the answer of the
    call that created it was lost. *)

From S2P Require Import Prelude GoStd Monad Http Logic Retry Secrets.

(** ** What is outside *)

Definition initialised (rq : InitRequest) (resp : InitResponse) (v : Vault) : Vault :=
  mkVault (Some (rq, resp)) (vt_unsealed v) (vt_revoked v) (vt_auths v) (vt_mounts v) (vt_policies v) (vt_data v).
Definition unsealed (addr : string) (v : Vault) : Vault :=
  mkVault (vt_init v) (addr :: vt_unsealed v) (vt_revoked v) (vt_auths v) (vt_mounts v) (vt_policies v) (vt_data v).
Definition revoked (token : string) (v : Vault) : Vault :=
  mkVault (vt_init v) (vt_unsealed v) (token :: vt_revoked v) (vt_auths v) (vt_mounts v) (vt_policies v) (vt_data v).
Definition with_auth (path : string) (i : MountInput) (v : Vault) : Vault :=
  mkVault (vt_init v) (vt_unsealed v) (vt_revoked v) (<[path := i]> (vt_auths v)) (vt_mounts v) (vt_policies v) (vt_data v).
Definition with_mount (path : string) (i : MountInput) (v : Vault) : Vault :=
  mkVault (vt_init v) (vt_unsealed v) (vt_revoked v) (vt_auths v) (<[path := i]> (vt_mounts v)) (vt_policies v) (vt_data v).
Definition with_policy (name rules : string) (v : Vault) : Vault :=
  mkVault (vt_init v) (vt_unsealed v) (vt_revoked v) (vt_auths v) (vt_mounts v) (<[name := rules]> (vt_policies v)) (vt_data v).
Definition with_data (path : string) (data : list (string * JSON)) (v : Vault) : Vault :=
  mkVault (vt_init v) (vt_unsealed v) (vt_revoked v) (vt_auths v) (vt_mounts v) (vt_policies v) (<[path := data]> (vt_data v)).

(** A change that an accepted call has made, and a failed one may have made. *)
Definition does {E S} (r : option E) (s s' target : S) : Prop :=
  (s' = s ∨ s' = target) ∧ (r = None → s' = target).
Definition in_use (e : error) : Prop := Contains (Error e) "already in use" = true.

Class VaultLaws `{SecretsLib} : Prop := {
  status_law t c v b : vault_InitStatus t c v = inr b → b = bool_decide (is_Some (vt_init v));
  init_law t c rq v r v' : vault_Init t c rq v = (r, v') →
    (v' = v ∨ (vt_init v = None ∧ ∃ resp, v' = initialised rq resp v)) ∧
    (∀ resp, r = inr resp → vt_init v = None ∧ v' = initialised rq resp v ∧
       Z.of_nat (length (ir_Keys resp)) = ir_SecretShares rq ∧ ir_RootToken resp ≠ "");
  unseal_law t c key v r v' : vault_Unseal t c key v = (r, v') →
    (v' = v ∨ v' = unsealed (vc_addr c) v) ∧
    (∀ sealed rq resp, r = inr sealed → vt_init v = Some (rq, resp) → ir_SecretThreshold rq = 1%Z →
       key ∈ ir_Keys resp → v' = unsealed (vc_addr c) v);
  revoke_law t c v r v' : vault_RevokeSelf t c v = (r, v') → does r v v' (revoked (vc_token c) v);
  enable_law t c path i v r v' : vault_EnableAuth t c path i v = (r, v') → does r v v' (with_auth path i v) ∧
    (∀ e, r = Some e → in_use e → v' = v ∧ is_Some (vt_auths v !! path));
  mount_law t c path i v r v' : vault_Mount t c path i v = (r, v') → does r v v' (with_mount path i v) ∧
    (∀ e, r = Some e → in_use e → v' = v ∧ is_Some (vt_mounts v !! path));
  policy_law t c name rules v r v' : vault_PutPolicy t c name rules v = (r, v') → does r v v' (with_policy name rules v);
  write_law t c path data v r v' : vault_Write t c path data v = (r, v') → does r v v' (with_data path data v) }.

Definition vault_keys : string * string := ("orch-platform", VaultKeysKubernetesSecretName).

(** Others may create secrets, but leave the one with the keys alone once it is there. *)
Class KubeLaws `{SecretsLib} : Prop := {
  kube_create_law t k d ks r ks' : kube_Create t k d ks = (r, ks') →
    (ks' = ks ∨ (ks !! k = None ∧ ks' = <[k := d]> ks)) ∧ (r = None → ks !! k = None ∧ ks' = <[k := d]> ks);
  kube_get_law t k ks d : kube_Get t k ks = inr d → ks !! k = Some d;
  kube_delete_law t k ks r ks' : kube_Delete t k ks = (r, ks') → does r ks ks' (delete k ks);
  kube_env_law t ks d : ks !! vault_keys = Some d → kube_env t ks !! vault_keys = Some d }.

(** The keys are encoded so that the token can be read back. *)
Class EncodeLaw `{SecretsLib} : Prop := encode_law : ∀ resp, ∃ text fields,
  json_Encode resp = inr text ∧ json_Parse text = inr (JObj fields) ∧
  decode_string "root_token" fields = Some (ir_RootToken resp).

(** [main] passes [context.Background()]. *)
Class Background `{SecretsLib} : Prop := background : ∀ t, ctx_Err t = None.

(** From call [N] on every service answers. *)
Record Recovers `{SecretsLib} (N : nat) : Prop := {
  rec_status t c v : (N <= t)%nat → ∃ b, vault_InitStatus t c v = inr b;
  rec_unseal t c key v : (N <= t)%nat → ∃ b, (vault_Unseal t c key v).1 = inr b;
  rec_create t k d ks : (N <= t)%nat → ks !! k = None → (kube_Create t k d ks).1 = None;
  rec_get t k ks d : (N <= t)%nat → ks !! k = Some d → ∃ d', kube_Get t k ks = inr d';
  rec_http t url : (N <= t)%nat → http_Get t url = None }.

(** ** Rules *)

Definition ticked (w : SWorld) : SWorld := mkSWorld (S (sw_tick w)) (sw_client w) (sw_vault w) (sw_kube w).
Definition vaulted (v : Vault) (w : SWorld) : SWorld := mkSWorld (S (sw_tick w)) (sw_client w) v (sw_kube w).
Definition kubed (k : KubeSecrets) (w : SWorld) : SWorld := mkSWorld (S (sw_tick w)) (sw_client w) (sw_vault w) k.
Definition with_client (c : VClient) (w : SWorld) : SWorld := mkSWorld (sw_tick w) c (sw_vault w) (sw_kube w).

Section rules.
Context `{SecretsLib} (D : Prop).

Lemma rwp_run {A} (m : SM A) (Q : error + A → SWorld → Prop) w r w' : m w = Some (r, w') → Q r w' → rwp D m Q w.
Proof. unfold rwp. by intros ->. Qed.
Lemma rwp_vault_call {A} (f : nat → VClient → Vault → (error + A) * Vault) (Q : error + A → SWorld → Prop) w :
  (∀ r v, f (sw_tick w) (sw_client w) (sw_vault w) = (r, v) → Q r (vaulted v w)) → rwp D (vault_call f) Q w.
Proof.
  intros HQ. destruct (f (sw_tick w) (sw_client w) (sw_vault w)) as [r v] eqn:Hf.
  eapply rwp_run; [unfold vault_call; by rewrite Hf|]. by apply HQ.
Qed.
Lemma rwp_vault_do (f : nat → VClient → Vault → option error * Vault) (Q : error + () → SWorld → Prop) w :
  (∀ r v, f (sw_tick w) (sw_client w) (sw_vault w) = (r, v) → Q (err_result r) (vaulted v w)) →
  rwp D (vault_call (λ t c v, unit_call (f t c v))) Q w.
Proof.
  intros HQ. apply rwp_vault_call. intros r v. unfold unit_call. intros [= <- <-].
  apply HQ. by rewrite <- surjective_pairing.
Qed.
Lemma rwp_kube_call {A} (f : nat → KubeSecrets → (error + A) * KubeSecrets) (Q : error + A → SWorld → Prop) w :
  (∀ r k, f (sw_tick w) (kube_env (sw_tick w) (sw_kube w)) = (r, k) → Q r (kubed k w)) → rwp D (kube_call f) Q w.
Proof.
  intros HQ. destruct (f (sw_tick w) (kube_env (sw_tick w) (sw_kube w))) as [r k] eqn:Hf.
  eapply rwp_run; [unfold kube_call; by rewrite Hf|]. by apply HQ.
Qed.
Lemma rwp_ask {A} (f : nat → error + A) (Q : error + A → SWorld → Prop) w :
  Q (f (sw_tick w)) (ticked w) → rwp D (ask f) Q w.
Proof. by apply rwp_run. Qed.
Lemma rwp_SetToken t (Q : error + () → SWorld → Prop) w :
  Q (inr ()) (with_client (mkVClient (vc_addr (sw_client w)) t) w) → rwp D (SetToken t) Q w.
Proof. by apply rwp_run. Qed.
Lemma rwp_SetAddress addr (Q : error + () → SWorld → Prop) w :
  (∀ e, vault_SetAddress addr = Some e → Q (inl e) w) →
  (vault_SetAddress addr = None → Q (inr ()) (with_client (mkVClient addr (vc_token (sw_client w))) w)) →
  rwp D (SetAddress addr) Q w.
Proof.
  intros He HQ. unfold SetAddress. destruct (vault_SetAddress addr); [by apply rwp_fail, He|]. by eapply rwp_run; [|apply HQ].
Qed.

(** A retried action, with a background context.  [base] holds before every attempt; the
    attempts that fail come before call [N]; [N] is less than the fuel. *)
Lemma rwp_retry `{!Background} {A} N (base : VClient → Vault → KubeSecrets → Prop) (action : SM A) i
    (Q : error + A → SWorld → Prop) fuel w :
  ((N < fuel)%nat) →
  (∀ w, base (sw_client w) (sw_vault w) (sw_kube w) → rwp D action (λ r w', match r with
     | inr a => Q (inr a) w'
     | inl _ => base (sw_client w') (sw_vault w') (sw_kube w') ∧ ((sw_tick w < N)%nat) ∧
                (sw_tick w <= sw_tick w')%nat
     end) w) →
  base (sw_client w) (sw_vault w) (sw_kube w) → rwp D (UntilItSucceeds fuel action i) Q w.
Proof.
  intros Hfuel Ha Hw.
  apply (rwp_until D (λ n w, base (sw_client w) (sw_vault w) (sw_kube w) ∧
                        ((N < n + sw_tick w)%nat ∧ (0 < n)%nat))).
  - intros w' [_ Hn]. lia.
  - intros n w1 [Hb Hn]. unfold one_round. eapply wp_run; [unfold select_Done; simpl; unfold ctx_select; by rewrite background|].
    simpl. set (w2 := mkSWorld _ _ _ _). eapply rwp_mono; [by apply (Ha w2)|]. intros [e|a] w3; [|done].
    intros (Hb3 & Hlt & Hle). eapply wp_run; [unfold select_After; simpl; unfold ctx_select; by rewrite background|].
    simpl. split; [done|]. subst w2. simpl in *. lia.
  - split; [done|lia].
Qed.
End rules.

(** ** Initialize *)

Section initialize.
Context `{SecretsLib} `{!VaultLaws} `{!Background} (D : Prop) (N fuel : nat).
Hypothesis Hfuel : (N < fuel)%nat.
Hypothesis Hrec : Recovers N.
Context (svc : VaultService).

(** The state while the instances are unsealed: initialised with one key, which is
    enough; [done] are the addresses already unsealed. *)
Definition unsealing (rq : InitRequest) (resp : InitResponse) (ks : KubeSecrets) (done : list string)
    (c : VClient) (v : Vault) (k : KubeSecrets) : Prop :=
  vt_init v = Some (rq, resp) ∧ k = ks ∧ done ⊆ vt_unsealed v.

Lemma unsealing_call rq resp ks dn c v k v' :
  v' = v ∨ v' = unsealed (vc_addr c) v → unsealing rq resp ks dn c v k → unsealing rq resp ks dn c v' k.
Proof. intros [->| ->] (Hi & -> & Hd); [done|]. split_and!; [done|done|]. simpl. set_solver. Qed.

Lemma rwp_unseal_once rq resp ks dn key (Q : error + bool → SWorld → Prop) w :
  ir_SecretThreshold rq = 1%Z → key ∈ ir_Keys resp →
  unsealing rq resp ks dn (sw_client w) (sw_vault w) (sw_kube w) →
  (∀ b w', sw_client w' = sw_client w →
     unsealing rq resp ks (vc_addr (sw_client w) :: dn) (sw_client w') (sw_vault w') (sw_kube w') → Q (inr b) w') →
  rwp D (UntilItSucceeds fuel (unseal_once key) (5 * Second)%Z) Q w.
Proof.
  intros Hthr Hkey Hw HQ.
  apply (rwp_retry D N (λ c v k, c = sw_client w ∧ unsealing rq resp ks dn c v k)); [done| |done].
  intros w1 [Hc Hu]. unfold unseal_once. rwp_step. apply rwp_vault_call. intros r v Hv.
  destruct (unseal_law _ _ _ _ _ _ Hv) as [Hor Hok]. destruct r as [e|b].
  - split; [split; [done|by eapply unsealing_call]|]. split; [|simpl; lia].
    destruct (decide (N <= sw_tick w1)%nat) as [Hle|]; [|lia].
    destruct (rec_unseal _ Hrec _ (sw_client w1) key (sw_vault w1) Hle) as [b Hb]. by rewrite Hv in Hb.
  - destruct Hu as (Hi & Hk & Hdn). apply HQ; [done|]. rewrite <- Hc.
    rewrite (Hok b rq resp eq_refl Hi Hthr Hkey). split_and!; [done|done|]. simpl. set_solver.
Qed.

Lemma rwp_unseal_addrs rq resp ks dn key addrs (Q : error + () → SWorld → Prop) w :
  ir_SecretThreshold rq = 1%Z → key ∈ ir_Keys resp →
  unsealing rq resp ks dn (sw_client w) (sw_vault w) (sw_kube w) →
  (∀ addr, addr ∈ addrs → vault_SetAddress addr = None) →
  (∀ w', unsealing rq resp ks (addrs ++ dn) (sw_client w') (sw_vault w') (sw_kube w') → Q (inr ()) w') →
  rwp D (unseal_addrs fuel [key] addrs) Q w.
Proof.
  intros Hthr Hkey. revert w dn. induction addrs as [|addr addrs IH]; intros w dn Hw Haddr HQ; simpl unseal_addrs.
  { rwp_step. by apply HQ. }
  rwp_step. rwp_step. apply rwp_SetAddress; [intros e He; by rewrite Haddr in He by left|]. intros _.
  rwp_step. cbn [unseal_keys]. rwp_step. rwp_step. apply (rwp_unseal_once rq resp ks dn); [done|done|done|].
  intros b w1 Hc Hu. simpl in Hc. rewrite Hc in Hu. rwp_step.
  assert (rwp D (unseal_addrs fuel [key] addrs) Q w1) as Hrest; [|by destruct (negb b)].
  apply (IH w1 (addr :: dn)); [by rewrite Hc|by intros a Ha; apply Haddr; right|].
  intros w2 (Hi & Hk & Hsub). apply HQ. split_and!; [done|done|]. set_solver.
Qed.

(** The error of [Init], which may have been lost on the way back. *)
Definition init_failed (w w' : SWorld) : Prop := sw_kube w' = sw_kube w ∧
  ∃ t c rq e v, vault_Init t c rq (sw_vault w) = (inl e, v) ∧ sw_vault w' = v.
(** Vault has just been initialised by [svc], its instances are unsealed. *)
Definition fresh_vault (resp : InitResponse) (w w' : SWorld) : Prop :=
  sw_kube w' = sw_kube w ∧ vt_init (sw_vault w) = None ∧ vt_init (sw_vault w') = Some (initRequest svc, resp) ∧
  ir_RootToken resp ≠ "" ∧
  (sc_AutoUnseal (vs_config svc) = false → ∀ addr, addr ∈ vs_addrs svc → addr ∈ vt_unsealed (sw_vault w')).

Definition good_addrs : Prop := vs_addrs svc ≠ [] ∧ ∀ addr, addr ∈ vs_addrs svc → vault_SetAddress addr = None.

Lemma rwp_Initialize `{!EncodeLaw} (Q : error + string → SWorld → Prop) w : good_addrs →
  (∀ e w', init_failed w w' → Q (inl e) w') →
  (∀ resp text w', fresh_vault resp w w' → json_Encode resp = inr text → Q (inr text) w') →
  rwp D (Initialize fuel svc) Q w.
Proof.
  intros [Hne Haddr] He HQ. unfold Initialize. rwp_step. rwp_step. apply rwp_vault_call. intros r v Hv.
  destruct (init_law _ _ _ _ _ _ Hv) as [_ Hok]. destruct r as [e|resp].
  { apply He. split; [done|]. by eexists _, _, _, _, _. }
  destruct (Hok resp eq_refl) as (Hnone & -> & Hlen & Htok). set (w1 := vaulted _ w). rwp_step.
  (* the rest, once the instances are unsealed *)
  assert (∀ w2, sw_kube w2 = sw_kube w → vt_init (sw_vault w2) = Some (initRequest svc, resp) →
    (sc_AutoUnseal (vs_config svc) = false → vs_addrs svc ⊆ vt_unsealed (sw_vault w2)) →
    rwp D (_ ← match vs_addrs svc with
               | [] => rfail (errText "runtime error: index out of range")
               | addr :: _ => rmap_error (Errorf "reset address: ") (SetAddress addr)
               end;
           match json_Encode resp with inl err => rfail (Errorf "encode keys: " err) | inr text => mret text end) Q w2)
    as Hend.
  { intros w2 Hk Hi Hu. rwp_step. destruct (vs_addrs svc) as [|addr addrs] eqn:Ha; [done|]. rwp_step.
    apply rwp_SetAddress; [intros e He'; by rewrite Haddr in He' by left|]. intros _.
    destruct (encode_law resp) as (text & fields & Henc & _). rewrite Henc. rwp_step. apply (HQ resp text); [|done].
    split_and!; [done|done|done|done|]. rewrite Ha. set_solver. }
  destruct (sc_AutoUnseal (vs_config svc)) eqn:Hauto; cbn [negb].
  { rwp_step. by apply Hend. }
  rwp_step. unfold unsealVault. assert (ir_SecretThreshold (initRequest svc) = 1%Z) as Hthr by (unfold initRequest; by rewrite Hauto).
  assert (∃ key, ir_Keys resp = [key]) as [key Hkeys].
  { unfold initRequest in Hlen. rewrite Hauto in Hlen. simpl in Hlen. destruct (ir_Keys resp) as [|key [|]]; [done|eauto|simpl in Hlen; lia]. }
  rewrite Hkeys. apply (rwp_unseal_addrs (initRequest svc) resp (sw_kube w) []); [done|rewrite Hkeys; by left| |done|].
  - split_and!; [done|done|]. set_solver.
  - intros w2 (Hi & Hk & Hu). apply Hend; [done|done|]. intros _. by rewrite app_nil_r in Hu.
Qed.
End initialize.

(** ** ConfigureAuth *)

(** What the settings ask for: the secrets store of the services, and the JWT login. *)
Record store_ready (config : SecretsConfig) (v : Vault) : Prop := {
  sr_auth : is_Some (vt_auths v !! "kubernetes");
  sr_mount : is_Some (vt_mounts v !! "secret");
  sr_policy : vt_policies v !! "orch-svc" = Some orchSvcPolicy;
  sr_config : vt_data v !! "auth/kubernetes/config" = Some kubernetes_config;
  sr_limit : vt_data v !! "sys/quotas/rate-limit/kubernetes" = Some (rate_limit "auth/kubernetes/*" "1s");
  sr_role : vt_data v !! "auth/kubernetes/role/orch-svc" = Some (orchSvc_role config) }.
Record oidc_ready (config : SecretsConfig) (v : Vault) : Prop := {
  or_auth : is_Some (vt_auths v !! "jwt");
  or_policy : vt_policies v !! "secretsRootPolicy" = Some secretsRootPolicy;
  or_role : vt_data v !! "auth/jwt/role/secretsRoot" = Some (secretsRoot_role config);
  or_config : vt_data v !! "auth/jwt/config" = Some (jwt_config config);
  or_limit : vt_data v !! "sys/quotas/rate-limit/jwt" = Some (rate_limit "auth/jwt/*" "60s") }.
Definition configured (config : SecretsConfig) (v : Vault) : Prop := store_ready config v ∧ oidc_ready config v.

(** The seal, the keys and the tokens are untouched. *)
Definition auth_only (v v' : Vault) : Prop :=
  vt_init v' = vt_init v ∧ vt_unsealed v' = vt_unsealed v ∧ vt_revoked v' = vt_revoked v.
#[export] Instance auth_only_preorder : PreOrder auth_only.
Proof. split; [intros v; by split_and!|]. intros ??? (?&?&?) (?&?&?). split_and!; congruence. Qed.
(** Only Vault was called. *)
Definition vault_only (P : Vault → Vault → Prop) (w w' : SWorld) : Prop :=
  sw_client w' = sw_client w ∧ sw_kube w' = sw_kube w ∧ P (sw_vault w) (sw_vault w').

Section auth.
Context `{SecretsLib} `{!VaultLaws} (D : Prop).

Lemma does_auth_only {E} (r : option E) v v' target : does r v v' target → auth_only v target → auth_only v v'.
Proof. by intros [[->| ->] _] ?. Qed.
Lemma does_result (r : option error) v v' target (Q : error + () → SWorld → Prop) w :
  does r v v' target → auth_only v target →
  (∀ e, auth_only v v' → Q (inl e) (vaulted v' w)) → Q (inr ()) (vaulted target w) → Q (err_result r) (vaulted v' w).
Proof.
  intros Hd Ha He HQ. destruct r as [e|]; simpl.
  - apply He. by eapply does_auth_only.
  - destruct Hd as [_ Hd]. by rewrite Hd.
Qed.

Lemma rwp_Write path data (Q : error + () → SWorld → Prop) w :
  (∀ e v', auth_only (sw_vault w) v' → Q (inl e) (vaulted v' w)) →
  Q (inr ()) (vaulted (with_data path data (sw_vault w)) w) → rwp D (Logical_Write path data) Q w.
Proof.
  intros He HQ. apply rwp_vault_do. intros r v Hv. eapply does_result; [by eapply write_law|done|by intros; apply He|done].
Qed.
Lemma rwp_PutPolicy name rules (Q : error + () → SWorld → Prop) w :
  (∀ e v', auth_only (sw_vault w) v' → Q (inl e) (vaulted v' w)) →
  Q (inr ()) (vaulted (with_policy name rules (sw_vault w)) w) → rwp D (PutPolicy name rules) Q w.
Proof.
  intros He HQ. apply rwp_vault_do. intros r v Hv. eapply does_result; [by eapply policy_law|done|by intros; apply He|done].
Qed.
(** Mounting twice is no error. *)
Lemma rwp_unless_in_use pre (f : nat → VClient → Vault → option error * Vault) (table : Vault → gmap string MountInput)
    path target (Q : error + () → SWorld → Prop) w :
  (∀ r v', f (sw_tick w) (sw_client w) (sw_vault w) = (r, v') → does r (sw_vault w) v' target ∧
    (∀ e, r = Some e → in_use e → v' = sw_vault w ∧ is_Some (table (sw_vault w) !! path))) →
  auth_only (sw_vault w) target →
  (∀ e v', auth_only (sw_vault w) v' → Q (inl e) (vaulted v' w)) →
  (is_Some (table (sw_vault w) !! path) → Q (inr ()) (vaulted (sw_vault w) w)) →
  Q (inr ()) (vaulted target w) →
  rwp D (unless_in_use pre (vault_call (λ t c v, unit_call (f t c v)))) Q w.
Proof.
  intros Hf Ha He Hin HQ. unfold unless_in_use. rwp_step. rwp_step. apply rwp_vault_do. intros r v Hv.
  destruct (Hf r v Hv) as [Hd Huse]. destruct r as [e|]; simpl.
  - destruct (Contains (Error e) "already in use") eqn:Hc; simpl; rwp_step.
    + destruct (Huse e eq_refl Hc) as [-> Hs]. by apply Hin.
    + apply He. by eapply does_auth_only.
  - rwp_step. destruct Hd as [_ Hd]. by rewrite Hd.
Qed.
Lemma rwp_EnableAuth pre path i (Q : error + () → SWorld → Prop) w :
  (∀ e v', auth_only (sw_vault w) v' → Q (inl e) (vaulted v' w)) →
  (∀ auths, is_Some (auths !! path) → (∀ p, is_Some (vt_auths (sw_vault w) !! p) → is_Some (auths !! p)) →
     Q (inr ()) (vaulted (let v := sw_vault w in
       mkVault (vt_init v) (vt_unsealed v) (vt_revoked v) auths (vt_mounts v) (vt_policies v) (vt_data v)) w)) →
  rwp D (unless_in_use pre (EnableAuthWithOptions path i)) Q w.
Proof.
  intros He HQ. unfold EnableAuthWithOptions.
  apply (rwp_unless_in_use pre (λ t c v, vault_EnableAuth t c path i v) vt_auths path (with_auth path i (sw_vault w))); [|done|done|..].
  - intros r v' Hv. by apply enable_law in Hv.
  - intros Hs. specialize (HQ _ Hs (λ p Hp, Hp)). by destruct (sw_vault w).
  - apply HQ; [rewrite lookup_insert_eq; eauto|]. intros p Hp. destruct (decide (p = path)) as [->|]; [rewrite lookup_insert_eq; eauto|by rewrite lookup_insert_ne].
Qed.
Lemma rwp_Mount pre path i (Q : error + () → SWorld → Prop) w :
  (∀ e v', auth_only (sw_vault w) v' → Q (inl e) (vaulted v' w)) →
  (∀ mounts, is_Some (mounts !! path) →
     Q (inr ()) (vaulted (let v := sw_vault w in
       mkVault (vt_init v) (vt_unsealed v) (vt_revoked v) (vt_auths v) mounts (vt_policies v) (vt_data v)) w)) →
  rwp D (unless_in_use pre (Mount path i)) Q w.
Proof.
  intros He HQ. unfold Mount.
  apply (rwp_unless_in_use pre (λ t c v, vault_Mount t c path i v) vt_mounts path (with_mount path i (sw_vault w))); [|done|done|..].
  - intros r v' Hv. by apply mount_law in Hv.
  - intros Hs. specialize (HQ _ Hs). by destruct (sw_vault w).
  - apply HQ. rewrite lookup_insert_eq. eauto.
Qed.

Context `{!Background} (N fuel : nat).
Hypothesis Hfuel : (N < fuel)%nat.
Hypothesis Hrec : Recovers N.

Lemma rwp_ping config (Q : error + () → SWorld → Prop) w :
  (∀ w', vault_only eq w w' → Q (inr ()) w') → rwp D (UntilItSucceeds fuel (ping_IdP config) (10 * Second)%Z) Q w.
Proof.
  intros HQ.
  apply (rwp_retry D N (λ c v k, c = sw_client w ∧ v = sw_vault w ∧ k = sw_kube w)); [done| |done].
  intros w1 (Hc & Hv & Hk). unfold ping_IdP. destruct (http_NewRequest _); [rwp_step; by apply HQ; split_and!|].
  rwp_step. apply rwp_ask. destruct (http_Get _ _) as [e|] eqn:Hg; simpl; [|by apply HQ; split_and!].
  split_and!; [done|done|done| |lia]. destruct (decide (N <= sw_tick w1)%nat) as [Hle|]; [|lia].
  by rewrite (rec_http _ Hrec) in Hg.
Qed.

(** One more call of the sequence: on an error only [auth_only] is left to show. *)
Ltac auth_error He := let e := fresh in let v := fresh in let Hv := fresh in
  intros e v Hv; apply He; split_and!; [done|done|]; cbn [sw_vault vaulted] in *; etrans; [|exact Hv]; by split_and!.
Ltac lookups := cbn; repeat first [rewrite lookup_insert_eq | rewrite lookup_insert_ne by done]; try done; eauto.

Lemma rwp_CreateOrchSvcSecretsStore svc (Q : error + () → SWorld → Prop) w :
  (∀ e w', vault_only auth_only w w' → Q (inl e) w') →
  (∀ w', vault_only auth_only w w' → store_ready (vs_config svc) (sw_vault w') → Q (inr ()) w') →
  rwp D (CreateOrchSvcSecretsStore svc) Q w.
Proof.
  intros He HQ. unfold CreateOrchSvcSecretsStore, enableKubernetesAuth.
  do 3 rwp_step. apply rwp_EnableAuth; [auth_error He|]. intros auths1 Hk1 _. cbv zeta.
  do 2 rwp_step. apply rwp_Write; [auth_error He|].
  do 2 rwp_step. apply rwp_Write; [auth_error He|]. rwp_step.
  rwp_step. apply rwp_Mount; [auth_error He|]. intros mounts Hm. cbv zeta.
  do 2 rwp_step. apply rwp_PutPolicy; [auth_error He|].
  do 2 rwp_step. apply rwp_Write; [auth_error He|]. rwp_step.
  apply HQ; [by split_and!|]. split; lookups.
Qed.

Lemma rwp_CreateOIDCAuth svc (Q : error + () → SWorld → Prop) w :
  store_ready (vs_config svc) (sw_vault w) →
  (∀ e w', vault_only auth_only w w' → Q (inl e) w') →
  (∀ w', vault_only auth_only w w' → configured (vs_config svc) (sw_vault w') → Q (inr ()) w') →
  rwp D (CreateOIDCAuth svc) Q w.
Proof.
  intros Hsr He HQ. unfold CreateOIDCAuth.
  rwp_step. apply rwp_EnableAuth; [auth_error He|]. intros auths2 Hk2 Hkeep. cbv zeta.
  do 2 rwp_step. apply rwp_PutPolicy; [auth_error He|].
  do 2 rwp_step. apply rwp_Write; [auth_error He|].
  do 2 rwp_step. apply rwp_Write; [auth_error He|].
  do 2 rwp_step. apply rwp_Write; [auth_error He|]. rwp_step.
  apply HQ; [by split_and!|]. destruct Hsr. split; split; lookups.
Qed.

Lemma rwp_ConfigureAuth (svc : VaultService) (Q : error + () → SWorld → Prop) w :
  (∀ e w', vault_only auth_only w w' → Q (inl e) w') →
  (∀ w', vault_only auth_only w w' → configured (vs_config svc) (sw_vault w') → Q (inr ()) w') →
  rwp D (ConfigureAuth (H0:=Vault_provider fuel svc) fuel (vs_config svc)) Q w.
Proof.
  intros He HQ. unfold ConfigureAuth. rwp_step. rwp_step. apply rwp_CreateOrchSvcSecretsStore; [by intros; apply He|].
  intros w1 Hw1 Hsr. rwp_step. rwp_step. apply rwp_ping. intros w2 (Hc2 & Hk2 & Hv2). rwp_step.
  assert (∀ w', vault_only auth_only w2 w' → vault_only auth_only w w') as Hback.
  { destruct Hw1 as (Hc1 & Hk1 & Hv1). intros w' (Hc' & Hk' & Hv'). split_and!; [congruence|congruence|].
    rewrite <- Hv2 in Hv'. by etrans. }
  apply rwp_CreateOIDCAuth; [by rewrite <- Hv2|..].
  - intros e w' Hw'. by apply He, Hback.
  - intros w' Hw' Hc. by apply HQ; [apply Hback|].
Qed.
End auth.

(** ** Configure *)

(** A secret from which the token can be read. *)
Definition holds_token `{SecretsLib} (data : gmap string string) (token : string) : Prop :=
  ∃ text, data !! VaultKeysKubernetesSecretName = Some text ∧ unmarshal_keys text = inr token ∧ token ≠ "".
(** Nobody else creates the secret, and no call that reports an error has created it. *)
Definition sole_creator `{SecretsLib} : Prop :=
  (∀ t ks, ks !! vault_keys = None → kube_env t ks !! vault_keys = None) ∧
  (∀ t d ks e ks', kube_Create t vault_keys d ks = (Some e, ks') → ks' = ks).
(** Somebody else has created the secret by call [N]. *)
Definition keys_appear `{SecretsLib} (N : nat) : Prop :=
  ∀ t ks, (N <= t)%nat → ∃ data token, kube_env t ks !! vault_keys = Some data ∧ holds_token data token.

(** ** The fuel *)

Section fuel.
Context `{SecretsLib} (svc : VaultService).

(** The fuel is no part of the behaviour. *)
Lemma Initialize_fuel n m : (n <= m)%nat → refines (Initialize n svc) (Initialize m svc).
Proof.
  intros Hle. unfold Initialize. apply refines_bind; [done|]. intros resp.
  apply refines_bind; [|done]. destruct (negb _); [|done]. apply refines_map_error. unfold unsealVault.
  induction (vs_addrs svc) as [|addr addrs IH]; simpl; [done|]. apply refines_bind; [done|]. intros _.
  apply refines_bind; [|intros [[|]|]; simpl; done].
  clear IH. generalize (@None bool). induction (ir_Keys resp) as [|key keys IHk]; intros st; simpl; [done|].
  apply refines_bind; [by apply refines_map_error, UntilItSucceeds_fuel|]. intros b. apply IHk.
Qed.
Lemma Configure_fuel n m : (n <= m)%nat →
  refines (Configure (H0:=Vault_provider n svc) n (vs_config svc)) (Configure (H0:=Vault_provider m svc) m (vs_config svc)).
Proof.
  intros Hle. unfold Configure. apply refines_bind; [by apply refines_map_error, UntilItSucceeds_fuel|]. intros b.
  apply refines_bind.
  { destruct (negb b && _); [|done]. apply refines_map_error. unfold initializeAndPersistKeys.
    apply refines_bind; [by apply refines_map_error, Initialize_fuel|]. intros text.
    by apply refines_map_error, UntilItSucceeds_fuel. }
  intros _. apply refines_bind; [by apply refines_map_error, UntilItSucceeds_fuel|]. intros _.
  apply refines_bind; [|done]. apply refines_map_error. unfold ConfigureAuth. apply refines_bind; [done|]. intros _.
  apply refines_bind; [by apply refines_map_error, UntilItSucceeds_fuel|]. done.
Qed.
End fuel.

(** ** The keys on their way into the secret *)

Definition store_round `{SecretsLib} (text : string) : SWorld → SWorld → Prop :=
  failed_round (store_keys text) (2 * Second)%Z.

Section store.
Context `{SecretsLib} `{!KubeLaws} `{!Background}.

(** One attempt. *)
Lemma store_attempt text w r w' : store_keys text w = Some (r, w') →
  sw_vault w' = sw_vault w ∧ sw_tick w' = S (sw_tick w) ∧ ∃ o, let ks := kube_env (sw_tick w) (sw_kube w) in
    kube_Create (sw_tick w) vault_keys {[VaultKeysKubernetesSecretName := text]} ks = (o, sw_kube w') ∧
    match r with inl _ => is_Some o | inr _ => o = None end.
Proof.
  unfold store_keys, rmap_error. simpl st_Put. unfold Storage_Put, rmap_error, kube_call, unit_call. fold vault_keys.
  destruct (kube_Create _ _ _ _) as [[e|] k]; simpl; intros [= <- <-]; (split_and!; [done|done|]); eexists; by split.
Qed.

Lemma store_attempt_ends text w : store_keys text w ≠ None.
Proof.
  unfold store_keys, rmap_error. simpl st_Put. unfold Storage_Put, rmap_error, kube_call, unit_call.
  by destruct (kube_Create _ _ _ _) as [[e|] k].
Qed.

Lemma store_round_inv text w w' : store_round text w w' → ∃ w1 w2 e, sw_kube w1 = sw_kube w ∧ sw_vault w1 = sw_vault w ∧
  store_keys text w1 = Some (inl e, w2) ∧ sw_kube w' = sw_kube w2 ∧ sw_vault w' = sw_vault w2.
Proof.
  intros (w1 & w2 & e & Hd & Ha & Ht). unfold select_Done, select_After in *. simpl in *. unfold ctx_select in *.
  simplify_eq. exists (ticked w), w2, e. by split_and!.
Qed.

(** A secret of the name, once there, is in the way for ever. *)
Lemma store_stuck text data fuel w : sw_kube w !! vault_keys = Some data →
  UntilItSucceeds fuel (store_keys text) (2 * Second)%Z w = None.
Proof.
  apply (until_diverges (λ w, sw_kube w !! vault_keys = Some data)). clear w. intros w Hw.
  unfold one_round. eapply wp_run; [unfold select_Done; simpl; unfold ctx_select; by rewrite background|]. simpl.
  set (w1 := mkSWorld _ _ _ _). unfold rwp. destruct (store_keys text w1) as [[r w2]|] eqn:Hs; [|done].
  apply store_attempt in Hs as (_ & _ & o & Hc & Hr). destruct (kube_create_law _ _ _ _ _ _ Hc) as [Hor Hok].
  assert (kube_env (sw_tick w1) (sw_kube w1) !! vault_keys = Some data) as Henv by (by apply kube_env_law).
  destruct r as [e|[]]; [|subst o; destruct (Hok eq_refl); congruence].
  eapply wp_run; [unfold select_After; simpl; unfold ctx_select; by rewrite background|]. simpl.
  destruct Hor as [->|[Hnone _]]; [done|congruence].
Qed.

(** It got there by another hand, or by a call that reported an error. *)
Lemma sole_rounds text w w' : sole_creator → sw_kube w !! vault_keys = None → rtc (store_round text) w w' →
  sw_kube w' !! vault_keys = None.
Proof.
  intros [Henv Hcall] Hw Hr. induction Hr as [|w w1 w' Hr _ IH]; [done|]. apply IH.
  apply store_round_inv in Hr as (wa & wb & e & Hka & _ & Hs & -> & _).
  apply store_attempt in Hs as (_ & _ & o & Hc & [e' ->]). rewrite (Hcall _ _ _ _ _ Hc). apply Henv. by rewrite Hka.
Qed.

(** The loop: the secret is created with the keys, or it turns out to be there. *)
Lemma rwp_store_keys (D : Prop) N fuel text (Q : error + () → SWorld → Prop) w :
  (N < fuel)%nat → Recovers N →
  (∀ w' data, rtc (store_round text) w w' → sw_kube w' !! vault_keys = Some data → D) →
  (∀ w', sw_vault w' = sw_vault w → sw_kube w' !! vault_keys = Some {[VaultKeysKubernetesSecretName := text]} →
     Q (inr ()) w') →
  rwp D (UntilItSucceeds fuel (store_keys text) (2 * Second)%Z) Q w.
Proof.
  intros Hfuel Hrec HD HQ.
  apply (rwp_until D (λ n w', rtc (store_round text) w w' ∧ sw_vault w' = sw_vault w ∧
    ((N < n + sw_tick w' ∧ 0 < n)%nat ∨ is_Some (sw_kube w' !! vault_keys)))).
  - intros w' (Hr & _ & [?|[data Hs]]); [lia|by eapply HD].
  - intros n w1 (Hr & Hv & Hn). unfold one_round.
    assert (select_Done w1 = (inr (), ticked w1)) as Hd by (unfold select_Done; simpl; unfold ctx_select; by rewrite background).
    eapply wp_run; [exact Hd|]. cbn beta iota. unfold rwp.
    destruct (store_keys text (ticked w1)) as [[r w2]|] eqn:Ha; [|by apply store_attempt_ends in Ha].
    pose proof (store_attempt _ _ _ _ Ha) as (Hv2 & Ht2 & o & Hc & Ho).
    destruct (kube_create_law _ _ _ _ _ _ Hc) as [Hor Hok]. destruct r as [e|[]].
    2: { subst o. destruct (Hok eq_refl) as [_ Hk]. apply HQ; [by rewrite Hv2|]. rewrite Hk. apply lookup_insert_eq. }
    assert (select_After (2 * Second)%Z w2 = (inr (), ticked w2)) as Hs by (unfold select_After; simpl; unfold ctx_select; by rewrite background).
    eapply wp_run; [exact Hs|]. cbn beta iota. split_and!.
    + eapply rtc_r; [exact Hr|]. by eexists _, _, _.
    + simpl. by rewrite Hv2.
    + change (sw_kube (ticked w2)) with (sw_kube w2). change (sw_tick (ticked w2)) with (S (sw_tick w2)).
      rewrite Ht2. change (sw_tick (ticked w1)) with (S (sw_tick w1)) in *.
      change (sw_kube (ticked w1)) with (sw_kube w1) in *.
      destruct (kube_env (S (sw_tick w1)) (sw_kube w1) !! vault_keys) as [data|] eqn:Hk.
      { right. destruct Hor as [->|[? _]]; [by eexists|congruence]. }
      left. destruct Hn as [Hn|[data Hn]]; [|by rewrite (kube_env_law _ _ _ Hn) in Hk].
      destruct (decide (N <= S (sw_tick w1))%nat) as [Hle|]; [|lia]. exfalso.
      pose proof (rec_create _ Hrec _ vault_keys {[VaultKeysKubernetesSecretName := text]} _ Hle Hk) as Hcr.
      destruct Ho as [e' ->]. by rewrite Hc in Hcr.
  - split_and!; [done|done|]. left. lia.
Qed.
End store.

Section configure.
Context `{SecretsLib} `{!VaultLaws} `{!KubeLaws} `{!EncodeLaw} `{!Background} (D : Prop) (N fuel : nat).
Hypothesis Hfuel : (N < fuel)%nat.
Hypothesis Hrec : Recovers N.
Context (svc : VaultService) (Haddrs : good_addrs svc).
#[local] Instance provider : ProviderService := Vault_provider fuel svc.

(** The keys of the fresh Vault are in the secret. *)
Definition keys_stored (w w' : SWorld) : Prop := ∃ resp text w1,
  fresh_vault svc resp w w1 ∧ json_Encode resp = inr text ∧ sw_vault w' = sw_vault w1 ∧
  sw_kube w' !! vault_keys = Some {[VaultKeysKubernetesSecretName := text]}.

(** Vault has just been initialised, and the loop that creates the secret for its keys
    failed until there was a secret of the name (an older one, one of others, or its own
    whose creation was answered with an error), and never ends. *)
Definition store_loops (text : string) (resp : InitResponse) (w w1 : SWorld) : Prop :=
  fresh_vault svc resp w w1 ∧ json_Encode resp = inr text ∧
  (∃ w2 data, rtc (store_round text) w1 w2 ∧ sw_kube w2 !! vault_keys = Some data) ∧
  ∀ fuel, UntilItSucceeds fuel (store_keys text) (2 * Second)%Z w1 = None.

Lemma rwp_initializeAndPersistKeys (Q : error + () → SWorld → Prop) w :
  (∀ text resp w1, Initialize fuel svc w = Some (inr text, w1) → store_loops text resp w w1 → D) →
  (∀ e w', init_failed w w' → Q (inl e) w') → (∀ w', keys_stored w w' → Q (inr ()) w') →
  rwp D (initializeAndPersistKeys fuel) Q w.
Proof.
  intros HD He HQ. unfold initializeAndPersistKeys. rwp_step. rwp_step.
  eapply rwp_mono.
  { apply rwp_with_run. apply (rwp_Initialize D N fuel Hfuel Hrec svc (λ r w1, match r with
      | inl e => init_failed w w1
      | inr text => ∃ resp, fresh_vault svc resp w w1 ∧ json_Encode resp = inr text end)); [done|done|by eauto]. }
  intros [e|text] w1 [Hrun Hf]; [by apply He|]. destruct Hf as (resp & Hf & Henc). rwp_step.
  apply (rwp_store_keys D N); [done|done|..].
  - intros w2 data Hr Hs. eapply HD; [exact Hrun|]. split_and!; [exact Hf|done|by eauto|].
    eapply failed_rounds_diverge; [exact Hr|]. intros f. by eapply store_stuck.
  - intros w2 Hv Hk. apply HQ. by exists resp, text, w1.
Qed.

Lemma rwp_authenticate (Q : error + () → SWorld → Prop) w pre :
  (keys_appear N ∨ ∃ data token, sw_kube w !! vault_keys = Some data ∧ holds_token data token) →
  (∀ w' data token, sw_vault w' = sw_vault w → vc_token (sw_client w') = token →
     sw_kube w' !! vault_keys = Some data → holds_token data token →
     (∀ data', sw_kube w !! vault_keys = Some data' → data' = data) → Q (inr ()) w') →
  rwp D (UntilItSucceeds fuel (rmap_error (Errorf pre) authenticateVaultUsingTokenInStorage) (10 * Second)%Z) Q w.
Proof.
  intros Hsec HQ.
  apply (rwp_retry D N (λ c v k, v = sw_vault w ∧
    (∀ data', sw_kube w !! vault_keys = Some data' → k !! vault_keys = Some data'))); [done| |done].
  intros w1 (Hv & Hkeep).
  assert (∀ data', sw_kube w !! vault_keys = Some data' →
    kube_env (sw_tick w1) (sw_kube w1) !! vault_keys = Some data') as Hkeep' by (intros; by apply kube_env_law, Hkeep).
  (* failing after call [N] contradicts the secret's being there *)
  set (ks := kube_env (sw_tick w1) (sw_kube w1)) in *.
  assert ((N <= sw_tick w1)%nat → ∃ data token,
    ks !! vault_keys = Some data ∧ holds_token data token) as Hthere.
  { intros Hle. destruct Hsec as [Happ|(data & token & Hs & Ht)]; [by apply Happ|]. by eauto. }
  unfold authenticateVaultUsingTokenInStorage. do 2 rwp_step. simpl st_Get. unfold Storage_Get. do 2 rwp_step.
  apply rwp_kube_call. intros r k Hr. injection Hr as <- <-. fold ks.
  assert (∀ e : error, ((N <= sw_tick w1)%nat → False) →
    (sw_vault (kubed ks w1) = sw_vault w ∧ (∀ data', sw_kube w !! vault_keys = Some data' → ks !! vault_keys = Some data')) ∧
    ((sw_tick w1 < N)%nat) ∧ (sw_tick w1 <= S (sw_tick w1))%nat) as Hfail.
  { intros _ Hno. split_and!; [done|done| |lia]. destruct (decide (N <= sw_tick w1)%nat); [|lia]. by destruct Hno. }
  destruct (kube_Get _ _ _) as [e|data] eqn:Hg.
  { apply Hfail; [exact e|]. intros Hle. destruct (Hthere Hle) as (data & token & Hs & _).
    destruct (rec_get _ Hrec _ _ _ _ Hle Hs) as [d' Hd']. unfold vault_keys in Hd'. congruence. }
  apply kube_get_law in Hg. fold vault_keys in Hg.
  assert (∀ e : error, ((N <= sw_tick w1)%nat → ∀ token, ¬ holds_token data token) →
    (sw_vault (kubed ks w1) = sw_vault w ∧ (∀ data', sw_kube w !! vault_keys = Some data' → ks !! vault_keys = Some data')) ∧
    ((sw_tick w1 < N)%nat) ∧ (sw_tick w1 <= S (sw_tick w1))%nat) as Hbad.
  { intros e Hno. apply Hfail; [exact e|]. intros Hle. destruct (Hthere Hle) as (data' & token & Hs & Ht).
    rewrite Hs in Hg. injection Hg as ->. by eapply Hno. }
  destruct (data !! VaultKeysKubernetesSecretName) as [text|] eqn:Hd.
  2: { rwp_step. apply Hbad; [exact nil_panic|]. intros _ token (text & Ht & _). congruence. }
  destruct (unmarshal_keys text) as [e|token] eqn:Hu.
  { rwp_step. apply Hbad; [exact e|]. intros _ token (text' & Ht & Hu' & _). congruence. }
  destruct (String.eqb_spec token "") as [->|Hne].
  { rwp_step. apply Hbad; [exact nil_panic|]. intros _ token (text' & Ht & Hu' & Hn'). congruence. }
  simpl ps_SetToken. apply rwp_SetToken. apply (HQ _ data token); [done|done|done|by exists text|].
  intros data' Hd'. apply Hkeep' in Hd'. congruence.
Qed.

(** Vault is as it was, or initialised with keys that are in the secret and, unless it
    unseals itself, unsealed everywhere; or the answer of [Init] was lost. *)
Definition keys_safe (w w' : SWorld) : Prop :=
  vt_init (sw_vault w') = vt_init (sw_vault w) ∨
  (∃ resp text, vt_init (sw_vault w) = None ∧ vt_init (sw_vault w') = Some (initRequest svc, resp) ∧
     json_Encode resp = inr text ∧ sw_kube w' !! vault_keys = Some {[VaultKeysKubernetesSecretName := text]} ∧
     (sc_AutoUnseal (vs_config svc) = false → ∀ addr, addr ∈ vs_addrs svc → addr ∈ vt_unsealed (sw_vault w'))) ∨
  init_failed w w'.
(** What success means. *)
Definition ready (w w' : SWorld) : Prop :=
  let token := vc_token (sw_client w') in
  configured (vs_config svc) (sw_vault w') ∧
  if sc_AutoInit (vs_config svc)
  then is_Some (vt_init (sw_vault w')) ∧ ∃ data, sw_kube w' !! vault_keys = Some data ∧ holds_token data token
  else sw_kube w' !! vault_keys = None ∧ token ∈ vt_revoked (sw_vault w').

Lemma rwp_wait_Initialized (Q : error + bool → SWorld → Prop) w :
  (∀ w', sw_vault w' = sw_vault w → sw_kube w' = sw_kube w →
     Q (inr (bool_decide (is_Some (vt_init (sw_vault w))))) w') →
  rwp D (UntilItSucceeds fuel (rmap_error (Errorf "get Vault initialized status: ") ps_Initialized) (5 * Second)%Z) Q w.
Proof.
  intros HQ. apply (rwp_retry D N (λ c v k, v = sw_vault w ∧ k = sw_kube w)); [done| |done].
  intros w1 [Hv Hk]. rwp_step. simpl ps_Initialized. unfold Initialized. apply rwp_vault_call.
  intros r v [= <- <-]. destruct (vault_InitStatus _ _ _) as [e|b] eqn:Hs.
  - split; [done|]. split; [|simpl; lia]. destruct (decide (N <= sw_tick w1)%nat) as [Hle|]; [|lia].
    destruct (rec_status _ Hrec (sw_tick w1) (sw_client w1) (sw_vault w1) Hle) as [b Hb]. congruence.
  - apply status_law in Hs as ->. rewrite Hv. by apply HQ.
Qed.

(** From the secret on, with what is known of Vault and the secret before. *)
Lemma rwp_finish w0 (Q : error + () → SWorld → Prop) w :
  (sc_AutoInit (vs_config svc) = true → is_Some (vt_init (sw_vault w))) →
  (vt_init (sw_vault w) = vt_init (sw_vault w0) ∨ keys_stored w0 w ∧ sc_AutoInit (vs_config svc) = true) →
  (keys_appear N ∨ ∃ data token, sw_kube w !! vault_keys = Some data ∧ holds_token data token) →
  (∀ r w', keys_safe w0 w' → (r = inr () → ready w0 w') → Q r w') →
  rwp D (_ ← rmap_error (Errorf ("retry wait for " +:+ VaultKeysKubernetesSecretName +:+ " secret: "))
               (UntilItSucceeds fuel
                  (rmap_error (Errorf ("authenticate with Vault token in secret " +:+ VaultKeysKubernetesSecretName +:+ ": "))
                     authenticateVaultUsingTokenInStorage) (10 * Second)%Z);
         _ ← rmap_error (Errorf "configure auth methods: ") (ConfigureAuth fuel (vs_config svc));
         if negb (sc_AutoInit (vs_config svc)) then
           _ ← rmap_error (Errorf "revoke token: ") ps_RevokeToken;
           rmap_error (Errorf ("delete secret " +:+ VaultKeysKubernetesSecretName +:+ ": "))
             (st_Delete "orch-platform" VaultKeysKubernetesSecretName)
         else mret ()) Q w.
Proof.
  intros Hinit Hkeys Hsec HQ. rwp_step. rwp_step. apply rwp_authenticate; [done|].
  intros w1 data token Hv1 Htok Hk1 Hdata Hsame.
  (* the keys stay where they are while Vault is configured *)
  assert (∀ w2, vt_init (sw_vault w2) = vt_init (sw_vault w) ∧ vt_unsealed (sw_vault w2) = vt_unsealed (sw_vault w) →
    (sc_AutoInit (vs_config svc) = true → sw_kube w2 !! vault_keys = Some data) → keys_safe w0 w2) as Hsafe.
  { intros w2 [Hi Hun] Hk. destruct Hkeys as [Hkeys|[(resp & text & w3 & Hf & Henc & Hv3 & Hk3) Hauto]].
    - left. congruence.
    - right. left. destruct Hf as (_ & Hnone & Hi3 & _ & Hu3). exists resp, text. split_and!; [done|congruence|done| |].
      + rewrite (Hk Hauto). by rewrite (Hsame _ Hk3).
      + by rewrite Hun, Hv3. }
  rwp_step. rwp_step. apply (rwp_ConfigureAuth D N fuel Hfuel Hrec).
  { intros e w2 (Hc2 & Hk2 & (Hi2 & Hu2 & _)). apply HQ; [|done]. apply Hsafe; [split; congruence|]. intros _. by rewrite Hk2. }
  intros w2 (Hc2 & Hk2 & (Hi2 & Hu2 & _)) Hconf. destruct (sc_AutoInit (vs_config svc)) eqn:Hauto; cbn [negb].
  { rwp_step. apply HQ; [apply Hsafe; [split; congruence|by rewrite Hk2]|]. intros _. split; [done|]. rewrite Hauto.
    split; [rewrite Hi2, Hv1; by apply Hinit|]. exists data. rewrite Hk2, Hc2, Htok. done. }
  rwp_step. rwp_step. simpl ps_RevokeToken. unfold RevokeToken. apply rwp_vault_do. intros r v Hv.
  apply revoke_law in Hv as Hdo. destruct r as [e|]; simpl.
  { apply HQ; [|done]. apply Hsafe; [|done]. simpl. destruct Hdo as [[->| ->] _]; simpl; split; congruence. }
  destruct Hdo as [_ Hdo]. rewrite (Hdo eq_refl). rwp_step. simpl st_Delete. unfold Storage_Delete. rwp_step.
  apply rwp_kube_call. intros r k Hr. unfold unit_call in Hr. injection Hr as <- <-.
  destruct (kube_Delete _ _ _) as [r k] eqn:Hdel. apply kube_delete_law in Hdel as [_ Hdel]. simpl.
  destruct r as [e|]; simpl; (apply HQ; [apply Hsafe; [simpl; split; congruence|done]|]); [done|].
  intros _. rewrite (Hdel eq_refl). split; [destruct Hconf as [[] []]; by split; split|]. rewrite Hauto. split; [apply lookup_delete_eq|by left].
Qed.

(** The whole run, when that loop never ends: no amount of fuel ends it. *)
Lemma Configure_never w text w1 w2 : sc_AutoInit (vs_config svc) = true →
  UntilItSucceeds fuel (rmap_error (Errorf "get Vault initialized status: ") ps_Initialized) (5 * Second)%Z w =
    Some (inr false, w1) →
  Initialize fuel svc w1 = Some (inr text, w2) →
  (∀ f, UntilItSucceeds f (store_keys text) (2 * Second)%Z w2 = None) →
  ∀ f, Configure (H0:=Vault_provider f svc) f (vs_config svc) w = None.
Proof.
  intros Hauto Hst Hinit Hloop f. destruct (Configure (H0:=Vault_provider f svc) f _ w) as [x|] eqn:Hc; [|done]. exfalso.
  apply (Configure_fuel svc f (fuel + f) ltac:(lia)) in Hc. revert Hc. unfold Configure, initializeAndPersistKeys.
  simpl ps_Initialize. simpl ps_Initialized in *. unfold mbind, RM_bind at 1. unfold rmap_error at 1.
  rewrite (UntilItSucceeds_fuel fuel (fuel + f) _ (rmap_error (Errorf "get Vault initialized status: ") Initialized)
    _ ltac:(lia) ltac:(done) _ _ Hst).
  rewrite Hauto. unfold mbind, RM_bind, rmap_error. cbn [negb andb].
  rewrite (Initialize_fuel svc fuel (fuel + f) ltac:(lia) _ _ Hinit).
  unfold store_keys, rmap_error in Hloop. by rewrite Hloop.
Qed.

(** The one way to give no answer. *)
Definition never_ends (w : SWorld) : Prop :=
  (∃ text resp w1, store_loops text resp w w1) ∧
  ∀ f, Configure (H0:=Vault_provider f svc) f (vs_config svc) w = None.

Lemma Configure_ok w :
  (bool_decide (is_Some (vt_init (sw_vault w))) || negb (sc_AutoInit (vs_config svc)) = true →
     keys_appear N ∨ ∃ data token, sw_kube w !! vault_keys = Some data ∧ holds_token data token) →
  (bool_decide (is_Some (vt_init (sw_vault w))) || negb (sc_AutoInit (vs_config svc)) = false → never_ends w → D) →
  rwp D (Configure fuel (vs_config svc)) (λ r w', keys_safe w w' ∧ (r = inr () → ready w w')) w.
Proof.
  intros Hterm HD. unfold Configure. rwp_step. rwp_step. eapply rwp_mono.
  { apply rwp_with_run. apply (rwp_wait_Initialized (λ r w1, r = inr (bool_decide (is_Some (vt_init (sw_vault w)))) ∧
      sw_vault w1 = sw_vault w ∧ sw_kube w1 = sw_kube w)). done. }
  intros r w1 (Hrun & -> & Hv1 & Hk1). rwp_step.
  destruct (bool_decide (is_Some (vt_init (sw_vault w)))) eqn:Hb; cbn [negb andb orb] in *.
  - rwp_step. apply (rwp_finish w); [intros _; rewrite Hv1; by apply bool_decide_eq_true in Hb|left; congruence|rewrite Hk1; auto|done].
  - apply bool_decide_eq_false in Hb. assert (vt_init (sw_vault w) = None) as Hnone by (by apply eq_None_not_Some).
    destruct (Bool.bool_dec (sc_AutoInit (vs_config svc)) true) as [Hauto|Hauto%not_true_is_false];
      rewrite Hauto at 1; rewrite Hauto in Hterm, HD; cbn [negb] in Hterm, HD.
    + rwp_step. apply rwp_initializeAndPersistKeys.
      * intros text resp w2 Hinit Hns. apply HD; [done|]. split; [|by eapply Configure_never; try apply Hns].
        exists text, resp, w2. unfold store_loops, fresh_vault in *. by rewrite Hk1, Hv1 in Hns.
      * intros e w2 (Hk2 & t & c & rq & e' & v & Hi & Hv). split; [|done]. right. right.
        split; [congruence|]. exists t, c, rq, e', v. rewrite <- Hv1. done.
      * intros w2 (resp & text & w3 & (Hk3 & Hn3 & Hi3 & Ht3 & Hu3) & Henc & Hv2 & Hk2).
        assert (keys_stored w w2) as Hst.
        { exists resp, text, w3. rewrite Hk1, Hv1 in *. split_and!; done. }
        apply (rwp_finish w); [intros _; rewrite Hv2, Hi3; eauto|by right|..|done].
        right. destruct (encode_law resp) as (text' & fields & Henc' & Hp & Hr).
        rewrite Henc in Henc'. injection Henc' as <-.
        exists {[VaultKeysKubernetesSecretName := text]}, (ir_RootToken resp). split; [done|].
        exists text. split_and!; [by rewrite lookup_singleton_eq| |done]. unfold unmarshal_keys. by rewrite Hp, Hr.
    + rwp_step. apply (rwp_finish w); [by rewrite Hauto|left; congruence|rewrite Hk1; auto|done].
Qed.
End configure.

Section theorems.
Context `{SecretsLib} `{!VaultLaws} `{!KubeLaws} `{!EncodeLaw} `{!Background} (svc : VaultService).
Let config := vs_config svc.

(** Nothing to initialise: the secret with a token is there, or is there by call [N]. *)
Definition secret_comes (N : nat) (w : SWorld) : Prop :=
  bool_decide (is_Some (vt_init (sw_vault w))) || negb (sc_AutoInit config) = true →
  keys_appear N ∨ ∃ data token, sw_kube w !! vault_keys = Some data ∧ holds_token data token.


End theorems.
