(* ===== verification/AuthService.v ===== *)
(** * The forward-auth service

    auth-service/internal: rolestore.go (the roles that grant access, some of them
    templates of a project id), handler.go (/verifyall), resolver.go (/resolveproject), and
    the part of cmd/auth-service/main.go that ties them.  [Service] is the process: the role
    store and the point at which [FetchProjectUpdates], a goroutine beside the handlers, is.
    The token library, gjson and the network are parameters. *)

From S2P Require Import Prelude GoStd Monad EntSchema EntMutation Config Http.
From Stdlib Require Import Ascii.

(** ** rolestore.go *)

Definition projectId_mark : string := "{projectId}".

Record RoleStore := mkRoleStore {
  staticRoles : list string;
  templates : list string;
  templatesAvailable : bool;
  projectIDs : list string;
  dynamicRoles : list string }.

Definition SetProjectIDs (ids : list string) (rs : RoleStore) : RoleStore :=
  mkRoleStore (staticRoles rs) (templates rs) (templatesAvailable rs) ids (dynamicRoles rs).

Definition expand (template projectID : string) : string := ReplaceAll template projectId_mark projectID.
(** The nested loops over the templates and the ids. *)
Fixpoint expand_loop (templates ids expandedRoles : list string) : list string :=
  match templates with
  | [] => expandedRoles
  | template :: templates =>
      expand_loop templates ids (foldl (λ acc id, acc ++ [expand template id]) expandedRoles ids)
  end.
Definition UpdateDynamicRoles (rs : RoleStore) : RoleStore :=
  mkRoleStore (staticRoles rs) (templates rs) (templatesAvailable rs) (projectIDs rs)
    (expand_loop (templates rs) (projectIDs rs) (staticRoles rs)).

(** The loop of [NewRoleStore]: the two lists. *)
Fixpoint split_roles (roles staticRoles templates : list string) : list string * list string :=
  match roles with
  | [] => (staticRoles, templates)
  | role :: roles => if Contains role projectId_mark
                     then split_roles roles staticRoles (templates ++ [role])
                     else split_roles roles (staticRoles ++ [role]) templates
  end.
Definition NewRoleStore (roles : list string) : RoleStore :=
  let '(staticRoles, templates) := split_roles roles [] [] in
  UpdateDynamicRoles (mkRoleStore staticRoles templates (0 <? length templates)%nat [] []).

Definition GetRoles (rs : RoleStore) : list string := dynamicRoles rs.
Definition HasTemplatesAvailable (rs : RoleStore) : bool := templatesAvailable rs.

(** What the program reads of a project of an update: [Data] is a pointer. *)
Record ProjectUpdate := mkProjectUpdate { pu_Key : string; pu_Data : option string }.

(** The loop over [update.GetProjects()]; [None]: a nil pointer is dereferenced. *)
Fixpoint collect (update : list ProjectUpdate) (projects : list string) : option (list string) :=
  match update with
  | [] => Some projects
  | project :: update =>
      match pu_Data project with
      | None => None
      | Some status => collect update (if String.eqb status "Created" then projects ++ [pu_Key project]
                                       else projects)
      end
  end.

(** Where [FetchProjectUpdates] is. *)
Inductive FetchPC :=
  | AtSelect | AtStream | AtRecv
  | AtSetProjectIDs (projects : list string) | AtUpdateDynamicRoles
  | Returned | Panicked.
(** What its next step meets. *)
Inductive FetchEvent :=
  | EvDone | EvNotDone
  | EvStreamFailed | EvStreamOpened
  | EvEOF | EvRecvFailed | EvReceived (update : list ProjectUpdate)
  | EvSet | EvUpdated.

Definition fetch_step (ev : FetchEvent) (pc : FetchPC) (rs : RoleStore) : option (FetchPC * RoleStore) :=
  match pc, ev with
  | AtSelect, EvDone => Some (Returned, rs)
  | AtSelect, EvNotDone => Some (AtStream, rs)
  | AtStream, EvStreamFailed => Some (AtSelect, rs)
  | AtStream, EvStreamOpened => Some (AtRecv, rs)
  | AtRecv, EvEOF | AtRecv, EvRecvFailed => Some (AtSelect, rs)
  | AtRecv, EvReceived update => Some (match collect update [] with
                                       | None => Panicked
                                       | Some projects => AtSetProjectIDs projects
                                       end, rs)
  | AtSetProjectIDs projects, EvSet => Some (AtUpdateDynamicRoles, SetProjectIDs projects rs)
  | AtUpdateDynamicRoles, EvUpdated => Some (AtRecv, UpdateDynamicRoles rs)
  | _, _ => None
  end.

(** ** handler.go *)

(** A request, and what a handler writes; the status is 200 when it writes none. *)
Record AuthRequest := mkAuthRequest {
  aq_Header : list (string * string); aq_RequestURI : string }.
Record Answer := mkAnswer {
  an_Status : Z; an_Header : list (string * string); an_Text : string }.

Definition newline : string := String "010" EmptyString.
(** [http.Error] *)
Definition http_Error (msg : string) (status : Z) : Answer :=
  mkAnswer status [("Content-Type", "text/plain; charset=utf-8"); ("X-Content-Type-Options", "nosniff")]
    (msg +:+ newline).
Definition answer_ok : Answer := mkAnswer StatusOK [] "".

(** The token library: parsing and validating the token of a header at a time, against a
    key set, its JSON; and gjson on that JSON. *)
Class TokenLib := {
  KeySet : Type;
  Token : Type;
  jwt_ParseRequest : string → KeySet → Time → AuthRequest → error + Token;
  jwt_Marshal : Token → error + string;
  gjson_Get_String : string → string → string }.

Section handler.
Context `{TokenLib}.

Fixpoint find_role (payload : string) (allowRoles : list string) : bool :=
  match allowRoles with
  | [] => false
  | role :: roles =>
      if (0 <? String.length (gjson_Get_String payload role))%nat then true else find_role payload roles
  end.
(** [None] is a nil error; the roles are printed by [%v] as [[a b c]]. *)
Definition verifyClaims (token : Token) (allowRoles : list string) : option error :=
  match jwt_Marshal token with
  | inl err => Some (errWrap "could not marshal claims: " err "")
  | inr payload =>
      if find_role payload allowRoles then None
      else Some (errText ("could not find expected roles: [" +:+ Join allowRoles " " +:+ "]"))
  end.

Definition NewHandler (keyset : KeySet) (roleStore : RoleStore) (now : Time) (r : AuthRequest) : Answer :=
  match jwt_ParseRequest "Authorization" keyset now r with
  | inl _ => http_Error "Invalid token" StatusUnauthorized
  | inr token =>
      match verifyClaims token (GetRoles roleStore) with
      | Some _ => http_Error "Invalid claims" StatusForbidden
      | None => answer_ok
      end
  end.
End handler.

(** ** The process (main.go) *)

Record Service := mkService { sv_rs : RoleStore; sv_pc : FetchPC }.

(** The roles file, one role per line; the goroutine runs when there is a template. *)
Definition auth_main (content : string) : Service :=
  let roles := Split content "010" in
  let roleStore := NewRoleStore roles in
  mkService roleStore (if HasTemplatesAvailable roleStore then AtSelect else Returned).

Inductive Label `{TokenLib} :=
  | Fetch (ev : FetchEvent)
  | Verify (now : Time) (r : AuthRequest) (a : Answer).

(** The goroutine takes a step, or a handler loads the roles and answers; a panic of the
    goroutine ends the process. *)
Inductive service_step `{TokenLib} (keyset : KeySet) (s : Service) : Label → Service → Prop :=
  | step_fetch ev pc rs : fetch_step ev (sv_pc s) (sv_rs s) = Some (pc, rs) →
      service_step keyset s (Fetch ev) (mkService rs pc)
  | step_verify now r : sv_pc s ≠ Panicked →
      service_step keyset s (Verify now r (NewHandler keyset (sv_rs s) now r)) s.

(** ** resolver.go *)

(** [projectPathRegex.FindStringSubmatch], reduced to its group. *)
Definition projectPathRegex (uri : string) : option string :=
  s ← strip "/v" uri;
  match span is_digit s with
  | (EmptyString, _) => None
  | (_, s) =>
      s ← strip "/projects/" s;
      match span (λ c, negb (Ascii.eqb c "/")) s with
      | (EmptyString, _) => None
      | (name, s) => _ ← strip "/" s; Some name
      end
  end.

(** [textproto.CanonicalMIMEHeaderKey]: upper case at the start and after a hyphen, lower
    case elsewhere; a key with a byte no field name has stays as it is. *)
Definition token_char (c : ascii) : bool := is_alnum c || char_in "!#$%&'*+-.^_`|~" c.
Fixpoint canonical (upper : bool) (s : string) : string :=
  match s with
  | EmptyString => EmptyString
  | String c s => String (if upper then upper_char c else lower_char c) (canonical (Ascii.eqb c "-") s)
  end.
Definition CanonicalHeaderKey (key : string) : string :=
  if all_chars token_char key then canonical true key else key.
(** [http.Header.Set] *)
Definition Header_Set (key value : string) (h : list (string * string)) : list (string * string) :=
  filter (λ f, f.1 ≠ CanonicalHeaderKey key) h ++ [(CanonicalHeaderKey key, value)].

(** Decoding a value into a string, and into a struct with one field of interest: every
    member whose name matches up to case is decoded in turn, [null] changes nothing. *)
Definition into_string (v : string) (j : JSON) : option string :=
  match j with JStr s => Some s | JNull => Some v | _ => None end.
Definition into_field {A} (key : string) (into : A → JSON → option A) (v : A) (j : JSON) : option A :=
  match j with
  | JObj fields => foldl (λ acc f, v ← acc; if EqualFold f.1 key then into v f.2 else Some v) (Some v) fields
  | JNull => Some v
  | _ => None
  end.
Definition decode_result : JSON → option string :=
  into_field "status" (into_field "projectStatus" (into_field "uID" into_string)) "".

(** The HTTP client over a world [W], and what encoding/json reports of a body. *)
Class TenancyClient (W : Type) := {
  tm_NewRequest : string → option error;
  tm_Do : HTTPRequest → EM W HTTPReply;
  tm_json_error : Body → error }.

(** The URI the gateway forwards, or that of a direct call. *)
Definition forwarded_uri (r : AuthRequest) : string :=
  let header := Get (aq_Header r) "X-Forwarded-Uri" in
  if String.eqb header "" then aq_RequestURI r else header.

Section resolver.
Context `{TokenLib} {W : Type} `{TenancyClient W}.

Definition resolveProjectUUID (projectName authHeader tenancyManagerURL : string) : EM W string :=
  let reqURL := tenancyManagerURL +:+ "/v1/projects/" +:+ url_escape encodePathSegment projectName in
  match tm_NewRequest reqURL with
  | Some err => fail (errWrap "build TM request: " err "")
  | None =>
      let header := if negb (String.eqb authHeader "") then [("Authorization", authHeader)] else [] in
      resp ← map_error (λ e, errWrap "call tenancy manager: " e "")
               (tm_Do (mkHTTPRequest MethodGet reqURL header NoReqBody));
      if (hp_StatusCode resp =? StatusNotFound)%Z
      then fail (errText ("project " +:+ quote projectName +:+ " not found"))
      else if negb (hp_StatusCode resp =? StatusOK)%Z
      then fail (errText ("tenancy manager returned status " +:+ itoa (Z.to_nat (hp_StatusCode resp))))
      else match hp_Body resp with
           | BodyJSON j =>
               match decode_result j with
               | Some uid =>
                   if String.eqb uid ""
                   then fail (errText ("tenancy manager returned empty UUID for project " +:+ quote projectName))
                   else mret uid
               | None => fail (errWrap "decode TM response: " (tm_json_error (hp_Body resp)) "")
               end
           | b => fail (errWrap "decode TM response: " (tm_json_error b) "")
           end
  end.

Definition NewProjectResolverHandler (keyset : KeySet) (tenancyManagerURL : string)
    (now : Time) (r : AuthRequest) : EM W Answer :=
  match jwt_ParseRequest "Authorization" keyset now r with
  | inl _ => mret (http_Error "Invalid token" StatusUnauthorized)
  | inr _ =>
      match projectPathRegex (forwarded_uri r) with
      | None => mret (http_Error "no project name in request path" StatusBadRequest)
      | Some projectName =>
          res ← try (resolveProjectUUID projectName (Get (aq_Header r) "Authorization") tenancyManagerURL);
          mret (match res with
                | inl _ => http_Error ("project " +:+ quote projectName +:+ " not found") StatusNotFound
                | inr projectUUID =>
                    mkAnswer StatusOK
                      (Header_Set "ActiveProjectID" projectUUID (Header_Set "Activeprojectid" projectUUID [])) ""
                end)
      end
  end.
End resolver.
