(* ===== verification/AuthServiceSpec.v ===== *)
(** * The forward-auth service: which roles grant access, and when

    The role store holds the static roles and every template instantiated with the projects
    of the update last applied; the process is followed step by step, its handlers
    interleaved with the goroutine that applies the updates.  Also what the pattern of a
    project path accepts. *)

From S2P Require Import Prelude GoStd Monad EntSchema EntMutation Config Http AuthService.
From Stdlib Require Import Ascii.

(** ** The role store *)

(** A role that grants access while the projects are [ids]. *)
Inductive allowed (roles ids : list string) : string → Prop :=
  | allowed_static role : role ∈ roles → Contains role projectId_mark = false → allowed roles ids role
  | allowed_template template id : template ∈ roles → Contains template projectId_mark = true →
      id ∈ ids → allowed roles ids (expand template id).

Definition statics (roles : list string) : list string :=
  filter (λ r, Contains r projectId_mark = false) roles.
Definition patterns (roles : list string) : list string :=
  filter (λ r, Contains r projectId_mark = true) roles.

Lemma split_roles_spec roles ss ts : split_roles roles ss ts = (ss ++ statics roles, ts ++ patterns roles).
Proof.
  unfold statics, patterns. revert ss ts. induction roles as [|r roles IH]; intros ss ts; simpl.
  { by rewrite !app_nil_r. }
  rewrite !filter_cons. destruct (Contains r projectId_mark) eqn:Hc; rewrite IH;
    repeat case_decide; try done; by rewrite <- !app_assoc.
Qed.

Lemma foldl_snoc {A B} (f : A → B) l acc : foldl (λ acc x, acc ++ [f x]) acc l = acc ++ (f <$> l).
Proof.
  revert acc. induction l as [|x l IH]; intros acc; cbn; [by rewrite app_nil_r|].
  by rewrite IH, <- app_assoc.
Qed.

Lemma elem_of_expand_loop ts ids acc r :
  r ∈ expand_loop ts ids acc ↔ r ∈ acc ∨ ∃ t id, t ∈ ts ∧ id ∈ ids ∧ r = expand t id.
Proof.
  revert acc. induction ts as [|t ts IH]; intros acc; simpl; [set_solver|].
  rewrite IH, foldl_snoc, elem_of_app, list_elem_of_fmap. set_solver.
Qed.

(** The store built from [roles], its dynamic roles those of [ids]. *)
Record store_of (roles ids : list string) (rs : RoleStore) : Prop := mk_store_of {
  so_static : staticRoles rs = statics roles;
  so_templates : templates rs = patterns roles;
  so_available : templatesAvailable rs = (0 <? length (patterns roles))%nat;
  so_dynamic : ∀ r, r ∈ dynamicRoles rs ↔ allowed roles ids r }.

Lemma UpdateDynamicRoles_ok roles ids rs : store_of roles ids rs →
  store_of roles (projectIDs rs) (UpdateDynamicRoles rs).
Proof.
  intros [Hs Ht Ha _]. split; simpl; [done..|]. intros r.
  rewrite elem_of_expand_loop, Hs, Ht. unfold statics, patterns. setoid_rewrite list_elem_of_filter.
  split.
  - intros [[??]|(t & id & [??] & ? & ->)]; by constructor.
  - intros []; naive_solver.
Qed.

Lemma NewRoleStore_ok roles : store_of roles [] (NewRoleStore roles).
Proof.
  unfold NewRoleStore. rewrite split_roles_spec. simpl. split; [done..|]. simpl.
  intros r. rewrite elem_of_expand_loop. unfold statics. setoid_rewrite list_elem_of_filter.
  split.
  - intros [[??]|(t & id & _ & Hid & _)]; [by constructor|by apply elem_of_nil in Hid].
  - intros [role ? ?|t id _ _ Hid]; [by left|by apply elem_of_nil in Hid].
Qed.

Lemma SetProjectIDs_ok roles ids ids' rs : store_of roles ids rs → store_of roles ids (SetProjectIDs ids' rs).
Proof. by intros []. Qed.

(** The keys of the created projects of an update, when no pointer of it is nil. *)
Definition created (update : list ProjectUpdate) : list string :=
  omap (λ p, if decide (pu_Data p = Some "Created") then Some (pu_Key p) else None) update.

Lemma collect_spec update acc projects : collect update acc = Some projects →
  projects = acc ++ created update ∧ ∀ p, p ∈ update → is_Some (pu_Data p).
Proof.
  revert acc. induction update as [|p update IH]; intros acc; simpl.
  { intros [= <-]. rewrite app_nil_r. split; [done|]. by intros p ?%elem_of_nil. }
  destruct (pu_Data p) as [status|] eqn:Hp; [|done]. intros Hc. apply IH in Hc as [Hc Hall]. rewrite Hc.
  split; [|intros q [->|?]%elem_of_cons; eauto]. unfold created. cbn.
  destruct (String.eqb_spec status "Created"); case_decide; try congruence.
  by rewrite <- app_assoc.
Qed.

(** ** Executions *)

Section service.
Context `{TokenLib} (keyset : KeySet).

Inductive exec (s : Service) : list Label → Service → Prop :=
  | exec_nil : exec s [] s
  | exec_snoc tr s1 l s2 : exec s tr s1 → service_step keyset s1 l s2 → exec s (tr ++ [l]) s2.

(** The projects of the update last received, and of the update last applied: the one
    received when [UpdateDynamicRoles] last ran. *)
Definition observe (o : list string * list string) (l : Label) : list string * list string :=
  match l with
  | Fetch (EvReceived update) => (created update, o.2)
  | Fetch EvUpdated => (o.1, o.1)
  | _ => o
  end.
Definition observed (tr : list Label) : list string * list string := foldl observe ([], []) tr.
Definition applied (tr : list Label) : list string := (observed tr).2.

Lemma observed_snoc tr l : observed (tr ++ [l]) = observe (observed tr) l.
Proof. unfold observed. by rewrite foldl_app. Qed.

(** What is pending at each point of the goroutine. *)
Definition pending (received : list string) (s : Service) : Prop :=
  match sv_pc s with
  | AtSetProjectIDs projects => projects = received
  | AtUpdateDynamicRoles => projectIDs (sv_rs s) = received
  | _ => True
  end.

Lemma service_invariant content tr s : exec (auth_main content) tr s →
  store_of (Split content "010") (applied tr) (sv_rs s) ∧ pending (observed tr).1 s.
Proof.
  intros Hx. induction Hx as [|tr s1 l s2 _ [IHs IHp] Hstep].
  - unfold auth_main. split; [apply NewRoleStore_ok|]. unfold pending. simpl. by destruct (HasTemplatesAvailable _).
  - unfold applied, pending in *. rewrite observed_snoc.
    destruct Hstep as [ev pc rs Hf|now r _]; [|done]. simpl.
    destruct (sv_pc s1), ev; simplify_eq/=; try (split; [done|exact I]).
    + split; [done|]. destruct (collect update []) eqn:Hc; [|done]. simpl.
      by apply collect_spec in Hc as [-> _].
    + split; [by apply SetProjectIDs_ok|done].
    + split; [|done]. rewrite <- IHp. eapply UpdateDynamicRoles_ok; eauto.
Qed.

(** The roles a token holds, as gjson reads them from its JSON. *)
Definition holds_role (roles ids : list string) (token : Token) : Prop :=
  ∃ payload role, jwt_Marshal token = inr payload ∧ allowed roles ids role ∧
    gjson_Get_String payload role ≠ "".

Lemma find_role_spec payload roles :
  find_role payload roles = true ↔ ∃ role, role ∈ roles ∧ gjson_Get_String payload role ≠ "".
Proof.
  induction roles as [|r roles IH]; simpl; [set_solver|].
  destruct (gjson_Get_String payload r) eqn:Hr; simpl.
  - rewrite IH. split; [set_solver|]. intros (role & [->|?]%elem_of_cons & Hne); [congruence|eauto].
  - split; [|done]. intros _. exists r. rewrite Hr. set_solver.
Qed.

Lemma verifyClaims_spec roles ids rs token : store_of roles ids rs →
  verifyClaims token (GetRoles rs) = None ↔ holds_role roles ids token.
Proof.
  intros Hs. unfold verifyClaims, holds_role. destruct (jwt_Marshal token) as [e|payload]; [naive_solver|].
  destruct (find_role payload (GetRoles rs)) eqn:Hf.
  - split; [|done]. intros _. apply find_role_spec in Hf as (role & Hr & Hne).
    exists payload, role. split_and!; [done|by apply (so_dynamic _ _ _ Hs)|done].
  - split; [done|]. intros (? & role & [= <-] & Hr & Hne). 
    assert (find_role payload (GetRoles rs) = true); [|congruence].
    apply find_role_spec. exists role. split; [by apply (so_dynamic _ _ _ Hs)|done].
Qed.

(** C34: whatever the interleaving of the requests with the goroutine that receives project
    updates, every request to /verifyall is answered by the state of one moment: 401 without
    a valid token, 200 exactly when the token holds a static role or a template of the roles
    file instantiated with a project that is Created in the update last applied, 403
    otherwise; before the first update no template grants anything. *)
Theorem verify_by_last_update content tr1 now r a tr2 s :
  exec (auth_main content) (tr1 ++ Verify now r a :: tr2) s →
  match jwt_ParseRequest "Authorization" keyset now r with
  | inl _ => an_Status a = StatusUnauthorized
  | inr token =>
      (an_Status a = StatusOK ↔ holds_role (Split content "010") (applied tr1) token) ∧
      (an_Status a = StatusForbidden ↔ ¬ holds_role (Split content "010") (applied tr1) token)
  end.
Proof.
  intros Hx. remember (tr1 ++ Verify now r a :: tr2) as tr eqn:Htr. revert tr2 Htr.
  induction Hx as [|tr s1 l s2 Hx IH Hstep]; intros tr2 Htr; [by destruct tr1|].
  destruct tr2 as [|l' tr2' _] using rev_ind.
  - apply app_inj_tail in Htr as [-> ->]. inversion Hstep as [|? ? Hpc]; subst.
    apply service_invariant in Hx as [Hs _]. unfold NewHandler.
    destruct (jwt_ParseRequest _ _ _ _) as [e|token]; [done|].
    rewrite <- (verifyClaims_spec _ _ _ _ Hs). by destruct (verifyClaims _ _).
  - rewrite app_comm_cons, app_assoc in Htr. apply app_inj_tail in Htr as [-> _]. by eapply IH.
Qed.

(** An update with a project without data ends the process. *)
Lemma nil_data_panics update p rs : p ∈ update → pu_Data p = None →
  fetch_step (EvReceived update) AtRecv rs = Some (Panicked, rs).
Proof.
  intros Hp Hd. simpl. destruct (collect update []) as [projects|] eqn:Hc; [|done].
  apply collect_spec in Hc as [_ Hall]. destruct (Hall p Hp). congruence.
Qed.
End service.

(** ** Project paths *)

(** [/v[0-9]+/projects/([^/]+)/] as a grammar. *)
Record project_path (uri version name rest : string) : Prop := mk_project_path {
  pp_version : version ≠ "" ∧ all_chars is_digit version = true;
  pp_name : name ≠ "" ∧ all_chars (λ c, negb (Ascii.eqb c "/")) name = true;
  pp_uri : uri = "/v" +:+ version +:+ "/projects/" +:+ name +:+ "/" +:+ rest }.

Lemma projectPathRegex_spec uri name :
  projectPathRegex uri = Some name ↔ ∃ version rest, project_path uri version name rest.
Proof.
  unfold projectPathRegex. split.
  - destruct (strip "/v" uri) as [s|] eqn:Hu; simpl; [|done]. apply strip_spec in Hu as ->.
    pose proof (span_spec is_digit s) as Hs. destruct (span _ s) as [version s1]. destruct Hs as [-> Hv].
    destruct version as [|d version]; [done|].
    destruct (strip "/projects/" s1) as [s2|] eqn:H1; simpl; [|done]. apply strip_spec in H1 as ->.
    pose proof (span_spec (λ c, negb (Ascii.eqb c "/")) s2) as Hs. destruct (span _ s2) as [n s3].
    destruct Hs as [-> Hn]. destruct n as [|c n]; [done|].
    destruct (strip "/" s3) as [rest|] eqn:H3; [|done]. apply strip_spec in H3 as ->.
    intros [= <-]. exists (String d version), rest. by split.
  - intros (version & rest & [[Hv Hvd] [Hn Hnc] ->]).
    rewrite (proj2 (strip_spec _ _ _) eq_refl). simpl.
    change ("/projects/" +:+ name +:+ "/" +:+ rest) with (String "/" ("projects/" +:+ name +:+ "/" +:+ rest)).
    rewrite span_app by done. destruct version as [|d version]; [done|].
    change (String "/" ("projects/" +:+ name +:+ "/" +:+ rest)) with ("/projects/" +:+ (name +:+ "/" +:+ rest)).
    rewrite (proj2 (strip_spec _ _ _) eq_refl). simpl.
    change ("/" +:+ rest) with (String "/" rest). rewrite span_app by done.
    destruct name as [|c name]; [done|reflexivity].
Qed.

(** the pattern of a project path, read as a function, accepts exactly the URIs of the
    regular expression and returns the project segment as it is written there. *)
Theorem project_path_pattern uri name :
  projectPathRegex uri = Some name ↔ ∃ version rest, project_path uri version name rest.
Proof. apply projectPathRegex_spec. Qed.
