(* ===== verification/ResolverSpec.v ===== *)
(** * The forward-auth service in front of the tenancy manager

    /resolveproject of the auth-service composed with [Router] of the tenancy manager over
    its store: the header the gateway receives carries the id of a project the caller may
    see.  [Transport] is what carries a request from one process to the other. *)

From S2P Require Import Prelude GoStd Monad EntSchema Sqlgraph EntQuery EntMutation Config Store.
From S2P Require Import Logic EntSpec Wf EntLoad StoreOrg StoreProject.
From S2P Require Import Backend Http Auth Api AuthSpec ApiGuard ApiScope ApiOrg AuthService AuthServiceSpec.
From Stdlib Require Import Ascii.

(** What becomes of a request: delivered and answered, never sent, or its answer lost. *)
Inductive Fate := Delivered | NotSent (e : error) | ReplyLost (e : error).

(** The network and the HTTP server of the tenancy manager: the request the router sees,
    the fate of a request in a state of the store, and the text of the errors. *)
Class Transport := {
  tp_NewRequest : string → option error;
  tp_receive : HTTPRequest → Request;
  tp_fate : HTTPRequest → World → Fate;
  tp_json_Time : Time → JSON;
  tp_json_error : Body → error }.

(** A segment as the router of the tenancy manager sees it: unescaped, unless it is not in the
    default form of a path, when [URL.RawPath] keeps it as it was sent and chi routes by that. *)
Definition routed_segment (name : string) : string :=
  let escaped := url_escape encodePathSegment name in
  if String.eqb escaped (url_escape encodePath name) then name else escaped.

(** A URL below the address of the service reaches the router with its last segment seen so,
    without a query, with its own headers. *)
Class TransportLaws `{Transport} (base : string) : Prop := {
  receive_segment : ∀ method name header,
    tp_receive (mkHTTPRequest method (base +:+ "/v1/projects/" +:+ url_escape encodePathSegment name) header NoReqBody) =
    mkRequest method ("/v1/projects/" +:+ routed_segment name) "" "" [] header BodyEOF None }.

Lemma routed_segment_char name : all_chars (λ c, negb (Ascii.eqb c "/")) name = true →
  all_chars (λ c, negb (Ascii.eqb c "/")) (routed_segment name) = true.
Proof.
  intros Hn. unfold routed_segment. cbv zeta. destruct (String.eqb _ _); [done|].
  apply url_escape_chars. intros c. destruct c as [[] [] [] [] [] [] [] []]; vm_compute; reflexivity.
Qed.
Lemma routed_segment_empty name : name ≠ "" → routed_segment name ≠ "".
Proof.
  intros Hn. unfold routed_segment. cbv zeta. destruct (String.eqb _ _); [done|]. destruct name as [|c name]; [done|].
  destruct c as [[] [] [] [] [] [] [] []]; discriminate.
Qed.

Section client.
Context `{UUIDLib} `{StoreBackend} `{Chi} `{Transport} (h : APIHandler).

(** The client of the resolver, the tenancy manager at the other end. *)
Definition router_do (q : HTTPRequest) : M HTTPReply := λ w,
  match tp_fate q w with
  | NotSent e => (inl e, w)
  | Delivered =>
      match Router h (tp_receive q) w with
      | (inl e, w') => (inl e, w')
      | (inr resp, w') => (inr (mkHTTPReply (StatusCode resp) "" 0 "" (encode_payload tp_json_Time (payload resp))), w')
      end
  | ReplyLost e => (inl e, (Router h (tp_receive q) w).2)
  end.
Definition router_client : TenancyClient World := {|
  tm_NewRequest := tp_NewRequest; tm_Do := router_do; tm_json_error := tp_json_error |}.

(** A request that reaches the router may be answered, or its answer lost. *)
Lemma wp_router_do q (Q : error + HTTPReply → World → Prop) w :
  (∀ e, Q (inl e) w) →
  wp (Router h (tp_receive q)) (λ res w',
    match res with
    | inl e => Q (inl e) w'
    | inr resp => Q (inr (mkHTTPReply (StatusCode resp) "" 0 "" (encode_payload tp_json_Time (payload resp)))) w'
    end ∧ ∀ e, Q (inl e) w') w →
  wp (router_do q) Q w.
Proof.
  intros Hns Hr. destruct (wp_out _ _ _ Hr) as (res & w' & Hrun & HQ & Hlost).
  destruct (wp_out _ _ _ (wp_self (router_do q) w)) as (r & w2 & Hdo & _).
  apply (wp_run _ _ _ _ _ Hdo). unfold router_do in Hdo. rewrite Hrun in Hdo.
  destruct (tp_fate q w); [destruct res|..]; by injection Hdo as <- <-.
Qed.
End client.

(** ** The answer of the tenancy manager *)

Lemma project_route `{Chi} `{!ChiLaws} name e name' id :
  all_chars (λ c, negb (Ascii.eqb c "/")) name = true → name ≠ "" →
  find_route MethodGet ("/v1/projects/" +:+ name) = RouteFound e name' id →
  e = EpGetProject ∧ name' = name.
Proof.
  intros Hc Hne Hf. apply route_found in Hf as [Hm Hp].
  assert (∀ s, "/v1/projects/" +:+ name = "/v1/projects/" +:+ s → name = s) as Hinj.
  { intros s Hs. assert (strip "/v1/projects/" ("/v1/projects/" +:+ name) = Some s) as Hst by (by apply strip_spec).
    rewrite (proj2 (strip_spec _ _ _) eq_refl) in Hst. by injection Hst. }
  destruct e; try discriminate Hm; simpl in Hp; try discriminate Hp.
  - split; [done|]. symmetry. by apply Hinj.
  - apply Hinj in Hp. subst name. rewrite all_chars_app in Hc. simpl in Hc. by rewrite andb_false_r in Hc.
Qed.

Lemma decode_project `{UUIDLib} jt p orgName s m :
  encode_payload jt (ProjectBody (toProjectResponse p orgName s m)) = BodyJSON (json_project (toProjectResponse p orgName s m)) ∧
  decode_result (json_project (toProjectResponse p orgName s m)) = Some (uuid_String (Project_ID p)).
Proof. done. Qed.

(** ** The composition *)

(** The claims of an Authorization header, and the scope of the orgs of a token. *)
Definition token_claims (Validate : string → error + MapClaims) (authHeader : string) : option MapClaims :=
  token ← bearer_token authHeader;
  match Validate token with inl _ => None | inr claims => Some claims end.
Definition scope_of (names : list string) : option (list string) :=
  match names with [] => None | _ => Some names end.

Section resolver.
Context `{Driver} `{Runtime} `{FieldValidators} `{UUIDLib} `{Chi} `{Transport} `{TokenLib}.
Context `{!DriverLaws} `{!Quiet} `{!FieldValidatorsLaws} `{!UUIDLaws} `{!ChiLaws}.
Context (h : APIHandler) (base : string) `{!TransportLaws base}.

Lemma API_GetProject_ok r db t : db_wf db →
  wp (API_GetProject h r) (λ res w', w_db w' = db ∧ w_tx w' = None ∧ ∃ resp, res = inr resp ∧
    (StatusCode resp = StatusOK → ∃ p orgName s m, payload resp = ProjectBody (toProjectResponse p orgName s m) ∧
      ∀ p', visible (r_name r) (resolveOrgNames r) db p' ↔ p' = p)) (mkWorld db None t).
Proof.
  intros Hwf. unfold API_GetProject. cbv zeta. destruct (isOrgScopeDenied _).
  { wp_step. split_and!; [done..|]. eexists. by split. }
  wp_step. wp_step. eapply wp_mono; [by apply GetProject_ok|]. intros [err|[n o]] [db' tx' t'] (Hdb & Htx & Hr).
  - simpl in *. subst. wp_step. split_and!; [done..|]. eexists. split; [done|].
    unfold lookup_failed. by destruct (IsNotFound err), (isAmbiguous err).
  - simpl in *. subst. destruct Hr as (p & -> & -> & Hp). wp_step. unfold project_response. wp_step.
    apply wp_DeriveStatus. intros s t2. wp_step. wp_step. split_and!; [done..|].
    eexists. split; [done|]. intros _. by eexists p, _, _, _.
Qed.

(** A project the tenancy manager shows to the bearer of [authHeader] under [name], from
    the state [w]: the only one of that name in the scope of the token. *)
Inductive granted Validate (authHeader name : string) (db : DB) (w : World) (p : Project) : Prop :=
  mk_granted claims names :
    token_claims Validate authHeader = Some claims →
    permitted EpGetProject (extractRolesFromClaims claims) →
    (resolve_names (extractOrgUUIDs (extractRolesFromClaims claims)) w).1 = inr names →
    (∀ p', visible name (scope_of names) db p' ↔ p' = p) →
    granted Validate authHeader name db w p.

Lemma router_project Validate name header db t :
  h_jwtValidator h = Some Validate → db_wf db →
  all_chars (λ c, negb (Ascii.eqb c "/")) name = true → name ≠ "" →
  wp (Router h (mkRequest MethodGet ("/v1/projects/" +:+ name) "" "" [] header BodyEOF None))
    (λ res w', w_db w' = db ∧ w_tx w' = None ∧ ∃ resp, res = inr resp ∧
      (StatusCode resp = StatusOK → ∃ p orgName s m, payload resp = ProjectBody (toProjectResponse p orgName s m) ∧
        granted Validate (Get header "Authorization") name db (mkWorld db None t) p)) (mkWorld db None t).
Proof.
  intros Hv Hwf Hc Hne. set (r := mkRequest _ _ _ _ _ _ _ _).
  destruct (find_route (r_method r) (r_path r)) as [e name' id| |] eqn:Hf.
  2,3: unfold Router; rewrite Hf; wp_step; split_and!; [done..|]; eexists; by split.
  destruct (project_route name e name' id Hc Hne Hf) as [-> ->].
  pose proof (Router_guard h Validate EpGetProject name id r (mkWorld db None t) Hv Hf eq_refl) as Hg.
  destruct (request_claims Validate r) as [claims|] eqn:Hrc.
  2: { destruct Hg as [msg Hg]. apply (wp_run _ _ _ _ _ Hg). split_and!; [done..|]. eexists. by split. }
  destruct Hg as (names & w1 & Hn & Hg).
  pose proof (resolve_names_ok (extractOrgUUIDs (extractRolesFromClaims claims)) db t Hwf) as Hres.
  apply (wp_run _ _ _ _ _ Hn) in Hres as (Hdb & Htx & _). destruct w1 as [db1 tx1 t1]. simpl in Hdb, Htx. subst db1 tx1.
  destruct Hg as [[Hp Hg]|[_ Hg]].
  2: { apply (wp_run _ _ _ _ _ Hg). split_and!; [done..|]. eexists. by split. }
  destruct (wp_out _ _ _ (API_GetProject_ok (with_auth (auth_context claims names) (with_params name id r)) db t1 Hwf))
    as (res & w2 & Heq & Hdb2 & Htx2 & resp & Hresp & Hok).
  change (DeletionCheckMiddleware (endpoint_handler h EpGetProject) (with_auth (auth_context claims names) (with_params name id r)))
    with (API_GetProject h (with_auth (auth_context claims names) (with_params name id r))) in Hg.
  rewrite Heq in Hg. apply (wp_run _ _ _ _ _ Hg). split_and!; [done..|]. exists resp. split; [done|].
  intros (p & orgName & s & m & Hb & Hvis)%Hok. exists p, orgName, s, m. split; [done|].
  apply (mk_granted _ _ _ _ _ _ claims names); [exact Hrc|done|by rewrite Hn|].
  intros p'. rewrite <- Hvis. by destruct names.
Qed.

Notation resolve := (resolveProjectUUID (H0 := router_client h)).

Lemma wp_resolve Validate name authHeader db t :
  h_jwtValidator h = Some Validate → db_wf db →
  all_chars (λ c, negb (Ascii.eqb c "/")) name = true → name ≠ "" →
  wp (resolve name authHeader base)
    (λ res w', w_db w' = db ∧ w_tx w' = None ∧ match res with
       | inr uid => ∃ p, uid = uuid_String (Project_ID p) ∧
                      granted Validate authHeader (routed_segment name) db (mkWorld db None t) p
       | inl _ => True end) (mkWorld db None t).
Proof.
  intros Hv Hwf Hc Hne. unfold resolveProjectUUID. cbv zeta. simpl tm_NewRequest.
  destruct (tp_NewRequest _); [wp_step; done|]. apply wp_bind, wp_map_error. simpl tm_Do.
  set (header := if negb _ then _ else _). set (q := mkHTTPRequest _ _ _ _).
  assert (Get header "Authorization" = authHeader) as Hauth.
  { unfold header. by destruct (String.eqb_spec authHeader ""). }
  apply wp_router_do; [done|]. unfold q. rewrite receive_segment.
  eapply wp_mono; [apply (router_project Validate (routed_segment name) header db t); [done|done|by apply routed_segment_char|by apply routed_segment_empty]|].
  intros res w' (Hdb & Htx & resp & -> & Hok). rewrite Hauth in Hok. split; [|done]. cbn [hp_StatusCode hp_Body].
  destruct (Z.eqb_spec (StatusCode resp) StatusNotFound); [wp_step; done|].
  destruct (Z.eqb_spec (StatusCode resp) StatusOK) as [Heq|]; cbn [negb]; [|wp_step; done].
  destruct (Hok Heq) as (p & orgName & s & m & Hb & Hg). rewrite Hb.
  destruct (decode_project tp_json_Time p orgName s m) as [-> ->].
  cbn iota beta. destruct (String.eqb_spec (uuid_String (Project_ID p)) ""); wp_step; [done|]. split_and!; [done..|]. eauto.
Qed.

(** C2: the composition of the two services, while no other connection commits between the
    statements of the tenancy manager.  /resolveproject writes nothing to the database and answers
    401 without a valid token, 400 without a project path, and else 404 or 200.  A 200 carries
    exactly one header, the id of the one active project that bears the name in the path, as the
    tenancy manager's router sees it when it is sent escaped (routed_segment: itself, but for a
    name with a comma or semicolon, which stays escaped), and that the tenancy manager shows to the
    bearer of the token: its validator accepts it, its roles permit the reading of projects, and
    the project is in the orgs of the token when these resolve to a name. *)
Theorem resolver_isolation Validate keyset now r db t :
  h_jwtValidator h = Some Validate → db_wf db →
  wp (NewProjectResolverHandler (H0 := router_client h) keyset base now r)
    (λ res w', w_db w' = db ∧ w_tx w' = None ∧ ∃ a, res = inr a ∧
      match jwt_ParseRequest "Authorization" keyset now r, projectPathRegex (forwarded_uri r) with
      | inl _, _ => an_Status a = StatusUnauthorized
      | inr _, None => an_Status a = StatusBadRequest
      | inr _, Some name => an_Status a = StatusNotFound ∨
          an_Status a = StatusOK ∧ ∃ p,
            an_Header a = [("Activeprojectid", uuid_String (Project_ID p))] ∧
            granted Validate (Get (aq_Header r) "Authorization") (routed_segment name) db (mkWorld db None t) p
      end) (mkWorld db None t).
Proof.
  intros Hv Hwf. unfold NewProjectResolverHandler.
  destruct (jwt_ParseRequest _ _ _ _) as [e|token]; [wp_step; eauto|].
  destruct (projectPathRegex (forwarded_uri r)) as [name|] eqn:Hp; [|wp_step; eauto].
  apply projectPathRegex_spec in Hp as (version & rest & [_ [Hne Hc] _]).
  wp_step. wp_step. eapply wp_mono; [by apply wp_resolve|].
  intros [e|uid] w' (Hdb & Htx & Hr); wp_step; (split_and!; [done..|]); eexists; (split; [done|]); [by left|right].
  destruct Hr as (p & -> & Hg). split; [done|]. exists p. split; [reflexivity|done].
Qed.
End resolver.
