(* ===== verification/SideServers.v ===== *)
(** * The token file server and the secrets proxy

    token-fs (internal/handler.go, cmd/token-fs/main.go) gives the files of a directory to the
    bearers of a token with one of its roles.  The token library is the one of AuthService.v;
    the file server of net/http is a parameter.  aws-sm-proxy (internal/handler.go,
    cmd/proxy/main.go) gives the value of a secret of AWS to whoever asks; AWS is a
    parameter. *)

From S2P Require Import Prelude GoStd Monad EntSchema EntMutation Config Http AuthService.
From Stdlib Require Import Ascii.

Section handler.
Context `{TokenLib}.

(** [None] is a nil error. *)
Definition verifyClaims (token : Token) (allowRoles : list string) : option error :=
  match jwt_Marshal token with
  | inl err => Some (errWrap "could not marshal claims: " err "")
  | inr payload =>
      if existsb (λ role, (0 <? String.length (gjson_Get_String payload role))%nat) allowRoles then None
      else Some (errText ("could not find expected roles: [" +:+ Join allowRoles " " +:+ "]"))
  end.
(** The body is written before the status, which is 200 then. *)
Definition NewFileHandler (keyset : KeySet) (fs : AuthRequest → Answer) (allowRoles : list string) (emptyRSToken : bool)
    (now : Time) (r : AuthRequest) : Answer :=
  if emptyRSToken then mkAnswer StatusOK [] "anonymous" else
  match jwt_ParseRequest "Authorization" keyset now r with
  | inl _ => http_Error "Invalid token" StatusUnauthorized
  | inr token =>
      match verifyClaims token allowRoles with
      | Some _ => http_Error "Invalid claims" StatusForbidden
      | None => fs r
      end
  end.

(** The flags of the process and what it reads at start: the key set, and the roles file.  A
    path is in canonical form: net/http redirects every other one itself. *)
Record Flags := mkFlags { f_jwksURL : string; f_fileServerPath : string; f_rolesFile : string; f_emptyRSToken : bool }.
Definition token_fs_main (flags : Flags) (keySet : error + KeySet) (roles : error + string)
    (FileServer : string → AuthRequest → Answer) : option (string → Time → AuthRequest → Answer) :=
  if String.eqb (f_jwksURL flags) "" then None
  else if String.eqb (f_rolesFile flags) "" then None
  else if negb (f_emptyRSToken flags) && String.eqb (f_fileServerPath flags) "" then None
  else match keySet, roles with
       | inr keySet, inr content =>
           Some (λ path, if String.eqb path "/healthz" then λ _ _, mkAnswer StatusOK [] "hihi"
                         else NewFileHandler keySet (FileServer (f_fileServerPath flags)) (Split content "010")
                                (f_emptyRSToken flags))
       | _, _ => None
       end.

(** An answer of the file server, to a request on any path but /healthz, needs a token that
    the library accepts and whose claims have a role of the file. *)
Lemma files_need_a_role flags keySet roles FileServer serve path now r :
  token_fs_main flags keySet roles FileServer = Some serve → path ≠ "/healthz" → f_emptyRSToken flags = false →
  (∃ ks content token payload role, keySet = inr ks ∧ roles = inr content ∧
     jwt_ParseRequest "Authorization" ks now r = inr token ∧ jwt_Marshal token = inr payload ∧
     role ∈ Split content "010" ∧ gjson_Get_String payload role ≠ "" ∧
     serve path now r = FileServer (f_fileServerPath flags) r) ∨
  an_Status (serve path now r) ∈ [StatusUnauthorized; StatusForbidden].
Proof.
  unfold token_fs_main. intros Hmain Hpath Hempty. do 3 (destruct (_ : bool); [done|]).
  destruct keySet as [|ks]; [done|]. destruct roles as [|content]; [done|]. injection Hmain as <-.
  rewrite (proj2 (String.eqb_neq _ _) Hpath). unfold NewFileHandler, verifyClaims. rewrite Hempty.
  destruct (jwt_ParseRequest _ _ _ _) as [|token] eqn:Hparse; [right; by left|].
  destruct (jwt_Marshal token) as [|payload] eqn:Hm; [right; right; by left|].
  destruct (existsb _ _) eqn:He; [left|right; right; by left].
  apply existsb_exists in He as (role & Hin%list_elem_of_In & Hlen).
  exists ks, content, token, payload, role. split_and!; try done. by destruct (gjson_Get_String payload role).
Qed.
End handler.

(** [GetSecretValue]: the string of a secret, if it has one. *)
Class SecretsManager := { sm_GetSecretValue : string → error + option string }.

Definition NewProxyAWSHandler `{SecretsManager} (secretName : string) : Answer :=
  if String.eqb secretName "" then mkAnswer StatusBadRequest [] ("query param name empty" +:+ newline) else
  match sm_GetSecretValue secretName with
  | inl err => mkAnswer StatusInternalServerError [] (Error err +:+ newline)
  | inr (Some s) => mkAnswer StatusOK [] (s +:+ newline)
  | inr None => mkAnswer StatusNotFound [] ("secret is binary" +:+ newline)
  end.
(** [path] is in canonical form, see [token_fs_main]. *)
Definition proxy_mux `{SecretsManager} (path secretName : string) : Answer :=
  if String.eqb path "/aws-secret" then NewProxyAWSHandler secretName
  else if String.eqb path "/healthz" then mkAnswer StatusOK [] "hihi"
  else http_Error "404 page not found" StatusNotFound.

(** 200 is the value of the secret asked for, followed by a newline. *)
Lemma proxy_ok `{SecretsManager} name : an_Status (NewProxyAWSHandler name) = StatusOK ↔
  name ≠ "" ∧ ∃ s, sm_GetSecretValue name = inr (Some s) ∧ an_Text (NewProxyAWSHandler name) = s +:+ newline.
Proof.
  unfold NewProxyAWSHandler. destruct (String.eqb_spec name "") as [->|Hne]; [by split; [|intros [? _]]|].
  destruct (sm_GetSecretValue name) as [e|[s|]]; simpl; naive_solver.
Qed.
