(* ===== verification/ComponentStatus.v ===== *)
(** * The component status service

    component-status: pkg/config/loader.go (the configuration and its features, which nest),
    pkg/handler/status.go (the three handlers), and cmd/component-status/main.go up to the
    server.  Reading the file and YAML are parameters; an answer holds the JSON value that is
    encoded, not its text. *)

From S2P Require Import Prelude GoStd Monad EntSchema EntMutation Config Http.
From Stdlib Require Import Ascii.

(** ** loader.go *)

(** The sub-features are the other keys of a feature ([yaml:",inline"]); a map is the list of
    its pairs, no key twice. *)
#[local] Unset Elimination Schemes.
Inductive Feature := mkFeature (Installed : bool) (SubFeatures : list (string * Feature)).
#[local] Set Elimination Schemes.
Definition Installed (f : Feature) : bool := let 'mkFeature b _ := f in b.
Definition SubFeatures (f : Feature) : list (string * Feature) := let 'mkFeature _ l := f in l.
(** [Features] is [None] when the map is nil. *)
Record Orchestrator := mkOrchestrator { or_Version : string; or_Features : option (list (string * Feature)) }.
Record StatusConfig := mkStatusConfig { SchemaVersion : string; cfg_Orchestrator : Orchestrator }.

(** encoding/json writes the keys of a map in order. *)
Fixpoint insert_key {A} (kv : string * A) (l : list (string * A)) : list (string * A) :=
  match l with
  | [] => [kv]
  | x :: l => if String.leb kv.1 x.1 then kv :: x :: l else x :: insert_key kv l
  end.
Definition sort_keys {A} (l : list (string * A)) : list (string * A) := foldr insert_key [] l.
(** [result[key] = value] *)
Fixpoint put {A} (kv : string * A) (l : list (string * A)) : list (string * A) :=
  match l with
  | [] => [kv]
  | x :: l => if String.eqb x.1 kv.1 then kv :: l else x :: put kv l
  end.
Fixpoint MarshalJSON (f : Feature) : JSON :=
  match f with
  | mkFeature installed subs =>
      JObj (sort_keys (foldl (λ result kv, put kv result) [("installed", JBool installed)]
        (List.map (λ '(key, value), (key, MarshalJSON value)) subs)))
  end.
Definition json_features (features : option (list (string * Feature))) : JSON :=
  match features with
  | None => JNull
  | Some l => JObj (sort_keys ((λ kv, (kv.1, MarshalJSON kv.2)) <$> l))
  end.
Definition json_status (c : StatusConfig) : JSON :=
  JObj [("schema-version", JStr (SchemaVersion c));
        ("orchestrator", JObj [("version", JStr (or_Version (cfg_Orchestrator c)));
                               ("features", json_features (or_Features (cfg_Orchestrator c)))])].

Class StatusFiles := {
  status_ReadFile : string → error + string;
  yaml_Config : string → error + StatusConfig }.

Definition Load `{StatusFiles} (path : string) : error + StatusConfig :=
  match status_ReadFile path with
  | inl err => inl (Errorf "failed to read config file: " err)
  | inr data =>
      match yaml_Config data with
      | inl err => inl (Errorf "failed to parse config file: " err)
      | inr config =>
          if String.eqb (SchemaVersion config) "" then inl (errText "schema-version is required")
          else if String.eqb (or_Version (cfg_Orchestrator config)) "" then inl (errText "orchestrator.version is required")
          else inr config
      end
  end.

Definition feature (features : list (string * Feature)) (name : string) : option Feature :=
  snd <$> List.find (λ kv, String.eqb kv.1 name) features.
Fixpoint installed_in (features : list (string * Feature)) (path : list string) : bool :=
  match path with
  | [] => false
  | name :: path =>
      match feature features name with
      | None => false
      | Some f => match path with [] => Installed f | _ => installed_in (SubFeatures f) path end
      end
  end.
Definition IsFeatureInstalled (c : StatusConfig) (path : list string) : bool :=
  match path with [] => false | _ => installed_in (default [] (or_Features (cfg_Orchestrator c))) path end.

(** ** status.go *)

Inductive StatusBody := StatusText (s : string) | StatusJSON (j : JSON) | StatusRedirect (location : string).
Record StatusAnswer := mkStatusAnswer { sa_Status : Z; sa_Header : list (string * string); sa_Body : StatusBody }.
Definition status_error (msg : string) (status : Z) : StatusAnswer :=
  mkStatusAnswer status [("Content-Type", "text/plain; charset=utf-8"); ("X-Content-Type-Options", "nosniff")]
    (StatusText (msg +:+ String "010" EmptyString)).

Definition GetStatus (c : StatusConfig) (method : string) : StatusAnswer :=
  if negb (String.eqb method MethodGet) then status_error "Method not allowed" StatusMethodNotAllowed
  else mkStatusAnswer StatusOK
         [("Content-Type", "application/json"); ("Cache-Control", "no-store"); ("Access-Control-Expose-Headers", "Date")]
         (StatusJSON (json_status c)).
Definition check_answer (status method : string) : StatusAnswer :=
  if negb (String.eqb method MethodGet) then status_error "Method not allowed" StatusMethodNotAllowed
  else mkStatusAnswer StatusOK [("Content-Type", "application/json")] (StatusJSON (JObj [("status", JStr status)])).
Definition HealthCheck : string → StatusAnswer := check_answer "healthy".
Definition ReadyCheck : string → StatusAnswer := check_answer "ready".

(** ** main.go *)

Definition getEnv (getenv : string → string) (key defaultValue : string) : string := or_else (getenv key) defaultValue.
(** [http.ServeMux], for a path that starts with a slash; the query and the body of the
    redirect are left out. *)
Definition at_path (path : string) (pattern : list string) : bool := bool_decide (path_segments path = pattern).
Definition status_mux `{ServeMuxLib} (c : StatusConfig) (path method : string) : StatusAnswer :=
  if redirects method path
  then mkStatusAnswer redirect_Status [("Location", cleanPath path)] (StatusRedirect (cleanPath path))
  else if at_path path ["v1"; "orchestrator"] then GetStatus c method
  else if at_path path ["healthz"] then HealthCheck method
  else if at_path path ["readyz"] then ReadyCheck method
  else status_error "404 page not found" StatusNotFound.
(** The address and the handler of the server, or the end of the process. *)
Definition status_main `{StatusFiles} `{ServeMuxLib} (getenv : string → string) : error + string * (string → string → StatusAnswer) :=
  let port := getEnv getenv "PORT" "8080" in
  match Load (getEnv getenv "CONFIG_PATH" "/etc/component-status/config.yaml") with
  | inl err => inl err
  | inr cfg => inr (":" +:+ port, status_mux cfg)
  end.
