(* ===== verification/ComponentStatusSpec.v ===== *)
(** * The component status service: what it tells of a feature

    The answer of /v1/orchestrator and [IsFeatureInstalled] agree on every path of features. *)

From S2P Require Import Prelude GoStd Monad EntSchema EntMutation Config Http ComponentStatus.
From Stdlib Require Import Ascii.

(** ** Configurations as YAML reads them *)

(** A mapping has no key twice, and the key of the field is not in the inline map. *)
Inductive feature_ok : Feature → Prop :=
  | feature_ok_intro installed subs : NoDup subs.*1 → "installed" ∉ subs.*1 →
      (∀ kv, kv ∈ subs → feature_ok kv.2) → feature_ok (mkFeature installed subs).
Definition features_ok (l : list (string * Feature)) : Prop := NoDup l.*1 ∧ ∀ kv, kv ∈ l → feature_ok kv.2.
Definition config_ok (c : StatusConfig) : Prop := features_ok (default [] (or_Features (cfg_Orchestrator c))).
Class YAMLLaws `{StatusFiles} : Prop := {
  yaml_ok : ∀ data c, yaml_Config data = inr c → config_ok c }.

(** ** Objects *)

Lemma member_elem k l j : NoDup l.*1 → member k l = Some j ↔ (k, j) ∈ l.
Proof.
  assert (∀ acc, NoDup l.*1 → foldl (λ acc f, if String.eqb f.1 k then Some f.2 else acc) acc l = Some j ↔
    (k, j) ∈ l ∨ (acc = Some j ∧ k ∉ l.*1)) as Hfold.
  { induction l as [|[k' j'] l IH]; intros acc Hnd; simpl; [set_solver|].
    rewrite fmap_cons, NoDup_cons in Hnd. destruct Hnd as [Hk' Hnd]. rewrite IH by done. simpl.
    rewrite elem_of_cons. destruct (String.eqb_spec k' k) as [->|Hne].
    - split; [|set_solver]. intros [?|[[= ->] ?]]; set_solver.
    - set_solver. }
  intros Hnd. unfold member. rewrite Hfold by done. split; [by intros [?|[? _]]|by left].
Qed.

Lemma insert_key_perm {A} (kv : string * A) l : insert_key kv l ≡ₚ kv :: l.
Proof.
  induction l as [|x l IH]; [done|]. simpl. destruct (String.leb _ _); [done|]. rewrite IH. by constructor.
Qed.
Lemma sort_keys_perm {A} (l : list (string * A)) : sort_keys l ≡ₚ l.
Proof. induction l as [|x l IH]; [done|]. simpl. by rewrite insert_key_perm, IH. Qed.
Lemma member_sort k (l : list (string * JSON)) : NoDup l.*1 → member k (sort_keys l) = member k l.
Proof.
  intros Hnd. assert (NoDup (sort_keys l).*1) as Hnd' by (by rewrite sort_keys_perm).
  apply option_eq. intros j. by rewrite !member_elem, sort_keys_perm.
Qed.

Lemma put_fresh {A} (kv : string * A) l : kv.1 ∉ l.*1 → put kv l = l ++ [kv].
Proof.
  induction l as [|x l IH]; [done|]. rewrite fmap_cons, not_elem_of_cons. intros [Hne Hk]. simpl.
  destruct (String.eqb_spec x.1 kv.1); [congruence|]. by rewrite IH.
Qed.
Lemma puts_fresh {A} (l result : list (string * A)) : NoDup (result ++ l).*1 →
  foldl (λ result kv, put kv result) result l = result ++ l.
Proof.
  revert result. induction l as [|kv l IH]; intros result Hnd; simpl; [by rewrite app_nil_r|].
  rewrite put_fresh, IH; rewrite <- ?(assoc_L (++)); [done|done|].
  rewrite fmap_app, fmap_cons, NoDup_app in Hnd. destruct Hnd as (_ & Hd & _). intros Hin. apply (Hd _ Hin). by left.
Qed.

(** ** The JSON of features *)

Definition marshalled (l : list (string * Feature)) : list (string * JSON) := (λ kv, (kv.1, MarshalJSON kv.2)) <$> l.
Lemma marshalled_keys l : (marshalled l).*1 = l.*1.
Proof. unfold marshalled. rewrite <- list_fmap_compose. by apply list_fmap_ext. Qed.
Lemma feature_elem l k f : NoDup l.*1 → feature l k = Some f ↔ (k, f) ∈ l.
Proof.
  intros Hnd. unfold feature. split.
  - destruct (List.find _ _) as [kv|] eqn:Hf; [|done]. apply List.find_some in Hf as [Hin%list_elem_of_In <-%String.eqb_eq].
    intros [= <-]. by destruct kv.
  - intros Hin. destruct (List.find _ _) as [kv|] eqn:Hf.
    + apply List.find_some in Hf as [Hin'%list_elem_of_In Hk%String.eqb_eq]. simpl.
      by rewrite (NoDup_fmap_inj_eq fst l kv (k, f)).
    + apply list_elem_of_In, (List.find_none _ _ Hf) in Hin as Hx. simpl in Hx. by rewrite String.eqb_refl in Hx.
Qed.
Lemma member_marshalled l k : NoDup l.*1 → member k (marshalled l) = MarshalJSON <$> feature l k.
Proof.
  intros Hnd. apply option_eq. intros j. rewrite member_elem by (by rewrite marshalled_keys).
  unfold marshalled. rewrite list_elem_of_fmap, fmap_Some. setoid_rewrite (feature_elem l k _ Hnd). split.
  - intros ([k' f] & [= -> ->] & ?). eauto.
  - intros (f & ? & ->). by exists (k, f).
Qed.

Lemma MarshalJSON_members installed subs : feature_ok (mkFeature installed subs) →
  ∃ m, MarshalJSON (mkFeature installed subs) = JObj m ∧ member "installed" m = Some (JBool installed) ∧
    ∀ k, k ≠ "installed" → member k m = MarshalJSON <$> feature subs k.
Proof.
  inversion 1 as [? ? Hnd Hni _]; subst.
  assert (List.map (λ '(key, value), (key, MarshalJSON value)) subs = marshalled subs) as Hmap.
  { unfold marshalled. apply List.map_ext. by intros []. }
  exists (sort_keys (foldl (λ result kv, put kv result) [("installed", JBool installed)] (marshalled subs))).
  split; [by rewrite <- Hmap|].
  assert (NoDup (("installed", JBool installed) :: marshalled subs).*1) as Hall.
  { rewrite fmap_cons, marshalled_keys. by constructor. }
  rewrite puts_fresh by done. change ([("installed", JBool installed)] ++ marshalled subs) with
    (("installed", JBool installed) :: marshalled subs).
  rewrite !member_sort by done. split; [apply member_elem; [done|by left]|].
  intros k Hk. rewrite member_sort by done. rewrite <- member_marshalled by done.
  apply option_eq. intros j. rewrite !member_elem by (done || by rewrite marshalled_keys). set_solver.
Qed.

(** ** Paths *)

Fixpoint json_path (j : JSON) (path : list string) : option JSON :=
  match path with
  | [] => Some j
  | k :: path => match j with
                 | JObj m => match member k m with Some j => json_path j path | None => None end
                 | _ => None
                 end
  end.

Lemma installed_json path name l m : features_ok l → member name m = MarshalJSON <$> feature l name →
  installed_in l (name :: path) = true ↔ json_path (JObj m) (name :: path ++ ["installed"]) = Some (JBool true).
Proof.
  revert name l m. induction path as [|name' path IH]; intros name l m [Hnd Hok] Hm; cbn [json_path installed_in app];
    rewrite Hm; destruct (feature l name) as [[installed subs]|] eqn:Hf; cbn [fmap option_fmap option_map]; try done;
    apply (feature_elem _ _ _ Hnd), Hok in Hf as Hfok; cbn [snd] in Hfok;
    destruct (MarshalJSON_members _ _ Hfok) as (m' & -> & Hi & Hm').
  - cbn [json_path]. rewrite Hi. simpl. split; [by intros ->|by intros [= ->]].
  - destruct (decide (name' = "installed")) as [->|Hne].
    + cbn [json_path]. rewrite Hi. inversion Hfok as [? ? Hnd' Hni _]; subst.
      assert (feature subs "installed" = None) as Hnone.
      { apply eq_None_not_Some. intros [f Hin%feature_elem]; [|done]. apply Hni, list_elem_of_fmap. by exists ("installed", f). }
      cbn [SubFeatures installed_in]. rewrite Hnone. by destruct path.
    + apply IH; [|by apply Hm']. by inversion Hfok; subst.
Qed.

Section theorem.
Context `{!StatusFiles} `{!YAMLLaws} `{!ServeMuxLib}.

(** C40: the service tells the truth about its configuration: once it runs, a GET of
    /v1/orchestrator is answered with the orchestrator's version of the configuration it
    loaded, which is not empty, and for every path of features the installed flag at the end of that path in the answer is true
    exactly when [IsFeatureInstalled] says so; every other method is refused, or sent to the canonical form of its path. *)
Theorem status_reports_features getenv addr handler : status_main getenv = inr (addr, handler) →
  ∃ c j, Load (getEnv getenv "CONFIG_PATH" "/etc/component-status/config.yaml") = inr c ∧
    sa_Status (handler "/v1/orchestrator" "GET") = StatusOK ∧
    sa_Body (handler "/v1/orchestrator" "GET") = StatusJSON j ∧
    json_path j ["orchestrator"; "version"] = Some (JStr (or_Version (cfg_Orchestrator c))) ∧
    or_Version (cfg_Orchestrator c) ≠ "" ∧
    (∀ path, IsFeatureInstalled c path = true ↔
       json_path j ("orchestrator" :: "features" :: path ++ ["installed"]) = Some (JBool true)) ∧
    (∀ path method, method ≠ "GET" → sa_Status (handler path method) ∈ [StatusMethodNotAllowed; StatusNotFound; redirect_Status]).
Proof.
  unfold status_main. destruct (Load _) as [|c] eqn:Hload; [done|]. intros [= <- <-].
  exists c, (json_status c).
  assert (config_ok c ∧ or_Version (cfg_Orchestrator c) ≠ "") as [Hok Hv].
  { unfold Load in Hload. destruct (status_ReadFile _); [done|]. destruct (yaml_Config _) as [|c'] eqn:Hyaml; [done|].
    destruct (String.eqb _ _); [done|]. destruct (String.eqb_spec (or_Version (cfg_Orchestrator c')) ""); [done|].
    injection Hload as <-. by split; [eapply yaml_ok|]. }
  split_and!; try done.
  - intros path. unfold json_status, IsFeatureInstalled.
    change (json_path _ _) with (json_path (json_features (or_Features (cfg_Orchestrator c))) (path ++ ["installed"])).
    unfold config_ok in Hok. destruct (or_Features (cfg_Orchestrator c)) as [l|]; simpl in Hok |- *; [|by destruct path].
    assert (∀ k, member k (sort_keys (marshalled l)) = MarshalJSON <$> feature l k) as Hm.
    { intros k. destruct Hok. rewrite member_sort by (by rewrite marshalled_keys). by apply member_marshalled. }
    destruct path as [|name path]; [|by apply installed_json].
    split; [done|]. cbn [app json_path]. fold (marshalled l). rewrite Hm. by destruct (feature l "installed") as [[]|].
  - intros path method Hne. unfold status_mux, GetStatus, HealthCheck, ReadyCheck, check_answer.
    assert (String.eqb method MethodGet = false) as -> by (by apply String.eqb_neq).
    destruct (redirects _ _); [by right; right; left|]. repeat (destruct (at_path path _); [by left|]). by right; left.
Qed.
End theorem.
