(* ===== verification/CertBase.v ===== *)
(** * The certificate synchronizer: state, environment and responses

    cert-synchronizer/pkg/apiserver/server.go keeps the certificate of a cluster in AWS
    Certificate Manager and its DNS records in Route 53.  Here: the process and the services
    it calls as one state [CWorld], the parameter [Cloud] for the calls themselves, the
    environment variables, JSON decoding that goes on after a type error, and the response
    writer.  A computation is [C A]; its error is a panic, which net/http turns into a
    dropped connection. *)

From S2P Require Import Prelude GoStd Monad EntSchema EntMutation Config Http Base64.
From Stdlib Require Import Ascii.

(** ** The state *)

(** A certificate of ACM, with its tags. *)
Record ACMCert := mkACMCert {
  ac_Arn : string; ac_Tags : list (string * string);
  ac_Certificate : string; ac_PrivateKey : string; ac_Chain : option string }.
(** A hosted zone of Route 53; [hz_Private] is [None] when it has no [Config]. *)
Record RecordSet := mkRecordSet { rs_Name : string; rs_Type : string; rs_TTL : Z; rs_Values : list string }.
Record Zone := mkZone { hz_Id : string; hz_Name : string; hz_Private : option bool; hz_Records : list RecordSet }.

Record fileTimes := mkFileTimes { tlsCrtModTime : Time; tlsKeyModTime : Time; caCrtModTime : Time }.

(** What a handler has written: the status line once it is sent, with the content type of
    that moment, the informational responses before it, and the body. *)
Record Writer := mkWriter {
  wr_ContentType : string; wr_Infos : list Z; wr_Sent : option (Z * string); wr_Body : string }.
Definition new_writer : Writer := mkWriter "" [] None "".

(** [cw_times] is the global [certFileTimes]; [cw_tick] numbers the calls. *)
Record CWorld := mkCW {
  cw_tick : nat; cw_times : fileTimes;
  cw_acm : list ACMCert; cw_zones : list Zone; cw_secrets : gmap (string * string) (gmap string string);
  cw_out : Writer }.
Notation C := (EM CWorld).

Definition set_tick (w : CWorld) : CWorld :=
  mkCW (S (cw_tick w)) (cw_times w) (cw_acm w) (cw_zones w) (cw_secrets w) (cw_out w).
Definition set_times (t : fileTimes) (w : CWorld) : CWorld :=
  mkCW (cw_tick w) t (cw_acm w) (cw_zones w) (cw_secrets w) (cw_out w).
Definition set_acm (l : list ACMCert) (w : CWorld) : CWorld :=
  mkCW (cw_tick w) (cw_times w) l (cw_zones w) (cw_secrets w) (cw_out w).
Definition set_zones (l : list Zone) (w : CWorld) : CWorld :=
  mkCW (cw_tick w) (cw_times w) (cw_acm w) l (cw_secrets w) (cw_out w).
Definition set_secrets (m : gmap (string * string) (gmap string string)) (w : CWorld) : CWorld :=
  mkCW (cw_tick w) (cw_times w) (cw_acm w) (cw_zones w) m (cw_out w).
Definition set_out (o : Writer) (w : CWorld) : CWorld :=
  mkCW (cw_tick w) (cw_times w) (cw_acm w) (cw_zones w) (cw_secrets w) o.

(** Reading what the outside answers at this call, and a call that changes a part. *)
Definition ask {A} (f : nat → A) : C A := λ w, (inr (f (cw_tick w)), set_tick w).
Definition panic {A} : C A := fail (errText "invalid memory address or nil pointer dereference").

(** ** The outside *)

Inductive StatResult := StatOK (modTime : Time) | StatNotExist | StatError.

(** An AWS client: a region and, when both keys are set, static credentials. *)
Record AWSConfig := mkAWSConfig { aws_Region : string; aws_Credentials : option (string * string) }.
Record ImportCertificateInput := mkImport {
  ii_Certificate : string; ii_PrivateKey : string; ii_CertificateArn : option string; ii_Chain : option string }.
Record CertificateDetail := mkDetail {
  cd_NotAfter : option Time; cd_DomainName : option string; cd_Arn : option string }.
Record CreateZoneInput := mkCreateZone {
  cz_Name : string; cz_VPC : option (string * string); cz_Private : bool; cz_CallerReference : string }.
Inductive ChangeAction := ChangeCreate | ChangeUpsert | ChangeDelete.

(** Every call takes its number; [acm_Pages] are the pages a paginator goes through until
    the last one or an error. *)
Class Cloud := {
  os_Getenv : string → string;
  fs_Stat : nat → string → StatResult;
  fs_ReadFile : nat → string → string * option error;
  time_Now : nat → Time;
  http_Get : nat → string → error + string;
  aws_LoadDefaultConfig : nat → string → option error;
  acm_Pages : AWSConfig → nat → list ACMCert → list (error + list string);
  acm_Describe : AWSConfig → nat → list ACMCert → string → error + CertificateDetail;
  acm_ListTags : AWSConfig → nat → list ACMCert → string → error + list (string * string);
  acm_Import : AWSConfig → nat → ImportCertificateInput → list ACMCert → (error + string) * list ACMCert;
  acm_AddTags : AWSConfig → nat → string → list (string * string) → list ACMCert → option error * list ACMCert;
  acm_Delete : AWSConfig → nat → string → list ACMCert → option error * list ACMCert;
  r53_ListZones : AWSConfig → nat → string → list Zone → error + list Zone;
  r53_CreateZone : AWSConfig → nat → CreateZoneInput → list Zone → (error + string) * list Zone;
  r53_ListRecords : AWSConfig → nat → string → string → string → list Zone → error + list RecordSet;
  r53_Change : AWSConfig → nat → string → ChangeAction → RecordSet → list Zone → option error * list Zone;
  kube_Client : nat → option error;
  kube_Apply : nat → string * string → gmap string string →
               gmap (string * string) (gmap string string) → option error * gmap (string * string) (gmap string string);
  (** [validate] of the DNS parameters, by the validation library *)
  dns_validate : string → string → string → string → option error }.

Section calls.
Context `{Cloud}.
Definition call_acm {A} (f : nat → list ACMCert → A * list ACMCert) : C A := λ w,
  let '(r, l) := f (cw_tick w) (cw_acm w) in (inr r, set_tick (set_acm l w)).
Definition call_r53 {A} (f : nat → list Zone → A * list Zone) : C A := λ w,
  let '(r, l) := f (cw_tick w) (cw_zones w) in (inr r, set_tick (set_zones l w)).
Definition ask_acm {A} (f : nat → list ACMCert → A) : C A := λ w,
  (inr (f (cw_tick w) (cw_acm w)), set_tick w).
Definition ask_r53 {A} (f : nat → list Zone → A) : C A := λ w,
  (inr (f (cw_tick w) (cw_zones w)), set_tick w).
Definition call_kube {A} (f : nat → gmap (string * string) (gmap string string) → A * gmap (string * string) (gmap string string)) : C A := λ w,
  let '(r, m) := f (cw_tick w) (cw_secrets w) in (inr r, set_tick (set_secrets m w)).
End calls.

(** ** The response writer *)

Definition JSON_CONTENT : string := "application/json".
Definition HTML_CONTENT : string := "text/html".
Definition PLAIN_CONTENT : string := "text/plain; charset=utf-8".

(** [w.Header().Set("content-type", v)], [w.WriteHeader], [w.Write]: once the status line is
    sent neither the header nor a further status changes it; the informational codes are
    sent at once. *)
Definition set_content_type (v : string) (o : Writer) : Writer :=
  mkWriter v (wr_Infos o) (wr_Sent o) (wr_Body o).
Definition WriteHeader (code : Z) (o : Writer) : Writer :=
  match wr_Sent o with
  | Some _ => o
  | None =>
      if (100 <=? code)%Z && (code <=? 199)%Z && negb (code =? 101)%Z
      then mkWriter (wr_ContentType o) (wr_Infos o ++ [code]) None (wr_Body o)
      else mkWriter (wr_ContentType o) (wr_Infos o) (Some (code, wr_ContentType o)) (wr_Body o)
  end.
Definition Write (body : string) (o : Writer) : Writer :=
  let o := WriteHeader StatusOK o in
  mkWriter (wr_ContentType o) (wr_Infos o) (wr_Sent o) (wr_Body o +:+ body).
Definition out (f : Writer → Writer) : C () := λ w, (inr (), set_out (f (cw_out w)) w).
(** [http.Error] *)
Definition http_error (msg : string) (code : Z) : C () :=
  out (λ o, Write (msg +:+ String "010" "") (WriteHeader code (set_content_type PLAIN_CONTENT o))).

(** [html.EscapeString] *)
Definition html_char (c : ascii) : string :=
  if Ascii.eqb c "&" then "&amp;" else if Ascii.eqb c "'" then "&#39;"
  else if Ascii.eqb c "<" then "&lt;" else if Ascii.eqb c ">" then "&gt;"
  else if Ascii.eqb c (ascii_of_nat 34) then "&#34;" else String c "".
Fixpoint flat_map_string (f : ascii → string) (s : string) : string :=
  match s with EmptyString => "" | String c s => f c +:+ flat_map_string f s end.
Definition html_EscapeString (s : string) : string := flat_map_string html_char s.

(** A string as encoding/json writes it, the characters of HTML escaped; the bytes above 127
    stay (valid UTF-8 without the two line separators). *)
Definition json_char (c : ascii) : string :=
  let n := code c in
  let u := "\u00" +:+ String (hex_digit (n / 16)) (String (hex_digit (n mod 16)) "") in
  if (n =? 34)%nat then String "\" (String c "") else if Ascii.eqb c "\" then "\\"
  else if (n =? 8)%nat then "\b" else if (n =? 12)%nat then "\f"
  else if (n =? 10)%nat then "\n" else if (n =? 13)%nat then "\r" else if (n =? 9)%nat then "\t"
  else if (n <? 32)%nat || char_in "<>&" c then u else String c "".
Definition json_Marshal_message (msg : string) : string :=
  "{" +:+ dquote +:+ "message" +:+ dquote +:+ ":" +:+ dquote +:+ flat_map_string json_char msg +:+ dquote +:+ "}".

(** [strings.Trim(s, cutset)] for a one-byte cutset *)
Definition Trim (s : string) (c : ascii) : string := TrimFunc (Ascii.eqb c) s.

(** [httpResponse.write] for a response without a web page (only the debug build asks for
    one): JSON when the client accepts exactly that, else escaped plain text. *)
Definition write (acceptedContent : string) (status : Z) (message : string) : C () :=
  let accepted := Trim (TrimSpace acceptedContent) (ascii_of_nat 34) in
  let '(contentType, body) :=
    if String.eqb accepted JSON_CONTENT then (JSON_CONTENT, json_Marshal_message message)
    else (PLAIN_CONTENT, html_EscapeString message) in
  out (λ o, Write body (WriteHeader status (set_content_type contentType o))).

Definition MSG_200_OK : string := "200 - OK.".
Definition MSG_400_BAD_RQ : string := "400 - The validation request is malformed or missing required parameters.".
Definition MSG_405_METHOD : string := "405 - Method not allowed.".
Definition MSG_418_TEAPOT : string := "418 - The server refuses the attempt to brew coffee with a teapot.!" +:+ String "010" "".
Definition StatusProcessing : Z := 102%Z.
Definition StatusTeapot : Z := 418%Z.
Definition StatusServiceUnavailable : Z := 503%Z.

(** ** Requests *)

(** A body that cannot be read, or its bytes and the JSON value they are, if any. *)
Inductive CBody := BodyReadError | BodyBytes (raw : string) (parsed : option JSON).
(** [cq_Query] is the map [r.URL.Query()] in the order a loop visits it, each key with its
    first value. *)
Record CRequest := mkCRequest {
  cq_Method : string; cq_Accept : string; cq_Query : list (string * string); cq_Body : CBody }.

(** Decoding into a typed value: a value of the wrong type leaves the target and is reported
    at the end, the rest is decoded all the same. *)
Definition decoder (A : Type) : Type := A → JSON → A * bool.
Definition into_string : decoder string := λ v j,
  match j with JStr s => (s, true) | JNull => (v, true) | _ => (v, false) end.
Definition into_bool : decoder bool := λ v j,
  match j with JBool b => (b, true) | JNull => (v, true) | _ => (v, false) end.
Definition into_int : decoder Z := λ v j,
  match j with
  | JNum n => if (int64_min <=? n)%Z && (n <=? int64_max)%Z then (n, true) else (v, false)
  | JNull => (v, true)
  | _ => (v, false)
  end.
(** [float64]: the numbers of this model are integers *)
Definition into_float : decoder Z := λ v j,
  match j with JNum n => (n, true) | JNull => (v, true) | _ => (v, false) end.
(** [interface{}] *)
Definition into_any : decoder JSON := λ _ j, (j, true).
Fixpoint into_elems {A} (into : decoder A) (zero : A) (js : list JSON) : list A * bool :=
  match js with
  | [] => ([], true)
  | j :: js => let '(a, ok) := into zero j in let '(l, oks) := into_elems into zero js in (a :: l, ok && oks)
  end.
Definition into_slice {A} (into : decoder A) (zero : A) : decoder (list A) := λ v j,
  match j with JArr js => into_elems into zero js | JNull => ([], true) | _ => (v, false) end.
(** a field: its name, and how its decoded value is set *)
Definition field {A B} (key : string) (into : decoder B) (get : A → B) (set : B → A → A) : string * decoder A :=
  (key, λ v j, let '(b, ok) := into (get v) j in (set b v, ok)).
Definition into_struct {A} (fields : list (string * decoder A)) : decoder A := λ v j,
  match j with
  | JObj members =>
      foldl (λ acc m, match List.find (λ f, EqualFold f.1 m.1) fields with
                      | Some f => let '(v, ok) := f.2 acc.1 m.2 in (v, acc.2 && ok)
                      | None => acc
                      end) (v, true) members
  | JNull => (v, true)
  | _ => (v, false)
  end.
(** One value, or else an array of them: what the code has after both attempts, and whether
    the second failed. *)
Definition one_or_many {A} (into : decoder A) (zero : A) (parsed : option JSON) : list A * bool :=
  match parsed with
  | None => ([], false)
  | Some j => match into zero j with
              | (a, true) => ([a], true)
              | (_, false) => into_slice into zero [] j
              end
  end.
