(* ===== verification/CertFiles.v ===== *)
(** * The certificate synchronizer: its settings and the files it watches

    server.go, [getEnvVars], [checkCertFiles], [haveCertFilesUpdated], [readCertFiles], the
    waiting loop of the update handlers, and the secret it can keep in Kubernetes. *)

From S2P Require Import Prelude GoStd Monad EntSchema EntQuery EntMutation Config Http Base64 CertBase.
From Stdlib Require Import Ascii.

(** ** Settings *)

Definition DEFAULT_NAMESPACE : string := "orch-gateway".
Definition DEFAULT_AUTOCERT_SECRETNAME : string := "kubernetes-docker-internal".
Definition DEFAULT_SECRETNAME : string := "tls-orch".
Definition DEFAULT_TLS_CERT_PATH : string := "/etc/ssl/cert/cert-man/tls.crt".
Definition DEFAULT_TLS_KEY_PATH : string := "/etc/ssl/cert/cert-man/tls.key".
Definition DEFAULT_CA_CERT_PATH : string := "/etc/ssl/cert/cert-man/ca.crt".
Definition DEBUG_TLS_CERT_PATH : string := "./certs/tls.crt".
Definition DEBUG_TLS_KEY_PATH : string := "./certs/tls.key".
Definition DEBUG_CA_CERT_PATH : string := "./certs/ca.crt".
Definition DEFAULT_SLEEP_TIMEOUT : Z := (1000 * 120)%Z.
Definition IMPORT_COMMENT : string := "Imported by Intel Open Edge Platform CertSynchronizer".
Definition DEFAULT_INTER1_URL : string := "https://letsencrypt.org/certs/2024/r10.pem".
Definition DEFAULT_INTER2_URL : string := "https://letsencrypt.org/certs/2024/r11.pem".
Definition DEFAULT_ROOT_URL : string := "https://letsencrypt.org/certs/isrgrootx1.pem".
Definition DEFAULT_INTER1_PEM : string :=
  "LS0tLS1CRUdJTiBDRVJUSUZJQ0FURS0tLS0tCk1JSUZCVENDQXUyZ0F3SUJBZ0lRUzZoU2svZWFMNkp6Qmt1b0JJMTEwREFOQmdrcWhraUc5dzBCQVFzRkFEQlAKTVFzd0NRWURWUVFHRXdKVlV6RXBNQ2NHQTFVRUNoTWdTVzUwWlhKdVpYUWdVMlZqZFhKcGRIa2dVbVZ6WldGeQpZMmdnUjNKdmRYQXhGVEFUQmdOVkJBTVRERWxUVWtjZ1VtOXZkQ0JZTVRBZUZ3MHlOREF6TVRNd01EQXdNREJhCkZ3MHlOekF6TVRJeU16VTVOVGxhTURNeEN6QUpCZ05WQkFZVEFsVlRNUll3RkFZRFZRUUtFdzFNWlhRbmN5QkYKYm1OeWVYQjBNUXd3Q2dZRFZRUURFd05TTVRBd2dnRWlNQTBHQ1NxR1NJYjNEUUVCQVFVQUE0SUJEd0F3Z2dFSwpBb0lCQVFEUFYrWG14RlFTN2JSSC9za25XSFpHVUNpTUhUNkkzd1dkMWJVWUtiM2R0VnEvK3ZiT283NnZBQ0ZMCllscGFQQUV2eFZnRDlvbi9qaEZENjhHMTRCUUhsbzl2SDlmbnVvRTVDWFZsdDhLdkdGczNKaWpuby9RSEsyMGEKLzZ0WXZKV3VRUC9weTFmRXRWdC9lQTBZWWJ3WDUxVEd1MG1Selc0WTBZQ0Y3cVpsTnJ4MDZyeFFUT3I4SWZNNApGcE9VdXJEVGF6Z0d6UllTZXNwU2RjaXRkckxDbkYyWVJWeHZZWHZHTGU0OEUxS0dBZGxYNWpnYzM0MjFINUtSCm11ZEtITXhGcUhKVjhMRG1vd2ZzL2FjYlpwNC9TSXR4aEhGWXlUcjY3MTd5VzBRclBIVG5qN0pId1FkcXpacTMKRFpiM0VvRW1VVlFLN0dIMjkvWGk4b3JJbFEyTkFnTUJBQUdqZ2Znd2dmVXdEZ1lEVlIwUEFRSC9CQVFEQWdHRwpNQjBHQTFVZEpRUVdNQlFHQ0NzR0FRVUZCd01DQmdnckJnRUZCUWNEQVRBU0JnTlZIUk1CQWY4RUNEQUdBUUgvCkFnRUFNQjBHQTFVZERnUVdCQlM3dk1OSHBlUzhxY2JEcEhJTUVJMmlOZUhJNkRBZkJnTlZIU01FR0RBV2dCUjUKdEZubWU3Ymw1QUZ6Z0FpSXlCcFk5dW1iYmpBeUJnZ3JCZ0VGQlFjQkFRUW1NQ1F3SWdZSUt3WUJCUVVITUFLRwpGbWgwZEhBNkx5OTRNUzVwTG14bGJtTnlMbTl5Wnk4d0V3WURWUjBnQkF3d0NqQUlCZ1puZ1F3QkFnRXdKd1lEClZSMGZCQ0F3SGpBY29CcWdHSVlXYUhSMGNEb3ZMM2d4TG1NdWJHVnVZM0l1YjNKbkx6QU5CZ2txaGtpRzl3MEIKQVFzRkFBT0NBZ0VBa3JIblFUZnJlWjJCNXMzaUplRTZJT21RUkpXamdWelB3MTM5dmFCdzFiR1dLQ0lMMHZJbwp6d3puMU9aRGpDUWlIY0ZDa3RFSnI1OUw5TWh3VHlBV3NWcmRBZllmK0I5aGF4UW5zSEtOWTY3dTRzNUx6emZkCnU2UFV6ZWV0VUsyOXYrUHNQbUkyY0preHAraU4zZXBpNGhLdTlaelVQU3dNcXRDY2ViN3FQVnhFYnBZeFkxcDkKMW41UEpLQkxCWDllYjlMVTZsOHpTeFBXVjdiSzNsRzRYYU1KZ25UOXgzaWVzN21zRnRwS0s1YkR0b3Rpai9sMApHYUtlQTk3cGI1dXdEOUtnV3ZhRlhNSUV0OGpWVGpMRXZ3UmR2Q24yOTRHUERGMDhVOGxBa0l2N3RnaGx1YVFoCjFRbmxFNFNFTjRMT0VDajhkc0lHSlhwR1VrM2FVM0trSno5aWNLeSthVWdBKzJjUDIxdWg2TmNESVMzWHlmYVoKUWptRFE5OTNDaElJOFNYV3VwUVpWQmlJcGNXTzRScVprM2xyN0J6NU1VQ3d6RElBMzU5ZTU3U1NxNUNDa1kwTgo0QjZWdWxrN0xrdGZ3cmRHTlZJNUJzQzlxcXhTd1NLZ1JKZVo5d3lnSWFlaGJIRkhGaGNCYU1ES3BpWmxCSHl6CnJzbm5sRlhDYjVzOEhLbjVMc1VnR3ZCMjRMN3NHTlpQMkNYN2RoSG92K1loRCtqb3pMVzJwOVc0OTU5QnoyRWkKUm1xRHRtaVhMbnpxVHBYYkkrc3V5Q3NvaEtSZzZVbjBSQzQ3K2NwaVZ3SGlYWkFXK2NuOGVpTklqcWJWZ1hMeApLUHBkenZ2dFRuT1BsQzdTUVpTWW1kdW5yM0JmOWI3N0FpQy9aaWRzdEszNmRSSUxLejdPQTU0PQotLS0tLUVORCBDRVJUSUZJQ0FURS0tLS0tCg==".
Definition DEFAULT_INTER2_PEM : string :=
  "LS0tLS1CRUdJTiBDRVJUSUZJQ0FURS0tLS0tCk1JSUZCakNDQXU2Z0F3SUJBZ0lSQUlwOVBoUFdMekR2STRhOUtRZHJOUGd3RFFZSktvWklodmNOQVFFTEJRQXcKVHpFTE1Ba0dBMVVFQmhNQ1ZWTXhLVEFuQmdOVkJBb1RJRWx1ZEdWeWJtVjBJRk5sWTNWeWFYUjVJRkpsYzJWaApjbU5vSUVkeWIzVndNUlV3RXdZRFZRUURFd3hKVTFKSElGSnZiM1FnV0RFd0hoY05NalF3TXpFek1EQXdNREF3CldoY05NamN3TXpFeU1qTTFPVFU1V2pBek1Rc3dDUVlEVlFRR0V3SlZVekVXTUJRR0ExVUVDaE1OVEdWMEozTWcKUlc1amNubHdkREVNTUFvR0ExVUVBeE1EVWpFeE1JSUJJakFOQmdrcWhraUc5dzBCQVFFRkFBT0NBUThBTUlJQgpDZ0tDQVFFQXVvZThYQnNBT2N2S0NzM1VaeEQ1QVR5bFRxVmh5eWJLVXZzVkFiZTVLUFVvSHUwbnN5UVlPV2NKCkRBanM0RHF3TzNjT3ZmUGxPVlJCREU2dVFkYVpkTjVSMis5Ny8xaTlxTGNUOXQ0eDFmSnl5WEpxQzROMGxaeEcKQUdRVW1mT3gyU0xaemFpU3Fod21lai8rNzFnRmV3aVZnZHR4RDQ3NzR6RUp1d20rVUUxZmo1RjJQVnFkbm9QeQo2Y1JtcytFR1prTklHSUJsb0RjWW1wdUVNcGV4c3IzRStCVUFuU2VJKytKakY1WnNteWRuUzhUYktGNXB3bm53ClNWemdKRkRoeEx5aEJheDdRRzBBdE1KQlA2ZFl1Qy9GWEp1bHV3bWU4Zjdyc0lVNS9hZ0s3MFhFZU90bEtzTFAKWHp6ZTQxeE5HL2NMSnl1cUMwSjNVMDk1YWgySDJRSURBUUFCbzRINE1JSDFNQTRHQTFVZER3RUIvd1FFQXdJQgpoakFkQmdOVkhTVUVGakFVQmdnckJnRUZCUWNEQWdZSUt3WUJCUVVIQXdFd0VnWURWUjBUQVFIL0JBZ3dCZ0VCCi93SUJBREFkQmdOVkhRNEVGZ1FVeGM5R3BPcjB3OEI2YkpYRUxiQmVraThtNDdrd0h3WURWUjBqQkJnd0ZvQVUKZWJSWjVudTI1ZVFCYzRBSWlNZ2FXUGJwbTI0d01nWUlLd1lCQlFVSEFRRUVKakFrTUNJR0NDc0dBUVVGQnpBQwpoaFpvZEhSd09pOHZlREV1YVM1c1pXNWpjaTV2Y21jdk1CTUdBMVVkSUFRTU1Bb3dDQVlHWjRFTUFRSUJNQ2NHCkExVWRId1FnTUI0d0hLQWFvQmlHRm1oMGRIQTZMeTk0TVM1akxteGxibU55TG05eVp5OHdEUVlKS29aSWh2Y04KQVFFTEJRQURnZ0lCQUU3aWlWMEtBeHlRT05EMUgvbHhYUGpEajdJM2lIcHZzQ1VmN2I2MzJJWUdqdWtKaE0xeQp2NEh6L01yUFUwanR2ZlpwUXRTbEVUNDF5Qk95a2gwRlgrb3UxTmo0U2NPdDlabVduTzhtMk9HMEpBdElJRTM4CjAxUzBxY1loeU9FMkcvOTNaQ2tYdWZCTDcxM3F6WG5RdjVDL3ZpT3lrTnBLcVVneGRLbEVDK0hpOWkyRGNhUjEKZTlLVXdRVVpSaHk1ai9QRWRFZ2xLZzNsOWR0RDR0dVRtN2tadEI4djMyb09qekhUWXcrN0tkemRaaXcvc0J0bgpVZmhCUE9STnVheTRwSnhtWS9XcmhTTWR6Rk8ycTNHdTNNVUJjZG8yN2dvWUtqTDlDVEY4ai9aejU1eWN0VW9WCmFuZUNXcy9halVYK0h5cGtCVEErYzhMR0RMbldPMk5LcTBZRC9wbkFSa0FuWUdQZlVEb0hSOWdWU3AvcVJ4K1oKV2doaURMWnNNd2hOMXpqdFNDMHVCV2l1Z0YzdlROellJRUZmYVBHN1dzM2pEckFNTVllYlE5NUpRK0hJQkQvUgpQQnVIUlRCcHFLbHlEbmtTSERIWVBpTlgzYWRQb1BBY2dkRjNIMi9XMHJtb3N3TVdnVGxMbjFXdTBtcmtzNy9xCnBkV2ZTNlBKMWp0eTgwcjJWS3NNL0RqM1lJRGZialhLZGFGVTVDKzhiaGZKR3FVM3RhS2F1dXowd0hWR1QzZW8KNkZsV2tXWXRidDRwZ2RhbWx3VmVaRVcrTE03cVpFSkVzTU5QcmZDMDNBUEttWnNKZ3BXQ0RXT0tadmtaY3ZqVgp1WWtRNG9tWUNUWDVvaHkra25NamRPbWRIOWM3U3BxRVdCREM4NmZpTmV4K08wWE9NRVpTYThEQQotLS0tLUVORCBDRVJUSUZJQ0FURS0tLS0tCg==".
Definition DEFAULT_ROOT_PEM : string :=
  "LS0tLS1CRUdJTiBDRVJUSUZJQ0FURS0tLS0tCk1JSUZhekNDQTFPZ0F3SUJBZ0lSQUlJUXo3RFNRT05aUkdQZ3UyT0Npd0F3RFFZSktvWklodmNOQVFFTEJRQXcKVHpFTE1Ba0dBMVVFQmhNQ1ZWTXhLVEFuQmdOVkJBb1RJRWx1ZEdWeWJtVjBJRk5sWTNWeWFYUjVJRkpsYzJWaApjbU5vSUVkeWIzVndNUlV3RXdZRFZRUURFd3hKVTFKSElGSnZiM1FnV0RFd0hoY05NVFV3TmpBME1URXdORE00CldoY05NelV3TmpBME1URXdORE00V2pCUE1Rc3dDUVlEVlFRR0V3SlZVekVwTUNjR0ExVUVDaE1nU1c1MFpYSnUKWlhRZ1UyVmpkWEpwZEhrZ1VtVnpaV0Z5WTJnZ1IzSnZkWEF4RlRBVEJnTlZCQU1UREVsVFVrY2dVbTl2ZENCWQpNVENDQWlJd0RRWUpLb1pJaHZjTkFRRUJCUUFEZ2dJUEFEQ0NBZ29DZ2dJQkFLM29KSFAwRkRmem01NHJWeWdjCmg3N2N0OTg0a0l4dVBPWlhvSGozZGNLaS92VnFidllBVHlqYjNtaUdiRVNUdHJGai9SUVNhNzhmMHVveG15RisKMFRNOHVrajEzWG5mczdqL0V2RWhta3ZCaW9aeGFVcG1abXlQZmp4d3Y2MHBJZ2J6NU1EbWdLN2lTNCszbVg2VQpBNS9UUjVkOG1VZ2pVK2c0cms4S2I0TXUwVWxYaklCMHR0b3YwRGlOZXdOd0lSdDE4akE4K28rdTNkcGpxK3NXClQ4S09FVXQrend2by83VjNMdlN5ZTByZ1RCSWxESENOQXltZzRWTWs3QlBaN2htL0VMTktqRCtKbzJGUjNxeUgKQjVUMFkzSHNMdUp2VzVpQjRZbGNOSGxzZHU4N2tHSjU1dHVrbWk4bXhkQVE0UTdlMlJDT0Z2dTM5NmozeCtVQwpCNWlQTmdpVjUrSTNsZzAyZFo3N0RuS3hIWnU4QS9sSkJkaUIzUVcwS3RaQjZhd0JkcFVLRDlqZjFiMFNIelV2CktCZHMwcGpCcUFsa2QyNUhON3JPckZsZWFKMS9jdGFKeFFaQktUNVpQdDBtOVNUSkVhZGFvMHhBSDBhaG1iV24KT2xGdWhqdWVmWEtuRWdWNFdlMCtVWGdWQ3dPUGpkQXZCYkkrZTBvY1MzTUZFdnpHNnVCUUUzeERrM1N6eW5UbgpqaDhCQ05BdzFGdHhOclFIdXNFd01GeEl0NEk3bUtaOVlJcWlveW1DekxxOWd3UWJvb01EUWFIV0JmRWJ3cmJ3CnFIeUdPMGFvU0NxSTNIYWFkcjhmYXFVOUdZL3JPUE5rM3NnckRRb28vL2ZiNGhWQzFDTFFKMTNoZWY0WTUzQ0kKclU3bTJZczZ4dDBuVVc3L3ZHVDFNME5QQWdNQkFBR2pRakJBTUE0R0ExVWREd0VCL3dRRUF3SUJCakFQQmdOVgpIUk1CQWY4RUJUQURBUUgvTUIwR0ExVWREZ1FXQkJSNXRGbm1lN2JsNUFGemdBaUl5QnBZOXVtYmJqQU5CZ2txCmhraUc5dzBCQVFzRkFBT0NBZ0VBVlI5WXFieXlxRkRRRExIWUdta2dKeWtJckdGMVhJcHUrSUxsYVMvVjlsWkwKdWJoekVGblRJWmQrNTB4eCs3TFNZSzA1cUF2cUZ5RldoZkZRRGxucnp1Qlo2YnJKRmUrR25ZK0VnUGJrNlpHUQozQmViWWh0RjhHYVYwbnh2d3VvNzd4L1B5OWF1Si9HcHNNaXUvWDErbXZvaUJPdi8yWC9xa1NzaXNSY09qL0tLCk5GdFkyUHdCeVZTNXVDYk1pb2d6aVV3dGhEeUMzKzZXVndXNkxMdjN4TGZIVGp1Q3ZqSElJbk56a3RIQ2dLUTUKT1JBekk0Sk1QSitHc2xXWUhiNHBob3dpbTU3aWF6dFhPb0p3VGR3Sng0bkxDZ2ROYk9oZGpzbnZ6cXZIdTdVcgpUa1hXU3RBbXpPVnl5Z2hxcFpYakZhSDNwTzNKTEYrbCsvK3NLQUl1dnRkN3UrTnhlNUFXMHdkZVJsTjhOd2RDCmpOUEVscHpWbWJVcTRKVWFnRWl1VERrSHpzeEhwRktWSzdxNCs2M1NNMU45NVIxTmJkV2hzY2RDYitaQUp6VmMKb3lpM0I0M25qVE9RNXlPZisxQ2NlV3hHMWJRVnM1WnVmcHNNbGpxNFVpMC8xbHZoK3dqQ2hQNGtxS09KMnF4cQo0Umdxc2FoRFlWdlRIOXc3alhieUxlaU5kZDhYTTJ3OVUvdDd5MEZmLzl5aTBHRTQ0WmE0ckYyTE45ZDExVFBBCm1SR3VuVUhCY25XRXZnSkJRbDluSkVpVTBac252Z2MvdWJoUGdYUlI0WHEzN1owajRyN2cxU2dFRXp3eEE1N2QKZW15UHhnY1l4bi9lUjQ0L0tKNEVCcytsVkRSM3ZleUptK2tYUTk5YjIxLytqaDVYb3MxQW5YNWlJdHJlR0NjPQotLS0tLUVORCBDRVJUSUZJQ0FURS0tLS0t".

Record envVars := mkEnv {
  debugMode : bool; e_version : string; e_namespace : string; autoCertName : string;
  tlsCrtPath : string; tlsKeyPath : string; caCrtPath : string;
  awsAccessKey : string; awsSecretKey : string; e_region : string; e_vpc : string; e_domain : string;
  acmCertificateName : string; certificateNameSpace : string;
  inter1Cert : string; inter2Cert : string; rootCert : string;
  disableCertMatchChecks : bool; importIntoACMIfNotExists : bool; createK8sCertSecret : bool;
  podFileUpdateSleepTimeout : Z; k8sCertSecretName : string;
  inter1CertUrl : string; inter2CertUrl : string; rootCertUrl : string }.

(** Arithmetic on Go's [int]. *)
Definition wrap64 (n : Z) : Z := ((n + 2 ^ 63) mod 2 ^ 64 - 2 ^ 63)%Z.

Definition truthy : list string := ["y"; "yes"; "t"; "true"].

Section settings.
Context `{Cloud}.

Definition getenv_or (key def : string) : string := or_else (os_Getenv key) def.

(** The PEM of a URL, or the built-in one when it cannot be read, or [fallback] when it is
    empty; a built-in one that is not base64 sets nothing. *)
Definition decode_pem (pem : string) : string :=
  match DecodeString pem with Some s => String "010" s | None => "" end.
Definition pem_of (url default fallback : string) : C string :=
  res ← ask (λ t, http_Get t url);
  mret (match res with
        | inl _ => decode_pem default
        | inr "" => decode_pem fallback
        | inr body => String "010" body
        end).

Definition sleep_timeout (sleepStr : string) : Z :=
  if String.eqb sleepStr "" then DEFAULT_SLEEP_TIMEOUT
  else match ParseInt64 sleepStr with
       | None => DEFAULT_SLEEP_TIMEOUT
       | Some n => wrap64 (n * 1000)
       end.

Definition getEnvVars (version : string) : C envVars :=
  let debugMode := mem_string (ToLower (os_Getenv "DEBUG")) truthy in
  let inter1Url := getenv_or "INTERMEDIATE1_CERT_URL" DEFAULT_INTER1_URL in
  let inter2Url := getenv_or "INTERMEDIATE2_CERT_URL" DEFAULT_INTER2_URL in
  let rootUrl := getenv_or "ROOT_CERT_URL" DEFAULT_ROOT_URL in
  inter1 ← pem_of inter1Url DEFAULT_INTER1_PEM DEFAULT_INTER1_PEM;
  inter2 ← pem_of inter2Url DEFAULT_INTER2_PEM DEFAULT_INTER1_PEM;
  root ← pem_of rootUrl DEFAULT_ROOT_PEM DEFAULT_ROOT_PEM;
  mret {|
    debugMode := debugMode; e_version := version;
    e_namespace := getenv_or "SECRET_NAMESPACE" DEFAULT_NAMESPACE;
    autoCertName := getenv_or "AUTOCERT_CERTSECRET_NAME" DEFAULT_AUTOCERT_SECRETNAME;
    tlsCrtPath := getenv_or "CERTIFICATE_FILE" (if debugMode then DEBUG_TLS_CERT_PATH else DEFAULT_TLS_CERT_PATH);
    tlsKeyPath := getenv_or "PRIVATE_KEY_FILE" (if debugMode then DEBUG_TLS_KEY_PATH else DEFAULT_TLS_KEY_PATH);
    caCrtPath := getenv_or "CA_CERTIFICATE_FILE" (if debugMode then DEBUG_CA_CERT_PATH else DEFAULT_CA_CERT_PATH);
    awsAccessKey := os_Getenv "AWS_ACCESS_KEY_ID"; awsSecretKey := os_Getenv "AWS_SECRET_ACCESS_KEY";
    e_region := getenv_or "AWS_REGION" "us-west-2"; e_vpc := os_Getenv "AWS_VPC";
    e_domain := or_else (ToLower (os_Getenv "AWS_R53_DOMAIN")) "espdqa.infra-host.com";
    acmCertificateName := getenv_or "CSP_CERTIFICATE_NAME_TAG" "ACM_Certificate_Importer";
    certificateNameSpace := getenv_or "K8S_CERTIFICATE_NAMESPACE" "orch-gateway";
    inter1Cert := inter1; inter2Cert := inter2; rootCert := root;
    disableCertMatchChecks := mem_string (ToLower (os_Getenv "DISABLE_CERT_MATCH_CHECKS")) ("1" :: truthy);
    importIntoACMIfNotExists :=
      negb (mem_string (ToLower (os_Getenv "ACM_IMPORT_IF_NOT_EXISTS")) ["0"; "false"; "f"; "n"; "no"]);
    createK8sCertSecret := mem_string (ToLower (os_Getenv "CREATE_K8S_CERT_SECRET")) ("1" :: truthy);
    podFileUpdateSleepTimeout := sleep_timeout (os_Getenv "POD_FILE_UPDATE_TIMEOUT_SECS");
    k8sCertSecretName := getenv_or "K8S_CERT_SECRET_NAME" DEFAULT_SECRETNAME;
    inter1CertUrl := inter1Url; inter2CertUrl := inter2Url; rootCertUrl := rootUrl |}.
End settings.

(** ** The files *)

Record certChain := mkChain {
  tlsCrt : string; tlsKey : string; caCrt : string; tlsCrtChain : string; caCrtChain : string }.

(** The loop of [bytes.SplitAfter]; [skip] counts the bytes of a separator still to pass,
    [acc] is the part so far, backwards. *)
Fixpoint split_after_from (skip : nat) (s sep acc : string) : list string :=
  match s with
  | EmptyString => [str_rev acc]
  | String c s' =>
      match (match skip with
             | O => if String.prefix sep s then String.length sep else O
             | S _ => skip
             end) with
      | O => split_after_from 0 s' sep (String c acc)
      | S O => str_rev (String c acc) :: split_after_from 0 s' sep ""
      | S k => split_after_from k s' sep (String c acc)
      end
  end.
Definition SplitAfter (s sep : string) : list string := split_after_from 0 s sep "".
Definition certSeparator : string := "-----END CERTIFICATE-----".

Section files.
Context `{Cloud} (env : envVars).

(** Whatever [os.Stat] answers but "not exist". *)
Definition doesFileExist (path : string) : C bool :=
  r ← ask (λ t, fs_Stat t path);
  mret (match r with StatNotExist => false | _ => true end).
(** [fileInfo.ModTime()] after an error that is only logged *)
Definition mod_time (path : string) : C Time :=
  r ← ask (λ t, fs_Stat t path);
  match r with StatOK m => mret m | _ => panic end.

(** The check of one file: does it exist, and its time. *)
Definition check_file (path : string) (getModTime : bool) (old : Time) : C (bool * Time) :=
  if String.eqb path "" then mret (false, old) else
  exists_ ← doesFileExist path;
  if exists_ && getModTime then m ← mod_time path; mret (exists_, m) else mret (exists_, old).
Definition get_times : C fileTimes := λ w, (inr (cw_times w), w).
Definition put_times (t : fileTimes) : C () := λ w, (inr (), set_times t w).

Definition checkCertFiles (checkCA getModTime : bool) : C bool :=
  t ← get_times;
  crt ← check_file (tlsCrtPath env) getModTime (tlsCrtModTime t);
  _ ← put_times (mkFileTimes crt.2 (tlsKeyModTime t) (caCrtModTime t));
  key ← check_file (tlsKeyPath env) getModTime (tlsKeyModTime t);
  _ ← put_times (mkFileTimes crt.2 key.2 (caCrtModTime t));
  ca ← (if checkCA then check_file (caCrtPath env) getModTime (caCrtModTime t)
        else if getModTime then now ← ask time_Now; mret (true, now) else mret (true, caCrtModTime t));
  _ ← put_times (mkFileTimes crt.2 key.2 ca.2);
  mret (crt.1 && key.1 && ca.1).

(** One file: is it newer than the time kept, and the time to keep; [absent] is the answer
    for a file that does not exist. *)
Definition file_updated (absent : bool) (path : string) (old : Time) : C (bool * Time) :=
  if String.eqb path "" then mret (false, old) else
  exists_ ← doesFileExist path;
  if (exists_ : bool) then
    m ← mod_time path;
    mret (if (old <? m)%Z then (true, m) else (false, old))
  else mret (absent, old).

Definition haveCertFilesUpdated (checkCA : bool) : C bool :=
  t ← get_times;
  crt ← file_updated false (tlsCrtPath env) (tlsCrtModTime t);
  _ ← put_times (mkFileTimes crt.2 (tlsKeyModTime t) (caCrtModTime t));
  key ← file_updated false (tlsKeyPath env) (tlsKeyModTime t);
  _ ← put_times (mkFileTimes crt.2 key.2 (caCrtModTime t));
  ca ← (if checkCA then file_updated true (caCrtPath env) (caCrtModTime t)
        else now ← ask time_Now; mret (true, now));
  _ ← put_times (mkFileTimes crt.2 key.2 ca.2);
  mret (crt.1 && key.1 && ca.1).

(** The loop that waits for the files: [sleepTime] in milliseconds; the fuel is spent only
    on rounds that sleep. *)
Definition sleepInterval : Z := 200.
Definition still_running : error := errText "still waiting".
Fixpoint wait_files (fuel : nat) (sleepTime : Z) (timeOutExceeded : bool) : C () :=
  updated ← haveCertFilesUpdated true;
  if negb updated && negb timeOutExceeded then
    match fuel with
    | O => fail still_running
    | S fuel =>
        let sleepTime := (sleepTime + sleepInterval)%Z in
        _ ← out (WriteHeader StatusProcessing);
        wait_files fuel sleepTime (podFileUpdateSleepTimeout env <? sleepTime)%Z
    end
  else mret ().
(** One round per interval of the time-out, and one more. *)
Definition wait_fuel : nat := S (Z.to_nat (podFileUpdateSleepTimeout env / sleepInterval)).
Definition wait_for_files : C () := wait_files wait_fuel 0 false.

Definition readCertFiles : C (certChain * option error) :=
  crt ← ask (λ t, fs_ReadFile t (tlsCrtPath env));
  key ← ask (λ t, fs_ReadFile t (tlsKeyPath env));
  ca ← ask (λ t, fs_ReadFile t (caCrtPath env));
  let fixCA := negb (is_nil ca.2) || String.eqb ca.1 "" in
  let '(tlsCrt, caCrt, err) :=
    if fixCA then
      match SplitAfter crt.1 certSeparator with
      | tls :: ca :: _ :: _ => (tls, ca, None)
      | _ => (crt.1, ca.1, Some (errText "tlsCrt file does not contain certificate chain to populate caCrt"))
      end
    else (crt.1, ca.1, None) in
  mret (mkChain tlsCrt key.1 caCrt (tlsCrt +:+ caCrt +:+ rootCert env) (caCrt +:+ rootCert env), err).

(** [createK8sCertificateSecret]: the error is returned, and ignored by both callers. *)
Definition createK8sCertificateSecret (cert : certChain) : C (option error) :=
  client ← ask kube_Client;
  match client with
  | Some _ => mret (Some (errText "Unable to create client connection to Kubernetes cluster for secret creation."))
  | None =>
      res ← call_kube (λ t, kube_Apply t (e_namespace env, k8sCertSecretName env)
        (<["tls.crt" := tlsCrtChain cert]> (<["tls.key" := tlsKey cert]> ∅)));
      mret ((λ e, errText ("failed to create/update secret " +:+ k8sCertSecretName env +:+ " : " +:+ Error e)) <$> res)
  end.
End files.
