(* ===== verification/CertACM.v ===== *)
(** * The certificate synchronizer: AWS Certificate Manager

    server.go: the search for the certificate by its tag, its import and deletion, the four
    handlers over them, the health check, and the first upload at start. *)

From S2P Require Import Prelude GoStd Monad EntSchema EntQuery EntMutation Config Http CertBase CertFiles.
From Stdlib Require Import Ascii.

(** ** The events the handlers receive *)

(** Of the data of an event the handlers read three fields; the others only matter when
    their value has the wrong type. *)
Record CertData := mkCertData { d_Name : string; d_Namespace : string; d_Type : string }.
Record CertEvent := mkCertEvent { ev_Source : string; ev_Data : CertData; ev_TimeStamp : string }.
Definition zero_data : CertData := mkCertData "" "" "".
Definition zero_event : CertEvent := mkCertEvent "" zero_data "".

Definition unread {A B} (key : string) (into : decoder B) (zero : B) : string * decoder A :=
  field key into (λ _, zero) (λ _ a, a).
Definition into_CertData : decoder CertData := into_struct [
  unread "APIVersion" into_string ""; unread "Action" into_string ""; unread "Cluster" into_string "";
  unread "Count" into_int 0%Z; unread "Kind" into_string ""; unread "Level" into_string "";
  unread "Messages" (into_slice into_string "") [];
  field "Name" into_string d_Name (λ s d, mkCertData s (d_Namespace d) (d_Type d));
  field "Namespace" into_string d_Namespace (λ s d, mkCertData (d_Name d) s (d_Type d));
  unread "Reason" into_string ""; unread "Recommendations" into_any JNull; unread "Resource" into_string "";
  unread "TimeStamp" into_string ""; unread "Title" into_string "";
  field "Type" into_string d_Type (λ s d, mkCertData (d_Name d) (d_Namespace d) s);
  unread "Warnings" into_any JNull].
Definition into_CertEvent : decoder CertEvent := into_struct [
  field "source" into_string ev_Source (λ s e, mkCertEvent s (ev_Data e) (ev_TimeStamp e));
  field "data" into_CertData ev_Data (λ d e, mkCertEvent (ev_Source e) d (ev_TimeStamp e));
  field "timeStamp" into_string ev_TimeStamp (λ s e, mkCertEvent (ev_Source e) (ev_Data e) s)].

Section acm.
Context `{Cloud} (env : envVars).

(** The client of every handler, the configuration loaded. *)
Definition acm_config : AWSConfig :=
  mkAWSConfig (e_region env)
    (if negb (String.eqb (awsAccessKey env) "") && negb (String.eqb (awsSecretKey env) "")
     then Some (awsAccessKey env, awsSecretKey env) else None).

(** ** The certificate with the name *)

Definition has_name_tag (name : string) (tags : list (string * string)) : bool :=
  existsb (λ tag, String.eqb tag.1 "Name" && String.eqb tag.2 name) tags.

(** The certificates of one page: one that cannot be described, or whose tags cannot be
    listed, is skipped. *)
Fixpoint find_in_page (cfg : AWSConfig) (name : string) (arns : list string) : C (option string) :=
  match arns with
  | [] => mret None
  | arn :: arns =>
      d ← ask_acm (λ t l, acm_Describe cfg t l arn);
      match d with
      | inl _ => find_in_page cfg name arns
      | inr _ =>
          tags ← ask_acm (λ t l, acm_ListTags cfg t l arn);
          match tags with
          | inl _ => find_in_page cfg name arns
          | inr tags => if has_name_tag name tags then mret (Some arn) else find_in_page cfg name arns
          end
      end
  end.
Fixpoint find_in_pages (cfg : AWSConfig) (name : string) (pages : list (error + list string)) : C (error + string) :=
  match pages with
  | [] => mret (inr "")
  | inl err :: _ => mret (inl err)
  | inr arns :: pages =>
      found ← find_in_page cfg name arns;
      match found with
      | Some arn => mret (inr arn)
      | None => find_in_pages cfg name pages
      end
  end.
Definition findCertificateByName (cfg : AWSConfig) (name : string) : C (error + string) :=
  pages ← ask_acm (λ t l, acm_Pages cfg t l);
  find_in_pages cfg name pages.

(** ** Import *)

Definition import_input (certs : certChain) (arn : option string) : ImportCertificateInput :=
  mkImport (tlsCrt certs) (tlsKey certs) arn
    (if String.eqb (caCrtChain certs) "" then None else Some (caCrtChain certs)).
Definition import_tags : list (string * string) :=
  [("Name", acmCertificateName env); ("Comment", IMPORT_COMMENT); ("Version", e_version env)].
Definition boolToString (b : bool) : string := if b then "true" else "false".

(** An answer the handler goes on after, or the last one. *)
Definition answer (acc : string) (status : Z) (msg : string) (cont : bool) : C bool :=
  _ ← write acc status msg; mret cont.

(** From the loaded configuration on: [certArn] is the certificate found, or empty. *)
Definition import_certificate (acc : string) (cfg : AWSConfig) (certs : certChain) (certArn : string) : C bool :=
  if negb (String.eqb certArn "") then
    res ← call_acm (λ t, acm_Import cfg t (import_input certs (Some certArn)));
    match res with
    | inl _ => answer acc StatusInternalServerError "Failed to import certificate" false
    | inr _ => answer acc StatusOK ("Successfully updated existing certificate in ACM, cert ARN = " +:+ certArn) true
    end
  else if importIntoACMIfNotExists env then
    res ← call_acm (λ t, acm_Import cfg t (import_input certs None));
    match res with
    | inl _ => answer acc StatusInternalServerError "Failed to import certificate" false
    | inr newArn =>
        tagged ← call_acm (λ t, acm_AddTags cfg t newArn import_tags);
        match tagged with
        | Some _ => answer acc StatusInternalServerError "Failed to add tags to certificate" false
        | None => answer acc StatusOK ("Successfully imported certificate into ACM, cert ARN = " +:+ newArn) true
        end
    end
  else answer acc StatusOK
         ("Skipped import of certificate due to ACM_IMPORT_IF_NOT_EXISTS set to : "
          +:+ boolToString (importIntoACMIfNotExists env)) true.

(** The upload both update handlers share; [false] when they return. *)
Definition upload (acc : string) (certs : certChain) : C bool :=
  loaded ← ask (λ t, aws_LoadDefaultConfig t (e_region env));
  match loaded with
  | Some _ => answer acc StatusInternalServerError "Unable to load AWS SDK" false
  | None =>
      found ← findCertificateByName acm_config (acmCertificateName env);
      match found with
      | inl _ => answer acc StatusInternalServerError
                   ("Failed to find certificate by name  " +:+ acmCertificateName env) false
      | inr certArn => import_certificate acc acm_config certs certArn
      end
  end.

(** Wait, read, upload; [secret]: keep the Kubernetes secret too. *)
Definition update_from_files (acc : string) (secret : bool) : C bool :=
  _ ← wait_for_files env;
  '(certs, err) ← readCertFiles env;
  match err with
  | Some _ => answer acc StatusInternalServerError "Failed to read certificate  files." false
  | None =>
      _ ← (if secret then createK8sCertificateSecret env certs else mret None);
      upload acc certs
  end.

(** ** Handlers *)

Definition event_is (types : list string) (event : CertEvent) : bool :=
  mem_string (ToLower (d_Type (ev_Data event))) types.

(** One event after another, until a handler returns. *)
Fixpoint each_event (handle : CertEvent → C bool) (events : list CertEvent) : C () :=
  match events with
  | [] => mret ()
  | event :: events => cont ← handle event; if (cont : bool) then each_event handle events else mret ()
  end.
(** The dispatch of the two event handlers: [GET] is refused; a method that is neither has
    no case (the last label is the string DEFAULT). *)
Definition event_handler (acc : string) (r : CRequest) (handle : CertEvent → C bool) : C () :=
  if String.eqb (cq_Method r) "POST" then
    match cq_Body r with
    | BodyReadError => http_error "Error reading body" StatusInternalServerError
    | BodyBytes raw parsed =>
        if String.eqb raw "" then http_error "Body does not contain" StatusInternalServerError
        else each_event handle (one_or_many into_CertEvent zero_event parsed).1
    end
  else if mem_string (cq_Method r) ["GET"; "DEFAULT"] then write acc StatusMethodNotAllowed MSG_405_METHOD
  else mret ().

Definition update_event (acc : string) (event : CertEvent) : C bool :=
  if disableCertMatchChecks env ||
     (String.eqb (Trim (d_Namespace (ev_Data event)) " ") (certificateNameSpace env) &&
      String.eqb (Trim (d_Name (ev_Data event)) " ") (autoCertName env) && event_is ["create"; "update"] event)
  then update_from_files acc (createK8sCertSecret env)
  else answer acc StatusInternalServerError "Ignoring Certificate update event due to parameters mismatch" false.
Definition UpdateCert (r : CRequest) : C () :=
  let acc := ToLower (cq_Accept r) in
  event_handler acc r (update_event acc).

Definition UpdateCertWithoutChecks (r : CRequest) : C () :=
  _ ← update_from_files (ToLower (cq_Accept r)) false; mret ().

Definition delete_certificate (acc : string) : C bool :=
  loaded ← ask (λ t, aws_LoadDefaultConfig t (e_region env));
  match loaded with
  | Some _ => answer acc StatusInternalServerError "Unable to load AWS SDK" false
  | None =>
      if String.eqb (acmCertificateName env) ""
      then answer acc StatusServiceUnavailable "Required Certificate name parameter missing." false
      else
        found ← findCertificateByName acm_config (acmCertificateName env);
        match found with
        | inl _ => answer acc StatusServiceUnavailable "An error occurred trying to find existing certificate" false
        | inr "" => answer acc StatusServiceUnavailable
                      ("Certificate with name '" +:+ acmCertificateName env +:+ "' not found.") false
        | inr certArn =>
            res ← call_acm (λ t, acm_Delete acm_config t certArn);
            match res with
            | Some _ => answer acc StatusServiceUnavailable "An error occurred trying to delete existing certificate" false
            | None => answer acc StatusOK ("Successfully deleted certificate, ARN=" +:+ certArn) true
            end
        end
  end.
Definition delete_event (acc : string) (event : CertEvent) : C bool :=
  if disableCertMatchChecks env ||
     (String.eqb (d_Namespace (ev_Data event)) (certificateNameSpace env) &&
      String.eqb (d_Name (ev_Data event)) (autoCertName env) && event_is ["delete"] event)
  then delete_certificate acc
  else answer acc StatusInternalServerError "Certificate event must be delete" false.
Definition DeleteCert (r : CRequest) : C () := event_handler (cq_Accept r) r (delete_event (cq_Accept r)).
Definition DeleteCertWithoutChecks (r : CRequest) : C () :=
  _ ← delete_certificate (cq_Accept r); mret ().

(** ** The first upload ([doInititalCertUpdate]) *)

Definition initial_tags : list (string * string) :=
  [("Name", acmCertificateName env); ("Comment", "Imported by Golang SDK")].
Definition doInititalCertUpdate : C () :=
  '(certs, err) ← readCertFiles env;
  match err with
  | Some _ => mret ()
  | None =>
      _ ← (if createK8sCertSecret env then createK8sCertificateSecret env certs else mret None);
      loaded ← ask (λ t, aws_LoadDefaultConfig t (e_region env));
      match loaded with
      | Some _ => mret ()
      | None =>
          found ← findCertificateByName acm_config (acmCertificateName env);
          match found with
          | inl _ => mret ()
          | inr certArn =>
              if negb (String.eqb certArn "") then
                _ ← call_acm (λ t, acm_Import acm_config t (import_input certs (Some certArn))); mret ()
              else
                res ← call_acm (λ t, acm_Import acm_config t (import_input certs None));
                match res with
                | inl _ => mret ()
                | inr newArn => _ ← call_acm (λ t, acm_AddTags acm_config t newArn initial_tags); mret ()
                end
          end
      end
  end.

(** ** Health *)

(** A certificate about to expire is only logged; a missing time, or a missing name of one
    that is about to expire, is a nil pointer. *)
Definition day : Z := (24 * 3600 * 1000000000)%Z.
Definition report_expiry (threshold : Z) (now : Time) (d : CertificateDetail) : C () :=
  match cd_NotAfter d with
  | None => panic
  | Some notAfter =>
      if (Z.quot (notAfter - now) day <? threshold)%Z
      then match cd_DomainName d, cd_Arn d with Some _, Some _ => mret () | _, _ => panic end
      else mret ()
  end.
Fixpoint check_page (threshold : Z) (arns : list string) : C (option error) :=
  match arns with
  | [] => mret None
  | arn :: arns =>
      d ← ask_acm (λ t l, acm_Describe acm_config t l arn);
      match d with
      | inl err => mret (Some err)
      | inr d =>
          now ← ask time_Now;
          _ ← report_expiry threshold now d;
          check_page threshold arns
      end
  end.
Fixpoint check_pages (threshold : Z) (pages : list (error + list string)) : C (option error) :=
  match pages with
  | [] => mret None
  | inl err :: _ => mret (Some err)
  | inr arns :: pages =>
      err ← check_page threshold arns;
      match err with Some err => mret (Some err) | None => check_pages threshold pages end
  end.
Definition checkExpiringCertificates (threshold : Z) : C (option error) :=
  pages ← ask_acm (λ t l, acm_Pages acm_config t l);
  check_pages threshold pages.

Definition HealthCheckServer (r : CRequest) : C () :=
  let acc := cq_Accept r in
  ok ← checkCertFiles env true false;
  if negb ok then write acc StatusInternalServerError "Required certificate files are missing from pod" else
  loaded ← ask (λ t, aws_LoadDefaultConfig t (e_region env));
  match loaded with
  | Some _ => write acc StatusInternalServerError "Unable to load AWS SDK"
  | None =>
      err ← checkExpiringCertificates 30;
      match err with
      | None => write acc StatusOK MSG_200_OK
      | Some _ => write acc StatusTeapot MSG_418_TEAPOT
      end
  end.
End acm.
