(* ===== verification/CertDNS.v ===== *)
(** * The certificate synchronizer: DNS records in Route 53

    server.go: the parameters of a record and their normalisation, the hosted zone, the
    record, and the two handlers, each for one record or for many. *)

From S2P Require Import Prelude GoStd Monad EntSchema EntQuery EntMutation Config Http CertBase CertFiles.
From Stdlib Require Import Ascii.

Record DNSRecordParams := mkDNS {
  p_Region : string; p_Domain : string; p_VPC : string; p_IsPrivate : bool;
  p_Recordtype : string; p_Recordname : string; p_Recordvalue : string; p_fqdn : string }.
Definition zero_params : DNSRecordParams := mkDNS "" "" "" false "" "" "" "".

(** [validate]: the rules on the region, the full name, the type and the value *)
Definition validate `{Cloud} (p : DNSRecordParams) : option error :=
  dns_validate (p_Region p) (p_fqdn p) (p_Recordtype p) (p_Recordvalue p).

(** The decoder; the fields nothing reads only matter for their types. *)
Definition skip {B} (key : string) (into : decoder B) (zero : B) : string * decoder DNSRecordParams :=
  field key into (λ _, zero) (λ _ p, p).
Definition into_DNS : decoder DNSRecordParams := into_struct [
  field "region" into_string p_Region (λ s p, mkDNS s (p_Domain p) (p_VPC p) (p_IsPrivate p) (p_Recordtype p) (p_Recordname p) (p_Recordvalue p) (p_fqdn p));
  field "domain" into_string p_Domain (λ s p, mkDNS (p_Region p) s (p_VPC p) (p_IsPrivate p) (p_Recordtype p) (p_Recordname p) (p_Recordvalue p) (p_fqdn p));
  field "vpc" into_string p_VPC (λ s p, mkDNS (p_Region p) (p_Domain p) s (p_IsPrivate p) (p_Recordtype p) (p_Recordname p) (p_Recordvalue p) (p_fqdn p));
  field "isPrivate" into_bool p_IsPrivate (λ b p, mkDNS (p_Region p) (p_Domain p) (p_VPC p) b (p_Recordtype p) (p_Recordname p) (p_Recordvalue p) (p_fqdn p));
  field "recordType" into_string p_Recordtype (λ s p, mkDNS (p_Region p) (p_Domain p) (p_VPC p) (p_IsPrivate p) s (p_Recordname p) (p_Recordvalue p) (p_fqdn p));
  field "recordName" into_string p_Recordname (λ s p, mkDNS (p_Region p) (p_Domain p) (p_VPC p) (p_IsPrivate p) (p_Recordtype p) s (p_Recordvalue p) (p_fqdn p));
  field "recordValue" into_string p_Recordvalue (λ s p, mkDNS (p_Region p) (p_Domain p) (p_VPC p) (p_IsPrivate p) (p_Recordtype p) (p_Recordname p) s (p_fqdn p));
  skip "policy" into_string ""; skip "setIdentifier" into_string ""; skip "weight" into_int 0%Z;
  skip "failover" into_string ""; skip "countryCode" into_string ""; skip "cidr" into_string "";
  skip "latitude" into_float 0%Z; skip "longitude" into_float 0%Z].

Definition escapeString (s : string) : string :=
  if HasPrefix s dquote && HasSuffix s dquote then s else dquote +:+ s +:+ dquote.

Section dns.
Context `{Cloud} (env : envVars).

(** [strings.TrimLeft(s, ".")] *)
Definition trim_dots (s : string) : string := trim_left (Ascii.eqb ".") s.

Definition sanitizeDNSRecord (p : DNSRecordParams) : DNSRecordParams :=
  let region := or_else (p_Region p) (e_region env) in
  let domain := or_else (p_Domain p) (ToLower (e_domain env)) in
  let name := if HasSuffix (p_Recordname p) "." then p_Recordname p else ToLower (p_Recordname p +:+ ".") in
  let domain := if HasPrefix domain "." then ToLower (trim_dots domain) else domain in
  let value := if String.eqb (p_Recordtype p) "TXT" then escapeString (p_Recordvalue p) else p_Recordvalue p in
  mkDNS region domain (p_VPC p) (p_IsPrivate p) (p_Recordtype p) name value (ToLower (name +:+ domain)).

(** ** Zones and records *)

Fixpoint find_zone (domain : string) (isPrivate : bool) (zones : list Zone) : C (option string) :=
  match zones with
  | [] => mret None
  | z :: zones =>
      if String.eqb (TrimSuffix (hz_Name z) ".") domain then
        match hz_Private z with
        | None => panic
        | Some b => if Bool.eqb b isPrivate then mret (Some (hz_Id z)) else find_zone domain isPrivate zones
        end
      else find_zone domain isPrivate zones
  end.
(** [%d] of [time.Now().UnixNano()] *)
Definition caller_reference (now : Time) : string :=
  (if (now <? 0)%Z then "-" else "") +:+ itoa (Z.abs_nat now).
Definition getOrCreateHostedZone (cfg : AWSConfig) (domain vpc region : string) (isPrivate createZone : bool)
    : C (error + string) :=
  listed ← ask_r53 (λ t l, r53_ListZones cfg t domain l);
  match listed with
  | inl err => mret (inl err)
  | inr zones =>
      found ← find_zone domain isPrivate zones;
      match found with
      | Some id => mret (inr id)
      | None =>
          if createZone && (negb isPrivate || (isPrivate && negb (String.eqb region "") && negb (String.eqb vpc ""))) then
            now ← ask time_Now;
            call_r53 (λ t, r53_CreateZone cfg t
              (mkCreateZone domain (if isPrivate then Some (vpc, region) else None) isPrivate (caller_reference now)))
          else mret (inl (errText "Unable to find or create hosted zone"))
      end
  end.

Definition matches (fqdn recordType : string) (r : RecordSet) : bool :=
  String.eqb (TrimSuffix (rs_Name r) ".") (ToLower fqdn) && String.eqb (rs_Type r) recordType.
Definition getRoute53Record (cfg : AWSConfig) (hostedZoneID fqdn recordType : string)
    : C (error + option RecordSet) :=
  if String.eqb hostedZoneID "" || String.eqb fqdn "" then mret (inl (errText "Required parameters missing.")) else
  listed ← ask_r53 (λ t l, r53_ListRecords cfg t hostedZoneID (ToLower fqdn) recordType l);
  mret (match listed with
        | inl err => inl err
        | inr records => inr (List.find (matches fqdn recordType) records)
        end).

Definition recordTTL : Z := 300.
Definition createRoute53Record (cfg : AWSConfig) (hostedZoneID recordName recordType recordValue : string) : C (option error) :=
  call_r53 (λ t, r53_Change cfg t hostedZoneID ChangeCreate
    (mkRecordSet recordName (ToUpper recordType) recordTTL [recordValue])).
Definition updateRoute53Record (cfg : AWSConfig) (hostedZoneID recordName recordType newValue : string) : C (option error) :=
  call_r53 (λ t, r53_Change cfg t hostedZoneID ChangeUpsert
    (mkRecordSet recordName (ToUpper recordType) recordTTL [newValue])).
Definition deleteRoute53Record (cfg : AWSConfig) (hostedZoneID recordName recordType : string) : C (option error) :=
  existing ← getRoute53Record cfg hostedZoneID recordName recordType;
  match existing with
  | inl err => mret (Some err)
  | inr None => mret None
  | inr (Some r) =>
      match rs_Values r with
      | [] => fail (errText "index out of range [0] with length 0")
      | v :: _ => call_r53 (λ t, r53_Change cfg t hostedZoneID ChangeDelete
                    (mkRecordSet recordName recordType recordTTL [v]))
      end
  end.

(** ** One record: whether it went well, and the message; [safe] is what is done to the
    domain in one of them. *)

Definition record_text (p : DNSRecordParams) (zone : string) : string :=
  p_Recordtype p +:+ " type record " +:+ p_fqdn p +:+ " for hosted zone : " +:+ zone.
Definition upsert_record (safe : string → string) (cfg : AWSConfig) (p : DNSRecordParams) : C (bool * string) :=
  zone ← getOrCreateHostedZone cfg (p_Domain p) (or_else (p_VPC p) (e_vpc env)) (or_else (p_Region p) (e_region env))
           (p_IsPrivate p) true;
  match zone with
  | inl _ => mret (false, "Failed to get or create Route53 hosted zone for domain : " +:+ safe (p_Domain p))
  | inr zone =>
      existing ← getRoute53Record cfg zone (p_fqdn p) (p_Recordtype p);
      match existing with
      | inl _ => mret (false, "Failed to get Route53 DNS record " +:+ p_fqdn p +:+ " for hosted zone : " +:+ zone)
      | inr (Some _) =>
          err ← updateRoute53Record cfg zone (p_fqdn p) (p_Recordtype p) (p_Recordvalue p);
          mret (match err with
                | Some _ => (false, "Failed to update Route53 DNS " +:+ record_text p zone)
                | None => (true, "Updated Route53 DNS " +:+ record_text p zone)
                end)
      | inr None =>
          err ← createRoute53Record cfg zone (p_Recordname p +:+ p_Domain p) (p_Recordtype p) (p_Recordvalue p);
          mret (match err with
                | Some _ => (false, "Failed to insert Route53 DNS record " +:+ record_text p zone)
                | None => (true, "Created Route53 DNS " +:+ record_text p zone)
                end)
      end
  end.
Definition remove_record (cfg : AWSConfig) (p : DNSRecordParams) : C (bool * string) :=
  zone ← getOrCreateHostedZone cfg (p_Domain p) "" "" (p_IsPrivate p) false;
  match zone with
  | inl _ => mret (false, "Failed to get or create Route53 hosted zone for domain : " +:+ p_Domain p)
  | inr zone =>
      existing ← getRoute53Record cfg zone (p_fqdn p) (p_Recordtype p);
      match existing with
      | inl _ => mret (false, "Failed to get Route53 DNS record " +:+ p_fqdn p +:+ " for hosted zone : " +:+ zone)
      | inr None => mret (true, "No Route53 DNS record of type " +:+ p_Recordtype p +:+ " called " +:+ p_fqdn p
                            +:+ " for hosted zone : " +:+ zone +:+ " found to delete. Done.")
      | inr (Some _) =>
          err ← deleteRoute53Record cfg zone (p_fqdn p) (p_Recordtype p);
          mret (match err with
                | Some _ => (false, "Failed to delete Route53 DNS " +:+ record_text p zone)
                | None => (true, "Deleted Route53 DNS " +:+ record_text p zone)
                end)
      end
  end.

(** [createSingleDNSRecord], [deleteSingleDNSRecord]: the message is the answer. *)
Definition single (acc : string) (act : C (bool * string)) : C () :=
  '(ok, msg) ← act;
  write acc (if (ok : bool) then StatusOK else StatusInternalServerError) msg.
Definition createSingleDNSRecord (acc : string) (cfg : AWSConfig) (p : DNSRecordParams) : C () :=
  single acc (upsert_record html_EscapeString cfg p).
Definition deleteSingleDNSRecord (acc : string) (cfg : AWSConfig) (p : DNSRecordParams) : C () :=
  single acc (remove_record cfg p).
(** [createDNSRecord], [deleteDNSRecord]: the message is a line of the report. *)
Definition createDNSRecord (cfg : AWSConfig) (p : DNSRecordParams) : C (bool * string) :=
  '(ok, msg) ← upsert_record id cfg p; mret (ok, msg +:+ String "010" "").
Definition deleteDNSRecord (cfg : AWSConfig) (p : DNSRecordParams) : C (bool * string) :=
  '(ok, msg) ← remove_record cfg p; mret (ok, msg +:+ String "010" "").

(** ** Many records: the counters and the three lists of the report *)

Record Report := mkReport {
  rp_invalid : nat; rp_errors : nat; rp_successes : nat; rp_count : nat;
  rp_invalidStrings : string; rp_errorStrings : string; rp_responseStrings : string }.
Definition no_report : Report := mkReport 0 0 0 0 "" "" "".
Definition invalid_line (err : error) (p : DNSRecordParams) : string :=
  "Error " +:+ Error err +:+ ", Domain: " +:+ p_Domain p +:+ ", RecordName: " +:+ p_Recordname p
    +:+ ", RecordType: " +:+ p_Recordtype p +:+ ", Value: " +:+ p_Recordvalue p +:+ String "010" "".
Definition add_invalid (line : string) (rp : Report) : Report :=
  mkReport (S (rp_invalid rp)) (rp_errors rp) (rp_successes rp) (S (rp_count rp))
    (rp_invalidStrings rp +:+ line) (rp_errorStrings rp) (rp_responseStrings rp).
Definition add_result (ok : bool) (line : string) (rp : Report) : Report :=
  if ok then mkReport (rp_invalid rp) (rp_errors rp) (S (rp_successes rp)) (S (rp_count rp))
               (rp_invalidStrings rp) (rp_errorStrings rp) (rp_responseStrings rp +:+ line)
  else mkReport (rp_invalid rp) (S (rp_errors rp)) (rp_successes rp) (S (rp_count rp))
         (rp_invalidStrings rp) (rp_errorStrings rp +:+ line) (rp_responseStrings rp).
Definition nl : string := String "010" "".
Definition report_message (rp : Report) : string :=
  "Completed " +:+ itoa (rp_count rp) +:+ " records, with " +:+ itoa (rp_invalid rp) +:+ " invalid records, "
    +:+ itoa (rp_errors rp) +:+ " errors, " +:+ itoa (rp_successes rp) +:+ " successfully inserted/updated." +:+ nl +:+ nl
    +:+ "Invalid transactions" +:+ nl +:+ rp_invalidStrings rp +:+ nl
    +:+ "Error transactions" +:+ nl +:+ rp_errorStrings rp +:+ nl
    +:+ "Sucessful transactions" +:+ nl +:+ rp_responseStrings rp +:+ nl.

(** [region p] is the region of the client for a record, [act] what is done with it; [None]
    when the handler has answered and returned. *)
Fixpoint many_records (acc : string) (region : DNSRecordParams → string)
    (act : AWSConfig → DNSRecordParams → C (bool * string))
    (records : list DNSRecordParams) (rp : Report) : C (option Report) :=
  match records with
  | [] => mret (Some rp)
  | record :: records =>
      let record := sanitizeDNSRecord record in
      loaded ← ask (λ t, aws_LoadDefaultConfig t (region record));
      match loaded with
      | Some _ => _ ← write acc StatusInternalServerError "Unable to load AWS SDK"; mret None
      | None =>
          match validate record with
          | Some err => many_records acc region act records (add_invalid (invalid_line err record) rp)
          | None =>
              '(ok, line) ← act (mkAWSConfig (region record) None) record;
              many_records acc region act records (add_result ok line rp)
          end
      end
  end.

(** ** Handlers *)

(** The parameters of a [GET]: one step of the loop over the query. *)
Definition query_create (p : DNSRecordParams) (kv : string * string) : DNSRecordParams :=
  let key := ToLower kv.1 in let v := kv.2 in
  if String.eqb key "region" then mkDNS v (p_Domain p) (p_VPC p) (p_IsPrivate p) (p_Recordtype p) (p_Recordname p) (p_Recordvalue p) (p_fqdn p)
  else if String.eqb key "domain" then mkDNS (p_Region p) (ToLower v) (p_VPC p) (p_IsPrivate p) (p_Recordtype p) (p_Recordname p) (p_Recordvalue p) (p_fqdn p)
  else if String.eqb key "recordtype" then mkDNS (p_Region p) (p_Domain p) (p_VPC p) (p_IsPrivate p) (ToUpper v) (p_Recordname p) (p_Recordvalue p) (p_fqdn p)
  else if String.eqb key "recordname" then mkDNS (p_Region p) (p_Domain p) (p_VPC p) (p_IsPrivate p) (p_Recordtype p) (ToLower v) v (p_fqdn p)
  else p.
Definition query_delete (p : DNSRecordParams) (kv : string * string) : DNSRecordParams :=
  let key := ToLower kv.1 in let v := kv.2 in
  if String.eqb key "region" then mkDNS v (p_Domain p) (p_VPC p) (p_IsPrivate p) (p_Recordtype p) (p_Recordname p) (p_Recordvalue p) (p_fqdn p)
  else if String.eqb key "domain" then mkDNS (p_Region p) v (p_VPC p) (p_IsPrivate p) (p_Recordtype p) (p_Recordname p) (p_Recordvalue p) (p_fqdn p)
  else if String.eqb key "recordtype" then mkDNS (p_Region p) (p_Domain p) (p_VPC p) (p_IsPrivate p) (ToUpper v) (p_Recordname p) (p_Recordvalue p) (p_fqdn p)
  else if String.eqb key "recordname" then mkDNS (p_Region p) (p_Domain p) (p_VPC p) (p_IsPrivate p) (p_Recordtype p) v (p_Recordvalue p) (p_fqdn p)
  else if String.eqb key "recordvalue" then mkDNS (p_Region p) (p_Domain p) (p_VPC p) (p_IsPrivate p) (p_Recordtype p) (p_Recordname p) v (p_fqdn p)
  else p.

(** The records of a request and the region of the parameters; [None] when the handler has
    answered and returned.  After a body that cannot be parsed, an empty one and a method
    that is not allowed, it has answered and goes on. *)
Definition request_records (acc : string) (r : CRequest) (query : DNSRecordParams → string * string → DNSRecordParams)
    : C (option (string * list DNSRecordParams)) :=
  if String.eqb (cq_Method r) "GET" then
    let params := foldl query zero_params (cq_Query r) in
    let records := if negb (String.eqb (p_Recordtype params) "") && negb (String.eqb (p_Recordvalue params) "")
                   then [sanitizeDNSRecord params] else [] in
    match validate params with
    | Some _ => _ ← write acc StatusBadRequest MSG_400_BAD_RQ; mret None
    | None => mret (Some (p_Region params, records))
    end
  else if String.eqb (cq_Method r) "POST" then
    match cq_Body r with
    | BodyReadError => _ ← http_error "Error reading body" StatusInternalServerError; mret None
    | BodyBytes raw parsed =>
        if String.eqb raw "" then
          _ ← http_error "Body is empty" StatusInternalServerError; mret (Some ("", []))
        else match match parsed with Some j => into_DNS zero_params j | None => (zero_params, false) end with
             | (record, true) => mret (Some ("", [sanitizeDNSRecord record]))
             | (_, false) =>
                 let '(records, ok) := match parsed with
                                       | Some j => into_slice into_DNS zero_params [] j
                                       | None => ([], false)
                                       end in
                 if ok then mret (Some ("", records))
                 else _ ← write acc StatusBadRequest MSG_400_BAD_RQ; mret (Some ("", records))
             end
    end
  else _ ← write acc StatusMethodNotAllowed MSG_405_METHOD; mret (Some ("", [])).

(** What both handlers do with the records. *)
Definition handle_records (acc region : string) (region_of : DNSRecordParams → string)
    (one : AWSConfig → DNSRecordParams → C ()) (each : AWSConfig → DNSRecordParams → C (bool * string))
    (records : list DNSRecordParams) : C () :=
  match records with
  | [record] =>
      match validate record with
      | Some _ => write acc StatusBadRequest MSG_400_BAD_RQ
      | None =>
          loaded ← ask (λ t, aws_LoadDefaultConfig t region);
          match loaded with
          | Some _ => write acc StatusInternalServerError "Unable to load AWS SDK"
          | None => one (mkAWSConfig region None) record
          end
      end
  | _ =>
      rp ← many_records acc region_of each records no_report;
      match rp with
      | Some rp => write acc StatusOK (report_message rp)
      | None => mret ()
      end
  end.

Definition HTTPCreateDNSRecord (r : CRequest) : C () :=
  let acc := ToLower (cq_Accept r) in
  res ← request_records acc r query_create;
  match res with
  | None => mret ()
  | Some (region, records) =>
      handle_records acc region p_Region (createSingleDNSRecord acc) createDNSRecord records
  end.
Definition HTTPDeleteDNSRecord (r : CRequest) : C () :=
  let acc := ToLower (cq_Accept r) in
  res ← request_records acc r query_delete;
  match res with
  | None => mret ()
  | Some (region, records) =>
      handle_records acc region (λ _, e_region env) (deleteSingleDNSRecord acc) deleteDNSRecord records
  end.
End dns.
