(* ===== verification/CertServer.v ===== *)
(** * The certificate synchronizer: the server

    server.go, [Init] and the first steps of [Run]: the settings, the times of the files at
    start, the first upload, and the table of handlers, with the two that only serve tests:
    [POSTDebug], and [GetDebug] of the debug build. *)

From S2P Require Import Prelude GoStd Monad EntSchema EntQuery EntMutation Config Http.
From S2P Require Import CertBase CertFiles CertACM CertDNS.
From Stdlib Require Import Ascii.

(** [POSTDebug] sends the body of the request back. *)
Definition POSTDebug (r : CRequest) : C () :=
  if String.eqb (cq_Method r) "POST" then
    match cq_Body r with
    | BodyReadError => http_error "Error reading body" StatusInternalServerError
    | BodyBytes raw _ =>
        out (λ o, Write raw (WriteHeader StatusOK
          (set_content_type (Trim (TrimSpace (cq_Accept r)) (ascii_of_nat 34)) o)))
    end
  else mret ().

(** ** The debug build *)

(** [buildflags.DEBUG]; the validation library on the parameters (both lengths and forms, then
    the range of the delay); a random UUID at a call. *)
Class DebugBuild := {
  DEBUG : bool;
  validate_debugParams : string → string → option error;
  validate_delay : Z → option error;
  uuid_NewString : nat → string }.

(** [[^a-zA-Z0-9 ]+] replaced by a space: each longest run by one. *)
Definition plain_char (c : ascii) : bool := is_alnum c || Ascii.eqb c " ".
Fixpoint sanitize_from (run : bool) (s : string) : string :=
  match s with
  | EmptyString => ""
  | String c s =>
      if plain_char c then String c (sanitize_from false s)
      else if run then sanitize_from true s else String " " (sanitize_from true s)
  end.
Definition sanitizeString (s : string) : string := sanitize_from false s.
(** [bytes.Replace(s, old, new, 1)] *)
Fixpoint replace_first (old new s : string) : string :=
  if HasPrefix s old then new +:+ String.substring (String.length old) (String.length s) s
  else match s with EmptyString => "" | String c s => String c (replace_first old new s) end.

Section debug.
Context `{Cloud} `{DebugBuild}.

Definition MSG_401_UNAUTH : string :=
  "There was an error validating your license for this product. Check that your license has not expired. " +:+
  "Please open a support ticket including the following identifier at https://supporttickets.intel.com/supportrequest?lang=en-US&productId=236861:15711".
Definition MSG_403_FORBID : string := "403 - This resource is forbidden with your current license.".
Definition MSG_503_UNAVAL : string := "503 - A backend error has occurred.".
Definition ERROR_WEBPAGE : string := "./html/error.html".
(** [httpResponse.write] for a response with a web page, a comment and an id. *)
Definition write_page (acceptedContent : string) (status : Z) (message path comment errorUuid : string) : C () :=
  let accepted := Trim (TrimSpace acceptedContent) (ascii_of_nat 34) in
  if String.eqb accepted JSON_CONTENT then
    let message := if String.eqb errorUuid "" then message else message +:+ " ID:" +:+ errorUuid in
    out (λ o, Write (json_Marshal_message message) (WriteHeader status (set_content_type JSON_CONTENT o)))
  else
    file ← ask (λ t, fs_ReadFile t path);
    match file.2 with
    | Some _ => out (λ o, Write (html_EscapeString message) (WriteHeader status (set_content_type PLAIN_CONTENT o)))
    | None =>
        let body := if String.eqb errorUuid "" then file.1 else replace_first "UUIDSTR" errorUuid file.1 in
        let body := if String.eqb comment "" then body
                    else body +:+ "<!--" +:+ (String "010" "") +:+ sanitizeString comment +:+ (String "010" "") +:+ "-->" in
        out (λ o, Write body (WriteHeader status (set_content_type HTML_CONTENT o)))
    end.

(** The two parameters, in the order the loop visits the keys. *)
Definition debug_params (query : list (string * string)) : string * string :=
  foldl (λ p kv,
    if String.eqb (ToLower kv.1) "reply" then (kv.2, p.2)
    else if String.eqb (ToLower kv.1) "delay" then (p.1, kv.2) else p) ("", "") query.
Definition debug_validate (p : string * string) : option error :=
  match validate_debugParams p.1 p.2 with
  | Some err => Some err
  | None =>
      if String.eqb p.2 "" then None else
      match ParseInt64 p.2 with
      | None => Some (errText ("strconv.Atoi: parsing " +:+ p.2 +:+ ": invalid syntax"))
      | Some delay => validate_delay delay
      end
  end.
(** [time.ParseDuration(delay + "s")] of a decimal: it only fails out of range. *)
Definition bad_duration (delay : string) : bool :=
  match ParseInt64 delay with
  | Some n => (int64_max <? Z.abs n * 1000000000)%Z
  | None => true
  end.
(** The sleep has no effect on the state. *)
Definition debug_reply (acc replyWith : string) : C () :=
  if String.eqb replyWith "200" then write acc StatusOK MSG_200_OK
  else if String.eqb replyWith "400" then write acc StatusBadRequest MSG_400_BAD_RQ
  else if String.eqb replyWith "401" then
    id ← ask uuid_NewString;
    write_page acc StatusUnauthorized MSG_401_UNAUTH ERROR_WEBPAGE "example debug error" id
  else if String.eqb replyWith "403" then write acc StatusForbidden MSG_403_FORBID
  else if String.eqb replyWith "405" then write acc StatusMethodNotAllowed MSG_405_METHOD
  else if String.eqb replyWith "503" then write acc StatusServiceUnavailable MSG_503_UNAVAL
  else write acc StatusBadRequest MSG_400_BAD_RQ.
Definition GetDebug (r : CRequest) : C () :=
  let acc := cq_Accept r in
  if String.eqb (cq_Method r) "GET" then
    let p := debug_params (cq_Query r) in
    match debug_validate p with
    | Some _ => write acc StatusBadRequest MSG_400_BAD_RQ
    | None =>
        if negb (String.eqb p.2 "") && bad_duration p.2 then write acc StatusBadRequest MSG_400_BAD_RQ
        else if negb (String.eqb p.1 "") then debug_reply acc p.1
        else write acc StatusBadRequest MSG_400_BAD_RQ
    end
  else write acc StatusMethodNotAllowed MSG_405_METHOD.
End debug.

(** ** The server *)

Definition HTML_UTF8 : string := "text/html; charset=utf-8".
(** The redirect of net/http, of a response without a content type; the header Location is left out. *)
Definition redirect_body `{ServeMuxLib} (url : string) : string :=
  "<a href=" +:+ dquote +:+ html_EscapeString url +:+ dquote +:+ ">" +:+ redirect_Text +:+ "</a>." +:+
  String "010" (String "010" "").
Definition http_redirect `{ServeMuxLib} (url : string) (r : CRequest) : C () :=
  if String.eqb (cq_Method r) "GET" then
    out (λ o, Write (redirect_body url) (WriteHeader redirect_Status (set_content_type HTML_UTF8 o)))
  else if String.eqb (cq_Method r) "HEAD" then
    out (λ o, WriteHeader redirect_Status (set_content_type HTML_UTF8 o))
  else out (WriteHeader redirect_Status).
Section server.
Context `{Cloud} `{DebugBuild} `{ServeMuxLib}.

Inductive CertEndpoint :=
  | EpUpdate | EpForceUpdate | EpDelete | EpForceDelete | EpCreateDNS | EpDeleteDNS | EpHealth | EpDebug | EpGetDebug.
Definition cert_endpoints : list (string * CertEndpoint) :=
  [("updatecert", EpUpdate); ("forceupdatecert", EpForceUpdate); ("deletecert", EpDelete);
   ("forcedeletecert", EpForceDelete); ("creatednsrecord", EpCreateDNS); ("deletednsrecord", EpDeleteDNS);
   ("healthcheck", EpHealth); ("debug", EpDebug)] ++
  (if DEBUG then [("debugv1", EpGetDebug)] else []).
(** Both patterns of an endpoint, the path [/name] and the subtree [/name/]: the first segment. *)
Definition mux (path : string) : option CertEndpoint :=
  match path_segments path with
  | [] => None
  | name :: _ => snd <$> List.find (λ e, String.eqb name e.1) cert_endpoints
  end.

Definition cert_handler (env : envVars) (e : CertEndpoint) : CRequest → C () :=
  match e with
  | EpUpdate => UpdateCert env
  | EpForceUpdate => UpdateCertWithoutChecks env
  | EpDelete => DeleteCert env
  | EpForceDelete => DeleteCertWithoutChecks env
  | EpCreateDNS => HTTPCreateDNSRecord env
  | EpDeleteDNS => HTTPDeleteDNSRecord env
  | EpHealth => HealthCheckServer env
  | EpDebug => POSTDebug
  | EpGetDebug => GetDebug
  end.

(** [http.ServeMux.ServeHTTP], which answers some requests itself: those that are not about
    a path (of which [OPTIONS *] does not get that far), and those to a path that is not in
    canonical form. *)
Definition mux_ServeHTTP (env : envVars) (path : string) (r : CRequest) : C () :=
  if String.eqb path "*" then
    out (WriteHeader (if String.eqb (cq_Method r) "OPTIONS" then StatusOK else StatusBadRequest))
  else if redirects (cq_Method r) path then http_redirect (redirect_URL path (cq_Query r)) r
  else match mux path with
       | None => http_error "404 page not found" StatusNotFound
       | Some e => cert_handler env e r
       end.
(** One request, on a fresh response; [path] is the path as it is in the URL. *)
Definition ServeHTTP (env : envVars) (path : string) (r : CRequest) : C () :=
  _ ← out (λ _, new_writer);
  mux_ServeHTTP env path r.

(** [valid] is the answer of the validation library on the port. *)
Definition Init (valid : option error) (version : string) : C (error + envVars) :=
  env ← getEnvVars version;
  _ ← checkCertFiles env true true;
  mret (match valid with Some err => inl err | None => inr env end).
Definition start (valid : option error) (version : string) : C (error + envVars) :=
  res ← Init valid version;
  match res with
  | inl err => mret (inl err)
  | inr env => _ ← doInititalCertUpdate env; mret (inr env)
  end.

(** The requests of a running server one after another; net/http recovers a panic of a
    handler and goes on with the next request. *)
Definition recovered (m : C ()) : C () := λ w, (inr (), (m w).2).
Fixpoint serve (env : envVars) (requests : list (string * CRequest)) : C () :=
  match requests with
  | [] => mret ()
  | (path, r) :: requests => _ ← recovered (ServeHTTP env path r); serve env requests
  end.
(** The process from its start on. *)
Definition Run (valid : option error) (version : string) (requests : list (string * CRequest)) : C (error + envVars) :=
  res ← start valid version;
  match res with
  | inl err => mret (inl err)
  | inr env => _ ← serve env requests; mret (inr env)
  end.
End server.
