(* ===== verification/CertFilesSpec.v ===== *)
(** * The certificate synchronizer: waiting for the files

    The waiting loop of the update handlers ends within its time-out; it recognises only an
    update of all the files between two looks; and what is read from the files. *)

From S2P Require Import Prelude GoStd Monad EntSchema EntQuery EntMutation Config Http Base64 Logic EntSpec.
From S2P Require Import CertBase CertFiles.
From Stdlib Require Import Ascii.

(** A call that only counts, or that changes one part of the state. *)
Lemma wp_step_of {A} (a : A) f (Q : error + A → CWorld → Prop) (m : C A) w :
  m w = (inr a, f w) → Q (inr a) (f w) → wp m Q w.
Proof. intros Hm HQ. by apply (wp_run _ _ _ _ _ Hm). Qed.

Section files.
Context `{Cloud}.

Lemma wp_ask {A} (f : nat → A) (Q : error + A → CWorld → Prop) w :
  Q (inr (f (cw_tick w))) (set_tick w) → wp (ask f) Q w.
Proof. by apply wp_step_of. Qed.
Lemma wp_respond f (Q : error + () → CWorld → Prop) w : Q (inr ()) (set_out (f (cw_out w)) w) → wp (out f) Q w.
Proof. by apply wp_step_of. Qed.
Lemma wp_get_times (Q : error + fileTimes → CWorld → Prop) w : Q (inr (cw_times w)) w → wp get_times Q w.
Proof. by apply (wp_step_of _ id). Qed.
Lemma wp_put_times t (Q : error + () → CWorld → Prop) w : Q (inr ()) (set_times t w) → wp (put_times t) Q w.
Proof. by apply wp_step_of. Qed.

(** Only the clock and the times kept move. *)
Record looked (w w' : CWorld) : Prop := mk_looked {
  lk_acm : cw_acm w' = cw_acm w; lk_zones : cw_zones w' = cw_zones w;
  lk_secrets : cw_secrets w' = cw_secrets w; lk_out : cw_out w' = cw_out w;
  lk_tick : (cw_tick w <= cw_tick w')%nat }.

Lemma looked_refl w : looked w w.
Proof. by split. Qed.
Lemma looked_trans w1 w2 w3 : looked w1 w2 → looked w2 w3 → looked w1 w3.
Proof. intros [] []. split; (congruence || lia). Qed.
Lemma looked_tick w : looked w (set_tick w).
Proof. split; simpl; (done || lia). Qed.
Lemma looked_times t w : looked w (set_times t w).
Proof. by split. Qed.

Context (env : envVars).

(** The kept time is not older than the file, from now on. *)
Definition steady (path : string) (m : Time) (w : CWorld) : Prop :=
  ∀ t, (cw_tick w <= t)%nat → fs_Stat t path = StatOK m.
Definition seen (path : string) (kept : Time) (w : CWorld) : Prop :=
  ∃ m, (m <= kept)%Z ∧ steady path m w.
Lemma seen_later path kept w w' : (cw_tick w <= cw_tick w')%nat → seen path kept w → seen path kept w'.
Proof. intros Hl (m & ? & Hm). exists m. split; [done|]. intros t Ht. apply Hm. lia. Qed.
Lemma seen_looked path kept w w' : looked w w' → seen path kept w → seen path kept w'.
Proof. intros []. by apply seen_later. Qed.

(** The look at one file. *)
Lemma wp_file_updated absent path old (Q : error + bool * Time → CWorld → Prop) w :
  (∀ r w', looked w w' → cw_times w' = cw_times w →
     match r with
     | inl e => e = errText "invalid memory address or nil pointer dereference"
     | inr (b, m) => (b = false ∧ m = old) ∨ (b = absent ∧ m = old) ∨
         (∃ t, (cw_tick w <= t)%nat ∧ fs_Stat t path = StatOK m ∧ (old < m)%Z ∧ b = true)
     end ∧ (seen path old w → r = inr (false, old)) ∧
     (∀ m, path ≠ "" → steady path m w → r = inr ((old <? m)%Z, Z.max old m)) →
     Q r w') →
  wp (file_updated absent path old) Q w.
Proof.
  intros HQ. unfold file_updated. destruct (String.eqb_spec path "").
  { wp_step. apply HQ; [apply looked_refl|done|]. split_and!; [by left|done|done]. }
  wp_step. unfold doesFileExist. wp_step. apply wp_ask. wp_step.
  assert (∀ m, steady path m w → fs_Stat (cw_tick w) path = StatOK m ∧ fs_Stat (S (cw_tick w)) path = StatOK m) as Hst.
  { intros m Hm. split; apply Hm; lia. }
  destruct (fs_Stat (cw_tick w) path) as [m0| |] eqn:Hs0; cbn iota.
  2: { wp_step. apply HQ; [apply looked_tick|done|]. split_and!; [by right; left|intros (m & _ & Hm)|intros m _ Hm];
       by destruct (Hst m Hm). }
  all: wp_step; unfold mod_time; wp_step; apply wp_ask; cbn [cw_tick set_tick];
    destruct (fs_Stat (S (cw_tick w)) path) as [m1| |] eqn:Hs1.
  all: try (unfold panic; wp_step; apply HQ;
    [eapply looked_trans; apply looked_tick|done|
     split_and!; [done|intros (m & _ & Hm)|intros m _ Hm]; by destruct (Hst m Hm)]).
  all: wp_step; wp_step; apply HQ; [eapply looked_trans; apply looked_tick|done|].
  all: assert (∀ m, steady path m w → m = m1) as Heq by (intros m Hm; destruct (Hst m Hm); congruence).
  all: split_and!; [destruct (Z.ltb_spec old m1); [right; right; exists (S (cw_tick w)); split_and!; (done || lia)|by left]
    |intros (m & ? & ->%Heq)|intros m _ ->%Heq]; destruct (Z.ltb_spec old m1); repeat f_equal; lia.
Qed.

Definition nil_pointer : error := errText "invalid memory address or nil pointer dereference".
(** The look at all of them: a file already seen makes it fail, and stays seen. *)
Lemma wp_have (Q : error + bool → CWorld → Prop) w :
  (∀ r w', looked w w' → (r = inl nil_pointer ∨ ∃ b, r = inr b) →
     (seen (tlsCrtPath env) (tlsCrtModTime (cw_times w)) w →
        r ≠ inr true ∧ tlsCrtModTime (cw_times w') = tlsCrtModTime (cw_times w)) →
     (seen (tlsKeyPath env) (tlsKeyModTime (cw_times w)) w →
        r ≠ inr true ∧ tlsKeyModTime (cw_times w') = tlsKeyModTime (cw_times w)) →
     (∀ b m, r = inr b → tlsCrtPath env ≠ "" → steady (tlsCrtPath env) m w →
        tlsCrtModTime (cw_times w') = Z.max (tlsCrtModTime (cw_times w)) m) →
     Q r w') →
  wp (haveCertFilesUpdated env true) Q w.
Proof.
  intros HQ. unfold haveCertFilesUpdated. wp_step. apply wp_get_times. wp_step.
  apply wp_file_updated. intros r1 w1 Hl1 Ht1 (Hr1 & Hs1 & Hm1).
  destruct r1 as [e|[b1 m1]].
  { subst e. apply HQ; [done|by left| |by rewrite Ht1|done].
    intros Hseen. discriminate (Hs1 Hseen). }
  wp_step. apply wp_put_times. wp_step.
  apply wp_file_updated. intros r2 w2 Hl2 Ht2 (Hr2 & Hs2 & _).
  set (w1' := set_times _ w1) in *.
  assert (looked w w1') as Hl by (eapply looked_trans; [done|apply looked_times]).
  assert (seen (tlsCrtPath env) (tlsCrtModTime (cw_times w)) w → b1 = false ∧ m1 = tlsCrtModTime (cw_times w)) as Hcrt.
  { intros Hseen. specialize (Hs1 Hseen). by injection Hs1. }
  destruct r2 as [e|[b2 m2]].
  { subst e. apply HQ; [by eapply looked_trans|by left| | |done].
    - intros [_ ->]%Hcrt. by rewrite Ht2.
    - intros Hseen. discriminate (Hs2 (seen_looked _ _ _ _ Hl Hseen)). }
  assert (seen (tlsKeyPath env) (tlsKeyModTime (cw_times w)) w → b2 = false ∧ m2 = tlsKeyModTime (cw_times w)) as Hkey.
  { intros Hseen. specialize (Hs2 (seen_looked _ _ _ _ Hl Hseen)). by injection Hs2. }
  wp_step. apply wp_put_times. wp_step.
  apply wp_file_updated. intros r3 w3 Hl3 Ht3 (Hr3 & _ & _). set (w2' := set_times _ w2) in *.
  assert (looked w w3) as Hl'.
  { eapply looked_trans; [|done]. eapply looked_trans; [|apply looked_times]. by eapply looked_trans. }
  destruct r3 as [e|[b3 m3]].
  { subst e. apply HQ; [done|by left| | |done]; [intros [_ ->]%Hcrt|intros [_ ->]%Hkey]; by rewrite Ht3. }
  wp_step. apply wp_put_times. wp_step. apply HQ; [by eapply looked_trans; [|apply looked_times]|by right; eexists| | |].
  - intros [-> ->]%Hcrt. split; [by destruct b2|done].
  - intros [-> ->]%Hkey. split; [by destruct b1|done].
  - intros b m _ Hne Hst. specialize (Hm1 m Hne Hst). by injection Hm1.
Qed.

(** ** The loop *)

#[local] Notation timeout := (podFileUpdateSleepTimeout env).
Definition rounds_left (fuel : nat) (sleepTime : Z) (exceeded : bool) : Prop :=
  exceeded = true ∨ (0 < fuel)%nat ∧ (timeout < sleepTime + sleepInterval * Z.of_nat fuel)%Z.

(** [n] informational answers, nothing else. *)
Definition told (n : nat) (w w' : CWorld) : Prop :=
  cw_acm w' = cw_acm w ∧ cw_zones w' = cw_zones w ∧ cw_secrets w' = cw_secrets w ∧
  (cw_tick w <= cw_tick w')%nat ∧ cw_out w' = Nat.iter n (WriteHeader StatusProcessing) (cw_out w).

Lemma told_step n w w1 w2 : looked w w1 → told n (set_out (WriteHeader StatusProcessing (cw_out w1)) w1) w2 → told (S n) w w2.
Proof.
  intros [] (? & ? & ? & ? & Ho). unfold told in *. simpl in *. split_and!; [congruence..|lia|].
  rewrite Ho, lk_out0. apply Nat.iter_swap.
Qed.
Lemma told_zero w w' : looked w w' → told 0 w w'.
Proof. intros []. unfold told. by split_and!. Qed.

Lemma wp_wait fuel s b (Q : error + () → CWorld → Prop) w :
  rounds_left fuel s b →
  (∀ r w' n, told n w w' → (n <= fuel)%nat → (r = inl nil_pointer ∨ r = inr ()) →
     (seen (tlsCrtPath env) (tlsCrtModTime (cw_times w)) w ∨ seen (tlsKeyPath env) (tlsKeyModTime (cw_times w)) w →
        b = (timeout <? s)%Z → r = inl nil_pointer ∨ (timeout < s + sleepInterval * Z.of_nat n)%Z) →
     Q r w') →
  wp (wait_files env fuel s b) Q w.
Proof.
  revert s b w. induction fuel as [|fuel IH]; intros s b w Hr HQ; cbn [wait_files].
  - destruct Hr as [->|[? _]]; [|lia]. wp_step. apply wp_have. intros r w1 Hl Hb _ _ _.
    destruct Hb as [->|[b' ->]].
    { apply (HQ _ _ 0%nat); [by apply told_zero|lia|by left|by left]. }
    rewrite andb_false_r. wp_step. apply (HQ _ _ 0%nat); [by apply told_zero|lia|by right|].
    intros _ Hlt. right. symmetry in Hlt. apply Z.ltb_lt in Hlt. lia.
  - wp_step. apply wp_have. intros r w1 Hl Hb Hcrt Hkey _. destruct Hb as [->|[b' ->]].
    { apply (HQ _ _ 0%nat); [by apply told_zero|lia|by left|by left]. }
    destruct (negb b' && negb b) eqn:Hgo.
    + apply andb_true_iff in Hgo as [_ Hnb]. apply negb_true_iff in Hnb. subst b. wp_step. apply wp_respond. cbv zeta.
      apply IH.
      { destruct Hr as [|[_ Hr]]; [done|]. unfold rounds_left.
        destruct (Z.ltb_spec timeout (s + sleepInterval)); [by left|right].
        unfold sleepInterval in *. lia. }
      intros r w2 n Ht Hn Hne Hseen. apply (HQ r w2 (S n)); [by eapply told_step|lia|done|].
      intros Hs _. destruct Hseen as [?|?]; [|done|by left|right; lia].
      destruct Hs as [Hs|Hs]; [left|right].
      * destruct (Hcrt Hs) as [_ Heq]. simpl. rewrite Heq. eapply seen_later; [|done]. apply Hl.
      * destruct (Hkey Hs) as [_ Heq]. simpl. rewrite Heq. eapply seen_later; [|done]. apply Hl.
    + wp_step. apply (HQ _ _ 0%nat); [by apply told_zero|lia|by right|].
      intros Hs Hb. right. destruct b'.
      { destruct Hs as [Hs|Hs]; [by destruct (Hcrt Hs)|by destruct (Hkey Hs)]. }
      simpl in Hgo. apply negb_false_iff in Hgo. rewrite Hgo in Hb. symmetry in Hb. apply Z.ltb_lt in Hb. lia.
Qed.

Lemma wait_fuel_enough : rounds_left (wait_fuel env) 0 false.
Proof.
  right. unfold wait_fuel, sleepInterval. split; [lia|].
  destruct (Z.le_gt_cases 0 (podFileUpdateSleepTimeout env / 200)) as [Hp|Hn].
  - rewrite Nat2Z.inj_succ, Z2Nat.id by done.
    pose proof (Z.mul_succ_div_gt (podFileUpdateSleepTimeout env) 200). lia.
  - pose proof (Z.mul_succ_div_gt (podFileUpdateSleepTimeout env) 200). nia.
Qed.

(** the wait of an update ends: whatever happens to the files it does not run out of
    rounds, it sends at most one informational answer per 200 ms of the time-out and one
    more, and changes nothing else. *)
Theorem wait_for_files_ends w : ∃ r w' n, wait_for_files env w = (r, w') ∧ (r = inl nil_pointer ∨ r = inr ()) ∧
  told n w w' ∧ (Z.of_nat n <= Z.max 0 (timeout / 200) + 1)%Z.
Proof.
  enough (wp (wait_for_files env) (λ r w', (r = inl nil_pointer ∨ r = inr ()) ∧ ∃ n, told n w w' ∧ (n <= wait_fuel env)%nat) w) as Hwp.
  { destruct (wp_out _ _ _ Hwp) as (r & w' & Hrun & Hne & n & Ht & Hn). exists r, w', n. split_and!; [done..|].
    unfold wait_fuel, sleepInterval in Hn. lia. }
  apply wp_wait; [apply wait_fuel_enough|]. intros r w' n Ht Hn Hne _. eauto.
Qed.

(** an update that is written file by file is lost.  Once any look has met the new
    certificate, every later wait lasts to its time-out (or ends in a panic), though the
    key and the CA be written meanwhile: the look that met the certificate has kept its
    time, and no look finds all the files newer at once. *)
Theorem staggered_update_times_out w b w1 w2 m : (0 <= timeout)%Z → tlsCrtPath env ≠ "" →
  steady (tlsCrtPath env) m w → haveCertFilesUpdated env true w = (inr b, w1) →
  cw_times w2 = cw_times w1 → (cw_tick w1 <= cw_tick w2)%nat →
  ∃ r w' n, wait_for_files env w2 = (r, w') ∧ told n w2 w' ∧
    (r = inl nil_pointer ∨ r = inr () ∧ (timeout < 200 * Z.of_nat n)%Z).
Proof.
  intros Ht0 Hne Hst Hlook Htimes Htick.
  assert (seen (tlsCrtPath env) (tlsCrtModTime (cw_times w2)) w2) as Hseen.
  { assert (wp (haveCertFilesUpdated env true) (λ r w', (cw_tick w <= cw_tick w')%nat ∧ ∀ b, r = inr b →
      tlsCrtModTime (cw_times w') = Z.max (tlsCrtModTime (cw_times w)) m) w) as Hwp.
    { apply wp_have. intros r w' [] _ _ _ Hmax. split; [done|]. intros b' Hr. by apply (Hmax b'). }
    apply (wp_run _ _ _ _ _ Hlook) in Hwp as [Hle Hmax]. exists m. rewrite Htimes, (Hmax b eq_refl).
    split; [lia|]. intros t Ht. apply Hst. lia. }
  enough (wp (wait_for_files env) (λ r w', ∃ n, told n w2 w' ∧
    (r = inl nil_pointer ∨ r = inr () ∧ (timeout < 200 * Z.of_nat n)%Z)) w2) as Hwp.
  { destruct (wp_out _ _ _ Hwp) as (r & w' & Hrun & n & Ht & Hr). exists r, w', n. done. }
  apply wp_wait; [apply wait_fuel_enough|]. intros r w' n Ht Hn Hr Hs. exists n. split; [done|].
  destruct Hs as [->|Hlt]; [by left|symmetry; by apply Z.ltb_ge|by left|].
  destruct Hr as [->| ->]; [by left|right; split; [done|unfold sleepInterval in Hlt; lia]].
Qed.
End files.

(** ** Taking a chain apart *)

Lemma prefix_app_self p s : String.prefix p (p +:+ s) = true.
Proof.
  induction p as [|c p IH]; [by destruct s|]. change (String c p +:+ s) with (String c (p +:+ s)). simpl.
  by destruct (ascii_dec c c).
Qed.
Lemma prefix_app_long p s t : (String.length p <= String.length s)%nat → String.prefix p (s +:+ t) = String.prefix p s.
Proof.
  revert s. induction p as [|c p IH]; intros s Hlen; [by destruct s, t|]. destruct s as [|d s]; simpl in Hlen; [lia|].
  change (String d s +:+ t) with (String d (s +:+ t)). simpl. destruct (ascii_dec c d); [apply IH; lia|done].
Qed.

Section split.
Context (init : string) (last : ascii).
#[local] Notation sep := (init +:+ String last EmptyString).

(** The parts put together again are the string. *)
Lemma split_after_join skip s acc : foldr String.append EmptyString (split_after_from skip s sep acc) = str_rev acc +:+ s.
Proof.
  revert skip acc. induction s as [|c s IH]; intros skip acc; cbn [split_after_from]; [done|].
  destruct (match skip with O => _ | S _ => _ end) as [|[|k]]; cbn [foldr]; rewrite ?IH, ?str_rev_snoc, <- ?str_app_assoc; done.
Qed.

Lemma split_after_skip u rest acc : (0 < String.length u)%nat →
  split_after_from (String.length u) (u +:+ rest) sep acc = (str_rev acc +:+ u) :: split_after_from 0 rest sep EmptyString.
Proof.
  revert acc. induction u as [|c u IH]; intros acc Hlen; [simpl in Hlen; lia|].
  change (String c u +:+ rest) with (String c (u +:+ rest)). cbn [split_after_from String.length].
  destruct u as [|d u].
  - cbn [String.length]. by rewrite str_rev_snoc.
  - cbn [String.length] in *. rewrite IH by lia. by rewrite str_rev_snoc, <- str_app_assoc.
Qed.

(** Up to the first occurrence of the separator. *)
Lemma split_after_first b rest acc : Contains (b +:+ init) sep = false →
  split_after_from 0 (b +:+ sep +:+ rest) sep acc = (str_rev acc +:+ b +:+ sep) :: split_after_from 0 rest sep EmptyString.
Proof.
  revert acc. induction b as [|c b IH]; intros acc Hc.
  - change ("" +:+ sep +:+ rest) with (sep +:+ rest). change ("" +:+ sep) with sep.
    assert (0 < String.length sep)%nat as Hlen by (rewrite str_len_app; simpl; lia).
    rewrite <- (split_after_skip sep rest acc Hlen). pose proof (prefix_app_self sep rest) as Hp.
    destruct (sep +:+ rest) as [|d s]; [by destruct sep|]. cbn [split_after_from]. rewrite Hp.
    by destruct (String.length sep).
  - change (String c b +:+ sep +:+ rest) with (String c (b +:+ sep +:+ rest)).
    change (String c b +:+ init) with (String c (b +:+ init)) in Hc. cbn [Contains] in Hc.
    apply orb_false_iff in Hc as [Hp Hc]. cbn [split_after_from].
    assert (String.prefix sep (String c (b +:+ sep +:+ rest)) = false) as ->.
    { rewrite <- Hp. change (String c (b +:+ init)) with (String c b +:+ init).
      rewrite <- (prefix_app_long sep (String c b +:+ init) (String last rest)).
      - f_equal. by rewrite <- !str_app_assoc.
      - rewrite !str_len_app. simpl. lia. }
    rewrite IH by done. by rewrite str_rev_snoc, <- !str_app_assoc.
Qed.
Lemma split_after_none s acc : Contains s sep = false → split_after_from 0 s sep acc = [str_rev acc +:+ s].
Proof.
  revert acc. induction s as [|c s IH]; intros acc Hc; cbn [split_after_from]; [by rewrite str_app_nil|].
  cbn [Contains] in Hc. apply orb_false_iff in Hc as [-> Hc]. rewrite IH by done. by rewrite str_rev_snoc, <- str_app_assoc.
Qed.
End split.

Definition separator_init : string := "-----END CERTIFICATE----".
(** One certificate: text that ends with the only separator in it. *)
Definition pem (s : string) : Prop :=
  ∃ b, s = b +:+ certSeparator ∧ Contains (b +:+ separator_init) certSeparator = false.

Lemma SplitAfter_pem leaf rest : pem leaf → SplitAfter (leaf +:+ rest) certSeparator = leaf :: SplitAfter rest certSeparator.
Proof.
  intros (b & -> & Hb). unfold SplitAfter. rewrite <- str_app_assoc. exact (split_after_first separator_init "-" b rest "" Hb).
Qed.
Lemma SplitAfter_none s : Contains s certSeparator = false → SplitAfter s certSeparator = [s].
Proof. exact (split_after_none separator_init "-" s ""). Qed.
Lemma SplitAfter_cons s : ∃ x l, SplitAfter s certSeparator = x :: l.
Proof.
  unfold SplitAfter. generalize "", 0%nat. induction s as [|c s IH]; intros acc k; cbn [split_after_from]; [by eexists _, _|].
  destruct (match k with O => _ | S _ => _ end) as [|[|?]]; [apply IH|by eexists _, _|apply IH].
Qed.

Section read.
Context `{Cloud} (env : envVars).

(** C39: a tls.crt as cert-manager writes it, the leaf and its issuer one after the other, is
    taken apart at exactly that point when ca.crt is missing or empty, and put together
    again with the root: the leaf is imported, the issuer and the root are its chain, and
    the secret holds the three in order; a tls.crt with a single certificate is an error. *)
Theorem readCertFiles_splits leaf issuer rest w : pem leaf →
  (fs_ReadFile (cw_tick w) (tlsCrtPath env)).1 = leaf +:+ rest →
  (let '(ca, err) := fs_ReadFile (S (S (cw_tick w))) (caCrtPath env) in ca = "" ∨ err ≠ None) →
  let key := (fs_ReadFile (S (cw_tick w)) (tlsKeyPath env)).1 in
  (∀ tail, pem issuer → rest = issuer +:+ tail →
     ∃ w', readCertFiles env w = (inr (mkChain leaf key issuer (leaf +:+ issuer +:+ rootCert env)
                                         (issuer +:+ rootCert env), None), w')) ∧
  (Contains rest certSeparator = false → ∃ certs e w', readCertFiles env w = (inr (certs, Some e), w')).
Proof.
  intros Hleaf Hcrt Hca key.
  assert (∀ X, wp (readCertFiles env) (λ r _, r = X) w → ∃ w', readCertFiles env w = (X, w')) as Hrun.
  { intros X (r & w' & Hr & ->)%wp_out. eauto. }
  assert (negb (is_nil (fs_ReadFile (S (S (cw_tick w))) (caCrtPath env)).2) ||
          String.eqb (fs_ReadFile (S (S (cw_tick w))) (caCrtPath env)).1 "" = true) as Hfix.
  { destruct (fs_ReadFile (S (S (cw_tick w))) (caCrtPath env)) as [ca [e|]]; [done|]. by destruct Hca as [->|]. }
  split.
  - intros tail Hissuer ->. apply Hrun. unfold readCertFiles. do 3 (wp_step; apply wp_ask). cbn [set_tick cw_tick].
    rewrite Hfix, Hcrt, !SplitAfter_pem by done. destruct (SplitAfter_cons tail) as (x & l & ->). by wp_step.
  - intros Hc. edestruct Hrun as [w' Hw'].
    { unfold readCertFiles. do 3 (wp_step; apply wp_ask). cbn [set_tick cw_tick].
      rewrite Hfix, Hcrt, SplitAfter_pem, SplitAfter_none by done. by wp_step. }
    by eexists _, _, _.
Qed.
End read.
