(* ===== verification/CertKeeps.v ===== *)
(** * The certificate synchronizer: what every handler keeps, and what it answers

    [keeps P m]: [m] ends in a state with [P] when it starts in one, whatever it answers.
    [Steady P]: [P] does not depend on the clock, the files, the cluster or what is written;
    the parts of the handlers that touch nothing else keep it.

    Messages quote the request (domains, names, values) and the services' errors; the
    answers escape them. *)

From S2P Require Import Prelude GoStd Monad EntSchema EntQuery EntMutation Config Http Logic EntSpec CertBase.
From S2P Require Import CertFiles CertACM CertDNS CertServer CertFilesSpec.
From Stdlib Require Import Ascii.

Definition keeps (P : CWorld → Prop) {A} (m : C A) : Prop := ∀ w, P w → wp m (λ _ w', P w') w.

Section rules.
Context (P : CWorld → Prop).
Lemma ret_keeps {A} (a : A) : keeps P (mret a).
Proof. intros w Hw. by apply wp_ret. Qed.
Lemma fail_keeps {A} e : keeps P (A:=A) (fail e).
Proof. intros w Hw. by apply wp_fail. Qed.
Lemma keeps_panic {A} : keeps P (A:=A) panic.
Proof. apply fail_keeps. Qed.
Lemma bind_keeps {A B} (m : C A) (k : A → C B) : keeps P m → (∀ a, keeps P (k a)) → keeps P (m ≫= k).
Proof.
  intros Hm Hk w Hw. apply wp_bind. eapply wp_mono; [by apply Hm|]. intros [e|a] w' Hw'; [done|by apply Hk].
Qed.
Lemma if_keeps {A} (b : bool) (m m' : C A) : keeps P m → keeps P m' → keeps P (if b then m else m').
Proof. by destruct b. Qed.
Lemma keeps_of {A} (m : C A) (Q : CWorld → CWorld → Prop) :
  (∀ w, wp m (λ _ w', Q w w') w) → (∀ w w', P w → Q w w' → P w') → keeps P m.
Proof. intros Hm HQ w Hw. eapply wp_mono; [apply Hm|]. intros r w' ?. by eapply HQ. Qed.
Lemma keeps_run {A} (m : C A) w r w' : keeps P m → P w → m w = (r, w') → P w'.
Proof. intros Hm Hw Hr. by apply (wp_run _ (λ _ w', P w') _ _ _ Hr), Hm. Qed.
End rules.

Create HintDb keeps.
#[export] Hint Resolve ret_keeps fail_keeps keeps_panic : keeps.

(** One rule after another, the cases of a match in turn. *)
Ltac keep :=
  repeat first
    [ progress intros
    | solve [eauto with keeps]
    | apply bind_keeps
    | apply if_keeps
    | match goal with |- keeps _ (match ?x with _ => _ end) => destruct x end ].

(** The status line, when none has been sent before. *)
Definition answered (status : Z) (o o' : Writer) : Prop :=
  wr_Sent o = None → ∃ ct, wr_Sent o' = Some (status, ct).
Lemma answered_status s o o' status ct :
  answered s o o' → wr_Sent o = None → wr_Sent o' = Some (status, ct) → status = s.
Proof. intros Ha Ho Hs. destruct (Ha Ho) as [? Heq]. congruence. Qed.
Lemma answered_write status ct body o : (200 <= status)%Z →
  answered status o (Write body (WriteHeader status (set_content_type ct o))).
Proof.
  intros Hst Hs. unfold Write, WriteHeader. cbn [set_content_type wr_Sent]. rewrite Hs.
  destruct (Z.leb_spec status 199); [lia|]. rewrite andb_false_r. cbn. eauto.
Qed.
Lemma wp_write acc status msg (Q : error + () → CWorld → Prop) w : (200 <= status)%Z →
  (∀ o, answered status (cw_out w) o → Q (inr ()) (set_out o w)) → wp (write acc status msg) Q w.
Proof.
  intros Hst HQ. unfold write. destruct (String.eqb _ _); apply wp_respond, HQ; by apply answered_write.
Qed.
Lemma wp_http_error msg status (Q : error + () → CWorld → Prop) w : (200 <= status)%Z →
  (∀ o, answered status (cw_out w) o → Q (inr ()) (set_out o w)) → wp (http_error msg status) Q w.
Proof. intros Hst HQ. unfold http_error. apply wp_respond, HQ. by apply answered_write. Qed.

Class Steady (P : CWorld → Prop) : Prop := {
  st_tick : ∀ w, P w → P (set_tick w);
  st_times : ∀ t w, P w → P (set_times t w);
  st_secrets : ∀ m w, P w → P (set_secrets m w);
  st_info : ∀ w, P w → P (set_out (WriteHeader StatusProcessing (cw_out w)) w);
  st_write : ∀ acc status msg, keeps P (write acc status msg);
  st_error : ∀ msg status, msg ∈ ["Error reading body"; "Body does not contain"; "Body is empty"; "404 page not found"] →
    keeps P (http_error msg status) }.

Section steady.
Context `{Cloud} (P : CWorld → Prop) `{!Steady P} (env : envVars).

Lemma keeps_ask {A} (f : nat → A) : keeps P (ask f).
Proof. intros w Hw. apply wp_ask. by apply st_tick. Qed.
Lemma keeps_ask_acm {A} (f : nat → list ACMCert → A) : keeps P (ask_acm f).
Proof. intros w Hw. eapply wp_step_of; [done|]. by apply st_tick. Qed.
Lemma keeps_ask_r53 {A} (f : nat → list Zone → A) : keeps P (ask_r53 f).
Proof. intros w Hw. eapply wp_step_of; [done|]. by apply st_tick. Qed.
Lemma keeps_get_times : keeps P get_times.
Proof. intros w Hw. by apply wp_get_times. Qed.
Lemma keeps_put_times t : keeps P (put_times t).
Proof. intros w Hw. apply wp_put_times. by apply st_times. Qed.
Lemma keeps_call_kube {A} f : keeps P (call_kube (A:=A) f).
Proof.
  intros w Hw. destruct (wp_out _ _ _ (wp_self (call_kube f) w)) as (r & w' & Hr & _).
  apply (wp_run _ _ _ _ _ Hr). unfold call_kube in Hr. destruct (f _ _) as [a m]. injection Hr as <- <-.
  by apply st_tick, st_secrets.
Qed.
Lemma keeps_info : keeps P (out (WriteHeader StatusProcessing)).
Proof. intros w Hw. apply wp_respond. by apply st_info. Qed.
#[local] Hint Resolve keeps_ask keeps_ask_acm keeps_ask_r53 keeps_get_times keeps_put_times keeps_call_kube
  keeps_info st_write : keeps.

Lemma keeps_exist path : keeps P (doesFileExist path).
Proof. unfold doesFileExist. keep. Qed.
Lemma keeps_mod_time path : keeps P (mod_time path).
Proof. unfold mod_time. keep. Qed.
#[local] Hint Resolve keeps_exist keeps_mod_time : keeps.
Lemma keeps_check_file path b old : keeps P (check_file path b old).
Proof. unfold check_file. keep. Qed.
Lemma keeps_file_updated b path old : keeps P (file_updated b path old).
Proof. unfold file_updated. keep. Qed.
#[local] Hint Resolve keeps_check_file keeps_file_updated : keeps.
Lemma keeps_checkCertFiles ca m : keeps P (checkCertFiles env ca m).
Proof. unfold checkCertFiles. keep. Qed.
Lemma keeps_have ca : keeps P (haveCertFilesUpdated env ca).
Proof. unfold haveCertFilesUpdated. keep. Qed.
#[local] Hint Resolve keeps_checkCertFiles keeps_have : keeps.
Lemma keeps_wait fuel s b : keeps P (wait_files env fuel s b).
Proof. revert s b. induction fuel as [|fuel IH]; intros s b; cbn [wait_files]; keep. Qed.
Lemma keeps_readCertFiles : keeps P (readCertFiles env).
Proof. unfold readCertFiles. keep. Qed.
Lemma keeps_secret certs : keeps P (createK8sCertificateSecret env certs).
Proof. unfold createK8sCertificateSecret. keep. Qed.
Lemma keeps_answer acc status msg b : keeps P (answer acc status msg b).
Proof. unfold answer. keep. Qed.
#[local] Hint Resolve keeps_answer : keeps.
Lemma keeps_find_in_page cfg name arns : keeps P (find_in_page cfg name arns).
Proof. induction arns as [|arn arns IH]; cbn [find_in_page]; keep. Qed.
#[local] Hint Resolve keeps_find_in_page : keeps.
Lemma keeps_find_in_pages cfg name pages : keeps P (find_in_pages cfg name pages).
Proof. induction pages as [|[e|arns] pages IH]; cbn [find_in_pages]; keep. Qed.
#[local] Hint Resolve keeps_find_in_pages : keeps.
Lemma keeps_find cfg name : keeps P (findCertificateByName cfg name).
Proof. unfold findCertificateByName. keep. Qed.
Lemma keeps_check_page n arns : keeps P (check_page env n arns).
Proof. induction arns as [|arn arns IH]; cbn [check_page]; unfold report_expiry; keep. Qed.
#[local] Hint Resolve keeps_check_page : keeps.
Lemma keeps_check_pages n pages : keeps P (check_pages env n pages).
Proof. induction pages as [|[e|arns] pages IH]; cbn [check_pages]; keep. Qed.
#[local] Hint Resolve keeps_check_pages : keeps.
Lemma keeps_HealthCheckServer r : keeps P (HealthCheckServer env r).
Proof. unfold HealthCheckServer, checkExpiringCertificates. keep. Qed.
Lemma keeps_settings v : keeps P (getEnvVars v).
Proof. unfold getEnvVars, pem_of. cbv zeta. keep. Qed.

Lemma keeps_each_event handle events : (∀ e, keeps P (handle e)) → keeps P (each_event handle events).
Proof. intros He. induction events as [|e events IH]; cbn [each_event]; keep. Qed.
Lemma keeps_event_handler acc r handle : (∀ e, keeps P (handle e)) → keeps P (event_handler acc r handle).
Proof.
  intros He. unfold event_handler. keep; try (apply st_error; set_solver). by apply keeps_each_event.
Qed.

(** What is left of the two update handlers is their upload, of the two deletions the
    deletion. *)
Lemma keeps_update_from_files acc secret : (∀ certs, keeps P (upload env acc certs)) →
  keeps P (update_from_files env acc secret).
Proof.
  intros Hu. unfold update_from_files, wait_for_files.
  apply bind_keeps; [apply keeps_wait|intros _]. apply bind_keeps; [apply keeps_readCertFiles|intros [certs err]].
  destruct err; [apply keeps_answer|]. apply bind_keeps; [apply if_keeps; [apply keeps_secret|apply ret_keeps]|auto].
Qed.
Lemma keeps_cert_handlers r : (∀ acc certs, keeps P (upload env acc certs)) → (∀ acc, keeps P (delete_certificate env acc)) →
  keeps P (UpdateCert env r) ∧ keeps P (UpdateCertWithoutChecks env r) ∧
  keeps P (DeleteCert env r) ∧ keeps P (DeleteCertWithoutChecks env r).
Proof.
  intros Hu Hd. pose proof keeps_update_from_files as Hf. split_and!.
  - apply keeps_event_handler. intros e. unfold update_event. keep.
  - unfold UpdateCertWithoutChecks. apply bind_keeps; [by apply Hf|keep].
  - apply keeps_event_handler. intros e. unfold delete_event. keep.
  - unfold DeleteCertWithoutChecks. keep.
Qed.

(** The handlers of DNS records, when [P] does not depend on the zones either. *)
Context (st_zones : ∀ l w, P w → P (set_zones l w)).
Lemma keeps_call_r53 {A} (f : nat → list Zone → A * list Zone) : keeps P (call_r53 f).
Proof.
  intros w Hw. destruct (f (cw_tick w) (cw_zones w)) as [r l] eqn:Hf.
  apply (wp_step_of r (λ w, set_tick (set_zones l w))); [unfold call_r53; by rewrite Hf|]. by apply st_tick, st_zones.
Qed.
#[local] Hint Resolve keeps_call_r53 : keeps.
Lemma keeps_find_zone domain b zones : keeps P (find_zone domain b zones).
Proof. induction zones as [|z zones IH]; cbn [find_zone]; keep. Qed.
#[local] Hint Resolve keeps_find_zone : keeps.
Lemma keeps_zone cfg domain vpc region b create : keeps P (getOrCreateHostedZone cfg domain vpc region b create).
Proof. unfold getOrCreateHostedZone. keep. Qed.
Lemma keeps_record cfg zone fqdn type : keeps P (getRoute53Record cfg zone fqdn type).
Proof. unfold getRoute53Record. keep. Qed.
#[local] Hint Resolve keeps_zone keeps_record : keeps.
Lemma keeps_upsert safe cfg p : keeps P (upsert_record env safe cfg p).
Proof. unfold upsert_record, updateRoute53Record, createRoute53Record. keep. Qed.
Lemma keeps_remove cfg p : keeps P (remove_record cfg p).
Proof. unfold remove_record, deleteRoute53Record. keep. Qed.
#[local] Hint Resolve keeps_upsert keeps_remove : keeps.
Lemma keeps_many acc region act records rp : (∀ cfg p, keeps P (act cfg p)) →
  keeps P (many_records env acc region act records rp).
Proof. intros Ha. revert rp. induction records as [|p records IH]; intros rp; cbn [many_records]; keep. Qed.
Lemma keeps_handle acc region region_of one each records : (∀ cfg p, keeps P (one cfg p)) → (∀ cfg p, keeps P (each cfg p)) →
  keeps P (handle_records env acc region region_of one each records).
Proof.
  intros Ho He. pose proof (λ records rp, keeps_many acc region_of each records rp He) as Hm. unfold handle_records. keep.
Qed.
Lemma keeps_request acc r query : keeps P (request_records env acc r query).
Proof. unfold request_records. cbv zeta. keep; apply st_error; set_solver. Qed.
Lemma keeps_dns_handlers r : keeps P (HTTPCreateDNSRecord env r) ∧ keeps P (HTTPDeleteDNSRecord env r).
Proof.
  pose proof (λ acc q, keeps_request acc r q) as Hr.
  split; [unfold HTTPCreateDNSRecord|unfold HTTPDeleteDNSRecord]; cbv zeta; keep; apply keeps_handle; intros cfg p;
    unfold createSingleDNSRecord, deleteSingleDNSRecord, createDNSRecord, deleteDNSRecord, single; keep.
Qed.

(** The handler of the debug build, but for its web page. *)
Lemma keeps_GetDebug `{DebugBuild} r : (∀ acc status msg path comment id, keeps P (write_page acc status msg path comment id)) →
  keeps P (GetDebug r).
Proof. intros Hp. unfold GetDebug, debug_reply. cbv zeta. keep. Qed.

(** A running server keeps what each of its handlers keeps. *)
Lemma keeps_recovered m : keeps P m → keeps P (recovered m).
Proof.
  intros Hm w Hw. destruct (m w) as [r w'] eqn:Hr. apply (wp_step_of tt (λ _, w')); [unfold recovered; by rewrite Hr|].
  by eapply keeps_run.
Qed.
Lemma keeps_serve `{DebugBuild} `{ServeMuxLib} requests : (∀ path r, keeps P (ServeHTTP env path r)) → keeps P (serve env requests).
Proof.
  intros Hs. induction requests as [|[path r] requests IH]; cbn [serve]; [apply ret_keeps|].
  apply bind_keeps; [by apply keeps_recovered|done].
Qed.
End steady.
#[export] Hint Resolve keeps_ask keeps_ask_acm keeps_ask_r53 keeps_answer keeps_find st_write : keeps.

Lemma all_chars_flat_map p f s : (∀ c, all_chars p (f c) = true) → all_chars p (flat_map_string f s) = true.
Proof. intros Hf. induction s as [|c s IH]; simpl; [done|]. by rewrite all_chars_app, Hf, IH. Qed.

(** No byte opens or closes a tag. *)
Definition no_tag (c : ascii) : bool := negb (Ascii.eqb c "<") && negb (Ascii.eqb c ">").
Lemma html_char_no_tag c : all_chars no_tag (html_char c) = true.
Proof. by destruct c as [[] [] [] [] [] [] [] []]. Qed.
Lemma json_char_no_tag c : all_chars no_tag (json_char c) = true.
Proof. by destruct c as [[] [] [] [] [] [] [] []]. Qed.
Lemma html_no_tag s : all_chars no_tag (html_EscapeString s) = true.
Proof. apply all_chars_flat_map, html_char_no_tag. Qed.
Lemma json_no_tag s : all_chars no_tag (json_Marshal_message s) = true.
Proof.
  unfold json_Marshal_message. rewrite !all_chars_app. rewrite all_chars_flat_map by apply json_char_no_tag. done.
Qed.

Definition markup_free (w : CWorld) : Prop := all_chars no_tag (wr_Body (cw_out w)) = true.
Lemma WriteHeader_body code o : wr_Body (WriteHeader code o) = wr_Body o.
Proof. unfold WriteHeader. destruct (wr_Sent o); [done|]. by destruct (_ && _). Qed.
Lemma Write_body b ct code o : all_chars no_tag (wr_Body o) = true → all_chars no_tag b = true →
  all_chars no_tag (wr_Body (Write b (WriteHeader code (set_content_type ct o)))) = true.
Proof. intros Ho Hb. unfold Write. cbn [wr_Body]. rewrite !WriteHeader_body, all_chars_app, Hb. simpl. by rewrite Ho. Qed.

Section answers.
Context `{!Cloud} `{!DebugBuild} `{!ServeMuxLib} (env : envVars).

#[export] Instance steady_markup_free : Steady markup_free.
Proof.
  split; try done.
  - intros w Hw. unfold markup_free. simpl. by rewrite WriteHeader_body.
  - intros acc status msg w Hw. unfold write.
    destruct (String.eqb _ _); apply wp_respond, Write_body; [done|apply json_no_tag|done|apply html_no_tag].
  - intros msg status Hmsg w Hw. unfold http_error. apply wp_respond, Write_body; [done|].
    rewrite all_chars_app. rewrite !elem_of_cons in Hmsg. destruct Hmsg as [->|[->|[->|[->|Hnil]]]]; try done. by apply elem_of_nil in Hnil.
Qed.

Lemma keeps_call_acm {A} (f : nat → list ACMCert → A * list ACMCert) : keeps markup_free (call_acm f).
Proof.
  intros w Hw. destruct (f (cw_tick w) (cw_acm w)) as [r l] eqn:Hf.
  apply (wp_step_of r (λ w, set_tick (set_acm l w))); [unfold call_acm; by rewrite Hf|done].
Qed.
#[local] Hint Resolve keeps_call_acm : keeps.

Lemma fresh_out g w : cw_out ((_ ← out (λ _, new_writer); out g) w).2 = g new_writer.
Proof. done. Qed.

(** A request that reaches a handler, or the answer 404. *)
Definition handled (path : string) (r : CRequest) : bool :=
  negb (String.eqb path "*") && negb (redirects (cq_Method r) path).

Lemma keeps_routed path r : mux path ∉ [Some EpDebug; Some EpGetDebug] →
  keeps markup_free (match mux path with None => http_error "404 page not found" StatusNotFound
    | Some e => cert_handler env e r end).
Proof.
  intros Hpath. pose proof steady_markup_free as HS. assert (∀ acc certs, keeps markup_free (upload env acc certs)) as Hup.
  { intros acc certs. unfold upload, import_certificate. keep. }
  assert (∀ acc, keeps markup_free (delete_certificate env acc)) as Hdel by (intros acc; unfold delete_certificate; keep).
  destruct (keeps_cert_handlers markup_free env r Hup Hdel) as (? & ? & ? & ?).
  destruct (keeps_dns_handlers markup_free env (λ l w Hw, Hw) r) as [? ?].
  destruct (mux path) as [[]|]; cbn [cert_handler]; try done; [by apply keeps_HealthCheckServer|set_solver..|].
  apply st_error; set_solver.
Qed.

(** C38: no answer of a handler carries markup: whatever a request holds and the services
    answer, the body a client gets contains neither an opening nor a closing angle bracket,
    on every path but /debug, which sends the request's own body back, and the /debugv1 of
    the debug build, which sends a page of its own. The requests net/http answers itself
    have no body either, but for a GET of a path that is not in canonical form (//debug,
    /a/..): that gets the library's link to the canonical path, and what stands between
    its quotes has no angle bracket, whatever the path holds. *)
Theorem answers_markup_free path r w :
  let body := wr_Body (cw_out (ServeHTTP env path r w).2) in
  if handled path r
  then mux path ∉ [Some EpDebug; Some EpGetDebug] → all_chars no_tag body = true
  else body = "" ∨
    cq_Method r = "GET" ∧ cleanPath path ≠ path ∧
    ∃ url, all_chars no_tag url = true ∧
      body = "<a href=" +:+ dquote +:+ url +:+ dquote +:+ ">" +:+ redirect_Text +:+ "</a>." +:+ String "010" (String "010" "").
Proof.
  intros body. unfold handled. destruct (String.eqb path "*") eqn:Hs; cbn [negb andb].
  { left. unfold body, ServeHTTP, mux_ServeHTTP. rewrite Hs, fresh_out. by rewrite WriteHeader_body. }
  destruct (redirects (cq_Method r) path) eqn:Hr; cbn [negb].
  - unfold body, ServeHTTP, mux_ServeHTTP, http_redirect. rewrite Hs, Hr.
    destruct (String.eqb_spec (cq_Method r) "GET") as [Hm|]; [right|].
    2: { left. destruct (String.eqb _ "HEAD"); rewrite fresh_out; by rewrite WriteHeader_body. }
    split_and!; [done| |].
    + unfold redirects in Hr. apply andb_true_iff in Hr as [_ Hr]. by apply negb_true_iff, String.eqb_neq in Hr.
    + exists (html_EscapeString (redirect_URL path (cq_Query r))). split; [apply html_no_tag|].
      rewrite fresh_out. unfold Write. cbn [wr_Body]. by rewrite !WriteHeader_body.
  - intros Hpath. assert (wp (ServeHTTP env path r) (λ _ w', markup_free w') w) as Hwp.
    { unfold ServeHTTP, mux_ServeHTTP. rewrite Hs, Hr. wp_step. apply wp_respond. by apply keeps_routed. }
    apply wp_out in Hwp as (res & w' & Heq & Hw'). unfold body. rewrite Heq. exact Hw'.
Qed.
End answers.
