(* ===== verification/CertACMSpec.v ===== *)
(** * The certificate synchronizer: which certificates it touches

    Against what ACM documents of its calls, whose answers may be lost: no handler changes or
    removes a certificate that does not bear the name tag of the settings, and an upload that
    reports success has put the files into a certificate that bears it. *)

From S2P Require Import Prelude GoStd Monad EntSchema EntQuery EntMutation Config Http Logic EntSpec.
From S2P Require Import CertBase CertFiles CertACM CertDNS CertServer CertFilesSpec CertKeeps.
From Stdlib Require Import Ascii.

Definition arns (l : list ACMCert) : list string := ac_Arn <$> l.
Definition tagged (name : string) (c : ACMCert) : Prop := ("Name", name) ∈ ac_Tags c.
#[export] Instance tagged_dec name c : Decision (tagged name c).
Proof. unfold tagged. apply _. Defined.

(** What the calls do to the certificates. *)
Definition reimported (i : ImportCertificateInput) (c : ACMCert) : ACMCert :=
  mkACMCert (ac_Arn c) (ac_Tags c) (ii_Certificate i) (ii_PrivateKey i) (ii_Chain i).
Definition new_cert (a : string) (i : ImportCertificateInput) : ACMCert :=
  mkACMCert a [] (ii_Certificate i) (ii_PrivateKey i) (ii_Chain i).
Definition add_tags (tags : list (string * string)) (c : ACMCert) : ACMCert :=
  mkACMCert (ac_Arn c) (filter (λ t, t.1 ∉ tags.*1) (ac_Tags c) ++ tags) (ac_Certificate c) (ac_PrivateKey c) (ac_Chain c).
Definition on_cert (a : string) (f : ACMCert → ACMCert) (l : list ACMCert) : list ACMCert :=
  (λ c, if decide (ac_Arn c = a) then f c else c) <$> l.

(** A call is done, and answered or its answer lost; or it failed and did nothing. *)
Class ACMLaws `{Cloud} : Prop := {
  tags_law : ∀ cfg t l arn tags, acm_ListTags cfg t l arn = inr tags →
    ∃ c, c ∈ l ∧ ac_Arn c = arn ∧ tags = ac_Tags c;
  import_over_law : ∀ cfg t i a l r l', ii_CertificateArn i = Some a → acm_Import cfg t i l = (r, l') →
    l' = on_cert a (reimported i) l ∨ (l' = l ∧ ∃ e, r = inl e);
  import_new_law : ∀ cfg t i l r l', ii_CertificateArn i = None → acm_Import cfg t i l = (r, l') →
    (∃ a, a ∉ arns l ∧ l' = l ++ [new_cert a i] ∧ (r = inr a ∨ ∃ e, r = inl e)) ∨ (l' = l ∧ ∃ e, r = inl e);
  add_tags_law : ∀ cfg t a tags l r l', acm_AddTags cfg t a tags l = (r, l') →
    l' = on_cert a (add_tags tags) l ∨ (l' = l ∧ ∃ e, r = Some e);
  delete_law : ∀ cfg t a l r l', acm_Delete cfg t a l = (r, l') →
    l' = filter (λ c, ac_Arn c ≠ a) l ∨ (l' = l ∧ ∃ e, r = Some e) }.

(** ** Confinement *)

(** Between [l] and [l']: a certificate without the tag stays as it is; what is not there
    any more or is different bore the tag, or is new. *)
Record confined_to (name : string) (l l' : list ACMCert) : Prop := mk_confined_to {
  ct_wf : NoDup (arns l');
  ct_keep : ∀ c, c ∈ l → ¬ tagged name c → c ∈ l';
  ct_new : ∀ c', c' ∈ l' → c' ∈ l ∨ (∃ c, c ∈ l ∧ ac_Arn c = ac_Arn c' ∧ tagged name c) ∨ ac_Arn c' ∉ arns l }.

Lemma confined_to_refl name l : NoDup (arns l) → confined_to name l l.
Proof. intros. split; auto. Qed.
Lemma confined_to_trans name l1 l2 l3 : confined_to name l1 l2 → confined_to name l2 l3 → confined_to name l1 l3.
Proof.
  intros [W1 K1 N1] [W2 K2 N2]. split; [done|auto|]. intros c3 H3.
  destruct (N2 c3 H3) as [H2|[(c2 & H2 & Ha & Ht)|Hfresh]]; [by apply N1| |].
  - destruct (N1 c2 H2) as [H1|[(c1 & H1 & Ha' & Ht')|Hf]].
    + right. left. eauto.
    + right. left. exists c1. split_and!; [done|congruence|done].
    + right. right. congruence.
  - destruct (decide (ac_Arn c3 ∈ arns l1)) as [Hin|]; [|by right; right].
    apply list_elem_of_fmap in Hin as (c1 & Ha & H1). right. left. exists c1. split_and!; [done..|].
    destruct (decide (tagged name c1)) as [|Hn]; [done|]. exfalso. apply Hfresh.
    apply list_elem_of_fmap. exists c1. auto.
Qed.

Lemma arns_on_cert a f l : (∀ c, ac_Arn (f c) = ac_Arn c) → arns (on_cert a f l) = arns l.
Proof.
  intros Hf. unfold arns, on_cert. rewrite <- list_fmap_compose. apply list_fmap_ext. intros i c _. simpl.
  case_decide; [apply Hf|done].
Qed.

(** Changing the one certificate that bears the tag; adding one; removing one. *)
Lemma confined_on_cert name l a f c : NoDup (arns l) → (∀ c, ac_Arn (f c) = ac_Arn c) →
  c ∈ l → ac_Arn c = a → tagged name c → confined_to name l (on_cert a f l).
Proof.
  intros Hnd Hf Hc Ha Ht. split; [by rewrite arns_on_cert|intros d Hd Hn|intros d' Hd'].
  - apply list_elem_of_fmap. exists d. split; [|done]. case_decide as Heq; [|done].
    destruct Hn. by rewrite (NoDup_fmap_inj_eq ac_Arn l d c) by (done || congruence).
  - apply list_elem_of_fmap in Hd' as (d & -> & Hd). case_decide as Heq; [|by left].
    right. left. exists c. rewrite Hf. split_and!; [done|congruence|done].
Qed.
Lemma on_cert_fresh a f l : a ∉ arns l → on_cert a f l = l.
Proof.
  intros Ha. unfold on_cert. rewrite <- (list_fmap_id l) at 2. apply list_fmap_ext. intros i c Hc.
  case_decide; [|done]. destruct Ha. apply list_elem_of_fmap. exists c. split; [done|]. by eapply list_elem_of_lookup_2.
Qed.
Lemma confined_add name l c : NoDup (arns l) → ac_Arn c ∉ arns l → confined_to name l (l ++ [c]).
Proof.
  intros Hnd Ha. split; [unfold arns in *; rewrite fmap_app; by apply NoDup_snoc|set_solver|].
  intros c' [?| ->%list_elem_of_singleton]%elem_of_app; [by left|by right; right].
Qed.
Lemma confined_remove name l a c : NoDup (arns l) → c ∈ l → ac_Arn c = a → tagged name c →
  confined_to name l (filter (λ c, ac_Arn c ≠ a) l).
Proof.
  intros Hnd Hc Ha Ht. split.
  - clear Hc. induction l as [|d l IH]; [done|]. unfold arns in *. rewrite fmap_cons, NoDup_cons in Hnd. destruct Hnd as [Hd Hnd].
    rewrite filter_cons. case_decide; [|by apply IH]. rewrite fmap_cons. constructor; [|by apply IH].
    intros (x & Hx & Hin)%list_elem_of_fmap. apply list_elem_of_filter in Hin as [_ Hin]. apply Hd, list_elem_of_fmap. eauto.
  - intros d Hd Hn. apply list_elem_of_filter. split; [|done]. intros Heq. destruct Hn.
    by rewrite (NoDup_fmap_inj_eq ac_Arn l d c) by (done || congruence).
  - intros d [_ ?]%list_elem_of_filter. by left.
Qed.

(** A property of the certificates alone is steady. *)
#[export] Instance steady_acm `{Cloud} (R : list ACMCert → Prop) : Steady (λ w, R (cw_acm w)).
Proof.
  split; try done.
  - intros acc status msg w Hw. unfold write. destruct (String.eqb _ _); by apply wp_respond.
  - intros msg status _ w Hw. by apply wp_respond.
Qed.

Section acm.
Context `{!Cloud} `{!ACMLaws} (env : envVars).
#[local] Notation name := (acmCertificateName env).

Lemma has_name_tag_spec n tags : has_name_tag n tags = true ↔ ("Name", n) ∈ tags.
Proof.
  unfold has_name_tag. rewrite existsb_exists. split.
  - intros ([k v] & Hin%list_elem_of_In & [Hk Hv]%andb_true_iff). simpl in *.
    apply String.eqb_eq in Hk as ->. by apply String.eqb_eq in Hv as ->.
  - intros Hin. exists ("Name", n). split; [by apply list_elem_of_In|]. by rewrite !String.eqb_refl.
Qed.

(** ** The search *)

Definition found_in (l : list ACMCert) (n arn : string) : Prop := ∃ c, c ∈ l ∧ ac_Arn c = arn ∧ tagged n c.

(** The certificate with this ARN was looked at, between two times, and has not the tag; or
    one of the two requests about it failed. *)
Definition passed_over (cfg : AWSConfig) (n : string) (l : list ACMCert) (lo hi : nat) (arn : string) : Prop :=
  (∃ c, c ∈ l ∧ ac_Arn c = arn ∧ ¬ tagged n c) ∨
  ∃ t, (lo <= t < hi)%nat ∧ ((∃ e, acm_Describe cfg t l arn = inl e) ∨ ∃ e, acm_ListTags cfg t l arn = inl e).
Lemma passed_over_mono cfg n l lo hi lo' hi' arn : (lo' <= lo)%nat → (hi <= hi')%nat →
  passed_over cfg n l lo hi arn → passed_over cfg n l lo' hi' arn.
Proof. intros ? ? [?|(t & ? & ?)]; [by left|right; exists t; split; [lia|done]]. Qed.
Definition all_passed (cfg : AWSConfig) (n : string) (w w' : CWorld) (as_ : list string) : Prop :=
  Forall (passed_over cfg n (cw_acm w) (cw_tick w) (cw_tick w')) as_.
Lemma all_passed_mono cfg n w1 w2 w1' w2' as_ : looked w1' w1 → looked w2 w2' →
  all_passed cfg n w1 w2 as_ → all_passed cfg n w1' w2' as_.
Proof.
  intros [Ha _ _ _ Ht1] [_ _ _ _ Ht2]. unfold all_passed. rewrite Ha. intros Hf. eapply Forall_impl; [exact Hf|].
  intros arn. by apply passed_over_mono.
Qed.
(** The list of the certificates was read, and none in it was found. *)
Definition not_found (cfg : AWSConfig) (n : string) (w w' : CWorld) : Prop := ∃ t as_,
  (cw_tick w <= t < cw_tick w')%nat ∧ acm_Pages cfg t (cw_acm w) = inr <$> as_ ∧ Forall (all_passed cfg n w w') as_.

Lemma not_found_mono cfg n w1 w2 w1' : cw_acm w1 = cw_acm w1' → (cw_tick w1' <= cw_tick w1)%nat →
  not_found cfg n w1 w2 → not_found cfg n w1' w2.
Proof.
  intros Ha Ht (t & as_ & [? ?] & Hp & Hall). exists t, as_. rewrite Ha in Hp. split_and!; [lia|done|done|].
  eapply Forall_impl; [exact Hall|]. intros l Hl. unfold all_passed in *. rewrite Ha in Hl.
  eapply Forall_impl; [exact Hl|]. intros arn. by apply passed_over_mono.
Qed.

Lemma wp_ask_acm {A} (f : nat → list ACMCert → A) (Q : error + A → CWorld → Prop) w :
  Q (inr (f (cw_tick w) (cw_acm w))) (set_tick w) → wp (ask_acm f) Q w.
Proof. by apply wp_step_of. Qed.

Lemma wp_find_in_page cfg n as_ (Q : error + option string → CWorld → Prop) w :
  (∀ r w', looked w w' → (∀ arn, r = Some arn → found_in (cw_acm w) n arn) →
     (r = None → all_passed cfg n w w' as_) → Q (inr r) w') →
  wp (find_in_page cfg n as_) Q w.
Proof.
  revert w. induction as_ as [|arn as_ IH]; intros w HQ; cbn [find_in_page].
  { wp_step. apply HQ; [apply looked_refl|done|by constructor]. }
  assert (∀ w', looked w w' → passed_over cfg n (cw_acm w) (cw_tick w) (cw_tick w') arn →
    wp (find_in_page cfg n as_) Q w') as Hnext.
  { intros w' Hl Hp. apply IH. intros r w2 Hl2 Hr Hno. apply HQ; [by eapply looked_trans|..].
    - intros a Ha. specialize (Hr a Ha). by rewrite (lk_acm _ _ Hl) in Hr.
    - intros Hn. constructor; [|by eapply all_passed_mono, Hno; [|apply looked_refl|]].
      by eapply passed_over_mono, Hp; [|apply Hl2]. }
  wp_step. apply wp_ask_acm. destruct (acm_Describe _ _ _ _) as [e|d] eqn:Hdesc.
  { apply Hnext; [apply looked_tick|]. right. exists (cw_tick w). split; [simpl; lia|]. eauto. }
  wp_step. apply wp_ask_acm. cbn [cw_tick cw_acm set_tick].
  destruct (acm_ListTags _ _ _ _) as [e|tags] eqn:Htags.
  { apply Hnext; [eapply looked_trans; apply looked_tick|]. right. exists (S (cw_tick w)). split; [simpl; lia|]. eauto. }
  destruct (tags_law _ _ _ _ _ Htags) as (x & Hx & Ha & ->).
  destruct (has_name_tag n (ac_Tags x)) eqn:Hn.
  - wp_step. apply HQ; [eapply looked_trans; apply looked_tick| |done]. intros ? [= <-].
    exists x. split_and!; [done..|by apply has_name_tag_spec].
  - apply Hnext; [eapply looked_trans; apply looked_tick|]. left. exists x. split_and!; [done..|].
    intros Ht%has_name_tag_spec. congruence.
Qed.
Lemma wp_find_in_pages cfg n pages (Q : error + (error + string) → CWorld → Prop) w :
  (∀ r w', looked w w' → (∀ arn, r = inr arn → found_in (cw_acm w) n arn ∨
     (arn = "" ∧ ∃ as_, pages = inr <$> as_ ∧ Forall (all_passed cfg n w w') as_)) → Q (inr r) w') →
  wp (find_in_pages cfg n pages) Q w.
Proof.
  revert w. induction pages as [|[e|as_] pages IH]; intros w HQ; cbn [find_in_pages].
  - wp_step. apply HQ; [apply looked_refl|]. intros ? [= <-]. right. split; [done|]. by exists [].
  - wp_step. apply HQ; [apply looked_refl|done].
  - wp_step. apply wp_find_in_page. intros r w' Hl Hr Hno. destruct r as [arn|].
    + wp_step. apply HQ; [done|]. intros ? [= <-]. left. by apply Hr.
    + apply IH. intros r w2 Hl2 Hr2. apply HQ; [by eapply looked_trans|]. intros arn Harn.
      destruct (Hr2 arn Harn) as [Hf|(-> & ass & -> & Hall)].
      * left. by rewrite (lk_acm _ _ Hl) in Hf.
      * right. split; [done|]. exists (as_ :: ass). split; [done|]. constructor.
        { eapply all_passed_mono; [apply looked_refl|exact Hl2|by apply Hno]. }
        eapply Forall_impl; [exact Hall|]. intros as' Has. by eapply all_passed_mono; [|apply looked_refl|].
Qed.
Lemma wp_find cfg n (Q : error + (error + string) → CWorld → Prop) w :
  (∀ r w', looked w w' → (∀ arn, r = inr arn → (arn = "" ∧ not_found cfg n w w') ∨ found_in (cw_acm w) n arn) →
     Q (inr r) w') →
  wp (findCertificateByName cfg n) Q w.
Proof.
  intros HQ. unfold findCertificateByName. wp_step. apply wp_ask_acm. apply wp_find_in_pages.
  intros r w' Hl Hr. apply HQ; [by eapply looked_trans; [apply looked_tick|]|].
  intros arn Harn. destruct (Hr arn Harn) as [?|(-> & as_ & Hp & Hall)]; [by right|]. left. split; [done|].
  exists (cw_tick w), as_. destruct Hl as [_ _ _ _ Ht]. simpl in Ht. split_and!; [lia|lia|done|].
  eapply Forall_impl; [exact Hall|]. intros as' Has. by eapply all_passed_mono; [apply looked_tick|apply looked_refl|].
Qed.

(** ** The calls that change something *)

Lemma wp_call_acm {A} f (Q : error + A → CWorld → Prop) w :
  (∀ r l, f (cw_tick w) (cw_acm w) = (r, l) → Q (inr r) (set_tick (set_acm l w))) → wp (call_acm f) Q w.
Proof.
  intros HQ. destruct (f (cw_tick w) (cw_acm w)) as [r l] eqn:Hf.
  apply (wp_step_of r (λ w, set_tick (set_acm l w))); [|by apply HQ]. unfold call_acm. by rewrite Hf.
Qed.
Lemma wp_answer acc status msg b (Q : error + bool → CWorld → Prop) w : (200 <= status)%Z →
  (∀ o, answered status (cw_out w) o → Q (inr b) (set_out o w)) → wp (answer acc status msg b) Q w.
Proof. intros Hst HQ. unfold answer. wp_step. apply wp_write; [done|]. intros o Ho. wp_step. by apply HQ. Qed.

(** The files of the cluster are in a certificate with the tag. *)
Definition uploaded (certs : certChain) (l : list ACMCert) : Prop :=
  ∃ c, c ∈ l ∧ tagged name c ∧ ac_Certificate c = tlsCrt certs ∧ ac_PrivateKey c = tlsKey certs ∧
    ac_Chain c = ii_Chain (import_input certs None).

(** Nothing was done: no certificate was found, and the settings forbid an import. *)
Definition skipped w w' : Prop :=
  importIntoACMIfNotExists env = false ∧ cw_acm w' = cw_acm w ∧ not_found (acm_config env) name w w'.

(** An upload that reports success has answered 200, one that does not 500. *)
Definition upload_status (b : bool) : Z := if b then StatusOK else StatusInternalServerError.
Definition upload_post certs w (r : error + bool) w' : Prop :=
  confined_to name (cw_acm w) (cw_acm w') ∧
  ∃ b, r = inr b ∧ answered (upload_status b) (cw_out w) (cw_out w') ∧
    (b = true → "" ∉ arns (cw_acm w) → uploaded certs (cw_acm w') ∨ skipped w w').
Lemma upload_failed certs w w1 acc msg : confined_to name (cw_acm w) (cw_acm w1) → cw_out w1 = cw_out w →
  wp (answer acc StatusInternalServerError msg false) (upload_post certs w) w1.
Proof.
  intros Hc Ho. apply wp_answer; [done|]. rewrite Ho. intros o Ha. split; [done|]. by exists false.
Qed.
Lemma upload_done certs w w1 acc msg : confined_to name (cw_acm w) (cw_acm w1) → cw_out w1 = cw_out w →
  ("" ∉ arns (cw_acm w) → uploaded certs (cw_acm w1) ∨ skipped w w1) →
  wp (answer acc StatusOK msg true) (upload_post certs w) w1.
Proof.
  intros Hc Ho Hu. apply wp_answer; [done|]. rewrite Ho. intros o Ha. split; [done|]. by exists true.
Qed.

Lemma reimport_post certs w t arn r l : NoDup (arns (cw_acm w)) → found_in (cw_acm w) name arn →
  acm_Import (acm_config env) t (import_input certs (Some arn)) (cw_acm w) = (r, l) →
  confined_to name (cw_acm w) l ∧ (∀ a, r = inr a → uploaded certs l).
Proof.
  intros Hnd (c & Hc & Ha & Ht) Himp.
  destruct (import_over_law _ _ (import_input certs (Some arn)) arn _ _ _ eq_refl Himp) as [->|[-> [e ->]]].
  - split; [by eapply confined_on_cert|]. intros _ _.
    exists (reimported (import_input certs (Some arn)) c). split_and!; try done.
    apply list_elem_of_fmap. exists c. by rewrite decide_True.
  - split; [by apply confined_to_refl|done].
Qed.
(** A new certificate with its tags. *)
Lemma tag_new_post certs w a t tags r l : NoDup (arns (cw_acm w)) → a ∉ arns (cw_acm w) → ("Name", name) ∈ tags →
  acm_AddTags (acm_config env) t a tags (cw_acm w ++ [new_cert a (import_input certs None)]) = (r, l) →
  confined_to name (cw_acm w) l ∧ (r = None → uploaded certs l).
Proof.
  intros Hnd Ha Htags [->|[-> [e ->]]]%add_tags_law; [|split; [by apply confined_add|done]].
  assert (on_cert a (add_tags tags) (cw_acm w ++ [new_cert a (import_input certs None)]) =
    cw_acm w ++ [add_tags tags (new_cert a (import_input certs None))]) as ->.
  { unfold on_cert. rewrite fmap_app. f_equal; [by apply on_cert_fresh|]. cbn. by rewrite decide_True. }
  split; [by apply confined_add|]. intros _.
  eexists. split_and!; [apply elem_of_app; right; by apply list_elem_of_singleton|done..].
Qed.

Lemma wp_upload acc certs w : NoDup (arns (cw_acm w)) → wp (upload env acc certs) (upload_post certs w) w.
Proof.
  intros Hnd. pose proof (confined_to_refl name _ Hnd) as Href. unfold upload. wp_step. apply wp_ask.
  destruct (aws_LoadDefaultConfig _ _); [by apply upload_failed|].
  wp_step. apply wp_find. intros found w1 [Hacm _ _ Hout _] Hfound. cbn [set_tick cw_acm cw_out] in *.
  destruct found as [e|arn]; [apply upload_failed; by rewrite ?Hacm|]. unfold import_certificate.
  destruct (String.eqb_spec arn "") as [->|Hne]; cbn [negb].
  - destruct (importIntoACMIfNotExists env) eqn:Himport; [|apply upload_done; [by rewrite Hacm|done|]].
    2: { intros Hempty. right. split_and!; [done|done|]. destruct (Hfound _ eq_refl) as [[_ Hno]|(x & Hx & Ha & _)].
         - by eapply not_found_mono, Hno; [|simpl; lia].
         - destruct Hempty. apply list_elem_of_fmap. by exists x. }
    wp_step. apply wp_call_acm. rewrite Hacm. intros r l Himp.
    destruct (import_new_law _ _ (import_input certs None) _ _ _ eq_refl Himp) as [(a & Ha & -> & Hr)|[-> [e ->]]];
      [|by apply upload_failed].
    destruct r as [e|a']; [by apply upload_failed; [apply confined_add|]|]. destruct Hr as [[= ->]|[? ?]]; [|done].
    wp_step. apply wp_call_acm. cbn [set_tick set_acm cw_acm]. intros r l Htag.
    apply tag_new_post in Htag as [Hc Hu]; [|done|done|unfold import_tags; left].
    destruct r; [by apply upload_failed|]. apply upload_done; auto.
  - destruct (Hfound arn eq_refl) as [[? _]|Hin]; [done|]. wp_step. apply wp_call_acm. rewrite Hacm. intros r l Himp.
    apply reimport_post in Himp as [Hc Hu]; [|done..].
    destruct r as [e|a]; [by apply upload_failed|]. apply upload_done; eauto.
Qed.

(** ** Deletion, and the first upload *)

Lemma wp_delete_certificate acc w : NoDup (arns (cw_acm w)) →
  wp (delete_certificate env acc) (λ _ w', confined_to name (cw_acm w) (cw_acm w')) w.
Proof.
  intros Hnd. pose proof (confined_to_refl name _ Hnd) as Href. unfold delete_certificate. wp_step. apply wp_ask.
  destruct (aws_LoadDefaultConfig _ _); [by apply wp_answer|]. destruct (String.eqb _ _); [by apply wp_answer|].
  wp_step. apply wp_find. intros found w1 [Hacm _ _ _ _] Hfound. cbn [set_tick cw_acm] in *.
  destruct found as [e|[|c s]]; [apply wp_answer; [done|]; intros o _; simpl; by rewrite Hacm..|].
  wp_step. apply wp_call_acm. rewrite Hacm. intros r l Hd.
  destruct (Hfound _ eq_refl) as [[? _]|(x & Hx & Ha & Ht)]; [done|].
  assert (confined_to name (cw_acm w) l) as Hc.
  { apply delete_law in Hd as [->|[-> _]]; [by eapply confined_remove|done]. }
  destruct r; by apply wp_answer.
Qed.

Lemma wp_initial w : NoDup (arns (cw_acm w)) → wp (doInititalCertUpdate env) (λ _ w', confined_to name (cw_acm w) (cw_acm w')) w.
Proof.
  intros Hnd. pose proof (confined_to_refl name _ Hnd) as Href. set (P w' := cw_acm w' = cw_acm w).
  assert (Steady P) as HS by (apply (steady_acm (λ l, l = cw_acm w))).
  unfold doInititalCertUpdate. wp_step. eapply wp_mono; [by apply (keeps_readCertFiles P env w)|].
  intros [e|[certs err]] w1 Hw1; cbn beta iota; [by rewrite Hw1|]. destruct err; [wp_step; by rewrite Hw1|].
  assert (keeps P (if createK8sCertSecret env then createK8sCertificateSecret env certs else mret None)) as Hsec
    by (apply if_keeps; [by apply keeps_secret|apply ret_keeps]).
  wp_step. eapply wp_mono; [by apply (Hsec w1)|].
  intros [e|?] w2 Hw2; cbn beta iota; [by rewrite Hw2|]. wp_step. apply wp_ask.
  destruct (aws_LoadDefaultConfig _ _); [wp_step; simpl; by rewrite Hw2|].
  wp_step. apply wp_find. intros found w3 [Hw3 _ _ _ _] Hfound. cbn [set_tick cw_acm] in *. rewrite Hw2 in *.
  destruct found as [e|arn]; [wp_step; by rewrite Hw3|].
  destruct (String.eqb_spec arn "") as [->|Hne]; cbn [negb].
  - wp_step. apply wp_call_acm. rewrite Hw3. intros r l Himp.
    destruct (import_new_law _ _ (import_input certs None) _ _ _ eq_refl Himp) as [(a & Ha & -> & Hr)|[-> [e ->]]]; [|by wp_step].
    destruct r as [e|a']; [wp_step; by apply confined_add|]. destruct Hr as [[= ->]|[? ?]]; [|done].
    wp_step. apply wp_call_acm. cbn [set_tick set_acm cw_acm]. intros r l Htag. wp_step.
    by apply (tag_new_post certs w) in Htag as [Hc _]; [|done|done|unfold initial_tags; left].
  - destruct (Hfound arn eq_refl) as [[? _]|Hin]; [done|]. wp_step. apply wp_call_acm. rewrite Hw3. intros r l Himp. wp_step.
    by apply reimport_post in Himp as [Hc _].
Qed.

(** ** The running server *)

Lemma keeps_ServeHTTP `{!DebugBuild} `{!ServeMuxLib} l0 path r : keeps (λ w, confined_to name l0 (cw_acm w)) (ServeHTTP env path r).
Proof.
  set (P w := confined_to name l0 (cw_acm w)).
  assert (Steady P) as HS by (apply (steady_acm (confined_to name l0))).
  assert (∀ f, keeps P (out f)) as Hout by (intros f w Hw; by apply wp_respond).
  assert (∀ {A} (m : C A), (∀ w, NoDup (arns (cw_acm w)) → wp m (λ _ w', confined_to name (cw_acm w) (cw_acm w')) w) → keeps P m)
    as Hof.
  { intros A m Hm w Hw. eapply wp_mono; [apply Hm, (ct_wf _ _ _ Hw)|]. intros ? w' Hc. by eapply confined_to_trans. }
  assert (∀ acc certs, keeps P (upload env acc certs)) as Hup.
  { intros acc certs. apply Hof. intros w Hnd. eapply wp_mono; [by apply wp_upload|]. by intros ? ? [? _]. }
  assert (∀ acc, keeps P (delete_certificate env acc)) as Hdel by (intros acc; by apply Hof, wp_delete_certificate).
  destruct (keeps_cert_handlers P env r Hup Hdel) as (? & ? & ? & ?).
  destruct (keeps_dns_handlers P env (λ l w Hw, Hw) r) as [? ?].
  unfold ServeHTTP, mux_ServeHTTP, http_redirect. apply bind_keeps; [apply Hout|intros _].
  apply if_keeps; [apply Hout|]. apply if_keeps; [repeat (apply if_keeps; [apply Hout|]); apply Hout|].
  destruct (mux path) as [[]|]; cbn [cert_handler]; try done.
  - by apply keeps_HealthCheckServer.
  - unfold POSTDebug, http_error. keep.
  - apply keeps_GetDebug; [done|]. intros. unfold write_page. cbv zeta. keep.
  - apply Hout.
Qed.

Lemma iter_info_unsent n o : wr_Sent o = None → wr_Sent (Nat.iter n (WriteHeader StatusProcessing) o) = None.
Proof. intros Ho. induction n as [|n IH]; [done|]. simpl. unfold WriteHeader at 1. by rewrite IH. Qed.
Lemma told_unsent n w w' : told n w w' → wr_Sent (cw_out w) = None → wr_Sent (cw_out w') = None.
Proof. intros (_ & _ & _ & _ & ->). apply iter_info_unsent. Qed.

Lemma wp_waited (Q : error + () → CWorld → Prop) w :
  (∀ r w' n, told n w w' → Q r w') → wp (wait_for_files env) Q w.
Proof. intros HQ. apply wp_wait; [apply wait_fuel_enough|]. eauto. Qed.

Lemma wp_readCertFiles (Q : error + certChain * option error → CWorld → Prop) w :
  (∀ x w', looked w w' → Q (inr x) w') → wp (readCertFiles env) Q w.
Proof.
  intros HQ. unfold readCertFiles. do 3 (wp_step; apply wp_ask).
  assert (looked w (set_tick (set_tick (set_tick w)))) as Hl by (do 2 (eapply looked_trans; [apply looked_tick|]); apply looked_tick).
  destruct (if _ || _ then _ else _) as [[? ?] ?]. wp_step. by apply HQ.
Qed.
Lemma wp_secret certs (Q : error + option error → CWorld → Prop) w :
  (∀ x w', cw_acm w' = cw_acm w → cw_out w' = cw_out w → (cw_tick w <= cw_tick w')%nat → Q (inr x) w') → wp (createK8sCertificateSecret env certs) Q w.
Proof.
  intros HQ. unfold createK8sCertificateSecret. wp_step. apply wp_ask. destruct (kube_Client _); [wp_step; apply HQ; [done|done|simpl; lia]|].
  wp_step. destruct (wp_out _ _ _ (wp_self (call_kube (λ t, kube_Apply t (e_namespace env, k8sCertSecretName env)
    (<["tls.crt" := tlsCrtChain certs]> (<["tls.key" := tlsKey certs]> ∅)))) (set_tick w))) as (r & w' & Hr & _).
  apply (wp_run _ _ _ _ _ Hr). unfold call_kube in Hr. destruct (kube_Apply _ _ _ _) as [x m]. injection Hr as <- <-.
  cbn beta iota. wp_step. apply HQ; [done|done|simpl; lia].
Qed.

(** What the answer 200 of an update means. *)
Definition update_post w w' : Prop := ∀ ct, wr_Sent (cw_out w') = Some (StatusOK, ct) → "" ∉ arns (cw_acm w) →
  ∃ w1 certs w2, (cw_tick w <= cw_tick w1)%nat ∧ readCertFiles env w1 = (inr (certs, None), w2) ∧
    (uploaded certs (cw_acm w') ∨ skipped w w').

Lemma wp_update_from_files acc secret w : NoDup (arns (cw_acm w)) → wr_Sent (cw_out w) = None →
  wp (update_from_files env acc secret) (λ _ w', update_post w w') w.
Proof.
  intros Hnd Hout. unfold update_from_files. wp_step. apply wp_waited. intros r w1 n Hw1.
  pose proof (told_unsent _ _ _ Hw1 Hout) as Hout1. destruct Hw1 as (Hacm & _ & _ & Htick & _).
  assert (∀ w', wr_Sent (cw_out w') = None → update_post w w') as Hnone by (intros w' Hw' ct; by rewrite Hw').
  destruct r as [e|[]]; [by apply Hnone|]. wp_step.
  destruct (readCertFiles env w1) as [r w2] eqn:Hread.
  assert (wp (readCertFiles env) (λ r w', looked w1 w' ∧ ∃ x, r = inr x) w1) as Hl by (apply wp_readCertFiles; eauto).
  apply (wp_run _ _ _ _ _ Hread) in Hl as [[Hacm2 _ _ Hout2 Htick2] [[certs err] ->]]. rewrite Hacm in Hacm2.
  apply (wp_run _ _ _ _ _ Hread). cbn beta iota. destruct err as [err|].
  { apply wp_answer; [done|]. rewrite Hout2. intros o Ho ct Hct. destruct (Ho Hout1) as [? Heq].
    simpl in Hct. rewrite Heq in Hct. discriminate. }
  assert (∀ w3, cw_acm w3 = cw_acm w2 → cw_out w3 = cw_out w2 → (cw_tick w2 <= cw_tick w3)%nat → wp (upload env acc certs) (λ _ w', update_post w w') w3) as Hup.
  { intros w3 Hacm3 Hout3 Htick3. rewrite Hacm2 in Hacm3. rewrite Hout2 in Hout3. eapply wp_mono; [apply wp_upload; by rewrite Hacm3|].
    intros r w4 (_ & b & -> & Ha & Hu) ct Hct. rewrite Hout3 in Ha. destruct (Ha Hout1) as [ct' Heq]. rewrite Heq in Hct.
    destruct b; [|discriminate]. rewrite Hacm3 in Hu. intros Hempty. exists w1, certs, w2. split_and!; [done..|].
    destruct (Hu eq_refl Hempty) as [?|(? & Hk & Hno)]; [by left|right]. split_and!; [done|by rewrite Hk|].
    eapply not_found_mono, Hno; [done|lia]. }
  wp_step. destruct secret; [apply wp_secret; intros x w3 ? ? ?; by apply Hup|wp_step; by apply Hup].
Qed.

End acm.

Section theorems.
Context `{!Cloud} `{!ACMLaws}.

(** C35: from the start of the process on, through the first upload and any sequence of
    requests on any of its paths, with any answer of the services, lost ones included,
    nothing but certificates with the name tag of the settings is changed or removed:
    every certificate without the tag is still there, unchanged, and every certificate
    there is one from before, replaces one with the tag, or is new. *)
Theorem Run_confined `{!DebugBuild} `{!ServeMuxLib} valid version requests w env w' : NoDup (arns (cw_acm w)) →
  Run valid version requests w = (inr (inr env), w') →
  confined_to (acmCertificateName env) (cw_acm w) (cw_acm w').
Proof.
  intros Hnd Hrun. enough (wp (Run valid version requests) (λ r w', ∀ env, r = inr (inr env) →
    confined_to (acmCertificateName env) (cw_acm w) (cw_acm w')) w) as Hwp
    by (exact (proj1 (wp_run _ _ _ _ _ Hrun) Hwp env eq_refl)).
  clear env w' Hrun. set (P w' := cw_acm w' = cw_acm w).
  assert (Steady P) as HS by (apply (steady_acm (λ l, l = cw_acm w))).
  unfold Run, start, Init. do 3 wp_step. eapply wp_mono; [by apply (keeps_settings P version w)|].
  intros [e|env] w1 Hw1; cbn beta iota; [done|]. wp_step. eapply wp_mono; [by apply (keeps_checkCertFiles P env true true w1)|].
  intros [e|b] w2 Hw2; cbn beta iota; [done|]. wp_step. destruct valid as [err|]; [by repeat wp_step|].
  repeat wp_step. eapply wp_mono; [apply wp_initial; by rewrite Hw2|].
  rewrite Hw2. intros [e|[]] w3 Hw3; cbn beta iota; [done|]. repeat wp_step.
  eapply wp_mono; [by apply (keeps_serve (λ w', confined_to (acmCertificateName env) (cw_acm w) (cw_acm w')) env requests
    (keeps_ServeHTTP env _))|].
  intros [e|[]] w4 Hw4; cbn beta iota; [done|]. wp_step. by intros ? [= <-].
Qed.

End theorems.
