(* ===== verification/CertDNSSpec.v ===== *)
(** * The certificate synchronizer: which DNS records it touches

    Against what Route 53 documents of its calls, whose answers may be lost: an upsert that
    reports success has put the record there; the handlers touch no record set but those
    the request names; and the requests that are always refused. *)

From S2P Require Import Prelude GoStd Monad EntSchema EntQuery EntMutation Config Http Logic EntSpec.
From S2P Require Import CertBase CertFiles CertACM CertDNS CertServer CertFilesSpec CertKeeps.
From Stdlib Require Import Ascii.

(** ** Route 53 *)

(** The name as it is stored: lower case, with the final dot. *)
Definition normal_name (s : string) : string :=
  let s := ToLower s in if HasSuffix s "." then s else s +:+ ".".
Definition normal (r : RecordSet) : RecordSet :=
  mkRecordSet (normal_name (rs_Name r)) (rs_Type r) (rs_TTL r) (rs_Values r).
(** A zone has one record set of a name and a type. *)
Definition rs_key (r : RecordSet) : string * string := (normal_name (rs_Name r), ToUpper (rs_Type r)).
#[export] Instance RecordSet_eq_dec : EqDecision RecordSet.
Proof. solve_decision. Defined.

Definition zone_ids (l : list Zone) : list string := hz_Id <$> l.
Definition with_records (f : list RecordSet → list RecordSet) (z : Zone) : Zone :=
  mkZone (hz_Id z) (hz_Name z) (hz_Private z) (f (hz_Records z)).
Definition on_zone (id : string) (f : list RecordSet → list RecordSet) (l : list Zone) : list Zone :=
  (λ z, if decide (hz_Id z = id) then with_records f z else z) <$> l.
Definition apply_change (a : ChangeAction) (r : RecordSet) (l : list RecordSet) : list RecordSet :=
  match a with
  | ChangeCreate => l ++ [normal r]
  | ChangeUpsert => filter (λ r', rs_key r' ≠ rs_key r) l ++ [normal r]
  | ChangeDelete => filter (λ r', r' ≠ normal r) l
  end.
Definition new_zone (id : string) (i : CreateZoneInput) (records : list RecordSet) : Zone :=
  mkZone id (normal_name (cz_Name i)) (Some (cz_Private i)) records.

(** A call is done, and answered or its answer lost; or it failed and did nothing.  The
    listing starts at the name and type asked for. *)
Class Route53Laws `{Cloud} : Prop := {
  list_zones_law : ∀ cfg t d l zs, r53_ListZones cfg t d l = inr zs →
    ∀ z, z ∈ zs → ∃ z', z' ∈ l ∧ hz_Id z' = hz_Id z ∧ hz_Name z' = hz_Name z ∧ hz_Private z' = hz_Private z;
  create_zone_law : ∀ cfg t i l r l', r53_CreateZone cfg t i l = (r, l') →
    (∃ id records, id ∉ zone_ids l ∧ l' = l ++ [new_zone id i records] ∧ (r = inr id ∨ ∃ e, r = inl e)) ∨
    (l' = l ∧ ∃ e, r = inl e);
  change_law : ∀ cfg t id a rs l r l', r53_Change cfg t id a rs l = (r, l') →
    (id ∈ zone_ids l ∧ l' = on_zone id (apply_change a rs) l) ∨ (l' = l ∧ ∃ e, r = Some e);
  (** the full name is required *)
  fqdn_required : ∀ region type value, dns_validate region "" type value ≠ None }.

(** ** What stays *)

(** Between [l] and [l']: every zone is still there, and the record sets whose keys are not
    among [keys] are as before. *)
Record kept (keys : list (string * string)) (l l' : list Zone) : Prop := mk_kept {
  kp_wf : NoDup (zone_ids l');
  kp_zone : ∀ z, z ∈ l → ∃ z', z' ∈ l' ∧ hz_Id z' = hz_Id z ∧ hz_Name z' = hz_Name z ∧ hz_Private z' = hz_Private z ∧
    ∀ r, rs_key r ∉ keys → r ∈ hz_Records z ↔ r ∈ hz_Records z' }.

Lemma kept_refl keys l : NoDup (zone_ids l) → kept keys l l.
Proof. intros. split; [done|]. intros z Hz. by exists z. Qed.
Lemma kept_trans keys l1 l2 l3 : kept keys l1 l2 → kept keys l2 l3 → kept keys l1 l3.
Proof.
  intros [_ K1] [W2 K2]. split; [done|]. intros z1 Hz1.
  destruct (K1 z1 Hz1) as (z2 & Hz2 & ? & ? & ? & Hr2). destruct (K2 z2 Hz2) as (z3 & Hz3 & ? & ? & ? & Hr3).
  exists z3. split_and!; [done|congruence..|]. intros r Hr. by rewrite (Hr2 r Hr), (Hr3 r Hr).
Qed.

Lemma zone_ids_on id f l : zone_ids (on_zone id f l) = zone_ids l.
Proof.
  unfold zone_ids, on_zone. rewrite <- list_fmap_compose. apply list_fmap_ext. intros i z _. simpl. by case_decide.
Qed.
Lemma lower_idemp c : lower_char (lower_char c) = lower_char c.
Proof. by destruct c as [[] [] [] [] [] [] [] []]. Qed.
Lemma ToLower_idemp s : ToLower (ToLower s) = ToLower s.
Proof. unfold ToLower. induction s as [|c s IH]; simpl; [done|]. by rewrite lower_idemp, IH. Qed.
Lemma upper_idemp c : upper_char (upper_char c) = upper_char c.
Proof. by destruct c as [[] [] [] [] [] [] [] []]. Qed.
Lemma ToUpper_idemp s : ToUpper (ToUpper s) = ToUpper s.
Proof. unfold ToUpper. induction s as [|c s IH]; simpl; [done|]. by rewrite upper_idemp, IH. Qed.
Lemma ToLower_app s t : ToLower (s +:+ t) = ToLower s +:+ ToLower t.
Proof.
  induction s as [|c s IH]; [done|]. change (String c s +:+ t) with (String c (s +:+ t)).
  change (ToLower (String c ?x)) with (String (lower_char c) (ToLower x)). by rewrite IH.
Qed.
Lemma HasSuffix_dot s : HasSuffix (s +:+ ".") "." = true.
Proof.
  unfold HasSuffix. assert (str_rev (s +:+ ".") = String "." (str_rev s)) as ->; [|by simpl; destruct (str_rev s)].
  induction s as [|c s IH]; [done|]. change (String c s +:+ ".") with (String c (s +:+ ".")). by rewrite !str_rev_snoc, IH.
Qed.
Lemma normal_name_lower s : normal_name (ToLower s) = normal_name s.
Proof. unfold normal_name. by rewrite ToLower_idemp. Qed.
Lemma normal_name_idemp s : normal_name (normal_name s) = normal_name s.
Proof.
  unfold normal_name at 2 3. cbv zeta. destruct (HasSuffix (ToLower s) ".") eqn:Hs; unfold normal_name; cbv zeta.
  - by rewrite ToLower_idemp, Hs.
  - rewrite ToLower_app, ToLower_idemp. change (ToLower ".") with ".". by rewrite HasSuffix_dot.
Qed.
Lemma rs_key_normal r : rs_key (normal r) = rs_key r.
Proof. unfold rs_key. simpl. by rewrite normal_name_idemp. Qed.
Lemma apply_change_other a rs l r : rs_key r ≠ rs_key rs → r ∈ l ↔ r ∈ apply_change a rs l.
Proof.
  intros Hr. assert (r ≠ normal rs) as Hn by (intros ->; by rewrite rs_key_normal in Hr).
  destruct a; cbn [apply_change]; rewrite ?elem_of_app, ?list_elem_of_singleton, ?list_elem_of_filter; naive_solver.
Qed.
Lemma kept_change keys id a rs l : NoDup (zone_ids l) → rs_key rs ∈ keys → kept keys l (on_zone id (apply_change a rs) l).
Proof.
  intros Hnd Hk. split; [by rewrite zone_ids_on|]. intros z Hz.
  exists (if decide (hz_Id z = id) then with_records (apply_change a rs) z else z).
  split; [apply list_elem_of_fmap; eauto|]. case_decide; [|done]. split_and!; [done..|].
  intros r Hr. apply apply_change_other. intros Heq. by rewrite Heq in Hr.
Qed.
Lemma kept_create keys l z : NoDup (zone_ids l) → hz_Id z ∉ zone_ids l → kept keys l (l ++ [z]).
Proof.
  intros Hnd Hz. split; [unfold zone_ids in *; rewrite fmap_app; by apply NoDup_snoc|].
  intros z' Hz'. exists z'. split; [set_solver|done].
Qed.

Section dns.
Context `{!Cloud} `{!Route53Laws} (env : envVars) (keys : list (string * string)).

(** ** The calls *)

Lemma wp_call_r53 {A} f (Q : error + A → CWorld → Prop) w :
  (∀ r l, f (cw_tick w) (cw_zones w) = (r, l) → Q (inr r) (set_tick (set_zones l w))) → wp (call_r53 f) Q w.
Proof.
  intros HQ. destruct (f (cw_tick w) (cw_zones w)) as [r l] eqn:Hf.
  apply (wp_step_of r (λ w, set_tick (set_zones l w))); [|by apply HQ]. unfold call_r53. by rewrite Hf.
Qed.
Lemma wp_ask_r53 {A} (f : nat → list Zone → A) (Q : error + A → CWorld → Prop) w :
  Q (inr (f (cw_tick w) (cw_zones w))) (set_tick w) → wp (ask_r53 f) Q w.
Proof. by apply wp_step_of. Qed.

Lemma wp_change cfg id a rs (Q : error + option error → CWorld → Prop) w :
  NoDup (zone_ids (cw_zones w)) → rs_key rs ∈ keys →
  (∀ r w', kept keys (cw_zones w) (cw_zones w') →
     cw_out w' = cw_out w → (r = None → id ∈ zone_ids (cw_zones w) ∧ cw_zones w' = on_zone id (apply_change a rs) (cw_zones w)) → Q (inr r) w') →
  wp (call_r53 (λ t, r53_Change cfg t id a rs)) Q w.
Proof.
  intros Hnd Hk HQ. apply wp_call_r53. intros r l [[Hid ->]|[-> [e ->]]]%change_law; apply HQ; simpl.
  1: by apply kept_change. 3: by apply kept_refl. all: done.
Qed.

Lemma wp_getRoute53Record cfg id fqdn type (Q : error + (error + option RecordSet) → CWorld → Prop) w :
  (∀ r w', cw_zones w' = cw_zones w → cw_out w' = cw_out w → Q (inr r) w') → wp (getRoute53Record cfg id fqdn type) Q w.
Proof.
  intros HQ. unfold getRoute53Record. destruct (_ || _); [wp_step; by apply HQ|]. wp_step. apply wp_ask_r53. wp_step. by apply HQ.
Qed.

(** ** The zone *)

Definition named (z : Zone) (domain : string) : Prop :=
  TrimSuffix (hz_Name z) "." = domain ∨ hz_Name z = normal_name domain.
(** The zone of a domain, public or private. *)
Definition zone_of (domain : string) (b : bool) (id : string) (l : list Zone) : Prop :=
  ∃ z, z ∈ l ∧ hz_Id z = id ∧ named z domain ∧ hz_Private z = Some b.
Lemma zone_of_kept domain b id l l' : zone_of domain b id l → kept keys l l' → zone_of domain b id l'.
Proof.
  intros (z & Hz & <- & Hn & Hp) [_ K]. destruct (K z Hz) as (z' & Hz' & Hid & Hn' & Hp' & _).
  exists z'. unfold named in *. rewrite Hn', Hp', Hid. done.
Qed.

Lemma wp_find_zone domain b zones (Q : error + option string → CWorld → Prop) w :
  (∀ z, z ∈ zones → ∃ z', z' ∈ cw_zones w ∧ hz_Id z' = hz_Id z ∧ hz_Name z' = hz_Name z ∧ hz_Private z' = hz_Private z) →
  (∀ e, Q (inl e) w) → (∀ r, (∀ id, r = Some id → zone_of domain b id (cw_zones w)) → Q (inr r) w) →
  wp (find_zone domain b zones) Q w.
Proof.
  intros Hz He HQ. induction zones as [|z zones IH]; cbn [find_zone]; [wp_step; by apply HQ|].
  assert (wp (find_zone domain b zones) Q w) as Hnext by (apply IH; intros z' ?; apply Hz; by right).
  destruct (String.eqb_spec (TrimSuffix (hz_Name z) ".") domain) as [Hn|]; [|done].
  destruct (hz_Private z) as [b'|] eqn:Hp; [|unfold panic; wp_step; apply He].
  destruct (Bool.eqb_spec b' b) as [->|]; [|done]. wp_step. apply HQ. intros ? [= <-].
  destruct (Hz z) as (z' & Hin & Hid & Hn' & Hp'); [by left|]. exists z'. unfold named. rewrite Hn', Hp'. auto.
Qed.

Lemma wp_zone cfg domain vpc region b create (Q : error + (error + string) → CWorld → Prop) w :
  NoDup (zone_ids (cw_zones w)) →
  (∀ r w', kept keys (cw_zones w) (cw_zones w') → cw_out w' = cw_out w → (∀ id, r = inr (inr id) → zone_of domain b id (cw_zones w')) → Q r w') →
  wp (getOrCreateHostedZone cfg domain vpc region b create) Q w.
Proof.
  intros Hnd HQ. pose proof (kept_refl keys _ Hnd) as Href. unfold getOrCreateHostedZone. wp_step. apply wp_ask_r53.
  destruct (r53_ListZones _ _ _ _) as [e|zones] eqn:Hlist; [wp_step; by apply HQ|].
  wp_step. apply wp_find_zone; [exact (list_zones_law _ _ _ _ _ Hlist)|intros e; by apply HQ|].
  intros [id|] Hfound; [wp_step; apply HQ; [done|done|intros ? [= <-]; by apply Hfound]|].
  destruct (_ && _); [|wp_step; by apply HQ]. wp_step. apply wp_ask. apply wp_call_r53. intros r l Hc.
  cbn [set_tick cw_zones] in *. apply create_zone_law in Hc as [(id & records & Hid & -> & Hr)|[-> [e ->]]]; [|by apply HQ].
  apply HQ; [by apply kept_create|done|]. intros id' [= ->]. destruct Hr as [[= ->]|[? ?]]; [|done].
  eexists. split; [apply elem_of_app; right; by apply list_elem_of_singleton|]. split_and!; [done|by right|done].
Qed.

(** ** One record *)

Definition p_key (p : DNSRecordParams) : string * string := (normal_name (p_fqdn p), ToUpper (p_Recordtype p)).
(** The full name is made of the other two, as [sanitizeDNSRecord] makes it. *)
Definition whole (p : DNSRecordParams) : Prop := p_fqdn p = ToLower (p_Recordname p +:+ p_Domain p).

Definition present (p : DNSRecordParams) (l : list Zone) : Prop :=
  ∃ z, z ∈ l ∧ named z (p_Domain p) ∧ hz_Private z = Some (p_IsPrivate p) ∧
    mkRecordSet (normal_name (p_fqdn p)) (ToUpper (p_Recordtype p)) 300 [p_Recordvalue p] ∈ hz_Records z.

Lemma present_change p id a rs l : zone_of (p_Domain p) (p_IsPrivate p) id l → a ≠ ChangeDelete →
  normal rs = mkRecordSet (normal_name (p_fqdn p)) (ToUpper (p_Recordtype p)) 300 [p_Recordvalue p] →
  present p (on_zone id (apply_change a rs) l).
Proof.
  intros (z & Hz & Hid & Hn & Hp) Ha Hrs. exists (with_records (apply_change a rs) z). split_and!; [|done..|].
  - apply list_elem_of_fmap. exists z. by rewrite decide_True.
  - rewrite <- Hrs. destruct a; cbn; set_solver.
Qed.

Lemma wp_upsert_record safe cfg p (Q : error + bool * string → CWorld → Prop) w :
  NoDup (zone_ids (cw_zones w)) → whole p → p_key p ∈ keys →
  (∀ r w', kept keys (cw_zones w) (cw_zones w') → cw_out w' = cw_out w →
     (∀ msg, r = inr (true, msg) → present p (cw_zones w')) → Q r w') →
  wp (upsert_record env safe cfg p) Q w.
Proof.
  intros Hnd Hw Hk HQ. unfold upsert_record. wp_step. apply wp_zone; [done|]. intros r w1 Hkept Ho1 Hzone.
  destruct r as [e|[e|id]]; [by apply HQ|wp_step; by apply HQ|]. specialize (Hzone id eq_refl).
  assert (∀ r w', kept keys (cw_zones w1) (cw_zones w') → cw_out w' = cw_out w1 → (∀ msg, r = inr (true, msg) → present p (cw_zones w')) → Q r w') as HQ1.
  { intros r w' Hk' Ho. apply HQ; [by eapply kept_trans|congruence]. }
  destruct Hkept as [Hnd1 _]. pose proof (kept_refl keys _ Hnd1) as Href.
  wp_step. apply wp_getRoute53Record. intros existing w2 Hz2 Ho2. rewrite <- Hz2, <- ?Ho2 in *.
  assert (normal_name (p_Recordname p +:+ p_Domain p) = normal_name (p_fqdn p)) as Hname.
  { by rewrite Hw, normal_name_lower. }
  destruct existing as [e|[rs|]]; [wp_step; by apply HQ1|..];
    wp_step; (eapply wp_change; [done|unfold rs_key; cbn [rs_Name rs_Type]; rewrite ToUpper_idemp, ?Hname; exact Hk|]);
    intros r w3 Hk3 Ho3 Hdone; wp_step; (apply HQ1; [done|congruence|]); intros msg Hmsg;
    (destruct r; [discriminate|]); destruct (Hdone eq_refl) as [_ ->];
    (apply present_change; [done|done|]); unfold normal; cbn [rs_Name rs_Type rs_TTL rs_Values]; by rewrite ?Hname.
Qed.

(** The deletion of a record set touches no other. *)
Lemma wp_remove_record cfg p (Q : error + bool * string → CWorld → Prop) w :
  NoDup (zone_ids (cw_zones w)) → p_key p ∈ keys →
  (∀ r w', kept keys (cw_zones w) (cw_zones w') → Q r w') → wp (remove_record cfg p) Q w.
Proof.
  intros Hnd Hk HQ. unfold remove_record, deleteRoute53Record. wp_step. apply wp_zone; [done|]. intros r w1 Hkept _ _.
  destruct r as [e|[e|id]]; [by apply HQ|wp_step; by apply HQ|].
  wp_step. apply wp_getRoute53Record. intros existing w2 Hz2 _. rewrite <- Hz2 in Hkept.
  destruct existing as [e|[rs|]]; [wp_step; by apply HQ| |wp_step; by apply HQ].
  wp_step. wp_step. apply wp_getRoute53Record. intros existing w3 Hz3 _. rewrite <- Hz3 in Hkept.
  destruct existing as [e|[rs'|]]; [wp_step; wp_step; by apply HQ| |wp_step; wp_step; by apply HQ].
  destruct (rs_Values rs') as [|v vs]; [wp_step; by apply HQ|].
  eapply wp_change; [apply Hkept|exact Hk|]. intros r w4 Hk4 _ _. wp_step. apply HQ. by eapply kept_trans.
Qed.

(** ** Many records *)

Lemma whole_sanitized p : whole (sanitizeDNSRecord env p).
Proof. done. Qed.

Lemma keeps_upsert_record l0 safe cfg p : whole p → p_key p ∈ keys →
  keeps (λ w, kept keys l0 (cw_zones w)) (upsert_record env safe cfg p).
Proof.
  intros Hw Hk w Hkept. apply wp_upsert_record; [apply Hkept|done..|]. intros r w' Hk' _ _. by eapply kept_trans.
Qed.
Lemma keeps_remove_record l0 cfg p : p_key p ∈ keys → keeps (λ w, kept keys l0 (cw_zones w)) (remove_record cfg p).
Proof. intros Hk w Hkept. apply wp_remove_record; [apply Hkept|done..|]. intros r w' Hk'. by eapply kept_trans. Qed.
End dns.

#[export] Instance steady_zones `{Cloud} (R : list Zone → Prop) : Steady (λ w, R (cw_zones w)).
Proof.
  split; try done.
  - intros acc status msg w Hw. unfold write. destruct (String.eqb _ _); by apply wp_respond.
  - intros msg status _ w Hw. by apply wp_respond.
Qed.

Section requests.
Context `{!Cloud} `{!Route53Laws} (env : envVars).

(** ** What a request names *)

Lemma query_fqdn p kv : p_fqdn (query_create p kv) = p_fqdn p ∧ p_fqdn (query_delete p kv) = p_fqdn p.
Proof. unfold query_create, query_delete. by split; repeat (destruct (String.eqb _ _); [done|]). Qed.
Lemma foldl_query_fqdn query kvs p : query = query_create ∨ query = query_delete → p_fqdn (foldl query p kvs) = p_fqdn p.
Proof.
  intros Hq. revert p. induction kvs as [|kv kvs IH]; intros p; [done|]. simpl. rewrite IH.
  by destruct Hq as [->| ->]; destruct (query_fqdn p kv).
Qed.

(** No field of the JSON object sets the full name. *)
Lemma into_struct_keeps {A B} (get : A → B) (fields : list (string * decoder A)) :
  (∀ f, In f fields → ∀ v j, get (f.2 v j).1 = get v) → ∀ v j, get (into_struct fields v j).1 = get v.
Proof.
  intros Hf v j. unfold into_struct. destruct j as [| | | | |members]; try done.
  change v with (v, true).1 at 2. generalize (v, true). induction members as [|m ms IH]; intros acc; [done|].
  simpl. rewrite IH. destruct (List.find _ _) as [f|] eqn:Hfind; [|done]. apply List.find_some in Hfind as [Hin _].
  specialize (Hf f Hin acc.1 m.2). by destruct (f.2 acc.1 m.2).
Qed.
Lemma field_keeps {A B D} (get : A → D) key (into : decoder B) g set v j :
  (∀ b v, get (set b v) = get v) → get ((field key into g set).2 v j).1 = get v.
Proof. intros Hs. unfold field. simpl. destruct (into (g v) j). apply Hs. Qed.
Lemma into_DNS_fqdn p j : p_fqdn (into_DNS p j).1 = p_fqdn p.
Proof.
  apply into_struct_keeps. intros f Hf v j'. cbn [In] in Hf.
  repeat (destruct Hf as [<-|Hf]; [by apply (field_keeps p_fqdn)|]). done.
Qed.
Lemma into_slice_fqdn j p : p ∈ (into_slice into_DNS zero_params [] j).1 → p_fqdn p = "".
Proof.
  destruct j as [| | | |js|]; [set_solver..| |set_solver]. simpl. induction js as [|j js IH]; simpl; [set_solver|].
  pose proof (into_DNS_fqdn zero_params j) as Hj. destruct (into_DNS zero_params j) as [q ok].
  destruct (into_elems _ _ _) as [l oks]. simpl in *. intros [->|Hp]%elem_of_cons; [done|by apply IH].
Qed.

Definition from_request (p : DNSRecordParams) : Prop := p_fqdn p = "" ∨ whole p.
Lemma wp_request acc r query w : query = query_create ∨ query = query_delete →
  wp (request_records env acc r query) (λ res w', cw_zones w' = cw_zones w ∧
    ∀ region records, res = inr (Some (region, records)) → ∀ p, p ∈ records → from_request p) w.
Proof.
  intros Hq. unfold request_records. cbv zeta. destruct (String.eqb (cq_Method r) "GET").
  { destruct (validate _); [wp_step; apply wp_write; [done|]; intros o _; by wp_step|].
    wp_step. split; [done|]. intros ? ? [= _ <-] p. destruct (_ && _); [|set_solver].
    intros ->%list_elem_of_singleton. right. apply whole_sanitized. }
  destruct (String.eqb (cq_Method r) "POST").
  2: { wp_step. apply wp_write; [done|]. intros o _. wp_step. split; [done|]. intros ? ? [= _ <-]. set_solver. }
  destruct (cq_Body r) as [|raw parsed]; [wp_step; apply wp_http_error; [done|]; intros o _; by wp_step|].
  destruct (String.eqb raw "").
  { wp_step. apply wp_http_error; [done|]. intros o _. wp_step. split; [done|]. intros ? ? [= _ <-]. set_solver. }
  destruct (match parsed with Some _ => _ | None => _ end) as [record [|]].
  { wp_step. split; [done|]. intros ? ? [= _ <-] p ->%list_elem_of_singleton. right. apply whole_sanitized. }
  assert (∀ p, p ∈ (match parsed with Some j => into_slice into_DNS zero_params [] j | None => ([], false) end).1 → from_request p) as Hs.
  { intros p Hp. left. destruct parsed as [j|]; [by eapply into_slice_fqdn|set_solver]. }
  destruct (match parsed with Some _ => _ | None => _ end) as [records [|]]; simpl in Hs.
  - wp_step. split; [done|]. by intros ? ? [= _ <-].
  - wp_step. apply wp_write; [done|]. intros o _. wp_step. split; [done|]. by intros ? ? [= _ <-].
Qed.


(** The record sets a request is about: the record as it is when there is one, else each
    with its parameters made whole. *)
Definition record_keys (records : list DNSRecordParams) : list (string * string) :=
  match records with
  | [p] => [p_key p]
  | _ => (λ p, p_key (sanitizeDNSRecord env p)) <$> records
  end.
Definition asked_keys (acc : string) query (r : CRequest) (w : CWorld) : list (string * string) :=
  match (request_records env acc r query w).1 with inr (Some (_, records)) => record_keys records | _ => [] end.

(** ** What the handlers touch *)

Section handle.
Context (keys : list (string * string)) (l0 : list Zone).
#[local] Notation P := (λ w, kept keys l0 (cw_zones w)).

Lemma keeps_many_named acc region act records rp :
  (∀ cfg p, whole p → p_key p ∈ keys → keeps P (act cfg p)) →
  (∀ p, p ∈ records → p_key (sanitizeDNSRecord env p) ∈ keys) → keeps P (many_records env acc region act records rp).
Proof.
  intros Ha Hk. assert (Steady P) as HS by apply (steady_zones (kept keys l0)).
  revert rp. induction records as [|p records IH]; intros rp; cbn [many_records]; cbv zeta; [apply ret_keeps|].
  assert (∀ rp, keeps P (many_records env acc region act records rp)) as IH' by (apply IH; set_solver).
  assert (∀ cfg, keeps P (act cfg (sanitizeDNSRecord env p))) as Hp by (intros cfg; apply Ha; [done|apply Hk; by left]).
  keep.
Qed.

Lemma keeps_handle_named acc region region_of one each records :
  (∀ cfg p, whole p → p_key p ∈ keys → keeps P (one cfg p)) → (∀ cfg p, whole p → p_key p ∈ keys → keeps P (each cfg p)) →
  (∀ p, p ∈ records → from_request p) → record_keys records ⊆ keys →
  keeps P (handle_records env acc region region_of one each records).
Proof.
  intros Ho He Hf Hk. assert (Steady P) as HS by apply (steady_zones (kept keys l0)). unfold handle_records.
  destruct records as [|p [|q records]].
  - apply bind_keeps; [|intros; keep]. apply keeps_many_named; [done|set_solver].
  - destruct (validate p) eqn:Hv; [keep|]. destruct (Hf p) as [Hp|Hp]; [by left| |].
    + unfold validate in Hv. rewrite Hp in Hv. by apply fqdn_required in Hv.
    + assert (∀ cfg, keeps P (one cfg p)) as Hone by (intros cfg; apply Ho; [done|apply Hk; by left]). keep.
  - apply bind_keeps; [|intros; keep]. apply keeps_many_named; [done|]. intros p' Hp'. apply Hk.
    apply list_elem_of_fmap. eauto.
Qed.
End handle.

(** Either handler, by what it does with one record and with each of many. *)
Lemma wp_dns_handler acc r query region_of one each w :
  query = query_create ∨ query = query_delete → NoDup (zone_ids (cw_zones w)) →
  let keys := asked_keys acc query r w in
  (∀ cfg p, whole p → p_key p ∈ keys → keeps (λ w', kept keys (cw_zones w) (cw_zones w')) (one cfg p)) →
  (∀ cfg p, whole p → p_key p ∈ keys → keeps (λ w', kept keys (cw_zones w) (cw_zones w')) (each cfg p)) →
  wp (res ← request_records env acc r query;
      match res with
      | None => mret ()
      | Some (region, records) => handle_records env acc region (region_of region) one each records
      end) (λ _ w', kept keys (cw_zones w) (cw_zones w')) w.
Proof.
  intros Hq Hnd keys Ho He. wp_step. destruct (request_records env acc r query w) as [res w1] eqn:Hres.
  destruct (proj1 (wp_run _ _ _ _ _ Hres) (wp_request acc r query w Hq)) as [Hz Hf].
  assert (kept keys (cw_zones w) (cw_zones w1)) as Hk by (rewrite Hz; by apply kept_refl).
  apply (wp_run _ _ _ _ _ Hres). destruct res as [e|[[region records]|]]; cbn beta iota; [done| |by wp_step].
  apply (keeps_handle_named keys (cw_zones w)); try done; [by eapply Hf|].
  unfold keys, asked_keys. by rewrite Hres.
Qed.

Lemma keeps_single acc (act : AWSConfig → DNSRecordParams → C (bool * string)) keys l0 cfg p :
  keeps (λ w, kept keys l0 (cw_zones w)) (act cfg p) → keeps (λ w, kept keys l0 (cw_zones w)) (single acc (act cfg p)).
Proof.
  intros Ha. assert (Steady (λ w, kept keys l0 (cw_zones w))) as HS by apply (steady_zones (kept keys l0)). unfold single. keep.
Qed.

(** C37: neither DNS handler touches anything but what the request names: whatever the
    services answer, every zone is still there, and every record set with another name or
    type than those of the request's records is there exactly if it was before. *)
Theorem dns_handlers_confined r w : NoDup (zone_ids (cw_zones w)) →
  kept (asked_keys (ToLower (cq_Accept r)) query_create r w) (cw_zones w) (cw_zones (HTTPCreateDNSRecord env r w).2) ∧
  kept (asked_keys (ToLower (cq_Accept r)) query_delete r w) (cw_zones w) (cw_zones (HTTPDeleteDNSRecord env r w).2).
Proof.
  intros Hnd. assert (∀ (m : C ()) keys, wp m (λ _ w', kept keys (cw_zones w) (cw_zones w')) w → kept keys (cw_zones w) (cw_zones (m w).2))
    as Hrun by (intros m keys Hm; apply wp_out in Hm as (res & w' & Hrun & Hk); by rewrite Hrun).
  split; apply Hrun.
  - apply (wp_dns_handler _ _ _ (λ _, p_Region)); [by left|done|intros cfg p Hw Hk..].
    + unfold createSingleDNSRecord. apply (keeps_single _ (upsert_record env html_EscapeString)). by apply keeps_upsert_record.
    + unfold createDNSRecord. apply bind_keeps; [by apply keeps_upsert_record|]. intros [ok msg]. apply ret_keeps.
  - apply (wp_dns_handler _ _ _ (λ _ _, e_region env)); [by right|done|intros cfg p Hw Hk..].
    + unfold deleteSingleDNSRecord. apply (keeps_single _ remove_record). by apply keeps_remove_record.
    + unfold deleteDNSRecord. apply bind_keeps; [by apply keeps_remove_record|]. intros [ok msg]. apply ret_keeps.
Qed.

(** a record posted as one JSON object is answered 400, and nothing is done, when its
    parameters, made whole, do not pass the validation; and when the answer is 200 the
    record is in the zone of its domain: under its full name and type, with the value and
    the time to live of the service. *)
Theorem create_single_spec r raw j p0 w res w' ct status : NoDup (zone_ids (cw_zones w)) → wr_Sent (cw_out w) = None →
  cq_Method r = "POST" → cq_Body r = BodyBytes raw (Some j) → raw ≠ "" → into_DNS zero_params j = (p0, true) →
  HTTPCreateDNSRecord env r w = (res, w') → wr_Sent (cw_out w') = Some (status, ct) →
  let p := sanitizeDNSRecord env p0 in
  (validate p ≠ None → status = StatusBadRequest ∧ cw_zones w' = cw_zones w) ∧
  (status = StatusOK → validate p = None ∧ present p (cw_zones w')).
Proof.
  intros Hnd Hout Hm Hb Hraw Hinto Hrun Hsent p.
  enough (wp (HTTPCreateDNSRecord env r) (λ _ w', ∀ status ct, wr_Sent (cw_out w') = Some (status, ct) →
    (validate p ≠ None → status = StatusBadRequest ∧ cw_zones w' = cw_zones w) ∧
    (status = StatusOK → validate p = None ∧ present p (cw_zones w'))) w) as Hwp.
  { exact (proj1 (wp_run _ _ _ _ _ Hrun) Hwp status ct Hsent). }
  clear Hrun Hsent. unfold HTTPCreateDNSRecord, request_records. cbv zeta. rewrite Hm, Hb, Hinto. 
  change (String.eqb "POST" "GET") with false. change (String.eqb "POST" "POST") with true.
  rewrite (proj2 (String.eqb_neq raw "") Hraw). cbn iota. wp_step. wp_step. fold p. unfold handle_records.
  destruct (validate p) as [err|].
  { apply wp_write; [done|]. intros o Ho status' ct' ->%(answered_status _ _ _ _ _ Ho Hout). done. }
  wp_step. apply wp_ask. destruct (aws_LoadDefaultConfig _ _).
  { apply wp_write; [done|]. intros o Ho status' ct' ->%(answered_status _ _ _ _ _ Ho Hout). done. }
  unfold createSingleDNSRecord, single. wp_step.
  apply (wp_upsert_record env [p_key p]); [done|done|by left|]. intros r' w1 _ Hout1 Hp.
  destruct r' as [e|[ok msg]].
  { intros status' ct'. rewrite Hout1. simpl. by rewrite Hout. }
  apply wp_write; [by destruct ok|]. intros o Ho status' ct'. rewrite Hout1 in Ho.
  intros ->%(answered_status _ _ _ _ _ Ho Hout). split; [done|]. destruct ok; [|done]. split; [done|]. by eapply Hp.
Qed.

Lemma validate_fqdn p : p_fqdn p = "" → ∃ e, validate p = Some e.
Proof.
  intros Hp. unfold validate. rewrite Hp. destruct (dns_validate _ _ _ _) as [e|] eqn:He; [by eexists|].
  by apply fqdn_required in He.
Qed.

(** The answer is 400, and nothing else has happened, not a single call. *)
Definition refused_at_once (m : C ()) (w : CWorld) : Prop :=
  ∃ o ct, m w = (inr (), set_out o w) ∧ wr_Sent o = Some (StatusBadRequest, ct).
Lemma sent_stays status ct body o x : wr_Sent o = Some x →
  wr_Sent (Write body (WriteHeader status (set_content_type ct o))) = Some x.
Proof. destruct o as [c i s b]. simpl. by intros ->. Qed.
Lemma wp_write_bad acc msg (Q : error + () → CWorld → Prop) w :
  wr_Sent (cw_out w) = None ∨ (∃ ct, wr_Sent (cw_out w) = Some (StatusBadRequest, ct)) →
  (∀ o ct, wr_Sent o = Some (StatusBadRequest, ct) → Q (inr ()) (set_out o w)) →
  wp (write acc StatusBadRequest msg) Q w.
Proof.
  intros [Hs|[ct Hs]] HQ; [apply wp_write; [done|]; intros o Ho; destruct (Ho Hs) as [ct Hct]; by eapply HQ|].
  unfold write. destruct (String.eqb _ _); apply wp_respond; eapply (HQ _ ct); by rewrite (sent_stays _ _ _ _ _ Hs).
Qed.

(** One record that was not made whole, from a request already answered 400 or not at all. *)
Lemma wp_handle_raw acc region region_of one each p (Q : error + () → CWorld → Prop) w :
  wr_Sent (cw_out w) = None ∨ (∃ ct, wr_Sent (cw_out w) = Some (StatusBadRequest, ct)) → p_fqdn p = "" →
  (∀ o ct, wr_Sent o = Some (StatusBadRequest, ct) → Q (inr ()) (set_out o w)) →
  wp (handle_records env acc region region_of one each [p]) Q w.
Proof. intros Hs Hp HQ. unfold handle_records. destruct (validate_fqdn p Hp) as [e ->]. by apply wp_write_bad. Qed.

Lemma refused_handler acc r query region_of one each w : query = query_create ∨ query = query_delete →
  wr_Sent (cw_out w) = None →
  cq_Method r = "GET" ∨ (cq_Method r = "POST" ∧ ∃ raw j, raw ≠ "" ∧ cq_Body r = BodyBytes raw (Some (JArr [j]))) →
  refused_at_once (res ← request_records env acc r query;
      match res with
      | None => mret ()
      | Some (region, records) => handle_records env acc region (region_of region) one each records
      end) w.
Proof.
  intros Hq Hout Hr.
  set (Q (r : error + ()) w' := r = inr () ∧ ∃ o ct, w' = set_out o w ∧ wr_Sent o = Some (StatusBadRequest, ct)).
  assert (∀ m, wp m Q w → refused_at_once m w) as Hwp by (intros m (? & ? & Hm & -> & o & ct & -> & ?)%wp_out; by exists o, ct).
  apply Hwp. wp_step. unfold request_records. cbv zeta. destruct Hr as [->|(-> & raw & j & Hraw & ->)].
  - change (String.eqb "GET" "GET") with true. cbn iota.
    destruct (validate_fqdn (foldl query zero_params (cq_Query r))) as [e ->]; [by rewrite foldl_query_fqdn|].
    wp_step. apply wp_write_bad; [by left|]. intros o ct Ho. do 2 wp_step. split; eauto.
  - change (String.eqb "POST" "GET") with false. change (String.eqb "POST" "POST") with true. cbn iota.
    rewrite (proj2 (String.eqb_neq raw "") Hraw). cbn iota.
    change (into_DNS zero_params (JArr [j])) with (zero_params, false). cbn iota.
    change (into_slice into_DNS zero_params [] (JArr [j])) with
      (let '(p, ok) := into_DNS zero_params j in ([p], ok && true)).
    pose proof (into_DNS_fqdn zero_params j) as Hp. destruct (into_DNS zero_params j) as [p [|]]; cbn [andb].
    + wp_step. apply wp_handle_raw; [by left|done|]. intros o ct Ho. split; eauto.
    + wp_step. apply wp_write_bad; [by left|]. intros o ct Ho. wp_step.
      apply wp_handle_raw; [right; eauto|done|]. intros o' ct' Ho'. split; [done|]. by exists o', ct'.
Qed.

(** two forms of request are always refused, whatever their parameters: a GET, of which
    the parameters as they came are validated and not the record made of them, and a JSON
    array with a single record, which is not made whole before it is validated. *)
Theorem some_requests_never_work r w : wr_Sent (cw_out w) = None →
  cq_Method r = "GET" ∨ (cq_Method r = "POST" ∧ ∃ raw j, raw ≠ "" ∧ cq_Body r = BodyBytes raw (Some (JArr [j]))) →
  refused_at_once (HTTPCreateDNSRecord env r) w ∧ refused_at_once (HTTPDeleteDNSRecord env r) w.
Proof.
  intros Hout Hr. split.
  - apply (refused_handler _ _ _ (λ _, p_Region)); auto.
  - apply (refused_handler _ _ _ (λ _ _, e_region env)); auto.
Qed.
End requests.
