(* ===== verification/Sample.v ===== *)
(** * A sample deployment

    Concrete values for every parameter of the model and a small database, on which
    the theorems of the other files are instantiated: three orgs (one soft-deleted),
    their folders, projects under the same name in two orgs, an event log, and the
    statuses of one controller. *)

From S2P Require Import Prelude GoStd Monad EntSchema Sqlgraph EntQuery EntMutation Config Status Store Memdb.
From S2P Require Import Backend Http Auth Api Logic Wf AuthSpec.
From Stdlib Require Import Ascii.

(** ** UUIDs in hexadecimal, least significant digit first *)

Definition hex_char (n : N) : ascii := hex_digit (N.to_nat n).
Fixpoint hex_of (k : nat) (n : N) : string :=
  match k with
  | O => EmptyString
  | S k => String (hex_char (n mod 16)) (hex_of k (n / 16))
  end.
Definition hex_val (c : ascii) : option N :=
  if is_digit c then Some (N.of_nat (code c - 48))
  else if in_range "a" "f" c then Some (N.of_nat (code c - 87))
  else None.
Fixpoint of_hex (s : string) : option N :=
  match s with
  | EmptyString => Some 0%N
  | String c s => match hex_val c, of_hex s with
                  | Some d, Some n => Some (d + 16 * n)%N
                  | _, _ => None
                  end
  end.

Lemma hex_char_ok n : (n < 16)%N → hex_val (hex_char n) = Some n ∧ is_id_char (hex_char n) = true.
Proof.
  intros Hn. destruct n as [|p]; [done|]. do 4 (destruct p; try done); lia.
Qed.

Lemma of_hex_hex_of k n : of_hex (hex_of k n) = Some (n mod 16 ^ N.of_nat k)%N.
Proof.
  revert n. induction k as [|k IH]; intros n; [by rewrite N.mod_1_r|].
  cbn [hex_of of_hex]. rewrite IH.
  destruct (hex_char_ok (n mod 16)) as [-> _]; [by apply N.mod_lt|]. f_equal.
  rewrite Nat2N.inj_succ, N.pow_succ_r', N.Div0.mod_mul_r by lia. lia.
Qed.
Lemma hex_of_chars k n : all_chars is_id_char (hex_of k n) = true.
Proof.
  revert n. induction k as [|k IH]; intros n; [done|]. cbn [hex_of all_chars]. rewrite IH.
  destruct (hex_char_ok (n mod 16)) as [_ ->]; [by apply N.mod_lt|done].
Qed.

Definition SampleUUIDs : UUIDLib := {|
  uuid_Parse := λ s, uuid_of_N <$> of_hex s;
  uuid_String := λ u, hex_of 32 (uuid_val u) |}.

Lemma SampleUUIDs_laws : @UUIDLaws SampleUUIDs.
Proof.
  split; intros u.
  - change (uuid_of_N <$> of_hex (hex_of 32 (uuid_val u)) = Some u).
    rewrite of_hex_hex_of, N.mod_small; [exact (f_equal Some (uuid_of_N_val u))|].
    assert (16 ^ N.of_nat 32 = 2 ^ 128)%N as -> by (vm_compute; done).
    by apply N.ltb_lt, Is_true_true, uuid_bound.
  - split; [|exact (hex_of_chars 32 (uuid_val u))].
    change (hex_of 32 (uuid_val u) ≠ ""). by cbn [hex_of].
Qed.

(** ** Routing by the segments of the path *)

Inductive Seg := Lit (s : string) | SegName | SegId.
(** a captured segment is never empty *)
Fixpoint match_segs (ps : list Seg) (ss : list string) (name id : string) : option (string * string) :=
  match ps, ss with
  | [], [] => Some (name, id)
  | Lit p :: ps, s :: ss => if String.eqb p s then match_segs ps ss name id else None
  | SegName :: ps, s :: ss => if String.eqb s "" then None else match_segs ps ss s id
  | SegId :: ps, s :: ss => if String.eqb s "" then None else match_segs ps ss name s
  | _, _ => None
  end.
Definition route_table : list (Endpoint * list Seg) :=
  let v1 l := Lit "" :: Lit "v1" :: l in
  [(EpListOrgs, v1 [Lit "orgs"]); (EpGetOrg, v1 [Lit "orgs"; SegName]); (EpPutOrg, v1 [Lit "orgs"; SegName]);
   (EpDeleteOrg, v1 [Lit "orgs"; SegName]); (EpGetOrgStatus, v1 [Lit "orgs"; SegName; Lit "status"]);
   (EpListProjects, v1 [Lit "projects"]); (EpGetProject, v1 [Lit "projects"; SegName]);
   (EpPutProject, v1 [Lit "projects"; SegName]); (EpDeleteProject, v1 [Lit "projects"; SegName]);
   (EpGetProjectStatus, v1 [Lit "projects"; SegName; Lit "status"]); (EpGetEvents, v1 [Lit "events"]);
   (EpPutStatus, v1 [Lit "status"]); (EpDeleteStatus, v1 [Lit "status"]);
   (EpGetProjectByID, v1 [Lit "internal"; Lit "projects"; SegId]); (EpHealthz, [Lit ""; Lit "healthz"])].
Fixpoint route_in (l : list (Endpoint * list Seg)) (method : string) (ss : list string) : RouteMatch :=
  match l with
  | [] => RouteNotFound
  | (e, segs) :: l =>
      match match_segs segs ss "" "" with
      | None => route_in l method ss
      | Some (name, id) =>
          if String.eqb (endpoint_method e) method then RouteFound e name id
          else match route_in l method ss with RouteNotFound => RouteMethodNotAllowed | r => r end
      end
  end.
Definition sample_route (method path : string) : RouteMatch := route_in route_table method (Split path "/").
Definition SampleChi : Chi := sample_route.

Lemma split_from_join s acc : Join (split_from s "/" acc) "/" = str_rev acc +:+ s.
Proof.
  revert acc. induction s as [|c s IH]; intros acc; cbn [split_from]; [by rewrite str_app_nil|].
  destruct (Ascii.eqb_spec c "/") as [->|].
  - specialize (IH ""). destruct (split_from s "/" "") as [|x l] eqn:Hs.
    { destruct s as [|d s]; [done|]. cbn [split_from] in Hs. exfalso. clear IH. revert Hs.
      generalize (String d ""). revert s d.
      assert (∀ s a, split_from s "/" a ≠ []) as Hne.
      { induction s as [|d s IHs]; intros a; cbn [split_from]; [done|]. by destruct (Ascii.eqb d "/"). }
      intros s d a. destruct (Ascii.eqb d "/"); [done|apply Hne]. }
    change (Join (str_rev acc :: x :: l) "/") with (str_rev acc +:+ "/" +:+ Join (x :: l) "/").
    by rewrite IH.
  - rewrite IH. unfold str_rev at 1. cbn [str_rev_app]. rewrite str_rev_app_spec, <- str_app_assoc. done.
Qed.

Lemma match_lit p ps ss n i r : match_segs (Lit p :: ps) ss n i = Some r →
  ∃ ss', ss = p :: ss' ∧ match_segs ps ss' n i = Some r.
Proof. destruct ss as [|s ss]; simpl; [done|]. destruct (String.eqb_spec p s) as [->|]; [eauto|done]. Qed.
Lemma match_name ps ss n i r : match_segs (SegName :: ps) ss n i = Some r →
  ∃ s ss', ss = s :: ss' ∧ match_segs ps ss' s i = Some r.
Proof. destruct ss as [|s ss]; simpl; [done|]. destruct (String.eqb s ""); [done|eauto]. Qed.
Lemma match_id ps ss n i r : match_segs (SegId :: ps) ss n i = Some r →
  ∃ s ss', ss = s :: ss' ∧ match_segs ps ss' n s = Some r.
Proof. destruct ss as [|s ss]; simpl; [done|]. destruct (String.eqb s ""); [done|eauto]. Qed.
Lemma match_nil ss n i r : match_segs [] ss n i = Some r → ss = [] ∧ r = (n, i).
Proof. destruct ss; simpl; [|done]. by intros [= <-]. Qed.

Lemma route_in_found l method ss e name id : route_in l method ss = RouteFound e name id →
  endpoint_method e = method ∧ ∃ segs, (e, segs) ∈ l ∧ match_segs segs ss "" "" = Some (name, id).
Proof.
  induction l as [|[e0 segs] l IH]; simpl; [done|].
  destruct (match_segs segs ss "" "") as [[n i]|] eqn:Hm.
  2: { intros [? (s & ? & ?)]%IH. split; [done|]. exists s. split; [by right|done]. }
  destruct (String.eqb_spec (endpoint_method e0) method).
  - intros [= -> -> ->]. split; [done|]. exists segs. split; [left|done].
  - destruct (route_in l method ss); intros; simplify_eq.
    destruct (IH eq_refl) as [? (s & ? & ?)]. split; [done|]. exists s. split; [by right|done].
Qed.

Lemma sample_route_ok m p e name id : sample_route m p = RouteFound e name id →
  m = endpoint_method e ∧ p = endpoint_path e name id ∧ (has_name e = false → name = "").
Proof.
  intros [<- (segs & Hin & Hm)]%route_in_found. split; [done|].
  assert (p = Join (Split p "/") "/") as -> by (symmetry; apply (split_from_join p "")).
  generalize dependent (Split p "/"). intros ss Hm. unfold route_table in Hin.
  repeat (apply elem_of_cons in Hin as [Hin|Hin]; [injection Hin as -> ->|]); [..|by apply elem_of_nil in Hin].
  all: repeat first
    [ apply match_lit in Hm as (? & -> & Hm) | apply match_name in Hm as (? & ? & -> & Hm)
    | apply match_id in Hm as (? & ? & -> & Hm) ].
  all: apply match_nil in Hm as [-> Hm]; injection Hm as -> ->; split; done.
Qed.
Lemma SampleChi_laws : @ChiLaws SampleChi.
Proof.
  split; intros m p e name id Hf; apply sample_route_ok in Hf; naive_solver.
Qed.

(** ** A database *)

Definition u (n : N) : UUID := uuid_of_N n.
Definition acme : Org := mkOrg (u 1) "acme" "the first org" 10%Z 10%Z None.
Definition beta : Org := mkOrg (u 2) "beta" "the second org" 20%Z 20%Z None.
Definition gone : Org := mkOrg (u 3) "gone" "a deleted org" 30%Z 40%Z (Some 40%Z).
Definition folder_for (id : N) (o : Org) : Folder := mkFolder (u id) "default" 10%Z 10%Z (Org_ID o).
Definition acme_web : Project := mkProject (u 21) "web" "" 50%Z 50%Z None (u 11).
Definition acme_db : Project := mkProject (u 22) "db" "" 51%Z 51%Z None (u 11).
Definition acme_old : Project := mkProject (u 23) "old" "" 52%Z 60%Z (Some 60%Z) (u 11).
Definition beta_web : Project := mkProject (u 24) "web" "" 53%Z 53%Z None (u 12).
Definition sample_event (n : Z) (et rt : string) (id : UUID) (name : string) (o : option Org) : TenancyEvent :=
  mkTenancyEvent n et rt id name (Org_ID <$> o) (Org_Name <$> o) None n.
Definition sample_events : list TenancyEvent :=
  [sample_event 1%Z "created" "org" (u 1) "acme" None; sample_event 2%Z "created" "org" (u 2) "beta" None;
   sample_event 3%Z "created" "org" (u 3) "gone" None; sample_event 4%Z "deleted" "org" (u 3) "gone" None;
   sample_event 5%Z "created" "project" (u 21) "web" (Some acme); sample_event 6%Z "created" "project" (u 22) "db" (Some acme);
   sample_event 7%Z "created" "project" (u 23) "old" (Some acme); sample_event 8%Z "created" "project" (u 24) "web" (Some beta);
   sample_event 9%Z "deleted" "project" (u 23) "old" (Some acme)].
Definition sample_status : ControllerStatus :=
  mkControllerStatus 1%Z "ctl" "project" (u 22) StatusInProgress "working" 55%Z.
Definition db1 : DB := mkDB [acme; beta; gone] [folder_for 11 acme; folder_for 12 beta; folder_for 13 gone]
  [acme_web; acme_db; acme_old; beta_web] sample_events [sample_status].
Definition world1 : World := mkWorld db1 None 0.

(** [db_wf] as a test. *)
Definition nodup {A} `{EqDecision A} (l : list A) : bool := bool_decide (NoDup l).
Fixpoint increasing (l : list Z) : bool :=
  match l with
  | [] => true
  | x :: l => forallb (Z.ltb x) l && increasing l
  end.
Definition db_wf_test (db : DB) : bool :=
  nodup (Org_ID <$> t_orgs db) && nodup (Org_Name <$> t_orgs db) &&
  nodup (Folder_ID <$> t_folders db) && nodup (folder_key <$> t_folders db) &&
  forallb (λ f, existsb (λ o, bool_decide (Org_ID o = Folder_org_folders f)) (t_orgs db)) (t_folders db) &&
  nodup (Project_ID <$> t_projects db) && nodup (project_key <$> t_projects db) &&
  forallb (λ p, existsb (λ f, bool_decide (Folder_ID f = Project_folder_projects p)) (t_folders db)) (t_projects db) &&
  increasing (TenancyEvent_ID <$> t_events db) &&
  nodup (ControllerStatus_ID <$> t_statuses db) && nodup (controllerstatus_key <$> t_statuses db).

Lemma increasing_sorted l : increasing l = true → StronglySorted Z.lt l.
Proof.
  induction l as [|x l IH]; simpl; [constructor|]. intros [Hf Hi]%andb_true_iff. constructor; [auto|].
  apply Forall_forall. intros y Hy%list_elem_of_In. rewrite forallb_forall in Hf. specialize (Hf y Hy). lia.
Qed.
Lemma forallb_existsb {A B} (f : A → B → bool) l k :
  forallb (λ x, existsb (f x) k) l = true → ∀ x, x ∈ l → ∃ y, y ∈ k ∧ f x y = true.
Proof.
  rewrite forallb_forall. intros Hf x Hx%list_elem_of_In. specialize (Hf x Hx).
  apply existsb_exists in Hf as (y & Hy%list_elem_of_In & ?). eauto.
Qed.
Lemma db_wf_tested db : db_wf_test db = true → db_wf db.
Proof.
  unfold db_wf_test, nodup. rewrite !andb_true_iff.
  intros ((((((((((?&?)&?)&?)&Hf)&?)&?)&Hp)&He)&?)&?).
  split; try (by eapply bool_decide_eq_true_1); [| |by apply increasing_sorted].
  - intros f Hin. destruct (forallb_existsb _ _ _ Hf f Hin) as (o & ? & ?%bool_decide_eq_true). eauto.
  - intros p Hin. destruct (forallb_existsb _ _ _ Hp p Hin) as (f & ? & ?%bool_decide_eq_true). eauto.
Qed.
Lemma db1_wf : db_wf db1.
Proof. apply db_wf_tested. vm_compute. reflexivity. Qed.

(** No controller is registered; there is no default org. *)
Definition config_empty : Config := mkConfig "" "" (mkControllersConfig [] []) 0 0 "" "" "".

(** ** The parameters *)

#[export] Instance sample_driver : Driver := MemDriver no_fail.
#[export] Instance sample_runtime : Runtime := MemRuntime.
#[export] Instance sample_validators : FieldValidators := MemValidators.
#[export] Instance sample_uuids : UUIDLib := SampleUUIDs.
#[export] Instance sample_chi : Chi := SampleChi.
#[export] Instance sample_driver_laws : DriverLaws := MemDriver_laws no_fail.
#[export] Instance sample_quiet : Quiet.
Proof. done. Qed.
#[export] Instance sample_validators_laws : FieldValidatorsLaws := MemValidators_laws.
#[export] Instance sample_uuids_laws : UUIDLaws := SampleUUIDs_laws.
#[export] Instance sample_chi_laws : ChiLaws := SampleChi_laws.

(** Running a specified computation that succeeds, or fails. *)
Definition is_inr {A B} (r : A + B) : bool := match r with inr _ => true | inl _ => false end.
Lemma wp_succeeds {S A} (m : EM S A) (Q : error + A → S → Prop) w : wp m Q w →
  is_inr (m w).1 = true → ∃ a w', m w = (inr a, w') ∧ Q (inr a) w'.
Proof.
  intros (r & w' & Hm & HQ)%wp_out. rewrite Hm. simpl. destruct r as [e|a]; [done|]. eauto.
Qed.
Lemma wp_fails {S A} (m : EM S A) (Q : error + A → S → Prop) w : wp m Q w →
  is_inr (m w).1 = false → ∃ e w', m w = (inl e, w') ∧ Q (inl e) w'.
Proof.
  intros (r & w' & Hm & HQ)%wp_out. rewrite Hm. simpl. destruct r as [e|a]; [|done]. eauto.
Qed.

Tactic Notation "succeeds" uconstr(t) "as" simple_intropattern(p) :=
  let H := fresh "Hrun" in
  pose proof (wp_succeeds _ _ _ t) as H; specialize (H ltac:(vm_compute; reflexivity)); destruct H as p.
Tactic Notation "fails" uconstr(t) "as" simple_intropattern(p) :=
  let H := fresh "Hrun" in
  pose proof (wp_fails _ _ _ t) as H; specialize (H ltac:(vm_compute; reflexivity)); destruct H as p.

(** ** A token on the sample deployment *)

Definition claims_of (roles : list string) : MapClaims :=
  [("preferred_username", JStr "eve"); ("realm_access", JObj [("roles", JArr (JStr <$> roles))])].
(** the validator of the sample: a token is the comma-separated list of its roles *)
Definition sample_validate (token : string) : error + MapClaims :=
  if String.eqb token "bad" then inl (errText "invalid") else inr (claims_of (Split token ",")).
Definition sample_handler : APIHandler := mkAPIHandler config_empty (Some sample_validate) "secret".
Definition request (method path token : string) (query : list (string * string)) (body : Body) : Request :=
  mkRequest method path "" "" query [("Authorization", "Bearer " +:+ token)] body None.

(** the roles of a writer of acme who is a member of a project of beta *)
Definition mixed_roles : list string :=
  [uuid_String (u 1) +:+ "_project-write-role"; uuid_String (u 2) +:+ "_" +:+ uuid_String (u 24) +:+ "_m"].
Definition mixed_request : Request :=
  request MethodPut "/v1/projects/planted" (Join mixed_roles ",") [("org", "beta")] (BodyJSON (JObj [])).
