(* ===== verification/SampleCluster.v ===== *)
(** * Keycloak and Kubernetes in memory

    Two servers that implement [Net] over a [Cluster] and satisfy [ClusterLaws]: a
    request is recognised by comparing its URL with those the cluster's data gives.
    [refuse] picks the calls that are answered with 500 and do nothing. *)

From S2P Require Import Prelude GoStd Monad EntSchema Sqlgraph EntQuery EntMutation Config Store.
From S2P Require Import Logic EntSpec Wf EntLoad StoreOrg StoreProject Http Base64 Bootstrap BootstrapSpec.
From Stdlib Require Import Ascii.

(** ** URLs apart *)

Lemma str_app_inv_head s a b : s +:+ a = s +:+ b → a = b.
Proof. induction s as [|c s IH]; [done|]. intros Heq. injection Heq as Heq. auto. Qed.
Lemma str_app_inv_tail s a b : a +:+ s = b +:+ s → a = b.
Proof.
  intros Heq%(f_equal String.list_ascii_of_string). rewrite !list_ascii_app in Heq.
  apply app_inv_tail in Heq. apply (f_equal String.string_of_list_ascii) in Heq.
  by rewrite !String.string_of_list_ascii_of_string in Heq.
Qed.
(** Without a slash in the first parts, the slash is where it is. *)
Lemma slash_split a a' r r' : slash_free a → slash_free a' →
  a +:+ String "/" r = a' +:+ String "/" r' → a = a' ∧ r = r'.
Proof.
  unfold slash_free. revert a'. induction a as [|c a IH]; intros [|c' a'] Ha Ha' Heq.
  - injection Heq as ->. done.
  - injection Heq as <- _. discriminate.
  - injection Heq as -> _. discriminate.
  - injection Heq as -> Heq. simpl in Ha, Ha'. apply andb_true_iff in Ha as [_ Ha], Ha' as [_ Ha'].
    destruct (IH a' Ha Ha' Heq) as [-> ->]. done.
Qed.

(** ** The servers *)

Section servers.
Context (base realm host : string) (refuse : nat → bool).
Let kc := mkKeycloakClient base realm "".
Let kube := mkKubeClient host "" "".

Definition is_slash_free (s : string) : bool := all_chars (λ c, negb (Ascii.eqb c "/")) s.
Definition reply (code : Z) (b : Body) : error + HTTPReply := inr (mkHTTPReply code "" (-1) "" b).
Definition user_of (row : KUser) : KCUser := mkKCUser (ku_ID row) (ku_Username row) "" "" "" true true.
Definition users_json (l : list KUser) : JSON := JArr (KCUser_json ∘ user_of <$> l).
Definition group_json (g : string * string) : JSON := JObj [("id", JStr g.2); ("path", JStr g.1)].
Definition data_json (data : gmap string string) : JSON := JObj [("data", strings_json (map_to_list data))].

(** An ID longer than all others. *)
Fixpoint repeat_u (n : nat) : string := match n with O => "" | S n => String "u" (repeat_u n) end.
Definition fresh_id (l : list KUser) : string := repeat_u (S (foldr Nat.max O ((λ row, String.length (ku_ID row)) <$> l))).

Definition username_of (j : JSON) : option string :=
  match j with
  | JObj fields => match List.find (λ f, String.eqb f.1 "username") fields with
                   | Some (_, JStr name) => Some name
                   | _ => None
                   end
  | _ => None
  end.
Definition secret_of (j : JSON) : option (string * string * list (string * string)) :=
  match j with
  | JObj [_; _; (_, JObj ((_, JStr name) :: (_, JStr ns) :: _)); _; (_, JObj entries)] =>
      Some (ns, name, omap (λ e, match e.2 with JStr v => Some (e.1, v) | _ => None end) entries)
  | _ => None
  end.
Definition new_password_of (j : JSON) : option string :=
  match j with JObj [_; _; (_, JStr pw)] => Some pw | _ => None end.

Definition do_get (url : string) (cl : Cluster) : error + HTTPReply :=
  if HasPrefix url (adminURL kc "/users?") then reply 200 (BodyJSON (users_json (cl_users cl)))
  else if HasPrefix url (adminURL kc "/group-by-path") then
    match List.find (λ g, String.eqb (group_URL kc g.1) url) (cl_groups cl) with
    | Some g => reply 200 (BodyJSON (group_json g))
    | None => reply 404 BodyEOF
    end
  else
    match List.find (λ s, is_slash_free s.1.1 && is_slash_free s.1.2 && String.eqb (secret_URL kube s.1.1 s.1.2) url)
            (map_to_list (cl_secrets cl)) with
    | Some s => reply 200 (BodyJSON (data_json s.2))
    | None => reply 404 BodyEOF
    end.
Definition do_post (url : string) (j : JSON) (cl : Cluster) : (error + HTTPReply) * Cluster :=
  if String.eqb url (adminURL kc "/users") then
    match username_of j with
    | Some name =>
        if existsb (λ row, EqualFold (ku_Username row) name) (cl_users cl) then (reply 409 BodyEOF, cl)
        else (reply 201 BodyEOF, with_users (λ l, l ++ [mkKUser (fresh_id l) name None []]) cl)
    | None => (reply 400 BodyEOF, cl)
    end
  else
    match secret_of j with
    | Some (ns, name, enc) =>
        if negb (String.eqb url (secrets_URL kube ns)) then (reply 400 BodyEOF, cl) else
        match cl_secrets cl !! (ns, name) with
        | Some _ => (reply 409 BodyEOF, cl)
        | None => (reply 201 BodyEOF, mkCluster (cl_users cl) (cl_groups cl) (<[(ns, name) := list_to_map enc]> (cl_secrets cl)))
        end
    | None => (reply 400 BodyEOF, cl)
    end.
Definition memberships (cl : Cluster) : list (string * string) :=
  row ← cl_users cl; g ← cl_groups cl; [(ku_ID row, g.2)].
Definition do_put (url : string) (b : ReqBody) (cl : Cluster) : (error + HTTPReply) * Cluster :=
  match b with
  | JSONBody j =>
      match new_password_of j, List.find (λ row, String.eqb (password_URL kc (ku_ID row)) url) (cl_users cl) with
      | Some pw, Some row => (reply 204 BodyEOF, set_password (ku_ID row) pw cl)
      | _, _ => (reply 404 BodyEOF, cl)
      end
  | _ =>
      match List.find (λ m, is_slash_free m.1 && String.eqb (membership_URL kc m.1 m.2) url) (memberships cl) with
      | Some m => (reply 204 BodyEOF, add_member m.1 m.2 cl)
      | None => (reply 404 BodyEOF, cl)
      end
  end.
Definition mem_Do (t : nat) (rq : HTTPRequest) (cl : Cluster) : (error + HTTPReply) * Cluster :=
  if refuse t then (reply 500 BodyEOF, cl)
  else if String.eqb (hq_Method rq) MethodGet then (do_get (hq_URL rq) cl, cl)
  else if String.eqb (hq_Method rq) MethodPut then do_put (hq_URL rq) (hq_Body rq) cl
  else match hq_Body rq with
       | JSONBody j => do_post (hq_URL rq) j cl
       | FormBody _ => (reply 200 (BodyJSON (JObj [("access_token", JStr "token")])), cl)
       | NoReqBody => (reply 400 BodyEOF, cl)
       end.
Definition MemNet : Net := {|
  net_NewRequest := λ _, None;
  net_Do := mem_Do;
  json_error := λ _, errText "invalid JSON";
  rand_Int := λ t max, if (max =? 0)%nat then inl (errText "no bound") else inr (t mod max)%nat;
  net_select := λ _, None |}.
#[local] Existing Instance MemNet.

Lemma MemNet_random : Random.
Proof.
  intros t max n. simpl. destruct (Nat.eqb_spec max 0); [done|]. intros [= <-]. by apply Nat.mod_upper_bound.
Qed.

Hypothesis apart : ∀ x y, HasPrefix (host +:+ x) (base +:+ y) = false.

Lemma prefix_app p a b : HasPrefix (p +:+ b) (p +:+ a) = HasPrefix b a.
Proof.
  unfold HasPrefix. induction p as [|c p IH]; [done|]. change (String.prefix (String c (p +:+ a)) (String c (p +:+ b)) = String.prefix a b).
  simpl. destruct (ascii_dec c c); done.
Qed.
Lemma prefix_self p a : HasPrefix (p +:+ a) p = true.
Proof.
  unfold HasPrefix. induction p as [|c p IH]; [by destruct a|]. change (String.prefix (String c p) (String c (p +:+ a)) = true).
  simpl. by destruct (ascii_dec c c).
Qed.
Lemma admin_prefix a b : HasPrefix (adminURL kc b) (adminURL kc a) = HasPrefix b a.
Proof. unfold adminURL. simpl. rewrite !(prefix_app base). by rewrite !(prefix_app "/admin/realms/"), !(prefix_app realm). Qed.
Lemma admin_inj a b : adminURL kc a = adminURL kc b → a = b.
Proof. unfold adminURL. simpl. by intros ?%str_app_inv_head%(str_app_inv_head "/admin/realms/")%str_app_inv_head. Qed.
Lemma kube_prefix x a : HasPrefix (host +:+ x) (adminURL kc a) = false.
Proof. unfold adminURL. simpl. apply apart. Qed.

Lemma find_elem {A} (f : A → bool) l x : List.find f l = Some x → x ∈ l ∧ f x = true.
Proof. intros [Hin Hf]%List.find_some. split; [by apply list_elem_of_In|done]. Qed.

(** Users. *)
Lemma string_member_skip key k v fields : EqualFold k key = false →
  decode_string key ((k, v) :: fields) = decode_string key fields.
Proof. unfold decode_string. simpl. by intros ->. Qed.
Lemma decode_user row : decode_struct decode_KCUser (KCUser_json (user_of row)) = Some (user_of row).
Proof.
  unfold KCUser_json, user_of, omitempty. simpl kcu_ID. simpl kcu_Username.
  by destruct (String.eqb_spec (ku_ID row) "") as [->|].
Qed.
Lemma decode_users l : decode_KCUsers (users_json l) = Some (user_of <$> l).
Proof.
  simpl. induction l as [|row l IH]; [done|]. pose proof (decode_user row) as Hd. cbn in Hd, IH |- *.
  rewrite Hd. cbn. rewrite IH. done.
Qed.
Lemma username_of_user user : username_of (KCUser_json user) = Some (kcu_Username user).
Proof. unfold KCUser_json, omitempty, username_of. by destruct (String.eqb (kcu_ID user) ""). Qed.

Lemma repeat_u_length n : String.length (repeat_u n) = n.
Proof. induction n; simpl; auto. Qed.
Lemma repeat_u_slash_free n : slash_free (repeat_u n).
Proof. induction n; [done|]. unfold slash_free in *. simpl. done. Qed.
Lemma fresh_id_fresh l : fresh_id l ∉ ku_ID <$> l.
Proof.
  intros (row & Hid & Hrow)%list_elem_of_fmap.
  assert (String.length (ku_ID row) <= foldr Nat.max O ((λ row, String.length (ku_ID row)) <$> l))%nat as Hle.
  { clear Hid. induction l as [|x l IH]; [by apply elem_of_nil in Hrow|]. cbn.
    apply elem_of_cons in Hrow as [->|Hrow]; [simpl; lia|]. specialize (IH Hrow). cbn in IH. lia. }
  rewrite <- Hid in Hle. unfold fresh_id in Hle. rewrite repeat_u_length in Hle. lia.
Qed.

(** Secrets. *)
Lemma decode_entries l m : NoDup l.*1 → (∀ k, k ∈ l.*1 → m !! k = None) →
  foldl decode_entry (Some m) ((λ e, (e.1, JStr e.2)) <$> l) = Some (list_to_map l ∪ m).
Proof.
  revert m. induction l as [|[k v] l IH]; intros m Hnd Hm; simpl; [f_equal; symmetry; apply (left_id_L ∅ (∪))|].
  apply NoDup_cons in Hnd as [Hk Hnd]. rewrite IH; [|done|].
  - apply (f_equal Some). rewrite <- insert_union_l. symmetry. apply insert_union_r. by apply not_elem_of_list_to_map_1.
  - intros k' Hk'. rewrite lookup_insert_ne by (intros <-; done). apply Hm. by right.
Qed.
Lemma decode_data data : decode_struct decode_secretManifest (data_json data) = Some data.
Proof.
  unfold data_json, strings_json. simpl. unfold decode_secretManifest, decode_map. simpl.
  rewrite decode_entries; [|apply NoDup_fst_map_to_list|by intros; apply lookup_empty].
  cbn. apply (f_equal Some). etrans; [apply (right_id_L ∅ (∪))|apply list_to_map_to_list].
Qed.
Lemma secret_of_json ns name labels enc : secret_of (secret_json ns name labels enc) = Some (ns, name, enc).
Proof.
  unfold secret_of, secret_json, strings_json. simpl. f_equal. f_equal.
  induction enc as [|[k v] enc IH]; [done|]. cbn in IH |- *. by rewrite IH.
Qed.

Lemma not_accepted code b resp : (300 <= code)%Z → ¬ accepted (reply code b) resp.
Proof. intros Hc [[= <-] Hr]. simpl in Hr. lia. Qed.

Lemma MemNet_find tok t name cl r cl' : let k := mkKeycloakClient base realm tok in
  mem_Do t (kc_request k MethodGet (users_URL k name) None) cl = (r, cl') →
  cl' = cl ∧ ∀ resp, accepted r resp → ∃ j us, carries resp j ∧ decode_KCUsers j = Some us ∧
    (∀ u, u ∈ us → ∃ row, row ∈ cl_users cl ∧ ku_ID row = kcu_ID u ∧ ku_Username row = kcu_Username u) ∧
    (∀ row, row ∈ cl_users cl → named name row → ∃ u, u ∈ us ∧ kcu_Username u = ku_Username row).
Proof.
  intros k. unfold mem_Do. destruct (refuse t).
  { intros [= <- <-]. split; [done|]. intros resp Ha. by apply not_accepted in Ha. }
  cbn -[do_get users_URL]. unfold do_get, users_URL. change (adminURL k) with (adminURL kc). rewrite admin_prefix.
  cbn -[users_json]. intros [= <- <-]. split; [done|]. intros resp [[= <-] _].
  exists (users_json (cl_users cl)), (user_of <$> cl_users cl). split_and!; [done|apply decode_users| |].
  - intros u (row & -> & Hrow)%list_elem_of_fmap. by exists row.
  - intros row Hrow _. exists (user_of row). split; [by apply list_elem_of_fmap_2|done].
Qed.

Lemma MemNet_create tok t user cl r cl' : let k := mkKeycloakClient base realm tok in
  mem_Do t (kc_request k MethodPost (adminURL k "/users") (Some (KCUser_json user))) cl = (r, cl') →
  (cl' = cl ∨ user_created (kcu_Username user) cl cl') ∧
  ∀ resp, accepted r resp → user_created (kcu_Username user) cl cl'.
Proof.
  intros k. unfold mem_Do. destruct (refuse t).
  { intros [= <- <-]. split; [by left|]. intros resp Ha. by apply not_accepted in Ha. }
  cbn -[do_post adminURL KCUser_json]. change (adminURL k) with (adminURL kc). unfold do_post.
  rewrite String.eqb_refl, username_of_user. destruct (existsb _ _) eqn:He.
  { intros [= <- <-]. split; [by left|]. intros resp Ha. by apply not_accepted in Ha. }
  intros [= <- <-]. cut (user_created (kcu_Username user) cl
    (with_users (λ l, l ++ [mkKUser (fresh_id l) (kcu_Username user) None []]) cl)); [auto|].
  split.
  - intros u Hu Hn. assert (existsb (λ row, EqualFold (ku_Username row) (kcu_Username user)) (cl_users cl) = true); [|congruence].
    apply existsb_exists. exists u. split; [by apply list_elem_of_In|done].
  - exists (mkKUser (fresh_id (cl_users cl)) (kcu_Username user) None []).
    split_and!; [apply String.eqb_refl|done|apply repeat_u_slash_free|apply fresh_id_fresh|reflexivity].
Qed.

Lemma MemNet_password tok t id pw cl r cl' : let k := mkKeycloakClient base realm tok in
  mem_Do t (kc_request k MethodPut (password_URL k id) (Some (password_json pw))) cl = (r, cl') →
  (cl' = cl ∨ cl' = set_password id pw cl) ∧ ∀ resp, accepted r resp → cl' = set_password id pw cl.
Proof.
  intros k. unfold mem_Do. destruct (refuse t).
  { intros [= <- <-]. split; [by left|]. intros resp Ha. by apply not_accepted in Ha. }
  cbn -[do_put password_URL]. change (password_URL k) with (password_URL kc). cbn -[password_URL].
  destruct (List.find _ _) as [row|] eqn:Hf.
  - apply find_elem in Hf as [_ Hf%String.eqb_eq]. unfold password_URL in Hf.
    apply admin_inj, (str_app_inv_head "/users/"), str_app_inv_tail in Hf as ->.
    intros [= <- <-]. auto.
  - intros [= <- <-]. split; [by left|]. intros resp Ha. by apply not_accepted in Ha.
Qed.

Lemma MemNet_group tok t path cl r cl' : let k := mkKeycloakClient base realm tok in
  mem_Do t (kc_request k MethodGet (group_URL k path) None) cl = (r, cl') →
  cl' = cl ∧ ∀ resp, accepted r resp → ∃ j g, carries resp j ∧ decode_struct decode_KCGroup j = Some g ∧
    (path, kcg_ID g) ∈ cl_groups cl.
Proof.
  intros k. unfold mem_Do. destruct (refuse t).
  { intros [= <- <-]. split; [done|]. intros resp Ha. by apply not_accepted in Ha. }
  cbn -[do_get group_URL]. unfold do_get. unfold group_URL at 1 2. change (adminURL k) with (adminURL kc).
  rewrite !admin_prefix, prefix_self. cbn -[group_URL group_json].
  intros [= <- <-]. split; [done|]. intros resp. destruct (List.find _ _) as [[p gid]|] eqn:Hf.
  - apply find_elem in Hf as [Hin Hf%String.eqb_eq]. unfold group_URL in Hf. simpl in Hf.
    apply admin_inj, (str_app_inv_head "/group-by-path") in Hf as ->. intros [[= <-] _].
    exists (group_json (path, gid)), (mkKCGroup gid "" path). done.
  - intros Ha. by apply not_accepted in Ha.
Qed.

Lemma MemNet_member tok t id gid cl r cl' : let k := mkKeycloakClient base realm tok in
  slash_free id → slash_free gid →
  mem_Do t (kc_request k MethodPut (membership_URL k id gid) None) cl = (r, cl') →
  (cl' = cl ∨ cl' = add_member id gid cl) ∧ ∀ resp, accepted r resp → cl' = add_member id gid cl.
Proof.
  intros k Hid _. unfold mem_Do. destruct (refuse t).
  { intros [= <- <-]. split; [by left|]. intros resp Ha. by apply not_accepted in Ha. }
  cbn -[do_put membership_URL]. change (membership_URL k) with (membership_URL kc). unfold do_put.
  destruct (List.find _ _) as [[id' gid']|] eqn:Hf.
  - apply find_elem in Hf as [_ [Hs Hf%String.eqb_eq]%andb_true_iff]. unfold membership_URL in Hf. simpl in Hs, Hf.
    apply admin_inj, (str_app_inv_head "/users/") in Hf. apply slash_split in Hf as [-> Hf]; [|done|done].
    apply (str_app_inv_head "groups/") in Hf as ->. intros [= <- <-]. auto.
  - intros [= <- <-]. split; [by left|]. intros resp Ha. by apply not_accepted in Ha.
Qed.

Lemma secret_URL_inj ns name ns' name' : slash_free ns → slash_free ns' →
  secret_URL kube ns name = secret_URL kube ns' name' → ns = ns' ∧ name = name'.
Proof.
  intros Hns Hns'. unfold secret_URL, secrets_URL. simpl. rewrite <- !str_app_assoc.
  intros Heq%str_app_inv_head%(str_app_inv_head "/api/v1/namespaces/"). apply slash_split in Heq as [-> Heq]; [|done..].
  split; [done|]. by apply (str_app_inv_head "secrets/").
Qed.
Lemma MemNet_secret_get tok dns t ns name hdr cl r cl' : let k := mkKubeClient host tok dns in
  slash_free ns → slash_free name →
  mem_Do t (mkHTTPRequest MethodGet (secret_URL k ns name) hdr NoReqBody) cl = (r, cl') →
  cl' = cl ∧
  (∀ resp, r = inr resp → hp_StatusCode resp = StatusNotFound → cl_secrets cl !! (ns, name) = None) ∧
  (∀ resp, accepted r resp → ∃ j data, hp_Body resp = BodyJSON j ∧
     decode_struct decode_secretManifest j = Some data ∧ cl_secrets cl !! (ns, name) = Some data).
Proof.
  intros k Hns Hname. unfold mem_Do. destruct (refuse t).
  { intros [= <- <-]. split_and!; [done|by intros ? [= <-]|]. intros resp Ha. by apply not_accepted in Ha. }
  cbn -[do_get secret_URL]. change (secret_URL k) with (secret_URL kube). unfold do_get.
  assert (∀ p, HasPrefix (secret_URL kube ns name) (adminURL kc p) = false) as Hp.
  { intros p. unfold secret_URL, secrets_URL. simpl. rewrite <- !str_app_assoc. apply kube_prefix. }
  rewrite !Hp. intros [= <- <-]. split; [done|]. destruct (List.find _ _) as [[[ns' name'] data]|] eqn:Hf.
  - apply find_elem in Hf as [Hin Hf]. cbn [fst snd] in Hf. apply andb_true_iff in Hf as [[Hs1 Hs2]%andb_true_iff Hf%String.eqb_eq].
    apply secret_URL_inj in Hf as [-> ->]; [|done..]. apply elem_of_map_to_list in Hin. split; [by intros ? [= <-]|].
    intros resp [[= <-] _]. exists (data_json data), data. split_and!; [done|apply decode_data|done].
  - split; [|intros resp Ha; by apply not_accepted in Ha]. intros _ _ _. destruct (cl_secrets cl !! (ns, name)) eqn:Hl; [|done].
    apply elem_of_map_to_list, list_elem_of_In in Hl. pose proof (List.find_none _ _ Hf _ Hl) as Hno. cbn [fst snd] in Hno.
    unfold slash_free in *. fold (is_slash_free ns) in Hns. fold (is_slash_free name) in Hname.
    by rewrite Hns, Hname, String.eqb_refl in Hno.
Qed.
Lemma MemNet_secret_post tok dns t ns name labels enc hdr cl r cl' : let k := mkKubeClient host tok dns in
  mem_Do t (mkHTTPRequest MethodPost (secrets_URL k ns) hdr (JSONBody (secret_json ns name labels enc))) cl = (r, cl') →
  (cl' = cl ∨ secret_created (ns, name) enc cl cl') ∧
  (∀ resp, r = inr resp → hp_StatusCode resp = StatusConflict → cl' = cl ∧ is_Some (cl_secrets cl !! (ns, name))) ∧
  (∀ resp, accepted r resp → secret_created (ns, name) enc cl cl').
Proof.
  intros k. unfold mem_Do. destruct (refuse t).
  { intros [= <- <-]. split_and!; [by left|by intros ? [= <-]|]. intros resp Ha. by apply not_accepted in Ha. }
  cbn -[do_post secrets_URL secret_json]. change (secrets_URL k) with (secrets_URL kube). unfold do_post.
  destruct (String.eqb_spec (secrets_URL kube ns) (adminURL kc "/users")) as [He|_].
  { exfalso. pose proof (kube_prefix ("/api/v1/namespaces/" +:+ ns +:+ "/secrets") "/users") as Hp.
    unfold secrets_URL in He. simpl in He. rewrite He in Hp. pose proof (prefix_self (adminURL kc "/users") "") as Hq.
    rewrite str_app_nil in Hq. congruence. }
  rewrite secret_of_json, String.eqb_refl. cbn [negb]. destruct (cl_secrets cl !! (ns, name)) as [d|] eqn:Hl.
  { intros [= <- <-]. split_and!; [by left|intros; split; [done|by exists d]|]. intros resp Ha. by apply not_accepted in Ha. }
  intros [= <- <-]. split_and!; [by right|by intros ? [= <-]|]. by intros resp [[= <-] _].
Qed.

Lemma MemNet_laws : ClusterLaws base realm host.
Proof.
  split; simpl.
  - intros t hdr form cl r cl'. unfold mem_Do. destruct (refuse t); [congruence|]. cbn. congruence.
  - intros. by eapply MemNet_find.
  - intros. by eapply MemNet_create.
  - intros. by eapply MemNet_password.
  - intros. by eapply MemNet_group.
  - intros. by eapply MemNet_member.
  - intros. by eapply MemNet_secret_get.
  - intros. by eapply MemNet_secret_post.
Qed.
End servers.
