(* ===== verification/WitnessStore.v ===== *)
(** * The theorems on the store and the API at work

    Small databases for the operations of the store, rows with columns for the scanners, and
    requests for the router. *)

From S2P Require Import Prelude GoStd Monad EntSchema Sqlgraph EntQuery EntMutation Config Status.
From S2P Require Import Store Memdb Backend Http Logic StoreAtomic EntSpec Wf EntLoad EntScan.
From S2P Require Import EntWhere EntChange EntMutations EntUpdate.
From Stdlib Require Import FunctionalExtensionality.
From S2P Require Import StoreOrg StoreProject StoreDelete StoreEvents StoreStatus StoreUpsert.
From S2P Require Import StoreCleanup StoreInv Auth Api AuthSpec ApiGuard ApiAnswers ApiScope ApiOrg.
From S2P Require Import ApiEvents Jwt Sample.

(** A driver whose statement at tick 11 fails. *)
Definition failing_driver : Driver :=
  MemDriver (λ t, if (t =? 11)%nat then Some "connection reset" else None).
(** A driver that reports an error for every COMMIT it has carried out. *)
Definition lossy_driver : Driver := let D := MemDriver no_fail in {|
  drv_query := @drv_query D; drv_count := @drv_count D; drv_create := @drv_create D;
  drv_update_nodes := @drv_update_nodes D; drv_delete_nodes := @drv_delete_nodes D;
  drv_begin := @drv_begin D; drv_rollback := @drv_rollback D;
  drv_commit := λ _, Some ((DrvOther, "connection reset"), true); db_le := @db_le D |}.

(** An org deletion that fails half-way leaves the database as it was; one whose COMMIT is
    not heard leaves what it would have left. *)
Lemma transactional_atomic_witness :
  (∃ e w', @DeleteOrg failing_driver _ _ _ "acme" world1 = (inl e, w') ∧ env_only db1 (w_db w') ∧ w_tx w' = None) ∧
  (∃ e w', @DeleteOrg lossy_driver _ _ _ "acme" world1 = (inl e, w') ∧
     @DeleteOrg (heard lossy_driver) _ _ _ "acme" world1 = (inr (), w') ∧ Org_DeletedAt <$> t_orgs (w_db w') !! 0%nat ≠ Some None).
Proof.
  split.
  - fails (transactional_atomic (λ D, @DeleteOrg D _ _ _ "acme") failing_driver (tx_DeleteOrg "acme") world1 eq_refl)
      as (e & w' & Hm & Hl). exists e, w'. split; [exact Hm|].
    destruct Hl as [[Hd Ht]|[(t & k & Hc & _) _]]; [exact (conj Hd Ht)|]. exfalso. simpl in Hc. by destruct (t =? 11)%nat.
  - fails (transactional_atomic (λ D, @DeleteOrg D _ _ _ "acme") lossy_driver (tx_DeleteOrg "acme") world1 eq_refl)
      as (e & w' & Hm & Hl). exists e, w'. split; [exact Hm|].
    assert (w' = (@DeleteOrg lossy_driver _ _ _ "acme" world1).2) as Hw by exact (eq_sym (f_equal snd Hm)).
    assert (Org_DeletedAt <$> t_orgs (w_db w') !! 0%nat ≠ Some None) as Hdel by (rewrite Hw; vm_compute; discriminate).
    destruct Hl as [[Hd Ht]|(_ & _ & [] & Hh)]; [|exact (conj Hh Hdel)].
    exfalso. assert (∀ d d', env_only d d' → d' = d) as Hq by (intros d d'; induction 1 as [|d1 d2 d3 (? & ? & ->)]; [done|by subst]).
    apply Hq in Hd. rewrite Hd in Hdel. apply Hdel. reflexivity.
Defined.

Lemma CreateOrg_spec_witness : ∃ o w', CreateOrg "delta" "new" world1 = (inr o, w') ∧
  org_created "delta" "new" db1 (w_db w') o ∧ db_wf (w_db w').
Proof.
  succeeds (CreateOrg_spec "delta" "new" db1 0 db1_wf)
    as (o & w' & Hm & _ & Ho & Hwf). eauto.
Defined.

Lemma GetOrgNamesByUUIDs_spec_witness : ∃ m w', GetOrgNamesByUUIDs [u 1; u 3; u 9] world1 = (inr m, w') ∧
  m !! u 1 = Some "acme" ∧ m !! u 3 = None ∧ m !! u 9 = None.
Proof.
  succeeds (GetOrgNamesByUUIDs_spec [u 1; u 3; u 9] db1 None 0 db1_wf)
    as (m & w' & Hm & _ & _ & Hspec). exists m, w'. split_and!; [done| | |].
  - apply Hspec. split; [set_solver|]. exists acme. split_and!; try done. left.
  - destruct (m !! u 3) as [n|] eqn:Hl; [|done]. apply Hspec in Hl as (_ & o & Hin & Hid & _ & Hd).
    assert (o = gone) as ->; [|done]. apply (org_id_unique db1); [apply db1_wf|done| |done]. right; right; left.
  - destruct (m !! u 9) as [n|] eqn:Hl; [|done]. apply Hspec in Hl as (_ & o & Hin & Hid & _).
    exfalso. repeat (apply elem_of_cons in Hin as [->|Hin]; [by apply (f_equal uuid_val) in Hid|]). set_solver.
Defined.

Lemma GetProject_spec_witness : ∃ r w', GetProject "web" (Some ["beta"]) world1 = (inr r, w') ∧
  w_db w' = db1 ∧ visible "web" (Some ["beta"]) db1 beta_web ∧ r = (attach db1 beta_web, Some beta).
Proof.
  succeeds (GetProject_spec "web" (Some ["beta"]) db1 None 0 db1_wf)
    as ([n o] & w' & Hm & Hd & _ & p & -> & -> & Hp).
  assert (visible "web" (Some ["beta"]) db1 beta_web) as Hv.
  { split_and!; [right; right; right; left|done|done|]. exists beta. split_and!; [done|left|done]. }
  apply Hp in Hv as Heq. subst p. exists (attach db1 beta_web, Some beta), w'. done.
Defined.

(** ... and without a scope the name is ambiguous. *)
Lemma GetProject_ambiguous : (GetProject "web" None world1).1 = inl (ambiguous "web").
Proof. vm_compute. reflexivity. Qed.

Lemma ListProjects_spec_witness : ∃ ns w', ListProjects (Some ["acme"]) world1 = (inr ns, w') ∧
  ∃ ps, ns = attach db1 <$> ps ∧ NoDup ps ∧ acme_web ∈ ps ∧ acme_db ∈ ps ∧ beta_web ∉ ps ∧ acme_old ∉ ps.
Proof.
  succeeds (ListProjects_spec (Some ["acme"]) db1 None 0 db1_wf)
    as (ns & w' & Hm & _ & _ & ps & Hns & Hnd & Hps & _). exists ns, w'. split; [done|]. exists ps.
  split_and!; [done|done| | | |].
  - apply Hps. split_and!; [left|done|]. exists acme. split_and!; [done|left|done].
  - apply Hps. split_and!; [right; left|done|]. exists acme. split_and!; [done|left|done].
  - intros (_ & _ & o & [= <-] & Hn & _)%Hps. apply list_elem_of_singleton in Hn. done.
  - by intros (_ & Hd & _)%Hps.
Defined.

Lemma CreateProject_spec_witness : ∃ r w', CreateProject "beta" "db" "x" world1 = (inr r, w') ∧ r.2 = beta ∧
  Project_Name (project_row r.1) = "db" ∧ length (t_projects (w_db w')) = 5%nat ∧ length (t_events (w_db w')) = 10%nat.
Proof.
  succeeds (CreateProject_spec "beta" "db" "x" db1 0 db1_wf)
    as ([n o] & w' & Hm & _ & (f & p & e & (Ho & Hn & _) & _ & -> & Hname & _ & _ & _ & _ & _ & _ & _ & Hdb) & _).
  exists (mkProjectNode p None, o), w'. split_and!; [done| |done|by rewrite Hdb|by rewrite Hdb].
  apply (org_name_unique db1); [apply db1_wf|done|right; left|done].
Defined.

Lemma UpdateProject_spec_witness : ∃ r w', UpdateProject "db" None "new text" world1 = (inr r, w') ∧
  ∃ stamp, project_row r.1 = project_described "new text" stamp acme_db ∧ t_events (w_db w') = t_events db1.
Proof.
  succeeds (UpdateProject_spec "db" None "new text" db1 0 db1_wf)
    as ([n o] & w' & Hm & _ & (p & stamp & Hp & -> & _ & Hdb) & _). eexists _, w'. split; [done|]. exists stamp.
  assert (acme_db = p) as <-; [|by rewrite Hdb]. apply Hp. split_and!; [right; left|done..].
Defined.

Lemma DeleteProject_spec_witness : ∃ w', DeleteProject "web" (Some ["beta"]) world1 = (inr (), w') ∧
  ∃ now stamp, project_deleted now stamp beta_web ∈ t_projects (w_db w') ∧ acme_web ∈ t_projects (w_db w') ∧
    length (t_events (w_db w')) = 10%nat.
Proof.
  succeeds (DeleteProject_spec "web" (Some ["beta"]) db1 0 db1_wf)
    as ([] & w' & Hm & _ & (p & now & stamp & e & Hp & _ & Hdb) & _). exists w'. split; [done|]. exists now, stamp.
  assert (beta_web = p) as <-.
  { apply Hp. split_and!; [right; right; right; left|done|done|]. exists beta. split_and!; [done|left|done]. }
  rewrite Hdb. split_and!; [right; right; right; left|left|done].
Defined.

Lemma DeleteOrg_spec_witness : ∃ w', DeleteOrg "acme" world1 = (inr (), w') ∧ db_wf (w_db w') ∧
  ∃ now stamp ps, acme_web ∈ ps ∧ acme_db ∈ ps ∧ upd_deleted now stamp acme ∈ t_orgs (w_db w') ∧
    length (t_events (w_db w')) = (9 + length ps + 1)%nat.
Proof.
  succeeds (DeleteOrg_spec "acme" db1 0 db1_wf)
    as ([] & w' & Hm & _ & (o & ps & now & stamp & projs & evs & e & (Ho & Hn & _) & _ & Hps & _ & Hevs & _ & Hdb) & Hwf).
  assert (o = acme) as ->.
  { apply (org_name_unique db1); [apply db1_wf|done|left|done]. }
  exists w'. split_and!; [done|done|]. exists now, stamp, ps. rewrite Hdb. split_and!.
  - apply Hps. split_and!; [left|done..].
  - apply Hps. split_and!; [right; left|done..].
  - left.
  - change (length (sample_events ++ evs ++ [e]) = (9 + length ps + 1)%nat). rewrite !length_app.
    apply Forall2_length in Hevs as <-. simpl. lia.
Defined.

Lemma GetEventsAfter_spec_witness : ∃ es w', GetEventsAfter 2 3 world1 = (inr es, w') ∧
  (TenancyEvent_ID <$> es) = [3; 4; 5]%Z ∧ StronglySorted id_lt es.
Proof.
  succeeds (GetEventsAfter_spec 2 3 db1 None 0 db1_wf ltac:(done))
    as (es & w' & Hm & _ & _ & -> & Hs & _). by eexists _, w'.
Defined.

Lemma MaxEventID_not_singular_witness : ∃ w', MaxEventID world1 = (inl (NotSingularError tenancyevent_Label), w').
Proof.
  fails (MaxEventID_not_singular db1 None 0)
    as (e & w' & Hm & _ & _ & [[-> _]|[msg ->]]); [by exists w'|].
  apply (f_equal fst) in Hm. vm_compute in Hm. done.
Defined.

Lemma SynthesizeReplayEvents_spec_witness : ∃ r w', SynthesizeReplayEvents world1 = (inr r, w') ∧ w_db w' = db1 ∧
  replay_of db1 r.1 ∧ max_event_id db1 r.2.
Proof.
  succeeds (SynthesizeReplayEvents_spec db1 0 db1_wf)
    as ([events maxID] & w' & Hm & Hd & _ & Hr & Hmax). exists (events, maxID), w'. split_and!; [exact Hm|exact Hd|exact Hr|exact Hmax].
Defined.

(** Another connection upserts the same key just before this one's creation: the creation is
    refused, the second update finds the row. *)
Definition racing_env (t : nat) (db : DB) : DB :=
  if (t =? 3)%nat
  then w_db (UpsertControllerStatus "ctl" "project" (u 24) StatusInProgress "theirs" (mkWorld db None 100)).2
  else db.
Definition racing_runtime : Runtime := {| rt_now := @rt_now MemRuntime; rt_uuid := @rt_uuid MemRuntime; rt_env := λ t _, racing_env t |}.
Lemma racing_others : @Others racing_runtime.
Proof.
  intros t db Hwf. simpl. unfold racing_env. destruct (t =? 3)%nat; [|done].
  destruct (wp_out _ _ _ (UpsertControllerStatus_ok "ctl" "project" (u 24) StatusInProgress "theirs" db 100 Hwf))
    as ([e|[]] & w' & -> & _ & Hr); simpl; [by rewrite Hr|]. by destruct Hr as (_ & s & _ & _ & _ & _ & _ & Hwf').
Qed.

(** A configuration with one project controller and no org controller. *)
Definition config1 : Config :=
  mkConfig "" "" (mkControllersConfig [] ["ctl"]) 0 0 "" "" "".

Lemma CleanupHardDelete_safe_witness : ∃ w', CleanupHardDelete config1 world1 = (inr (), w') ∧
  purged config1 db1 (w_db w') ∧ t_projects (w_db w') = [acme_web; acme_db; beta_web] ∧
  t_orgs (w_db w') = [acme; beta].
Proof.
  succeeds (CleanupHardDelete_safe config1 db1 0 db1_wf)
    as ([] & w' & Hm & _ & Hp & _). exists w'. split_and!; [done|done| |];
    (replace w' with (CleanupHardDelete config1 world1).2 by (unfold world1; by rewrite Hm)); vm_compute; reflexivity.
Defined.

(** Create, delete, recreate under the same name, and a controller's report. *)
Definition sample_ops : list op :=
  [OpCreateOrg "acme" "d"; OpCreateProject "acme" "web" "x"; OpDeleteProject "web" None;
   OpCreateOrg "beta" "e"; OpCreateProject "beta" "web" "y"; OpDeleteOrg "acme"; OpCreateOrg "acme" "again";
   OpUpsertStatus "ctl" "org" (u 1) StatusCompleted ""].
Lemma run_ops_store_inv_witness : ∃ w', run_ops sample_ops (mkWorld empty_db None 0) = (inr (), w') ∧
  store_inv (w_db w') ∧ length (t_orgs (w_db w')) = 2%nat ∧ length (t_projects (w_db w')) = 2%nat.
Proof.
  succeeds (run_ops_store_inv sample_ops 0)
    as ([] & w' & Hm & _ & Hinv). exists w'. split_and!; [done|done| |];
    (replace w' with (run_ops sample_ops (mkWorld empty_db None 0)).2 by (unfold world1; by rewrite Hm)); vm_compute; reflexivity.
Defined.

(** ** Rows *)

(** Every scanner takes a value of its own type or NULL. *)
#[export] Instance sample_scan : SQLScan := { sql_scan := λ ty cell,
  match ty, cell with
  | NullString, CText s => inr (VString (Some s)) | NullString, CNull => inr (VString None)
  | NullTime, CTime t => inr (VTime (Some t)) | NullTime, CNull => inr (VTime None)
  | NullInt64, CInt z => inr (VInt64 (Some z)) | NullInt64, CNull => inr (VInt64 None)
  | UUIDScanner, CUUID u => inr (VUUID u)
  | NullUUID, CUUID u => inr (VNullUUID (Some u)) | NullUUID, CNull => inr (VNullUUID None)
  | UnknownType, c => inr (VUnknown c)
  | _, _ => inl (errText "unsupported Scan")
  end }.
#[export] Instance sample_scan_laws : SQLScanLaws.
Proof. split; try done. by intros [] [] v [= <-]. Qed.

(** A deleted project, the columns in another order and one more among them. *)
Definition project_columns : list string :=
  ["count"; "folder_projects"; "deleted_at"; "id"; "name"; "created_at"; "description"; "updated_at"].
Definition old_values : list Scanned :=
  [VUnknown (CInt 3%Z); VNullUUID (Some (u 11)); VTime (Some 60%Z); VUUID (u 23); VString (Some "old"); VTime (Some 52%Z);
   VString (Some ""); VTime (Some 60%Z)].
Lemma scan_types_witness : (∃ n, assignValues EProject project_columns old_values co_zero = inr n) ∧
  ¬ ∃ n, assignValues EOrg ["name"] [VTime None] co_zero = inr n.
Proof.
  split.
  - apply (proj1 (scan_types EProject project_columns old_values co_zero)). simpl.
    repeat first [apply Forall2_nil; done | apply Forall2_cons; split; [|]].
    + by exists (CInt 3%Z).
    + by exists (CUUID (u 11)).
    + by exists (CTime 60%Z).
    + by exists (CUUID (u 23)).
    + by exists (CText "old").
    + by exists (CTime 52%Z).
    + by exists (CText "").
    + by exists (CTime 60%Z).
  - intros Hn. apply (proj1 (proj2 (scan_types EOrg ["name"] [VTime None] co_zero))) in Hn as [_ Ht].
    specialize (Ht 0%nat "name" (VTime None) eq_refl eq_refl ltac:(right; left)). discriminate Ht.
Defined.
Lemma scan_roundtrip_witness : ∃ n, assignValues EProject project_columns old_values co_zero = inr n ∧
  co_entity n = acme_old ∧ l_selected n = [("count", VUnknown (CInt 3%Z))].
Proof.
  destruct (scan_roundtrip EProject acme_old project_columns old_values) as (n & Hn & He & Hs).
  - apply (bool_decide_eq_true_1 _). vm_compute. reflexivity.
  - intros c Hc. apply (bool_decide_eq_true_1 (c ∈ project_columns)).
    repeat (apply elem_of_cons in Hc as [->|Hc]; [vm_compute; reflexivity|]). by apply elem_of_nil in Hc.
  - reflexivity.
  - assert ("count" ∉ co_columns (R:=row EProject)) as Hcount by (apply (bool_decide_eq_false_1 _); vm_compute; reflexivity).
    intros i c v Hc Hv Hin. do 8 (destruct i as [|i]; [injection Hc as <-; injection Hv as <-;
      first [by destruct Hcount | by (eexists; split)]|]). discriminate Hc.
  - exists n. split; [exact Hn|]. split; [exact He|]. rewrite Hs. reflexivity.
Defined.

(** ** Mutations *)

Definition project_calls : list ChangeOp :=
  [DoSet "name" (AString "web"); DoSet "deleted_at" (ATime 60%Z); DoSet "name" (ATime 60%Z); DoClear "deleted_at"; DoClear "name";
   DoSet "deleted_at" (ATime 70%Z); DoSet "folder" (AUUID (u 11)); DoAdd "name" (AString "x"); DoReset "name"].
Lemma mutation_refines_witness : let '(errs, c) := steps change_step project_calls (withProject acme_old (ProjectMutation_new OpUpdateOne)) in
  errs = [None; None; Some (errText "unexpected type time.Time for field name"); None;
    Some (errText "unknown Project nullable field name"); None; Some (errText "unknown Project field folder");
    Some (errText "unknown Project numeric field name"); None] ∧
  ProjectMutation_Fields c = ["deleted_at"] ∧ ProjectMutation_ClearedFields c = ["deleted_at"] ∧
  ProjectMutation_ID c = Some (Project_ID acme_old).
Proof.
  destruct (mutation_refines EProject OpUpdateOne project_calls (withProject acme_old (ProjectMutation_new OpUpdateOne)) no_changes)
    as [_ Hs]; [by destruct (represents_new (C:=ProjectChange) OpUpdateOne) as [Hf Hc Hn]; split|].
  destruct (steps change_step project_calls _) as [errs c].
  destruct (steps (spec_step (C:=change EProject)) project_calls no_changes) as [errs' s'] eqn:Hsp.
  vm_compute in Hsp. injection Hsp as <- <-. destruct Hs as (-> & _ & Hrest & Hf & Hc & _).
  split_and!; [reflexivity|exact Hf|exact Hc|exact (f_equal ProjectMutation_ID Hrest)].
Defined.

(** ** Conditions *)

Definition sample_like (op : LikeOp) (s v : string) : bool :=
  match op with
  | LikeContains => Contains s v | LikeHasPrefix => HasPrefix s v | LikeHasSuffix => HasSuffix s v
  | LikeEqualFold => EqualFold s v | LikeContainsFold => Contains (ToLower s) (ToLower v)
  end.
Fixpoint eval {e} (c : Cond e) (db : DB) : row e → option bool :=
  match c in Cond e return row e → option bool with
  | FieldCmp op column v => λ r, compare3 op (co_cell column r) v
  | FieldIn column vs => λ r, in3 (co_cell column r) vs
  | FieldNotIn column vs => λ r, not3 (in3 (co_cell column r) vs)
  | FieldLike op column v => λ r, match co_cell column r with CText s => Some (sample_like op s v) | _ => None end
  | FieldIsNull column => λ r, Some (null (co_cell column r))
  | FieldNotNull column => λ r, Some (negb (null (co_cell column r)))
  | HasNeighbors neighbor step => λ r,
      match st_Rel step with
      | M2O => Some (negb (null (own_key step r)))
      | O2M => in3 (own_key step r) (select (λ k, negb (null k)) (neighbor_key (e:=neighbor) step <$> rows (R:=row neighbor) db))
      end
  | @HasNeighborsWith _ neighbor step preds => λ r,
      in3 (own_key step r)
        (neighbor_key (e:=neighbor) step <$> select (λ r', forallb (λ p, is_true (eval p db r')) preds) (rows (R:=row neighbor) db))
  | AndPredicates ps => λ r, foldr (λ p, and3 (eval p db r)) (Some true) ps
  | OrPredicates ps => λ r, foldr (λ p, or3 (eval p db r)) (Some false) ps
  | NotPredicates p => λ r, not3 (eval p db r)
  end.
#[export] Instance sample_where : SQLWhere := { sql_like := sample_like; sql_where := @eval }.
#[export] Instance sample_where_laws : SQLWhereLaws.
Proof. by split. Qed.

(** The folders of active orgs; names that contain or do not equal; a time of deletion that is NULL. *)
Lemma where_conditions_witness :
  matching [folder_HasOrgWith [org_DeletedAtIsNil]] db1 = [folder_for 11 acme; folder_for 12 beta] ∧
  select (λ f, is_true (sql_where (where_folder_HasOrgWith [where_org_DeletedAtIsNil]) db1 f)) (t_folders db1) = [folder_for 11 acme; folder_for 12 beta] ∧
  sql_where (where_org_NameContains "cm") db1 acme = Some true ∧ sql_where (where_org_NameNEQ "acme") db1 acme = Some false ∧
  sql_where (where_project_DeletedAtLT 99%Z) db1 acme_web = None.
Proof.
  assert (∀ s, Forall2 decides (conditions s [] 0%Z [] (u 1) [] 0%Z [] [where_org_DeletedAtIsNil] [] [] EOrg (where_org_Name "") [where_org_Name ""])
    (field_tests s [] 0%Z [] (u 1) [] 0%Z [] [where_org_DeletedAtIsNil] [] [] EOrg (where_org_Name "") [where_org_Name ""])) as Htests.
  { intros s. by apply (proj1 (where_conditions s [] 0%Z [] (u 1) [] 0%Z [] [where_org_DeletedAtIsNil] [] [] eq_refl eq_refl eq_refl) EOrg). }
  assert (∀ s i c p, conditions s [] 0%Z [] (u 1) [] 0%Z [] [where_org_DeletedAtIsNil] [] [] EOrg (where_org_Name "") [where_org_Name ""] !! i = Some c →
    field_tests s [] 0%Z [] (u 1) [] 0%Z [] [where_org_DeletedAtIsNil] [] [] EOrg (where_org_Name "") [where_org_Name ""] !! i = Some p →
    sql_where c db1 acme = p db1 acme) as Htest.
  { intros s i c p Hc Hp. pose proof (Forall2_lookup_lr _ _ _ _ _ _ (Htests s) Hc Hp) as Hd. apply Hd. }
  destruct (where_conditions "" [] 0%Z [] (u 1) [] 0%Z [] [where_org_DeletedAtIsNil] [] [] eq_refl eq_refl eq_refl)
    as (_ & Horg & _ & _ & _ & _ & Hfolder & _ & Hmatch).
  assert (Forall2 (means (e:=EOrg)) [org_DeletedAtIsNil] [where_org_DeletedAtIsNil]) as Hm.
  { apply Forall2_cons. split; [|by apply Forall2_nil]. by apply (Forall2_lookup_lr _ _ _ 4 _ _ Horg). }
  specialize (Hmatch EFolder [folder_HasOrgWith [org_DeletedAtIsNil]] [where_folder_HasOrgWith [where_org_DeletedAtIsNil]] db1
    ltac:(apply Forall2_cons; split; [by apply Hfolder|by apply Forall2_nil])).
  split; [etransitivity; [exact Hmatch|vm_compute; reflexivity]|]. split; [vm_compute; reflexivity|].
  split; [etransitivity; [exact (Htest "cm" 22%nat _ _ eq_refl eq_refl)|reflexivity]|].
  split; [etransitivity; [exact (Htest "acme" 15%nat _ _ eq_refl eq_refl)|reflexivity]|]. reflexivity.
Defined.

(** ** Roles and scopes *)

(** The role check and the scope check look at different orgs: a token with a write
    role in one org only and a mere member role in another creates a project in the
    other by naming it in [?org=]. *)
Theorem write_role_of_another_org :
  hasOrgScopedRole mixed_roles [u 2] "project-write-role" = false ∧
  hasRole mixed_roles "project-write-role" = false ∧ hasRole mixed_roles "admin" = false ∧
  ∃ resp w', Router sample_handler mixed_request world1 = (inr resp, w') ∧ StatusCode resp = StatusOK ∧
    ∃ p, p ∈ t_projects (w_db w') ∧ p ∉ t_projects db1 ∧ Project_Name p = "planted" ∧
      project_org_name db1 p = Some "beta".
Proof.
  split_and!; [vm_compute; reflexivity..|].
  destruct (Router sample_handler mixed_request world1) as [res w'] eqn:Hr.
  assert (∃ resp, res = inr resp ∧ StatusCode resp = StatusOK) as (resp & -> & Hs).
  { change res with (res, w').1. rewrite <- Hr. vm_compute. eexists. split; reflexivity. }
  exists resp, w'. split_and!; [done|done|].
  assert (∃ p, last (t_projects (w_db w')) = Some p ∧ Project_Name p = "planted" ∧
    bool_decide (p ∈ t_projects db1) = false ∧ project_org_name db1 p = Some "beta") as (p & Hl & Hn & Hp & Ho).
  { change w' with (@inr error Response resp, w').2. rewrite <- Hr. vm_compute. eexists. split_and!; reflexivity. }
  exists p. split_and!; [by apply last_Some_elem_of|by apply bool_decide_eq_false in Hp|done|done].
Qed.

(** ** Updates

    The engine's statements for a specification: the columns are read into the scanners from the
    cells it asks for. *)
Definition written_row (e : Entity) (s : NodeUpdate (key e) (row e)) (r : row e) : row e :=
  let scanned c := match sql_scan (co_scan (R:=row e) c) (written s c (co_cell c r)) with inr v => v | inl _ => VUnknown CNull end in
  match assign_columns (co_assign (R:=row e)) (co_columns (R:=row e)) (scanned <$> co_columns (R:=row e)) co_zero with inr n => co_entity n | inl _ => r end.
#[export] Instance sample_updates : UpdateExec := {
  sqlgraph_UpdateNodes e s := UpdateNodes (mkUpdateSpec (nu_Predicates s) (written_row e s));
  sqlgraph_UpdateNode e s :=
    r ← UpdateNode (mkUpdateSpec (match nu_ID s with Some id => [entity_ID e id] | None => [] end ++ nu_Predicates s) (written_row e s));
    mret (read_row e (nu_Columns s) r) }.
Lemma written_row_is e (s : NodeUpdate (key e) (row e)) f :
  (∀ r c, c ∈ co_columns (R:=row e) → co_cell c (f r) = written s c (co_cell c r)) → written_row e s = f.
Proof.
  intros Hf. apply functional_extensionality. intros r. unfold written_row.
  match goal with |- context [assign_columns _ _ ?l _] =>
    destruct (assign_columns_row (R:=row e) (f r) (co_columns (R:=row e)) l co_zero) as (n & -> & Hn & _); [..|exact Hn] end.
  - destruct e; apply (bool_decide_eq_true_1 _); vm_compute; reflexivity.
  - apply Forall2_fmap_r, Forall_Forall2_diag, Forall_forall. intros c Hc _. by rewrite <- Hf, co_scanned by done.
  - done.
  - intros c Hc Hn. by destruct Hn.
Qed.
#[export] Instance sample_updates_laws : UpdateExecLaws.
Proof.
  split.
  - intros e s f w _ Hf. simpl. by rewrite (written_row_is e s f).
  - intros e s id f w _ Hid Hp _ _ Hf. simpl. by rewrite (written_row_is e s f), Hid, Hp, app_nil_r.
Qed.

(** An org is undeleted through the whole builder: the new time of creation is dropped. *)
Definition revive : OrgChange :=
  withOrg gone (OrgMutation_new OpUpdateOne) |> OrgMutation_SetDescription "back" |> OrgMutation_SetCreatedAt 99%Z
    |> OrgMutation_ClearDeletedAt |> OrgMutation_Where [org_Name "gone"].
(** A project's description: the answer of the default selection lacks the foreign key. *)
Definition describe_web : ProjectChange :=
  withProject acme_web (ProjectMutation_new OpUpdateOne) |> ProjectMutation_SetDescription "front".
Lemma update_saves_witness :
  (∃ m w, update_Save EOrg revive world1 = (inr (inr 1%nat, m), w) ∧ c_done (oc_change m) = true ∧
    t_orgs (w_db w) = [acme; beta; mkOrg (u 3) "gone" "back" 30%Z (rt_now 0) None]) ∧
  (updateOne_Save EOrg ["nickname"] revive world1).1 =
    inr (inl (ValidationError "nickname" (errText ("ent: invalid field " +:+ quote "nickname" +:+ " for query"))),
      OrgMutation_SetUpdatedAt (rt_now 0) revive) ∧
  (∃ n m w, updateOne_Save EProject [] describe_web world1 = (inr (inr n, m), w) ∧
    Project_Description (l_row n) = "front" ∧ Project_ID (l_row n) = u 21 ∧ l_fk n = None ∧ w_tx w = None).
Proof.
  destruct (update_saves EOrg revive ["nickname"] world1) as [_ [Hs Hone]]. split_and!.
  - specialize (Hs ltac:(split_and!; [split_and!; vm_compute; reflexivity|exists "description"; split; [apply (bool_decide_eq_true_1 _); vm_compute; reflexivity|done]|
      intros n Hn; apply elem_of_cons in Hn as [->|Hn]; [reflexivity|by apply elem_of_nil in Hn]])).
    eexists _, _. split; [rewrite Hs; vm_compute; reflexivity|]. vm_compute. split; reflexivity.
  - rewrite Hone. vm_compute. reflexivity.
  - destruct (update_saves EProject describe_web [] world1) as [_ [_ Hp]].
    destruct (Hp ltac:(split_and!; [vm_compute; reflexivity|exists "description"; split; [apply (bool_decide_eq_true_1 _); vm_compute; reflexivity|done]|
      intros n Hn; by apply elem_of_nil in Hn]) eq_refl ltac:(apply (bool_decide_eq_true_1 _); vm_compute; reflexivity)) as [Hrun _].
    eexists _, _, _. split; [rewrite Hrun; vm_compute; reflexivity|]. vm_compute. split_and!; reflexivity.
Defined.

(** A writer of acme. *)
Definition acme_writer : string := uuid_String (u 1) +:+ "_project-write-role".
Definition put_web : Request := request MethodPut "/v1/projects/web" acme_writer [] (BodyJSON (JObj [("description", JStr "x")])).
Definition acme_ids : list UUID := extractOrgUUIDs (extractRolesFromClaims (claims_of [acme_writer])).

Lemma put_web_claims : request_claims sample_validate put_web = Some (claims_of [acme_writer]).
Proof. vm_compute. reflexivity. Qed.
Lemma put_web_route : find_route (r_method put_web) (r_path put_web) = RouteFound EpPutProject "web" "".
Proof. vm_compute. reflexivity. Qed.

(** The writer updates web of acme; web of beta is not touched or shown. *)
Lemma tenant_isolation_witness : ∃ resp w', Router sample_handler put_web world1 = (inr resp, w') ∧
  StatusCode resp = StatusOK ∧ shows_only ["acme"] resp ∧ confined ["acme"] db1 (w_db w') ∧
  beta_web ∈ t_projects (w_db w') ∧ acme_web ∉ t_projects (w_db w').
Proof.
  assert (resolve_names (extractOrgUUIDs (extractRolesFromClaims (claims_of [acme_writer]))) (mkWorld db1 None 0) =
    (inr ["acme"], mkWorld db1 None 1)) as Hn by (vm_compute; reflexivity).
  assert ("admin" ∉ extractRolesFromClaims (claims_of [acme_writer])) as Hadmin.
  { apply (bool_decide_eq_false_1 _). vm_compute. reflexivity. }
  destruct (tenant_isolation sample_handler sample_validate EpPutProject "web" "" put_web _ db1 0 ["acme"] _
    eq_refl put_web_route eq_refl eq_refl put_web_claims Hadmin db1_wf Hn ltac:(by left)) as [_ Hwp].
  succeeds Hwp as (resp & w' & Hm & _ & Hc & Hs). exists resp, w'. split_and!; [exact Hm| |exact Hs|exact Hc| |].
  - change resp with (default internal_error (match (@inr error Response resp, w').1 with inr x => Some x | inl _ => None end)).
    rewrite <- Hm. vm_compute. reflexivity.
  - apply (cf_projects _ _ _ Hc); [|right; right; right; left].
    intros (n & Hn' & Hin%list_elem_of_singleton). subst n. vm_compute in Hn'. done.
  - assert (w' = (Router sample_handler put_web world1).2) as -> by (unfold world1; by rewrite Hm).
    apply (bool_decide_eq_false_1 _). vm_compute. reflexivity.
Defined.

(** Without a token nothing happens; with a reader's token a write is refused. *)
Lemma Router_external_guard_witness :
  (∃ msg, Router sample_handler (request MethodPut "/v1/orgs/new" "bad" [] BodyEOF) world1 =
     (inr (writeError StatusUnauthorized msg), world1)) ∧
  (∃ w', Router sample_handler (request MethodPut "/v1/orgs/new" "org-read-role" [] BodyEOF) world1 =
     (inr (writeError StatusForbidden "insufficient permissions"), w')).
Proof.
  split.
  - exact (Router_external_guard sample_handler sample_validate EpPutOrg "new" ""
      (request MethodPut "/v1/orgs/new" "bad" [] BodyEOF) world1 eq_refl eq_refl eq_refl).
  - destruct (Router_external_guard sample_handler sample_validate EpPutOrg "new" ""
      (request MethodPut "/v1/orgs/new" "org-read-role" [] BodyEOF) world1 eq_refl eq_refl eq_refl)
      as (names & w' & _ & [[Hp _]|[_ Hr]]); [|by exists w'].
    exfalso. destruct Hp as [Hp|Hp]; apply (bool_decide_eq_true_2 _) in Hp; vm_compute in Hp; done.
Defined.

Lemma Router_internal_guard_witness :
  Router sample_handler (request MethodGet "/v1/events" "" [("controller", "ctl")] BodyEOF) world1 =
    (inr (writeError StatusUnauthorized "unauthorized"), world1).
Proof.
  rewrite (Router_internal_guard sample_handler EpGetEvents "" ""
    (request MethodGet "/v1/events" "" [("controller", "ctl")] BodyEOF) world1 eq_refl eq_refl).
  vm_compute. reflexivity.
Defined.

Lemma Router_answers_witness : ∃ resp w', Router sample_handler put_web world1 = (inr resp, w') ∧ public_answer resp.
Proof. exact (Router_answers sample_handler put_web world1). Defined.

Lemma checkProjectAuthz_spec_witness :
  checkProjectAuthz [acme_writer] (extractOrgUUIDs [acme_writer]) MethodPut = true ∧
  project_role_held [acme_writer] "write" ∧ ¬ project_role_held [acme_writer] "delete".
Proof.
  assert (checkProjectAuthz [acme_writer] (extractOrgUUIDs [acme_writer]) MethodPut = true) as Hc
    by (vm_compute; reflexivity).
  split; [done|]. split.
  - apply checkProjectAuthz_spec in Hc as [(verb & Hm & Hv)|[? _]]; [|done]. repeat (apply elem_of_cons in Hm as [Hm|Hm]; [by simplify_eq|]).
    by apply elem_of_nil in Hm.
  - intros Hd. assert (checkProjectAuthz [acme_writer] (extractOrgUUIDs [acme_writer]) MethodDelete = true) as Hc'.
    { apply checkProjectAuthz_spec. left. exists "delete". split; [right; right; left|done]. }
    vm_compute in Hc'. done.
Defined.

(** Creating an org, and refusing to touch an existing one. *)
Definition put_org (name : string) (query : list (string * string)) : Request :=
  mkRequest MethodPut ("/v1/orgs/" +:+ name) name "" query [] (BodyJSON (JObj [("description", JStr "x")])) None.
Lemma CreateOrUpdateOrg_spec_witness : ∃ resp w',
  API_CreateOrUpdateOrg sample_handler (put_org "delta" []) world1 = (inr resp, w') ∧ StatusCode resp = StatusOK ∧
  ∃ o, org_created "delta" "x" db1 (w_db w') o.
Proof.
  succeeds (CreateOrUpdateOrg_spec sample_handler (put_org "delta" []) "x" db1 0 db1_wf eq_refl)
    as (resp & w' & Hm & _ & resp' & [= <-] & Hr).
  assert (StatusCode resp = StatusOK) as Hs.
  { change resp with (default internal_error (match (@inr error Response resp, w').1 with inr x => Some x | inl _ => None end)).
    rewrite <- Hm. vm_compute. reflexivity. }
  exists resp, w'. split_and!; [exact Hm|exact Hs|]. rewrite Hs in Hr.
  destruct Hr as [(o & _ & _ & [[_ (o0 & stamp & (Ho & Hn & _) & _)]|[_ Hc]])|[[? _]|(_ & ? & _)]]; [|by exists o|done..].
  exfalso. simpl in Hn. repeat (apply elem_of_cons in Ho as [->|Ho]; [done|]). by apply elem_of_nil in Ho.
Defined.

Lemma DeletionCheck_org_witness : ∃ t', DeletionCheckMiddleware (endpoint_handler sample_handler EpPutOrg)
  (put_org "gone" []) world1 = (inr marked_for_delete, mkWorld db1 None t').
Proof.
  destruct (DeletionCheck_org (endpoint_handler sample_handler EpPutOrg) (put_org "gone" []) db1 0 db1_wf
    ltac:(done) ltac:(done) eq_refl) as [[_ Hs]|[_ [Hno|(msg & w' & He)]]]; [exact Hs| |].
  - exfalso. apply Hno. exists gone. split_and!; [right; right; left|done|by eexists].
  - exfalso. apply (f_equal (λ x, is_inr x.1)) in He. vm_compute in He. done.
Defined.

Definition delete_old (org : string) : Request :=
  mkRequest MethodDelete "/v1/projects/old" "old" "" [("org", org)] [] BodyEOF None.
Lemma DeletionCheck_project_witness : ∃ t', DeletionCheckMiddleware (endpoint_handler sample_handler EpDeleteProject)
  (delete_old "acme") world1 = (inr marked_for_delete, mkWorld db1 None t').
Proof.
  pose proof (DeletionCheck_project (endpoint_handler sample_handler EpDeleteProject) (delete_old "acme") db1 0 db1_wf
    ltac:(done) ltac:(done) eq_refl eq_refl) as Hd. cbv zeta in Hd.
  destruct (decide (resolveOrgNames (delete_old "acme") = Some [])) as [?|_]; [done|].
  destruct Hd as [[_ Hs]|[_ [Hno|(msg & w' & He)]]]; [exact Hs| |].
  - exfalso. apply Hno. exists acme_old. split; [by eexists|]. intros p. split.
    + intros (Hp & Hn & _). repeat (apply elem_of_cons in Hp as [->|Hp]; [done|]). by apply elem_of_nil in Hp.
    + intros ->. split_and!; [right; right; left|done|]. exists acme. split_and!; [done|left|done].
  - exfalso. apply (f_equal (λ x, is_inr x.1)) in He. vm_compute in He. done.
Defined.

Lemma GetEvents_params_witness : ∃ msg, API_GetEvents
  (mkRequest MethodGet "/v1/events" "" "" [("controller", "ctl"); ("after", "-1")] [] BodyEOF None) world1 =
    (inr (writeError StatusBadRequest msg), world1).
Proof.
  destruct (GetEvents_params
    (mkRequest MethodGet "/v1/events" "" "" [("controller", "ctl"); ("after", "-1")] [] BodyEOF None) world1 ltac:(done))
    as [(_ & a & l & Ha & _)|[_ Hr]]; [|exact Hr].
  exfalso. vm_compute in Ha. destruct Ha as [[? _]|(_ & [= <-] & Ha)]; [done|]. by destruct Ha.
Defined.

(** Nine events, pages of four. *)
Lemma poll_complete_witness : ∃ w', poll 10 "ctl" 0 4 world1 = (inr (Some (event_response <$> sample_events, None)), w').
Proof.
  assert (∀ e, e ∈ t_events db1 → (0 <= TenancyEvent_ID e <= int64_max)%Z) as Hids.
  { intros e He. repeat (apply elem_of_cons in He as [->|He]; [by vm_compute|]). by apply elem_of_nil in He. }
  destruct (wp_out _ _ _ (poll_complete 10 "ctl" 0 4 db1 0 ltac:(done) db1_wf ltac:(lia) ltac:(done) Hids
    ltac:(vm_compute; lia))) as (r & w' & Hm & _ & _ & es & [resp|] & -> & Hr); [|subst es; by exists w'].
  exfalso. destruct Hr as (_ & _ & t & q & e & _ & Hq). discriminate Hq.
Defined.

Lemma unresolved_scope_unscoped_witness : ∃ xs w',
  API_ListProjects sample_handler (with_auth (mkAuthContext "eve" ["x"] [u 3] []) (request MethodGet "/v1/projects" "" [] BodyEOF))
    world1 = (inr (writeJSON StatusOK (ProjectsBody xs)), w') ∧ length xs = 3%nat ∧ "beta" ∈ (pr_OrgName <$> xs).
Proof.
  succeeds (unresolved_scope_unscoped sample_handler
    (with_auth (mkAuthContext "eve" ["x"] [u 3] []) (request MethodGet "/v1/projects" "" [] BodyEOF))
    (mkAuthContext "eve" ["x"] [u 3] []) db1 0 db1_wf eq_refl eq_refl eq_refl) as (resp & w' & Hm & _ & Hr).
  destruct Hr as [[= ->]|(ps & xs & [= ->] & Hnd & Hps & Hxs)].
  { exfalso. apply (f_equal (λ x, match x.1 with inr resp => StatusCode resp | inl _ => 0%Z end)) in Hm.
    vm_compute in Hm. done. }
  exists xs, w'. split; [exact Hm|].
  assert (xs = match (API_ListProjects sample_handler (with_auth (mkAuthContext "eve" ["x"] [u 3] [])
    (request MethodGet "/v1/projects" "" [] BodyEOF)) world1).1 with inr resp => shown_projects resp | inl _ => [] end) as Heq.
  { unfold world1. by rewrite Hm. }
  split; rewrite Heq; [vm_compute; reflexivity|]. apply (bool_decide_eq_true_1 _). vm_compute. reflexivity.
Defined.

(** ** The configuration *)

Definition pg_environment (password name : string) : string :=
  if String.eqb name "PGHOST" then "db" else if String.eqb name "PGUSER" then "tm"
  else if String.eqb name "PGPASSWORD" then password else "".
Definition load_with (password : string) : error + Config :=
  Load (pg_environment password) (λ _, inr "") (λ _ c, inr c) "/etc/tm.yaml".
Lemma RedactedDatabaseURL_hides_witness : ∃ c c', load_with "p@ss/word?" = inr c ∧ load_with "" = inr c' ∧
  RedactedDatabaseURL Some c = "postgres://tm:%2A%2A%2A@db:5432/tenancy?sslmode=disable" ∧
  RedactedDatabaseURL Some c' = RedactedDatabaseURL Some c.
Proof.
  pose proof (RedactedDatabaseURL_hides Some (pg_environment "p@ss/word?") (pg_environment "") (λ _, inr "") (λ _ c, inr c)
    "/etc/tm.yaml") as Hr. unfold load_with. destruct (Load (pg_environment "p@ss/word?") _ _ _) as [err|c] eqn:Hc; [vm_compute in Hc; discriminate Hc|].
  destruct Hr as (c' & Hc' & _ & Hsame & Hval).
  - intros name Hne. unfold pg_environment. by destruct (String.eqb_spec name "PGPASSWORD").
  - exists c, c'. split; [reflexivity|]. split; [exact Hc'|]. split; [|exact Hsame].
    rewrite Hval by (vm_compute; discriminate). vm_compute. reflexivity.
Defined.
