(* ===== verification/WitnessTenant.v ===== *)
(** * The theorems on tokens, Keycloak and the bootstrap at work

    A realm in memory for the Keycloak controller and keys for the validator; a cluster with a
    Keycloak and random bytes for the bootstrap ([SampleCluster]). *)

From S2P Require Import Prelude GoStd Monad EntSchema Sqlgraph EntQuery EntMutation Config Status.
From S2P Require Import Store Memdb Backend Http Logic Auth AuthSpec Jwt Keycloak KeycloakSpec.
From S2P Require Import KeycloakDelete TenantRoles Base64 Bootstrap BootstrapSpec BootstrapRun.
From S2P Require Import Sample SampleCluster.

(** ** A realm in memory: a new group's ID is longer than all others *)

Definition conflict : error := errText "409 Conflict".
Definition mem_create_role (_ : nat) (rl : Realm) (r : string) : option error * Realm :=
  if existsb (String.eqb r) (rl_roles rl) then (Some conflict, rl)
  else (None, mkRealm (rl_roles rl ++ [r]) (rl_groups rl) (rl_mapped rl)).
Definition fresh_id (groups : list GroupRepresentation) : string := foldr (λ g acc, Group_ID g +:+ acc) "#" groups.
Lemma fresh_id_new groups g : g ∈ groups → Group_ID g ≠ fresh_id groups.
Proof.
  intros Hg Heq. assert (String.length (Group_ID g) < String.length (fresh_id groups))%nat; [|rewrite Heq in *; lia].
  clear Heq. induction Hg as [g groups|g g' groups Hg IH]; simpl; rewrite str_len_app; [|lia].
  induction groups as [|g' groups IH]; simpl; rewrite ?str_len_app; lia.
Qed.
Definition mem_create_group (_ : nat) (rl : Realm) (n : string) : option error * Realm :=
  if existsb (λ g, String.eqb (Group_Name g) n) (rl_groups rl) then (Some conflict, rl)
  else (None, mkRealm (rl_roles rl) (rl_groups rl ++ [mkGroup (fresh_id (rl_groups rl)) n]) (rl_mapped rl)).
Definition MemGocloak : Gocloak := {|
  kc_GetKeycloakAuthToken := λ _, inr "jwt";
  kc_GetRealm := λ _ _, inr (Some (Some true));
  kc_CreateRealmRole := mem_create_role;
  kc_GetRealmRoles := λ _ rl, inr (rl_roles rl);
  kc_DeleteRealmRole := λ _ rl r,
    (None, mkRealm (select (λ x, negb (String.eqb x r)) (rl_roles rl)) (rl_groups rl)
             (select (λ x, negb (String.eqb x.2 r)) (rl_mapped rl)));
  kc_CreateGroup := mem_create_group;
  kc_GetGroups := λ _ rl s, inr (match s with
    | None => rl_groups rl
    | Some n => select (λ g, Contains (Group_Name g) n) (rl_groups rl)
    end);
  kc_DeleteGroup := λ _ rl id,
    (None, mkRealm (rl_roles rl) (select (λ g, negb (String.eqb (Group_ID g) id)) (rl_groups rl))
             (select (λ x, negb (String.eqb x.1 id)) (rl_mapped rl)));
  kc_AddRealmRoleToGroup := λ _ rl id rs,
    (None, mkRealm (rl_roles rl) (rl_groups rl) (rl_mapped rl ++ ((λ r, (id, r)) <$> rs)));
  range_order := λ t g, if Nat.even t then g else rev g |}.
#[local] Existing Instance MemGocloak.

#[local] Instance MemGocloak_laws : GocloakLaws.
Proof.
  split; simpl.
  - by intros t rl l [= ->].
  - by intros t rl l [= ->].
  - intros t rl n l [= <-] g [? _]%elem_of_select. done.
  - intros t rl r e rl'. unfold mem_create_role. destruct (existsb _ _); intros [= <- <-]; [naive_solver|].
    simpl. set_solver.
  - intros t rl n e rl'. unfold mem_create_group. destruct (existsb _ _); intros [= <- <-]; [naive_solver|].
    simpl. split_and!; [done|done|set_solver|]. intros g [?| ->%list_elem_of_singleton]%elem_of_app; auto.
  - intros t rl id rs e rl' [= <- <-]. simpl. split_and!; [done|done|set_solver|].
    intros x [?|(r & -> & ?)%list_elem_of_fmap]%elem_of_app; auto.
  - intros t rl r e rl' [= <- <-]. simpl. split_and!; [done| |].
    + intros x [? ?%negb_true_iff%String.eqb_neq]%elem_of_select. done.
    + intros x ? ?. apply elem_of_select. split; [done|]. by apply negb_true_iff, String.eqb_neq.
  - intros t rl id e rl' [= <- <-]. simpl. split_and!; [done| |].
    + intros x [? ?%negb_true_iff%String.eqb_neq]%elem_of_select. done.
    + intros x ? ?. apply elem_of_select. split; [done|]. by apply negb_true_iff, String.eqb_neq.
  - intros t rl n e rl'. unfold mem_create_group. destruct (existsb _ _) eqn:He; intros [= <- <-]; [done|]. simpl.
    intros Hnd. rewrite fmap_app. apply NoDup_app. split_and!; [done| |apply NoDup_singleton].
    intros x (g & -> & Hg)%list_elem_of_fmap Hx%list_elem_of_singleton. by apply (fresh_id_new _ g Hg).
  - intros t rl id e rl' [= <- <-]. simpl. apply NoDup_fmap_select.
  - intros t g. destruct (Nat.even t); [done|]. symmetry. apply Permutation_rev.
Qed.
#[local] Instance MemGocloak_works realm : WorkingServer realm.
Proof.
  split; simpl; intros.
  - by exists "jwt".
  - done.
  - by eexists.
  - by eexists.
  - eexists. split; [done|]. intros g Hg <-. apply elem_of_select. split; [done|apply Contains_self].
  - unfold mem_create_role. destruct (existsb _ _) eqn:He; eexists _, _; (split; [done|]); split.
    + apply existsb_exists in He as (x & Hx%list_elem_of_In & ->%String.eqb_eq). done.
    + by intros err [= <-].
    + simpl. set_solver.
    + done.
  - unfold mem_create_group. destruct (existsb _ _) eqn:He; eexists _, _; (split; [done|]); split.
    + apply existsb_exists in He as (x & Hx%list_elem_of_In & ?%String.eqb_eq). eauto.
    + by intros err [= <-].
    + exists (mkGroup (fresh_id (rl_groups rl)) n). simpl. split; [set_solver|done].
    + done.
  - eexists. split; [done|]. intros r Hr. simpl. apply elem_of_app. right. by apply list_elem_of_fmap_2.
Qed.

(** The templates of the chart, abridged. *)
Definition org_templates : Groups :=
  [("<org-id>_Project-Manager-Group", ["<org-id>_project-read-role"; "<org-id>_project-write-role"]);
   ("org-admins", ["org-read-role"])].
Definition project_templates : Groups :=
  [("<project-id>_Edge-Operator-Group", ["<org-id>_<project-id>_m"; "<project-id>_cat-r"])].
Definition kclient1 : KClient := mkKClient org_templates project_templates [] "master".
Definition org1 : string := uuid_String (u 1).
Definition org2 : string := uuid_String (u 2).
(** the realm has the org [org2] already *)
Definition realm1 : Realm :=
  mkRealm [org2 +:+ "_project-read-role"; "org-read-role"] [mkGroup "g2" (org2 +:+ "_Project-Manager-Group")] [].
Definition kworld1 : KWorld := mkKWorld realm1 0.

Lemma createRolesAndGroups_confined_witness : ∃ w', createRolesAndGroups kclient1 org1 "" org_templates kworld1 = (inr (), w') ∧
  grown (tenant_groups org1 "" org_templates) (tenant_roles org1 "" org_templates) realm1 (k_realm w').
Proof.
  succeeds (createRolesAndGroups_confined kclient1 org1 "" org_templates kworld1) as ([] & w' & Hm & Hg).
  exists w'. split; [exact Hm|exact Hg].
Defined.

Lemma createRolesAndGroups_verified_witness : ∃ w', createRolesAndGroups kclient1 org1 "" org_templates kworld1 = (inr (), w') ∧
  tenant_present org1 "" org_templates (k_realm w').
Proof.
  succeeds (createRolesAndGroups_verified kclient1 org1 "" org_templates kworld1) as ([] & w' & Hm & Hg).
  exists w'. split; [exact Hm|by apply Hg].
Defined.

Lemma createRolesAndGroups_works_witness : ∃ w', createRolesAndGroups kclient1 org1 "" org_templates kworld1 = (inr (), w') ∧
  tenant_mapped org1 "" org_templates (k_realm w').
Proof.
  assert (tenant_named org1 "" org_templates) as Hne.
  { intros g [->|[->|[]%elem_of_nil]%elem_of_cons]%elem_of_cons; (split; [vm_compute; discriminate|]);
      cbn [snd]; intros r Hr; repeat (apply elem_of_cons in Hr as [->|Hr]; [vm_compute; discriminate|]);
      by apply elem_of_nil in Hr. }
  destruct (createRolesAndGroups_works kclient1 org1 "" org_templates kworld1 Hne) as [_ Hwp].
  succeeds Hwp as ([] & w' & Hm & _ & Hg). exists w'. split; [exact Hm|exact Hg].
Defined.

Lemma realm1_ids : NoDup (Group_ID <$> rl_groups realm1).
Proof. apply NoDup_singleton. Qed.

(** Deleting the second org leaves nothing of it. *)
Lemma deleteRolesAndGroups_spec_witness : ∃ w', deleteRolesAndGroups kclient1 org2 kworld1 = (inr (), w') ∧
  "org-read-role" ∈ rl_roles (k_realm w') ∧ (∀ x, x ∈ rl_roles (k_realm w') → Contains x org2 = false) ∧
  ∀ g, g ∈ rl_groups (k_realm w') → Contains (Group_Name g) org2 = false.
Proof.
  succeeds (deleteRolesAndGroups_spec kclient1 org2 kworld1 realm1_ids) as ([] & w' & Hm & Hs & Hno).
  destruct (Hno eq_refl) as [Hr Hg]. exists w'. split_and!; [exact Hm| |exact Hr|exact Hg].
  apply (sh_roles_kept _ _ _ Hs); [right; left|vm_compute; reflexivity].
Defined.

Lemma already_exists_by_name_witness :
  isErrorForAlreadyExists (Errorv ("failed to create role " +:+ "4f40990a-_project-read-role" +:+ " in realm " +:+ "master" +:+ ": ")
    (errText "500 Internal Server Error")) = true ∧
  isErrorForAlreadyExists (errText "500 Internal Server Error") = false.
Proof.
  split; [|vm_compute; reflexivity].
  apply (already_exists_by_name "master" "4f40990a-_project-read-role" (errText "500 Internal Server Error")).
  vm_compute. reflexivity.
Defined.

Lemma tenant_roles_recognised_witness :
  projectRoleRegex (instantiate "ab-1" "cd-2" "<org-id>_project-write-role") = Some "ab-1" ∧
  memberRoleRegex (instantiate "ab-1" "cd-2" "<org-id>_<project-id>_m") = Some "ab-1".
Proof.
  apply (tenant_roles_recognised "ab-1" "cd-2" "write" "m"); [split; done|split; done|set_solver|set_solver].
Defined.

Lemma org_created_grants_witness : ∃ w', HandleEvent kclient1 (org_event_of "created" (u 1) "acme") kworld1 = (inr (), w') ∧
  ∃ role, role ∈ rl_roles (k_realm w') ∧
    checkProjectAuthz [role] (extractOrgUUIDs [role]) MethodPut = true ∧
    checkProjectAuthz [role] (extractOrgUUIDs [role]) MethodGet ≠ true.
Proof.
  succeeds (org_created_grants kclient1 (u 1) "acme" "<org-id>_Project-Manager-Group"
    ["<org-id>_project-read-role"; "<org-id>_project-write-role"] "write" kworld1 ltac:(left)
    ltac:(right; left) ltac:(set_solver)) as ([] & w' & Hm & Hg).
  exists w'. split; [exact Hm|]. destruct (Hg eq_refl) as (role & Hr & _ & _ & Hall).
  clear Hm Hg. exists role. split; [exact Hr|]. split.
  - apply (proj1 (Hall MethodPut)). right. left.
  - intros Hget%(proj1 (Hall MethodGet)). repeat (apply elem_of_cons in Hget as [[=]|Hget]).
    exact (proj1 (elem_of_nil _) Hget).
Defined.

Lemma org_deleted_revokes_witness : ∃ w', HandleEvent kclient1 (org_event_of "deleted" (u 2) "beta") kworld1 = (inr (), w') ∧
  hasOrgScopedRole (rl_roles realm1) [u 2] "project-read-role" = true ∧
  hasOrgScopedRole (rl_roles (k_realm w')) [u 2] "project-read-role" = false.
Proof.
  destruct (HandleEvent kclient1 (org_event_of "deleted" (u 2) "beta") kworld1) as [r w'] eqn:Hm.
  pose proof (org_deleted_revokes kclient1 (u 2) "beta" (rl_roles (k_realm w')) "project-read-role" kworld1 realm1_ids) as Hwp.
  apply (proj1 (wp_run _ _ _ _ _ Hm)) in Hwp.
  assert (r = inr ()) as ->.
  { change r with (r, w').1. rewrite <- Hm. vm_compute. reflexivity. }
  exists w'. split_and!; [done|vm_compute; reflexivity|]. by apply Hwp.
Defined.

(** ** A table of tokens *)

Definition hs_token : Token := mkToken "HS256" [("kid", JStr "k1")].
Definition rs_token : Token := mkToken "RS256" [("kid", JStr "k1")].
Definition token_of (s : string) : option Token :=
  if String.eqb s "hs" then Some hs_token else if String.eqb s "rs" then Some rs_token else None.
Definition table_claims : MapClaims := [("preferred_username", JStr "eve")].
Definition TableJWT : JWTLib := {|
  RSAPublicKey := string;
  JWKPublicKey := string;
  ParseWithClaims := λ s kf v,
    match token_of s with
    | None => (inl (errText "token is malformed"), v)
    | Some tok => match kf tok v with
                  | (inl e, v) => (inl e, v)
                  | (inr key, v) => if String.eqb key "good" then (inr table_claims, v)
                                    else (inl (errText "signature is invalid"), v)
                  end
    end;
  parsed := λ s tok, token_of s = Some tok;
  verifies := λ s key claims, key = "good" ∧ claims = table_claims;
  ParseRSAPublicKeyFromPEM := inr;
  MarshalPKIXPublicKey := inr;
  EncodeToMemory := λ _ der, der;
  http_Get := λ _ _, inr (mkHTTPResponse 200 (inr "body"));
  Unmarshal_provider := λ _, inr "http://keycloak/certs";
  Unmarshal_JWKS := λ _, inr [mkJSONWebKey "k1" "good"; mkJSONWebKey "k2" "other"] |}.
#[local] Existing Instance TableJWT.
#[local] Instance TableJWT_laws : JWTLibLaws.
Proof.
  split; simpl; intros s kf v x v'; destruct (token_of s) as [tok|]; try done.
  - destruct (kf tok v) as [[e|key] v1] eqn:Hk; [done|]. destruct (String.eqb_spec key "good"); [|done].
    intros [= <- <-]. exists tok, key. by rewrite Hk.
  - destruct (kf tok v) as [[e|key] v1] eqn:Hk; [|destruct (String.eqb key "good"); [done|]];
      intros [= <- <-]; right; exists tok; by rewrite Hk.
  - intros [= <- <-]. by left.
Qed.
Definition validator1 : JWTValidator := mkJWTValidator "http://keycloak/realms/master" ∅ 0.

(** The RSA token is accepted after a refresh; the HMAC one never is. *)
Lemma Validate_asymmetric_witness : ∃ v', Validate "rs" validator1 = (inr table_claims, v') ∧
  publicKeys v' !! "k1" = Some "good" ∧ v' = (refreshKeys validator1).2 ∧
  ∃ e v'', Validate "hs" validator1 = (inl e, v'').
Proof.
  destruct (Validate "rs" validator1) as [r v'] eqn:Hv.
  assert (r = inr table_claims) as ->.
  { change r with (r, v').1. rewrite <- Hv. vm_compute. reflexivity. }
  destruct (Validate_asymmetric "rs" validator1 table_claims v' Hv)
    as (tok & kid & pem & key & Htok & _ & Hkid & Hpem & Hkey & [-> _] & Hst).
  injection Htok as <-. injection Hkid as <-. injection Hkey as ->.
  exists v'. split_and!; [done|done| |].
  - destruct Hst as [->|[_ ->]]; [|done]. vm_compute in Hpem. done.
  - eexists _, _. reflexivity.
Defined.

Lemma refreshKeys_all_or_nothing_witness : ∃ v', refreshKeys validator1 = (inr (), v') ∧ (v_calls v' ≤ 2)%nat ∧
  publicKeys v' !! "k2" = Some "other".
Proof.
  destruct (refreshKeys validator1) as [r v'] eqn:Hv.
  assert (r = inr () ∧ publicKeys v' !! "k2" = Some "other") as [-> Hk].
  { change r with (r, v').1. change v' with (r, v').2 at 2. rewrite <- Hv. split; vm_compute; reflexivity. }
  destruct (refreshKeys_all_or_nothing validator1 (inr ()) v' Hv) as (_ & Hc & _).
  exists v'. done.
Defined.

#[local] Instance SlowClock : Runtime := {|
  rt_now := λ t, (Z.of_nat t * defaultStatusPoll)%Z;
  rt_uuid := λ t, uuid_of_N (N.of_nat t);
  rt_env := λ _ _ db, db |}.

Definition sample_env (key : string) : option string :=
  if String.eqb key "BOOTSTRAP_TENANT_ADMIN_ENABLED" then Some " True "
  else if String.eqb key "KUBERNETES_SERVICE_HOST" then Some "10.0.0.1"
  else if String.eqb key "KUBERNETES_SERVICE_PORT" then Some "443"
  else if String.eqb key "PROJECT_EDGE_GROUPS" then Some "Edge-Manager-Group, Host-Manager-Group"
  else None.
#[local] Instance SampleOS : OS := {|
  os_LookupEnv := sample_env;
  os_ReadFile := λ f, inr (if String.eqb f saNamespaceFile then "orch-iam" else "token");
  x509_AppendCertsFromPEM := λ _, true |}.
Definition bcfg1 : BootConfig := Eval vm_compute in LoadBootConfig.

(** [refuse] picks the calls that fail. *)
Definition SampleNet (refuse : nat → bool) : Net :=
  MemNet (KeycloakBaseURL bcfg1) (bc_KeycloakRealm bcfg1) kube_host refuse.
#[local] Instance UpNet : Net := SampleNet (λ _, false).
#[local] Instance SampleNet_random refuse : Random (H:=SampleNet refuse).
Proof. apply MemNet_random. Qed.
#[local] Instance SampleNet_laws refuse :
  ClusterLaws (H:=SampleNet refuse) (KeycloakBaseURL bcfg1) (bc_KeycloakRealm bcfg1) kube_host.
Proof. by apply MemNet_laws. Qed.
#[local] Instance SampleNet_ticker refuse : TickerLaw (H0:=SampleNet refuse).
Proof.
  intros t0 waits t Ht Hnd Hw. simpl.
  assert (length waits <= t - t0)%nat as Hlen; [|unfold defaultStatusPoll; lia].
  rewrite <- (length_seq (t - t0) t0). apply submseteq_length, NoDup_submseteq; [done|].
  intros u Hu. rewrite Forall_forall in Hw. destruct (Hw u Hu) as [? _]. apply elem_of_seq. lia.
Qed.
#[local] Instance bcfg1_clean : CleanNames bcfg1.
Proof. unfold CleanNames. repeat constructor. Qed.

(** ** The worlds *)

Definition ctl_status (n : Z) (rt : string) (id : UUID) (s : string) : ControllerStatus :=
  mkControllerStatus n "ctl" rt id s "" 55%Z.
Definition config_ctl : Config := mkConfig "" "" (mkControllersConfig ["ctl"] ["ctl"]) 0 0 "" "" "".
Definition db_with (org_status : string) : DB :=
  mkDB (t_orgs db1) (t_folders db1) (t_projects db1) (t_events db1)
    [ctl_status 1 "org" (u 1) org_status; ctl_status 2 "project" (u 21) "STATUS_INDICATION_IDLE"].
Definition alice : KUser := mkKUser "a1" "alice" (Some "secret") [].
Definition group_for (id : UUID) (name gid : string) : string * string := ("/" +:+ uuid_String id +:+ "_" +:+ name, gid).
Definition cluster1 : Cluster := mkCluster [alice]
  [group_for (u 1) "Project-Manager-Group" "g1"; group_for (u 21) "Edge-Manager-Group" "g2";
   group_for (u 21) "Host-Manager-Group" "g3"]
  {[("orch-platform", "platform-keycloak") := {["admin-password" := EncodeToString "hunter2"]}]}.
Definition bworld (org_status : string) (cl : Cluster) : BWorld := mkBWorld (mkWorld (db_with org_status) None 0) cl.

Definition hook `{Net} (w : BWorld) : (error + option ()) * BWorld := Run config_ctl bcfg1 "acme" "web" w.

Lemma cluster1_wf : cluster_wf cluster1.
Proof.
  split_and!; [by apply (bool_decide_eq_true_1 _)|..].
  - intros row ->%list_elem_of_singleton. reflexivity.
  - intros g Hg. repeat (apply elem_of_cons in Hg as [->|Hg]; [reflexivity|]). by apply elem_of_nil in Hg.
Qed.

Lemma GeneratePassword_spec_witness :
  ∃ pw w', GeneratePassword (bworld "" cluster1) = (inr pw, w') ∧ strong pw.
Proof.
  succeeds (GeneratePassword_spec (bworld "" cluster1)) as (pw & w' & Hrun & _ & Hpw). exists pw, w'. split; [exact Hrun|exact Hpw].
Defined.

(** The controller stays busy: the hook gives up after five minutes. *)
Definition busy : BWorld := bworld StatusInProgress cluster1.
Lemma Run_returns_witness : is_inr (hook busy).1 = false ∧ (hook busy).1 ≠ inr None.
Proof. split; [vm_compute; reflexivity|]. exact (Run_returns config_ctl bcfg1 "acme" "web" busy eq_refl). Defined.

(** The controllers are idle: the tenant admin is created and joins its three groups. *)
Definition quiet_world : BWorld := bworld "STATUS_INDICATION_IDLE" cluster1.
Lemma Run_spec_witness : ∃ w' orgID projID, hook quiet_world = (inr (Some ()), w') ∧
  touched "tenant-admin" ("orch-iam", "tenant-admin-password") cluster1 (b_net w') ∧
  provisioned bcfg1 orgID projID cluster1 (b_net w').
Proof.
  pose proof (Run_spec config_ctl bcfg1 "acme" "web" quiet_world eq_refl cluster1_wf) as Hwp.
  apply wp_out in Hwp as (r & w' & Hrun & _ & _ & Ht & _ & Hok).
  assert (r = inr (Some ())) as Hr.
  { pose proof (f_equal fst Hrun) as Hf. simpl in Hf. rewrite <- Hf. vm_compute. reflexivity. }
  destruct (Hok Hr) as [Hskip|(orgID & projID & _ & Hp)]; [vm_compute in Hskip; discriminate Hskip|].
  exists w', orgID, projID. split; [rewrite <- Hr; exact Hrun|]. split; [exact Ht|exact Hp].
Defined.

(** The secret is there from an earlier installation, the call that sets the password of
    the new user fails, and the pod starts again: the hook succeeds, the user has no
    password. *)
Definition cluster2 : Cluster := mkCluster (cl_users cluster1) (cl_groups cluster1)
  (<[("orch-iam", "tenant-admin-password") := {["admin-password" := EncodeToString "kept"]}]> (cl_secrets cluster1)).
Definition crashed : BWorld :=
  (hook (H:=SampleNet (Nat.eqb 14)) (bworld "STATUS_INDICATION_IDLE" cluster2)).2.
Definition admin_row : KUser := mkKUser "uuu" "tenant-admin" None [].
Lemma crashed_cluster : b_net crashed = mkCluster [alice; admin_row] (cl_groups cluster2) (cl_secrets cluster2).
Proof. vm_compute. reflexivity. Qed.

Lemma existing_user_is_trusted_witness :
  (hook crashed).1 = inr (Some ()) ∧
  ku_Password <$> cl_users (b_net (hook crashed).2) = [Some "secret"; None] ∧
  ∃ r w', ensureUserAndPassword (mkKeycloakClient (KeycloakBaseURL bcfg1) (bc_KeycloakRealm bcfg1) "token")
            (mkKubeClient kube_host "token" "orch-iam") bcfg1 "acme" "orch-iam" crashed = (r, w') ∧
          b_net w' = b_net crashed.
Proof.
  split; [vm_compute; reflexivity|]. split; [vm_compute; reflexivity|].
  assert (cluster_wf (b_net crashed)) as Hwf.
  { rewrite crashed_cluster. destruct cluster1_wf as (_ & _ & Hg). split; [by apply (bool_decide_eq_true_1 _)|].
    split; [|exact Hg]. intros row [->|[->|[]%elem_of_nil]%elem_of_cons]%elem_of_cons; reflexivity. }
  pose proof (existing_user_is_trusted (KeycloakBaseURL bcfg1) (bc_KeycloakRealm bcfg1) kube_host "token" "token" "orch-iam"
    bcfg1 "acme" "orch-iam" eq_refl eq_refl crashed admin_row "kept" Hwf) as Hwp.
  apply wp_out in Hwp as (r & w' & Hrun & Hnet & _).
  - exists r, w'. split; [exact Hrun|exact Hnet].
  - rewrite crashed_cluster. right. left.
  - reflexivity.
  - vm_compute. reflexivity.
Defined.
