(* ===== verification/WitnessServices.v ===== *)
(** * The forward-auth service and Vault's initialisation at work

    A token library whose tokens are the comma-separated roles of the header, a transport
    that delivers every request, and the theorems of AuthServiceSpec.v and ResolverSpec.v on
    concrete executions and requests.  Then a Vault and a Kubernetes API in memory whose waiting
    calls fail before call [up], and the theorems of SecretsSpec.v instantiated on them. *)

From S2P Require Import Prelude GoStd Monad EntSchema Sqlgraph EntQuery EntMutation Config Status Store Memdb.
From S2P Require Import Logic EntSpec Wf EntLoad StoreOrg StoreProject Backend Http Auth Api AuthSpec ApiGuard.
From S2P Require Import ApiScope Sample AuthService AuthServiceSpec ResolverSpec Retry Secrets.
From S2P Require Import SecretsSpec.
From Stdlib Require Import Ascii.

(** ** The parameters *)

Definition parse_sample (key : string) (_ : ()) (_ : Time) (r : AuthRequest) : error + string :=
  match strip "Bearer " (Get (aq_Header r) key) with
  | Some token => if String.eqb token "bad" then inl (errText "invalid") else inr token
  | None => inl (errText "no token")
  end.
#[export] Instance sample_tokens : TokenLib := {|
  KeySet := (); Token := string;
  jwt_ParseRequest := parse_sample;
  jwt_Marshal := inr;
  gjson_Get_String := λ payload role, if mem_string role (Split payload ",") then "found" else "" |}.

Definition sample_keys : KeySet := ().

Definition tm_base : string := "http://tenancy-manager:8080".
(** The path chi routes by: [RawPath], or [Path] where that is empty. *)
Definition routed_path (p : string) : string :=
  match set_encoded encodePath p with
  | Some (path, rawPath) => if String.eqb rawPath "" then path else rawPath
  | None => p
  end.
#[export] Instance sample_transport : Transport := {|
  tp_NewRequest := λ _, None;
  tp_receive := λ q, mkRequest (hq_Method q) (routed_path (default "" (strip tm_base (hq_URL q)))) "" "" [] (hq_Header q) BodyEOF None;
  tp_fate := λ _ _, Delivered;
  tp_json_Time := JNum;
  tp_json_error := λ _, errText "json" |}.
Lemma url_unescape_plain s t : all_chars (λ c, negb (Ascii.eqb c "%")) s = true →
  url_unescape (s +:+ t) = String.append s <$> url_unescape t.
Proof.
  induction s as [|c s IH]; intros Hs; [change ("" +:+ t) with t; by destruct (url_unescape t)|]. cbn [all_chars] in Hs.
  apply andb_true_iff in Hs as [Hc%negb_true_iff Hs]. change (String c s +:+ t) with (String c (s +:+ t)).
  cbn [url_unescape]. rewrite Hc, (IH Hs). by destruct (url_unescape t).
Qed.
Lemma routed_path_segment name :
  routed_path ("/v1/projects/" +:+ url_escape encodePathSegment name) = "/v1/projects/" +:+ routed_segment name.
Proof.
  unfold routed_path, set_encoded.
  assert (url_unescape ("/v1/projects/" +:+ url_escape encodePathSegment name) = Some ("/v1/projects/" +:+ name)) as ->.
  { by rewrite url_unescape_plain, url_unescape_escape by done. }
  cbv beta iota delta [mbind option_bind].
  change (url_escape encodePath ("/v1/projects/" +:+ name)) with ("/v1/projects/" +:+ url_escape encodePath name).
  assert (∀ s t, String.eqb ("/v1/projects/" +:+ s) ("/v1/projects/" +:+ t) = String.eqb s t) as -> by (intros; reflexivity).
  unfold routed_segment. cbv zeta.
  destruct (String.eqb (url_escape encodePathSegment name) (url_escape encodePath name)); reflexivity.
Qed.
#[export] Instance sample_transport_laws : TransportLaws tm_base.
Proof.
  split. intros method name header. cbn [tp_receive sample_transport hq_URL hq_Method hq_Header].
  rewrite (proj2 (strip_spec _ _ _) eq_refl).
  exact (f_equal (λ p, mkRequest method p "" "" [] header BodyEOF None) (routed_path_segment name)).
Qed.

(** ** /verifyall *)

Definition roles_file : string := "admin" +:+ newline +:+ "{projectId}_tc-r".
Definition caller : AuthRequest := mkAuthRequest [("Authorization", "Bearer p1_tc-r")] "/verifyall".
(** The project p1 is announced, then withdrawn while the request is on its way. *)
Definition announce : list Label :=
  Fetch <$> [EvNotDone; EvStreamOpened;
    EvReceived [mkProjectUpdate "p1" (Some "Created"); mkProjectUpdate "p2" (Some "Deleted")];
    EvSet; EvUpdated; EvReceived [mkProjectUpdate "p1" (Some "Deleted")]; EvSet].
Definition answers_in_turn : list Label :=
  announce ++ Verify 0%Z caller answer_ok :: [Fetch EvUpdated; Verify 1%Z caller (http_Error "Invalid claims" StatusForbidden)].

#[local] Instance Answer_eq_dec : EqDecision Answer.
Proof. solve_decision. Defined.
(** Running a list of labels. *)
Definition run_label (s : Service) (l : Label) : option Service :=
  match l with
  | Fetch ev => '(pc, rs) ← fetch_step ev (sv_pc s) (sv_rs s); Some (mkService rs pc)
  | Verify now r a => if decide (NewHandler sample_keys (sv_rs s) now r = a) then
                        match sv_pc s with Panicked => None | _ => Some s end else None
  end.
Fixpoint run_labels (s : Service) (tr : list Label) : option Service :=
  match tr with [] => Some s | l :: tr => s ← run_label s l; run_labels s tr end.
Lemma run_label_step s l s' : run_label s l = Some s' → service_step sample_keys s l s'.
Proof.
  destruct l as [ev|now r a]; simpl.
  - destruct (fetch_step ev _ _) as [[pc rs]|] eqn:Hf; simpl; [|done]. intros [= <-]. by constructor.
  - case_decide as Ha; [|done]. intros Hs. subst a. destruct (sv_pc s) eqn:Hpc; simplify_eq; constructor; congruence.
Qed.
Lemma run_labels_exec s tr0 s1 tr s' : exec sample_keys s tr0 s1 → run_labels s1 tr = Some s' → exec sample_keys s (tr0 ++ tr) s'.
Proof.
  revert tr0 s1. induction tr as [|l tr IH]; intros tr0 s1 Hx; simpl.
  { intros [= <-]. by rewrite app_nil_r. }
  destruct (run_label s1 l) as [s2|] eqn:Hl; simpl; [|done]. intros Hr.
  rewrite (cons_middle l tr0 tr), app_assoc. eapply IH; [|done]. econstructor; [done|by apply run_label_step].
Qed.

Lemma verify_by_last_update_witness :
  holds_role (Split roles_file "010") (applied announce) ("p1_tc-r" : Token) ∧
  ¬ holds_role (Split roles_file "010") (applied (announce ++ [Verify 0%Z caller answer_ok; Fetch EvUpdated])) ("p1_tc-r" : Token).
Proof.
  assert (∃ s, exec sample_keys (auth_main roles_file) answers_in_turn s) as [s Hx].
  { eexists. apply (run_labels_exec _ [] _ answers_in_turn _ (exec_nil _ _)). vm_compute. reflexivity. }
  split.
  - apply (verify_by_last_update sample_keys roles_file announce 0%Z caller answer_ok _ s Hx). reflexivity.
  - apply (verify_by_last_update sample_keys roles_file (announce ++ [Verify 0%Z caller answer_ok; Fetch EvUpdated])
      1%Z caller (http_Error "Invalid claims" StatusForbidden) [] s Hx). reflexivity.
Defined.

(** ** /resolveproject *)

(** A reader of acme asks for web, of which beta has one too; the answer is that of acme. *)
Definition acme_reader : string := uuid_String (u 1) +:+ "_project-read-role".
Definition ask_web : AuthRequest :=
  mkAuthRequest [("X-Forwarded-Uri", "/v2/projects/web/clusters"); ("Authorization", "Bearer " +:+ acme_reader)] "/resolveproject".
Definition resolver (r : AuthRequest) : M Answer :=
  NewProjectResolverHandler (H0 := router_client sample_handler) sample_keys tm_base 0%Z r.

Lemma resolver_isolation_witness : ∃ a w', resolver ask_web world1 = (inr a, w') ∧ an_Status a = StatusOK ∧
  an_Header a = [("Activeprojectid", uuid_String (Project_ID acme_web))] ∧
  ∃ p, an_Header a = [("Activeprojectid", uuid_String (Project_ID p))] ∧
    granted sample_validate ("Bearer " +:+ acme_reader) "web" db1 world1 p.
Proof.
  succeeds (resolver_isolation sample_handler tm_base sample_validate sample_keys 0%Z ask_web db1 0 eq_refl db1_wf)
    as (a & w' & Hm & _ & _ & a' & [= <-] & Ha).
  exists a, w'. split; [exact Hm|].
  assert ((resolver ask_web world1).1 = inr (mkAnswer StatusOK [("Activeprojectid", uuid_String (Project_ID acme_web))] "")) as Hval
    by (vm_compute; reflexivity).
  assert (a = mkAnswer StatusOK [("Activeprojectid", uuid_String (Project_ID acme_web))] "") as ->.
  { unfold resolver, world1 in Hval. rewrite Hm in Hval. by injection Hval. }
  split; [reflexivity|]. split; [reflexivity|].
  change (StatusOK = StatusNotFound ∨ StatusOK = StatusOK ∧ ∃ p,
    [("Activeprojectid", uuid_String (Project_ID acme_web))] = [("Activeprojectid", uuid_String (Project_ID p))] ∧
    granted sample_validate ("Bearer " +:+ acme_reader) "web" db1 world1 p) in Ha.
  destruct Ha as [Ha|[_ Ha]]; [discriminate Ha|exact Ha].
Defined.

(** ** Vault *)

(** ** The servers *)

Definition unavailable : error := errText "503 Service Unavailable".
Definition mount_in_use (path : string) : error := errText ("path is already in use at " +:+ path).
Definition mem_mount (table : gmap string MountInput) (path : string) (v v' : Vault) : option error * Vault :=
  match table !! path with Some _ => (Some (mount_in_use path), v) | None => (None, v') end.

Section mem.
Context (up : nat) (root : string) (pods : list (string * string)).

Definition mem_Init (rq : InitRequest) (v : Vault) : (error + InitResponse) * Vault :=
  if (ir_SecretShares rq <? 0)%Z then (inl (errText "invalid shares"), v) else
  match vt_init v with
  | Some _ => (inl (errText "Vault is already initialized"), v)
  | None => let resp := mkInitResponse (replicate (Z.to_nat (ir_SecretShares rq)) "key") root in
            (inr resp, initialised rq resp v)
  end.
Definition MemSecrets : SecretsLib := {|
  vault_NewClient := λ _, None;
  vault_SetAddress := λ _, None;
  vault_InitStatus := λ t _ v, if (t <? up)%nat then inl unavailable else inr (bool_decide (is_Some (vt_init v)));
  vault_Init := λ _ _ rq v, mem_Init rq v;
  vault_Unseal := λ t c _ v, if (t <? up)%nat then (inl unavailable, v) else (inr false, unsealed (vc_addr c) v);
  vault_RevokeSelf := λ _ c v, (None, revoked (vc_token c) v);
  vault_EnableAuth := λ _ _ path i v, mem_mount (vt_auths v) path v (with_auth path i v);
  vault_Mount := λ _ _ path i v, mem_mount (vt_mounts v) path v (with_mount path i v);
  vault_PutPolicy := λ _ _ name rules v, (None, with_policy name rules v);
  vault_Write := λ _ _ path data v, (None, with_data path data v);
  kube_Create := λ t k d ks,
    if (t <? up)%nat then (Some unavailable, ks) else
    match ks !! k with Some _ => (Some (errText "secrets already exists"), ks) | None => (None, <[k := d]> ks) end;
  kube_Get := λ _ k ks, match ks !! k with Some d => inr d | None => inl (errText "secrets not found") end;
  kube_Delete := λ _ k ks, (None, delete k ks);
  kube_env := λ _ ks, ks;
  kube_Replicas := λ _ _ _, inr (Some 2%Z);
  kube_Pods := λ _ _, inr pods;
  http_NewRequest := λ _, None;
  http_Get := λ t _, if (t <? up)%nat then Some unavailable else None;
  ctx_Err := λ _, None;
  json_Encode := λ resp, inr (ir_RootToken resp);
  json_Parse := λ text, inr (JObj [("root_token", JStr text)]);
  json_type_error := errText "json: cannot unmarshal" |}.
#[local] Existing Instance MemSecrets.

Lemma does_done {E S} (s s' : S) : does (E:=E) None s s' s'.
Proof. split; [by right|done]. Qed.
Lemma MemSecrets_vault : root ≠ "" → VaultLaws.
Proof.
  intros Hroot. split; simpl.
  - intros t c v b. by case_match; intros [= <-].
  - intros t c rq v r v'. unfold mem_Init. destruct (Z.ltb_spec (ir_SecretShares rq) 0) as [|Hpos].
    { intros [= <- <-]. split; [by left|done]. }
    destruct (vt_init v) eqn:Hi; intros [= <- <-]; [split; [by left|done]|].
    split; [right; split; [done|by eexists]|]. intros resp [= <-]. split_and!; [done|done| |done].
    simpl. rewrite length_replicate. lia.
  - intros t c key v r v'. case_match; intros [= <- <-]; [split; [by left|done]|]. split; [by right|done].
  - intros t c v r v' [= <- <-]. apply does_done.
  - intros t c path i v r v'. unfold mem_mount. destruct (vt_auths v !! path) eqn:Hp; intros [= <- <-].
    + split; [split; [by left|done]|]. intros e [= <-] _. eauto.
    + split; [apply does_done|done].
  - intros t c path i v r v'. unfold mem_mount. destruct (vt_mounts v !! path) eqn:Hp; intros [= <- <-].
    + split; [split; [by left|done]|]. intros e [= <-] _. eauto.
    + split; [apply does_done|done].
  - intros t c name rules v r v' [= <- <-]. apply does_done.
  - intros t c path data v r v' [= <- <-]. apply does_done.
Qed.
Lemma MemSecrets_kube : KubeLaws.
Proof.
  split; simpl.
  - intros t k d ks r ks'. case_match; [intros [= <- <-]; split; [by left|done]|].
    destruct (ks !! k) eqn:Hk; intros [= <- <-]; split; auto. done.
  - intros t k ks d. by case_match; intros [= <-].
  - intros t k ks r ks' [= <- <-]. apply does_done.
  - done.
Qed.
Lemma MemSecrets_encode : EncodeLaw.
Proof. intros resp. exists (ir_RootToken resp), [("root_token", JStr (ir_RootToken resp))]. done. Qed.
Lemma MemSecrets_recovers : Recovers up.
Proof.
  split; simpl.
  - intros t _ v ->%Nat.ltb_ge. eauto.
  - intros t c _ v ->%Nat.ltb_ge. simpl. eauto.
  - intros t k d ks ->%Nat.ltb_ge ->. done.
  - intros t k ks d _ ->. eauto.
  - by intros t _ ->%Nat.ltb_ge.
Qed.
Lemma MemSecrets_sole : sole_creator.
Proof.
  split; [done|]. simpl. intros t d ks e ks'. case_match; [by intros [= _ <-]|].
  by case_match; intros [= _ <-].
Qed.
End mem.

(** ** The theorems *)

#[local] Instance SampleLib : SecretsLib := MemSecrets 12 "s.root" [("vault-0", "10.0.0.2"); ("vault-agent-x", "10.0.0.9"); ("vault-1", "10.0.0.3")].
#[local] Instance SampleLib_vault : VaultLaws.
Proof. by apply MemSecrets_vault. Qed.
#[local] Instance SampleLib_kube : KubeLaws := MemSecrets_kube _ _ _.
#[local] Instance SampleLib_encode : EncodeLaw := MemSecrets_encode _ _ _.
#[local] Instance SampleLib_background : Background.
Proof. done. Qed.

Definition settings (autoInit : bool) : SecretsConfig :=
  mkSecretsConfig autoInit false "1h" "http://platform-keycloak" "http://platform-keycloak/realms/master" "1h".
Definition svc1 (autoInit : bool) : VaultService :=
  mkVaultService ["http://10.0.0.2:8200"; "http://10.0.0.3:8200"] (settings autoInit).
Definition empty_vault : Vault := mkVault None [] [] ∅ ∅ ∅ ∅.
Definition start (ks : KubeSecrets) : SWorld := mkSWorld 0 (mkVClient "http://10.0.0.2:8200" "") empty_vault ks.
Lemma svc1_addrs b : good_addrs (svc1 b).
Proof. by split. Qed.

(** Everything waits for call 12, then Vault is initialised and set up. *)
Definition configure_all : option ((error + ()) * SWorld) :=
  Configure (H0:=Vault_provider 13 (svc1 true)) 13 (vs_config (svc1 true)) (start ∅).
Lemma sample_secret_comes ks : secret_comes (svc1 true) 12 (start ks).
Proof. by intros [=]. Qed.
(** A secret vault-keys left over from an earlier installation. *)
Definition stale : KubeSecrets := {[vault_keys := {["vault-keys" := "old"]}]}.

(** [main]: the addresses are those of the two pods; a manual initialisation ends with the
    token revoked and the secret gone. *)
Definition manual (proxy : IstioProxy) : option ((error + ()) * SWorld) :=
  secrets_main 13 (settings false)
    (mkSWorld 0 (mkVClient "" "") (initialised (mkInitRequest 0 0 1 1) (mkInitResponse ["key"] "s.root") empty_vault)
       {[vault_keys := {["vault-keys" := "s.root"]}]}).
Example main_manual : (λ x, (sw_client x.2, vt_revoked (sw_vault x.2), size (sw_kube x.2))) <$> manual {| istio_Dial := None; istio_Quit := None |} =
  Some (mkVClient "http://10.0.0.2:8200" "s.root", ["s.root"], 0%nat).
Proof. vm_compute. reflexivity. Qed.
(** A proxy that accepts the connection and not the request: a panic, and exit code 0. *)
Example main_proxy_panics : (λ x, (x.1, exit_code x.1)) <$>
    manual {| istio_Dial := None; istio_Quit := Some (errText "context deadline exceeded") |} =
  Some (inl nil_panic, 0%Z).
Proof. vm_compute. reflexivity. Qed.
