(* ===== verification/WitnessCert.v ===== *)
(** * The certificate synchronizer at work

    The services of AWS in memory, and the theorems on the certificate synchronizer
    instantiated on them. *)

From S2P Require Import Prelude GoStd Monad EntSchema EntQuery EntMutation Config Http Logic EntSpec.
From S2P Require Import CertBase CertFiles CertACM CertDNS CertServer CertFilesSpec CertKeeps CertACMSpec CertDNSSpec.
From Stdlib Require Import Ascii.

(** ** The services *)

Definition no_such : error := errText "no such resource".
Definition mem_tags (l : list ACMCert) (arn : string) : error + list (string * string) :=
  match List.find (λ c, bool_decide (ac_Arn c = arn)) l with Some c => inr (ac_Tags c) | None => inl no_such end.
Definition mem_import (t : nat) (i : ImportCertificateInput) (l : list ACMCert) : (error + string) * list ACMCert :=
  let a := default ("arn:" +:+ itoa t) (ii_CertificateArn i) in
  match ii_CertificateArn i with
  | Some _ => if decide (a ∈ arns l) then (inr a, on_cert a (reimported i) l) else (inl no_such, l)
  | None => if decide (a ∈ arns l) then (inl no_such, l) else (inr a, l ++ [new_cert a i])
  end.
Definition mem_create_zone (t : nat) (i : CreateZoneInput) (l : list Zone) : (error + string) * list Zone :=
  let id := "Z" +:+ itoa t in
  if decide (id ∈ zone_ids l) then (inl no_such, l) else (inr id, l ++ [new_zone id i []]).
Definition mem_records (id : string) (l : list Zone) : list RecordSet :=
  match List.find (λ z, bool_decide (hz_Id z = id)) l with Some z => hz_Records z | None => [] end.
Definition mem_allowed (a : ChangeAction) (r : RecordSet) (l : list RecordSet) : bool :=
  match a with
  | ChangeCreate => bool_decide (rs_key r ∉ rs_key <$> l)
  | ChangeUpsert => true
  | ChangeDelete => bool_decide (normal r ∈ l)
  end.
Definition mem_change (id : string) (a : ChangeAction) (r : RecordSet) (l : list Zone) : option error * list Zone :=
  if bool_decide (id ∈ zone_ids l) && mem_allowed a r (mem_records id l)
  then (None, on_zone id (apply_change a r) l) else (Some (errText "InvalidChangeBatch"), l).

Section mem.
Context (getenv : string → string) (stat : nat → string → StatResult) (file : string → string).

Definition MemCloud : Cloud := {|
  os_Getenv := getenv; fs_Stat := stat; fs_ReadFile := λ _ path, (file path, None);
  time_Now := λ t, Z.of_nat t; http_Get := λ _ _, inr "root";
  aws_LoadDefaultConfig := λ _ _, None;
  acm_Pages := λ _ _ l, [inr (arns l)];
  acm_Describe := λ _ _ _ arn, inr (mkDetail (Some 1000000000000000000%Z) (Some "example.com") (Some arn));
  acm_ListTags := λ _ _ l arn, mem_tags l arn;
  acm_Import := λ _ t i l, mem_import t i l;
  acm_AddTags := λ _ _ a tags l, (None, on_cert a (add_tags tags) l);
  acm_Delete := λ _ _ a l, (None, filter (λ c, ac_Arn c ≠ a) l);
  r53_ListZones := λ _ _ _ l, inr l;
  r53_CreateZone := λ _ t i l, mem_create_zone t i l;
  r53_ListRecords := λ _ _ id _ _ l, inr (mem_records id l);
  r53_Change := λ _ _ id a r l, mem_change id a r l;
  kube_Client := λ _, None;
  kube_Apply := λ _ k d ks, (None, <[k := d]> ks);
  dns_validate := λ _ fqdn type value,
    if bool_decide (fqdn = "" ∨ type = "" ∨ value = "") then Some (errText "required") else None |}.

#[export] Instance mem_acm_laws : ACMLaws (H := MemCloud).
Proof.
  split.
  - intros cfg t l arn tags. simpl. unfold mem_tags. destruct (List.find _ _) as [c|] eqn:Hf; [|done].
    intros [= <-]. apply List.find_some in Hf as [Hin%list_elem_of_In Ha%bool_decide_eq_true_1]. eauto.
  - intros cfg t i a l r l' Hi. simpl. unfold mem_import. rewrite Hi. simpl. case_decide; intros [= <- <-]; eauto.
  - intros cfg t i l r l' Hi. simpl. unfold mem_import. rewrite Hi. simpl. case_decide; intros [= <- <-]; eauto 7.
  - intros cfg t a tags l r l'. simpl. intros [= <- <-]. by left.
  - intros cfg t a l r l'. simpl. intros [= <- <-]. by left.
Qed.
#[export] Instance mem_route53_laws : Route53Laws (H := MemCloud).
Proof.
  split.
  - intros cfg t d l zs [= <-] z Hz. by exists z.
  - intros cfg t i l r l'. simpl. unfold mem_create_zone. case_decide; intros [= <- <-]; eauto 8.
  - intros cfg t id a rs l r l'. simpl. unfold mem_change.
    destruct (bool_decide_reflect (id ∈ zone_ids l)); simpl; [|intros [= <- <-]; eauto].
    destruct (mem_allowed _ _ _); intros [= <- <-]; eauto.
  - done.
Qed.
End mem.

(** ** A cluster *)

Definition sample_leaf : string := "leaf" +:+ certSeparator.
Definition sample_issuer : string := String "010" "issuer" +:+ certSeparator.
Definition sample_file (path : string) : string :=
  if HasSuffix path "tls.crt" then sample_leaf +:+ sample_issuer else if HasSuffix path "tls.key" then "key" else "".
Definition sample_getenv (key : string) : string :=
  if String.eqb key "POD_FILE_UPDATE_TIMEOUT_SECS" then "1"
  else if String.eqb key "AWS_R53_DOMAIN" then "example.com" else "".
(** The certificate was renewed, the other files were not. *)
Definition sample_stat (_ : nat) (path : string) : StatResult := StatOK (if HasSuffix path "tls.crt" then 20%Z else 10%Z).
Definition sample_cloud : Cloud := MemCloud sample_getenv sample_stat sample_file.
#[export] Existing Instance sample_cloud.
#[export] Instance sample_acm_laws : ACMLaws := mem_acm_laws _ _ _.
#[export] Instance sample_route53_laws : Route53Laws := mem_route53_laws _ _ _.

Definition other_cert : ACMCert := mkACMCert "arn:1" [("Name", "someone else's")] "theirs" "theirs" None.
Definition old_cert : ACMCert := mkACMCert "arn:2" [("Name", "ACM_Certificate_Importer")] "old" "old" None.
Definition www : RecordSet := mkRecordSet "www.example.com." "A" 60%Z ["10.0.0.1"].
Definition sample_zone : Zone := mkZone "Z1" "example.com." (Some false) [www].
Definition sample_cluster : CWorld :=
  mkCW 0 (mkFileTimes 10%Z 10%Z 10%Z) [other_cert; old_cert] [sample_zone] ∅ new_writer.

Definition sample_env : envVars :=
  match (getEnvVars "1.0" sample_cluster).1 with inr env => env | inl _ => mkEnv false "" "" "" "" "" "" "" "" "" "" "" "" "" "" "" "" false false false 0%Z "" "" "" "" end.
Definition get : CRequest := mkCRequest "GET" "application/json" [("recordName", "api")] BodyReadError.
Definition post (j : JSON) : CRequest := mkCRequest "POST" "application/json" [] (BodyBytes "{...}" (Some j)).
Definition api_record : JSON := JObj [("recordName", JStr "API"); ("recordType", JStr "A"); ("recordValue", JStr "10.0.0.2")].

Lemma sample_nodup : NoDup (arns (cw_acm sample_cluster)) ∧ NoDup (zone_ids (cw_zones sample_cluster)).
Proof. split; vm_compute; repeat constructor; rewrite ?elem_of_nil, ?list_elem_of_singleton; discriminate || (intros []). Qed.

(** ** The files *)

(** The second look of two: the first kept the time of the certificate. *)
Definition first_look : CWorld := (haveCertFilesUpdated sample_env true sample_cluster).2.
Lemma staggered_update_times_out_witness :
  (haveCertFilesUpdated sample_env true sample_cluster).1 = inr false ∧
  ∃ r w' n, wait_for_files sample_env first_look = (r, w') ∧ told n first_look w' ∧
    (r = inl nil_pointer ∨ r = inr () ∧ (podFileUpdateSleepTimeout sample_env < 200 * Z.of_nat n)%Z).
Proof.
  split; [vm_compute; reflexivity|].
  apply (staggered_update_times_out sample_env sample_cluster false first_look first_look 20%Z).
  - vm_compute. discriminate.
  - vm_compute. discriminate.
  - intros t _. vm_compute. reflexivity.
  - vm_compute. reflexivity.
  - reflexivity.
  - reflexivity.
Defined.
Lemma readCertFiles_splits_witness : ∃ w', readCertFiles sample_env sample_cluster =
  (inr (mkChain sample_leaf "key" sample_issuer (sample_leaf +:+ sample_issuer +:+ rootCert sample_env)
          (sample_issuer +:+ rootCert sample_env), None), w').
Proof.
  refine (proj1 (readCertFiles_splits sample_env sample_leaf sample_issuer sample_issuer sample_cluster _ _ _) EmptyString _ _).
  - exists "leaf". split; vm_compute; reflexivity.
  - vm_compute. reflexivity.
  - left. vm_compute. reflexivity.
  - exists (String "010" "issuer"). split; vm_compute; reflexivity.
  - vm_compute. reflexivity.
Defined.

(** ** The certificates *)

#[local] Instance SampleMux : ServeMuxLib.
Proof. refine (Build_ServeMuxLib 307%Z "Temporary Redirect" _ (λ path _, cleanPath path)). right. by left. Defined.
(** The debug build; the library checks nothing that these requests need. *)
#[local] Instance SampleDebug : DebugBuild := {|
  DEBUG := true;
  validate_debugParams := λ reply _, if String.eqb reply "" then Some (errText "reply: cannot be blank.") else None;
  validate_delay := λ n, if (n <? 0)%Z || (120 <? n)%Z then Some (errText "delay: must be 120 or less") else None;
  uuid_NewString := λ _, "6ba7b810" |}.
Definition debug_get (reply delay : string) : option (Z * string) := wr_Sent (cw_out (ServeHTTP sample_env "/debugv1"
  (mkCRequest "GET" "text/html" [("Reply", reply); ("delay", delay)] (BodyBytes "" None)) sample_cluster).2).
Example debug_replies : (fst <$> debug_get "401" "", fst <$> debug_get "503" "120", fst <$> debug_get "503" "121",
    fst <$> debug_get "999" "0", fst <$> debug_get "" "5", fst <$> debug_get "200" "9223372037") =
  (Some 401, Some 503, Some 400, Some 400, Some 400, Some 400)%Z.
Proof. vm_compute. reflexivity. Qed.

Definition some_requests : list (string * CRequest) :=
  [("/forceupdatecert", post JNull); ("/creatednsrecord", post api_record); ("/forcedeletecert", post JNull)].
Definition sample_run : (error + (error + envVars)) * CWorld := Run None "1.0" some_requests sample_cluster.
Lemma Run_confined_witness : cw_acm sample_run.2 = [other_cert] ∧ length (cw_zones sample_run.2) = 1%nat ∧
  confined_to "ACM_Certificate_Importer" (cw_acm sample_cluster) (cw_acm sample_run.2).
Proof.
  split; [vm_compute; reflexivity|]. split; [vm_compute; reflexivity|].
  apply (Run_confined None "1.0" some_requests sample_cluster sample_env sample_run.2); [apply sample_nodup|].
  vm_compute. reflexivity.
Defined.

Definition forced : CWorld := (UpdateCertWithoutChecks sample_env (post JNull) sample_cluster).2.

(** ** The records *)

Definition asked : list (string * string) :=
  asked_keys sample_env (ToLower (cq_Accept (post api_record))) query_create (post api_record) sample_cluster.
Definition create (j : JSON) : CWorld := (HTTPCreateDNSRecord sample_env (post j) sample_cluster).2.
Lemma dns_handlers_confined_witness :
  asked = [("api.example.com.", "A")] ∧ kept asked (cw_zones sample_cluster) (cw_zones (create api_record)).
Proof.
  split; [vm_compute; reflexivity|]. unfold asked, create.
  exact (proj1 (dns_handlers_confined sample_env (post api_record) sample_cluster (proj2 sample_nodup))).
Defined.
Definition api_params : DNSRecordParams := mkDNS "" "" "" false "A" "API" "10.0.0.2" "".
Lemma create_single_spec_witness :
  (hz_Records <$> cw_zones (create api_record)) = [[www; mkRecordSet "api.example.com." "A" 300%Z ["10.0.0.2"]]] ∧
  present (sanitizeDNSRecord sample_env api_params) (cw_zones (create api_record)).
Proof.
  split; [vm_compute; reflexivity|].
  refine (proj2 (proj2 (create_single_spec sample_env (post api_record) "{...}" api_record api_params sample_cluster
    (inr ()) (create api_record) JSON_CONTENT StatusOK (proj2 sample_nodup) _ _ _ _ _ _ _) _)).
  all: try (vm_compute; reflexivity). discriminate.
Defined.
Lemma some_requests_never_work_witness :
  refused_at_once (HTTPCreateDNSRecord sample_env get) sample_cluster ∧
  refused_at_once (HTTPCreateDNSRecord sample_env (post (JArr [api_record]))) sample_cluster.
Proof.
  split.
  - refine (proj1 (some_requests_never_work sample_env get sample_cluster _ _)); [reflexivity|left; reflexivity].
  - refine (proj1 (some_requests_never_work sample_env (post (JArr [api_record])) sample_cluster _ _)); [reflexivity|].
    right. split; [reflexivity|]. exists "{...}", api_record. split; [discriminate|reflexivity].
Defined.
(** Two records in an array do work. *)
Example create_many : (length (mem_records "Z1" (cw_zones (create (JArr [api_record; JObj [("recordName", JStr "b"); ("recordType", JStr "A"); ("recordValue", JStr "10.0.0.3")]])))) = 3)%nat.
Proof. vm_compute. reflexivity. Qed.

(** A value with markup comes back escaped. *)
Definition evil : CRequest := mkCRequest "POST" "text/html" [] (BodyBytes "{...}" (Some (JObj
  [("recordName", JStr "<script>"); ("recordType", JStr "A"); ("recordValue", JStr "10.0.0.2")]))).
Definition body_of (path : string) (r : CRequest) : string := wr_Body (cw_out (ServeHTTP sample_env path r sample_cluster).2).
Lemma answers_markup_free_witness : mux "/creatednsrecord" = Some EpCreateDNS ∧
  all_chars no_tag (body_of "/creatednsrecord" evil) = true ∧
  body_of "//debug" get = "<a href=" +:+ dquote +:+ "/debug" +:+ dquote +:+ ">Temporary Redirect</a>." +:+
    String "010" (String "010" "") ∧ all_chars no_tag (body_of "//debug" (post JNull)) = true.
Proof.
  assert (∀ path r, (if handled path r then mux path ∉ [Some EpDebug; Some EpGetDebug] → all_chars no_tag (body_of path r) = true
    else body_of path r = "" ∨ cq_Method r = "GET" ∧ cleanPath path ≠ path ∧ ∃ url, all_chars no_tag url = true ∧
      body_of path r = "<a href=" +:+ dquote +:+ url +:+ dquote +:+ ">" +:+ redirect_Text +:+ "</a>." +:+ String "010" (String "010" "")))
    as Hall by (intros path r; exact (answers_markup_free sample_env path r sample_cluster)).
  split_and!.
  - vm_compute. reflexivity.
  - pose proof (Hall "/creatednsrecord" evil) as H1. clear Hall.
    assert (handled "/creatednsrecord" evil = true) as Hh by (vm_compute; reflexivity). rewrite Hh in H1.
    assert (mux "/creatednsrecord" = Some EpCreateDNS) as Hmux by (vm_compute; reflexivity). rewrite Hmux in H1.
    apply H1. intros Hin. repeat (apply elem_of_cons in Hin as [[=]|Hin]). exact (proj1 (elem_of_nil _) Hin).
  - vm_compute. reflexivity.
  - pose proof (Hall "//debug" (post JNull)) as H1. clear Hall.
    assert (handled "//debug" (post JNull) = false) as Hh by (vm_compute; reflexivity). rewrite Hh in H1.
    destruct H1 as [H1|(Hm & _)]; [rewrite H1; reflexivity|discriminate Hm].
Defined.
