(* ===== verification/WitnessProcess.v ===== *)
(** * The processes at work, one instance and several

    One run of [tenancy_main] from the empty database: the default org and project, a request
    to delete the org, a round of the cleanup that removes it for good, a new org; and the
    theorem of TenancyProcessInv.v on it.  One run of [ktc_main] on the realm of
    WitnessTenant.v, and one whose secret is not there; the component status service on one
    configuration file with nested features, and examples for the secrets proxy.

    Two connections: a runtime whose other connection commits what it pleases at any call, whenever the locks and
    the unique indexes let it and the log stays exact ([admissible], a test): it satisfies
    [SharedLog].  The theorem on the log of several instances (TenancyProcessInv.v) for a request
    that deletes an org while the other connection deletes one of its projects.

    Then what goes wrong: [CreateProject] and [DeleteOrg] keep active projects under active orgs
    when they run one after the other (StoreInv.v).  Side by side they do not: nothing the one
    locks or updates is read again by the other.  The two runs are those of the sample deployment,
    with the deletion by another connection committed just before the [k]-th call of the
    creation. *)

From S2P Require Import Prelude GoStd Monad EntSchema Sqlgraph EntQuery EntMutation Config Status.
From S2P Require Import Store Memdb Backend Http Logic EntSpec Wf EntLoad StoreOrg StoreProject.
From S2P Require Import StoreDelete StoreInv StoreLog Auth Api AuthSpec TenancyProcess.
From S2P Require Import TenancyProcessInv Keycloak KeycloakSpec KeycloakDelete KtcProcess.
From S2P Require Import KtcProcessSpec AuthService SideServers ComponentStatus ComponentStatusSpec.
From S2P Require Import Sample WitnessTenant.

Definition run_flags : MainFlags := mkMainFlags "config.yaml" "postgres://flag" "".
Definition run_env (key : string) : string := if String.eqb key "DATABASE_URL" then "postgres://env" else "".
Definition run_yaml (_ : string) (c : Config) : error + Config :=
  inr (mkConfig (DatabaseURL c) (ListenAddr c) (Controllers c) (EventRetention c) (CleanupInterval c) "acme" "web" "").
Definition run_new (_ : string) : error + (string → error + MapClaims) := inl (errText "no issuer").
Definition run_activities : list Activity :=
  [ServeRequest (request MethodDelete "/v1/orgs/acme" "" [] BodyEOF); CleanupTick;
   ServeRequest (request MethodPut "/v1/orgs/beta" "" [] (BodyJSON (JObj [("description", JStr "x")])))].
Definition run : M () := tenancy_main run_env (λ _, inr "yaml") run_yaml run_new run_flags run_activities.

(** The environment's URL goes before the flag's and the file's. *)
Example run_settings : DatabaseURL (main_config run_env (λ _, inr "yaml") run_yaml run_flags) = "postgres://env".
Proof. reflexivity. Qed.

Lemma tenancy_main_inv_witness : ∃ w', run (mkWorld empty_db None 0) = (inr (), w') ∧ w_tx w' = None ∧ tenants (w_db w') ∧
  (Org_Name <$> t_orgs (w_db w')) = ["beta"] ∧ length (t_events (w_db w')) = 5%nat.
Proof.
  destruct (tenancy_main_inv run_env (λ _, inr "yaml") run_yaml run_new run_flags run_activities empty_db 0) as [He Hwp].
  succeeds (Hwp He) as (r & w' & Hm & Htx & Ht). destruct r. exists w'. split; [exact Hm|]. split; [exact Htx|].
  split; [exact Ht|]. assert (w' = (run (mkWorld empty_db None 0)).2) as -> by exact (eq_sym (f_equal snd Hm)).
  split; vm_compute; reflexivity.
Defined.

(** ** The Keycloak controller *)

Definition ktc_secret : list (string * JSON) :=
  [("data", JObj [("client_id", JStr "ktc"); ("client_secret", JStr "s3cret")])].
Definition ktc_vault (secret : option (list (string * JSON))) : VaultLib := {|
  vault_NewClient := λ _, None;
  k8s_NewKubernetesAuth := λ _, None;
  vault_Login := λ _, inr true;
  vault_Read := λ _ _, inr secret;
  vault_RevokeSelf := λ _, Some (errText "permission denied");
  gocloaksession_NewSession := λ _ _ _ _, inr MemGocloak;
  parse_JSON := λ text, if String.eqb text "org" then
    Some (JObj [("<org-id>_Project-Manager-Group", JArr [JStr "<org-id>_project-read-role"; JStr "<org-id>_project-write-role"])])
    else None;
  url_ParseRequestURI := λ _, inr ("http", "tenancy-manager.orch-iam:8080");
  tenancy_NewPoller := λ _ _, None |}.
Definition ktc_env (key : string) : string := if String.eqb key "KEYCLOAK_ORG_GROUPS" then "org" else "".
Definition ktc_start : Ktc := mkKtc [] "" "" kworld1.
Definition ktc_events : list Event := [mkEvent "created" "org" (u 1) "acme" None; mkEvent "deleted" "org" (u 2) "beta" None].

(** The session is closed when the secret is missing. *)
Lemma secrets_init_spec_witness : ∃ e w', @secrets_init (ktc_vault None) ktc_env ktc_start = (inl e, w') ∧
  kt_calls w' = [CallLogin DefaultVaultURL "orch-svc"; CallRead "/secret/data/ktc-m2m-client-secret"; CallRevokeSelf].
Proof.
  fails (@secrets_init_spec (ktc_vault None) ktc_env ktc_start) as (e & w' & Hm & calls & Hc & Hs & _).
  exists e, w'. split; [exact Hm|]. rewrite Hc. destruct Hs as [->|[[_ Hs]|[-> _]]]; [|by destruct Hs|done].
  apply (f_equal (λ rw, length (kt_calls rw.2))) in Hm. simpl in Hm. rewrite Hc in Hm. by vm_compute in Hm.
Defined.

(** The new org gets its roles, the other one loses its own. *)
Lemma ktc_main_confined_witness : ∃ w', @ktc_main (ktc_vault (Some ktc_secret)) _ ktc_env "info" ktc_events ktc_start = (inr (), w') ∧
  followed (@client_config (ktc_vault (Some ktc_secret)) ktc_env) ktc_events realm1 (k_realm (kt_kworld w')) ∧
  "org-read-role" ∈ rl_roles (k_realm (kt_kworld w')) ∧
  (uuid_String (u 1) +:+ "_project-write-role") ∈ rl_roles (k_realm (kt_kworld w')) ∧
  (uuid_String (u 2) +:+ "_project-read-role") ∉ rl_roles (k_realm (kt_kworld w')).
Proof.
  assert (∀ id secret realm url s,
    @gocloaksession_NewSession (ktc_vault (Some ktc_secret)) id secret realm url = inr s → @GocloakLaws s) as Hlaws.
  { intros id secret realm url s [= <-]. exact MemGocloak_laws. }
  succeeds (@ktc_main_confined _ (ktc_vault (Some ktc_secret)) Hlaws ktc_env "info" ktc_events ktc_start realm1_ids)
    as ([] & w' & Hm & Hf & _).
  exists w'. split; [exact Hm|]. split; [exact Hf|].
  assert (w' = (@ktc_main (ktc_vault (Some ktc_secret)) _ ktc_env "info" ktc_events ktc_start).2) as ->
    by exact (eq_sym (f_equal snd Hm)).
  split; [apply (fo_roles_kept _ _ _ _ Hf); [right; left|]|].
  - intros e He _. clear - He. repeat (apply elem_of_cons in He as [->|He]; [vm_compute; reflexivity|]). by apply elem_of_nil in He.
  - split; [apply (bool_decide_eq_true_1 _)|apply (bool_decide_eq_false_1 _)]; vm_compute; reflexivity.
Defined.

Definition edge_features : list (string * Feature) :=
  [("observability", mkFeature true [("alerting", mkFeature true []); ("dashboards", mkFeature false [])]);
   ("multitenancy", mkFeature false [("default-tenant", mkFeature true [])])].
Definition edge_config : StatusConfig := mkStatusConfig "1.0" (mkOrchestrator "v3.1" (Some edge_features)).
#[export] Instance edge_files : StatusFiles :=
  { status_ReadFile := λ path, if String.eqb path "/etc/component-status/config.yaml" then inr "yaml" else inl (errText "no such file");
    yaml_Config := λ _, inr edge_config }.
Lemma edge_features_ok : features_ok edge_features.
Proof.
  assert (∀ b, feature_ok (mkFeature b [])) as Hleaf by (intros b; constructor; [constructor|set_solver|set_solver]).
  split; [repeat constructor; set_solver|].
  intros kv. unfold edge_features. rewrite !elem_of_cons. intros [->|[->|?%elem_of_nil]]; [| |done]; cbn [snd];
    (constructor; [repeat constructor; set_solver|set_solver|]); intros kv';
    rewrite !elem_of_cons, elem_of_nil; naive_solver.
Qed.
#[export] Instance edge_files_laws : YAMLLaws.
Proof. split. intros data c [= <-]. exact edge_features_ok. Qed.

#[export] Instance mux_lib : ServeMuxLib.
Proof. refine (Build_ServeMuxLib 307%Z "Temporary Redirect" _ (λ path _, cleanPath path)). right. by left. Defined.
Definition no_env (_ : string) : string := "".
Lemma status_reports_features_witness :
  IsFeatureInstalled edge_config ["multitenancy"; "default-tenant"] = true ∧
  ∃ c j, Load (getEnv no_env "CONFIG_PATH" "/etc/component-status/config.yaml") = inr c ∧
    sa_Status (status_mux edge_config "/v1/orchestrator" "GET") = StatusOK ∧
    sa_Body (status_mux edge_config "/v1/orchestrator" "GET") = StatusJSON j ∧
    json_path j ["orchestrator"; "version"] = Some (JStr (or_Version (cfg_Orchestrator c))) ∧
    or_Version (cfg_Orchestrator c) ≠ "" ∧
    (∀ path, IsFeatureInstalled c path = true ↔
       json_path j ("orchestrator" :: "features" :: path ++ ["installed"]) = Some (JBool true)) ∧
    (∀ path method, method ≠ "GET" → sa_Status (status_mux edge_config path method) ∈ [StatusMethodNotAllowed; StatusNotFound; redirect_Status]).
Proof.
  split; [vm_compute; reflexivity|].
  exact (status_reports_features no_env ":8080" (status_mux edge_config) eq_refl).
Defined.

Example clean_paths : cleanPath <$> ["/"; "/healthz"; "//healthz"; "/v1/../readyz/"; "/.."; "/a/./b//"] =
  ["/"; "/healthz"; "/healthz"; "/readyz/"; "/"; "/a/b/"].
Proof. reflexivity. Qed.

(** Without its file the service does not start. *)
Example no_file : status_main (λ key, if String.eqb key "CONFIG_PATH" then "/tmp/x" else "") =
  inl (Errorf "failed to read config file: " (errText "no such file")).
Proof. reflexivity. Qed.

(** The proxy: a value, a binary secret, no name. *)
#[local] Instance two_secrets : SecretsManager :=
  {| sm_GetSecretValue := λ name, if String.eqb name "db" then inr (Some "hunter2") else inr None |}.
Example proxy_answers : an_Status <$> (NewProxyAWSHandler <$> ["db"; "key"; ""]) = [200; 404; 400]%Z.
Proof. reflexivity. Qed.

(** ** Two connections *)

Definition deleting_env (k t : nat) (db : DB) : DB :=
  if (t =? k)%nat then w_db (DeleteOrg "beta" (mkWorld db None 100)).2 else db.
Definition deleting_runtime (k : nat) : Runtime :=
  {| rt_now := @rt_now MemRuntime; rt_uuid := @rt_uuid MemRuntime; rt_env := λ t _, deleting_env k t |}.
Definition creation (k : nat) : (error + (ProjectNode * Org)) * World :=
  @CreateProject _ (deleting_runtime k) _ _ "beta" "db" "x" (mkWorld db1 None 0).

(** [tenant_inv], computed. *)
Definition under_active_org (db : DB) (p : Project) : bool :=
  negb (is_nil (Project_DeletedAt p)) ||
  match project_org db p with Some o => is_nil (Org_DeletedAt o) | None => false end.
Lemma tenant_inv_tested db : tenant_inv db ↔ forallb (under_active_org db) (t_projects db) = true.
Proof.
  rewrite forallb_forall. unfold tenant_inv, under_active_org. split.
  - intros Ht p Hin%list_elem_of_In. destruct (Project_DeletedAt p) eqn:Hd; [done|].
    destruct (Ht p Hin Hd) as (o & -> & Ho). by rewrite Ho.
  - intros Hf p Hin%list_elem_of_In Hd. specialize (Hf p Hin). rewrite Hd in Hf. simpl in Hf.
    destruct (project_org db p) as [o|]; [|done]. exists o. by destruct (Org_DeletedAt o).
Qed.

(** From the call after the one that finds the org up to the insertion of the event, a deletion of the org by
    another connection goes unnoticed: both succeed, and an active project is left under a
    deleted org, which no later request deletes with its org. *)
Theorem project_under_deleted_org k : (2 ≤ k ≤ 8)%nat →
  tenant_inv db1 ∧ (∃ n o, (creation k).1 = inr (n, o)) ∧ db_wf (w_db (creation k).2) ∧
  ¬ tenant_inv (w_db (creation k).2).
Proof.
  intros Hk. rewrite !tenant_inv_tested. split; [vm_compute; reflexivity|].
  assert (Forall (λ k, is_inr (creation k).1 && db_wf_test (w_db (creation k).2) &&
    negb (forallb (under_active_org (w_db (creation k).2)) (t_projects (w_db (creation k).2))) = true) (seq 2 7)) as Hall.
  { cbn [seq]. repeat (apply Forall_cons; split; [vm_compute; reflexivity|]). by apply Forall_nil. }
  rewrite Forall_forall in Hall. specialize (Hall k ltac:(apply elem_of_seq; lia)).
  apply andb_true_iff in Hall as [[Hr Hwf]%andb_true_iff Hn%negb_true_iff].
  split; [destruct (creation k).1 as [|[n o]]; [done|by eexists _, _]|].
  split; [by apply db_wf_tested|by rewrite Hn].
Qed.

Definition same_ids (l k : list UUID) : bool := bool_decide (l ≡ₚ k).
Definition keys_test (db : DB) : bool := nodup (Org_ID <$> t_orgs db) && nodup (Project_ID <$> t_projects db).
Definition log_test (db : DB) : bool :=
  forallb (λ k, same_ids (said k (t_events db)) (due k db)) [OrgCreated; OrgDeleted; ProjectCreated; ProjectDeleted] && keys_test db.
Definition locked_test {R} `{EqDecision R} (rows : DB → list R) (effs : list (DB → DB)) (db db' : DB) : bool :=
  forallb (λ r, bool_decide (r ∈ rows (apply_effects effs db)) || bool_decide (r ∈ rows db')) (rows db).
Definition admissible (tx : option (list (DB → DB))) (db db' : DB) : bool :=
  log_test db' && match tx with
                  | None => true
                  | Some effs => locked_test t_orgs effs db db' && locked_test t_projects effs db db' && keys_test (apply_effects effs db')
                  end.

Lemma keys_tested db : keys_test db = true → keys_ok db.
Proof. unfold keys_test, nodup. intros [Ho Hp]%andb_true_iff. by bools. Qed.
Lemma log_tested db : log_test db = true → log_ok db.
Proof.
  unfold log_test. intros [Hk Hd]%andb_true_iff. split; [|by apply keys_tested]. apply log_inv_due. intros k.
  rewrite forallb_forall in Hk. specialize (Hk k ltac:(destruct k; simpl; auto)). unfold same_ids in Hk. by bools.
Qed.
Lemma locked_tested {R} `{EqDecision R} (rows : DB → list R) effs db db' : locked_test rows effs db db' = true → locked rows effs db db'.
Proof.
  unfold locked_test. rewrite forallb_forall. intros Hl r Hr%list_elem_of_In Hv. apply Hl, orb_true_iff in Hr as [Hr|Hr]; by bools.
Qed.

(** The other connection commits [f t] at the call [t] if it may. *)
Definition sharing_runtime (f : nat → DB → DB) : Runtime :=
  {| rt_now := @rt_now MemRuntime; rt_uuid := @rt_uuid MemRuntime;
     rt_env := λ t tx db, if admissible tx db (f t db) then f t db else db |}.
#[export] Instance sharing_log f : @SharedLog (sharing_runtime f).
Proof.
  split; simpl; [intros t tx db Hl|intros t effs db..].
  - unfold admissible. destruct (log_test (f t db)) eqn:Ht; [|done]. simpl. case_match; [by apply log_tested|done].
  - unfold admissible. destruct (_ && _) eqn:Ha; [|by intros r]. rewrite !andb_true_iff in Ha. apply locked_tested. tauto.
  - unfold admissible. destruct (_ && _) eqn:Ha; [|by intros r]. rewrite !andb_true_iff in Ha. apply locked_tested. tauto.
  - unfold admissible. destruct (_ && _) eqn:Ha; [|done]. rewrite !andb_true_iff in Ha. intros _. apply keys_tested. tauto.
Qed.

Definition deleting_project (k t : nat) (db : DB) : DB :=
  if (t =? k)%nat then w_db (DeleteProject "db" (Some ["acme"]) (mkWorld db None 100)).2 else db.
Definition shared_run (k : nat) : M () :=
  @tenancy_main _ (sharing_runtime (deleting_project k)) _ _ _ run_env (λ _, inr "yaml") run_yaml run_new run_flags
    (ServeRequest <$> [request MethodDelete "/v1/orgs/acme" "" [] BodyEOF]).
(** [DeleteOrg] has read the active projects when the other connection deletes one of them: its
    update of that project changes no row, and the project is announced once.  A later deletion
    by the other connection waits for this one's lock. *)
Lemma tenancy_main_log_witness : log_ok db1 ∧ ∃ w', shared_run 10 world1 = (inr (), w') ∧ w_tick w' = 19%nat ∧ log_ok (w_db w') ∧
  said ProjectDeleted (drop 9 (t_events (w_db w'))) = [u 22; u 21] ∧ said OrgDeleted (drop 9 (t_events (w_db w'))) = [u 1].
Proof.
  assert (log_ok db1) as Hl by (apply log_tested; vm_compute; reflexivity). split; [exact Hl|].
  succeeds (@tenancy_main_log _ (sharing_runtime (deleting_project 10)) _ _ _ _ _ run_env (λ _, inr "yaml") run_yaml run_new run_flags
    [request MethodDelete "/v1/orgs/acme" "" [] BodyEOF] db1 0 Hl) as ([] & w' & Hm & _ & Hw). exists w'. split; [exact Hm|].
  assert (w' = (shared_run 10 world1).2) as -> by exact (eq_sym (f_equal snd Hm)).
  split; [vm_compute; reflexivity|]. split; [exact Hw|]. split; vm_compute; reflexivity.
Defined.
